(* ===== verification/_CoqProject ===== *)
-Q . S2P
Prelude.v
CMem.v
Malloc.v
MallocSpec.v
MallocThm.v
Common.v
Frame.v
Paging.v
PagingThm.v
PagingTmp.v
PagingMap.v
PagingRegion.v
CString.v
Sink.v
Console.v
ConsoleThm.v
Print.v
PrintThm.v
EarlyConsole.v
Early.v
Disk.v
Sched.v
Loader.v
LoaderCopy.v
LoaderSpace.v
LoaderStack.v
LoaderImage.v
LoaderProgram.v
LoaderThm.v
LoaderTask.v
LoaderInit.v
LibTest.v
Com.v
Ata.v
AtaThm.v
FatName.v
Fat.v
FatTable.v
FatFree.v
FatFile.v
FatDir.v
FatWrite.v
FatOpen.v
FatAppend.v
FatDelete.v
FatCreate.v
FatExample.v
FatTest.v
Keyboard.v
Shell.v
Isr.v
Main.v
Syscall.v
UserProgs.v
UserLive.v
Boot.v
UserHello.v
