(* ===== verification/Prelude.v ===== *)
(** * Ts_OS: a verification development of a small x86 kernel

    ** The program

    Ts_OS is a 32-bit kernel for the PC: physical frames, paging and a heap, a
    text console, tasks scheduled by the timer, a keyboard driver with a small
    shell, a serial line, a string and print library, an ATA disk driver and a
    FAT16 file system.  The parts call each other as follows.  An interrupt
    stub calls [irq_handler_entry] (kernel/isr.c), which dispatches to the
    timer (drivers/timer.c), the keyboard (drivers/keyboard.c) or the serial
    line (drivers/com.c), acknowledges the interrupt, and calls
    [cond_schedule] (kernel/task.c), which may switch tasks.  The keyboard
    driver decodes scan codes and gives key codes to the shell
    (kernel/shell.c), which edits the input line and scrolls the console
    (kernel/console.c); everything the kernel prints (lib/print.c) goes through
    [write_console_one], which draws on the text screen (kernel/vga.c).  The
    console gets its buffers from the heap (kernel/malloc.c); page tables
    (kernel/mem.c) get their frames from the frame allocator (kernel/frame.c).
    [load_task] (kernel/task.c) builds the address space of a program from its
    image with them and enters it in the task table; [main] (kernel/main.c)
    starts the components and the first program.  The programs (usr/init)
    reach the kernel by interrupt 63, whose entry [isr63]
    (boot/kernel_entry.asm) calls a routine of the system-call table
    (kernel/sys.c).
    The file system (fs/fat16.c) reads and writes the disk through
    [ata_read_sector] and [ata_write_sector] (drivers/ata.c) and keeps its open
    files on the heap.

    ** The files

    - [Prelude]: results of kernel code ([Ok], [Hang], [NoFuel]) as a monad,
      w-bit integers as [Z] with explicit wrap-around, arrays indexed by [Z],
      the tactics and hint databases shared by all files.
    - [CMem]: byte memory of the 32-bit machine, little-endian words.
    - [Malloc]: kernel/malloc.c, malloc.h on raw bytes.  [MallocSpec]: the heap
      seen as a list of tiles (address, size, free or not) and the relation
      [heap_repr] between bytes and tiles; every routine refines an operation
      on tiles.  [MallocThm]: the theorems for clients.
    - [Common]: kernel/common.c.  [Frame]: kernel/frame.c.
    - [Paging]: kernel/mem.c over physical memory with the processor's address
      translation.  [PagingThm]: the page tables of the early map.
      [EarlyConsole]: the console of the early build.  [Early]: the whole of
      [init_pg_dir0_vmap] and [init_page_settings], messages included; the
      class [EarlyImage] says where the linker put the variables.
      [PagingTmp]: temporary mappings and the walk of another directory.
      [PagingMap]: the steps of [request_region_vmap] as changes of words of
      pages; [PagingRegion]: the routine as a whole.
    - [CString]: lib/string.c over byte memory.
    - [Sched]: the task table, [schedule], [context_switch] and the assembly
      [__context_switch] of kernel/task.c and asm/process.asm, with
      drivers/timer.c.  The state is one record ([task_arr], [current], TSS,
      stack pointer and page directory of the processor, clock).
    - [Loader]: [load_task], [create_task_address_space],
      [alloc_kstack_and_task], [spawn_ram] and [init_task0] of kernel/task.c
      over the machine of [Paging] and the task table of [Sched]; structures in memory are read
      and written at their offsets.  [LoaderCopy]: copying pages of the image.
      [LoaderSpace]: the new directory.  [LoaderStack]: the kernel stack and
      the [Task] structure.  [LoaderImage], [LoaderProgram]: the sections and
      the user stack.  [LoaderThm]: the composition; the record [loadable] says
      what a load starts from, [task_space] what it leaves.  [LoaderTask]: the
      properties and an example machine.  [LoaderInit]: [init_task0], which
      makes the first kernel stack in the directory the processor uses; the
      record [startable] says what it starts from.
    - [Sink]: the interface between printing and the console, a class
      [CharSink] with the law of [put].  [Print]: lib/print.c and lib/varg.h
      for any sink.  [PrintThm]: the same on the console.  [LibTest]: the tests
      of test/test_string.c, test.c and the print tests of kernel/main.c.
    - [Console]: kernel/vga.c and kernel/console.c, for both builds of the
      sources (class [Build]); [ConsoleThm]: for the kernel build, the
      refinement of a text terminal and the instance of [CharSink].
    - [Com]: drivers/com.c.  [Keyboard]: drivers/keyboard.c, and key codes and
      the parsing of commands of kernel/shell.c.  [Shell]: the commands.
    - [Disk]: the interface between the file system and the disk, a class
      [BlockDev] of the two transfer operations with their laws over an array
      of sectors; a state and error monad with total-correctness triples; an
      instance in memory.
    - [Ata]: drivers/ata.c over a class [AtaPorts] of port accesses, and the
      PIO protocol of the ATA standard as a class [AtaProtocol] of laws.
      [AtaThm]: the driver implements [BlockDev] for every drive that follows
      the protocol; a drive that does.
    - [FatName]: the path and name routines of fs/fat16.c over byte memory.
      [Fat]: the rest of fs/fat16.c over any [BlockDev] and any [HeapPolicy],
      which says what requests [kmalloc] grants.  [FatTable]: volume
      layout, table and clusters as maps.  [FatFree]: chains, allocation and
      release.  [FatFile]: reading.  [FatDir]: directory entries.  [FatWrite]:
      writing.  [FatOpen]: searching, paths, opening and closing.
      [FatAppend]: opening for append and writing.  [FatDelete], [FatCreate]:
      deletion of a file and creation in the root directory.  [FatExample]: the
      theorems applied to a small volume, in memory and through the ATA driver.
      [FatTest]: the tests of kernel/main.c, run by evaluation.
    - [Isr]: kernel/isr.c, kernel/sys.c and the descriptors of kernel/task.c;
      ties scheduler, console, keyboard and serial line together.
    - [Main]: the start-up of kernel/main.c, composed from the components.
    - [Syscall]: the system calls from the stubs of usr/lib/lib.c through
      [isr63] to the routines of the table.
    - [UserProgs]: the programs of usr/init and the loop of task 0 as step
      machines, and the system that interleaves their steps with timer
      interrupts in any order and keeps track of the stacks on which tasks are
      saved.  [UserLive]: progress under the scheduler.
      [Boot]: the composition from [init_page_settings] to the output of init.
    - [UserHello]: usr/helloworld/helloworld.c and usr/hlt/hlt.c.

    Each C function is one definition with the function's name; a loop is a
    [Fixpoint] named after it.  C globals of a component are the fields of its
    record.  Pointers are addresses in [CMem] (heap, strings, print, paths) or
    array indices (task table, console buffers); the disk buffers of the file
    system are lists of bytes.  Port input is an argument, port output a log;
    for the disk drive both are operations of a class.

    ** What the theorems show

    - Heap: any client that only touches its own live blocks keeps the heap
      consistent, with disjoint blocks, returning calls, intact data, no leak;
      [kmalloc] is best fit and [kfree] coalesces; the kernel's [test_heap]
      passes.
    - Frames: the lowest idle frame of an aligned range is handed out, and
      frames held by users are disjoint; [test_frame] passes.
    - Paging: the early map is exactly the one intended, announced on the
      screen, and nothing else in memory changes; temporary mappings
      come and go without a trace; walking another directory agrees with the
      processor; a requested region gets distinct, zeroed, idle frames;
      [test_page] passes.
    - Loading: a program's text and data are mapped with the bytes of its image,
      its stack is zeroed, the kernel is mapped as in the parent; every page it
      can reach was idle before, and no page in use changes but the temporary
      slots and the kernel stack; the table changes as the scheduler's model
      says; after the switch the kernel's memory management works in the new
      directory; the first stack is what the context switch and the return to
      user mode expect.  [init_task0] on the whole machine refines that of the
      task table and leaves the first program running in its own directory.
    - Strings and printing: each routine computes its list-level meaning and
      writes only its buffer; [itoa]/[atoi] and hexadecimal round trips;
      [printf] renders its pieces; the library tests pass.
    - Scheduler: an invariant of all events, round robin with time slices, no
      starvation, contexts preserved, start-up, exit, clock.
    - Console: refinement of a text terminal under all events; the incremental
      update equals a redraw.
    - Keyboard, serial line, interrupts, descriptors: safety and progress of
      the scan-code machine; the serial transfer stores exactly the file;
      IDT and GDT encodings; the serial test command of the shell.
    - Start: [main] establishes the invariants of heap, console, interrupt table
      and scheduler, and every sequence of interrupts after it keeps them.
    - Programs: whatever the order of ticks and steps, the kernel's loop and a
      program beside it never lose their saved registers and never get stuck;
      unless the program writes on the console while the loop is interrupted
      inside [write_console_one], the kernel keeps its invariants and the console
      shows an interleaving of exactly what the two print; task0 prints its three
      lines and exits within 3110 rounds of the timer.  From the image of init
      in memory, paging, [main] and the loader bring up a system in which init
      prints its string.
    - Disk: the ATA driver refines an array of sectors; [ata_detect]
      identifies the drive.
    - File system: the volume layout is sound; the structs on the disk are read
      as they are declared and entries are well typed; the
      lowest free cluster is allocated; freeing a chain ends on every table and
      frees exactly the chain; a path leads to the entry of its last component;
      an open file is a stream of the bytes of its chain; writing stores
      exactly the bytes, extends the chain with free clusters and touches no
      other file; what was written is read back; opening, reading and closing,
      and opening for append and writing, compose; creating a file in the root
      directory and deleting a file change exactly what they should, and creation
      in a full root directory never returns; the kernel's file-system tests
      pass.
    - Boundary cases where the code does not do what it means to are theorems
      too: size overflow in [kmalloc], unaligned frame ranges, the stale TSS,
      the uninitialised window, commands that cannot be typed, the half-read
      identify block, the kernel stack page that all tasks share and on
      which a second program destroys the registers of the first, unchecked
      system-call numbers, an [IRQ_set_mask] that masks nothing.

    ** Bounds and fuel

    Loops over zero-terminated strings and lists in memory take fuel; the
    theorems assume only that the fuel exceeds the length of the data and show
    that the result is never [NoFuel].  The heap's loops run over the free
    list, which has at most (4 MiB / 12 + 1) regions, so 349526 rounds are
    always enough.  The frame search gets one round per bitmap byte of the
    range.  [itoa] gets 11 rounds (an [int] has at most ten digits).  The
    serial transfer needs one round per 255 bytes.  The bound of 310 ticks for
    a task's turn is 31 other tasks with ten ticks each; 3110 rounds are ten
    times 311: a turn for each of the at most eight steps of task0 and for each
    of the two tasks.  Console theorems
    assume that fewer than 2^32 characters are written, as the code counts
    them in 32 bits.  The polling loops of the disk driver need one round more
    than the drive's longest busy period.  Loops along a cluster chain get
    65536 rounds, more than there are 16-bit cluster numbers; reading and
    writing get one round per byte.  File offsets stay below 2^31, as the code
    keeps them in an [int].  Path components have fewer than 16 characters in
    the theorems about paths, as [fat16_find] copies them into an array of 16, and
    the heap grants the blocks for open files; where the code would overrun the
    array or use a NULL block, the model has no result.  The loops of the loader get one round per page of
    the section and a few more.  A load is proved for programs of page-aligned
    sections within one 4 MiB region, as usr/init/init.ld makes them, with an
    image below 16 MiB, where the kernel is mapped.

    ** What is not modelled

    The boot sector, the mode switch and the interrupt stubs other than [isr63]
    are assembly; of the assembly only [isr63] and [__context_switch] are
    modelled, because system calls and scheduler are built around them, and the
    address of [__ret_syscall] is a parameter.  [switch_to_user] is inline
    assembly that is never called.  Memory is modelled per component: the heap,
    the text screen and the strings have memories of their own, apart from the
    physical memory of paging and loading, and the instructions of the user
    programs are step machines beside the bytes of their images.  The
    translation cache and the accessed and dirty bits of page entries are left
    out.  What the console shows after two writes have mixed (a timer interrupt
    inside [write_console_one] of the kernel's loop and output of another task
    before the loop goes on) is not modelled; such runs are recognised and
    excluded.  The contents of the stacks on which tasks are saved are not part
    of the system of [UserProgs], only who used them last.  [ata_soft_reset] is modelled without
    a theorem; creation in a subdirectory and deletion of directories are
    modelled and run in the tests, but have no general theorem. *)

From stdpp Require Export base tactics numbers list list_numbers option gmap sorting.
From Stdlib Require Export ZArith Lia.

#[global] Open Scope Z_scope.

(** ** Results of kernel code

    A kernel routine either finishes with a value ([Ok]), stops the machine in
    the endless loop of [ASSERT]/[panic] ([Hang], with the message printed),
    or is cut off by the fuel that bounds the model's loops ([NoFuel]).
    Theorems about loops show that [NoFuel] does not occur. *)
Inductive res (A : Type) : Type :=
| Ok (a : A)
| Hang (msg : list Z)
| NoFuel.
Arguments Ok {A} a.
Arguments Hang {A} msg.
Arguments NoFuel {A}.

#[global] Instance res_ret : MRet res := fun A a => Ok a.
#[global] Instance res_bind : MBind res := fun A B f c =>
  match c with Ok a => f a | Hang s => Hang s | NoFuel => NoFuel end.

Lemma res_bind_ok {A B} (c : res A) (f : A -> res B) (b : B) :
  c ≫= f = Ok b <-> exists a, c = Ok a /\ f a = Ok b.
Proof.
  destruct c; simpl; split; [eauto|by intros (? & [= <-] & ?)|done|by intros (? & [=] & ?)|
    done|by intros (? & [=] & ?)].
Qed.

Lemma res_bind_Ok {A B} (a : A) (f : A -> res B) : (Ok a ≫= f) = f a.
Proof. reflexivity. Qed.

(** The values of a finished run. *)
Definition is_Ok {A} (r : res A) : bool :=
  match r with Ok _ => true | _ => false end.

(** ** Machine integers

    A [w]-bit unsigned integer is a [Z] in [0, 2^w); the C operators that can
    leave the range are followed by an explicit [wrap]. *)
Definition wrap8 (x : Z) : Z := x mod 256.
Definition wrap16 (x : Z) : Z := x mod 65536.
Definition wrap32 (x : Z) : Z := x mod 4294967296.

(** The value of a [char] / [int] whose bits are the given unsigned number. *)
Definition schar (x : Z) : Z := if x <? 128 then x else x - 256.
Definition sint (x : Z) : Z := if x <? 2147483648 then x else x - 4294967296.

Abbreviation u8 x := (0 <= x < 256).
Abbreviation u16 x := (0 <= x < 65536).
Abbreviation u32 x := (0 <= x < 4294967296).

Lemma wrap8_range x : u8 (wrap8 x).
Proof. unfold wrap8. apply Z.mod_pos_bound. lia. Qed.
Lemma wrap16_range x : u16 (wrap16 x).
Proof. unfold wrap16. apply Z.mod_pos_bound. lia. Qed.
Lemma wrap32_range x : u32 (wrap32 x).
Proof. unfold wrap32. apply Z.mod_pos_bound. lia. Qed.

Lemma wrap8_small x : u8 x -> wrap8 x = x.
Proof. apply Z.mod_small. Qed.
Lemma wrap16_small x : u16 x -> wrap16 x = x.
Proof. apply Z.mod_small. Qed.
Lemma wrap32_small x : u32 x -> wrap32 x = x.
Proof. apply Z.mod_small. Qed.

Lemma wrap8_idem x : wrap8 (wrap8 x) = wrap8 x.
Proof. apply wrap8_small, wrap8_range. Qed.
Lemma wrap32_idem x : wrap32 (wrap32 x) = wrap32 x.
Proof. apply wrap32_small, wrap32_range. Qed.
Lemma wrap32_add_l x y : wrap32 (wrap32 x + y) = wrap32 (x + y).
Proof. unfold wrap32. apply Zplus_mod_idemp_l. Qed.
Lemma wrap32_add_r x y : wrap32 (x + wrap32 y) = wrap32 (x + y).
Proof. unfold wrap32. apply Zplus_mod_idemp_r. Qed.
Lemma wrap32_sub_r x y : wrap32 (x - wrap32 y) = wrap32 (x - y).
Proof. unfold wrap32. apply Zminus_mod_idemp_r. Qed.

Create HintDb machine.
Create Rewrite HintDb machine.
Create Rewrite HintDb len.
#[export] Hint Resolve wrap8_range wrap16_range wrap32_range : machine.
#[export] Hint Rewrite wrap8_idem wrap32_idem wrap32_add_l wrap32_add_r wrap32_sub_r : machine.

(** ** Tactics *)

(** Turn every boolean comparison of the context into a proposition. *)
Ltac zb :=
  repeat match goal with
  | H : (_ && _)%bool = true |- _ => apply andb_true_iff in H as [? ?]
  | H : (_ || _)%bool = false |- _ => apply orb_false_iff in H as [? ?]
  | H : negb _ = true |- _ => apply negb_true_iff in H
  | H : negb _ = false |- _ => apply negb_false_iff in H
  | H : (_ =? _) = true |- _ => apply Z.eqb_eq in H
  | H : (_ =? _) = false |- _ => apply Z.eqb_neq in H
  | H : (_ <=? _) = true |- _ => apply Z.leb_le in H
  | H : (_ <=? _) = false |- _ => apply Z.leb_gt in H
  | H : (_ <? _) = true |- _ => apply Z.ltb_lt in H
  | H : (_ <? _) = false |- _ => apply Z.ltb_ge in H
  end.

(** Case on the condition of the first [if] of the goal. *)
Ltac case_if :=
  match goal with
  | |- context [if ?b then _ else _] =>
      let E := fresh "E" in destruct b eqn:E; zb
  end.

(** Rewrite a test whose outcome [lia] knows. *)
Ltac if_true :=
  match goal with
  | |- context [if (?x =? ?y) then _ else _] =>
      rewrite (proj2 (Z.eqb_eq x y)) by lia
  | |- context [if (?x <=? ?y) then _ else _] =>
      rewrite (proj2 (Z.leb_le x y)) by lia
  | |- context [if (?x <? ?y) then _ else _] =>
      rewrite (proj2 (Z.ltb_lt x y)) by lia
  end.
Ltac if_false :=
  match goal with
  | |- context [if (?x =? ?y) then _ else _] =>
      rewrite (proj2 (Z.eqb_neq x y)) by lia
  | |- context [if (?x <=? ?y) then _ else _] =>
      rewrite (proj2 (Z.leb_gt x y)) by lia
  | |- context [if (?x <? ?y) then _ else _] =>
      rewrite (proj2 (Z.ltb_ge x y)) by lia
  end.

(** ** Lists indexed by [Z] *)

(** [l[i]] of a C array of known contents; the default stands for the value
    read outside the array, which no theorem relies on. *)
Definition nthZ (l : list Z) (i : Z) : Z := default 0 (l !! Z.to_nat i).

(** [l[i] = x]; outside the array the model leaves the array unchanged. *)
Definition updZ {A} (l : list A) (i : Z) (x : A) : list A :=
  if i <? 0 then l else <[Z.to_nat i := x]> l.

Definition lenZ {A} (l : list A) : Z := Z.of_nat (length l).

Lemma lenZ_nonneg {A} (l : list A) : 0 <= lenZ l.
Proof. unfold lenZ. lia. Qed.
Lemma lenZ_nil {A} : lenZ (@nil A) = 0.
Proof. reflexivity. Qed.
Lemma lenZ_cons {A} (x : A) l : lenZ (x :: l) = lenZ l + 1.
Proof. unfold lenZ. simpl. lia. Qed.
Lemma lenZ_app {A} (l1 l2 : list A) : lenZ (l1 ++ l2) = lenZ l1 + lenZ l2.
Proof. unfold lenZ. rewrite length_app. lia. Qed.
#[export] Hint Rewrite @lenZ_nil @lenZ_cons @lenZ_app : len.

Lemma lenZ_updZ {A} (l : list A) i x : lenZ (updZ l i x) = lenZ l.
Proof. unfold lenZ, updZ. case_match; [done|]. by rewrite length_insert. Qed.

Lemma nthZ_updZ_eq l i x : 0 <= i < lenZ l -> nthZ (updZ l i x) i = x.
Proof.
  intros H. unfold nthZ, updZ, lenZ in *. if_false.
  rewrite list_lookup_insert_eq; [done|lia].
Qed.

Lemma nthZ_updZ_ne l i j x : 0 <= j -> i <> j -> nthZ (updZ l i x) j = nthZ l j.
Proof.
  intros Hj H. unfold nthZ, updZ. case_if; [done|].
  rewrite list_lookup_insert_ne; [done|lia].
Qed.

Lemma nthZ_ext (l1 l2 : list Z) :
  lenZ l1 = lenZ l2 -> (forall i, 0 <= i < lenZ l1 -> nthZ l1 i = nthZ l2 i) -> l1 = l2.
Proof.
  unfold lenZ, nthZ. intros Hl He. apply list_eq_same_length with (length l1); [lia|done|].
  intros i x y Hi Hx Hy. specialize (He (Z.of_nat i) ltac:(lia)).
  rewrite Nat2Z.id, Hx, Hy in He. done.
Qed.

Lemma nthZ_app_l (l1 l2 : list Z) i : i < lenZ l1 -> 0 <= i -> nthZ (l1 ++ l2) i = nthZ l1 i.
Proof. unfold nthZ, lenZ. intros. by rewrite lookup_app_l by lia. Qed.

Lemma nthZ_app_r (l1 l2 : list Z) i : lenZ l1 <= i -> nthZ (l1 ++ l2) i = nthZ l2 (i - lenZ l1).
Proof.
  unfold nthZ, lenZ. intros. rewrite lookup_app_r by lia. f_equal. f_equal. lia.
Qed.

Lemma nthZ_elem (l : list Z) i : 0 <= i < lenZ l -> nthZ l i ∈ l.
Proof.
  unfold nthZ, lenZ. intros H.
  destruct (lookup_lt_is_Some_2 l (Z.to_nat i) ltac:(lia)) as [x Hx].
  rewrite Hx. simpl. by apply list_elem_of_lookup_2 with (Z.to_nat i).
Qed.
