(* ===== verification/CMem.v ===== *)
(** * Byte-addressed memory of the 32-bit machine

    The C code of Ts_OS reads and writes raw memory through pointers.  Memory
    is a finite map from addresses to bytes (an absent byte reads as 0; no
    theorem depends on it), an address is a [Z] taken modulo 2^32, and a
    [uint16_t]/[uint32_t] is stored in little-endian order, unaligned accesses
    included, as the x86 does. *)
From S2P Require Import Prelude.

Abbreviation mem := (gmap Z Z).

Definition load8 (m : mem) (a : Z) : Z := wrap8 (default 0 (m !! wrap32 a)).
Definition store8 (m : mem) (a v : Z) : mem := <[wrap32 a := wrap8 v]> m.

Definition load16 (m : mem) (a : Z) : Z := load8 m a + 256 * load8 m (a + 1).
Definition store16 (m : mem) (a v : Z) : mem :=
  store8 (store8 m a v) (a + 1) (v / 256).

Definition load32 (m : mem) (a : Z) : Z :=
  load8 m a + 256 * load8 m (a + 1) + 65536 * load8 m (a + 2) + 16777216 * load8 m (a + 3).
Definition store32 (m : mem) (a v : Z) : mem :=
  store8 (store8 (store8 (store8 m a v) (a + 1) (v / 256)) (a + 2) (v / 65536)) (a + 3) (v / 16777216).

(** An object of [n] bytes at [a] lies inside the address space. *)
Definition fits (a n : Z) : Prop := 0 <= a /\ a + n <= 4294967296.

(** Two memories hold the same bytes on [lo, hi). *)
Definition same_on (lo hi : Z) (m m' : mem) : Prop :=
  forall a, lo <= a < hi -> load8 m' a = load8 m a.

(** Two memories hold the same bytes everywhere. *)
Definition mem_equiv (m m' : mem) : Prop := forall a, load8 m a = load8 m' a.

(** The bytes [l] are stored from [p] on. *)
Fixpoint bytes_at (m : mem) (p : Z) (l : list Z) : Prop :=
  match l with
  | [] => True
  | c :: l' => load8 m p = c /\ bytes_at m (p + 1) l'
  end.

Lemma load8_range m a : u8 (load8 m a).
Proof. apply wrap8_range. Qed.
Lemma load16_range m a : u16 (load16 m a).
Proof.
  unfold load16. pose proof (load8_range m a). pose proof (load8_range m (a + 1)). lia.
Qed.
Lemma load32_range m a : u32 (load32 m a).
Proof.
  unfold load32. pose proof (load8_range m a). pose proof (load8_range m (a + 1)).
  pose proof (load8_range m (a + 2)). pose proof (load8_range m (a + 3)). lia.
Qed.
#[export] Hint Resolve load8_range load16_range load32_range : machine.

Lemma load8_wrap m a : load8 m (wrap32 a) = load8 m a.
Proof. unfold load8. by rewrite wrap32_idem. Qed.

Lemma load8_store8 m a v b :
  load8 (store8 m a v) b = if decide (wrap32 a = wrap32 b) then wrap8 v else load8 m b.
Proof.
  unfold load8, store8. rewrite lookup_insert. case_decide; [|done]. simpl. apply wrap8_idem.
Qed.

Lemma load8_store8_eq m a v : load8 (store8 m a v) a = wrap8 v.
Proof. rewrite load8_store8. by case_decide. Qed.

Lemma load8_store8_ne m a v b : u32 a -> u32 b -> a <> b -> load8 (store8 m a v) b = load8 m b.
Proof.
  intros. rewrite load8_store8, decide_False; [done|]. rewrite !wrap32_small by lia. done.
Qed.

(** Bytes outside a store keep their value. *)
Lemma load8_store16_ne m a v b :
  fits a 2 -> u32 b -> (b < a \/ a + 2 <= b) -> load8 (store16 m a v) b = load8 m b.
Proof. unfold fits, store16. intros. rewrite !load8_store8_ne by lia. done. Qed.

Lemma load8_store32_ne m a v b :
  fits a 4 -> u32 b -> (b < a \/ a + 4 <= b) -> load8 (store32 m a v) b = load8 m b.
Proof. unfold fits, store32. intros. rewrite !load8_store8_ne by lia. done. Qed.

Lemma load8_store32_eq m a v i :
  fits a 4 -> 0 <= i < 4 -> load8 (store32 m a v) (a + i) = wrap8 (v / 256 ^ i).
Proof.
  unfold fits, store32. intros Ha Hi. rewrite !load8_store8, !wrap32_small by lia.
  assert (i = 0 \/ i = 1 \/ i = 2 \/ i = 3) as [-> | [-> | [-> | ->]]] by lia;
    repeat (rewrite decide_False by lia); rewrite decide_True by lia; simpl; try done.
  by rewrite Z.div_1_r.
Qed.

Lemma bytes4_value v :
  wrap8 v + 256 * wrap8 (v / 256) + 65536 * wrap8 (v / 65536) + 16777216 * wrap8 (v / 16777216)
  = wrap32 v.
Proof.
  unfold wrap8, wrap32.
  change 65536 with (256 * 256). change 16777216 with (256 * 256 * 256).
  change 4294967296 with (256 * 256 * 256 * 256). rewrite <- !Z.div_div by lia.
  rewrite !Z.rem_mul_r by lia. rewrite !Z.div_div by lia. ring.
Qed.

Lemma bytes2_value v : wrap8 v + 256 * wrap8 (v / 256) = wrap16 v.
Proof.
  unfold wrap8, wrap16. change 65536 with (256 * 256). rewrite Z.rem_mul_r by lia. reflexivity.
Qed.

Lemma load32_store32_eq m a v : fits a 4 -> load32 (store32 m a v) a = wrap32 v.
Proof.
  intros Ha. pose proof (load8_store32_eq m a v 0 Ha ltac:(lia)) as H0.
  rewrite Z.add_0_r, Z.div_1_r in H0. unfold load32.
  rewrite H0, !load8_store32_eq by (done || lia). apply bytes4_value.
Qed.

Lemma load16_store16_eq m a v : fits a 2 -> load16 (store16 m a v) a = wrap16 v.
Proof.
  unfold fits. intros Ha. unfold load16, store16.
  rewrite (load8_store8_ne _ (a + 1) _ a), !load8_store8_eq by lia. apply bytes2_value.
Qed.

(** A load only depends on the bytes it covers. *)
Lemma load32_same m m' a : same_on a (a + 4) m m' -> load32 m' a = load32 m a.
Proof. intros H. unfold load32. rewrite !H by lia. done. Qed.
Lemma load16_same m m' a : same_on a (a + 2) m m' -> load16 m' a = load16 m a.
Proof. intros H. unfold load16. rewrite !H by lia. done. Qed.

Lemma same_on_refl lo hi m : same_on lo hi m m.
Proof. done. Qed.
Lemma same_on_trans lo hi m1 m2 m3 :
  same_on lo hi m1 m2 -> same_on lo hi m2 m3 -> same_on lo hi m1 m3.
Proof. intros H1 H2 a Ha. by rewrite H2, H1. Qed.
Lemma same_on_mono lo hi lo' hi' m m' :
  lo <= lo' -> hi' <= hi -> same_on lo hi m m' -> same_on lo' hi' m m'.
Proof. intros ?? H a Ha. apply H. lia. Qed.

Lemma same_on_store8 lo hi m a v :
  u32 a -> fits lo (hi - lo) -> (a < lo \/ hi <= a) -> same_on lo hi m (store8 m a v).
Proof. unfold fits. intros ??? b Hb. apply load8_store8_ne; lia. Qed.
Lemma same_on_store32 lo hi m a v :
  fits a 4 -> fits lo (hi - lo) -> (a + 4 <= lo \/ hi <= a) -> same_on lo hi m (store32 m a v).
Proof. unfold fits. intros ??? b Hb. apply load8_store32_ne; unfold fits; lia. Qed.

Lemma load32_store32_ne m a v b :
  fits a 4 -> fits b 4 -> (a + 4 <= b \/ b + 4 <= a) -> load32 (store32 m a v) b = load32 m b.
Proof. intros. apply load32_same, same_on_store32; unfold fits in *; lia. Qed.
Lemma load32_store8_ne m a v b :
  u32 a -> fits b 4 -> (a < b \/ b + 4 <= a) -> load32 (store8 m a v) b = load32 m b.
Proof. intros. apply load32_same, same_on_store8; unfold fits in *; lia. Qed.

(** [mem_equiv] is an equivalence the loads and stores respect. *)
#[export] Instance mem_equiv_equivalence : Equivalence mem_equiv.
Proof.
  split; [done|by intros m m' H a|]. intros m1 m2 m3 H1 H2 a. by rewrite H1, H2.
Qed.
#[export] Instance load8_proper : Proper (mem_equiv ==> eq ==> eq) load8.
Proof. intros m m' H a ? <-. apply H. Qed.
#[export] Instance load32_proper : Proper (mem_equiv ==> eq ==> eq) load32.
Proof. intros m m' H a ? <-. unfold load32. by rewrite !H. Qed.
#[export] Instance store8_proper : Proper (mem_equiv ==> eq ==> eq ==> mem_equiv) store8.
Proof. intros m m' H a ? <- v ? <- b. rewrite !load8_store8. by case_decide. Qed.
#[export] Instance store32_proper : Proper (mem_equiv ==> eq ==> eq ==> mem_equiv) store32.
Proof. intros m m' H a ? <- v ? <-. unfold store32. by rewrite H. Qed.

(** [bytes_at] on lists. *)
Lemma bytes_at_app m p l1 l2 :
  bytes_at m p (l1 ++ l2) <-> bytes_at m p l1 /\ bytes_at m (p + lenZ l1) l2.
Proof.
  revert p. induction l1 as [|c l1 IH]; intros p; simpl.
  - rewrite lenZ_nil, Z.add_0_r. tauto.
  - rewrite IH, lenZ_cons. replace (p + 1 + lenZ l1) with (p + (lenZ l1 + 1)) by lia. tauto.
Qed.

Lemma bytes_at_same m m' p l :
  same_on p (p + lenZ l) m m' -> bytes_at m p l -> bytes_at m' p l.
Proof.
  revert p. induction l as [|c l IH]; intros p Hs; simpl; [done|].
  rewrite lenZ_cons in Hs. pose proof (lenZ_nonneg l). intros [<- Hl]. split.
  - apply Hs. lia.
  - apply IH; [|done]. eapply same_on_mono; [..|exact Hs]; lia.
Qed.

Lemma bytes_at_nth m p l i :
  bytes_at m p l -> 0 <= i < lenZ l -> load8 m (p + i) = nthZ l i.
Proof.
  revert p i. induction l as [|c l IH]; intros p i Hb Hi.
  { unfold lenZ in Hi. simpl in Hi. lia. }
  rewrite lenZ_cons in Hi. destruct Hb as [Hc Hl].
  destruct (decide (i = 0)) as [->|].
  - by rewrite Z.add_0_r.
  - replace (p + i) with (p + 1 + (i - 1)) by lia. rewrite (IH _ (i - 1) Hl) by lia.
    unfold nthZ. replace (Z.to_nat i) with (S (Z.to_nat (i - 1))) by lia. done.
Qed.

Lemma bytes_at_intro m p l :
  (forall i, 0 <= i < lenZ l -> load8 m (p + i) = nthZ l i) -> bytes_at m p l.
Proof.
  revert p. induction l as [|c l IH]; intros p H; [done|].
  rewrite lenZ_cons in H. pose proof (lenZ_nonneg l). split.
  - specialize (H 0 ltac:(lia)). by rewrite Z.add_0_r in H.
  - apply IH. intros i Hi. specialize (H (i + 1) ltac:(lia)).
    replace (p + 1 + i) with (p + (i + 1)) by lia. rewrite H.
    unfold nthZ. replace (Z.to_nat (i + 1)) with (S (Z.to_nat i)) by lia. done.
Qed.

(** Store the bytes [l] from [p] on. *)
Fixpoint write_bytes (m : mem) (p : Z) (l : list Z) : mem :=
  match l with
  | [] => m
  | c :: l' => write_bytes (store8 m p c) (p + 1) l'
  end.

Lemma write_bytes_app m p l1 l2 :
  write_bytes m p (l1 ++ l2) = write_bytes (write_bytes m p l1) (p + lenZ l1) l2.
Proof.
  revert m p. induction l1 as [|c l1 IH]; intros m p; simpl.
  - by rewrite lenZ_nil, Z.add_0_r.
  - rewrite IH, lenZ_cons. f_equal. lia.
Qed.

Lemma write_bytes_out m p l a :
  fits p (lenZ l) -> u32 a -> (a < p \/ p + lenZ l <= a) ->
  load8 (write_bytes m p l) a = load8 m a.
Proof.
  unfold fits. revert m p. induction l as [|c l IH]; intros m p Hf Ha Ho; simpl; [done|].
  rewrite lenZ_cons in *. pose proof (lenZ_nonneg l). rewrite IH, load8_store8_ne by lia. done.
Qed.

Lemma same_on_write_bytes lo hi m p l :
  fits p (lenZ l) -> fits lo (hi - lo) -> (p + lenZ l <= lo \/ hi <= p) ->
  same_on lo hi m (write_bytes m p l).
Proof. unfold fits. intros ??? a Ha. apply write_bytes_out; unfold fits; lia. Qed.

Lemma bytes_at_write_bytes m p l :
  fits p (lenZ l) -> Forall (fun c => u8 c) l -> bytes_at (write_bytes m p l) p l.
Proof.
  unfold fits. intros Hf Hl. revert m p Hf. induction Hl as [|c l Hc Hl IH]; intros m p Hf; simpl; [done|].
  rewrite lenZ_cons in Hf. pose proof (lenZ_nonneg l). split; [|apply IH; lia].
  rewrite write_bytes_out by (unfold fits; lia). rewrite load8_store8_eq. by apply wrap8_small.
Qed.
