(* ===== verification/Malloc.v ===== *)
(** * Kernel heap (kernel/malloc.h, kernel/malloc.c)

    The heap is the byte range [HEAP_START, HEAP_END) of memory.  It is cut
    into regions, each a 12-byte [RegionHeader] followed by its data.  Free
    regions are chained through [link] in ascending size order from
    [index_head]; the [link] of an allocated region points to the region
    physically below it.  The model works on the bytes of [CMem]: a header
    field is a load or a store at the field's offset. *)
From S2P Require Import Prelude CMem.

Module Malloc.

Definition KERNEL_V_START : Z := 0xC0000000.
Definition _1MB : Z := 0x100000.
Definition HEAP_START : Z := KERNEL_V_START + 12 * _1MB.
Definition HEAP_END : Z := KERNEL_V_START + 16 * _1MB.
Abbreviation REGION_FREE := 0.
Abbreviation REGION_ALLOC := 1.
Abbreviation NULL := 0.

(** [struct RegionHeader]: [type] at 0, [magic] at 1, two bytes of padding,
    [size] at 4, [link] at 8. *)
Abbreviation R_HEADER_SIZE := 12.

(** The globals of malloc.c, with the memory they point into. *)
Record heap := mk_heap { hmem : mem; heap_start : Z; index_head : Z }.

Definition with_mem (h : heap) (m : mem) : heap := mk_heap m (heap_start h) (index_head h).
Definition set_index_head (h : heap) (a : Z) : heap := mk_heap (hmem h) (heap_start h) a.

Definition hd_type (h : heap) (a : Z) : Z := load8 (hmem h) a.
Definition hd_magic (h : heap) (a : Z) : Z := load8 (hmem h) (a + 1).
Definition hd_size (h : heap) (a : Z) : Z := load32 (hmem h) (a + 4).
Definition hd_link (h : heap) (a : Z) : Z := load32 (hmem h) (a + 8).

Definition set_type (h : heap) (a v : Z) : heap := with_mem h (store8 (hmem h) a v).
Definition set_magic (h : heap) (a v : Z) : heap := with_mem h (store8 (hmem h) (a + 1) v).
Definition set_size (h : heap) (a v : Z) : heap := with_mem h (store32 (hmem h) (a + 4) v).
Definition set_link (h : heap) (a v : Z) : heap := with_mem h (store32 (hmem h) (a + 8) v).

Definition CREATE_HEADER (h : heap) (addr type size link : Z) : heap :=
  let h := set_magic h addr 0x87 in
  let h := set_type h addr type in
  let h := set_size h addr size in
  set_link h addr link.

Definition MEM_ADD (addr val : Z) : Z := wrap32 (addr + val).
Definition GET_NEXT_HEADER (h : heap) (a : Z) : Z := wrap32 (a + hd_size h a + R_HEADER_SIZE).
Definition REACH_HEAP_END (a : Z) : bool := HEAP_END <=? a.

Definition init_heap (h : heap) : heap :=
  let h := mk_heap (hmem h) HEAP_START (index_head h) in
  let h := set_index_head h (heap_start h) in
  CREATE_HEADER h (index_head h) REGION_FREE (HEAP_END - heap_start h - R_HEADER_SIZE) NULL.

Definition add_alloc_region (h : heap) (addr : Z) : heap :=
  let next := GET_NEXT_HEADER h addr in
  if REACH_HEAP_END next then h
  else if hd_type h next =? REGION_FREE then h
  else set_link h next addr.

(** Not called anywhere in the kernel; the inverse of [add_alloc_region]. *)
Definition del_alloc_region (h : heap) (addr : Z) : heap :=
  let next := GET_NEXT_HEADER h addr in
  if REACH_HEAP_END next then h
  else if hd_type h next =? REGION_FREE then h
  else set_link h next (hd_link h addr).

Definition add_free_region (h : heap) (prev next new : Z) : heap :=
  let h := if prev =? NULL then set_index_head h new else set_link h prev new in
  set_link h new next.

Definition del_free_region (h : heap) (prev deleted : Z) : heap :=
  if deleted =? NULL then h
  else
    let next := hd_link h deleted in
    if negb (prev =? NULL) then set_link h prev next else set_index_head h next.

(** The loops over the free list ([LOOP_FREE_LIST] of the source): walk from
    [cur] to the first region whose size reaches [bound], keeping the region
    before it. *)
Fixpoint scan_free_list (fuel : nat) (h : heap) (bound prev cur : Z) : res (Z * Z) :=
  match fuel with
  | O => NoFuel
  | S fuel =>
      if cur =? NULL then Ok (prev, cur)
      else if bound <=? hd_size h cur then Ok (prev, cur)
      else scan_free_list fuel h bound cur (hd_link h cur)
  end.

(** [while(it2!=target){ it1 = it2; it2 = it2->link; }] of [kfree]. *)
Fixpoint find_prev (fuel : nat) (h : heap) (target it1 it2 : Z) : res Z :=
  match fuel with
  | O => NoFuel
  | S fuel =>
      if negb (it2 =? target) then find_prev fuel h target it2 (hd_link h it2)
      else Ok it1
  end.

Section Ops.
Context (fuel : nat).

Definition search_and_add_free_region (h : heap) (new : Z) : res heap :=
  '(prev, cur) ← scan_free_list fuel h (hd_size h new) NULL (index_head h);
  Ok (add_free_region h prev cur new).

Definition kmalloc (size : Z) (h : heap) : res (Z * heap) :=
  '(prev, cur) ← scan_free_list fuel h (wrap32 (size + R_HEADER_SIZE)) NULL (index_head h);
  if cur =? NULL then Ok (NULL, h)
  else
    let h := del_free_region h prev cur in
    let h := set_size h cur (hd_size h cur - size - R_HEADER_SIZE) in
    h ← search_and_add_free_region h cur;
    let alloc_hd := GET_NEXT_HEADER h cur in
    let h := CREATE_HEADER h alloc_hd REGION_ALLOC size cur in
    let h := add_alloc_region h alloc_hd in
    Ok (MEM_ADD alloc_hd R_HEADER_SIZE, h).

(** Take [region] out of the free list when it is not NULL. *)
Definition unlink_region (h : heap) (region : Z) : res heap :=
  if region =? NULL then Ok h
  else
    it1 ← find_prev fuel h region 0 (index_head h);
    Ok (del_free_region h it1 region).

Definition kfree (addr : Z) (h : heap) : res heap :=
  let header := wrap32 (addr - R_HEADER_SIZE) in
  let prev := hd_link h header in
  let next := GET_NEXT_HEADER h header in
  let next := if REACH_HEAP_END next || (hd_type h next =? REGION_ALLOC) then NULL else next in
  let prev := if hd_type h prev =? REGION_ALLOC then NULL else prev in
  let h := set_type h header REGION_FREE in
  h ← unlink_region h prev;
  h ← unlink_region h next;
  let unified_hd := if prev =? NULL then header else prev in
  let h := if prev =? NULL then h
           else set_size h unified_hd (hd_size h unified_hd + (R_HEADER_SIZE + hd_size h header)) in
  let h := if next =? NULL then h
           else set_size h unified_hd (hd_size h unified_hd + (R_HEADER_SIZE + hd_size h next)) in
  h ← search_and_add_free_region h unified_hd;
  let next := GET_NEXT_HEADER h unified_hd in
  if negb (REACH_HEAP_END next) then Ok (set_link h next unified_hd) else Ok h.

End Ops.

(** [test_heap] of malloc.c, with its [ASSERT]s and without its printing:
    the k-th failing assertion stops the run with [Hang [k]]. *)
Definition ASSERT (cond : bool) (k : Z) : res unit := if cond then Ok tt else Hang [k].

Definition test_heap (fuel : nat) (h : heap) : res heap :=
  '(addr1, h) ← kmalloc fuel 8 h; h ← kfree fuel addr1 h;
  '(addr2, h) ← kmalloc fuel 8 h; h ← kfree fuel addr2 h;
  _ ← ASSERT (addr1 =? addr2) 10;
  '(addr1, h) ← kmalloc fuel 8 h; '(addr2, h) ← kmalloc fuel 8 h;
  h ← kfree fuel addr1 h; h ← kfree fuel addr2 h;
  '(addr3, h) ← kmalloc fuel 16 h; h ← kfree fuel addr3 h;
  _ ← ASSERT (addr3 =? wrap32 (addr2 + R_HEADER_SIZE)) 20;
  '(addr1, h) ← kmalloc fuel 8 h; '(addr2, h) ← kmalloc fuel 8 h; '(addr3, h) ← kmalloc fuel 8 h;
  h ← kfree fuel addr1 h; h ← kfree fuel addr3 h; h ← kfree fuel addr2 h;
  '(addr4, h) ← kmalloc fuel 24 h; h ← kfree fuel addr4 h;
  _ ← ASSERT (addr4 =? wrap32 (addr3 + 2 * R_HEADER_SIZE)) 30;
  '(addr1, h) ← kmalloc fuel 18 h; '(addr2, h) ← kmalloc fuel 16 h;
  '(addr3, h) ← kmalloc fuel 32 h; '(addr4, h) ← kmalloc fuel 24 h;
  h ← kfree fuel addr2 h; h ← kfree fuel addr3 h;
  '(addr5, h) ← kmalloc fuel 40 h;
  h ← kfree fuel addr4 h; h ← kfree fuel addr1 h;
  '(addr6, h) ← kmalloc fuel 4 h; '(addr7, h) ← kmalloc fuel 20 h;
  _ ← ASSERT (addr5 =? wrap32 (addr3 + 20)) 41;
  _ ← ASSERT (addr6 =? wrap32 (addr1 + 14)) 42;
  _ ← ASSERT (addr7 =? wrap32 (addr4 + 24)) 43;
  h ← kfree fuel addr5 h;
  '(addr8, h) ← kmalloc fuel 30 h;
  _ ← ASSERT ((addr8 =? wrap32 (addr7 + 56)) && (hd_size h (wrap32 (addr8 - R_HEADER_SIZE)) =? 30)) 44;
  '(addr9, h) ← kmalloc fuel 100 h;
  _ ← ASSERT (wrap32 (addr9 + 112) =? addr7) 45;
  h ← kfree fuel addr6 h; h ← kfree fuel addr7 h; h ← kfree fuel addr8 h;
  kfree fuel addr9 h.

End Malloc.
