(* ===== verification/MallocSpec.v ===== *)
(** * Correctness of the kernel heap

    The abstract heap is a list of [tile]s that cover [HEAP_START, HEAP_END)
    without gaps.  [heap_repr h ts fl] relates a concrete heap to its tiles
    [ts] and to the free list [fl].  The file proves that [kmalloc] and
    [kfree] implement splitting and coalescing of tiles, best-fit allocation
    included, and what a client of the allocator may rely on. *)
From S2P Require Import Prelude CMem Malloc.
Import Malloc.

Record tile := Tile { ta : Z; tsz : Z; tfr : bool }.

#[export] Instance tile_eq_dec : EqDecision tile.
Proof. solve_decision. Defined.

(** Consecutive regions from [a] to [e]. *)
Fixpoint layout (a : Z) (ts : list tile) (e : Z) : Prop :=
  match ts with
  | [] => a = e
  | t :: ts' => ta t = a /\ 0 <= tsz t /\ layout (a + R_HEADER_SIZE + tsz t) ts' e
  end.

(** The header of a tile in memory; [prev] is the region below it. *)
Definition hdr (h : heap) (prev : Z) (t : tile) : Prop :=
  hd_type h (ta t) = (if tfr t then REGION_FREE else REGION_ALLOC) /\
  hd_magic h (ta t) = 0x87 /\
  hd_size h (ta t) = tsz t /\
  (tfr t = false -> hd_link h (ta t) = prev).

Fixpoint headers (h : heap) (prev : Z) (ts : list tile) : Prop :=
  match ts with
  | [] => True
  | t :: ts' => hdr h prev t /\ headers h (ta t) ts'
  end.

(** No two neighbouring free regions; [p] tells whether the region before the
    list is free. *)
Fixpoint no_adj (p : bool) (ts : list tile) : Prop :=
  match ts with
  | [] => True
  | t :: ts' => (p && tfr t)%bool = false /\ no_adj (tfr t) ts'
  end.

(** The chain of links that starts at [p] visits the given regions. *)
Fixpoint lseg (h : heap) (p : Z) (fl : list tile) : Prop :=
  match fl with
  | [] => p = NULL
  | t :: fl' => p = ta t /\ lseg h (hd_link h (ta t)) fl'
  end.

Definition ascending (fl : list tile) : Prop := StronglySorted (fun t u => tsz t <= tsz u) fl.

Definition free_tiles (ts : list tile) : list tile := filter (fun t => tfr t = true) ts.

Definition first_free (ts : list tile) : Prop := exists t ts', ts = t :: ts' /\ tfr t = true.

Record heap_repr (h : heap) (ts fl : list tile) : Prop := {
  hr_layout : layout HEAP_START ts HEAP_END;
  hr_headers : headers h NULL ts;
  hr_first : first_free ts;
  hr_noadj : no_adj false ts;
  hr_perm : fl ≡ₚ free_tiles ts;
  hr_asc : ascending fl;
  hr_list : lseg h (index_head h) fl }.

(** The invariant of the allocator. *)
Definition heap_inv (h : heap) : Prop := exists ts fl, heap_repr h ts fl.

(** ** Header addresses are apart *)

Definition apart (a b : Z) : Prop := a + R_HEADER_SIZE <= b \/ b + R_HEADER_SIZE <= a.

(** A set of header addresses inside the heap, pairwise equal or apart. *)
Definition spaced (ts : list tile) : Prop :=
  forall t u, t ∈ ts -> u ∈ ts -> t = u \/ apart (ta t) (ta u).
Definition in_heap (ts : list tile) : Prop :=
  forall t, t ∈ ts -> HEAP_START <= ta t /\ ta t + R_HEADER_SIZE <= HEAP_END.

Ltac consts := unfold apart, HEAP_START, HEAP_END, KERNEL_V_START, _1MB in *.

Lemma layout_app a ts1 ts2 e :
  layout a (ts1 ++ ts2) e <-> exists b, layout a ts1 b /\ layout b ts2 e.
Proof.
  revert a. induction ts1 as [|t ts1 IH]; intros a; simpl.
  - split; [eauto|]. by intros (b & -> & ?).
  - rewrite IH. split; [intros (?&?&b&?&?); eauto 10|intros (b&(?&?&?)&?); eauto 10].
Qed.

Lemma layout_le a ts e : layout a ts e -> a <= e.
Proof.
  revert a. induction ts as [|t ts IH]; simpl; intros a; [lia|].
  intros (?&?&H%IH). consts. lia.
Qed.

Lemma layout_elem a ts e t :
  layout a ts e -> t ∈ ts -> a <= ta t /\ 0 <= tsz t /\ ta t + R_HEADER_SIZE + tsz t <= e.
Proof.
  intros Hl (l1 & l2 & ->)%list_elem_of_split. apply layout_app in Hl as (b & H1%layout_le & H2).
  simpl in H2. destruct H2 as (?&?&H3%layout_le). consts. lia.
Qed.

(** Two tiles are the same or do not overlap, data included. *)
Lemma layout_disjoint a ts e t u :
  layout a ts e -> t ∈ ts -> u ∈ ts ->
  t = u \/ ta t + R_HEADER_SIZE + tsz t <= ta u \/ ta u + R_HEADER_SIZE + tsz u <= ta t.
Proof.
  intros Hl (l1 & l2 & ->)%list_elem_of_split Hu.
  apply layout_app in Hl as (b & H1 & H2). simpl in H2. destruct H2 as (Hb & ? & H3).
  apply elem_of_app in Hu as [Hu|[->|Hu]%elem_of_cons]; [|by left|].
  - pose proof (layout_elem _ _ _ _ H1 Hu). lia.
  - pose proof (layout_elem _ _ _ _ H3 Hu). lia.
Qed.

Lemma layout_spaced a ts e : layout a ts e -> spaced ts.
Proof.
  intros Hl t u Ht Hu. pose proof (layout_elem _ _ _ _ Hl Ht). pose proof (layout_elem _ _ _ _ Hl Hu).
  destruct (layout_disjoint _ _ _ _ _ Hl Ht Hu) as [|]; [by left|right; consts; lia].
Qed.

Lemma layout_in_heap ts : layout HEAP_START ts HEAP_END -> in_heap ts.
Proof. intros Hl t Ht. pose proof (layout_elem _ _ _ _ Hl Ht). lia. Qed.

Lemma layout_NoDup a ts e : layout a ts e -> NoDup ts.
Proof.
  revert a. induction ts as [|t ts IH]; intros a Hl; [constructor|].
  simpl in Hl. destruct Hl as (?&?&Hl). constructor; [|eauto].
  intros Ht. pose proof (layout_elem _ _ _ _ Hl Ht). consts. lia.
Qed.

(** The heap holds at most (HEAP_END - HEAP_START) / 12 regions. *)
Lemma layout_length a ts e : layout a ts e -> R_HEADER_SIZE * lenZ ts <= e - a.
Proof.
  revert a. induction ts as [|t ts IH]; intros a Hl.
  - simpl in Hl. unfold lenZ. simpl. lia.
  - simpl in Hl. destruct Hl as (?&?&Hl%IH). rewrite lenZ_cons. consts. lia.
Qed.

(** ** Frames: which bytes an operation may change *)

Definition frame (P : Z -> Prop) (h h' : heap) : Prop :=
  forall x, u32 x -> ~ P x -> load8 (hmem h') x = load8 (hmem h) x.

(** The bytes of the link field / of the whole header of some of the tiles. *)
Definition link_bytes (ts : list tile) (x : Z) : Prop :=
  exists t, t ∈ ts /\ ta t + 8 <= x < ta t + 12.
Definition hdr_bytes (ts : list tile) (x : Z) : Prop :=
  exists t, t ∈ ts /\ ta t <= x < ta t + 12.

Lemma frame_trans P h1 h2 h3 : frame P h1 h2 -> frame P h2 h3 -> frame P h1 h3.
Proof. intros H1 H2 x Hx Hn. by rewrite H2, H1. Qed.
Lemma frame_mono (P Q : Z -> Prop) h h' : (forall x, P x -> Q x) -> frame P h h' -> frame Q h h'.
Proof. intros HPQ H x Hx Hn. apply H; auto. Qed.
Lemma frame_refl P h : frame P h h.
Proof. done. Qed.
Lemma frame_index P h a : frame P h (set_index_head h a).
Proof. done. Qed.

Lemma frame_set_link h a v : fits a 12 -> frame (fun x => a + 8 <= x < a + 12) h (set_link h a v).
Proof. intros Ha x Hx Hn. apply load8_store32_ne; unfold fits in *; lia. Qed.
Lemma frame_set_size h a v : fits a 12 -> frame (fun x => a + 4 <= x < a + 8) h (set_size h a v).
Proof. intros Ha x Hx Hn. apply load8_store32_ne; unfold fits in *; lia. Qed.
Lemma frame_set_type h a v : fits a 12 -> frame (fun x => x = a) h (set_type h a v).
Proof. intros Ha x Hx Hn. apply load8_store8_ne; unfold fits in *; lia. Qed.
Lemma frame_CREATE h a ty s l :
  fits a 12 -> frame (fun x => a <= x < a + 12) h (CREATE_HEADER h a ty s l).
Proof.
  unfold fits. intros Ha x Hx Hn. unfold CREATE_HEADER, set_link, set_size, set_type, set_magic. simpl.
  rewrite !load8_store32_ne, !load8_store8_ne by (unfold fits; lia). done.
Qed.

(** Field reads outside the changed bytes. *)
Section FrameReads.
Context (P : Z -> Prop) (h h' : heap) (HF : frame P h h') (a : Z) (Ha : fits a 12).

Lemma frame_load32 b :
  a <= b -> b + 4 <= a + 12 -> (forall x, b <= x < b + 4 -> ~ P x) ->
  load32 (hmem h') b = load32 (hmem h) b.
Proof. unfold fits in Ha. intros ?? Hn. apply load32_same. intros x Hx. apply HF; [lia|auto]. Qed.

Lemma frame_type : ~ P a -> hd_type h' a = hd_type h a.
Proof. unfold fits in Ha. intros Hn. apply HF; [lia|done]. Qed.
Lemma frame_magic : ~ P (a + 1) -> hd_magic h' a = hd_magic h a.
Proof. unfold fits in Ha. intros Hn. apply HF; [lia|done]. Qed.
Lemma frame_size : (forall x, a + 4 <= x < a + 8 -> ~ P x) -> hd_size h' a = hd_size h a.
Proof. intros Hn. apply frame_load32; [lia|lia|]. intros x Hx. apply Hn. lia. Qed.
Lemma frame_link : (forall x, a + 8 <= x < a + 12 -> ~ P x) -> hd_link h' a = hd_link h a.
Proof. intros Hn. apply frame_load32; [lia|lia|]. intros x Hx. apply Hn. lia. Qed.
End FrameReads.

(** Reading back a field that was set. *)
Lemma hd_link_set h a v : fits a 12 -> u32 v -> hd_link (set_link h a v) a = v.
Proof.
  unfold fits. intros. unfold hd_link, set_link. simpl.
  rewrite load32_store32_eq by (unfold fits; lia). by apply wrap32_small.
Qed.
Lemma hd_size_set h a v : fits a 12 -> u32 v -> hd_size (set_size h a v) a = v.
Proof.
  unfold fits. intros. unfold hd_size, set_size. simpl.
  rewrite load32_store32_eq by (unfold fits; lia). by apply wrap32_small.
Qed.
Lemma hd_type_set h a v : u8 v -> hd_type (set_type h a v) a = v.
Proof.
  intros. unfold hd_type, set_type. simpl. rewrite load8_store8_eq. by apply wrap8_small.
Qed.

Lemma CREATE_fields h a ty s l :
  fits a 12 -> u8 ty -> u32 s -> u32 l ->
  let h' := CREATE_HEADER h a ty s l in
  hd_type h' a = ty /\ hd_magic h' a = 0x87 /\ hd_size h' a = s /\ hd_link h' a = l /\
  index_head h' = index_head h.
Proof.
  unfold fits. intros Ha Hty Hs Hl.
  unfold CREATE_HEADER, set_link, set_size, set_type, set_magic, hd_type, hd_magic, hd_size, hd_link.
  simpl. split_and!; [..|done].
  - rewrite !load8_store32_ne, load8_store8_eq by (unfold fits; lia). by apply wrap8_small.
  - rewrite !load8_store32_ne, load8_store8_ne, load8_store8_eq by (unfold fits; lia). done.
  - rewrite load32_store32_ne, load32_store32_eq by (unfold fits; lia). by apply wrap32_small.
  - rewrite load32_store32_eq by (unfold fits; lia). by apply wrap32_small.
Qed.

(** ** The free list *)

Definition last0 (prev : Z) (l : list tile) : Z :=
  match last l with Some t => ta t | None => prev end.
Definition head0 (l : list tile) : Z :=
  match l with [] => NULL | t :: _ => ta t end.

Lemma last0_snoc p l t : last0 p (l ++ [t]) = ta t.
Proof. unfold last0. by rewrite last_snoc. Qed.
Lemma last0_cons p t l : last0 p (t :: l) = last0 (ta t) l.
Proof.
  unfold last0. rewrite last_cons. by destruct (last l).
Qed.

Lemma lseg_head h p l : lseg h p l -> p = head0 l.
Proof. destruct l; simpl; [done|by intros [-> _]]. Qed.

Lemma lseg_tail h p l1 l2 : lseg h p (l1 ++ l2) -> lseg h (head0 l2) l2.
Proof.
  revert p. induction l1 as [|t l1 IH]; intros p; simpl.
  - intros H. by rewrite <- (lseg_head _ _ _ H).
  - intros [_ H]. eauto.
Qed.

Lemma lseg_ext h h' p l :
  (forall t, t ∈ l -> hd_link h' (ta t) = hd_link h (ta t)) -> lseg h p l -> lseg h' p l.
Proof.
  revert p. induction l as [|t l IH]; intros p He; simpl; [done|].
  intros [-> H]. split; [done|]. rewrite He by left. apply IH; [|done]. intros u Hu. apply He. by right.
Qed.

(** Replace the part of a list behind [u]. *)
Lemma lseg_splice h h' p l1 u l2 l2' :
  lseg h p (l1 ++ u :: l2) ->
  (forall t, t ∈ l1 -> hd_link h' (ta t) = hd_link h (ta t)) ->
  lseg h' (hd_link h' (ta u)) l2' ->
  lseg h' p (l1 ++ u :: l2').
Proof.
  revert p. induction l1 as [|t l1 IH]; intros p; simpl.
  - intros [-> _] _ H. done.
  - intros [-> H] He H2. split; [done|]. rewrite He by left.
    apply IH; [done| |done]. intros v Hv. apply He. by right.
Qed.

(** The free-list loop stops at the first region that is large enough. *)
Lemma scan_spec fuel h bound prev p fl :
  lseg h p fl -> in_heap fl -> (forall t, t ∈ fl -> hd_size h (ta t) = tsz t) ->
  (length fl < fuel)%nat ->
  exists l1 l2, fl = l1 ++ l2 /\
    scan_free_list fuel h bound prev p = Ok (last0 prev l1, head0 l2) /\
    Forall (fun t => tsz t < bound) l1 /\ Forall (fun t => bound <= tsz t) (take 1 l2).
Proof.
  revert fuel prev p. induction fl as [|t fl IH]; intros fuel prev p Hl Hh Hs Hf;
    (destruct fuel as [|fuel]; [simpl in Hf; lia|]); simpl in Hl.
  - subst p. exists [], []. split_and!; [done|done|constructor|constructor].
  - destruct Hl as [-> Hl]. assert (Ht : ta t <> 0).
    { specialize (Hh t ltac:(left)). consts. lia. }
    simpl. if_false. rewrite Hs by left. case_if.
    + exists [], (t :: fl). split_and!; [done|done|constructor|repeat constructor; lia].
    + destruct (IH fuel (ta t) (hd_link h (ta t))) as (l1 & l2 & -> & Hr & H1 & H2); [done| | | |].
      * intros u Hu. apply Hh. by right.
      * intros u Hu. apply Hs. by right.
      * simpl in Hf. lia.
      * exists (t :: l1), l2. rewrite last0_cons. split_and!; [done|done|by constructor|done].
Qed.

Lemma find_prev_spec fuel h prev p l1 t l2 :
  lseg h p (l1 ++ t :: l2) -> (forall u, u ∈ l1 -> ta u <> ta t) ->
  (length l1 < fuel)%nat ->
  find_prev fuel h (ta t) prev p = Ok (last0 prev l1).
Proof.
  revert fuel prev p. induction l1 as [|u l1 IH]; intros fuel prev p Hl Hn Hf;
    (destruct fuel as [|fuel]; [simpl in Hf; lia|]); simpl in Hl; destruct Hl as [-> Hl]; simpl.
  - by rewrite Z.eqb_refl.
  - specialize (Hn u ltac:(left)) as Hu. rewrite (proj2 (Z.eqb_neq _ _)) by done. simpl.
    rewrite last0_cons. apply IH; [done| |simpl in Hf; lia].
    intros v Hv. apply Hn. by right.
Qed.

Lemma in_heap_fits ts t : in_heap ts -> t ∈ ts -> fits (ta t) 12 /\ u32 (ta t) /\ ta t <> NULL.
Proof. intros Hh Ht. specialize (Hh t Ht). unfold fits. consts. lia. Qed.

Lemma in_heap_sub ts us : us ⊆ ts -> in_heap ts -> in_heap us.
Proof. intros Hs H t Ht. apply H. set_solver. Qed.
Lemma spaced_sub ts us : us ⊆ ts -> spaced ts -> spaced us.
Proof. intros Hs H t u Ht Hu. apply H; set_solver. Qed.

(** Changing links of [F] keeps the links of the other tiles. *)
Lemma link_frame A F h h' t :
  in_heap A -> spaced A -> F ⊆ A -> t ∈ A -> t ∉ F ->
  frame (link_bytes F) h h' -> hd_link h' (ta t) = hd_link h (ta t).
Proof.
  intros Hh Hs HF Ht Hn Hf. eapply frame_link; [done|by eapply in_heap_fits|].
  intros x Hx (u & Hu & Hxu). destruct (Hs t u) as [->|]; [done|set_solver|done|consts; lia].
Qed.

(** Changing links keeps type, magic and size of every tile. *)
Lemma fields_link_frame A F h h' t :
  in_heap A -> spaced A -> F ⊆ A -> t ∈ A -> frame (link_bytes F) h h' ->
  hd_type h' (ta t) = hd_type h (ta t) /\ hd_magic h' (ta t) = hd_magic h (ta t) /\
  hd_size h' (ta t) = hd_size h (ta t).
Proof.
  intros Hh Hs HF Ht Hf. pose proof (proj1 (in_heap_fits _ _ Hh Ht)) as Hfit.
  assert (Hno : forall x, ta t <= x < ta t + 8 -> ~ link_bytes F x).
  { intros x Hx (u & Hu & Hxu). destruct (Hs t u) as [->|]; [done|set_solver|lia|consts; lia]. }
  split_and!.
  - eapply frame_type; [done..|]. apply Hno. lia.
  - eapply frame_magic; [done..|]. apply Hno. lia.
  - eapply frame_size; [done..|]. intros x Hx. apply Hno. lia.
Qed.

Lemma NoDup_elem_app_l {A} (l1 l2 : list A) (x : A) : NoDup (l1 ++ x :: l2) -> x ∉ l1 /\ x ∉ l2.
Proof.
  intros (H1 & H2 & H3)%NoDup_app. apply NoDup_cons in H3 as [H3 _].
  split; [|done]. intros Hx. apply (H2 x Hx). left.
Qed.

(** [del_free_region] removes a region from the list and changes links only. *)
Lemma del_free_region_spec A h l1 t l2 :
  in_heap A -> spaced A -> l1 ++ t :: l2 ⊆ A -> NoDup (l1 ++ t :: l2) ->
  lseg h (index_head h) (l1 ++ t :: l2) ->
  let h' := del_free_region h (last0 NULL l1) (ta t) in
  lseg h' (index_head h') (l1 ++ l2) /\ frame (link_bytes l1) h h'.
Proof.
  intros Hh Hs Hsub Hnd Hl. assert (Ht : t ∈ A) by set_solver.
  pose proof (in_heap_fits _ _ Hh Ht) as (_ & _ & Ht0).
  unfold del_free_region. if_false. destruct l1 as [|u l1 _] using rev_ind; simpl.
  - destruct Hl as [_ Hl]. split; [by apply lseg_ext with (h := h)|apply frame_index].
  - rewrite last0_snoc. assert (Hu : u ∈ A) by set_solver.
    pose proof (in_heap_fits _ _ Hh Hu) as (Huf & _ & Hu0).
    rewrite (proj2 (Z.eqb_neq (ta u) 0)) by done. simpl.
    set (h' := set_link h (ta u) (hd_link h (ta t))).
    assert (Hfr : frame (link_bytes [u]) h h').
    { eapply frame_mono; [|by apply frame_set_link]. intros x Hx. exists u. set_solver. }
    assert (Hnd' : u ∉ l1 /\ u ∉ l2).
    { rewrite <- app_assoc in Hnd. simpl in Hnd. apply NoDup_elem_app_l in Hnd. set_solver. }
    rewrite <- !app_assoc in *. simpl in *. split.
    + apply lseg_splice with (h := h) (l2 := t :: l2); [done| |].
      * intros v Hv. apply (link_frame A [u]); set_solver.
      * unfold h'. rewrite hd_link_set by (done || apply load32_range).
        apply lseg_ext with (h := h); [intros v Hv; apply (link_frame A [u]); set_solver|].
        assert (Hlt : lseg h (ta t) (t :: l2)).
        { change (ta t) with (head0 (t :: l2)). apply lseg_tail with (index_head h) (l1 ++ [u]).
          by rewrite <- app_assoc. }
        by destruct Hlt as [_ Hlt].
    + eapply frame_mono; [|done]. intros x (v & Hv & Hx). exists v. set_solver.
Qed.

(** [add_free_region] inserts a region and changes links only. *)
Lemma add_free_region_spec A h l1 t l2 :
  in_heap A -> spaced A -> l1 ++ t :: l2 ⊆ A -> NoDup (l1 ++ t :: l2) ->
  lseg h (index_head h) (l1 ++ l2) ->
  let h' := add_free_region h (last0 NULL l1) (head0 l2) (ta t) in
  lseg h' (index_head h') (l1 ++ t :: l2) /\ frame (link_bytes (t :: l1)) h h'.
Proof.
  intros Hh Hs Hsub Hnd Hl. assert (Ht : t ∈ A) by set_solver.
  pose proof (in_heap_fits _ _ Hh Ht) as (Htf & Htu & Ht0).
  pose proof (NoDup_elem_app_l _ _ _ Hnd) as [Hn1 Hn2].
  assert (Hh2 : u32 (head0 l2)).
  { destruct l2 as [|v l2]; simpl; [lia|]. apply (in_heap_fits A v); set_solver. }
  pose proof (lseg_tail _ _ _ _ Hl) as Hl2.
  unfold add_free_region. destruct l1 as [|u l1 _] using rev_ind; simpl.
  - set (h1 := set_index_head h (ta t)). set (h2 := set_link h1 (ta t) (head0 l2)).
    assert (F2 : frame (link_bytes [t]) h1 h2).
    { eapply frame_mono; [|by apply frame_set_link]. intros x Hx. exists t. set_solver. }
    split; [|by eapply frame_trans; [apply frame_index|]]. split; [done|].
    replace (hd_link h2 (ta t)) with (head0 l2) by (symmetry; by apply hd_link_set).
    apply lseg_ext with (h := h); [|done]. intros v Hv.
    rewrite (link_frame A [t] h1 h2) by set_solver. done.
  - rewrite last0_snoc. assert (Hu : u ∈ A) by set_solver.
    pose proof (in_heap_fits _ _ Hh Hu) as (Huf & _ & Hu0).
    rewrite (proj2 (Z.eqb_neq (ta u) 0)) by done.
    set (h1 := set_link h (ta u) (ta t)). set (h2 := set_link h1 (ta t) (head0 l2)).
    assert (F2 : frame (link_bytes [t]) h1 h2).
    { eapply frame_mono; [|by apply frame_set_link]. intros x Hx. exists t. set_solver. }
    assert (Htl : hd_link h2 (ta t) = head0 l2) by by apply hd_link_set.
    assert (F1 : frame (link_bytes [u]) h h1).
    { eapply frame_mono; [|by apply frame_set_link]. intros x Hx. exists u. set_solver. }
    assert (Hnu : u ∉ l1 /\ u ∉ t :: l2).
    { rewrite <- app_assoc in Hnd. simpl in Hnd. apply NoDup_elem_app_l in Hnd. set_solver. }
    assert (Hkeep : forall v, v ∈ A -> v ∉ [u; t] -> hd_link h2 (ta v) = hd_link h (ta v)).
    { intros v HvA Hv. rewrite (link_frame A [t] h1 h2), (link_frame A [u] h h1) by set_solver. done. }
    assert (Hul : hd_link h2 (ta u) = ta t).
    { rewrite (link_frame A [t] h1 h2) by set_solver. by apply hd_link_set. }
    rewrite <- !app_assoc in *. simpl in *. split.
    + apply lseg_splice with (h := h) (l2 := l2); [done|intros v Hv; apply Hkeep; set_solver|].
      rewrite Hul. split; [done|]. rewrite Htl.
      apply lseg_ext with (h := h); [intros v Hv; apply Hkeep; set_solver|done].
    + eapply frame_trans; [eapply frame_mono; [|exact F1]|eapply frame_mono; [|exact F2]];
        intros x (v & Hv & Hx); exists v; set_solver.
Qed.

Lemma ascending_insert l1 t l2 :
  ascending (l1 ++ l2) -> Forall (fun u => tsz u < tsz t) l1 ->
  Forall (fun u => tsz t <= tsz u) (take 1 l2) -> ascending (l1 ++ t :: l2).
Proof.
  unfold ascending. intros (H1 & H2 & H3)%StronglySorted_app Hf Hg.
  apply StronglySorted_app. rewrite Forall_forall in Hf. split_and!; [|done|].
  - intros u v Hu [->|Hv]%elem_of_cons; [|by apply H1]. specialize (Hf u Hu). lia.
  - constructor; [done|]. destruct l2 as [|v l2]; [constructor|].
    apply StronglySorted_inv in H3 as [_ H3]. simpl in Hg. apply Forall_inv in Hg.
    constructor; [done|]. eapply Forall_impl; [exact H3|]. simpl. lia.
Qed.

Lemma search_and_add_spec fuel A h fl t :
  in_heap A -> spaced A -> t :: fl ⊆ A -> NoDup (t :: fl) ->
  lseg h (index_head h) fl -> (forall u, u ∈ t :: fl -> hd_size h (ta u) = tsz u) ->
  ascending fl -> (length fl < fuel)%nat ->
  exists h' l1 l2, search_and_add_free_region fuel h (ta t) = Ok h' /\ fl = l1 ++ l2 /\
    ascending (l1 ++ t :: l2) /\ lseg h' (index_head h') (l1 ++ t :: l2) /\
    frame (link_bytes (t :: fl)) h h'.
Proof.
  intros Hh Hs Hsub Hnd Hl Hsz Hasc Hf.
  destruct (scan_spec fuel h (hd_size h (ta t)) NULL (index_head h) fl)
    as (l1 & l2 & -> & Hr & H1 & H2); [done| | |done|].
  { apply in_heap_sub with A; set_solver. }
  { intros u Hu. apply Hsz. set_solver. }
  rewrite Hsz in H1, H2 by left.
  assert (Hp : l1 ++ t :: l2 ≡ₚ t :: l1 ++ l2) by by rewrite Permutation_middle.
  destruct (add_free_region_spec A h l1 t l2) as [Hl' Hfr]; [done|done| | |done|].
  { by rewrite Hp. }
  { by rewrite Hp. }
  eexists _, l1, l2. split_and!; [|done|by apply ascending_insert|exact Hl'|].
  - unfold search_and_add_free_region. by rewrite Hr.
  - eapply frame_mono; [|exact Hfr]. intros x (v & Hv & Hx). exists v. set_solver.
Qed.

(** ** Headers *)

Lemma headers_app h p ts1 ts2 :
  headers h p (ts1 ++ ts2) <-> headers h p ts1 /\ headers h (last0 p ts1) ts2.
Proof.
  revert p. induction ts1 as [|t ts1 IH]; intros p; simpl; [tauto|].
  rewrite IH, last0_cons. tauto.
Qed.

(** The parts of a header [hdr] speaks about did not change. *)
Definition hdr_agree (h h' : heap) (t : tile) : Prop :=
  hd_type h' (ta t) = hd_type h (ta t) /\ hd_magic h' (ta t) = hd_magic h (ta t) /\
  hd_size h' (ta t) = hd_size h (ta t) /\
  (tfr t = false -> hd_link h' (ta t) = hd_link h (ta t)).

Lemma headers_agree h h' p ts :
  (forall t, t ∈ ts -> hdr_agree h h' t) -> headers h p ts -> headers h' p ts.
Proof.
  revert p. induction ts as [|t ts IH]; intros p Ha; simpl; [done|].
  intros [(H1 & H2 & H3 & H4) Hr]. destruct (Ha t ltac:(left)) as (A1 & A2 & A3 & A4). split.
  - unfold hdr. rewrite A1, A2, A3. split_and!; [done..|]. intros Hf. rewrite A4; auto.
  - apply IH; [|done]. intros u Hu. apply Ha. by right.
Qed.

Lemma headers_elem h p ts t : headers h p ts -> t ∈ ts -> exists q, hdr h q t.
Proof.
  intros Hh (l1 & l2 & ->)%list_elem_of_split. apply headers_app in Hh as [_ [Hh _]]. eauto.
Qed.

Lemma headers_size h p ts t : headers h p ts -> t ∈ ts -> hd_size h (ta t) = tsz t.
Proof. intros H Ht. by destruct (headers_elem _ _ _ _ H Ht) as (q & _ & _ & ? & _). Qed.
Lemma headers_type h p ts t :
  headers h p ts -> t ∈ ts -> hd_type h (ta t) = if tfr t then REGION_FREE else REGION_ALLOC.
Proof. intros H Ht. by destruct (headers_elem _ _ _ _ H Ht) as (q & ? & _). Qed.

(** A change of list links, and of bytes outside the header of [t], agrees on [t]. *)
Lemma hdr_agree_frame A F (Q : Z -> Prop) h h' t :
  in_heap A -> spaced A -> F ⊆ A -> t ∈ A -> (tfr t = false -> t ∉ F) ->
  frame (fun x => link_bytes F x \/ Q x) h h' -> (forall x, ta t <= x < ta t + 12 -> ~ Q x) ->
  hdr_agree h h' t.
Proof.
  intros Hh Hs HF Ht Hn Hf HQ. pose proof (proj1 (in_heap_fits _ _ Hh Ht)) as Hfit.
  assert (Hno : forall x, ta t <= x < ta t + 8 -> ~ (link_bytes F x \/ Q x)).
  { intros x Hx [(u & Hu & Hxu)|HQx]; [|apply (HQ x); [lia|done]].
    destruct (Hs t u) as [->|]; [done|set_solver|lia|consts; lia]. }
  split_and!.
  - eapply frame_type; [done..|]. apply Hno. lia.
  - eapply frame_magic; [done..|]. apply Hno. lia.
  - eapply frame_size; [done..|]. intros x Hx. apply Hno. lia.
  - intros Ha. eapply frame_link; [done..|]. intros x Hx [(u & Hu & Hxu)|HQx]; [|apply (HQ x); [lia|done]].
    destruct (Hs t u) as [->|]; [done|set_solver|by apply Hn|consts; lia].
Qed.

Lemma no_adj_app p ts1 ts2 :
  no_adj p (ts1 ++ ts2) <->
  no_adj p ts1 /\ no_adj (match last ts1 with Some t => tfr t | None => p end) ts2.
Proof.
  revert p. induction ts1 as [|t ts1 IH]; intros p; simpl; [tauto|].
  rewrite IH, last_cons. destruct (last ts1); tauto.
Qed.

Lemma first_free_app pre t post :
  first_free (pre ++ t :: post) -> forall t' post', (pre = [] -> tfr t' = true) ->
  first_free (pre ++ t' :: post').
Proof.
  intros (u & us & Hu & Hf) t' post' Ht'. destruct pre as [|v pre]; simpl in *.
  - eexists _, _. split; [done|auto].
  - injection Hu as -> <-. eexists _, _. split; done.
Qed.

Lemma free_tiles_app ts1 ts2 : free_tiles (ts1 ++ ts2) = free_tiles ts1 ++ free_tiles ts2.
Proof. apply filter_app. Qed.
Lemma free_tiles_cons_true t ts : tfr t = true -> free_tiles (t :: ts) = t :: free_tiles ts.
Proof. intros H. unfold free_tiles. by rewrite filter_cons_True. Qed.
Lemma free_tiles_cons_false t ts : tfr t = false -> free_tiles (t :: ts) = free_tiles ts.
Proof. intros H. unfold free_tiles. rewrite filter_cons_False; [done|]. by rewrite H. Qed.
Lemma free_tiles_elem ts t : t ∈ free_tiles ts <-> tfr t = true /\ t ∈ ts.
Proof. unfold free_tiles. by rewrite list_elem_of_filter. Qed.
Lemma free_tiles_length ts : (length (free_tiles ts) <= length ts)%nat.
Proof. apply length_filter. Qed.
#[export] Hint Rewrite free_tiles_app : tiles.

Lemma repr_NoDup h ts fl : heap_repr h ts fl -> NoDup fl.
Proof.
  intros [Hl _ _ _ Hp _ _]. rewrite Hp. apply NoDup_filter. by eapply layout_NoDup.
Qed.

Lemma repr_elem h ts fl t : heap_repr h ts fl -> t ∈ fl <-> tfr t = true /\ t ∈ ts.
Proof. intros [_ _ _ _ Hp _ _]. rewrite Hp. apply free_tiles_elem. Qed.

Lemma repr_fl_length h ts fl : heap_repr h ts fl -> (length fl <= length ts)%nat.
Proof. intros [_ _ _ _ Hp _ _]. rewrite Hp. apply free_tiles_length. Qed.

Lemma frame_or P Q h1 h2 h3 :
  frame P h1 h2 -> frame Q h2 h3 -> frame (fun x => P x \/ Q x) h1 h3.
Proof. intros H1 H2. eapply frame_trans; eapply frame_mono; [|exact H1| |exact H2]; auto. Qed.

(** Same addresses, other sizes: taking or resizing a region keeps the set of
    header addresses well spaced. *)
Lemma in_heap_addr ts us :
  (forall u, u ∈ us -> exists t, t ∈ ts /\ ta t = ta u) -> in_heap ts -> in_heap us.
Proof. intros Ha Hh u Hu. destruct (Ha u Hu) as (t & Ht & <-). by apply Hh. Qed.

(** First half of [kmalloc]: region [c] leaves the list, shrinks from [s] to
    [s'] and is put back at its place. *)
Lemma shrink_region fuel A h l1 c s s' l2 :
  let told := Tile c s true in let tnew := Tile c s' true in
  in_heap (told :: A) -> spaced (told :: A) -> spaced (tnew :: A) -> l1 ++ l2 ⊆ A ->
  NoDup (l1 ++ told :: l2) -> tnew ∉ l1 ++ l2 -> told ∉ A ->
  lseg h (index_head h) (l1 ++ told :: l2) ->
  (forall u, u ∈ l1 ++ told :: l2 -> hd_size h (ta u) = tsz u) ->
  ascending (l1 ++ l2) -> (length (l1 ++ l2) < fuel)%nat -> u32 s' ->
  hd_size (del_free_region h (last0 NULL l1) c) c = s /\
  exists h3 l3 l4,
    search_and_add_free_region fuel (set_size (del_free_region h (last0 NULL l1) c) c s') c = Ok h3 /\
    l1 ++ l2 = l3 ++ l4 /\ ascending (l3 ++ tnew :: l4) /\
    lseg h3 (index_head h3) (l3 ++ tnew :: l4) /\ hd_size h3 c = s' /\
    frame (fun x => link_bytes (tnew :: l1 ++ l2) x \/ c + 4 <= x < c + 8) h h3.
Proof.
  intros told tnew Hh Hs Hs' Hsub Hnd Hnn Hno Hl Hsz Hasc Hf Hu.
  pose proof (in_heap_fits _ told Hh ltac:(left)) as (Hcf & _). simpl in Hcf.
  assert (Hh' : in_heap (tnew :: A)).
  { eapply in_heap_addr; [|exact Hh]. intros u [->|Hu']%elem_of_cons; [exists told|exists u]; set_solver. }
  destruct (del_free_region_spec (told :: A) h l1 told l2) as [Hl1 F1]; [done|done| |done|done|].
  { set_solver. }
  simpl in Hl1, F1. set (h1 := del_free_region h (last0 NULL l1) c) in *.
  assert (Hsz1 : forall u, u ∈ told :: l1 ++ l2 -> hd_size h1 (ta u) = tsz u).
  { intros u Hu'. rewrite <- Hsz by set_solver.
    apply (fields_link_frame (told :: A) l1); set_solver. }
  split; [apply (Hsz1 told); left|].
  set (h2 := set_size h1 c s').
  assert (F2 : frame (fun x => c + 4 <= x < c + 8) h1 h2) by by apply frame_set_size.
  assert (Hap : forall u, u ∈ l1 ++ l2 -> fits (ta u) 12 /\ apart c (ta u)).
  { intros u Hu'. split; [apply (in_heap_fits (told :: A)); set_solver|].
    destruct (Hs told u) as [->|]; [left|set_solver|set_solver|done]. }
  destruct (search_and_add_spec fuel (tnew :: A) h2 (l1 ++ l2) tnew)
    as (h3 & l3 & l4 & Hr & He & Hasc3 & Hl3 & F3); [done|done| | | | |done|done|].
  - set_solver.
  - apply NoDup_cons. split; [done|].
    rewrite <- Permutation_middle in Hnd. by apply NoDup_cons in Hnd as [_ ?].
  - apply lseg_ext with (h := h1); [|done]. intros u Hu'. destruct (Hap u Hu').
    eapply frame_link; [exact F2|done|]. intros x Hx. consts. lia.
  - intros u [->|Hu']%elem_of_cons; [by apply hd_size_set|]. destruct (Hap u Hu').
    rewrite <- (Hsz1 u) by set_solver. eapply frame_size; [exact F2|done|]. intros x Hx. consts. lia.
  - exists h3, l3, l4. split_and!; [done|done|done|done| |].
    + rewrite <- (hd_size_set h1 c s') by done.
      apply (fields_link_frame (tnew :: A) (tnew :: l1 ++ l2) h2 h3 tnew); set_solver.
    + eapply frame_mono; [|eapply frame_or; [exact F1|eapply frame_or; [exact F2|exact F3]]].
      intros x [(v & Hv & Hx)|[Hx|Hx]]; [left; exists v; set_solver|by right|by left].
Qed.

(** Pointing the region above [x] back to [x]. *)
Lemma relink_next h x q post :
  headers h q post -> in_heap post -> spaced post -> NoDup post -> no_adj true post -> u32 x ->
  let h' := match post with [] => h | t :: _ => set_link h (ta t) x end in
  headers h' x post /\ frame (link_bytes (take 1 post)) h h'.
Proof.
  intros Hh Hi Hs Hnd Hna Hx. destruct post as [|t post]; [split; [done|apply frame_refl]|]. simpl.
  pose proof (in_heap_fits _ t Hi ltac:(left)) as (Htf & _).
  set (h' := set_link h (ta t) x).
  assert (Hf : frame (link_bytes [t]) h h').
  { eapply frame_mono; [|by apply frame_set_link]. intros y Hy. exists t. set_solver. }
  apply NoDup_cons in Hnd as [Hnt Hnd]. destruct Hh as [(T1 & T2 & T3 & T4) Hh].
  destruct (fields_link_frame (t :: post) [t] h h' t) as (G1 & G2 & G3); [done|done|set_solver|left|done|].
  split; [|by rewrite take_0]. split.
  - unfold hdr. rewrite G1, G2, G3. split_and!; [done..|]. intros _. by apply hd_link_set.
  - apply headers_agree with (h := h); [|done]. intros u Hu.
    apply (hdr_agree_frame (t :: post) [t] (fun _ => False)); [done|done|set_solver|set_solver|set_solver| |tauto].
    eapply frame_mono; [|exact Hf]. auto.
Qed.

Lemma add_alloc_region_spec h x size q post :
  headers h q post -> layout (x + 12 + size) post HEAP_END -> no_adj true post ->
  hd_size h x = size -> HEAP_START <= x -> 0 <= size ->
  add_alloc_region h x = match post with [] => h | t :: _ => set_link h (ta t) x end.
Proof.
  intros Hh Hl Hna Hsz Hx Hs0. pose proof (layout_le _ _ _ Hl). unfold add_alloc_region, GET_NEXT_HEADER.
  rewrite Hsz, wrap32_small by (consts; lia). unfold REACH_HEAP_END.
  destruct post as [|t post]; simpl in Hl.
  - rewrite (proj2 (Z.leb_le _ _)) by lia. done.
  - destruct Hl as (Ht & ? & Hl%layout_le). destruct Hna as [Hna _]. simpl in Hna.
    rewrite (proj2 (Z.leb_gt _ _)) by lia.
    destruct Hh as [(T1 & _) _]. rewrite Hna in T1.
    replace (x + size + 12) with (ta t) by lia. by rewrite T1.
Qed.

(** *** A successful allocation, region [c] being the one chosen *)
Section Fit.
Context (fuel : nat) (size : Z) (h : heap) (pre post l1 l2 : list tile) (c s : Z).
Let told := Tile c s true.
Let x := c + s - size.
Let tnew := Tile c (s - size - 12) true.
Let new := Tile x size false.
Let ts := pre ++ told :: post.
Let ts' := pre ++ tnew :: new :: post.
Context (Hr : heap_repr h ts (l1 ++ told :: l2)) (Hf : (length ts < fuel)%nat).
Context (Hs0 : 0 <= size) (Hfit : size + 12 <= s).

Lemma fit_layout : layout HEAP_START ts' HEAP_END.
Proof.
  pose proof (hr_layout _ _ _ Hr) as Hlay.
  apply layout_app in Hlay as (b & H1 & H2). simpl in H2. destruct H2 as (<- & ? & H3).
  apply layout_app. exists c. split; [done|]. simpl. split_and!; [done|lia|unfold x; lia|lia|].
  replace (c + 12 + (s - size - 12) + 12 + size) with (c + 12 + s) by lia. done.
Qed.

Lemma fit_bounds : HEAP_START <= c /\ c + 12 + s <= HEAP_END.
Proof.
  pose proof (layout_elem _ _ _ told (hr_layout _ _ _ Hr) ltac:(set_solver)). simpl in *. lia.
Qed.

Lemma fit_told : told ∉ pre ++ post.
Proof.
  pose proof (layout_NoDup _ _ _ (hr_layout _ _ _ Hr)) as Hnd. unfold ts in Hnd.
  rewrite <- Permutation_middle in Hnd. by apply NoDup_cons in Hnd as [? _].
Qed.

Lemma fit_new : tnew ∉ pre ++ post /\ new ∉ pre ++ post.
Proof.
  pose proof (layout_NoDup _ _ _ fit_layout) as Hnd. unfold ts' in Hnd.
  rewrite <- Permutation_middle in Hnd. apply NoDup_cons in Hnd as [Hn Hnd].
  rewrite <- Permutation_middle in Hnd. apply NoDup_cons in Hnd as [Hn' _]. set_solver.
Qed.

Lemma fit_sub : l1 ++ l2 ⊆ pre ++ post.
Proof.
  intros t Ht. pose proof (repr_NoDup _ _ _ Hr) as Hnd.
  destruct (repr_elem _ _ _ t Hr) as [[_ Hin1] _]; [set_solver|].
  rewrite <- Permutation_middle in Hnd. apply NoDup_cons in Hnd as [Hn _]. set_solver.
Qed.

Lemma fit_free t : t ∈ l1 ++ l2 -> tfr t = true.
Proof. intros Ht. apply (repr_elem _ _ _ t Hr). set_solver. Qed.

Lemma fit_no_adj : no_adj true post.
Proof. pose proof (hr_noadj _ _ _ Hr) as [_ H]%no_adj_app. simpl in H. tauto. Qed.

Lemma fit_shrink :
  let h1 := del_free_region h (last0 NULL l1) c in
  hd_size h1 c = s /\
  exists h3 l3 l4,
    search_and_add_free_region fuel (set_size h1 c (s - size - 12)) c = Ok h3 /\
    l1 ++ l2 = l3 ++ l4 /\ ascending (l3 ++ tnew :: l4) /\
    lseg h3 (index_head h3) (l3 ++ tnew :: l4) /\ hd_size h3 c = s - size - 12 /\
    frame (fun y => link_bytes (tnew :: l1 ++ l2) y \/ c + 4 <= y < c + 8) h h3.
Proof.
  pose proof (layout_in_heap _ (hr_layout _ _ _ Hr)) as Hin.
  pose proof (layout_spaced _ _ _ (hr_layout _ _ _ Hr)) as Hsp.
  pose proof (layout_spaced _ _ _ fit_layout) as Hsp'. pose proof fit_bounds. pose proof fit_sub.
  destruct fit_new as [Hn _].
  apply (shrink_region fuel (pre ++ post));
    [eapply in_heap_sub; [|exact Hin]; set_solver|eapply spaced_sub; [|exact Hsp]; set_solver|
     eapply spaced_sub; [|exact Hsp']; set_solver|done|by eapply repr_NoDup|set_solver|
     apply fit_told|apply Hr| | | |consts; lia].
  - intros u Hu. eapply headers_size; [apply Hr|]. apply (repr_elem _ _ _ u Hr). done.
  - pose proof (hr_asc _ _ _ Hr) as (G1 & G2 & G3)%StronglySorted_app.
    apply StronglySorted_inv in G3 as [G3 _]. apply StronglySorted_app. split_and!; [|done|done].
    intros; apply G1; set_solver.
  - pose proof (repr_fl_length _ _ _ Hr) as Hlen. rewrite !length_app in *. simpl in *.
    unfold ts in *. rewrite !length_app in *. simpl in *. lia.
Qed.

(** Writing the new header and relinking the region above it. *)
Section Publish.
Context (h3 : heap) (l3 l4 : list tile).
Context (He : l1 ++ l2 = l3 ++ l4) (Hasc : ascending (l3 ++ tnew :: l4)).
Context (Hl : lseg h3 (index_head h3) (l3 ++ tnew :: l4)) (Hc : hd_size h3 c = s - size - 12).
Context (F3 : frame (fun y => link_bytes (tnew :: l1 ++ l2) y \/ c + 4 <= y < c + 8) h h3).
Let h4 := CREATE_HEADER h3 x REGION_ALLOC size c.
Let h5 := match post with [] => h4 | t :: _ => set_link h4 (ta t) x end.

Lemma fit_x : fits x 12 /\ u32 x /\ c + 12 <= x.
Proof.
  pose proof (in_heap_fits _ new (layout_in_heap _ fit_layout) ltac:(set_solver)) as (? & ? & _).
  simpl in *. split_and!; [done|lia|lia|]. unfold x. lia.
Qed.

Lemma fit_fields : hdr h4 c new /\ index_head h4 = index_head h3.
Proof.
  destruct fit_x as (? & ? & ?). pose proof fit_bounds.
  destruct (CREATE_fields h3 x REGION_ALLOC size c) as (C1 & C2 & C3 & C4 & C5);
    [done|lia|consts; lia|consts; lia|]. split; [|done]. by split_and!.
Qed.

Lemma fit_F4 :
  frame (fun y => link_bytes (tnew :: l1 ++ l2) y \/ (c + 4 <= y < c + 8 \/ x <= y < x + 12)) h h4.
Proof.
  destruct fit_x as (? & _ & _).
  eapply frame_mono; [|eapply frame_or; [exact F3|by apply frame_CREATE]].
  intros y. simpl. tauto.
Qed.

Lemma fit_apart t : t ∈ pre ++ post -> apart c (ta t) /\ apart x (ta t).
Proof.
  intros Ht. pose proof (layout_spaced _ _ _ fit_layout) as Hsp. destruct fit_new as [Hn1 Hn2].
  split; [destruct (Hsp tnew t) as [E|]|destruct (Hsp new t) as [E|]];
    first [set_solver | rewrite <- E in Ht; set_solver | done].
Qed.

Lemma fit_agree t : t ∈ pre ++ post -> hdr_agree h h4 t.
Proof.
  intros Ht. pose proof fit_sub. destruct fit_new as [Hn1 _].
  eapply (hdr_agree_frame ts' (tnew :: l1 ++ l2)); [apply layout_in_heap, fit_layout|
    by eapply layout_spaced, fit_layout|set_solver|set_solver| |apply fit_F4|].
  - intros Hfr [->|Hin]%elem_of_cons; [done|]. by rewrite fit_free in Hfr.
  - intros y Hy. destruct (fit_apart t Ht). consts. lia.
Qed.

Lemma fit_headers4 : headers h4 NULL pre /\ hdr h4 (last0 NULL pre) tnew /\ headers h4 c post.
Proof.
  pose proof (hr_headers _ _ _ Hr) as [Hp [(T1 & T2 & _) Hq]]%headers_app. simpl in T1, T2, Hq.
  split_and!; [eapply headers_agree; [|done]; intros t Ht; apply fit_agree; set_solver| |
    eapply headers_agree; [|done]; intros t Ht; apply fit_agree; set_solver].
  destruct fit_x as (_ & _ & ?). pose proof fit_bounds.
  assert (Hno : forall y, c <= y < c + 4 -> ~ (link_bytes (tnew :: l1 ++ l2) y \/ (c + 4 <= y < c + 8 \/ x <= y < x + 12))).
  { intros y Hy [(u & [->|Hu]%elem_of_cons & Hyu)|Hy2]; [simpl in Hyu; lia| |lia].
    destruct (fit_apart u (fit_sub _ Hu)). consts. lia. }
  assert (Hcf : fits c 12) by (unfold fits; consts; lia).
  split_and!; [..|done].
  - simpl. rewrite <- T1. eapply frame_type; [apply fit_F4|done|apply Hno; lia].
  - simpl. rewrite <- T2. eapply frame_magic; [apply fit_F4|done|apply Hno; lia].
  - simpl. rewrite <- Hc. eapply frame_size; [by apply frame_CREATE, fit_x|done|]. intros y Hy. simpl. lia.
Qed.

Lemma fit_relink : headers h5 x post /\ frame (link_bytes (take 1 post)) h4 h5 /\
  add_alloc_region h4 x = h5 /\ index_head h5 = index_head h3.
Proof.
  destruct fit_headers4 as (_ & _ & Hq). destruct fit_x as (? & ? & ?). destruct fit_fields as [(_ & _ & C3 & _) C5].
  pose proof fit_layout as Hlay. pose proof fit_bounds.
  assert (Hlp : layout (x + 12 + size) post HEAP_END).
  { apply layout_app in Hlay as (b & _ & Hb). simpl in Hb. destruct Hb as (_ & _ & <- & _ & Hb). done. }
  destruct (relink_next h4 x c post) as [R1 R2];
    [done|eapply in_heap_sub; [|by apply layout_in_heap]; set_solver|by eapply layout_spaced|
     by eapply layout_NoDup|apply fit_no_adj|done|].
  split_and!; [done|done| |by destruct post].
  eapply add_alloc_region_spec; [done|done|apply fit_no_adj|done|lia|done].
Qed.

Lemma fit_agree5 t : t ∈ pre ++ [tnew; new] -> hdr_agree h4 h5 t.
Proof.
  intros Ht. destruct fit_relink as (_ & F5 & _).
  assert (Hsub : take 1 post ⊆ post) by (destruct post; set_solver).
  pose proof (layout_NoDup _ _ _ fit_layout) as Hnd. unfold ts' in Hnd.
  replace (pre ++ tnew :: new :: post) with ((pre ++ [tnew; new]) ++ post) in Hnd by by rewrite <- app_assoc.
  apply NoDup_app in Hnd as (_ & Hdis & _).
  eapply (hdr_agree_frame ts' (take 1 post) (fun _ => False)); [apply layout_in_heap, fit_layout|
    by eapply layout_spaced, fit_layout|set_solver|set_solver|set_solver| |tauto].
  eapply frame_mono; [|exact F5]. auto.
Qed.

Lemma fit_headers : headers h5 NULL ts'.
Proof.
  destruct fit_headers4 as (Hp & Hn & _). destruct fit_relink as (Hq & _). destruct fit_fields as [Hx _].
  apply headers_app. split.
  - eapply headers_agree; [|done]. intros t Ht. apply fit_agree5. set_solver.
  - assert (Hm : headers h5 (last0 NULL pre) [tnew; new]).
    { eapply headers_agree with (h := h4); [intros t Ht; apply fit_agree5; set_solver|]. by split_and!. }
    by destruct Hm as (? & ? & _).
Qed.

Lemma fit_lseg : lseg h5 (index_head h5) (l3 ++ tnew :: l4).
Proof.
  destruct fit_relink as (_ & F5 & _ & ->). apply lseg_ext with (h := h3); [|done].
  intros t Ht. pose proof fit_sub as Hsub. pose proof (layout_spaced _ _ _ fit_layout) as Hsp.
  assert (Hts : t ∈ ts' /\ tfr t = true).
  { apply elem_of_app in Ht as [Ht|[->|Ht]%elem_of_cons]; [|split; [set_solver|done]|];
      (split; [|apply fit_free; rewrite He; set_solver]);
      assert (Ht' : t ∈ l1 ++ l2) by (rewrite He; set_solver); set_solver. }
  destruct Hts as [Hts Hfr]. pose proof (proj1 (in_heap_fits _ _ (layout_in_heap _ fit_layout) Hts)) as Htf.
  transitivity (hd_link h4 (ta t)).
  - eapply frame_link; [exact F5|done|]. intros y Hy (u & Hu & Hyu).
    assert (Hup : u ∈ post /\ tfr u = false).
    { pose proof fit_no_adj as Hna. destruct post as [|v post']; [set_solver|].
      simpl in Hu, Hna. rewrite take_0 in Hu. set_solver. }
    destruct (Hsp t u) as [->|]; [done|set_solver|naive_solver congruence|consts; lia].
  - eapply frame_link; [by apply frame_CREATE, fit_x|done|]. intros y Hy Hyx.
    destruct (Hsp t new) as [->|]; [done|set_solver|done|]. simpl in *. consts. lia.
Qed.

Lemma fit_frame : frame (hdr_bytes ts') h h5.
Proof.
  destruct fit_relink as (_ & F5 & _). pose proof fit_sub.
  eapply frame_mono; [|eapply frame_or; [exact fit_F4|exact F5]].
  intros y [[(u & Hu & Hy)|[Hy|Hy]]|(u & Hu & Hy)].
  - exists u. split; [set_solver|lia].
  - exists tnew. split; [set_solver|simpl; lia].
  - exists new. split; [set_solver|simpl; lia].
  - exists u. split; [|lia]. destruct post; set_solver.
Qed.

Lemma fit_perm : l3 ++ tnew :: l4 ≡ₚ free_tiles ts'.
Proof.
  pose proof (hr_perm _ _ _ Hr) as Hp. unfold ts, ts' in *. rewrite free_tiles_app in *.
  rewrite free_tiles_cons_true in Hp by done. rewrite free_tiles_cons_true, free_tiles_cons_false by done.
  rewrite <- !Permutation_middle in Hp |- *. apply Permutation_cons_inv in Hp.
  by rewrite <- Hp, He.
Qed.

Lemma fit_repr : heap_repr h5 ts' (l3 ++ tnew :: l4).
Proof.
  split; [apply fit_layout|apply fit_headers| | |apply fit_perm|done|apply fit_lseg].
  - eapply first_free_app; [apply Hr|done].
  - pose proof (hr_noadj _ _ _ Hr) as [H1 H2]%no_adj_app. apply no_adj_app. simpl in *.
    split; [done|]. split_and!; [tauto|done|]. pose proof fit_no_adj as H.
    destruct post as [|t post']; simpl in *; tauto.
Qed.
End Publish.
End Fit.

(** ** [kmalloc] *)

(** What an allocation of [size] bytes may do to the tiles: nothing when no
    free region holds [size] bytes and a header, else cut the new region off
    the upper end of a smallest region that is large enough. *)
Inductive malloc_step (size : Z) (ts : list tile) : Z -> list tile -> Prop :=
| malloc_none :
    (forall t, t ∈ free_tiles ts -> tsz t < size + 12) ->
    malloc_step size ts NULL ts
| malloc_split pre c s post :
    ts = pre ++ Tile c s true :: post ->
    size + 12 <= s ->
    (forall t, t ∈ free_tiles ts -> size + 12 <= tsz t -> s <= tsz t) ->
    malloc_step size ts (c + s - size + 12)
      (pre ++ Tile c (s - size - 12) true :: Tile (c + s - size) size false :: post).

Lemma ascending_min l1 t l2 u b :
  ascending (l1 ++ t :: l2) -> Forall (fun v => tsz v < b) l1 -> u ∈ l1 ++ t :: l2 ->
  b <= tsz u -> tsz t <= tsz u.
Proof.
  intros (_ & _ & H3)%StronglySorted_app Hf Hu Hb. rewrite Forall_forall in Hf.
  apply StronglySorted_inv in H3 as [_ H3]. rewrite Forall_forall in H3.
  apply elem_of_app in Hu as [Hu|[->|Hu]%elem_of_cons]; [|lia|by apply H3].
  specialize (Hf u Hu). lia.
Qed.

Lemma kmalloc_refines fuel size h ts fl :
  heap_repr h ts fl -> (length ts < fuel)%nat -> 0 <= size -> size + 12 < 4294967296 ->
  exists a h' ts' fl', kmalloc fuel size h = Ok (a, h') /\ malloc_step size ts a ts' /\
    heap_repr h' ts' fl' /\ frame (hdr_bytes ts') h h' /\ (a = NULL -> h' = h).
Proof.
  intros Hr Hf Hs0 Hs1. pose proof (layout_in_heap _ (hr_layout _ _ _ Hr)) as Hin.
  assert (Hsub : fl ⊆ ts) by (intros t Ht; by apply (repr_elem _ _ _ t Hr)).
  pose proof (repr_fl_length _ _ _ Hr) as Hlen.
  destruct (scan_spec fuel h (size + 12) NULL (index_head h) fl) as (l1 & l2 & -> & Hsc & H1 & H2);
    [apply Hr|by eapply in_heap_sub|intros t Ht; eapply headers_size; [apply Hr|set_solver]|lia|].
  unfold kmalloc. rewrite wrap32_small by lia. rewrite Hsc. simpl.
  destruct l2 as [|[c s f] l2].
  - rewrite app_nil_r in *. eexists _, _, _, _. split_and!; [done| |done|apply frame_refl|done].
    constructor. intros t Ht%free_tiles_elem%(repr_elem _ _ _ t Hr).
    rewrite Forall_forall in H1. by apply H1.
  - assert (Hc : Tile c s f ∈ l1 ++ Tile c s f :: l2) by set_solver.
    apply (repr_elem _ _ _ _ Hr) in Hc as [Hfr Hc]. simpl in Hfr. subst f.
    pose proof (in_heap_fits _ _ Hin Hc) as (_ & _ & Hc0). simpl in Hc0 |- *. if_false.
    apply list_elem_of_split in Hc as (pre & post & ->). simpl in H2. apply Forall_inv in H2. simpl in H2.
    destruct (fit_shrink fuel size h pre post l1 l2 c s Hr Hf Hs0 H2)
      as (-> & h3 & l3 & l4 & -> & He & Ha & Hl & Hsz & F3).
    pose proof (fit_bounds fuel size h pre post l1 l2 c s Hr Hf Hs0 H2) as Hb.
    simpl. replace (GET_NEXT_HEADER h3 c) with (c + s - size)
      by (unfold GET_NEXT_HEADER; rewrite Hsz, wrap32_small; [lia|consts; lia]).
    destruct (fit_relink fuel size h pre post l1 l2 c s Hr Hf Hs0 H2 h3 l3 l4 He Ha Hl Hsz F3) as (_ & _ & -> & _).
    replace (MEM_ADD (c + s - size) 12) with (c + s - size + 12) by (unfold MEM_ADD; rewrite wrap32_small; [lia|consts; lia]).
    eexists _, _, _, _. split_and!; [done| |by eapply fit_repr|by eapply fit_frame|consts; lia].
    constructor; [done|done|]. intros t Ht%free_tiles_elem%(repr_elem _ _ _ t Hr) Hb'.
    exact (ascending_min _ _ _ _ _ (hr_asc _ _ _ Hr) H1 Ht Hb').
Qed.

(** ** [kfree] *)

Definition opt_addr (o : option tile) : Z := match o with Some t => ta t | None => NULL end.

Lemma ascending_remove l1 t l2 : ascending (l1 ++ t :: l2) -> ascending (l1 ++ l2).
Proof.
  intros (G1 & G2 & G3)%StronglySorted_app. apply StronglySorted_inv in G3 as [G3 _].
  apply StronglySorted_app. split_and!; [|done|done]. intros; apply G1; set_solver.
Qed.

(** Taking an optional region out of the free list. *)
Lemma unlink_region_spec fuel A h fl o :
  in_heap A -> spaced A -> fl ⊆ A -> NoDup fl -> ascending fl -> lseg h (index_head h) fl ->
  (forall t, o = Some t -> t ∈ fl) -> (length fl < fuel)%nat ->
  exists h' fl', unlink_region fuel h (opt_addr o) = Ok h' /\ fl ≡ₚ option_list o ++ fl' /\
    ascending fl' /\ lseg h' (index_head h') fl' /\ frame (link_bytes fl) h h'.
Proof.
  intros Hh Hs Hsub Hnd Ha Hl Ho Hf. unfold unlink_region. destruct o as [t|]; simpl.
  - specialize (Ho t eq_refl). assert (HtA : t ∈ A) by set_solver.
    pose proof (in_heap_fits _ _ Hh HtA) as (_ & _ & Ht0). if_false.
    apply list_elem_of_split in Ho as (l1 & l2 & ->).
    rewrite (find_prev_spec fuel h 0 (index_head h) l1 t l2); [|done| |rewrite length_app in Hf; lia].
    + destruct (del_free_region_spec A h l1 t l2) as [Hl' F]; [done..|].
      eexists _, (l1 ++ l2). split_and!; [done|by rewrite Permutation_middle|by eapply ascending_remove|done|].
      eapply frame_mono; [|exact F]. intros x (u & Hu & Hx). exists u. set_solver.
    + intros u Hu E. destruct (NoDup_elem_app_l _ _ _ Hnd) as [Hn _].
      destruct (Hs u t) as [->|]; [set_solver|done|done|consts; lia].
  - exists h, fl. split_and!; [done..|apply frame_refl].
Qed.

(** *** The last steps of [kfree]: the coalesced region [U] enters the list and
    the region above it is pointed back to it *)
Section Finish.
Context (fuel : nat) (h : heap) (pre : list tile) (U : tile) (rest : list tile) (q : Z) (fl : list tile).
Let ts := pre ++ U :: rest.
Context (Hlay : layout HEAP_START ts HEAP_END) (Hff : first_free ts) (Hna : no_adj false ts).
Context (HU : tfr U = true) (Hp : headers h NULL pre) (HhU : hdr h (last0 NULL pre) U).
Context (Hq : headers h q rest) (Hperm : fl ≡ₚ free_tiles (pre ++ rest)) (Hasc : ascending fl).
Context (Hl : lseg h (index_head h) fl) (Hf : (length ts < fuel)%nat).

Lemma fin_NoDup : U ∉ pre ++ rest /\ NoDup (pre ++ rest).
Proof.
  pose proof (layout_NoDup _ _ _ Hlay) as Hnd. unfold ts in Hnd.
  rewrite <- Permutation_middle in Hnd. by apply NoDup_cons in Hnd.
Qed.

Lemma fin_fl t : t ∈ fl -> t ∈ pre ++ rest /\ tfr t = true.
Proof. intros Ht. rewrite Hperm in Ht. apply free_tiles_elem in Ht. tauto. Qed.

Lemma fin_size t : t ∈ ts -> hd_size h (ta t) = tsz t.
Proof.
  intros Ht. unfold ts in Ht. apply elem_of_app in Ht as [Ht|[->|Ht]%elem_of_cons];
    [eapply headers_size; [exact Hp|done]|apply HhU|eapply headers_size; [exact Hq|done]].
Qed.

Lemma fin_no_adj : no_adj true rest.
Proof. unfold ts in Hna. apply no_adj_app in Hna as [_ [_ Hn]]. by rewrite HU in Hn. Qed.

Lemma fin_insert :
  exists h6 l3 l4, search_and_add_free_region fuel h (ta U) = Ok h6 /\ fl = l3 ++ l4 /\
    ascending (l3 ++ U :: l4) /\ lseg h6 (index_head h6) (l3 ++ U :: l4) /\
    frame (link_bytes (U :: fl)) h h6.
Proof.
  destruct fin_NoDup as [HnU Hnd]. pose proof fin_fl as Hfl.
  apply (search_and_add_spec fuel ts); [by apply layout_in_heap|by eapply layout_spaced|set_solver| |done| |done|].
  - apply NoDup_cons. split; [set_solver|]. rewrite Hperm. by apply NoDup_filter.
  - intros u Hu. apply fin_size. set_solver.
  - rewrite Hperm. pose proof (free_tiles_length (pre ++ rest)). unfold ts in Hf.
    rewrite !length_app in *. simpl in *. lia.
Qed.

Section Relink.
Context (h6 : heap) (l3 l4 : list tile) (He : fl = l3 ++ l4) (Ha : ascending (l3 ++ U :: l4)).
Context (Hl6 : lseg h6 (index_head h6) (l3 ++ U :: l4)) (F6 : frame (link_bytes (U :: fl)) h h6).
Let h7 := match rest with [] => h6 | t :: _ => set_link h6 (ta t) (ta U) end.

Lemma fin_agree t : t ∈ ts -> hdr_agree h h6 t.
Proof.
  intros Ht. pose proof fin_fl as Hfl.
  apply (hdr_agree_frame ts (U :: fl) (fun _ => False));
    [by apply layout_in_heap|by eapply layout_spaced|set_solver|done| | |tauto].
  - intros Hfr [->|Hi]%elem_of_cons; [congruence|]. apply Hfl in Hi as [_ ?]. congruence.
  - eapply frame_mono; [|exact F6]. auto.
Qed.

Lemma fin_rest_layout : layout (ta U + 12 + tsz U) rest HEAP_END /\ u32 (ta U) /\ 0 <= tsz U.
Proof.
  pose proof (layout_in_heap _ Hlay U ltac:(set_solver)).
  unfold ts in Hlay. apply layout_app in Hlay as (b & _ & <- & ? & Hb). consts. split_and!; [done|lia..].
Qed.

Lemma fin_relink : headers h7 (ta U) rest /\ frame (link_bytes (take 1 rest)) h6 h7 /\ index_head h7 = index_head h6.
Proof.
  destruct fin_rest_layout as (Hlr & Hu & _).
  destruct (relink_next h6 (ta U) q rest) as [R1 R2];
    [|eapply in_heap_sub; [|by apply layout_in_heap]; set_solver|by eapply layout_spaced|
     by eapply layout_NoDup|apply fin_no_adj|done|].
  - eapply headers_agree; [|done]. intros t Ht. apply fin_agree. set_solver.
  - split_and!; [done|done|by unfold h7; destruct rest].
Qed.

Lemma fin_code :
  (if negb (REACH_HEAP_END (GET_NEXT_HEADER h6 (ta U)))
   then set_link h6 (GET_NEXT_HEADER h6 (ta U)) (ta U) else h6) = h7.
Proof.
  destruct fin_rest_layout as (Hlr & Hu & Hs0). pose proof (layout_le _ _ _ Hlr).
  assert (Hs : hd_size h6 (ta U) = tsz U).
  { destruct (fin_agree U) as (_ & _ & -> & _); [set_solver|]. apply HhU. }
  unfold GET_NEXT_HEADER. rewrite Hs, wrap32_small by (consts; lia). unfold REACH_HEAP_END, h7.
  destruct rest as [|t rest']; simpl in Hlr.
  - rewrite (proj2 (Z.leb_le _ _)) by lia. done.
  - destruct Hlr as (-> & ? & Hlr%layout_le). rewrite (proj2 (Z.leb_gt _ _)) by lia. simpl. f_equal. lia.
Qed.

Lemma fin_agree7 t : t ∈ pre ++ [U] -> hdr_agree h6 h7 t.
Proof.
  intros Ht. destruct fin_relink as (_ & F7 & _).
  assert (Hsub : take 1 rest ⊆ rest) by (destruct rest; set_solver).
  pose proof (layout_NoDup _ _ _ Hlay) as Hnd. unfold ts in Hnd.
  replace (pre ++ U :: rest) with ((pre ++ [U]) ++ rest) in Hnd by by rewrite <- app_assoc.
  apply NoDup_app in Hnd as (_ & Hdis & _).
  apply (hdr_agree_frame ts (take 1 rest) (fun _ => False));
    [by apply layout_in_heap|by eapply layout_spaced|set_solver|set_solver|set_solver| |tauto].
  eapply frame_mono; [|exact F7]. auto.
Qed.

Lemma fin_headers : headers h7 NULL ts.
Proof.
  destruct fin_relink as (Hq7 & _).
  assert (Hm : headers h7 NULL (pre ++ [U])).
  { eapply headers_agree with (h := h6); [apply fin_agree7|].
    eapply headers_agree with (h := h); [intros t Ht; apply fin_agree; set_solver|].
    apply headers_app. by split_and!. }
  apply headers_app in Hm as [Hm1 [Hm2 _]]. apply headers_app. by split_and!.
Qed.

Lemma fin_lseg : lseg h7 (index_head h7) (l3 ++ U :: l4).
Proof.
  destruct fin_relink as (_ & F7 & ->). apply lseg_ext with (h := h6); [|done].
  intros t Ht. pose proof fin_fl as Hfl. pose proof (layout_spaced _ _ _ Hlay) as Hsp.
  assert (Hts : t ∈ ts /\ tfr t = true).
  { apply elem_of_app in Ht as [Ht|[->|Ht]%elem_of_cons]; [|split; [set_solver|done]|];
      destruct (Hfl t ltac:(set_solver)); set_solver. }
  destruct Hts as [Hts Hfr]. eapply frame_link; [exact F7|by eapply in_heap_fits, Hts; apply layout_in_heap|].
  intros y Hy (u & Hu & Hyu). assert (Hup : u ∈ rest /\ tfr u = false).
  { pose proof fin_no_adj as Hn. destruct rest as [|v rest']; [set_solver|].
    simpl in Hu, Hn. rewrite take_0 in Hu. set_solver. }
  destruct (Hsp t u) as [->|]; [done|set_solver|naive_solver congruence|consts; lia].
Qed.

Lemma fin_repr : heap_repr h7 ts (l3 ++ U :: l4) /\ frame (link_bytes ts) h h7.
Proof.
  destruct fin_relink as (_ & F7 & _). pose proof fin_fl as Hfl. split.
  - split; [done|apply fin_headers|done|done| |done|apply fin_lseg].
    unfold ts. rewrite free_tiles_app, free_tiles_cons_true by done.
    rewrite <- !Permutation_middle. by rewrite <- free_tiles_app, <- Hperm, He.
  - eapply frame_mono; [|eapply frame_or; [exact F6|exact F7]].
    intros y [(u & Hu & Hy)|(u & Hu & Hy)]; exists u; (split; [|done]); [set_solver|].
    destruct rest; set_solver.
Qed.
End Relink.

Lemma finish_free :
  exists h6 h' fl', search_and_add_free_region fuel h (ta U) = Ok h6 /\
    (if negb (REACH_HEAP_END (GET_NEXT_HEADER h6 (ta U)))
     then set_link h6 (GET_NEXT_HEADER h6 (ta U)) (ta U) else h6) = h' /\
    heap_repr h' ts fl' /\ frame (link_bytes ts) h h'.
Proof.
  destruct fin_insert as (h6 & l3 & l4 & Hr & He & Ha & Hl6 & F6).
  pose proof (fin_repr h6 l3 l4 He Ha Hl6 F6). exists h6. eexists _, (l3 ++ U :: l4). split_and!;
    [done|by eapply fin_code|tauto|tauto].
Qed.
End Finish.

(** The tiles after the region [a] of [s] bytes is freed: it is merged with
    the free regions below ([pt]) and above it. *)
Definition next_free (post : list tile) : option tile :=
  match post with u :: _ => if tfr u then Some u else None | [] => None end.
Definition prev_free (pt : tile) : option tile := if tfr pt then Some pt else None.
Definition rest_after (post : list tile) : list tile :=
  match next_free post with Some _ => tail post | None => post end.
Definition size_after (s : Z) (post : list tile) : Z :=
  match next_free post with Some u => s + (12 + tsz u) | None => s end.
Definition coalesce (pre : list tile) (pt : tile) (a s : Z) (post : list tile) : list tile :=
  if tfr pt then pre ++ Tile (ta pt) (tsz pt + (12 + size_after s post)) true :: rest_after post
  else pre ++ pt :: Tile a (size_after s post) true :: rest_after post.

Section Free.
Context (fuel : nat) (h : heap) (pre : list tile) (pt : tile) (a s : Z) (post fl : list tile).
Let t := Tile a s false.
Let ts := pre ++ pt :: t :: post.
Context (Hr : heap_repr h ts fl) (Hf : (length ts < fuel)%nat).

Lemma free_hdr : hd_link h a = ta pt /\ hd_size h a = s /\ hd_magic h a = 0x87 /\
  headers h NULL pre /\ hdr h (last0 NULL pre) pt /\ headers h a post.
Proof.
  pose proof (hr_headers _ _ _ Hr) as [Hp [Hpt [(T1 & T2 & T3 & T4) Hq]]]%headers_app. simpl in *.
  split_and!; auto; apply Hpt.
Qed.

Lemma free_bounds : HEAP_START <= a /\ 0 <= s /\ a + 12 + s <= HEAP_END /\
  layout (a + 12 + s) post HEAP_END /\ ta pt + 12 + tsz pt = a /\ HEAP_START <= ta pt /\ 0 <= tsz pt.
Proof.
  pose proof (hr_layout _ _ _ Hr) as Hl.
  pose proof (layout_elem _ _ _ t Hl ltac:(set_solver)). pose proof (layout_elem _ _ _ pt Hl ltac:(set_solver)).
  unfold ts in Hl. apply layout_app in Hl as (b & _ & Hb). simpl in Hb. destruct Hb as (<- & ? & <- & ? & Hb).
  simpl in *. split_and!; [lia|lia|lia|done|lia..].
Qed.

Lemma free_NoDup : pt ∉ pre /\ t ∉ pre /\ pt <> t /\ pt ∉ post /\ t ∉ post /\
  (forall u, u ∈ pre -> u ∉ post).
Proof.
  pose proof (layout_NoDup _ _ _ (hr_layout _ _ _ Hr)) as Hnd. unfold ts in Hnd.
  apply NoDup_app in Hnd as (_ & Hd & Hn). apply NoDup_cons in Hn as [Hn1 Hn].
  apply NoDup_cons in Hn as [Hn2 _]. split_and!; set_solver.
Qed.

(** The neighbours the code finds. *)
Lemma free_prev : (if hd_type h (hd_link h a) =? REGION_ALLOC then NULL else hd_link h a) = opt_addr (prev_free pt).
Proof.
  destruct free_hdr as (-> & _ & _ & _ & (T & _) & _). rewrite T. unfold prev_free. by destruct (tfr pt).
Qed.

Lemma free_next :
  (if REACH_HEAP_END (GET_NEXT_HEADER h a) || (hd_type h (GET_NEXT_HEADER h a) =? REGION_ALLOC)
   then NULL else GET_NEXT_HEADER h a) = opt_addr (next_free post).
Proof.
  destruct free_hdr as (_ & Hs & _ & _ & _ & Hq). destruct free_bounds as (? & ? & ? & Hl & _).
  unfold GET_NEXT_HEADER. rewrite Hs, wrap32_small by (consts; lia). unfold REACH_HEAP_END, next_free.
  destruct post as [|u post']; simpl in Hl.
  - rewrite (proj2 (Z.leb_le _ _)) by lia. done.
  - destruct Hl as (Hu & ? & Hl%layout_le). rewrite (proj2 (Z.leb_gt _ _)) by lia. simpl.
    destruct Hq as [(T & _) _]. replace (a + s + 12) with (ta u) by lia. rewrite T. by destruct (tfr u).
Qed.

(** Marking the region free and taking its free neighbours off the list. *)
Lemma free_unlink :
  exists h2 h3 fl3, unlink_region fuel (set_type h a REGION_FREE) (opt_addr (prev_free pt)) = Ok h2 /\
    unlink_region fuel h2 (opt_addr (next_free post)) = Ok h3 /\
    fl ≡ₚ option_list (prev_free pt) ++ option_list (next_free post) ++ fl3 /\
    ascending fl3 /\ lseg h3 (index_head h3) fl3 /\
    frame (fun y => y = a \/ link_bytes fl y) h h3 /\ hd_type h3 a = REGION_FREE.
Proof.
  pose proof (layout_in_heap _ (hr_layout _ _ _ Hr)) as Hin.
  pose proof (layout_spaced _ _ _ (hr_layout _ _ _ Hr)) as Hsp. pose proof (repr_NoDup _ _ _ Hr) as Hnd.
  assert (Hfl : forall u, u ∈ fl <-> tfr u = true /\ u ∈ ts) by (intros u; by apply (repr_elem h)).
  pose proof (repr_fl_length _ _ _ Hr) as Hlen. destruct free_NoDup as (_ & _ & _ & Hpn & _).
  pose proof (in_heap_fits _ t Hin ltac:(set_solver)) as (Haf & _). simpl in Haf.
  set (h1 := set_type h a REGION_FREE).
  assert (F1 : frame (fun y => y = a) h h1) by by apply frame_set_type.
  destruct (unlink_region_spec fuel ts h1 fl (prev_free pt)) as (h2 & fl2 & -> & P2 & A2 & L2 & F2);
    [done|done|intros u Hu; by apply Hfl|done|apply Hr| | |lia|].
  { apply lseg_ext with (h := h); [|apply Hr]. intros u Hu. eapply frame_link; [exact F1| |].
    - apply (in_heap_fits ts); [done|by apply Hfl].
    - intros y Hy ->. apply Hfl in Hu as [Hu1 Hu2]. destruct (Hsp u t) as [->|]; [done|set_solver|done|].
      simpl in *. consts. lia. }
  { unfold prev_free. intros u Hu. destruct (tfr pt) eqn:E; [|done]. injection Hu as <-. apply Hfl. set_solver. }
  assert (Hsub2 : forall u, u ∈ fl2 -> u ∈ fl) by (intros u Hu; rewrite P2; set_solver).
  destruct (unlink_region_spec fuel ts h2 fl2 (next_free post)) as (h3 & fl3 & E3 & P3 & A3 & L3 & F3);
    [done|done|intros u Hu; by apply Hfl, Hsub2| |done|done| | |].
  { rewrite P2 in Hnd. by apply NoDup_app in Hnd as (_ & _ & ?). }
  { unfold next_free. intros u Hu. destruct post as [|v post']; [done|]. destruct (tfr v) eqn:E; [|done].
    injection Hu as <-. assert (Hv : v ∈ fl) by (apply Hfl; set_solver). rewrite P2 in Hv.
    apply elem_of_app in Hv as [Hv|]; [|done]. unfold prev_free in Hv. destruct (tfr pt); set_solver. }
  { apply Permutation_length in P2. rewrite length_app in P2. lia. }
  assert (F13 : frame (link_bytes fl) h1 h3).
  { eapply frame_trans; [exact F2|]. eapply frame_mono; [|exact F3].
    intros y (u & Hu & Hy). exists u. split; [by apply Hsub2|done]. }
  exists h2, h3, fl3. split_and!; [done|done|by rewrite P2, P3|done|done|by eapply frame_or|].
  rewrite <- (hd_type_set h a REGION_FREE) by lia. fold h1.
  apply (fields_link_frame ts fl h1 h3 t); [done|done|intros u Hu; by apply Hfl|set_solver|done].
Qed.

(** Sizes of the coalesced region. *)
Let ua := if tfr pt then ta pt else a.
Let usz := if tfr pt then tsz pt + (12 + size_after s post) else size_after s post.

Lemma free_merged_bounds :
  layout (ua + 12 + usz) (rest_after post) HEAP_END /\ 0 <= usz /\ HEAP_START <= ua /\ ua + 12 + usz <= HEAP_END.
Proof.
  destruct free_bounds as (? & ? & ? & Hl & Hpt & ? & ?).
  assert (Hm : layout (a + 12 + size_after s post) (rest_after post) HEAP_END /\ s <= size_after s post).
  { unfold rest_after, size_after, next_free. destruct post as [|u post']; [split; [done|lia]|].
    destruct (tfr u); [|split; [done|lia]]. simpl in *. destruct Hl as (? & ? & Hl).
    replace (a + 12 + (s + (12 + tsz u))) with (a + 12 + s + 12 + tsz u) by lia. split; [done|lia]. }
  destruct Hm as [Hm ?]. assert (He : ua + 12 + usz = a + 12 + size_after s post).
  { unfold ua, usz. destruct (tfr pt); lia. }
  rewrite He. pose proof (layout_le _ _ _ Hm). unfold ua, usz in *. destruct (tfr pt); split_and!; (done || lia).
Qed.

Lemma next_free_elem u : next_free post = Some u -> u ∈ post.
Proof. unfold next_free. destruct post as [|v post']; [done|]. destruct (tfr v); [|done]. intros [= ->]. left. Qed.

Lemma free_resize h3 :
  (forall u, u ∈ ts -> hd_size h3 (ta u) = tsz u) ->
  let prev := opt_addr (prev_free pt) in let next := opt_addr (next_free post) in
  let unified_hd := if prev =? NULL then a else prev in
  let h4 := if prev =? NULL then h3
            else set_size h3 unified_hd (hd_size h3 unified_hd + (12 + hd_size h3 a)) in
  let h5 := if next =? NULL then h4
            else set_size h4 unified_hd (hd_size h4 unified_hd + (12 + hd_size h4 next)) in
  unified_hd = ua /\ hd_size h5 ua = usz /\ frame (fun y => ua + 4 <= y < ua + 8) h3 h5 /\
  index_head h5 = index_head h3.
Proof.
  intros Hsz. destruct free_merged_bounds as (_ & Hu0 & Hua & Hue). destruct free_bounds as (? & ? & ? & _ & Hpt & Hp0 & Hp1).
  pose proof (layout_in_heap _ (hr_layout _ _ _ Hr)) as Hin.
  assert (Hfa : fits ua 12) by (unfold fits; consts; lia).
  assert (Hpr : opt_addr (prev_free pt) = if tfr pt then ta pt else NULL) by (unfold prev_free; by destruct (tfr pt)).
  assert (Hun : (if opt_addr (prev_free pt) =? NULL then a else opt_addr (prev_free pt)) = ua).
  { rewrite Hpr. unfold ua. destruct (tfr pt); [|done].
    by rewrite (proj2 (Z.eqb_neq (ta pt) 0)) by (consts; lia). }
  cbn zeta. rewrite Hun. set (h4 := if opt_addr (prev_free pt) =? NULL then h3 else _).
  assert (H4 : hd_size h4 ua = (if tfr pt then tsz pt + (12 + s) else s) /\
    frame (fun y => ua + 4 <= y < ua + 8) h3 h4 /\ index_head h4 = index_head h3).
  { pose proof (Hsz t ltac:(set_solver)) as Ht. pose proof (Hsz pt ltac:(set_solver)) as Hpz. simpl in Ht.
    subst h4. rewrite Hpr. unfold ua in *. destruct (tfr pt); [|split_and!; [done|apply frame_refl|done]].
    rewrite (proj2 (Z.eqb_neq (ta pt) 0)) by (consts; lia). rewrite Ht, Hpz.
    split_and!; [apply hd_size_set; [done|consts; lia]|by apply frame_set_size|done]. }
  destruct H4 as (Hs4 & F4 & I4). split; [done|].
  destruct (next_free post) as [u|] eqn:En; simpl.
  - pose proof (next_free_elem u En) as Hu. pose proof (in_heap_fits _ u Hin ltac:(set_solver)) as (Huf & _ & Hu0').
    rewrite (proj2 (Z.eqb_neq (ta u) 0)) by done.
    assert (Hsu : hd_size h4 (ta u) = tsz u).
    { rewrite <- Hsz by set_solver. eapply frame_size; [exact F4|done|]. intros y Hy Hy2.
      destruct free_NoDup as (_ & _ & _ & Hn1 & Hn2 & _).
      pose proof (layout_spaced _ _ _ (hr_layout _ _ _ Hr)) as Hsp. unfold ua in Hy2. destruct (tfr pt).
      - destruct (Hsp pt u) as [->|]; [set_solver..|done|consts; lia].
      - destruct (Hsp t u) as [E|]; [set_solver..|rewrite <- E in Hu; done|simpl in *; consts; lia]. }
    assert (Husz : hd_size h4 ua + (12 + hd_size h4 (ta u)) = usz).
    { rewrite Hs4, Hsu. unfold usz, size_after. rewrite En. destruct (tfr pt); lia. }
    rewrite Husz. split_and!; [apply hd_size_set; [done|consts; lia]| |done].
    eapply frame_trans; [exact F4|by apply frame_set_size].
  - split_and!; [|done|done]. rewrite Hs4. unfold usz, size_after. by rewrite En.
Qed.

Lemma free_rest_no_adj : no_adj true (rest_after post).
Proof.
  pose proof (hr_noadj _ _ _ Hr) as [_ (_ & _ & Hn)]%no_adj_app. simpl in Hn.
  unfold rest_after, next_free. destruct post as [|u post']; [done|].
  simpl in Hn. destruct (tfr u) eqn:E; simpl; [tauto|]. rewrite E. tauto.
Qed.

Lemma free_rest_tiles : free_tiles post = option_list (next_free post) ++ free_tiles (rest_after post).
Proof.
  unfold rest_after, next_free. destruct post as [|u post']; [done|]. destruct (tfr u) eqn:E; [|done].
  simpl. by rewrite free_tiles_cons_true.
Qed.

Lemma free_rest_headers : exists q, headers h q (rest_after post).
Proof.
  destruct free_hdr as (_ & _ & _ & _ & _ & Hq). unfold rest_after, next_free. destruct post as [|u post']; [by exists a|].
  destruct (tfr u); [|by exists a]. destruct Hq as [_ Hq]. eauto.
Qed.

Lemma free_rest_sub : rest_after post ⊆ post.
Proof. unfold rest_after, next_free. destruct post as [|u post']; [set_solver|]. destruct (tfr u); set_solver. Qed.

Let pre0 := if tfr pt then pre else pre ++ [pt].
Let U := Tile ua usz true.

Lemma coalesce_eq : coalesce pre pt a s post = pre0 ++ U :: rest_after post.
Proof. unfold coalesce, pre0, U, ua, usz. destruct (tfr pt); [done|]. by rewrite <- app_assoc. Qed.

Lemma free_layout : layout HEAP_START (pre0 ++ U :: rest_after post) HEAP_END.
Proof.
  destruct free_merged_bounds as (Hm & ? & _ & _). pose proof (hr_layout _ _ _ Hr) as Hl.
  unfold ts in Hl. apply layout_app in Hl as (b & H1 & H2). simpl in H2. destruct H2 as (<- & ? & H2).
  apply layout_app. exists ua. split; [|by split_and!].
  unfold pre0, ua. destruct (tfr pt); [done|]. apply layout_app. exists (ta pt). split; [done|].
  simpl. split_and!; [done|done|]. simpl in H2. lia.
Qed.

Lemma free_shape : first_free (pre0 ++ U :: rest_after post) /\ no_adj false (pre0 ++ U :: rest_after post).
Proof.
  pose proof (hr_first _ _ _ Hr) as Hff. pose proof (hr_noadj _ _ _ Hr) as [N1 (N2 & N3 & _)]%no_adj_app.
  pose proof free_rest_no_adj as N4. unfold pre0. destruct (tfr pt) eqn:E.
  - split; [by eapply first_free_app|]. apply no_adj_app. simpl. by rewrite andb_true_r in *.
  - split.
    + rewrite <- app_assoc. eapply first_free_app; [exact Hff|]. intros ->.
      destruct Hff as (u & us & Hu & Hfu). unfold ts in Hu. simpl in Hu. injection Hu as <- _. congruence.
    + apply no_adj_app. rewrite last_snoc, E. split; [|done]. apply no_adj_app. simpl. by rewrite E, andb_false_r.
Qed.

Lemma free_perm fl3 :
  fl ≡ₚ option_list (prev_free pt) ++ option_list (next_free post) ++ fl3 ->
  fl3 ≡ₚ free_tiles (pre0 ++ rest_after post).
Proof.
  intros H3. pose proof (hr_perm _ _ _ Hr) as Hp. rewrite H3 in Hp.
  assert (Hts : free_tiles ts = free_tiles pre ++ option_list (prev_free pt) ++ option_list (next_free post)
    ++ free_tiles (rest_after post)).
  { unfold ts, prev_free. rewrite free_tiles_app, <- free_rest_tiles. f_equal.
    destruct (tfr pt) eqn:E; [rewrite free_tiles_cons_true by done|rewrite free_tiles_cons_false by done];
      by rewrite free_tiles_cons_false. }
  rewrite Hts in Hp. rewrite (Permutation_app_swap_app (free_tiles pre)) in Hp.
  apply Permutation_app_inv_l in Hp. rewrite (Permutation_app_swap_app (free_tiles pre)) in Hp.
  apply Permutation_app_inv_l in Hp. rewrite Hp. unfold pre0.
  destruct (tfr pt) eqn:E; rewrite !free_tiles_app; [done|].
  by rewrite free_tiles_cons_false, app_nil_r.
Qed.

Lemma free_headers h3 h5 :
  frame (fun y => y = a \/ link_bytes fl y) h h3 -> hd_type h3 a = REGION_FREE ->
  frame (fun y => ua + 4 <= y < ua + 8) h3 h5 -> hd_size h5 ua = usz ->
  headers h5 NULL pre0 /\ hdr h5 (last0 NULL pre0) U /\ exists q, headers h5 q (rest_after post).
Proof.
  intros F3 Ht3 F5 Hs5. pose proof (layout_in_heap _ (hr_layout _ _ _ Hr)) as Hin.
  pose proof (layout_spaced _ _ _ (hr_layout _ _ _ Hr)) as Hsp.
  assert (Hfl : forall u, u ∈ fl <-> tfr u = true /\ u ∈ ts) by (intros u; by apply (repr_elem h)).
  assert (F : frame (fun y => link_bytes fl y \/ (y = a \/ ua + 4 <= y < ua + 8)) h h5).
  { eapply frame_mono; [|eapply frame_or; [exact F3|exact F5]]. intros y. simpl. tauto. }
  destruct free_NoDup as (Np & Nt & Npt & Np2 & Nt2 & Nd). destruct free_hdr as (_ & _ & Hm & Hp & Hpt & _).
  assert (Hag : forall u, u ∈ ts -> u <> t -> (tfr pt = true -> u <> pt) -> hdr_agree h h5 u).
  { intros u Hu Hut Hupt. apply (hdr_agree_frame ts fl (fun y => y = a \/ ua + 4 <= y < ua + 8));
      [done|done|intros v Hv; by apply Hfl|done| |done|].
    - intros Hfr Hin2. apply Hfl in Hin2 as [? _]. congruence.
    - intros y Hy. destruct (Hsp u t) as [|A1]; [done|set_solver|done|]. simpl in A1.
      unfold ua. destruct (tfr pt); [|consts; lia].
      destruct (Hsp u pt) as [|A2]; [done|set_solver|exfalso; by apply Hupt|consts; lia]. }
  pose proof free_rest_sub as Hrs. destruct free_rest_headers as [q Hq].
  destruct free_bounds as (? & ? & ? & _ & Ha & _ & ?).
  assert (HU : forall y, ua <= y < ua + 4 -> y <> a -> ~ (link_bytes fl y \/ (y = a \/ ua + 4 <= y < ua + 8))).
  { intros y Hy Hya [(u & Hu & Hyu)|]; [|lia]. apply Hfl in Hu as [Hfu Hu]. unfold ua in Hy. destruct (tfr pt).
    - destruct (Hsp pt u) as [->|]; [set_solver|done|lia|consts; lia].
    - destruct (Hsp t u) as [<-|]; [set_solver|done|done|simpl in *; consts; lia]. }
  pose proof (proj1 (in_heap_fits _ U (layout_in_heap _ free_layout) ltac:(set_solver))) as Hfa. simpl in Hfa.
  split_and!; [|split_and!; simpl|].
  - unfold pre0. destruct (tfr pt) eqn:E; eapply headers_agree with (h := h);
      [intros u Hu; apply Hag; set_solver|done|intros u Hu; apply Hag; set_solver|].
    apply headers_app. by split_and!.
  - destruct (tfr pt) eqn:E.
    + rewrite (frame_type _ h h5 F ua Hfa) by (apply HU; unfold ua; rewrite ?E; lia).
      destruct Hpt as (T & _). by rewrite E in T.
    + rewrite (frame_type _ h3 h5 F5 ua Hfa) by lia. done.
  - rewrite (frame_magic _ h h5 F ua Hfa) by (apply HU; unfold ua; destruct (tfr pt); lia).
    unfold ua. destruct (tfr pt); [apply Hpt|done].
  - done.
  - done.
  - exists q. eapply headers_agree with (h := h); [|done]. intros u Hu. apply Hag; set_solver.
Qed.

Lemma free_sizes h3 u :
  frame (fun y => y = a \/ link_bytes fl y) h h3 -> u ∈ ts -> hd_size h3 (ta u) = tsz u.
Proof.
  intros F3 Hu. pose proof (layout_spaced _ _ _ (hr_layout _ _ _ Hr)) as Hsp.
  rewrite <- (headers_size h NULL ts u) by (done || apply Hr).
  eapply frame_size; [exact F3|by apply (in_heap_fits ts); [apply layout_in_heap, Hr|]|].
  intros y Hy [->|(v & Hv & Hyv)].
  - destruct (Hsp u t) as [->|]; [done|set_solver|simpl in Hy; lia|simpl in *; consts; lia].
  - apply (repr_elem h ts) in Hv as [_ Hv]; [|done]. destruct (Hsp u v) as [->|]; [done|done|lia|consts; lia].
Qed.

Lemma kfree_refines :
  exists h' fl', kfree fuel (a + 12) h = Ok h' /\ heap_repr h' (coalesce pre pt a s post) fl' /\
    frame (hdr_bytes ts) h h'.
Proof.
  destruct free_unlink as (h2 & h3 & fl3 & E2 & E3 & P3 & A3 & L3 & F3 & T3).
  pose proof (layout_spaced _ _ _ (hr_layout _ _ _ Hr)) as Hsp.
  pose proof (layout_in_heap _ (hr_layout _ _ _ Hr)) as Hin. destruct free_bounds as (? & ? & ? & _).
  unfold kfree. replace (wrap32 (a + 12 - R_HEADER_SIZE)) with a by (rewrite wrap32_small; consts; lia).
  rewrite free_prev, free_next, E2. simpl. rewrite E3. simpl.
  destruct (free_resize h3) as (Hun & Hs5 & F5 & I5); [intros u Hu; by apply free_sizes|].
  match type of Hs5 with hd_size ?H _ = _ => set (h5 := H) in * end. rewrite !Hun.
  destruct (free_headers h3 h5 F3 T3 F5 Hs5) as (Hp & HU & q & Hq). destruct free_shape as [Hff Hna].
  assert (Hua : exists v, v ∈ ts /\ ta v = ua) by (unfold ua; destruct (tfr pt); [exists pt|exists t]; set_solver).
  destruct Hua as (v & Hv & Hva).
  destruct (finish_free fuel h5 pre0 U (rest_after post) q fl3) as (h6 & h' & fl' & E6 & E7 & R & F6);
    [apply free_layout|done|done|done|done|done|done|by apply free_perm|done| | |].
  { rewrite I5. apply lseg_ext with (h := h3); [|done]. intros u Hu.
    assert (Huts : u ∈ ts) by (apply (repr_elem h ts fl u Hr); rewrite P3; set_solver).
    eapply frame_link; [exact F5|by apply (in_heap_fits ts)|]. intros y Hy. rewrite <- Hva.
    destruct (Hsp v u) as [->|]; [done|done|lia|consts; lia]. }
  { pose proof free_rest_sub. unfold ts, pre0, rest_after in *. destruct (next_free post), (tfr pt);
      destruct post; rewrite !length_app in *; simpl in *; lia. }
  simpl in E6. rewrite E6. simpl. simpl in E7. exists h', fl'. rewrite coalesce_eq. split_and!; [|done|].
  - by destruct (negb _); subst h'.
  - eapply frame_mono; [|eapply frame_or; [exact F3|eapply frame_or; [exact F5|exact F6]]].
    intros y [[->|(u & Hu & Hy)]|[Hy|(u & Hu & Hy)]].
    + exists t. split; [set_solver|simpl; lia].
    + exists u. split; [by apply (repr_elem h ts fl u Hr)|lia].
    + exists v. split; [done|lia].
    + assert (Hu' : exists w, w ∈ ts /\ ta w = ta u).
      { pose proof free_rest_sub. unfold pre0 in Hu. destruct (tfr pt);
          apply elem_of_app in Hu as [Hu|[->|Hu]%elem_of_cons]; [exists u|exists v|exists u|exists u|exists v|exists u]; set_solver. }
      destruct Hu' as (w & Hw & Hwu). exists w. split; [done|lia].
Qed.
End Free.
