(* ===== verification/MallocThm.v ===== *)
(** * What the kernel heap guarantees

    The properties of [kmalloc]/[kfree] a client relies on: refinement of the
    tile specification, safety of every sequence of calls that frees only
    live blocks, separation of the payloads, and the overflow of the size
    argument. *)
From S2P Require Import Prelude CMem Malloc MallocSpec.
Import Malloc.

(** ** Supporting lemmas *)

Lemma layout_addr_inj a ts e t u : layout a ts e -> t ∈ ts -> u ∈ ts -> ta t = ta u -> t = u.
Proof.
  intros Hl Ht Hu E. destruct (layout_spaced _ _ _ Hl t u) as [|]; [done|done|done|consts; lia].
Qed.

(** Changes that touch no header and leave [index_head] alone do not matter. *)
Lemma heap_repr_frame P h h' ts fl :
  frame P h h' -> index_head h' = index_head h -> (forall y, hdr_bytes ts y -> ~ P y) ->
  heap_repr h ts fl -> heap_repr h' ts fl.
Proof.
  intros F I HP Hr. pose proof (layout_in_heap _ (hr_layout _ _ _ Hr)) as Hin.
  assert (HP' : forall t y, t ∈ ts -> ta t <= y < ta t + 12 -> ~ P y).
  { intros t y Ht Hy. apply HP. by exists t. }
  assert (Hlk : forall t, t ∈ ts -> hd_link h' (ta t) = hd_link h (ta t)).
  { intros t Ht. eapply frame_link; [exact F|by eapply in_heap_fits|]. intros y Hy. apply (HP' t); [done|lia]. }
  destruct Hr as [H1 H2 H3 H4 H5 H6 H7]. split; [done| |done|done|done|done|].
  - eapply headers_agree; [|exact H2]. intros t Ht. pose proof (proj1 (in_heap_fits _ _ Hin Ht)).
    split_and!; [eapply frame_type|eapply frame_magic|eapply frame_size|intros _; by apply Hlk];
      first [done | apply (HP' t); [done|lia] | intros y Hy; apply (HP' t); [done|lia]].
  - rewrite I. apply lseg_ext with (h := h); [|done]. intros t Ht. apply Hlk.
    rewrite H5 in Ht. by apply free_tiles_elem in Ht as [_ ?].
Qed.

Definition init_tile : tile := Tile HEAP_START (HEAP_END - HEAP_START - 12) true.

Lemma init_heap_repr h : heap_repr (init_heap h) [init_tile] [init_tile].
Proof.
  unfold init_heap. simpl.
  destruct (CREATE_fields (mk_heap (hmem h) HEAP_START HEAP_START) HEAP_START REGION_FREE
    (HEAP_END - HEAP_START - 12) NULL) as (C1 & C2 & C3 & C4 & C5); [unfold fits; consts; lia|lia|consts; lia|lia|].
  unfold set_index_head. simpl. split.
  - simpl. split_and!; [done|consts; lia|consts; lia].
  - simpl. split; [|done]. split_and!; [done|done|done|done].
  - exists init_tile, []. done.
  - done.
  - unfold free_tiles. rewrite filter_cons_True by done. done.
  - repeat constructor.
  - simpl. split; [done|]. by rewrite C4.
Qed.

Lemma alloc_coalesce pre pt a s post u :
  layout HEAP_START (pre ++ pt :: Tile a s false :: post) HEAP_END -> tfr u = false ->
  u ∈ coalesce pre pt a s post <-> u ∈ pre ++ pt :: Tile a s false :: post /\ u <> Tile a s false.
Proof.
  intros Hl Hu. assert (Hr : u ∈ rest_after post <-> u ∈ post).
  { unfold rest_after, next_free. destruct post as [|v post']; [done|]. destruct (tfr v) eqn:E; [|done].
    simpl. rewrite elem_of_cons. split; [tauto|]. intros [->|]; [congruence|done]. }
  assert (Hn : Tile a s false ∉ pre /\ Tile a s false <> pt /\ Tile a s false ∉ post).
  { apply layout_NoDup in Hl. apply NoDup_app in Hl as (_ & Hd & Hl). apply NoDup_cons in Hl as [H1 Hl].
    apply NoDup_cons in Hl as [H2 _]. set_solver. }
  destruct Hn as (Hn1 & Hn2 & Hn3). unfold coalesce.
  destruct (tfr pt) eqn:E; rewrite !elem_of_app, !elem_of_cons, Hr; split.
  - intros [H|[->|H]]; [|done|]; (split; [tauto|]); by intros ->.
  - intros [[H|[->|[->|H]]] Hne]; [tauto|congruence|done|tauto].
  - intros [H|[->|[->|H]]]; [| |done|]; (split; [tauto|]); first [done|by intros ->].
  - intros [[H|[->|[->|H]]] Hne]; [tauto|tauto|done|tauto].
Qed.

Lemma first_alloc_prev ts a s :
  first_free ts -> Tile a s false ∈ ts -> exists pre pt post, ts = pre ++ pt :: Tile a s false :: post.
Proof.
  intros (t & ts' & -> & Ht) (l1 & l2 & E)%list_elem_of_split.
  destruct l1 as [|pt l1 _] using rev_ind; simpl in E.
  - injection E as -> _. done.
  - exists l1, pt, l2. by rewrite <- app_assoc in E.
Qed.

(** ** Clients of the allocator *)

(** A client holds the blocks [live] (data address and size).  It may ask for
    memory, give back a live block, and write into its live blocks. *)
Inductive client_step (fuel : nat) : heap * gmap Z Z -> heap * gmap Z Z -> Prop :=
| client_malloc size h live a h' :
    0 <= size -> size + 12 < 4294967296 -> kmalloc fuel size h = Ok (a, h') ->
    client_step fuel (h, live) (h', if a =? NULL then live else <[a := size]> live)
| client_free a s h live h' :
    live !! a = Some s -> kfree fuel a h = Ok h' ->
    client_step fuel (h, live) (h', delete a live)
| client_write a s x v h live :
    live !! a = Some s -> a <= x < a + s ->
    client_step fuel (h, live) (with_mem h (store8 (hmem h) x v), live).

(** The live blocks are the allocated regions. *)
Definition client_inv (st : heap * gmap Z Z) : Prop :=
  exists ts fl, heap_repr (fst st) ts fl /\
    forall a s, snd st !! a = Some s <-> Tile (a - 12) s false ∈ ts.

Lemma repr_fuel h ts fl (fuel : nat) : heap_repr h ts fl -> 349526 <= Z.of_nat fuel -> (length ts < fuel)%nat.
Proof.
  intros Hr Hf. pose proof (layout_length _ _ _ (hr_layout _ _ _ Hr)). unfold lenZ in *. consts. lia.
Qed.

Lemma client_malloc_inv size ts a ts' h' fl' (live : gmap Z Z) :
  malloc_step size ts a ts' -> heap_repr h' ts' fl' ->
  (forall b s, live !! b = Some s <-> Tile (b - 12) s false ∈ ts) ->
  forall b s, (if a =? NULL then live else <[a := size]> live) !! b = Some s <-> Tile (b - 12) s false ∈ ts'.
Proof.
  intros Hm Hr Hlive. destruct Hm as [_|pre c s0 post -> Hs _]; [done|]. intros b s.
  pose proof (hr_layout _ _ _ Hr) as Hl.
  pose proof (layout_elem _ _ _ (Tile c (s0 - size - 12) true) Hl ltac:(set_solver)) as Hc. simpl in Hc.
  rewrite (proj2 (Z.eqb_neq _ _)) by (consts; lia). rewrite lookup_insert. case_decide as E.
  - subst b. split.
    + intros [= <-]. replace (c + s0 - size + 12 - 12) with (c + s0 - size) by lia. set_solver.
    + intros Hin. f_equal.
      assert (Tile (c + s0 - size + 12 - 12) s false = Tile (c + s0 - size) size false) as [= _ <-]; [|done].
      eapply layout_addr_inj; [exact Hl|done|set_solver|simpl; lia].
  - rewrite Hlive. split; intros Hin.
    + apply elem_of_app in Hin as [|[|]%elem_of_cons]; [set_solver|done|set_solver].
    + apply elem_of_app in Hin as [|[|[Hx|]%elem_of_cons]%elem_of_cons]; [set_solver|done| |set_solver].
      injection Hx as Hx _. exfalso. apply E. lia.
Qed.

Lemma client_free_inv ts fl h pre pt a s post h' fl' (live : gmap Z Z) :
  heap_repr h ts fl -> ts = pre ++ pt :: Tile (a - 12) s false :: post ->
  heap_repr h' (coalesce pre pt (a - 12) s post) fl' ->
  (forall b s', live !! b = Some s' <-> Tile (b - 12) s' false ∈ ts) ->
  forall b s', delete a live !! b = Some s' <-> Tile (b - 12) s' false ∈ coalesce pre pt (a - 12) s post.
Proof.
  intros Hr -> Hr' Hlive b s'. pose proof (hr_layout _ _ _ Hr) as Hl.
  rewrite alloc_coalesce by done. rewrite <- Hlive. rewrite lookup_delete. case_decide as E; [subst b|].
  - split; [done|]. intros [Hin Hne]. exfalso. apply Hne.
    eapply layout_addr_inj; [exact Hl|by apply Hlive|set_solver|done].
  - split; [|tauto]. intros H. split; [done|]. intros [= ? _]. apply E. lia.
Qed.

Lemma client_inv_init h : client_inv (init_heap h, ∅).
Proof.
  exists [init_tile], [init_tile]. split; [apply init_heap_repr|]. intros a s. simpl.
  rewrite lookup_empty. split; [done|]. by intros [= _ _]%list_elem_of_singleton.
Qed.

Lemma client_inv_step fuel st st' :
  349526 <= Z.of_nat fuel -> client_inv st -> client_step fuel st st' -> client_inv st'.
Proof.
  intros Hf (ts & fl & Hr & Hlive) Hs.
  destruct Hs as [size h live a h' H0 H1 Hk|a s h live h' Ha Hk|a s x v h live Ha Hx]; simpl in *.
  - destruct (kmalloc_refines fuel size h ts fl) as (a' & h'' & ts' & fl' & Hk' & Hm & Hr' & _);
      [done|by eapply repr_fuel|done|done|]. rewrite Hk in Hk'. injection Hk' as <- <-.
    exists ts', fl'. split; [done|]. simpl. eapply client_malloc_inv; [exact Hm|exact Hr'|exact Hlive].
  - apply Hlive in Ha as Hin. apply first_alloc_prev in Hin as (pre & pt & post & Hts); [|apply Hr].
    pose proof (repr_fuel _ _ _ _ Hr Hf) as Hlen. rewrite Hts in Hr, Hlen.
    destruct (kfree_refines fuel h pre pt (a - 12) s post fl Hr Hlen) as (h'' & fl' & Hk' & Hr' & _).
    replace (a - 12 + 12) with a in Hk' by lia. rewrite Hk in Hk'. injection Hk' as <-.
    exists (coalesce pre pt (a - 12) s post), fl'. split; [done|]. simpl. rewrite Hts in Hlive.
    eapply client_free_inv; [exact Hr|done|exact Hr'|exact Hlive].
  - exists ts, fl. split; [|done]. simpl. apply Hlive in Ha. pose proof (hr_layout _ _ _ Hr) as Hl.
    pose proof (layout_elem _ _ _ _ Hl Ha) as Hb. simpl in Hb.
    eapply (heap_repr_frame (fun y => y = x) h); [|done| |exact Hr].
    + intros y Hy Hne. apply load8_store8_ne; [consts; lia|done|done].
    + intros y (t & Ht & Hy) ->. pose proof (layout_elem _ _ _ _ Hl Ht).
      destruct (layout_disjoint _ _ _ _ _ Hl Ht Ha) as [->|]; simpl in *; lia.
Qed.

Lemma client_inv_reachable fuel h0 st :
  349526 <= Z.of_nat fuel -> rtc (client_step fuel) (init_heap h0, ∅) st -> client_inv st.
Proof.
  intros Hf Hs. remember (init_heap h0, ∅) as st0 eqn:E.
  assert (Hi : client_inv st0) by (subst; apply client_inv_init). clear E.
  induction Hs as [|st1 st2 st3 H12 _ IH]; [done|]. apply IH. by eapply client_inv_step.
Qed.

(** ** Properties *)

(** C1. Whatever a client does that only frees and writes its own live blocks,
    starting from a freshly initialised heap: the heap invariant holds, the
    live blocks lie inside the heap and are disjoint (a header's distance
    apart), and the next [kmalloc] and the [kfree] of any live block return
    (they neither loop for ever nor follow a broken link). *)
Theorem heap_client_safe fuel h0 h live :
  349526 <= Z.of_nat fuel -> rtc (client_step fuel) (init_heap h0, ∅) (h, live) ->
  heap_inv h /\
  (forall a s, live !! a = Some s -> HEAP_START + 12 <= a /\ 0 <= s /\ a + s <= HEAP_END) /\
  (forall a s b s', live !! a = Some s -> live !! b = Some s' -> a <> b ->
     a + s <= b - 12 \/ b + s' <= a - 12) /\
  (forall size, 0 <= size -> size + 12 < 4294967296 -> is_Ok (kmalloc fuel size h) = true) /\
  (forall a s, live !! a = Some s -> is_Ok (kfree fuel a h) = true).
Proof.
  intros Hf Hs. destruct (client_inv_reachable _ _ _ Hf Hs) as (ts & fl & Hr & Hlive). simpl in *.
  pose proof (hr_layout _ _ _ Hr) as Hl. pose proof (repr_fuel _ _ _ _ Hr Hf) as Hlen. split_and!.
  - by exists ts, fl.
  - intros a s Ha%Hlive. pose proof (layout_elem _ _ _ _ Hl Ha). simpl in *. lia.
  - intros a s b s' Ha%Hlive Hb%Hlive Hne.
    destruct (layout_disjoint _ _ _ _ _ Hl Ha Hb) as [[= ? _]|]; simpl in *; lia.
  - intros size H0 H1. by destruct (kmalloc_refines fuel size h ts fl Hr Hlen H0 H1) as (? & ? & ? & ? & -> & _).
  - intros a s Ha%Hlive. apply first_alloc_prev in Ha as (pre & pt & post & ->); [|apply Hr].
    destruct (kfree_refines fuel h pre pt (a - 12) s post fl Hr Hlen) as (h' & ? & Hk & _).
    replace (a - 12 + 12) with a in Hk by lia. by rewrite Hk.
Qed.

(** C23. [kmalloc] is a best-fit allocator: it returns NULL and changes nothing
    exactly when no free region holds the request and a header; otherwise it
    cuts the block off the upper end of a smallest sufficient free region. *)
Theorem kmalloc_best_fit fuel size h ts fl :
  heap_repr h ts fl -> (length ts < fuel)%nat -> 0 <= size -> size + 12 < 4294967296 ->
  exists a h' ts' fl', kmalloc fuel size h = Ok (a, h') /\ malloc_step size ts a ts' /\
    heap_repr h' ts' fl' /\ (a = NULL -> h' = h).
Proof.
  intros Hr Hf H0 H1.
  destruct (kmalloc_refines fuel size h ts fl Hr Hf H0 H1) as (a & h' & ts' & fl' & ? & ? & ? & _ & ?).
  by exists a, h', ts', fl'.
Qed.

(** The heap of the witnesses: zeroed memory, initialised. *)
Definition heap0 : heap := init_heap (mk_heap ∅ 0 0).

Lemma kmalloc_best_fit_witness :
  exists a h' ts' fl', kmalloc 2 8 heap0 = Ok (a, h') /\ malloc_step 8 [init_tile] a ts' /\
    heap_repr h' ts' fl' /\ (a = NULL -> h' = heap0).
Proof.
  apply (kmalloc_best_fit 2 8 heap0 [init_tile] [init_tile]); [apply init_heap_repr|simpl; lia|lia|lia].
Defined.

Lemma heap_client_safe_witness :
  heap_inv heap0 /\ (forall size, 0 <= size -> size + 12 < 4294967296 ->
    is_Ok (kmalloc (Z.to_nat 349526) size heap0) = true).
Proof.
  destruct (heap_client_safe (Z.to_nat 349526) (mk_heap ∅ 0 0) heap0 ∅) as (H1 & _ & _ & H4 & _);
    [lia|apply rtc_refl|]. by split.
Defined.

(** C24. [kfree] of an allocated region returns and coalesces: the region is
    merged with the free region below it and with the free region above it,
    so that no two neighbouring regions are ever free. *)
Theorem kfree_coalesces fuel h pre pt a s post fl :
  heap_repr h (pre ++ pt :: Tile a s false :: post) fl ->
  (length (pre ++ pt :: Tile a s false :: post) < fuel)%nat ->
  exists h' fl', kfree fuel (a + 12) h = Ok h' /\ heap_repr h' (coalesce pre pt a s post) fl'.
Proof.
  intros Hr Hf. destruct (kfree_refines fuel h pre pt a s post fl Hr Hf) as (h' & fl' & ? & ? & _).
  by exists h', fl'.
Qed.

(** C25. Neither [kmalloc] nor [kfree] changes a byte of the data of any
    allocated region. *)
Theorem heap_keeps_payload fuel h ts fl t :
  heap_repr h ts fl -> (length ts < fuel)%nat -> t ∈ ts -> tfr t = false ->
  (forall size a h', 0 <= size -> size + 12 < 4294967296 -> kmalloc fuel size h = Ok (a, h') ->
     same_on (ta t + 12) (ta t + 12 + tsz t) (hmem h) (hmem h')) /\
  (forall u h', u ∈ ts -> tfr u = false -> kfree fuel (ta u + 12) h = Ok h' ->
     same_on (ta t + 12) (ta t + 12 + tsz t) (hmem h) (hmem h')).
Proof.
  intros Hr Hf Ht Hal. pose proof (hr_layout _ _ _ Hr) as Hl. pose proof (layout_elem _ _ _ _ Hl Ht) as Hb.
  assert (Hdis : forall ts', layout HEAP_START ts' HEAP_END -> t ∈ ts' -> forall h', frame (hdr_bytes ts') h h' ->
    same_on (ta t + 12) (ta t + 12 + tsz t) (hmem h) (hmem h')).
  { intros ts' Hl' Ht' h' F x Hx. apply F; [consts; lia|]. intros (v & Hv & Hy).
    pose proof (layout_elem _ _ _ _ Hl' Hv). destruct (layout_disjoint _ _ _ _ _ Hl' Ht' Hv) as [->|]; lia. }
  split.
  - intros size a h' H0 H1 Hk.
    destruct (kmalloc_refines fuel size h ts fl Hr Hf H0 H1) as (a' & h'' & ts' & fl' & Hk' & Hm & Hr' & F & _).
    rewrite Hk in Hk'. injection Hk' as <- <-. apply (Hdis ts'); [apply Hr'| |done].
    destruct Hm as [|pre c s post -> _ _]; [done|].
    apply elem_of_app in Ht as [|[->|]%elem_of_cons]; [set_solver|done|set_solver].
  - intros [ua us uf] h' Hu Hfr Hk. simpl in Hfr, Hk. subst uf.
    apply first_alloc_prev in Hu as (pre & pt & post & ->); [|apply Hr].
    destruct (kfree_refines fuel h pre pt ua us post fl Hr Hf) as (h'' & fl' & Hk' & _ & F).
    rewrite Hk in Hk'. injection Hk' as <-. by eapply Hdis.
Qed.

(** A heap with one allocated block of 8 bytes, for the witnesses. *)
Definition heap1 : heap := match kmalloc 2 8 heap0 with Ok (_, h) => h | _ => heap0 end.
Definition tiles1 : list tile :=
  [Tile HEAP_START (HEAP_END - HEAP_START - 32) true; Tile (HEAP_END - 20) 8 false].

Lemma heap1_repr : heap_repr heap1 tiles1 [Tile HEAP_START (HEAP_END - HEAP_START - 32) true].
Proof.
  split.
  - simpl. consts. lia.
  - split; [|split; [|done]]; (split_and!; [vm_compute; reflexivity..|]).
    + done.
    + intros _. vm_compute. reflexivity.
  - by eexists _, _.
  - done.
  - unfold free_tiles, tiles1. by rewrite filter_cons_True, filter_cons_False.
  - repeat constructor.
  - split; vm_compute; reflexivity.
Qed.

Lemma kfree_coalesces_witness :
  exists h' fl', kfree 3 (HEAP_END - 20 + 12) heap1 = Ok h' /\
    heap_repr h' (coalesce [] (Tile HEAP_START (HEAP_END - HEAP_START - 32) true) (HEAP_END - 20) 8 []) fl'.
Proof.
  exact (kfree_coalesces 3 heap1 [] _ (HEAP_END - 20) 8 [] _ heap1_repr ltac:(simpl; lia)).
Defined.

Definition block1 : tile := Tile (HEAP_END - 20) 8 false.

Lemma heap_keeps_payload_witness :
  exists h', kfree 3 (ta block1 + 12) heap1 = Ok h' /\
    same_on (ta block1 + 12) (ta block1 + 12 + tsz block1) (hmem heap1) (hmem h').
Proof.
  destruct (kfree 3 (ta block1 + 12) heap1) as [h'| |] eqn:E; [|vm_compute in E; discriminate E..].
  exists h'. split; [reflexivity|]. revert E. apply (heap_keeps_payload 3 heap1 tiles1 _ block1 heap1_repr);
    [simpl; lia|right; left|done|right; left|done].
Defined.

Lemma coalesce_split pre c s size post :
  no_adj true post -> 
  coalesce pre (Tile c (s - size - 12) true) (c + s - size) size post = pre ++ Tile c s true :: post.
Proof.
  intros Hn. unfold coalesce, size_after, rest_after, next_free. simpl.
  destruct post as [|u post]; [do 2 f_equal; f_equal; lia|].
  destruct Hn as [Hu _]. simpl in Hu. rewrite Hu. do 2 f_equal. f_equal. lia.
Qed.

(** Freeing a block right after it was allocated gives the heap its
    regions back: the tiles are the ones before the allocation. *)
Theorem kmalloc_kfree_roundtrip fuel size h ts fl a h1 :
  heap_repr h ts fl -> (S (length ts) < fuel)%nat -> 0 <= size -> size + 12 < 4294967296 ->
  kmalloc fuel size h = Ok (a, h1) -> a <> NULL ->
  exists h2 fl2, kfree fuel a h1 = Ok h2 /\ heap_repr h2 ts fl2.
Proof.
  intros Hr Hf H0 H1 Hk Ha.
  destruct (kmalloc_refines fuel size h ts fl Hr ltac:(lia) H0 H1) as (a' & h' & ts' & fl' & Hk' & Hm & Hr' & _).
  rewrite Hk in Hk'. injection Hk' as <- <-. destruct Hm as [|pre c s post -> Hs _]; [done|].
  destruct (kfree_refines fuel h1 pre (Tile c (s - size - 12) true) (c + s - size) size post fl' Hr')
    as (h2 & fl2 & Hk2 & Hr2 & _); [rewrite length_app in *; simpl in *; lia|].
  pose proof (hr_noadj _ _ _ Hr) as [_ [_ Hn]]%no_adj_app. simpl in Hn.
  rewrite (coalesce_split pre c s size post Hn) in Hr2. by exists h2, fl2.
Qed.

Lemma kmalloc_kfree_roundtrip_witness :
  exists h2 fl2, kfree 9 (HEAP_END - 8) heap1 = Ok h2 /\ heap_repr h2 [init_tile] fl2.
Proof.
  apply (kmalloc_kfree_roundtrip 9 8 heap0 [init_tile] [init_tile]);
    [apply init_heap_repr|simpl; lia|lia|lia|vm_compute; reflexivity|consts; lia].
Defined.

(** C26. No leak: when a client has given every block back, the heap is again
    one free region of the initial size, whatever happened in between. *)
Theorem heap_no_leak fuel h0 h :
  349526 <= Z.of_nat fuel -> rtc (client_step fuel) (init_heap h0, ∅) (h, ∅) ->
  heap_repr h [init_tile] [init_tile].
Proof.
  intros Hf Hs. destruct (client_inv_reachable _ _ _ Hf Hs) as (ts & fl & Hr & Hlive). simpl in *.
  assert (Hfree : forall t, t ∈ ts -> tfr t = true).
  { intros [b s f] Ht. destruct f; [done|]. specialize (Hlive (b + 12) s). rewrite lookup_empty in Hlive.
    replace (b + 12 - 12) with b in Hlive by lia. by apply Hlive in Ht. }
  assert (Hts : ts = [init_tile]).
  { destruct (hr_first _ _ _ Hr) as (t & ts' & -> & Ht). pose proof (hr_noadj _ _ _ Hr) as [_ Hn].
    pose proof (hr_layout _ _ _ Hr) as (Hta & _ & Hl). destruct ts' as [|u ts'].
    - simpl in Hl. destruct t as [b s f]. simpl in *. subst. unfold init_tile. do 2 f_equal. lia.
    - destruct Hn as [Hn _]. rewrite Ht, (Hfree u) in Hn by set_solver. done. }
  subst ts. assert (fl = [init_tile]) as ->; [|done].
  apply Permutation_singleton_r. rewrite (hr_perm _ _ _ Hr). unfold free_tiles. by rewrite filter_cons_True.
Qed.

(** The run of the witness: one block is taken and given back. *)
Lemma take_and_give_back fuel h0 :
  349526 <= Z.of_nat fuel ->
  exists a h1 h2, a <> NULL /\ kmalloc fuel 8 (init_heap h0) = Ok (a, h1) /\ kfree fuel a h1 = Ok h2 /\
    rtc (client_step fuel) (init_heap h0, ∅) (h2, ∅).
Proof.
  intros Hf. pose proof (init_heap_repr h0) as Hr. pose proof (repr_fuel _ _ _ _ Hr Hf) as Hlen.
  destruct (kmalloc_refines fuel 8 _ _ _ Hr Hlen) as (a & h1 & ts' & fl' & Hk & Hm & Hr' & _); [lia|lia|].
  destruct Hm as [Hno|pre c s post E Hs _].
  { specialize (Hno init_tile). unfold free_tiles in Hno. rewrite filter_cons_True in Hno by done.
    specialize (Hno ltac:(left)). simpl in Hno. consts. lia. }
  set (a := c + s - 8 + 12) in *.
  pose proof (hr_layout _ _ _ Hr') as Hl. pose proof (layout_elem _ _ _ (Tile c (s - 8 - 12) true) Hl ltac:(set_solver)) as Hc.
  simpl in Hc. assert (Ha : a <> NULL) by (unfold a; consts; lia).
  destruct (kfree_refines fuel h1 pre (Tile c (s - 8 - 12) true) (c + s - 8) 8 post fl' Hr') as (h2 & fl2 & Hk2 & _).
  { by eapply repr_fuel. }
  exists a, h1, h2. split_and!; [done|done|done|].
  eapply rtc_l; [apply (client_malloc fuel 8); [lia|lia|exact Hk]|]. rewrite (proj2 (Z.eqb_neq _ _)) by done.
  eapply rtc_l; [eapply (client_free fuel a 8); [apply lookup_insert_eq|exact Hk2]|].
  rewrite delete_insert_id by apply lookup_empty. apply rtc_refl.
Qed.

Lemma heap_no_leak_witness :
  exists a h1 h2, a <> NULL /\ kmalloc (Z.to_nat 349526) 8 heap0 = Ok (a, h1) /\
    kfree (Z.to_nat 349526) a h1 = Ok h2 /\ heap_repr h2 [init_tile] [init_tile].
Proof.
  destruct (take_and_give_back (Z.to_nat 349526) (mk_heap ∅ 0 0) ltac:(lia)) as (a & h1 & h2 & Ha & H1 & H2 & Hs).
  exists a, h1, h2. split; [exact Ha|]. split; [exact H1|]. split; [exact H2|].
  apply (heap_no_leak (Z.to_nat 349526) (mk_heap ∅ 0 0)); [lia|exact Hs].
Defined.

(** ** Sizes that wrap *)

Lemma store32_wraps m a v : store32 m a (v - 4294967296) = store32 m a v.
Proof.
  unfold store32, store8. assert (E : forall n q, 0 < n -> n * 256 * q = 4294967296 ->
    wrap8 ((v - 4294967296) / n) = wrap8 (v / n)).
  { intros n q Hn Hq. replace (v - 4294967296) with (v + (- (256 * q)) * n) by lia. rewrite Z.div_add by lia.
    unfold wrap8. replace (v / n + - (256 * q)) with (v / n + (- q) * 256) by lia. apply Z.mod_add. lia. }
  rewrite (E 256 65536), (E 65536 256), (E 16777216 1) by lia.
  pose proof (E 1 16777216 ltac:(lia) ltac:(lia)) as E1. rewrite !Z.div_1_r in E1. by rewrite E1.
Qed.

(** A chain of regions is read off the size fields from the bottom, so two
    chains with the same sizes below [b] agree below [b]. *)
Lemma layout_reaches h pre : forall a b p e ts,
  layout a pre b -> (forall t, t ∈ pre -> hd_size h (ta t) = tsz t) -> layout a ts e -> headers h p ts -> b < e ->
  exists u, u ∈ ts /\ ta u = b.
Proof.
  induction pre as [|t pre IH]; intros a b p e ts Hp Hs Hl Hh Hb; simpl in Hp.
  - subst b. destruct ts as [|u ts]; simpl in Hl; [lia|]. exists u. split; [left|apply Hl].
  - destruct Hp as (Ht & Ht0 & Hp). destruct ts as [|u ts]; simpl in Hl, Hh.
    { pose proof (layout_le _ _ _ Hp). lia. }
    destruct Hl as (Hu & Hu0 & Hl). destruct Hh as [(_ & _ & Hsz & _) Hh].
    rewrite Hu, <- Ht, (Hs t) in Hsz by left.
    destruct (IH (a + 12 + tsz t) b (ta u) e ts) as (v & Hv & ?); [done| |by rewrite Hsz|done|done|].
    { intros w Hw. apply Hs. by right. }
    exists v. split; [by right|done].
Qed.

(** The end of [kmalloc] when the block has a wrapping size: a header for
    [size] bytes at [x], and no other byte below [x] changed. *)
Lemma publish_wrapped h x size q k :
  k = size + 12 - 4294967296 -> 0 <= k < 12 -> HEAP_START <= x <= HEAP_END -> u32 q ->
  let h' := add_alloc_region (CREATE_HEADER h x REGION_ALLOC size q) x in
  hd_type h' x = REGION_ALLOC /\ hd_magic h' x = 0x87 /\ hd_size h' x = size /\ frame (fun y => x <= y) h h'.
Proof.
  intros Hk Hk0 Hx Hq. assert (Hfx : fits x 12) by (unfold fits; consts; lia).
  destruct (CREATE_fields h x REGION_ALLOC size q) as (C1 & C2 & C3 & _); [done|by vm_compute|lia|done|].
  pose proof (frame_CREATE h x REGION_ALLOC size q Hfx) as F. set (h4 := CREATE_HEADER h x REGION_ALLOC size q) in *.
  assert (F4 : frame (fun y => x <= y) h h4) by (eapply frame_mono; [|exact F]; simpl; lia).
  simpl. unfold add_alloc_region, GET_NEXT_HEADER. rewrite C3.
  assert (E : wrap32 (x + size + R_HEADER_SIZE) = x + k).
  { replace (x + size + R_HEADER_SIZE) with (x + k + 1 * 4294967296) by lia.
    unfold wrap32. rewrite Z.mod_add by lia. apply Z.mod_small. consts. lia. }
  rewrite E. unfold REACH_HEAP_END. destruct (Z.leb_spec HEAP_END (x + k)) as [|Hlt]; [done|].
  destruct (hd_type h4 (x + k) =? REGION_FREE); [done|].
  assert (Hfk : fits (x + k) 12) by (unfold fits; consts; lia).
  pose proof (frame_set_link h4 (x + k) x Hfk) as F5.
  split_and!; [rewrite <- C1; eapply frame_type|rewrite <- C2; eapply frame_magic|rewrite <- C3; eapply frame_size|];
    try exact F5; try exact Hfx; try (simpl; lia).
  eapply frame_trans; [exact F4|]. eapply frame_mono; [|exact F5]. simpl. lia.
Qed.

(** The first half of [kmalloc] for such a size: the region chosen shrinks by [k]. *)
Lemma wrapped_shrink fuel k h ts l1 c s l2 :
  heap_repr h ts (l1 ++ Tile c s true :: l2) -> (length ts < fuel)%nat -> 0 <= k < 12 -> k <= s ->
  let h1 := del_free_region h (last0 NULL l1) c in
  exists h3, search_and_add_free_region fuel (set_size h1 c (hd_size h1 c - (4294967296 - 12 + k) - R_HEADER_SIZE)) c = Ok h3 /\
    hd_size h3 c = s - k /\ forall u, u ∈ ts -> ta u <> c -> hd_size h3 (ta u) = tsz u.
Proof.
  intros Hr Hf Hk Hs h1. pose proof (hr_layout _ _ _ Hr) as Hl. pose proof (layout_in_heap _ Hl) as Hin.
  assert (Hc : Tile c s true ∈ ts) by (apply (repr_elem _ _ _ _ Hr); set_solver).
  pose proof (layout_elem _ _ _ _ Hl Hc) as Hb. simpl in Hb. pose proof (layout_NoDup _ _ _ Hl) as Hnd.
  apply list_elem_of_split in Hc as (pre & post & ->).
  assert (Hsub : l1 ++ l2 ⊆ pre ++ post).
  { intros u Hu. pose proof (repr_NoDup _ _ _ Hr) as Hd. rewrite <- Permutation_middle in Hd.
    apply NoDup_cons in Hd as [Hd _]. destruct (repr_elem _ _ _ u Hr) as [[_ Hi] _]; set_solver. }
  pose proof (layout_spaced _ _ _ Hl) as Hsp. rewrite <- Permutation_middle in Hnd. apply NoDup_cons in Hnd as [Hn _].
  assert (Hap : forall u, u ∈ pre ++ post -> apart c (ta u)).
  { intros u Hu. destruct (Hsp (Tile c s true) u) as [<-|]; [set_solver|set_solver|done|done]. }
  destruct (shrink_region fuel (pre ++ post) h l1 c s (s - k) l2) as (E & h3 & l3 & l4 & Hk3 & _ & _ & _ & Hsz & F3);
    [eapply in_heap_sub; [|exact Hin]; set_solver|eapply spaced_sub; [|exact Hsp]; set_solver| |done|
     by eapply repr_NoDup| |done|apply Hr| | | |consts; lia|].
  - intros u v [->|Hu]%elem_of_cons [->|Hv]%elem_of_cons; [by left|right; by apply Hap| |apply Hsp; set_solver].
    right. specialize (Hap u Hu). unfold apart in *. simpl. tauto.
  - intros Hx. specialize (Hap _ (Hsub _ Hx)). simpl in Hap. consts. lia.
  - intros u Hu. eapply headers_size; [apply Hr|]. by apply (repr_elem _ _ _ u Hr).
  - pose proof (hr_asc _ _ _ Hr) as Ha. by apply ascending_remove in Ha.
  - pose proof (repr_fl_length _ _ _ Hr) as Hlen. rewrite !length_app in *. simpl in *. lia.
  - exists h3. fold h1 in E, Hk3. split_and!; [|done|].
    + rewrite E. unfold set_size in *. replace (s - _ - _) with (s - k - 4294967296) by lia.
      by rewrite store32_wraps.
    + intros u Hu Huc. pose proof (in_heap_fits _ _ Hin Hu) as (Hfu & _).
      rewrite <- (headers_size _ _ _ _ (hr_headers _ _ _ Hr) Hu). eapply frame_size; [exact F3|done|].
      assert (Hu' : u ∈ pre ++ post) by (apply elem_of_app in Hu as [|[->|]%elem_of_cons]; [set_solver|done|set_solver]).
      specialize (Hap u Hu') as Hau. intros y Hy [(v & Hv & Hvy)|Hvy]; [|consts; lia].
      apply elem_of_cons in Hv as [->|Hv]; [simpl in Hvy; consts; lia|].
      destruct (Hsp u v) as [<-|]; [done|apply Hsub in Hv; set_solver|lia|consts; lia].
Qed.

(** C39. The size argument is not checked for overflow: on every heap, a request
    of 2^32 - 12 + k bytes (k < 12) is granted as soon as some region has k
    free bytes. The header of the block then lies k bytes below the end of that
    region, reaches past it, and says that the block is nearly 4 GiB long; the
    heap invariant is lost unless the header is wholly past the end of the
    heap. *)
Theorem kmalloc_size_overflow fuel k h ts fl t :
  heap_repr h ts fl -> (length ts < fuel)%nat -> 0 <= k < 12 -> t ∈ ts -> tfr t = true -> k <= tsz t ->
  let size := 4294967296 - 12 + k in
  exists c s h', let x := c + 12 + s - k in
    Tile c s true ∈ ts /\ k <= s /\ kmalloc fuel size h = Ok (x + 12, h') /\ x + 12 <> NULL /\
    hd_type h' x = REGION_ALLOC /\ hd_magic h' x = 0x87 /\ hd_size h' x = size /\
    (x < HEAP_END -> ~ heap_inv h').
Proof.
  intros Hr Hf Hk Ht Hfr Hkt size. pose proof (hr_layout _ _ _ Hr) as Hlay.
  pose proof (layout_in_heap _ Hlay) as Hin. assert (Hsub : fl ⊆ ts) by (intros u Hu; by apply (repr_elem _ _ _ u Hr)).
  pose proof (repr_fl_length _ _ _ Hr) as Hlen.
  destruct (scan_spec fuel h k NULL (index_head h) fl) as (l1 & l2 & -> & Hsc & H1 & H2);
    [apply Hr|by eapply in_heap_sub|intros u Hu; eapply headers_size; [apply Hr|set_solver]|lia|].
  destruct l2 as [|[c s f] l2].
  { rewrite app_nil_r in *. rewrite Forall_forall in H1. specialize (H1 t). rewrite (repr_elem _ _ _ t Hr) in H1.
    specialize (H1 ltac:(done)). simpl in H1. lia. }
  assert (Hc : Tile c s f ∈ l1 ++ Tile c s f :: l2) by set_solver.
  apply (repr_elem _ _ _ _ Hr) in Hc as [Hcf Hc]. simpl in Hcf. subst f. simpl in H2. apply Forall_inv in H2. simpl in H2.
  pose proof (layout_elem _ _ _ _ Hlay Hc) as Hb. simpl in Hb.
  destruct (wrapped_shrink fuel k h ts l1 c s l2 Hr Hf Hk H2) as (h3 & Hk3 & Hsz & Hothers).
  change (4294967296 - 12 + k) with size in Hk3.
  destruct (publish_wrapped h3 (c + 12 + s - k) size c k) as (P1 & P2 & P3 & F5); [lia|lia|lia|consts; lia|].
  set (h' := add_alloc_region _ _) in *. exists c, s, h'. simpl. split_and!; [done|done| |consts; lia|done|done|done|].
  - unfold kmalloc. replace (wrap32 (size + R_HEADER_SIZE)) with k
      by (symmetry; unfold size, wrap32; replace (4294967296 - 12 + k + 12) with (k + 1 * 4294967296) by lia;
          rewrite Z.mod_add by lia; apply Z.mod_small; lia).
    rewrite Hsc. simpl. rewrite (proj2 (Z.eqb_neq c 0)) by (consts; lia). rewrite Hk3. simpl.
    replace (GET_NEXT_HEADER h3 c) with (c + 12 + s - k) by (unfold GET_NEXT_HEADER; rewrite Hsz, wrap32_small; consts; lia).
    unfold MEM_ADD. by rewrite wrap32_small by (consts; lia).
  - intros Hx (ts2 & fl2 & Hr2). apply list_elem_of_split in Hc as (pre & post & ->).
    apply layout_app in Hlay as (b & Hl1 & Hl2). simpl in Hl2. destruct Hl2 as (<- & _ & _).
    destruct (layout_reaches h' (pre ++ [Tile c (s - k) true]) HEAP_START (c + 12 + s - k) NULL HEAP_END ts2)
      as (u & Hu & Hux); [| |apply Hr2|apply Hr2|done|].
    { apply layout_app. exists c. split; [done|]. simpl. split_and!; lia. }
    { intros u Hu. assert (Hu12 : HEAP_START <= ta u /\ ta u + 12 <= c + 12 + s - k).
      { apply elem_of_app in Hu as [Hu| ->%list_elem_of_singleton]; [|simpl; lia].
        pose proof (layout_elem _ _ _ _ Hl1 Hu). lia. }
      rewrite (frame_size _ _ _ F5 (ta u)) by (unfold fits; consts; intros; lia).
      apply elem_of_app in Hu as [Hu| ->%list_elem_of_singleton]; [|done].
      pose proof (layout_elem _ _ _ _ Hl1 Hu). apply Hothers; [set_solver|lia]. }
    pose proof (layout_elem _ _ _ _ (hr_layout _ _ _ Hr2) Hu). pose proof (headers_size _ _ _ _ (hr_headers _ _ _ Hr2) Hu) as E.
    rewrite Hux, P3 in E. consts. lia.
Qed.

Lemma kmalloc_size_overflow_witness :
  exists h', kmalloc 2 0xFFFFFFF8 heap0 = Ok (HEAP_END - 4 + 12, h') /\ ~ heap_inv h'.
Proof.
  destruct (kmalloc_size_overflow 2 4 heap0 [init_tile] [init_tile] init_tile) as (c & s & h' & Hc & _ & Hk & _ & _ & _ & _ & Hn);
    [apply init_heap_repr|simpl; lia|lia|left|done|simpl; consts; lia|].
  apply list_elem_of_singleton in Hc. injection Hc as -> ->. exists h'. split; [exact Hk|apply Hn; consts; lia].
Defined.

(** The scenario of [test_heap] passes all its assertions, and gives all
    its memory back. *)
Theorem test_heap_passes :
  exists h, test_heap 20 heap0 = Ok h /\ index_head h = HEAP_START /\
    hd_size h HEAP_START = HEAP_END - HEAP_START - 12.
Proof.
  exists (match test_heap 20 heap0 with Ok h => h | _ => heap0 end).
  split_and!; vm_compute; reflexivity.
Qed.
