(* ===== verification/Common.v ===== *)
(** * Small helpers shared by the kernel (kernel/common.h, kernel/common.c)

    Signed minimum and maximum and the bit searches of the frame allocator.
    [panic] and a failing [ASSERT] print their message and loop for ever:
    they are the result [Hang] of the prelude. *)
From S2P Require Import Prelude.

Module Common.

(** [panic(s)]: prints, then [while(1){}]. *)
Definition panic {A} (s : list Z) : res A := Hang s.

Definition max (a b : Z) : Z := if b <? a then a else b.
Definition min (a b : Z) : Z := if a <? b then a else b.

(** The two loops [while(i<8)]; [pat] is shifted left in each round. *)
Fixpoint first_set_bit_loop (fuel : nat) (byte i pat : Z) : Z :=
  match fuel with
  | O => -1
  | S fuel =>
      if i <? 8 then
        if negb (Z.land pat byte =? 0) then i
        else first_set_bit_loop fuel byte (i + 1) (Z.shiftl pat 1)
      else -1
  end.
Definition first_set_bit (byte : Z) : Z := first_set_bit_loop 9 byte 0 1.

Fixpoint first_clr_bit_loop (fuel : nat) (byte i pat : Z) : Z :=
  match fuel with
  | O => -1
  | S fuel =>
      if i <? 8 then
        if Z.land pat byte =? 0 then i
        else first_clr_bit_loop fuel byte (i + 1) (Z.shiftl pat 1)
      else -1
  end.
Definition first_clr_bit (byte : Z) : Z := first_clr_bit_loop 9 byte 0 1.

End Common.
Import Common.

(** ** Bits *)

Lemma land_pow2 x k : 0 <= k -> Z.land x (2 ^ k) = if Z.testbit x k then 2 ^ k else 0.
Proof.
  intros Hk. apply Z.bits_inj'. intros j Hj. rewrite Z.land_spec, Z.pow2_bits_eqb by done.
  destruct (Z.eqb_spec k j) as [->|Hne].
  - rewrite andb_true_r. destruct (Z.testbit x j); [|by rewrite Z.bits_0].
    by rewrite Z.pow2_bits_eqb, Z.eqb_refl.
  - rewrite andb_false_r. destruct (Z.testbit x k); [|by rewrite Z.bits_0].
    rewrite Z.pow2_bits_eqb by done. symmetry. by apply Z.eqb_neq.
Qed.

Lemma land_pow2_0 x k : 0 <= k -> (Z.land x (2 ^ k) =? 0) = negb (Z.testbit x k).
Proof.
  intros Hk. rewrite land_pow2 by done. destruct (Z.testbit x k); [|done].
  apply Z.eqb_neq. apply Z.pow_nonzero; lia.
Qed.

Lemma first_clr_bit_loop_spec fuel byte i :
  0 <= i <= 8 -> (8 - i < Z.of_nat fuel) ->
  let r := first_clr_bit_loop fuel byte i (2 ^ i) in
  (i <= r < 8 /\ Z.testbit byte r = false /\ forall j, i <= j < r -> Z.testbit byte j = true) \/
  (r = -1 /\ forall j, i <= j < 8 -> Z.testbit byte j = true).
Proof.
  revert i. induction fuel as [|fuel IH]; intros i Hi Hf; [lia|]. cbn zeta. simpl.
  destruct (Z.ltb_spec i 8); [|right; split; [done|lia]].
  rewrite Z.land_comm, land_pow2_0 by lia. destruct (Z.testbit byte i) eqn:E; simpl.
  - rewrite Z.shiftl_mul_pow2, <- Z.pow_add_r by lia.
    destruct (IH (i + 1)) as [(H1 & H2 & H3)|(H1 & H2)]; [lia|lia| |]; [left|right].
    + split_and!; [lia|lia|done|]. intros j Hj. destruct (decide (j = i)) as [->|]; [done|apply H3; lia].
    + split; [done|]. intros j Hj. destruct (decide (j = i)) as [->|]; [done|apply H2; lia].
  - left. split_and!; [lia|lia|done|lia].
Qed.

(** [first_clr_bit] finds the lowest clear bit of a byte that is not 0xFF. *)
Lemma first_clr_bit_spec byte :
  u8 byte -> byte <> 255 ->
  0 <= first_clr_bit byte < 8 /\ Z.testbit byte (first_clr_bit byte) = false /\
  forall j, 0 <= j < first_clr_bit byte -> Z.testbit byte j = true.
Proof.
  intros Hb Hne. unfold first_clr_bit.
  destruct (first_clr_bit_loop_spec 9 byte 0) as [H|[_ H]]; [lia|lia|exact H|].
  exfalso. apply Hne. apply Z.bits_inj'. intros j Hj.
  destruct (decide (j < 8)).
  - rewrite H by lia. change 255 with (Z.ones 8). by rewrite Z.ones_spec_low by lia.
  - change 255 with (Z.ones 8). rewrite Z.ones_spec_high by lia.
    apply Z.bits_above_log2; [lia|]. destruct (decide (byte = 0)) as [->|]; [simpl; lia|].
    apply Z.lt_le_trans with 8; [|lia]. apply Z.log2_lt_pow2; lia.
Qed.

Lemma first_set_bit_loop_spec fuel byte i :
  0 <= i <= 8 -> (8 - i < Z.of_nat fuel) ->
  let r := first_set_bit_loop fuel byte i (2 ^ i) in
  (i <= r < 8 /\ Z.testbit byte r = true /\ forall j, i <= j < r -> Z.testbit byte j = false) \/
  (r = -1 /\ forall j, i <= j < 8 -> Z.testbit byte j = false).
Proof.
  revert i. induction fuel as [|fuel IH]; intros i Hi Hf; [lia|]. cbn zeta. simpl.
  destruct (Z.ltb_spec i 8); [|right; split; [done|lia]].
  rewrite Z.land_comm, land_pow2_0 by lia. destruct (Z.testbit byte i) eqn:E; simpl.
  - left. split_and!; [lia|lia|done|lia].
  - rewrite Z.shiftl_mul_pow2, <- Z.pow_add_r by lia.
    destruct (IH (i + 1)) as [(H1 & H2 & H3)|(H1 & H2)]; [lia|lia| |]; [left|right].
    + split_and!; [lia|lia|done|]. intros j Hj. destruct (decide (j = i)) as [->|]; [done|apply H3; lia].
    + split; [done|]. intros j Hj. destruct (decide (j = i)) as [->|]; [done|apply H2; lia].
Qed.
