(* ===== verification/Frame.v ===== *)
(** * Physical frame allocator (kernel/frame.c)

    One bit per 4096-byte frame, set when the frame is busy.  The bitmap is the
    C array [uint8_t bitmap[MAX_FRAME_NUM]]: it has one byte per frame of the
    128 MB machine, so it is eight times as long as its bits need.  The
    diagnostics the code prints (a warning for [min_addr = 0]) are not part of
    the state; [test_frame] returns the numbers of the errors it would print. *)
From S2P Require Import Prelude Common.
Import Common.

Module Frame.

Definition FRAME_SIZE : Z := 4096.
Definition MAX_MEM_SIZE : Z := 128 * 1048576.
Definition MAX_FRAME_NUM : Z := MAX_MEM_SIZE / FRAME_SIZE.
Definition _1MB : Z := 1048576.

(** [uint8_t bitmap[MAX_FRAME_NUM]] *)
Abbreviation bitmap := (list Z).
Definition bitmap0 : bitmap := replicate (Z.to_nat MAX_FRAME_NUM) 0.

Definition FRAME_NB (addr : Z) : Z := addr / FRAME_SIZE.
Definition FRAME_BSET (bm : bitmap) (addr : Z) : bitmap :=
  updZ bm (FRAME_NB addr / 8)
    (wrap8 (Z.lor (nthZ bm (FRAME_NB addr / 8)) (Z.shiftl 1 (FRAME_NB addr mod 8)))).
Definition FRAME_BCLR (bm : bitmap) (addr : Z) : bitmap :=
  updZ bm (FRAME_NB addr / 8)
    (wrap8 (Z.land (nthZ bm (FRAME_NB addr / 8)) (Z.lnot (Z.shiftl 1 (FRAME_NB addr mod 8))))).
Definition FRAME_BGET (bm : bitmap) (addr : Z) : Z :=
  if Z.land (nthZ bm (FRAME_NB addr / 8)) (Z.shiftl 1 (FRAME_NB addr mod 8)) =? 0 then 0 else 1.

Definition frame_status (bm : bitmap) (addr : Z) : Z := FRAME_BGET bm addr.
Definition clear_frame (bm : bitmap) (addr : Z) : bitmap := FRAME_BCLR bm addr.

(** The [while(frame_addr<max_addr)] loop and the [ASSERT] after it. *)
Fixpoint idle_loop (fuel : nat) (bm : bitmap) (max_addr frame_idx frame_addr : Z) : res Z :=
  match fuel with
  | O => NoFuel
  | S fuel =>
      if frame_addr <? max_addr then
        if negb (nthZ bm (frame_idx / 8) =? 255) then
          let bit_offset := first_clr_bit (nthZ bm (frame_idx / 8)) in
          let frame_addr := wrap32 (frame_addr + bit_offset * FRAME_SIZE) in
          if max_addr <? wrap32 (frame_addr + FRAME_SIZE) then Ok 0 else Ok frame_addr
        else
          idle_loop fuel bm max_addr (wrap32 (frame_idx + 8)) (wrap32 (frame_addr + 8 * FRAME_SIZE))
      else Hang []
  end.

Definition get_idle_frame_addr (bm : bitmap) (min_addr max_addr : Z) : res Z :=
  let min_addr :=
    if negb (min_addr mod FRAME_SIZE =? 0)
    then wrap32 (min_addr - min_addr mod FRAME_SIZE + FRAME_SIZE) else min_addr in
  let frame_idx := FRAME_NB min_addr in
  let frame_addr := wrap32 (frame_idx * FRAME_SIZE) in
  idle_loop (Z.to_nat (max_addr / (8 * FRAME_SIZE) + 2)) bm max_addr frame_idx frame_addr.

Definition alloc_frame (bm : bitmap) (min_addr max_addr : Z) : res (bitmap * Z) :=
  base ← get_idle_frame_addr bm min_addr max_addr;
  if base =? 0 then Ok (bm, 0) else Ok (FRAME_BSET bm base, base).

(** [test_frame]: the numbers of the error lines printed. *)
Definition expect (n : nat) (b : bool) : list nat := if b then [] else [n].

Definition test_frame (bm : bitmap) : res (bitmap * list nat) :=
  '(bm, addr) ← alloc_frame bm (8 * _1MB) (16 * _1MB);
  let e1 := expect 1 (addr =? 8 * _1MB) in
  '(bm, addr) ← alloc_frame bm (8 * _1MB) (16 * _1MB);
  let e2 := expect 2 (addr =? 8 * _1MB + FRAME_SIZE) in
  '(bm, addr) ← alloc_frame bm (8 * _1MB) (16 * _1MB);
  let e3 := expect 3 (addr =? 8 * _1MB + 2 * FRAME_SIZE) in
  '(bm, addr) ← alloc_frame bm (7 * _1MB) (8 * _1MB);
  let e4 := expect 4 (addr =? 7 * _1MB) in
  let status1 := frame_status bm (8 * _1MB) in
  let status2 := frame_status bm (8 * _1MB + FRAME_SIZE) in
  let status3 := frame_status bm (8 * _1MB + 2 * FRAME_SIZE) in
  let status4 := frame_status bm (7 * _1MB) in
  let e5 := expect 5 (Z.land (Z.land (Z.land status1 status2) status3) status4 =? 1) in
  let bm := clear_frame bm (8 * _1MB + FRAME_SIZE) in
  let status2 := frame_status bm (8 * _1MB + FRAME_SIZE) in
  let e6 := expect 6 (status2 =? 0) in
  '(bm, addr) ← alloc_frame bm (8 * _1MB) (16 * _1MB);
  let e7 := expect 7 (addr =? 8 * _1MB + FRAME_SIZE) in
  let bm := clear_frame bm (8 * _1MB) in
  '(bm, addr) ← alloc_frame bm (8 * _1MB) (16 * _1MB);
  let e8 := expect 8 (addr =? 8 * _1MB) in
  let bm := clear_frame bm (8 * _1MB) in
  let bm := clear_frame bm (8 * _1MB + FRAME_SIZE) in
  '(bm, addr) ← alloc_frame bm (8 * _1MB) (16 * _1MB);
  let e9 := expect 9 (addr =? 8 * _1MB) in
  '(bm, addr) ← alloc_frame bm (8 * _1MB) (16 * _1MB);
  let e10 := expect 10 (addr =? 8 * _1MB + FRAME_SIZE) in
  Ok (bm, e1 ++ e2 ++ e3 ++ e4 ++ e5 ++ e6 ++ e7 ++ e8 ++ e9 ++ e10).

(** ** Specification *)

(** Frame number [n] is marked busy. *)
Definition busy (bm : bitmap) (n : Z) : bool := Z.testbit (nthZ bm (n / 8)) (n mod 8).

(** The bitmap has its length and holds bytes. *)
Definition bitmap_ok (bm : bitmap) : Prop := lenZ bm = MAX_FRAME_NUM /\ Forall (fun b => u8 b) bm.

(** Every frame that lies inside [lo, hi) is busy. *)
Definition all_busy (bm : bitmap) (lo hi : Z) : Prop :=
  forall n, lo <= n * FRAME_SIZE -> n * FRAME_SIZE + FRAME_SIZE <= hi -> busy bm n = true.

(** [a] is the lowest idle frame inside [lo, hi). *)
Definition least_idle (bm : bitmap) (lo hi a : Z) : Prop :=
  a mod FRAME_SIZE = 0 /\ lo <= a /\ a + FRAME_SIZE <= hi /\ busy bm (FRAME_NB a) = false /\
  all_busy bm lo a.

(** Users of the allocator: the bitmap with the frames handed out. *)
Inductive user_step : bitmap * list Z -> bitmap * list Z -> Prop :=
| user_alloc bm held min_addr max_addr bm' a :
    u32 min_addr -> 0 < min_addr -> min_addr mod (8 * FRAME_SIZE) = 0 -> 0 <= max_addr <= MAX_MEM_SIZE ->
    alloc_frame bm min_addr max_addr = Ok (bm', a) -> a <> 0 ->
    user_step (bm, held) (bm', a :: held)
| user_clear bm held1 a held2 :
    user_step (bm, held1 ++ a :: held2) (clear_frame bm a, held1 ++ held2).

End Frame.
Import Frame.

(** ** Bits of the bitmap *)

Ltac frame_consts :=
  unfold FRAME_NB, MAX_FRAME_NUM, MAX_MEM_SIZE, FRAME_SIZE in *;
  change (128 * 1048576 / 4096) with 32768 in *.

Lemma bitmap_ok0 : bitmap_ok bitmap0.
Proof.
  split; [by vm_compute|]. unfold bitmap0. apply Forall_replicate. split; done.
Qed.

Lemma bitmap_byte bm i : bitmap_ok bm -> u8 (nthZ bm i).
Proof.
  intros [_ H]. unfold nthZ. destruct (bm !! _) eqn:E; simpl; [|lia].
  by apply (Forall_lookup_1 _ _ _ _ H E).
Qed.

Lemma testbit_wrap8 x k : 0 <= k < 8 -> Z.testbit (wrap8 x) k = Z.testbit x k.
Proof. intros. unfold wrap8. change 256 with (2 ^ 8). apply Z.mod_pow2_bits_low. lia. Qed.

Lemma bitmap_ok_upd bm i x : bitmap_ok bm -> u8 x -> bitmap_ok (updZ bm i x).
Proof.
  intros [Hl Hf] Hx. split; [by rewrite lenZ_updZ|]. unfold updZ.
  case_if; [done|]. by apply Forall_insert.
Qed.

Lemma busy_upd bm f n x :
  0 <= f / 8 < lenZ bm -> 0 <= n ->
  busy (updZ bm (f / 8) x) n =
    if n / 8 =? f / 8 then Z.testbit x (n mod 8) else busy bm n.
Proof.
  intros Hf Hn. unfold busy. destruct (Z.eqb_spec (n / 8) (f / 8)) as [E|E].
  - rewrite E, nthZ_updZ_eq; done.
  - rewrite nthZ_updZ_ne; [done|apply Z.div_pos; lia|done].
Qed.

(** The frames the bitmap has a bit for. *)
Definition tracked (a : Z) : Prop := 0 <= a < 8 * MAX_MEM_SIZE.

Lemma tracked_byte bm a : bitmap_ok bm -> tracked a -> 0 <= FRAME_NB a / 8 < lenZ bm.
Proof.
  intros [-> _] Ha. unfold tracked in Ha. frame_consts.
  rewrite Z.div_div by lia. split; [apply Z.div_pos; lia|apply Z.div_lt_upper_bound; lia].
Qed.

Lemma div_mod_8_eq n f : n / 8 = f / 8 -> n mod 8 = f mod 8 -> n = f.
Proof. intros H1 H2. rewrite (Z.div_mod n 8), (Z.div_mod f 8) by lia. lia. Qed.

(** [FRAME_BSET] makes exactly one more frame busy. *)
Lemma busy_set bm a n :
  bitmap_ok bm -> tracked a -> 0 <= n ->
  busy (FRAME_BSET bm a) n = (n =? FRAME_NB a) || busy bm n.
Proof.
  intros Hb Ha Hn. pose proof (tracked_byte _ _ Hb Ha). unfold FRAME_BSET.
  set (f := FRAME_NB a) in *. rewrite busy_upd by done.
  pose proof (Z.mod_pos_bound n 8 ltac:(lia)). pose proof (Z.mod_pos_bound f 8 ltac:(lia)).
  destruct (Z.eqb_spec (n / 8) (f / 8)) as [E|E].
  - rewrite testbit_wrap8, Z.lor_spec, Z.shiftl_mul_pow2, Z.mul_1_l, Z.pow2_bits_eqb by lia.
    unfold busy. rewrite E, orb_comm. f_equal.
    destruct (Z.eqb_spec (f mod 8) (n mod 8)), (Z.eqb_spec n f); try done.
    + exfalso. eauto using div_mod_8_eq.
    + subst. done.
  - destruct (Z.eqb_spec n f); [subst; done|done].
Qed.

(** [FRAME_BCLR] makes exactly one frame idle. *)
Lemma busy_clr bm a n :
  bitmap_ok bm -> tracked a -> 0 <= n ->
  busy (clear_frame bm a) n = negb (n =? FRAME_NB a) && busy bm n.
Proof.
  intros Hb Ha Hn. pose proof (tracked_byte _ _ Hb Ha). unfold clear_frame, FRAME_BCLR.
  set (f := FRAME_NB a) in *. rewrite busy_upd by done.
  pose proof (Z.mod_pos_bound n 8 ltac:(lia)). pose proof (Z.mod_pos_bound f 8 ltac:(lia)).
  destruct (Z.eqb_spec (n / 8) (f / 8)) as [E|E].
  - rewrite testbit_wrap8, Z.land_spec, Z.lnot_spec, Z.shiftl_mul_pow2, Z.mul_1_l,
      Z.pow2_bits_eqb by lia.
    unfold busy. rewrite E, andb_comm. f_equal. f_equal.
    destruct (Z.eqb_spec (f mod 8) (n mod 8)), (Z.eqb_spec n f); try done.
    + exfalso. eauto using div_mod_8_eq.
    + subst. done.
  - destruct (Z.eqb_spec n f); [subst; done|done].
Qed.

Lemma frame_status_busy bm a :
  0 <= a -> frame_status bm a = if busy bm (FRAME_NB a) then 1 else 0.
Proof.
  intros Ha. unfold frame_status, FRAME_BGET, busy.
  pose proof (Z.mod_pos_bound (FRAME_NB a) 8 ltac:(lia)).
  rewrite Z.shiftl_mul_pow2, Z.mul_1_l, land_pow2_0 by lia. by destruct (Z.testbit _ _).
Qed.

Lemma bitmap_ok_set bm a : bitmap_ok bm -> bitmap_ok (FRAME_BSET bm a).
Proof. intros. apply bitmap_ok_upd; [done|apply wrap8_range]. Qed.
Lemma bitmap_ok_clr bm a : bitmap_ok bm -> bitmap_ok (clear_frame bm a).
Proof. intros. apply bitmap_ok_upd; [done|apply wrap8_range]. Qed.

(** ** The search *)

Lemma all_busy_byte bm addr lo :
  addr mod (8 * FRAME_SIZE) = 0 -> nthZ bm (addr / (8 * FRAME_SIZE)) = 255 -> 0 <= addr ->
  all_busy bm lo addr -> all_busy bm lo (addr + 8 * FRAME_SIZE).
Proof.
  intros Hm Hb Ha H n H1 H2. destruct (decide (n * FRAME_SIZE + FRAME_SIZE <= addr)); [by apply H|].
  unfold busy. frame_consts.
  apply Z.div_exact in Hm; [|lia]. change (8 * 4096) with 32768 in *.
  replace (n / 8) with (addr / 32768).
  - rewrite Hb. change 255 with (Z.ones 8). apply Z.ones_spec_low.
    pose proof (Z.mod_pos_bound n 8). lia.
  - apply (Z.div_unique n 8 _ (n - 8 * (addr / 32768))); lia.
Qed.

Lemma idle_loop_spec fuel bm lo max_addr addr :
  bitmap_ok bm -> 0 <= addr -> addr mod (8 * FRAME_SIZE) = 0 -> lo <= addr ->
  max_addr <= MAX_MEM_SIZE -> (0 < fuel)%nat ->
  max_addr - addr <= 8 * FRAME_SIZE * (Z.of_nat fuel - 1) ->
  all_busy bm lo addr ->
  match idle_loop fuel bm max_addr (addr / FRAME_SIZE) addr with
  | Ok a => (a = 0 /\ all_busy bm lo max_addr) \/ (addr <= a /\ least_idle bm lo max_addr a)
  | Hang _ => all_busy bm lo max_addr
  | NoFuel => False
  end.
Proof.
  intros Hok. revert addr. induction fuel as [|fuel IH]; intros addr H0 Hm Hlo Hmax H0f Hf Hbusy; [lia|].
  simpl. destruct (Z.ltb_spec addr max_addr) as [Hlt|Hge]; [|intros n ??; apply Hbusy; lia].
  assert (Hdiv : addr / FRAME_SIZE / 8 = addr / (8 * FRAME_SIZE))
    by (rewrite Z.div_div by (frame_consts; lia); f_equal).
  rewrite Hdiv. pose proof (bitmap_byte bm (addr / (8 * FRAME_SIZE)) Hok) as Hb8.
  destruct (Z.eqb_spec (nthZ bm (addr / (8 * FRAME_SIZE))) 255) as [E|E]; simpl.
  - replace (wrap32 (addr / FRAME_SIZE + 8)) with ((addr + 8 * FRAME_SIZE) / FRAME_SIZE).
    2:{ rewrite Z.div_add by (frame_consts; lia). symmetry. apply wrap32_small. frame_consts. Z.to_euclidean_division_equations. lia. }
    replace (wrap32 (addr + 8 * FRAME_SIZE)) with (addr + 8 * FRAME_SIZE)
      by (symmetry; apply wrap32_small; frame_consts; lia).
    assert (Hn : (addr + 8 * FRAME_SIZE) mod (8 * FRAME_SIZE) = 0)
      by (frame_consts; rewrite <- (Z.mul_1_l (8 * 4096)) at 1; rewrite Z.mod_add by lia; done).
    specialize (IH (addr + 8 * FRAME_SIZE)).
    destruct (idle_loop _ _ _ _ _); [destruct IH as [|[]]|apply IH..];
      try (frame_consts; lia); try done; try (by apply all_busy_byte); [tauto|].
    right. split; [frame_consts; lia|done].
  - destruct (first_clr_bit_spec _ Hb8 E) as (Hr & Hclr & Hset).
    set (k := first_clr_bit _) in *.
    apply Z.div_exact in Hm; [|frame_consts; lia].
    set (q := addr / (8 * FRAME_SIZE)) in *.
    assert (Hq : forall j, 0 <= j < 8 -> (8 * q + j) / 8 = q /\ (8 * q + j) mod 8 = j).
    { intros j Hj. rewrite (Z.add_comm (8 * q)), (Z.mul_comm 8 q). split.
      - rewrite Z.div_add by lia. rewrite Z.div_small by lia. done.
      - rewrite Z.mod_add by lia. apply Z.mod_small. lia. }
    assert (Hlow : all_busy bm lo (addr + k * FRAME_SIZE)).
    { intros n Hn1 Hn2. destruct (decide (n * FRAME_SIZE + FRAME_SIZE <= addr)); [by apply Hbusy|].
      unfold busy. replace n with (8 * q + (n - 8 * q)) by lia.
      destruct (Hq (n - 8 * q)) as [-> ->]; [frame_consts; lia|]. apply Hset. frame_consts; lia. }
    rewrite (wrap32_small (addr + _)) by (frame_consts; lia).
    rewrite (wrap32_small (addr + _ + _)) by (frame_consts; lia).
    destruct (Z.ltb_spec max_addr (addr + k * FRAME_SIZE + FRAME_SIZE)).
    + left. split; [done|]. intros n ??. apply Hlow; [done|]. frame_consts. nia.
    + right. assert (HF : FRAME_NB (addr + k * FRAME_SIZE) = 8 * q + k).
      { frame_consts. replace (addr + k * 4096) with ((8 * q + k) * 4096) by lia. apply Z.div_mul. lia. }
      split; [frame_consts; lia|]. split_and!.
      * replace (addr + k * FRAME_SIZE) with ((8 * q + k) * FRAME_SIZE) by lia. apply Z.mod_mul.
        by frame_consts.
      * frame_consts. lia.
      * lia.
      * rewrite HF. unfold busy. destruct (Hq k Hr) as [-> ->]. done.
      * exact Hlow.
Qed.

Lemma get_idle_frame_addr_spec bm min_addr max_addr :
  bitmap_ok bm -> u32 min_addr -> min_addr mod (8 * FRAME_SIZE) = 0 -> 0 <= max_addr <= MAX_MEM_SIZE ->
  match get_idle_frame_addr bm min_addr max_addr with
  | Ok a => (a = 0 /\ all_busy bm min_addr max_addr) \/
            (min_addr <= a /\ least_idle bm min_addr max_addr a)
  | Hang _ => all_busy bm min_addr max_addr
  | NoFuel => False
  end.
Proof.
  intros Hok H0 Hm Hmax. unfold get_idle_frame_addr.
  assert (Hq : min_addr = 4096 * (min_addr / 4096)).
  { frame_consts. Z.to_euclidean_division_equations. lia. }
  assert (Ha : min_addr mod FRAME_SIZE = 0) by (frame_consts; Z.to_euclidean_division_equations; lia).
  rewrite Ha. simpl. unfold FRAME_NB.
  replace (wrap32 (min_addr / FRAME_SIZE * FRAME_SIZE)) with min_addr.
  2:{ frame_consts. rewrite wrap32_small; lia. }
  apply idle_loop_spec; try done; try lia;
    try (frame_consts; Z.to_euclidean_division_equations; lia).
  intros n ??. frame_consts. lia.
Qed.

Lemma least_idle_tracked bm lo hi a :
  least_idle bm lo hi a -> 0 <= lo -> hi <= MAX_MEM_SIZE -> tracked a.
Proof. intros (_ & ? & ? & _) ??. unfold tracked. frame_consts. lia. Qed.

Lemma alloc_frame_spec bm min_addr max_addr :
  bitmap_ok bm -> u32 min_addr -> 0 < min_addr -> min_addr mod (8 * FRAME_SIZE) = 0 ->
  0 <= max_addr <= MAX_MEM_SIZE ->
  match alloc_frame bm min_addr max_addr with
  | Ok (bm', a) =>
      (a = 0 /\ bm' = bm /\ all_busy bm min_addr max_addr) \/
      (a <> 0 /\ bm' = FRAME_BSET bm a /\ least_idle bm min_addr max_addr a)
  | Hang _ => all_busy bm min_addr max_addr
  | NoFuel => False
  end.
Proof.
  intros Hok Hu H0 Hm Hmax. pose proof (get_idle_frame_addr_spec bm min_addr max_addr Hok Hu Hm Hmax) as Hs.
  unfold alloc_frame. destruct (get_idle_frame_addr _ _ _) as [a| |]; simpl; [|done..].
  destruct (Z.eqb_spec a 0) as [->|]; destruct Hs as [[]|[]]; [tauto|lia|lia|tauto].
Qed.

(** The result of a run from the result of its search. *)
Lemma alloc_frame_eval bm min_addr max_addr a :
  match get_idle_frame_addr bm min_addr max_addr with Ok b => (b =? a) && negb (a =? 0) | _ => false end = true ->
  alloc_frame bm min_addr max_addr = Ok (FRAME_BSET bm a, a).
Proof.
  unfold alloc_frame. destruct (get_idle_frame_addr _ _ _); simpl; [|done..].
  intros H. zb. subst. by rewrite (proj2 (Z.eqb_neq _ _)).
Qed.

(** A user's frames: distinct, whole frames of the machine, and exactly the
    busy ones. *)
Definition user_inv (s : bitmap * list Z) : Prop :=
  bitmap_ok s.1 /\ NoDup s.2 /\
  (forall a, a ∈ s.2 -> a mod FRAME_SIZE = 0 /\ 0 < a < MAX_MEM_SIZE) /\
  (forall n, 0 <= n -> busy s.1 n = true <-> n * FRAME_SIZE ∈ s.2).

Lemma aligned_nb a : a mod FRAME_SIZE = 0 -> FRAME_NB a * FRAME_SIZE = a.
Proof. frame_consts. intros. Z.to_euclidean_division_equations. lia. Qed.

Lemma user_inv_alloc bm held lo hi a :
  user_inv (bm, held) -> 0 < lo -> hi <= MAX_MEM_SIZE -> least_idle bm lo hi a ->
  user_inv (FRAME_BSET bm a, a :: held).
Proof.
  intros (Hok & Hnd & Hin & Hb) Hlo Hhi Hl. simpl in *.
  pose proof (least_idle_tracked _ _ _ _ Hl ltac:(lia) Hhi) as Htr.
  destruct Hl as (Hal & Hla & Hha & Hidle & _). pose proof (aligned_nb a Hal) as Hnb.
  assert (0 <= FRAME_NB a) by (frame_consts; lia).
  unfold user_inv; simpl. split_and!; [by apply bitmap_ok_set| | |].
  - apply NoDup_cons. split; [|done]. rewrite <- Hnb, <- Hb by done. by rewrite Hidle.
  - intros b [->|?]%elem_of_cons; [|by apply Hin]. split; [done|]. frame_consts. lia.
  - intros n Hn. rewrite busy_set, elem_of_cons, orb_true_iff, Hb, Z.eqb_eq by done.
    apply or_iff_compat_r. rewrite <- Hnb at 2. split; [by intros ->|]. frame_consts. lia.
Qed.

Lemma user_inv_clear bm held1 a held2 :
  user_inv (bm, held1 ++ a :: held2) -> user_inv (clear_frame bm a, held1 ++ held2).
Proof.
  intros (Hok & Hnd & Hin & Hb). simpl in *.
  destruct (Hin a) as [Hal Hr]; [set_solver|]. pose proof (aligned_nb a Hal) as Hnb.
  rewrite <- (Permutation_middle held1 held2 a) in Hnd. apply NoDup_cons in Hnd as [Hni Hnd].
  unfold user_inv; simpl. split_and!; [by apply bitmap_ok_clr|done|set_solver|].
  intros n Hn. rewrite busy_clr, andb_true_iff, Hb by (done || unfold tracked; frame_consts; lia).
  rewrite negb_true_iff, Z.eqb_neq, !elem_of_app, elem_of_cons.
  assert (n = FRAME_NB a <-> n * FRAME_SIZE = a) as Hiff.
  { split; [by intros ->|]. rewrite <- Hnb at 1. frame_consts. lia. }
  rewrite Hiff. split; [tauto|]. intros Ho. split; [|tauto].
  intros <-. apply Hni. by apply elem_of_app.
Qed.

(** [alloc_frame] with a range that starts on a bitmap-byte boundary (as
    [KERNEL_P_START] and [USER_P_START] do) hands out the lowest idle frame
    that lies inside the range and makes busy that frame and no other; it
    returns 0 or stops on its [ASSERT] only when every frame of the range is
    busy, and its search always ends. *)
Theorem alloc_frame_least_idle bm min_addr max_addr :
  bitmap_ok bm -> u32 min_addr -> 0 < min_addr -> min_addr mod (8 * FRAME_SIZE) = 0 ->
  0 <= max_addr <= MAX_MEM_SIZE ->
  match alloc_frame bm min_addr max_addr with
  | Ok (bm', a) =>
      (a = 0 /\ bm' = bm /\ all_busy bm min_addr max_addr) \/
      (least_idle bm min_addr max_addr a /\ bitmap_ok bm' /\ frame_status bm' a = 1 /\
       forall b, 0 <= b -> FRAME_NB b <> FRAME_NB a -> frame_status bm' b = frame_status bm b)
  | Hang _ => all_busy bm min_addr max_addr
  | NoFuel => False
  end.
Proof.
  intros Hok Hu H0 Hm Hmax. pose proof (alloc_frame_spec bm min_addr max_addr Hok Hu H0 Hm Hmax) as Hs.
  destruct (alloc_frame _ _ _) as [[bm' a]| |]; [|done..].
  destruct Hs as [|(Ha & -> & Hl)]; [by left|right].
  pose proof (least_idle_tracked _ _ _ _ Hl ltac:(lia) ltac:(lia)) as Htr.
  assert (0 <= a) by (unfold tracked in Htr; lia). assert (0 <= FRAME_NB a) by (frame_consts; apply Z.div_pos; lia).
  split_and!; [done|by apply bitmap_ok_set| |].
  - by rewrite frame_status_busy, busy_set, Z.eqb_refl by done.
  - intros b Hb Hne. assert (0 <= FRAME_NB b) by (frame_consts; apply Z.div_pos; lia).
    rewrite !frame_status_busy, busy_set by done. by rewrite (proj2 (Z.eqb_neq _ _)) by done.
Qed.

(** A run of [alloc_frame] in which the first frame of the range is busy. *)
Lemma alloc_frame_least_idle_witness :
  least_idle (FRAME_BSET bitmap0 (8 * _1MB)) (8 * _1MB) (16 * _1MB) (8 * _1MB + FRAME_SIZE).
Proof.
  assert (Hok : bitmap_ok (FRAME_BSET bitmap0 (8 * _1MB))) by (apply bitmap_ok_set, bitmap_ok0).
  assert (H1 : u32 (8 * _1MB)) by (unfold _1MB; lia).
  assert (H2 : 0 < 8 * _1MB) by (unfold _1MB; lia).
  assert (H3 : (8 * _1MB) mod (8 * FRAME_SIZE) = 0) by reflexivity.
  assert (H4 : 0 <= 16 * _1MB <= MAX_MEM_SIZE) by (unfold MAX_MEM_SIZE, _1MB; lia).
  pose proof (alloc_frame_least_idle _ _ _ Hok H1 H2 H3 H4) as H.
  rewrite (alloc_frame_eval _ _ _ (8 * _1MB + FRAME_SIZE)) in H by (vm_compute; reflexivity).
  destruct H as [[H _]|[H _]]; [discriminate H|exact H].
Defined.

(** C27. Users who call [alloc_frame] on byte-aligned ranges and [clear_frame]
    on frames they hold, in any order, never receive a frame that is still
    held: the frames held are distinct and are exactly the busy ones. *)
Theorem frame_users_disjoint s :
  rtc user_step (bitmap0, []) s -> user_inv s.
Proof.
  assert (Hi : user_inv (bitmap0, [])).
  { unfold user_inv; simpl. split_and!; [apply bitmap_ok0|constructor|set_solver|].
    intros n Hn. split; [|set_solver]. unfold busy, nthZ, bitmap0.
    destruct (replicate _ 0 !! _) eqn:E; simpl.
    - apply lookup_replicate in E as [-> _]. by rewrite Z.testbit_0_l.
    - by rewrite Z.testbit_0_l. }
  intros Hr. revert Hi. generalize dependent (bitmap0, @nil Z). intros s0 Hr.
  induction Hr as [|s1 s2 s3 Hst Hr IH]; [done|]. intros Hi. apply IH.
  destruct Hst as [bm held min_addr max_addr bm' a Hu H0 Hm Hmax Ha Hne|]; [|by apply user_inv_clear].
  pose proof (alloc_frame_spec bm min_addr max_addr (proj1 Hi) Hu H0 Hm Hmax) as Hs.
  rewrite Ha in Hs. destruct Hs as [[]|(_ & -> & Hl)]; [done|].
  apply (user_inv_alloc _ _ min_addr max_addr); try done; lia.
Qed.

(** Two frames are handed out, the first is given back and handed out again. *)
Lemma frame_users_disjoint_witness :
  exists bm, user_inv (bm, [8 * _1MB; 8 * _1MB + FRAME_SIZE]).
Proof.
  eexists. apply frame_users_disjoint.
  eapply rtc_l. { apply (user_alloc _ _ (8 * _1MB) (16 * _1MB)); [done..|apply alloc_frame_eval with (a := 8 * _1MB); vm_compute; reflexivity|done]. }
  eapply rtc_l. { apply (user_alloc _ _ (8 * _1MB) (16 * _1MB)); [done..|apply alloc_frame_eval with (a := 8 * _1MB + FRAME_SIZE); vm_compute; reflexivity|done]. }
  eapply rtc_l. { apply (user_clear _ [8 * _1MB + FRAME_SIZE] (8 * _1MB) []). }
  eapply rtc_l. { apply (user_alloc _ _ (8 * _1MB) (16 * _1MB)); [done..|apply alloc_frame_eval with (a := 8 * _1MB); vm_compute; reflexivity|done]. }
  simpl. apply rtc_refl.
Defined.

(** The same frame is handed out twice when [min_addr] is not on a byte
    boundary of the bitmap: the free bit is searched from the start of the
    byte but added to the address of [min_addr] itself. *)
Definition double_alloc (bm : bitmap) : res (Z * Z) :=
  '(bm, _) ← alloc_frame bm (8 * _1MB) (16 * _1MB);
  '(bm, a2) ← alloc_frame bm (8 * _1MB) (16 * _1MB);
  '(bm, a3) ← alloc_frame bm (8 * _1MB) (16 * _1MB);
  let bm := clear_frame bm a2 in
  '(bm, a4) ← alloc_frame bm (8 * _1MB + FRAME_SIZE) (16 * _1MB);
  Ok (a3, a4).

(** With a range that does not start on a bitmap-byte boundary
    [alloc_frame] can hand out a frame that is busy: after three allocations
    and one release, an allocation from the second frame on returns the third
    frame again, although it was never released. *)
Theorem alloc_frame_unaligned_busy :
  double_alloc bitmap0 = Ok (8 * _1MB + 2 * FRAME_SIZE, 8 * _1MB + 2 * FRAME_SIZE).
Proof. vm_compute. reflexivity. Qed.

(** The kernel's own [test_frame] reports no error on the empty bitmap. *)
Theorem test_frame_passes : match test_frame bitmap0 with Ok (_, errs) => errs = [] | _ => False end.
Proof. vm_compute. reflexivity. Qed.
