(* ===== verification/Paging.v ===== *)
(** * Paging (kernel/mem.c, kernel/mem.h)

    Page directories and page tables live in physical memory; every access of
    the code goes through the processor's address translation, which is off in
    the early build and walks the two levels from [cr3] in the kernel build.
    [create_page_table] differs between the two builds and is defined twice.  An
    access to an unmapped address is a page fault, which stops the machine
    ([Hang [14]]); a failed [ASSERT] is [Hang []].  The frame bitmap is the
    state of [Frame].  The accessed and dirty bits the processor sets and the
    translation cache are not modelled.

    The code is written in a state monad over the machine [mm]. *)
From S2P Require Import Prelude CMem Malloc Common Frame.

Module Paging.

Definition PAGE_P : Z := 1.
Definition PAGE_RW : Z := 2.
Definition PAGE_USER : Z := 4.
Definition PAGE_WT : Z := 8.
Definition PAGE_FLG_USR : Z := Z.lor (Z.lor (Z.lor PAGE_P PAGE_RW) PAGE_WT) PAGE_USER.
Definition PAGE_FLG_KERNEL : Z := Z.lor (Z.lor PAGE_P PAGE_RW) PAGE_WT.
Definition PAGE_TABLE_PTR (n : Z) : Z := Z.lor (Z.shiftl 4092 20) (Z.shiftl n 12).
Definition PAGE_ENTRY_SET (entry : Z) : bool := negb (Z.land entry PAGE_P =? 0).
Definition IX_TO_VA (di ti : Z) : Z := Z.lor (Z.shiftl di 22) (Z.shiftl ti 12).
Definition PG_DIR0_ADDR : Z := Frame._1MB.
Definition PAGE_DIR_INDEX (addr : Z) : Z := Z.shiftr addr 22.
Definition PAGE_TABLE_INDEX (addr : Z) : Z := Z.land (Z.shiftr addr 12) 1023.
Definition PAGE_OFFSET (addr : Z) : Z := Z.land addr 4095.
Definition PAGE_MASK : Z := 0xFFFFF000.
Definition USER_P_START : Z := 16 * Frame._1MB.
Definition KERNEL_V_START : Z := Malloc.KERNEL_V_START.
Definition DIR0_PT_PHY (dir_idx : Z) : Z := PG_DIR0_ADDR + Frame.FRAME_SIZE + 4096 * dir_idx.
Abbreviation NULL := 0.

(** ** The machine *)

Record mm := mkMm { pm : mem; cr3 : Z; paging : bool; frames : list Z }.

Definition with_pm (s : mm) (m : mem) : mm := mkMm m (cr3 s) (paging s) (frames s).
Definition with_frames (s : mm) (b : list Z) : mm := mkMm (pm s) (cr3 s) (paging s) b.

(** The two-level walk of the processor. *)
Definition walk (m : mem) (dir va : Z) : option Z :=
  let pde := load32 m (Z.land dir PAGE_MASK + 4 * PAGE_DIR_INDEX va) in
  if negb (PAGE_ENTRY_SET pde) then None
  else
    let pte := load32 m (Z.land pde PAGE_MASK + 4 * PAGE_TABLE_INDEX va) in
    if negb (PAGE_ENTRY_SET pte) then None
    else Some (Z.land pte PAGE_MASK + PAGE_OFFSET va).

Definition translate (s : mm) (va : Z) : option Z :=
  if paging s then walk (pm s) (cr3 s) va else Some va.

Definition M (A : Type) : Type := mm -> res (A * mm).
#[global] Instance M_ret : MRet M := fun A a s => Ok (a, s).
#[global] Instance M_bind : MBind M := fun A B f c s =>
  match c s with Ok (a, s) => f a s | Hang e => Hang e | NoFuel => NoFuel end.

Definition page_fault {A} : M A := fun _ => Hang [14].
Definition ASSERT (cond : bool) : M () := fun s => if cond then Ok ((), s) else Hang [].

(** [p[0]] and [p[0] = v] for a [uint32_t *p], and [*p = v] for a byte. *)
Definition rd (va : Z) : M Z := fun s =>
  match translate s (wrap32 va) with Some p => Ok (load32 (pm s) p, s) | None => page_fault s end.
Definition wr (va v : Z) : M () := fun s =>
  match translate s (wrap32 va) with Some p => Ok ((), with_pm s (store32 (pm s) p v)) | None => page_fault s end.
Definition wr8 (va v : Z) : M () := fun s =>
  match translate s (wrap32 va) with Some p => Ok ((), with_pm s (store8 (pm s) p v)) | None => page_fault s end.

(** [alloc_frame] on the machine's bitmap. *)
Definition alloc_frame_mm (min_addr max_addr : Z) : M Z := fun s =>
  match Frame.alloc_frame (frames s) min_addr max_addr with
  | Ok (b, a) => Ok (a, with_frames s b)
  | Hang e => Hang e
  | NoFuel => NoFuel
  end.

(** ** Shared routines *)

Fixpoint memzero_loop (n : nat) (p : Z) : M () :=
  match n with
  | O => mret ()
  | S n => _ ← wr8 p 0; memzero_loop n (p + 1)
  end.
Definition memzero (p size : Z) : M () := memzero_loop (Z.to_nat size) p.

Definition pg_dir_no_entry (dir va : Z) : M Z :=
  e ← rd (dir + 4 * PAGE_DIR_INDEX va);
  mret (if PAGE_ENTRY_SET e then 0 else 1).

Definition pt_phy_from_dir (dir dir_index : Z) : M Z :=
  e ← rd (dir + 4 * dir_index);
  _ ← ASSERT (PAGE_ENTRY_SET e);
  mret (Z.land e PAGE_MASK).

Definition pg_dir_add (dir rev_tb di pt_phy flag : Z) : M Z :=
  e ← rd (dir + 4 * di);
  if PAGE_ENTRY_SET e then mret 0
  else
    _ ← wr (dir + 4 * di) (Z.lor (Z.land pt_phy PAGE_MASK) flag);
    _ ← wr (rev_tb + 4 * di) (Z.lor (Z.land pt_phy PAGE_MASK) PAGE_P);
    mret 1.

(** [switch_page_dir], [enable_paging]: [mov cr3] and the paging bit of [cr0]. *)
Definition switch_page_dir (dir_addr : Z) : M () := fun s => Ok ((), mkMm (pm s) dir_addr (paging s) (frames s)).
Definition enable_paging (dir_addr : Z) : M () := fun s => Ok ((), mkMm (pm s) dir_addr true (frames s)).

(** ** The early build *)

Definition create_page_table_early (dir rev_tb va flag : Z) : M Z :=
  e ← pg_dir_no_entry dir va;
  if e =? 0 then mret NULL
  else
    let dir_index := PAGE_DIR_INDEX va in
    let pt_phy := DIR0_PT_PHY dir_index in
    let pt_base := pt_phy in
    _ ← memzero pt_base Frame.FRAME_SIZE;
    _ ← wr (dir + 4 * dir_index) (Z.lor pt_phy flag);
    _ ← (if rev_tb =? NULL then mret () else wr (rev_tb + 4 * dir_index) (Z.lor pt_phy PAGE_P));
    mret pt_base.

(** [pg_dir0] is [PG_DIR0_ADDR] in the early build. *)
Definition init_pg_dir0 : M () :=
  let rev_tb_phy := DIR0_PT_PHY 1023 in
  let sys_tb_phy := DIR0_PT_PHY 1022 in
  _ ← memzero PG_DIR0_ADDR Frame.FRAME_SIZE;
  _ ← memzero rev_tb_phy Frame.FRAME_SIZE;
  _ ← memzero sys_tb_phy Frame.FRAME_SIZE;
  _ ← pg_dir_add PG_DIR0_ADDR rev_tb_phy 1023 rev_tb_phy PAGE_FLG_KERNEL;
  _ ← pg_dir_add PG_DIR0_ADDR rev_tb_phy 1022 sys_tb_phy PAGE_FLG_KERNEL;
  wr (sys_tb_phy + 4 * 1023) (Z.lor PG_DIR0_ADDR PAGE_FLG_KERNEL).

Definition set_pg_dir0_vmap (va pa flag : Z) : M () :=
  rev_tb ← pt_phy_from_dir PG_DIR0_ADDR 1023;
  pt ← create_page_table_early PG_DIR0_ADDR rev_tb va PAGE_FLG_KERNEL;
  pt ← (if pt =? NULL then pt_phy_from_dir PG_DIR0_ADDR (PAGE_DIR_INDEX va) else mret pt);
  wr (pt + 4 * PAGE_TABLE_INDEX pa) (Z.lor pa PAGE_P).

(** [while(physical_address < bound)]: [n] frames from [pa] on, at [pa + base]. *)
Fixpoint vmap_loop (n : nat) (base pa : Z) : M () :=
  match n with
  | O => mret ()
  | S n => _ ← set_pg_dir0_vmap (wrap32 (pa + base)) pa PAGE_FLG_KERNEL; vmap_loop n base (pa + Frame.FRAME_SIZE)
  end.

(** [init_pg_dir0_vmap] up to the calls that print; the rest is in [Early]. *)
Definition map_pg_dir0 : M () :=
  _ ← init_pg_dir0;
  _ ← vmap_loop (Z.to_nat (Frame._1MB / Frame.FRAME_SIZE)) 0 0;
  vmap_loop (Z.to_nat (USER_P_START / Frame.FRAME_SIZE)) KERNEL_V_START 0.

(** ** The kernel build *)

(** The slots of the temporary mappings: [page_table[i]] of table 1022. *)
Definition temp_slot (i : Z) : Z := PAGE_TABLE_PTR 1022 + 4 * i.

Fixpoint lookup_loop (n : nat) (pa i : Z) : M Z :=
  match n with
  | O => mret NULL
  | S n =>
      e ← rd (temp_slot i);
      if PAGE_ENTRY_SET e && (Z.land e PAGE_MASK =? pa) then mret (IX_TO_VA 1022 i) else lookup_loop n pa (i + 1)
  end.
Definition lookup_temp_va (pa : Z) : M Z := lookup_loop 1024 pa 0.

Fixpoint create_temp_loop (n : nat) (pa i : Z) : M Z :=
  match n with
  | O => mret NULL
  | S n =>
      e ← rd (temp_slot i);
      if negb (PAGE_ENTRY_SET e) then
        _ ← wr (temp_slot i) (Z.lor pa PAGE_FLG_KERNEL);
        mret (IX_TO_VA 1022 i)
      else create_temp_loop n pa (i + 1)
  end.
Definition create_temp_va (pa : Z) : M Z := create_temp_loop 1024 pa 0.

Definition delete_temp_va (va : Z) : M () := wr (temp_slot (PAGE_TABLE_INDEX va)) 0.

Definition get_temp_va (pa : Z) : M Z :=
  p ← lookup_temp_va pa;
  if negb (p =? NULL) then mret p else create_temp_va pa.

Definition lookup_pt_temp_va (dir di : Z) : M Z :=
  phy ← pt_phy_from_dir dir di;
  _ ← ASSERT (negb (phy =? NULL));
  lookup_temp_va phy.

Definition get_pt_va (dir di : Z) : M Z :=
  phy ← pt_phy_from_dir dir di;
  _ ← ASSERT (negb (phy =? NULL));
  get_temp_va phy.

Definition create_page_table (dir rev_tb va flag : Z) : M Z :=
  e ← pg_dir_no_entry dir va;
  if e =? 0 then mret NULL
  else
    let dir_index := PAGE_DIR_INDEX va in
    pt_phy ← alloc_frame_mm USER_P_START Frame.MAX_MEM_SIZE;
    pt_base ← create_temp_va pt_phy;
    if (pt_phy =? 0) || (pt_base =? NULL) then mret NULL
    else
      _ ← memzero pt_base Frame.FRAME_SIZE;
      _ ← wr (dir + 4 * dir_index) (Z.lor pt_phy flag);
      _ ← (if rev_tb =? NULL then mret () else wr (rev_tb + 4 * dir_index) (Z.lor pt_phy PAGE_P));
      mret pt_base.

Definition get_page_table (dir rev_tb va flag : Z) : M Z :=
  pt ← create_page_table dir rev_tb va flag;
  if negb (pt =? NULL) then mret pt
  else
    pt_phy ← pt_phy_from_dir dir (PAGE_DIR_INDEX va);
    pt ← lookup_temp_va pt_phy;
    if negb (pt =? NULL) then mret pt
    else
      pt_phy ← pt_phy_from_dir dir (PAGE_DIR_INDEX va);
      pt ← create_temp_va pt_phy;
      _ ← ASSERT (negb (pt =? NULL));
      mret pt.

Definition get_phy_address (va : Z) : M Z :=
  let dir_idx := PAGE_DIR_INDEX va in
  let pt_idx := PAGE_TABLE_INDEX va in
  let offset := PAGE_OFFSET va in
  let pt := 0xFFC00000 + Z.shiftl dir_idx 12 in
  e ← rd (pt + 4 * pt_idx);
  mret (wrap32 (Z.land e PAGE_MASK + offset)).

Definition get_phy_from_dir (dir va : Z) : M Z :=
  e ← rd (dir + 4 * PAGE_DIR_INDEX va);
  _ ← ASSERT (PAGE_ENTRY_SET e);
  e ← rd (dir + 4 * PAGE_DIR_INDEX va);
  tb ← get_temp_va (Z.land e PAGE_MASK);
  e ← rd (tb + 4 * PAGE_TABLE_INDEX va);
  _ ← delete_temp_va tb;
  mret (Z.land e PAGE_MASK).

Definition pt_phy_from_revmap (dir nb : Z) : M Z :=
  e ← rd (dir + 4 * nb);
  _ ← ASSERT (PAGE_ENTRY_SET e);
  e ← rd (0xFFFFF000 + 4 * nb);
  mret (Z.land e PAGE_MASK).

(** Returns the temporary address and the physical address [*phy]. *)
Definition alloc_page (start_phy end_phy : Z) : M (Z * Z) :=
  phy ← alloc_frame_mm start_phy end_phy;
  ptr ← create_temp_va phy;
  _ ← memzero ptr Frame.FRAME_SIZE;
  _ ← ASSERT (negb (phy =? 0) && negb (ptr =? NULL));
  mret (ptr, phy).

(** The end of a round of [request_region_vmap]: give the page its frame. *)
Definition fill_entry (pt_now va flag : Z) : M () :=
  e ← rd (pt_now + 4 * PAGE_TABLE_INDEX va);
  if PAGE_ENTRY_SET e then mret ()
  else
    '(page, frame_phy) ← alloc_page USER_P_START Frame.MAX_MEM_SIZE;
    _ ← wr (pt_now + 4 * PAGE_TABLE_INDEX va) (Z.lor frame_phy flag);
    delete_temp_va page.

(** One round of its loop: the new [pt_now] and [new_pt]. *)
Definition map_one (dir rev_tb va dir_flg flag pt_now : Z) : M (Z * Z) :=
  new_pt ← create_page_table dir rev_tb va dir_flg;
  pt_now ← (if negb (new_pt =? NULL) then
              _ ← (if negb (pt_now =? NULL) then delete_temp_va pt_now else mret ());
              mret new_pt
            else if pt_now =? NULL then get_pt_va dir (PAGE_DIR_INDEX va) else mret pt_now);
  _ ← fill_entry pt_now va flag;
  mret (pt_now, new_pt).

(** [for(va=va_start;va<=va_end;va+=FRAME_SIZE)]; returns [new_pt]. *)
Fixpoint region_loop (fuel : nat) (dir rev_tb va va_end dir_flg flag pt_now new_pt : Z) : M Z :=
  match fuel with
  | O => fun _ => NoFuel
  | S fuel =>
      if va <=? va_end then
        let dir_flg := if va <? KERNEL_V_START then PAGE_FLG_USR else dir_flg in
        '(pt_now, new_pt) ← map_one dir rev_tb va dir_flg flag pt_now;
        region_loop fuel dir rev_tb (wrap32 (va + Frame.FRAME_SIZE)) va_end dir_flg flag pt_now new_pt
      else mret new_pt
  end.

Definition request_region_vmap (fuel : nat) (dir va_start size flag : Z) : M Z :=
  let va_end := Z.land (wrap32 (va_start + size)) PAGE_MASK in
  let va_start := Z.land va_start PAGE_MASK in
  rev_tb ← lookup_pt_temp_va dir 1023;
  '(rev_tb, new_rev_va_flg) ← (if rev_tb =? NULL then r ← get_pt_va dir 1023; mret (r, true) else mret (rev_tb, false));
  new_pt ← region_loop fuel dir rev_tb va_start va_end PAGE_FLG_KERNEL flag NULL NULL;
  _ ← (if negb (new_pt =? NULL) then delete_temp_va new_pt else mret ());
  _ ← (if (new_rev_va_flg : bool) then delete_temp_va rev_tb else mret ());
  mret 1.

(** [test_page]: the assertions, in their order, without the printing. *)
Definition test_page (pg_dir0 : Z) : M () :=
  let p := 0x9000 + Frame._1MB * 15 - 4 + KERNEL_V_START in
  _ ← wr p 0x1234;
  e ← rd p;
  _ ← ASSERT (e =? 0x1234);
  e ← rd 0x9008;
  _ ← ASSERT (e =? 0xFFFF);
  p1 ← get_phy_address 0x9030;
  p2 ← get_phy_address (0x9000 + 0x100000 - 4 + KERNEL_V_START);
  p3 ← get_phy_address (0x90000 + 0x50 + KERNEL_V_START);
  _ ← ASSERT (p1 =? 0x9030);
  _ ← ASSERT (p2 =? 0x9000 + 0x100000 - 4);
  _ ← ASSERT (p3 =? 0x90000 + 0x50);
  p4 ← pt_phy_from_revmap pg_dir0 (PAGE_DIR_INDEX KERNEL_V_START);
  e ← rd 0xFFFFFFFC;
  _ ← ASSERT (5 * Frame._1MB =? Z.land e PAGE_MASK);
  ASSERT (p4 =? DIR0_PT_PHY (PAGE_DIR_INDEX KERNEL_V_START)).

End Paging.
Import Paging.
