(* ===== verification/PagingThm.v ===== *)
(** * Theorems about paging: the map the kernel starts with

    The early build fills the page directory at 1 MiB and its tables behind it.
    [cell] names the words of these 1025 pages, directory and tables alike (the
    directory is page -1); the routines of [Paging] are described as updates of
    cells, the invariant [early_inv] relates the cells to a logical map from
    virtual page numbers to physical pages, and the theorem reads off the
    processor's translation of every address. *)
From S2P Require Import Prelude CMem Malloc Common Frame Paging.
Import Paging.

(** ** Arithmetic of entries *)

Lemma dir_index_div va : PAGE_DIR_INDEX va = va / 4194304.
Proof. unfold PAGE_DIR_INDEX. by rewrite Z.shiftr_div_pow2 by lia. Qed.
Lemma table_index_mod va : PAGE_TABLE_INDEX va = (va / 4096) mod 1024.
Proof.
  unfold PAGE_TABLE_INDEX. change 1023 with (Z.ones 10). by rewrite Z.land_ones, Z.shiftr_div_pow2 by lia.
Qed.
Lemma offset_mod va : PAGE_OFFSET va = va mod 4096.
Proof. unfold PAGE_OFFSET. change 4095 with (Z.ones 12). by rewrite Z.land_ones by lia. Qed.
Lemma entry_set_odd e : PAGE_ENTRY_SET e = Z.odd e.
Proof.
  unfold PAGE_ENTRY_SET, PAGE_P. change 1 with (Z.ones 1). rewrite Z.land_ones by lia.
  change (2 ^ 1) with 2. rewrite Zmod_odd. by destruct (Z.odd e).
Qed.

Lemma mask_div y : u32 y -> Z.land y PAGE_MASK = y / 4096 * 4096.
Proof.
  intros Hy. assert (E : Z.land y PAGE_MASK = Z.shiftl (Z.land (Z.shiftr y 12) (Z.ones 20)) 12).
  { change PAGE_MASK with (Z.shiftl (Z.ones 20) 12). apply Z.bits_inj'. intros j Hj. rewrite Z.land_spec.
    destruct (decide (j < 12)).
    - rewrite !Z.shiftl_spec_low by lia. by rewrite andb_false_r.
    - rewrite !Z.shiftl_spec, Z.land_spec, Z.shiftr_spec by lia. by replace (j - 12 + 12) with j by lia. }
  rewrite E, Z.land_ones, Z.shiftr_div_pow2, Z.shiftl_mul_pow2 by lia. change (2 ^ 12) with 4096. change (2 ^ 20) with 1048576.
  rewrite Z.mod_small; [done|]. split; [apply Z.div_pos; lia|apply Z.div_lt_upper_bound; lia].
Qed.

(** An entry: an aligned address with flags below. *)
Lemma lor_flags x f : x mod 4096 = 0 -> 0 <= f < 4096 -> Z.lor x f = x + f.
Proof.
  intros Hx Hf. symmetry. apply Z.add_nocarry_lor, Z.bits_inj'. intros j Hj. rewrite Z.land_spec, Z.bits_0.
  assert (E : x = Z.shiftl (x / 4096) 12).
  { rewrite Z.shiftl_mul_pow2 by lia. change (2 ^ 12) with 4096. pose proof (Z.div_mod x 4096). lia. }
  destruct (decide (j < 12)).
  - by rewrite E, Z.shiftl_spec_low by lia.
  - assert (Z.testbit f j = false) as ->; [|by rewrite andb_false_r].
    destruct (decide (f = 0)) as [->|]; [apply Z.bits_0|]. apply Z.bits_above_log2; [lia|].
    apply Z.lt_le_trans with 12; [|lia]. apply Z.log2_lt_pow2; lia.
Qed.
Lemma mask_flags x f : u32 x -> x mod 4096 = 0 -> 0 <= f < 4096 -> Z.land (x + f) PAGE_MASK = x.
Proof. intros Hx Ha Hf. rewrite mask_div; Z.to_euclidean_division_equations; lia. Qed.
Lemma set_flags x f : x mod 4096 = 0 -> PAGE_ENTRY_SET (x + f) = Z.odd f.
Proof.
  intros Ha. rewrite entry_set_odd, Z.odd_add. replace (Z.odd x) with false; [by destruct (Z.odd f)|].
  symmetry. rewrite <- Z.negb_even. apply negb_false_iff, Z.even_spec. exists (2048 * (x / 4096)).
  pose proof (Z.div_mod x 4096). lia.
Qed.

(** ** The pages of the directory and its tables *)

Definition pt_base (k : Z) : Z := 1048576 + 4096 * (k + 1).
Definition cell (m : mem) (k i : Z) : Z := load32 m (pt_base k + 4 * i).
Definition in_page (k i : Z) : Prop := -1 <= k < 1024 /\ 0 <= i < 1024.

(** Nothing outside these pages changes. *)
Definition outside (m m' : mem) : Prop := forall a, u32 a -> (a < 1048576 \/ 5246976 <= a) -> load8 m' a = load8 m a.

Lemma outside_trans m1 m2 m3 : outside m1 m2 -> outside m2 m3 -> outside m1 m3.
Proof. intros H1 H2 a Ha Ho. by rewrite H2, H1. Qed.

Lemma cell_store m k i v k' i' :
  in_page k i -> in_page k' i' ->
  cell (store32 m (pt_base k + 4 * i) v) k' i' = if decide (k = k' /\ i = i') then wrap32 v else cell m k' i'.
Proof.
  unfold cell, in_page, pt_base. intros Hk Hk'. case_decide as E.
  - destruct E as [-> ->]. apply load32_store32_eq. unfold fits. lia.
  - apply load32_store32_ne; unfold fits; lia.
Qed.
Lemma outside_store m k i v : in_page k i -> outside m (store32 m (pt_base k + 4 * i) v).
Proof. unfold in_page, pt_base. intros Hk a Ha Ho. apply load8_store32_ne; unfold fits; lia. Qed.

Abbreviation zero_page m k := (write_bytes m (pt_base k) (replicate 4096 0)).

Lemma lenZ_zeros n : lenZ (replicate n 0) = Z.of_nat n.
Proof. unfold lenZ. by rewrite length_replicate. Qed.

Lemma load8_zero_page m k a :
  -1 <= k < 1024 -> pt_base k <= a < pt_base k + 4096 -> load8 (zero_page m k) a = 0.
Proof.
  intros Hk Ha. assert (Hb : bytes_at (zero_page m k) (pt_base k) (replicate 4096 0)).
  { apply bytes_at_write_bytes; [rewrite lenZ_zeros; unfold fits, pt_base; lia|].
    apply Forall_replicate. lia. }
  replace a with (pt_base k + (a - pt_base k)) by lia. erewrite bytes_at_nth; [|exact Hb|rewrite lenZ_zeros; lia].
  unfold nthZ. by rewrite lookup_replicate_2 by lia.
Qed.

Lemma cell_zero_page m k k' i' :
  -1 <= k < 1024 -> in_page k' i' -> cell (zero_page m k) k' i' = if decide (k = k') then 0 else cell m k' i'.
Proof.
  unfold cell, in_page. intros Hk Hk'. case_decide as E.
  - subst k'. unfold load32. rewrite !load8_zero_page by lia. done.
  - apply load32_same, same_on_write_bytes; rewrite ?lenZ_zeros; unfold fits, pt_base; lia.
Qed.
Lemma outside_zero_page m k : -1 <= k < 1024 -> outside m (zero_page m k).
Proof. intros Hk a Ha Ho. apply write_bytes_out; rewrite ?lenZ_zeros; unfold fits, pt_base in *; lia. Qed.

(** ** The routines with paging off *)

Lemma M_bind_eq {A B} (c : M A) (f : A -> M B) s a s' : c s = Ok (a, s') -> (c ≫= f) s = f a s'.
Proof. intros E. unfold mbind, M_bind. by rewrite E. Qed.

Lemma with_pm_twice s m m' : with_pm (with_pm s m) m' = with_pm s m'.
Proof. reflexivity. Qed.
Lemma with_pm_same s : with_pm s (pm s) = s.
Proof. by destruct s. Qed.

Lemma rd_off s k i : paging s = false -> in_page k i -> rd (pt_base k + 4 * i) s = Ok (cell (pm s) k i, s).
Proof.
  intros Hp Hk. unfold rd, translate. rewrite Hp. unfold in_page, pt_base in *. rewrite wrap32_small by lia. done.
Qed.
Lemma wr_off s k i v :
  paging s = false -> in_page k i ->
  wr (pt_base k + 4 * i) v s = Ok ((), with_pm s (store32 (pm s) (pt_base k + 4 * i) v)).
Proof.
  intros Hp Hk. unfold wr, translate. rewrite Hp. unfold in_page, pt_base in *. rewrite wrap32_small by lia. done.
Qed.
Lemma memzero_loop_off n p s :
  paging s = false -> fits p (Z.of_nat n) ->
  memzero_loop n p s = Ok ((), with_pm s (write_bytes (pm s) p (replicate n 0))).
Proof.
  unfold fits. revert p s. induction n as [|n IH]; intros p s Hp Hf; cbn [memzero_loop].
  - simpl. by rewrite with_pm_same.
  - erewrite M_bind_eq; [|unfold wr8, translate; rewrite Hp, wrap32_small by lia; reflexivity].
    rewrite IH by (done || lia). done.
Qed.
Lemma memzero_off k s :
  paging s = false -> -1 <= k < 1024 -> memzero (pt_base k) Frame.FRAME_SIZE s = Ok ((), with_pm s (zero_page (pm s) k)).
Proof. intros Hp Hk. apply (memzero_loop_off 4096); [done|unfold fits, pt_base; lia]. Qed.

Lemma dir0_pt k : DIR0_PT_PHY k = pt_base k.
Proof. unfold DIR0_PT_PHY, pt_base, PG_DIR0_ADDR, Frame._1MB, Frame.FRAME_SIZE. lia. Qed.
Lemma dir0_base : PG_DIR0_ADDR = pt_base (-1).
Proof. reflexivity. Qed.
Lemma pt_base_ok k : -1 <= k < 1024 -> u32 (pt_base k) /\ pt_base k mod 4096 = 0 /\ pt_base k <> 0.
Proof. unfold pt_base. intros Hk. Z.to_euclidean_division_equations. lia. Qed.

Lemma pg_dir_add_off s di k flag :
  paging s = false -> 0 <= di < 1024 -> -1 <= k < 1024 -> 0 <= flag < 4096 -> cell (pm s) (-1) di = 0 ->
  pg_dir_add (pt_base (-1)) (pt_base 1023) di (pt_base k) flag s =
    Ok (1, with_pm s (store32 (store32 (pm s) (pt_base (-1) + 4 * di) (pt_base k + flag))
                        (pt_base 1023 + 4 * di) (pt_base k + 1))).
Proof.
  intros Hp Hd Hk Hf Hc. destruct (pt_base_ok k Hk) as (Hu & Ha & _). unfold pg_dir_add.
  erewrite M_bind_eq; [|apply rd_off; [done|unfold in_page; lia]]. rewrite Hc. simpl negb.
  change (PAGE_ENTRY_SET 0) with false. cbv iota.
  replace (Z.land (pt_base k) PAGE_MASK) with (pt_base k)
    by (rewrite mask_div by done; Z.to_euclidean_division_equations; lia).
  rewrite !lor_flags by (done || lia).
  erewrite M_bind_eq; [|apply wr_off; [done|unfold in_page; lia]].
  erewrite M_bind_eq; [|apply wr_off; [done|unfold in_page; lia]]. done.
Qed.

(** ** The invariant of the early map *)

(** [Dp] tells which directory entries are present, [F] which virtual pages
    are mapped and to which physical page. *)
Record early_inv (Dp : Z -> bool) (F : Z -> option Z) (m : mem) : Prop := {
  ei_dir : forall di, 0 <= di < 1024 -> cell m (-1) di = if Dp di then pt_base di + 11 else 0;
  ei_rev : forall di, 0 <= di < 1024 -> cell m 1023 di = if Dp di then pt_base di + 1 else 0;
  ei_sys : forall i, 0 <= i < 1024 -> cell m 1022 i = if i =? 1023 then pt_base (-1) + 11 else 0;
  ei_top : Dp 1022 = true /\ Dp 1023 = true;
  ei_tab : forall di ti, 0 <= di < 1022 -> 0 <= ti < 1024 -> Dp di = true ->
    cell m di ti = match F (1024 * di + ti) with Some pa => pa + 1 | None => 0 end;
  ei_map : forall vpn pa, F vpn = Some pa ->
    0 <= vpn < 1046528 /\ Dp (vpn / 1024) = true /\ u32 pa /\ pa mod 4096 = 0;
}.

Lemma early_inv_ext Dp Dp' F F' m :
  (forall di, Dp di = Dp' di) -> (forall v, F v = F' v) -> early_inv Dp F m -> early_inv Dp' F' m.
Proof.
  intros HD HF [H1 H2 H3 H4 H5 H6]. split.
  - intros di Hd. by rewrite H1, HD.
  - intros di Hd. by rewrite H2, HD.
  - done.
  - by rewrite <- !HD.
  - intros di ti Hd Ht Hp. rewrite <- HF. apply H5; [done|done|by rewrite HD].
  - intros v pa Hv. rewrite <- HF in Hv. rewrite <- HD. by apply H6.
Qed.

Definition top_only (di : Z) : bool := (di =? 1022) || (di =? 1023).

(** Compare a stored cell with a requested one. *)
Ltac cells :=
  repeat (rewrite cell_store by (unfold in_page; lia));
  repeat (rewrite cell_zero_page by (unfold in_page; lia)).
Ltac cell_cases := repeat (case_decide; try (exfalso; lia)).

Lemma init_pg_dir0_spec s :
  paging s = false ->
  exists m, init_pg_dir0 s = Ok ((), with_pm s m) /\ early_inv top_only (fun _ => None) m /\ outside (pm s) m.
Proof.
  intros Hp. unfold init_pg_dir0. change PAGE_FLG_KERNEL with 11. rewrite !dir0_pt, dir0_base.
  erewrite M_bind_eq; [|apply memzero_off; [done|lia]]. erewrite M_bind_eq; [|apply memzero_off; [done|lia]].
  erewrite M_bind_eq; [|apply memzero_off; [done|lia]].
  erewrite M_bind_eq; [|apply pg_dir_add_off; [done|lia..|]; cbn [pm with_pm]; cells; by case_decide].
  erewrite M_bind_eq; [|apply pg_dir_add_off; [done|lia..|]; cbn [pm with_pm]; cells; by cell_cases].
  rewrite lor_flags by (done || lia).
  erewrite wr_off by (done || unfold in_page; lia). eexists. split; [reflexivity|]. cbn [pm with_pm]. split.
  - unfold top_only. split; [..|done|intros di ti Hd _ [=]; lia|done].
    + intros di Hd. cells. destruct (Z.eqb_spec di 1022); [|destruct (Z.eqb_spec di 1023)]; cell_cases; by subst.
    + intros di Hd. cells. destruct (Z.eqb_spec di 1022); [|destruct (Z.eqb_spec di 1023)]; cell_cases; by subst.
    + intros i Hi. cells. destruct (Z.eqb_spec i 1023); cell_cases; by subst.
  - do 5 (eapply outside_trans; [|apply outside_store; unfold in_page; lia]).
    do 3 (eapply outside_trans; [|apply outside_zero_page; lia]). by intros a.
Qed.

(** Mapping one page: the directory entry becomes present, the page is added. *)
Lemma create_early_spec s Dp F va :
  paging s = false -> early_inv Dp F (pm s) -> u32 va -> va / 4194304 < 1022 ->
  let di := va / 4194304 in
  exists m pt, create_page_table_early (pt_base (-1)) (pt_base 1023) va PAGE_FLG_KERNEL s = Ok (pt, with_pm s m) /\
    (pt = NULL /\ Dp di = true \/ pt = pt_base di) /\
    early_inv (fun d => Dp d || (d =? di)) F m /\ outside (pm s) m.
Proof.
  intros Hp Hi Hv Hdi di. assert (Hd : 0 <= di < 1022) by (unfold di; split; [apply Z.div_pos|]; lia).
  destruct (pt_base_ok di) as (Hu & Ha & Hn); [lia|]. destruct Hi as [Hdir Hrev Hsys Htop Htab Hmap].
  unfold create_page_table_early, pg_dir_no_entry. rewrite dir_index_div. fold di.
  unfold mbind at 1, M_bind at 1. erewrite (M_bind_eq (rd _)); [|apply rd_off; [done|unfold in_page; lia]].
  rewrite Hdir by lia. destruct (Dp di) eqn:ED.
  - rewrite set_flags by done. change (Z.odd 11) with true. cbn [mret M_ret]. change (0 =? 0) with true. cbv iota.
    exists (pm s), NULL. rewrite with_pm_same. split; [done|]. split; [by left|]. split; [|by intros a].
    eapply early_inv_ext; [| |split; done]; [|done]. intros d. simpl. destruct (Z.eqb_spec d di) as [->|]; [by rewrite ED|by rewrite orb_false_r].
  - change (PAGE_ENTRY_SET 0) with false. cbn [mret M_ret]. change (1 =? 0) with false. cbv iota.
    rewrite dir0_pt. erewrite M_bind_eq; [|apply memzero_off; [done|lia]]. change PAGE_FLG_KERNEL with 11. change PAGE_P with 1.
    rewrite !lor_flags by (done || lia). erewrite M_bind_eq; [|apply wr_off; [done|unfold in_page; lia]].
    change (pt_base 1023 =? 0) with false. cbv iota. erewrite M_bind_eq; [|apply wr_off; [done|unfold in_page; lia]].
    eexists _, (pt_base di). split; [reflexivity|]. split; [by right|]. cbn [pm with_pm]. split.
    + split.
      * intros d Hd'. cells. cell_cases.
        -- rewrite wrap32_small by (unfold pt_base in *; lia). destruct_and!. subst d. by rewrite Z.eqb_refl, orb_true_r.
        -- rewrite Hdir by lia. rewrite (proj2 (Z.eqb_neq d di)) by naive_solver. by rewrite orb_false_r.
      * intros d Hd'. cells. cell_cases.
        -- rewrite wrap32_small by (unfold pt_base in *; lia). destruct_and!. subst d. by rewrite Z.eqb_refl, orb_true_r.
        -- rewrite Hrev by lia. rewrite (proj2 (Z.eqb_neq d di)) by naive_solver. by rewrite orb_false_r.
      * intros i Hi. cells. cell_cases. by apply Hsys.
      * by destruct Htop as [-> ->].
      * intros d ti Hd' Ht Hpr. cells. cell_cases.
        -- subst d. destruct (F (1024 * di + ti)) as [pa|] eqn:EF; [|done]. exfalso. apply Hmap in EF as (_ & E & _).
           replace ((1024 * di + ti) / 1024) with di in E by (Z.to_euclidean_division_equations; lia). congruence.
        -- apply Htab; [lia..|]. rewrite (proj2 (Z.eqb_neq d di)), orb_false_r in Hpr by congruence. done.
      * intros v pa Hv'. apply Hmap in Hv' as (? & -> & ?). done.
    + do 2 (eapply outside_trans; [|apply outside_store; unfold in_page; lia]). apply outside_zero_page. lia.
Qed.

Lemma pt_phy_from_dir_off s Dp F di :
  paging s = false -> early_inv Dp F (pm s) -> 0 <= di < 1024 -> Dp di = true ->
  pt_phy_from_dir (pt_base (-1)) di s = Ok (pt_base di, s).
Proof.
  intros Hp Hi Hd ED. destruct (pt_base_ok di) as (Hu & Ha & _); [lia|]. unfold pt_phy_from_dir.
  erewrite M_bind_eq; [|apply rd_off; [done|unfold in_page; lia]]. rewrite (ei_dir _ _ _ Hi), ED by lia.
  rewrite set_flags, mask_flags by (done || lia). reflexivity.
Qed.

Lemma set_vmap_spec s Dp F va pa flag :
  paging s = false -> early_inv Dp F (pm s) -> u32 va -> va / 4194304 < 1022 ->
  u32 pa -> pa mod 4096 = 0 -> (va / 4096) mod 1024 = (pa / 4096) mod 1024 ->
  exists m, set_pg_dir0_vmap va pa flag s = Ok ((), with_pm s m) /\
    early_inv (fun d => Dp d || (d =? va / 4194304)) (fun v => if v =? va / 4096 then Some pa else F v) m /\
    outside (pm s) m.
Proof.
  intros Hp Hi Hv Hdi Hpa Hal Hix. unfold set_pg_dir0_vmap. rewrite dir0_base.
  erewrite M_bind_eq; [|eapply pt_phy_from_dir_off; [done|done|lia|by apply (ei_top _ _ _ Hi)]].
  destruct (create_early_spec s Dp F va) as (m1 & pt & Hc & Hpt & Hi1 & Ho1); [done..|].
  erewrite M_bind_eq by exact Hc. set (di := va / 4194304) in *.
  assert (Hd : 0 <= di < 1022) by (unfold di in *; split; [apply Z.div_pos|]; lia).
  erewrite (M_bind_eq _ _ _ (pt_base di) (with_pm s m1)).
  2:{ destruct Hpt as [[-> _]| ->].
      - change (0 =? 0) with true. cbv iota. rewrite dir_index_div. fold di. eapply pt_phy_from_dir_off; [done|done|lia|].
        cbv beta. by rewrite Z.eqb_refl, orb_true_r.
      - rewrite (proj2 (Z.eqb_neq _ _)) by (apply pt_base_ok; lia). done. }
  set (ti := (pa / 4096) mod 1024) in *.
  assert (Ht : 0 <= ti < 1024) by (apply Z.mod_pos_bound; lia).
  rewrite table_index_mod. fold ti. change PAGE_P with 1. rewrite lor_flags by (done || lia).
  rewrite wr_off by (done || unfold in_page; lia). eexists. split; [reflexivity|]. cbn [pm with_pm].
  destruct Hi1 as [Hdir Hrev Hsys Htop Htab Hmap].
  assert (Hpn : va / 4096 = 1024 * di + ti).
  { rewrite <- Hix. unfold di. change 4194304 with (4096 * 1024). rewrite <- Z.div_div by lia. apply Z.div_mod. lia. }
  split; [|eapply outside_trans; [exact Ho1|apply outside_store; unfold in_page; lia]]. split.
  - intros d Hd'. cells. cell_cases. by apply Hdir.
  - intros d Hd'. cells. cell_cases. by apply Hrev.
  - intros i Hi'. cells. cell_cases. by apply Hsys.
  - done.
  - intros d t Hd' Ht' Hpr. cells. rewrite Hpn. case_decide as E.
    + destruct E as [-> ->]. rewrite Z.eqb_refl. apply wrap32_small. Z.to_euclidean_division_equations. lia.
    + rewrite (proj2 (Z.eqb_neq _ _)) by lia. by apply Htab.
  - intros v q. destruct (Z.eqb_spec v (va / 4096)) as [->|]; [|apply Hmap]. intros [= <-].
    split; [lia|]. split; [|done]. cbv beta. rewrite Hpn. replace ((1024 * di + ti) / 1024) with di by (Z.to_euclidean_division_equations; lia).
    by rewrite Z.eqb_refl, orb_true_r.
Qed.

(** [n] pages from the physical page number [q] on, mapped [b] pages higher. *)
Lemma vmap_loop_spec n b q s Dp F :
  paging s = false -> early_inv Dp F (pm s) -> 0 <= b -> b mod 1024 = 0 -> 0 <= q ->
  b + q + Z.of_nat n <= 1046528 -> 
  exists m Dp', vmap_loop n (4096 * b) (4096 * q) s = Ok ((), with_pm s m) /\
    early_inv Dp' (fun v => if (b + q <=? v) && (v <? b + q + Z.of_nat n) then Some (4096 * (v - b)) else F v) m /\
    outside (pm s) m /\
    forall d, Dp' d = true -> Dp d = true \/ exists v, b + q <= v < b + q + Z.of_nat n /\ d = v / 1024.
Proof.
  revert q s Dp F. induction n as [|n IH]; intros q s Dp F Hp Hi Hb Ha Hq Hn; cbn [vmap_loop].
  - exists (pm s), Dp. rewrite with_pm_same. split_and!; [done| |by intros a|by left].
    eapply early_inv_ext; [done| |exact Hi]. intros v. change (Z.of_nat 0) with 0.
    destruct (Z.leb_spec (b + q) v), (Z.ltb_spec v (b + q + 0)); simpl; done || lia.
  - rewrite wrap32_small by lia. replace (4096 * q + 4096 * b) with (4096 * (b + q)) by lia.
    destruct (set_vmap_spec s Dp F (4096 * (b + q)) (4096 * q) PAGE_FLG_KERNEL) as (m1 & H1 & Hi1 & Ho1);
      [done|done|lia|Z.to_euclidean_division_equations; lia|lia|Z.to_euclidean_division_equations; lia| |].
    { rewrite !(Z.mul_comm 4096), !Z.div_mul by lia. rewrite Z.add_mod, Ha, Z.add_0_l, Z.mod_mod by lia. done. }
    erewrite M_bind_eq by exact H1. unfold Frame.FRAME_SIZE. replace (4096 * q + 4096) with (4096 * (q + 1)) by lia.
    destruct (IH (q + 1) (with_pm s m1) _ _ Hp Hi1) as (m2 & Dp2 & H2 & Hi2 & Ho2 & HD2); [lia..|].
    exists m2, Dp2. split; [exact H2|]. split_and!.
    + eapply early_inv_ext; [done| |exact Hi2]. intros v. cbv beta.
      replace (4096 * (b + q) / 4096) with (b + q) by (rewrite Z.mul_comm, Z.div_mul by lia; done).
      destruct (Z.leb_spec (b + (q + 1)) v), (Z.ltb_spec v (b + (q + 1) + Z.of_nat n)), (Z.eqb_spec v (b + q)),
        (Z.leb_spec (b + q) v), (Z.ltb_spec v (b + q + Z.of_nat (S n))); simpl; try lia; try done. subst v. f_equal. lia.
    + eapply outside_trans; [exact Ho1|exact Ho2].
    + intros d Hd. apply HD2 in Hd as [Hd|(v & Hv & ->)]; [|right; exists v; split; [lia|done]].
      apply orb_true_iff in Hd as [Hd|Hd]; [by left|right]. apply Z.eqb_eq in Hd as ->. exists (b + q). split; [lia|].
      change 4194304 with (4096 * 1024). rewrite <- Z.div_div by lia. by rewrite Z.mul_comm, Z.div_mul by lia.
Qed.

(** ** The map after start-up *)

(** The directory entries that are present. *)
Definition early_tables (di : Z) : bool :=
  (di =? 0) || ((768 <=? di) && (di <=? 771)) || (di =? 1022) || (di =? 1023).

(** The first MiB at its own address, the first 16 MiB from 3 GiB on, the page
    directory at the last page below 0xFFC00000, and the page tables above. *)
Definition early_map (va : Z) : option Z :=
  if va <? 0x100000 then Some va
  else if (KERNEL_V_START <=? va) && (va <? KERNEL_V_START + 0x1000000) then Some (va - KERNEL_V_START)
  else if (0xFFBFF000 <=? va) && (va <? 0xFFC00000) then Some (PG_DIR0_ADDR + va mod 4096)
  else if 0xFFC00000 <=? va then
    if early_tables ((va - 0xFFC00000) / 4096) then Some (DIR0_PT_PHY ((va - 0xFFC00000) / 4096) + va mod 4096) else None
  else None.

(** The virtual pages the two loops map. *)
Definition early_pages (v : Z) : option Z :=
  if (786432 <=? v) && (v <? 790528) then Some (4096 * (v - 786432))
  else if (0 <=? v) && (v <? 256) then Some (4096 * v) else None.

Lemma early_dir Dp m :
  early_inv Dp early_pages m ->
  (forall d, Dp d = true -> top_only d = true \/ (exists v, (0 <= v < 256 \/ 786432 <= v < 790528) /\ d = v / 1024)) ->
  forall d, Dp d = early_tables d.
Proof.
  intros Hi HD d. apply eq_true_iff_eq. unfold early_tables. rewrite !orb_true_iff, andb_true_iff, !Z.eqb_eq, !Z.leb_le. split.
  - intros H. apply HD in H as [H|(v & Hv & ->)]; [|Z.to_euclidean_division_equations; lia].
    unfold top_only in H. apply orb_true_iff in H. rewrite !Z.eqb_eq in H. tauto.
  - assert (Hpg : forall v, early_pages v <> None -> Dp (v / 1024) = true).
    { intros v Hv. destruct (early_pages v) eqn:E; [|done]. by apply (ei_map _ _ _ Hi) in E as (_ & ? & _). }
    intros [[[->|Hd]| ->]| ->]; [|..|by apply (ei_top _ _ _ Hi)|by apply (ei_top _ _ _ Hi)].
    + by apply (Hpg 0).
    + replace d with ((1024 * d) / 1024) by (rewrite Z.mul_comm, Z.div_mul by lia; done). apply Hpg. unfold early_pages.
      by rewrite (proj2 (Z.leb_le 786432 _)), (proj2 (Z.ltb_lt _ 790528)) by lia.
Qed.

Lemma map_pg_dir0_spec s :
  paging s = false ->
  exists m, map_pg_dir0 s = Ok ((), with_pm s m) /\ early_inv early_tables early_pages m /\ outside (pm s) m.
Proof.
  intros Hp. unfold map_pg_dir0. destruct (init_pg_dir0_spec s Hp) as (m0 & H0 & Hi0 & Ho0).
  erewrite M_bind_eq by exact H0.
  destruct (vmap_loop_spec 256 0 0 (with_pm s m0) _ _ Hp Hi0) as (m1 & D1 & H1 & Hi1 & Ho1 & HD1); [lia..|done|lia|lia|].
  erewrite M_bind_eq by exact H1.
  destruct (vmap_loop_spec 4096 786432 0 (with_pm s m1) _ _ Hp Hi1) as (m2 & D2 & H2 & Hi2 & Ho2 & HD2); [lia|done|lia|lia|].
  exists m2. split; [exact H2|]. split; [|eapply outside_trans; [|eapply outside_trans]; [exact Ho0|exact Ho1|exact Ho2]].
  assert (Hi : early_inv D2 early_pages m2).
  { eapply early_inv_ext; [done| |exact Hi2]. intros v. unfold early_pages. cbv beta.
    change (786432 + 0) with 786432. change (0 + 0) with 0.
    change (786432 + Z.of_nat 4096) with 790528. change (0 + Z.of_nat 256) with 256. by rewrite Z.sub_0_r. }
  eapply early_inv_ext; [|done|exact Hi]. apply (early_dir _ _ Hi). intros d Hd.
  apply HD2 in Hd as [Hd|(v & Hv & ->)]; [|right; exists v; split; [lia|done]].
  apply HD1 in Hd as [Hd|(v & Hv & ->)]; [by left|right; exists v; split; [lia|done]].
Qed.

(** [early_map] by the parts of an address. *)
Lemma early_map_low va : u32 va -> va < 4286578688 ->
  early_map va = match early_pages (va / 4096) with Some pa => Some (pa + va mod 4096) | None => None end.
Proof.
  intros Hv Hlt. unfold early_map, early_pages, KERNEL_V_START, Malloc.KERNEL_V_START. pose proof (Z.div_mod va 4096).
  pose proof (Z.mod_pos_bound va 4096).
  destruct (Z.ltb_spec va 0x100000), (Z.leb_spec 0xC0000000 va), (Z.ltb_spec va (0xC0000000 + 0x1000000)),
    (Z.leb_spec 786432 (va / 4096)), (Z.ltb_spec (va / 4096) 790528), (Z.leb_spec 0 (va / 4096)),
    (Z.ltb_spec (va / 4096) 256); cbn [andb]; try lia; try (f_equal; lia);
  rewrite (proj2 (Z.leb_gt 0xFFBFF000 va)), (proj2 (Z.leb_gt 0xFFC00000 va)) by lia; done.
Qed.
Lemma early_map_high va : 4286578688 <= va < 4294967296 ->
  early_map va =
    if va <? 4290768896 then None
    else if va <? 4290772992 then Some (pt_base (-1) + va mod 4096)
    else if early_tables ((va - 4290772992) / 4096) then Some (pt_base ((va - 4290772992) / 4096) + va mod 4096) else None.
Proof.
  intros Hv. unfold early_map, KERNEL_V_START, Malloc.KERNEL_V_START. rewrite dir0_base, dir0_pt.
  rewrite (proj2 (Z.ltb_ge va 0x100000)), (proj2 (Z.ltb_ge va (0xC0000000 + _))) by lia. rewrite andb_false_r.
  destruct (Z.leb_spec 0xFFBFF000 va), (Z.ltb_spec va 4290768896), (Z.ltb_spec va 0xFFC00000), (Z.leb_spec 0xFFC00000 va);
    cbn [andb]; try lia; done.
Qed.

(** The second level of the walk, from the table of a present entry. *)
Lemma walk_present m va di :
  u32 va -> di = va / 4194304 -> cell m (-1) di = pt_base di + 11 ->
  walk m (pt_base (-1)) va =
    let pte := cell m di ((va / 4096) mod 1024) in
    if negb (PAGE_ENTRY_SET pte) then None else Some (Z.land pte PAGE_MASK + va mod 4096).
Proof.
  intros Hv Hd Hc. assert (0 <= di < 1024) by (rewrite Hd; split; [apply Z.div_pos; lia|apply Z.div_lt_upper_bound; lia]).
  destruct (pt_base_ok di) as (Hu & Ha & _); [lia|]. unfold walk. rewrite dir_index_div, table_index_mod, offset_mod, <- Hd.
  change (Z.land (pt_base (-1)) PAGE_MASK) with (pt_base (-1)). change (load32 m (pt_base (-1) + 4 * di)) with (cell m (-1) di).
  rewrite Hc, set_flags, mask_flags by (done || lia). done.
Qed.

Lemma walk_entry pte x f va :
  pte = x + f -> u32 x -> x mod 4096 = 0 -> 0 <= f < 4096 -> Z.odd f = true ->
  (if negb (PAGE_ENTRY_SET pte) then None else Some (Z.land pte PAGE_MASK + va mod 4096)) = Some (x + va mod 4096).
Proof. intros -> Hu Ha Hf Ho. by rewrite set_flags, Ho, mask_flags by (done || lia). Qed.

Lemma walk_early m va :
  early_inv early_tables early_pages m -> u32 va -> walk m (pt_base (-1)) va = early_map va.
Proof.
  intros Hi Hv. set (di := va / 4194304). assert (Hd : 0 <= di < 1024).
  { unfold di. split; [apply Z.div_pos; lia|apply Z.div_lt_upper_bound; lia]. }
  assert (Hq : va / 4096 = 1024 * di + (va / 4096) mod 1024).
  { unfold di. change 4194304 with (4096 * 1024). rewrite <- Z.div_div by lia. apply Z.div_mod. lia. }
  pose proof (Z.mod_pos_bound (va / 4096) 1024 ltac:(lia)) as Ht. set (ti := (va / 4096) mod 1024) in *.
  pose proof (ei_dir _ _ _ Hi di Hd) as Hc. destruct (early_tables di) eqn:ED.
  2:{ unfold walk. rewrite dir_index_div. fold di. change (Z.land (pt_base (-1)) PAGE_MASK) with (pt_base (-1)).
      change (load32 m (pt_base (-1) + 4 * di)) with (cell m (-1) di). rewrite Hc. cbn [PAGE_ENTRY_SET negb Z.land PAGE_P Z.eqb].
      assert (di < 1022) by (unfold early_tables in ED; apply orb_false_iff in ED as [[_ ?]%orb_false_iff ?]; lia).
      rewrite early_map_low by (done || unfold di in *; Z.to_euclidean_division_equations; lia).
      destruct (early_pages (va / 4096)) eqn:EF; [|done]. apply (ei_map _ _ _ Hi) in EF as (_ & E & _).
      rewrite Hq in E. replace ((1024 * di + ti) / 1024) with di in E by (Z.to_euclidean_division_equations; lia). congruence. }
  rewrite (walk_present m va di Hv eq_refl Hc). cbv zeta. fold ti.
  assert (Hvd : va = 4096 * (1024 * di + ti) + va mod 4096) by (rewrite <- Hq; apply Z.div_mod; lia).
  pose proof (Z.mod_pos_bound va 4096 ltac:(lia)).
  destruct (decide (di < 1022)); [|destruct (decide (di = 1022))].
  - rewrite (ei_tab _ _ _ Hi di ti) by (done || lia). rewrite <- Hq, early_map_low by (done || lia).
    destruct (early_pages (va / 4096)) as [pa|] eqn:EF; [|done]. apply (ei_map _ _ _ Hi) in EF as (_ & _ & Hu & Ha).
    by apply (walk_entry _ pa 1).
  - replace di with 1022 by done. rewrite (ei_sys _ _ _ Hi ti), early_map_high by lia.
    destruct (Z.eqb_spec ti 1023); [rewrite (proj2 (Z.ltb_ge va _)), (proj2 (Z.ltb_lt va _)) by lia|by rewrite (proj2 (Z.ltb_lt va _)) by lia].
    apply (walk_entry _ (pt_base (-1)) 11); done || lia.
  - replace di with 1023 by lia. rewrite (ei_rev _ _ _ Hi ti), early_map_high by lia.
    rewrite !(proj2 (Z.ltb_ge va _)) by lia. replace ((va - 4290772992) / 4096) with ti by (Z.to_euclidean_division_equations; lia).
    destruct (early_tables ti); [|done]. destruct (pt_base_ok ti) as (Hu & Ha & _); [lia|]. by apply (walk_entry _ (pt_base ti) 1).
Qed.

Definition boot_mm : mm := mkMm (store32 ∅ 0x9008 0xFFFF) 0 false Frame.bitmap0.

(** ** The kernel's own test *)

(** A machine that runs on the early map. *)
Definition on_early (s : mm) : Prop :=
  paging s = true /\ cr3 s = pt_base (-1) /\ early_inv early_tables early_pages (pm s).

Lemma rd_early s va p :
  on_early s -> u32 va -> early_map va = Some p -> rd va s = Ok (load32 (pm s) p, s).
Proof.
  intros (Hp & Hc & Hi) Hv Hm. unfold rd, translate. by rewrite Hp, Hc, wrap32_small, walk_early, Hm.
Qed.
Lemma wr_early s va p v :
  on_early s -> u32 va -> early_map va = Some p -> wr va v s = Ok ((), with_pm s (store32 (pm s) p v)).
Proof.
  intros (Hp & Hc & Hi) Hv Hm. unfold wr, translate. by rewrite Hp, Hc, wrap32_small, walk_early, Hm.
Qed.

(** A store outside the tables keeps the map. *)
Lemma on_early_store s a v : on_early s -> fits a 4 -> 5246976 <= a -> on_early (with_pm s (store32 (pm s) a v)).
Proof.
  intros (Hp & Hc & [H1 H2 H3 H4 H5 H6]) Hf Ha. split; [done|]. split; [done|]. cbn [pm with_pm].
  assert (Hs : forall k i, in_page k i -> cell (store32 (pm s) a v) k i = cell (pm s) k i).
  { unfold cell, in_page, pt_base, fits in *. intros k i Hk. apply load32_store32_ne; unfold fits; lia. }
  split; try done; intros; rewrite Hs by (unfold in_page; lia); auto.
Qed.

(** A read of an entry of a page table through the reverse map. *)
Lemma rd_table s di ti pa :
  on_early s -> 0 <= di < 1022 -> 0 <= ti < 1024 -> early_tables di = true -> early_pages (1024 * di + ti) = Some pa ->
  rd (4290772992 + 4096 * di + 4 * ti) s = Ok (pa + 1, s).
Proof.
  intros Hs Hd Ht HD HF. rewrite (rd_early s _ (pt_base di + 4 * ti)); [|done|lia|].
  - destruct Hs as (_ & _ & Hi). change (load32 (pm s) (pt_base di + 4 * ti)) with (cell (pm s) di ti).
    by rewrite (ei_tab _ _ _ Hi), HF by (done || lia).
  - rewrite early_map_high by lia. rewrite !(proj2 (Z.ltb_ge _ _)) by lia.
    replace ((4290772992 + 4096 * di + 4 * ti - 4290772992) / 4096) with di by (Z.to_euclidean_division_equations; lia).
    rewrite HD. do 2 f_equal. Z.to_euclidean_division_equations; lia.
Qed.

Lemma get_phy_address_early s va pa :
  on_early s -> u32 va -> va < 4286578688 -> early_pages (va / 4096) = Some pa ->
  get_phy_address va s = Ok (pa + va mod 4096, s).
Proof.
  intros Hs Hv Hlt HF. unfold get_phy_address. rewrite dir_index_div, table_index_mod, offset_mod, Z.shiftl_mul_pow2 by lia.
  change (2 ^ 12) with 4096. pose proof Hs as (_ & _ & Hi). pose proof (ei_map _ _ _ Hi _ _ HF) as (_ & HD & Hu & Ha).
  assert (Hq : va / 4096 = 1024 * (va / 4194304) + (va / 4096) mod 1024).
  { change 4194304 with (4096 * 1024). rewrite <- Z.div_div by lia. apply Z.div_mod. lia. }
  rewrite Z.mul_comm. erewrite M_bind_eq; [|apply (rd_table s _ _ pa); [done|Z.to_euclidean_division_equations; lia|apply Z.mod_pos_bound; lia| |]].
  - rewrite mask_flags, wrap32_small by (done || lia || Z.to_euclidean_division_equations; lia). done.
  - rewrite Z.div_div in HD by lia. exact HD.
  - rewrite <- Hq. exact HF.
Qed.

(** The reverse map gives the physical address of a table that exists. *)
Lemma revmap_early s di :
  on_early s -> 0 <= di < 1024 -> early_tables di = true ->
  pt_phy_from_revmap (PG_DIR0_ADDR + KERNEL_V_START) di s = Ok (pt_base di, s).
Proof.
  intros Hs Hd HD. pose proof Hs as (_ & _ & Hi). destruct (pt_base_ok di) as (Hu & Ha & _); [lia|].
  unfold pt_phy_from_revmap. change (PG_DIR0_ADDR + KERNEL_V_START) with 3222274048.
  erewrite M_bind_eq; [|apply (rd_early s _ (pt_base (-1) + 4 * di)); [done|lia|]].
  2:{ rewrite early_map_low by lia. unfold early_pages.
      replace ((3222274048 + 4 * di) / 4096) with 786688 by (Z.to_euclidean_division_equations; lia).
      cbn [Z.leb Z.ltb Z.compare Pos.compare Pos.compare_cont andb]. f_equal. unfold pt_base. Z.to_euclidean_division_equations; lia. }
  change (load32 (pm s) (pt_base (-1) + 4 * di)) with (cell (pm s) (-1) di). rewrite (ei_dir _ _ _ Hi), HD, set_flags by done.
  erewrite (M_bind_eq (ASSERT _)) by reflexivity.
  erewrite M_bind_eq; [|apply (rd_early s _ (pt_base 1023 + 4 * di)); [done|lia|]].
  2:{ rewrite early_map_high by lia. rewrite !(proj2 (Z.ltb_ge _ _)) by lia.
      replace ((0xFFFFF000 + 4 * di - 4290772992) / 4096) with 1023 by (Z.to_euclidean_division_equations; lia).
      cbn [early_tables Z.eqb Pos.eqb orb]. do 2 f_equal. Z.to_euclidean_division_equations; lia. }
  change (load32 (pm s) (pt_base 1023 + 4 * di)) with (cell (pm s) 1023 di). rewrite (ei_rev _ _ _ Hi), HD by done.
  by rewrite mask_flags by (done || lia).
Qed.

(** [test_page] passes on the map of the early build, whatever the rest of
    memory holds, provided the word at 0x9008 is the 0xFFFF it tests (the low
    half of a descriptor of the boot loader). *)
Theorem test_page_passes s1 :
  on_early s1 -> load32 (pm s1) 0x9008 = 0xFFFF -> is_Ok (test_page (PG_DIR0_ADDR + KERNEL_V_START) s1) = true.
Proof.
  intros Hs1 Hw. unfold test_page. erewrite M_bind_eq; [|apply (wr_early s1 _ 0xF08FFC); [done|by vm_compute|reflexivity]].
  set (s2 := with_pm s1 _). assert (Hs2 : on_early s2) by (apply on_early_store; [done|unfold fits; lia|lia]).
  erewrite M_bind_eq; [|apply (rd_early s2 _ 0xF08FFC); [done|by vm_compute|reflexivity]].
  assert (load32 (pm s2) 0xF08FFC = 0x1234) as -> by (apply load32_store32_eq; unfold fits; lia).
  erewrite (M_bind_eq (ASSERT _)) by reflexivity.
  erewrite M_bind_eq; [|apply (rd_early s2 _ 0x9008); [done|by vm_compute|reflexivity]].
  assert (load32 (pm s2) 0x9008 = 0xFFFF) as ->.
  { rewrite <- Hw. apply load32_store32_ne; unfold fits; lia. }
  erewrite (M_bind_eq (ASSERT _)) by reflexivity.
  do 3 (erewrite M_bind_eq; [|eapply get_phy_address_early; [exact Hs2|by vm_compute|by vm_compute|reflexivity]]).
  do 3 (erewrite (M_bind_eq (ASSERT _)) by reflexivity). clearbody s2. clear s1 Hs1 Hw.
  erewrite M_bind_eq; [|apply (revmap_early s2 768); [done|lia|done]].
  erewrite M_bind_eq; [|apply (rd_early s2 0xFFFFFFFC (pt_base 1023 + 4 * 1023)); [done|lia|reflexivity]].
  destruct Hs2 as (_ & _ & Hi2). change (load32 (pm s2) (pt_base 1023 + 4 * 1023)) with (cell (pm s2) 1023 1023).
  rewrite (ei_rev _ _ _ Hi2) by lia. reflexivity.
Qed.

Lemma test_page_passes_witness :
  exists m, is_Ok (test_page (PG_DIR0_ADDR + KERNEL_V_START) (mkMm m (pt_base (-1)) true Frame.bitmap0)) = true.
Proof.
  destruct (map_pg_dir0_spec boot_mm eq_refl) as (m & _ & Hi & Ho). exists m. apply test_page_passes; [done|].
  transitivity (load32 (pm boot_mm) 0x9008); [|by vm_compute]. apply load32_same. intros a Ha. apply Ho; lia.
Defined.
