(* ===== verification/PagingTmp.v ===== *)
(** * Theorems about paging: temporary mappings at run time

    A running address space maps its own page tables: entry 1023 of the
    directory is the reverse table, whose entry 1022 is the table of the
    temporary slots, which is also entry 1022 of the directory.  [space] states
    this; under it the slots are words of that table, a slot shows the page it
    holds, and the routines that use slots are described by the words they
    change. *)
From S2P Require Import Prelude CMem Malloc Common Frame Paging PagingThm.
Import Paging.

Definition page (p : Z) : Prop := 0 <= p /\ p + 4096 <= 4294967296 /\ p mod 4096 = 0.
Definition word (m : mem) (p i : Z) : Z := load32 m (p + 4 * i).
Definition entry (e p : Z) : Prop := PAGE_ENTRY_SET e = true /\ Z.land e PAGE_MASK = p.
Definition idx (i : Z) : Prop := 0 <= i < 1024.

Record space (s : mm) (R S : Z) : Prop := {
  sp_on : paging s = true;
  sp_D : page (cr3 s);
  sp_R : page R;
  sp_S : page S;
  sp_ne : cr3 s <> S /\ R <> S;
  sp_rev : entry (word (pm s) (cr3 s) 1023) R;
  sp_sys : entry (word (pm s) R 1022) S;
  sp_dir : entry (word (pm s) (cr3 s) 1022) S;
}.

(** ** Words and entries *)

Lemma page_mask p : page p -> Z.land p PAGE_MASK = p.
Proof. intros (H0 & H1 & H2). rewrite mask_div by lia. Z.to_euclidean_division_equations; lia. Qed.

Lemma word_store m p i v q j :
  page p -> page q -> idx i -> idx j ->
  word (store32 m (p + 4 * i) v) q j = if decide (p = q /\ i = j) then wrap32 v else word m q j.
Proof.
  unfold word, page, idx. intros Hp Hq Hi Hj. case_decide as E.
  - destruct E as [-> ->]. apply load32_store32_eq. unfold fits. lia.
  - apply load32_store32_ne; unfold fits; Z.to_euclidean_division_equations; lia.
Qed.

Lemma entry_flags p f : page p -> 0 <= f < 4096 -> Z.odd f = true -> entry (Z.lor p f) p.
Proof.
  intros (H0 & H1 & H2) Hf Ho. rewrite lor_flags by done. split; [by rewrite set_flags|by rewrite mask_flags by lia].
Qed.
Lemma lor_u32 p f : page p -> 0 <= f < 4096 -> wrap32 (Z.lor p f) = Z.lor p f.
Proof. intros (H0 & H1 & H2) Hf. rewrite lor_flags by done. apply wrap32_small. lia. Qed.

Lemma walk_entries m D P Q va :
  page D -> entry (word m D (PAGE_DIR_INDEX va)) P -> entry (word m P (PAGE_TABLE_INDEX va)) Q ->
  walk m D va = Some (Q + PAGE_OFFSET va).
Proof.
  intros HD [H1 H2] [H3 H4]. unfold walk. rewrite (page_mask D HD). unfold word in *. rewrite H1, H2. cbn [negb].
  by rewrite H3, H4.
Qed.
Lemma walk_absent m D P va :
  page D -> entry (word m D (PAGE_DIR_INDEX va)) P -> PAGE_ENTRY_SET (word m P (PAGE_TABLE_INDEX va)) = false ->
  walk m D va = None.
Proof. intros HD [H1 H2] H3. unfold walk. rewrite (page_mask D HD). unfold word in *. by rewrite H1, H2, H3. Qed.

(** ** The slots *)

Lemma slot_va i : idx i -> temp_slot i = 4294959104 + 4 * i.
Proof. reflexivity. Qed.
Lemma temp_va i : idx i -> IX_TO_VA 1022 i = 4286578688 + 4096 * i.
Proof.
  unfold idx, IX_TO_VA. intros Hi. rewrite (Z.shiftl_mul_pow2 i) by lia. change (2 ^ 12) with 4096.
  change (Z.shiftl 1022 22) with 4286578688. rewrite Z.mul_comm. symmetry. apply Z.add_nocarry_lor, Z.bits_inj'. intros j Hj.
  rewrite Z.land_spec, Z.bits_0. change 4286578688 with (Z.shiftl 1022 22). destruct (decide (j < 22)).
  - by rewrite Z.shiftl_spec_low by lia.
  - assert (Z.testbit (4096 * i) j = false) as ->; [|by rewrite andb_false_r].
    destruct (decide (i = 0)) as [->|]; [apply Z.bits_0|]. apply Z.bits_above_log2; [lia|].
    apply Z.lt_le_trans with 22; [|lia]. apply Z.log2_lt_pow2; lia.
Qed.
Lemma temp_va_index i o : idx i -> 0 <= o < 4096 ->
  u32 (IX_TO_VA 1022 i + o) /\ PAGE_DIR_INDEX (IX_TO_VA 1022 i + o) = 1022 /\
  PAGE_TABLE_INDEX (IX_TO_VA 1022 i + o) = i /\ PAGE_OFFSET (IX_TO_VA 1022 i + o) = o.
Proof.
  intros Hi Ho. rewrite temp_va by done. rewrite dir_index_div, table_index_mod, offset_mod. unfold idx in Hi.
  Z.to_euclidean_division_equations; lia.
Qed.

Section Space.
Context (s : mm) (R S : Z) (Hsp : space s R S).

Lemma translate_slot i : idx i -> translate s (wrap32 (temp_slot i)) = Some (S + 4 * i).
Proof.
  intros Hi. destruct Hsp as [Hon HD HR HS _ Hrev Hsys Hdir]. rewrite slot_va by done. unfold idx in Hi.
  rewrite wrap32_small by lia. unfold translate. rewrite Hon. rewrite (walk_entries _ _ R S).
  - rewrite offset_mod. f_equal. Z.to_euclidean_division_equations; lia.
  - done.
  - rewrite dir_index_div. replace ((4294959104 + 4 * i) / 4194304) with 1023 by (Z.to_euclidean_division_equations; lia). done.
  - rewrite table_index_mod. replace (((4294959104 + 4 * i) / 4096) mod 1024) with 1022 by (Z.to_euclidean_division_equations; lia). done.
Qed.

Lemma rd_slot i : idx i -> rd (temp_slot i) s = Ok (word (pm s) S i, s).
Proof. intros Hi. unfold rd. by rewrite translate_slot. Qed.
Lemma wr_slot i v : idx i -> wr (temp_slot i) v s = Ok ((), with_pm s (store32 (pm s) (S + 4 * i) v)).
Proof. intros Hi. unfold wr. by rewrite translate_slot. Qed.

(** Changing a slot keeps the space. *)
Lemma space_slot i v : idx i -> space (with_pm s (store32 (pm s) (S + 4 * i) v)) R S.
Proof.
  intros Hi. destruct Hsp as [Hon HD HR HS [Hne1 Hne2] Hrev Hsys Hdir].
  split; try done; cbn [pm cr3 with_pm]; rewrite word_store by (done || unfold idx; lia); case_decide; naive_solver.
Qed.

(** A slot shows the page it holds. *)
Lemma translate_temp i p o : idx i -> 0 <= o < 4096 -> entry (word (pm s) S i) p ->
  translate s (wrap32 (IX_TO_VA 1022 i + o)) = Some (p + o).
Proof.
  intros Hi Ho He. destruct Hsp as [Hon HD HR HS _ Hrev Hsys Hdir]. destruct (temp_va_index i o Hi Ho) as (Hu & E1 & E2 & E3).
  rewrite wrap32_small by done. unfold translate. rewrite Hon, (walk_entries _ _ S p), E3; [done|done|by rewrite E1|by rewrite E2].
Qed.
Lemma translate_temp_none i o : idx i -> 0 <= o < 4096 -> PAGE_ENTRY_SET (word (pm s) S i) = false ->
  translate s (wrap32 (IX_TO_VA 1022 i + o)) = None.
Proof.
  intros Hi Ho He. destruct Hsp as [Hon HD HR HS _ Hrev Hsys Hdir]. destruct (temp_va_index i o Hi Ho) as (Hu & E1 & E2 & E3).
  rewrite wrap32_small by done. unfold translate. rewrite Hon. apply (walk_absent _ _ S); [done|by rewrite E1|by rewrite E2].
Qed.

Lemma rd_temp i p j : idx i -> idx j -> entry (word (pm s) S i) p -> rd (IX_TO_VA 1022 i + 4 * j) s = Ok (word (pm s) p j, s).
Proof. unfold idx. intros Hi Hj He. unfold rd. by rewrite (translate_temp i p) by (done || lia). Qed.

Definition slot_free (i : Z) : Prop := PAGE_ENTRY_SET (word (pm s) S i) = false.

Lemma create_temp_loop_spec n pa i :
  0 <= i -> i + Z.of_nat n = 1024 -> (exists j, i <= j < 1024 /\ slot_free j) ->
  exists j, i <= j < 1024 /\ slot_free j /\ (forall k, i <= k < j -> ~ slot_free k) /\
    create_temp_loop n pa i s = Ok (IX_TO_VA 1022 j, with_pm s (store32 (pm s) (S + 4 * j) (Z.lor pa PAGE_FLG_KERNEL))).
Proof.
  revert i. induction n as [|n IH]; intros i Hi Hn (j & Hj & Hf); [lia|]. cbn [create_temp_loop].
  erewrite M_bind_eq; [|apply rd_slot; unfold idx; lia]. destruct (PAGE_ENTRY_SET (word (pm s) S i)) eqn:E; cbn [negb].
  - destruct (IH (i + 1)) as (k & Hk & Hkf & Hkm & ->); [lia|lia|exists j; split; [|done]|].
    { assert (j <> i) by (intros ->; unfold slot_free in Hf; congruence). lia. }
    exists k. split; [lia|]. split; [done|]. split; [|done]. intros k' Hk'. destruct (decide (k' = i)) as [->|]; [unfold slot_free; congruence|].
    apply Hkm. lia.
  - exists i. split; [lia|]. split; [done|]. split; [lia|]. erewrite M_bind_eq; [|apply wr_slot; unfold idx; lia]. done.
Qed.

Lemma lookup_loop_spec n pa i :
  0 <= i -> i + Z.of_nat n = 1024 -> (forall j, i <= j < 1024 -> ~ entry (word (pm s) S j) pa) ->
  lookup_loop n pa i s = Ok (NULL, s).
Proof.
  revert i. induction n as [|n IH]; intros i Hi Hn Hf; [done|]. cbn [lookup_loop].
  erewrite M_bind_eq; [|apply rd_slot; unfold idx; lia]. specialize (Hf i ltac:(lia)) as Hi'.
  destruct (PAGE_ENTRY_SET (word (pm s) S i)) eqn:E; cbn [andb].
  - destruct (Z.eqb_spec (Z.land (word (pm s) S i) PAGE_MASK) pa); [by destruct Hi'|]. apply IH; [lia|lia|]. intros j Hj. apply Hf. lia.
  - apply IH; [lia|lia|]. intros j Hj. apply Hf. lia.
Qed.

End Space.

Lemma create_temp_spec s R S pa :
  space s R S -> (exists j, idx j /\ slot_free s S j) ->
  exists j, idx j /\ slot_free s S j /\ (forall k, 0 <= k < j -> ~ slot_free s S k) /\
    create_temp_va pa s = Ok (IX_TO_VA 1022 j, with_pm s (store32 (pm s) (S + 4 * j) (Z.lor pa PAGE_FLG_KERNEL))).
Proof. intros Hsp Hf. apply (create_temp_loop_spec s R S Hsp 1024 pa 0); [lia|done|done]. Qed.

Lemma delete_temp_spec s R S i o :
  space s R S -> idx i -> 0 <= o < 4096 ->
  delete_temp_va (IX_TO_VA 1022 i + o) s = Ok ((), with_pm s (store32 (pm s) (S + 4 * i) 0)).
Proof.
  intros Hsp Hi Ho. unfold delete_temp_va. destruct (temp_va_index i o Hi Ho) as (_ & _ & -> & _). by apply (wr_slot s R S).
Qed.

Lemma PAGE_FLG_KERNEL_odd : 0 <= PAGE_FLG_KERNEL < 4096 /\ Z.odd PAGE_FLG_KERNEL = true.
Proof. split; [|done]. change PAGE_FLG_KERNEL with 11. lia. Qed.

(** The slot that [create_temp_va] fills holds the page. *)
Lemma created_entry s S pa j :
  page S -> page pa -> idx j ->
  entry (word (pm (with_pm s (store32 (pm s) (S + 4 * j) (Z.lor pa PAGE_FLG_KERNEL)))) S j) pa.
Proof.
  intros HS Hpa Hj. destruct PAGE_FLG_KERNEL_odd as [H1 H2]. cbn [pm with_pm]. rewrite word_store, decide_True by done.
  rewrite lor_u32 by done. by apply entry_flags.
Qed.

Lemma store_word_out m S j v a :
  page S -> idx j -> u32 a -> (a < S + 4 * j \/ S + 4 * j + 4 <= a) -> load8 (store32 m (S + 4 * j) v) a = load8 m a.
Proof. unfold page, idx. intros HS Hj Ha Ho. apply load8_store32_ne; unfold fits; lia. Qed.

(** Temporary mappings: in any address space with its system table and a
    free slot, [create_temp_va] returns an address whose page shows the
    physical page asked for, [delete_temp_va] takes the mapping away again,
    and after both no byte of physical memory differs except the word of one
    slot that was free; the space stays usable throughout. *)
Theorem temp_mapping_roundtrip s R S pa :
  space s R S -> page pa -> (exists j, idx j /\ slot_free s S j) ->
  exists va s1 s2 i, create_temp_va pa s = Ok (va, s1) /\ space s1 R S /\
    (forall o, 0 <= o < 4096 -> translate s1 (wrap32 (va + o)) = Some (pa + o)) /\
    delete_temp_va va s1 = Ok ((), s2) /\ space s2 R S /\
    (forall o, 0 <= o < 4096 -> translate s2 (wrap32 (va + o)) = None) /\
    idx i /\ slot_free s S i /\
    forall a, u32 a -> (a < S + 4 * i \/ S + 4 * i + 4 <= a) -> load8 (pm s2) a = load8 (pm s) a.
Proof.
  intros Hsp Hpa Hf. pose proof (sp_S _ _ _ Hsp) as HS.
  destruct (create_temp_spec s R S pa Hsp Hf) as (i & Hi & Hfi & _ & Hc).
  pose proof (space_slot s R S Hsp i (Z.lor pa PAGE_FLG_KERNEL) Hi) as Hsp1.
  pose proof (created_entry s S pa i HS Hpa Hi) as He. set (s1 := with_pm s _) in *.
  pose proof (space_slot s1 R S Hsp1 i 0 Hi) as Hsp2.
  exists (IX_TO_VA 1022 i), s1, (with_pm s1 (store32 (pm s1) (S + 4 * i) 0)), i. split; [exact Hc|]. split; [done|]. split.
  { intros o Ho. by apply (translate_temp s1 R S). }
  split. { rewrite <- (Z.add_0_r (IX_TO_VA 1022 i)). by apply (delete_temp_spec s1 R S). }
  split; [done|]. split.
  { intros o Ho. apply (translate_temp_none _ R S); [done|done|done|]. cbn [pm with_pm].
    by rewrite word_store, decide_True. }
  split; [done|]. split; [done|]. intros a Ha Ho. cbn [pm with_pm]. unfold s1. cbn [pm with_pm].
  by rewrite !store_word_out.
Qed.

(** [get_phy_from_dir] performs the walk of the processor for a directory
    that is not the current one: for a directory shown in a temporary slot it
    returns the physical page to which that directory maps the address, and
    leaves memory as it was except for the word of one free slot. *)
Theorem get_phy_from_dir_walks s R S t T PT Q va :
  space s R S -> idx t -> entry (word (pm s) S t) T -> page T -> T <> S -> u32 va ->
  entry (word (pm s) T (PAGE_DIR_INDEX va)) PT -> page PT -> PT <> S ->
  entry (word (pm s) PT (PAGE_TABLE_INDEX va)) Q ->
  (forall j, idx j -> ~ entry (word (pm s) S j) PT) -> (exists j, idx j /\ slot_free s S j) ->
  walk (pm s) T va = Some (Q + PAGE_OFFSET va) /\
  exists s' i, get_phy_from_dir (IX_TO_VA 1022 t) va s = Ok (Q, s') /\ space s' R S /\ idx i /\ slot_free s S i /\
    forall a, u32 a -> (a < S + 4 * i \/ S + 4 * i + 4 <= a) -> load8 (pm s') a = load8 (pm s) a.
Proof.
  intros Hsp Ht HeT HT HTS Hv HPT HpT HPS HQ Hno Hf. pose proof (sp_S _ _ _ Hsp) as HS.
  split; [by apply (walk_entries _ _ PT Q)|].
  assert (Hdi : idx (PAGE_DIR_INDEX va)).
  { rewrite dir_index_div. split; [apply Z.div_pos; lia|apply Z.div_lt_upper_bound; lia]. }
  assert (Hti : idx (PAGE_TABLE_INDEX va)) by (rewrite table_index_mod; apply Z.mod_pos_bound; lia).
  destruct (create_temp_spec s R S PT Hsp Hf) as (i & Hi & Hfi & _ & Hc).
  pose proof (space_slot s R S Hsp i (Z.lor PT PAGE_FLG_KERNEL) Hi) as Hsp1.
  pose proof (created_entry s S PT i HS HpT Hi) as He.
  assert (HPTw : word (store32 (pm s) (S + 4 * i) (Z.lor PT PAGE_FLG_KERNEL)) PT (PAGE_TABLE_INDEX va) =
                 word (pm s) PT (PAGE_TABLE_INDEX va)) by (rewrite word_store, decide_False by (done || naive_solver); done).
  set (s1 := with_pm s _) in *. unfold get_phy_from_dir.
  erewrite M_bind_eq by (by apply (rd_temp s R S Hsp t T)). rewrite (proj1 HPT).
  erewrite (M_bind_eq (ASSERT _)) by reflexivity.
  erewrite M_bind_eq by (by apply (rd_temp s R S Hsp t T)). rewrite (proj2 HPT).
  erewrite (M_bind_eq (get_temp_va PT) _ s (IX_TO_VA 1022 i) s1).
  2:{ unfold get_temp_va. erewrite M_bind_eq; [|apply (lookup_loop_spec s R S Hsp 1024); [lia|done|exact Hno]]. exact Hc. }
  erewrite M_bind_eq by (by apply (rd_temp s1 R S Hsp1 i PT)). cbn [pm with_pm s1]. 
  rewrite <- (Z.add_0_r (IX_TO_VA 1022 i)).
  erewrite M_bind_eq by (apply (delete_temp_spec s1 R S); [done|done|lia]).
  eexists _, i. split; [|split; [by apply space_slot|]].
  - unfold s1. cbn [pm with_pm]. rewrite HPTw, (proj2 HQ). reflexivity.
  - split; [done|]. split; [done|]. intros a Ha Ho. unfold s1. cbn [pm with_pm]. by rewrite !store_word_out.
Qed.

(** ** The address space of the early map *)

Lemma entry_plus p f : page p -> 0 <= f < 4096 -> Z.odd f = true -> entry (p + f) p.
Proof. intros Hp Hf Ho. rewrite <- lor_flags; [by apply entry_flags|apply Hp|done]. Qed.
Lemma page_base k : -1 <= k < 1024 -> page (pt_base k).
Proof. intros Hk. destruct (pt_base_ok k Hk) as (_ & Ha & _). unfold page. split_and!; [| |done]; unfold pt_base; lia. Qed.

Lemma on_early_space s : on_early s -> space s (pt_base 1023) (pt_base 1022) /\ slot_free s (pt_base 1022) 0.
Proof.
  intros (Hp & Hc & Hi). split.
  - split; rewrite ?Hc; try (apply page_base; lia); [done|done|..].
    + pose proof (ei_dir _ _ _ Hi 1023 ltac:(lia)) as E. unfold word. fold (cell (pm s) (-1) 1023). rewrite E.
      apply entry_plus; [apply page_base|lia|]; done || lia.
    + pose proof (ei_rev _ _ _ Hi 1022 ltac:(lia)) as E. unfold word. fold (cell (pm s) 1023 1022). rewrite E.
      apply entry_plus; [apply page_base|lia|]; done || lia.
    + pose proof (ei_dir _ _ _ Hi 1022 ltac:(lia)) as E. unfold word. fold (cell (pm s) (-1) 1022). rewrite E.
      apply entry_plus; [apply page_base|lia|]; done || lia.
  - pose proof (ei_sys _ _ _ Hi 0 ltac:(lia)) as E. unfold slot_free, word. fold (cell (pm s) 1022 0). by rewrite E.
Qed.

Lemma temp_mapping_roundtrip_witness :
  exists s R S va s1, space s R S /\ create_temp_va 0x1400000 s = Ok (va, s1) /\
    translate s1 (wrap32 (va + 8)) = Some 0x1400008.
Proof.
  destruct (map_pg_dir0_spec boot_mm eq_refl) as (m & _ & Hi & _).
  destruct (on_early_space (mkMm m (pt_base (-1)) true (frames boot_mm))) as [Hsp Hf]; [done|].
  destruct (temp_mapping_roundtrip _ _ _ 0x1400000 Hsp) as (va & s1 & s2 & i & H1 & _ & H2 & _).
  - unfold page. split_and!; lia || reflexivity.
  - exists 0. split; [unfold idx; lia|exact Hf].
  - eexists _, _, _, va, s1. split; [exact Hsp|]. split; [exact H1|]. apply (H2 8). lia.
Defined.

Lemma get_phy_from_dir_walks_witness :
  exists s s', get_phy_from_dir (IX_TO_VA 1022 1023) 0xC0001234 s = Ok (0x1000, s').
Proof.
  destruct (map_pg_dir0_spec boot_mm eq_refl) as (m & _ & Hi & _).
  destruct (on_early_space (mkMm m (pt_base (-1)) true (frames boot_mm))) as [Hsp Hf]; [done|].
  destruct (get_phy_from_dir_walks _ _ _ 1023 (pt_base (-1)) (pt_base 768) 0x1000 0xC0001234 Hsp) as (_ & s' & i & H & _).
  - unfold idx. lia.
  - pose proof (ei_sys _ _ _ Hi 1023 ltac:(lia)) as E. change (entry (cell m 1022 1023) (pt_base (-1))). rewrite E.
    apply entry_plus; [apply page_base|lia|]; done || lia.
  - apply page_base. lia.
  - done.
  - lia.
  - pose proof (ei_dir _ _ _ Hi 768 ltac:(lia)) as E. change (entry (cell m (-1) 768) (pt_base 768)). rewrite E. apply entry_plus; [apply page_base|lia|]; done || lia.
  - apply page_base. lia.
  - done.
  - pose proof (ei_tab _ _ _ Hi 768 1 ltac:(lia) ltac:(lia) eq_refl) as E. change (entry (cell m 768 1) 0x1000). rewrite E. done.
  - intros j Hj [_ E]. unfold idx in Hj. change (Z.land (cell m 1022 j) PAGE_MASK = pt_base 768) in E. rewrite (ei_sys _ _ _ Hi j Hj) in E.
    destruct (j =? 1023); vm_compute in E; discriminate E.
  - exists 0. split; [unfold idx; lia|exact Hf].
  - eexists _, s'. exact H.
Defined.
