(* ===== verification/PagingMap.v ===== *)
(** * Theorems about paging: mapping a region of another address space

    [request_region_vmap] fills a directory that is not the current one: it
    reaches the directory, its reverse table, the new page table and the new
    pages only through temporary slots.  The proofs track physical pages word
    by word ([word]); a page that the frame bitmap marks busy, or that lies
    below the user frames, is [held] and is never handed out. *)
From S2P Require Import Prelude CMem Malloc Common Frame Paging PagingThm PagingTmp.
Import Paging.
Import Frame.

Definition held (s : mm) (p : Z) : Prop := p < 16777216 \/ busy (frames s) (FRAME_NB p) = true.
Definition user_page (f : Z) : Prop := page f /\ 16777216 <= f /\ f + 4096 <= 134217728.
Definition idle (s : mm) (f : Z) : Prop := user_page f /\ busy (frames s) (FRAME_NB f) = false.

(** At least [k] elements satisfy [P]. *)
Definition at_least (k : nat) (P : Z -> Prop) : Prop :=
  exists l : list Z, NoDup l /\ (k <= length l)%nat /\ Forall P l.

Lemma at_least_remove k P x : at_least (S k) P -> at_least k (fun y => P y /\ y <> x).
Proof.
  intros (l & Hnd & Hk & HP). destruct (decide (x ∈ l)) as [Hx|Hx].
  - apply list_elem_of_split in Hx as (l1 & l2 & ->). rewrite length_app in Hk. simpl in Hk.
    apply NoDup_app in Hnd as (H1 & H2 & H3). apply NoDup_cons in H3 as [H3 H4]. exists (l1 ++ l2).
    split; [apply NoDup_app; split_and!; [done| |done]; intros y Hy1 Hy2; apply (H2 y Hy1); by right|].
    split; [rewrite length_app; lia|]. rewrite Forall_forall in *. intros y Hy. split; [apply HP; set_solver|].
    intros ->. apply elem_of_app in Hy as [Hy|Hy]; [apply (H2 x Hy); by left|done].
  - exists l. split; [done|]. split; [lia|]. rewrite Forall_forall in *. intros y Hy. split; [by apply HP|]. by intros ->.
Qed.
Lemma at_least_mono k k' (P Q : Z -> Prop) : (k' <= k)%nat -> (forall x, P x -> Q x) -> at_least k P -> at_least k' Q.
Proof. intros Hk HPQ (l & H1 & H2 & H3). exists l. split; [done|]. split; [lia|]. eapply Forall_impl; [exact H3|done]. Qed.
Lemma at_least_one k P : at_least (S k) P -> exists x, P x.
Proof. intros ([|x l] & _ & H & HP); simpl in H; [lia|]. exists x. by inversion HP. Qed.

(** ** Frames *)

Lemma user_page_tracked f : user_page f -> tracked f.
Proof. intros (_ & ? & ?). unfold tracked. frame_consts. lia. Qed.
Lemma user_page_nb f g : user_page f -> user_page g -> FRAME_NB f = FRAME_NB g -> f = g.
Proof.
  intros ((_ & _ & H1) & _) ((_ & _ & H2) & _). frame_consts. Z.to_euclidean_division_equations. lia.
Qed.

Lemma alloc_mm_spec s k :
  bitmap_ok (frames s) -> at_least (S k) (idle s) ->
  exists f, alloc_frame_mm USER_P_START MAX_MEM_SIZE s = Ok (f, with_frames s (FRAME_BSET (frames s) f)) /\ idle s f /\
    bitmap_ok (FRAME_BSET (frames s) f) /\ at_least k (idle (with_frames s (FRAME_BSET (frames s) f))).
Proof.
  intros Hb Hav. destruct (at_least_one _ _ Hav) as (g & (Hg & Hg1 & Hg2) & Hgb). unfold alloc_frame_mm.
  assert (Hnall : ~ all_busy (frames s) USER_P_START MAX_MEM_SIZE).
  { intros H. specialize (H (FRAME_NB g)). destruct Hg as (_ & _ & Hg). frame_consts. unfold USER_P_START, _1MB in H.
    rewrite H in Hgb; [done|Z.to_euclidean_division_equations; lia..]. }
  pose proof (alloc_frame_spec (frames s) USER_P_START MAX_MEM_SIZE Hb ltac:(by vm_compute) ltac:(done) eq_refl ltac:(by vm_compute)) as Hsp.
  destruct (alloc_frame (frames s) USER_P_START MAX_MEM_SIZE) as [[b f]| |]; [|done..].
  destruct Hsp as [(_ & _ & ?)|(Hf0 & -> & Hl)]; [done|]. destruct Hl as (Ha & Hlo & Hhi & Hidle & _).
  assert (Hf : user_page f).
  { unfold user_page, page. frame_consts. unfold USER_P_START, _1MB in Hlo. split_and!; lia || done. }
  exists f. split; [done|]. split; [done|]. split; [by apply bitmap_ok_set|].
  apply (at_least_remove _ _ f) in Hav. eapply at_least_mono; [reflexivity| |exact Hav].
  intros x [[Hx Hxb] Hne]. split; [done|]. cbn [frames with_frames]. rewrite busy_set; [|done|by apply user_page_tracked|].
  - rewrite Hxb, orb_false_r. apply Z.eqb_neq. intros E. by apply Hne, user_page_nb.
  - destruct Hx as ((? & _) & _). frame_consts. apply Z.div_pos; lia.
Qed.

Lemma held_set s f p : bitmap_ok (frames s) -> user_page f -> page p ->
  held (with_frames s (FRAME_BSET (frames s) f)) p <-> held s p \/ p = f.
Proof.
  intros Hb Hf (Hp & _ & Ha). unfold held. cbn [frames with_frames]. rewrite busy_set; [|done|by apply user_page_tracked|frame_consts; apply Z.div_pos; lia].
  rewrite orb_true_iff, Z.eqb_eq. split; [|intros [[?|?]| ->]; tauto].
  intros [?|[E|?]]; [tauto| |tauto]. right. destruct Hf as ((_ & _ & Hfa) & _). frame_consts. Z.to_euclidean_division_equations. lia.
Qed.
Lemma idle_not_held s f : idle s f -> ~ held s f.
Proof. intros [(_ & ? & _) Hb] [?|?]; [lia|congruence]. Qed.

(** ** Writing through a slot *)

Abbreviation zeroed m f := (write_bytes m f (replicate 4096 0)).

Lemma word_zeroed m f q j : page f -> page q -> idx j ->
  word (zeroed m f) q j = if decide (f = q) then 0 else word m q j.
Proof.
  intros Hf Hq Hj. unfold word, page, idx in *. case_decide as E.
  - subst q. assert (Hb : bytes_at (zeroed m f) f (replicate 4096 0)).
    { apply bytes_at_write_bytes; [rewrite lenZ_zeros; unfold fits; lia|apply Forall_replicate; lia]. }
    assert (Hz : forall o, 0 <= o < 4096 -> load8 (zeroed m f) (f + o) = 0).
    { intros o Ho. erewrite bytes_at_nth; [|exact Hb|rewrite lenZ_zeros; lia]. unfold nthZ. by rewrite lookup_replicate_2 by lia. }
    unfold load32. rewrite <- !Z.add_assoc, !Hz by lia. done.
  - apply load32_same, same_on_write_bytes; rewrite ?lenZ_zeros; unfold fits; Z.to_euclidean_division_equations; lia.
Qed.

Section Write.
Context (R S : Z).

(** A page outside the tables of the space may change. *)
Lemma space_same s m :
  space s R S -> (forall j, idx j -> word m (cr3 s) j = word (pm s) (cr3 s) j) ->
  (forall j, idx j -> word m R j = word (pm s) R j) -> space (with_pm s m) R S.
Proof.
  intros [Hon HD HR HS Hne Hrev Hsys Hdir] H1 H2. split; try done; cbn [pm cr3 with_pm]; rewrite ?H1, ?H2 by (unfold idx; lia); done.
Qed.
Lemma space_store s p i v :
  space s R S -> page p -> idx i -> p <> cr3 s -> p <> R -> space (with_pm s (store32 (pm s) (p + 4 * i) v)) R S.
Proof.
  intros Hsp Hp Hi H1 H2. apply space_same; [done| |]; intros j Hj; destruct Hsp; rewrite word_store, decide_False by naive_solver; done.
Qed.
Lemma space_frames s b : space s R S -> space (with_frames s b) R S.
Proof. by intros []. Qed.

Lemma wr_temp s i p j v : space s R S -> idx i -> idx j -> entry (word (pm s) S i) p ->
  wr (IX_TO_VA 1022 i + 4 * j) v s = Ok ((), with_pm s (store32 (pm s) (p + 4 * j) v)).
Proof. unfold idx. intros Hsp Hi Hj He. unfold wr. by rewrite (translate_temp s R S Hsp i p) by (done || lia). Qed.

Lemma word_store8 m f o v q j : page f -> page q -> f <> q -> 0 <= o < 4096 -> idx j -> word (store8 m (f + o) v) q j = word m q j.
Proof.
  unfold page, idx, word. intros Hf Hq Hne Ho Hj. apply load32_store8_ne; unfold fits; Z.to_euclidean_division_equations; lia.
Qed.

Lemma memzero_temp_loop n s i f o :
  space s R S -> idx i -> entry (word (pm s) S i) f -> page f -> f <> cr3 s -> f <> R -> f <> S ->
  0 <= o -> o + Z.of_nat n = 4096 ->
  memzero_loop n (IX_TO_VA 1022 i + o) s = Ok ((), with_pm s (write_bytes (pm s) (f + o) (replicate n 0))).
Proof.
  revert s o. induction n as [|n IH]; intros s o Hsp Hi He Hf H1 H2 H3 Ho Hn; cbn [memzero_loop].
  - simpl. by rewrite with_pm_same.
  - erewrite M_bind_eq; [|unfold wr8; rewrite (translate_temp s R S Hsp i f) by (done || lia); reflexivity].
    rewrite <- Z.add_assoc. pose proof (sp_D _ _ _ Hsp). pose proof (sp_R _ _ _ Hsp). pose proof (sp_S _ _ _ Hsp). rewrite IH; try done; try lia.
    + cbn [pm with_pm]. rewrite with_pm_twice. by rewrite Z.add_assoc.
    + apply space_same; [done| |]; intros j Hj; apply word_store8; done || lia.
    + cbn [pm with_pm]. rewrite word_store8 by (done || lia). done.
Qed.
Lemma memzero_temp s i f :
  space s R S -> idx i -> entry (word (pm s) S i) f -> page f -> f <> cr3 s -> f <> R -> f <> S ->
  memzero (IX_TO_VA 1022 i) FRAME_SIZE s = Ok ((), with_pm s (zeroed (pm s) f)).
Proof.
  intros. rewrite <- (Z.add_0_r (IX_TO_VA 1022 i)), <- (Z.add_0_r f). by apply (memzero_temp_loop 4096).
Qed.
Lemma space_zeroed s f : space s R S -> page f -> f <> cr3 s -> f <> R -> space (with_pm s (zeroed (pm s) f)) R S.
Proof.
  intros Hsp Hf H1 H2. apply space_same; [done| |]; intros j Hj; destruct Hsp; rewrite word_zeroed, decide_False by done; done.
Qed.
End Write.

Lemma temp_va_nonnull j : idx j -> IX_TO_VA 1022 j <> NULL.
Proof. intros Hj. rewrite temp_va by done. unfold idx in Hj. lia. Qed.

(** ** Frames of reasoning

    [ready] is what every routine needs of the current space.  [ext V] relates
    two states of a computation: the space stays usable, held pages stay held
    and a slot that shows a page keeps showing it, unless the page is in [V]. *)
Section Ext.
Context (R S : Z).

Record ready (s : mm) : Prop := {
  r_sp : space s R S;
  r_bm : bitmap_ok (frames s);
  r_held : Forall (held s) [cr3 s; R; S];
}.

Definition frees (k : nat) (s : mm) : Prop := at_least k (fun j => idx j /\ slot_free s S j).
Definition idles (k : nat) (s : mm) : Prop := at_least k (idle s).

Record ext (V : list Z) (s s' : mm) : Prop := {
  e_sp : space s' R S;
  e_cr3 : cr3 s' = cr3 s;
  e_bm : bitmap_ok (frames s');
  e_mono : forall p, page p -> held s p -> held s' p;
  e_slot : forall i p, idx i -> entry (word (pm s) S i) p -> p ∉ V -> entry (word (pm s') S i) p;
}.

(** Only slots change. *)
Record slots_only (V : list Z) (s s' : mm) : Prop := {
  so_ext : ext V s s';
  so_frames : frames s' = frames s;
  so_word : forall q i, page q -> idx i -> q <> S -> word (pm s') q i = word (pm s) q i;
}.

Lemma ready_page s p : ready s -> p ∈ [cr3 s; R; S] -> page p /\ held s p.
Proof.
  intros [[_ HD HR HS _ _ _ _] _ Hh] Hp. split; [|by apply (proj1 (Forall_forall _ _) Hh)].
  repeat (apply elem_of_cons in Hp as [->|Hp]; [done|]). by apply elem_of_nil in Hp.
Qed.
Lemma ready_S s : ready s -> page S /\ held s S.
Proof. intros Hr. apply ready_page; [done|set_solver]. Qed.

Lemma ext_ready V s s' : ready s -> ext V s s' -> ready s'.
Proof.
  intros Hr [Hsp Hc Hb Hm _]. split; [done|done|]. rewrite Hc. apply Forall_forall. intros p Hp.
  destruct (ready_page s p Hr Hp). by apply Hm.
Qed.
Lemma ext_refl V s : ready s -> ext V s s.
Proof. intros []. by split. Qed.
Lemma ext_trans V V' s s1 s2 : ext V s s1 -> ext V' s1 s2 -> ext (V ++ V') s s2.
Proof.
  intros [H1 H2 H3 H4 H5] [G1 G2 G3 G4 G5]. split; [done|congruence|done|by auto|].
  intros i p Hi He Hn. rewrite elem_of_app in Hn. apply G5; [done|apply H5|]; tauto.
Qed.
Lemma ext_weaken V V' s s' : V ⊆ V' -> ext V s s' -> ext V' s s'.
Proof. intros HV []. split; try done. intros i p Hi He Hn. set_solver. Qed.

Lemma slots_only_refl V s : ready s -> slots_only V s s.
Proof. intros Hr. split; [by apply ext_refl|done|done]. Qed.
Lemma slots_only_trans V V' s s1 s2 : slots_only V s s1 -> slots_only V' s1 s2 -> slots_only (V ++ V') s s2.
Proof.
  intros [H1 H2 H3] [G1 G2 G3]. split; [by eapply ext_trans|congruence|]. intros q i Hq Hi Hn. by rewrite G3, H3.
Qed.
Lemma slots_only_ready V s s' : ready s -> slots_only V s s' -> ready s'.
Proof. intros Hr [He _ _]. by eapply ext_ready. Qed.
Lemma slots_only_held V s s' p : slots_only V s s' -> held s' p <-> held s p.
Proof. intros [_ Hf _]. unfold held. by rewrite Hf. Qed.
Lemma slots_only_idles V s s' k : slots_only V s s' -> idles k s -> idles k s'.
Proof. intros [_ Hf _]. apply at_least_mono; [done|]. intros f [H1 H2]. split; [done|]. by rewrite Hf. Qed.

Lemma frees_same k s s' : (forall i, idx i -> slot_free s S i -> slot_free s' S i) -> frees k s -> frees k s'.
Proof. intros H. apply at_least_mono; [done|]. intros i [Hi Hf]. by auto. Qed.
Lemma frees_but k s s' j : (forall i, idx i -> i <> j -> slot_free s S i -> slot_free s' S i) -> frees (Datatypes.S k) s -> frees k s'.
Proof. intros H Hf. apply (at_least_remove _ _ j) in Hf. eapply at_least_mono; [reflexivity| |exact Hf]. intros i [[Hi Hfi] Hn]. by auto. Qed.
Lemma frees_le k k' s : (k' <= k)%nat -> frees k s -> frees k' s.
Proof. intros H. by apply at_least_mono. Qed.

(** ** The slots *)

(** A word written to a slot. *)
Lemma set_slot s i v V :
  ready s -> idx i -> (forall p, entry (word (pm s) S i) p -> p ∈ V) ->
  let s' := with_pm s (store32 (pm s) (S + 4 * i) v) in
  slots_only V s s' /\ word (pm s') S i = wrap32 v /\ forall j, idx j -> j <> i -> word (pm s') S j = word (pm s) S j.
Proof.
  intros Hr Hi HV s'. destruct (ready_S s Hr) as [HS _]. pose proof (r_sp _ Hr) as Hsp.
  assert (Hw : forall q j, page q -> idx j -> word (pm s') q j = if decide (S = q /\ i = j) then wrap32 v else word (pm s) q j)
    by (intros q j Hq Hj; by apply word_store).
  assert (Hne : forall j, idx j -> j <> i -> word (pm s') S j = word (pm s) S j)
    by (intros j Hj Hn; rewrite Hw, decide_False; [done|intros [_ ?]; congruence|done|done]).
  split; [|split; [rewrite Hw, decide_True; done|done]]. split; [|done|].
  - split; [by apply space_slot|done|apply Hr|done|]. intros j p Hj He Hn. destruct (decide (j = i)) as [->|Hji]; [by apply HV in He|].
    by rewrite Hne.
  - intros q j Hq Hj Hn. rewrite Hw, decide_False; [done|intros [? _]; congruence|done|done].
Qed.

Lemma open_slot s pa :
  ready s -> page pa -> frees 1 s ->
  exists j s', create_temp_va pa s = Ok (IX_TO_VA 1022 j, s') /\ idx j /\ slot_free s S j /\ slots_only [] s s' /\
    entry (word (pm s') S j) pa /\ forall i, idx i -> i <> j -> word (pm s') S i = word (pm s) S i.
Proof.
  intros Hr Hpa Hf. destruct (create_temp_spec s R S pa (r_sp _ Hr) (at_least_one _ _ Hf)) as (j & Hj & Hfj & _ & Hc).
  destruct (set_slot s j (Z.lor pa PAGE_FLG_KERNEL) [] Hr Hj) as (Hso & Hw & Hne).
  { intros p [He _]. unfold slot_free in Hfj. congruence. }
  exists j, (with_pm s (store32 (pm s) (S + 4 * j) (Z.lor pa PAGE_FLG_KERNEL))). split_and!; try done.
  apply created_entry; [by apply (ready_S s)|done|done].
Qed.

Lemma close_any s i V :
  ready s -> idx i -> (forall p, entry (word (pm s) S i) p -> p ∈ V) ->
  exists s', delete_temp_va (IX_TO_VA 1022 i) s = Ok ((), s') /\ slots_only V s s' /\ slot_free s' S i /\
    forall j, idx j -> j <> i -> word (pm s') S j = word (pm s) S j.
Proof.
  intros Hr Hi HV. destruct (set_slot s i 0 V Hr Hi HV) as (Hso & Hw & Hne).
  exists (with_pm s (store32 (pm s) (S + 4 * i) 0)). split; [|split_and!; try done; unfold slot_free; by rewrite Hw].
  rewrite <- (Z.add_0_r (IX_TO_VA 1022 i)). apply (delete_temp_spec s R S); [apply Hr|done|lia].
Qed.
Lemma close_slot s i p :
  ready s -> idx i -> entry (word (pm s) S i) p ->
  exists s', delete_temp_va (IX_TO_VA 1022 i) s = Ok ((), s') /\ slots_only [p] s s' /\ slot_free s' S i /\
    forall j, idx j -> j <> i -> word (pm s') S j = word (pm s) S j.
Proof.
  intros Hr Hi He. apply close_any; [done|done|]. intros p' He'. apply list_elem_of_singleton. destruct He, He'. congruence.
Qed.
(** Closing a slot keeps the free ones. *)
Lemma close_frees s s' i k :
  slot_free s' S i -> (forall j, idx j -> j <> i -> word (pm s') S j = word (pm s) S j) -> frees k s -> frees k s'.
Proof.
  intros Hi Hne. apply frees_same. intros j Hj Hf. destruct (decide (j = i)) as [->|Hn]; [done|]. unfold slot_free. by rewrite Hne.
Qed.

Lemma closed_free s s1 s2 j :
  (forall i, idx i -> i <> j -> word (pm s1) S i = word (pm s) S i) -> slot_free s2 S j ->
  (forall i, idx i -> i <> j -> word (pm s2) S i = word (pm s1) S i) -> forall k, frees k s -> frees k s2.
Proof.
  intros H1 Hj H2 k. apply frees_same. intros i Hi Hf. destruct (decide (i = j)) as [->|Hn]; [done|].
  unfold slot_free. by rewrite H2, H1.
Qed.

Lemma lookup_any n s pa i :
  space s R S -> 0 <= i -> i + Z.of_nat n = 1024 ->
  exists p, lookup_loop n pa i s = Ok (p, s) /\
    ((exists j, i <= j < 1024 /\ entry (word (pm s) S j) pa /\ p = IX_TO_VA 1022 j) \/
     (p = NULL /\ forall j, i <= j < 1024 -> ~ entry (word (pm s) S j) pa)).
Proof.
  intros Hsp. revert i. induction n as [|n IH]; intros i Hi Hn; cbn [lookup_loop].
  - exists NULL. split; [done|]. right. split; [done|lia].
  - erewrite M_bind_eq; [|apply (rd_slot s R S Hsp); unfold idx; lia].
    destruct (PAGE_ENTRY_SET (word (pm s) S i) && (Z.land (word (pm s) S i) PAGE_MASK =? pa)) eqn:E.
    + apply andb_true_iff in E as [E1 E2%Z.eqb_eq]. exists (IX_TO_VA 1022 i). split; [done|]. left. exists i. split; [lia|]. done.
    + destruct (IH (i + 1)) as (p & -> & Hp); [lia|lia|]. exists p. split; [done|]. destruct Hp as [(j & Hj & He & ->)|[-> Hno]].
      * left. exists j. split; [lia|done].
      * right. split; [done|]. intros j Hj [H1 H2]. destruct (decide (j = i)) as [->|]; [|apply (Hno j); [lia|done]].
        rewrite H1, H2, Z.eqb_refl in E. done.
Qed.

(** [get_temp_va]: a slot that shows the page already, or a new one. *)
Lemma get_slot s pa :
  ready s -> page pa -> frees 1 s ->
  exists j s', get_temp_va pa s = Ok (IX_TO_VA 1022 j, s') /\ idx j /\ slots_only [] s s' /\ entry (word (pm s') S j) pa /\
    forall i, idx i -> i <> j -> word (pm s') S i = word (pm s) S i.
Proof.
  intros Hr Hpa Hf. unfold get_temp_va, lookup_temp_va. destruct (lookup_any 1024 s pa 0 (r_sp _ Hr)) as (p & Hl & Hp); [lia|done|].
  erewrite M_bind_eq by exact Hl. destruct Hp as [(j & Hj & He & ->)|[-> Hno]].
  - rewrite (proj2 (Z.eqb_neq _ 0)) by (by apply temp_va_nonnull). exists j, s. split_and!; try done. by apply slots_only_refl.
  - change (0 =? 0) with true. cbn [negb]. destruct (open_slot s pa Hr Hpa Hf) as (j & s' & H1 & Hj & _ & Hso & He & Hne).
    by exists j, s'.
Qed.
Lemma get_slot_frees s s' j k :
  (forall i, idx i -> i <> j -> word (pm s') S i = word (pm s) S i) -> frees (Datatypes.S k) s -> frees k s'.
Proof. intros H. apply (frees_but _ _ _ j). intros i Hi Hn Hf. unfold slot_free. by rewrite H. Qed.

Lemma dir_idx va : u32 va -> idx (PAGE_DIR_INDEX va).
Proof. intros Hv. rewrite dir_index_div. split; [apply Z.div_pos; lia|apply Z.div_lt_upper_bound; lia]. Qed.
Lemma table_idx va : idx (PAGE_TABLE_INDEX va).
Proof. rewrite table_index_mod. apply Z.mod_pos_bound. lia. Qed.

Lemma pt_phy_temp s t T di P :
  space s R S -> idx t -> idx di -> entry (word (pm s) S t) T -> entry (word (pm s) T di) P ->
  pt_phy_from_dir (IX_TO_VA 1022 t) di s = Ok (P, s).
Proof.
  intros Hsp Ht Hd HT [HP1 HP2]. unfold pt_phy_from_dir. erewrite M_bind_eq by (by apply (rd_temp s R S Hsp t T)).
  rewrite HP1. erewrite (M_bind_eq (ASSERT _)) by reflexivity. by rewrite HP2.
Qed.

(** [get_phy_from_dir] deletes the slot of the table it used. *)
Lemma phy_spec s t T PT Q va :
  ready s -> idx t -> entry (word (pm s) S t) T -> page T -> u32 va -> entry (word (pm s) T (PAGE_DIR_INDEX va)) PT ->
  page PT -> PT <> S -> entry (word (pm s) PT (PAGE_TABLE_INDEX va)) Q -> frees 1 s ->
  exists s', get_phy_from_dir (IX_TO_VA 1022 t) va s = Ok (Q, s') /\ slots_only [PT] s s' /\ forall k, frees k s -> frees k s'.
Proof.
  intros Hr Ht HeT HT Hv HPT HpT HPS HQ Hf. unfold get_phy_from_dir. pose proof (r_sp _ Hr) as Hsp. pose proof (dir_idx va Hv) as Hdi.
  pose proof (table_idx va) as Hti.
  erewrite M_bind_eq by (by apply (rd_temp s R S Hsp t T)). rewrite (proj1 HPT). erewrite (M_bind_eq (ASSERT _)) by reflexivity.
  erewrite M_bind_eq by (by apply (rd_temp s R S Hsp t T)). rewrite (proj2 HPT).
  destruct (get_slot s PT Hr HpT Hf) as (j & s1 & H1 & Hj & Hso & He & Hne). erewrite M_bind_eq by exact H1.
  pose proof (slots_only_ready _ _ _ Hr Hso) as Hr1.
  erewrite M_bind_eq by (apply (rd_temp s1 R S (r_sp _ Hr1) j PT); done). rewrite (so_word _ _ _ Hso) by done.
  destruct (close_slot s1 j PT Hr1 Hj He) as (s2 & H2 & Hso2 & Hf2 & Hne2). erewrite M_bind_eq by exact H2. rewrite (proj2 HQ).
  exists s2. split; [done|]. split; [exact (slots_only_trans [] _ _ _ _ Hso Hso2)|]. by apply (closed_free s s1 s2 j).
Qed.

(** ** A fresh page in a slot *)

Definition held_too (s s' : mm) (f : Z) : Prop := forall p, page p -> held s' p <-> held s p \/ p = f.

Lemma idle_ne s f p : idle s f -> held s p -> f <> p.
Proof. intros Hf Hp ->. by apply (idle_not_held s p). Qed.

Lemma held_frames s s' f : bitmap_ok (frames s) -> user_page f -> frames s' = FRAME_BSET (frames s) f -> held_too s s' f.
Proof. intros Hb Hf E p Hp. rewrite <- (held_set s f p Hb Hf Hp). unfold held. by rewrite E. Qed.

(** What [alloc_frame], [create_temp_va] and [memzero] do in sequence. *)
Lemma new_page s k :
  ready s -> idles (Datatypes.S k) s -> frees 1 s ->
  exists f j s1 s2 s3, idle s f /\ idx j /\ slot_free s S j /\
    alloc_frame_mm USER_P_START MAX_MEM_SIZE s = Ok (f, s1) /\ create_temp_va f s1 = Ok (IX_TO_VA 1022 j, s2) /\
    memzero (IX_TO_VA 1022 j) FRAME_SIZE s2 = Ok ((), s3) /\
    ext [] s s3 /\ entry (word (pm s3) S j) f /\ idles k s3 /\ held_too s s3 f /\
    (forall i, idx i -> i <> j -> word (pm s3) S i = word (pm s) S i) /\
    forall q i, page q -> idx i -> q <> S -> word (pm s3) q i = if decide (q = f) then 0 else word (pm s) q i.
Proof.
  intros Hr Hk Hf. destruct (ready_S s Hr) as [HS HhS]. pose proof (r_bm _ Hr) as Hbm.
  destruct (alloc_mm_spec s k Hbm Hk) as (f & H1 & Hfi & Hbm1 & Hk1). pose proof Hfi as [Hfp _]. assert (Hpf : page f) by apply Hfp.
  assert (Hne : forall p, p ∈ [cr3 s; R; S] -> f <> p) by (intros p Hp; apply (idle_ne s); [done|by apply ready_page]).
  set (s1 := with_frames s (FRAME_BSET (frames s) f)) in *.
  assert (Hht : held_too s s1 f) by (by apply held_frames).
  assert (Hr1 : ready s1).
  { split; [apply space_frames, Hr|done|]. apply Forall_forall. intros p Hp. destruct (ready_page s p Hr Hp). apply Hht; [done|by left]. }
  destruct (open_slot s1 f Hr1 Hpf) as (j & s2 & H2 & Hj & Hfj & Hso & He2 & Hne2); [exact Hf|].
  pose proof (slots_only_ready _ _ _ Hr1 Hso) as Hr2. pose proof (e_cr3 _ _ _ (so_ext _ _ _ Hso)) as Hc2.
  assert (HfD : f <> cr3 s2) by (rewrite Hc2; apply Hne; set_solver). assert (HfR : f <> R) by (apply Hne; set_solver).
  assert (HfS : f <> S) by (apply Hne; set_solver).
  pose proof (memzero_temp R S s2 j f (r_sp _ Hr2) Hj He2 Hpf HfD HfR HfS) as H3.
  pose proof (space_zeroed R S s2 f (r_sp _ Hr2) Hpf HfD HfR) as Hsp3. set (s3 := with_pm s2 _) in *.
  assert (HwS : forall i, idx i -> word (pm s3) S i = word (pm s2) S i)
    by (intros i Hi; unfold s3; cbn [pm with_pm]; by rewrite word_zeroed, decide_False).
  assert (Hfr : frames s3 = frames s1) by apply Hso.
  exists f, j, s1, s2, s3. split_and!; try done.
  - split; [done|exact Hc2|by rewrite Hfr|intros p Hp Hh; unfold held; rewrite Hfr; apply Hht; [done|by left]|].
    intros i p Hi He _. rewrite HwS by done. apply (e_slot _ _ _ (so_ext _ _ _ Hso)); [done|exact He|by intros ?%elem_of_nil].
  - by rewrite HwS.
  - eapply at_least_mono; [reflexivity| |exact Hk1]. intros g [G1 G2]. split; [done|by rewrite Hfr].
  - intros p Hp. unfold held. rewrite Hfr. by apply Hht.
  - intros i Hi Hn. rewrite HwS by done. by apply Hne2.
  - intros q i Hq Hi Hn. unfold s3. cbn [pm with_pm]. rewrite word_zeroed by done.
    destruct (decide (f = q)) as [->|E]; [by rewrite decide_True|]. rewrite decide_False by congruence. by apply (so_word _ _ _ Hso).
Qed.

Lemma alloc_page_spec s k :
  ready s -> idles (Datatypes.S k) s -> frees 1 s ->
  exists f j s', alloc_page USER_P_START MAX_MEM_SIZE s = Ok ((IX_TO_VA 1022 j, f), s') /\ idle s f /\ idx j /\ slot_free s S j /\
    ext [] s s' /\ entry (word (pm s') S j) f /\ idles k s' /\ held_too s s' f /\
    (forall i, idx i -> i <> j -> word (pm s') S i = word (pm s) S i) /\
    forall q i, page q -> idx i -> q <> S -> word (pm s') q i = if decide (q = f) then 0 else word (pm s) q i.
Proof.
  intros Hr Hk Hf. destruct (new_page s k Hr Hk Hf) as (f & j & s1 & s2 & s3 & Hfi & Hj & Hfj & H1 & H2 & H3 & Hrest).
  exists f, j, s3. split; [|done]. unfold alloc_page. erewrite M_bind_eq by exact H1. erewrite M_bind_eq by exact H2.
  erewrite M_bind_eq by exact H3. rewrite (proj2 (Z.eqb_neq (IX_TO_VA 1022 j) 0)) by (by apply temp_va_nonnull).
  rewrite (proj2 (Z.eqb_neq f 0)) by (destruct Hfi as [(_ & ? & _) _]; lia). reflexivity.
Qed.

(** A word of a page shown in a slot; in the running directory and its reverse
    table only below the two last entries. *)
Lemma write_own s i p j v :
  ready s -> idx i -> idx j -> entry (word (pm s) S i) p -> page p -> p <> S -> (p ∈ [cr3 s; R] -> j < 1022) ->
  exists s', wr (IX_TO_VA 1022 i + 4 * j) v s = Ok ((), s') /\ ext [] s s' /\ frames s' = frames s /\
    forall q k, page q -> idx k -> word (pm s') q k = if decide (q = p /\ k = j) then wrap32 v else word (pm s) q k.
Proof.
  intros Hr Hi Hj He Hp Hn Hlow. destruct (ready_S s Hr) as [HS _]. exists (with_pm s (store32 (pm s) (p + 4 * j) v)).
  assert (Hw : forall q k, page q -> idx k ->
    word (pm (with_pm s (store32 (pm s) (p + 4 * j) v))) q k = if decide (q = p /\ k = j) then wrap32 v else word (pm s) q k).
  { intros q k Hq Hk. cbn [pm with_pm]. rewrite word_store by done.
    destruct (decide (p = q /\ j = k)) as [[-> ->]|N]; [by rewrite decide_True|]. rewrite decide_False; [done|]. intros [-> ->]. by apply N. }
  split; [apply (wr_temp R S); [apply Hr|done..]|]. split; [|split; [done|exact Hw]].
  split; [|done|apply Hr|done|intros k q Hk Hq _; rewrite Hw, decide_False; [done|intros [? _]; congruence|done|done]].
  assert (Hhi : forall q k, page q -> q ∈ [cr3 s; R] -> 1022 <= k < 1024 -> word (pm (with_pm s (store32 (pm s) (p + 4 * j) v))) q k = word (pm s) q k).
  { intros q k Hq Hin Hk. rewrite Hw, decide_False; [done|intros [-> ->]; specialize (Hlow Hin); lia|done|unfold idx; lia]. }
  destruct (r_sp _ Hr) as [Hon HD HR HS' Hne Hrev Hsys Hdir]. split; try done; cbn [cr3 with_pm]; rewrite Hhi; done || set_solver || lia.
Qed.

Lemma write_temp s i p j v :
  ready s -> idx i -> idx j -> entry (word (pm s) S i) p -> page p -> p ∉ [cr3 s; R; S] ->
  exists s', wr (IX_TO_VA 1022 i + 4 * j) v s = Ok ((), s') /\ ext [] s s' /\ frames s' = frames s /\
    forall q k, page q -> idx k -> word (pm s') q k = if decide (q = p /\ k = j) then wrap32 v else word (pm s) q k.
Proof. intros Hr Hi Hj He Hp Hn. apply write_own; try done; set_solver. Qed.

(** ** Filling entries of a page table *)

(** [f] is a new, empty page. *)
Definition newp (s s' : mm) (f : Z) : Prop :=
  user_page f /\ ~ held s f /\ held s' f /\ forall j, idx j -> word (pm s') f j = 0.

(** The entries [N] of the table [PT] that were empty got new pages; nothing
    else that was in use changed. *)
Record grown (PT flag : Z) (N : list Z) (s s' : mm) : Prop := {
  g_ext : ext [] s s';
  g_free : forall i, idx i -> slot_free s S i -> slot_free s' S i;
  g_old : forall j, idx j -> j ∉ N \/ PAGE_ENTRY_SET (word (pm s) PT j) = true -> word (pm s') PT j = word (pm s) PT j;
  g_new : forall j, idx j -> j ∈ N -> PAGE_ENTRY_SET (word (pm s) PT j) = false ->
    exists f, word (pm s') PT j = Z.lor f flag /\ newp s s' f;
  g_inj : forall j j', idx j -> idx j' -> j ∈ N -> j' ∈ N -> j <> j' ->
    PAGE_ENTRY_SET (word (pm s) PT j) = false -> PAGE_ENTRY_SET (word (pm s) PT j') = false ->
    Z.land (word (pm s') PT j) PAGE_MASK <> Z.land (word (pm s') PT j') PAGE_MASK;
  g_keep : forall q j, page q -> idx j -> held s q -> q <> S -> q <> PT -> word (pm s') q j = word (pm s) q j;
}.

Lemma grown_refl PT flag s : ready s -> grown PT flag [] s s.
Proof. intros Hr. split; try done; [by apply ext_refl|set_solver|set_solver]. Qed.

Lemma grown_trans PT flag N N' s s1 s2 :
  ready s -> page PT -> held s PT -> 0 <= flag < 4096 -> Z.odd flag = true ->
  grown PT flag N s s1 -> grown PT flag N' s1 s2 -> grown PT flag (N ++ N') s s2.
Proof.
  intros Hr HP HhP Hfl Hodd [E1 F1 O1 W1 I1 K1] [E2 F2 O2 W2 I2 K2]. destruct (ready_S s Hr) as [HS HhS].
  assert (Hset : forall f, newp s s1 f -> PAGE_ENTRY_SET (Z.lor f flag) = true /\ Z.land (Z.lor f flag) PAGE_MASK = f)
    by (intros f ((Hf & _) & _); by apply entry_flags).
  assert (Hset2 : forall f, newp s1 s2 f -> Z.land (Z.lor f flag) PAGE_MASK = f)
    by (intros f ((Hf & _) & _); by apply entry_flags).
  (* an entry of [N] is final after the first step *)
  assert (Hfin : forall j, idx j -> j ∈ N -> PAGE_ENTRY_SET (word (pm s) PT j) = false ->
    exists f, word (pm s1) PT j = Z.lor f flag /\ word (pm s2) PT j = Z.lor f flag /\ newp s s1 f).
  { intros j Hj Hn Hs. destruct (W1 j Hj Hn Hs) as (f & E & Hnew). exists f. split; [done|]. split; [|done].
    rewrite O2, E; [done|done|right; rewrite E; by apply Hset]. }
  assert (Hlate : forall j, idx j -> j ∉ N -> j ∈ N ++ N' -> PAGE_ENTRY_SET (word (pm s) PT j) = false ->
    PAGE_ENTRY_SET (word (pm s1) PT j) = false /\ j ∈ N' /\ exists f, word (pm s2) PT j = Z.lor f flag /\ newp s1 s2 f).
  { intros j Hj Hn Hin Hs. assert (Hn' : j ∈ N') by set_solver. rewrite O1 by auto. split; [done|]. split; [done|].
    apply W2; [done|done|]. by rewrite O1 by auto. }
  assert (Hdiff : forall j j', idx j -> idx j' -> j ∈ N -> j' ∉ N -> j' ∈ N ++ N' -> PAGE_ENTRY_SET (word (pm s) PT j) = false ->
    PAGE_ENTRY_SET (word (pm s) PT j') = false -> Z.land (word (pm s2) PT j) PAGE_MASK <> Z.land (word (pm s2) PT j') PAGE_MASK).
  { intros j j' Hj Hj' H1 H2 H3 H4 H5. destruct (Hfin j Hj H1 H4) as (f & _ & -> & Hf). destruct (Hlate j' Hj' H2 H3 H5) as (_ & _ & f' & -> & Hf').
    rewrite (proj2 (Hset f Hf)), (Hset2 f' Hf'). intros ->. by destruct Hf as (_ & _ & ? & _), Hf' as (_ & ? & _). }
  split.
  - exact (ext_trans [] [] _ _ _ E1 E2).
  - auto.
  - intros j Hj Hn. assert (word (pm s1) PT j = word (pm s) PT j) as E by (apply O1; [done|destruct Hn; [left; set_solver|by right]]).
    rewrite O2, E; [done|done|]. rewrite E. destruct Hn; [left; set_solver|by right].
  - intros j Hj Hn Hs. destruct (decide (j ∈ N)) as [H|H].
    + destruct (Hfin j Hj H Hs) as (f & _ & E & Hf). exists f. split; [done|]. destruct Hf as (G1 & G2 & G3 & G4).
      split; [done|]. split; [done|]. split; [apply (e_mono _ _ _ E2); [apply G1|done]|]. intros i Hi.
      rewrite K2; [by apply G4|apply G1|done|done|by intros ->|by intros ->].
    + destruct (Hlate j Hj H Hn Hs) as (_ & _ & f & E & Hf). exists f. split; [done|]. destruct Hf as (G1 & G2 & G3 & G4).
      split; [done|]. split; [|done]. intros G. apply G2, (e_mono _ _ _ E1); [apply G1|done].
  - intros j j' Hj Hj' Hn Hn' Hne Hs Hs'. destruct (decide (j ∈ N)) as [H|H], (decide (j' ∈ N)) as [H'|H'].
    + rewrite !O2; [by apply I1|done| |done|]; right; [destruct (W1 j' Hj' H' Hs') as (f & -> & Hf)|destruct (W1 j Hj H Hs) as (f & -> & Hf)];
        by apply Hset.
    + by apply Hdiff.
    + apply not_eq_sym. by apply Hdiff.
    + destruct (Hlate j Hj H Hn Hs) as (? & ? & _), (Hlate j' Hj' H' Hn' Hs') as (? & ? & _). by apply I2.
  - intros q j Hq Hj Hh Hn HnP. rewrite K2, K1; [done..| |done|done]. by apply (e_mono _ _ _ E1).
Qed.

Lemma grown_frees PT flag N s s' k : grown PT flag N s s' -> frees k s -> frees k s'.
Proof. intros Hg. apply frees_same, Hg. Qed.

Lemma fill_entry_spec s k a PT va flag :
  ready s -> page PT -> held s PT -> PT ∉ [cr3 s; R; S] -> idx a -> entry (word (pm s) S a) PT -> 0 <= flag < 4096 ->
  idles (Datatypes.S k) s -> frees 1 s ->
  exists s', fill_entry (IX_TO_VA 1022 a) va flag s = Ok ((), s') /\ grown PT flag [PAGE_TABLE_INDEX va] s s' /\ idles k s'.
Proof.
  intros Hr HP HhP HnP Ha HeP Hfl Hk Hf. pose proof (table_idx va) as Hti. set (ti := PAGE_TABLE_INDEX va) in *. unfold fill_entry. fold ti.
  destruct (ready_S s Hr) as [HS HhS]. assert (HPS : PT <> S) by set_solver.
  erewrite M_bind_eq by (by apply (rd_temp s R S (r_sp _ Hr) a PT)). destruct (PAGE_ENTRY_SET (word (pm s) PT ti)) eqn:Hset.
  { exists s. split; [done|]. split; [|by eapply at_least_mono; [..|exact Hk]; [lia|]]. split; try done.
    - by apply ext_refl.
    - intros j Hj ->%list_elem_of_singleton. congruence.
    - intros j j' _ _ ->%list_elem_of_singleton ->%list_elem_of_singleton. done. }
  destruct (alloc_page_spec s k Hr Hk Hf) as (f & b & s1 & H1 & Hfi & Hb & Hbf & E1 & He1 & Hk1 & Hht & HwS1 & Hw1).
  erewrite M_bind_eq by exact H1. cbv beta iota. pose proof (ext_ready _ _ _ Hr E1) as Hr1. pose proof (e_cr3 _ _ _ E1) as Hc1.
  assert (Hab : a <> b) by (intros ->; unfold slot_free in Hbf; destruct HeP; congruence).
  assert (HfP : f <> PT) by (by apply (idle_ne s)). assert (HfS : f <> S) by (by apply (idle_ne s)). assert (Hpf : page f) by apply Hfi.
  destruct (write_temp s1 a PT ti (Z.lor f flag) Hr1 Ha Hti) as (s2 & H2 & E2 & Hfr2 & Hw2);
    [by rewrite HwS1|done|by rewrite Hc1|].
  erewrite M_bind_eq by exact H2. pose proof (ext_ready _ _ _ Hr1 E2) as Hr2.
  assert (HwS2 : forall i, idx i -> word (pm s2) S i = word (pm s1) S i)
    by (intros i Hi; rewrite Hw2, decide_False; [done|intros [? _]; congruence|done|done]).
  destruct (close_slot s2 b f Hr2 Hb) as (s3 & H3 & Hso & Hbf3 & HwS3); [by rewrite HwS2|].
  assert (HwS : forall i, idx i -> i <> b -> word (pm s3) S i = word (pm s) S i)
    by (intros i Hi Hn; rewrite HwS3, HwS2, HwS1; done).
  assert (Hw : forall q i, page q -> idx i -> q <> S ->
    word (pm s3) q i = if decide (q = PT /\ i = ti) then Z.lor f flag else if decide (q = f) then 0 else word (pm s) q i).
  { intros q i Hq Hi Hn. rewrite (so_word _ _ _ Hso) by done. rewrite Hw2 by done. rewrite lor_u32 by done. case_decide; [done|]. by apply Hw1. }
  assert (Hh3 : held_too s s3 f).
  { intros p Hp. rewrite (slots_only_held _ _ _ _ Hso). unfold held at 1. rewrite Hfr2. by apply Hht. }
  exists s3. split; [exact H3|]. split.
  - split.
    + destruct (so_ext _ _ _ Hso) as [G1 G2 G3 _ _]. split; [done|pose proof (e_cr3 _ _ _ E2); congruence|done|intros p Hp Hh; apply Hh3; [done|by left]|].
      intros i p Hi He _. rewrite HwS; [done|done|]. intros ->. unfold slot_free in Hbf. destruct He. congruence.
    + intros i Hi Hfi'. destruct (decide (i = b)) as [->|Hn]; [done|]. unfold slot_free. by rewrite HwS.
    + intros j Hj Hn. rewrite Hw by done. rewrite !decide_False; [done|by intros ->|]. intros [_ ->]. destruct Hn; [set_solver|congruence].
    + intros j Hj ->%list_elem_of_singleton _. exists f. rewrite Hw, decide_True by done. split; [done|]. split; [apply Hfi|].
      split; [by apply idle_not_held|]. split; [apply Hh3; [done|by right]|]. intros j Hj'. rewrite Hw by done.
      rewrite decide_False, decide_True; [done|done|intros [? _]; congruence].
    + intros j j' _ _ ->%list_elem_of_singleton ->%list_elem_of_singleton. done.
    + intros q j Hq Hj Hh Hn HnP'. rewrite Hw by done. rewrite !decide_False; [done| |intros [? _]; congruence].
      intros ->. by apply (idle_not_held s f).
  - eapply slots_only_idles; [exact Hso|]. eapply at_least_mono; [reflexivity| |exact Hk1]. intros g [G1 G2]. split; [done|by rewrite Hfr2].
Qed.

End Ext.
