(* ===== verification/PagingRegion.v ===== *)
(** * Theorems about paging: mapping a region of another address space

    [request_region_vmap] fills a directory that is not the current one and is
    reached only through temporary slots.  [region_spec] describes it for any
    range whose first directory entry is new or present and whose later ones
    are present: the pages of the range that were absent get new frames in the
    table of the {e first} entry, and nothing else in use changes. *)
From S2P Require Import Prelude CMem Malloc Common Frame Paging PagingThm PagingTmp PagingMap.
Import Paging.
Import Frame.

Lemma M_assoc {A B C} (c : M A) (f : A -> M B) (g : B -> M C) s : (c ≫= fun x => f x ≫= g) s = ((c ≫= f) ≫= g) s.
Proof. unfold mbind, M_bind. by destruct (c s) as [[a s']| |]. Qed.

(** The table indices of [n] pages from [va] on. *)
Fixpoint tis (n : nat) (va : Z) : list Z :=
  match n with
  | O => []
  | Datatypes.S n => PAGE_TABLE_INDEX va :: tis n (va + FRAME_SIZE)
  end.

Lemma elem_of_tis n va j :
  j ∈ tis n va <-> exists i, 0 <= i < Z.of_nat n /\ j = PAGE_TABLE_INDEX (va + 4096 * i).
Proof.
  unfold FRAME_SIZE. revert va. induction n as [|n IH]; intros va; cbn [tis].
  - split; [by intros ?%elem_of_nil|]. intros (i & ? & _). lia.
  - rewrite elem_of_cons, IH. unfold FRAME_SIZE. split.
    + intros [->|(i & Hi & ->)]; [exists 0; split; [lia|]; f_equal; lia|]. exists (i + 1). split; [lia|]. f_equal. lia.
    + intros (i & Hi & ->). destruct (decide (i = 0)) as [->|]; [left; f_equal; lia|]. right. exists (i - 1). split; [lia|]. f_equal. lia.
Qed.

Section Region.
Context (R S t T RT : Z).

(** The slot [t] shows the directory [T], whose reverse table is [RT]: another
    directory than the running one, or the running one itself. *)
Record aim (s : mm) : Prop := {
  am_slot : idx t /\ entry (word (pm s) S t) T;
  am_T : page T /\ held s T /\ T ∉ [R; S];
  am_rev : entry (word (pm s) T 1023) RT;
  am_RT : page RT /\ RT <> 0 /\ held s RT /\ RT ∉ [cr3 s; S; T];
  am_own : RT ∉ [R] \/ T = cr3 s;
}.

(** The first case. *)
Record target (s : mm) : Prop := {
  tg_slot : idx t /\ entry (word (pm s) S t) T;
  tg_T : page T /\ held s T /\ T ∉ [cr3 s; R; S];
  tg_rev : entry (word (pm s) T 1023) RT;
  tg_RT : page RT /\ RT <> 0 /\ held s RT /\ RT ∉ [cr3 s; R; S; T];
}.

Lemma target_aim s : target s -> aim s.
Proof.
  intros [H1 (H2 & H3 & H4) H5 (H6 & H7 & H8 & H9)]. split; [done|split_and!; try done; set_solver|done|split_and!; try done; set_solver|left; set_solver].
Qed.

Lemma no_entry_spec s va :
  ready R S s -> aim s -> u32 va ->
  pg_dir_no_entry (IX_TO_VA 1022 t) va s = Ok (if PAGE_ENTRY_SET (word (pm s) T (PAGE_DIR_INDEX va)) then 0 else 1, s).
Proof.
  intros Hr [[Ht He] _ _ _ _] Hv. unfold pg_dir_no_entry. erewrite M_bind_eq; [done|].
  apply (rd_temp s R S (r_sp _ _ _ Hr) t T); [done|by apply dir_idx|done].
Qed.

Lemma create_existing s rv va flag :
  ready R S s -> aim s -> u32 va -> PAGE_ENTRY_SET (word (pm s) T (PAGE_DIR_INDEX va)) = true ->
  create_page_table (IX_TO_VA 1022 t) rv va flag s = Ok (NULL, s).
Proof. intros Hr Ht Hv Hset. unfold create_page_table. erewrite M_bind_eq by (by apply no_entry_spec). by rewrite Hset. Qed.

(** Changes outside the directory and its reverse table keep the target. *)
Lemma target_ext V s s' :
  ready R S s -> target s -> ext R S V s s' -> T ∉ V -> word (pm s') T 1023 = word (pm s) T 1023 -> target s'.
Proof.
  intros Hr [[H1 H2] (H3 & H4 & H5) H6 (H7 & H8 & H9 & H10)] He Hn Hw. pose proof (e_cr3 _ _ _ _ _ He) as Hc. split.
  - split; [done|]. by apply (e_slot _ _ _ _ _ He).
  - split; [done|]. split; [by apply (e_mono _ _ _ _ _ He)|by rewrite Hc].
  - by rewrite Hw.
  - split; [done|]. split; [done|]. split; [by apply (e_mono _ _ _ _ _ He)|by rewrite Hc].
Qed.

(** The same for any directory. *)
Lemma aim_ext V s s' :
  ready R S s -> aim s -> ext R S V s s' -> T ∉ V -> word (pm s') T 1023 = word (pm s) T 1023 -> aim s'.
Proof.
  intros Hr [[H1 H2] (H3 & H4 & H5) H6 (H7 & H8 & H9 & H10) H11] He Hn Hw. pose proof (e_cr3 _ _ _ _ _ He) as Hc. split.
  - split; [done|]. by apply (e_slot _ _ _ _ _ He).
  - split; [done|]. split; [by apply (e_mono _ _ _ _ _ He)|done].
  - by rewrite Hw.
  - split; [done|]. split; [done|]. split; [by apply (e_mono _ _ _ _ _ He)|by rewrite Hc].
  - by rewrite Hc.
Qed.

(** ** The loop after its first round *)

Lemma rest_spec n k fuel s a PT rv va va_end dflag flag new_pt :
  ready R S s -> aim s -> T <> PT -> page PT -> held s PT -> PT ∉ [cr3 s; R; S] -> idx a -> entry (word (pm s) S a) PT ->
  0 <= flag < 4096 -> Z.odd flag = true ->
  (forall i, 0 <= i < Z.of_nat n -> PAGE_ENTRY_SET (word (pm s) T (PAGE_DIR_INDEX (va + 4096 * i))) = true) ->
  0 <= va -> va + 4096 * Z.of_nat n < 4294967296 -> va_end + 4096 = va + 4096 * Z.of_nat n -> (n < fuel)%nat ->
  idles (n + k) s -> frees S 1 s ->
  exists s', region_loop fuel (IX_TO_VA 1022 t) rv va va_end dflag flag (IX_TO_VA 1022 a) new_pt s =
      Ok (if decide (n = O) then new_pt else NULL, s') /\
    grown R S PT flag (tis n va) s s' /\ idles k s'.
Proof.
  intros Hr Ham HTP HP HhP HnP Ha HeP Hfl Hodd. revert fuel s va dflag new_pt Hr Ham HhP HnP HeP.
  induction n as [|n IH]; intros [|fuel] s va dflag new_pt Hr Ham HhP HnP HeP Hset H0 Hhi Hend Hfu Hk Hf; try lia; cbn [region_loop tis].
  - rewrite (proj2 (Z.leb_gt va va_end)) by lia. exists s. split; [done|]. split; [by apply grown_refl|done].
  - rewrite (proj2 (Z.leb_le va va_end)) by lia. cbv zeta.
    set (dflag' := if va <? KERNEL_V_START then PAGE_FLG_USR else dflag).
    destruct (fill_entry_spec R S s (n + k) a PT va flag Hr HP HhP HnP Ha HeP Hfl Hk Hf) as (s1 & H1 & Hg1 & Hk1).
    assert (Hmap : map_one (IX_TO_VA 1022 t) rv va dflag' flag (IX_TO_VA 1022 a) s = Ok ((IX_TO_VA 1022 a, NULL), s1)).
    { unfold map_one. erewrite M_bind_eq.
      2:{ apply create_existing; [done|done|lia|]. specialize (Hset 0 ltac:(lia)). by rewrite Z.mul_0_r, Z.add_0_r in Hset. }
      change (0 =? 0) with true. cbn [negb]. rewrite (proj2 (Z.eqb_neq (IX_TO_VA 1022 a) 0)) by (by apply temp_va_nonnull).
      erewrite (M_bind_eq _ _ s (IX_TO_VA 1022 a) s) by reflexivity. erewrite M_bind_eq by exact H1. done. }
    erewrite M_bind_eq by exact Hmap. cbv beta iota. rewrite wrap32_small by (unfold FRAME_SIZE; lia).
    pose proof (g_ext _ _ _ _ _ _ _ Hg1) as E1. pose proof (ext_ready _ _ _ _ _ Hr E1) as Hr1.
    assert (HwT : forall j, idx j -> word (pm s1) T j = word (pm s) T j).
    { intros j Hj. destruct (am_T _ Ham) as (? & ? & ?). apply (g_keep _ _ _ _ _ _ _ Hg1); try done; set_solver. }
    assert (Ham1 : aim s1) by (eapply aim_ext; [exact Hr|exact Ham|exact E1|by intros ?%elem_of_nil|apply HwT; unfold idx; lia]).
    destruct (IH fuel s1 (va + FRAME_SIZE) dflag' NULL Hr1 Ham1) as (s2 & H2 & Hg2 & Hk2); unfold FRAME_SIZE in *; try done; try lia.
    + by apply (e_mono _ _ _ _ _ E1).
    + by rewrite (e_cr3 _ _ _ _ _ E1).
    + apply (e_slot _ _ _ _ _ E1); [done|done|by intros ?%elem_of_nil].
    + intros i Hi. rewrite HwT by (apply dir_idx; lia). replace (va + 4096 + 4096 * i) with (va + 4096 * (i + 1)) by lia. apply Hset. lia.
    + eapply grown_frees; [exact Hg1|exact Hf].
    + exists s2. split; [rewrite H2; by case_decide|]. split; [|exact Hk2].
      exact (grown_trans R S PT flag [_] _ s s1 s2 Hr HP HhP Hfl Hodd Hg1 Hg2).
Qed.

(** ** What a region request does *)

(** The words of the table before: a new table is empty. *)
Definition tab (s : mm) (PT di j : Z) : Z := if PAGE_ENTRY_SET (word (pm s) T di) then word (pm s) PT j else 0.

Record mapped (V : list Z) (PT di flag : Z) (N : list Z) (s s' : mm) : Prop := {
  m_ext : ext R S V s s';
  m_PT : page PT /\ held s' PT /\ PT ∉ [cr3 s; R; S; T];
  m_dir : entry (word (pm s') T di) PT;
  m_fresh : PAGE_ENTRY_SET (word (pm s) T di) = false -> user_page PT /\ ~ held s PT;
  m_old : forall j, idx j -> j ∉ N \/ PAGE_ENTRY_SET (tab s PT di j) = true -> word (pm s') PT j = tab s PT di j;
  m_new : forall j, idx j -> j ∈ N -> PAGE_ENTRY_SET (tab s PT di j) = false ->
    exists f, word (pm s') PT j = Z.lor f flag /\ newp s s' f /\ f <> PT;
  m_inj : forall j j', idx j -> idx j' -> j ∈ N -> j' ∈ N -> j <> j' ->
    PAGE_ENTRY_SET (tab s PT di j) = false -> PAGE_ENTRY_SET (tab s PT di j') = false ->
    Z.land (word (pm s') PT j) PAGE_MASK <> Z.land (word (pm s') PT j') PAGE_MASK;
  m_keep : forall q j, page q -> idx j -> held s q -> q <> S -> q <> PT ->
    (PAGE_ENTRY_SET (word (pm s) T di) = true \/ (q <> T /\ q <> RT) \/ j <> di) -> word (pm s') q j = word (pm s) q j;
}.

Lemma mapped_grown PT di flag N s s1 s2 :
  ready R S s -> aim s -> idx di -> mapped [] PT di flag [] s s1 -> grown R S PT flag N s1 s2 -> mapped [] PT di flag N s s2.
Proof.
  intros Hr Ham Hdi [E1 (P1 & P2 & P3) D1 F1 O1 _ _ K1] [E2 _ O2 W2 I2 K2].
  destruct (am_T _ Ham) as (HT1 & HT2 & HT3). assert (Hm : forall q, page q -> held s q -> held s1 q) by apply E1.
  assert (Ht : forall j, idx j -> word (pm s1) PT j = tab s PT di j) by (intros j Hj; apply O1; [done|left; by intros ?%elem_of_nil]).
  split.
  - exact (ext_trans _ _ [] [] _ _ _ E1 E2).
  - split; [done|]. split; [by apply (e_mono _ _ _ _ _ E2)|done].
  - rewrite K2; [done|done|done|by apply Hm|set_solver|set_solver].
  - done.
  - intros j Hj Hn. rewrite O2, Ht; [done|done|done|by rewrite Ht].
  - intros j Hj Hn Hs. destruct (W2 j Hj Hn) as (f & E & G1 & G2 & G3 & G4); [by rewrite Ht|]. exists f. split; [done|].
    split; [|by intros ->]. split; [done|]. split; [|done]. intros G. apply G2, Hm; [apply G1|done].
  - intros j j' Hj Hj' Hn Hn' Hne Hs Hs'. apply I2; rewrite ?Ht; done.
  - intros q j Hq Hj Hh Hn HnP Hc. rewrite K2, K1; [done..| |done|done]. by apply Hm.
Qed.

Lemma mapped_slots V PT di flag N s s1 s2 :
  ready R S s -> aim s -> idx di -> mapped [] PT di flag N s s1 -> slots_only R S V s1 s2 -> mapped V PT di flag N s s2.
Proof.
  intros Hr Ham Hdi [E1 (P1 & P2 & P3) D1 F1 O1 W1 I1 K1] Hso. destruct (am_T _ Ham) as (HT1 & HT2 & HT3). destruct (ready_S _ _ _ Hr) as [HS HhS].
  pose proof (so_word _ _ _ _ _ Hso) as Hw. assert (HPS : PT <> S) by set_solver.
  split.
  - exact (ext_trans _ _ [] V _ _ _ E1 (so_ext _ _ _ _ _ Hso)).
  - split; [done|]. split; [by apply (slots_only_held _ _ _ _ _ _ Hso)|done].
  - rewrite Hw; [done|done|done|set_solver].
  - done.
  - intros j Hj Hn. rewrite Hw; [by apply O1|done..].
  - intros j Hj Hn Hs. destruct (W1 j Hj Hn Hs) as (f & E & (G1 & G2 & G3 & G4) & G5). exists f. rewrite Hw by done. split; [done|]. split; [|done].
    split; [done|]. split; [done|]. split; [by apply (slots_only_held _ _ _ _ _ _ Hso)|]. intros i Hi.
    rewrite Hw; [by apply G4|apply G1|done|by intros ->].
  - intros j j' Hj Hj' Hn Hn' Hne Hs Hs'. rewrite !Hw by done. by apply I1.
  - intros q j Hq Hj Hh Hn HnP Hc. rewrite Hw by done. by apply K1.
Qed.

(** ** The first round *)

(** A new page table, as changes of words: the entries of the directory and of
    the reverse table, and an empty page. *)
Lemma new_table s k r va flag :
  ready R S s -> aim s -> idx r -> entry (word (pm s) S r) RT -> u32 va -> PAGE_ENTRY_SET (word (pm s) T (PAGE_DIR_INDEX va)) = false ->
  (T = cr3 s -> PAGE_DIR_INDEX va < 1022) -> 0 <= flag < 4096 -> idles (Datatypes.S k) s -> frees S 1 s ->
  exists f a s', create_page_table (IX_TO_VA 1022 t) (IX_TO_VA 1022 r) va flag s = Ok (IX_TO_VA 1022 a, s') /\
    idle s f /\ idx a /\ entry (word (pm s') S a) f /\ ext R S [] s s' /\ held_too s s' f /\ idles k s' /\
    (forall i, idx i -> i <> a -> word (pm s') S i = word (pm s) S i) /\
    forall q j, page q -> idx j -> q <> S -> word (pm s') q j =
     if decide (q = RT /\ j = PAGE_DIR_INDEX va) then Z.lor f PAGE_P else if decide (q = T /\ j = PAGE_DIR_INDEX va) then Z.lor f flag
     else if decide (q = f) then 0 else word (pm s) q j.
Proof.
  intros Hr Ham Hri HeR Hv Hset Hown Hfl Hk Hf. pose proof (dir_idx va Hv) as Hdi.
  pose proof (no_entry_spec s va Hr Ham Hv) as Hne0. rewrite Hset in Hne0. set (di := PAGE_DIR_INDEX va) in *.
  pose proof Ham as [[Ht HeT] (HT & HhT & HnT) Hrev (HR1 & HR0 & HhR & HnR) Ho]. destruct (ready_S _ _ _ Hr) as [HS HhS].
  destruct (new_page R S s k Hr Hk Hf) as (f & a & s1 & s2 & s3 & Hfi & Ha & Haf & H1 & H2 & H3 & E3 & He3 & Hk3 & Hht & HwS3 & Hw3).
  assert (HTS : T <> S) by set_solver. assert (HRS : RT <> S) by set_solver.
  assert (Hpf : page f) by apply Hfi. pose proof (ext_ready _ _ _ _ _ Hr E3) as Hr3. pose proof (e_cr3 _ _ _ _ _ E3) as Hc3.
  destruct (write_own R S s3 t T di (Z.lor f flag) Hr3 Ht Hdi) as (s4 & H4 & E4 & Hfr4 & Hw4);
    [apply (e_slot _ _ _ _ _ E3); [done|done|by intros ?%elem_of_nil]|done|done|rewrite Hc3; intros Hin; apply Hown; set_solver|].
  pose proof (ext_ready _ _ _ _ _ Hr3 E4) as Hr4. pose proof (e_cr3 _ _ _ _ _ E4) as Hc4.
  destruct (write_own R S s4 r RT di (Z.lor f PAGE_P) Hr4 Hri Hdi) as (s5 & H5 & E5 & Hfr5 & Hw5);
    [apply (e_slot _ _ _ _ _ E4); [done|apply (e_slot _ _ _ _ _ E3); [done|done|by intros ?%elem_of_nil]|by intros ?%elem_of_nil]|done|done|
     rewrite Hc4, Hc3; intros Hin; apply Hown; set_solver|].
  assert (HwS : forall i, idx i -> word (pm s5) S i = word (pm s3) S i).
  { intros i Hi. rewrite Hw5, decide_False, Hw4, decide_False; [done|intros [? _]; congruence|done|done|intros [? _]; congruence|done|done]. }
  exists f, a, s5. split; [|split; [done|split; [done|split; [by rewrite HwS|split; [|split; [|split; [|split]]]]]]].
  - unfold create_page_table. erewrite M_bind_eq by exact Hne0. change (1 =? 0) with false. cbv iota zeta. fold di.
    erewrite M_bind_eq by exact H1. erewrite M_bind_eq by exact H2.
    rewrite (proj2 (Z.eqb_neq (IX_TO_VA 1022 a) 0)), (proj2 (Z.eqb_neq f 0)) by (by apply temp_va_nonnull || (destruct Hfi as [(_ & ? & _) _]; lia)).
    cbn [orb]. erewrite M_bind_eq by exact H3. erewrite M_bind_eq by exact H4.
    rewrite (proj2 (Z.eqb_neq (IX_TO_VA 1022 r) 0)) by (by apply temp_va_nonnull).
    erewrite M_bind_eq by exact H5. reflexivity.
  - exact (ext_trans _ _ [] [] _ _ _ (ext_trans _ _ [] [] _ _ _ E3 E4) E5).
  - intros p Hp. unfold held at 1. rewrite Hfr5, Hfr4. by apply Hht.
  - eapply at_least_mono; [reflexivity| |exact Hk3]. intros g [G1 G2]. split; [done|]. by rewrite Hfr5, Hfr4.
  - intros i Hi Hn. rewrite HwS by done. by apply HwS3.
  - intros q j Hq Hj Hn. rewrite Hw5 by done. rewrite !lor_u32 by (done || (unfold PAGE_P; lia)). case_decide; [done|].
    rewrite Hw4 by done. rewrite lor_u32 by done. case_decide; [done|]. by apply Hw3.
Qed.

Lemma create_fresh s k r va flag tflag :
  ready R S s -> aim s -> idx r -> entry (word (pm s) S r) RT -> u32 va -> PAGE_ENTRY_SET (word (pm s) T (PAGE_DIR_INDEX va)) = false ->
  (T = cr3 s -> PAGE_DIR_INDEX va < 1022) -> 0 <= flag < 4096 -> Z.odd flag = true -> idles (Datatypes.S k) s -> frees S 1 s ->
  exists PT a s', create_page_table (IX_TO_VA 1022 t) (IX_TO_VA 1022 r) va flag s = Ok (IX_TO_VA 1022 a, s') /\
    idx a /\ entry (word (pm s') S a) PT /\ mapped [] PT (PAGE_DIR_INDEX va) tflag [] s s' /\ idles k s' /\
    (forall i, idx i -> i <> a -> word (pm s') S i = word (pm s) S i) /\ (PAGE_DIR_INDEX va <> 1023 -> aim s').
Proof.
  intros Hr Ham Hri HeR Hv Hset Hown Hfl Hodd Hk Hf. pose proof (dir_idx va Hv) as Hdi.
  destruct (new_table s k r va flag Hr Ham Hri HeR Hv Hset Hown Hfl Hk Hf) as (f & a & s5 & H & Hfi & Ha & He & E & Hh5 & Hk5 & HwS & Hw).
  set (di := PAGE_DIR_INDEX va) in *.
  pose proof Ham as [_ (HT & HhT & HnT) _ (HR1 & HR0 & HhR & HnR) _]. destruct (ready_S _ _ _ Hr) as [HS HhS].
  assert (HfT : f <> T) by (by apply (idle_ne s)). assert (HfR : f <> RT) by (by apply (idle_ne s)). assert (HfS : f <> S) by (by apply (idle_ne s)).
  assert (Hpf : page f) by apply Hfi. assert (HTR : T <> RT) by set_solver. assert (HTS : T <> S) by set_solver.
  exists f, a, s5. split; [exact H|]. split; [done|]. split; [done|]. split; [|split; [done|split; [done|]]].
  - split; try done.
    + split; [done|]. split; [apply Hh5; [done|by right]|]. intros Hin. repeat (apply elem_of_cons in Hin as [->|Hin]);
        [by apply (idle_not_held s (cr3 s) Hfi), (ready_page R S s _ Hr); set_solver|
         by apply (idle_not_held s R Hfi), (ready_page R S s _ Hr); set_solver|done|done|by apply elem_of_nil in Hin].
    + rewrite Hw, decide_False, decide_True; [by apply entry_flags|done|intros [? _]; congruence|done..].
    + intros _. split; [apply Hfi|by apply idle_not_held].
    + intros j Hj _. unfold tab. rewrite Hset, Hw by done. rewrite !(decide_False (P := _ /\ _)), decide_True by (done || (intros [? _]; congruence)). done.
    + intros j _ ?%elem_of_nil. done.
    + intros j j' _ _ ?%elem_of_nil. done.
    + intros q j Hq Hj Hh Hn HnP Hc. rewrite Hw by done. rewrite !decide_False; [done| | |].
      * by intros ->.
      * intros [-> ->]. destruct Hc as [?|[[? _]|?]]; congruence.
      * intros [-> ->]. destruct Hc as [?|[[_ ?]|?]]; congruence.
  - intros Hd. eapply aim_ext; [exact Hr|exact Ham|exact E|by intros ?%elem_of_nil|].
    rewrite Hw by (done || unfold idx; lia). rewrite !decide_False; [done|congruence|intros [_ ?]; congruence|intros [_ ?]; congruence].
Qed.

(** The hypothesis on the first directory entry: absent, or a table. *)
Definition first_entry (s : mm) (di : Z) : Prop :=
  PAGE_ENTRY_SET (word (pm s) T di) = false \/
  exists PT, entry (word (pm s) T di) PT /\ page PT /\ PT <> 0 /\ held s PT /\ PT ∉ [cr3 s; R; S; T].

(** [create_page_table] makes the table of the first page, or there is one and
    [get_pt_va] shows it. *)
Lemma open_table s k r va dflag flag :
  ready R S s -> aim s -> idx r -> entry (word (pm s) S r) RT -> u32 va -> PAGE_DIR_INDEX va <> 1023 ->
  first_entry s (PAGE_DIR_INDEX va) -> (T = cr3 s -> PAGE_DIR_INDEX va < 1022) -> 0 <= dflag < 4096 -> Z.odd dflag = true -> idles (Datatypes.S k) s -> frees S 1 s ->
  exists PT a s1,
    (if PAGE_ENTRY_SET (word (pm s) T (PAGE_DIR_INDEX va)) then
       create_page_table (IX_TO_VA 1022 t) (IX_TO_VA 1022 r) va dflag s = Ok (NULL, s) /\
       get_pt_va (IX_TO_VA 1022 t) (PAGE_DIR_INDEX va) s = Ok (IX_TO_VA 1022 a, s1)
     else create_page_table (IX_TO_VA 1022 t) (IX_TO_VA 1022 r) va dflag s = Ok (IX_TO_VA 1022 a, s1)) /\
    idx a /\ entry (word (pm s1) S a) PT /\ mapped [] PT (PAGE_DIR_INDEX va) flag [] s s1 /\ aim s1 /\
    (forall i, idx i -> i <> a -> word (pm s1) S i = word (pm s) S i) /\ idles k s1.
Proof.
  intros Hr Ham Hri HeR Hv Hdi Hfst Hown Hd1 Hd2 Hk Hf. pose proof (dir_idx va Hv) as Hix.
  destruct Hfst as [Hset|(PT & HePT & HP & HP0 & HhP & HnP)].
  - destruct (create_fresh s k r va dflag flag Hr Ham Hri HeR Hv Hset Hown Hd1 Hd2 Hk Hf) as (PT & a & s1 & H1 & Ha & He & Hm & Hk1 & HwS & Ham1).
    exists PT, a, s1. rewrite Hset. split_and!; by auto.
  - destruct (get_slot R S s PT Hr HP Hf) as (a & s1 & H1 & Ha & Hso & He & HwS).
    exists PT, a, s1. rewrite (proj1 HePT). split.
    { split; [apply create_existing; [done|done|done|apply HePT]|]. unfold get_pt_va.
      destruct Ham as [[Ht HeT] _ _ _ _]. erewrite M_bind_eq by (by apply (pt_phy_temp R S s t T _ PT (r_sp _ _ _ Hr))).
      rewrite (proj2 (Z.eqb_neq PT 0)) by done. erewrite (M_bind_eq (ASSERT _)) by reflexivity. exact H1. }
    pose proof (so_word _ _ _ _ _ Hso) as Hw. destruct (am_T _ Ham) as (HT & HhT & HnT). assert (HTS : T <> S) by set_solver.
    assert (HPS : PT <> S) by set_solver.
    split; [done|]. split; [done|]. split; [|split; [|split; [done|]]].
    + split; [apply Hso|split; [done|]; split; [by apply (slots_only_held _ _ _ _ _ _ Hso)|done]|by rewrite Hw|..].
      * intros Hs. destruct HePT. congruence.
      * intros j Hj _. unfold tab. rewrite (proj1 HePT). by rewrite Hw.
      * intros j _ ?%elem_of_nil. done.
      * intros j j' _ _ ?%elem_of_nil. done.
      * intros q j Hq Hj _ Hn _ _. by apply Hw.
    + eapply aim_ext; [exact Hr|exact Ham|apply Hso|by intros ?%elem_of_nil|]. apply Hw; [done|unfold idx; lia|done].
    + eapply slots_only_idles; [exact Hso|]. eapply at_least_mono; [..|exact Hk]; [lia|done].
Qed.

Lemma map_one_first s k r va dflag flag :
  ready R S s -> aim s -> idx r -> entry (word (pm s) S r) RT -> u32 va -> PAGE_DIR_INDEX va <> 1023 ->
  first_entry s (PAGE_DIR_INDEX va) -> (T = cr3 s -> PAGE_DIR_INDEX va < 1022) ->
  0 <= dflag < 4096 -> Z.odd dflag = true -> 0 <= flag < 4096 -> idles (Datatypes.S (Datatypes.S k)) s -> frees S 2 s ->
  exists PT a s1 s', map_one (IX_TO_VA 1022 t) (IX_TO_VA 1022 r) va dflag flag NULL s =
      Ok ((IX_TO_VA 1022 a, if PAGE_ENTRY_SET (word (pm s) T (PAGE_DIR_INDEX va)) then NULL else IX_TO_VA 1022 a), s') /\
    idx a /\ entry (word (pm s1) S a) PT /\ mapped [] PT (PAGE_DIR_INDEX va) flag [] s s1 /\ aim s1 /\
    (forall i, idx i -> i <> a -> word (pm s1) S i = word (pm s) S i) /\
    grown R S PT flag [PAGE_TABLE_INDEX va] s1 s' /\ idles k s'.
Proof.
  intros Hr Ham Hri HeR Hv Hdi Hfst Hown Hd1 Hd2 Hfl Hk Hf.
  destruct (open_table s (Datatypes.S k) r va dflag flag) as (PT & a & s1 & Hcode & Ha & He & Hm & Ham1 & HwS & Hk1); try done.
  { eapply frees_le; [|exact Hf]. lia. }
  pose proof (m_ext _ _ _ _ _ _ _ Hm) as E1. pose proof (ext_ready _ _ _ _ _ Hr E1) as Hr1. destruct (m_PT _ _ _ _ _ _ _ Hm) as (P1 & P2 & P3).
  destruct (fill_entry_spec R S s1 k a PT va flag Hr1 P1 P2) as (s2 & H2 & Hg & Hk2); [rewrite (e_cr3 _ _ _ _ _ E1); set_solver|done|done|done|done| |].
  { apply (get_slot_frees S s s1 a); [exact HwS|exact Hf]. }
  exists PT, a, s1, s2. split; [|done]. unfold map_one. destruct (PAGE_ENTRY_SET (word (pm s) T (PAGE_DIR_INDEX va))).
  - destruct Hcode as [H1 Hget]. erewrite M_bind_eq by exact H1. change (0 =? 0) with true. cbn [negb].
    erewrite M_bind_eq by exact Hget. erewrite M_bind_eq by exact H2. done.
  - erewrite M_bind_eq by exact Hcode. rewrite (proj2 (Z.eqb_neq (IX_TO_VA 1022 a) 0)) by (by apply temp_va_nonnull). cbn [negb Z.eqb].
    erewrite (M_bind_eq _ _ s1 (IX_TO_VA 1022 a) s1) by reflexivity. erewrite M_bind_eq by exact H2. done.
Qed.

(** ** The whole loop, over [n] pages from page number [p] on *)

Lemma page_indices p : 0 <= p -> PAGE_DIR_INDEX (4096 * p) = p / 1024 /\ PAGE_TABLE_INDEX (4096 * p) = p mod 1024.
Proof.
  intros Hp. rewrite dir_index_div, table_index_mod. change 4194304 with (4096 * 1024). rewrite <- Z.div_div by lia.
  by rewrite Z.mul_comm, Z.div_mul by lia.
Qed.

Lemma region_loop_spec s k n fuel r p flag :
  ready R S s -> aim s -> idx r -> entry (word (pm s) S r) RT -> (0 < n < fuel)%nat ->
  0 <= p -> p + Z.of_nat n < 1048576 -> p / 1024 <> 1023 -> first_entry s (p / 1024) -> (T = cr3 s -> p / 1024 < 1022) ->
  (forall q, p < q < p + Z.of_nat n -> q / 1024 = p / 1024 \/ PAGE_ENTRY_SET (word (pm s) T (q / 1024)) = true) ->
  0 <= flag < 4096 -> Z.odd flag = true -> idles (Datatypes.S n + k) s -> frees S 2 s ->
  exists PT a (b : bool) s',
    region_loop fuel (IX_TO_VA 1022 t) (IX_TO_VA 1022 r) (4096 * p) (4096 * (p + Z.of_nat n - 1)) PAGE_FLG_KERNEL flag NULL NULL s =
      Ok (if b then IX_TO_VA 1022 a else NULL, s') /\
    idx a /\ entry (word (pm s') S a) PT /\ mapped [] PT (p / 1024) flag (tis n (4096 * p)) s s' /\ idles k s' /\
    forall i, idx i -> i <> a -> slot_free s S i -> slot_free s' S i.
Proof.
  intros Hr Ham Hri HeR Hn Hp Hhi Hd Hfst Hown Hset Hfl Hodd Hk Hf. destruct fuel as [|fuel]; [lia|]. destruct n as [|n]; [lia|]. cbn [region_loop].
  rewrite (proj2 (Z.leb_le _ _)) by lia. cbv zeta. destruct (page_indices p Hp) as [Hix _].
  set (dflag := if 4096 * p <? KERNEL_V_START then PAGE_FLG_USR else PAGE_FLG_KERNEL).
  assert (Hdf : 0 <= dflag < 4096 /\ Z.odd dflag = true) by (unfold dflag; destruct (_ <? _); split; done || (vm_compute; split; congruence)).
  destruct (map_one_first s (n + k) r (4096 * p) dflag flag) as (PT & a & s1 & s2 & H1 & Ha & He & Hm & Ham1 & HwS & Hg & Hk2);
    rewrite ?Hix; try done; try lia; try apply Hdf.
  rewrite Hix in *. erewrite M_bind_eq by exact H1. cbv beta iota. rewrite wrap32_small by (unfold FRAME_SIZE; lia).
  destruct (m_PT _ _ _ _ _ _ _ Hm) as (P1 & P2 & P3). pose proof (m_ext _ _ _ _ _ _ _ Hm) as E1. pose proof (ext_ready _ _ _ _ _ Hr E1) as Hr1.
  pose proof (g_ext _ _ _ _ _ _ _ Hg) as E2. pose proof (ext_ready _ _ _ _ _ Hr1 E2) as Hr2. destruct (am_T _ Ham1) as (HT & HhT & HnT).
  assert (Hid : idx (p / 1024)) by (split; [apply Z.div_pos; lia|apply Z.div_lt_upper_bound; lia]).
  assert (HTP : T <> PT) by set_solver. assert (HTS : T <> S) by set_solver.
  assert (HwT : forall j, idx j -> word (pm s2) T j = word (pm s1) T j) by (intros j Hj; by apply (g_keep _ _ _ _ _ _ _ Hg)).
  assert (Ham2 : aim s2) by (eapply aim_ext; [exact Hr1|exact Ham1|exact E2|by intros ?%elem_of_nil|apply HwT; unfold idx; lia]).
  destruct (rest_spec n k fuel s2 a PT (IX_TO_VA 1022 r) (4096 * p + 4096) (4096 * (p + Z.of_nat (Datatypes.S n) - 1)) dflag flag
    (if PAGE_ENTRY_SET (word (pm s) T (p / 1024)) then NULL else IX_TO_VA 1022 a)) as (s3 & H3 & Hg3 & Hk3); try done; try lia.
  - by apply (e_mono _ _ _ _ _ E2).
  - rewrite (e_cr3 _ _ _ _ _ E2), (e_cr3 _ _ _ _ _ E1). set_solver.
  - apply (e_slot _ _ _ _ _ E2); [done|done|by intros ?%elem_of_nil].
  - intros i Hi. replace (4096 * p + 4096 + 4096 * i) with (4096 * (p + 1 + i)) by lia. rewrite (proj1 (page_indices (p + 1 + i) ltac:(lia))).
    assert (Hiq : idx ((p + 1 + i) / 1024)) by (split; [apply Z.div_pos; lia|apply Z.div_lt_upper_bound; lia]). rewrite HwT by done.
    destruct (decide ((p + 1 + i) / 1024 = p / 1024)) as [->|Hne]; [apply (m_dir _ _ _ _ _ _ _ Hm)|].
    rewrite (m_keep _ _ _ _ _ _ _ Hm); [|done|done|apply (am_T _ Ham)|done|done|by auto].
    destruct (Hset (p + 1 + i)); [lia|done|done].
  - eapply grown_frees; [exact Hg|]. apply (get_slot_frees S s s1 a); [exact HwS|exact Hf].
  - pose proof (grown_trans R S PT flag [_] _ s1 s2 s3 Hr1 P1 P2 Hfl Hodd Hg Hg3) as Hg13.
    exists PT, a, (bool_decide (n = O) && negb (PAGE_ENTRY_SET (word (pm s) T (p / 1024)))), s3. split.
    { etransitivity; [exact H3|]. do 2 f_equal. case_decide; [rewrite bool_decide_true by done; by destruct (PAGE_ENTRY_SET _)|by rewrite bool_decide_false]. }
    split; [done|]. split; [apply (e_slot _ _ _ _ _ (g_ext _ _ _ _ _ _ _ Hg13)); [done|done|by intros ?%elem_of_nil]|].
    split; [by eapply mapped_grown|]. split; [exact Hk3|].
    intros i Hi Hn' Hfi. apply (g_free _ _ _ _ _ _ _ Hg13); [done|]. unfold slot_free. by rewrite HwS.
Qed.

(** ** The request *)

(** The reverse table is reached through a slot that shows it already or
    through a new one. *)
Lemma rev_slot s :
  ready R S s -> aim s -> frees S 1 s ->
  exists r s1 (fl : bool),
    (rev_tb ← lookup_pt_temp_va (IX_TO_VA 1022 t) 1023;
     (if rev_tb =? NULL then r ← get_pt_va (IX_TO_VA 1022 t) 1023; mret (r, true) else mret (rev_tb, false))) s =
      Ok ((IX_TO_VA 1022 r, fl), s1) /\
    idx r /\ entry (word (pm s1) S r) RT /\ slots_only R S [] s s1 /\
    (forall i, idx i -> i <> r -> word (pm s1) S i = word (pm s) S i) /\
    if fl then forall i, idx i -> ~ entry (word (pm s) S i) RT else s1 = s.
Proof.
  intros Hr Ham Hf. pose proof Ham as [[Ht HeT] _ Hrev (HR & HR0 & _ & _) _].
  assert (Hphy : pt_phy_from_dir (IX_TO_VA 1022 t) 1023 s = Ok (RT, s))
    by (apply (pt_phy_temp R S s t T); [apply Hr|done|unfold idx; lia|done|done]).
  destruct (lookup_any R S 1024 s RT 0 (r_sp _ _ _ Hr)) as (p & Hl & Hp); [lia|done|].
  assert (Hlk : lookup_pt_temp_va (IX_TO_VA 1022 t) 1023 s = Ok (p, s)).
  { unfold lookup_pt_temp_va. erewrite M_bind_eq by exact Hphy. rewrite (proj2 (Z.eqb_neq RT 0)) by done.
    erewrite (M_bind_eq (ASSERT _)) by reflexivity. exact Hl. }
  erewrite M_bind_eq by exact Hlk. destruct Hp as [(r & Hri & HeRT & ->)|[-> Hno]].
  - rewrite (proj2 (Z.eqb_neq _ 0)) by (by apply temp_va_nonnull). exists r, s, false. split_and!; try done. by apply slots_only_refl.
  - change (0 =? 0) with true. cbv iota. destruct (get_slot R S s RT Hr HR Hf) as (r & s1 & H1 & Hri & Hso & He & HwS).
    exists r, s1, true. split; [|split_and!; done]. erewrite M_bind_eq; [reflexivity|]. unfold get_pt_va. erewrite M_bind_eq by exact Hphy.
    rewrite (proj2 (Z.eqb_neq RT 0)) by done. erewrite (M_bind_eq (ASSERT _)) by reflexivity. exact H1.
Qed.

(** [delete_temp_va] of a slot, or nothing. *)
Lemma delete_or_not (b : bool) s i p :
  ready R S s -> idx i -> entry (word (pm s) S i) p ->
  exists s', (if b then delete_temp_va (IX_TO_VA 1022 i) else mret ()) s = Ok ((), s') /\ slots_only R S [p] s s' /\
    (if b then slot_free s' S i else s' = s) /\ forall j, idx j -> j <> i -> word (pm s') S j = word (pm s) S j.
Proof.
  intros Hr Hi He. destruct b; [|exists s; split_and!; try done; by apply slots_only_refl].
  destruct (close_slot R S s i p Hr Hi He) as (s' & H). by exists s'.
Qed.

(** The end of the request: the slot of the reverse table is closed when it was
    opened for the request. *)
Lemma close_rev (fl : bool) s s1 s2 s3 r a PT (b : bool) :
  ready R S s2 -> ready R S s3 -> idx r -> entry (word (pm s2) S r) RT -> (if fl then True else s1 = s) ->
  (forall i, idx i -> i <> r -> word (pm s1) S i = word (pm s) S i) ->
  (forall i, idx i -> i <> a -> slot_free s1 S i -> slot_free s2 S i) ->
  slots_only R S [PT] s2 s3 -> (if b then slot_free s3 S a else s3 = s2) ->
  (forall j, idx j -> j <> a -> word (pm s3) S j = word (pm s2) S j) ->
  exists s4, (if fl then delete_temp_va (IX_TO_VA 1022 r) else mret ()) s3 = Ok ((), s4) /\
    slots_only R S ([PT] ++ if fl then [RT] else []) s2 s4 /\ forall i, idx i -> i <> a -> slot_free s S i -> slot_free s4 S i.
Proof.
  intros Hr2 Hr3 Hri HeR Hfl1 HwS1 Hfr2 Hso3 Hb3 HwS3.
  assert (Hkeep : forall i, idx i -> i <> a -> word (pm s1) S i = word (pm s) S i -> slot_free s S i -> slot_free s3 S i).
  { intros i Hi Hn E Hfi. unfold slot_free. rewrite HwS3 by done. apply Hfr2; [done|done|]. unfold slot_free. by rewrite E. }
  destruct fl.
  - destruct (close_any R S s3 r [RT] Hr3 Hri) as (s4 & H4 & Hso4 & Hz & Hz').
    { intros p He. apply list_elem_of_singleton. destruct (decide (r = a)) as [->|Hne].
      - destruct b; [unfold slot_free in Hb3; destruct He; congruence|]. subst s3. destruct He, HeR. congruence.
      - rewrite HwS3 in He by done. destruct He, HeR. congruence. }
    exists s4. split; [done|]. split; [by apply (slots_only_trans _ _ [PT] [RT] s2 s3 s4)|].
    intros i Hi Hn Hfi. destruct (decide (i = r)) as [->|Hnr]; [done|]. unfold slot_free. rewrite Hz' by done. apply Hkeep; auto.
  - subst s1. exists s3. split; [done|]. split; [by rewrite app_nil_r|]. by auto.
Qed.

Lemma ext_drop V p s s' : (forall i, idx i -> ~ entry (word (pm s) S i) p) -> ext R S (V ++ [p]) s s' -> ext R S V s s'.
Proof. intros Hno []. split; try done. intros i q Hi He Hn. destruct (decide (q = p)) as [->|]; [by apply Hno in He|]. set_solver. Qed.

Lemma mapped_ext V V' PT di flag N s s' : mapped V PT di flag N s s' -> ext R S V' s s' -> mapped V' PT di flag N s s'.
Proof. intros [] He. by split. Qed.

(** A state reached by changing slots only has the same tables. *)
Lemma mapped_from PT di flag N s0 s s' :
  ready R S s0 -> aim s0 -> idx di -> slots_only R S [] s0 s -> mapped [] PT di flag N s s' -> mapped [] PT di flag N s0 s'.
Proof.
  intros Hr Ham Hdi Hso [E1 P1 D1 F1 O1 W1 I1 K1]. destruct (am_T _ Ham) as (HT1 & HT2 & HT3). pose proof (so_word _ _ _ _ _ Hso) as Hw.
  assert (Hh : forall p, held s p <-> held s0 p) by (intros p; by apply (slots_only_held _ _ _ _ _ _ Hso)).
  pose proof (e_cr3 _ _ _ _ _ (so_ext _ _ _ _ _ Hso)) as Hc. rewrite Hc in P1. assert (HTS : T <> S) by set_solver.
  assert (Ht : forall j, idx j -> tab s PT di j = tab s0 PT di j) by (intros j Hj; unfold tab; rewrite !Hw; [done|apply P1|done|set_solver|done..]).
  rewrite Hw in F1 by done. split.
  - exact (ext_trans _ _ [] [] _ _ _ (so_ext _ _ _ _ _ Hso) E1).
  - done.
  - done.
  - intros Hs. rewrite <- Hh. by apply F1.
  - intros j Hj. rewrite <- Ht by done. by apply O1.
  - intros j Hj Hn. rewrite <- Ht by done. intros Hs. destruct (W1 j Hj Hn Hs) as (f & G1 & (G2 & G3 & G4 & G5) & G6). exists f.
    rewrite Hh in G3. done.
  - intros j j' Hj Hj'. rewrite <- !Ht by done. by apply I1.
  - intros q j Hq Hj Hhq Hn HnP Hcn. rewrite K1; [by apply Hw|done|done|by apply Hh|done|done|by rewrite Hw].
Qed.

Lemma region_aim s k fuel va_start size flag :
  let first := va_start / 4096 in
  let last := (va_start + size) / 4096 in
  let n := last - first + 1 in
  ready R S s -> aim s -> u32 va_start -> 0 <= size -> last + 1 < 1048576 -> first / 1024 <> 1023 ->
  first_entry s (first / 1024) -> (T = cr3 s -> first / 1024 < 1022) ->
  (forall q, first < q <= last -> q / 1024 = first / 1024 \/ PAGE_ENTRY_SET (word (pm s) T (q / 1024)) = true) ->
  0 <= flag < 4096 -> Z.odd flag = true -> n < Z.of_nat fuel -> idles (Z.to_nat (n + 1) + k) s -> frees S 3 s ->
  exists PT s', request_region_vmap fuel (IX_TO_VA 1022 t) va_start size flag s = Ok (1, s') /\
    mapped [PT] PT (first / 1024) flag (tis (Z.to_nat n) (4096 * first)) s s' /\ idles k s' /\
    forall k', frees S (Datatypes.S k') s -> frees S k' s'.
Proof.
  intros first last n Hr Ham Hv Hsz Hhi Hd Hfst Hown Hset Hfl Hodd Hfu Hk Hf.
  assert (Hfl0 : 0 <= first) by (unfold first; apply Z.div_pos; lia).
  assert (Hlast : first <= last) by (unfold first, last; apply Z.div_le_mono; lia).
  assert (Hid : idx (first / 1024)) by (split; [apply Z.div_pos; lia|apply Z.div_lt_upper_bound; lia]).
  destruct (rev_slot s Hr Ham) as (r & s1 & fl & H1 & Hri & HeR & Hso1 & HwS1 & Hfl1); [eapply frees_le; [|exact Hf]; lia|].
  pose proof (slots_only_ready _ _ _ _ _ Hr Hso1) as Hr1. pose proof (so_word _ _ _ _ _ Hso1) as Hw1. destruct (am_T _ Ham) as (HT & HhT & HnT).
  assert (HTS : T <> S) by set_solver. pose proof (e_cr3 _ _ _ _ _ (so_ext _ _ _ _ _ Hso1)) as Hc1.
  assert (Ham1 : aim s1) by (eapply aim_ext; [exact Hr|exact Ham|apply Hso1|by intros ?%elem_of_nil|apply Hw1; [done|unfold idx; lia|done]]).
  destruct (region_loop_spec s1 k (Z.to_nat n) fuel r first flag) as (PT & a & b & s2 & H2 & Ha & HeP & Hm & Hk2 & Hfr2); try done; try lia.
  { unfold first_entry. rewrite Hw1, Hc1 by done. destruct Hfst as [?|(PT & G1 & G2 & G3 & G4 & G5)]; [by left|]. right. exists PT.
    split_and!; try done. by apply (slots_only_held _ _ _ _ _ _ Hso1). }
  { intros q Hq. rewrite Hw1; [apply Hset; lia|done| |done]. split; [apply Z.div_pos; lia|apply Z.div_lt_upper_bound; lia]. }
  { eapply slots_only_idles; [exact Hso1|]. by replace (Datatypes.S (Z.to_nat n)) with (Z.to_nat (n + 1)) by lia. }
  { apply (get_slot_frees S s s1 r); [exact HwS1|exact Hf]. }
  pose proof (mapped_from _ _ _ _ s s1 s2 Hr Ham Hid Hso1 Hm) as Hm2. pose proof (ext_ready _ _ _ _ _ Hr (m_ext _ _ _ _ _ _ _ Hm2)) as Hr2.
  destruct (m_PT _ _ _ _ _ _ _ Hm2) as (P1 & P2 & P3).
  destruct (delete_or_not b s2 a PT Hr2 Ha HeP) as (s3 & H3 & Hso3 & Hb3 & HwS3). pose proof (slots_only_ready _ _ _ _ _ Hr2 Hso3) as Hr3.
  assert (HeR2 : entry (word (pm s2) S r) RT) by (apply (e_slot _ _ _ _ _ (m_ext _ _ _ _ _ _ _ Hm)); [done|done|by intros ?%elem_of_nil]).
  destruct (close_rev fl s s1 s2 s3 r a PT b) as (s4 & H4 & Hso4 & Hfr4); try done; [by destruct fl|].
  exists PT, s4. split; [|split; [|split]].
  - unfold request_region_vmap. rewrite (mask_div va_start) by done. fold first.
    assert (wrap32 (va_start + size) = va_start + size) as ->.
    { apply wrap32_small. unfold last in *. Z.to_euclidean_division_equations. lia. }
    rewrite (mask_div (va_start + size)) by (unfold last in *; Z.to_euclidean_division_equations; lia). fold last. cbv zeta.
    rewrite M_assoc. erewrite M_bind_eq by exact H1. cbv beta iota.
    replace (first * 4096) with (4096 * first) by lia. replace (last * 4096) with (4096 * (first + Z.of_nat (Z.to_nat n) - 1)) by lia.
    erewrite M_bind_eq by exact H2. erewrite (M_bind_eq _ _ s2 () s3).
    + erewrite M_bind_eq by exact H4. reflexivity.
    + destruct b; [rewrite (proj2 (Z.eqb_neq _ 0)) by (by apply temp_va_nonnull); exact H3|exact H3].
  - pose proof (mapped_slots _ _ _ _ _ s s2 s4 Hr Ham Hid Hm2 Hso4) as Hm4. eapply mapped_ext; [exact Hm4|].
    destruct fl; [apply (ext_drop _ RT); [done|apply Hm4]|]. rewrite app_nil_r in Hm4. apply Hm4.
  - eapply slots_only_idles; [exact Hso4|exact Hk2].
  - intros k'. apply (frees_but S k' s s4 a). by auto.
Qed.

Lemma region_spec s k fuel va_start size flag :
  let first := va_start / 4096 in
  let last := (va_start + size) / 4096 in
  let n := last - first + 1 in
  ready R S s -> target s -> u32 va_start -> 0 <= size -> last + 1 < 1048576 -> first / 1024 <> 1023 ->
  first_entry s (first / 1024) ->
  (forall q, first < q <= last -> q / 1024 = first / 1024 \/ PAGE_ENTRY_SET (word (pm s) T (q / 1024)) = true) ->
  0 <= flag < 4096 -> Z.odd flag = true -> n < Z.of_nat fuel -> idles (Z.to_nat (n + 1) + k) s -> frees S 3 s ->
  exists PT s', request_region_vmap fuel (IX_TO_VA 1022 t) va_start size flag s = Ok (1, s') /\
    mapped [PT] PT (first / 1024) flag (tis (Z.to_nat n) (4096 * first)) s s' /\ idles k s' /\
    forall k', frees S (Datatypes.S k') s -> frees S k' s'.
Proof.
  intros first last n Hr Htg Hv Hsz Hhi Hd Hfst Hset Hfl Hodd Hfu Hk Hf. apply region_aim; try done; [by apply target_aim|].
  intros E. destruct (tg_T _ Htg) as (_ & _ & Hn). set_solver.
Qed.

End Region.

(** ** A new directory entry *)

Lemma tis_range n p j :
  0 <= p -> p mod 1024 + Z.of_nat n <= 1024 -> idx j -> j ∈ tis n (4096 * p) <-> p mod 1024 <= j < p mod 1024 + Z.of_nat n.
Proof.
  intros Hp Hle Hj. rewrite elem_of_tis. pose proof (Z.mod_pos_bound p 1024 ltac:(lia)).
  assert (Hti : forall i, 0 <= i < Z.of_nat n -> PAGE_TABLE_INDEX (4096 * p + 4096 * i) = p mod 1024 + i).
  { intros i Hi. replace (4096 * p + 4096 * i) with (4096 * (p + i)) by lia. rewrite (proj2 (page_indices (p + i) ltac:(lia))).
    rewrite <- Z.add_mod_idemp_l by lia. apply Z.mod_small. lia. }
  split.
  - intros (i & Hi & ->). rewrite Hti by done. lia.
  - intros Hr. exists (j - p mod 1024). split; [lia|]. rewrite Hti by lia. lia.
Qed.

Lemma nthZ_map_seq (g : Z -> Z) n i : 0 <= i < n -> nthZ (map g (seqZ 0 n)) i = g i.
Proof.
  intros Hi. unfold nthZ. rewrite list_lookup_fmap, lookup_seqZ_lt by lia. simpl. f_equal. lia.
Qed.

(** C15. [request_region_vmap] fills a new directory entry of another address
    space correctly: it returns, and afterwards that directory maps exactly the
    pages from the first up to and including the page of the end address
    (within this directory entry) to distinct frames that were idle before and
    are all zero now; no word of any page that was in use changes, except the
    temporary slots and the new directory entry with its reverse entry. *)
Theorem request_region_maps s R S t T RT va_start size flag fuel :
  let first := va_start / 4096 in
  let last := (va_start + size) / 4096 in
  let n := last - first + 1 in
  space s R S -> idx t -> entry (word (pm s) S t) T -> entry (word (pm s) T 1023) RT ->
  page T -> page RT -> RT <> 0 -> NoDup [cr3 s; R; S; T; RT] ->
  bitmap_ok (frames s) -> Forall (held s) [cr3 s; R; S; T; RT] ->
  u32 va_start -> 0 <= size -> first / 1024 < 1022 -> last / 1024 = first / 1024 ->
  PAGE_ENTRY_SET (word (pm s) T (first / 1024)) = false -> 0 <= flag < 4096 -> Z.odd flag = true ->
  at_least (Z.to_nat (n + 1)) (idle s) -> at_least 3 (fun j => idx j /\ slot_free s S j) -> n < Z.of_nat fuel ->
  exists s' fs, request_region_vmap fuel (IX_TO_VA 1022 t) va_start size flag s = Ok (1, s') /\ space s' R S /\
    lenZ fs = n /\ NoDup fs /\
    (forall f, f ∈ fs -> user_page f /\ ~ held s f /\ forall j, idx j -> word (pm s') f j = 0) /\
    (forall va, u32 va -> va / 4194304 = first / 1024 ->
       walk (pm s') T va = if decide (first <= va / 4096 <= last) then Some (nthZ fs (va / 4096 - first) + va mod 4096) else None) /\
    (forall q j, page q -> idx j -> held s q -> q <> S -> (q <> T \/ j <> first / 1024) -> (q <> RT \/ j <> first / 1024) ->
       word (pm s') q j = word (pm s) q j).
Proof.
  intros first last n Hsp Ht HeT HeR HT HRT H0 Hnd Hbm Hh Hv Hsz Hd Hsame Hset Hfl Hodd Hk Hf Hfu.
  rewrite !NoDup_cons in Hnd. destruct Hnd as (N1 & N2 & N3 & N4 & _). rewrite !Forall_cons in Hh. destruct Hh as (G1 & G2 & G3 & G4 & G5 & _).
  assert (Hr : ready R S s) by (split; [done|done|repeat (apply Forall_cons_2; [done|]); by apply Forall_nil_2]).
  assert (Htg : target R S t T RT s) by (split; [done|split_and!; try done; set_solver|done|split_and!; try done; set_solver]).
  assert (Hfl0 : 0 <= first) by (unfold first; apply Z.div_pos; lia).
  assert (Hlast : first <= last) by (unfold first, last; apply Z.div_le_mono; lia).
  pose proof (Z.div_mod first 1024 ltac:(lia)) as B1. pose proof (Z.div_mod last 1024 ltac:(lia)) as B2. pose proof (Z.mod_pos_bound last 1024 ltac:(lia)) as B3.
  pose proof (Z.mod_pos_bound first 1024 ltac:(lia)) as B4. assert (Hle : first mod 1024 + n <= 1024) by lia.
  destruct (region_spec R S t T RT s 0 fuel va_start size flag) as (PT & s' & H1 & Hm & _ & _); fold first last n; try done; try lia.
  { by left. }
  { intros q Hq. left. apply Z.le_antisymm; [rewrite <- Hsame|]; apply Z.div_le_mono; lia. }
  { by rewrite Nat.add_0_r. }
  destruct Hm as [E (P1 & P2 & P3) Hdir Hfresh Hold Hnew Hinj Hkeep]. destruct (Hfresh Hset) as [_ HnP]. fold first last n in Hold, Hnew, Hinj.
  assert (Hin : forall j, idx j -> j ∈ tis (Z.to_nat n) (4096 * first) <-> first mod 1024 <= j < first mod 1024 + n)
    by (intros j Hj; rewrite tis_range by (done || lia); by rewrite Z2Nat.id by lia).
  assert (Htab : forall j, tab T s PT (first / 1024) j = 0) by (intros j; unfold tab; by rewrite Hset).
  set (g i := Z.land (word (pm s') PT (first mod 1024 + i)) PAGE_MASK).
  assert (Hg : forall i, 0 <= i < n -> exists f, g i = f /\ entry (word (pm s') PT (first mod 1024 + i)) f /\ newp s s' f).
  { intros i Hi. assert (Hj : idx (first mod 1024 + i)) by (unfold idx; lia).
    destruct (Hnew _ Hj) as (f & Ef & Hf' & _); [apply Hin; [done|lia]|by rewrite Htab|]. exists f.
    assert (He : entry (word (pm s') PT (first mod 1024 + i)) f) by (rewrite Ef; apply entry_flags; [apply Hf'|done|done]). split; [apply He|done]. }
  exists s', (map g (seqZ 0 n)). split; [exact H1|]. split; [apply E|]. split; [unfold lenZ; rewrite length_map, length_seqZ; lia|]. split; [|split; [|split]].
  - apply NoDup_ListNoDup, List.NoDup_map_NoDup_ForallPairs; [|apply NoDup_ListNoDup, NoDup_seqZ].
    intros i i' Hi Hi' Eg. apply list_elem_of_In, elem_of_seqZ in Hi, Hi'. destruct (decide (i = i')) as [|Hne]; [done|]. exfalso.
    apply (Hinj (first mod 1024 + i) (first mod 1024 + i')); rewrite ?Htab; try done; try (unfold idx; lia); apply Hin; unfold idx; lia.
  - intros f (i & -> & Hi%elem_of_seqZ)%list_elem_of_fmap. destruct (Hg i ltac:(lia)) as (f & -> & _ & F1 & F2 & _ & F4). done.
  - intros va Hva Hdi. pose proof (table_idx va) as Hti. assert (Hq : va / 4096 = 1024 * (first / 1024) + PAGE_TABLE_INDEX va).
    { rewrite table_index_mod, <- Hdi. change 4194304 with (4096 * 1024). rewrite <- Z.div_div by lia. apply Z.div_mod. lia. }
    assert (HD : entry (word (pm s') T (PAGE_DIR_INDEX va)) PT) by (by rewrite dir_index_div, Hdi).
    destruct (decide (first <= va / 4096 <= last)) as [Hr'|Hr'].
    + rewrite nthZ_map_seq by lia. destruct (Hg (va / 4096 - first) ltac:(lia)) as (f & -> & He & _).
      replace (first mod 1024 + (va / 4096 - first)) with (PAGE_TABLE_INDEX va) in He by lia.
      rewrite (walk_entries _ _ PT f) by done. by rewrite offset_mod.
    + apply (walk_absent _ _ PT); [done|done|]. rewrite Hold, Htab; [done|done|]. left. rewrite Hin by done. lia.
  - intros q j Hq Hj Hhq HqS HqT HqR. apply Hkeep; try done; [by intros ->|]. right.
    destruct (decide (j = first / 1024)); [left; naive_solver|by right].
Qed.

(** A directory at 8 MiB, shown in slot 0 of the early address space, with its
    reverse table in the next page. *)
Definition example_dir (m : mem) : mem :=
  store32 (store32 m (pt_base 1022 + 4 * 0) (Z.lor 0x800000 PAGE_FLG_KERNEL)) (0x800000 + 4 * 1023) (Z.lor 0x801000 PAGE_FLG_KERNEL).

Lemma example_word m q j : page q -> idx j ->
  word (example_dir m) q j =
    if decide (0x800000 = q /\ 1023 = j) then 0x801000 + 11
    else if decide (pt_base 1022 = q /\ 0 = j) then 0x800000 + 11 else word m q j.
Proof.
  intros Hq Hj. unfold example_dir. rewrite !word_store; try done; try (by apply page_base); unfold page, idx; try lia; done.
Qed.

Lemma example_space m :
  early_inv early_tables early_pages m ->
  space (mkMm (example_dir m) (pt_base (-1)) true bitmap0) (pt_base 1023) (pt_base 1022).
Proof.
  intros Hi. destruct (on_early_space (mkMm m (pt_base (-1)) true bitmap0)) as [Hsp _]; [done|].
  pose proof (space_slot _ _ _ Hsp 0 (Z.lor 0x800000 PAGE_FLG_KERNEL) ltac:(unfold idx; lia)) as Hsp1.
  apply (space_store _ _ _ 0x800000 1023 (Z.lor 0x801000 PAGE_FLG_KERNEL) Hsp1); done || (unfold page, idx; split_and?; lia || done).
Qed.

Lemma request_region_maps_witness :
  exists m s' fs, request_region_vmap 5 (IX_TO_VA 1022 0) 0x1000 0x1010 PAGE_FLG_USR
      (mkMm (example_dir m) (pt_base (-1)) true bitmap0) = Ok (1, s') /\ lenZ fs = 2 /\ NoDup fs /\
    walk (pm s') 0x800000 0x2034 = Some (nthZ fs 1 + 0x34) /\ walk (pm s') 0x800000 0x3034 = None.
Proof.
  destruct (map_pg_dir0_spec boot_mm eq_refl) as (m & _ & Hi & Ho). pose proof (example_space m Hi) as Hsp.
  destruct (request_region_maps (mkMm (example_dir m) (pt_base (-1)) true bitmap0) (pt_base 1023) (pt_base 1022) 0 0x800000 0x801000
    0x1000 0x1010 PAGE_FLG_USR 5 Hsp) as (s' & fs & H1 & _ & H2 & H3 & _ & H4 & _).
  - unfold idx. lia.
  - cbn [pm]. rewrite example_word by (apply page_base || unfold idx; lia). rewrite decide_False, decide_True; [by apply entry_plus|done|by intros [? _]].
  - cbn [pm]. rewrite example_word by (unfold page, idx; split_and?; lia || done). rewrite decide_True; [by apply entry_plus|done].
  - unfold page; split_and!; lia || done.
  - unfold page; split_and!; lia || done.
  - lia.
  - cbn [cr3]. apply (bool_decide_eq_true_1 (NoDup _)). vm_compute. reflexivity.
  - apply bitmap_ok0.
  - cbn [cr3]. repeat (constructor; [left; vm_compute; reflexivity|]). constructor.
  - lia.
  - lia.
  - reflexivity.
  - reflexivity.
  - change (0x1000 / 4096 / 1024) with 0. cbn [pm]. rewrite example_word by (unfold page, idx; split_and?; lia || done).
    rewrite !decide_False by (intros [? ?]; discriminate).
    assert (word m 0x800000 0 = word (pm boot_mm) 0x800000 0) as ->; [|vm_compute; reflexivity].
    apply load32_same. intros b Hb. apply Ho; lia.
  - split; [by vm_compute|reflexivity].
  - reflexivity.
  - exists [0x1000000; 0x1001000; 0x1002000]. split; [apply (bool_decide_eq_true_1 (NoDup _)); vm_compute; reflexivity|]. split; [vm_compute; lia|].
    repeat (constructor; [split; [unfold user_page, page; split_and!; lia || done|vm_compute; reflexivity]|]). constructor.
  - exists [1; 2; 3]. split; [apply (bool_decide_eq_true_1 (NoDup _)); vm_compute; reflexivity|]. split; [simpl; lia|].
    apply Forall_forall. intros j Hj. assert (1 <= j <= 3).
    { repeat (apply elem_of_cons in Hj as [->|Hj]; [lia|]). by apply elem_of_nil in Hj. }
    split; [unfold idx; lia|]. unfold slot_free. cbn [pm].
    rewrite example_word by (apply page_base || unfold idx; lia). rewrite !decide_False by (intros [? ?]; discriminate || lia).
    change (word m (pt_base 1022) j) with (cell m 1022 j). rewrite (ei_sys _ _ _ Hi) by lia. rewrite (proj2 (Z.eqb_neq j 1023)) by lia. done.
  - reflexivity.
  - exists m, s', fs. split; [exact H1|]. split; [exact H2|]. split; [exact H3|].
    split; [rewrite (H4 0x2034); [reflexivity|lia|reflexivity]|rewrite (H4 0x3034); [reflexivity|lia|reflexivity]].
Defined.
