(* ===== verification/CString.v ===== *)
(** * The kernel's string library (lib/string.c)

    Strings are the zero-terminated byte sequences of [CMem]; a pointer is an
    address and [NULL] is 0.  The loops that run until a zero byte take the
    number of rounds as explicit fuel: the theorems show that any fuel above
    the length of the string is enough.  A [char] is kept as its byte; where
    the code compares characters by order, the signed value [schar] is used,
    as [char] is signed on this target. *)
From S2P Require Import Prelude CMem.

Module CString.

Abbreviation NULL := 0.

Definition upper_case (c : Z) : Z :=
  if (97 <=? schar c) && (schar c <=? 122) then wrap8 (c - 97 + 65) else c.

Definition is_num (c : Z) : Z := if (48 <=? schar c) && (schar c <=? 57) then 1 else 0.

Definition is_alpha (c : Z) : Z :=
  if ((65 <=? schar c) && (schar c <=? 90)) || ((97 <=? schar c) && (schar c <=? 122))
  then 1 else 0.

(** [for(i=start;i<=end;++i)] *)
Fixpoint equal_range_loop (n : nat) (m : mem) (s1 s2 i : Z) : Z :=
  match n with
  | O => 1
  | S n => if negb (load8 m (s1 + i) =? load8 m (s2 + i)) then 0
           else equal_range_loop n m s1 s2 (i + 1)
  end.
Definition str_equal_range (m : mem) (s1 s2 start end_ : Z) : Z :=
  equal_range_loop (Z.to_nat (end_ - start + 1)) m s1 s2 start.

(** [while( *s1&&*s2)] and the comparison after it; the pointers have moved
    past the differing characters when the loop returns 0. *)
Fixpoint string_equal_loop (fuel : nat) (m : mem) (s1 s2 : Z) : res Z :=
  match fuel with
  | O => NoFuel
  | S fuel =>
      if negb (load8 m s1 =? 0) && negb (load8 m s2 =? 0) then
        if negb (load8 m s1 =? load8 m s2) then Ok 0
        else string_equal_loop fuel m (s1 + 1) (s2 + 1)
      else if negb (load8 m s1 =? load8 m s2) then Ok 0 else Ok 1
  end.
Definition string_equal (fuel : nat) (m : mem) (s1 s2 : Z) : res Z :=
  if (s1 =? NULL) && (s2 =? NULL) then Ok 1
  else if (s1 =? NULL) || (s2 =? NULL) then Ok 0
  else string_equal_loop fuel m s1 s2.

Fixpoint memset_loop (n : nat) (m : mem) (buf value i : Z) : mem :=
  match n with
  | O => m
  | S n => memset_loop n (store8 m (buf + i) value) buf value (i + 1)
  end.
Definition memset (m : mem) (buf value size : Z) : mem :=
  memset_loop (Z.to_nat size) m buf value 0.

(** [while( *dst++=*src++)] *)
Fixpoint strcpy_loop (fuel : nat) (m : mem) (src dst : Z) : res mem :=
  match fuel with
  | O => NoFuel
  | S fuel =>
      let c := load8 m src in
      let m := store8 m dst c in
      if c =? 0 then Ok m else strcpy_loop fuel m (src + 1) (dst + 1)
  end.
Definition strcpy (fuel : nat) (m : mem) (src dst : Z) : res mem :=
  if (src =? NULL) || (dst =? NULL) then Ok m else strcpy_loop fuel m src dst.

(** [while(n--){*dst++=*src++;}] *)
Fixpoint copy_loop (n : nat) (m : mem) (src dst : Z) : mem :=
  match n with
  | O => m
  | S n => copy_loop n (store8 m dst (load8 m src)) (src + 1) (dst + 1)
  end.
Definition memcpy (m : mem) (src dst n : Z) : mem := copy_loop (Z.to_nat n) m src dst.
Definition strncpy (m : mem) (src dst n : Z) : mem :=
  if (src =? NULL) || (dst =? NULL) then m else copy_loop (Z.to_nat n) m src dst.

Fixpoint strlen_loop (fuel : nat) (m : mem) (s cnt : Z) : res Z :=
  match fuel with
  | O => NoFuel
  | S fuel => if load8 m s =? 0 then Ok cnt else strlen_loop fuel m (s + 1) (wrap32 (cnt + 1))
  end.
Definition strlen (fuel : nat) (m : mem) (s : Z) : res Z :=
  if s =? NULL then Ok 0 else strlen_loop fuel m s 0.

Definition strcat (fuel : nat) (m : mem) (s1 s2 buf : Z) : res mem :=
  if (s1 =? NULL) || (s2 =? NULL) || (buf =? NULL) then Ok m else
  l1 ← strlen fuel m s1;
  m ← strcpy fuel m s1 buf;
  strcpy fuel m s2 (buf + l1).

(** The inner loop over [j]; true when it ends with [pat[j] == 0]. *)
Fixpoint strfd_match (fuel : nat) (m : mem) (s pat i j : Z) : res bool :=
  match fuel with
  | O => NoFuel
  | S fuel =>
      if load8 m (pat + j) =? 0 then Ok true
      else if (load8 m (s + (i + j)) =? 0) || negb (load8 m (s + (i + j)) =? load8 m (pat + j))
      then Ok false
      else strfd_match fuel m s pat i (j + 1)
  end.
Fixpoint strfd_loop (fuel : nat) (m : mem) (s pat i : Z) : res Z :=
  match fuel with
  | O => NoFuel
  | S fuel' =>
      if load8 m (s + i) =? 0 then Ok NULL
      else b ← strfd_match fuel m s pat i 0;
           if (b : bool) then Ok (s + i) else strfd_loop fuel' m s pat (i + 1)
  end.
Definition strfd (fuel : nat) (m : mem) (s pat : Z) : res Z :=
  if load8 m pat =? 0 then Ok NULL else strfd_loop fuel m s pat 0.

(** The two loops of [str_pad]: find the end, then write [value]s. *)
Fixpoint pad_end (fuel : nat) (m : mem) (s cnt : Z) : res (Z * Z) :=
  match fuel with
  | O => NoFuel
  | S fuel => if load8 m s =? 0 then Ok (s, cnt) else pad_end fuel m (s + 1) (cnt + 1)
  end.
Fixpoint pad_fill (n : nat) (m : mem) (s value : Z) : mem * Z :=
  match n with
  | O => (m, s)
  | S n => pad_fill n (store8 m s value) (s + 1) value
  end.
Definition str_pad (fuel : nat) (m : mem) (s value size : Z) : res (mem * Z) :=
  '(s, cnt) ← pad_end fuel m s 0;
  let '(m, s) := pad_fill (Z.to_nat (size - cnt)) m s value in
  Ok (store8 m s 0, 0).

Fixpoint no_leading_loop (fuel : nat) (m : mem) (s pat l : Z) : res Z :=
  match fuel with
  | O => NoFuel
  | S fuel' =>
      if load8 m s =? 0 then Ok s
      else q ← strfd fuel m s pat;
           if s =? q then no_leading_loop fuel' m (s + l) pat l else Ok s
  end.
Definition no_leading (fuel : nat) (m : mem) (s pat : Z) : res Z :=
  l ← strlen fuel m pat;
  no_leading_loop fuel m s pat l.

Fixpoint no_trailing_loop (fuel : nat) (m : mem) (s p pat l : Z) : res Z :=
  match fuel with
  | O => NoFuel
  | S fuel' =>
      if s <=? p then
        q ← strfd fuel m p pat;
        if p =? q then no_trailing_loop fuel' m s (p - l) pat l else Ok p
      else Ok p
  end.
Definition no_trailing (fuel : nat) (m : mem) (s pat : Z) : res Z :=
  l ← strlen fuel m pat;
  ls ← strlen fuel m s;
  no_trailing_loop fuel m s (s + ls - l) pat l.

(** [while(s!=next){*buffer++=*s++;}] *)
Fixpoint tok_copy (fuel : nat) (m : mem) (s next buffer : Z) : res (mem * Z) :=
  match fuel with
  | O => NoFuel
  | S fuel =>
      if s =? next then Ok (m, buffer)
      else tok_copy fuel (store8 m buffer (load8 m s)) (s + 1) next (buffer + 1)
  end.
Definition strtok (fuel : nat) (m : mem) (s del buffer : Z) : res (mem * Z) :=
  s ← no_leading fuel m s del;
  next ← strfd fuel m s del;
  if next =? NULL then
    m ← strcpy fuel m s buffer;
    Ok (m, NULL)
  else
    '(m, buffer) ← tok_copy fuel m s next buffer;
    let m := store8 m buffer 0 in
    l ← strlen fuel m del;
    next ← no_leading fuel m (next + l) del;
    if load8 m next =? 0 then Ok (m, NULL) else Ok (m, next).

(** [itoa]: [do { .. } while(a)], then the reversal in place.  An [int] has at
    most ten digits, so eleven rounds are enough for both loops. *)
Fixpoint itoa_digits (fuel : nat) (m : mem) (a buf i : Z) : res (mem * Z) :=
  match fuel with
  | O => NoFuel
  | S fuel =>
      let c := wrap8 (Z.rem a 10 + 48) in
      let m := store8 m (buf + i) c in
      let a := Z.quot a 10 in
      if a =? 0 then Ok (m, i + 1) else itoa_digits fuel m a buf (i + 1)
  end.
Fixpoint reverse_loop (fuel : nat) (m : mem) (buf i j : Z) : res mem :=
  match fuel with
  | O => NoFuel
  | S fuel =>
      if j <? i then
        let c := load8 m (buf + j) in
        let m := store8 m (buf + j) (load8 m (buf + i)) in
        let m := store8 m (buf + i) c in
        reverse_loop fuel m buf (i - 1) (j + 1)
      else Ok m
  end.
Definition itoa (m : mem) (a buf buf_size : Z) : res (mem * Z) :=
  let m := memset m buf 0 buf_size in
  '(m, i) ← itoa_digits 11 m a buf 0;
  m ← reverse_loop 11 m buf (i - 1) 0;
  Ok (m, 0).

Fixpoint atoi_loop (fuel : nat) (m : mem) (s base sum : Z) : res Z :=
  match fuel with
  | O => NoFuel
  | S fuel =>
      if load8 m s =? 0 then Ok sum
      else
        let c := schar (load8 m s) in
        let sum := wrap32 (sum * base) in
        let sum := if (c <=? 57) && (48 <=? c) then wrap32 (sum + (c - 48))
                   else wrap32 (sum + (c - 65 + 10)) in
        atoi_loop fuel m (s + 1) base sum
  end.
Definition atoi (fuel : nat) (m : mem) (s base : Z) : res Z := atoi_loop fuel m s base 0.

(** ** Specification *)

(** The zero-terminated string [l] is stored at [p]. *)
Definition cstr (m : mem) (p : Z) (l : list Z) : Prop :=
  bytes_at m p (l ++ [0]) /\ Forall (fun c => 0 < c < 256) l /\ 0 < p /\ p + lenZ l < 4294967296.

(** [pat] is a prefix of [l]. *)
Fixpoint prefixb (pat l : list Z) : bool :=
  match pat, l with
  | [], _ => true
  | c :: pat, d :: l => (c =? d) && prefixb pat l
  | _ :: _, [] => false
  end.

(** Position of the first occurrence of [pat] in [l]. *)
Fixpoint find_sub (pat l : list Z) : option Z :=
  match l with
  | [] => None
  | _ :: l' => if prefixb pat l then Some 0
               else match find_sub pat l' with Some i => Some (i + 1) | None => None end
  end.

(** Strings without leading [d]; the maximal prefix without [d]; the words of
    a string separated by runs of [d]. *)
Fixpoint drop_char (d : Z) (l : list Z) : list Z :=
  match l with c :: l' => if c =? d then drop_char d l' else l | [] => [] end.
Fixpoint take_to (d : Z) (l : list Z) : list Z :=
  match l with c :: l' => if c =? d then [] else c :: take_to d l' | [] => [] end.
Fixpoint drop_to (d : Z) (l : list Z) : list Z :=
  match l with c :: l' => if c =? d then l else drop_to d l' | [] => [] end.
Fixpoint words (fuel : nat) (d : Z) (l : list Z) : list (list Z) :=
  match fuel with
  | O => []
  | S fuel =>
      let l := drop_char d l in
      match drop_char d (drop_to d l) with
      | [] => [take_to d l]
      | rest => take_to d l :: words fuel d rest
      end
  end.

(** The client loop [while(start){start=strtok(start,del,buffer); ..}]: the
    strings found in the buffer, one per round. *)
Fixpoint read_cstr (fuel : nat) (m : mem) (p : Z) : list Z :=
  match fuel with
  | O => []
  | S fuel => if load8 m p =? 0 then [] else load8 m p :: read_cstr fuel m (p + 1)
  end.
Fixpoint tokens (rounds fuel : nat) (m : mem) (start del buffer : Z) : res (list (list Z)) :=
  match rounds with
  | O => NoFuel
  | S rounds =>
      if start =? NULL then Ok []
      else '(m, start) ← strtok fuel m start del buffer;
           rest ← tokens rounds fuel m start del buffer;
           Ok (read_cstr fuel m buffer :: rest)
  end.

(** Value of a digit string, most significant digit first. *)
Definition digit_value (c : Z) : Z := if (48 <=? c) && (c <=? 57) then c - 48 else c - 55.
Definition value_of (base : Z) (l : list Z) : Z :=
  foldl (fun s c => s * base + digit_value c) 0 l.

(** Decimal digits of a natural number, least significant first. *)
Fixpoint digits_rev (fuel : nat) (a : Z) : list Z :=
  match fuel with
  | O => []
  | S fuel => (a mod 10 + 48) :: (if a / 10 =? 0 then [] else digits_rev fuel (a / 10))
  end.

End CString.
Import CString.

(** ** Strings in memory *)

Lemma cstr_nil m p : cstr m p [] -> load8 m p = 0.
Proof. intros [[H _] _]. exact H. Qed.

Lemma cstr_cons m p c l :
  cstr m p (c :: l) -> load8 m p = c /\ 0 < c < 256 /\ cstr m (p + 1) l.
Proof.
  intros ([Hc Hb] & Hl & Hp & Hf). rewrite lenZ_cons in Hf. apply Forall_cons in Hl as [Hc0 Hl].
  split_and!; [done|lia|lia|]. split_and!; [done|done|lia|lia].
Qed.

Lemma cstr_byte m p l : cstr m p l -> load8 m p = match l with [] => 0 | c :: _ => c end.
Proof. destruct l; intros H; [by apply cstr_nil|by apply cstr_cons in H as [? _]]. Qed.

Lemma cstr_drop m p l1 l2 : cstr m p (l1 ++ l2) -> cstr m (p + lenZ l1) l2.
Proof.
  revert p. induction l1 as [|c l1 IH]; intros p H; simpl in *.
  - by rewrite lenZ_nil, Z.add_0_r.
  - apply cstr_cons in H as (_ & _ & H). rewrite lenZ_cons.
    replace (p + (lenZ l1 + 1)) with (p + 1 + lenZ l1) by lia. by apply IH.
Qed.

Lemma cstr_same m m' p l : same_on p (p + lenZ l + 1) m m' -> cstr m p l -> cstr m' p l.
Proof.
  intros Hs (Hb & Hl & Hp). split; [|done]. eapply bytes_at_same; [|exact Hb].
  autorewrite with len. by replace (p + (lenZ l + (0 + 1))) with (p + lenZ l + 1) by lia.
Qed.

Lemma cstr_write m p l :
  Forall (fun c => 0 < c < 256) l -> 0 < p -> p + lenZ l < 4294967296 ->
  cstr (write_bytes m p (l ++ [0])) p l.
Proof.
  intros Hl Hp Hf. split_and!; [|done|done|done]. apply bytes_at_write_bytes.
  - unfold fits. autorewrite with len. lia.
  - apply Forall_app. split; [|by constructor]. eapply Forall_impl; [exact Hl|]. simpl. lia.
Qed.

(** The buffer [d, d+n) does not meet the string [l] at [p]. *)
Definition apart (p : Z) (l : list Z) (d n : Z) : Prop := d + n <= p \/ p + lenZ l + 1 <= d.

Lemma cstr_write_apart m p l d bs :
  cstr m p l -> fits d (lenZ bs) -> apart p l d (lenZ bs) -> cstr (write_bytes m d bs) p l.
Proof.
  intros Hc Hf Ha. eapply cstr_same; [|exact Hc]. destruct Hc as (_ & _ & ? & ?).
  apply same_on_write_bytes; [done|unfold fits; pose proof (lenZ_nonneg l); lia|].
  unfold apart in Ha. lia.
Qed.

Ltac fuel_cases fuel :=
  destruct fuel as [|fuel]; [exfalso; unfold lenZ in *; simpl in *; lia|].

(** ** strlen, strcpy, strcat *)

Lemma strlen_loop_spec fuel m p l cnt :
  cstr m p l -> lenZ l < Z.of_nat fuel -> 0 <= cnt -> cnt + lenZ l < 4294967296 ->
  strlen_loop fuel m p cnt = Ok (cnt + lenZ l).
Proof.
  revert fuel p cnt. induction l as [|c l IH]; intros fuel p cnt Hc Hf H0 Hb; fuel_cases fuel; simpl.
  - rewrite (cstr_nil _ _ Hc). simpl. by rewrite lenZ_nil, Z.add_0_r.
  - apply cstr_cons in Hc as (-> & Hc0 & Hc). rewrite lenZ_cons in *. pose proof (lenZ_nonneg l).
    rewrite (proj2 (Z.eqb_neq c 0)) by lia. rewrite wrap32_small by lia.
    rewrite IH by (done || lia). f_equal. lia.
Qed.

Lemma strlen_spec fuel m p l :
  cstr m p l -> lenZ l < Z.of_nat fuel -> strlen fuel m p = Ok (lenZ l).
Proof.
  intros Hc Hf. pose proof Hc as (_ & _ & Hp & Hb). unfold strlen.
  rewrite (proj2 (Z.eqb_neq p 0)) by lia. rewrite strlen_loop_spec with (l := l) by (done || lia). done.
Qed.

Lemma strcpy_loop_spec fuel m p l d :
  cstr m p l -> lenZ l < Z.of_nat fuel -> fits d (lenZ l + 1) -> apart p l d (lenZ l + 1) ->
  strcpy_loop fuel m p d = Ok (write_bytes m d (l ++ [0])).
Proof.
  unfold fits, apart. revert fuel m p d.
  induction l as [|c l IH]; intros fuel m p d Hc Hf Hd Ha; fuel_cases fuel; simpl.
  - rewrite (cstr_nil _ _ Hc). done.
  - pose proof Hc as (_ & _ & Hp & Hpl). apply cstr_cons in Hc as (-> & Hc0 & Hc).
    rewrite lenZ_cons in *. pose proof (lenZ_nonneg l).
    rewrite (proj2 (Z.eqb_neq c 0)) by lia. apply IH; [|lia..].
    eapply cstr_same; [|exact Hc]. apply same_on_store8; unfold fits; lia.
Qed.

Lemma strcpy_spec fuel m p l d :
  cstr m p l -> lenZ l < Z.of_nat fuel -> 0 < d -> fits d (lenZ l + 1) -> apart p l d (lenZ l + 1) ->
  strcpy fuel m p d = Ok (write_bytes m d (l ++ [0])).
Proof.
  intros Hc Hf Hd Hd' Ha. pose proof Hc as (_ & _ & Hp & _). unfold strcpy.
  rewrite (proj2 (Z.eqb_neq p 0)), (proj2 (Z.eqb_neq d 0)) by lia. by apply strcpy_loop_spec.
Qed.

(** [strcat] writes the concatenation of its two strings, zero-terminated,
    into a buffer that overlaps neither of them, and nothing outside the
    buffer. *)
Theorem strcat_concatenates fuel m s1 s2 buf l1 l2 :
  cstr m s1 l1 -> cstr m s2 l2 ->
  lenZ l1 < Z.of_nat fuel -> lenZ l2 < Z.of_nat fuel ->
  0 < buf -> fits buf (lenZ l1 + lenZ l2 + 1) ->
  apart s1 l1 buf (lenZ l1 + lenZ l2 + 1) -> apart s2 l2 buf (lenZ l1 + lenZ l2 + 1) ->
  exists m', strcat fuel m s1 s2 buf = Ok m' /\ cstr m' buf (l1 ++ l2) /\
    forall a, u32 a -> (a < buf \/ buf + lenZ l1 + lenZ l2 + 1 <= a) -> load8 m' a = load8 m a.
Proof.
  intros H1 H2 Hf1 Hf2 Hb Hfit Ha1 Ha2. unfold fits, apart in *.
  pose proof (lenZ_nonneg l1). pose proof (lenZ_nonneg l2).
  pose proof H1 as (_ & Hl1 & ? & _). pose proof H2 as (_ & Hl2 & ? & _).
  unfold strcat. rewrite !(proj2 (Z.eqb_neq _ 0)) by lia. simpl.
  rewrite (strlen_spec _ _ _ l1) by done. simpl.
  rewrite (strcpy_spec _ _ _ l1) by (done || unfold fits, apart; lia). simpl.
  rewrite (strcpy_spec _ _ _ l2); [|apply cstr_write_apart|unfold fits, apart; autorewrite with len; lia..].
  2:{ done. } 2-3: unfold fits, apart; autorewrite with len; lia.
  eexists. split; [done|]. rewrite (write_bytes_app m buf l1). split.
  - split_and!; [|by apply Forall_app|lia|autorewrite with len; lia].
    rewrite <- app_assoc. apply bytes_at_app. split.
    + eapply bytes_at_same; [|apply (bytes_at_write_bytes m buf l1)].
      * intros a Ha. rewrite write_bytes_out; [|unfold fits; autorewrite with len; lia..].
        simpl. apply load8_store8_ne; lia.
      * unfold fits. lia.
      * eapply Forall_impl; [exact Hl1|]. simpl. lia.
    + apply bytes_at_write_bytes; [unfold fits; autorewrite with len; lia|].
      apply Forall_app. split; [|by constructor]. eapply Forall_impl; [exact Hl2|]. simpl. lia.
  - intros a Ha Ho. rewrite write_bytes_out; [|unfold fits; autorewrite with len; lia..].
    simpl. rewrite load8_store8_ne by lia. apply write_bytes_out; unfold fits; lia.
Qed.

Lemma strcat_concatenates_witness :
  exists m', strcat 10 (write_bytes (write_bytes ∅ 100 [47; 98; 0]) 200 [105; 110; 0]) 100 200 300 = Ok m' /\
    cstr m' 300 [47; 98; 105; 110] /\
    forall a, u32 a -> (a < 300 \/ 300 + 2 + 2 + 1 <= a) ->
      load8 m' a = load8 (write_bytes (write_bytes ∅ 100 [47; 98; 0]) 200 [105; 110; 0]) a.
Proof.
  apply (strcat_concatenates 10 _ 100 200 300 [47; 98] [105; 110]);
    try (unfold cstr; split_and!; [vm_compute; tauto|repeat constructor|reflexivity|reflexivity]);
    try reflexivity; unfold fits, apart; vm_compute; intuition congruence.
Defined.

(** ** string_equal *)

Lemma string_equal_loop_spec fuel m p1 p2 l1 l2 :
  cstr m p1 l1 -> cstr m p2 l2 -> lenZ l1 < Z.of_nat fuel ->
  string_equal_loop fuel m p1 p2 = Ok (if decide (l1 = l2) then 1 else 0).
Proof.
  revert fuel p1 p2 l2. induction l1 as [|c l1 IH]; intros fuel p1 p2 l2 H1 H2 Hf; fuel_cases fuel;
    cbn [string_equal_loop].
  - rewrite (cstr_nil _ _ H1), Z.eqb_refl. cbn [negb andb]. rewrite (cstr_byte _ _ _ H2).
    destruct l2 as [|c2 l2]; [done|]. apply cstr_cons in H2 as (_ & ? & _).
    by rewrite (proj2 (Z.eqb_neq 0 c2)) by lia.
  - apply cstr_cons in H1 as (-> & Hc & H1). rewrite lenZ_cons in Hf.
    rewrite (proj2 (Z.eqb_neq c 0)) by lia. simpl.
    destruct l2 as [|c2 l2].
    + rewrite (cstr_nil _ _ H2), Z.eqb_refl. cbn [negb]. by rewrite (proj2 (Z.eqb_neq c 0)) by lia.
    + apply cstr_cons in H2 as (-> & Hc2 & H2). rewrite (proj2 (Z.eqb_neq c2 0)) by lia. simpl.
      destruct (Z.eqb_spec c c2) as [->|]; simpl.
      * rewrite (IH fuel _ _ l2) by (done || lia). f_equal.
        destruct (decide (l1 = l2)), (decide (c2 :: l1 = c2 :: l2)); congruence.
      * rewrite decide_False by congruence. done.
Qed.

Lemma string_equal_spec fuel m p1 p2 l1 l2 :
  cstr m p1 l1 -> cstr m p2 l2 -> lenZ l1 < Z.of_nat fuel ->
  string_equal fuel m p1 p2 = Ok (if decide (l1 = l2) then 1 else 0).
Proof.
  intros H1 H2 Hf. pose proof H1 as (_ & _ & ? & _). pose proof H2 as (_ & _ & ? & _).
  unfold string_equal. rewrite !(proj2 (Z.eqb_neq _ 0)) by lia. simpl.
  by apply string_equal_loop_spec.
Qed.

(** [string_equal] decides equality of two strings: it returns 1 exactly
    when they are the same sequence of characters, and otherwise 0. *)
Theorem string_equal_decides fuel m p1 p2 l1 l2 :
  cstr m p1 l1 -> cstr m p2 l2 -> lenZ l1 < Z.of_nat fuel ->
  string_equal fuel m p1 p2 = Ok (if decide (l1 = l2) then 1 else 0).
Proof. apply string_equal_spec. Qed.

Lemma string_equal_decides_witness :
  string_equal 5 (write_bytes (write_bytes ∅ 100 [47; 98; 0]) 200 [47; 98; 99; 0]) 100 200 = Ok 0.
Proof.
  rewrite (string_equal_decides 5 _ 100 200 [47; 98] [47; 98; 99]); [reflexivity|..];
    try (unfold cstr; split_and!; [vm_compute; tauto|repeat constructor|reflexivity|reflexivity]).
  reflexivity.
Defined.

(** ** strfd *)

Lemma strfd_match_spec fuel m s pat i j l pl :
  cstr m (s + (i + j)) l -> cstr m (pat + j) pl -> lenZ pl < Z.of_nat fuel ->
  strfd_match fuel m s pat i j = Ok (prefixb pl l).
Proof.
  revert fuel j l. induction pl as [|c pl IH]; intros fuel j l Hl Hp Hf; fuel_cases fuel; simpl.
  - by rewrite (cstr_nil _ _ Hp).
  - apply cstr_cons in Hp as (-> & Hc & Hp). rewrite lenZ_cons in Hf.
    rewrite (proj2 (Z.eqb_neq c 0)) by lia. rewrite (cstr_byte _ _ _ Hl).
    destruct l as [|d l]; [done|]. apply cstr_cons in Hl as (_ & Hd & Hl).
    rewrite (proj2 (Z.eqb_neq d 0)), (Z.eqb_sym d c) by lia. simpl.
    destruct (Z.eqb_spec c d); simpl; [|done]. apply IH; [| |lia].
    + by replace (s + (i + (j + 1))) with (s + (i + j) + 1) by lia.
    + by replace (pat + (j + 1)) with (pat + j + 1) by lia.
Qed.

Lemma strfd_loop_spec fuel m s pat i l pl :
  cstr m (s + i) l -> cstr m pat pl -> lenZ l + lenZ pl < Z.of_nat fuel ->
  strfd_loop fuel m s pat i = Ok (match find_sub pl l with Some k => s + i + k | None => 0 end).
Proof.
  revert fuel i. induction l as [|c l IH]; intros fuel i Hl Hp Hf; pose proof (lenZ_nonneg pl);
    fuel_cases fuel.
  - simpl. by rewrite (cstr_nil _ _ Hl).
  - cbn [strfd_loop]. pose proof Hl as Hl'. apply cstr_cons in Hl' as (-> & Hc & Hl').
    rewrite (proj2 (Z.eqb_neq c 0)) by lia. rewrite lenZ_cons in Hf. pose proof (lenZ_nonneg l).
    rewrite (strfd_match_spec _ _ _ _ _ _ (c :: l) pl); [|by rewrite Z.add_0_r|by rewrite Z.add_0_r|lia].
    cbn [find_sub mbind res_bind]. destruct (prefixb pl (c :: l)); [f_equal; lia|].
    rewrite IH; [|by replace (s + (i + 1)) with (s + i + 1) by lia|done|lia].
    f_equal. destruct (find_sub pl l); lia.
Qed.

Lemma strfd_spec fuel m s pat l pl :
  cstr m s l -> cstr m pat pl -> pl <> [] -> lenZ l + lenZ pl < Z.of_nat fuel ->
  strfd fuel m s pat = Ok (match find_sub pl l with Some k => s + k | None => 0 end).
Proof.
  intros Hl Hp Hne Hf. unfold strfd. rewrite (cstr_byte _ _ _ Hp). destruct pl as [|c pl]; [done|].
  pose proof Hp as (_ & ? & _)%cstr_cons. rewrite (proj2 (Z.eqb_neq c 0)) by lia.
  rewrite (strfd_loop_spec _ _ _ _ _ l (c :: pl)) by (done || by rewrite Z.add_0_r).
  f_equal. destruct (find_sub _ _); lia.
Qed.

Lemma prefixb_spec pat l : prefixb pat l = true <-> exists l2, l = pat ++ l2.
Proof.
  revert l. induction pat as [|c pat IH]; intros l; simpl; [split; [by exists l|done]|].
  destruct l as [|d l]; [split; [done|by intros [? [=]]]|].
  rewrite andb_true_iff, Z.eqb_eq, IH. split.
  - intros [-> [l2 ->]]. by exists l2.
  - intros [l2 [= -> ->]]. eauto.
Qed.

Lemma find_sub_none pat l l1 l2 : pat <> [] -> find_sub pat l = None -> l <> l1 ++ pat ++ l2.
Proof.
  intros Hp. revert l1. induction l as [|c l IH]; intros l1 Hn He; simpl in Hn.
  { destruct l1, pat; done. }
  destruct (prefixb pat (c :: l)) eqn:E; [done|]. destruct (find_sub pat l) eqn:E2; [done|].
  destruct l1 as [|d l1]; simpl in *.
  - assert (prefixb pat (c :: l) = true) as E3 by (apply prefixb_spec; eauto). congruence.
  - injection He as -> He. by apply (IH l1).
Qed.

Lemma find_sub_some pat l k :
  pat <> [] -> find_sub pat l = Some k ->
  exists l1 l2, l = l1 ++ pat ++ l2 /\ k = lenZ l1 /\
    forall l1' l2', l = l1' ++ pat ++ l2' -> lenZ l1 <= lenZ l1'.
Proof.
  intros Hp. revert k. induction l as [|c l IH]; intros k Hn; simpl in Hn; [done|].
  destruct (prefixb pat (c :: l)) eqn:E.
  - injection Hn as <-. apply prefixb_spec in E as [l2 El]. exists [], l2. split_and!; [done|done|].
    intros. unfold lenZ. simpl. lia.
  - destruct (find_sub pat l) as [k'|] eqn:E2; [|done]. injection Hn as <-.
    destruct (IH k' eq_refl) as (l1 & l2 & -> & -> & Hmin).
    exists (c :: l1), l2. split_and!; [done|by rewrite lenZ_cons|].
    intros [|d l1'] l2' He; simpl in He.
    + assert (prefixb pat (c :: l1 ++ pat ++ l2) = true) as E3 by (apply prefixb_spec; eauto). congruence.
    + injection He as -> He. rewrite !lenZ_cons. specialize (Hmin l1' l2' He). lia.
Qed.

(** [strfd] finds the first occurrence of a non-empty pattern: it returns
    [NULL] when the string has no occurrence, and otherwise the address of the
    leftmost one. *)
Theorem strfd_first_occurrence fuel m s pat l pl :
  cstr m s l -> cstr m pat pl -> pl <> [] -> lenZ l + lenZ pl < Z.of_nat fuel ->
  (strfd fuel m s pat = Ok NULL /\ forall l1 l2, l <> l1 ++ pl ++ l2) \/
  (exists l1 l2, strfd fuel m s pat = Ok (s + lenZ l1) /\ l = l1 ++ pl ++ l2 /\
     forall l1' l2', l = l1' ++ pl ++ l2' -> lenZ l1 <= lenZ l1').
Proof.
  intros Hl Hp Hne Hf. rewrite (strfd_spec _ _ _ _ l pl) by done.
  destruct (find_sub pl l) as [k|] eqn:E.
  - right. destruct (find_sub_some _ _ _ Hne E) as (l1 & l2 & ? & -> & ?). eauto.
  - left. split; [done|]. intros. by apply find_sub_none.
Qed.

Lemma strfd_first_occurrence_witness :
  exists l1 l2, strfd 20 (write_bytes (write_bytes ∅ 100 [97; 98; 97; 98; 99; 0]) 200 [97; 98; 99; 0]) 100 200
      = Ok (100 + lenZ l1) /\ [97; 98; 97; 98; 99] = l1 ++ [97; 98; 99] ++ l2.
Proof.
  destruct (strfd_first_occurrence 20 (write_bytes (write_bytes ∅ 100 [97; 98; 97; 98; 99; 0]) 200 [97; 98; 99; 0])
     100 200 [97; 98; 97; 98; 99] [97; 98; 99]) as [[H _]|(l1 & l2 & H1 & H2 & _)];
    try (unfold cstr; split_and!; [vm_compute; tauto|repeat constructor|reflexivity|reflexivity]);
    [discriminate|reflexivity|vm_compute in H; discriminate H|].
  exists l1, l2. split; assumption.
Defined.

(** ** strtok with a one-character delimiter *)

Lemma find_sub_char d l :
  find_sub [d] l = match drop_to d l with [] => None | _ => Some (lenZ (take_to d l)) end.
Proof.
  induction l as [|c l IH]; simpl; [done|]. rewrite andb_true_r, Z.eqb_sym.
  destruct (Z.eqb_spec c d); [done|]. rewrite IH. destruct (drop_to d l); [done|]. by rewrite lenZ_cons.
Qed.

Lemma take_drop_to d l : take_to d l ++ drop_to d l = l.
Proof. induction l as [|c l IH]; simpl; [done|]. case_match; simpl; [done|]. by rewrite IH. Qed.

Lemma drop_to_cons d l c r : drop_to d l = c :: r -> c = d.
Proof.
  induction l as [|x l IH]; simpl; [done|]. destruct (Z.eqb_spec x d); [by intros [= -> _]|done].
Qed.

Lemma drop_char_suffix d l : exists k, l = k ++ drop_char d l /\ Forall (eq d) k.
Proof.
  induction l as [|c l (k & Hk & Hf)]; simpl; [by exists []|].
  destruct (Z.eqb_spec c d) as [->|]; [|by exists []].
  exists (d :: k). split; [simpl; congruence|by constructor].
Qed.

Lemma drop_char_cons d l c r : drop_char d l = c :: r -> c <> d.
Proof.
  induction l as [|x l IH]; simpl; [done|]. destruct (Z.eqb_spec x d); [done|]. by intros [= <- _].
Qed.

Lemma lenZ_drop_char d l : lenZ (drop_char d l) <= lenZ l.
Proof.
  destruct (drop_char_suffix d l) as (k & Hk & _). rewrite Hk at 2. rewrite lenZ_app.
  pose proof (lenZ_nonneg k). lia.
Qed.

(** The tail of a string after dropping leading delimiters. *)
Lemma cstr_drop_char m s d l :
  cstr m s l -> cstr m (s + lenZ l - lenZ (drop_char d l)) (drop_char d l).
Proof.
  intros H. destruct (drop_char_suffix d l) as (k & Hk & _).
  replace (s + lenZ l - lenZ (drop_char d l)) with (s + lenZ k).
  - apply cstr_drop. by rewrite <- Hk.
  - rewrite Hk at 1. rewrite lenZ_app. lia.
Qed.

Lemma no_leading_loop_spec fuel m s pat d l :
  cstr m s l -> cstr m pat [d] -> lenZ l + 1 < Z.of_nat fuel ->
  no_leading_loop fuel m s pat 1 = Ok (s + lenZ l - lenZ (drop_char d l)).
Proof.
  revert fuel s. induction l as [|c l IH]; intros fuel s Hl Hp Hf; fuel_cases fuel.
  - simpl. rewrite (cstr_nil _ _ Hl). simpl. f_equal. lia.
  - cbn [no_leading_loop]. pose proof Hl as Hl'. apply cstr_cons in Hl' as (-> & Hc & Hl').
    pose proof Hl as (_ & _ & ? & _). rewrite lenZ_cons in *. pose proof (lenZ_nonneg l).
    rewrite (proj2 (Z.eqb_neq c 0)) by lia.
    rewrite (strfd_spec _ _ _ _ (c :: l) [d]); [|done|done|done|rewrite !lenZ_cons, lenZ_nil; lia].
    cbn [mbind res_bind find_sub prefixb drop_char]. rewrite andb_true_r, (Z.eqb_sym d c).
    destruct (Z.eqb_spec c d) as [->|].
    + rewrite (proj2 (Z.eqb_eq _ _)) by lia. rewrite IH by (done || lia). f_equal. lia.
    + rewrite (proj2 (Z.eqb_neq s _)); [f_equal; rewrite lenZ_cons; lia|].
      rewrite find_sub_char. destruct (drop_to d l); [lia|]. pose proof (lenZ_nonneg (take_to d l)). lia.
Qed.

Lemma no_leading_spec fuel m s pat d l :
  cstr m s l -> cstr m pat [d] -> lenZ l + 1 < Z.of_nat fuel ->
  no_leading fuel m s pat = Ok (s + lenZ l - lenZ (drop_char d l)).
Proof.
  intros Hl Hp Hf. unfold no_leading. pose proof (lenZ_nonneg l).
  rewrite (strlen_spec _ _ _ [d]) by (done || rewrite lenZ_cons, lenZ_nil; lia).
  by apply no_leading_loop_spec.
Qed.

Lemma tok_copy_spec fuel m s t r buffer :
  cstr m s (t ++ r) -> lenZ t < Z.of_nat fuel -> fits buffer (lenZ t) ->
  apart s (t ++ r) buffer (lenZ t) ->
  tok_copy fuel m s (s + lenZ t) buffer = Ok (write_bytes m buffer t, buffer + lenZ t).
Proof.
  unfold fits, apart. revert fuel m s buffer.
  induction t as [|c t IH]; intros fuel m s buffer Hs Hf Hb Ha; fuel_cases fuel; simpl.
  - rewrite lenZ_nil, !Z.add_0_r, Z.eqb_refl. done.
  - pose proof Hs as (_ & _ & ? & Hfit). simpl in Hs, Ha, Hfit. apply cstr_cons in Hs as (-> & Hc & Hs).
    rewrite !lenZ_cons in *. pose proof (lenZ_nonneg t). pose proof (lenZ_nonneg (t ++ r)).
    rewrite (proj2 (Z.eqb_neq _ _)) by lia.
    replace (s + (lenZ t + 1)) with (s + 1 + lenZ t) by lia.
    rewrite IH; [do 2 f_equal; lia| |lia..].
    eapply cstr_same; [|exact Hs]. apply same_on_store8; unfold fits; lia.
Qed.

(** The word [strtok] cuts off and what is left of the string. *)
Definition first_word (d : Z) (l : list Z) : list Z := take_to d (drop_char d l).
Definition after_word (d : Z) (l : list Z) : list Z := drop_char d (drop_to d (drop_char d l)).

Lemma strtok_spec fuel m s del buffer d l :
  cstr m s l -> cstr m del [d] -> lenZ l + 2 < Z.of_nat fuel -> 0 < buffer ->
  fits buffer (lenZ l + 1) -> apart s l buffer (lenZ l + 1) -> apart del [d] buffer (lenZ l + 1) ->
  strtok fuel m s del buffer =
    Ok (write_bytes m buffer (first_word d l ++ [0]),
        match after_word d l with [] => NULL | r => s + lenZ l - lenZ r end).
Proof.
  intros Hl Hd Hf Hb Hfit Ha Had. unfold strtok, first_word, after_word.
  rewrite (no_leading_spec _ _ _ _ d l) by (done || lia). simpl.
  pose proof (cstr_drop_char _ _ d _ Hl) as Hl1. pose proof (lenZ_drop_char d l) as Hlen.
  destruct (drop_char_suffix d l) as (k & Hk & _).
  assert (Hs1 : s + lenZ l - lenZ (drop_char d l) = s + lenZ k) by (rewrite Hk at 1; rewrite lenZ_app; lia).
  assert (Hln : lenZ l = lenZ k + lenZ (drop_char d l)) by (rewrite Hk at 1; apply lenZ_app).
  clear Hk. set (l1 := drop_char d l) in *. rewrite Hs1 in *. pose proof (lenZ_nonneg k).
  unfold fits, apart in *. rewrite lenZ_cons, lenZ_nil in Had.
  rewrite (strfd_spec _ _ _ _ l1 [d]); [|done|done|done|rewrite lenZ_cons, lenZ_nil; lia]. simpl.
  rewrite find_sub_char. pose proof (take_drop_to d l1) as Htd.
  pose proof (lenZ_nonneg (take_to d l1)). pose proof Hl as (_ & _ & ? & ?).
  destruct (drop_to d l1) as [|c r] eqn:Er.
  - rewrite app_nil_r in Htd. rewrite Htd. simpl.
    rewrite (strcpy_spec _ _ _ l1); [done|done|lia|done|unfold fits|unfold apart]; lia.
  - pose proof (drop_to_cons _ _ _ _ Er) as ->. set (t := take_to d l1) in *.
    rewrite (proj2 (Z.eqb_neq _ _)) by lia. rewrite <- Htd in Hl1.
    assert (Hl1n : lenZ l1 = lenZ t + lenZ r + 1) by (rewrite <- Htd, lenZ_app, lenZ_cons; lia).
    pose proof (lenZ_nonneg r).
    rewrite (tok_copy_spec _ _ _ t (d :: r)); [|done|lia|unfold fits; lia|].
    2:{ unfold apart. rewrite lenZ_app, lenZ_cons. lia. }
    simpl. rewrite Z.eqb_refl.
    change (store8 (write_bytes m buffer t) (buffer + lenZ t) 0)
      with (write_bytes (write_bytes m buffer t) (buffer + lenZ t) [0]).
    rewrite <- write_bytes_app. set (m' := write_bytes m buffer (t ++ [0])).
    assert (Hd' : cstr m' del [d]).
    { apply cstr_write_apart; [done|unfold fits|unfold apart]; autorewrite with len; lia. }
    rewrite (strlen_spec _ _ _ [d]) by (done || rewrite lenZ_cons, lenZ_nil; lia). simpl.
    assert (Hr : cstr m' (s + lenZ k + lenZ t + 1) r).
    { apply cstr_write_apart; [|unfold fits|unfold apart]; [|autorewrite with len; lia..].
      apply cstr_drop in Hl1. by apply cstr_cons in Hl1 as (_ & _ & Hl1). }
    change (lenZ [d]) with 1. rewrite (no_leading_spec _ _ _ _ d r) by (done || lia). simpl.
    rewrite (cstr_byte _ _ _ (cstr_drop_char _ _ d _ Hr)).
    destruct (drop_char d r) as [|c' r'] eqn:Ed; [done|].
    pose proof (cstr_drop_char _ _ d _ Hr) as Hr'. rewrite Ed in Hr'.
    apply cstr_cons in Hr' as (_ & ? & _). rewrite (proj2 (Z.eqb_neq _ _)) by lia.
    do 2 f_equal. lia.
Qed.

Lemma read_cstr_spec fuel m p l : cstr m p l -> lenZ l < Z.of_nat fuel -> read_cstr fuel m p = l.
Proof.
  revert fuel p. induction l as [|c l IH]; intros fuel p H Hf; fuel_cases fuel; simpl.
  - by rewrite (cstr_nil _ _ H).
  - apply cstr_cons in H as (-> & ? & H). rewrite lenZ_cons in Hf.
    rewrite (proj2 (Z.eqb_neq c 0)) by lia. f_equal. apply IH; [done|lia].
Qed.

Lemma lenZ_first_word d l : lenZ (first_word d l) <= lenZ l.
Proof.
  unfold first_word. pose proof (lenZ_drop_char d l). rewrite <- (take_drop_to d (drop_char d l)), lenZ_app in H.
  pose proof (lenZ_nonneg (drop_to d (drop_char d l))). lia.
Qed.

Lemma after_word_suffix d l : exists k, l = k ++ after_word d l.
Proof.
  unfold after_word. destruct (drop_char_suffix d l) as (k1 & H1 & _).
  destruct (drop_char_suffix d (drop_to d (drop_char d l))) as (k2 & H2 & _).
  exists (k1 ++ take_to d (drop_char d l) ++ k2). rewrite <- !app_assoc, <- H2, take_drop_to. done.
Qed.

Lemma after_word_shorter d l c r : after_word d l = c :: r -> lenZ (after_word d l) < lenZ l.
Proof.
  intros H. unfold after_word in *. pose proof (lenZ_drop_char d l).
  pose proof (take_drop_to d (drop_char d l)) as Htd. apply (f_equal lenZ) in Htd. rewrite lenZ_app in Htd.
  pose proof (lenZ_drop_char d (drop_to d (drop_char d l))).
  destruct (drop_char d l) as [|c1 l1] eqn:E; [by simpl in H|].
  pose proof (drop_char_cons _ _ _ _ E) as Hne.
  assert (0 < lenZ (take_to d (c1 :: l1))).
  { simpl. rewrite (proj2 (Z.eqb_neq _ _)) by done. rewrite lenZ_cons. pose proof (lenZ_nonneg (take_to d l1)). lia. }
  lia.
Qed.

Lemma take_to_not_in d l : d ∉ take_to d l.
Proof.
  induction l as [|c l IH]; simpl; [set_solver|]. destruct (Z.eqb_spec c d); set_solver.
Qed.

Lemma filter_drop_char d l : filter (fun c => c <> d) (drop_char d l) = filter (fun c => c <> d) l.
Proof.
  induction l as [|c l IH]; [done|]. simpl. destruct (Z.eqb_spec c d) as [->|]; [|done].
  rewrite IH. by rewrite filter_cons_False by tauto.
Qed.

Lemma filter_take_to d l : filter (fun c => c <> d) (take_to d l) = take_to d l.
Proof.
  induction l as [|c l IH]; [done|]. simpl. destruct (Z.eqb_spec c d); [done|].
  rewrite filter_cons_True by done. by rewrite IH.
Qed.

(** Dropping the delimiters of a word and of the rest gives those of the whole. *)
Lemma filter_word d l :
  first_word d l ++ filter (fun c => c <> d) (after_word d l) = filter (fun c => c <> d) l.
Proof.
  unfold first_word, after_word. rewrite filter_drop_char.
  rewrite <- (filter_take_to d (drop_char d l)), <- filter_app, take_drop_to. apply filter_drop_char.
Qed.

Lemma words_step fuel d l :
  words (S fuel) d l =
    first_word d l :: match after_word d l with [] => [] | r => words fuel d r end.
Proof. cbn [words]. unfold first_word, after_word. by destruct (drop_char d (drop_to d _)). Qed.

Lemma words_sound fuel d l :
  lenZ l < Z.of_nat fuel ->
  concat (words fuel d l) = filter (fun c => c <> d) l /\ Forall (fun t => d ∉ t) (words fuel d l).
Proof.
  revert l. induction fuel as [|fuel IH]; intros l Hf; [pose proof (lenZ_nonneg l); lia|].
  rewrite words_step. pose proof (filter_word d l) as Hw.
  destruct (after_word d l) as [|c r] eqn:E.
  - simpl in *. split; [done|]. constructor; [apply take_to_not_in|constructor].
  - pose proof (after_word_shorter _ _ _ _ E). rewrite E in *.
    destruct (IH (c :: r)) as [H1 H2]; [lia|]. cbn [concat]. rewrite H1. split; [done|].
    constructor; [apply take_to_not_in|done].
Qed.

Lemma Forall_first_word P d l : Forall P l -> Forall P (first_word d l).
Proof.
  intros H. unfold first_word. destruct (drop_char_suffix d l) as (k & Hk & _).
  rewrite Hk in H. apply Forall_app in H as [_ H].
  rewrite <- (take_drop_to d (drop_char d l)) in H. by apply Forall_app in H as [H _].
Qed.

Lemma tokens_spec rounds fuel m s del buffer d l :
  cstr m s l -> cstr m del [d] -> lenZ l + 2 < Z.of_nat fuel -> lenZ l + 1 < Z.of_nat rounds ->
  0 < buffer -> fits buffer (lenZ l + 1) -> apart s l buffer (lenZ l + 1) ->
  apart del [d] buffer (lenZ l + 1) ->
  tokens rounds fuel m s del buffer = Ok (words (Nat.pred rounds) d l).
Proof.
  unfold fits, apart. change (lenZ [d]) with 1. revert m s l.
  induction rounds as [|rounds IH]; intros m s l Hl Hd Hf Hr Hb Hfit Ha Had; pose proof (lenZ_nonneg l); [lia|].
  cbn [tokens]. pose proof Hl as (_ & Hl0 & ? & ?). rewrite (proj2 (Z.eqb_neq s 0)) by lia.
  rewrite (strtok_spec _ _ _ _ _ d l); [|done|done|lia|lia|unfold fits; lia|unfold apart; lia|].
  2:{ unfold apart. rewrite lenZ_cons, lenZ_nil. lia. }
  cbn [mbind res_bind Nat.pred]. destruct rounds as [|rounds]; [lia|]. rewrite words_step.
  pose proof (lenZ_first_word d l) as Hw. pose proof (lenZ_nonneg (first_word d l)).
  assert (Hread : read_cstr fuel (write_bytes m buffer (first_word d l ++ [0])) buffer = first_word d l).
  { apply read_cstr_spec; [|lia]. apply cstr_write; [by apply Forall_first_word|lia|lia]. }
  assert (Hfb : fits buffer (lenZ (first_word d l ++ [0]))) by (unfold fits; autorewrite with len; lia).
  destruct (after_word d l) as [|c r] eqn:E.
  - cbn [tokens mbind res_bind]. rewrite Hread. done.
  - pose proof (after_word_shorter _ _ _ _ E) as Hsh. destruct (after_word_suffix d l) as [k Hk].
    rewrite E in *. pose proof (lenZ_nonneg k). assert (Hkl : lenZ l = lenZ k + lenZ (c :: r)) by (rewrite Hk; apply lenZ_app).
    rewrite (IH _ _ (c :: r)); [cbn [mbind res_bind Nat.pred]; by rewrite Hread| | |lia..].
    + apply cstr_write_apart; [|done|unfold apart; autorewrite with len in *; lia].
      replace (s + lenZ l - lenZ (c :: r)) with (s + lenZ k) by lia. apply cstr_drop. by rewrite <- Hk.
    + apply cstr_write_apart; [done|done|]. unfold apart. autorewrite with len in *. lia.
Qed.

(** C36. Repeated [strtok] with a one-character delimiter, the way the shell
    and the path code use it, terminates and yields the words of the string in
    order: no word contains the delimiter, and together they are the string
    without its delimiters. *)
Theorem strtok_words rounds fuel m s del buffer d l :
  cstr m s l -> cstr m del [d] -> lenZ l + 2 < Z.of_nat fuel -> lenZ l + 1 < Z.of_nat rounds ->
  0 < buffer -> fits buffer (lenZ l + 1) -> apart s l buffer (lenZ l + 1) ->
  apart del [d] buffer (lenZ l + 1) ->
  exists ts, tokens rounds fuel m s del buffer = Ok ts /\ ts = words (Nat.pred rounds) d l /\
    concat ts = filter (fun c => c <> d) l /\ Forall (fun t => d ∉ t) ts.
Proof.
  intros. eexists. split; [by apply (tokens_spec _ _ _ _ _ _ d l)|]. split; [done|].
  apply words_sound. lia.
Qed.

Lemma strtok_words_witness :
  exists ts, tokens 20 20 (write_bytes (write_bytes ∅ 100 [32; 49; 50; 32; 32; 51; 32; 0]) 200 [32; 0]) 100 200 300 = Ok ts
    /\ ts = [[49; 50]; [51]].
Proof.
  destruct (strtok_words 20 20 (write_bytes (write_bytes ∅ 100 [32; 49; 50; 32; 32; 51; 32; 0]) 200 [32; 0]) 100 200 300
    32 [32; 49; 50; 32; 32; 51; 32]) as (ts & H1 & H2 & _);
    try (unfold cstr; split_and!; [vm_compute; tauto|repeat constructor|reflexivity|reflexivity]);
    try reflexivity; try (unfold fits, apart; vm_compute; intuition congruence).
  exists ts. split; [exact H1|rewrite H2; reflexivity].
Defined.

(** ** memset, memcpy, str_pad *)

Lemma memset_loop_spec n m buf value i :
  memset_loop n m buf value i = write_bytes m (buf + i) (replicate n value).
Proof.
  revert m i. induction n as [|n IH]; intros m i; simpl; [done|]. rewrite IH. f_equal. lia.
Qed.

Lemma pad_fill_spec n m s value :
  pad_fill n m s value = (write_bytes m s (replicate n value), s + Z.of_nat n).
Proof.
  revert m s. induction n as [|n IH]; intros m s; cbn [pad_fill replicate write_bytes].
  - f_equal. lia.
  - rewrite IH. f_equal. lia.
Qed.

Lemma copy_loop_spec m p l d :
  bytes_at m p l -> fits p (lenZ l) -> fits d (lenZ l) -> (d + lenZ l <= p \/ p + lenZ l <= d) ->
  copy_loop (length l) m p d = write_bytes m d l.
Proof.
  unfold fits. revert m p d. induction l as [|c l IH]; intros m p d Hb Hp Hd Ha; simpl; [done|].
  destruct Hb as [-> Hb]. rewrite lenZ_cons in *. pose proof (lenZ_nonneg l). apply IH; [|lia..].
  eapply bytes_at_same; [|exact Hb]. apply same_on_store8; unfold fits; lia.
Qed.

(** [memcpy] of a region onto a disjoint region leaves an exact copy there
    and changes nothing else. *)
Lemma memcpy_copies m src dst l :
  bytes_at m src l -> Forall (fun c => u8 c) l -> fits src (lenZ l) -> fits dst (lenZ l) ->
  (dst + lenZ l <= src \/ src + lenZ l <= dst) ->
  bytes_at (memcpy m src dst (lenZ l)) dst l /\ bytes_at (memcpy m src dst (lenZ l)) src l /\
  forall a, u32 a -> (a < dst \/ dst + lenZ l <= a) -> load8 (memcpy m src dst (lenZ l)) a = load8 m a.
Proof.
  intros Hb Hl Hs Hd Ha. unfold memcpy. replace (Z.to_nat (lenZ l)) with (length l) by (unfold lenZ; lia).
  rewrite (copy_loop_spec _ _ l) by done. split_and!; [by apply bytes_at_write_bytes| |].
  - eapply bytes_at_same; [|exact Hb]. apply same_on_write_bytes; unfold fits in *; lia.
  - intros. by apply write_bytes_out.
Qed.

Lemma pad_end_spec fuel m p l cnt :
  cstr m p l -> lenZ l < Z.of_nat fuel -> pad_end fuel m p cnt = Ok (p + lenZ l, cnt + lenZ l).
Proof.
  revert fuel p cnt. induction l as [|c l IH]; intros fuel p cnt Hc Hf; fuel_cases fuel; simpl.
  - rewrite (cstr_nil _ _ Hc). simpl. by rewrite lenZ_nil, !Z.add_0_r.
  - apply cstr_cons in Hc as (-> & ? & Hc). rewrite lenZ_cons in *.
    rewrite (proj2 (Z.eqb_neq c 0)) by lia. rewrite IH by (done || lia). do 2 f_equal; lia.
Qed.

(** [str_pad] extends a string with the fill character up to the given
    size, leaves a string that is already as long unchanged, and terminates
    it. *)
Theorem str_pad_pads fuel m s l value size :
  cstr m s l -> lenZ l < Z.of_nat fuel -> 0 < value < 256 ->
  0 <= size -> s + size < 4294967296 ->
  exists m', str_pad fuel m s value size = Ok (m', 0) /\
    cstr m' s (l ++ replicate (Z.to_nat (size - lenZ l)) value).
Proof.
  intros Hc Hf Hv Hs Hfit. pose proof Hc as (Hb & Hl & Hp & Hpl). pose proof (lenZ_nonneg l).
  unfold str_pad. rewrite (pad_end_spec _ _ _ l) by done. cbn [mbind res_bind].
  rewrite pad_fill_spec, Z.add_0_l. set (n := Z.to_nat (size - lenZ l)). eexists. split; [done|].
  assert (Hn : lenZ (replicate n value) = Z.of_nat n) by (unfold lenZ; by rewrite length_replicate).
  change (store8 (write_bytes m (s + lenZ l) (replicate n value)) (s + lenZ l + Z.of_nat n) 0)
    with (write_bytes (write_bytes m (s + lenZ l) (replicate n value)) (s + lenZ l + Z.of_nat n) [0]).
  rewrite <- Hn, <- write_bytes_app. split_and!.
  - rewrite <- app_assoc. apply bytes_at_app in Hb as [Hb _]. apply bytes_at_app. split.
    + eapply bytes_at_same; [|exact Hb].
      apply same_on_write_bytes; unfold fits; autorewrite with len; lia.
    + apply bytes_at_write_bytes; [unfold fits; autorewrite with len; lia|].
      apply Forall_app. split; [|by constructor]. apply Forall_replicate. lia.
  - apply Forall_app. split; [done|]. by apply Forall_replicate.
  - done.
  - autorewrite with len. lia.
Qed.

(** ** atoi and itoa *)

Lemma atoi_loop_spec fuel m p l base sum :
  cstr m p l -> lenZ l < Z.of_nat fuel ->
  atoi_loop fuel m p base (wrap32 sum) =
    Ok (wrap32 (foldl (fun s c => s * base + digit_value (schar c)) sum l)).
Proof.
  revert fuel p sum. induction l as [|c l IH]; intros fuel p sum Hc Hf; fuel_cases fuel; simpl.
  - by rewrite (cstr_nil _ _ Hc).
  - apply cstr_cons in Hc as (-> & ? & Hc). rewrite lenZ_cons in Hf.
    rewrite (proj2 (Z.eqb_neq c 0)) by lia. rewrite <- (IH fuel (p + 1)) by (done || lia). f_equal.
    unfold digit_value. rewrite andb_comm. unfold wrap32.
    destruct ((48 <=? schar c) && (schar c <=? 57));
      rewrite Zplus_mod_idemp_l, <- (Zplus_mod_idemp_l (_ mod _ * _)), Zmult_mod_idemp_l, Zplus_mod_idemp_l;
      f_equal; lia.
Qed.

Lemma atoi_spec fuel m p l base :
  cstr m p l -> lenZ l < Z.of_nat fuel ->
  atoi fuel m p base = Ok (wrap32 (foldl (fun s c => s * base + digit_value (schar c)) 0 l)).
Proof. intros. unfold atoi. change 0 with (wrap32 0) at 1. by apply atoi_loop_spec. Qed.

Lemma digits_rev_range fuel a : 0 <= a -> Forall (fun c => 48 <= c <= 57) (digits_rev fuel a).
Proof.
  revert a. induction fuel as [|fuel IH]; intros a Ha; simpl; [constructor|]. constructor.
  - pose proof (Z.mod_pos_bound a 10). lia.
  - case_if; [constructor|]. apply IH. apply Z.div_pos; lia.
Qed.

Lemma value_digits fuel a :
  0 <= a < 10 ^ Z.of_nat fuel -> 0 < Z.of_nat fuel ->
  foldr (fun c s => s * 10 + digit_value (schar c)) 0 (digits_rev fuel a) = a.
Proof.
  revert a. induction fuel as [|fuel IH]; intros a Ha Hf; [lia|]. cbn [digits_rev foldr].
  pose proof (Z.mod_pos_bound a 10 ltac:(lia)).
  assert (digit_value (schar (a mod 10 + 48)) = a mod 10) as ->.
  { unfold digit_value, schar. if_true. rewrite (proj2 (Z.leb_le 48 _)), (proj2 (Z.leb_le _ 57)) by lia. simpl. lia. }
  case_if.
  - simpl. pose proof (Z.div_mod a 10). lia.
  - rewrite Nat2Z.inj_succ, Z.pow_succ_r in Ha by lia.
    assert (0 <= a / 10 < 10 ^ Z.of_nat fuel).
    { split; [apply Z.div_pos; lia|apply Z.div_lt_upper_bound; lia]. }
    rewrite IH; [pose proof (Z.div_mod a 10); lia|done|].
    destruct fuel; [simpl in *; lia|lia].
Qed.

Lemma itoa_digits_spec fuel m a buf i :
  0 <= a < 10 ^ Z.of_nat fuel -> 0 < Z.of_nat fuel ->
  itoa_digits fuel m a buf i =
    Ok (write_bytes m (buf + i) (digits_rev fuel a), i + lenZ (digits_rev fuel a)).
Proof.
  revert m a i. induction fuel as [|fuel IH]; intros m a i Ha Hf; [lia|]. cbn [itoa_digits digits_rev].
  rewrite Z.rem_mod_nonneg, Z.quot_div_nonneg by lia.
  pose proof (Z.mod_pos_bound a 10 ltac:(lia)). rewrite wrap8_small by lia.
  case_if.
  - rewrite lenZ_cons, lenZ_nil. cbn [write_bytes]. do 2 f_equal.
  - rewrite Nat2Z.inj_succ, Z.pow_succ_r in Ha by lia.
    rewrite IH; [cbn [write_bytes]; rewrite lenZ_cons; do 2 f_equal; [f_equal; lia|lia]| |].
    + split; [apply Z.div_pos; lia|apply Z.div_lt_upper_bound; lia].
    + destruct fuel; [|lia]. assert (a / 10 = 0) by (apply Z.div_small; simpl in Ha; lia). lia.
Qed.

Lemma length_digits_rev fuel a : (length (digits_rev fuel a) <= fuel)%nat.
Proof. revert a. induction fuel; intros a; simpl; [lia|]. case_if; simpl; [lia|]. specialize (IHfuel (a / 10)). lia. Qed.

(** The reversal swaps the bytes of [j..i] pairwise. *)
Lemma reverse_loop_spec fuel m buf i j :
  i - j < 2 * Z.of_nat fuel - 1 -> 0 <= j -> j <= i + 1 -> fits buf (i + 1) ->
  exists m', reverse_loop fuel m buf i j = Ok m' /\
    forall a, u32 a -> load8 m' a =
      if (buf + j <=? a) && (a <=? buf + i) then load8 m (buf + i + j - (a - buf)) else load8 m a.
Proof.
  unfold fits. revert m i j. induction fuel as [|fuel IH]; intros m i j Hf Hj Hij Hb; [lia|].
  cbn [reverse_loop]. destruct (Z.ltb_spec j i) as [Hlt|Hge].
  - destruct (IH (store8 (store8 m (buf + j) (load8 m (buf + i))) (buf + i) (load8 m (buf + j))) (i - 1) (j + 1))
      as (m' & -> & Hm'); [lia..|]. exists m'. split; [done|]. intros a Ha. rewrite Hm' by done.
    rewrite !load8_store8, !(wrap32_small (buf + _)), !(wrap32_small a) by lia.
    destruct (Z.leb_spec (buf + (j + 1)) a), (Z.leb_spec a (buf + (i - 1))); simpl.
    + rewrite (wrap32_small (buf + (i - 1) + _ - _)) by lia. rewrite !decide_False by lia.
      rewrite !(proj2 (Z.leb_le _ _)) by lia. simpl. f_equal. lia.
    + destruct (decide (buf + i = a)) as [<-|].
      * rewrite !(proj2 (Z.leb_le _ _)) by lia. simpl.
        rewrite wrap8_small by apply load8_range. f_equal. lia.
      * rewrite decide_False by lia. rewrite (proj2 (Z.leb_gt a _)), andb_false_r by lia. done.
    + rewrite (decide_False (P := buf + i = a)) by lia. destruct (decide (buf + j = a)) as [<-|].
      * rewrite !(proj2 (Z.leb_le _ _)) by lia. simpl.
        rewrite wrap8_small by apply load8_range. f_equal. lia.
      * rewrite (proj2 (Z.leb_gt _ a)) by lia. done.
    + destruct (decide (buf + i = a)) as [<-|]; [lia|]. lia.
  - exists m. split; [done|]. intros a Ha. destruct (_ && _) eqn:E; [|done]. zb. f_equal. lia.
Qed.

Lemma digits_rev_pos n a : 0 < lenZ (digits_rev (S n) a).
Proof.
  cbn [digits_rev]. rewrite lenZ_cons. generalize (if a / 10 =? 0 then [] else digits_rev n (a / 10)).
  intros l. pose proof (lenZ_nonneg l). lia.
Qed.

Lemma foldl_reverse {A} (f : Z -> A -> Z) l a : foldl f a (reverse l) = foldr (fun c s => f s c) a l.
Proof.
  induction l as [|x l IH]; [done|]. rewrite reverse_cons, foldl_snoc. cbn [foldr]. by rewrite IH.
Qed.

Lemma nthZ_reverse l i : 0 <= i < lenZ l -> nthZ (reverse l) i = nthZ l (lenZ l - 1 - i).
Proof.
  unfold nthZ, lenZ. intros H. rewrite reverse_lookup by lia. do 2 f_equal. lia.
Qed.

(** Reversing a short sequence of characters written to a zeroed buffer leaves
    the reversed string there. *)
Lemma reverse_in_buffer m buf size D :
  Forall (fun c => 48 <= c <= 57) D -> 0 < lenZ D <= 11 -> 0 < buf -> fits buf size -> 12 <= size ->
  exists m', reverse_loop 11 (write_bytes (write_bytes m buf (replicate (Z.to_nat size) 0)) buf D) buf
      (lenZ D - 1) 0 = Ok m' /\ cstr m' buf (reverse D) /\
    forall b, u32 b -> (b < buf \/ buf + size <= b) -> load8 m' b = load8 m b.
Proof.
  intros Hrng HD Hb Hfit Hs. unfold fits in Hfit.
  assert (Hu8 : Forall (fun c => u8 c) D) by (eapply Forall_impl; [exact Hrng|simpl; lia]).
  assert (Hz : lenZ (replicate (Z.to_nat size) 0) = size) by (unfold lenZ; rewrite length_replicate; lia).
  set (m0 := write_bytes m buf _).
  destruct (reverse_loop_spec 11 (write_bytes m0 buf D) buf (lenZ D - 1) 0) as (m' & -> & Hm');
    [lia|lia|lia|unfold fits; lia|].
  assert (Hlr : lenZ (reverse D) = lenZ D) by (unfold lenZ; by rewrite length_reverse).
  exists m'. split; [done|]. split.
  - split_and!; [|apply Forall_reverse; eapply Forall_impl; [exact Hrng|simpl; lia]|done|lia].
    apply bytes_at_app. split.
    + apply bytes_at_intro. intros i Hi. rewrite Hlr in Hi. rewrite Hm' by lia.
      rewrite !(proj2 (Z.leb_le _ _)) by lia. simpl. rewrite nthZ_reverse by lia.
      replace (buf + (lenZ D - 1) + 0 - (buf + i - buf)) with (buf + (lenZ D - 1 - i)) by lia.
      apply bytes_at_nth; [|lia]. apply bytes_at_write_bytes; [unfold fits; lia|done].
    + rewrite Hlr. split; [|done]. rewrite Hm' by lia.
      rewrite (proj2 (Z.leb_gt (buf + lenZ D) _)), andb_false_r by lia.
      rewrite write_bytes_out by (unfold fits; lia).
      rewrite (bytes_at_nth _ _ (replicate (Z.to_nat size) 0)); [|apply bytes_at_write_bytes|lia].
      * unfold nthZ. rewrite lookup_replicate_2; [done|lia].
      * unfold fits. lia.
      * apply Forall_replicate. lia.
  - intros b Hb' Ho. rewrite Hm' by done.
    replace ((buf + 0 <=? b) && (b <=? buf + (lenZ D - 1))) with false.
    2:{ symmetry. apply andb_false_iff. rewrite Z.leb_gt, Z.leb_gt. lia. }
    rewrite write_bytes_out by (unfold fits; lia). apply write_bytes_out; [unfold fits; lia|done|lia].
Qed.

(** [itoa] of a non-negative [int] leaves its decimal digits in the buffer. *)
Lemma itoa_spec m a buf size :
  0 <= a < 2147483648 -> 0 < buf -> fits buf size -> 12 <= size ->
  exists m', itoa m a buf size = Ok (m', 0) /\ cstr m' buf (reverse (digits_rev 11 a)) /\
    forall b, u32 b -> (b < buf \/ buf + size <= b) -> load8 m' b = load8 m b.
Proof.
  intros Ha Hb Hfit Hs. unfold itoa, memset. rewrite memset_loop_spec, Z.add_0_r.
  rewrite itoa_digits_spec by (simpl; lia). rewrite res_bind_Ok, Z.add_0_r, Z.add_0_l.
  pose proof (length_digits_rev 11 a) as Hlen.
  destruct (reverse_in_buffer m buf size (digits_rev 11 a)) as (m' & -> & H); [..|done|done|done|].
  - apply digits_rev_range. lia.
  - split; [apply digits_rev_pos|unfold lenZ; lia].
  - eauto.
Qed.

(** Round trip of numbers: [itoa] of a non-negative [int] into a buffer of
    at least twelve bytes returns, writes only the buffer, and [atoi] with
    base 10 reads the same number back. *)
Theorem itoa_atoi_roundtrip m a buf size fuel :
  0 <= a < 2147483648 -> 0 < buf -> fits buf size -> 12 <= size -> (12 <= fuel)%nat ->
  exists m', itoa m a buf size = Ok (m', 0) /\ atoi fuel m' buf 10 = Ok a /\
    forall b, u32 b -> (b < buf \/ buf + size <= b) -> load8 m' b = load8 m b.
Proof.
  intros Ha Hb Hf Hs Hfuel. destruct (itoa_spec m a buf size Ha Hb Hf Hs) as (m' & Hi & Hc & Ho).
  exists m'. split; [done|]. split; [|done].
  rewrite (atoi_spec _ _ _ _ _ Hc).
  - rewrite (foldl_reverse (fun s c => s * 10 + digit_value (schar c))), value_digits by (simpl; lia).
    rewrite wrap32_small by lia. done.
  - unfold lenZ. rewrite length_reverse. pose proof (length_digits_rev 11 a). lia.
Qed.

Lemma itoa_atoi_roundtrip_witness :
  exists m', itoa ∅ 1203 100 16 = Ok (m', 0) /\ atoi 12 m' 100 10 = Ok 1203 /\
    forall b, u32 b -> (b < 100 \/ 100 + 16 <= b) -> load8 m' b = load8 ∅ b.
Proof. apply (itoa_atoi_roundtrip ∅ 1203 100 16 12); unfold fits; lia. Defined.

Lemma value_of_schar base l :
  Forall (fun c => c < 128) l -> foldl (fun s c => s * base + digit_value (schar c)) 0 l = value_of base l.
Proof.
  intros Hl. unfold value_of. generalize 0. induction Hl as [|c l Hc0 Hl IH]; intros s; [done|]. cbn [foldl].
  unfold schar at 2. if_true. apply IH.
Qed.

(** [atoi] computes the value of its digits in the given base, modulo
    2^32: it has no overflow check, and every character that is not a decimal
    digit counts as an upper-case letter digit. *)
Theorem atoi_value fuel m p l base :
  cstr m p l -> lenZ l < Z.of_nat fuel -> Forall (fun c => c < 128) l ->
  atoi fuel m p base = Ok (wrap32 (value_of base l)).
Proof.
  intros Hc Hf Hl. rewrite (atoi_spec _ _ _ _ _ Hc Hf). by rewrite value_of_schar.
Qed.

(** [itoa] does not handle negative numbers: C's remainder is negative
    there, so [itoa(-5)] writes the character '+' (43 = '0' - 5) and
    [itoa(-12)] writes "/." *)
Theorem itoa_negative :
  match itoa ∅ (-5) 100 16 with Ok (m, _) => read_cstr 16 m 100 = [43] | _ => False end /\
  match itoa ∅ (-12) 100 16 with Ok (m, _) => read_cstr 16 m 100 = [47; 46] | _ => False end.
Proof. vm_compute. done. Qed.
