(* ===== verification/Sink.v ===== *)
(** * Interface: a sink for characters

    The print routines only use [write_console_one] of the console.  What they
    need of it is stated here: a state that represents the text written so far
    and an operation that appends one character.  The console implements the
    interface; the theorems about printing are proved against it.  [sink_cap]
    bounds the length of the text (the console counts it in 32 bits). *)
From S2P Require Import Prelude.

Class CharSink (S : Type) := {
  put : S -> Z -> S;
  text_is : S -> list Z -> Prop;
  sink_cap : Z;
  put_text : forall s L c, text_is s L -> u8 c -> lenZ L + 1 < sink_cap -> text_is (put s c) (L ++ [c]);
}.

Section Sink.
Context {S : Type} `{CharSink S}.

(** Several characters, one after the other. *)
Definition puts (s : S) (l : list Z) : S := foldl put s l.

Lemma puts_text s L l :
  text_is s L -> Forall (fun c => u8 c) l -> lenZ L + lenZ l < sink_cap -> text_is (puts s l) (L ++ l).
Proof.
  intros Hs Hl. revert s L Hs. induction Hl as [|c l Hc Hl IH]; intros s L Hs Hb; simpl.
  - by rewrite app_nil_r.
  - rewrite lenZ_cons in Hb. pose proof (lenZ_nonneg l). replace (L ++ c :: l) with ((L ++ [c]) ++ l) by (by rewrite <- app_assoc).
    apply IH; [apply put_text; [done|done|lia]|]. rewrite lenZ_app, lenZ_cons. change (lenZ (@nil Z)) with 0. lia.
Qed.

Lemma puts_app s l1 l2 : puts s (l1 ++ l2) = puts (puts s l1) l2.
Proof. unfold puts. apply foldl_app. Qed.

End Sink.
