(* ===== verification/Console.v ===== *)
(** * Text screen and console (kernel/vga.c, kernel/console.c)

    [Vga] writes characters to the text-mode frame buffer; [Console] keeps a
    ring of the last output characters, a window of cells over it, and an input
    line.  The blocks [history], [window] and [input_buf] that [init_console]
    gets from [kmalloc] are arrays of their sizes; [init_console] zeroes
    [history] only, so the other two start with whatever the block held.  A
    character is kept as its byte.  Loops that count up to a bound run that
    many rounds; the two data-dependent loops of [update_window_buffer] get
    one round per window cell, which is enough because every round fills a
    cell. *)
From S2P Require Import Prelude CMem.

(** The source files are compiled twice: with [-D EARLY_INIT] for the code that
    runs before paging, and without for the kernel. *)
Class Build : Type := EARLY_INIT : bool.
#[export] Instance kernel_build : Build := false.
Arguments EARLY_INIT : simpl never.

Module Vga.
Section Vga.
Context {B : Build}.

Definition VGA_MAX_COL : Z := 80.
Definition VGA_MAX_ROW : Z := 25.
Definition VGA_BASE : Z := if EARLY_INIT then 753664 else 753664 + 3221225472.

(** [vga_param] and the frame buffer. *)
Record vga := mkVga { max_col : Z; max_row : Z; vram : mem }.

Definition vga_init (v : vga) : vga := mkVga VGA_MAX_COL VGA_MAX_ROW (vram v).

Definition __vga_addr (v : vga) (x y : Z) : Z := wrap32 (VGA_BASE + (y * max_col v + x) * 2).

Definition vga_write_char (v : vga) (c x y : Z) : vga * Z :=
  if (x <? 0) || (max_col v <=? x) then (v, -1)
  else if (y <? 0) || (max_row v <=? y) then (v, -1)
  else (mkVga (max_col v) (max_row v) (store8 (vram v) (__vga_addr v x y) c), 0).

Fixpoint clear_row (n : nat) (v : vga) (x y : Z) : vga :=
  match n with
  | O => v
  | S n => clear_row n (fst (vga_write_char v 0 x y)) (x + 1) y
  end.
Fixpoint clear_rows (n : nat) (v : vga) (y : Z) : vga :=
  match n with
  | O => v
  | S n => clear_rows n (clear_row (Z.to_nat VGA_MAX_COL) v 0 y) (y + 1)
  end.
Definition vga_clear_all (v : vga) : vga := clear_rows (Z.to_nat VGA_MAX_ROW) v 0.

Fixpoint print_row_loop (v : vga) (y x : Z) (row : list Z) : vga :=
  match row with
  | [] => v
  | c :: row => print_row_loop (fst (vga_write_char v c x y)) y (x + 1) row
  end.
Definition vga_print_row (v : vga) (y : Z) (row : list Z) : vga := print_row_loop v y 0 row.

(** The character at column [x] of row [y]. *)
Definition vga_cell (v : vga) (x y : Z) : Z := load8 (vram v) (__vga_addr v x y).

End Vga.
End Vga.
Import Vga.

Module Console.
Abbreviation NL := 10.
Section Console.
Context {B : Build}.

Definition CONSOLE_HISTORY_SIZE : Z := if EARLY_INIT then 500 else 100.
Definition CONSOLE_COL_SIZE : Z := 20.
Definition CONSOLE_ROW_SIZE : Z := 6.
Definition INPUT_BUF_SIZE : Z := 512.
Definition INPUT_AREA_MAX_ROW : Z := 2.
Definition status_bar_lines : Z := 1.

Record console := mkConsole {
  console_max_col : Z;
  console_max_row : Z;
  history : list Z;
  window : list Z;
  history_cnt : Z;
  max_window_size : Z;
  window_first_history : Z;
  window_last_history : Z;
  window_size : Z;
  input_buf : list Z;
  input_cnt : Z;
  console_init_flag : Z;
  screen : vga;
}.

Definition set_history (s : console) (h : list Z) (cnt : Z) : console :=
  mkConsole (console_max_col s) (console_max_row s) h (window s) cnt (max_window_size s)
    (window_first_history s) (window_last_history s) (window_size s) (input_buf s) (input_cnt s)
    (console_init_flag s) (screen s).
Definition set_window (s : console) (w : list Z) : console :=
  mkConsole (console_max_col s) (console_max_row s) (history s) w (history_cnt s) (max_window_size s)
    (window_first_history s) (window_last_history s) (window_size s) (input_buf s) (input_cnt s)
    (console_init_flag s) (screen s).
Definition set_first (s : console) (x : Z) : console :=
  mkConsole (console_max_col s) (console_max_row s) (history s) (window s) (history_cnt s) (max_window_size s)
    x (window_last_history s) (window_size s) (input_buf s) (input_cnt s) (console_init_flag s) (screen s).
Definition set_last (s : console) (x : Z) : console :=
  mkConsole (console_max_col s) (console_max_row s) (history s) (window s) (history_cnt s) (max_window_size s)
    (window_first_history s) x (window_size s) (input_buf s) (input_cnt s) (console_init_flag s) (screen s).
Definition set_size (s : console) (x : Z) : console :=
  mkConsole (console_max_col s) (console_max_row s) (history s) (window s) (history_cnt s) (max_window_size s)
    (window_first_history s) (window_last_history s) x (input_buf s) (input_cnt s) (console_init_flag s) (screen s).
Definition set_input (s : console) (b : list Z) (cnt : Z) : console :=
  mkConsole (console_max_col s) (console_max_row s) (history s) (window s) (history_cnt s) (max_window_size s)
    (window_first_history s) (window_last_history s) (window_size s) b cnt (console_init_flag s) (screen s).
Definition set_screen (s : console) (v : vga) : console :=
  mkConsole (console_max_col s) (console_max_row s) (history s) (window s) (history_cnt s) (max_window_size s)
    (window_first_history s) (window_last_history s) (window_size s) (input_buf s) (input_cnt s)
    (console_init_flag s) v.

Definition init_console (s : console) : console :=
  let vga := vga_init (screen s) in
  let col := if EARLY_INIT then max_col vga else CONSOLE_COL_SIZE in
  let row := if EARLY_INIT then max_row vga else CONSOLE_ROW_SIZE in
  mkConsole col row (if EARLY_INIT then history s else replicate (Z.to_nat CONSOLE_HISTORY_SIZE) 0) (window s)
    (history_cnt s) (wrap32 ((row - 1 - status_bar_lines) * col))
    (window_first_history s) (window_last_history s) (window_size s) (input_buf s) (input_cnt s) 1 vga.

(** [history[i % CONSOLE_HISTORY_SIZE]] *)
Definition hist (s : console) (i : Z) : Z := nthZ (history s) (i mod CONSOLE_HISTORY_SIZE).

(** The loop of [prev_line_start]; [n] counts the columns left. *)
Fixpoint prev_line_loop (n : nat) (s : console) (next_start histroy_min offset : Z) : Z :=
  match n with
  | O => offset
  | S n =>
      if (histroy_min <? offset) &&
         negb ((NL =? hist s (offset - 1)) && negb (offset =? next_start))
      then prev_line_loop n s next_start histroy_min (offset - 1) else offset
  end.
Definition prev_line_start (s : console) (next_start : Z) : Z :=
  let histroy_min :=
    if CONSOLE_HISTORY_SIZE <? history_cnt s then history_cnt s - CONSOLE_HISTORY_SIZE else 0 in
  prev_line_loop (Z.to_nat (console_max_col s)) s next_start histroy_min next_start.

Fixpoint next_line_loop (n : nat) (s : console) (offset : Z) : Z :=
  match n with
  | O => offset
  | S n =>
      if offset <? history_cnt s then
        if NL =? hist s offset then offset + 1 else next_line_loop n s (offset + 1)
      else offset
  end.
Definition next_line_start (s : console) (line_start : Z) : Z :=
  next_line_loop (Z.to_nat (console_max_col s)) s line_start.

Definition inpws_to_rn (s : console) (inp_ws : Z) : Z :=
  if inp_ws <=? console_max_col s then 0 else (inp_ws - 1) / console_max_col s.

(** [vga_write_char] on the console's screen. *)
Definition put_vga (s : console) (c x y : Z) : console := set_screen s (fst (vga_write_char (screen s) c x y)).

Definition output_window_one_to_vga (s : console) (widx c : Z) : console * Z :=
  let row := widx / console_max_col s + inpws_to_rn s (input_cnt s) + 1 in
  let col := widx mod console_max_col s in
  if wrap32 (console_max_row s - status_bar_lines) <=? row then (s, -1)
  else if c =? NL then (put_vga s 0 col row, 0)
  else (put_vga s c col row, 0).

Definition calc_window_delta (s : console) (ws c : Z) : Z :=
  if c =? NL then
    let new_ws := ws + console_max_col s - 1 + 1 in
    let new_ws := new_ws - new_ws mod console_max_col s in
    new_ws - ws
  else 1.

Fixpoint draw_loop (n : nat) (s : console) (widx : Z) : console :=
  match n with
  | O => s
  | S n =>
      let '(s', r) := output_window_one_to_vga s widx (nthZ (window s) widx) in
      if r <? 0 then s' else draw_loop n s' (widx + 1)
  end.
Definition draw_window (s : console) : console := draw_loop (Z.to_nat (max_window_size s)) s 0.

(** [while( size % console_max_col && size < max_window_size) window[size++] = 0] *)
Fixpoint pad_line (n : nat) (s : console) (w : list Z) (size : Z) : list Z * Z :=
  match n with
  | O => (w, size)
  | S n =>
      if negb (size mod console_max_col s =? 0) && (size <? max_window_size s)
      then pad_line n s (updZ w size 0) (size + 1) else (w, size)
  end.
(** The outer loop; returns the window, [size] and [history_index]. *)
Fixpoint fill_window (n : nat) (s : console) (w : list Z) (size history_index : Z) : list Z * Z * Z :=
  match n with
  | O => (w, size, history_index)
  | S n =>
      if (size <? max_window_size s) && (history_index <? history_cnt s) then
        let w := updZ w size (hist s history_index) in
        let size := size + 1 in
        let history_index := history_index + 1 in
        let '(w, size) :=
          if nthZ w (size - 1) =? NL then pad_line (Z.to_nat (console_max_col s)) s w size else (w, size) in
        fill_window n s w size history_index
      else (w, size, history_index)
  end.
Fixpoint zero_rest (n : nat) (w : list Z) (size : Z) : list Z :=
  match n with
  | O => w
  | S n => zero_rest n (updZ w size 0) (size + 1)
  end.
Definition update_window_buffer (s : console) : console :=
  let '(w, size, history_index) :=
    fill_window (Z.to_nat (max_window_size s)) s (window s) 0 (window_first_history s) in
  let s := set_size s size in
  let s := set_last s history_index in
  set_window s (zero_rest (Z.to_nat (max_window_size s - size)) w size).

Definition move_down_window_start_position (s : console) : console * Z :=
  let next_start := next_line_start s (window_first_history s) in
  if next_start <=? window_first_history s then (s, -1) else (set_first s next_start, 0).
Definition move_up_window_start_position (s : console) : console * Z :=
  let new_start := prev_line_start s (window_first_history s) in
  if window_first_history s <=? new_start then (s, -1) else (set_first s new_start, 0).

Definition window_move_up (s : console) : console :=
  let '(s, r) := move_up_window_start_position s in
  if r <? 0 then s else draw_window (update_window_buffer s).
Definition window_move_down (s : console) : console :=
  let '(s, r) := move_down_window_start_position s in
  if r <? 0 then s else draw_window (update_window_buffer s).

(** [for( i = old ; i < window_size -1 ; ++i) window[i] = 0] *)
Definition clear_cells (w : list Z) (old last : Z) : list Z := zero_rest (Z.to_nat (last - old)) w old.

Definition write_console_one (s : console) (c : Z) : console :=
  let s := if console_init_flag s =? 0 then init_console s else s in
  let follow_current := history_cnt s =? window_last_history s in
  let s := if follow_current then s else set_first (set_size s 0) (history_cnt s) in
  let old_window_size := window_size s in
  let s := set_size s (window_size s + calc_window_delta s (window_size s) c) in
  let s := set_history s (updZ (history s) (history_cnt s mod CONSOLE_HISTORY_SIZE) c)
             (wrap32 (history_cnt s + 1)) in
  let s := set_last s (history_cnt s) in
  let s :=
    if max_window_size s <? window_size s then
      let s := fst (move_down_window_start_position s) in
      draw_window (update_window_buffer s)
    else
      let w := clear_cells (window s) old_window_size (window_size s - 1) in
      set_window s (updZ w (window_size s - 1) c) in
  if follow_current then fst (output_window_one_to_vga s (window_size s - 1) c)
  else draw_window (update_window_buffer s).

Definition console_clear (s : console) : console :=
  let s := if console_init_flag s =? 0 then init_console s else s in
  let s := set_first (set_last s (history_cnt s)) (history_cnt s) in
  draw_window (update_window_buffer s).

Definition valid_input_cnt (s : console) (new_input_cnt : Z) : Z :=
  if INPUT_AREA_MAX_ROW <=? inpws_to_rn s new_input_cnt then -1 else 1.

(** [for(..){ vga_write_char(0, i % col, i / col) }] *)
Fixpoint blank_input (n : nat) (s : console) (i : Z) : console :=
  match n with
  | O => s
  | S n => blank_input n (put_vga s 0 (i mod console_max_col s) (i / console_max_col s)) (i + 1)
  end.
(** The loop that redraws the input after it became shorter. *)
Fixpoint redraw_input (n : nat) (s : console) (i : Z) : console :=
  match n with
  | O => s
  | S n =>
      let c := if i <? input_cnt s then nthZ (input_buf s) i else 0 in
      redraw_input n (put_vga s c (i mod console_max_col s) (i / console_max_col s)) (i + 1)
  end.
(** [input_buf[k]]; for an empty input [k] is 2^32-1, outside the buffer, and
    the value is not drawn because the row does not exist. *)
Definition read_input (s : console) (k : Z) : Z :=
  if k <? INPUT_BUF_SIZE then nthZ (input_buf s) k else 0.
Definition draw_input_if_need (s : console) (old_input_cnt : Z) : console :=
  if old_input_cnt <=? input_cnt s then
    let s := blank_input (Z.to_nat (console_max_col s)) s (input_cnt s - input_cnt s mod console_max_col s) in
    let k := wrap32 (input_cnt s - 1) in
    put_vga s (read_input s k) (k mod console_max_col s) (k / console_max_col s)
  else redraw_input (Z.to_nat old_input_cnt) s 0.

Definition check_resize_layout (s : console) (old_input_cnt new_input_cnt : Z) : bool :=
  negb (inpws_to_rn s old_input_cnt =? inpws_to_rn s new_input_cnt).

Definition console_clear_input (s : console) : console :=
  let tmp := input_cnt s in
  let s := set_input s (input_buf s) 0 in
  draw_window (draw_input_if_need s tmp).

Definition console_clear_all (s : console) : console :=
  let s := if console_init_flag s =? 0 then init_console s else s in
  console_clear (console_clear_input s).

Fixpoint flush_loop (n : nat) (s : console) (i : Z) : console :=
  match n with
  | O => s
  | S n => flush_loop n (write_console_one s (nthZ (input_buf s) i)) (i + 1)
  end.
Definition flush_input_buffer (s : console) : console :=
  let s := flush_loop (Z.to_nat (input_cnt s)) s 0 in
  console_clear_input (write_console_one s NL).

Definition get_input_char (s : console) (c : Z) : console :=
  let old_cnt := input_cnt s in
  let new_cnt := wrap32 (input_cnt s + 1) in
  if valid_input_cnt s new_cnt <? 0 then s else
  let s := set_input s (updZ (input_buf s) (input_cnt s) c) new_cnt in
  if check_resize_layout s old_cnt new_cnt then draw_window (draw_input_if_need s old_cnt)
  else put_vga s c (old_cnt mod console_max_col s) (old_cnt / console_max_col s).

Definition modify_input_cnt (s : console) (delta : Z) : console :=
  let old_cnt := input_cnt s in
  let new_cnt := if 0 <? delta then wrap32 (input_cnt s + delta) else wrap32 (input_cnt s - (-1 * delta)) in
  if valid_input_cnt s new_cnt <? 0 then s else
  let s := set_input s (input_buf s) new_cnt in
  let s := draw_input_if_need s old_cnt in
  if check_resize_layout s old_cnt new_cnt then draw_window s else s.

End Console.
End Console.
Import Console.
