(* ===== verification/ConsoleThm.v ===== *)
(** * The console shows its output (theorems on kernel/console.c)

    The reference is the whole output so far ([L]) and the function [layout]
    that breaks a character sequence into rows of cells.  The ring buffer holds
    the last 100 characters of [L]; the window, which is updated cell by cell
    and scrolled by redrawing, always shows the layout of the history from
    [window_first_history] on; the screen shows the window. *)
From S2P Require Import Prelude CMem Sink Console.
Import Vga Console.

(** ** Reference *)

(** How a character of the window is drawn. *)
Definition shown (c : Z) : Z := if c =? NL then 0 else c.

(** Cells of the characters [l] when [n] cells are filled already: a newline
    fills the rest of its row, at least one cell. *)
Fixpoint layout (n : Z) (l : list Z) : list Z :=
  match l with
  | [] => []
  | c :: l =>
      if c =? NL then
        let k := CONSOLE_COL_SIZE - n mod CONSOLE_COL_SIZE in
        replicate (Z.to_nat k) 0 ++ layout (n + k) l
      else c :: layout (n + 1) l
  end.

(** Cells a character takes. *)
Definition width (n c : Z) : Z := if c =? NL then CONSOLE_COL_SIZE - n mod CONSOLE_COL_SIZE else 1.

(** Values set by [init_console] and the sizes of the arrays. *)
Record configured (s : console) : Prop := {
  cfg_col : console_max_col s = CONSOLE_COL_SIZE;
  cfg_row : console_max_row s = CONSOLE_ROW_SIZE;
  cfg_win : max_window_size s = 80;
  cfg_flag : console_init_flag s = 1;
  cfg_history : lenZ (history s) = CONSOLE_HISTORY_SIZE;
  cfg_window : lenZ (window s) = 80;
  cfg_input : lenZ (input_buf s) = INPUT_BUF_SIZE;
  cfg_vcol : max_col (screen s) = VGA_MAX_COL;
  cfg_vrow : max_row (screen s) = VGA_MAX_ROW;
}.

(** The ring buffer holds the last characters of the output [L]. *)
Record holds_log (s : console) (L : list Z) : Prop := {
  log_cnt : history_cnt s = lenZ L;
  log_u32 : lenZ L < 4294967296;
  log_u8 : Forall (fun c => u8 c) L;
  log_ring : forall i, 0 <= i -> lenZ L - CONSOLE_HISTORY_SIZE <= i < lenZ L -> hist s i = nthZ L i;
}.

(** The output from position [i] on. *)
Definition from (i : Z) (L : list Z) : list Z := drop (Z.to_nat i) L.

(** The window shows the layout of the output from [window_first_history] on,
    as far as it fits; when it follows the output, [window_size] is the
    number of cells in use. *)
Record shows (s : console) (L : list Z) : Prop := {
  sh_first : 0 <= window_first_history s <= lenZ L;
  sh_avail : lenZ L - CONSOLE_HISTORY_SIZE <= window_first_history s;
  sh_cells : shown <$> window s =
    take 80 (layout 0 (from (window_first_history s) L) ++ replicate 80 0);
  sh_u8 : Forall (fun c => u8 c) (window s);
  sh_follow : window_last_history s = history_cnt s ->
    window_size s = lenZ (layout 0 (from (window_first_history s) L)) /\ window_size s <= 80;
}.

Definition console_inv (s : console) (L : list Z) : Prop := configured s /\ holds_log s L /\ shows s L.

Ltac cons_consts := unfold CONSOLE_COL_SIZE, CONSOLE_ROW_SIZE, INPUT_BUF_SIZE,
  VGA_MAX_COL, VGA_MAX_ROW, status_bar_lines in *; change CONSOLE_HISTORY_SIZE with 100 in *;
  change VGA_BASE with 3221979136 in *.

(** ** Layout *)

Lemma width_range n c : 1 <= width n c <= 20.
Proof. unfold width. cons_consts. case_if; [|lia]. pose proof (Z.mod_pos_bound n 20 ltac:(lia)). lia. Qed.

Lemma layout_cons n c l :
  layout n (c :: l) = (if c =? NL then replicate (Z.to_nat (width n c)) 0 else [c]) ++ layout (n + width n c) l.
Proof. cbn [layout]. unfold width. by destruct (c =? NL). Qed.

Lemma lenZ_replicate {A} n (x : A) : 0 <= n -> lenZ (replicate (Z.to_nat n) x) = n.
Proof. intros. unfold lenZ. rewrite length_replicate. lia. Qed.

Lemma lenZ_cell n c :
  lenZ (if c =? NL then replicate (Z.to_nat (width n c)) 0 else [c]) = width n c.
Proof.
  pose proof (width_range n c). unfold width in *. case_if; [|done]. apply lenZ_replicate. lia.
Qed.

Lemma lenZ_layout_cons n c l : lenZ (layout n (c :: l)) = width n c + lenZ (layout (n + width n c) l).
Proof. rewrite layout_cons, lenZ_app, lenZ_cell. done. Qed.

Lemma screen_layout_app n l1 l2 : layout n (l1 ++ l2) = layout n l1 ++ layout (n + lenZ (layout n l1)) l2.
Proof.
  revert n. induction l1 as [|c l1 IH]; intros n; cbn [app].
  - simpl. by rewrite lenZ_nil, Z.add_0_r.
  - rewrite (layout_cons n c (l1 ++ l2)), IH, (lenZ_layout_cons n c l1), (layout_cons n c l1), <- app_assoc, Z.add_assoc. done.
Qed.

(** Layout only depends on the column. *)
Lemma layout_mod n n' l : n mod 20 = n' mod 20 -> layout n l = layout n' l.
Proof.
  revert n n'. induction l as [|c l IH]; intros n n' H; [done|]. rewrite !layout_cons.
  assert (Hw : width n c = width n' c) by (unfold width; cons_consts; by rewrite H).
  rewrite Hw. f_equal. apply IH. rewrite (Z.add_mod n), (Z.add_mod n'), H by lia. done.
Qed.

Lemma lenZ_layout_ge n l : lenZ l <= lenZ (layout n l).
Proof.
  revert n. induction l as [|c l IH]; intros n; [done|]. rewrite lenZ_layout_cons, lenZ_cons.
  pose proof (width_range n c). specialize (IH (n + width n c)). lia.
Qed.

(** A full window is full to its last row: a character never sticks out. *)
Lemma width_fits n c : 0 <= n < 80 -> n + width n c <= 80.
Proof.
  unfold width. cons_consts. case_if; [|lia]. intros. Z.to_euclidean_division_equations. lia.
Qed.

(** ** Prefixes of an array *)

Definition pre (w : list Z) (n : Z) : list Z := take (Z.to_nat n) w.

Lemma pre_upd w n x : 0 <= n < lenZ w -> pre (updZ w n x) (n + 1) = pre w n ++ [x].
Proof.
  intros H. unfold pre, updZ, lenZ in *. rewrite (proj2 (Z.ltb_ge n 0)) by lia.
  replace (Z.to_nat (n + 1)) with (S (Z.to_nat n)) by lia.
  rewrite (take_S_r _ _ x) by (rewrite list_lookup_insert_eq; [done|lia]).
  by rewrite take_insert_ge by lia.
Qed.

Lemma drop_updZ (w : list Z) n i x : i < n -> drop (Z.to_nat n) (updZ w i x) = drop (Z.to_nat n) w.
Proof. intros H. unfold updZ. case_if; [done|]. apply drop_insert_lt. lia. Qed.

Lemma Forall_updZ (P : Z -> Prop) w i x : Forall P w -> P x -> Forall P (updZ w i x).
Proof. intros. unfold updZ. case_if; [done|]. by apply Forall_insert. Qed.

Lemma nthZ_pre w n i : 0 <= i < n -> n <= lenZ w -> nthZ w i = nthZ (pre w n) i.
Proof. intros. unfold nthZ, pre. by rewrite lookup_take_lt by lia. Qed.

Lemma zero_rest_spec n w size :
  0 <= size -> size + Z.of_nat n <= lenZ w ->
  lenZ (zero_rest n w size) = lenZ w /\
  pre (zero_rest n w size) (size + Z.of_nat n) = pre w size ++ replicate n 0 /\
  drop (Z.to_nat (size + Z.of_nat n)) (zero_rest n w size) = drop (Z.to_nat (size + Z.of_nat n)) w.
Proof.
  revert w size. induction n as [|n IH]; intros w size H0 Hl; cbn [zero_rest replicate].
  - rewrite Z.add_0_r, app_nil_r. done.
  - destruct (IH (updZ w size 0) (size + 1)) as (H1 & H2 & H3); [lia|rewrite lenZ_updZ; lia|].
    rewrite lenZ_updZ in H1.
    replace (size + Z.of_nat (S n)) with (size + 1 + Z.of_nat n) by lia.
    rewrite H2, H3, pre_upd, <- app_assoc by lia. split_and!; [done|done|apply drop_updZ; lia].
Qed.

Lemma zero_rest_u8 n w size : Forall (fun c => u8 c) w -> Forall (fun c => u8 c) (zero_rest n w size).
Proof. revert w size. induction n; intros w size H; simpl; [done|]. apply IHn, Forall_updZ; [done|lia]. Qed.

(** ** The full redraw: update_window_buffer *)

Lemma pad_line_spec n s w size :
  configured s -> lenZ w = 80 -> 0 <= size <= 80 ->
  (20 - size mod 20) mod 20 <= Z.of_nat n ->
  let r := (20 - size mod 20) mod 20 in
  exists w', pad_line n s w size = (w', size + r) /\ size + r <= 80 /\ lenZ w' = 80 /\
    pre w' (size + r) = pre w size ++ replicate (Z.to_nat r) 0 /\
    (Forall (fun c => u8 c) w -> Forall (fun c => u8 c) w').
Proof.
  intros Hc. revert w size. induction n as [|n IH]; intros w size Hw Hs Hn r.
  - assert (Hr : r = 0) by (unfold r; Z.to_euclidean_division_equations; lia).
    exists w. rewrite Hr, Z.add_0_r. cbn [pad_line]. rewrite app_nil_r. split_and!; [done|lia|done|done|done].
  - cbn [pad_line]. rewrite (cfg_col _ Hc), (cfg_win _ Hc). cons_consts.
    destruct (Z.eqb_spec (size mod 20) 0) as [E|E]; cbn [negb andb].
    + assert (Hr : r = 0) by (unfold r; rewrite E; done).
      exists w. rewrite Hr, Z.add_0_r, app_nil_r. split_and!; [done|lia|done|done|done].
    + assert (size < 80) by (Z.to_euclidean_division_equations; lia).
      rewrite (proj2 (Z.ltb_lt size 80)) by lia.
      assert (Hr : r = 1 + (20 - (size + 1) mod 20) mod 20) by (unfold r; Z.to_euclidean_division_equations; lia).
      destruct (IH (updZ w size 0) (size + 1)) as (w' & H1 & H2 & H3 & H4 & H5);
        [by rewrite lenZ_updZ|lia|fold r in Hn; lia|].
      set (r1 := (20 - (size + 1) mod 20) mod 20) in *.
      replace (size + r) with (size + 1 + r1) by lia. exists w'. split_and!; [done|lia|done| |].
      * rewrite H4, pre_upd by lia. rewrite <- app_assoc. f_equal.
        replace (Z.to_nat r) with (S (Z.to_nat r1)); [done|].
        unfold r1 in *. Z.to_euclidean_division_equations. lia.
      * intros. apply H5, Forall_updZ; [done|lia].
Qed.

Lemma from_cons i L : 0 <= i < lenZ L -> from i L = nthZ L i :: from (i + 1) L.
Proof.
  intros H. unfold from, nthZ, lenZ in *.
  destruct (lookup_lt_is_Some_2 L (Z.to_nat i) ltac:(lia)) as [x Hx]. rewrite Hx. simpl.
  replace (Z.to_nat (i + 1)) with (S (Z.to_nat i)) by lia. by apply drop_S.
Qed.

Lemma from_end i L : lenZ L <= i -> from i L = [].
Proof. intros. unfold from, lenZ in *. apply drop_ge. lia. Qed.

Lemma lenZ_from i L : 0 <= i <= lenZ L -> lenZ (from i L) = lenZ L - i.
Proof. intros. unfold from, lenZ in *. rewrite length_drop. lia. Qed.

(** One round of the fill: a character and, for a newline, its padding. *)
Lemma fill_step s w size c :
  configured s -> lenZ w = 80 -> 0 <= size < 80 -> u8 c ->
  exists w', (let w1 := updZ w size c in
    if nthZ w1 (size + 1 - 1) =? NL then pad_line (Z.to_nat (console_max_col s)) s w1 (size + 1) else (w1, size + 1))
      = (w', size + width size c) /\ lenZ w' = 80 /\
    shown <$> pre w' (size + width size c) =
      (shown <$> pre w size) ++ (if c =? NL then replicate (Z.to_nat (width size c)) 0 else [c]) /\
    (Forall (fun c => u8 c) w -> Forall (fun c => u8 c) w').
Proof.
  intros Hc Hw Hs Hu. cbn zeta. replace (size + 1 - 1) with size by lia.
  rewrite nthZ_updZ_eq by lia. unfold width. destruct (Z.eqb_spec c NL) as [->|Hne].
  - destruct (pad_line_spec (Z.to_nat (console_max_col s)) s (updZ w size NL) (size + 1)) as (w' & H1 & H2 & H3 & H4 & H5);
      [done|by rewrite lenZ_updZ|lia|rewrite (cfg_col _ Hc); cons_consts; Z.to_euclidean_division_equations; lia|].
    set (r := (20 - (size + 1) mod 20) mod 20) in *.
    assert (Hr : CONSOLE_COL_SIZE - size mod CONSOLE_COL_SIZE = 1 + r)
      by (unfold r; cons_consts; Z.to_euclidean_division_equations; lia).
    assert (0 <= r) by (unfold r; apply Z.mod_pos_bound; lia).
    rewrite Hr. replace (size + (1 + r)) with (size + 1 + r) by lia. exists w'. split_and!; [done|done| |].
    + rewrite H4, pre_upd by lia. rewrite !fmap_app, <- app_assoc. f_equal.
      replace (Z.to_nat (1 + r)) with (S (Z.to_nat r)) by lia. simpl. f_equal.
      by rewrite fmap_replicate.
    + intros. apply H5, Forall_updZ; done.
  - exists (updZ w size c). split_and!; [done|by rewrite lenZ_updZ| |intros; by apply Forall_updZ].
    rewrite pre_upd, fmap_app by lia. f_equal. simpl. unfold shown. by rewrite (proj2 (Z.eqb_neq _ _)).
Qed.

Lemma fill_window_spec n s L w size i :
  configured s -> holds_log s L -> lenZ w = 80 -> 0 <= size <= 80 -> 80 - size <= Z.of_nat n ->
  0 <= i <= lenZ L -> lenZ L - CONSOLE_HISTORY_SIZE <= i ->
  exists w' k, fill_window n s w size i = (w', size + lenZ (layout size (take k (from i L))), i + Z.of_nat k) /\
    (k <= length (from i L))%nat /\ size + lenZ (layout size (take k (from i L))) <= 80 /\ lenZ w' = 80 /\
    shown <$> pre w' (size + lenZ (layout size (take k (from i L)))) =
      (shown <$> pre w size) ++ layout size (take k (from i L)) /\
    (k = length (from i L) \/ size + lenZ (layout size (take k (from i L))) = 80) /\
    (Forall (fun c => u8 c) w -> Forall (fun c => u8 c) w').
Proof.
  intros Hc Hlog. revert w size i. induction n as [|n IH]; intros w size i Hw Hs Hn Hi Ha.
  { exists w, 0%nat. cbn [fill_window]. rewrite !take_0. cbn [layout]. rewrite (@lenZ_nil Z), !Z.add_0_r, app_nil_r.
    split_and!; [done|lia|lia|done|done|right; lia|done]. }
  cbn [fill_window]. rewrite (cfg_win _ Hc), (log_cnt _ _ Hlog).
  destruct (Z.ltb_spec size 80) as [Hlt|]; cbn [andb].
  2:{ exists w, 0%nat. rewrite !take_0. cbn [layout]. rewrite (@lenZ_nil Z), !Z.add_0_r, app_nil_r.
      split_and!; [done|lia|lia|done|done|right; lia|done]. }
  destruct (Z.ltb_spec i (lenZ L)) as [Hil|].
  2:{ exists w, 0%nat. rewrite !take_0. cbn [layout]. rewrite (@lenZ_nil Z), !Z.add_0_r, app_nil_r, from_end by lia.
      split_and!; [done|done|lia|done|done|by left|done]. }
  rewrite (log_ring _ _ Hlog) by lia. set (c := nthZ L i).
  assert (Hu : u8 c) by (apply (proj1 (Forall_forall _ _) (log_u8 _ _ Hlog)), nthZ_elem; lia).
  destruct (fill_step s w size c Hc Hw ltac:(lia) Hu) as (w1 & H1 & H2 & H3 & H4). cbn zeta in H1. rewrite H1.
  pose proof (width_range size c). pose proof (width_fits size c ltac:(lia)).
  destruct (IH w1 (size + width size c) (i + 1)) as (w' & k & E & Hk & Hle & Hl & Hp & Hend & Hu8); [done|lia|lia|lia|lia|].
  exists w', (S k). rewrite (from_cons i L) by lia. fold c. cbn [firstn]. rewrite lenZ_layout_cons, layout_cons, Z.add_assoc.
  rewrite E, Hp, H3, <- app_assoc. cbn [length].
  split_and!; [f_equal; lia|lia|lia|done|done| |auto].
  destruct Hend as [->|]; [by left|right; lia].
Qed.

Lemma fmap_pre_full (w : list Z) : lenZ w = 80 -> pre w 80 = w.
Proof. intros. unfold pre, lenZ in *. apply firstn_all2. lia. Qed.

(** What [update_window_buffer] leaves in the window. *)
Lemma update_window_spec s L :
  configured s -> holds_log s L -> Forall (fun c => u8 c) (window s) ->
  0 <= window_first_history s <= lenZ L -> lenZ L - CONSOLE_HISTORY_SIZE <= window_first_history s ->
  let s' := update_window_buffer s in
  configured s' /\ holds_log s' L /\ shows s' L /\ window_first_history s' = window_first_history s /\
  input_cnt s' = input_cnt s /\ input_buf s' = input_buf s /\ screen s' = screen s /\
  (lenZ (layout 0 (from (window_first_history s) L)) <= 80 -> window_last_history s' = history_cnt s').
Proof.
  intros Hc Hlog Hu Hf Ha. cbn zeta. unfold update_window_buffer. rewrite (cfg_win _ Hc).
  destruct (fill_window_spec (Z.to_nat 80) s L (window s) 0 (window_first_history s))
    as (w' & k & E & Hk & Hle & Hl & Hp & Hend & Hu8); [done|done|apply Hc|lia|lia|done|done|].
  rewrite E. cbn [max_window_size set_last set_size]. rewrite (cfg_win _ Hc).
  set (l := from (window_first_history s) L) in *. rewrite Z.add_0_l in *.
  set (sz := lenZ (layout 0 (take k l))) in *. pose proof (lenZ_nonneg (layout 0 (take k l))) as Hnn. fold sz in Hnn.
  destruct (zero_rest_spec (Z.to_nat (80 - sz)) w' sz) as (Z1 & Z2 & Z3); [lia|lia|].
  replace (sz + Z.of_nat (Z.to_nat (80 - sz))) with 80 in * by lia.
  set (w'' := zero_rest (Z.to_nat (80 - sz)) w' sz) in *. rewrite Hl in Z1.
  assert (Hsplit : layout 0 l = layout 0 (take k l) ++ layout sz (drop k l)).
  { rewrite <- (take_drop k l) at 1. rewrite screen_layout_app, Z.add_0_l. done. }
  assert (Hcells : shown <$> w'' = take 80 (layout 0 l ++ replicate 80 0)).
  { rewrite <- (fmap_pre_full w'' Z1), Z2, fmap_app, Hp, fmap_replicate. cbn [fmap list_fmap].
    change (pre (window s) 0) with (@nil Z). cbn [fmap list_fmap app]. change (shown 0) with 0.
    destruct Hend as [Hall|Hfull].
    - rewrite Hsplit, drop_ge, app_nil_r by lia. fold sz.
      rewrite take_app_ge by (unfold sz, lenZ in *; lia). f_equal.
      rewrite take_replicate. f_equal. unfold sz, lenZ in *. lia.
    - rewrite Hsplit, <- app_assoc, take_app_le by (unfold sz, lenZ in *; lia).
      rewrite Hfull. simpl. rewrite app_nil_r. symmetry. apply firstn_all2. unfold sz, lenZ in *. lia. }
  assert (Hlast : window_first_history s + Z.of_nat k = history_cnt s <-> k = length l).
  { rewrite (log_cnt _ _ Hlog). pose proof (lenZ_from (window_first_history s) L Hf) as Hfl. fold l in Hfl.
    unfold lenZ in *. lia. }
  split_and!; [split; try apply Hc; done|split; apply Hlog| |done|done|done|done|].
  - split; cbn [window_first_history window window_last_history history_cnt window_size set_last set_size set_window]; fold l.
    + done.
    + done.
    + done.
    + apply zero_rest_u8. auto.
    + intros Hk'%Hlast. unfold sz in *. rewrite Hk', firstn_all2 in * by done. done.
  - intros Hfit. cbn [window_last_history history_cnt set_last set_size set_window]. apply Hlast.
    destruct Hend as [|Hfull]; [done|]. rewrite Hsplit, lenZ_app in Hfit. fold sz in Hfit.
    pose proof (lenZ_layout_ge sz (drop k l)). unfold lenZ in *. rewrite length_drop in *. lia.
Qed.

(** ** Rows *)

(** Characters of the first row when [n] columns are left. *)
Fixpoint row_len (n : nat) (l : list Z) : nat :=
  match n, l with
  | S n, c :: l => if c =? NL then 1 else S (row_len n l)
  | _, _ => 0
  end.

Lemma next_line_loop_spec n s L i :
  holds_log s L -> 0 <= i <= lenZ L -> lenZ L - CONSOLE_HISTORY_SIZE <= i ->
  next_line_loop n s i = i + Z.of_nat (row_len n (from i L)).
Proof.
  intros Hlog. revert i. induction n as [|n IH]; intros i Hi Ha; cbn [next_line_loop row_len]; [lia|].
  rewrite (log_cnt _ _ Hlog). destruct (Z.ltb_spec i (lenZ L)).
  - rewrite (from_cons i L), (log_ring _ _ Hlog), Z.eqb_sym by lia. case_if; [lia|]. rewrite IH by lia. lia.
  - rewrite from_end by lia. lia.
Qed.

Lemma row_len_le n l : (row_len n l <= length l)%nat.
Proof. revert l. induction n; intros [|c l]; simpl; try lia. case_if; [lia|]. specialize (IHn l). lia. Qed.

(** Dropping the first row of a text drops the first row of its cells. *)
Lemma row_split n l :
  (n <= 20)%nat -> Z.of_nat n <= lenZ (layout (20 - Z.of_nat n) l) ->
  exists row, lenZ row = Z.of_nat n /\ layout (20 - Z.of_nat n) l = row ++ layout 0 (drop (row_len n l) l).
Proof.
  revert l. induction n as [|n IH]; intros l Hn Hl.
  - exists []. split; [done|]. cbn [row_len drop app]. by apply layout_mod.
  - destruct l as [|c l]; [simpl in Hl; rewrite lenZ_nil in Hl; lia|].
    assert (Hm : (20 - Z.of_nat (S n)) mod 20 = 20 - Z.of_nat (S n)) by (apply Z.mod_small; lia).
    rewrite layout_cons. rewrite lenZ_layout_cons in Hl. cbn [row_len].
    unfold width in *. cons_consts. destruct (c =? NL).
    + rewrite Hm. eexists. split; [|f_equal]; [rewrite lenZ_replicate; lia|].
      cbn [drop]. apply layout_mod. replace (20 - Z.of_nat (S n) + (20 - (20 - Z.of_nat (S n)))) with 20 by lia. done.
    + replace (20 - Z.of_nat (S n) + 1) with (20 - Z.of_nat n) in * by lia.
      destruct (IH l) as (row & H1 & H2); [lia|lia|]. exists (c :: row). rewrite lenZ_cons. split; [lia|].
      rewrite H2. done.
Qed.

Lemma from_app i L c : 0 <= i <= lenZ L -> from i (L ++ [c]) = from i L ++ [c].
Proof. intros. unfold from, lenZ in *. apply drop_app_le. lia. Qed.

Lemma from_add i k L : 0 <= i -> from (i + Z.of_nat k) L = drop k (from i L).
Proof. intros. unfold from. rewrite drop_drop. f_equal. lia. Qed.

(** ** Cells of a text *)

(** The eighty cells a window shows for the text [l]. *)
Definition cells (l : list Z) : list Z := take 80 (layout 0 l ++ replicate 80 0).

Lemma lenZ_cells l : lenZ (cells l) = 80.
Proof. unfold cells, lenZ. rewrite length_take, length_app, length_replicate. lia. Qed.

Lemma nthZ_replicate n i : nthZ (replicate n 0) i = 0.
Proof.
  unfold nthZ. destruct (replicate n 0 !! Z.to_nat i) eqn:E; [|done]. by apply lookup_replicate in E as [-> _].
Qed.

Lemma nthZ_cells l i : 0 <= i < 80 ->
  nthZ (cells l) i = if i <? lenZ (layout 0 l) then nthZ (layout 0 l) i else 0.
Proof.
  intros Hi. unfold cells. change (take 80 ?x) with (pre x 80).
  rewrite <- (nthZ_pre _ 80 i) by (try done; rewrite lenZ_app; pose proof (lenZ_nonneg (layout 0 l)); unfold lenZ at 2; rewrite length_replicate; lia).
  destruct (Z.ltb_spec i (lenZ (layout 0 l))).
  - apply nthZ_app_l; lia.
  - rewrite nthZ_app_r by done. apply nthZ_replicate.
Qed.

(** The cells after one more character that fits. *)
Lemma nthZ_cells_snoc l c i :
  0 <= i < 80 ->
  let ws := lenZ (layout 0 l) in
  nthZ (cells (l ++ [c])) i = if i =? ws + width ws c - 1 then shown c else nthZ (cells l) i.
Proof.
  intros Hi ws. rewrite !nthZ_cells by done. rewrite screen_layout_app, Z.add_0_l, lenZ_app. fold ws.
  pose proof (lenZ_nonneg (layout 0 l)) as Hws. fold ws in Hws.
  rewrite lenZ_layout_cons. cbn [layout]. rewrite lenZ_nil, Z.add_0_r.
  pose proof (width_range ws c). unfold shown.
  destruct (Z.ltb_spec i ws).
  - rewrite (proj2 (Z.ltb_lt i (ws + _))), (proj2 (Z.eqb_neq i _)) by lia. by rewrite nthZ_app_l by lia.
  - assert (Hcell : ws <= i < ws + width ws c ->
      nthZ (layout 0 l ++ (if c =? NL then replicate (Z.to_nat (CONSOLE_COL_SIZE - ws mod CONSOLE_COL_SIZE)) 0 ++ [] else [c])) i =
      if c =? NL then 0 else c).
    { intros Hr. rewrite nthZ_app_r by done. fold ws. unfold width in Hr. destruct (c =? NL).
      - rewrite app_nil_r. apply nthZ_replicate.
      - by replace (i - ws) with 0 by lia. }
    destruct (Z.ltb_spec i (ws + width ws c)).
    + rewrite Hcell by lia. unfold width in *. destruct (c =? NL); [by destruct (i =? _)|].
      by rewrite (proj2 (Z.eqb_eq i _)) by lia.
    + by rewrite (proj2 (Z.eqb_neq i _)) by lia.
Qed.

Lemma nthZ_shown w i : nthZ (shown <$> w) i = shown (nthZ w i).
Proof. unfold nthZ. rewrite list_lookup_fmap. by destruct (w !! Z.to_nat i). Qed.

Lemma nthZ_zero_rest n w size i :
  0 <= size -> 0 <= i -> size + Z.of_nat n <= lenZ w ->
  nthZ (zero_rest n w size) i = if (size <=? i) && (i <? size + Z.of_nat n) then 0 else nthZ w i.
Proof.
  revert w size. induction n as [|n IH]; intros w size Hs Hi Hl; cbn [zero_rest].
  - destruct ((size <=? i) && (i <? size + Z.of_nat 0)) eqn:E; [|done]. zb. lia.
  - rewrite IH by (rewrite ?lenZ_updZ; lia).
    destruct (Z.leb_spec size i), (Z.leb_spec (size + 1) i), (Z.ltb_spec i (size + 1 + Z.of_nat n)),
      (Z.ltb_spec i (size + Z.of_nat (S n))); cbn [andb]; try lia; try done.
    + rewrite nthZ_updZ_ne by lia. done.
    + replace i with size by lia. apply nthZ_updZ_eq. lia.
    + rewrite nthZ_updZ_ne by lia. done.
Qed.

(** The window after the cell-by-cell update of [write_console_one]. *)
Lemma window_snoc w l c :
  lenZ w = 80 -> shown <$> w = cells l ->
  let ws := lenZ (layout 0 l) in
  ws + width ws c <= 80 ->
  shown <$> updZ (clear_cells w ws (ws + width ws c - 1)) (ws + width ws c - 1) c = cells (l ++ [c]).
Proof.
  intros Hw Hc ws Hfit. pose proof (width_range ws c). pose proof (lenZ_nonneg (layout 0 l)) as Hws. fold ws in Hws.
  unfold clear_cells. destruct (zero_rest_spec (Z.to_nat (ws + width ws c - 1 - ws)) w ws) as (Hl & _); [lia|lia|].
  apply nthZ_ext.
  - unfold lenZ. rewrite length_fmap. fold (lenZ (updZ (zero_rest (Z.to_nat (ws + width ws c - 1 - ws)) w ws) (ws + width ws c - 1) c)).
    fold (lenZ (cells (l ++ [c]))). by rewrite lenZ_updZ, lenZ_cells, Hl.
  - intros i Hi. assert (0 <= i < 80) by (unfold lenZ in Hi; rewrite length_fmap in Hi; revert Hi;
      fold (lenZ (updZ (zero_rest (Z.to_nat (ws + width ws c - 1 - ws)) w ws) (ws + width ws c - 1) c)); rewrite lenZ_updZ, Hl; lia).
    rewrite nthZ_shown, nthZ_cells_snoc by done. fold ws.
    destruct (Z.eqb_spec i (ws + width ws c - 1)) as [->|Hne]; [by rewrite nthZ_updZ_eq by lia|].
    rewrite nthZ_updZ_ne by lia. rewrite nthZ_zero_rest by lia.
    destruct (_ && _) eqn:E.
    + zb. rewrite nthZ_cells by done. fold ws. by rewrite (proj2 (Z.ltb_ge i ws)) by lia.
    + by rewrite <- nthZ_shown, Hc.
Qed.

(** ** The screen *)

Definition vga_ok (v : vga) : Prop := max_col v = VGA_MAX_COL /\ max_row v = VGA_MAX_ROW.
Definition on_screen (x y : Z) : Prop := 0 <= x < VGA_MAX_COL /\ 0 <= y < VGA_MAX_ROW.

Lemma vga_addr_range v x y : vga_ok v -> on_screen x y -> __vga_addr v x y = VGA_BASE + (y * 80 + x) * 2.
Proof.
  intros [Hc _] [Hx Hy]. unfold __vga_addr. rewrite Hc. cons_consts. apply wrap32_small. lia.
Qed.

Lemma vga_write_spec v c x y :
  vga_ok v -> on_screen x y ->
  let v' := fst (vga_write_char v c x y) in
  vga_ok v' /\ forall x' y', on_screen x' y' ->
    vga_cell v' x' y' = if (x =? x') && (y =? y') then wrap8 c else vga_cell v x' y'.
Proof.
  intros Hv Hxy. cbn zeta. unfold vga_write_char. pose proof Hv as [Hc Hr]. pose proof Hxy as [Hx Hy].
  rewrite Hc, Hr. rewrite (proj2 (Z.ltb_ge x 0)), (proj2 (Z.leb_gt _ x)), (proj2 (Z.ltb_ge y 0)), (proj2 (Z.leb_gt _ y)) by lia.
  cbn [orb fst]. split; [done|]. intros x' y' Hxy'. unfold vga_cell. cbn [vram].
  change (__vga_addr (mkVga VGA_MAX_COL VGA_MAX_ROW _) x' y') with (__vga_addr (vga_init v) x' y').
  rewrite !vga_addr_range by done. rewrite load8_store8, !wrap32_small by (unfold on_screen in *; cons_consts; lia).
  unfold on_screen in *. cons_consts.
  destruct (Z.eqb_spec x x'), (Z.eqb_spec y y'); cbn [andb]; [by rewrite decide_True by lia|rewrite decide_False by lia; done..].
Qed.

(** Rows of input above the window. *)
Definition input_rows (s : console) : Z := inpws_to_rn s (input_cnt s) + 1.

(** The screen shows the window below the input rows and above the status bar. *)
Definition screen_shows (s : console) : Prop :=
  forall x y, 0 <= x < 20 -> input_rows s <= y < 5 ->
    vga_cell (screen s) x y = shown (nthZ (window s) ((y - input_rows s) * 20 + x)).

(** [s'] is [s] with another screen that agrees above row [y0]. *)
Definition redrawn (s s' : console) (y0 : Z) : Prop :=
  exists v, s' = set_screen s v /\ vga_ok v /\
    forall x y, on_screen x y -> y < y0 -> vga_cell v x y = vga_cell (screen s) x y.

Lemma configured_vga s : configured s -> vga_ok (screen s).
Proof. intros H. split; apply H. Qed.

Lemma shown_u8 c : u8 c -> wrap8 (shown c) = shown c.
Proof. intros. unfold shown. case_if; [done|]. by apply wrap8_small. Qed.

Lemma nthZ_u8 w i : Forall (fun c => u8 c) w -> u8 (nthZ w i).
Proof.
  intros H. unfold nthZ. destruct (w !! Z.to_nat i) eqn:E; [|simpl; lia]. by apply (Forall_lookup_1 _ _ _ _ H E).
Qed.

(** One window cell on the screen. *)
Lemma output_one_spec s i c :
  configured s -> 0 <= i < 80 -> u8 c -> 1 <= input_rows s ->
  let s' := fst (output_window_one_to_vga s i c) in
  let r := snd (output_window_one_to_vga s i c) in
  (r = -1 <-> 5 <= i / 20 + input_rows s) /\ (r = 0 \/ r = -1) /\
  exists v, s' = set_screen s v /\ vga_ok v /\
    forall x y, on_screen x y -> vga_cell v x y =
      if (x =? i mod 20) && (y =? i / 20 + input_rows s) && (y <? 5) then shown c else vga_cell (screen s) x y.
Proof.
  intros Hc Hi Hu Hr. cbn zeta. pose proof (configured_vga s Hc) as Hv. unfold output_window_one_to_vga.
  rewrite (cfg_col _ Hc), (cfg_row _ Hc). change (wrap32 (CONSOLE_ROW_SIZE - status_bar_lines)) with 5. cons_consts.
  replace (i / 20 + inpws_to_rn s (input_cnt s) + 1) with (i / 20 + input_rows s) by (unfold input_rows; lia).
  assert (Hm : 0 <= i mod 20 < 20) by (apply Z.mod_pos_bound; lia).
  assert (Hd : 0 <= i / 20) by (apply Z.div_pos; lia).
  destruct (Z.leb_spec 5 (i / 20 + input_rows s)) as [Hge|Hlt].
  - cbn [fst snd]. split; [lia|split; [by right|]]. exists (screen s). split_and!; [by destruct s|exact Hv|].
    intros x y _. destruct ((x =? _) && (y =? _) && (y <? 5)) eqn:E; [|done]. zb. lia.
  - assert (Hon : on_screen (i mod 20) (i / 20 + input_rows s)) by (unfold on_screen; cons_consts; lia).
    assert (Hput : forall d, wrap8 d = shown c -> exists v, put_vga s d (i mod 20) (i / 20 + input_rows s) = set_screen s v /\
      vga_ok v /\ forall x y, on_screen x y -> vga_cell v x y =
        if (x =? i mod 20) && (y =? i / 20 + input_rows s) && (y <? 5) then shown c else vga_cell (screen s) x y).
    { intros d Hd'. destruct (vga_write_spec (screen s) d _ _ Hv Hon) as [Hv' Hcell]. eexists. split; [done|]. split; [done|].
      intros x y Hxy. rewrite Hcell by done. rewrite Hd'.
      rewrite (Z.eqb_sym (i mod 20)), (Z.eqb_sym (i / 20 + _)).
      destruct (Z.eqb_spec x (i mod 20)), (Z.eqb_spec y (i / 20 + input_rows s)); cbn [andb]; try done.
      by rewrite (proj2 (Z.ltb_lt y 5)) by lia. }
    pose proof (shown_u8 c Hu) as Hsh. unfold shown in Hput, Hsh |- *.
    destruct (c =? NL); cbn [fst snd]; (split; [lia|split; [by left|by apply Hput]]).
Qed.

Lemma draw_loop_spec n s i :
  configured s -> Forall (fun c => u8 c) (window s) -> 1 <= input_rows s -> 0 <= i -> i + Z.of_nat n = 80 ->
  exists v, draw_loop n s i = set_screen s v /\ vga_ok v /\
    forall x y, on_screen x y -> vga_cell v x y =
      if (x <? 20) && (input_rows s <=? y) && (y <? 5) && (i <=? (y - input_rows s) * 20 + x)
      then shown (nthZ (window s) ((y - input_rows s) * 20 + x)) else vga_cell (screen s) x y.
Proof.
  revert s i. induction n as [|n IH]; intros s i Hc Hu Hr Hi Hn; cbn [draw_loop].
  - exists (screen s). split_and!; [by destruct s|apply (configured_vga s Hc)|].
    intros x y [Hx Hy]. destruct (_ && _) eqn:E; [|done]. zb. lia.
  - destruct (output_one_spec s i (nthZ (window s) i)) as (Hrow & Hret & v & Hs' & Hv & Hcell);
      [done|lia|by apply nthZ_u8|done|].
    destruct (output_window_one_to_vga s i (nthZ (window s) i)) as [s' r]. cbn [fst snd] in *. subst s'.
    assert (Hi20 : i = i / 20 * 20 + i mod 20) by (pose proof (Z.div_mod i 20); lia).
    pose proof (Z.mod_pos_bound i 20 ltac:(lia)).
    destruct Hret as [->| ->]; cbn [Z.ltb Z.compare].
    + destruct (IH (set_screen s v) (i + 1)) as (v' & Hd & Hv' & Hcell'); [|done|done|lia|lia|].
      { destruct Hc. destruct Hv. by split. }
      rewrite Hd. exists v'. split_and!; [done|exact Hv'|]. intros x y Hxy. rewrite Hcell' by done.
      change (input_rows (set_screen s v)) with (input_rows s). cbn [window set_screen screen]. rewrite Hcell by done.
      unfold on_screen in Hxy.
      destruct (Z.ltb_spec x 20), (Z.leb_spec (input_rows s) y), (Z.ltb_spec y 5); cbn [andb];
        try (destruct ((x =? _) && (y =? _)) eqn:E; cbn [andb]; [zb; lia|done]); try done.
      * destruct (Z.leb_spec (i + 1) ((y - input_rows s) * 20 + x)), (Z.leb_spec i ((y - input_rows s) * 20 + x)); try lia; try done.
        -- replace ((y - input_rows s) * 20 + x) with i by lia.
           rewrite (proj2 (Z.eqb_eq x _)), (proj2 (Z.eqb_eq y _)) by lia. done.
        -- destruct ((x =? _) && (y =? _)) eqn:E; cbn [andb]; [zb; lia|done].
    + assert (Hge : 5 <= i / 20 + input_rows s) by (by apply Hrow).
      exists v. split_and!; [done|exact Hv|]. intros x y Hxy. rewrite Hcell by done. unfold on_screen in Hxy.
      destruct ((x =? _) && (y =? _) && (y <? 5)) eqn:E; [zb; lia|].
      destruct (_ && (i <=? _)) eqn:E2; [zb; lia|done].
Qed.

Lemma draw_window_spec s :
  configured s -> Forall (fun c => u8 c) (window s) -> 1 <= input_rows s ->
  redrawn s (draw_window s) (input_rows s) /\ screen_shows (draw_window s).
Proof.
  intros Hc Hu Hr. unfold draw_window. rewrite (cfg_win _ Hc).
  destruct (draw_loop_spec (Z.to_nat 80) s 0) as (v & -> & Hv & Hcell); [done..|lia|].
  split.
  - exists v. split_and!; [done|exact Hv|]. intros x y Hxy Hlt. rewrite Hcell by done.
    by rewrite (proj2 (Z.leb_gt _ y)), andb_false_r by lia.
  - intros x y Hx Hy. change (input_rows (set_screen s v)) with (input_rows s) in *. cbn [screen window set_screen].
    rewrite Hcell by (unfold on_screen; cons_consts; lia).
    rewrite (proj2 (Z.ltb_lt x 20)), (proj2 (Z.leb_le _ y)), (proj2 (Z.ltb_lt y 5)), (proj2 (Z.leb_le 0 _)) by lia. done.
Qed.

Lemma redrawn_inv s s' y0 L : redrawn s s' y0 -> console_inv s L -> console_inv s' L.
Proof.
  intros (v & -> & Hv & _) (Hc & Hl & Hs). split_and!.
  - destruct Hc, Hv. by split.
  - destruct Hl. by split.
  - destruct Hs. by split.
Qed.

(** ** Writing one character *)

Lemma lenZ_snoc (l : list Z) c : lenZ (l ++ [c]) = lenZ l + 1.
Proof. by rewrite lenZ_app. Qed.

Lemma log_push s L c :
  configured s -> holds_log s L -> u8 c -> lenZ L + 1 < 4294967296 ->
  holds_log (set_history s (updZ (history s) (history_cnt s mod CONSOLE_HISTORY_SIZE) c) (wrap32 (history_cnt s + 1)))
    (L ++ [c]).
Proof.
  intros Hcf [Hc Hu Hu8 Hr] Hb Hlen. pose proof (lenZ_nonneg L).
  split; cbn [history_cnt set_history].
  - rewrite Hc, wrap32_small, lenZ_snoc by lia. done.
  - rewrite lenZ_snoc. lia.
  - apply Forall_app. split; [done|]. by constructor.
  - rewrite lenZ_snoc. intros i Hi0 Hi. unfold hist in *. cbn [history set_history]. rewrite Hc.
    pose proof (Z.mod_pos_bound i 100 ltac:(lia)). pose proof (Z.mod_pos_bound (lenZ L) 100 ltac:(lia)).
    pose proof (cfg_history _ Hcf) as Hh. cons_consts.
    destruct (decide (i = lenZ L)) as [->|Hne].
    + rewrite nthZ_updZ_eq by lia. rewrite nthZ_app_r by lia. by rewrite Z.sub_diag.
    + rewrite nthZ_updZ_ne; [|lia|Z.to_euclidean_division_equations; lia].
      rewrite nthZ_app_l by lia. apply Hr; lia.
Qed.

Lemma holds_log_ext s s' L :
  history s' = history s -> history_cnt s' = history_cnt s -> holds_log s L -> holds_log s' L.
Proof. intros Hh Hc [H1 H2 H3 H4]. split; [congruence|done|done|]. unfold hist in *. by rewrite Hh. Qed.

Lemma calc_delta s ws c : configured s -> calc_window_delta s ws c = width ws c.
Proof.
  intros Hc. unfold calc_window_delta, width. rewrite (cfg_col _ Hc). cons_consts. case_if; [|done].
  replace (ws + 20 - 1 + 1) with (ws + 1 * 20) by lia. rewrite Z.mod_add by lia. lia.
Qed.

Lemma row_len_app n l c :
  (n <= 20)%nat -> Z.of_nat n <= lenZ (layout (20 - Z.of_nat n) l) -> row_len n (l ++ [c]) = row_len n l.
Proof.
  revert l. induction n as [|n IH]; intros l Hn Hl; [done|].
  destruct l as [|d l]; [simpl in Hl; rewrite lenZ_nil in Hl; lia|]. cbn [app row_len].
  rewrite lenZ_layout_cons in Hl. unfold width in Hl. destruct (d =? NL); [done|]. f_equal. apply IH; [lia|].
  replace (20 - Z.of_nat (S n) + 1) with (20 - Z.of_nat n) in Hl by lia. lia.
Qed.

(** Writing a cell that already shows the character. *)
Lemma output_same s i c :
  configured s -> 0 <= i < 80 -> u8 c -> 1 <= input_rows s -> screen_shows s ->
  shown (nthZ (window s) i) = shown c ->
  redrawn s (fst (output_window_one_to_vga s i c)) (input_rows s) /\
  screen_shows (fst (output_window_one_to_vga s i c)).
Proof.
  intros Hc Hi Hu Hr Hs He. destruct (output_one_spec s i c Hc Hi Hu Hr) as (_ & _ & v & -> & Hv & Hcell).
  assert (Hi20 : i = i / 20 * 20 + i mod 20) by (pose proof (Z.div_mod i 20); lia).
  assert (0 <= i / 20) by (apply Z.div_pos; lia).
  split.
  - exists v. split_and!; [done|done|]. intros x y Hxy Hlt. rewrite Hcell by done.
    by rewrite (proj2 (Z.eqb_neq y _)), andb_false_r by lia.
  - intros x y Hx Hy. change (input_rows (set_screen s v)) with (input_rows s) in *. cbn [screen window set_screen].
    rewrite Hcell by (unfold on_screen; cons_consts; lia).
    destruct ((x =? _) && (y =? _) && (y <? 5)) eqn:E; [|by apply Hs]. zb.
    by replace ((y - input_rows s) * 20 + x) with i by lia.
Qed.

(** The first row of a full window: at least one character, and sixty cells
    remain after it. *)
Lemma scroll_row l c :
  lenZ (layout 0 l) = 80 ->
  let r := row_len 20 l in
  (1 <= r <= length l)%nat /\ row_len 20 (l ++ [c]) = r /\ lenZ (layout 0 (drop r l)) = 60.
Proof.
  intros Hfull r. split_and!.
  - destruct l as [|d l0]; [simpl in Hfull; rewrite lenZ_nil in Hfull; lia|]. unfold r. simpl. case_if; lia.
  - apply row_len_le.
  - apply (row_len_app 20 l c); [lia|]. change (20 - Z.of_nat 20) with 0. lia.
  - destruct (row_split 20 l) as (row & Hrow & Hsp); [lia|change (20 - Z.of_nat 20) with 0; lia|].
    change (20 - Z.of_nat 20) with 0 in Hsp. apply (f_equal lenZ) in Hsp. rewrite lenZ_app in Hsp. unfold r. lia.
Qed.

(** The window scrolls by one row when the next character does not fit. *)
Lemma scroll_spec s L c :
  let s' := set_last s (history_cnt s) in
  configured s -> holds_log s (L ++ [c]) -> u8 c -> Forall (fun c => u8 c) (window s) ->
  0 <= window_first_history s <= lenZ L -> 1 <= input_rows s ->
  lenZ (layout 0 (from (window_first_history s) L)) = 80 ->
  let s1 := draw_window (update_window_buffer (fst (move_down_window_start_position s'))) in
  let s2 := fst (output_window_one_to_vga s1 (window_size s1 - 1) c) in
  console_inv s2 (L ++ [c]) /\ screen_shows s2 /\ window_last_history s2 = history_cnt s2 /\
  input_cnt s2 = input_cnt s /\ input_buf s2 = input_buf s.
Proof.
  intros s' Hc Hlog Hu Hw Hf Hr Hfull. cbn zeta.
  set (l := from (window_first_history s) L) in *.
  assert (Hl : from (window_first_history s) (L ++ [c]) = l ++ [c]) by (by apply from_app).
  assert (Hlenl : lenZ l = lenZ L - window_first_history s) by (apply lenZ_from; lia).
  assert (Hlen : lenZ L - window_first_history s <= 80) by (pose proof (lenZ_layout_ge 0 l); lia).
  destruct (scroll_row l c Hfull) as ([Hr1 Hrl] & Hrow & H60). set (r := row_len 20 l) in *.
  assert (Hrz : Z.of_nat r <= lenZ l) by (unfold lenZ; lia).
  assert (Hcfg : configured (set_first s' (window_first_history s + Z.of_nat r))) by (destruct Hc; by split).
  assert (Hnext : next_line_start s' (window_first_history s) = window_first_history s + Z.of_nat r).
  { unfold next_line_start. change (console_max_col s') with (console_max_col s). rewrite (cfg_col _ Hc).
    rewrite (next_line_loop_spec _ _ (L ++ [c])); [|by apply (holds_log_ext s)|rewrite lenZ_snoc; cons_consts; lia..].
    rewrite Hl. change (Z.to_nat CONSOLE_COL_SIZE) with 20%nat. by rewrite Hrow. }
  unfold move_down_window_start_position. change (window_first_history s') with (window_first_history s).
  rewrite Hnext, (proj2 (Z.leb_gt _ _)) by lia. cbn [fst]. set (s0 := set_first s' _) in *.
  assert (Hfrom : from (window_first_history s0) (L ++ [c]) = drop r l ++ [c]).
  { cbn [window_first_history set_first s0]. rewrite from_add by lia. rewrite Hl. apply drop_app_le. done. }
  assert (Hwd : 1 <= width 60 c <= 20) by apply width_range.
  assert (Hlay : lenZ (layout 0 (drop r l ++ [c])) = 60 + width 60 c).
  { rewrite screen_layout_app, lenZ_app, Z.add_0_l, H60, lenZ_layout_cons. cbn [layout]. rewrite lenZ_nil. lia. }
  destruct (update_window_spec s0 (L ++ [c])) as (U1 & U2 & U3 & U4 & U5 & U6 & U7 & U8);
    [done|by apply (holds_log_ext s)|done|simpl; rewrite lenZ_snoc; lia|
     simpl; rewrite lenZ_snoc; cons_consts; lia|].
  set (s1 := update_window_buffer s0) in *.
  rewrite Hfrom in U8. specialize (U8 ltac:(lia)).
  destruct (sh_follow _ _ U3 U8) as [Hsz _]. rewrite U4, Hfrom, Hlay in Hsz.
  assert (Hir : input_rows s1 = input_rows s).
  { unfold input_rows, inpws_to_rn. rewrite U5, (cfg_col _ U1), (cfg_col _ Hc). done. }
  destruct (draw_window_spec s1 U1 (sh_u8 _ _ U3)) as [Hd Hscr]; [lia|].
  pose proof (redrawn_inv _ _ _ (L ++ [c]) Hd (conj U1 (conj U2 U3))) as Hinv1.
  destruct Hd as (v & Hd & Hv & _). rewrite Hd in Hinv1, Hscr |- *.
  change (window_size (set_screen s1 v)) with (window_size s1). rewrite Hsz.
  destruct (output_same (set_screen s1 v) (60 + width 60 c - 1) c) as [Hd2 Hscr2].
  - apply Hinv1.
  - lia.
  - done.
  - change (input_rows (set_screen s1 v)) with (input_rows s1). lia.
  - done.
  - cbn [window set_screen]. rewrite <- nthZ_shown, (sh_cells _ _ U3), U4, Hfrom. fold (cells (drop r l ++ [c])).
    rewrite nthZ_cells_snoc by lia. rewrite H60, Z.eqb_refl. done.
  - split_and!; [by apply (redrawn_inv _ _ _ _ Hd2)|done|..]; destruct Hd2 as (v2 & -> & _); [exact U8|exact U5|exact U6].
Qed.

(** The state of a console in use: the log is [L], window and screen show it,
    and the input line fits its two rows. *)
Definition console_ok (s : console) (L : list Z) : Prop :=
  console_inv s L /\ screen_shows s /\ 0 <= input_cnt s <= 40.

Lemma input_rows_range s : configured s -> 0 <= input_cnt s <= 40 -> 1 <= input_rows s <= 2.
Proof.
  intros Hc Hi. unfold input_rows, inpws_to_rn. rewrite (cfg_col _ Hc). cons_consts.
  case_if; [lia|]. Z.to_euclidean_division_equations. lia.
Qed.

(** [s] with the character in the history and [window_size] advanced. *)
Definition pushed (s : console) (c : Z) : console :=
  set_history (set_size s (window_size s + width (window_size s) c))
    (updZ (history s) (history_cnt s mod CONSOLE_HISTORY_SIZE) c) (wrap32 (history_cnt s + 1)).

Lemma pushed_ok s L c :
  configured s -> holds_log s L -> u8 c -> lenZ L + 1 < 4294967296 ->
  configured (pushed s c) /\ holds_log (pushed s c) (L ++ [c]).
Proof.
  intros Hc Hlog Hu Hlen. split; [|eapply holds_log_ext; [..|exact (log_push s L c Hc Hlog Hu Hlen)]; reflexivity].
  destruct Hc. split; try done. cbn [history set_history pushed]. by rewrite lenZ_updZ.
Qed.

(** [pushed] with the new cells written into the window. *)
Definition celled (s : console) (c : Z) : console :=
  let s3 := set_last (pushed s c) (history_cnt (pushed s c)) in
  set_window s3 (updZ (clear_cells (window s3) (window_size s) (window_size s3 - 1)) (window_size s3 - 1) c).

Lemma write_console_one_eq s c :
  configured s ->
  write_console_one s c =
    let follow := history_cnt s =? window_last_history s in
    let s0 := if follow then s else set_first (set_size s 0) (history_cnt s) in
    let s3 := set_last (pushed s0 c) (history_cnt (pushed s0 c)) in
    let s4 := if 80 <? window_size s3
              then draw_window (update_window_buffer (fst (move_down_window_start_position s3)))
              else celled s0 c in
    if follow then fst (output_window_one_to_vga s4 (window_size s4 - 1) c)
    else draw_window (update_window_buffer s4).
Proof.
  intros Hc. unfold write_console_one. rewrite (cfg_flag _ Hc). cbn [Z.eqb].
  set (s0 := if history_cnt s =? window_last_history s then s else _).
  assert (Hc0 : configured s0) by (unfold s0; destruct (_ =? _); [done|destruct Hc; by split]).
  rewrite (calc_delta s0) by done. unfold celled. cbn zeta. fold (pushed s0 c).
  change (max_window_size (set_last ?a ?b)) with (max_window_size s0).
  by rewrite (cfg_win _ Hc0).
Qed.

(** The cells fit: the window shows one more character. *)
Lemma celled_inv s L c :
  console_inv s L -> u8 c -> lenZ L + 1 < 4294967296 -> window_last_history s = history_cnt s ->
  window_size s + width (window_size s) c <= 80 ->
  console_inv (celled s c) (L ++ [c]) /\
  (forall i, 0 <= i < 80 -> shown (nthZ (window (celled s c)) i) =
     if i =? window_size s + width (window_size s) c - 1 then shown c else shown (nthZ (window s) i)).
Proof.
  intros (Hc & Hlog & Hsh) Hu Hlen Hfol Hfit. destruct (pushed_ok s L c Hc Hlog Hu Hlen) as [Hc3 Hlog3].
  destruct Hsh as [Hf Hav Hcells Hu8 Hsz]. destruct (Hsz Hfol) as [Hws _]. fold (cells (from (window_first_history s) L)) in Hcells.
  set (l := from (window_first_history s) L) in *.
  assert (Hl : from (window_first_history (celled s c)) (L ++ [c]) = l ++ [c]) by (by apply from_app).
  assert (Hw : shown <$> window (celled s c) = cells (l ++ [c])).
  { cbn [window celled set_window]. change (window_size (set_last (pushed s c) _)) with (window_size s + width (window_size s) c).
    rewrite Hws. apply window_snoc; [apply Hc|done|by rewrite <- Hws]. }
  assert (Hlw : lenZ (window (celled s c)) = 80).
  { apply (f_equal lenZ) in Hw. rewrite lenZ_cells in Hw. unfold lenZ in *. by rewrite length_fmap in Hw. }
  split.
  - split; [destruct Hc3; by split|]. split; [by apply (holds_log_ext (pushed s c))|]. split.
    + rewrite lenZ_snoc. change (window_first_history (celled s c)) with (window_first_history s). lia.
    + rewrite lenZ_snoc. change (window_first_history (celled s c)) with (window_first_history s).
      pose proof (lenZ_layout_ge 0 l). assert (lenZ l = lenZ L - window_first_history s) by (apply lenZ_from; lia).
      pose proof (width_range (window_size s) c). cons_consts. lia.
    + rewrite Hl. exact Hw.
    + apply Forall_updZ; [|done]. by apply zero_rest_u8.
    + intros _. rewrite Hl. change (window_size (celled s c)) with (window_size s + width (window_size s) c).
      split; [|lia]. rewrite screen_layout_app, lenZ_app, Z.add_0_l, <- Hws, lenZ_layout_cons. cbn [layout].
      rewrite (@lenZ_nil Z). lia.
  - intros i Hi. rewrite <- !nthZ_shown, Hw, Hcells. rewrite nthZ_cells_snoc by done. by rewrite <- Hws.
Qed.

Lemma write_follow s L c :
  console_ok s L -> u8 c -> lenZ L + 1 < 4294967296 -> window_last_history s = history_cnt s ->
  let s' := write_console_one s c in
  console_ok s' (L ++ [c]) /\ window_last_history s' = history_cnt s' /\
  input_cnt s' = input_cnt s /\ input_buf s' = input_buf s.
Proof.
  intros (Hinv & Hscr & Hin) Hu Hlen Hfol. cbn zeta. pose proof Hinv as (Hc & Hlog & Hsh).
  pose proof (input_rows_range s Hc Hin) as Hir. pose proof (sh_follow _ _ Hsh Hfol) as [Hws Hle].
  pose proof (width_range (window_size s) c) as Hwd. pose proof (lenZ_nonneg (layout 0 (from (window_first_history s) L))).
  rewrite write_console_one_eq by done. cbn zeta. rewrite Hfol, Z.eqb_refl.
  change (window_size (set_last (pushed s c) _)) with (window_size s + width (window_size s) c).
  destruct (Z.ltb_spec 80 (window_size s + width (window_size s) c)) as [Hover|Hfit].
  - assert (H80 : window_size s = 80).
    { destruct (decide (window_size s < 80)); [|lia]. pose proof (width_fits (window_size s) c ltac:(lia)). lia. }
    destruct (pushed_ok s L c Hc Hlog Hu Hlen) as [Hc3 Hlog3].
    destruct (scroll_spec (pushed s c) L c) as (H1 & H2 & H3 & H4 & H5);
      [done|done|done|apply Hsh|apply Hsh|exact (proj1 Hir)| |].
    { change (window_first_history (pushed s c)) with (window_first_history s). lia. }
    split; [|done]. split; [done|]. split; [done|]. rewrite H4. apply Hin.
  - destruct (celled_inv s L c Hinv Hu Hlen Hfol Hfit) as [Hinv4 Hwin].
    change (window_size (celled s c)) with (window_size s + width (window_size s) c).
    set (i := window_size s + width (window_size s) c - 1) in *.
    destruct (output_one_spec (celled s c) i c (proj1 Hinv4)) as (_ & _ & v & -> & Hv & Hcell); [lia|done|exact (proj1 Hir)|].
    change (input_rows (celled s c)) with (input_rows s) in Hcell. change (screen (celled s c)) with (screen s) in Hcell.
    assert (Hi20 : i = i / 20 * 20 + i mod 20) by (pose proof (Z.div_mod i 20); lia).
    pose proof (Z.mod_pos_bound i 20 ltac:(lia)).
    split; [|done]. split; [|split; [|done]].
    + apply (redrawn_inv (celled s c) _ 0); [|done]. exists v. split_and!; [done|done|]. intros x y [_ ?] ?. lia.
    + intros x y Hx Hy. change (input_rows (set_screen (celled s c) v)) with (input_rows s) in *.
      cbn [screen set_screen]. change (window (set_screen (celled s c) v)) with (window (celled s c)).
      rewrite Hcell by (unfold on_screen; cons_consts; lia). rewrite Hwin by lia. rewrite (proj2 (Z.ltb_lt y 5)), andb_true_r by lia.
      destruct (Z.eqb_spec ((y - input_rows s) * 20 + x) i) as [E|E].
      * rewrite (proj2 (Z.eqb_eq x _)), (proj2 (Z.eqb_eq y _)) by lia. done.
      * rewrite Hscr by lia. destruct ((x =? _) && (y =? _)) eqn:E2; [|done]. zb. lia.
Qed.

(** Redrawing the window from [window_first_history]. *)
Lemma refresh_spec s L :
  configured s -> holds_log s L -> Forall (fun c => u8 c) (window s) -> 0 <= input_cnt s <= 40 ->
  0 <= window_first_history s <= lenZ L -> lenZ L - CONSOLE_HISTORY_SIZE <= window_first_history s ->
  let s' := draw_window (update_window_buffer s) in
  console_ok s' L /\ window_first_history s' = window_first_history s /\
  input_cnt s' = input_cnt s /\ input_buf s' = input_buf s /\
  (lenZ (layout 0 (from (window_first_history s) L)) <= 80 -> window_last_history s' = history_cnt s').
Proof.
  intros Hc Hlog Hu Hin Hf Ha. cbn zeta.
  destruct (update_window_spec s L Hc Hlog Hu Hf Ha) as (U1 & U2 & U3 & U4 & U5 & U6 & U7 & U8).
  set (s1 := update_window_buffer s) in *.
  assert (Hir : 1 <= input_rows s1) by (apply input_rows_range; [done|by rewrite U5]).
  destruct (draw_window_spec s1 U1 (sh_u8 _ _ U3) Hir) as [Hd Hscr].
  pose proof (redrawn_inv _ _ _ L Hd (conj U1 (conj U2 U3))) as Hinv.
  destruct Hd as (v & Hd & _). rewrite Hd in *. unfold console_ok.
  split_and!; try done; change (input_cnt (set_screen s1 v)) with (input_cnt s1); rewrite U5; apply Hin.
Qed.

Lemma write_unfollow s L c :
  console_ok s L -> u8 c -> lenZ L + 1 < 4294967296 -> window_last_history s <> history_cnt s ->
  let s' := write_console_one s c in
  console_ok s' (L ++ [c]) /\ window_last_history s' = history_cnt s' /\
  input_cnt s' = input_cnt s /\ input_buf s' = input_buf s.
Proof.
  intros (Hinv & Hscr & Hin) Hu Hlen Hfol. cbn zeta. pose proof Hinv as (Hc & Hlog & Hsh).
  rewrite write_console_one_eq by done. cbn zeta. rewrite (proj2 (Z.eqb_neq (history_cnt s) _)) by congruence.
  set (s0 := set_first (set_size s 0) (history_cnt s)).
  assert (Hc0 : configured s0) by (destruct Hc; by split).
  assert (Hlog0 : holds_log s0 L) by (by apply (holds_log_ext s)).
  destruct (pushed_ok s0 L c Hc0 Hlog0 Hu Hlen) as [Hc3 Hlog3].
  change (window_size (set_last (pushed s0 c) _)) with (0 + width 0 c).
  pose proof (width_range 0 c). rewrite (proj2 (Z.ltb_ge 80 _)) by lia.
  assert (Hlw : lenZ (window (celled s0 c)) = 80).
  { cbn [window celled set_window]. change (window_size (set_last (pushed s0 c) _)) with (0 + width 0 c). rewrite lenZ_updZ.
    unfold clear_cells. change (window_size s0) with 0.
    destruct (zero_rest_spec (Z.to_nat (0 + width 0 c - 1 - 0)) (window s) 0) as (Hz & _);
      [lia|rewrite (cfg_window _ Hc); lia|]. etransitivity; [exact Hz|apply Hc]. }
  pose proof (log_cnt _ _ Hlog) as Hcnt. pose proof (lenZ_nonneg L).
  destruct (refresh_spec (celled s0 c) (L ++ [c])) as (R1 & R2 & R3 & R4 & R5).
  - destruct Hc3. by split.
  - by apply (holds_log_ext (pushed s0 c)).
  - apply Forall_updZ; [|done]. apply zero_rest_u8, Hsh.
  - exact Hin.
  - rewrite lenZ_snoc. cbn. lia.
  - rewrite lenZ_snoc. cbn. cons_consts. lia.
  - split_and!; [done| |done|done]. apply R5. change (window_first_history (celled s0 c)) with (history_cnt s).
    rewrite from_app by lia. rewrite from_end by lia. cbn [app]. rewrite lenZ_layout_cons. cbn [layout].
    rewrite (@lenZ_nil Z). lia.
Qed.

Lemma write_console_spec s L c :
  console_ok s L -> u8 c -> lenZ L + 1 < 4294967296 ->
  let s' := write_console_one s c in
  console_ok s' (L ++ [c]) /\ window_last_history s' = history_cnt s' /\
  input_cnt s' = input_cnt s /\ input_buf s' = input_buf s.
Proof.
  intros. destruct (decide (window_last_history s = history_cnt s)); [by apply write_follow|by apply write_unfollow].
Qed.

(** ** The input line *)

(** [s'] is [s] with another screen that agrees from row [y0] down. *)
Definition drawn_above (s s' : console) (y0 : Z) : Prop :=
  exists v, s' = set_screen s v /\ vga_ok v /\
    forall x y, on_screen x y -> y0 <= y -> vga_cell v x y = vga_cell (screen s) x y.

Lemma drawn_refl s y0 : configured s -> drawn_above s s y0.
Proof. intros Hc. exists (screen s). split_and!; [by destruct s|by apply configured_vga|done]. Qed.

Lemma drawn_trans s s1 s2 y0 : drawn_above s s1 y0 -> drawn_above s1 s2 y0 -> drawn_above s s2 y0.
Proof.
  intros (v1 & -> & _ & H1) (v2 & -> & Hv2 & H2). exists v2. split_and!; [done|done|].
  intros x y Hxy Hy. rewrite H2 by done. by apply H1.
Qed.

Lemma drawn_cfg s s' y0 : drawn_above s s' y0 -> configured s -> configured s'.
Proof. intros (v & -> & Hv & _) Hc. destruct Hc, Hv. by split. Qed.

Lemma put_vga_drawn s c x y y0 :
  configured s -> 0 <= x -> 0 <= y < y0 \/ VGA_MAX_ROW <= y -> drawn_above s (put_vga s c x y) y0.
Proof.
  intros Hc Hx Hy. pose proof (configured_vga s Hc) as Hv. unfold put_vga.
  destruct (decide (on_screen x y)) as [Hon|Hoff].
  - destruct (vga_write_spec (screen s) c x y Hv Hon) as [Hv' Hcell]. eexists. split; [done|]. split; [done|].
    intros x' y' Hxy Hy'. rewrite Hcell by done. unfold on_screen in Hon.
    destruct (Z.eqb_spec y y'); [subst; lia|by rewrite andb_false_r].
  - exists (screen s). split_and!; [|done|done]. f_equal. unfold vga_write_char.
    pose proof Hv as [-> ->]. unfold on_screen in Hoff.
    destruct (Z.ltb_spec x 0), (Z.leb_spec VGA_MAX_COL x), (Z.ltb_spec y 0), (Z.leb_spec VGA_MAX_ROW y); try done; lia.
Qed.

Lemma blank_input_drawn n s i y0 :
  configured s -> 0 <= i -> (i + Z.of_nat n <= 20 * y0) -> drawn_above s (blank_input n s i) y0.
Proof.
  revert s i. induction n as [|n IH]; intros s i Hc Hi Hn; cbn [blank_input]; [by apply drawn_refl|].
  rewrite (cfg_col _ Hc). cons_consts.
  assert (Hd : drawn_above s (put_vga s 0 (i mod 20) (i / 20)) y0)
    by (apply put_vga_drawn; [done|Z.to_euclidean_division_equations; lia..]).
  eapply drawn_trans; [exact Hd|]. apply IH; [by apply (drawn_cfg _ _ _ Hd)|lia|lia].
Qed.

Lemma redraw_input_drawn n s i y0 :
  configured s -> 0 <= i -> (i + Z.of_nat n <= 20 * y0) -> drawn_above s (redraw_input n s i) y0.
Proof.
  revert s i. induction n as [|n IH]; intros s i Hc Hi Hn; cbn [redraw_input]; [by apply drawn_refl|].
  rewrite (cfg_col _ Hc). cons_consts.
  assert (Hd : drawn_above s (put_vga s (if i <? input_cnt s then nthZ (input_buf s) i else 0) (i mod 20) (i / 20)) y0)
    by (apply put_vga_drawn; [done|Z.to_euclidean_division_equations; lia..]).
  eapply drawn_trans; [exact Hd|]. apply IH; [by apply (drawn_cfg _ _ _ Hd)|lia|lia].
Qed.

(** Drawing the input line touches at most the rows up to [y0]. *)
Lemma draw_input_drawn s old y0 :
  configured s -> 0 <= input_cnt s <= 40 -> 0 <= old <= 40 ->
  (if old <=? input_cnt s then 60 else old) <= 20 * y0 -> drawn_above s (draw_input_if_need s old) y0.
Proof.
  intros Hc Hi Ho Hy. unfold draw_input_if_need. rewrite (cfg_col _ Hc). cons_consts. destruct (Z.leb_spec old (input_cnt s)).
  - assert (Hb : drawn_above s (blank_input (Z.to_nat 20) s (input_cnt s - input_cnt s mod 20)) y0).
    { apply blank_input_drawn; [done|Z.to_euclidean_division_equations; lia..]. }
    pose proof (drawn_cfg _ _ _ Hb Hc) as Hcb. set (s1 := blank_input _ _ _) in *.
    eapply drawn_trans; [exact Hb|]. rewrite (cfg_col _ Hcb). cons_consts.
    assert (Hic : input_cnt s1 = input_cnt s) by (by destruct Hb as (v & -> & _)). rewrite Hic.
    destruct (decide (input_cnt s = 0)) as [->|].
    + apply put_vga_drawn; [done|by vm_compute|right; by vm_compute].
    + rewrite wrap32_small by lia. apply put_vga_drawn; [done|Z.to_euclidean_division_equations; lia..].
  - apply redraw_input_drawn; [done|lia|lia].
Qed.

Lemma drawn_inv s s' y0 L : drawn_above s s' y0 -> console_inv s L -> console_inv s' L.
Proof.
  intros (v & -> & Hv & _) Hi. apply (redrawn_inv s _ 0); [|done]. exists v. split_and!; [done|done|].
  intros x y [_ ?] ?. lia.
Qed.

Lemma drawn_shows s s' :
  0 <= input_rows s -> drawn_above s s' (input_rows s) -> screen_shows s -> screen_shows s'.
Proof.
  intros H0 (v & -> & _ & Hcell) Hs x y Hx Hy. change (input_rows (set_screen s v)) with (input_rows s) in *.
  cbn [screen window set_screen]. rewrite Hcell; [by apply Hs|unfold on_screen; cons_consts; lia|lia].
Qed.

(** Drawing the window after the input line restores the screen. *)
Lemma draw_after_input s L old :
  console_inv s L -> 0 <= input_cnt s <= 40 -> 0 <= old <= 40 ->
  let s' := draw_window (draw_input_if_need s old) in
  console_ok s' L /\ input_cnt s' = input_cnt s /\ input_buf s' = input_buf s /\ window_last_history s' = window_last_history s /\
  history_cnt s' = history_cnt s.
Proof.
  intros Hinv Hi Ho. cbn zeta. pose proof Hinv as (Hc & _).
  assert (Hd : drawn_above s (draw_input_if_need s old) 3) by (apply draw_input_drawn; try done; case_if; lia).
  pose proof (drawn_inv _ _ _ L Hd Hinv) as (Hc1 & Hl1 & Hs1). destruct Hd as (v & Hd & _). rewrite Hd in *.
  destruct (draw_window_spec (set_screen s v) Hc1 (sh_u8 _ _ Hs1)) as [Hr Hscr].
  { apply (input_rows_range (set_screen s v)); done. }
  pose proof (redrawn_inv _ _ _ L Hr (conj Hc1 (conj Hl1 Hs1))) as Hinv2.
  destruct Hr as (v2 & Hr & _). rewrite Hr in *. split; [|done]. split; [done|]. split; [done|exact Hi].
Qed.

(** The text typed so far. *)
Definition input_text (s : console) : list Z := pre (input_buf s) (input_cnt s).

Lemma rn_cases s n : configured s -> 0 <= n <= 4294967295 ->
  inpws_to_rn s n = (if n <=? 20 then 0 else (n - 1) / 20).
Proof. intros Hc Hn. unfold inpws_to_rn. rewrite (cfg_col _ Hc). done. Qed.

Lemma set_input_inv s L b n :
  console_inv s L -> lenZ b = INPUT_BUF_SIZE -> console_inv (set_input s b n) L.
Proof.
  intros (Hc & Hl & Hs) Hb. split_and!; [destruct Hc; by split|destruct Hl; by split|destruct Hs; by split].
Qed.

Lemma get_input_char_spec s L c :
  console_ok s L ->
  let s' := get_input_char s c in
  console_ok s' L /\ input_text s' = (if input_cnt s <? 40 then input_text s ++ [c] else input_text s).
Proof.
  intros (Hinv & Hscr & Hin). cbn zeta. pose proof Hinv as (Hc & _). unfold get_input_char, valid_input_cnt, INPUT_AREA_MAX_ROW.
  rewrite (wrap32_small (input_cnt s + 1)) by lia. rewrite (rn_cases s) by (done || lia).
  destruct (Z.ltb_spec (input_cnt s) 40) as [Hlt|Hge].
  2:{ replace (input_cnt s) with 40 by lia. by cbn. }
  assert (Hv : (2 <=? (if input_cnt s + 1 <=? 20 then 0 else (input_cnt s + 1 - 1) / 20)) = false).
  { apply Z.leb_gt. case_if; [lia|]. Z.to_euclidean_division_equations. lia. }
  rewrite Hv. cbn [Z.ltb Z.compare]. set (s1 := set_input s _ _).
  pose proof (cfg_input _ Hc) as Hib. unfold INPUT_BUF_SIZE in Hib.
  assert (Hinv1 : console_inv s1 L) by (apply set_input_inv; [done|by rewrite lenZ_updZ]).
  assert (Htext : input_text s1 = input_text s ++ [c]) by (apply pre_upd; lia).
  pose proof (proj1 Hinv1) as Hc1. unfold check_resize_layout. rewrite !(rn_cases s1) by (done || lia).
  destruct (negb _) eqn:E.
  - destruct (draw_after_input s1 L (input_cnt s) Hinv1) as (H1 & H2 & H3 & _); [simpl; lia|lia|].
    split; [done|]. unfold input_text in *. by rewrite H2, H3.
  - apply negb_false_iff, Z.eqb_eq in E. rewrite (cfg_col _ Hc1). cons_consts.
    assert (Hrow : input_rows s1 = input_rows s).
    { unfold input_rows. change (input_cnt s1) with (input_cnt s + 1). rewrite (rn_cases s1), (rn_cases s) by (done || lia). lia. }
    assert (Hd : drawn_above s1 (put_vga s1 c (input_cnt s mod 20) (input_cnt s / 20)) (input_rows s1)).
    { apply put_vga_drawn; [done|Z.to_euclidean_division_equations; lia|]. left. rewrite Hrow. unfold input_rows.
      rewrite (rn_cases s) by (done || lia). revert E. case_if; case_if; Z.to_euclidean_division_equations; lia. }
    assert (Hscr1 : screen_shows s1).
    { intros x y. rewrite Hrow. apply Hscr. }
    pose proof (drawn_inv _ _ _ L Hd Hinv1) as Hinv2. pose proof (input_rows_range s Hc Hin). pose proof (drawn_shows s1 _ ltac:(lia) Hd Hscr1) as Hscr2.
    destruct Hd as (v & Hd & _). rewrite Hd in *. split; [|exact Htext]. split; [done|]. split; [done|]. simpl. lia.
Qed.

Lemma backspace_spec s L :
  console_ok s L ->
  let s' := modify_input_cnt s (-1) in
  console_ok s' L /\ input_cnt s' = (if input_cnt s =? 0 then 0 else input_cnt s - 1) /\ input_buf s' = input_buf s.
Proof.
  intros (Hinv & Hscr & Hin). cbn zeta. pose proof Hinv as (Hc & _). unfold modify_input_cnt, valid_input_cnt, INPUT_AREA_MAX_ROW.
  cbn [Z.ltb Z.compare]. change (- (1)) with (-1). change (-1 * -1) with 1.
  destruct (Z.eqb_spec (input_cnt s) 0) as [E0|Hne].
  { rewrite E0. change (wrap32 (0 - 1)) with 4294967295. rewrite (rn_cases s) by (done || lia). by cbn. }
  rewrite (wrap32_small (input_cnt s - 1)) by lia. rewrite (rn_cases s) by (done || lia).
  assert (Hv : (2 <=? (if input_cnt s - 1 <=? 20 then 0 else (input_cnt s - 1 - 1) / 20)) = false).
  { apply Z.leb_gt. case_if; [lia|]. Z.to_euclidean_division_equations. lia. }
  rewrite Hv. cbn [Z.ltb Z.compare]. set (s1 := set_input s _ _).
  assert (Hinv1 : console_inv s1 L) by (apply set_input_inv; [done|apply Hc]).
  pose proof (proj1 Hinv1) as Hc1.
  destruct (check_resize_layout (draw_input_if_need s1 (input_cnt s)) (input_cnt s) (input_cnt s - 1)) eqn:E.
  - destruct (draw_after_input s1 L (input_cnt s) Hinv1) as (H1 & H2 & H3 & _); [simpl; lia|lia|].
    split_and!; [done|by rewrite H2|by rewrite H3].
  - assert (Hd3 : drawn_above s1 (draw_input_if_need s1 (input_cnt s)) 3)
      by (apply draw_input_drawn; [done|simpl; lia|lia|simpl; case_if; lia]).
    pose proof (drawn_cfg _ _ _ Hd3 Hc1) as Hc2. unfold check_resize_layout in E. rewrite !(rn_cases _ _ Hc2) in E by lia.
    apply negb_false_iff, Z.eqb_eq in E.
    assert (Hrow : input_rows s1 = input_rows s).
    { unfold input_rows. change (input_cnt s1) with (input_cnt s - 1). rewrite (rn_cases s1), (rn_cases s) by (done || lia). lia. }
    assert (Hd : drawn_above s1 (draw_input_if_need s1 (input_cnt s)) (input_rows s1)).
    { apply draw_input_drawn; [done|simpl; lia|lia|]. cbn [input_cnt set_input s1]. rewrite (proj2 (Z.leb_gt _ _)) by lia.
      rewrite Hrow. unfold input_rows. rewrite (rn_cases s) by (done || lia). case_if; [lia|]. Z.to_euclidean_division_equations. lia. }
    assert (Hscr1 : screen_shows s1) by (intros x y; rewrite Hrow; apply Hscr).
    pose proof (drawn_inv _ _ _ L Hd Hinv1) as Hinv2. pose proof (input_rows_range s Hc Hin). pose proof (drawn_shows s1 _ ltac:(lia) Hd Hscr1) as Hscr2.
    destruct Hd as (v & Hd & _). rewrite Hd in *. split; [|done]. split; [done|]. split; [done|]. simpl. lia.
Qed.

Lemma clear_input_spec s L :
  console_ok s L ->
  let s' := console_clear_input s in
  console_ok s' L /\ input_cnt s' = 0 /\ input_buf s' = input_buf s.
Proof.
  intros (Hinv & Hscr & Hin). cbn zeta. unfold console_clear_input.
  assert (Hinv1 : console_inv (set_input s (input_buf s) 0) L) by (apply set_input_inv; [done|apply Hinv]).
  destruct (draw_after_input (set_input s (input_buf s) 0) L (input_cnt s) Hinv1) as (H1 & H2 & H3 & _); [simpl; lia|lia|].
  done.
Qed.

Lemma flush_loop_spec n s L i :
  console_ok s L -> 0 <= i -> i + Z.of_nat n <= lenZ (input_buf s) ->
  Forall (fun c => u8 c) (pre (input_buf s) (i + Z.of_nat n)) -> lenZ L + Z.of_nat n < 4294967296 ->
  let s' := flush_loop n s i in
  console_ok s' (L ++ take n (from i (input_buf s))) /\ input_cnt s' = input_cnt s /\ input_buf s' = input_buf s.
Proof.
  revert s L i. induction n as [|n IH]; intros s L i Hok Hi Hn Hu Hlen; cbn [flush_loop].
  - rewrite take_0, app_nil_r. done.
  - set (c := nthZ (input_buf s) i).
    assert (Hc : u8 c).
    { unfold c. rewrite (nthZ_pre _ (i + Z.of_nat (S n))) by lia. by apply nthZ_u8. }
    destruct (write_console_spec s L c Hok Hc) as (H1 & _ & H2 & H3); [lia|].
    destruct (IH (write_console_one s c) (L ++ [c]) (i + 1)) as (H4 & H5 & H6);
      [done|lia|rewrite H3; lia|rewrite H3; by replace (i + 1 + Z.of_nat n) with (i + Z.of_nat (S n)) by lia|
       rewrite lenZ_snoc; lia|].
    rewrite H3 in H4. rewrite (from_cons i) by lia. fold c. cbn [firstn]. rewrite <- app_assoc in H4.
    split_and!; [done|congruence|congruence].
Qed.

Lemma flush_spec s L :
  console_ok s L -> Forall (fun c => u8 c) (input_text s) -> lenZ L + input_cnt s + 1 < 4294967296 ->
  let s' := flush_input_buffer s in
  console_ok s' (L ++ input_text s ++ [NL]) /\ input_cnt s' = 0.
Proof.
  intros Hok Hu Hlen. cbn zeta. pose proof Hok as ((Hc & _) & _ & Hin). pose proof (cfg_input _ Hc) as Hib.
  unfold INPUT_BUF_SIZE in Hib. unfold flush_input_buffer.
  destruct (flush_loop_spec (Z.to_nat (input_cnt s)) s L 0) as (H1 & H2 & H3); [done|lia|lia|..].
  { replace (0 + Z.of_nat (Z.to_nat (input_cnt s))) with (input_cnt s) by lia. exact Hu. }
  { lia. }
  change (take (Z.to_nat (input_cnt s)) (from 0 (input_buf s))) with (input_text s) in H1.
  assert (Ht : lenZ (input_text s) <= input_cnt s) by (unfold input_text, pre, lenZ; rewrite length_take; lia).
  destruct (write_console_spec _ _ NL H1) as (H4 & _ & _ & _); [lia|rewrite lenZ_app; lia|].
  rewrite <- app_assoc in H4. by destruct (clear_input_spec _ _ H4) as (H5 & H6 & _).
Qed.

(** ** Scrolling *)

Lemma prev_line_bounds n s ns m o : m <= o -> m <= prev_line_loop n s ns m o <= o.
Proof.
  revert o. induction n as [|n IH]; intros o Ho; cbn [prev_line_loop]; [lia|].
  destruct (Z.ltb_spec m o); cbn [andb]; [|lia]. destruct (negb _); [|lia]. specialize (IH (o - 1)). lia.
Qed.

Lemma move_up_spec s L :
  console_ok s L ->
  let s' := window_move_up s in
  console_ok s' L /\ window_first_history s' <= window_first_history s /\ input_text s' = input_text s.
Proof.
  intros Hok. pose proof Hok as ((Hc & Hlog & Hsh) & _ & Hin). cbn zeta.
  unfold window_move_up, move_up_window_start_position, prev_line_start.
  pose proof (log_cnt _ _ Hlog) as Hcnt. pose proof (sh_first _ _ Hsh). pose proof (sh_avail _ _ Hsh).
  set (m := if CONSOLE_HISTORY_SIZE <? history_cnt s then _ else 0).
  assert (Hm : 0 <= m <= window_first_history s /\ lenZ L - CONSOLE_HISTORY_SIZE <= m).
  { unfold m. case_if; lia. }
  pose proof (prev_line_bounds (Z.to_nat (console_max_col s)) s (window_first_history s) m (window_first_history s) ltac:(lia)).
  set (n := prev_line_loop _ _ _ _ _) in *.
  destruct (Z.leb_spec (window_first_history s) n); [by cbn|]. cbn [Z.ltb Z.compare].
  destruct (refresh_spec (set_first s n) L) as (R1 & R2 & R3 & R4 & _);
    [destruct Hc; by split|by apply (holds_log_ext s)|apply Hsh|done|simpl; lia|simpl; lia|].
  split_and!; [done|rewrite R2; simpl; lia|]. unfold input_text. by rewrite R3, R4.
Qed.

Lemma move_down_spec s L :
  console_ok s L ->
  let s' := window_move_down s in
  console_ok s' L /\ input_text s' = input_text s /\
  window_first_history s' = window_first_history s + Z.of_nat (row_len 20 (from (window_first_history s) L)).
Proof.
  intros Hok. pose proof Hok as ((Hc & Hlog & Hsh) & _ & Hin). cbn zeta.
  unfold window_move_down, move_down_window_start_position, next_line_start.
  pose proof (sh_first _ _ Hsh). pose proof (sh_avail _ _ Hsh).
  rewrite (cfg_col _ Hc), (next_line_loop_spec _ _ L) by done. change (Z.to_nat CONSOLE_COL_SIZE) with 20%nat.
  set (r := row_len 20 (from (window_first_history s) L)).
  assert (Hr : (r <= length (from (window_first_history s) L))%nat) by apply row_len_le.
  pose proof (lenZ_from (window_first_history s) L ltac:(lia)) as Hl. unfold lenZ in Hl at 1.
  destruct (Z.leb_spec (window_first_history s + Z.of_nat r) (window_first_history s)).
  { replace (Z.of_nat r) with 0 by lia. cbn. rewrite Z.add_0_r. done. }
  cbn [Z.ltb Z.compare].
  destruct (refresh_spec (set_first s (window_first_history s + Z.of_nat r)) L) as (R1 & R2 & R3 & R4 & _);
    [destruct Hc; by split|by apply (holds_log_ext s)|apply Hsh|done|simpl; lia|simpl; lia|].
  split_and!; [done| |rewrite R2; done]. unfold input_text. by rewrite R3, R4.
Qed.

(** ** Start-up *)

Lemma clear_row_spec n v x y :
  vga_ok v -> 0 <= x -> x + Z.of_nat n <= 80 -> 0 <= y < 25 ->
  vga_ok (clear_row n v x y) /\ forall x' y', on_screen x' y' ->
    vga_cell (clear_row n v x y) x' y' =
      if (y' =? y) && (x <=? x') && (x' <? x + Z.of_nat n) then 0 else vga_cell v x' y'.
Proof.
  revert v x. induction n as [|n IH]; intros v x Hv Hx Hn Hy; cbn [clear_row].
  - split; [done|]. intros x' y' _. destruct (_ && _) eqn:E; [|done]. zb. lia.
  - destruct (vga_write_spec v 0 x y Hv) as [Hv1 Hc1]; [unfold on_screen; cons_consts; lia|].
    destruct (IH (fst (vga_write_char v 0 x y)) (x + 1)) as [Hv2 Hc2]; [done|lia|lia|lia|].
    split; [done|]. intros x' y' Hxy. rewrite Hc2, Hc1 by done.
    destruct (Z.eqb_spec y' y), (Z.leb_spec (x + 1) x'), (Z.ltb_spec x' (x + 1 + Z.of_nat n)), (Z.leb_spec x x'),
      (Z.ltb_spec x' (x + Z.of_nat (S n))), (Z.eqb_spec x x'), (Z.eqb_spec y y'); cbn [andb]; try done; lia.
Qed.

Lemma clear_rows_spec n v y :
  vga_ok v -> 0 <= y -> y + Z.of_nat n <= 25 ->
  vga_ok (clear_rows n v y) /\ forall x' y', on_screen x' y' ->
    vga_cell (clear_rows n v y) x' y' = if (y <=? y') && (y' <? y + Z.of_nat n) then 0 else vga_cell v x' y'.
Proof.
  revert v y. induction n as [|n IH]; intros v y Hv Hy Hn; cbn [clear_rows].
  - split; [done|]. intros x' y' _. destruct (_ && _) eqn:E; [|done]. zb. lia.
  - destruct (clear_row_spec (Z.to_nat VGA_MAX_COL) v 0 y Hv) as [Hv1 Hc1]; [lia|cons_consts; lia|lia|].
    destruct (IH (clear_row (Z.to_nat VGA_MAX_COL) v 0 y) (y + 1)) as [Hv2 Hc2]; [done|lia|lia|].
    split; [done|]. intros x' y' Hxy. rewrite Hc2, Hc1 by done. unfold on_screen in Hxy. cons_consts.
    destruct (Z.leb_spec (y + 1) y'), (Z.ltb_spec y' (y + 1 + Z.of_nat n)), (Z.leb_spec y y'),
      (Z.ltb_spec y' (y + Z.of_nat (S n))), (Z.eqb_spec y' y), (Z.leb_spec 0 x'), (Z.ltb_spec x' (0 + Z.of_nat (Z.to_nat 80)));
      cbn [andb]; try done; lia.
Qed.

(** The console of a machine that has just started, with the given contents of
    the blocks that [kmalloc] will return. *)
Definition boot (fresh_window fresh_input : list Z) (vmem : mem) : console :=
  mkConsole 0 0 [] fresh_window 0 0 0 0 0 fresh_input 0 0 (mkVga 0 0 vmem).
(** [main]: [init_console(); vga_clear_all();] *)
Definition start_console (s : console) : console :=
  let s := init_console s in set_screen s (vga_clear_all (screen s)).

Lemma start_spec fresh_input vmem :
  lenZ fresh_input = INPUT_BUF_SIZE ->
  console_ok (start_console (boot (replicate 80 0) fresh_input vmem)) [] /\
  input_text (start_console (boot (replicate 80 0) fresh_input vmem)) = [].
Proof.
  intros Hi. set (s := start_console _). split; [|done].
  destruct (clear_rows_spec (Z.to_nat VGA_MAX_ROW) (vga_init (mkVga 0 0 vmem)) 0) as [Hv Hc]; [done|lia|cons_consts; lia|].
  assert (Hcfg : configured s) by (destruct Hv; by split).
  split; [split; [done|split]|split; [|simpl; lia]].
  - split; [done|done|constructor|]. change (lenZ (@nil Z)) with 0. lia.
  - split; [done|done|by vm_compute| |].
    + apply Forall_replicate. lia.
    + intros _. by vm_compute.
  - intros x y Hx Hy. change (input_rows s) with 1 in *. change (window s) with (replicate 80 0). rewrite nthZ_replicate.
    change (screen s) with (clear_rows (Z.to_nat VGA_MAX_ROW) (vga_init (mkVga 0 0 vmem)) 0).
    rewrite Hc by (unfold on_screen; cons_consts; lia). cons_consts.
    rewrite (proj2 (Z.leb_le 0 y)), (proj2 (Z.ltb_lt y _)) by lia. done.
Qed.

Lemma clear_spec s L :
  console_ok s L ->
  let s' := console_clear s in
  console_ok s' L /\ window_first_history s' = history_cnt s /\ input_text s' = input_text s.
Proof.
  intros Hok. pose proof Hok as ((Hc & Hlog & Hsh) & _ & Hin). cbn zeta. unfold console_clear.
  rewrite (cfg_flag _ Hc). cbn [Z.eqb]. pose proof (log_cnt _ _ Hlog). pose proof (lenZ_nonneg L).
  destruct (refresh_spec (set_first (set_last s (history_cnt s)) (history_cnt s)) L) as (R1 & R2 & R3 & R4 & _);
    [destruct Hc; by split|by apply (holds_log_ext s)|apply Hsh|done|simpl; lia|simpl; cons_consts; lia|].
  split_and!; [done|done|]. unfold input_text. by rewrite R3, R4.
Qed.

(** The console is a character sink. *)
#[export] Program Instance console_sink : CharSink console := {|
  put := write_console_one;
  text_is := console_ok;
  sink_cap := 4294967296;
|}.
Next Obligation. intros s L c Hok Hu Hl. apply (write_console_spec s L c Hok Hu Hl). Qed.

(** ** Refinement *)

(** Everything the kernel does to the console. *)
Inductive event := Out (c : Z) | Key (c : Z) | Backspace | Enter | Up | Down | Clear | ClearAll.

Definition apply_event (s : console) (e : event) : console :=
  match e with
  | Out c => write_console_one s c
  | Key c => get_input_char s c
  | Backspace => modify_input_cnt s (-1)
  | Enter => flush_input_buffer s
  | Up => window_move_up s
  | Down => window_move_down s
  | Clear => console_clear s
  | ClearAll => console_clear_all s
  end.

(** The abstract console: the text output so far and the text typed. *)
Definition spec_event (a : list Z * list Z) (e : event) : list Z * list Z :=
  let '(L, inp) := a in
  match e with
  | Out c => (L ++ [c], inp)
  | Key c => (L, if lenZ inp <? 40 then inp ++ [c] else inp)
  | Backspace => (L, take (Nat.pred (length inp)) inp)
  | Enter => (L ++ inp ++ [NL], [])
  | Up | Down | Clear => (L, inp)
  | ClearAll => (L, [])
  end.

Definition event_ok (e : event) : Prop := match e with Out c | Key c => u8 c | _ => True end.

Definition refines (s : console) (a : list Z * list Z) : Prop :=
  console_ok s (fst a) /\ input_text s = snd a /\ Forall (fun c => u8 c) (snd a).

Lemma lenZ_input_text s : configured s -> 0 <= input_cnt s <= 40 -> lenZ (input_text s) = input_cnt s.
Proof.
  intros Hc Hi. unfold input_text, pre, lenZ. rewrite length_take. pose proof (cfg_input _ Hc) as H.
  unfold lenZ, INPUT_BUF_SIZE in H. lia.
Qed.

Lemma backspace_text s : configured s -> 0 <= input_cnt s <= 40 ->
  pre (input_buf s) (if input_cnt s =? 0 then 0 else input_cnt s - 1) =
    take (Nat.pred (length (input_text s))) (input_text s).
Proof.
  intros Hc Hi. pose proof (lenZ_input_text s Hc Hi) as Hl. unfold lenZ in Hl. unfold input_text at 2, pre.
  rewrite take_take. f_equal. destruct (Z.eqb_spec (input_cnt s) 0); lia.
Qed.

Lemma event_refines s a e :
  refines s a -> event_ok e -> lenZ (fst a) + 41 < 4294967296 -> refines (apply_event s e) (spec_event a e).
Proof.
  destruct a as [L inp]. intros (Hok & Ht & Hu) He Hlen. cbn [fst snd] in *.
  pose proof Hok as ((Hc & _) & _ & Hin). pose proof (lenZ_input_text s Hc Hin) as Hil.
  destruct e as [c|c| | | | | |]; cbn [apply_event spec_event event_ok] in *.
  - destruct (write_console_spec s L c Hok He) as (H1 & _ & H2 & H3); [lia|].
    split_and!; [done| |done]. unfold input_text in *. by rewrite H2, H3.
  - destruct (get_input_char_spec s L c Hok) as (H1 & H2). split; [done|]. cbn [fst snd]. rewrite H2, <- Ht, Hil.
    split; [done|]. rewrite Ht in *. case_if; [|done]. apply Forall_app. split; [done|by constructor].
  - destruct (backspace_spec s L Hok) as (H1 & H2 & H3). split; [done|]. cbn [fst snd].
    unfold input_text at 1. rewrite H2, H3, backspace_text, Ht by done. split; [done|]. by apply Forall_take.
  - rewrite <- Ht in *. destruct (flush_spec s L Hok Hu) as (H1 & H2); [lia|]. split; [done|].
    unfold input_text. rewrite H2. split; [done|constructor].
  - destruct (move_up_spec s L Hok) as (H1 & _ & H2). split_and!; [done|by rewrite H2|done].
  - destruct (move_down_spec s L Hok) as (H1 & H2 & _). split_and!; [done|by rewrite H2|done].
  - destruct (clear_spec s L Hok) as (H1 & _ & H2). split_and!; [done|by rewrite H2|done].
  - unfold console_clear_all. rewrite (cfg_flag _ Hc). cbn [Z.eqb].
    destruct (clear_input_spec s L Hok) as (H1 & H2 & H3). destruct (clear_spec _ L H1) as (H4 & _ & H5).
    split; [done|]. cbn [fst snd]. rewrite H5. unfold input_text. rewrite H2. split; [done|constructor].
Qed.

Lemma spec_event_len a e : lenZ (snd a) <= 40 ->
  lenZ (snd (spec_event a e)) <= 40 /\ lenZ (fst (spec_event a e)) <= lenZ (fst a) + 41.
Proof.
  destruct a as [L inp]. cbn [fst snd]. intros Hi. pose proof (lenZ_nonneg inp).
  destruct e; cbn [spec_event fst snd]; rewrite ?lenZ_app, ?lenZ_snoc; change (lenZ (@nil Z)) with 0; change (lenZ [?x]) with 1; try lia.
  - destruct (Z.ltb_spec (lenZ inp) 40); rewrite ?lenZ_snoc; lia.
  - assert (lenZ (take (Nat.pred (length inp)) inp) <= lenZ inp) by (unfold lenZ; rewrite length_take; lia). lia.
Qed.

(** C2. The console refines a simple text terminal: after any sequence of
    output, key presses, backspaces, Enter, scrolling and clearing, the ring
    buffer holds the last 100 characters of all the output, the window shows
    the rows of that output from its first visible position on, the screen
    shows the window below the input rows, and the input line is what was
    typed and not yet sent (at most 40 characters). *)
Theorem console_refines_terminal s a evs :
  refines s a -> Forall event_ok evs -> lenZ (fst a) + 41 * lenZ evs < 4294967296 ->
  refines (foldl apply_event s evs) (foldl spec_event a evs).
Proof.
  intros Hr Hev. revert s a Hr. induction Hev as [|e evs He Hev IH]; intros s a Hr Hlen; [done|].
  rewrite lenZ_cons in Hlen. pose proof (lenZ_nonneg evs). cbn [foldl].
  pose proof (event_refines s a e Hr He ltac:(lia)) as Hr1. apply IH; [done|].
  pose proof Hr as (((Hc & _) & _ & Hin) & Ht & _). pose proof (lenZ_input_text s Hc Hin) as Hil. rewrite Ht in Hil.
  pose proof (spec_event_len a e ltac:(lia)). lia.
Qed.

Lemma console_refines_terminal_witness :
  refines (foldl apply_event (start_console (boot (replicate 80 0) (replicate 512 0) ∅)) [Key 72; Key 73; Out 33; Backspace; Enter])
    ([33; 72; 10], []).
Proof.
  apply (console_refines_terminal (start_console (boot (replicate 80 0) (replicate 512 0) ∅)) ([], [])
           [Key 72; Key 73; Out 33; Backspace; Enter]).
  - destruct (start_spec (replicate 512 0) ∅) as [H1 H2]; [reflexivity|].
    split; [exact H1|split; [exact H2|constructor]].
  - repeat (constructor; [simpl; lia|]). repeat (constructor; [exact I|]). constructor.
  - reflexivity.
Defined.

(** C34. The cell-by-cell update of [write_console_one] and the full redraw of
    [update_window_buffer] agree: redrawing the window after a write changes
    no visible cell. *)
Theorem incremental_equals_redraw s L c :
  console_ok s L -> u8 c -> lenZ L + 1 < 4294967296 ->
  let s' := write_console_one s c in
  shown <$> window (update_window_buffer s') = shown <$> window s' /\
  window_size (update_window_buffer s') = window_size s' /\
  window_last_history (update_window_buffer s') = window_last_history s'.
Proof.
  intros Hok Hu Hlen. cbn zeta. destruct (write_console_spec s L c Hok Hu Hlen) as (((Hc & Hlog & Hsh) & _ & _) & Hfol & _).
  set (s' := write_console_one s c) in *.
  destruct (update_window_spec s' (L ++ [c])) as (_ & U2 & U3 & U4 & _ & _ & _ & U8); [done|done|apply Hsh..|].
  destruct (sh_follow _ _ Hsh Hfol) as [Hsz Hle]. specialize (U8 ltac:(lia)).
  destruct (sh_follow _ _ U3 U8) as [Hsz' _].
  rewrite (sh_cells _ _ U3), (sh_cells _ _ Hsh), Hsz, Hsz', U4, U8, Hfol, (log_cnt _ _ U2), (log_cnt _ _ Hlog). done.
Qed.

Lemma incremental_equals_redraw_witness :
  let s := start_console (boot (replicate 80 0) (replicate 512 0) ∅) in
  shown <$> window (update_window_buffer (write_console_one s 65)) = shown <$> window (write_console_one s 65).
Proof.
  apply (incremental_equals_redraw _ [] 65); [|lia|reflexivity].
  apply (start_spec (replicate 512 0) ∅). reflexivity.
Defined.

(** After [init_console] and [vga_clear_all] the console is empty and
    consistent, provided the block that [kmalloc] returned for the window was
    zero. *)
Theorem console_starts_empty fresh_input vmem :
  lenZ fresh_input = INPUT_BUF_SIZE ->
  refines (start_console (boot (replicate 80 0) fresh_input vmem)) ([], []).
Proof. intros H. destruct (start_spec fresh_input vmem H). split_and!; [done|done|constructor]. Qed.

(** [init_console] zeroes the history but not the window: if the block of
    the window held the character 'X', pressing Enter once shows it. *)
Theorem uninitialised_window_shown :
  vga_cell (screen (flush_input_buffer (start_console (boot (replicate 80 88) (replicate 512 0) ∅)))) 0 2 = 88.
Proof. vm_compute. reflexivity. Qed.

(** Scrolling moves over whole rows: [window_move_down] drops exactly the
    first row of the window's text when that row is full, so the visible cells
    move up by 20. *)
Theorem window_move_down_one_row s L :
  console_ok s L -> 20 <= lenZ (layout 0 (from (window_first_history s) L)) ->
  exists row, lenZ row = 20 /\
    layout 0 (from (window_first_history s) L) = row ++ layout 0 (from (window_first_history (window_move_down s)) L) /\
    shown <$> window (window_move_down s) = cells (from (window_first_history (window_move_down s)) L).
Proof.
  intros Hok Hl. destruct (move_down_spec s L Hok) as (((_ & _ & Hsh') & _) & _ & Hf). pose proof Hok as ((_ & _ & Hsh) & _).
  pose proof (sh_first _ _ Hsh) as Hr.
  destruct (row_split 20 (from (window_first_history s) L)) as (row & H1 & H2); [lia|exact Hl|].
  exists row. split; [exact H1|]. split; [|apply Hsh'].
  rewrite Hf, from_add by lia. exact H2.
Qed.

Lemma window_move_down_one_row_witness :
  exists s L row, 20 <= lenZ (layout 0 (from (window_first_history s) L)) /\ lenZ row = 20 /\
    layout 0 (from (window_first_history s) L) = row ++ layout 0 (from (window_first_history (window_move_down s)) L).
Proof.
  set (s0 := start_console (boot (replicate 80 0) (replicate 512 0) ∅)).
  assert (H0 : console_ok s0 []) by exact (proj1 (start_spec (replicate 512 0) ∅ eq_refl)).
  assert (H1 : console_ok (puts s0 (replicate 25 65)) ([] ++ replicate 25 65)).
  { apply (@puts_text console console_sink s0 []); [exact H0|apply Forall_replicate; lia|reflexivity]. }
  assert (H2 : window_first_history (puts s0 (replicate 25 65)) = 0) by (vm_compute; reflexivity).
  assert (H3 : 20 <= lenZ (layout 0 (from (window_first_history (puts s0 (replicate 25 65))) ([] ++ replicate 25 65))))
    by (rewrite H2; vm_compute; congruence).
  destruct (window_move_down_one_row _ _ H1 H3) as (row & Hr & He & _).
  exists (puts s0 (replicate 25 65)), ([] ++ replicate 25 65), row.
  split; [exact H3|split; [exact Hr|exact He]].
Defined.
