(* ===== verification/Print.v ===== *)
(** * Formatted output (lib/print.c, lib/varg.h)

    The print routines over any character sink.  Strings and the variable
    arguments of [printf] are read from memory; a local array is a small memory
    of its own, with the array at address [LOCAL].  The fuel bounds the loops
    over strings.  [printf] takes the address of its first variable argument
    ([va_start] of the address of [fmt]); each argument takes four bytes. *)
From S2P Require Import Prelude CMem CString Sink.
From Stdlib Require Import Strings.String Strings.Ascii.
Import CString.
Open Scope list_scope.

Module Print.

(** The characters of a string literal. *)
Definition chars (s : string) : list Z :=
  List.map (fun a => Z.of_N (N_of_ascii a)) (list_ascii_of_string s).

Definition LOCAL : Z := 4096.

(** lib/varg.h: [round_up_pow_2(sizeof(typ),INT_SIZE_2_POW)] *)
Definition round_up_pow_2 (n x : Z) : Z := Z.land (n + Z.shiftl 1 x - 1) (Z.lnot (Z.shiftl 1 x - 1)).
Definition va_next (va size : Z) : Z := va + round_up_pow_2 size 2.

Definition hb_to_hex (b : Z) : Z :=
  if Z.shiftr b 4 <=? 9 then Z.shiftr b 4 + 48 else Z.shiftr b 4 - 10 + 65.
Definition lb_to_hex (b : Z) : Z :=
  if Z.land b 15 <=? 9 then Z.land b 15 + 48 else Z.land b 15 - 10 + 65.

(** The bytes of [x] as [print_hex] visits them, from the highest down. *)
Definition bytes_down (x : Z) : list Z :=
  [wrap8 (x / 16777216); wrap8 (x / 65536); wrap8 (x / 256); wrap8 x].

Section Print.
Context {S : Type} `{CharSink S}.

Definition print_char (s : S) (c : Z) : S := put s c.

Fixpoint print_chars (n : nat) (m : mem) (p i : Z) (s : S) : S :=
  match n with
  | O => s
  | Datatypes.S n => print_chars n m p (i + 1) (print_char s (load8 m (p + i)))
  end.

Fixpoint printstr (fuel : nat) (m : mem) (p : Z) (s : S) : res S :=
  match fuel with
  | O => NoFuel
  | Datatypes.S fuel =>
      if load8 m p =? 0 then Ok s else printstr fuel m (p + 1) (print_char s (load8 m p))
  end.

Definition printl (fuel : nat) (m : mem) (p : Z) (s : S) : res S :=
  s ← printstr fuel m p s;
  Ok (print_char s 10).

(** [printl] of a string literal. *)
Definition printl_lit (t : string) (s : S) : S := puts s (chars t ++ [10]).

Definition _print_byte (b : Z) (s : S) : S := print_char (print_char s (hb_to_hex b)) (lb_to_hex b).

Definition print_byte (x : Z) (s : S) : S := _print_byte x (print_char (print_char s 48) 120).

Definition print_hex (x : Z) (s : S) : S :=
  foldl (fun s b => _print_byte b s) (print_char (print_char s 48) 120) (bytes_down x).

Fixpoint sprint_loop (m : mem) (bs : list Z) (buf cnt : Z) : mem :=
  match bs with
  | [] => m
  | b :: bs =>
      let m := store8 m (buf + cnt) (hb_to_hex b) in
      let m := store8 m (buf + (cnt + 1)) (lb_to_hex b) in
      sprint_loop m bs buf (cnt + 2)
  end.
Definition sprint_hex (m : mem) (x buf : Z) : mem := sprint_loop m (bytes_down x) buf 0.

(** [while( *p ) if(!is_num( *p )) ..; ++p;] *)
Fixpoint all_num (fuel : nat) (m : mem) (p : Z) : res bool :=
  match fuel with
  | O => NoFuel
  | Datatypes.S fuel =>
      if load8 m p =? 0 then Ok true
      else if is_num (load8 m p) =? 0 then Ok false else all_num fuel m (p + 1)
  end.

(** [while( *(p+1) && *p == '0') ++p;] *)
Fixpoint skip_zeros (fuel : nat) (m : mem) (p : Z) : res Z :=
  match fuel with
  | O => NoFuel
  | Datatypes.S fuel =>
      if negb (load8 m (p + 1) =? 0) && (load8 m p =? 48) then skip_zeros fuel m (p + 1) else Ok p
  end.

(** The part of [_print_num] from [output_num] on. *)
Definition output_num (fuel : nat) (num_type num num_str_len zero_flag : Z) (s : S) : res S :=
  let s := if num_type =? 120 then print_char (print_char s 48) 120 else s in
  buf ← (if num_type =? 120 then Ok (sprint_hex ∅ num LOCAL)
         else '(m, _) ← itoa ∅ (sint (wrap32 num)) LOCAL 33; Ok m);
  p ← skip_zeros fuel buf LOCAL;
  if num_str_len =? -1 then printstr fuel buf p s
  else
    num_len ← strlen fuel buf p;
    let len_diff := num_str_len - num_len in
    if 0 <? len_diff then
      let s := if negb (zero_flag =? 0) then puts s (replicate (Z.to_nat len_diff) 48) else s in
      printstr fuel buf p s
    else printstr fuel buf (p + num_len - num_str_len) s.

Definition _print_num (fuel : nat) (m : mem) (fmt num_type num : Z) (s : S) : res S :=
  if (load8 m fmt =? 0) || ((load8 m fmt =? 48) && (load8 m (fmt + 1) =? 0)) then
    output_num fuel num_type num (-1) 0 s
  else
    ok ← all_num fuel m fmt;
    if negb ok then output_num fuel num_type num (-1) 0 (printl_lit "error print num format" s)
    else
      let zero_flag := if load8 m fmt =? 48 then 1 else 0 in
      n ← atoi fuel m (fmt + zero_flag) 10;
      output_num fuel num_type num (sint n) zero_flag s.

(** [while( *p && !is_alpha( *p )) ++p;] *)
Fixpoint find_alpha (fuel : nat) (m : mem) (p : Z) : res Z :=
  match fuel with
  | O => NoFuel
  | Datatypes.S fuel =>
      if negb (load8 m p =? 0) && (is_alpha (load8 m p) =? 0) then find_alpha fuel m (p + 1) else Ok p
  end.

(** Returns the next position of the format (NULL on error) and the next
    argument.  The width between '%' and the letter is copied to the local
    array [buf]. *)
Definition _print_arg_handler (fuel : nat) (m : mem) (fmt va : Z) (s : S) : res (S * Z * Z) :=
  p ← find_alpha fuel m fmt;
  let c := load8 m p in
  if c =? 99 then Ok (print_char s (load8 m va), fmt + (p - fmt) + 1, va_next va 1)
  else if (c =? 120) || (c =? 100) then
    let width := List.map (fun i => load8 m (fmt + Z.of_nat i)) (seq 0 (Z.to_nat (p - fmt))) in
    let buf := write_bytes ∅ LOCAL (width ++ [0]) in
    s ← _print_num fuel buf LOCAL c (load32 m va) s;
    Ok (s, fmt + (p - fmt) + 1, va_next va 4)
  else if c =? 115 then
    s ← printstr fuel m (load32 m va) s;
    Ok (s, fmt + (p - fmt) + 1, va_next va 4)
  else Ok (s, NULL, va).

Fixpoint printf_loop (rounds fuel : nat) (m : mem) (ptr_fmt va : Z) (s : S) : res S :=
  match rounds with
  | O => NoFuel
  | Datatypes.S rounds =>
      if load8 m ptr_fmt =? 0 then Ok s
      else if load8 m ptr_fmt =? 37 then
        '(s, ptr_fmt, va) ← _print_arg_handler fuel m (ptr_fmt + 1) va s;
        if ptr_fmt =? NULL then Ok (printl_lit "printf format error!" s)
        else printf_loop rounds fuel m ptr_fmt va s
      else printf_loop rounds fuel m (ptr_fmt + 1) va (print_char s (load8 m ptr_fmt))
  end.
Definition printf (fuel : nat) (m : mem) (fmt va : Z) (s : S) : res S :=
  if fmt =? NULL then Ok s else printf_loop fuel fuel m fmt va s.

End Print.

(** ** Specification *)

Definition hex_digit (d : Z) : Z := if d <=? 9 then d + 48 else d - 10 + 65.

(** The eight hexadecimal digits of a 32-bit number, highest first. *)
Definition hex8 (x : Z) : list Z :=
  [hex_digit (x / 2^28 mod 16); hex_digit (x / 2^24 mod 16); hex_digit (x / 2^20 mod 16); hex_digit (x / 2^16 mod 16);
   hex_digit (x / 2^12 mod 16); hex_digit (x / 2^8 mod 16); hex_digit (x / 2^4 mod 16); hex_digit (x mod 16)].

(** A digit string without leading zeros, but with at least one digit. *)
Fixpoint strip (l : list Z) : list Z :=
  match l with
  | c :: ((_ :: _) as l') => if c =? 48 then strip l' else l
  | _ => l
  end.

(** A number printed with a width: cut to its last [w] digits, or padded with
    zeros. *)
Definition fit (w : Z) (l : list Z) : list Z :=
  if lenZ l <? w then replicate (Z.to_nat (w - lenZ l)) 48 ++ l
  else drop (Z.to_nat (lenZ l - w)) l.

Definition decimal (n : Z) : list Z := reverse (digits_rev 11 n).

(** One piece of a format string with its argument. *)
Inductive item :=
| Lit (c : Z)
| Chr (c : Z)
| Dec (n : Z)
| Hex (n : Z)
| Str (p : Z) (l : list Z).

Definition item_fmt (i : item) : list Z :=
  match i with
  | Lit c => [c]
  | Chr _ => [37; 99]
  | Dec _ => [37; 100]
  | Hex _ => [37; 120]
  | Str _ _ => [37; 115]
  end.
(** The argument words an item takes. *)
Definition item_arg (i : item) : list Z :=
  match i with Lit _ => [] | Chr c => [c] | Dec n => [n] | Hex n => [n] | Str p _ => [p] end.
Definition item_out (i : item) : list Z :=
  match i with
  | Lit c => [c]
  | Chr c => [c]
  | Dec n => decimal n
  | Hex n => [48; 120] ++ strip (hex8 n)
  | Str _ l => l
  end.
Definition item_ok (m : mem) (i : item) : Prop :=
  match i with
  | Lit c => 0 < c < 256 /\ c <> 37
  | Chr c => u8 c
  | Dec n => 0 <= n < 2147483648
  | Hex n => u32 n
  | Str p l => cstr m p l
  end.

(** The words [ws] are stored from [va] on. *)
Fixpoint words_at (m : mem) (va : Z) (ws : list Z) : Prop :=
  match ws with
  | [] => True
  | w :: ws => load32 m va = w /\ words_at m (va + 4) ws
  end.

End Print.
Import Print.

(** ** Hexadecimal *)

Lemma hb_spec b : u8 b -> hb_to_hex b = hex_digit (b / 16).
Proof. intros. unfold hb_to_hex, hex_digit. by rewrite Z.shiftr_div_pow2 by lia. Qed.
Lemma lb_spec b : u8 b -> lb_to_hex b = hex_digit (b mod 16).
Proof.
  intros. unfold lb_to_hex, hex_digit. change 15 with (Z.ones 4). by rewrite Z.land_ones by lia.
Qed.

Lemma hex_digit_range d : 0 <= d < 16 -> 48 <= hex_digit d <= 70.
Proof. intros. unfold hex_digit. case_if; lia. Qed.
Lemma digit_value_hex d : 0 <= d < 16 -> digit_value (hex_digit d) = d.
Proof.
  intros. unfold digit_value, hex_digit. destruct (Z.leb_spec d 9).
  - rewrite (proj2 (Z.leb_le 48 _)), (proj2 (Z.leb_le _ 57)) by lia. simpl. lia.
  - rewrite (proj2 (Z.leb_gt (d - 10 + 65) 57)), andb_false_r by lia. lia.
Qed.

(** The two digits of byte number [k]. *)
Lemma byte_digits x k :
  0 <= k -> hb_to_hex (wrap8 (x / 2 ^ k)) = hex_digit (x / 2 ^ (k + 4) mod 16) /\
            lb_to_hex (wrap8 (x / 2 ^ k)) = hex_digit (x / 2 ^ k mod 16).
Proof.
  intros Hk. rewrite hb_spec, lb_spec by apply wrap8_range. unfold wrap8. split; f_equal.
  - rewrite Z.pow_add_r, <- Z.div_div by lia. generalize (x / 2 ^ k). intros y. change (2 ^ 4) with 16.
    Z.to_euclidean_division_equations. lia.
  - generalize (x / 2 ^ k). intros y. Z.to_euclidean_division_equations. lia.
Qed.

Lemma bytes_down_hex x :
  List.concat (List.map (fun b => [hb_to_hex b; lb_to_hex b]) (bytes_down x)) = hex8 x.
Proof.
  unfold bytes_down, hex8. cbn [List.map List.concat app].
  change 16777216 with (2 ^ 24). change 65536 with (2 ^ 16). change (wrap8 (x / 256)) with (wrap8 (x / 2 ^ 8)).
  replace (wrap8 x) with (wrap8 (x / 2 ^ 0)) by (f_equal; apply Z.div_1_r).
  destruct (byte_digits x 24 ltac:(lia)) as [-> ->], (byte_digits x 16 ltac:(lia)) as [-> ->],
    (byte_digits x 8 ltac:(lia)) as [-> ->], (byte_digits x 0 ltac:(lia)) as [-> ->].
  by rewrite Z.div_1_r.
Qed.

Lemma hex8_range x : Forall (fun c => 48 <= c <= 70) (hex8 x).
Proof.
  unfold hex8. repeat (constructor; [apply hex_digit_range, Z.mod_pos_bound; lia|]). constructor.
Qed.

Lemma hex8_value x : u32 x -> value_of 16 (hex8 x) = x.
Proof.
  intros Hx. unfold value_of, hex8. cbn [foldl].
  rewrite !digit_value_hex by (apply Z.mod_pos_bound; lia).
  assert (H : forall k, 0 <= k -> x / 2 ^ (k + 4) = x / 2 ^ k / 16)
    by (intros k Hk; rewrite Z.pow_add_r, <- Z.div_div by lia; done).
  pose proof (H 4 ltac:(lia)) as H8. pose proof (H 8 ltac:(lia)) as H12. pose proof (H 12 ltac:(lia)) as H16.
  pose proof (H 16 ltac:(lia)) as H20. pose proof (H 20 ltac:(lia)) as H24. pose proof (H 24 ltac:(lia)) as H28.
  change (4 + 4) with 8 in H8. change (8 + 4) with 12 in H12. change (12 + 4) with 16 in H16.
  change (16 + 4) with 20 in H20. change (20 + 4) with 24 in H24. change (24 + 4) with 28 in H28. rewrite H28, H24, H20, H16, H12, H8. change (2 ^ 4) with 16.
  assert (x / 16 / 16 / 16 / 16 / 16 / 16 / 16 < 16).
  { rewrite !Z.div_div by lia. apply Z.div_lt_upper_bound; lia. }
  set (a := x / 16) in *. set (b := a / 16) in *. set (c := b / 16) in *. set (d := c / 16) in *.
  set (e := d / 16) in *. set (f := e / 16) in *. set (g := f / 16) in *.
  assert (0 <= g) by (unfold g, f, e, d, c, b, a; rewrite !Z.div_div by lia; apply Z.div_pos; lia).
  rewrite (Z.mod_small g) by lia.
  pose proof (Z.div_mod x 16). pose proof (Z.div_mod a 16). pose proof (Z.div_mod b 16). pose proof (Z.div_mod c 16).
  pose proof (Z.div_mod d 16). pose proof (Z.div_mod e 16). pose proof (Z.div_mod f 16).
  fold a in H2. fold b in H3. fold c in H4. fold d in H5. fold e in H6. fold f in H7. fold g in H9. lia.
Qed.

(** ** Strings *)

Section PrintSpec.
Context {S : Type} `{CharSink S}.

Lemma printstr_spec fuel m p l (s : S) :
  cstr m p l -> lenZ l < Z.of_nat fuel -> printstr fuel m p s = Ok (puts s l).
Proof.
  revert fuel p s. induction l as [|c l IH]; intros fuel p s Hc Hf; fuel_cases fuel; cbn [printstr].
  - by rewrite (cstr_nil _ _ Hc).
  - apply cstr_cons in Hc as (-> & Hc0 & Hc). rewrite lenZ_cons in Hf.
    rewrite (proj2 (Z.eqb_neq c 0)) by lia. apply IH; [done|lia].
Qed.

Lemma print_hex_spec x (s : S) : print_hex x s = puts s ([48; 120] ++ hex8 x).
Proof.
  unfold print_hex. rewrite <- bytes_down_hex. rewrite puts_app. cbn [puts foldl]. unfold print_char.
  generalize (put (put s 48) 120). intros s'. unfold bytes_down. done.
Qed.

Lemma skip_zeros_spec fuel m p l :
  cstr m p l -> l <> [] -> lenZ l < Z.of_nat fuel ->
  skip_zeros fuel m p = Ok (p + lenZ l - lenZ (strip l)).
Proof.
  revert fuel p. induction l as [|c l IH]; intros fuel p Hc Hne Hf; [done|]. fuel_cases fuel. cbn [skip_zeros].
  pose proof Hc as Hc'. apply cstr_cons in Hc' as (-> & Hc0 & Hl). rewrite (cstr_byte _ _ _ Hl).
  rewrite lenZ_cons in *. destruct l as [|d l].
  - cbn [Z.eqb negb andb strip]. f_equal. rewrite lenZ_cons. lia.
  - pose proof Hl as (_ & Hd & _)%cstr_cons. rewrite (proj2 (Z.eqb_neq d 0)) by lia. cbn [negb andb].
    change (strip (c :: d :: l)) with (if c =? 48 then strip (d :: l) else c :: d :: l). case_if.
    + rewrite IH by (done || lia). f_equal. lia.
    + f_equal. rewrite !lenZ_cons. lia.
Qed.

Lemma strip_suffix l : exists z, l = z ++ strip l.
Proof.
  induction l as [|c [|d l] IH]; [by exists []|by exists []|].
  change (strip (c :: d :: l)) with (if c =? 48 then strip (d :: l) else c :: d :: l). case_if; [|by exists []].
  destruct IH as [z Hz]. exists (c :: z). cbn [app]. f_equal. exact Hz.
Qed.

Lemma cstr_strip m p l : cstr m p l -> cstr m (p + lenZ l - lenZ (strip l)) (strip l).
Proof.
  intros Hc. destruct (strip_suffix l) as [z Hz].
  replace (p + lenZ l - lenZ (strip l)) with (p + lenZ z).
  - apply cstr_drop. by rewrite <- Hz.
  - rewrite Hz at 1. rewrite lenZ_app. lia.
Qed.

(** The buffer [output_num] prints from: the digits of the number. *)
Definition num_digits (num_type num : Z) : list Z := if num_type =? 120 then hex8 num else decimal num.

Lemma load8_empty a : load8 ∅ a = 0.
Proof. unfold load8. by rewrite lookup_empty. Qed.

Lemma cstr_local l : Forall (fun c => 0 < c < 256) l -> lenZ l < 65536 -> cstr (write_bytes ∅ LOCAL l) LOCAL l.
Proof.
  intros Hl Hn. pose proof (lenZ_nonneg l). unfold LOCAL. split_and!; [|done|lia|lia]. apply bytes_at_app. split.
  - apply bytes_at_write_bytes; [unfold fits; lia|]. eapply Forall_impl; [exact Hl|simpl; lia].
  - split; [|done]. rewrite write_bytes_out by (unfold fits; lia). apply load8_empty.
Qed.

Lemma sprint_loop_spec m bs buf cnt :
  sprint_loop m bs buf cnt =
    write_bytes m (buf + cnt) (List.concat (List.map (fun b => [hb_to_hex b; lb_to_hex b]) bs)).
Proof.
  revert m cnt. induction bs as [|b bs IH]; intros m cnt; cbn [sprint_loop List.map List.concat app write_bytes]; [done|].
  rewrite IH. f_equal; [|lia]. f_equal. lia.
Qed.

Lemma num_buffer num_type num :
  (num_type = 120 /\ u32 num) \/ (num_type <> 120 /\ 0 <= num < 2147483648) ->
  exists buf, (if num_type =? 120 then Ok (sprint_hex ∅ num LOCAL)
               else '(m, _) ← itoa ∅ (sint (wrap32 num)) LOCAL 33; Ok m) = Ok buf /\
    cstr buf LOCAL (num_digits num_type num) /\ num_digits num_type num <> [] /\ lenZ (num_digits num_type num) <= 11.
Proof.
  unfold num_digits. intros [[-> Hn]|[Hne Hn]].
  - cbn [Z.eqb Pos.eqb]. eexists. split; [done|]. split_and!; [|done|done].
    unfold sprint_hex. rewrite sprint_loop_spec, bytes_down_hex, Z.add_0_r. apply cstr_local; [|done].
    eapply Forall_impl; [apply hex8_range|simpl; lia].
  - rewrite (proj2 (Z.eqb_neq _ _)) by done. rewrite wrap32_small by lia.
    unfold sint. rewrite (proj2 (Z.ltb_lt _ _)) by lia.
    destruct (itoa_spec ∅ num LOCAL 33) as (m' & -> & Hc & _); [lia|done|unfold fits, LOCAL; lia|lia|].
    exists m'. cbn [mbind res_bind]. split_and!; [done|done| |].
    + intros He. apply (f_equal List.length) in He. unfold decimal in He. rewrite length_reverse in He.
      pose proof (digits_rev_pos 10 num) as Hp. unfold lenZ in Hp. simpl List.length in He at 2. lia.
    + unfold decimal, lenZ. rewrite length_reverse. pose proof (length_digits_rev 11 num). lia.
Qed.

Definition prefix (num_type : Z) : list Z := if num_type =? 120 then [48; 120] else [].

(** What a number prints as, with or without a width. *)
Definition num_text (num_type num num_str_len zero_flag : Z) : list Z :=
  let d := strip (num_digits num_type num) in
  prefix num_type ++
    (if num_str_len =? -1 then d
     else if lenZ d <? num_str_len then (if zero_flag =? 0 then d else fit num_str_len d)
     else fit num_str_len d).

Definition num_ok (num_type num : Z) : Prop :=
  (num_type = 120 /\ u32 num) \/ (num_type <> 120 /\ 0 <= num < 2147483648).

Lemma output_num_spec fuel num_type num w z (s : S) :
  num_ok num_type num -> w = -1 \/ 0 <= w -> (12 <= fuel)%nat ->
  output_num fuel num_type num w z s = Ok (puts s (num_text num_type num w z)).
Proof.
  intros Hn Hw Hf. unfold output_num, num_text. destruct (num_buffer num_type num Hn) as (buf & -> & Hc & Hne & Hlen).
  set (D := num_digits num_type num) in *. rewrite res_bind_Ok.
  rewrite (skip_zeros_spec fuel buf LOCAL D) by (done || lia). rewrite res_bind_Ok.
  pose proof (cstr_strip _ _ _ Hc) as Hs. set (p := LOCAL + lenZ D - lenZ (strip D)) in *.
  assert (Hls : lenZ (strip D) <= lenZ D).
  { destruct (strip_suffix D) as [y Hy]. rewrite Hy at 2. rewrite lenZ_app. pose proof (lenZ_nonneg y). lia. }
  set (s1 := if num_type =? 120 then _ else s).
  assert (Hs1 : s1 = puts s (prefix num_type)) by (unfold s1, prefix; by destruct (num_type =? 120)).
  clearbody s1. subst s1. rewrite puts_app.
  destruct (Z.eqb_spec w (-1)) as [->|Hw1]; [by rewrite (printstr_spec _ _ _ (strip D)) by (done || lia)|].
  rewrite (strlen_spec _ _ _ (strip D)) by (done || lia). rewrite res_bind_Ok.
  destruct (Z.ltb_spec (lenZ (strip D)) w) as [Hlt|Hge].
  - rewrite (proj2 (Z.ltb_lt 0 _)) by lia. destruct (Z.eqb_spec z 0); cbn [negb].
    + by rewrite (printstr_spec _ _ _ (strip D)) by (done || lia).
    + rewrite (printstr_spec _ _ _ (strip D)) by (done || lia). unfold fit. rewrite (proj2 (Z.ltb_lt _ w)) by lia.
      by rewrite puts_app.
  - rewrite (proj2 (Z.ltb_ge 0 _)) by lia. unfold fit. rewrite (proj2 (Z.ltb_ge _ w)) by lia.
    set (k := Z.to_nat (lenZ (strip D) - w)).
    assert (Hk : lenZ (take k (strip D)) = lenZ (strip D) - w) by (unfold lenZ in *; rewrite length_take; lia).
    rewrite <- (take_drop k (strip D)) in Hs. apply cstr_drop in Hs. rewrite Hk in Hs.
    rewrite (printstr_spec _ _ _ (drop k (strip D))); [done| |unfold lenZ in *; rewrite length_drop; lia].
    by replace (p + lenZ (strip D) - w) with (p + (lenZ (strip D) - w)) by lia.
Qed.

Lemma last_digit fuel a :
  0 < a < 10 ^ Z.of_nat fuel -> exists l c, digits_rev fuel a = l ++ [c] /\ c <> 48.
Proof.
  revert a. induction fuel as [|fuel IH]; intros a Ha; [simpl in Ha; lia|]. cbn [digits_rev].
  rewrite Nat2Z.inj_succ, Z.pow_succ_r in Ha by lia. destruct (Z.eqb_spec (a / 10) 0) as [E|E].
  - exists [], (a mod 10 + 48). split; [done|]. Z.to_euclidean_division_equations. lia.
  - destruct (IH (a / 10)) as (l & c & -> & Hc); [Z.to_euclidean_division_equations; lia|].
    by exists ((a mod 10 + 48) :: l), c.
Qed.

Lemma strip_decimal n : 0 <= n < 2147483648 -> strip (decimal n) = decimal n.
Proof.
  intros Hn. destruct (decide (n = 0)) as [->|]; [done|]. unfold decimal.
  destruct (last_digit 11 n) as (l & c & -> & Hc); [simpl; lia|]. rewrite reverse_snoc.
  destruct (reverse l) as [|d r]; [done|].
  change (strip (c :: d :: r)) with (if c =? 48 then strip (d :: r) else c :: d :: r).
  by rewrite (proj2 (Z.eqb_neq _ _)).
Qed.

(** ** printf *)

Lemma load8_of_load32 m a : load8 m a = load32 m a mod 256.
Proof.
  unfold load32. pose proof (load8_range m a). pose proof (load8_range m (a + 1)).
  pose proof (load8_range m (a + 2)). pose proof (load8_range m (a + 3)).
  Z.to_euclidean_division_equations. lia.
Qed.

(** A conversion without a width, [p] just after the '%'. *)
Lemma arg_letter fuel m p c l :
  cstr m p (c :: l) -> is_alpha c = 1 -> (0 < fuel)%nat -> find_alpha fuel m p = Ok p.
Proof.
  intros Hc Ha Hf. destruct fuel; [lia|]. cbn [find_alpha]. apply cstr_cons in Hc as (-> & _).
  by rewrite Ha, andb_false_r.
Qed.

Lemma print_num_plain fuel t n (s : S) :
  num_ok t n -> (12 <= fuel)%nat ->
  _print_num fuel (write_bytes ∅ LOCAL [0]) LOCAL t n s = Ok (puts s (num_text t n (-1) 0)).
Proof. intros. unfold _print_num. by apply output_num_spec; [|left|]. Qed.

Lemma handler_item fuel m i l p va (s : S) :
  item_ok m i -> (forall c, i <> Lit c) -> cstr m p (item_fmt i ++ l) ->
  words_at m va (item_arg i) -> (12 <= fuel)%nat -> lenZ (item_out i) < Z.of_nat fuel ->
  _print_arg_handler fuel m (p + 1) va s = Ok (puts s (item_out i), p + 2, va + 4).
Proof.
  intros Hok Hlit Hc Hw Hf Hlen. unfold _print_arg_handler.
  destruct i as [c|c|n|n|q t]; [by destruct (Hlit c)|..]; cbn [item_fmt item_arg item_out app words_at] in *;
    destruct Hw as [Hw _]; apply cstr_cons in Hc as (_ & _ & Hc); pose proof Hc as (Hl & _)%cstr_cons.
  all: rewrite (arg_letter _ _ _ _ _ Hc) by (done || lia); rewrite res_bind_Ok, Hl.
  all: replace (p + 1 + (p + 1 - (p + 1)) + 1) with (p + 2) by lia; cbn [Z.eqb Pos.eqb orb].
  - unfold print_char. rewrite load8_of_load32, Hw, Z.mod_small by exact Hok. done.
  - rewrite Z.sub_diag. cbn [Z.to_nat seq List.map app]. rewrite Hw, print_num_plain by (done || by right).
    unfold num_text. cbn [Z.eqb Pos.eqb prefix app num_digits]. by rewrite strip_decimal.
  - rewrite Z.sub_diag. cbn [Z.to_nat seq List.map app]. rewrite Hw, print_num_plain by (done || by left). done.
  - rewrite Hw, (printstr_spec _ _ _ t) by done. done.
Qed.

Lemma printf_loop_spec rounds fuel m items p va (s : S) :
  Forall (item_ok m) items -> cstr m p (List.concat (List.map item_fmt items)) ->
  words_at m va (List.concat (List.map item_arg items)) ->
  (12 <= fuel)%nat -> Forall (fun i => lenZ (item_out i) < Z.of_nat fuel) items -> (List.length items < rounds)%nat ->
  printf_loop rounds fuel m p va s = Ok (puts s (List.concat (List.map item_out items))).
Proof.
  intros Hok. revert rounds p va s. induction Hok as [|i items Hi Hok IH]; intros rounds p va s Hc Hw Hf Hl Hr;
    destruct rounds as [|rounds]; try (simpl in Hr; lia); cbn [printf_loop List.map List.concat] in *.
  - by rewrite (cstr_nil _ _ Hc).
  - apply Forall_cons in Hl as [Hl1 Hl]. cbn [List.length] in Hr. pose proof Hc as (_ & _ & Hp & _).
    assert (Hcase : (exists c, i = Lit c) \/ ~ exists c, i = Lit c) by (destruct i; [by left; eauto|right; intros [? [=]]..]).
    destruct Hcase as [[c ->]|Hn].
    + cbn [item_fmt item_arg item_out app] in *. apply cstr_cons in Hc as (-> & Hc0 & Hc).
      rewrite (proj2 (Z.eqb_neq c 0)), (proj2 (Z.eqb_neq c 37)) by (destruct Hi; lia).
      rewrite IH by (done || lia). done.
    + assert (Hfirst : load8 m p = 37) by (destruct i; [by destruct Hn; eauto|..]; by apply cstr_cons in Hc as (? & _)).
      assert (Hwa : words_at m va (item_arg i) /\ words_at m (va + 4) (List.concat (List.map item_arg items)))
        by (destruct i; [by destruct Hn; eauto|..]; destruct Hw as [Hw1 Hw2]; by split; [split|]).
      rewrite Hfirst. cbn [Z.eqb Pos.eqb].
      rewrite (handler_item _ _ i (List.concat (List.map item_fmt items))); [|done|intros c ->; eauto|done|apply Hwa|done|done].
      rewrite res_bind_Ok. rewrite (proj2 (Z.eqb_neq (p + 2) 0)) by lia. rewrite puts_app.
      apply IH; [|apply Hwa|done|done|lia].
      assert (E2 : lenZ (item_fmt i) = 2) by (destruct i; [by destruct Hn; eauto|done..]).
      rewrite <- E2. by apply cstr_drop.
Qed.

End PrintSpec.
