(* ===== verification/PrintThm.v ===== *)
(** * Printing on the console (theorems on lib/print.c)

    The print routines were specified for any character sink; here the console
    is that sink, so a [printf] in the kernel is a text on the screen. *)
From S2P Require Import Prelude CMem CString Sink Console ConsoleThm Print.
Import CString Console Print.

(** ** Widths *)

Definition is_digits (l : list Z) : Prop := Forall (fun c => 48 <= c <= 57) l.

Lemma all_num_spec fuel m p l :
  cstr m p l -> is_digits l -> lenZ l < Z.of_nat fuel -> all_num fuel m p = Ok true.
Proof.
  intros Hc Hd. revert fuel p Hc. induction Hd as [|c l Hc Hd IH]; intros fuel p Hs Hf; fuel_cases fuel; cbn [all_num].
  - by rewrite (cstr_nil _ _ Hs).
  - apply cstr_cons in Hs as (-> & _ & Hs). rewrite lenZ_cons in Hf. rewrite (proj2 (Z.eqb_neq c 0)) by lia.
    assert (Hn : is_num c = 1).
    { unfold is_num, schar. rewrite (proj2 (Z.ltb_lt c 128)), (proj2 (Z.leb_le 48 c)), (proj2 (Z.leb_le c 57)) by lia. done. }
    rewrite Hn. cbn [Z.eqb]. apply IH; [done|lia].
Qed.

Lemma value_bound l a :
  is_digits l -> 0 <= a -> 0 <= foldl (fun s c => s * 10 + digit_value c) a l < (a + 1) * 10 ^ lenZ l.
Proof.
  intros Hd. revert a. induction Hd as [|c l Hc Hd IH]; intros a Ha; cbn [foldl].
  - change (lenZ (@nil Z)) with 0. lia.
  - assert (Hv : 0 <= digit_value c <= 9).
    { unfold digit_value. rewrite (proj2 (Z.leb_le 48 c)), (proj2 (Z.leb_le c 57)) by lia. simpl. lia. }
    specialize (IH (a * 10 + digit_value c) ltac:(lia)). rewrite lenZ_cons, Z.pow_add_r by (pose proof (lenZ_nonneg l); lia).
    pose proof (lenZ_nonneg l). assert (0 < 10 ^ lenZ l) by (apply Z.pow_pos_nonneg; lia). nia.
Qed.

Lemma value_range l : is_digits l -> lenZ l <= 9 -> 0 <= value_of 10 l < 1000000000.
Proof.
  intros Hd Hl. pose proof (value_bound l 0 Hd ltac:(lia)) as H. unfold value_of.
  assert (10 ^ lenZ l <= 10 ^ 9) by (apply Z.pow_le_mono_r; lia). lia.
Qed.

Lemma lenZ_fit w l : 0 <= w -> lenZ (fit w l) = w.
Proof.
  intros Hw. unfold fit. destruct (Z.ltb_spec (lenZ l) w).
  - rewrite lenZ_app, lenZ_replicate; lia.
  - unfold lenZ in *. rewrite length_drop. lia.
Qed.

Lemma print_num_width {S} `{CharSink S} fuel m fmt t n ds (s : S) :
  num_ok t n -> cstr m fmt (48 :: ds) -> ds <> [] -> is_digits ds -> lenZ ds <= 9 -> (12 <= fuel)%nat ->
  _print_num fuel m fmt t n s =
    Ok (puts s (prefix t ++ fit (value_of 10 ds) (strip (num_digits t n)))).
Proof.
  intros Hn Hc Hne Hd Hl Hf. pose proof Hc as (Hc0 & _ & Hc1)%cstr_cons. unfold _print_num. rewrite Hc0.
  rewrite (cstr_byte _ _ _ Hc1). cbn [Z.eqb Pos.eqb orb andb].
  destruct ds as [|d ds']; [done|]. pose proof Hc1 as (_ & ? & _)%cstr_cons. rewrite (proj2 (Z.eqb_neq d 0)) by lia.
  set (ds := d :: ds') in *.
  rewrite (all_num_spec fuel m fmt (48 :: ds)); [|done|constructor; [lia|done]|rewrite lenZ_cons; lia].
  rewrite res_bind_Ok. cbn [negb].
  rewrite (atoi_spec fuel m (fmt + 1) ds) by (done || lia). rewrite res_bind_Ok.
  rewrite value_of_schar by (eapply Forall_impl; [exact Hd|simpl; lia]).
  pose proof (value_range ds Hd Hl) as Hv. rewrite wrap32_small by lia. unfold sint. rewrite (proj2 (Z.ltb_lt _ _)) by lia.
  rewrite output_num_spec; [|done|right; lia|done]. do 2 f_equal. unfold num_text. f_equal.
  rewrite (proj2 (Z.eqb_neq _ (-1))) by lia. cbn [Z.eqb]. by destruct (_ <? _).
Qed.

(** ** Theorems *)

Lemma item_out_u8 m i : item_ok m i -> Forall (fun c => u8 c) (item_out i).
Proof.
  assert (Hx : forall x, Forall (fun c => u8 c) (hex8 x))
    by (intros x; eapply Forall_impl; [apply hex8_range|simpl; lia]).
  destruct i as [c|c|n|n|p l]; simpl; intros Hi.
  - constructor; [lia|constructor].
  - by constructor.
  - unfold decimal. apply Forall_reverse. eapply Forall_impl; [apply digits_rev_range; lia|simpl; lia].
  - constructor; [lia|constructor; [lia|]]. destruct (strip_suffix (hex8 n)) as [z Hz].
    pose proof (Hx n) as Hn. rewrite Hz in Hn. by apply Forall_app in Hn as [_ Hn].
  - destruct Hi as (_ & Hl & _). eapply Forall_impl; [exact Hl|simpl; lia].
Qed.

Lemma items_out_u8 m items : Forall (item_ok m) items -> Forall (fun c => u8 c) (List.concat (List.map item_out items)).
Proof.
  induction 1 as [|i items Hi H IH]; simpl; [constructor|]. apply Forall_app. split; [by apply (item_out_u8 m)|done].
Qed.



(** [print_hex] round trip: it appends "0x" and eight digits whose value
    in base 16 is the number printed. *)
Theorem print_hex_roundtrip x (s : console) L :
  console_ok s L -> u32 x -> lenZ L + 10 < 4294967296 ->
  exists ds, console_ok (print_hex x s) (L ++ [48; 120] ++ ds) /\ lenZ ds = 8 /\ value_of 16 ds = x.
Proof.
  intros Hs Hx Hl. exists (hex8 x). split_and!; [|done|by apply hex8_value]. rewrite print_hex_spec.
  apply (@puts_text console console_sink); [done| |done].
  constructor; [lia|constructor; [lia|]]. eapply Forall_impl; [apply hex8_range|simpl; lia].
Qed.

Lemma print_hex_roundtrip_witness :
  exists ds, console_ok (print_hex 4096 (start_console (boot (replicate 80 0) (replicate 512 0) ∅))) ([] ++ [48; 120] ++ ds)
    /\ lenZ ds = 8 /\ value_of 16 ds = 4096.
Proof.
  apply (print_hex_roundtrip 4096 _ []); [exact (proj1 (start_spec (replicate 512 0) ∅ eq_refl))|lia|reflexivity].
Defined.

(** A zero-padded width "0N" prints a number in exactly [N] characters
    (after "0x" for hexadecimal): padded with zeros on the left, or cut to its
    last [N] digits. *)
Theorem print_num_zero_padded fuel m fmt t n ds (s : console) L :
  console_ok s L -> num_ok t n -> cstr m fmt (48 :: ds) -> ds <> [] -> is_digits ds -> lenZ ds <= 9 ->
  (12 <= fuel)%nat -> lenZ L + 1000000010 < 4294967296 ->
  exists s' out, _print_num fuel m fmt t n s = Ok s' /\ console_ok s' (L ++ prefix t ++ out) /\
    lenZ out = value_of 10 ds /\ out = fit (value_of 10 ds) (strip (num_digits t n)).
Proof.
  intros Hs Hn Hc Hne Hd Hl Hf Hlen. pose proof (value_range ds Hd Hl) as Hv.
  exists (puts s (prefix t ++ fit (value_of 10 ds) (strip (num_digits t n)))), (fit (value_of 10 ds) (strip (num_digits t n))).
  split; [by apply print_num_width|]. split; [|split; [apply lenZ_fit; lia|done]].
  assert (Hdig : Forall (fun c => u8 c) (strip (num_digits t n))).
  { destruct (strip_suffix (num_digits t n)) as [z Hz].
    assert (Hu : Forall (fun c => u8 c) (num_digits t n)).
    { unfold num_digits. destruct Hn as [[-> _]|[? ?]]; [|rewrite (proj2 (Z.eqb_neq _ _)) by done].
      - eapply Forall_impl; [apply hex8_range|simpl; lia].
      - apply Forall_reverse. eapply Forall_impl; [apply digits_rev_range; lia|simpl; lia]. }
    rewrite Hz in Hu. by apply Forall_app in Hu as [_ Hu]. }
  apply (@puts_text console console_sink); [done| |].
  - apply Forall_app. split; [unfold prefix; case_if; repeat (constructor; [lia|]); constructor|].
    unfold fit. case_if; [apply Forall_app; split; [apply Forall_replicate; lia|done]|by apply Forall_drop].
  - rewrite lenZ_app, lenZ_fit by lia.
    assert (lenZ (prefix t) <= 2) by (unfold prefix; by case_if). cbn [sink_cap console_sink]. lia.
Qed.

Lemma print_num_zero_padded_witness :
  exists s' out, _print_num 20 (write_bytes ∅ 100 [48; 53; 0]) 100 100 42
      (start_console (boot (replicate 80 0) (replicate 512 0) ∅)) = Ok s' /\
    console_ok s' ([] ++ prefix 100 ++ out) /\ lenZ out = 5 /\ out = [48; 48; 48; 52; 50].
Proof.
  apply (print_num_zero_padded 20 (write_bytes ∅ 100 [48; 53; 0]) 100 100 42 [53] _ []).
  - exact (proj1 (start_spec (replicate 512 0) ∅ eq_refl)).
  - right. lia.
  - unfold cstr; split_and!; [vm_compute; tauto|repeat constructor|reflexivity|reflexivity].
  - discriminate.
  - constructor; [lia|constructor].
  - vm_compute. congruence.
  - lia.
  - reflexivity.
Defined.
