(* ===== verification/EarlyConsole.v ===== *)
(** * The console of the early build (kernel/console.c, kernel/vga.c with EARLY_INIT)

    Before paging is on, the map of the kernel is announced on the text screen
    by the same console code, compiled with [EARLY_INIT]: the screen is at its
    physical address, a line has 80 columns and [history] and [window] are
    static arrays.  The instance [early_sink] shows that this build implements
    the interface of [Sink] for the first characters after a reset, in
    particular that they stay inside the arrays and on the screen. *)
From S2P Require Import Prelude CMem Sink Console.
Import Vga Console.
Open Scope list_scope.

#[local] Instance early_build : Build := true.

(** ** The screen *)

(** The character cells, row by row, and the bytes that are not characters. *)
Definition vcell (m : mem) (i : Z) : Z := load8 m (0xB8000 + 2 * i).
Definition no_cell (a : Z) : Prop := u32 a /\ forall i, 0 <= i < 2000 -> a <> 0xB8000 + 2 * i.
Definition same_rest (m m' : mem) : Prop := forall a, no_cell a -> load8 m' a = load8 m a.

#[export] Instance same_rest_preorder : PreOrder same_rest.
Proof. split; [by intros m a|]. intros m1 m2 m3 H1 H2 a Ha. by rewrite H2, H1. Qed.

Definition text_mode (v : vga) : Prop := max_col v = 80 /\ max_row v = 25.

Lemma write_char_cell v c x y :
  text_mode v -> 0 <= x < 80 -> 0 <= y < 25 -> u8 c ->
  let v' := fst (vga_write_char v c x y) in
  text_mode v' /\ same_rest (vram v) (vram v') /\
  forall j, 0 <= j < 2000 -> vcell (vram v') j = if j =? 80 * y + x then c else vcell (vram v) j.
Proof.
  intros [Hc Hr] Hx Hy Hb. unfold vga_write_char. rewrite Hc, Hr.
  rewrite !(proj2 (Z.ltb_ge _ _)), !(proj2 (Z.leb_gt _ _)) by lia. cbn [orb fst max_col max_row vram].
  assert (E : __vga_addr v x y = 0xB8000 + 2 * (80 * y + x)).
  { unfold __vga_addr. rewrite Hc. change VGA_BASE with 753664. rewrite wrap32_small; lia. }
  rewrite E. split; [done|]. split.
  - intros a [Ha Hn]. apply load8_store8_ne; [lia|done|]. intros Eq. apply (Hn (80 * y + x)); lia.
  - intros j Hj. unfold vcell. rewrite load8_store8, !wrap32_small by lia.
    destruct (Z.eqb_spec j (80 * y + x)) as [->|]; [by rewrite decide_True, wrap8_small by done|].
    by rewrite decide_False by lia.
Qed.

Lemma clear_row_cells n : forall v x y,
  text_mode v -> 0 <= x -> x + Z.of_nat n <= 80 -> 0 <= y < 25 ->
  let v' := clear_row n v x y in
  text_mode v' /\ same_rest (vram v) (vram v') /\
  forall j, 0 <= j < 2000 ->
    vcell (vram v') j = if (80 * y + x <=? j) && (j <? 80 * y + x + Z.of_nat n) then 0 else vcell (vram v) j.
Proof.
  induction n as [|n IH]; intros v x y Hv Hx Hn Hy; cbn [clear_row].
  - split; [done|]. split; [done|]. intros j Hj. rewrite (proj2 (andb_false_iff _ _)); [done|]. rewrite Z.leb_gt, Z.ltb_ge. lia.
  - destruct (write_char_cell v 0 x y) as (Hv1 & Hr1 & Hc1); [done|lia|lia|lia|].
    destruct (IH (fst (vga_write_char v 0 x y)) (x + 1) y) as (Hv2 & Hr2 & Hc2); [done|lia|lia|lia|].
    split; [done|]. split; [by etrans|]. intros j Hj. rewrite Hc2, Hc1 by done.
    repeat match goal with |- context [?a <=? ?b] => destruct (Z.leb_spec a b)
      | |- context [?a <? ?b] => destruct (Z.ltb_spec a b) | |- context [?a =? ?b] => destruct (Z.eqb_spec a b) end; simpl; try lia; done.
Qed.

Lemma clear_rows_cells n : forall v y,
  text_mode v -> 0 <= y -> y + Z.of_nat n <= 25 ->
  let v' := clear_rows n v y in
  text_mode v' /\ same_rest (vram v) (vram v') /\
  forall j, 0 <= j < 2000 ->
    vcell (vram v') j = if (80 * y <=? j) && (j <? 80 * (y + Z.of_nat n)) then 0 else vcell (vram v) j.
Proof.
  induction n as [|n IH]; intros v y Hv Hy Hn; cbn [clear_rows].
  - split; [done|]. split; [done|]. intros j Hj. rewrite (proj2 (andb_false_iff _ _)); [done|]. rewrite Z.leb_gt, Z.ltb_ge. lia.
  - destruct (clear_row_cells (Z.to_nat VGA_MAX_COL) v 0 y) as (Hv1 & Hr1 & Hc1); [done|lia|done|lia|].
    destruct (IH (clear_row (Z.to_nat VGA_MAX_COL) v 0 y) (y + 1)) as (Hv2 & Hr2 & Hc2); [done|lia|lia|].
    split; [done|]. split; [by etrans|]. intros j Hj. rewrite Hc2, Hc1 by done. change (Z.of_nat (Z.to_nat VGA_MAX_COL)) with 80.
    repeat match goal with |- context [?a <=? ?b] => destruct (Z.leb_spec a b)
      | |- context [?a <? ?b] => destruct (Z.ltb_spec a b) end; simpl; try lia; done.
Qed.

Lemma clear_all_cells v :
  text_mode v -> let v' := vga_clear_all v in
  text_mode v' /\ same_rest (vram v) (vram v') /\ forall j, 0 <= j < 2000 -> vcell (vram v') j = 0.
Proof.
  intros Hv. destruct (clear_rows_cells (Z.to_nat VGA_MAX_ROW) v 0) as (H1 & H2 & H3); [done|lia|by vm_compute|].
  split; [done|]. split; [done|]. intros j Hj. unfold vga_clear_all. rewrite H3 by done.
  rewrite (proj2 (Z.leb_le _ _)), (proj2 (Z.ltb_lt _ _)); [done| |lia]. change (Z.of_nat (Z.to_nat VGA_MAX_ROW)) with 25. lia.
Qed.

#[local] Opaque vga_clear_all.

(** ** The console *)

Lemma nthZ_beyond l i : lenZ l <= i -> nthZ l i = 0.
Proof. unfold nthZ, lenZ. intros. by rewrite lookup_ge_None_2 by lia. Qed.
Lemma nthZ_zeros n i : nthZ (replicate n 0) i = 0.
Proof. unfold nthZ. destruct (_ !! _) eqn:E; [|done]. by apply lookup_replicate in E as [-> _]. Qed.
Lemma lenZ_zero_rest n : forall w i, lenZ (zero_rest n w i) = lenZ w.
Proof. induction n as [|n IH]; intros w i; [done|]. cbn [zero_rest]. by rewrite IH, lenZ_updZ. Qed.

(** The output area for a text: a newline fills its line. *)
Definition feed (w : list Z) (c : Z) : list Z :=
  w ++ (if c =? NL then replicate (Z.to_nat (80 - lenZ w mod 80)) 0 else [c]).
Definition rows (L : list Z) : list Z := foldl feed [] L.

Lemma rows_snoc L c : rows (L ++ [c]) = feed (rows L) c.
Proof. unfold rows. by rewrite foldl_app. Qed.

Lemma lenZ_feed w c : lenZ (feed w c) = lenZ w + if c =? NL then 80 - lenZ w mod 80 else 1.
Proof.
  unfold feed, lenZ at 1. rewrite length_app, Nat2Z.inj_add. fold (lenZ w). f_equal.
  pose proof (Z.mod_pos_bound (lenZ w) 80 ltac:(lia)). case_if; [|done]. rewrite length_replicate. lia.
Qed.
Lemma lenZ_feed_bound w c : lenZ w < lenZ (feed w c) <= lenZ w + 80.
Proof. rewrite lenZ_feed. pose proof (Z.mod_pos_bound (lenZ w) 80 ltac:(lia)). case_if; lia. Qed.

(** The vcell a character is drawn in, and the value drawn there. *)
Lemma nthZ_feed w c i :
  0 <= i -> nthZ (feed w c) i = if i =? lenZ (feed w c) - 1 then (if c =? NL then 0 else c) else nthZ w i.
Proof.
  intros Hi. pose proof (lenZ_feed w c) as Hl. pose proof (Z.mod_pos_bound (lenZ w) 80 ltac:(lia)).
  unfold feed. destruct (Z.lt_ge_cases i (lenZ w)) as [Hlt|Hge].
  - rewrite nthZ_app_l by lia. rewrite (proj2 (Z.eqb_neq _ _)); [done|]. fold (feed w c). rewrite Hl. case_if; lia.
  - rewrite nthZ_app_r by lia. fold (feed w c). rewrite Hl, (nthZ_beyond w) by lia. destruct (Z.eqb_spec c NL) as [->|].
    + rewrite nthZ_zeros. by case_if.
    + destruct (Z.eqb_spec i (lenZ w + 1 - 1)) as [->|]; [by replace (lenZ w + 1 - 1 - lenZ w) with 0 by lia|].
      apply nthZ_beyond. change (lenZ [c]) with 1. lia.
Qed.

(** The variables after the text [L] on a console that follows its output,
    and the screen: an empty input line, the text, and zeros. *)
Record early_text (s : console) (L : list Z) : Prop := {
  et_col : console_max_col s = 80;
  et_row : console_max_row s = 25;
  et_max : max_window_size s = 1840;
  et_flag : console_init_flag s = 1;
  et_input : input_cnt s = 0;
  et_cnt : history_cnt s = lenZ L;
  et_first : window_first_history s = 0;
  et_last : window_last_history s = lenZ L;
  et_size : window_size s = lenZ (rows L);
  et_bound : lenZ (rows L) <= 80 * lenZ L;
  et_history : lenZ (history s) = 500;
  et_window : lenZ (window s) = 2000;
  et_mode : text_mode (screen s);
  et_cells : forall i, 0 <= i < 2000 -> vcell (vram (screen s)) i = nthZ (replicate 80 0 ++ rows L) i;
}.

(** One character on such a console goes the short way: it is appended to the
    history and the window, inside both arrays, and drawn in its vcell. *)
Lemma early_write s L c :
  early_text s L -> u8 c -> lenZ L + 1 < 23 ->
  let ws := lenZ (rows (L ++ [c])) in
  0 <= lenZ (rows L) < ws /\ ws <= 1840 /\ 0 <= (ws - 1) / 80 <= 22 /\
  write_console_one s c =
    put_vga (mkConsole 80 25 (updZ (history s) (lenZ L) c)
               (updZ (clear_cells (window s) (lenZ (rows L)) (ws - 1)) (ws - 1) c) (lenZ L + 1) 1840 0 (lenZ L + 1) ws
               (input_buf s) 0 1 (screen s))
            (if c =? NL then 0 else c) ((ws - 1) mod 80) ((ws - 1) / 80 + 1).
Proof.
  intros [Hcol Hrow Hmax Hflag Hin Hcnt Hfirst Hlast Hsize Hbound Hhl Hwl Hmode Hcells] Hc HL ws.
  pose proof (lenZ_nonneg (rows L)). pose proof (lenZ_nonneg L).
  assert (Hws : ws = lenZ (feed (rows L) c)) by (unfold ws; by rewrite rows_snoc).
  pose proof (lenZ_feed_bound (rows L) c) as Hb. rewrite <- Hws in Hb.
  assert (Hdiv : 0 <= (ws - 1) / 80 <= 22) by (split; [apply Z.div_pos; lia|apply Z.div_le_upper_bound; lia]).
  split; [lia|]. split; [lia|]. split; [done|].
  assert (Hd : window_size s + calc_window_delta s (window_size s) c = ws).
  { rewrite Hsize, Hws, lenZ_feed. unfold calc_window_delta. rewrite Hcol. case_if; [|done].
    replace (lenZ (rows L) + 80 - 1 + 1) with (lenZ (rows L) + 1 * 80) by lia. rewrite Z.mod_add by lia. lia. }
  unfold write_console_one. rewrite Hflag. cbn [Z.eqb Pos.eqb]. cbv zeta. rewrite Hcnt, Hlast, Z.eqb_refl. rewrite Hd.
  unfold set_last, set_history, set_size, set_window. cbn -[CONSOLE_HISTORY_SIZE Z.ltb clear_cells updZ wrap32 Z.modulo output_window_one_to_vga].
  rewrite Hcol, Hrow, Hmax, Hfirst, Hin, Hcnt, Hsize, Hflag. rewrite (proj2 (Z.ltb_ge 1840 ws)) by lia.
  change CONSOLE_HISTORY_SIZE with 500. rewrite Z.mod_small, wrap32_small by lia.
  unfold output_window_one_to_vga, inpws_to_rn. cbn -[Z.div Z.modulo put_vga]. change (wrap32 (25 - status_bar_lines)) with 24.
  rewrite Z.add_0_r, (proj2 (Z.leb_gt 24 _)) by lia. by destruct (c =? 10).
Qed.

Lemma early_write_text s L c :
  early_text s L -> u8 c -> lenZ L + 1 < 23 ->
  early_text (write_console_one s c) (L ++ [c]) /\ same_rest (vram (screen s)) (vram (screen (write_console_one s c))).
Proof.
  intros Hs Hc HL. destruct (early_write s L c Hs Hc HL) as (Hw0 & Hw & Hdiv & ->).
  pose proof (Z.mod_pos_bound (lenZ (rows (L ++ [c])) - 1) 80 ltac:(lia)) as Hm.
  pose proof (Z.div_mod (lenZ (rows (L ++ [c])) - 1) 80 ltac:(lia)) as Hdm.
  pose proof Hs as [Hcol Hrow Hmax Hflag Hin Hcnt Hfirst Hlast Hsize Hbound Hhl Hwl Hmode Hcells].
  set (ws := lenZ (rows (L ++ [c]))) in *. set (d := if c =? NL then 0 else c).
  assert (Hl1 : lenZ (L ++ [c]) = lenZ L + 1) by (rewrite lenZ_app; done).
  destruct (write_char_cell (screen s) d ((ws - 1) mod 80) ((ws - 1) / 80 + 1)) as (Hm' & Hr' & Hc');
    [done|done|lia|unfold d; case_if; lia|].
  split; [|exact Hr']. unfold put_vga, set_screen. split; cbn [console_max_col console_max_row max_window_size console_init_flag
    input_cnt history_cnt window_first_history window_last_history window_size history window screen]; rewrite ?Hl1; try done.
  - pose proof (lenZ_feed_bound (rows L) c). fold ws. unfold ws. rewrite rows_snoc. lia.
  - by rewrite lenZ_updZ.
  - unfold clear_cells. by rewrite lenZ_updZ, lenZ_zero_rest.
  - intros i Hi. rewrite Hc', Hcells by done. replace (80 * ((ws - 1) / 80 + 1) + (ws - 1) mod 80) with (80 + (ws - 1)) by lia.
    destruct (Z.lt_ge_cases i 80) as [Hlt|Hge].
    + rewrite (proj2 (Z.eqb_neq _ _)), !nthZ_app_l by (done || lia). done.
    + rewrite !nthZ_app_r by done. change (lenZ (replicate 80 0)) with 80. rewrite rows_snoc, nthZ_feed by lia.
      rewrite <- rows_snoc. fold ws d. replace (i - 80 =? ws - 1) with (i =? 80 + (ws - 1)); [done|].
      apply eq_true_iff_eq. rewrite !Z.eqb_eq. lia.
Qed.

(** The early console as a sink for a text of at most 22 characters: a
    character takes at most one of the 23 lines of the window. *)
#[local] Program Instance early_sink : CharSink console := {|
  put := write_console_one;
  text_is := early_text;
  sink_cap := 23;
|}.
Next Obligation. intros s L c Hs Hc HL. by apply early_write_text. Qed.

Lemma early_puts_rest l : forall s L,
  early_text s L -> Forall (fun c => u8 c) l -> lenZ L + lenZ l < 23 -> same_rest (vram (screen s)) (vram (screen (puts s l))).
Proof.
  induction l as [|c l IH]; intros s L Hs Hl HL; [done|]. apply Forall_cons in Hl as [Hc Hl].
  rewrite lenZ_cons in HL. pose proof (lenZ_nonneg l). destruct (early_write_text s L c Hs Hc ltac:(lia)) as [Hs1 Hr1].
  etrans; [exact Hr1|]. apply (IH _ (L ++ [c])); [done|done|]. rewrite lenZ_app. change (lenZ [c]) with 1. lia.
Qed.

(** ** The messages *)

(** The variables as the image holds them before the first call. *)
Record reset (s : console) : Prop := {
  rs_cnt : history_cnt s = 0;
  rs_first : window_first_history s = 0;
  rs_last : window_last_history s = 0;
  rs_size : window_size s = 0;
  rs_input : input_cnt s = 0;
  rs_history : lenZ (history s) = 500;
  rs_window : lenZ (window s) = 2000;
}.

(** [vga_init(); vga_clear_all(); init_console();] *)
Definition start_early (s : console) : console :=
  let s := set_screen s (vga_init (screen s)) in
  let s := set_screen s (vga_clear_all (screen s)) in
  init_console s.

Lemma start_early_text s :
  reset s -> early_text (start_early s) [] /\ same_rest (vram (screen s)) (vram (screen (start_early s))).
Proof.
  intros [Hcnt Hfirst Hlast Hsize Hin Hh Hw].
  destruct (clear_all_cells (vga_init (screen s))) as (Hm & Hr & Hc); [done|].
  unfold start_early, init_console, set_screen. cbv zeta. change EARLY_INIT with true. cbv iota.
  cbn [screen].
  generalize dependent (vga_clear_all (vga_init (screen s))). intros v Hm Hr Hc. cbn [screen vga_init vram max_col max_row]. split; [|exact Hr].
  split; cbn [screen vga_init vram history window history_cnt window_first_history window_last_history window_size input_cnt]; [done..|].
  intros i Hi. rewrite Hc by done. destruct (Z.lt_ge_cases i 80) as [|].
  - rewrite nthZ_app_l by (done || lia). by rewrite nthZ_zeros.
  - by rewrite nthZ_beyond.
Qed.
