(* ===== verification/Early.v ===== *)
(** * The start before paging (kernel/mem.c, boot/early_setup.asm)

    [init_pg_dir0_vmap] fills the page directory and announces itself on the
    text screen; then paging is turned on.  The code runs on physical
    addresses, so the variables of its console are part of the memory it works
    on: [EarlyImage] says where the linker put them.  The calls that print
    load the variables, run the console of [EarlyConsole] with the physical
    memory as its frame buffer and store the variables again. *)
From S2P Require Import Prelude CMem CString Sink Console EarlyConsole Print Frame Paging PagingThm.
From Stdlib Require Import Strings.String.
Import CString Vga Console Print Paging.
Open Scope list_scope.

(** ** The image *)

(** The end of the image and the addresses of the variables of console.c and vga.c. *)
Class EarlyImage : Type := {
  _init_end : Z;
  at_vga_param : Z;
  at_console_max_col : Z;
  at_console_max_row : Z;
  at_history : Z;
  at_window : Z;
  at_history_cnt : Z;
  at_max_window_size : Z;
  at_window_first_history : Z;
  at_window_last_history : Z;
  at_window_size : Z;
  at_input_cnt : Z;
  at_console_init_flag : Z;
}.

Section Early.
Context `{EarlyImage}.

(** The variables with their sizes lie in the image, which the linker script
    puts at 0x9030, below the screen. *)
Definition early_vars : list (Z * Z) :=
  [(at_vga_param, 8); (at_console_max_col, 4); (at_console_max_row, 4); (at_history, 500); (at_window, 2000);
   (at_history_cnt, 4); (at_max_window_size, 4); (at_window_first_history, 4); (at_window_last_history, 4);
   (at_window_size, 4); (at_input_cnt, 4); (at_console_init_flag, 1)].
Definition early_image_ok : Prop :=
  Forall (fun v => 0x9030 <= fst v /\ fst v + snd v <= _init_end) early_vars /\ _init_end <= 0xB8000.

Definition load_bytes (m : mem) (p n : Z) : list Z := (fun i => load8 m (p + i)) <$> seqZ 0 n.

(** [input_buf] is not used before paging. *)
Definition load_console (m : mem) : console :=
  mkConsole (load32 m at_console_max_col) (load32 m at_console_max_row) (load_bytes m at_history 500)
    (load_bytes m at_window 2000) (load32 m at_history_cnt) (load32 m at_max_window_size)
    (load32 m at_window_first_history) (load32 m at_window_last_history) (load32 m at_window_size) []
    (load32 m at_input_cnt) (load8 m at_console_init_flag)
    (mkVga (load32 m at_vga_param) (load32 m (at_vga_param + 4)) m).

Definition store_console (c : console) : mem :=
  let m := vram (screen c) in
  let m := store32 (store32 m at_vga_param (max_col (screen c))) (at_vga_param + 4) (max_row (screen c)) in
  let m := store32 (store32 m at_console_max_col (console_max_col c)) at_console_max_row (console_max_row c) in
  let m := write_bytes (write_bytes m at_history (history c)) at_window (window c) in
  let m := store32 (store32 m at_history_cnt (history_cnt c)) at_max_window_size (max_window_size c) in
  let m := store32 (store32 m at_window_first_history (window_first_history c)) at_window_last_history (window_last_history c) in
  let m := store32 (store32 m at_window_size (window_size c)) at_input_cnt (input_cnt c) in
  store8 m at_console_init_flag (console_init_flag c).

(** [vga_init] to [print_hex]: the end of [init_pg_dir0_vmap]. *)
Definition announced (m : mem) : console :=
  print_hex (H := early_sink) _init_end (printl_lit (H := early_sink) "init_end" (start_early (load_console m))).
Definition early_messages : M () := fun s => Ok ((), with_pm s (store_console (announced (pm s)))).

Definition init_pg_dir0_vmap : M () :=
  _ ← map_pg_dir0;
  early_messages.

Definition init_page_settings : M () :=
  _ ← init_pg_dir0_vmap;
  enable_paging PG_DIR0_ADDR.

(** ** What the messages leave behind *)

Definition announcement : list Z := (chars "init_end" ++ [10]) ++ [48; 120] ++ hex8 _init_end.

(** Bytes of neither the tables, the screen nor the image. *)
Definition untouched (a : Z) : Prop :=
  (a < 0x100000 \/ 0x501000 <= a) /\ no_cell a /\ (a < 0x9030 \/ _init_end <= a).

Lemma store_console_out c a :
  early_image_ok -> lenZ (history c) = 500 -> lenZ (window c) = 2000 -> u32 a -> (a < 0x9030 \/ _init_end <= a) ->
  load8 (store_console c) a = load8 (vram (screen c)) a.
Proof.
  intros [Hv He] Hh Hw Ha Ho. unfold early_vars in Hv.
  repeat match goal with H : Forall _ (_ :: _) |- _ => apply Forall_cons in H as [? H] end. cbn [fst snd] in *.
  unfold store_console. cbv zeta. rewrite load8_store8_ne by lia. rewrite !load8_store32_ne by (unfold fits; lia).
  rewrite !write_bytes_out by (unfold fits; lia). by rewrite !load8_store32_ne by (unfold fits; lia).
Qed.

Lemma announce c :
  print_hex (H := early_sink) _init_end (printl_lit (H := early_sink) "init_end" c) = puts (H := early_sink) c announcement.
Proof. rewrite print_hex_spec. unfold printl_lit, announcement. symmetry. apply puts_app. Qed.

Lemma announcement_u8 : Forall (fun c => u8 c) announcement /\ lenZ announcement = 19.
Proof.
  unfold announcement. split; [|by rewrite !lenZ_app]. apply Forall_app. split; [by repeat constructor|].
  apply Forall_app. split; [by repeat constructor|]. eapply Forall_impl; [apply hex8_range|]. intros; cbv beta in *; lia.
Qed.

Lemma announce_text c m :
  early_text c [] -> same_rest m (vram (screen c)) ->
  early_text (puts (H := early_sink) c announcement) announcement /\
  same_rest m (vram (screen (puts (H := early_sink) c announcement))).
Proof.
  intros H0 F0. destruct announcement_u8 as [Hu Hl]. assert (Hb : lenZ (@nil Z) + lenZ announcement < 23) by (rewrite Hl; done).
  split; [exact (puts_text (H := early_sink) c [] announcement H0 Hu Hb)|].
  etrans; [exact F0|]. exact (early_puts_rest announcement c [] H0 Hu Hb).
Qed.

Lemma announced_text m :
  reset (load_console m) -> early_text (announced m) announcement /\ same_rest m (vram (screen (announced m))).
Proof.
  intros [H0 F0]%start_early_text. unfold announced. rewrite announce. by apply announce_text.
Qed.

Lemma early_messages_spec s :
  early_image_ok -> reset (load_console (pm s)) ->
  exists m, early_messages s = Ok ((), with_pm s m) /\
    (forall i, 0 <= i < 2000 -> vcell m i = nthZ (replicate 80 0 ++ rows announcement) i) /\
    forall a, no_cell a -> (a < 0x9030 \/ _init_end <= a) -> load8 m a = load8 (pm s) a.
Proof.
  intros Hok Hr. destruct (announced_text _ Hr) as [Ht F]. unfold early_messages. generalize dependent (announced (pm s)).
  intros c Ht F. exists (store_console c). split; [reflexivity|]. split.
  - intros i Hi. unfold vcell. rewrite store_console_out; [by apply Ht|done|apply Ht|apply Ht|lia|]. destruct Hok. lia.
  - intros a Ha Ho. rewrite store_console_out; [|done|apply Ht|apply Ht|apply Ha|done]. by apply F.
Qed.

(** The tables are read from their own bytes only. *)
Lemma early_inv_same Dp F m m' :
  (forall a, 0x100000 <= a < 0x501000 -> load8 m' a = load8 m a) -> early_inv Dp F m -> early_inv Dp F m'.
Proof.
  intros Hs [H1 H2 H3 H4 H5 H6].
  assert (Hc : forall k i, in_page k i -> cell m' k i = cell m k i).
  { unfold cell, in_page, pt_base. intros k i Hk. apply load32_same. intros a Ha. apply Hs. lia. }
  split; try done; intros; rewrite Hc by (unfold in_page; lia); auto.
Qed.

Lemma load_console_reset m m' :
  early_image_ok -> (forall a, 0x9030 <= a < _init_end -> load8 m' a = load8 m a) ->
  reset (load_console m) -> reset (load_console m').
Proof.
  intros [Hv He] Hs [H1 H2 H3 H4 H5 H6 H7]. unfold early_vars in Hv.
  repeat match goal with H : Forall _ (_ :: _) |- _ => apply Forall_cons in H as [? H] end. cbn [fst snd] in *.
  assert (Hw : forall a, 0x9030 <= a -> a + 4 <= _init_end -> load32 m' a = load32 m a).
  { intros a Ha Hb. apply load32_same. intros b Hb'. apply Hs. lia. }
  split; cbn [load_console history_cnt window_first_history window_last_history window_size input_cnt history window] in *;
    rewrite ?Hw by lia; try done; unfold load_bytes, lenZ; by rewrite length_fmap, length_seqZ.
Qed.

Lemma init_page_settings_spec s :
  early_image_ok -> paging s = false -> reset (load_console (pm s)) ->
  exists m, init_page_settings s = Ok ((), mkMm m (pt_base (-1)) true (frames s)) /\
    early_inv early_tables early_pages m /\
    (forall i, 0 <= i < 2000 -> vcell m i = nthZ (replicate 80 0 ++ rows announcement) i) /\
    forall a, untouched a -> load8 m a = load8 (pm s) a.
Proof.
  intros Hok Hp Hr. destruct (map_pg_dir0_spec s Hp) as (m1 & H1 & Hi & Ho). pose proof Hok as [_ He].
  destruct (early_messages_spec (with_pm s m1) Hok) as (m2 & H2 & Hc & Hrest).
  { eapply load_console_reset; [done| |exact Hr]. intros a Ha. apply Ho; lia. }
  exists m2. split; [|split; [|split; [exact Hc|]]].
  - unfold init_page_settings, init_pg_dir0_vmap. erewrite M_bind_eq; [|erewrite M_bind_eq by exact H1; exact H2]. reflexivity.
  - eapply early_inv_same; [|exact Hi]. intros a Ha. apply Hrest; [|lia]. split; [lia|]. intros; lia.
  - intros a (Ha & Hn & Hb). rewrite Hrest by done. apply Ho; [apply Hn|lia].
Qed.

(** C29. The map the kernel starts with: whatever memory holds besides the
    freshly loaded variables of the early image, [init_page_settings] returns,
    and turns paging on with a directory under which the processor translates
    the first MiB to itself, the 16 MiB from 3 GiB on to the first 16 MiB, the
    page below 0xFFC00000 to the directory, the pages above to the page tables
    that exist, and faults on every other address. The screen then shows
    "init_end" and the end of the image in hexadecimal below an empty line and
    nothing else, and no byte changed outside the directory and its tables, the
    characters of the screen and the variables of the image. *)
Theorem early_map_correct s :
  early_image_ok -> paging s = false -> reset (load_console (pm s)) ->
  exists s', init_page_settings s = Ok ((), s') /\ paging s' = true /\ frames s' = frames s /\
    (forall va, u32 va -> translate s' va = early_map va) /\
    (forall i, 0 <= i < 2000 -> vcell (pm s') i = nthZ (replicate 80 0 ++ rows announcement) i) /\
    forall a, untouched a -> load8 (pm s') a = load8 (pm s) a.
Proof.
  intros Hok Hp Hr. destruct (init_page_settings_spec s Hok Hp Hr) as (m & H1 & Hi & Hc & Ho).
  eexists. split; [exact H1|]. split; [done|]. split; [done|]. split; [|split; [exact Hc|exact Ho]].
  intros va Hv. unfold translate. cbn [paging pm cr3]. by apply walk_early.
Qed.

End Early.

(** ** An example *)

(** An image of 4 KiB with its variables at the end. *)
Definition example_image : EarlyImage := {|
  _init_end := 0xA030; at_vga_param := 0x9630; at_console_max_col := 0x9638; at_console_max_row := 0x963C;
  at_history := 0x9640; at_window := 0x9834; at_history_cnt := 0xA004; at_max_window_size := 0xA008;
  at_window_first_history := 0xA00C; at_window_last_history := 0xA010; at_window_size := 0xA014;
  at_input_cnt := 0xA018; at_console_init_flag := 0xA01C |}.
#[local] Existing Instance example_image.

Lemma example_image_ok : early_image_ok.
Proof. split; [|done]. repeat constructor; done. Qed.

(** Memory with zeros in the image. *)
Lemma example_reset m : (forall a, 0x9030 <= a < 0xA030 -> load8 m a = 0) -> reset (load_console m).
Proof.
  intros H0. assert (Hw : forall a, 0x9030 <= a -> a + 4 <= 0xA030 -> load32 m a = 0).
  { intros a Ha Hb. unfold load32. by rewrite !H0 by lia. }
  split; try (by apply Hw); reflexivity.
Qed.

Lemma early_map_correct_witness :
  exists s', init_page_settings boot_mm = Ok ((), s') /\ translate s' 0xC0901234 = Some 0x901234 /\
    translate s' 0x00100000 = None /\ vcell (pm s') 80 = 105 /\ vcell (pm s') 169 = 48.
Proof.
  destruct (early_map_correct boot_mm) as (s' & H & _ & _ & Ht & Hc & _); [exact example_image_ok|reflexivity| |].
  - apply example_reset. intros a Ha. unfold boot_mm. cbn [pm]. rewrite load8_store32_ne by (unfold fits; lia).
    unfold load8. by rewrite lookup_empty.
  - exists s'. split; [exact H|]. rewrite !Ht, !Hc by lia. split_and!; vm_compute; reflexivity.
Defined.
