(* ===== verification/Disk.v ===== *)
(** * Interface: a disk of 512-byte sectors

    The file system uses the disk only through [ata_read_sector] and
    [ata_write_sector] with a [Disk_IO_Command].  This file states what it
    relies on: the monad of code that talks to the disk (a state with the
    device, the text printed and the calls made to the kernel heap, and the
    results of the prelude), total-correctness triples for it, and the class
    [BlockDev] of the two operations with their laws.  The ATA driver is an
    instance ([AtaThm]); so is a disk in memory ([ram_disk]), which makes the
    file system's definitions easy to evaluate. *)
From S2P Require Import Prelude.

(** ** The state of disk code *)

(** What the code does to other components, in order: text printed, blocks
    taken from and returned to the kernel heap (with their sizes). *)
Inductive event : Type :=
| EvPrint (text : list Z)
| EvAlloc (size : Z)
| EvFree (size : Z).

Record host (D : Type) : Type := mk_host { dev : D; log : list event }.
Arguments mk_host {D} _ _.
Arguments dev {D} _.
Arguments log {D} _.

Definition IO (D A : Type) : Type := host D -> res (A * host D).

#[global] Instance IO_ret {D} : MRet (IO D) := fun A a h => Ok (a, h).
#[global] Instance IO_bind {D} : MBind (IO D) := fun A B f c h =>
  match c h with Ok (a, h') => f a h' | Hang s => Hang s | NoFuel => NoFuel end.

Definition emit {D} (e : event) : IO D unit :=
  fun h => Ok (tt, mk_host (dev h) (log h ++ [e])).
Definition out_of_fuel {D A} : IO D A := fun _ => NoFuel.

(** ** Total-correctness triples *)

Definition wp {D A} (c : IO D A) (h : host D) (Q : A -> host D -> Prop) : Prop :=
  match c h with Ok (a, h') => Q a h' | _ => False end.

Section WP.
Context {D A B : Type}.
Implicit Types (h : host D) (c : IO D A) (f : A -> IO D B).

Lemma wp_ret (a : A) h (Q : A -> host D -> Prop) : Q a h -> wp (mret a) h Q.
Proof. done. Qed.

Lemma wp_bind c f h (Q : B -> host D -> Prop) :
  wp c h (fun a h' => wp (f a) h' Q) -> wp (c ≫= f) h Q.
Proof. unfold wp, mbind, IO_bind. by destruct (c h) as [[a h']| |]. Qed.

Lemma wp_mono c h (P Q : A -> host D -> Prop) :
  wp c h P -> (forall a h', P a h' -> Q a h') -> wp c h Q.
Proof. unfold wp. destruct (c h) as [[a h']| |]; auto. Qed.

(** The next call by its specification, then the rest. *)
Lemma wp_seq c f h (P : A -> host D -> Prop) (Q : B -> host D -> Prop) :
  wp c h P -> (forall a h', P a h' -> wp (f a) h' Q) -> wp (c ≫= f) h Q.
Proof. intros Hc Hf. apply wp_bind. by eapply wp_mono. Qed.

Lemma wp_Ok c h (Q : A -> host D -> Prop) :
  wp c h Q <-> exists a h', c h = Ok (a, h') /\ Q a h'.
Proof.
  unfold wp. destruct (c h) as [[a h']| |]; split; try done; eauto.
  - by intros (? & ? & [= <- <-] & ?).
  - by intros (? & ? & ? & ?).
  - by intros (? & ? & ? & ?).
Qed.
End WP.

Lemma wp_emit {D} e (h : host D) (Q : unit -> host D -> Prop) :
  Q tt (mk_host (dev h) (log h ++ [e])) -> wp (emit e) h Q.
Proof. done. Qed.

(** ** Buffers *)

(** [n] bytes of [b] from [i] on, and [d] copied over [b] at [i]. *)
Definition slice (b : list Z) (i n : Z) : list Z := take (Z.to_nat n) (drop (Z.to_nat i) b).
Definition splice (b : list Z) (i : Z) (d : list Z) : list Z :=
  take (Z.to_nat i) b ++ d ++ drop (Z.to_nat i + length d) b.

Definition bytes (l : list Z) : Prop := Forall (fun c => u8 c) l.

Lemma lenZ_slice b i n : 0 <= i -> 0 <= n -> i + n <= lenZ b -> lenZ (slice b i n) = n.
Proof. unfold lenZ, slice. intros. rewrite length_take, length_drop. lia. Qed.

Lemma lenZ_splice b i d : 0 <= i -> i + lenZ d <= lenZ b -> lenZ (splice b i d) = lenZ b.
Proof.
  unfold lenZ, splice. intros. rewrite !length_app, length_take, length_drop. lia.
Qed.

Lemma nthZ_slice b i n j : 0 <= i -> 0 <= j < n -> nthZ (slice b i n) j = nthZ b (i + j).
Proof.
  unfold nthZ, slice. intros. rewrite lookup_take_lt by lia. rewrite lookup_drop.
  do 2 f_equal. lia.
Qed.

Lemma nthZ_splice b i d j :
  0 <= i -> i + lenZ d <= lenZ b -> 0 <= j ->
  nthZ (splice b i d) j = if (i <=? j) && (j <? i + lenZ d) then nthZ d (j - i) else nthZ b j.
Proof.
  unfold nthZ, lenZ, splice. intros Hi Hl Hj.
  destruct (Z.leb_spec i j) as [H1|H1]; simpl.
  - rewrite lookup_app_r by (rewrite length_take; lia). rewrite length_take.
    destruct (Z.ltb_spec j (i + Z.of_nat (length d))) as [H2|H2]; simpl.
    + rewrite lookup_app_l by lia. do 2 f_equal. lia.
    + rewrite lookup_app_r by lia. rewrite lookup_drop. do 2 f_equal. lia.
  - rewrite lookup_app_l by (rewrite length_take; lia). by rewrite lookup_take_lt by lia.
Qed.

Lemma bytes_nth l i : bytes l -> u8 (nthZ l i).
Proof.
  intros Hl. unfold nthZ. destruct (l !! Z.to_nat i) eqn:E; simpl; [|lia].
  eapply Forall_lookup_1 in E; [|exact Hl]. done.
Qed.

Lemma bytes_slice b i n : bytes b -> bytes (slice b i n).
Proof. intros. by apply Forall_take, Forall_drop. Qed.

Lemma bytes_splice b i d : bytes b -> bytes d -> bytes (splice b i d).
Proof.
  intros. apply Forall_app; split; [by apply Forall_take|].
  apply Forall_app; split; [done|by apply Forall_drop].
Qed.

Lemma bytes_repeat0 n : bytes (replicate n 0).
Proof. apply Forall_replicate. lia. Qed.
#[export] Hint Resolve bytes_nth bytes_slice bytes_splice bytes_repeat0 : machine.

Lemma slice_all b n : lenZ b = n -> slice b 0 n = b.
Proof. unfold lenZ, slice. intros <-. rewrite Nat2Z.id. simpl. rewrite drop_0. apply take_ge. lia. Qed.

Lemma splice_all b d : lenZ d = lenZ b -> splice b 0 d = d.
Proof.
  unfold lenZ, splice. intros. simpl.
  rewrite drop_ge by lia. apply app_nil_r.
Qed.

Lemma slice_splice_same b i d :
  0 <= i -> i + lenZ d <= lenZ b -> slice (splice b i d) i (lenZ d) = d.
Proof.
  intros Hi Hl. pose proof (lenZ_nonneg d). apply nthZ_ext.
  - rewrite lenZ_slice; [done|lia|lia|]. rewrite lenZ_splice; lia.
  - intros j Hj. rewrite lenZ_slice in Hj; [|lia|lia|rewrite lenZ_splice; lia].
    rewrite nthZ_slice, nthZ_splice by lia. rewrite (proj2 (Z.leb_le _ _)), (proj2 (Z.ltb_lt _ _)) by lia.
    simpl. f_equal. lia.
Qed.

Lemma slice_app b i n1 n2 :
  0 <= i -> 0 <= n1 -> 0 <= n2 -> slice b i (n1 + n2) = slice b i n1 ++ slice b (i + n1) n2.
Proof.
  intros. unfold slice. replace (Z.to_nat (n1 + n2)) with (Z.to_nat n1 + Z.to_nat n2)%nat by lia.
  rewrite Z2Nat.inj_add by lia. rewrite <- (take_take_drop _ (Z.to_nat n1)). by rewrite drop_drop.
Qed.

Lemma splice_cons b i c d :
  0 <= i -> i + lenZ d < lenZ b -> splice (updZ b i c) (i + 1) d = splice b i (c :: d).
Proof.
  intros Hi Hl. apply nthZ_ext.
  - rewrite !lenZ_splice, lenZ_updZ; rewrite ?lenZ_updZ, ?lenZ_cons; lia.
  - intros j Hj. rewrite !nthZ_splice; rewrite ?lenZ_updZ, ?lenZ_cons; try lia.
    destruct (Z.ltb_spec j i); [|destruct (Z.eqb_spec j i) as [->|]].
    + rewrite (proj2 (Z.leb_gt (i + 1) j)), (proj2 (Z.leb_gt i j)) by lia. simpl. by rewrite nthZ_updZ_ne by lia.
    + pose proof (lenZ_nonneg d). rewrite (proj2 (Z.leb_gt (i + 1) i)), Z.leb_refl by lia. simpl. if_true.
      rewrite nthZ_updZ_eq, Z.sub_diag by lia. done.
    + rewrite (proj2 (Z.leb_le (i + 1) j)), (proj2 (Z.leb_le i j)) by lia. simpl.
      replace (i + 1 + lenZ d) with (i + (lenZ d + 1)) by lia. case_match; [|by rewrite nthZ_updZ_ne by lia].
      replace (c :: d) with ([c] ++ d) by done. rewrite nthZ_app_r by (change (lenZ [c]) with 1; lia).
      change (lenZ [c]) with 1. f_equal. lia.
Qed.

Lemma splice_two b k x y cur :
  0 <= k -> k + 2 + lenZ cur <= lenZ b ->
  splice (updZ (updZ b k x) (k + 1) y) (k + 1 + 1) cur = splice b k (x :: y :: cur).
Proof.
  intros. pose proof (lenZ_nonneg cur).
  rewrite splice_cons by (rewrite ?lenZ_updZ; lia). by rewrite splice_cons by (rewrite ?lenZ_cons; lia).
Qed.

Lemma splice_nil b k : splice b k [] = b.
Proof. unfold splice. simpl. rewrite Nat.add_0_r. apply take_drop. Qed.

Lemma splice_app b i d1 d2 :
  0 <= i -> i + lenZ d1 + lenZ d2 <= lenZ b -> splice (splice b i d1) (i + lenZ d1) d2 = splice b i (d1 ++ d2).
Proof.
  intros Hi Hl. pose proof (lenZ_nonneg d1). pose proof (lenZ_nonneg d2). apply nthZ_ext.
  - rewrite !lenZ_splice; rewrite ?lenZ_app, ?lenZ_splice; lia.
  - intros j Hj. rewrite !nthZ_splice; rewrite ?lenZ_app, ?lenZ_splice; try lia.
    destruct (Z.leb_spec i j); simpl.
    2: { rewrite (proj2 (Z.leb_gt _ j)) by lia. simpl. done. }
    destruct (Z.leb_spec (i + lenZ d1) j); simpl.
    + rewrite (proj2 (Z.ltb_ge j (i + lenZ d1))) by lia. simpl.
      replace (i + (lenZ d1 + lenZ d2)) with (i + lenZ d1 + lenZ d2) by lia.
      case_match; [|done]. rewrite nthZ_app_r by lia. f_equal. lia.
    + rewrite (proj2 (Z.ltb_lt j (i + lenZ d1))), (proj2 (Z.ltb_lt j (i + (lenZ d1 + lenZ d2)))) by lia.
      simpl. by rewrite nthZ_app_l by lia.
Qed.

Lemma slice_cons b i n : 0 <= i -> 0 < n -> i < lenZ b -> slice b i n = nthZ b i :: slice b (i + 1) (n - 1).
Proof.
  intros Hi Hn Hl. replace n with (1 + (n - 1)) at 1 by lia. rewrite slice_app by lia.
  replace (slice b i 1) with [nthZ b i]; [done|]. unfold slice, nthZ, lenZ in *.
  destruct (lookup_lt_is_Some_2 b (Z.to_nat i) ltac:(lia)) as [x Hx]. rewrite Hx.
  rewrite (drop_S _ _ _ Hx). reflexivity.
Qed.

Lemma slice_nil b i : slice b i 0 = [].
Proof. reflexivity. Qed.

(** ** The interface *)

(** [Disk_IO_Command] of drivers/ata.h; there is one device, so its pointer
    is left out, and the buffer is the array it points to. *)
Record Disk_IO_Command : Type := mk_cmd {
  lba_start : Z;
  sec_num : Z;
  buf : list Z;
  buf_size : Z;
}.

(** The contents of [n] sectors from [l] on. *)
Definition secs (s : Z -> list Z) (l n : Z) : list Z :=
  concat (map s (seqZ l n)).

(** The sectors after [b] is written from [l] on. *)
Definition write_secs (s : Z -> list Z) (l n : Z) (b : list Z) : Z -> list Z :=
  fun k => if (l <=? k) && (k <? l + n) then slice b (512 * (k - l)) 512 else s k.

Class BlockDev (D : Type) := {
  bd_read : Disk_IO_Command -> IO D (Z * list Z);
  bd_write : Disk_IO_Command -> IO D Z;
  (** the contents of a sector, the number of sectors, and when the device
      accepts a command *)
  bd_sector : D -> Z -> list Z;
  bd_capacity : Z;
  bd_ready : D -> Prop;
  bd_sector_ok : forall d l, lenZ (bd_sector d l) = 512 /\ bytes (bd_sector d l);
  bd_read_ok : forall cmd h, bd_ready (dev h) ->
    let n := if buf_size cmd / 512 <? sec_num cmd then buf_size cmd / 512 else sec_num cmd in
    0 < n <= 255 -> 0 <= lba_start cmd -> lba_start cmd + n <= bd_capacity -> n * 512 <= lenZ (buf cmd) ->
    wp (bd_read cmd) h (fun r h' =>
      r = (n, splice (buf cmd) 0 (secs (bd_sector (dev h)) (lba_start cmd) n)) /\
      bd_ready (dev h') /\ log h' = log h /\ forall k, bd_sector (dev h') k = bd_sector (dev h) k);
  bd_write_ok : forall cmd h, bd_ready (dev h) ->
    0 < sec_num cmd <= 255 -> 0 <= lba_start cmd -> lba_start cmd + sec_num cmd <= bd_capacity ->
    sec_num cmd * 512 <= lenZ (buf cmd) -> bytes (buf cmd) ->
    wp (bd_write cmd) h (fun r h' =>
      r = sec_num cmd /\ bd_ready (dev h') /\ log h' = log h /\
      forall k, bd_sector (dev h') k =
                write_secs (bd_sector (dev h)) (lba_start cmd) (sec_num cmd) (buf cmd) k);
}.

(** The disk of [h] accepts commands and holds the sectors [s]. *)
Definition disk_is {D} `{BlockDev D} (h : host D) (s : Z -> list Z) : Prop :=
  bd_ready (dev h) /\ forall k, bd_sector (dev h) k = s k.

(** Sector contents as a disk has them. *)
Definition sectors_ok (s : Z -> list Z) : Prop := forall k, lenZ (s k) = 512 /\ bytes (s k).

(** ** Lemmas on sectors *)

Lemma secs_S s l n : 0 <= n -> secs s l (n + 1) = s l ++ secs s (l + 1) n.
Proof.
  intros. unfold secs. rewrite seqZ_cons by lia. simpl.
  replace (Z.succ l) with (l + 1) by lia. by replace (Z.pred (n + 1)) with n by lia.
Qed.

Lemma secs_0 s l : secs s l 0 = [].
Proof. reflexivity. Qed.

Lemma secs_1 s l : secs s l 1 = s l.
Proof. unfold secs. simpl. apply app_nil_r. Qed.

Lemma secs_snoc s l n : 0 <= n -> secs s l (n + 1) = secs s l n ++ s (l + n).
Proof.
  intros Hn. revert l. pattern n. apply natlike_ind; [|clear n Hn; intros n Hn IH l|done].
  - intros l. change (0 + 1) with 1. by rewrite secs_1, secs_0, Z.add_0_r.
  - unfold Z.succ. rewrite (secs_S s l (n + 1)) by lia. rewrite IH, (secs_S s l n) by lia.
    rewrite <- app_assoc. do 2 f_equal. f_equal. lia.
Qed.

Lemma secs_ext s s' l n : (forall k, l <= k < l + n -> s k = s' k) -> secs s l n = secs s' l n.
Proof.
  intros H. unfold secs. f_equal. apply map_ext_in. intros k Hk.
  apply H. apply list_elem_of_In, elem_of_seqZ in Hk. lia.
Qed.

Section Sectors.
Context (s : Z -> list Z) (Hs : sectors_ok s).

Lemma lenZ_secs l n : 0 <= n -> lenZ (secs s l n) = 512 * n.
Proof.
  intros Hn. revert l. pattern n. apply natlike_ind; [|clear n Hn; intros n Hn IH l|done].
  - intros l. reflexivity.
  - unfold Z.succ. rewrite secs_S, lenZ_app, IH by lia. rewrite (proj1 (Hs l)). lia.
Qed.

Lemma bytes_secs l n : bytes (secs s l n).
Proof.
  unfold secs, bytes. apply Forall_concat, Forall_map. apply Forall_forall. intros. apply Hs.
Qed.

Lemma nthZ_secs l n i :
  0 <= n -> 0 <= i < 512 * n -> nthZ (secs s l n) i = nthZ (s (l + i / 512)) (i mod 512).
Proof.
  intros Hn. revert l i. pattern n. apply natlike_ind; [|clear n Hn; intros n Hn IH l i Hi|done].
  - intros. lia.
  - unfold Z.succ in *. rewrite secs_S by lia.
    destruct (Z.ltb_spec i 512).
    + rewrite nthZ_app_l by (rewrite ?(proj1 (Hs l)); lia).
      rewrite Z.div_small, Z.mod_small, Z.add_0_r by lia. done.
    + rewrite nthZ_app_r by (rewrite (proj1 (Hs l)); lia). rewrite (proj1 (Hs l)), IH by lia.
      replace i with (i - 512 + 1 * 512) at 3 4 by lia.
      rewrite Z.div_add, Z.mod_add by lia. do 2 f_equal. lia.
Qed.

Lemma slice_secs l n k :
  0 <= k < n -> slice (secs s l n) (512 * k) 512 = s (l + k).
Proof.
  intros Hk. apply nthZ_ext.
  - rewrite lenZ_slice, (proj1 (Hs _)); [done|lia|lia|]. rewrite lenZ_secs; lia.
  - intros i Hi. rewrite lenZ_slice in Hi; [|lia|lia|rewrite lenZ_secs; lia].
    rewrite nthZ_slice, nthZ_secs by lia.
    replace (512 * k + i) with (i + k * 512) by lia.
    by rewrite Z.div_add, Z.mod_add, Z.div_small, Z.mod_small by lia.
Qed.

Lemma write_secs_ok l n b :
  0 <= l -> bytes b -> 512 * n <= lenZ b -> sectors_ok (write_secs s l n b).
Proof.
  intros Hl Hb Hn k. unfold write_secs.
  destruct (Z.leb_spec l k); simpl; [|apply Hs].
  destruct (Z.ltb_spec k (l + n)); simpl; [|apply Hs].
  split; [rewrite lenZ_slice; lia|by apply bytes_slice].
Qed.

Lemma write_secs_in l n b k : l <= k < l + n -> write_secs s l n b k = slice b (512 * (k - l)) 512.
Proof. intros. unfold write_secs. by rewrite (proj2 (Z.leb_le l k)), (proj2 (Z.ltb_lt k (l + n))) by lia. Qed.

Lemma write_secs_out l n b k : (k < l \/ l + n <= k) -> write_secs s l n b k = s k.
Proof.
  intros H. unfold write_secs. destruct (Z.leb_spec l k); simpl; [|done].
  by destruct (Z.ltb_spec k (l + n)); [lia|].
Qed.
End Sectors.

Lemma secs_write_same s l n b : 0 <= n -> lenZ b = 512 * n -> secs (write_secs s l n b) l n = b.
Proof.
  intros Hn Hb.
  assert (H : forall m, 0 <= m <= n -> secs (write_secs s l n b) l m = slice b 0 (512 * m)).
  { intros m Hm. destruct Hm as [Hm0 Hm]. revert Hm. pattern m.
    apply natlike_ind; [reflexivity| |done]. clear m Hm0. intros m Hm IH Hmn. unfold Z.succ in *.
    rewrite secs_snoc, IH, write_secs_in by lia.
    replace (512 * (m + 1)) with (512 * m + 512) by lia. rewrite slice_app by lia.
    do 2 f_equal. lia. }
  rewrite H by lia. apply slice_all. lia.
Qed.

Lemma secs_write_other s l n b l' n' :
  (l' + n' <= l \/ l + n <= l') -> secs (write_secs s l n b) l' n' = secs s l' n'.
Proof. intros H. apply secs_ext. intros k Hk. apply write_secs_out. lia. Qed.

#[export] Hint Resolve bytes_secs write_secs_ok : machine.

(** ** The laws in terms of [disk_is] *)

Section Laws.
Context {D : Type} `{BlockDev D}.
Implicit Types (h : host D) (s : Z -> list Z).

Lemma disk_is_ok h s : disk_is h s -> sectors_ok s.
Proof. intros [_ E] k. rewrite <- E. apply bd_sector_ok. Qed.

(** A full read: the buffer has room for the sectors asked for. *)
Lemma read_full h s l n b size :
  disk_is h s -> 0 < n <= 255 -> 0 <= l -> l + n <= bd_capacity -> 512 * n <= size -> size <= lenZ b ->
  wp (bd_read (mk_cmd l n b size)) h (fun r h' =>
    r = (n, splice b 0 (secs s l n)) /\ disk_is h' s /\ log h' = log h).
Proof.
  intros [Hr E] Hn Hl Hc Hsz Hb.
  assert (Hq : n <= size / 512) by (apply Z.div_le_lower_bound; lia).
  pose proof (bd_read_ok (mk_cmd l n b size) h Hr) as HR. simpl in HR.
  rewrite (proj2 (Z.ltb_ge (size / 512) n)) in HR by lia.
  eapply wp_mono; [apply HR; lia|].
  - intros r h' (-> & Hr' & Hlog & Hk). split; [|split; [split; [done|]|done]].
    + f_equal. f_equal. apply secs_ext. auto.
    + intros k. rewrite Hk. apply E.
Qed.

Lemma write_full h s l n b size :
  disk_is h s -> 0 < n <= 255 -> 0 <= l -> l + n <= bd_capacity -> 512 * n <= lenZ b -> bytes b ->
  wp (bd_write (mk_cmd l n b size)) h (fun r h' =>
    r = n /\ disk_is h' (write_secs s l n b) /\ log h' = log h).
Proof.
  intros [Hr E] Hn Hl Hc Hb Hby. eapply wp_mono.
  - apply bd_write_ok; simpl; [done|lia|lia|lia|lia|done].
  - simpl. intros r h' (-> & Hr' & Hlog & Hk). split; [done|split; [split; [done|]|done]].
    intros k. rewrite Hk. unfold write_secs. by case_match.
Qed.
End Laws.

(** ** A disk in memory *)

Abbreviation ram := (gmap Z (list Z)).
Definition ram_sector (d : ram) (l : Z) : list Z :=
  take 512 (map wrap8 (default [] (d !! l)) ++ replicate 512 0).

Definition ram_read (cmd : Disk_IO_Command) : IO ram (Z * list Z) := fun h =>
  let n := if buf_size cmd / 512 <? sec_num cmd then buf_size cmd / 512 else sec_num cmd in
  Ok ((n, splice (buf cmd) 0 (secs (ram_sector (dev h)) (lba_start cmd) n)), h).

Fixpoint ram_store (n : nat) (d : ram) (l : Z) (b : list Z) : ram :=
  match n with
  | O => d
  | S n => ram_store n (<[l := slice b 0 512]> d) (l + 1) (drop 512 b)
  end.
Definition ram_write (cmd : Disk_IO_Command) : IO ram Z := fun h =>
  Ok (sec_num cmd, mk_host (ram_store (Z.to_nat (sec_num cmd)) (dev h) (lba_start cmd) (buf cmd)) (log h)).

Lemma ram_sector_ok d l : lenZ (ram_sector d l) = 512 /\ bytes (ram_sector d l).
Proof.
  unfold ram_sector, lenZ. split.
  - rewrite length_take, length_app, length_replicate. lia.
  - apply Forall_take, Forall_app. split; [|apply bytes_repeat0].
    apply Forall_map, Forall_forall. intros. apply wrap8_range.
Qed.

Lemma ram_sector_insert d l b k :
  lenZ b = 512 -> bytes b -> ram_sector (<[l := b]> d) k = if l =? k then b else ram_sector d k.
Proof.
  intros Hl Hb. unfold ram_sector. destruct (Z.eqb_spec l k) as [->|].
  - rewrite lookup_insert_eq. simpl. unfold lenZ in Hl.
    rewrite take_app_le by (rewrite length_map; lia). rewrite take_ge by (rewrite length_map; lia).
    rewrite <- (map_id b) at 2. apply map_ext_in. intros c Hc. apply wrap8_small.
    eapply Forall_forall in Hb; [exact Hb|]. by apply list_elem_of_In.
  - by rewrite lookup_insert_ne.
Qed.

Lemma ram_store_sector n d l b k :
  512 * Z.of_nat n <= lenZ b -> bytes b ->
  ram_sector (ram_store n d l b) k = write_secs (ram_sector d) l (Z.of_nat n) b k.
Proof.
  revert d l b. induction n as [|n IH]; intros d l b Hl Hb; simpl ram_store.
  - rewrite write_secs_out by lia. done.
  - assert (Hd : 512 * Z.of_nat n <= lenZ (drop 512 b)) by (unfold lenZ in *; rewrite length_drop; lia).
    rewrite IH by (done || by apply Forall_drop).
    assert (Hs : lenZ (slice b 0 512) = 512) by (apply lenZ_slice; lia).
    destruct (Z.ltb_spec k l); [|destruct (Z.ltb_spec k (l + Z.of_nat (S n)))].
    + rewrite !write_secs_out, ram_sector_insert by (done || lia || by apply bytes_slice). by if_false.
    + rewrite (write_secs_in _ l) by lia. destruct (Z.eqb_spec k l) as [->|].
      * rewrite write_secs_out, ram_sector_insert by (done || lia || by apply bytes_slice).
        rewrite Z.eqb_refl. f_equal. lia.
      * rewrite write_secs_in by lia. unfold slice. rewrite drop_drop. do 2 f_equal. lia.
    + rewrite !write_secs_out, ram_sector_insert by (done || lia || by apply bytes_slice). by if_false.
Qed.

#[export] Program Instance ram_disk : BlockDev ram := {|
  bd_read := ram_read;
  bd_write := ram_write;
  bd_sector := ram_sector;
  bd_capacity := 65536;
  bd_ready := fun _ => True;
|}.
Next Obligation. intros d l. apply ram_sector_ok. Qed.
Next Obligation. intros cmd h _ n Hn Hl Hc Hb. unfold wp, ram_read. fold n. done. Qed.
Next Obligation.
  intros cmd h _ Hn Hl Hc Hb Hby. unfold wp, ram_write. simpl. split; [done|split; [done|split; [done|]]].
  intros k. rewrite ram_store_sector by (done || lia). by rewrite Z2Nat.id by lia.
Qed.
