(* ===== verification/Sched.v ===== *)
(** * Tasks and scheduling (kernel/task.c, drivers/timer.c, asm/process.asm)

    The task table, the round-robin scheduler, the timer tick that drives it
    and the context switch.  A pointer into [task_arr] is the index of its
    entry.  The processor state the code saves and restores is the stack
    pointer and the page directory ([cr3]).  An operation that follows the
    NULL pointer [next_task] has no result ([None]).  Page tables and the
    contents of the stacks belong to the memory component. *)
From S2P Require Import Prelude.

Module Sched.

Definition MAX_TASK_NUM : Z := 32.
Definition TASK_PRESENT : Z := 1.
Definition TASK_NEED_SCHED : Z := 2.
Definition FRAME_SIZE : Z := 4096.
Definition KSTACK_FRAME : Z := Z.lor (Z.shiftl 1021 22) (Z.shiftl 1023 12).
Definition USTACK_FRAME : Z := 3221225472 - FRAME_SIZE.
Definition sizeof_Task : Z := 28.
Definition sizeof_TrapFrame : Z := 76.

Record Task := mkTask {
  esp : Z;
  phy_dir : Z;
  esp0 : Z;
  ptid : Z;
  tid : Z;
  state : Z;
  ttl : Z;
}.

#[global] Instance Task_inhabited : Inhabited Task := populate (mkTask 0 0 0 0 0 0 0).
#[global] Instance Task_eq_dec : EqDecision Task.
Proof. solve_decision. Defined.

(** [task_arr], [current], [tss_entry], the processor's [esp] and [cr3], and
    the timer's [freq_counter] and [secs]. *)
Record sched := mkSched {
  task_arr : list Task;
  current : Z;
  tss_esp0 : Z;
  tss_ss0 : Z;
  cpu_esp : Z;
  cpu_cr3 : Z;
  freq_counter : Z;
  secs : Z;
}.

Definition task_at (s : sched) (i : Z) : Task := task_arr s !!! Z.to_nat i.

Definition set_task (s : sched) (i : Z) (t : Task) : sched :=
  mkSched (<[Z.to_nat i := t]> (task_arr s)) (current s) (tss_esp0 s) (tss_ss0 s)
    (cpu_esp s) (cpu_cr3 s) (freq_counter s) (secs s).
Definition set_current (s : sched) (i : Z) : sched :=
  mkSched (task_arr s) i (tss_esp0 s) (tss_ss0 s) (cpu_esp s) (cpu_cr3 s) (freq_counter s) (secs s).
Definition set_tss (s : sched) (e ss : Z) : sched :=
  mkSched (task_arr s) (current s) e ss (cpu_esp s) (cpu_cr3 s) (freq_counter s) (secs s).
Definition set_cpu (s : sched) (e c : Z) : sched :=
  mkSched (task_arr s) (current s) (tss_esp0 s) (tss_ss0 s) e c (freq_counter s) (secs s).
Definition set_clock (s : sched) (f n : Z) : sched :=
  mkSched (task_arr s) (current s) (tss_esp0 s) (tss_ss0 s) (cpu_esp s) (cpu_cr3 s) f n.

Definition set_state (t : Task) (x : Z) : Task :=
  mkTask (esp t) (phy_dir t) (esp0 t) (ptid t) (tid t) x (ttl t).
Definition set_ttl (t : Task) (x : Z) : Task :=
  mkTask (esp t) (phy_dir t) (esp0 t) (ptid t) (tid t) (state t) x.
Definition set_esp (t : Task) (x : Z) : Task :=
  mkTask x (phy_dir t) (esp0 t) (ptid t) (tid t) (state t) (ttl t).
Definition set_phy_dir (t : Task) (x : Z) : Task :=
  mkTask (esp t) x (esp0 t) (ptid t) (tid t) (state t) (ttl t).

(** [for(i=0;i<MAX_TASK_NUM;++i) if(!task_arr[i].state) return i;] *)
Fixpoint next_tid_loop (n : nat) (arr : list Task) (i : Z) : res Z :=
  match n with
  | O => Hang []
  | S n => if state (arr !!! Z.to_nat i) =? 0 then Ok i else next_tid_loop n arr (i + 1)
  end.
Definition get_next_tid (s : sched) : res Z := next_tid_loop (Z.to_nat MAX_TASK_NUM) (task_arr s) 0.

(** asm/process.asm: save [cr3] and the stack pointer (after [pusha; pushf],
    36 bytes) in the old task, make [new] current, load its stack pointer and
    page directory, and pop the 36 bytes again.  [cpu_esp] is the stack
    pointer at entry and before [ret]. *)
Definition __context_switch (s : sched) (new : Z) : sched :=
  let old := task_at s (current s) in
  let s := set_task s (current s) (set_esp (set_phy_dir old (cpu_cr3 s)) (wrap32 (cpu_esp s - 36))) in
  let s := set_current s new in
  set_cpu s (wrap32 (esp (task_at s new) + 36)) (phy_dir (task_at s new)).

Definition context_switch (s : sched) (new : option Z) : option sched :=
  match new with
  | None => None
  | Some new =>
      if current s =? new then Some s
      else Some (__context_switch (set_tss s (esp0 (task_at s new)) 16) new)
  end.

(** [for(i=1;i<=MAX_TASK_NUM;++i)] of [schedule]. *)
Fixpoint scan_tasks (n : nat) (arr : list Task) (cur_tid i : Z) : option Z :=
  match n with
  | O => None
  | S n =>
      let k := (wrap32 (cur_tid + i)) mod MAX_TASK_NUM in
      if negb (state (arr !!! Z.to_nat k) =? 0) then Some k else scan_tasks n arr cur_tid (i + 1)
  end.

Definition schedule (s : sched) : option sched :=
  let cur := task_at s (current s) in
  let next_task := scan_tasks (Z.to_nat MAX_TASK_NUM) (task_arr s) (tid cur) 1 in
  if negb (state cur =? 0) then
    let cur := set_state cur (Z.land (state cur) (Z.lnot TASK_NEED_SCHED)) in
    let cur := set_ttl cur 10 in
    context_switch (set_task s (current s) cur) next_task
  else context_switch s next_task.

Definition cond_schedule (s : sched) : option sched :=
  if negb (Z.land (state (task_at s (current s))) TASK_NEED_SCHED =? 0) then schedule s else Some s.

Definition terminate_process (s : sched) : option sched :=
  schedule (set_task s (current s) (set_state (task_at s (current s)) 0)).

Definition TIMER_FREQUENCY : Z := 25.

Definition timer_handler (s : sched) : sched :=
  let f := wrap32 (freq_counter s + 1) in
  let s := if TIMER_FREQUENCY <=? f then set_clock s 0 (wrap32 (secs s + 1)) else set_clock s f (secs s) in
  let cur := task_at s (current s) in
  let cur := set_ttl cur (wrap32 (ttl cur - 1)) in
  let cur := if ttl cur =? 0 then set_state cur (Z.lor (state cur) TASK_NEED_SCHED) else cur in
  set_task s (current s) cur.

(** The bytes sent to the timer chip: command, divisor low and high byte. *)
Definition init_timer : list (Z * Z) :=
  let divisor := 1193180 / TIMER_FREQUENCY in
  [(67, 54); (64, Z.land divisor 255); (64, Z.land (Z.shiftr divisor 8) 255)].

(** The task-table part of [alloc_kstack_and_task] for a page directory at
    [new_cr3]; [ptid] is [current->tid]. *)
Definition alloc_task (s : sched) (new_cr3 parent_tid : Z) : res (sched * Z) :=
  new ← get_next_tid s;
  let t := mkTask 0 new_cr3 (KSTACK_FRAME + FRAME_SIZE - sizeof_Task - 4) parent_tid new TASK_PRESENT 10 in
  Ok (set_task s new t, new).

(** The task-table part of [load_task]: the kernel stack pointer of a new task
    points at its trap frame below the [Task] structure. *)
Definition load_task (s : sched) (new_pg_dir_phy : Z) : res (sched * Z) :=
  '(s, new_tid) ← alloc_task s new_pg_dir_phy (tid (task_at s (current s)));
  let t := set_esp (task_at s new_tid) (KSTACK_FRAME + FRAME_SIZE - sizeof_Task - sizeof_TrapFrame) in
  Ok (set_task s new_tid t, new_tid).

(** [spawn_ram] switches with [__context_switch] itself. *)
Definition spawn_ram (s : sched) (new_pg_dir_phy : Z) : res sched :=
  '(s, t) ← load_task s new_pg_dir_phy;
  Ok (__context_switch s t).

Definition setup_tss (s : sched) : sched := set_tss s 4294967040 16.

(** [for(i=0;i<MAX_TASK_NUM;++i) task_arr[i].state = 0;] *)
Definition clear_tasks (s : sched) : sched :=
  mkSched (map (fun t => set_state t 0) (task_arr s)) (current s) (tss_esp0 s) (tss_ss0 s)
    (cpu_esp s) (cpu_cr3 s) (freq_counter s) (secs s).

(** [init_task0] up to the first [sti]: clear the table, make the running
    code task 0 ([garbage] is what [current->tid] reads while [current] is
    still NULL), set up the TSS and start the first program. *)
Definition init_task0 (s : sched) (pg_dir0 garbage init_dir : Z) : res sched :=
  let s := clear_tasks s in
  '(s, t) ← alloc_task s pg_dir0 garbage;
  let s := set_current s t in
  let s := setup_tss s in
  spawn_ram s init_dir.

(** ** Specification *)

Definition live (s : sched) (i : Z) : Prop := 0 <= i < MAX_TASK_NUM /\ state (task_at s i) <> 0.

(** What holds whenever a task runs outside the kernel: the running task is
    live, and every live task sits at its own index, has no pending
    reschedule request and between 1 and 10 ticks left. *)
Record sched_inv (s : sched) : Prop := {
  inv_len : length (task_arr s) = Z.to_nat MAX_TASK_NUM;
  inv_cur : live s (current s);
  inv_live : forall i, live s i ->
    tid (task_at s i) = i /\ state (task_at s i) = TASK_PRESENT /\ 1 <= ttl (task_at s i) <= 10 /\
    u32 (esp (task_at s i));
  inv_esp : u32 (cpu_esp s);
}.

(** One interrupt of the timer: the tick and the check on the way out. *)
Definition tick (s : sched) : option sched := cond_schedule (timer_handler s).

(** The shell command [nt] inside a keyboard interrupt. *)
Definition next_task_request (s : sched) : option sched :=
  let cur := task_at s (current s) in
  cond_schedule (set_task s (current s) (set_state cur (Z.lor (state cur) TASK_NEED_SCHED))).

Inductive sched_step : sched -> sched -> Prop :=
| step_run s e : u32 e -> sched_step s (set_cpu s e (cpu_cr3 s))
| step_tick s s' : tick s = Some s' -> sched_step s s'
| step_nt s s' : next_task_request s = Some s' -> sched_step s s'
| step_load s dir s' t : load_task s dir = Ok (s', t) -> sched_step s s'
| step_exit s s' : terminate_process s = Some s' -> sched_step s s'.

(** Ticks with no other event. *)
Fixpoint ticks (n : nat) (s : sched) : option sched :=
  match n with
  | O => Some s
  | S n => match tick s with Some s' => ticks n s' | None => None end
  end.

(** [j] is the first live task after [cur] in cyclic order. *)
Definition next_live (s : sched) (cur j : Z) : Prop :=
  exists d, 1 <= d <= MAX_TASK_NUM /\ j = (cur + d) mod MAX_TASK_NUM /\ live s j /\
    forall e, 1 <= e < d -> ~ live s ((cur + e) mod MAX_TASK_NUM).

End Sched.
Import Sched.

(** ** The task table *)

Ltac sched_consts := unfold MAX_TASK_NUM, TASK_PRESENT, TASK_NEED_SCHED in *.

Definition in_range (i : Z) : Prop := 0 <= i < MAX_TASK_NUM.
Definition table_ok (s : sched) : Prop := length (task_arr s) = Z.to_nat MAX_TASK_NUM.

Lemma table_ok_set s i t : table_ok s -> table_ok (set_task s i t).
Proof. unfold table_ok. simpl. by rewrite length_insert. Qed.

Lemma task_at_set_eq s i t : table_ok s -> in_range i -> task_at (set_task s i t) i = t.
Proof.
  intros Hl Hi. unfold task_at. simpl. apply list_lookup_total_insert_eq.
  unfold table_ok in Hl. rewrite Hl. unfold in_range in Hi. sched_consts. lia.
Qed.

Lemma task_at_set_ne s i j t : in_range i -> in_range j -> i <> j -> task_at (set_task s i t) j = task_at s j.
Proof.
  intros Hi Hj Hne. unfold task_at. simpl. apply list_lookup_total_insert_ne.
  unfold in_range in *. lia.
Qed.

Lemma task_at_set s i j t :
  table_ok s -> in_range i -> in_range j ->
  task_at (set_task s i t) j = if i =? j then t else task_at s j.
Proof.
  intros Hl Hi Hj. destruct (Z.eqb_spec i j) as [<-|]; [by apply task_at_set_eq|by apply task_at_set_ne].
Qed.

Lemma task_at_tss s e x i : task_at (set_tss s e x) i = task_at s i.
Proof. done. Qed.

(** What a context switch does to the table: the old task keeps everything but
    its saved stack pointer and page directory. *)
Lemma task_at_switch s j i :
  table_ok s -> in_range (current s) -> in_range i ->
  task_at (__context_switch s j) i =
    if current s =? i
    then set_esp (set_phy_dir (task_at s i) (cpu_cr3 s)) (wrap32 (cpu_esp s - 36))
    else task_at s i.
Proof.
  intros Hl Hc Hi. unfold __context_switch.
  change (task_at (set_cpu ?a ?b ?c) i) with (task_at a i).
  change (task_at (set_current ?a ?b) i) with (task_at a i).
  rewrite task_at_set by done. destruct (Z.eqb_spec (current s) i); [by subst|done].
Qed.

Lemma switch_cpu s j :
  table_ok s -> in_range (current s) -> in_range j -> current s <> j ->
  current (__context_switch s j) = j /\
  cpu_esp (__context_switch s j) = wrap32 (esp (task_at s j) + 36) /\
  cpu_cr3 (__context_switch s j) = phy_dir (task_at s j) /\
  tss_esp0 (__context_switch s j) = tss_esp0 s.
Proof.
  intros Hl Hc Hj Hne. unfold __context_switch. cbn [current cpu_esp cpu_cr3 set_cpu set_current].
  change (task_at (set_current ?a ?b) j) with (task_at a j).
  by rewrite task_at_set_ne by done.
Qed.

(** ** The scan for the next task *)

Lemma scan_tasks_spec n arr c i :
  in_range c -> 0 <= i -> i + Z.of_nat n <= 64 ->
  match scan_tasks n arr c i with
  | Some k => exists d, i <= d < i + Z.of_nat n /\ k = (c + d) mod MAX_TASK_NUM /\
      state (arr !!! Z.to_nat k) <> 0 /\
      forall e, i <= e < d -> state (arr !!! Z.to_nat ((c + e) mod MAX_TASK_NUM)) = 0
  | None => forall e, i <= e < i + Z.of_nat n -> state (arr !!! Z.to_nat ((c + e) mod MAX_TASK_NUM)) = 0
  end.
Proof.
  intros Hc. unfold in_range in Hc. revert i. induction n as [|n IH]; intros i Hi Hn; cbn [scan_tasks]; [lia|].
  rewrite wrap32_small by (sched_consts; lia).
  destruct (Z.eqb_spec (state (arr !!! Z.to_nat ((c + i) mod MAX_TASK_NUM))) 0) as [E|E]; cbn [negb].
  - specialize (IH (i + 1) ltac:(lia) ltac:(lia)). destruct (scan_tasks n arr c (i + 1)) as [k|].
    + destruct IH as (d & Hd & Hk & Hs & Hb). exists d. split_and!; [lia|lia|done|done|].
      intros e He. destruct (decide (e = i)) as [->|]; [done|apply Hb; lia].
    + intros e He. destruct (decide (e = i)) as [->|]; [done|apply IH; lia].
  - exists i. split_and!; [lia|lia|done|done|lia].
Qed.

Lemma mod_range x : in_range (x mod MAX_TASK_NUM).
Proof. unfold in_range. sched_consts. apply Z.mod_pos_bound. lia. Qed.

(** Every task index is reached from every other. *)
Lemma dist_ex c j : in_range c -> in_range j -> exists d, 1 <= d <= MAX_TASK_NUM /\ j = (c + d) mod MAX_TASK_NUM.
Proof.
  unfold in_range. sched_consts. intros Hc Hj. destruct (decide (c < j)).
  - exists (j - c). split; [lia|]. rewrite Z.mod_small; lia.
  - exists (j - c + 32). split; [lia|]. replace (c + (j - c + 32)) with (j + 1 * 32) by lia.
    rewrite Z.mod_add by lia. by rewrite Z.mod_small by lia.
Qed.

Lemma scan_next_live s c j :
  in_range c -> scan_tasks (Z.to_nat MAX_TASK_NUM) (task_arr s) c 1 = Some j -> next_live s c j.
Proof.
  intros Hc Hs. pose proof (scan_tasks_spec (Z.to_nat MAX_TASK_NUM) (task_arr s) c 1 Hc ltac:(lia)) as H.
  rewrite Hs in H. destruct H as (d & Hd & -> & Hl & Hb); [sched_consts; lia|].
  exists d. split_and!; [sched_consts; lia|sched_consts; lia|done|split; [apply mod_range|done]|].
  intros e He [_ Hx]. apply Hx. apply Hb. lia.
Qed.

Lemma scan_some s c i :
  in_range c -> live s i -> exists j, scan_tasks (Z.to_nat MAX_TASK_NUM) (task_arr s) c 1 = Some j.
Proof.
  intros Hc [Hi Hl]. pose proof (scan_tasks_spec (Z.to_nat MAX_TASK_NUM) (task_arr s) c 1 Hc ltac:(lia)) as H.
  destruct (scan_tasks _ _ _ _); [eauto|]. destruct (dist_ex c i Hc Hi) as (d & Hd & ->).
  exfalso. apply Hl. apply H; [sched_consts; lia|]. sched_consts. lia.
Qed.

Lemma scan_none s c :
  in_range c -> (forall i, ~ live s i) -> scan_tasks (Z.to_nat MAX_TASK_NUM) (task_arr s) c 1 = None.
Proof.
  intros Hc Hn. destruct (scan_tasks _ _ _ _) as [j|] eqn:E; [|done].
  apply scan_next_live in E as (d & _ & _ & Hl & _); [|done]. by apply Hn in Hl.
Qed.

(** ** schedule *)

(** The entry of the running task when it is put back into the queue. *)
Definition requeue (t : Task) : Task :=
  if state t =? 0 then t else set_ttl (set_state t (Z.land (state t) (Z.lnot TASK_NEED_SCHED))) 10.

Lemma set_task_same s i : table_ok s -> in_range i -> set_task s i (task_at s i) = s.
Proof.
  intros Hl Hi. destruct s. unfold set_task, task_at. simpl. f_equal.
  apply list_insert_id. apply list_lookup_lookup_total_lt.
  unfold table_ok in Hl. simpl in Hl. rewrite Hl. unfold in_range in Hi. lia.
Qed.

Lemma schedule_eq s j :
  table_ok s -> in_range (current s) ->
  scan_tasks (Z.to_nat MAX_TASK_NUM) (task_arr s) (tid (task_at s (current s))) 1 = Some j ->
  let s1 := set_task s (current s) (requeue (task_at s (current s))) in
  schedule s = Some (if current s =? j then s1 else __context_switch (set_tss s1 (esp0 (task_at s1 j)) 16) j).
Proof.
  intros Hl Hc Hs. cbn zeta. unfold schedule, requeue. rewrite Hs. unfold context_switch.
  destruct (Z.eqb_spec (state (task_at s (current s))) 0); cbn [negb].
  - rewrite set_task_same by done. by destruct (current s =? j).
  - cbn [current set_task]. by destruct (current s =? j).
Qed.

(** What holds inside the kernel, between the change of the running task's
    entry and the call of [schedule]: the running task may have exited or may
    have a pending request, the others are as they are outside. *)
Record mid_inv (s : sched) : Prop := {
  mid_len : table_ok s;
  mid_cur : in_range (current s);
  mid_tid : tid (task_at s (current s)) = current s;
  mid_state : state (task_at s (current s)) = 0 \/ state (task_at s (current s)) = 1 \/
              state (task_at s (current s)) = 3;
  mid_u32 : u32 (esp (task_at s (current s)));
  mid_live : forall i, live s i -> i <> current s ->
    tid (task_at s i) = i /\ state (task_at s i) = TASK_PRESENT /\ 1 <= ttl (task_at s i) <= 10 /\
    u32 (esp (task_at s i));
  mid_esp : u32 (cpu_esp s);
}.

(** Entries other than the running task's are untouched; if the processor
    changes hands, the old context is saved and the new one loaded. *)
Definition switched (s s' : sched) : Prop :=
  (forall i, in_range i -> i <> current s -> task_at s' i = task_at s i) /\
  (current s' = current s -> cpu_esp s' = cpu_esp s /\ cpu_cr3 s' = cpu_cr3 s) /\
  (current s' <> current s ->
    esp (task_at s' (current s)) = wrap32 (cpu_esp s - 36) /\
    phy_dir (task_at s' (current s)) = cpu_cr3 s /\
    cpu_esp s' = wrap32 (esp (task_at s (current s')) + 36) /\
    cpu_cr3 s' = phy_dir (task_at s (current s')) /\
    tss_esp0 s' = esp0 (task_at s (current s'))).

Lemma requeue_state t :
  state t = 0 \/ state t = 1 \/ state t = 3 -> state (requeue t) = if state t =? 0 then 0 else 1.
Proof.
  unfold requeue. intros [E|[E|E]]; rewrite E; [exact E|reflexivity..].
Qed.
Lemma requeue_same t : tid (requeue t) = tid t /\ esp (requeue t) = esp t /\ phy_dir (requeue t) = phy_dir t.
Proof. unfold requeue. by destruct (state t =? 0). Qed.
Lemma requeue_ttl t : state t <> 0 -> ttl (requeue t) = 10.
Proof. unfold requeue. intros H. by rewrite (proj2 (Z.eqb_neq _ _)). Qed.

Section Schedule.
Variable s : sched.
Hypothesis Hmid : mid_inv s.

Let cur := current s.
Let s1 := set_task s cur (requeue (task_at s cur)).

Local Lemma s1_len : table_ok s1.
Proof. apply table_ok_set, mid_len, Hmid. Qed.

Local Lemma s1_at i : in_range i -> task_at s1 i = if cur =? i then requeue (task_at s i) else task_at s i.
Proof.
  intros Hi. unfold s1. rewrite task_at_set; [|apply mid_len, Hmid|apply mid_cur, Hmid|done].
  by destruct (Z.eqb_spec cur i) as [->|].
Qed.

Local Lemma s1_live i : live s1 i <-> live s i.
Proof.
  unfold live. split; intros [Hi H]; (split; [done|]); rewrite s1_at in * by done; destruct (Z.eqb_spec cur i) as [<-|]; try done.
  - intros E. apply H. unfold requeue. rewrite E. simpl. done.
  - rewrite requeue_state by apply Hmid. by rewrite (proj2 (Z.eqb_neq _ _)).
Qed.

(** All live entries are good after the running task is put back. *)
Local Lemma s1_good i :
  live s1 i -> tid (task_at s1 i) = i /\ state (task_at s1 i) = TASK_PRESENT /\
    1 <= ttl (task_at s1 i) <= 10 /\ u32 (esp (task_at s1 i)).
Proof.
  intros Hl. pose proof (proj1 (s1_live i) Hl) as Hl0. destruct Hl as [Hi _]. rewrite s1_at by done.
  destruct (Z.eqb_spec cur i) as [<-|]; [|by apply Hmid].
  destruct (requeue_same (task_at s cur)) as (-> & -> & _). destruct Hl0 as [_ Hl0].
  rewrite requeue_state, requeue_ttl by (apply Hmid || done). rewrite (proj2 (Z.eqb_neq _ _)) by done.
  split_and!; [apply Hmid|done|lia|lia|apply Hmid..].
Qed.

Lemma schedule_spec i0 :
  live s i0 ->
  exists s', schedule s = Some s' /\ next_live s (current s) (current s') /\ sched_inv s' /\
    (forall i, live s' i <-> live s i) /\ switched s s'.
Proof.
  intros H0. pose proof (mid_tid _ Hmid) as Ht. pose proof (mid_cur _ Hmid) as Hc.
  destruct (scan_some s (current s) i0 Hc H0) as [j Hj].
  pose proof (scan_next_live _ _ _ Hc Hj) as Hnl. pose proof s1_len as Hl1.
  assert (Hlj : live s j) by (by destruct Hnl as (? & _ & _ & ? & _)).
  rewrite (schedule_eq s j) by (apply Hmid || by rewrite Ht). eexists. split; [done|].
  fold cur. change (set_task s cur (requeue (task_at s cur))) with s1.
  destruct (Z.eqb_spec cur j) as [<-|Hne].
  - change (current s1) with cur. split_and!; [done| |apply s1_live|].
    + split; [apply Hl1|by apply s1_live|apply s1_good|apply Hmid].
    + split_and!; [|done|done]. intros i Hi Hn. rewrite s1_at by done.
      by rewrite (proj2 (Z.eqb_neq _ _)) by (unfold cur; lia).
  - set (s2 := set_tss s1 (esp0 (task_at s1 j)) 16).
    destruct (switch_cpu s2 j Hl1 Hc (proj1 Hlj) Hne) as (Hcur & He & Hcr & Htss).
    assert (Hat : forall i, in_range i -> task_at (__context_switch s2 j) i =
       if cur =? i then set_esp (set_phy_dir (task_at s1 i) (cpu_cr3 s)) (wrap32 (cpu_esp s - 36)) else task_at s1 i)
      by (intros i Hi; by rewrite task_at_switch).
    assert (Hlv : forall i, live (__context_switch s2 j) i <-> live s1 i).
    { intros i. unfold live. split; intros [Hi H]; (split; [done|]); rewrite Hat in * by done; by destruct (cur =? i). }
    rewrite Hcur. split_and!; [done| |intros i; rewrite Hlv; apply s1_live|].
    + split.
      * unfold __context_switch. simpl. rewrite length_insert. apply Hl1.
      * rewrite Hcur. by apply Hlv, s1_live.
      * intros i Hli. pose proof (proj1 (Hlv i) Hli) as Hg. destruct (s1_good i Hg) as (? & ? & ? & ?).
        rewrite Hat by apply Hg. destruct (cur =? i); [|done].
        simpl. split_and!; [done|done|lia|lia|apply wrap32_range..].
      * rewrite He. apply wrap32_range.
    + unfold switched. rewrite Hcur, He, Hcr, Htss. fold cur.
      assert (Hj1 : task_at s1 j = task_at s j) by (rewrite s1_at by apply Hlj; by rewrite (proj2 (Z.eqb_neq _ _))).
      split_and!.
      * intros i Hi Hn. rewrite Hat, s1_at by done. by rewrite (proj2 (Z.eqb_neq _ _)) by lia.
      * done.
      * intros _. rewrite Hat by done. rewrite Z.eqb_refl. unfold s2. rewrite !task_at_tss, Hj1.
        by split_and!.
Qed.

End Schedule.

(** ** Entering the kernel *)

(** The running task's entry is replaced by [t]. *)
Lemma set_cur_mid s t :
  sched_inv s -> tid t = current s -> state t = 0 \/ state t = 1 \/ state t = 3 -> u32 (esp t) ->
  mid_inv (set_task s (current s) t).
Proof.
  intros [Hl Hc Hlive He] Ht Hst Hu. destruct Hc as [Hc _].
  assert (Hat : task_at (set_task s (current s) t) (current s) = t) by (by apply task_at_set_eq).
  split; change (current (set_task s (current s) t)) with (current s); rewrite ?Hat; try done.
  - by apply table_ok_set.
  - intros i [Hi Hs] Hn. rewrite task_at_set_ne in * by (done || lia). by apply Hlive.
Qed.

Lemma set_cur_live s t i :
  sched_inv s -> state t <> 0 -> live (set_task s (current s) t) i <-> live s i.
Proof.
  intros [Hl Hc Hlive He] Ht. destruct Hc as [Hc Hc2]. unfold live.
  split; intros [Hi H]; (split; [done|]); rewrite task_at_set in * by done;
    destruct (Z.eqb_spec (current s) i) as [<-|]; done.
Qed.

Lemma switched_set_cur s t s' :
  sched_inv s -> in_range (current s') -> switched (set_task s (current s) t) s' -> switched s s'.
Proof.
  intros Hi Hr (H1 & H2 & H3). change (current (set_task s (current s) t)) with (current s) in *.
  destruct (inv_cur _ Hi) as [Hc _]. unfold switched. split_and!.
  - intros i Hri Hn. rewrite H1 by done. by apply task_at_set_ne.
  - apply H2.
  - intros Hn. destruct (H3 Hn) as (-> & -> & -> & -> & ->).
    by rewrite !task_at_set_ne by (done || congruence).
Qed.

Lemma next_live_set_cur s t j :
  sched_inv s -> state t <> 0 -> next_live (set_task s (current s) t) (current s) j -> next_live s (current s) j.
Proof.
  intros Hi Ht (d & Hd & Hj & Hl & Hb). exists d. split_and!; [lia|lia|done|by apply set_cur_live in Hl|].
  intros e He Hx. apply (Hb e He). by apply set_cur_live.
Qed.

(** [cond_schedule] after the running task's entry was changed to [t]. *)
Lemma cond_schedule_spec s t :
  sched_inv s -> tid t = current s -> u32 (esp t) ->
  (state t = 1 /\ 1 <= ttl t <= 10) \/ state t = 3 ->
  exists s', cond_schedule (set_task s (current s) t) = Some s' /\ sched_inv s' /\
    (forall i, live s' i <-> live s i) /\ switched s s' /\
    (state t = 1 -> s' = set_task s (current s) t) /\
    (state t = 3 -> next_live s (current s) (current s')).
Proof.
  intros Hi Ht Hu Hst. pose proof Hi as [Hlen [Hc Hc0] Hlive He].
  assert (Hat : task_at (set_task s (current s) t) (current s) = t) by (by apply task_at_set_eq).
  assert (Hlv : forall i, live (set_task s (current s) t) i <-> live s i) by (intros; apply set_cur_live; [done|lia]).
  unfold cond_schedule. change (current (set_task s (current s) t)) with (current s). rewrite Hat.
  destruct Hst as [[Hs Httl]|Hs]; rewrite Hs; cbn [Z.land TASK_NEED_SCHED Z.eqb negb].
  - eexists. split; [done|]. split_and!; [|done| |done|done].
    + split; [by apply table_ok_set|by apply Hlv| |done].
      intros i Hl. rewrite task_at_set; [|done|done|apply Hl].
      destruct (Z.eqb_spec (current s) i) as [<-|]; [done|by apply Hlive, Hlv].
    + split_and!; [|done|done]. intros. by apply task_at_set_ne.
  - destruct (schedule_spec (set_task s (current s) t)) with (i0 := current s)
      as (s' & Hsch & Hn & Hi' & Hl' & Hsw).
    + apply set_cur_mid; [done|done|lia|done].
    + by apply Hlv.
    + exists s'. change (Z.land 3 TASK_NEED_SCHED) with 2. cbn [Z.eqb negb].
      split_and!; [done|done|intros i; rewrite Hl'; apply Hlv| |lia|].
      * apply (switched_set_cur s t); [done|apply Hi'|done].
      * intros _. apply (next_live_set_cur s t); [done|lia|done].
Qed.

(** The entry of the running task after a tick. *)
Definition ticked (t : Task) : Task :=
  let t := set_ttl t (wrap32 (ttl t - 1)) in
  if ttl t =? 0 then set_state t (Z.lor (state t) TASK_NEED_SCHED) else t.

Definition clock (s : sched) : sched :=
  let f := wrap32 (freq_counter s + 1) in
  if TIMER_FREQUENCY <=? f then set_clock s 0 (wrap32 (secs s + 1)) else set_clock s f (secs s).

Lemma clock_same s :
  task_arr (clock s) = task_arr s /\ current (clock s) = current s /\ cpu_esp (clock s) = cpu_esp s /\
  cpu_cr3 (clock s) = cpu_cr3 s /\ tss_esp0 (clock s) = tss_esp0 s.
Proof. unfold clock. by case_if. Qed.

Lemma clock_task s i : task_at (clock s) i = task_at s i.
Proof. unfold task_at. by destruct (clock_same s) as [-> _]. Qed.

Lemma clock_inv s : sched_inv s -> sched_inv (clock s).
Proof.
  intros [H1 H2 H3 H4]. destruct (clock_same s) as (Ha & Hc & He & _).
  split; unfold live in *; rewrite ?Ha, ?Hc, ?He, ?clock_task; try done.
  intros i. rewrite clock_task. apply H3.
Qed.

Lemma timer_handler_eq s :
  timer_handler s = set_task (clock s) (current s) (ticked (task_at s (current s))).
Proof.
  unfold timer_handler, ticked. fold (clock s). destruct (clock_same s) as (_ & Hc & _).
  by rewrite Hc, clock_task.
Qed.

Lemma switched_clock s s' : switched (clock s) s' -> switched s s'.
Proof.
  destruct (clock_same s) as (_ & Hc & He & Hcr & _). unfold switched. rewrite Hc, He, Hcr, clock_task.
  intros (H1 & H2 & H3). split_and!; [|done|done]. intros i ??. rewrite H1 by done. apply clock_task.
Qed.

(** A tick either takes one tick off the running task, or, when it was the
    last one, passes the processor to the next live task. *)
Lemma tick_spec s :
  sched_inv s ->
  exists s', tick s = Some s' /\ sched_inv s' /\ (forall i, live s' i <-> live s i) /\ switched s s' /\
    (1 < ttl (task_at s (current s)) -> current s' = current s /\
       ttl (task_at s' (current s)) = ttl (task_at s (current s)) - 1) /\
    (ttl (task_at s (current s)) = 1 -> next_live s (current s) (current s')).
Proof.
  intros Hi. pose proof (inv_cur _ Hi) as Hc. destruct (inv_live _ Hi _ Hc) as (Ht & Hst & Httl & Hu).
  unfold tick. rewrite timer_handler_eq. destruct (clock_same s) as (Ha & Hcc & _).
  set (t := ticked (task_at s (current s))).
  assert (Hlt : forall i, live (clock s) i <-> live s i) by (intros; unfold live; by rewrite clock_task).
  assert (Htt : tid t = current s /\ esp t = esp (task_at s (current s)) /\
    (if ttl (task_at s (current s)) =? 1 then state t = 3 else state t = 1 /\ ttl t = ttl (task_at s (current s)) - 1)).
  { unfold t, ticked. cbn [ttl set_ttl]. rewrite wrap32_small by lia.
    destruct (Z.eqb_spec (ttl (task_at s (current s))) 1) as [->|]; [|rewrite (proj2 (Z.eqb_neq _ _)) by lia];
      simpl; by rewrite ?Hst. }
  destruct Htt as (Htid & Hesp & Htt). 
  replace (set_task (clock s) (current s) t) with (set_task (clock s) (current (clock s)) t) by by rewrite Hcc.
  destruct (cond_schedule_spec (clock s) t) as (s' & Hs & Hi' & Hl' & Hsw & H1 & H3).
  - by apply clock_inv.
  - by rewrite Hcc.
  - by rewrite Hesp.
  - destruct (Z.eqb_spec (ttl (task_at s (current s))) 1); [by right|left; lia].
  - exists s'. split_and!; [done|done|intros i; by rewrite Hl', Hlt|by apply switched_clock| |].
    + intros Hgt. rewrite (proj2 (Z.eqb_neq _ _)) in Htt by lia. destruct Htt as [Hs1 Ht1].
      rewrite (H1 Hs1). cbn [current set_task]. rewrite Hcc. split; [done|].
      rewrite task_at_set_eq; [done|apply clock_inv, Hi|apply Hc].
    + intros H1t. rewrite H1t in Htt. simpl in Htt. specialize (H3 Htt). rewrite Hcc in H3.
      destruct H3 as (d & Hd & Hj & Hl & Hb). exists d. split_and!; [lia|lia|done|by apply Hlt|].
      intros e He Hx. apply (Hb e He). by apply Hlt.
Qed.

(** ** Task creation *)

Lemma next_tid_loop_spec n arr i t :
  next_tid_loop n arr i = Ok t ->
  i <= t < i + Z.of_nat n /\ state (arr !!! Z.to_nat t) = 0 /\
  forall k, i <= k < t -> state (arr !!! Z.to_nat k) <> 0.
Proof.
  revert i. induction n as [|n IH]; intros i; cbn [next_tid_loop]; [done|].
  destruct (Z.eqb_spec (state (arr !!! Z.to_nat i)) 0) as [E|E].
  - intros [= <-]. split_and!; [lia|lia|done|lia].
  - intros (H1 & H2 & H3)%IH. split_and!; [lia|lia|done|].
    intros k Hk. destruct (decide (k = i)) as [->|]; [done|apply H3; lia].
Qed.

Lemma alloc_task_spec s dir p s' t :
  table_ok s -> alloc_task s dir p = Ok (s', t) ->
  in_range t /\ state (task_at s t) = 0 /\ (forall k, 0 <= k < t -> state (task_at s k) <> 0) /\
  s' = set_task s t (mkTask 0 dir (KSTACK_FRAME + FRAME_SIZE - sizeof_Task - 4) p t TASK_PRESENT 10).
Proof.
  intros Hl Ha. unfold alloc_task in Ha. apply res_bind_ok in Ha as (n & Hn & [= <- <-]).
  apply next_tid_loop_spec in Hn as (H1 & H2 & H3). split_and!; [unfold in_range|done..]; sched_consts; lia.
Qed.

(** The entry [load_task] writes. *)
Definition new_task (dir p t : Z) : Task :=
  mkTask (KSTACK_FRAME + FRAME_SIZE - sizeof_Task - sizeof_TrapFrame) dir
    (KSTACK_FRAME + FRAME_SIZE - sizeof_Task - 4) p t TASK_PRESENT 10.

Lemma load_task_spec s dir s' t :
  table_ok s -> load_task s dir = Ok (s', t) ->
  in_range t /\ state (task_at s t) = 0 /\ (forall k, 0 <= k < t -> state (task_at s k) <> 0) /\
  s' = set_task s t (new_task dir (tid (task_at s (current s))) t).
Proof.
  intros Hl Ha. unfold load_task in Ha. apply res_bind_ok in Ha as ([s1 t1] & Ha & [= <- <-]).
  apply alloc_task_spec in Ha as (Hr & Hz & Hmin & ->); [|done]. split_and!; [done..|].
  rewrite task_at_set_eq by done. unfold set_task. simpl. by rewrite list_insert_insert_eq.
Qed.

Lemma load_task_inv s dir s' t :
  sched_inv s -> load_task s dir = Ok (s', t) ->
  sched_inv s' /\ current s' = current s /\ t <> current s /\ ~ live s t /\
  forall i, live s' i <-> live s i \/ i = t.
Proof.
  intros [Hl Hc Hlive He] Ha. apply load_task_spec in Ha as (Hr & Hz & _ & ->); [|done].
  assert (Hne : t <> current s) by (intros ->; by destruct Hc).
  assert (Hlv : forall i, live (set_task s t (new_task dir (tid (task_at s (current s))) t)) i <-> live s i \/ i = t).
  { intros i. unfold live. split.
    - intros [Hi H]. rewrite task_at_set in H by done. destruct (Z.eqb_spec t i); [by right|by left].
    - intros [[Hi H]| ->]; (split; [done|]); rewrite task_at_set by done; [by case_if|by rewrite Z.eqb_refl]. }
  split_and!; [|done|done|by intros [_ ?]|done]. split; [by apply table_ok_set|by apply Hlv; left| |done].
  intros i Hi. rewrite task_at_set; [|done|done|apply Hi].
  destruct (Z.eqb_spec t i) as [<-|]; [by vm_compute; split_and!|]. apply Hlive. by apply Hlv in Hi as [|].
Qed.

Lemma switch_inv s j :
  sched_inv s -> live s j -> j <> current s -> sched_inv (__context_switch s j).
Proof.
  intros [Hl Hc Hlive He] Hj Hne. destruct (switch_cpu s j) as (Hcur & Hesp & _); [done|apply Hc|apply Hj|done|].
  assert (Hlv : forall i, live (__context_switch s j) i <-> live s i).
  { intros i. unfold live. split; intros [Hi H]; (split; [done|]); rewrite task_at_switch in * by (done || apply Hc);
      by destruct (current s =? i). }
  split; [unfold __context_switch; simpl; by rewrite length_insert|rewrite Hcur; by apply Hlv| |rewrite Hesp; apply wrap32_range].
  intros i Hi. apply Hlv in Hi. destruct (Hlive i Hi) as (? & ? & ? & ?).
  rewrite task_at_switch by (done || apply Hc || apply Hi). destruct (current s =? i); [|done].
  do 3 (split; [done|]). apply wrap32_range.
Qed.

Lemma terminate_spec s i0 :
  sched_inv s -> live s i0 -> i0 <> current s ->
  exists s', terminate_process s = Some s' /\ sched_inv s' /\ switched s s' /\
    (forall i, live s' i <-> live s i /\ i <> current s).
Proof.
  intros Hi H0 Hne. pose proof Hi as [Hl Hc Hlive He]. destruct (Hlive _ Hc) as (Ht & _ & _ & Hu).
  assert (Hlv : forall i, live (set_task s (current s) (set_state (task_at s (current s)) 0)) i <-> live s i /\ i <> current s).
  { intros i. unfold live. split.
    - intros [Hr H]. rewrite task_at_set in H by (done || apply Hc).
      destruct (Z.eqb_spec (current s) i); [by destruct H|]. split; [by split|congruence].
    - intros [[Hr H] Hn]. split; [done|]. rewrite task_at_set by (done || apply Hc).
      by rewrite (proj2 (Z.eqb_neq _ _)) by congruence. }
  destruct (schedule_spec (set_task s (current s) (set_state (task_at s (current s)) 0))) with (i0 := i0)
    as (s' & Hs & _ & Hi' & Hl' & Hsw).
  - apply set_cur_mid; [done|done|by left|done].
  - by apply Hlv.
  - exists s'. split_and!; [done|done| |intros i; rewrite Hl'; apply Hlv].
    eapply switched_set_cur; [done|apply Hi'|exact Hsw].
Qed.

Lemma terminate_last s :
  sched_inv s -> (forall i, live s i -> i = current s) -> terminate_process s = None.
Proof.
  intros [Hl Hc Hlive He] Hall. destruct (Hlive _ Hc) as (Ht & _).
  unfold terminate_process, schedule. change (current (set_task s ?a ?b)) with (current s).
  rewrite task_at_set_eq by (done || apply Hc). cbn [tid state set_state Z.eqb negb]. rewrite Ht.
  rewrite (scan_none _ (current s)); [done|apply Hc|].
  intros i [Hr H]. rewrite task_at_set in H by (done || apply Hc).
  destruct (Z.eqb_spec (current s) i); [by destruct H|]. assert (i = current s) by (by apply Hall). congruence.
Qed.

Lemma nt_spec s :
  sched_inv s ->
  exists s', next_task_request s = Some s' /\ sched_inv s' /\ (forall i, live s' i <-> live s i) /\ switched s s' /\
    next_live s (current s) (current s').
Proof.
  intros Hi. pose proof (inv_cur _ Hi) as Hc. destruct (inv_live _ Hi _ Hc) as (Ht & Hst & _ & Hu).
  unfold next_task_request.
  destruct (cond_schedule_spec s (set_state (task_at s (current s)) (Z.lor (state (task_at s (current s))) TASK_NEED_SCHED)))
    as (s' & Hs & Hi' & Hl' & Hsw & _ & H3); [done..|right; simpl; by rewrite Hst|].
  exists s'. split_and!; [done..|]. apply H3. simpl. by rewrite Hst.
Qed.

#[export] Instance live_dec s i : Decision (live s i).
Proof. unfold live. apply _. Defined.

(** Every step of the scheduler keeps the invariant and hands the processor
    over as [switched] says, or only runs a task or adds one. *)
Lemma step_inv s s' : sched_inv s -> sched_step s s' -> sched_inv s'.
Proof.
  intros Hi Hs. destruct Hs as [s e He|s s' Ht|s s' Hn|s dir s' t Hld|s s' Hx].
  - destruct Hi as [H1 H2 H3 H4]. by split.
  - destruct (tick_spec s Hi) as (s1 & Hs1 & ? & _). congruence.
  - destruct (nt_spec s Hi) as (s1 & Hs1 & ? & _). congruence.
  - by apply (load_task_inv s dir s' t).
  - destruct (decide (Exists (fun i => live s i /\ i <> current s) (seqZ 0 MAX_TASK_NUM))) as [He|He].
    + apply Exists_exists in He as (i0 & _ & Hl & Hne).
      destruct (terminate_spec s i0 Hi Hl Hne) as (s1 & Hs1 & ? & _). congruence.
    + rewrite terminate_last in Hx; [done|done|]. intros i Hl. destruct (decide (i = current s)); [done|].
      exfalso. apply He. apply Exists_exists. exists i. split; [|done].
      apply elem_of_seqZ. destruct Hl as [Hr _]. lia.
Qed.

(** ** Start-up *)

(** The entry of task 0, and the table once the running code is task 0. *)
Definition boot_task (pg_dir0 garbage : Z) : Task :=
  mkTask 0 pg_dir0 (KSTACK_FRAME + FRAME_SIZE - sizeof_Task - 4) garbage 0 TASK_PRESENT 10.
Definition boot_sched (s : sched) (pg_dir0 garbage : Z) : sched :=
  setup_tss (set_current (set_task (clear_tasks s) 0 (boot_task pg_dir0 garbage)) 0).

Lemma cleared s : table_ok s -> table_ok (clear_tasks s) /\ forall i, in_range i -> state (task_at (clear_tasks s) i) = 0.
Proof.
  intros Hl. split; [unfold table_ok; simpl; by rewrite length_map|]. intros i Hi. unfold task_at. simpl. change (map ?f ?l) with (f <$> l).
  rewrite (list_lookup_total_fmap (fun t => set_state t 0)); [done|]. unfold table_ok in Hl. rewrite Hl. unfold in_range in Hi. lia.
Qed.

Lemma cleared_tid s : table_ok s -> get_next_tid (clear_tasks s) = Ok 0.
Proof.
  intros Hl. unfold get_next_tid. change (Z.to_nat MAX_TASK_NUM) with 32%nat. cbn [next_tid_loop].
  change (task_arr (clear_tasks s) !!! Z.to_nat 0) with (task_at (clear_tasks s) 0). by rewrite (proj2 (cleared s Hl) 0) by by vm_compute.
Qed.

Lemma boot_sched_spec s pg_dir0 garbage :
  table_ok s -> u32 (cpu_esp s) ->
  sched_inv (boot_sched s pg_dir0 garbage) /\ (forall i, live (boot_sched s pg_dir0 garbage) i <-> i = 0) /\
  get_next_tid (boot_sched s pg_dir0 garbage) = Ok 1.
Proof.
  intros Hl He. destruct (cleared s Hl) as [Hl1 Hz]. assert (Hr0 : in_range 0) by (by vm_compute). assert (Hr1 : in_range 1) by (by vm_compute).
  assert (Hat2 : forall i, in_range i -> task_at (boot_sched s pg_dir0 garbage) i = if 0 =? i then boot_task pg_dir0 garbage else task_at (clear_tasks s) i)
    by (intros i Hi; by apply (task_at_set (clear_tasks s))).
  assert (Hlv2 : forall i, live (boot_sched s pg_dir0 garbage) i <-> i = 0).
  { intros i. unfold live. split.
    - intros [Hi H]. rewrite Hat2 in H by done. destruct (Z.eqb_spec 0 i); [done|]. by rewrite Hz in H.
    - intros ->. split; [done|]. by rewrite Hat2. }
  split; [|split; [done|]].
  - split; [by apply table_ok_set|by apply Hlv2| |done]. intros i ->%Hlv2. rewrite Hat2 by done. by vm_compute.
  - unfold get_next_tid. change (Z.to_nat MAX_TASK_NUM) with 32%nat. cbn [next_tid_loop].
    change (task_arr (boot_sched s pg_dir0 garbage) !!! Z.to_nat 0) with (task_at (boot_sched s pg_dir0 garbage) 0).
    change (task_arr (boot_sched s pg_dir0 garbage) !!! Z.to_nat (0 + 1)) with (task_at (boot_sched s pg_dir0 garbage) 1).
    rewrite (Hat2 0 Hr0), (Hat2 1 Hr1). cbn [Z.eqb]. by rewrite (Hz 1 Hr1).
Qed.

(** [load_task] on a table whose next free entry is known. *)
Lemma load_task_next s dir t :
  table_ok s -> in_range t -> get_next_tid s = Ok t ->
  load_task s dir = Ok (set_task s t (new_task dir (tid (task_at s (current s))) t), t).
Proof.
  intros Hl Hr Ht. unfold load_task, alloc_task. rewrite Ht, !res_bind_Ok, task_at_set_eq by done. unfold set_task. simpl.
  by rewrite list_insert_insert_eq.
Qed.

Lemma init_task0_eq s pg_dir0 garbage init_dir :
  table_ok s -> init_task0 s pg_dir0 garbage init_dir = spawn_ram (boot_sched s pg_dir0 garbage) init_dir.
Proof. intros Hl. unfold init_task0, alloc_task. by rewrite cleared_tid. Qed.

Lemma init_task0_spec s pg_dir0 garbage init_dir :
  table_ok s -> u32 (cpu_esp s) ->
  exists s', init_task0 s pg_dir0 garbage init_dir = Ok s' /\ sched_inv s' /\ current s' = 1 /\
    (forall i, live s' i <-> i = 0 \/ i = 1) /\ tss_esp0 s' = 4294967040 /\
    esp0 (task_at s' 1) = KSTACK_FRAME + FRAME_SIZE - sizeof_Task - 4 /\ cpu_cr3 s' = init_dir.
Proof.
  intros Hl He. rewrite init_task0_eq by done. destruct (boot_sched_spec s pg_dir0 garbage Hl He) as (Hi2 & Hlv2 & Hn2).
  set (s2 := boot_sched s pg_dir0 garbage) in *. assert (Hr1 : in_range 1) by (by vm_compute).
  pose proof (load_task_next s2 init_dir 1 (inv_len _ Hi2) Hr1 Hn2) as Hld.
  unfold spawn_ram. rewrite Hld, res_bind_Ok. eexists. split; [done|].
  set (s3 := set_task s2 1 (new_task init_dir _ 1)) in *.
  destruct (load_task_inv s2 init_dir s3 1 Hi2 Hld) as (Hi3 & Hc3 & _ & _ & Hlv3).
  assert (H31 : live s3 1) by (apply Hlv3; by right).
  assert (Hat3 : task_at s3 1 = new_task init_dir (tid (task_at s2 (current s2))) 1) by (apply (task_at_set_eq s2); [apply Hi2|done]).
  destruct (switch_cpu s3 1) as (Hcur & _ & Hcr & Htss); [apply Hi3|by rewrite Hc3|done|by rewrite Hc3|].
  assert (Hat4 : forall i, in_range i -> state (task_at (__context_switch s3 1) i) = state (task_at s3 i)).
  { intros i Hi. rewrite task_at_switch by (done || apply Hi3). by destruct (_ =? i). }
  split_and!; [by apply switch_inv|done| |by rewrite Htss| |by rewrite Hcr, Hat3].
  - intros i. transitivity (live s3 i).
    + unfold live. split; intros [Hi H]; (split; [done|]); rewrite Hat4 in * by done; done.
    + rewrite Hlv3, Hlv2. done.
  - rewrite task_at_switch by (done || apply Hi3). rewrite Hc3. change (current s2) with 0. cbn [Z.eqb].
    by rewrite Hat3.
Qed.

(** A machine before start-up: an empty task table. *)
Definition sched0 : sched := mkSched (replicate 32 inhabitant) 0 0 0 4096 1048576 0 0.

Lemma sched0_ok : table_ok sched0 /\ u32 (cpu_esp sched0).
Proof. split; [reflexivity|]. simpl. lia. Qed.

(** C4. Scheduler invariant: whatever happens (code of a task runs, timer
    ticks, requests for the next task, new tasks, exits), the running task is
    live, every live task sits at the index of its id with no reschedule
    request pending and 1 to 10 ticks left. *)
Theorem scheduler_invariant s s' :
  sched_inv s -> rtc sched_step s s' -> sched_inv s'.
Proof. intros Hi Hr. induction Hr as [|s1 s2 s3 Hs Hr IH]; [done|]. apply IH. by apply (step_inv s1). Qed.

(** The invariant holds after start-up and one tick. *)
Lemma scheduler_invariant_witness :
  match init_task0 sched0 1048576 0 20971520 with
  | Ok s => match tick s with Some s' => sched_inv s' | None => False end
  | _ => False
  end.
Proof.
  destruct (init_task0_spec sched0 1048576 0 20971520 (proj1 sched0_ok) (proj2 sched0_ok)) as (s & Hs & Hi & _).
  rewrite Hs. destruct (tick_spec s Hi) as (s' & Ht & _). rewrite Ht.
  apply (scheduler_invariant s s' Hi). apply rtc_once. by apply step_tick.
Defined.

(** Start-up: [init_task0] succeeds on an empty table and leaves two live
    tasks, the kernel as task 0 and the first program as the running task 1,
    in a state that satisfies the scheduler invariant. *)
Theorem init_task0_starts s pg_dir0 garbage init_dir :
  table_ok s -> u32 (cpu_esp s) ->
  exists s', init_task0 s pg_dir0 garbage init_dir = Ok s' /\ sched_inv s' /\ current s' = 1 /\
    (forall i, live s' i <-> i = 0 \/ i = 1) /\ cpu_cr3 s' = init_dir.
Proof.
  intros Hl He. destruct (init_task0_spec s pg_dir0 garbage init_dir Hl He) as (s' & H1 & H2 & H3 & H4 & _ & _ & H5).
  eauto 10.
Qed.

Lemma init_task0_starts_witness :
  exists s', init_task0 sched0 1048576 0 20971520 = Ok s' /\ sched_inv s' /\ current s' = 1 /\
    (forall i, live s' i <-> i = 0 \/ i = 1) /\ cpu_cr3 s' = 20971520.
Proof. apply (init_task0_starts sched0 1048576 0 20971520); [reflexivity|simpl; lia]. Defined.

(** Right after start-up the TSS does not hold the kernel stack of the
    running task: [spawn_ram] calls [__context_switch] itself, so [esp0] keeps
    the value 0xFFFFFF00 that [setup_tss] wrote. *)
Theorem spawn_ram_stale_tss s pg_dir0 garbage init_dir :
  table_ok s -> u32 (cpu_esp s) ->
  exists s', init_task0 s pg_dir0 garbage init_dir = Ok s' /\ tss_esp0 s' = 4294967040 /\
    tss_esp0 s' <> esp0 (task_at s' (current s')).
Proof.
  intros Hl He. destruct (init_task0_spec s pg_dir0 garbage init_dir Hl He) as (s' & H1 & _ & Hc & _ & Ht & H0 & _).
  exists s'. split_and!; [done|done|]. rewrite Hc, Ht, H0. by vm_compute.
Qed.

Lemma spawn_ram_stale_tss_witness :
  exists s', init_task0 sched0 1048576 0 20971520 = Ok s' /\ tss_esp0 s' = 4294967040 /\
    tss_esp0 s' <> esp0 (task_at s' (current s')).
Proof. apply (spawn_ram_stale_tss sched0 1048576 0 20971520); [reflexivity|simpl; lia]. Defined.

(** ** Time slices and fairness *)

Lemma time_slice_aux n s :
  sched_inv s -> ttl (task_at s (current s)) = Z.of_nat (S n) ->
  exists s', ticks (S n) s = Some s' /\ sched_inv s' /\ (forall i, live s' i <-> live s i) /\
    next_live s (current s) (current s') /\
    forall m s'', (m <= n)%nat -> ticks m s = Some s'' -> current s'' = current s.
Proof.
  revert s. induction n as [|n IH]; intros s Hi Httl; destruct (tick_spec s Hi) as (s1 & Hs1 & Hi1 & Hl1 & _ & Hgt & H1).
  - exists s1. cbn [ticks]. rewrite Hs1. split_and!; [done..|by apply H1|].
    intros m s'' Hm. destruct m; [|lia]. by intros [= <-].
  - destruct Hgt as [Hc Ht1]; [lia|].
    destruct (IH s1 Hi1) as (s' & Hs' & Hi' & Hl' & Hn & Hb); [rewrite Hc; lia|].
    exists s'. change (ticks (S (S n)) s) with (match tick s with Some s' => ticks (S n) s' | None => None end).
    rewrite Hs1. split_and!; [done|done|intros i; by rewrite Hl'| |].
    + rewrite Hc in Hn. destruct Hn as (d & Hd & Hj & Hl & Hbe). exists d. split_and!; [lia|lia|done|by apply Hl1|].
      intros e He Hx. apply (Hbe e He). by apply Hl1.
    + intros [|m] s'' Hm; cbn [ticks]; [by intros [= <-]|]. rewrite Hs1. intros Ht.
      rewrite <- Hc. apply (Hb m); [lia|done].
Qed.

(** Time slices and round robin: a task with [n] ticks left keeps the
    processor for the next [n-1] ticks, and the [n]-th tick gives it to the
    first live task after it in cyclic order of the task table; no tick is
    lost in a NULL dereference. *)
Theorem round_robin s :
  sched_inv s ->
  let n := Z.to_nat (ttl (task_at s (current s))) in
  exists s', ticks n s = Some s' /\ sched_inv s' /\ next_live s (current s) (current s') /\
    forall m, (m < n)%nat -> exists s'', ticks m s = Some s'' /\ current s'' = current s.
Proof.
  intros Hi n. pose proof (inv_live _ Hi _ (inv_cur _ Hi)) as (_ & _ & Httl & _).
  destruct (time_slice_aux (Nat.pred n) s Hi) as (s' & Hs' & Hi' & _ & Hn & Hb); [lia|].
  replace (S (Nat.pred n)) with n in Hs' by lia. exists s'. split_and!; [done..|].
  intros m Hm. assert (Hex : exists s'', ticks m s = Some s'').
  { clear - Hi. revert s Hi. induction m as [|m IH]; intros s Hi; cbn [ticks]; [eauto|].
    destruct (tick_spec s Hi) as (s1 & -> & Hi1 & _). by apply IH. }
  destruct Hex as [s'' Hs'']. exists s''. split; [done|]. apply (Hb m); [lia|done].
Qed.

Lemma round_robin_witness :
  exists s, init_task0 sched0 1048576 0 20971520 = Ok s /\
    exists s', ticks (Z.to_nat (ttl (task_at s (current s)))) s = Some s' /\ sched_inv s' /\
      next_live s (current s) (current s').
Proof.
  destruct (init_task0_spec sched0 1048576 0 20971520 (proj1 sched0_ok) (proj2 sched0_ok)) as (s & Hs & Hi & _).
  exists s. split; [exact Hs|]. destruct (round_robin s Hi) as (s' & H1 & H2 & H3 & _).
  exists s'. split; [exact H1|split; [exact H2|exact H3]].
Defined.

Lemma ticks_app n m s s' : ticks n s = Some s' -> ticks (n + m) s = ticks m s'.
Proof.
  revert s. induction n as [|n IH]; intros s; cbn [ticks Nat.add]; [by intros [= ->]|].
  destruct (tick s); [apply IH|done].
Qed.

(** Moving [d] places forward in the table, past a live task [d1] places away. *)
Lemma dist_split c d d1 :
  in_range c -> 1 <= d1 <= d -> d < MAX_TASK_NUM ->
  (c + d) mod MAX_TASK_NUM = ((c + d1) mod MAX_TASK_NUM + (d - d1)) mod MAX_TASK_NUM.
Proof. intros Hc H1 H2. rewrite Zplus_mod_idemp_l. f_equal. lia. Qed.

Lemma reaches_within (d : nat) s :
  Z.of_nat d < MAX_TASK_NUM -> sched_inv s -> live s ((current s + Z.of_nat d) mod MAX_TASK_NUM) ->
  exists n s', (n <= 10 * d)%nat /\ ticks n s = Some s' /\ sched_inv s' /\
    current s' = (current s + Z.of_nat d) mod MAX_TASK_NUM.
Proof.
  revert s. induction d as [d IH] using lt_wf_ind; intros s Hd Hi Hlive.
  pose proof (inv_cur _ Hi) as Hc. destruct d as [|d].
  { exists 0%nat, s. split_and!; [lia|done|done|]. rewrite Z.add_0_r. symmetry. apply Z.mod_small. apply Hc. }
  pose proof (inv_live _ Hi _ Hc) as (_ & _ & Httl & _).
  destruct (time_slice_aux (Nat.pred (Z.to_nat (ttl (task_at s (current s))))) s Hi)
    as (s1 & Hs1 & Hi1 & Hl1 & (d1 & Hd1 & Hj1 & Hlj & Hb) & _); [lia|].
  assert (Hle : d1 <= Z.of_nat (S d)).
  { destruct (decide (d1 <= Z.of_nat (S d))); [done|]. exfalso. apply (Hb (Z.of_nat (S d))); [lia|done]. }
  assert (Heq : (current s + Z.of_nat (S d)) mod MAX_TASK_NUM =
                (current s1 + Z.of_nat (S d - Z.to_nat d1)) mod MAX_TASK_NUM).
  { rewrite Hj1. rewrite (dist_split _ _ d1); [|apply Hc|lia|done]. f_equal. lia. }
  rewrite Heq. destruct (IH (S d - Z.to_nat d1)%nat) with (s := s1) as (n & s' & Hn & Ht & Hi' & Hcur);
    [lia|lia|done|rewrite <- Heq; by apply Hl1|].
  exists (S (Nat.pred (Z.to_nat (ttl (task_at s (current s))))) + n)%nat, s'.
  split_and!; [lia|by rewrite (ticks_app _ _ _ _ Hs1)|done|done].
Qed.

(** Ticks alone give the processor to every live task. *)
Lemma gets_processor s j :
  sched_inv s -> live s j ->
  exists n s', (n <= 310)%nat /\ ticks n s = Some s' /\ current s' = j.
Proof.
  intros Hi Hj. pose proof (inv_cur _ Hi) as Hc. set (d := (j - current s) mod MAX_TASK_NUM).
  pose proof (mod_range (j - current s)) as Hd. fold d in Hd. unfold in_range in Hd.
  assert (Hjd : (current s + Z.of_nat (Z.to_nat d)) mod MAX_TASK_NUM = j).
  { rewrite Z2Nat.id by lia. unfold d. rewrite Zplus_mod_idemp_r.
    replace (current s + (j - current s)) with j by lia. apply Z.mod_small. apply Hj. }
  destruct (reaches_within (Z.to_nat d) s) as (n & s' & Hn & Ht & _ & Hcur); [lia|done|by rewrite Hjd|].
  exists n, s'. split_and!; [sched_consts; lia|done|congruence].
Qed.

(** C3. No starvation: every live task gets the processor within 310 timer
    ticks (ten ticks for each of the other 31 table entries), and the
    scheduler does not fail on the way. *)
Theorem no_starvation s j :
  sched_inv s -> live s j ->
  exists n s', (n <= 310)%nat /\ ticks n s = Some s' /\ current s' = j.
Proof. apply gets_processor. Qed.

Lemma no_starvation_witness :
  exists s, init_task0 sched0 1048576 0 20971520 = Ok s /\
    exists n s', (n <= 310)%nat /\ ticks n s = Some s' /\ current s' = 0.
Proof.
  destruct (init_task0_spec sched0 1048576 0 20971520 (proj1 sched0_ok) (proj2 sched0_ok))
    as (s & Hs & Hi & _ & Hl & _).
  exists s. split; [exact Hs|]. apply (no_starvation s 0 Hi). apply Hl. left. reflexivity.
Defined.

(** ** Contexts *)

(** The context of a task: the processor's if it runs, the saved one
    otherwise (36 bytes of registers lie above the saved stack pointer). *)
Definition ctx (s : sched) (i : Z) : Z * Z :=
  if current s =? i then (cpu_esp s, cpu_cr3 s)
  else (wrap32 (esp (task_at s i) + 36), phy_dir (task_at s i)).

Lemma switched_ctx s s' i :
  sched_inv s -> sched_inv s' -> switched s s' -> in_range i -> ctx s' i = ctx s i.
Proof.
  intros Hi Hi' (Ho & Hsame & Hsw) Hr. unfold ctx.
  destruct (Z.eqb_spec (current s') i) as [Hc'|Hc'], (Z.eqb_spec (current s) i) as [Hc|Hc].
  - destruct Hsame as [-> ->]; [congruence|done].
  - destruct Hsw as (_ & _ & -> & -> & _); [congruence|]. by rewrite Hc'.
  - destruct Hsw as (He & Hp & _); [congruence|]. rewrite Hc in *. rewrite He, Hp. f_equal.
    autorewrite with machine. replace (cpu_esp s - 36 + 36) with (cpu_esp s) by lia.
    apply wrap32_small, Hi.
  - by rewrite Ho by (done || congruence).
Qed.

(** C5. Contexts survive scheduling: a timer tick, a reschedule request, the
    creation of a task and the exit of a task leave the stack pointer and the
    page directory of every task that is live before and after unchanged,
    whether the task keeps, loses or gains the processor. *)
Theorem context_preserved s s' i :
  sched_inv s ->
  (tick s = Some s' \/ next_task_request s = Some s' \/ terminate_process s = Some s' \/
   exists dir t, load_task s dir = Ok (s', t)) ->
  live s i -> live s' i -> ctx s' i = ctx s i.
Proof.
  intros Hi Hst Hl Hl'. pose proof (proj1 Hl) as Hr.
  destruct Hst as [Ht|[Hn|[Hx|(dir & t & Hld)]]].
  - destruct (tick_spec s Hi) as (s1 & Hs1 & Hi1 & _ & Hsw & _). simplify_eq. by apply switched_ctx.
  - destruct (nt_spec s Hi) as (s1 & Hs1 & Hi1 & _ & Hsw & _). simplify_eq. by apply switched_ctx.
  - pose proof (step_inv s s' Hi (step_exit _ _ Hx)) as Hi'.
    destruct (decide (Exists (fun i => live s i /\ i <> current s) (seqZ 0 MAX_TASK_NUM))) as [He|He].
    + apply Exists_exists in He as (i0 & _ & Hl0 & Hne).
      destruct (terminate_spec s i0 Hi Hl0 Hne) as (s1 & Hs1 & Hi1 & Hsw & _). simplify_eq. by apply switched_ctx.
    + rewrite terminate_last in Hx; [done|done|]. intros k Hk. destruct (decide (k = current s)); [done|].
      exfalso. apply He. apply Exists_exists. exists k. split; [|done].
      apply elem_of_seqZ. destruct Hk as [Hrk _]. lia.
  - destruct (load_task_inv s dir s' t Hi Hld) as (_ & Hc & _ & Hnl & _).
    apply load_task_spec in Hld as (Hrt & _ & _ & ->); [|apply Hi]. unfold ctx. rewrite Hc.
    rewrite task_at_set_ne; [done|done|done|congruence].
Qed.

Lemma context_preserved_witness :
  exists s s', init_task0 sched0 1048576 0 20971520 = Ok s /\ tick s = Some s' /\ ctx s' 0 = ctx s 0.
Proof.
  destruct (init_task0_spec sched0 1048576 0 20971520 (proj1 sched0_ok) (proj2 sched0_ok))
    as (s & Hs & Hi & _ & Hl & _).
  destruct (tick_spec s Hi) as (s' & Ht & _ & Hl' & _). exists s, s'.
  split; [exact Hs|]. split; [exact Ht|]. apply (context_preserved s s' 0 Hi); [left; exact Ht|apply Hl; left; reflexivity|].
  apply Hl'. apply Hl. left. reflexivity.
Defined.

(** C37. [terminate_process] removes exactly the running task when another
    live task exists; when the running task is the last one, [schedule] finds
    no next task and follows a NULL pointer. *)
Theorem terminate_process_spec s :
  sched_inv s ->
  match terminate_process s with
  | Some s' => sched_inv s' /\ forall i, live s' i <-> live s i /\ i <> current s
  | None => forall i, live s i -> i = current s
  end.
Proof.
  intros Hi. destruct (decide (Exists (fun i => live s i /\ i <> current s) (seqZ 0 MAX_TASK_NUM))) as [He|He].
  - apply Exists_exists in He as (i0 & _ & Hl0 & Hne).
    by destruct (terminate_spec s i0 Hi Hl0 Hne) as (s1 & -> & Hi1 & _ & Hlv).
  - assert (Hall : forall i, live s i -> i = current s).
    { intros k Hk. destruct (decide (k = current s)); [done|]. exfalso. apply He. apply Exists_exists.
      exists k. split; [|done]. apply elem_of_seqZ. destruct Hk as [Hrk _]. lia. }
    by rewrite terminate_last.
Qed.

Lemma terminate_process_spec_witness :
  exists s, init_task0 sched0 1048576 0 20971520 = Ok s /\
    match terminate_process s with
    | Some s' => sched_inv s' /\ forall i, live s' i <-> live s i /\ i <> current s
    | None => forall i, live s i -> i = current s
    end.
Proof.
  destruct (init_task0_spec sched0 1048576 0 20971520 (proj1 sched0_ok) (proj2 sched0_ok)) as (s & Hs & Hi & _).
  exists s. split; [exact Hs|]. apply (terminate_process_spec s Hi).
Defined.

(** ** The clock *)

Lemma context_switch_clock s j s' :
  context_switch s j = Some s' -> freq_counter s' = freq_counter s /\ secs s' = secs s.
Proof. unfold context_switch. destruct j; [|done]. case_if; by intros [= <-]. Qed.

Lemma cond_schedule_clock s s' :
  cond_schedule s = Some s' -> freq_counter s' = freq_counter s /\ secs s' = secs s.
Proof.
  unfold cond_schedule, schedule. destruct (negb _); [|by intros [= <-]].
  destruct (negb _); intros H; by apply context_switch_clock in H.
Qed.

(** The clock: [n] timer ticks advance 25 * [secs] + [freq_counter] by
    [n], and [freq_counter] stays below 25, so [secs] counts whole periods of
    25 ticks (until it wraps). *)
Theorem clock_counts n s s' :
  ticks n s = Some s' -> 0 <= freq_counter s < 25 -> 0 <= secs s -> secs s + Z.of_nat n < 4294967296 ->
  0 <= freq_counter s' < 25 /\ 25 * secs s' + freq_counter s' = 25 * secs s + freq_counter s + Z.of_nat n.
Proof.
  revert s. induction n as [|n IH]; intros s Ht Hf Hs Hb; cbn [ticks] in Ht.
  - injection Ht as <-. lia.
  - destruct (tick s) as [s1|] eqn:E; [|done]. apply cond_schedule_clock in E as [E1 E2].
    rewrite timer_handler_eq in E1, E2. cbn [freq_counter secs set_task] in E1, E2.
    assert (Hc : 0 <= freq_counter s1 < 25 /\ secs s <= secs s1 <= secs s + 1 /\
      25 * secs s1 + freq_counter s1 = 25 * secs s + freq_counter s + 1).
    { rewrite E1, E2. unfold clock. rewrite wrap32_small by lia. unfold TIMER_FREQUENCY.
      destruct (Z.leb_spec 25 (freq_counter s + 1)); cbn [set_clock freq_counter secs]; [rewrite wrap32_small by lia|]; lia. }
    specialize (IH s1 Ht). lia.
Qed.

Lemma clock_counts_witness :
  exists s', ticks 30 sched0 = Some s' /\ 25 * secs s' + freq_counter s' = 30.
Proof.
  destruct (ticks 30 sched0) as [s'|] eqn:E; [|vm_compute in E; discriminate E].
  exists s'. split; [reflexivity|]. apply (clock_counts 30 sched0 s' E); simpl; lia.
Defined.
