(* ===== verification/Loader.v ===== *)
(** * Loading a task (kernel/task.c)

    [load_task] builds the address space of a new task: a page directory with
    its reverse and system tables, the kernel's directory entries linked into
    it, a kernel stack with the task's [Task] structure and first trap frame,
    and the text, data and stack pages of the program, whose image lies in the
    kernel's memory.  The state is the machine of [Paging] beside the task
    table of [Sched]; pointers are virtual addresses, and the pointer into
    [task_arr] that [load_task] returns is the index of the entry.  Structures
    in memory ([TsExHeader], [Task], [TrapFrame]) are read and written field by
    field at their offsets. *)
From S2P Require Import Prelude CMem Malloc Common Frame Paging Sched.
Import Paging.

Module Loader.

Record os := mkOs { mach : mm; tasks : Sched.sched }.

Definition K (A : Type) : Type := os -> res (A * os).
#[global] Instance K_ret : MRet K := fun A a s => Ok (a, s).
#[global] Instance K_bind : MBind K := fun A B f c s =>
  match c s with Ok (a, s) => f a s | Hang e => Hang e | NoFuel => NoFuel end.

(** An operation on memory, on the task table. *)
Definition mem_op {A} (c : M A) : K A := fun s =>
  match c (mach s) with Ok (a, m) => Ok (a, mkOs m (tasks s)) | Hang e => Hang e | NoFuel => NoFuel end.
Definition get_tasks : K Sched.sched := fun s => Ok (tasks s, s).
Definition put_tasks (t : Sched.sched) : K () := fun s => Ok ((), mkOs (mach s) t).
Definition lift_res {A} (r : res A) : K A := fun s =>
  match r with Ok a => Ok (a, s) | Hang e => Hang e | NoFuel => NoFuel end.

(** ** Bytes *)

Definition rd8 (va : Z) : M Z := fun s =>
  match translate s (wrap32 va) with Some p => Ok (load8 (pm s) p, s) | None => page_fault s end.

(** [memcpy(src,dst,n)] and [memset(buf,value,size)] of lib/string.c, through
    the address translation. *)
Fixpoint memcpy_loop (n : nat) (src dst : Z) : M () :=
  match n with
  | O => mret ()
  | S n => b ← rd8 src; _ ← wr8 dst b; memcpy_loop n (src + 1) (dst + 1)
  end.
Definition memcpy (src dst n : Z) : M () := memcpy_loop (Z.to_nat n) src dst.

Fixpoint memset_loop (n : nat) (buf value : Z) : M () :=
  match n with
  | O => mret ()
  | S n => _ ← wr8 buf value; memset_loop n (buf + 1) value
  end.
Definition memset (buf value size : Z) : M () := memset_loop (Z.to_nat size) buf value.

(** ** The image of a program: [struct TsExHeader] at its start *)

Definition MAGIC : Z := 0xABCD1234.
Definition hd_magic : Z := 0.
Definition hd_lma_text : Z := 4.
Definition hd_vma_text : Z := 8.
Definition hd_text_size : Z := 12.
Definition hd_lma_data : Z := 16.
Definition hd_vma_data : Z := 20.
Definition hd_data_size : Z := 24.

Definition next_task_pos (header_addr : Z) : M Z :=
  lma_data ← rd (header_addr + hd_lma_data);
  data_size ← rd (header_addr + hd_data_size);
  mret (wrap32 (header_addr + lma_data + data_size)).

(** [while(vma_img<img_base+header->size)]: a page of the image to the page the
    directory maps at [vma]; [size_field] is the address of the size. *)
Fixpoint copy_loop (fuel : nat) (dir size_field img_base vma_img vma : Z) : M () :=
  match fuel with
  | O => fun _ => NoFuel
  | S fuel =>
      size ← rd size_field;
      if vma_img <? wrap32 (img_base + size) then
        page_phy ← get_phy_from_dir dir vma;
        page ← create_temp_va page_phy;
        _ ← memcpy vma_img page Frame.FRAME_SIZE;
        _ ← delete_temp_va page;
        copy_loop fuel dir size_field img_base (wrap32 (vma_img + Frame.FRAME_SIZE)) (wrap32 (vma + Frame.FRAME_SIZE))
      else mret ()
  end.

(** Rounds that are enough for a region of [size] bytes. *)
Definition rounds (size : Z) : nat := Z.to_nat (size / Frame.FRAME_SIZE) + 4.

Definition create_task_address_space (task base : Z) : M () :=
  magic ← rd (base + hd_magic);
  _ ← ASSERT (magic =? MAGIC);
  vma_data ← rd (base + hd_vma_data);
  _ ← ASSERT (vma_data mod Frame.FRAME_SIZE =? 0);
  phy_dir ← rd (task + 4);
  dir ← get_temp_va phy_dir;
  lma_text ← rd (base + hd_lma_text);
  lma_data ← rd (base + hd_lma_data);
  let img_text_base := wrap32 (base + lma_text) in
  let img_data_base := wrap32 (base + lma_data) in
  (* load text section *)
  vma_text ← rd (base + hd_vma_text);
  text_size ← rd (base + hd_text_size);
  _ ← request_region_vmap (rounds text_size) dir vma_text text_size PAGE_FLG_USR;
  vma_text ← rd (base + hd_vma_text);
  _ ← copy_loop (rounds text_size) dir (base + hd_text_size) img_text_base img_text_base (Z.land vma_text PAGE_MASK);
  (* load data section *)
  vma_data ← rd (base + hd_vma_data);
  data_size ← rd (base + hd_data_size);
  _ ← request_region_vmap (rounds data_size) dir vma_data data_size PAGE_FLG_USR;
  vma_data ← rd (base + hd_vma_data);
  _ ← copy_loop (rounds data_size) dir (base + hd_data_size) img_data_base img_data_base vma_data;
  (* create user stack *)
  _ ← request_region_vmap (rounds Frame.FRAME_SIZE) dir Sched.USTACK_FRAME Frame.FRAME_SIZE PAGE_FLG_USR;
  delete_temp_va dir.

(** ** Kernel stack and [struct Task] *)

Definition KSTACK_TO_TASK (stack : Z) : Z := wrap32 (stack + Frame.FRAME_SIZE - Sched.sizeof_Task).

(** [*task] *)
Definition rd_task (task : Z) : M Sched.Task :=
  esp ← rd task;
  phy_dir ← rd (task + 4);
  esp0 ← rd (task + 8);
  ptid ← rd (task + 12);
  tid ← rd (task + 16);
  state ← rd (task + 20);
  ttl ← rd (task + 24);
  mret (Sched.mkTask esp phy_dir esp0 ptid tid state ttl).

(** [task_arr[tid] = *task] *)
Definition store_task (tid task : Z) : K () :=
  t ← mem_op (rd_task task);
  s ← get_tasks;
  put_tasks (Sched.set_task s tid t).

(** The first lines of [alloc_kstack_and_task]: the directory and the kernel
    stack page in temporary mappings. *)
Definition map_kstack (new_cr3 : Z) : M (Z * Z) :=
  new_pg_dir ← create_temp_va new_cr3;
  _ ← request_region_vmap (rounds Frame.FRAME_SIZE) new_pg_dir Sched.KSTACK_FRAME Frame.FRAME_SIZE PAGE_FLG_KERNEL;
  stack_phy ← get_phy_from_dir new_pg_dir Sched.KSTACK_FRAME;
  stack ← create_temp_va stack_phy;
  mret (new_pg_dir, stack).

(** The rest of it: the fields of the [Task] structure on the stack page and the
    entry of the table.  [current_tid] is [current->tid]. *)
Definition fill_task (new_cr3 current_tid new_pg_dir stack : Z) : K Z :=
  let task := KSTACK_TO_TASK stack in
  _ ← mem_op (wr (task + 4) new_cr3);
  _ ← mem_op (wr (task + 8) (Sched.KSTACK_FRAME + Frame.FRAME_SIZE - Sched.sizeof_Task - 4));
  _ ← mem_op (wr (task + 12) current_tid);
  _ ← mem_op (wr (task + 20) Sched.TASK_PRESENT);
  _ ← mem_op (wr (task + 24) 10);
  s ← get_tasks;
  tid ← lift_res (Sched.get_next_tid s);
  _ ← mem_op (wr (task + 16) tid);
  tid ← mem_op (rd (task + 16));
  _ ← store_task tid task;
  _ ← mem_op (delete_temp_va new_pg_dir);
  mret stack.

Definition alloc_kstack_and_task (new_cr3 current_tid : Z) : K Z :=
  '(new_pg_dir, stack) ← mem_op (map_kstack new_cr3);
  fill_task new_cr3 current_tid new_pg_dir stack.

(** [for(i=PAGE_DIR_INDEX(KERNEL_V_START);i<=1021;++i)] *)
Fixpoint link_loop (n : nat) (new_pg_dir parent_dir i : Z) : M () :=
  match n with
  | O => mret ()
  | S n => e ← rd (parent_dir + 4 * i); _ ← wr (new_pg_dir + 4 * i) e; link_loop n new_pg_dir parent_dir (i + 1)
  end.

(** The first lines of [load_task]: the directory, its reverse and its system
    table, with the kernel's entries of the parent. *)
Definition new_space (parent_dir : Z) : M (Z * Z * Z * Z) :=
  '(new_pg_dir, new_pg_dir_phy) ← alloc_page USER_P_START Frame.MAX_MEM_SIZE;
  '(rev_tb, rev_tb_phy) ← alloc_page USER_P_START Frame.MAX_MEM_SIZE;
  '(sys_pg, sys_pg_phy) ← alloc_page USER_P_START Frame.MAX_MEM_SIZE;
  _ ← pg_dir_add new_pg_dir rev_tb 1023 rev_tb_phy PAGE_FLG_KERNEL;
  _ ← wr (sys_pg + 4 * 1023) (Z.lor new_pg_dir_phy PAGE_FLG_KERNEL);
  _ ← pg_dir_add new_pg_dir rev_tb 1022 sys_pg_phy PAGE_FLG_KERNEL;
  _ ← link_loop (Z.to_nat (1022 - PAGE_DIR_INDEX KERNEL_V_START)) new_pg_dir parent_dir (PAGE_DIR_INDEX KERNEL_V_START);
  mret (new_pg_dir, new_pg_dir_phy, rev_tb, sys_pg).

Section Load.
(** The address of the assembly routine [__ret_syscall]. *)
Context (ret_syscall : Z).

(** The first trap frame of a task, at [tf]: the offsets of [struct TrapFrame]. *)
Definition init_trap_frame (tf : Z) : M () :=
  _ ← memset tf 0 Sched.sizeof_TrapFrame;
  _ ← wr (tf + 60) 0x1b;
  _ ← wr (tf + 36) ret_syscall;
  _ ← wr (tf + 72) 0x23;
  _ ← wr (tf + 48) 0x23;
  _ ← wr (tf + 52) 0x23;
  _ ← wr (tf + 44) 0x23;
  _ ← wr (tf + 40) 0x23;
  _ ← wr (tf + 56) 0;
  _ ← wr (tf + 68) (Sched.USTACK_FRAME + Frame.FRAME_SIZE - 4);
  wr (tf + 64) (Z.shiftl 1 9).

Definition load_task (parent_dir task_hd_addr : Z) : K Z :=
  '(new_pg_dir, new_pg_dir_phy, rev_tb, sys_pg) ← mem_op (new_space parent_dir);
  s ← get_tasks;
  kernel_stack ← alloc_kstack_and_task new_pg_dir_phy (Sched.tid (Sched.task_at s (Sched.current s)));
  let task := KSTACK_TO_TASK kernel_stack in
  new_tid ← mem_op (rd (task + 16));
  _ ← mem_op (create_task_address_space task task_hd_addr);
  let tf := wrap32 (task - Sched.sizeof_TrapFrame) in
  _ ← mem_op (wr task (Sched.KSTACK_FRAME + Frame.FRAME_SIZE - Sched.sizeof_Task - Sched.sizeof_TrapFrame));
  _ ← mem_op (init_trap_frame tf);
  _ ← store_task new_tid task;
  _ ← mem_op (delete_temp_va new_pg_dir);
  _ ← mem_op (delete_temp_va rev_tb);
  _ ← mem_op (delete_temp_va sys_pg);
  _ ← mem_op (delete_temp_va kernel_stack);
  mret new_tid.

(** [__context_switch] on the whole machine: the page directory it loads is the
    one the memory is translated with from then on. *)
Definition switch_to (t : Z) : K () := fun s =>
  let ts := Sched.__context_switch (tasks s) t in
  let m := mach s in
  Ok ((), mkOs (mkMm (pm m) (Sched.cpu_cr3 ts) (paging m) (frames m)) ts).

Definition spawn_ram (base : Z) : K () :=
  task ← load_task (KERNEL_V_START + PG_DIR0_ADDR) base;
  switch_to task.

(** [init_task0] up to the first [sti]; [current_tid] is what [current->tid] reads
    while [current] is still NULL.  The registration of the exit call changes
    neither memory nor tasks and is part of [Main.main].  The stack's slot stays
    in use. *)
Definition init_task0 (current_tid karg_phy : Z) : K () :=
  s ← get_tasks;
  _ ← put_tasks (Sched.clear_tasks s);
  kstack ← alloc_kstack_and_task PG_DIR0_ADDR current_tid;
  tid ← mem_op (rd (KSTACK_TO_TASK kstack + 16));
  s ← get_tasks;
  _ ← put_tasks (Sched.setup_tss (Sched.set_current s tid));
  spawn_ram (KERNEL_V_START + karg_phy).
End Load.

End Loader.
