(* ===== verification/LoaderCopy.v ===== *)
(** * Theorems about loading a task: copying the sections of a program

    The image of a program lies in the first 16 MiB, which the kernel sees at
    [KERNEL_V_START]; [kmap] states this map.  [copy_loop] fills the pages of a
    section through temporary slots; [page_copy_loop_spec] shows that every page
    gets the bytes of its part of the image and that no other page changes. *)
From S2P Require Import Prelude CMem Malloc Common Frame Paging PagingThm PagingTmp PagingMap PagingRegion Sched Loader.
Import Paging Frame.

(** ** Bytes and words *)

Lemma word_outside m m' f q j :
  page f -> page q -> q <> f -> idx j -> (forall b, u32 b -> (b < f \/ f + 4096 <= b) -> load8 m' b = load8 m b) ->
  word m' q j = word m q j.
Proof.
  unfold page, idx. intros Hf Hq Hne Hj H. apply load32_same. intros b Hb. apply H; [lia|]. Z.to_euclidean_division_equations. lia.
Qed.

(** The bytes of a word. *)
Lemma byte_of_load32 m m' a i : load32 m' a = load32 m a -> 0 <= i < 4 -> load8 m' (a + i) = load8 m (a + i).
Proof.
  unfold load32. intros E Hi. pose proof (load8_range m a). pose proof (load8_range m (a + 1)). pose proof (load8_range m (a + 2)).
  pose proof (load8_range m (a + 3)). pose proof (load8_range m' a). pose proof (load8_range m' (a + 1)). pose proof (load8_range m' (a + 2)).
  pose proof (load8_range m' (a + 3)).
  assert (i = 0 \/ i = 1 \/ i = 2 \/ i = 3) as [-> | [-> | [-> | ->]]] by lia; rewrite ?Z.add_0_r; lia.
Qed.

Lemma byte_of_word m m' q o :
  0 <= o < 4096 -> (forall j, idx j -> word m' q j = word m q j) -> load8 m' (q + o) = load8 m (q + o).
Proof.
  intros Ho H. pose proof (Z.div_mod o 4 ltac:(lia)). pose proof (Z.mod_pos_bound o 4 ltac:(lia)).
  replace (q + o) with (q + 4 * (o / 4) + o mod 4) by lia. apply byte_of_load32; [|lia]. apply H. unfold idx.
  Z.to_euclidean_division_equations. lia.
Qed.

(** The page of an address. *)
Definition page_of (a : Z) : Z := a / 4096 * 4096.
Lemma page_of_page a : 0 <= a < 16777216 -> page (page_of a) /\ page_of a + a mod 4096 = a /\ forall s, held s (page_of a).
Proof.
  unfold page, page_of, held. intros Ha. pose proof (Z.div_mod a 4096 ltac:(lia)). split_and!; Z.to_euclidean_division_equations; lia.
Qed.

(** Bytes below 16 MiB in a page whose words are kept. *)
Lemma keep_byte m m' a :
  0 <= a < 16777216 -> (forall j, idx j -> word m' (page_of a) j = word m (page_of a) j) -> load8 m' a = load8 m a.
Proof.
  intros Ha H. destruct (page_of_page a Ha) as (_ & E & _). rewrite <- E. apply byte_of_word; [|done]. apply Z.mod_pos_bound. lia.
Qed.

(** An area that does not meet the page [S]. *)
Definition clear_of (S a n : Z) : Prop := S + 4096 <= a \/ a + n <= S.
Lemma clear_page S a n b : page S -> clear_of S a n -> a <= b < a + n -> page_of b <> S.
Proof. unfold clear_of, page_of, page. intros HS Hc Hb. Z.to_euclidean_division_equations. lia. Qed.

Section Copy.
Context (R S : Z) (KT : Z -> Z).

(** The four page tables of the first 16 MiB of the kernel. *)
Definition kmap (s : mm) : Prop := forall i, 0 <= i < 4 ->
  page (KT i) /\ held s (KT i) /\ KT i <> S /\ entry (word (pm s) (cr3 s) (768 + i)) (KT i) /\
  forall j, idx j -> entry (word (pm s) (KT i) j) (4096 * (1024 * i + j)).

Lemma kmap_translate s a :
  ready R S s -> kmap s -> 0 <= a < 16777216 -> translate s (wrap32 (KERNEL_V_START + a)) = Some a.
Proof.
  intros Hr Hk Ha. change KERNEL_V_START with 3221225472. rewrite wrap32_small by lia. unfold translate. pose proof (r_sp _ _ _ Hr) as Hsp. rewrite (sp_on _ _ _ Hsp).
  set (i := a / 4194304). assert (Hi : 0 <= i < 4) by (unfold i; Z.to_euclidean_division_equations; lia).
  destruct (Hk i Hi) as (_ & _ & _ & He & Hj).
  assert (Ed : PAGE_DIR_INDEX (3221225472 + a) = 768 + i) by (rewrite dir_index_div; unfold i; Z.to_euclidean_division_equations; lia).
  pose proof (table_idx (3221225472 + a)) as Hti.
  rewrite (walk_entries _ _ (KT i) (4096 * (1024 * i + PAGE_TABLE_INDEX (3221225472 + a)))); [|apply Hsp|by rewrite Ed|by apply Hj].
  f_equal. rewrite table_index_mod, offset_mod. unfold i. Z.to_euclidean_division_equations. lia.
Qed.
Lemma rd_kernel s a : ready R S s -> kmap s -> 0 <= a < 16777216 -> rd (KERNEL_V_START + a) s = Ok (load32 (pm s) a, s).
Proof. intros. unfold rd. by rewrite kmap_translate. Qed.

(** The map survives changes of other pages. *)
Lemma kmap_same V s s' :
  ready R S s -> kmap s -> ext R S V s s' -> (forall j, idx j -> word (pm s') (cr3 s) j = word (pm s) (cr3 s) j) ->
  (forall i j, 0 <= i < 4 -> idx j -> word (pm s') (KT i) j = word (pm s) (KT i) j) -> kmap s'.
Proof.
  intros Hr Hk He HwD HwK i Hi. destruct (Hk i Hi) as (H1 & H2 & H3 & H4 & H5). rewrite (e_cr3 _ _ _ _ _ He), HwD by (unfold idx; lia).
  split; [done|]. split; [by apply (e_mono _ _ _ _ _ He)|]. split; [done|]. split; [done|]. intros j Hj. rewrite HwK by done. by apply H5.
Qed.

(** ** One page *)

Lemma memcpy_loop_spec n s i f a o :
  ready R S s -> kmap s -> idx i -> entry (word (pm s) S i) f -> user_page f -> f ∉ [cr3 s; R; S] -> (forall i, 0 <= i < 4 -> f <> KT i) ->
  0 <= a -> a + Z.of_nat n <= 16777216 -> 0 <= o -> o + Z.of_nat n <= 4096 ->
  exists m', Loader.memcpy_loop n (KERNEL_V_START + a) (IX_TO_VA 1022 i + o) s = Ok ((), with_pm s m') /\
    ready R S (with_pm s m') /\
    (forall k, 0 <= k < Z.of_nat n -> load8 m' (f + o + k) = load8 (pm s) (a + k)) /\
    forall b, u32 b -> (b < f + o \/ f + o + Z.of_nat n <= b) -> load8 m' b = load8 (pm s) b.
Proof.
  revert s a o. induction n as [|n IH]; intros s a o Hr Hk Hi He Hf Hnf HK Ha Hn Ho Hon; cbn [Loader.memcpy_loop].
  { exists (pm s). rewrite with_pm_same. split; [done|]. split; [done|]. split; [lia|done]. }
  pose proof Hf as (Hpf & Hf1 & Hf2). unfold page in Hpf. destruct (ready_S _ _ _ Hr) as [HS _].
  erewrite M_bind_eq; [|unfold Loader.rd8; rewrite kmap_translate by (done || lia); reflexivity].
  erewrite M_bind_eq; [|unfold wr8; rewrite (translate_temp s R S (r_sp _ _ _ Hr) i f) by (done || lia); reflexivity].
  set (b0 := load8 (pm s) a). set (s1 := with_pm s (store8 (pm s) (f + o) b0)).
  assert (Hw : forall q j, page q -> idx j -> q <> f -> word (pm s1) q j = word (pm s) q j).
  { intros q j Hq Hj Hne. apply word_store8; done || lia. }
  assert (E1 : ext R S [] s s1).
  { split; [|done|apply Hr|done|intros j p Hj Hp _; rewrite Hw; [done|done|done|set_solver]].
    apply (space_same R S s); [apply Hr|intros j Hj; apply Hw; [apply Hr|done|set_solver]|intros j Hj; apply Hw; [apply Hr|done|set_solver]]. }
  pose proof (ext_ready _ _ _ _ _ Hr E1) as Hr1.
  assert (Hk1 : kmap s1).
  { eapply kmap_same; [exact Hr|exact Hk|exact E1|intros j Hj; apply Hw; [apply Hr|done|set_solver]|].
    intros j j' Hj Hj'. apply Hw; [by apply Hk|done|]. apply not_eq_sym. by apply HK. }
  rewrite <- !Z.add_assoc.
  destruct (IH s1 (a + 1) (o + 1) Hr1 Hk1 Hi) as (m' & H1 & Hr' & Hc & Ho'); try done; try lia.
  { rewrite Hw; [done|done|done|set_solver]. }
  exists m'. split; [exact H1|]. split; [exact Hr'|]. split.
  - intros k Hk'. destruct (decide (k = 0)) as [->|Hk0].
    + rewrite !Z.add_0_r, Ho' by lia. unfold s1. cbn [pm with_pm]. rewrite load8_store8_eq. apply wrap8_small, load8_range.
    + replace (f + o + k) with (f + (o + 1) + (k - 1)) by lia. rewrite Hc by lia. unfold s1. cbn [pm with_pm].
      rewrite load8_store8_ne by lia. f_equal. lia.
  - intros b Hb Hout. rewrite Ho' by lia. unfold s1. cbn [pm with_pm]. apply load8_store8_ne; lia.
Qed.

(** What a page has to be to receive a copy. *)
Definition dest (s : mm) (f : Z) : Prop := user_page f /\ f ∉ [cr3 s; R; S] /\ forall i, 0 <= i < 4 -> f <> KT i.

(** What [copy_loop] does for one page. *)
Lemma copy_page {A} s t T PT f va a (k : M A) :
  ready R S s -> kmap s -> idx t -> entry (word (pm s) S t) T -> page T -> u32 va -> entry (word (pm s) T (PAGE_DIR_INDEX va)) PT ->
  page PT -> PT <> S -> entry (word (pm s) PT (PAGE_TABLE_INDEX va)) f -> dest s f ->
  0 <= a -> a + 4096 <= 16777216 -> clear_of S a 4096 -> frees S 1 s ->
  exists s', (page_phy ← get_phy_from_dir (IX_TO_VA 1022 t) va;
              page ← create_temp_va page_phy;
              _ ← Loader.memcpy (KERNEL_V_START + a) page FRAME_SIZE;
              _ ← delete_temp_va page; k) s = k s' /\
    ext R S [PT] s s' /\ frames s' = frames s /\ (forall n, frees S n s -> frees S n s') /\
    (forall q j, page q -> idx j -> q <> S -> q <> f -> word (pm s') q j = word (pm s) q j) /\
    forall o, 0 <= o < 4096 -> load8 (pm s') (f + o) = load8 (pm s) (a + o).
Proof.
  intros Hr Hk Ht HeT HT Hv HePT HP HPS HeF (Hf & Hnf & HK) Ha0 Ha Hcl Hfs. destruct (ready_S _ _ _ Hr) as [HS _]. assert (Hpf : page f) by apply Hf.
  assert (HfS : f <> S) by set_solver.
  destruct (phy_spec R S s t T PT f va) as (s1 & H1 & Hso1 & Hfr1); try done.
  erewrite M_bind_eq by exact H1. pose proof (slots_only_ready _ _ _ _ _ Hr Hso1) as Hr1. pose proof (so_word _ _ _ _ _ Hso1) as Hw1.
  pose proof (e_cr3 _ _ _ _ _ (so_ext _ _ _ _ _ Hso1)) as Hc1.
  destruct (open_slot R S s1 f Hr1 Hpf) as (j & s2 & H2 & Hj & Hfj & Hso2 & He2 & HwS2); [by apply Hfr1|].
  erewrite M_bind_eq by exact H2. pose proof (slots_only_ready _ _ _ _ _ Hr1 Hso2) as Hr2. pose proof (so_word _ _ _ _ _ Hso2) as Hw2.
  pose proof (slots_only_trans _ _ _ _ _ _ _ Hso1 Hso2) as Hso12. pose proof (e_cr3 _ _ _ _ _ (so_ext _ _ _ _ _ Hso2)) as Hc2.
  assert (HDS : cr3 s <> S) by apply Hr.
  assert (Hk2 : kmap s2).
  { eapply kmap_same; [exact Hr|exact Hk|apply Hso12|intros i Hi; rewrite Hw2, Hw1; try done; apply Hr|].
    intros i i' Hi Hi'. destruct (Hk i Hi) as (? & _ & ? & _). by rewrite Hw2, Hw1. }
  destruct (memcpy_loop_spec 4096 s2 j f a 0 Hr2 Hk2 Hj He2 Hf) as (m' & H3 & Hr3 & Hcp & Hout); [by rewrite Hc2, Hc1|done|lia|lia|lia|lia|].
  rewrite Z.add_0_r in *. erewrite M_bind_eq by exact H3. set (s3 := with_pm s2 m') in *.
  assert (Hw3 : forall q i, page q -> idx i -> q <> f -> word (pm s3) q i = word (pm s2) q i) by (intros q i Hq Hi Hne; by apply (word_outside _ _ f)).
  destruct (close_slot R S s3 j f Hr3 Hj) as (s4 & H4 & Hso4 & Hj4 & HwS4); [by rewrite Hw3|]. erewrite M_bind_eq by exact H4.
  pose proof (so_word _ _ _ _ _ Hso4) as Hw4. exists s4. split; [done|].
  assert (HwS : forall i, idx i -> i <> j -> word (pm s4) S i = word (pm s1) S i) by (intros i Hi Hn; rewrite HwS4, Hw3, HwS2; done).
  split; [|split; [|split; [|split]]].
  - apply (ext_trans _ _ [PT] [] s s1 s4); [apply Hso1|]. destruct (so_ext _ _ _ _ _ Hso4) as [G1 G2 G3 G4 _]. change (cr3 s3) with (cr3 s2) in G2. split; [done|congruence|done| |].
    + intros p Hp Hh. apply G4; [done|]. by apply (slots_only_held _ _ _ _ _ _ Hso2).
    + intros i p Hi He _. rewrite HwS; [done|done|]. intros ->. unfold slot_free in Hfj. destruct He. congruence.
  - rewrite (so_frames _ _ _ _ _ Hso4). exact (so_frames _ _ _ _ _ Hso12).
  - intros n Hn. apply (frees_same S n s1); [|by apply Hfr1]. intros i Hi Hfi. destruct (decide (i = j)) as [->|Hne]; [done|]. unfold slot_free. by rewrite HwS.
  - intros q i Hq Hi Hn Hne. by rewrite Hw4, Hw3, Hw2, Hw1.
  - intros o Ho. rewrite (byte_of_word (pm s3)) by (done || (intros i Hi; by apply Hw4)). cbn [pm with_pm s3]. rewrite Hcp by lia.
    destruct (page_of_page (a + o) ltac:(lia)) as (Hpo & _ & _).
    apply keep_byte; [lia|]. intros i Hi. assert (page_of (a + o) <> S) by (apply (clear_page S a 4096); [done|done|lia]). by rewrite Hw2, Hw1.
Qed.

(** ** A section *)

(** The pages of a section: [n] pages from [vma] on are entered in the table
    [PT] of their directory entry, with the page [g i] at the [i]th place. *)
Record placed (s : mm) (T PT vma : Z) (n : nat) (g : Z -> Z) : Prop := {
  p_T : page T /\ T <> S;
  p_PT : page PT /\ PT <> S;
  p_va : 0 <= vma /\ vma + 4096 * Z.of_nat n < 4294967296;
  p_dir : forall i, 0 <= i < Z.of_nat n -> entry (word (pm s) T (PAGE_DIR_INDEX (vma + 4096 * i))) PT;
  p_tab : forall i, 0 <= i < Z.of_nat n -> entry (word (pm s) PT (PAGE_TABLE_INDEX (vma + 4096 * i))) (g i);
  p_dest : forall i, 0 <= i < Z.of_nat n -> dest s (g i) /\ g i <> T /\ g i <> PT;
  p_inj : forall i j, 0 <= i < Z.of_nat n -> 0 <= j < Z.of_nat n -> g i = g j -> i = j;
}.

Lemma placed_next s s' T PT vma n g :
  placed s T PT vma (Datatypes.S n) g -> cr3 s' = cr3 s -> (forall j, idx j -> word (pm s') T j = word (pm s) T j) ->
  (forall j, idx j -> word (pm s') PT j = word (pm s) PT j) -> placed s' T PT (vma + 4096) n (fun i => g (i + 1)).
Proof.
  intros [H1 H2 H3 H4 H5 H6 H7] Hc HwT HwP.
  assert (Hva : forall i, vma + 4096 + 4096 * i = vma + 4096 * (i + 1)) by lia. split; [done|done|lia|..].
  - intros i Hi. rewrite HwT by (apply dir_idx; lia). rewrite Hva. apply H4. lia.
  - intros i Hi. rewrite HwP by apply table_idx. rewrite Hva. apply H5. lia.
  - intros i Hi. unfold dest. rewrite Hc. apply H6. lia.
  - intros i j Hi Hj E. apply H7 in E; lia.
Qed.

Lemma page_copy_loop_spec n fuel s t T PT vma g img off size sf :
  ready R S s -> kmap s -> idx t -> entry (word (pm s) S t) T -> T <> PT -> placed s T PT vma n g ->
  0 <= sf -> sf + 4 <= 16777216 -> clear_of S sf 4 -> load32 (pm s) sf = size ->
  0 <= img -> 0 <= off -> img + off + 4096 * Z.of_nat n <= 16777216 -> clear_of S (img + off) (4096 * Z.of_nat n) ->
  img + size <= 16777216 -> 0 <= size -> size <= off + 4096 * Z.of_nat n < size + 4096 \/ n = O /\ size <= off -> (n < fuel)%nat -> frees S 1 s ->
  exists s', Loader.copy_loop fuel (IX_TO_VA 1022 t) (KERNEL_V_START + sf) (KERNEL_V_START + img) (KERNEL_V_START + img + off) vma s = Ok ((), s') /\
    ext R S [PT] s s' /\ frames s' = frames s /\ (forall n, frees S n s -> frees S n s') /\
    (forall q j, page q -> idx j -> q <> S -> (forall i, 0 <= i < Z.of_nat n -> q <> g i) -> word (pm s') q j = word (pm s) q j) /\
    forall i o, 0 <= i < Z.of_nat n -> 0 <= o < 4096 -> load8 (pm s') (g i + o) = load8 (pm s) (img + off + 4096 * i + o).
Proof.
  intros Hr Hk Ht HeT HTP Hpl Hsf0 Hsf Hcs Esz Hi0 Ho0 Hhi Hcl Hend Hsz0 Hsz Hfu Hfs. destruct (ready_S _ _ _ Hr) as [HS _]. change KERNEL_V_START with 3221225472 in *.
  revert fuel s vma g off Hr Hk HeT Hpl Esz Ho0 Hhi Hcl Hsz Hfu Hfs.
  induction n as [|n IH]; intros [|fuel] s vma g off Hr Hk HeT Hpl Esz Ho0 Hhi Hcl Hsz Hfu Hfs; try lia; cbn [Loader.copy_loop];
    (erewrite M_bind_eq by (apply rd_kernel; [done|done|lia])); rewrite Esz, wrap32_small by lia.
  { rewrite (proj2 (Z.ltb_ge _ _)) by lia. exists s. split_and!; try done; [by apply ext_refl|lia]. }
  rewrite (proj2 (Z.ltb_lt _ _)) by lia. pose proof Hpl as [(HT & HTS) (HP & HPS) Hva Hdir Htab Hdst Hinj].
  destruct (Hdst 0 ltac:(lia)) as (Hd0 & Hg0T & Hg0P). specialize (Hdir 0 ltac:(lia)). specialize (Htab 0 ltac:(lia)).
  rewrite Z.mul_0_r, Z.add_0_r in Hdir, Htab.
  destruct (copy_page s t T PT (g 0) vma (img + off)
    (Loader.copy_loop fuel (IX_TO_VA 1022 t) (3221225472 + sf) (3221225472 + img) (wrap32 (3221225472 + img + off + FRAME_SIZE)) (wrap32 (vma + FRAME_SIZE))))
    as (s1 & H1 & E1 & Hfm1 & Hfr1 & Hw1 & Hb1); try done; try lia.
  { unfold clear_of in *. lia. }
  unfold KERNEL_V_START, Malloc.KERNEL_V_START in H1. rewrite Z.add_assoc in H1. rewrite H1. unfold FRAME_SIZE. rewrite !wrap32_small by lia.
  pose proof (ext_ready _ _ _ _ _ Hr E1) as Hr1. pose proof (e_cr3 _ _ _ _ _ E1) as Hc1. destruct Hd0 as (Hu0 & Hn0 & HK0).
  assert (HwT : forall j, idx j -> word (pm s1) T j = word (pm s) T j) by (intros j Hj; apply Hw1; done || congruence).
  assert (HwP : forall j, idx j -> word (pm s1) PT j = word (pm s) PT j) by (intros j Hj; apply Hw1; done || congruence).
  assert (Hlow : forall b, 0 <= b < 16777216 -> page_of b <> S -> load8 (pm s1) b = load8 (pm s) b).
  { intros b Hb Hn. apply keep_byte; [done|]. intros j Hj. destruct (page_of_page b Hb) as (Hpb & Eb & _). apply Hw1; [done|done|done|].
    intros E. destruct Hu0 as (_ & ? & _). pose proof (Z.mod_pos_bound b 4096 ltac:(lia)). lia. }
  assert (Hlow4 : load32 (pm s1) sf = size).
  { rewrite <- Esz. apply load32_same. intros b Hb. apply Hlow; [lia|]. apply (clear_page S sf 4); done. }
  destruct (IH fuel s1 (vma + 4096) (fun i => g (i + 1)) (off + 4096)) as (s2 & H2 & E2 & Hfm2 & Hfr2 & Hw2 & Hb2); try done; try lia.
  { eapply kmap_same; [exact Hr|exact Hk|exact E1|intros j Hj; apply Hw1; [apply Hr|done|apply Hr|set_solver]|].
    intros i j Hi Hj. destruct (Hk i Hi) as (? & _ & ? & _). apply Hw1; try done. apply not_eq_sym. by apply HK0. }
  { apply (e_slot _ _ _ _ _ E1); [done|done|]. set_solver. }
  { by eapply placed_next. }
  { unfold clear_of in *. lia. }
  { by apply Hfr1. }
  exists s2. split; [replace (3221225472 + img + off + 4096) with (3221225472 + img + (off + 4096)) by lia; exact H2|].
  split; [|split; [congruence|split; [by auto|split]]].
  - eapply ext_weaken; [|exact (ext_trans _ _ _ _ _ _ _ E1 E2)]. set_solver.
  - intros q j Hq Hj Hn Hg. rewrite Hw2; [apply Hw1; try done; apply Hg; lia|done|done|done|]. intros i Hi. apply Hg. lia.
  - intros i o Hi Ho. destruct (decide (i = 0)) as [->|Hi0'].
    + rewrite Z.mul_0_r, Z.add_0_r. rewrite <- Hb1 by done. apply byte_of_word; [done|]. intros j Hj. apply Hw2; [apply Hu0|done|set_solver|].
      intros i Hi' E. apply Hinj in E; lia.
    + specialize (Hb2 (i - 1) o ltac:(lia) Ho). replace (i - 1 + 1) with i in Hb2 by lia. rewrite Hb2.
      replace (img + (off + 4096) + 4096 * (i - 1) + o) with (img + off + 4096 * i + o) by lia. apply Hlow; [lia|].
      apply (clear_page S (img + off) (4096 * Z.of_nat (Datatypes.S n))); [done|done|lia].
Qed.

End Copy.
