(* ===== verification/LoaderSpace.v ===== *)
(** * Theorems about loading a task: the directory and the kernel stack

    The first half of [load_task]: a new directory with the kernel's entries of
    its parent ([new_space_spec]), and the page of the kernel stack in it
    ([map_kstack_spec]).  [keeps] says that no page in use before has changed
    (the page of the slots apart). *)
From S2P Require Import Prelude CMem Malloc Common Frame Paging PagingThm PagingTmp PagingMap PagingRegion Sched Loader LoaderCopy.
Import Paging Frame.

Section LoadSpace.
Context (R S : Z) (KT : Z -> Z).

Definition keeps (s s' : mm) : Prop :=
  forall q j, page q -> idx j -> held s q -> q <> S -> word (pm s') q j = word (pm s) q j.

Lemma keeps_refl s : keeps s s.
Proof. done. Qed.
Lemma keeps_trans V s s1 s2 : ext R S V s s1 -> keeps s s1 -> keeps s1 s2 -> keeps s s2.
Proof. intros He H1 H2 q j Hq Hj Hh Hn. rewrite H2, H1; try done. by apply (e_mono _ _ _ _ _ He). Qed.
Lemma slots_only_keeps V s s' : slots_only R S V s s' -> keeps s s'.
Proof. intros Hso q j Hq Hj _ Hn. by apply (so_word _ _ _ _ _ Hso). Qed.

Lemma kmap_keeps V s s' : ready R S s -> kmap S KT s -> ext R S V s s' -> keeps s s' -> kmap S KT s'.
Proof.
  intros Hr Hk He Hkp. assert (HD : cr3 s <> S) by apply Hr. destruct (ready_page R S s (cr3 s) Hr ltac:(set_solver)).
  eapply kmap_same; [exact Hr|exact Hk|exact He|intros j Hj; by apply Hkp|]. intros i j Hi Hj. destruct (Hk i Hi) as (? & ? & ? & _). by apply Hkp.
Qed.

(** A page that was idle is none of the pages in use. *)
Lemma fresh_dest s f : ready R S s -> kmap S KT s -> user_page f -> ~ held s f -> dest R S KT s f.
Proof.
  intros Hr Hk Hf Hn. split; [done|]. split.
  - intros Hin. by destruct (ready_page R S s f Hr Hin).
  - intros i Hi ->. by destruct (Hk i Hi) as (_ & ? & _).
Qed.
Lemma dest_cr3 s s' f : cr3 s' = cr3 s -> dest R S KT s f -> dest R S KT s' f.
Proof. unfold dest. by intros ->. Qed.

(** ** Linking the kernel *)

Lemma link_loop_spec n s t T P i :
  ready R S s -> kmap S KT s -> idx t -> entry (word (pm s) S t) T -> page T -> T ∉ [cr3 s; R; S] -> (forall i, 0 <= i < 4 -> T <> KT i) ->
  page P -> P + 4096 <= 16777216 -> P <> T -> 0 <= i -> i + Z.of_nat n <= 1024 ->
  exists s', Loader.link_loop n (IX_TO_VA 1022 t) (KERNEL_V_START + P) i s = Ok ((), s') /\ ext R S [] s s' /\ frames s' = frames s /\
    forall q j, page q -> idx j ->
      word (pm s') q j = if decide (q = T /\ i <= j < i + Z.of_nat n) then word (pm s) P j else word (pm s) q j.
Proof.
  intros Hr Hk Ht He HT HnT HK HP HP16 HPT. revert s i Hr Hk He HnT. induction n as [|n IH]; intros s i Hr Hk He HnT Hi Hn; cbn [Loader.link_loop].
  { exists s. split; [done|]. split; [by apply ext_refl|]. split; [done|]. intros q j Hq Hj. by rewrite decide_False by lia. }
  assert (Hix : idx i) by (unfold idx; lia). destruct (ready_S _ _ _ Hr) as [HS _]. assert (HTS : T <> S) by set_solver.
  erewrite M_bind_eq; [|rewrite <- Z.add_assoc; apply (rd_kernel R S KT); [done|done|unfold page in HP; lia]]. fold (word (pm s) P i).
  destruct (write_temp R S s t T i (word (pm s) P i) Hr Ht Hix He HT HnT) as (s1 & H1 & E1 & Hf1 & Hw1).
  erewrite M_bind_eq by exact H1. pose proof (ext_ready _ _ _ _ _ Hr E1) as Hr1.
  assert (Hwn : forall q j, page q -> idx j -> q <> T -> word (pm s1) q j = word (pm s) q j).
  { intros q j Hq Hj Hne. rewrite Hw1, decide_False; [done|intros [? _]; congruence|done|done]. }
  destruct (IH s1 (i + 1) Hr1) as (s2 & H2 & E2 & Hf2 & Hw2); try lia.
  { eapply kmap_same; [exact Hr|exact Hk|exact E1|intros j Hj; apply Hwn; [apply Hr|done|set_solver]|].
    intros a b Ha Hb. apply Hwn; [by apply Hk|done|]. apply not_eq_sym. by apply HK. }
  { by rewrite Hwn. }
  { by rewrite (e_cr3 _ _ _ _ _ E1). }
  exists s2. split; [exact H2|]. split; [exact (ext_trans _ _ [] [] _ _ _ E1 E2)|]. split; [congruence|]. intros q j Hq Hj. rewrite Hw2 by done.
  rewrite (Hwn P) by done. destruct (decide (q = T /\ i <= j < i + Z.of_nat (Datatypes.S n))) as [[-> Hj']|Hne].
  - destruct (decide (j = i)) as [->|Hji]; [|by rewrite decide_True by lia]. rewrite decide_False by lia. rewrite Hw1, decide_True by done.
    apply wrap32_small, load32_range.
  - rewrite decide_False by (intros [? ?]; apply Hne; split; [done|lia]). rewrite Hw1, decide_False; [done| |done|done].
    intros [-> ->]. apply Hne. split; [done|lia].
Qed.

(** ** The new directory *)

(** [T] is a new directory whose reverse table is [RT] and whose system table
    is [SY]; the slots [t], [r] and [y] show them. *)
Record built (P : Z) (s0 s : mm) (T RT SY t r y : Z) : Prop := {
  bu_ext : ext R S [] s0 s;
  bu_keeps : keeps s0 s;
  bu_new : forall p, p ∈ [T; RT; SY] -> user_page p /\ ~ held s0 p /\ held s p;
  bu_nd : NoDup [T; RT; SY];
  bu_t : idx t /\ entry (word (pm s) S t) T;
  bu_r : idx r /\ entry (word (pm s) S r) RT;
  bu_y : idx y /\ entry (word (pm s) S y) SY;
  bu_low : forall j, 0 <= j < 768 -> word (pm s) T j = 0;
  bu_link : forall j, 768 <= j < 1022 -> word (pm s) T j = word (pm s0) P j;
  bu_rev : entry (word (pm s) T 1023) RT;
  bu_sys : entry (word (pm s) T 1022) SY;
  bu_rsys : entry (word (pm s) RT 1022) SY;
  bu_self : entry (word (pm s) SY 1023) T;
}.

(** [pg_dir_add] on an absent entry, through two slots. *)
Lemma pg_dir_add_spec s t r T RT di p flag :
  ready R S s -> idx t -> idx r -> entry (word (pm s) S t) T -> entry (word (pm s) S r) RT -> page T -> page RT -> T <> RT ->
  T ∉ [cr3 s; R; S] -> RT ∉ [cr3 s; R; S] -> idx di -> PAGE_ENTRY_SET (word (pm s) T di) = false -> page p -> 0 <= flag < 4096 ->
  exists s', pg_dir_add (IX_TO_VA 1022 t) (IX_TO_VA 1022 r) di p flag s = Ok (1, s') /\ ext R S [] s s' /\ frames s' = frames s /\
    forall q j, page q -> idx j -> word (pm s') q j =
      if decide (q = T /\ j = di) then Z.lor p flag else if decide (q = RT /\ j = di) then Z.lor p PAGE_P else word (pm s) q j.
Proof.
  intros Hr Ht Hri HeT HeR HT HRT HTR HnT HnR Hdi Hset Hp Hfl. unfold pg_dir_add. rewrite (page_mask p Hp).
  erewrite M_bind_eq by (by apply (rd_temp s R S (r_sp _ _ _ Hr) t T)). rewrite Hset.
  destruct (write_temp R S s t T di (Z.lor p flag) Hr Ht Hdi HeT HT HnT) as (s1 & H1 & E1 & Hf1 & Hw1). erewrite M_bind_eq by exact H1.
  pose proof (ext_ready _ _ _ _ _ Hr E1) as Hr1. destruct (ready_S _ _ _ Hr) as [HS _].
  destruct (write_temp R S s1 r RT di (Z.lor p PAGE_P) Hr1 Hri Hdi) as (s2 & H2 & E2 & Hf2 & Hw2);
    [apply (e_slot _ _ _ _ _ E1); [done|done|by intros ?%elem_of_nil]|done|by rewrite (e_cr3 _ _ _ _ _ E1)|]. erewrite M_bind_eq by exact H2.
  exists s2. split; [done|]. split; [exact (ext_trans _ _ [] [] _ _ _ E1 E2)|]. split; [congruence|]. intros q j Hq Hj. rewrite Hw2, Hw1 by done.
  rewrite !lor_u32 by (done || (unfold PAGE_P; lia)). destruct (decide (q = RT /\ j = di)) as [[-> ->]|]; [by rewrite decide_False by (intros [? _]; congruence)|done].
Qed.

(** Three new pages in three slots. *)
Lemma three_pages s0 k :
  ready R S s0 -> idles (3 + k) s0 -> frees S 3 s0 ->
  exists T RT SY t r y s1 s2 s, alloc_page USER_P_START MAX_MEM_SIZE s0 = Ok ((IX_TO_VA 1022 t, T), s1) /\
    alloc_page USER_P_START MAX_MEM_SIZE s1 = Ok ((IX_TO_VA 1022 r, RT), s2) /\
    alloc_page USER_P_START MAX_MEM_SIZE s2 = Ok ((IX_TO_VA 1022 y, SY), s) /\
    ext R S [] s0 s /\ keeps s0 s /\ (forall p, p ∈ [T; RT; SY] -> user_page p /\ ~ held s0 p /\ held s p) /\ NoDup [T; RT; SY] /\
    (idx t /\ entry (word (pm s) S t) T) /\ (idx r /\ entry (word (pm s) S r) RT) /\ (idx y /\ entry (word (pm s) S y) SY) /\
    (forall p j, p ∈ [T; RT; SY] -> idx j -> word (pm s) p j = 0) /\ idles k s /\ forall n, frees S (3 + n) s0 -> frees S n s.
Proof.
  intros Hr Hk Hf.
  destruct (alloc_page_spec R S s0 (2 + k) Hr Hk) as (T & t & s1 & H1 & Hf1 & Ht & _ & E1 & He1 & Hk1 & Hh1 & HwS1 & Hw1); [eapply frees_le; [|exact Hf]; lia|].
  pose proof (ext_ready _ _ _ _ _ Hr E1) as Hr1. assert (G1 : forall n, frees S (1 + n) s0 -> frees S n s1) by (intros n; by apply (get_slot_frees S s0 s1 t)).
  destruct (alloc_page_spec R S s1 (1 + k) Hr1 Hk1) as (RT & r & s2 & H2 & Hf2 & Hri & _ & E2 & He2 & Hk2 & Hh2 & HwS2 & Hw2);
    [apply G1; eapply frees_le; [|exact Hf]; lia|].
  pose proof (ext_ready _ _ _ _ _ Hr1 E2) as Hr2. assert (G2 : forall n, frees S (1 + n) s1 -> frees S n s2) by (intros n; by apply (get_slot_frees S s1 s2 r)).
  destruct (alloc_page_spec R S s2 k Hr2 Hk2) as (SY & y & s3 & H3 & Hf3 & Hy & _ & E3 & He3 & Hk3 & Hh3 & HwS3 & Hw3); [apply G2, G1, Hf|].
  pose proof (ext_trans _ _ [] [] _ _ _ E1 E2) as E12. pose proof (ext_trans _ _ [] [] _ _ _ E12 E3) as E.
  assert (Hup : user_page T /\ user_page RT /\ user_page SY) by (split_and!; [apply Hf1|apply Hf2|apply Hf3]). destruct Hup as (U1 & U2 & U3).
  assert (P1 : page T) by apply U1. assert (P2 : page RT) by apply U2. assert (P3 : page SY) by apply U3.
  assert (h1 : held s1 T) by (apply Hh1; [done|by right]). assert (h2 : held s2 T) by (apply Hh2; [done|by left]).
  assert (h3 : held s2 RT) by (apply Hh2; [done|by right]). destruct (ready_S _ _ _ Hr) as [HS HhS].
  assert (N1 : RT <> T) by (by apply (idle_ne s1)). assert (N2 : SY <> T) by (by apply (idle_ne s2)). assert (N3 : SY <> RT) by (by apply (idle_ne s2)).
  assert (n1 : T <> S) by (by apply (idle_ne s0)). assert (n2 : RT <> S) by (apply (idle_ne s1); [done|by apply (e_mono _ _ _ _ _ E1)]).
  assert (n3 : SY <> S) by (apply (idle_ne s2); [done|by apply (e_mono _ _ _ _ _ E12)]).
  assert (k1 : ~ held s0 T) by (by apply idle_not_held).
  assert (k2 : ~ held s0 RT) by (intros H; apply (idle_not_held s1 RT Hf2), (e_mono _ _ _ _ _ E1); done).
  assert (k3 : ~ held s0 SY) by (intros H; apply (idle_not_held s2 SY Hf3), (e_mono _ _ _ _ _ E12); done).
  assert (Hw : forall q j, page q -> idx j -> q <> S ->
    word (pm s3) q j = if decide (q = SY) then 0 else if decide (q = RT) then 0 else if decide (q = T) then 0 else word (pm s0) q j)
    by (intros q j Hq Hj Hn; by rewrite Hw3, Hw2, Hw1).
  exists T, RT, SY, t, r, y, s1, s2, s3. split_and!; try done.
  - intros q j Hq Hj Hh Hn. rewrite Hw by done. rewrite !decide_False by (by intros ->). done.
  - intros p Hp. repeat (apply elem_of_cons in Hp as [->|Hp]); [..|by apply elem_of_nil in Hp]; (split; [done|split; [done|]]).
    + apply Hh3; [done|by left]. + apply Hh3; [done|by left]. + apply Hh3; [done|by right].
  - repeat (apply NoDup_cons_2; [set_solver|]). by apply NoDup_nil_2.
  - apply (e_slot _ _ _ _ _ E3); [done|apply (e_slot _ _ _ _ _ E2); [done|done|by intros ?%elem_of_nil]|by intros ?%elem_of_nil].
  - apply (e_slot _ _ _ _ _ E3); [done|done|by intros ?%elem_of_nil].
  - intros p j Hp Hj. repeat (apply elem_of_cons in Hp as [->|Hp]); [..|by apply elem_of_nil in Hp]; rewrite Hw by done; repeat case_decide; done.
  - intros n Hn. apply (get_slot_frees S s2 s3 y); [done|]. by apply G2, G1.
Qed.

(** The reverse and the system table are entered in the directory. *)
Lemma wire_tables s t r y T RT SY :
  ready R S s -> idx t -> idx r -> idx y -> entry (word (pm s) S t) T -> entry (word (pm s) S r) RT -> entry (word (pm s) S y) SY ->
  page T -> page RT -> page SY -> NoDup [T; RT; SY] -> T ∉ [cr3 s; R; S] -> RT ∉ [cr3 s; R; S] -> SY ∉ [cr3 s; R; S] -> (forall j, idx j -> word (pm s) T j = 0) ->
  exists s1 s2 s', pg_dir_add (IX_TO_VA 1022 t) (IX_TO_VA 1022 r) 1023 RT PAGE_FLG_KERNEL s = Ok (1, s1) /\
    wr (IX_TO_VA 1022 y + 4 * 1023) (Z.lor T PAGE_FLG_KERNEL) s1 = Ok ((), s2) /\
    pg_dir_add (IX_TO_VA 1022 t) (IX_TO_VA 1022 r) 1022 SY PAGE_FLG_KERNEL s2 = Ok (1, s') /\
    ext R S [] s s' /\ frames s' = frames s /\ (forall j, 0 <= j < 1022 -> word (pm s') T j = 0) /\
    (entry (word (pm s') T 1023) RT /\ entry (word (pm s') T 1022) SY /\ entry (word (pm s') RT 1022) SY /\ entry (word (pm s') SY 1023) T) /\
    forall q j, page q -> idx j -> q <> T -> q <> RT -> q <> SY -> word (pm s') q j = word (pm s) q j.
Proof.
  intros Hr Ht Hri Hy HeT HeR HeY P1 P2 P3 Hnd n1 n2 n3 Hz.
  assert (N : T <> RT /\ T <> SY /\ RT <> SY) by (clear -Hnd; rewrite !NoDup_cons in Hnd; set_solver). destruct N as (N1 & N2 & N3).
  assert (Hx22 : idx 1022) by (unfold idx; lia). assert (Hx23 : idx 1023) by (unfold idx; lia).
  assert (Hnil : forall p : Z, p ∉ []) by (by intros p ?%elem_of_nil). destruct PAGE_FLG_KERNEL_odd as [Hfl Hodd].
  destruct (pg_dir_add_spec s t r T RT 1023 RT PAGE_FLG_KERNEL) as (s4 & H4 & E4 & F4 & W4); try done; [by rewrite Hz|].
  pose proof (ext_ready _ _ _ _ _ Hr E4) as Hr4. pose proof (e_cr3 _ _ _ _ _ E4) as Hc4.
  destruct (write_temp R S s4 y SY 1023 (Z.lor T PAGE_FLG_KERNEL) Hr4 Hy) as (s5 & H5 & E5 & F5 & W5);
    [done|by apply (e_slot _ _ _ _ _ E4)|done|by rewrite Hc4|].
  pose proof (ext_ready _ _ _ _ _ Hr4 E5) as Hr5. pose proof (e_cr3 _ _ _ _ _ E5) as Hc5. pose proof (ext_trans _ _ [] [] _ _ _ E4 E5) as E45.
  destruct (pg_dir_add_spec s5 t r T RT 1022 SY PAGE_FLG_KERNEL) as (s6 & H6 & E6 & F6 & W6); try done;
    [by apply (e_slot _ _ _ _ _ E45)|by apply (e_slot _ _ _ _ _ E45)|by rewrite Hc5, Hc4|by rewrite Hc5, Hc4| |].
  { rewrite W5, decide_False, W4, decide_False, decide_False, Hz; try done; intros [? ?]; (congruence || lia). }
  exists s4, s5, s6. split; [exact H4|]. split; [exact H5|]. split; [exact H6|]. split; [exact (ext_trans _ _ [] [] _ _ _ E45 E6)|]. split; [congruence|].
  split; [|split; [split; [|split; [|split]]|]].
  - intros j Hj. assert (Hij : idx j) by (unfold idx; lia). rewrite W6, W5, W4 by (done || lia). rewrite !decide_False by (intros [? ?]; congruence || lia). by apply Hz.
  - rewrite W6, W5, W4 by (done || lia). rewrite !(decide_False (P := T = T /\ 1023 = 1022)), !(decide_False (P := T = RT /\ _)), !(decide_False (P := T = SY /\ _)), decide_True
      by (done || (intros [? ?]; congruence || lia)). by apply entry_flags.
  - rewrite W6, decide_True by (done || lia). by apply entry_flags.
  - rewrite W6, decide_False, decide_True by (done || congruence || (intros [? _]; congruence)). apply entry_flags; [done|unfold PAGE_P; lia|done].
  - rewrite W6, !decide_False, W5, decide_True by (done || congruence || (intros [? _]; congruence)). rewrite lor_u32 by done. by apply entry_flags.
  - intros q j Hq Hj M1 M2 M3. rewrite W6, W5, W4 by done. rewrite !decide_False; [done|..]; intros [? _]; congruence.
Qed.

Lemma new_space_spec s0 P k :
  ready R S s0 -> kmap S KT s0 -> page P -> P + 4096 <= 16777216 -> P <> S -> idles (3 + k) s0 -> frees S 3 s0 ->
  exists T RT SY t r y s, Loader.new_space (KERNEL_V_START + P) s0 = Ok ((IX_TO_VA 1022 t, T, IX_TO_VA 1022 r, IX_TO_VA 1022 y), s) /\
    built P s0 s T RT SY t r y /\ idles k s /\ forall n, frees S (3 + n) s0 -> frees S n s.
Proof.
  intros Hr Hk HP HP16 HPS Hid Hf.
  destruct (three_pages s0 k Hr Hid Hf) as (T & RT & SY & t & r & y & s1 & s2 & s3 & H1 & H2 & H3 & E3 & K3 & Hnew & Hnd & [Ht HeT] & [Hri HeR] & [Hy HeY] & Hz & Hk3 & Hfr).
  pose proof (ext_ready _ _ _ _ _ Hr E3) as Hr3. pose proof (e_cr3 _ _ _ _ _ E3) as Hc3.
  assert (Hfd : forall p, p ∈ [T; RT; SY] -> page p /\ ~ held s0 p /\ p ∉ [cr3 s3; R; S] /\ forall i, 0 <= i < 4 -> p <> KT i).
  { intros p Hp. destruct (Hnew p Hp) as (U & h & _). destruct (fresh_dest s0 p Hr Hk U h) as (_ & n & nk). rewrite Hc3. split; [apply U|by split]. }
  destruct (Hfd T ltac:(by left)) as (P1 & h1 & n1 & nk1). destruct (Hfd RT ltac:(by right; left)) as (P2 & h2 & n2 & _). destruct (Hfd SY ltac:(by right; right; left)) as (P3 & h3 & n3 & _).
  destruct (wire_tables s3 t r y T RT SY) as (s4 & s5 & s6 & H4 & H5 & H6 & E46 & F46 & Hlow & (HeD & HeS & HeRS & HeYT) & W36); try done; [intros j Hj; apply Hz; [by left|done]|].
  pose proof (ext_ready _ _ _ _ _ Hr3 E46) as Hr6. pose proof (e_cr3 _ _ _ _ _ E46) as Hc6. pose proof (ext_trans _ _ [] [] _ _ _ E3 E46) as E06.
  assert (Hold : forall q, held s0 q -> q <> T /\ q <> RT /\ q <> SY) by (intros q Hq; split_and!; by intros ->).
  assert (K06 : keeps s0 s6). { intros q j Hq Hj Hh Hn. destruct (Hold q Hh) as (M1 & M2 & M3). rewrite W36 by done. by apply K3. }
  destruct (page_of_page P ltac:(unfold page in HP; lia)) as (_ & _ & HhP). assert (HPp : page_of P = P) by (unfold page_of, page in *; Z.to_euclidean_division_equations; lia).
  rewrite HPp in HhP. destruct (Hold P (HhP s0)) as (M1 & M2 & M3).
  destruct (link_loop_spec 254 s6 t T P 768) as (s7 & H7 & E7 & F7 & W7); try done; try lia.
  { by apply (kmap_keeps _ _ _ Hr Hk E06 K06). } { apply (e_slot _ _ _ _ _ E46); [done|done|by intros ?%elem_of_nil]. } { by rewrite Hc6. }
  pose proof (ext_trans _ _ [] [] _ _ _ E46 E7) as E37. pose proof (ext_trans _ _ [] [] _ _ _ E3 E37) as E.
  assert (WT : forall j, idx j -> ~ (768 <= j < 1022) -> word (pm s7) T j = word (pm s6) T j) by (intros j Hj Hn; rewrite W7, decide_False by (done || lia); done).
  assert (Wo : forall q j, page q -> idx j -> q <> T -> word (pm s7) q j = word (pm s6) q j).
  { intros q j Hq Hj Hn. rewrite W7, decide_False; [done|intros [? _]; congruence|done|done]. }
  assert (Hsl : forall i p, idx i -> entry (word (pm s3) S i) p -> entry (word (pm s7) S i) p) by (intros i p Hi He; apply (e_slot _ _ _ _ _ E37); [done|done|by intros ?%elem_of_nil]).
  assert (HX : idx 1022 /\ idx 1023 /\ T <> RT /\ T <> SY) by (split; [unfold idx; lia|split; [unfold idx; lia|clear -Hnd; rewrite !NoDup_cons in Hnd; set_solver]]). destruct HX as (X2 & X3 & N1 & N2).
  exists T, RT, SY, t, r, y, s7. split; [|split; [|split]].
  - unfold Loader.new_space. erewrite M_bind_eq by exact H1. cbv beta iota. erewrite M_bind_eq by exact H2. cbv beta iota.
    erewrite M_bind_eq by exact H3. cbv beta iota. erewrite M_bind_eq by exact H4. erewrite M_bind_eq by exact H5. erewrite M_bind_eq by exact H6.
    erewrite M_bind_eq by exact H7. done.
  - split; try done; try (split; [done|by apply Hsl]).
    + intros q j Hq Hj Hh Hn. rewrite Wo; [by apply K06|done|done|by apply Hold].
    + intros p Hp. destruct (Hnew p Hp) as (G1 & G2 & G3). split; [done|]. split; [done|]. apply (e_mono _ _ _ _ _ E37); [apply G1|done].
    + intros j Hj. rewrite WT by (lia || (unfold idx; lia)). apply Hlow. lia.
    + intros j Hj. assert (Hij : idx j) by (unfold idx; lia). rewrite W7, decide_True by done. by apply K06.
    + by rewrite WT by (done || lia). + by rewrite WT by (done || lia). + by rewrite Wo by (done || congruence). + by rewrite Wo by (done || congruence).
  - eapply at_least_mono; [reflexivity| |exact Hk3]. intros f [G1 G2]. split; [done|]. by rewrite F7, F46.
  - intros n Hn. apply (frees_same S n s3); [|by apply Hfr]. intros i Hi Hfi. unfold slot_free.
    destruct (ready_S _ _ _ Hr) as [HS HhS]. destruct (Hold S HhS) as (Q1 & Q2 & Q3). by rewrite Wo, W36.
Qed.

End LoadSpace.
