(* ===== verification/LoaderStack.v ===== *)
(** * Theorems about loading a task: the kernel stack and the task structure

    [map_kstack_spec] covers the case that the parent's directory, whose
    kernel entries the new directory has, already maps a kernel stack: the
    request then finds the entry present, and the new task gets the parent's
    stack page.  [alloc_kstack_spec] adds the fields of [struct Task] written
    to that page and the entry of the task table. *)
From S2P Require Import Prelude CMem Malloc Common Frame Paging PagingThm PagingTmp PagingMap PagingRegion Sched Loader LoaderCopy LoaderSpace.
Import Paging Frame.

(** ** Steps of the loader's monad *)

Lemma K_bind_eq {A B} (c : Loader.K A) (f : A -> Loader.K B) s a s' : c s = Ok (a, s') -> (c ≫= f) s = f a s'.
Proof. intros E. unfold mbind, Loader.K_bind. by rewrite E. Qed.
Lemma mem_op_eq {A} (c : M A) m ts a m' : c m = Ok (a, m') -> Loader.mem_op c (Loader.mkOs m ts) = Ok (a, Loader.mkOs m' ts).
Proof. intros E. unfold Loader.mem_op. cbn [Loader.mach]. by rewrite E. Qed.
Lemma mem_bind {A B} (c : M A) (f : A -> Loader.K B) m ts a m' :
  c m = Ok (a, m') -> (Loader.mem_op c ≫= f) (Loader.mkOs m ts) = f a (Loader.mkOs m' ts).
Proof. intros E. by apply K_bind_eq, mem_op_eq. Qed.
Lemma tasks_bind {B} (f : Sched.sched -> Loader.K B) m ts : (Loader.get_tasks ≫= f) (Loader.mkOs m ts) = f ts (Loader.mkOs m ts).
Proof. reflexivity. Qed.

(** ** Words written to one page *)

(** The word [k] after the writes [l], the last one first. *)
Fixpoint upd (l : list (Z * Z)) (k d : Z) : Z :=
  match l with
  | [] => d
  | (j, v) :: l => if k =? j then wrap32 v else upd l k d
  end.

Section Stack.
Context (R S : Z) (KT : Z -> Z).

Record wrote (q : Z) (l : list (Z * Z)) (s s' : mm) : Prop := {
  w_ext : ext R S [] s s';
  w_frames : frames s' = frames s;
  w_word : forall p k, page p -> idx k -> word (pm s') p k = if decide (p = q) then upd l k (word (pm s) p k) else word (pm s) p k;
}.

Lemma wrote_nil q s : ready R S s -> wrote q [] s s.
Proof. intros Hr. split; [by apply ext_refl|done|]. intros p k _ _. by case_decide. Qed.

Lemma wrote_step q l s s1 a j v :
  ready R S s -> idx a -> idx j -> entry (word (pm s) S a) q -> page q -> q ∉ [cr3 s; R; S] -> wrote q l s s1 ->
  exists s2, wr (IX_TO_VA 1022 a + 4 * j) v s1 = Ok ((), s2) /\ wrote q ((j, v) :: l) s s2.
Proof.
  intros Hr Ha Hj He Hq Hn [E1 F1 W1]. pose proof (ext_ready _ _ _ _ _ Hr E1) as Hr1.
  destruct (write_temp R S s1 a q j v Hr1 Ha Hj) as (s2 & H2 & E2 & F2 & W2);
    [apply (e_slot _ _ _ _ _ E1); [done|done|by intros ?%elem_of_nil]|done|by rewrite (e_cr3 _ _ _ _ _ E1)|].
  exists s2. split; [done|]. split; [exact (ext_trans _ _ [] [] _ _ _ E1 E2)|congruence|]. intros p k Hp Hk. rewrite W2, W1 by done.
  case_decide as Eq; cbn [upd].
  - destruct Eq as [-> ->]. by rewrite decide_True, Z.eqb_refl.
  - case_decide; [|done]. subst p. destruct (Z.eqb_spec k j) as [->|]; [by destruct Eq|done].
Qed.

(** Reading such a word back. *)
Lemma wrote_rd q l s s1 a j :
  ready R S s -> idx a -> idx j -> entry (word (pm s) S a) q -> page q -> wrote q l s s1 ->
  rd (IX_TO_VA 1022 a + 4 * j) s1 = Ok (upd l j (word (pm s) q j), s1).
Proof.
  intros Hr Ha Hj He Hq [E1 F1 W1]. pose proof (ext_ready _ _ _ _ _ Hr E1) as Hr1.
  rewrite (rd_temp s1 R S (r_sp _ _ _ Hr1) a q j Ha Hj) by (apply (e_slot _ _ _ _ _ E1); [done|done|by intros ?%elem_of_nil]).
  by rewrite W1, decide_True.
Qed.

Lemma wrote_frees q l s s1 n : ready R S s -> q <> S -> wrote q l s s1 -> frees S n s -> frees S n s1.
Proof.
  intros Hr Hq [E1 F1 W1]. destruct (ready_S _ _ _ Hr) as [HS _]. apply frees_same. intros i Hi Hf. unfold slot_free.
  by rewrite W1, decide_False.
Qed.
Lemma wrote_idles q l s s1 n : wrote q l s s1 -> idles n s -> idles n s1.
Proof. intros [E1 F1 W1]. apply at_least_mono; [done|]. intros f [H1 H2]. split; [done|]. by rewrite F1. Qed.

(** A slot that is opened, used and closed again. *)
Lemma ext_open_close V s s1 s2 s3 j p :
  slot_free s S j -> ext R S [] s s1 -> ext R S V s1 s2 -> slots_only R S [p] s2 s3 ->
  (forall i, idx i -> i <> j -> word (pm s3) S i = word (pm s2) S i) -> ext R S V s s3.
Proof.
  intros Hj E1 E2 Hso Hne. pose proof (so_ext _ _ _ _ _ Hso) as E3.
  destruct (ext_trans _ _ [] V _ _ _ E1 E2) as [_ C1 _ M1 L1]. destruct E3 as [G1 G2 G3 G4 _]. split; [done|congruence|done|by auto|].
  intros i x Hi He Hn. rewrite Hne; [by apply L1|done|]. intros ->. unfold slot_free in Hj. destruct He. congruence.
Qed.

(** ** The kernel stack *)

(** The directory [T] maps the page [Q] for the kernel stack through the table
    [PK], which also has an entry 0. *)
Record shares (s : mm) (T PK Q : Z) : Prop := {
  sh_PK : entry (word (pm s) T 1021) PK /\ page PK /\ PK <> 0 /\ held s PK /\ PK ∉ [cr3 s; R; S; T];
  sh_Q : entry (word (pm s) PK 1023) Q /\ page Q;
  sh_0 : PAGE_ENTRY_SET (word (pm s) PK 0) = true;
  sh_sys : PAGE_ENTRY_SET (word (pm s) T 1022) = true;
}.

Lemma kstack_u32 : u32 Sched.KSTACK_FRAME.
Proof. vm_compute. split; congruence. Qed.

(** The request for the stack changes no page: both its pages are present. *)
Lemma request_shared s t T RT PK Q k :
  ready R S s -> target R S t T RT s -> shares s T PK Q -> idles (3 + k) s -> frees S 3 s ->
  exists s', request_region_vmap (Loader.rounds FRAME_SIZE) (IX_TO_VA 1022 t) Sched.KSTACK_FRAME FRAME_SIZE PAGE_FLG_KERNEL s = Ok (1, s') /\
    ext R S [PK] s s' /\ keeps S s s' /\ idles k s' /\ forall n, frees S (1 + n) s -> frees S n s'.
Proof.
  intros Hr Htg [(HeK & HK & HK0 & HhK & HnK) (HeQ & HQ) H0 Hsys] Hid Hf. destruct PAGE_FLG_KERNEL_odd as [Hfl Hodd].
  pose proof (region_spec R S t T RT s k (Loader.rounds FRAME_SIZE) Sched.KSTACK_FRAME FRAME_SIZE PAGE_FLG_KERNEL) as Hs. cbv zeta in Hs.
  change (Sched.KSTACK_FRAME / 4096) with 1046527 in Hs. change ((Sched.KSTACK_FRAME + FRAME_SIZE) / 4096) with 1046528 in Hs.
  change (Z.to_nat (1046528 - 1046527 + 1)) with 2%nat in Hs. change (tis 2 (4096 * 1046527)) with [1023; 0] in Hs. change (1046527 / 1024) with 1021 in Hs.
  change (Z.to_nat (1046528 - 1046527 + 1 + 1)) with 3%nat in Hs. change (Z.of_nat (Loader.rounds FRAME_SIZE)) with 5 in Hs.
  pose proof kstack_u32 as Hu.
  destruct Hs as (PT & s' & H1 & Hm & Hk & Hfr); [done|done|done|unfold FRAME_SIZE; lia|lia|lia|right; by exists PK| |done|done|lia|done|done|].
  - intros q Hq. replace q with 1046528 by lia. by right.
  - destruct Hm as [E (P1 & P2 & P3) Hdir _ Hold _ _ Hkeep]. destruct (tg_T _ _ _ _ _ _ Htg) as (HT & HhT & HnT).
    assert (PT = PK) as ->.
    { rewrite Hkeep in Hdir; [destruct Hdir, HeK; congruence|done|unfold idx; lia|done|set_solver|set_solver|left; apply HeK]. }
    exists s'. split; [exact H1|]. split; [exact E|]. split; [|done]. intros q j Hq Hj Hh Hn.
    destruct (decide (q = PK)) as [->|Hne]; [|apply Hkeep; try done; left; apply HeK].
    assert (Ht : tab T s PK 1021 j = word (pm s) PK j) by (unfold tab; by rewrite (proj1 HeK)).
    rewrite Hold, Ht; [done|done|]. destruct (decide (j ∈ [1023; 0])) as [Hin|Hin]; [right|by left]. rewrite Ht.
    repeat (apply elem_of_cons in Hin as [->|Hin]); [apply HeQ|done|by apply elem_of_nil in Hin].
Qed.

Lemma map_kstack_spec s t T RT PK Q k :
  ready R S s -> target R S t T RT s -> shares s T PK Q -> idles (3 + k) s -> frees S 4 s ->
  exists t2 q s1 s', Loader.map_kstack T s = Ok ((IX_TO_VA 1022 t2, IX_TO_VA 1022 q), s') /\ idx t2 /\ idx q /\
    slot_free s S t2 /\ ext R S [] s s1 /\ ext R S [PK] s1 s' /\ keeps S s s' /\
    entry (word (pm s') S t2) T /\ entry (word (pm s') S q) Q /\ t2 <> q /\ idles k s' /\ forall n, frees S (3 + n) s -> frees S n s'.
Proof.
  intros Hr Htg Hsh Hid Hf. pose proof Hsh as [(HeK & HK & HK0 & HhK & HnK) (HeQ & HQ) H0 Hsys]. destruct (tg_T _ _ _ _ _ _ Htg) as (HT & HhT & HnT).
  destruct (open_slot R S s T Hr HT) as (t2 & s1 & H1 & Ht2 & Hft2 & Hso1 & He1 & HwS1); [eapply frees_le; [|exact Hf]; lia|].
  pose proof (slots_only_ready _ _ _ _ _ Hr Hso1) as Hr1. pose proof (so_word _ _ _ _ _ Hso1) as Hw1. pose proof (so_ext _ _ _ _ _ Hso1) as E1.
  pose proof (e_cr3 _ _ _ _ _ E1) as Hc1. assert (HTS : T <> S) by set_solver. assert (HKS : PK <> S) by set_solver. assert (HKT : PK <> T) by set_solver.
  assert (Htg1 : target R S t2 T RT s1).
  { destruct (target_ext R S t T RT [] s s1 Hr Htg E1) as [_ G2 G3 G4]; [by intros ?%elem_of_nil|apply Hw1; [done|unfold idx; lia|done]|]. by split. }
  assert (Hsh1 : shares s1 T PK Q).
  { split; rewrite ?Hc1, ?Hw1; try done; try (unfold idx; lia). split_and!; try done. by apply (slots_only_held _ _ _ _ _ _ Hso1). }
  destruct (request_shared s1 t2 T RT PK Q k Hr1 Htg1 Hsh1) as (s2 & H2 & E2 & K2 & Hk2 & Hf2);
    [by eapply slots_only_idles|by apply (get_slot_frees S s s1 t2)|].
  pose proof (ext_ready _ _ _ _ _ Hr1 E2) as Hr2. destruct Hsh1 as [(HeK1 & _ & _ & HhK1 & _) (HeQ1 & _) _ _].
  assert (HhT1 : held s1 T) by (by apply (slots_only_held _ _ _ _ _ _ Hso1)). assert (HKn : T ∉ [PK]) by set_solver.
  pose proof (e_slot _ _ _ _ _ E2 t2 T Ht2 He1 HKn) as He2.
  assert (Hfr2 : forall n, frees S (2 + n) s -> frees S n s2) by (intros n Hn; apply Hf2; by apply (get_slot_frees S s s1 t2)).
  destruct (phy_spec R S s2 t2 T PK Q Sched.KSTACK_FRAME Hr2 Ht2 He2 HT kstack_u32) as (s3 & H3 & Hso3 & Hf3).
  { change (PAGE_DIR_INDEX Sched.KSTACK_FRAME) with 1021. rewrite K2; [done|done|unfold idx; lia|done|done]. }
  { done. } { done. }
  { change (PAGE_TABLE_INDEX Sched.KSTACK_FRAME) with 1023. rewrite K2; [done|done|unfold idx; lia|done|done]. }
  { apply Hfr2. eapply frees_le; [|exact Hf]. lia. }
  pose proof (slots_only_ready _ _ _ _ _ Hr2 Hso3) as Hr3. pose proof (so_ext _ _ _ _ _ Hso3) as E3.
  destruct (open_slot R S s3 Q Hr3 HQ) as (q & s4 & H4 & Hq & Hfq & Hso4 & He4 & HwS4); [apply Hf3, Hfr2; eapply frees_le; [|exact Hf]; lia|].
  pose proof (e_slot _ _ _ _ _ E3 t2 T Ht2 He2 HKn) as He3. pose proof (so_ext _ _ _ _ _ Hso4) as E4.
  assert (Hne : t2 <> q) by (intros ->; unfold slot_free in Hfq; destruct He3; congruence).
  exists t2, q, s1, s4. split.
  { unfold Loader.map_kstack. erewrite M_bind_eq by exact H1. erewrite M_bind_eq by exact H2. erewrite M_bind_eq by exact H3. erewrite M_bind_eq by exact H4. done. }
  split_and!; try done.
  - eapply ext_weaken; [|exact (ext_trans _ _ _ _ _ _ _ (ext_trans _ _ _ _ _ _ _ E2 E3) E4)]. set_solver.
  - intros p j Hp Hj Hh Hn. rewrite (so_word _ _ _ _ _ Hso4), (so_word _ _ _ _ _ Hso3) by done. rewrite K2; [by apply Hw1|done|done| |done].
    by apply (slots_only_held _ _ _ _ _ _ Hso1).
  - apply (e_slot _ _ _ _ _ E4); [done|done|by intros ?%elem_of_nil].
  - eapply slots_only_idles; [exact Hso4|]. eapply slots_only_idles; [exact Hso3|done].
  - intros n Hn. apply (get_slot_frees S s3 s4 q); [done|]. by apply Hf3, Hfr2.
Qed.

(** ** The task structure *)

(** The [Task] structure is the last seven words of the stack page. *)
Lemma task_addr q : idx q -> Loader.KSTACK_TO_TASK (IX_TO_VA 1022 q) = IX_TO_VA 1022 q + 4 * 1017.
Proof.
  intros Hq. unfold Loader.KSTACK_TO_TASK, FRAME_SIZE, Sched.sizeof_Task. destruct (temp_va_index q 4068 Hq ltac:(lia)) as (Hu & _).
  rewrite wrap32_small by lia. lia.
Qed.

Lemma rd_task_spec q a l s s1 :
  ready R S s -> idx a -> entry (word (pm s) S a) q -> page q -> wrote q l s s1 ->
  let w j := upd l j (word (pm s) q j) in
  Loader.rd_task (IX_TO_VA 1022 a + 4 * 1017) s1 = Ok (Sched.mkTask (w 1017) (w 1018) (w 1019) (w 1020) (w 1021) (w 1022) (w 1023), s1).
Proof.
  intros Hr Ha He Hq Hw w. assert (Hrd : forall j, idx j -> rd (IX_TO_VA 1022 a + 4 * j) s1 = Ok (w j, s1)) by (intros j Hj; by apply (wrote_rd q l s)).
  unfold Loader.rd_task.
  replace (IX_TO_VA 1022 a + 4 * 1017 + 4) with (IX_TO_VA 1022 a + 4 * 1018) by lia. replace (IX_TO_VA 1022 a + 4 * 1017 + 8) with (IX_TO_VA 1022 a + 4 * 1019) by lia.
  replace (IX_TO_VA 1022 a + 4 * 1017 + 12) with (IX_TO_VA 1022 a + 4 * 1020) by lia. replace (IX_TO_VA 1022 a + 4 * 1017 + 16) with (IX_TO_VA 1022 a + 4 * 1021) by lia.
  replace (IX_TO_VA 1022 a + 4 * 1017 + 20) with (IX_TO_VA 1022 a + 4 * 1022) by lia. replace (IX_TO_VA 1022 a + 4 * 1017 + 24) with (IX_TO_VA 1022 a + 4 * 1023) by lia.
  do 7 (erewrite M_bind_eq by (apply Hrd; unfold idx; lia)). done.
Qed.

Definition ESP0 : Z := Sched.KSTACK_FRAME + Sched.FRAME_SIZE - Sched.sizeof_Task - 4.
(** The words [alloc_kstack_and_task] writes. *)
Definition task_words (T cur tid : Z) : list (Z * Z) :=
  [(1021, tid); (1023, 10); (1022, Sched.TASK_PRESENT); (1020, cur); (1019, ESP0); (1018, T)].

(** The structure is written through the slot [q]; the slot [t] is closed. *)
Lemma fill_task_spec s ts t q T Q P cur tid :
  ready R S s -> idx t -> idx q -> t <> q -> entry (word (pm s) S t) P -> entry (word (pm s) S q) Q -> page Q -> Q ∉ [cr3 s; R; S] ->
  u32 T -> u32 cur -> Sched.get_next_tid ts = Ok tid -> 0 <= tid < 32 ->
  exists s8 s', Loader.fill_task T cur (IX_TO_VA 1022 t) (IX_TO_VA 1022 q) (Loader.mkOs s ts) =
      Ok (IX_TO_VA 1022 q, Loader.mkOs s' (Sched.set_task ts tid (Sched.mkTask (word (pm s) Q 1017) T ESP0 cur tid Sched.TASK_PRESENT 10))) /\
    wrote Q (task_words T cur tid) s s8 /\ slots_only R S [P] s8 s' /\ slot_free s' S t /\
    forall j, idx j -> j <> t -> word (pm s') S j = word (pm s8) S j.
Proof.
  intros Hr Ht Hq Hne HeT HeQ HQ HnQ HuT Huc Htid Ht32.
  assert (Hw : forall l s3 j v, wrote Q l s s3 -> idx j -> exists s4, wr (IX_TO_VA 1022 q + 4 * j) v s3 = Ok ((), s4) /\ wrote Q ((j, v) :: l) s s4)
    by (intros l s3 j v Hw3 Hj; by apply (wrote_step Q l s)).
  destruct (Hw _ _ 1018 T (wrote_nil Q s Hr) ltac:(unfold idx; lia)) as (s3 & H3 & W3).
  destruct (Hw _ _ 1019 ESP0 W3 ltac:(unfold idx; lia)) as (s4 & H4 & W4).
  destruct (Hw _ _ 1020 cur W4 ltac:(unfold idx; lia)) as (s5 & H5 & W5).
  destruct (Hw _ _ 1022 Sched.TASK_PRESENT W5 ltac:(unfold idx; lia)) as (s6 & H6 & W6).
  destruct (Hw _ _ 1023 10 W6 ltac:(unfold idx; lia)) as (s7 & H7 & W7).
  destruct (Hw _ _ 1021 tid W7 ltac:(unfold idx; lia)) as (s8 & H8 & W8). fold (task_words T cur tid) in W8.
  pose proof (w_ext _ _ _ _ W8) as E8. pose proof (ext_ready _ _ _ _ _ Hr E8) as Hr8.
  assert (Het8 : entry (word (pm s8) S t) P) by (apply (e_slot _ _ _ _ _ E8); [done|done|by intros ?%elem_of_nil]).
  destruct (close_slot R S s8 t P Hr8 Ht Het8) as (s9 & H9 & Hso9 & Hft9 & HwS9).
  exists s8, s9. split; [|done]. unfold Loader.fill_task. cbv zeta. rewrite task_addr by done.
  replace (IX_TO_VA 1022 q + 4 * 1017 + 4) with (IX_TO_VA 1022 q + 4 * 1018) by lia. replace (IX_TO_VA 1022 q + 4 * 1017 + 8) with (IX_TO_VA 1022 q + 4 * 1019) by lia.
  replace (IX_TO_VA 1022 q + 4 * 1017 + 12) with (IX_TO_VA 1022 q + 4 * 1020) by lia. replace (IX_TO_VA 1022 q + 4 * 1017 + 16) with (IX_TO_VA 1022 q + 4 * 1021) by lia.
  replace (IX_TO_VA 1022 q + 4 * 1017 + 20) with (IX_TO_VA 1022 q + 4 * 1022) by lia. replace (IX_TO_VA 1022 q + 4 * 1017 + 24) with (IX_TO_VA 1022 q + 4 * 1023) by lia.
  erewrite mem_bind by exact H3. erewrite mem_bind by exact H4. erewrite mem_bind by exact H5. erewrite mem_bind by exact H6. erewrite mem_bind by exact H7.
  rewrite tasks_bind. rewrite Htid. erewrite (K_bind_eq (Loader.lift_res (Ok tid))) by reflexivity. erewrite mem_bind by exact H8.
  erewrite mem_bind by (apply (wrote_rd Q (task_words T cur tid) s); try done; unfold idx; lia).
  change (upd (task_words T cur tid) 1021 _) with (wrap32 tid). rewrite wrap32_small by lia.
  erewrite K_bind_eq.
  2:{ unfold Loader.store_task. erewrite mem_bind by (by apply (rd_task_spec Q q (task_words T cur tid) s)). reflexivity. }
  cbn [upd task_words Z.eqb Pos.eqb]. erewrite mem_bind by exact H9. rewrite !wrap32_small by (done || lia). reflexivity.
Qed.

Lemma alloc_kstack_spec s ts t T RT PK Q k cur tid :
  ready R S s -> target R S t T RT s -> shares s T PK Q -> held s Q -> Q ∉ [cr3 s; R; S] -> idles (3 + k) s -> frees S 4 s ->
  u32 T -> u32 cur -> Sched.get_next_tid ts = Ok tid -> 0 <= tid < 32 ->
  exists q s', Loader.alloc_kstack_and_task T cur (Loader.mkOs s ts) =
      Ok (IX_TO_VA 1022 q, Loader.mkOs s' (Sched.set_task ts tid (Sched.mkTask (word (pm s) Q 1017) T ESP0 cur tid Sched.TASK_PRESENT 10))) /\
    idx q /\ entry (word (pm s') S q) Q /\ ext R S [PK] s s' /\ idles k s' /\ (forall n, frees S (3 + n) s -> frees S n s') /\
    forall p j, page p -> idx j -> held s p -> p <> S ->
      word (pm s') p j = if decide (p = Q) then upd (task_words T cur tid) j (word (pm s) Q j) else word (pm s) p j.
Proof.
  intros Hr Htg Hsh HhQ HnQ Hid Hf HuT Huc Htid Ht32. destruct (sh_Q _ _ _ _ Hsh) as [HeQ HQ].
  destruct (map_kstack_spec s t T RT PK Q k Hr Htg Hsh Hid Hf) as (t2 & q & s1 & s2 & H2 & Ht2 & Hq & Hft2 & E1 & E2 & K2 & He2 & HeQ2 & Hne & Hk2 & Hf2).
  pose proof (ext_ready _ _ _ _ _ (ext_ready _ _ _ _ _ Hr E1) E2) as Hr2. assert (HQS : Q <> S) by set_solver.
  assert (Hc2 : cr3 s2 = cr3 s) by (pose proof (e_cr3 _ _ _ _ _ E1); pose proof (e_cr3 _ _ _ _ _ E2); congruence).
  destruct (fill_task_spec s2 ts t2 q T Q T cur tid) as (s8 & s9 & H9 & W8 & Hso9 & Hft9 & HwS9); try done; [by rewrite Hc2|].
  pose proof (w_ext _ _ _ _ W8) as E8. exists q, s9. split.
  { unfold Loader.alloc_kstack_and_task. erewrite mem_bind by exact H2. cbv beta iota. rewrite H9. rewrite K2 by (done || (unfold idx; lia)). reflexivity. }
  assert (HwS : forall i, idx i -> word (pm s8) S i = word (pm s2) S i).
  { intros i Hi. destruct (ready_S _ _ _ Hr) as [HS _]. by rewrite (w_word _ _ _ _ W8), decide_False. }
  split; [done|]. split; [by rewrite HwS9, HwS|]. split; [|split; [|split]].
  - apply (ext_open_close [PK] s s1 s8 s9 t2 T); try done. eapply ext_weaken; [|exact (ext_trans _ _ _ _ _ _ _ E2 E8)]. set_solver.
  - eapply slots_only_idles; [exact Hso9|]. by eapply wrote_idles.
  - intros n Hn. apply (close_frees S s8 s9 t2); [done|done|]. apply (wrote_frees Q (task_words T cur tid) s2); [done|done|done|by apply Hf2].
  - intros p j Hp Hj Hh Hn. rewrite (so_word _ _ _ _ _ Hso9), (w_word _ _ _ _ W8), K2 by done. case_decide; [by subst|done].
Qed.

End Stack.
