(* ===== verification/LoaderImage.v ===== *)
(** * Theorems about loading a task: the pages of the program

    [utable] describes the page table of the program while it is filled: all
    its pages are new since the start of the load and different from each
    other.  [section_spec] joins the request for the pages of a section with
    the copy of its bytes. *)
From S2P Require Import Prelude CMem Malloc Common Frame Paging PagingThm PagingTmp PagingMap PagingRegion Sched Loader LoaderCopy LoaderSpace.
Import Paging Frame.

(** The frame in an entry. *)
Definition frame_of (m : mem) (PT j : Z) : Z := Z.land (word m PT j) PAGE_MASK.

Section Image.
Context (R S : Z) (KT : Z -> Z) (t T RT : Z).

(** The table [PT] holds pages that were idle in [s1]. *)
Record utable (s1 s : mm) (PT : Z) : Prop := {
  ut_PT : user_page PT /\ ~ held s1 PT /\ held s PT;
  ut_ent : forall j, idx j -> PAGE_ENTRY_SET (word (pm s) PT j) = true ->
    user_page (frame_of (pm s) PT j) /\ ~ held s1 (frame_of (pm s) PT j) /\ held s (frame_of (pm s) PT j) /\ frame_of (pm s) PT j <> PT;
  ut_inj : forall j j', idx j -> idx j' -> PAGE_ENTRY_SET (word (pm s) PT j) = true -> PAGE_ENTRY_SET (word (pm s) PT j') = true ->
    frame_of (pm s) PT j = frame_of (pm s) PT j' -> j = j';
}.

Lemma utable_same s1 s s' PT :
  utable s1 s PT -> (forall p, held s p -> held s' p) -> (forall j, idx j -> word (pm s') PT j = word (pm s) PT j) -> utable s1 s' PT.
Proof.
  intros [(H1 & H2 & H3) H4 H5] Hm Hw. split; [exact (conj H1 (conj H2 (Hm _ H3)))| |].
  - intros j Hj. unfold frame_of in *. rewrite Hw by done. intros Hs. destruct (H4 j Hj Hs) as (G1 & G2 & G3 & G4). exact (conj G1 (conj G2 (conj (Hm _ G3) G4))).
  - intros j j' Hj Hj'. unfold frame_of in *. rewrite !Hw by done. by auto.
Qed.

(** A directory entry that is absent or holds such a table. *)
Definition own_entry (s1 s : mm) (di : Z) : Prop :=
  PAGE_ENTRY_SET (word (pm s) T di) = false \/ exists PT, entry (word (pm s) T di) PT /\ utable s1 s PT.

Lemma own_first s1 s di : target R S t T RT s -> held s1 T -> ready R S s1 -> cr3 s = cr3 s1 -> own_entry s1 s di -> first_entry R S T s di.
Proof.
  intros Htg HT Hr Hc [H|(PT & He & [((HP & H16 & _) & Hn & Hh) _ _])]; [by left|]. right. exists PT. split_and!; try done; [lia|].
  rewrite Hc. intros Hin. repeat (apply elem_of_cons in Hin as [->|Hin]); [..|by apply elem_of_nil in Hin];
    apply Hn; [..|done]; apply (ready_page R S s1); try done; set_solver.
Qed.

Lemma utable_mapped s1 s s' PT di flag N :
  (forall p, page p -> held s1 p -> held s p) -> 0 <= flag < 4096 -> Z.odd flag = true -> own_entry s1 s di ->
  (forall P, entry (word (pm s) T di) P -> P = PT) -> mapped R S T RT [PT] PT di flag N s s' ->
  utable s1 s' PT /\ forall j, idx j -> j ∈ N -> PAGE_ENTRY_SET (word (pm s') PT j) = true.
Proof.
  intros Hm Hfl Hodd Hown Huniq [E (P1 & P2 & P3) Hdir Hfresh Hold Hnew Hinj Hkeep].
  assert (HPT : user_page PT /\ ~ held s1 PT).
  { destruct Hown as [H|(P & He & [(G1 & G2 & _) _ _])]; [destruct (Hfresh H) as [G1 G2]; split; [done|]; intros G; by apply G2, Hm|].
    by rewrite <- (Huniq P He). }
  (* the entries before *)
  assert (Htab : forall j, idx j -> PAGE_ENTRY_SET (tab T s PT di j) = true ->
     (tab T s PT di j = word (pm s) PT j /\ utable s1 s PT)).
  { intros j Hj Hs. unfold tab in *. destruct (PAGE_ENTRY_SET (word (pm s) T di)) eqn:Es; [|done]. split; [done|].
    destruct Hown as [?|(P & He & Hu)]; [congruence|]. by rewrite <- (Huniq P He). }
  assert (Hset : forall j, idx j -> PAGE_ENTRY_SET (word (pm s') PT j) = true ->
     (PAGE_ENTRY_SET (tab T s PT di j) = true /\ word (pm s') PT j = word (pm s) PT j /\ utable s1 s PT) \/
     (PAGE_ENTRY_SET (tab T s PT di j) = false /\ j ∈ N /\ newp s s' (frame_of (pm s') PT j) /\ frame_of (pm s') PT j <> PT)).
  { intros j Hj Hs. destruct (PAGE_ENTRY_SET (tab T s PT di j)) eqn:Et.
    - left. destruct (Htab j Hj Et) as [Ht Hu]. rewrite Hold, Ht by auto. done.
    - right. destruct (decide (j ∈ N)) as [Hin|Hin]; [|rewrite Hold in Hs by auto; congruence].
      destruct (Hnew j Hj Hin Et) as (f & Ef & Hf & Hne). assert (frame_of (pm s') PT j = f) as ->; [|done].
      unfold frame_of. rewrite Ef. apply entry_flags; [apply Hf|done|done]. }
  split.
  - split; [split_and!; by destruct HPT| |].
    + intros j Hj Hs. destruct (Hset j Hj Hs) as [(_ & Ew & Hu)|(_ & _ & (G1 & G2 & G3 & _) & G4)].
      * unfold frame_of. rewrite Ew in *. destruct (ut_ent _ _ _ Hu j Hj Hs) as (G1 & G2 & G3 & G4). split_and!; try done.
        apply (e_mono _ _ _ _ _ E); [apply G1|done].
      * split_and!; try done. intros G. apply G2, Hm; [apply G1|done].
    + intros j j' Hj Hj' Hs Hs' Ef. destruct (decide (j = j')) as [|Hne]; [done|exfalso].
      destruct (Hset j Hj Hs) as [(Et & Ew & Hu)|(Et & Hin & (F1 & F2 & F3 & _) & _)], (Hset j' Hj' Hs') as [(Et' & Ew' & Hu')|(Et' & Hin' & (F1' & F2' & F3' & _) & _)].
      * unfold frame_of in Ef. rewrite Ew, Ew' in *. by apply Hne, (ut_inj _ _ _ Hu).
      * unfold frame_of in Ef at 1. rewrite Ew in *. destruct (ut_ent _ _ _ Hu j Hj Hs) as (_ & _ & G3 & _). unfold frame_of at 1 in G3. by rewrite Ef in G3.
      * unfold frame_of in Ef at 2. rewrite Ew' in *. destruct (ut_ent _ _ _ Hu' j' Hj' Hs') as (_ & _ & G3 & _). unfold frame_of at 1 in G3. by rewrite <- Ef in G3.
      * by apply (Hinj j j').
  - intros j Hj Hin. destruct (PAGE_ENTRY_SET (tab T s PT di j)) eqn:Et; [by rewrite Hold by auto|].
    destruct (Hnew j Hj Hin Et) as (f & -> & Hf & _). apply entry_flags; [apply Hf|done|done].
Qed.

(** ** Pages of a section *)

(** The table index of the [i]th page from [vma] on. *)
Definition ti (vma i : Z) : Z := PAGE_TABLE_INDEX (vma + 4096 * i).

Lemma ti_inj vma i j :
  0 <= vma -> 0 <= i -> 0 <= j -> (vma + 4096 * i) / 4194304 = (vma + 4096 * j) / 4194304 -> ti vma i = ti vma j -> i = j.
Proof. unfold ti. rewrite !table_index_mod. intros Hv Hi Hj Hd E. Z.to_euclidean_division_equations. lia. Qed.

Lemma same_dir vma size i :
  0 <= vma -> 0 <= i -> 4096 * i <= size -> (vma + size) / 4194304 = vma / 4194304 -> (vma + 4096 * i) / 4194304 = vma / 4194304.
Proof. intros. Z.to_euclidean_division_equations. lia. Qed.

Lemma placed_utable s1 s PT vma size n :
  ready R S s1 -> kmap S KT s1 -> held s1 T -> page T -> T <> S -> held s1 S -> cr3 s = cr3 s1 -> utable s1 s PT ->
  u32 vma -> vma + size < 4294959104 -> (vma + size) / 4194304 = vma / 4194304 -> 4096 * Z.of_nat n < size + 4096 ->
  entry (word (pm s) T (vma / 4194304)) PT ->
  (forall i, 0 <= i < Z.of_nat n -> PAGE_ENTRY_SET (word (pm s) PT (ti vma i)) = true) ->
  placed R S KT s T PT vma n (fun i => frame_of (pm s) PT (ti vma i)).
Proof.
  intros Hr Hk HhT HT HTS HhS Hc Hu Hv Hvs Hd Hn He Hs. pose proof Hu as [((HP & _ & _) & HnP & _) Hent Hinj].
  assert (Hdir : forall i, 0 <= i < Z.of_nat n -> (vma + 4096 * i) / 4194304 = vma / 4194304) by (intros i Hi; apply (same_dir vma size); lia).
  split.
  - done.
  - split; [done|]. by intros ->.
  - lia.
  - intros i Hi. by rewrite dir_index_div, Hdir.
  - intros i Hi. split; [by apply Hs|done].
  - intros i Hi. destruct (Hent (ti vma i) (table_idx _) (Hs i Hi)) as (G1 & G2 & G3 & G4). split; [|split; [by intros E; rewrite E in G2|done]].
    eapply dest_cr3; [exact Hc|]. by apply fresh_dest.
  - intros i j Hi Hj E. apply (ti_inj vma); [lia|lia|lia|by rewrite !Hdir|]. apply Hinj; try apply table_idx; by auto.
Qed.

(** ** A section: its pages and their bytes *)

Definition pages (size : Z) : Z := (size + 4095) / 4096.

(** The state [s3] after [n] pages from [vma] on were loaded from the image at
    [img]; [s1] is the state before the first section. *)
Record loaded (s1 s s3 : mm) (PT vma n img : Z) : Prop := {
  lo_ext : ext R S [PT] s s3;
  lo_kmap : kmap S KT s3;
  lo_target : target R S t T RT s3;
  lo_dir : entry (word (pm s3) T (vma / 4194304)) PT;
  lo_uniq : forall P, entry (word (pm s) T (vma / 4194304)) P -> P = PT;
  lo_table : utable s1 s3 PT;
  lo_set : forall i, 0 <= i < n -> PAGE_ENTRY_SET (word (pm s3) PT (ti vma i)) = true;
  lo_old : forall j, idx j -> entry (word (pm s) T (vma / 4194304)) PT -> PAGE_ENTRY_SET (word (pm s) PT j) = true ->
    word (pm s3) PT j = word (pm s) PT j;
  lo_keep : forall q j, page q -> idx j -> held s q -> q <> S -> q <> PT -> (q <> T /\ q <> RT) \/ j <> vma / 4194304 ->
    (forall i, 0 <= i < n -> q <> frame_of (pm s3) PT (ti vma i)) -> word (pm s3) q j = word (pm s) q j;
  lo_bytes : forall i o, 0 <= i < n -> 0 <= o < 4096 -> load8 (pm s3) (frame_of (pm s3) PT (ti vma i) + o) = load8 (pm s) (img + 4096 * i + o);
}.

Section Section.
Context (s1 s : mm) (k : nat) (vma size flag img sf : Z).
Context (Hr1 : ready R S s1) (Hk1 : kmap S KT s1) (HT1 : held s1 T) (HR1 : held s1 RT).
Context (Hmono : forall p, page p -> held s1 p -> held s p) (Hc : cr3 s = cr3 s1).
Context (Hr : ready R S s) (Hk : kmap S KT s) (Htg : target R S t T RT s) (HKT : forall i, 0 <= i < 4 -> KT i <> T /\ KT i <> RT).
Context (Hal : vma mod 4096 = 0) (Hv : u32 vma) (Hsz : 0 <= size) (Hdi : vma / 4194304 < 1022) (Hsame : (vma + size) / 4194304 = vma / 4194304).
Context (Hown : own_entry s1 s (vma / 4194304)) (Hfl : 0 <= flag < 4096) (Hodd : Z.odd flag = true).
Context (Hid : idles (Z.to_nat (size / 4096 + 2) + k) s) (Hf : frees S 3 s).

(** The request alone; [low] pages are those in use before the load. *)
Lemma section_region :
  exists PT s2, request_region_vmap (Loader.rounds size) (IX_TO_VA 1022 t) vma size flag s = Ok (1, s2) /\
    mapped R S T RT [PT] PT (vma / 4194304) flag (tis (Z.to_nat (size / 4096 + 1)) vma) s s2 /\
    (forall P, entry (word (pm s) T (vma / 4194304)) P -> P = PT) /\ utable s1 s2 PT /\
    (forall i, 0 <= i < pages size -> PAGE_ENTRY_SET (word (pm s2) PT (ti vma i)) = true) /\
    target R S t T RT s2 /\ kmap S KT s2 /\ idles k s2 /\ forall n, frees S (1 + n) s -> frees S n s2.
Proof.
  assert (H0 : 0 <= vma / 4194304) by (apply Z.div_pos; lia).
  pose proof (region_spec R S t T RT s k (Loader.rounds size) vma size flag) as Hs. cbv zeta in Hs.
  assert (E1 : vma / 4096 / 1024 = vma / 4194304) by (rewrite Z.div_div by lia; done).
  assert (E2 : (vma + size) / 4096 = vma / 4096 + size / 4096) by (Z.to_euclidean_division_equations; lia).
  assert (E3 : 4096 * (vma / 4096) = vma) by (Z.to_euclidean_division_equations; lia).
  assert (E4 : (vma + size) / 4096 / 1024 = vma / 4194304) by (rewrite Z.div_div by lia; done).
  rewrite E1, E2, E3 in Hs. replace (vma / 4096 + size / 4096 - vma / 4096 + 1) with (size / 4096 + 1) in Hs by lia.
  replace (size / 4096 + 1 + 1) with (size / 4096 + 2) in Hs by lia.
  pose proof (Z.div_pos size 4096 Hsz ltac:(lia)) as Hq0.
  destruct Hs as (PT & s2 & H1 & Hm & Hk2 & Hfr); try done; try lia.
  { rewrite E2 in E4. pose proof (Z.div_mod (vma / 4096 + size / 4096) 1024 ltac:(lia)). pose proof (Z.mod_pos_bound (vma / 4096 + size / 4096) 1024 ltac:(lia)). lia. }
  { by apply (own_first s1). }
  { intros q Hq. left. apply Z.le_antisymm; [rewrite <- E4, E2|rewrite <- E1]; apply Z.div_le_mono; lia. }
  { unfold Loader.rounds, FRAME_SIZE. lia. }
  destruct (tg_T _ _ _ _ _ _ Htg) as (HT & HhT & HnT). assert (HTS : T <> S) by set_solver. destruct (tg_RT _ _ _ _ _ _ Htg) as (HRT & _ & HhR & HnR).
  pose proof (m_ext _ _ _ _ _ _ _ _ _ _ _ Hm) as E. pose proof (m_PT _ _ _ _ _ _ _ _ _ _ _ Hm) as (P1 & P2 & P3). assert (HTP : T <> PT) by set_solver.
  assert (Hix : idx (vma / 4194304)) by (unfold idx; lia).
  assert (Huniq : forall P, entry (word (pm s) T (vma / 4194304)) P -> P = PT).
  { intros P He. pose proof (m_dir _ _ _ _ _ _ _ _ _ _ _ Hm) as Hd. rewrite (m_keep _ _ _ _ _ _ _ _ _ _ _ Hm) in Hd; try done; [destruct He, Hd; congruence|].
    left. apply He. }
  destruct (utable_mapped s1 s s2 PT (vma / 4194304) flag _ Hmono Hfl Hodd Hown Huniq Hm) as [Hut Hset].
  assert (HnP : ~ held s1 PT) by apply (ut_PT _ _ _ Hut).
  assert (Hkeep : forall q j, page q -> idx j -> held s1 q -> q <> S -> q <> T -> q <> RT -> word (pm s2) q j = word (pm s) q j).
  { intros q j Hq Hj Hh M1 M2 M3. apply (m_keep _ _ _ _ _ _ _ _ _ _ _ Hm); try done; [by apply Hmono|by intros ->|by auto]. }
  exists PT, s2. split; [exact H1|]. split; [exact Hm|]. split; [exact Huniq|]. split; [exact Hut|]. split; [|split; [|split; [|done]]].
  - intros i Hi. apply Hset; [apply table_idx|]. apply elem_of_tis. exists i. split; [|done]. unfold pages in Hi. Z.to_euclidean_division_equations. lia.
  - eapply target_ext; [exact Hr|exact Htg|exact E|set_solver|]. apply (m_keep _ _ _ _ _ _ _ _ _ _ _ Hm); try done; right; right; lia.
  - destruct (ready_page R S s1 (cr3 s1) Hr1 ltac:(set_solver)) as [HD HhD]. rewrite <- Hc in HD, HhD.
    eapply kmap_same; [exact Hr|exact Hk|exact E|intros j Hj; apply Hkeep; try done; [apply Hr|set_solver|set_solver]|].
    intros i j Hi Hj. destruct (Hk1 i Hi) as (G1 & G2 & G3 & _). destruct (HKT i Hi). by apply Hkeep.
Qed.

Context (Hsf0 : 0 <= sf) (Hsf : sf + 4 <= 16777216) (Hcs : clear_of S sf 4) (Esz : load32 (pm s) sf = size).
Context (Hi0 : 0 <= img) (Hhi : img + 4096 * pages size <= 16777216) (Hcl : clear_of S img (4096 * pages size)).
Context (HlowT : 16777216 <= T) (HlowR : 16777216 <= RT).

Lemma section_spec :
  exists PT s2 s3, request_region_vmap (Loader.rounds size) (IX_TO_VA 1022 t) vma size flag s = Ok (1, s2) /\
    (forall a, 0 <= a < 16777216 -> page_of a <> S -> load8 (pm s2) a = load8 (pm s) a) /\ ready R S s2 /\ kmap S KT s2 /\
    Loader.copy_loop (Loader.rounds size) (IX_TO_VA 1022 t) (KERNEL_V_START + sf) (KERNEL_V_START + img) (KERNEL_V_START + img) vma s2 = Ok ((), s3) /\
    loaded s1 s s3 PT vma (pages size) img /\ idles k s3 /\ forall n, frees S (1 + n) s -> frees S n s3.
Proof.
  assert (H0 : 0 <= vma / 4194304) by (apply Z.div_pos; lia).
  destruct section_region as (PT & s2 & H2 & Hm & Huniq & Hut & Hset & Htg2 & Hk2 & Hid2 & Hf2). exists PT, s2.
  pose proof (m_ext _ _ _ _ _ _ _ _ _ _ _ Hm) as E2. pose proof (ext_ready _ _ _ _ _ Hr E2) as Hr2. destruct (ready_S _ _ _ Hr1) as [HS HhS].
  destruct (tg_T _ _ _ _ _ _ Htg) as (HT & HhT & HnT). assert (HTS : T <> S) by set_solver.
  pose proof (ut_PT _ _ _ Hut) as ((P1 & P16 & _) & HnP & HhP). assert (HTP : T <> PT) by (by intros <-).
  assert (Hlow : forall a, 0 <= a < 16777216 -> page_of a <> S -> load8 (pm s2) a = load8 (pm s) a).
  { intros a Ha Hn. apply keep_byte; [done|]. intros j Hj. destruct (page_of_page a Ha) as (G1 & G2 & G3). pose proof (Z.mod_pos_bound a 4096 ltac:(lia)).
    apply (m_keep _ _ _ _ _ _ _ _ _ _ _ Hm); try done; [lia|]. right. left. lia. }
  assert (Hn : 0 <= pages size /\ size <= 4096 * pages size < size + 4096) by (unfold pages; Z.to_euclidean_division_equations; lia).
  assert (Hpl : placed R S KT s2 T PT vma (Z.to_nat (pages size)) (fun i => frame_of (pm s2) PT (ti vma i))).
  { apply (placed_utable s1 s2 PT vma size); try done; try lia.
    - by rewrite (e_cr3 _ _ _ _ _ E2).
    - pose proof (Z.div_mod (vma + size) 4194304 ltac:(lia)). pose proof (Z.mod_pos_bound (vma + size) 4194304 ltac:(lia)). lia.
    - apply (m_dir _ _ _ _ _ _ _ _ _ _ _ Hm).
    - intros i Hi. apply Hset. lia. }
  destruct (tg_slot _ _ _ _ _ _ Htg2) as [Ht He2].
  destruct (page_copy_loop_spec R S KT (Z.to_nat (pages size)) (Loader.rounds size) s2 t T PT vma (fun i => frame_of (pm s2) PT (ti vma i)) img 0 size sf)
    as (s3 & H3 & E3 & F3 & Hf3 & Hw3 & Hb3); try done; try lia.
  { rewrite <- Esz. apply load32_same. intros b Hb. apply Hlow; [lia|]. apply (clear_page S sf 4); done. }
  { rewrite Z.add_0_r. by rewrite Z2Nat.id by lia. }
  { unfold Loader.rounds, FRAME_SIZE, pages. Z.to_euclidean_division_equations; lia. }
  { apply Hf2. eapply frees_le; [|exact Hf]. lia. }
  rewrite Z2Nat.id in Hw3, Hb3 by lia. rewrite !Z.add_0_r in *. exists s3. split; [exact H2|]. split; [exact Hlow|]. split; [exact Hr2|]. split; [exact Hk2|].
  split; [exact H3|].
  assert (Hdest : forall i, 0 <= i < pages size -> ~ held s1 (frame_of (pm s2) PT (ti vma i)) /\ frame_of (pm s2) PT (ti vma i) <> PT).
  { intros i Hi. destruct (ut_ent _ _ _ Hut (ti vma i) (table_idx _) (Hset i Hi)) as (_ & G2 & _ & G4). done. }
  assert (HwP : forall j, idx j -> word (pm s3) PT j = word (pm s2) PT j).
  { intros j Hj. apply Hw3; try done; [by intros ->|]. intros i Hi E. by apply (Hdest i Hi). }
  assert (HwH : forall q j, page q -> idx j -> held s1 q -> q <> S -> word (pm s3) q j = word (pm s2) q j).
  { intros q j Hq Hj Hh Hn'. apply Hw3; try done. intros i Hi E. destruct (Hdest i Hi) as [G _]. apply G. by rewrite <- E. }
  assert (Hfo : forall i, frame_of (pm s3) PT (ti vma i) = frame_of (pm s2) PT (ti vma i)) by (intros i; unfold frame_of; by rewrite HwP by apply table_idx).
  split; [|split; [eapply at_least_mono; [reflexivity| |exact Hid2]; intros g [G1 G2]; split; [done|by rewrite F3]|by auto]].
  split.
  - eapply ext_weaken; [|exact (ext_trans _ _ _ _ _ _ _ E2 E3)]. set_solver.
  - destruct (ready_page R S s1 (cr3 s1) Hr1 ltac:(set_solver)) as [HD HhD].
    eapply kmap_same; [exact Hr2|exact Hk2|exact E3|rewrite (e_cr3 _ _ _ _ _ E2), Hc; intros j Hj; apply HwH; try done; apply Hr1|].
    intros i j Hi Hj. destruct (Hk1 i Hi) as (G1 & G2 & G3 & _). by apply HwH.
  - eapply target_ext; [exact Hr2|exact Htg2|exact E3|set_solver|]. apply HwH; try done.
  - rewrite HwH; [apply (m_dir _ _ _ _ _ _ _ _ _ _ _ Hm)|done|unfold idx; lia|done|done].
  - done.
  - eapply utable_same; [exact Hut|intros p; unfold held; by rewrite F3|done].
  - intros i Hi. rewrite HwP by apply table_idx. by apply Hset.
  - intros j Hj He Hs. rewrite HwP by done. rewrite (m_old _ _ _ _ _ _ _ _ _ _ _ Hm j Hj); unfold tab; rewrite (proj1 He); auto.
  - intros q j Hq Hj Hh M1 M2 M3 M4. rewrite Hw3; try done; [|intros i Hi; rewrite <- Hfo; by apply M4].
    apply (m_keep _ _ _ _ _ _ _ _ _ _ _ Hm); try done. by right.
  - intros i o Hi Ho. rewrite Hfo, Hb3 by done. apply Hlow; [lia|]. apply (clear_page S img (4096 * pages size)); [done|done|lia].
Qed.

End Section.

End Image.
