(* ===== verification/LoaderProgram.v ===== *)
(** * Theorems about loading a task: the whole program

    [create_task_address_space] on an image in the kernel's memory: the header
    is read and checked, the text and data sections and the user stack get
    their pages, and the sections their bytes. *)
From S2P Require Import Prelude CMem Malloc Common Frame Paging PagingThm PagingTmp PagingMap PagingRegion Sched Loader LoaderCopy LoaderSpace LoaderStack LoaderImage.
Import Paging Frame.

(** ** The header *)

Record TsExHeader := mkHeader {
  lma_text : Z;
  vma_text : Z;
  text_size : Z;
  lma_data : Z;
  vma_data : Z;
  data_size : Z;
}.

(** The header [h] lies at [base]. *)
Record header_at (m : mem) (base : Z) (h : TsExHeader) : Prop := {
  h_magic : load32 m (base + Loader.hd_magic) = Loader.MAGIC;
  h_lma_text : load32 m (base + Loader.hd_lma_text) = lma_text h;
  h_vma_text : load32 m (base + Loader.hd_vma_text) = vma_text h;
  h_text_size : load32 m (base + Loader.hd_text_size) = text_size h;
  h_lma_data : load32 m (base + Loader.hd_lma_data) = lma_data h;
  h_vma_data : load32 m (base + Loader.hd_vma_data) = vma_data h;
  h_data_size : load32 m (base + Loader.hd_data_size) = data_size h;
}.

(** What the loader needs of a program: page-aligned sections, one behind the
    other in the same 4 MiB below the user stack's, and an image below 16 MiB
    that does not meet the page [S] of the temporary slots. *)
Record program_ok (S base : Z) (h : TsExHeader) : Prop := {
  po_base : 0 <= base /\ base + 28 <= 16777216 /\ clear_of S base 28;
  po_text : vma_text h mod 4096 = 0 /\ 0 <= vma_text h /\ 0 <= text_size h /\ vma_text h / 4194304 < 767;
  po_data : vma_data h mod 4096 = 0 /\ vma_text h + text_size h <= vma_data h /\ 0 <= data_size h;
  po_same : (vma_data h + data_size h) / 4194304 = vma_text h / 4194304;
  po_text_img : 0 <= lma_text h /\ base + lma_text h + 4096 * pages (text_size h) <= 16777216 /\
    clear_of S (base + lma_text h) (4096 * pages (text_size h));
  po_data_img : 0 <= lma_data h /\ base + lma_data h + 4096 * pages (data_size h) <= 16777216 /\
    clear_of S (base + lma_data h) (4096 * pages (data_size h));
}.

(** The bytes of a section are mapped at its address. *)
Definition section_mapped (m : mem) (T vma size : Z) (m0 : mem) (img : Z) : Prop :=
  forall o, 0 <= o < size -> exists p, walk m T (vma + o) = Some p /\ load8 m p = load8 m0 (img + o).

(** A page that was idle in [s0] and is in use in [s]. *)
Definition taken (s0 s : mm) (p : Z) : Prop := user_page p /\ ~ held s0 p /\ held s p.

Lemma taken_mono s0 s0' s s' p :
  (forall p, page p -> held s0' p -> held s0 p) -> (forall p, page p -> held s p -> held s' p) -> taken s0 s p -> taken s0' s' p.
Proof. intros H1 H2 (Hu & Hn & Hh). assert (page p) by apply Hu. split; [done|]. split; [intros G; by apply Hn, H1|by apply H2]. Qed.

(** The table of a directory entry, when there is one, holds pages that were
    idle in [s0] and are in use in [s]. *)
Definition own_dir (s0 s : mm) (m : mem) (T j : Z) : Prop :=
  PAGE_ENTRY_SET (word m T j) = false \/
  exists PT, entry (word m T j) PT /\ forall k, idx k -> PAGE_ENTRY_SET (word m PT k) = true -> taken s0 s (frame_of m PT k).

Lemma own_walk s0 s m T va p :
  page T -> own_dir s0 s m T (PAGE_DIR_INDEX va) -> walk m T va = Some p -> taken s0 s (page_of p).
Proof.
  intros HT Hown Hw. unfold walk in Hw. rewrite (page_mask T HT) in Hw. fold (word m T (PAGE_DIR_INDEX va)) in Hw.
  destruct Hown as [Hun|(PT & [Hs <-] & Hent)]; [by rewrite Hun in Hw|]. rewrite Hs in Hw. cbn [negb] in Hw.
  set (PT := Z.land (word m T (PAGE_DIR_INDEX va)) PAGE_MASK) in *. fold (word m PT (PAGE_TABLE_INDEX va)) in Hw.
  destruct (PAGE_ENTRY_SET (word m PT (PAGE_TABLE_INDEX va))) eqn:Es; [|done]. cbn [negb] in Hw. injection Hw as <-.
  pose proof (Hent _ (table_idx va) Es) as Hu. fold (frame_of m PT (PAGE_TABLE_INDEX va)).
  replace (page_of (frame_of m PT (PAGE_TABLE_INDEX va) + PAGE_OFFSET va)) with (frame_of m PT (PAGE_TABLE_INDEX va)); [done|].
  destruct Hu as (((_ & _ & ?) & _) & _). rewrite offset_mod. unfold page_of. Z.to_euclidean_division_equations. lia.
Qed.

Lemma utable_own s0 s1 s s' m T j PT :
  utable s1 s PT -> entry (word m T j) PT -> (forall k, idx k -> word m PT k = word (pm s) PT k) -> (forall p, page p -> held s0 p -> held s1 p) ->
  (forall p, page p -> held s p -> held s' p) -> own_dir s0 s' m T j.
Proof.
  intros Hu He Hw Hm Hm'. right. exists PT. split; [done|]. intros k Hk. unfold frame_of. rewrite Hw by done. intros Hs.
  destruct (ut_ent _ _ _ Hu k Hk Hs) as (G1 & G2 & G3 & _). by apply (taken_mono s1 s0 s s').
Qed.

Lemma walk_section m T PT vma size o :
  page T -> 0 <= vma -> vma mod 4096 = 0 -> (vma + size) / 4194304 = vma / 4194304 -> entry (word m T (vma / 4194304)) PT ->
  0 <= o < size -> PAGE_ENTRY_SET (word m PT (ti vma (o / 4096))) = true ->
  walk m T (vma + o) = Some (frame_of m PT (ti vma (o / 4096)) + o mod 4096).
Proof.
  intros HT Hv Ha Hd He Ho Hs. assert (E1 : PAGE_DIR_INDEX (vma + o) = vma / 4194304) by (rewrite dir_index_div; Z.to_euclidean_division_equations; lia).
  assert (E2 : PAGE_TABLE_INDEX (vma + o) = ti vma (o / 4096)).
  { unfold ti. rewrite !table_index_mod. f_equal. Z.to_euclidean_division_equations. lia. }
  rewrite (walk_entries _ _ PT (frame_of m PT (ti vma (o / 4096)))); [|done|by rewrite E1|rewrite E2; by split].
  rewrite offset_mod. do 2 f_equal. Z.to_euclidean_division_equations. lia.
Qed.

Section Program.
Context (R S : Z) (KT : Z -> Z) (T RT : Z).

(** Below 16 MiB only slots change. *)
Definition lows (s s' : mm) : Prop := forall a, 0 <= a < 16777216 -> page_of a <> S -> load8 (pm s') a = load8 (pm s) a.

Lemma lows_word s s' a : page S -> lows s s' -> 0 <= a -> a + 4 <= 16777216 -> clear_of S a 4 -> load32 (pm s') a = load32 (pm s) a.
Proof. intros HS Hl H0 H1 Hc. apply load32_same. intros b Hb. apply Hl; [lia|]. by apply (clear_page S a 4). Qed.

Lemma lows_keep s s' :
  (forall q j, page q -> idx j -> q < 16777216 -> q <> S -> word (pm s') q j = word (pm s) q j) -> lows s s'.
Proof.
  intros Hw a Ha Hn. apply keep_byte; [done|]. intros j Hj. destruct (page_of_page a Ha) as (Hp & E & _). pose proof (Z.mod_pos_bound a 4096 ltac:(lia)).
  apply Hw; [done|done|lia|done].
Qed.

Lemma header_lows s s' base h : page S -> lows s s' -> 0 <= base -> base + 28 <= 16777216 -> clear_of S base 28 -> header_at (pm s) base h -> header_at (pm s') base h.
Proof.
  intros HS Hl H0 H1 Hc [].
  assert (Hw : forall d, 0 <= d <= 24 -> load32 (pm s') (base + d) = load32 (pm s) (base + d)).
  { intros d Hd. apply lows_word; [done|done|lia|lia|]. unfold clear_of in *. lia. }
  split; rewrite Hw; done.
Qed.

Lemma loaded_low t s1 s s3 PT vma n img : 16777216 <= T -> 16777216 <= RT -> loaded R S KT t T RT s1 s s3 PT vma n img -> lows s s3.
Proof.
  intros HT HR Hl. apply lows_keep. intros q j Hq Hj Hlt Hn. pose proof (lo_table _ _ _ _ _ _ _ _ _ _ _ _ _ Hl) as Hut.
  pose proof (ut_PT _ _ _ Hut) as ((_ & H16 & _) & _). apply (lo_keep _ _ _ _ _ _ _ _ _ _ _ _ _ Hl); [done|done|by left|done|lia|left; lia|].
  intros i Hi ->. destruct (ut_ent _ _ _ Hut (ti vma i) (table_idx _)) as ((_ & ? & _) & _); [by apply (lo_set _ _ _ _ _ _ _ _ _ _ _ _ _ Hl)|lia].
Qed.

(** ** The user stack *)

(** The request for the page below [KERNEL_V_START] also reaches the first
    kernel entry of the directory, which is present: its page is entered in
    the stack's table. *)
Lemma request_ustack s t k :
  ready R S s -> target R S t T RT s -> PAGE_ENTRY_SET (word (pm s) T 767) = false -> PAGE_ENTRY_SET (word (pm s) T 768) = true ->
  idles (3 + k) s -> frees S 3 s ->
  exists PS FS s', request_region_vmap (Loader.rounds FRAME_SIZE) (IX_TO_VA 1022 t) Sched.USTACK_FRAME FRAME_SIZE PAGE_FLG_USR s = Ok (1, s') /\
    ext R S [PS] s s' /\ page PS /\ ~ held s PS /\ held s' PS /\ PS <> T /\ entry (word (pm s') T 767) PS /\ entry (word (pm s') PS 1023) FS /\
    newp s s' FS /\ utable s s' PS /\
    (forall q j, page q -> idx j -> held s q -> q <> S -> (q <> T /\ q <> RT) \/ j <> 767 -> word (pm s') q j = word (pm s) q j) /\
    idles k s' /\ forall n, frees S (1 + n) s -> frees S n s'.
Proof.
  intros Hr Htg H767 H768 Hid Hf. pose proof (region_spec R S t T RT s k (Loader.rounds FRAME_SIZE) Sched.USTACK_FRAME FRAME_SIZE PAGE_FLG_USR) as Hs. cbv zeta in Hs.
  change (Sched.USTACK_FRAME / 4096) with 786431 in Hs. change ((Sched.USTACK_FRAME + FRAME_SIZE) / 4096) with 786432 in Hs.
  change (Z.to_nat (786432 - 786431 + 1)) with 2%nat in Hs. change (tis 2 (4096 * 786431)) with [1023; 0] in Hs. change (786431 / 1024) with 767 in Hs.
  change (Z.to_nat (786432 - 786431 + 1 + 1)) with 3%nat in Hs. change (Z.of_nat (Loader.rounds FRAME_SIZE)) with 5 in Hs.
  assert (Hu : u32 Sched.USTACK_FRAME) by (vm_compute; split; congruence). assert (Hfl : 0 <= PAGE_FLG_USR < 4096) by (vm_compute; split; congruence).
  destruct Hs as (PS & s' & H1 & Hm & Hk & Hfr); [done|done|done|unfold FRAME_SIZE; lia|lia|lia|by left| |done|done|lia|done|done|].
  { intros q Hq. replace q with 786432 by lia. by right. }
  destruct (utable_mapped R S T RT s s s' PS 767 PAGE_FLG_USR [1023; 0]) as [Hut _]; try done; [by left|intros P [HP _]; congruence|].
  destruct Hm as [E (P1 & P2 & P3) Hdir Hfresh Hold Hnew Hinj Hkeep]. destruct (Hfresh H767) as [_ HnP].
  destruct (Hnew 1023) as (FS & EF & HF & HFP); [unfold idx; lia|by left|unfold tab; by rewrite H767|].
  exists PS, FS, s'. split; [exact H1|]. split; [exact E|]. split; [exact P1|]. split; [exact HnP|]. split; [exact P2|]. split; [set_solver|]. split; [exact Hdir|].
  split; [rewrite EF; apply entry_flags; [apply HF|done|done]|]. split; [exact HF|]. split; [exact Hut|]. split; [|done].
  intros q j Hq Hj Hh Hn Hc. apply Hkeep; try done; [by intros ->|by right].
Qed.

(** ** Both sections *)

(** The pages of one section in the program's table [PT]. *)
Definition filled_from (s1 s : mm) (PT vma size img : Z) : Prop :=
  forall i, 0 <= i < pages size -> PAGE_ENTRY_SET (word (pm s) PT (ti vma i)) = true /\
    forall o, 0 <= o < 4096 -> load8 (pm s) (frame_of (pm s) PT (ti vma i) + o) = load8 (pm s1) (img + 4096 * i + o).

Record program_in (s1 s : mm) (PT base : Z) (h : TsExHeader) : Prop := {
  pi_dir : entry (word (pm s) T (vma_text h / 4194304)) PT;
  pi_table : utable s1 s PT;
  pi_text : filled_from s1 s PT (vma_text h) (text_size h) (base + lma_text h);
  pi_data : filled_from s1 s PT (vma_data h) (data_size h) (base + lma_data h);
  pi_keep : forall q j, page q -> idx j -> held s1 q -> q <> S -> (q <> T /\ q <> RT) \/ j <> vma_text h / 4194304 -> word (pm s) q j = word (pm s1) q j;
}.

Lemma data_dir h base : program_ok S base h -> vma_data h / 4194304 = vma_text h / 4194304 /\ (vma_text h + text_size h) / 4194304 = vma_text h / 4194304.
Proof. intros [_ (? & ? & ? & ?) (? & ? & ?) ? _ _]. Z.to_euclidean_division_equations. lia. Qed.

(** Different pages of the two sections have different table indices. *)
Lemma ti_apart h base i i' :
  program_ok S base h -> 0 <= i < pages (text_size h) -> 0 <= i' < pages (data_size h) -> ti (vma_text h) i <> ti (vma_data h) i'.
Proof.
  intros [_ (? & ? & ? & ?) (? & ? & ?) ? _ _] Hi Hi'. unfold ti, pages in *. rewrite !table_index_mod. Z.to_euclidean_division_equations. lia.
Qed.

Lemma loaded_program t s1 sA sB PT PT' base h :
  program_ok S base h -> 16777216 <= T -> 16777216 <= RT -> held s1 T -> held s1 RT -> held s1 S -> page S ->
  loaded R S KT t T RT s1 s1 sA PT (vma_text h) (pages (text_size h)) (base + lma_text h) ->
  loaded R S KT t T RT s1 sA sB PT' (vma_data h) (pages (data_size h)) (base + lma_data h) ->
  program_in s1 sB PT base h.
Proof.
  intros Hok HT HR HhT HhR HhS HS HA HB. destruct (data_dir h base Hok) as [Ed Et].
  pose proof (lo_dir _ _ _ _ _ _ _ _ _ _ _ _ _ HA) as HdA. assert (PT' = PT) as ->.
  { symmetry. apply (lo_uniq _ _ _ _ _ _ _ _ _ _ _ _ _ HB). by rewrite Ed. }
  pose proof (lo_table _ _ _ _ _ _ _ _ _ _ _ _ _ HA) as UA. pose proof (lo_table _ _ _ _ _ _ _ _ _ _ _ _ _ HB) as UB.
  assert (Hset : forall i, 0 <= i < pages (text_size h) -> word (pm sB) PT (ti (vma_text h) i) = word (pm sA) PT (ti (vma_text h) i)).
  { intros i Hi. apply (lo_old _ _ _ _ _ _ _ _ _ _ _ _ _ HB); [apply table_idx|by rewrite Ed|by apply (lo_set _ _ _ _ _ _ _ _ _ _ _ _ _ HA)]. }
  pose proof (loaded_low t s1 s1 sA PT _ _ _ HT HR HA) as LA. split.
  - rewrite <- Ed. apply (lo_dir _ _ _ _ _ _ _ _ _ _ _ _ _ HB).
  - exact UB.
  - intros i Hi. rewrite Hset by done. pose proof (lo_set _ _ _ _ _ _ _ _ _ _ _ _ _ HA i Hi) as Hs. split; [done|]. intros o Ho.
    assert (EF : frame_of (pm sB) PT (ti (vma_text h) i) = frame_of (pm sA) PT (ti (vma_text h) i)) by (unfold frame_of; by rewrite Hset).
    rewrite EF, <- (lo_bytes _ _ _ _ _ _ _ _ _ _ _ _ _ HA) by done. apply byte_of_word; [done|]. intros j Hj.
    destruct (ut_ent _ _ _ UA (ti (vma_text h) i) (table_idx _) Hs) as ((G1 & _ & _) & G2 & G3 & G4).
    apply (lo_keep _ _ _ _ _ _ _ _ _ _ _ _ _ HB); try done; [by intros E; rewrite E in G2|left; split; intros E; rewrite E in G2; done|].
    intros i' Hi' E. apply (ti_apart h base i i' Hok Hi Hi'). apply (ut_inj _ _ _ UB); try apply table_idx; [by rewrite Hset|
      by apply (lo_set _ _ _ _ _ _ _ _ _ _ _ _ _ HB)|]. by rewrite EF.
  - intros i Hi. split; [by apply (lo_set _ _ _ _ _ _ _ _ _ _ _ _ _ HB)|]. intros o Ho. rewrite (lo_bytes _ _ _ _ _ _ _ _ _ _ _ _ _ HB) by done.
    destruct (po_data_img _ _ _ Hok) as (D1 & D2 & D3). destruct (po_base _ _ _ Hok) as (B1 & _). apply LA; [lia|].
    apply (clear_page S (base + lma_data h) (4096 * pages (data_size h))); [done|done|lia].
  - intros q j Hq Hj Hh Hn Hc. pose proof (ut_PT _ _ _ UA) as (_ & HnP & _). assert (q <> PT) by (by intros ->).
    rewrite (lo_keep _ _ _ _ _ _ _ _ _ _ _ _ _ HB), (lo_keep _ _ _ _ _ _ _ _ _ _ _ _ _ HA); try done.
    + intros i Hi ->. destruct (ut_ent _ _ _ UA (ti (vma_text h) i) (table_idx _)) as (_ & ? & _); [by apply (lo_set _ _ _ _ _ _ _ _ _ _ _ _ _ HA)|done].
    + by apply (e_mono _ _ _ _ _ (lo_ext _ _ _ _ _ _ _ _ _ _ _ _ _ HA)).
    + by rewrite Ed.
    + intros i Hi ->. destruct (ut_ent _ _ _ UB (ti (vma_data h) i) (table_idx _)) as (_ & ? & _); [by apply (lo_set _ _ _ _ _ _ _ _ _ _ _ _ _ HB)|done].
Qed.

(** The pages of the new address space, seen from a later memory: those of the
    directory [T] and those that were idle in [s1]. *)
Definition agrees (s1 : mm) (m m' : mem) : Prop :=
  forall q j, page q -> idx j -> q <> S -> q = T \/ ~ held s1 q -> word m' q j = word m q j.

Lemma filled_mapped s1 s m' PT vma size img :
  page T -> T <> S -> held s1 S -> utable s1 s PT -> entry (word (pm s) T (vma / 4194304)) PT -> vma / 4194304 < 767 ->
  0 <= vma -> vma mod 4096 = 0 -> (vma + size) / 4194304 = vma / 4194304 -> 
  (forall q j, page q -> idx j -> q <> S -> q = T /\ j <> 767 \/ ~ held s1 q /\ held s q -> word m' q j = word (pm s) q j) ->
  filled_from s1 s PT vma size img -> section_mapped m' T vma size (pm s1) img.
Proof.
  intros HT HTS HhS [((HP & _) & HnP & HhP) Hent _] Hdir Hdi Hv Ha Hd Hkeep Hfill o Ho.
  assert (H0 : 0 <= vma / 4194304) by (apply Z.div_pos; lia).
  assert (Hi : 0 <= o / 4096 < pages size) by (unfold pages; Z.to_euclidean_division_equations; lia). destruct (Hfill _ Hi) as [Hs Hb].
  assert (HwP : forall j, idx j -> word m' PT j = word (pm s) PT j) by (intros j Hj; apply Hkeep; try done; [by intros ->|by right]).
  destruct (Hent (ti vma (o / 4096)) (table_idx _) Hs) as ((G1 & _) & G2 & G3 & _).
  assert (EF : frame_of m' PT (ti vma (o / 4096)) = frame_of (pm s) PT (ti vma (o / 4096))) by (unfold frame_of; by rewrite HwP by apply table_idx).
  exists (frame_of (pm s) PT (ti vma (o / 4096)) + o mod 4096). split.
  - rewrite <- EF. apply walk_section with size; try done; [rewrite Hkeep; [done|done|unfold idx; lia|done|left; lia]|by rewrite HwP by apply table_idx].
  - pose proof (Z.mod_pos_bound o 4096 ltac:(lia)). rewrite (byte_of_word (pm s)); [|done|].
    + rewrite Hb by done. f_equal. pose proof (Z.div_mod o 4096 ltac:(lia)). lia.
    + intros j Hj. apply Hkeep; try done; [by intros E; rewrite E in G2|by right].
Qed.

(** ** The run of both sections *)

Lemma rd_header s base d v :
  ready R S s -> kmap S KT s -> 0 <= base -> base + 28 <= 16777216 -> 0 <= d <= 24 -> load32 (pm s) (base + d) = v ->
  rd (KERNEL_V_START + base + d) s = Ok (v, s).
Proof. intros Hr Hk H0 H1 Hd <-. rewrite <- Z.add_assoc. apply (rd_kernel R S KT); [done|done|lia]. Qed.

Lemma PAGE_FLG_USR_odd : 0 <= PAGE_FLG_USR < 4096 /\ Z.odd PAGE_FLG_USR = true.
Proof. split; [|done]. vm_compute. split; congruence. Qed.

Lemma sections_spec s1 t k base h :
  ready R S s1 -> kmap S KT s1 -> target R S t T RT s1 -> 16777216 <= T -> 16777216 <= RT ->
  (forall i, 0 <= i < 4 -> KT i <> T /\ KT i <> RT) -> header_at (pm s1) base h -> program_ok S base h ->
  PAGE_ENTRY_SET (word (pm s1) T (vma_text h / 4194304)) = false ->
  idles (Z.to_nat (text_size h / 4096 + 2) + (Z.to_nat (data_size h / 4096 + 2) + k)) s1 -> frees S 4 s1 ->
  exists PT PT' s2 sA s4 sB,
    request_region_vmap (Loader.rounds (text_size h)) (IX_TO_VA 1022 t) (vma_text h) (text_size h) PAGE_FLG_USR s1 = Ok (1, s2) /\
    Loader.copy_loop (Loader.rounds (text_size h)) (IX_TO_VA 1022 t) (KERNEL_V_START + (base + 12)) (KERNEL_V_START + (base + lma_text h))
      (KERNEL_V_START + (base + lma_text h)) (vma_text h) s2 = Ok ((), sA) /\
    request_region_vmap (Loader.rounds (data_size h)) (IX_TO_VA 1022 t) (vma_data h) (data_size h) PAGE_FLG_USR sA = Ok (1, s4) /\
    Loader.copy_loop (Loader.rounds (data_size h)) (IX_TO_VA 1022 t) (KERNEL_V_START + (base + 24)) (KERNEL_V_START + (base + lma_data h))
      (KERNEL_V_START + (base + lma_data h)) (vma_data h) s4 = Ok ((), sB) /\
    Forall (fun s => ready R S s /\ kmap S KT s /\ header_at (pm s) base h) [s2; sA; s4; sB] /\
    ext R S [PT; PT'] s1 sB /\ ~ held s1 PT /\ ~ held s1 PT' /\ target R S t T RT sB /\ program_in s1 sB PT base h /\
    idles k sB /\ forall n, frees S (2 + n) s1 -> frees S n sB.
Proof.
  intros Hr1 Hk1 Htg HT16 HR16 HKT Hhd Hok Hun Hid Hf.
  destruct (po_base _ _ _ Hok) as (B0 & B1 & Bc). destruct (po_text _ _ _ Hok) as (T1 & T2 & T3 & T4). destruct (po_data _ _ _ Hok) as (D1 & D2 & D3).
  destruct (po_text_img _ _ _ Hok) as (I1 & I2 & I3). destruct (po_data_img _ _ _ Hok) as (J1 & J2 & J3). destruct (data_dir h base Hok) as [Ed Et].
  pose proof (po_same _ _ _ Hok) as Hsame. destruct PAGE_FLG_USR_odd as [Hfl Hodd]. destruct (ready_S _ _ _ Hr1) as [HS HhS].
  destruct (tg_T _ _ _ _ _ _ Htg) as (HT & HhT & HnT). destruct (tg_RT _ _ _ _ _ _ Htg) as (_ & _ & HhR & _).
  assert (Hu1 : u32 (vma_text h)) by (Z.to_euclidean_division_equations; lia). assert (Hu2 : u32 (vma_data h)) by (Z.to_euclidean_division_equations; lia).
  assert (Hc12 : clear_of S (base + 12) 4) by (unfold clear_of in *; lia). assert (Hc24 : clear_of S (base + 24) 4) by (unfold clear_of in *; lia).
  assert (Hhl : forall s s', lows s s' -> header_at (pm s) base h -> header_at (pm s') base h) by (intros s s' Hl; by apply (header_lows s s')).
  destruct (section_spec R S KT t T RT s1 s1 (Z.to_nat (data_size h / 4096 + 2) + k) (vma_text h) (text_size h) PAGE_FLG_USR (base + lma_text h) (base + 12))
    as (PT & s2 & sA & H2 & L2 & Hr2 & Hk2 & HA & LA & HidA & HfA); try done; try lia; try apply Hhd.
  { by left. } { eapply frees_le; [|exact Hf]. lia. }
  pose proof (loaded_low t s1 s1 sA PT _ _ _ HT16 HR16 LA) as L3. pose proof (Hhl _ _ L2 Hhd) as Hhd2. pose proof (Hhl _ _ L3 Hhd) as HhdA.
  pose proof (lo_ext _ _ _ _ _ _ _ _ _ _ _ _ _ LA) as EA. pose proof (ext_ready _ _ _ _ _ Hr1 EA) as HrA. pose proof (lo_kmap _ _ _ _ _ _ _ _ _ _ _ _ _ LA) as HkA.
  destruct (section_spec R S KT t T RT s1 sA k (vma_data h) (data_size h) PAGE_FLG_USR (base + lma_data h) (base + 24))
    as (PT' & s4 & sB & H4 & L4 & Hr4 & Hk4 & HB & LB & HidB & HfB); try done; try lia; try apply HhdA; try apply LA.
  { right. exists PT. rewrite Ed. split; [apply LA|apply LA]. } { apply HfA. exact Hf. }
  pose proof (lo_ext _ _ _ _ _ _ _ _ _ _ _ _ _ LB) as EB. pose proof (ext_ready _ _ _ _ _ HrA EB) as HrB. pose proof (lo_kmap _ _ _ _ _ _ _ _ _ _ _ _ _ LB) as HkB.
  pose proof (Hhl _ _ L4 HhdA) as Hhd4. pose proof (Hhl _ _ (loaded_low t s1 sA sB PT' _ _ _ HT16 HR16 LB) HhdA) as HhdB.
  pose proof (loaded_program t s1 sA sB PT PT' base h Hok HT16 HR16 HhT HhR HhS HS LA LB) as Hin.
  exists PT, PT', s2, sA, s4, sB. split; [exact H2|]. split; [exact HA|]. split; [exact H4|]. split; [exact HB|].
  split; [repeat (apply Forall_cons_2; [done|]); by apply Forall_nil_2|]. split; [exact (ext_trans _ _ _ _ _ _ _ EA EB)|].
  split; [apply (lo_table _ _ _ _ _ _ _ _ _ _ _ _ _ LA)|]. split; [apply (lo_table _ _ _ _ _ _ _ _ _ _ _ _ _ LB)|]. split; [apply LB|].
  split; [exact Hin|]. split; [exact HidB|]. intros n Hn. by apply HfB, HfA.
Qed.

(** ** The whole routine *)

(** The program in the address space [T] of the memory [m]: the image is that of
    [s0], [FS] is the page of the stack, and every page the program can reach
    was idle in [s0] and is in use in [s]. *)
Record program_mapped (s0 s : mm) (m : mem) (base : Z) (h : TsExHeader) (FS : Z) : Prop := {
  pr_text : section_mapped m T (vma_text h) (text_size h) (pm s0) (base + lma_text h);
  pr_data : section_mapped m T (vma_data h) (data_size h) (pm s0) (base + lma_data h);
  pr_stack : forall o, 0 <= o < 4096 -> walk m T (Sched.USTACK_FRAME + o) = Some (FS + o) /\ load8 m (FS + o) = 0;
  pr_own : forall va p, 0 <= va < KERNEL_V_START -> walk m T va = Some p -> taken s0 s (page_of p);
}.

Lemma section_bytes m vma size m1 m0 img :
  (forall a, img <= a < img + size -> load8 m1 a = load8 m0 a) -> section_mapped m T vma size m1 img -> section_mapped m T vma size m0 img.
Proof. intros Hb Hs o Ho. destruct (Hs o Ho) as (p & H1 & H2). exists p. split; [done|]. rewrite H2. apply Hb. lia. Qed.

(** The image stays what it is when only slots change below 16 MiB. *)
Lemma image_lows s s1 img size a :
  page S -> lows s s1 -> 0 <= size -> 0 <= img -> img + 4096 * pages size <= 16777216 -> clear_of S img (4096 * pages size) ->
  img <= a < img + size -> load8 (pm s1) a = load8 (pm s) a.
Proof.
  intros HS Hl G0 G1 G2 G3 G4. assert (size <= 4096 * pages size) by (unfold pages; Z.to_euclidean_division_equations; lia).
  apply Hl; [lia|]. apply (clear_page S img (4096 * pages size)); [done|done|lia].
Qed.

Lemma program_lows s s1 s' s2 m base h FS :
  page S -> lows s s1 -> (forall p, page p -> held s p -> held s1 p) -> (forall p, page p -> held s' p -> held s2 p) -> program_ok S base h ->
  program_mapped s1 s' m base h FS -> program_mapped s s2 m base h FS.
Proof.
  intros HS Hl Hm Hm' [(B0 & _) (_ & _ & T3 & _) (_ & _ & D3) _ (I1 & I2 & I3) (J1 & J2 & J3)] [M1 M2 M3 M4].
  split; [apply (section_bytes m _ _ (pm s1)); [|done]..|done|].
  - intros a Ha. apply (image_lows s s1 (base + lma_text h) (text_size h)); done || lia.
  - intros a Ha. apply (image_lows s s1 (base + lma_data h) (data_size h)); done || lia.
  - intros va p Hv Hw. apply (taken_mono s1 s s' s2); [done|done|by apply (M4 va)].
Qed.

Lemma stack_mapped m PS FS :
  page T -> page PS -> page FS -> entry (word m T 767) PS -> entry (word m PS 1023) FS -> (forall j, idx j -> word m FS j = 0) ->
  forall o, 0 <= o < 4096 -> walk m T (Sched.USTACK_FRAME + o) = Some (FS + o) /\ load8 m (FS + o) = 0.
Proof.
  intros HT HP HF H1 H2 Hz o Ho. change Sched.USTACK_FRAME with 3221221376. split.
  - rewrite (walk_entries _ _ PS FS); [|done| |].
    + rewrite offset_mod. do 2 f_equal. Z.to_euclidean_division_equations. lia.
    + rewrite dir_index_div. by replace ((3221221376 + o) / 4194304) with 767 by (Z.to_euclidean_division_equations; lia).
    + rewrite table_index_mod. by replace (((3221221376 + o) / 4096) mod 1024) with 1023 by (Z.to_euclidean_division_equations; lia).
  - rewrite (byte_of_word ∅ m FS o Ho); [unfold load8; by rewrite lookup_empty|]. intros j Hj. rewrite Hz by done. unfold word, load32, load8. by rewrite !lookup_empty.
Qed.

(** What the steps of [create_task_address_space] leave: [s1] after the slot of
    the directory is there, [sB] after the sections, [sC] after the stack, [sD]
    at the end. *)
Record steps (s s1 sB sC sD : mm) (PT PS FS base : Z) (h : TsExHeader) : Prop := {
  st_ready : ready R S s1;
  st_first : slots_only R S [] s s1;
  st_sections : program_in s1 sB PT base h;
  st_mono : forall p, page p -> held s1 p -> held sB p;
  st_mono' : forall p, page p -> held sB p -> held sC p;
  st_mono'' : forall p, page p -> held sC p -> held sD p;
  st_PS : page PS /\ ~ held sB PS /\ entry (word (pm sC) T 767) PS /\ entry (word (pm sC) PS 1023) FS /\ utable sB sC PS;
  st_FS : newp sB sC FS;
  st_keep : forall q j, page q -> idx j -> held sB q -> q <> S -> (q <> T /\ q <> RT) \/ j <> 767 -> word (pm sC) q j = word (pm sB) q j;
  st_last : forall q j, page q -> idx j -> q <> S -> word (pm sD) q j = word (pm sC) q j;
}.

Lemma steps_held s s1 sB sC sD PT PS FS base h p : steps s s1 sB sC sD PT PS FS base h -> held s1 p <-> held s p.
Proof. intros Hst. by apply (slots_only_held _ _ _ _ _ _ (st_first _ _ _ _ _ _ _ _ _ _ Hst)). Qed.

Lemma steps_keep s s1 sB sC sD PT PS FS base h p j :
  steps s s1 sB sC sD PT PS FS base h -> page p -> idx j -> held s p -> p <> S -> (p <> T /\ p <> RT) \/ (j <> vma_text h / 4194304 /\ j <> 767) ->
  word (pm sD) p j = word (pm s) p j.
Proof.
  intros Hst Hp Hj Hh Hn Hc. pose proof (steps_held _ _ _ _ _ _ _ _ _ _ p Hst) as Hh1. rewrite <- Hh1 in Hh.
  rewrite (st_last _ _ _ _ _ _ _ _ _ _ Hst) by done. rewrite (st_keep _ _ _ _ _ _ _ _ _ _ Hst); [|done|done|by apply (st_mono _ _ _ _ _ _ _ _ _ _ Hst)|done|tauto].
  rewrite (pi_keep _ _ _ _ _ (st_sections _ _ _ _ _ _ _ _ _ _ Hst)); [|done|done|done|done|tauto].
  by apply (so_word _ _ _ _ _ (st_first _ _ _ _ _ _ _ _ _ _ Hst)).
Qed.

(** The entries of the new directory below the kernel. *)
Lemma steps_own s s1 sB sC sD PT PS FS base h m' :
  steps s s1 sB sC sD PT PS FS base h -> page T -> T <> S -> held s T -> held s RT -> agrees s (pm sD) m' -> 0 <= vma_text h / 4194304 < 767 ->
  (forall j, 0 <= j < 768 -> PAGE_ENTRY_SET (word (pm s) T j) = false) -> forall j, 0 <= j < 768 -> own_dir s1 sD m' T j.
Proof.
  intros Hst HT HTS HhT HhR Hag Hd Hlow j Hj. assert (Hix : idx j) by (unfold idx; lia).
  pose proof (fun p => steps_held _ _ _ _ _ _ _ _ _ _ p Hst) as Hh1. destruct (ready_S _ _ _ (st_ready _ _ _ _ _ _ _ _ _ _ Hst)) as [HS HhS].
  pose proof Hst as [_ _ Hin Hm Hm1 Hm2 (HP & HnP & HeP & _ & Hut) _ Hk Hl]. pose proof (pi_table _ _ _ _ _ Hin) as Hut1. pose proof (ut_PT _ _ _ Hut1) as ((HPT & _) & HnPT & HhPT).
  assert (HTj : word m' T j = word (pm sC) T j) by (rewrite Hag, Hl by (done || by left); done).
  destruct (decide (j = 767)) as [->|H767]; [|destruct (decide (j = vma_text h / 4194304)) as [->|Hne]].
  - apply (utable_own s1 sB sC sD m' T 767 PS); [done|by rewrite HTj| |done|done]. assert (PS <> S) by (intros ->; by apply HnP, Hm).
    intros k Hk'. rewrite Hag, Hl; try done. right. rewrite <- Hh1. intros G. by apply HnP, Hm.
  - assert (PT <> S) by (by intros ->).
    apply (utable_own s1 s1 sB sD m' T _ PT); [done|rewrite HTj, Hk; try done; [apply Hin|by apply Hm, Hh1|by right]| |done|auto]. intros k Hk'. rewrite Hag, Hl; try done.
    + apply Hk; try done. left. split; intros ->; by apply HnPT, Hh1.
    + right. by rewrite <- Hh1.
  - left. rewrite HTj, <- Hl by done. rewrite (steps_keep _ _ _ _ _ _ _ _ _ _ T j Hst); try done; [by apply Hlow|by right].
Qed.

Lemma steps_program s s1 sB sC sD PT PS FS base h m' :
  steps s s1 sB sC sD PT PS FS base h -> page T -> T <> S -> held s T -> held s RT -> agrees s (pm sD) m' -> program_ok S base h ->
  (forall j, 0 <= j < 768 -> PAGE_ENTRY_SET (word (pm s) T j) = false) -> program_mapped s sD m' base h FS.
Proof.
  intros Hst HT HTS HhT HhR Hag Hok Hlow. pose proof (fun p => steps_held _ _ _ _ _ _ _ _ _ _ p Hst) as Hh1.
  destruct (po_text _ _ _ Hok) as (T1 & T2 & T3 & T4). destruct (po_data _ _ _ Hok) as (D1 & D2 & D3). pose proof (po_same _ _ _ Hok) as Hsame.
  destruct (data_dir h base Hok) as [Ed Et]. assert (Hd0 : 0 <= vma_text h / 4194304) by (apply Z.div_pos; lia).
  pose proof (steps_own _ _ _ _ _ _ _ _ _ _ m' Hst HT HTS HhT HhR Hag (conj Hd0 T4) Hlow) as Hown. destruct (ready_S _ _ _ (st_ready _ _ _ _ _ _ _ _ _ _ Hst)) as [HS HhS].
  pose proof Hst as [_ Hso Hin Hm _ _ (HP & HnP & HeP & HeF & _) (F1 & F2 & F3 & F4) Hk Hl]. pose proof (so_word _ _ _ _ _ Hso) as Hw1.
  assert (Hkm : forall p j, page p -> idx j -> p <> S -> p = T /\ j <> 767 \/ ~ held s1 p /\ held sB p -> word m' p j = word (pm sB) p j).
  { intros p j Hp Hj Hn Hc. rewrite Hh1 in Hc. rewrite Hag, Hl by (done || naive_solver). apply Hk; try done; [destruct Hc as [[-> _]|[_ ?]]; [by apply Hm, Hh1|done]|].
    destruct Hc as [[-> ?]|[Hc ?]]; [by right|left; split; by intros ->]. }
  assert (Hnew : forall p j, page p -> idx j -> ~ held sB p -> word m' p j = word (pm sC) p j).
  { intros p j Hp Hj Hn. assert (~ held s p) by (intros G; by apply Hn, Hm, Hh1). assert (p <> S) by (intros ->; by apply Hn, Hm). rewrite Hag, Hl by (done || by right). done. }
  pose proof (pi_dir _ _ _ _ _ Hin) as Hdir. pose proof (pi_table _ _ _ _ _ Hin) as Hut.
  apply (program_lows s s1 sD sD); [done|apply lows_keep; intros; by apply Hw1|intros p _; apply Hh1|done|done|]. split.
  - apply (filled_mapped s1 sB m' PT); try done. apply Hin.
  - apply (filled_mapped s1 sB m' PT); try done; [by rewrite Ed|by rewrite Ed|lia|by rewrite Ed|apply Hin].
  - assert (Hpf : page FS) by apply F1. apply (stack_mapped m' PS); try done.
    + by rewrite Hag, Hl by (done || (unfold idx; lia) || by left).
    + by rewrite Hnew by (done || (unfold idx; lia)).
    + intros j Hj. rewrite Hnew by done. by apply F4.
  - intros va p Hv Hw. apply (own_walk s1 sD m' T va p); [done| |done]. apply Hown. change KERNEL_V_START with 3221225472 in Hv.
    rewrite dir_index_div. Z.to_euclidean_division_equations. lia.
Qed.

(** A state in which the kernel reads the header. *)
Definition sees (base : Z) (h : TsExHeader) (s : mm) : Prop := ready R S s /\ kmap S KT s /\ header_at (pm s) base h.

(** The routine step by step. *)
Lemma address_space_run s s1 s2 sA s4 sB sC sD r1 r2 r3 t q Q base h :
  sees base h s -> sees base h s1 -> sees base h s2 -> sees base h sA -> sees base h s4 -> program_ok S base h ->
  idx q -> entry (word (pm s) S q) Q -> word (pm s) Q 1018 = T ->
  get_temp_va T s = Ok (IX_TO_VA 1022 t, s1) ->
  request_region_vmap (Loader.rounds (text_size h)) (IX_TO_VA 1022 t) (vma_text h) (text_size h) PAGE_FLG_USR s1 = Ok (r1, s2) ->
  Loader.copy_loop (Loader.rounds (text_size h)) (IX_TO_VA 1022 t) (KERNEL_V_START + (base + 12)) (KERNEL_V_START + (base + lma_text h))
    (KERNEL_V_START + (base + lma_text h)) (vma_text h) s2 = Ok ((), sA) ->
  request_region_vmap (Loader.rounds (data_size h)) (IX_TO_VA 1022 t) (vma_data h) (data_size h) PAGE_FLG_USR sA = Ok (r2, s4) ->
  Loader.copy_loop (Loader.rounds (data_size h)) (IX_TO_VA 1022 t) (KERNEL_V_START + (base + 24)) (KERNEL_V_START + (base + lma_data h))
    (KERNEL_V_START + (base + lma_data h)) (vma_data h) s4 = Ok ((), sB) ->
  request_region_vmap (Loader.rounds FRAME_SIZE) (IX_TO_VA 1022 t) Sched.USTACK_FRAME FRAME_SIZE PAGE_FLG_USR sB = Ok (r3, sC) ->
  delete_temp_va (IX_TO_VA 1022 t) sC = Ok ((), sD) ->
  Loader.create_task_address_space (IX_TO_VA 1022 q + 4 * 1017) (KERNEL_V_START + base) s = Ok ((), sD).
Proof.
  intros (Hr & Hk & Hhd) (Hr1 & Hk1 & Hhd1) (Hr2 & Hk2 & Hhd2) (HrA & HkA & HhdA) (Hr4 & Hk4 & Hhd4) Hok Hq HeQ HwQ H1 H2 HA H4 HB H5 H6.
  destruct (po_base _ _ _ Hok) as (B0 & B1 & _). destruct (po_text _ _ _ Hok) as (T1 & T2 & T3 & T4). destruct (po_data _ _ _ Hok) as (D1 & D2 & D3).
  destruct (po_text_img _ _ _ Hok) as (I1 & I2 & _). destruct (po_data_img _ _ _ Hok) as (J1 & J2 & _).
  assert (Hu1 : u32 (vma_text h)) by (Z.to_euclidean_division_equations; lia).
  unfold Loader.create_task_address_space.
  erewrite M_bind_eq by (apply rd_header; [done|done|done|done|unfold Loader.hd_magic; lia|apply Hhd]). rewrite Z.eqb_refl. erewrite (M_bind_eq (ASSERT true)) by reflexivity.
  erewrite M_bind_eq by (apply rd_header; [done|done|done|done|unfold Loader.hd_vma_data; lia|apply Hhd]).
  change (vma_data h mod FRAME_SIZE) with (vma_data h mod 4096). rewrite D1. change (0 =? 0) with true. erewrite (M_bind_eq (ASSERT true)) by reflexivity.
  replace (IX_TO_VA 1022 q + 4 * 1017 + 4) with (IX_TO_VA 1022 q + 4 * 1018) by lia.
  erewrite M_bind_eq by (apply (rd_temp s R S (r_sp _ _ _ Hr) q Q); [done|unfold idx; lia|done]). rewrite HwQ. erewrite M_bind_eq by exact H1.
  erewrite M_bind_eq by (apply rd_header; [done|done|done|done|unfold Loader.hd_lma_text; lia|apply Hhd1]).
  erewrite M_bind_eq by (apply rd_header; [done|done|done|done|unfold Loader.hd_lma_data; lia|apply Hhd1]). cbv zeta.
  assert (Hpt : 0 <= pages (text_size h) /\ 0 <= pages (data_size h)) by (unfold pages; split; apply Z.div_pos; lia).
  change KERNEL_V_START with 3221225472 in *. rewrite !wrap32_small by lia.
  erewrite M_bind_eq by (apply (rd_header s1 base); [done|done|done|done|unfold Loader.hd_vma_text; lia|apply Hhd1]).
  erewrite M_bind_eq by (apply (rd_header s1 base); [done|done|done|done|unfold Loader.hd_text_size; lia|apply Hhd1]).
  erewrite M_bind_eq by exact H2.
  erewrite M_bind_eq by (apply (rd_header s2 base); [done|done|done|done|unfold Loader.hd_vma_text; lia|apply Hhd2]).
  rewrite mask_div by done. replace (vma_text h / 4096 * 4096) with (vma_text h) by (Z.to_euclidean_division_equations; lia).
  rewrite !Z.add_assoc in HA. erewrite M_bind_eq by exact HA.
  erewrite M_bind_eq by (apply (rd_header sA base); [done|done|done|done|unfold Loader.hd_vma_data; lia|apply HhdA]).
  erewrite M_bind_eq by (apply (rd_header sA base); [done|done|done|done|unfold Loader.hd_data_size; lia|apply HhdA]).
  erewrite M_bind_eq by exact H4.
  erewrite M_bind_eq by (apply (rd_header s4 base); [done|done|done|done|unfold Loader.hd_vma_data; lia|apply Hhd4]).
  rewrite !Z.add_assoc in HB. erewrite M_bind_eq by exact HB. erewrite M_bind_eq by exact H5. exact H6.
Qed.

Lemma address_space_spec s t q Q k base h :
  ready R S s -> kmap S KT s -> target R S t T RT s -> 16777216 <= T -> 16777216 <= RT ->
  (forall i, 0 <= i < 4 -> KT i <> T /\ KT i <> RT) -> idx q -> entry (word (pm s) S q) Q -> word (pm s) Q 1018 = T ->
  header_at (pm s) base h -> program_ok S base h ->
  (forall j, 0 <= j < 768 -> PAGE_ENTRY_SET (word (pm s) T j) = false) ->
  PAGE_ENTRY_SET (word (pm s) T 768) = true ->
  idles (Z.to_nat (text_size h / 4096 + 2) + (Z.to_nat (data_size h / 4096 + 2) + (3 + k))) s -> frees S 6 s ->
  exists V FS s', Loader.create_task_address_space (IX_TO_VA 1022 q + 4 * 1017) (KERNEL_V_START + base) s = Ok ((), s') /\
    ext R S V s s' /\ (forall p, p ∈ V -> p = T \/ ~ held s p) /\ user_page FS /\ ~ held s FS /\
    (forall m', agrees s (pm s') m' -> program_mapped s s' m' base h FS) /\
    forall p j, page p -> idx j -> held s p -> p <> S -> (p <> T /\ p <> RT) \/ (j <> vma_text h / 4194304 /\ j <> 767) -> word (pm s') p j = word (pm s) p j.
Proof.
  intros Hr Hk Htg HT16 HR16 HKT Hq HeQ HwQ Hhd Hok Hlow H768 Hid Hf.
  destruct (po_base _ _ _ Hok) as (B0 & B1 & Bc). destruct (po_text _ _ _ Hok) as (T1 & T2 & T3 & T4). destruct (po_data _ _ _ Hok) as (D1 & D2 & D3).
  destruct (ready_S _ _ _ Hr) as [HS HhS]. destruct (tg_T _ _ _ _ _ _ Htg) as (HT & HhT & HnT). assert (HTS : T <> S) by set_solver.
  assert (Hd0 : 0 <= vma_text h / 4194304) by (apply Z.div_pos; lia).
  destruct (get_slot R S s T Hr HT) as (t' & s1 & H1 & Ht' & Hso1 & He1 & HwS1); [eapply frees_le; [|exact Hf]; lia|].
  pose proof (slots_only_ready _ _ _ _ _ Hr Hso1) as Hr1. pose proof (so_ext _ _ _ _ _ Hso1) as E1. pose proof (so_word _ _ _ _ _ Hso1) as Hw1.
  pose proof (kmap_keeps R S KT _ _ _ Hr Hk E1 (slots_only_keeps R S _ _ _ Hso1)) as Hk1.
  assert (Hh1 : forall p, held s1 p <-> held s p) by (intros p; by apply (slots_only_held _ _ _ _ _ _ Hso1)).
  assert (Htg1 : target R S t' T RT s1).
  { destruct (target_ext R S t T RT [] s s1 Hr Htg E1) as [_ G2 G3 G4]; [by intros ?%elem_of_nil|apply Hw1; [done|unfold idx; lia|done]|]. by split. }
  assert (L1 : lows s s1) by (apply lows_keep; intros; by apply Hw1). pose proof (header_lows s s1 base h HS L1 B0 B1 Bc Hhd) as Hhd1.
  assert (Hf1 : frees S 5 s1) by (by apply (get_slot_frees S s s1 t')).
  destruct (sections_spec s1 t' (3 + k) base h) as (PT & PT' & s2 & sA & s4 & sB & H2 & HA & H4 & HB & Hall & EB & HnP & HnP' & HtgB & Hin & HidB & HfB); try done.
  { rewrite Hw1 by (done || (unfold idx; lia)). apply Hlow. lia. } { by eapply slots_only_idles. } { eapply frees_le; [|exact Hf1]. lia. }
  rewrite !Forall_cons in Hall. destruct Hall as ((Hr2 & Hk2 & Hhd2) & (HrA & HkA & HhdA) & (Hr4 & Hk4 & Hhd4) & (HrB & HkB & HhdB) & _). rewrite Hh1 in HnP, HnP'.
  assert (HsB : forall p, page p -> held s p -> held sB p) by (intros p Hp Hh; apply (e_mono _ _ _ _ _ EB); [done|by apply Hh1]).
  destruct (request_ustack sB t' k) as (PS & FS & sC & H5 & EC & PP & HnPS & HhPS & HPST & HdS & HeS & HnF & Hut & KC & _ & _); try done.
  { rewrite (pi_keep _ _ _ _ _ Hin); [rewrite Hw1 by (done || (unfold idx; lia)); by apply Hlow|done|unfold idx; lia|by apply Hh1|done|right; lia]. }
  { rewrite (pi_keep _ _ _ _ _ Hin); [by rewrite Hw1 by (done || (unfold idx; lia))|done|unfold idx; lia|by apply Hh1|done|right; lia]. }
  { apply HfB. exact Hf1. }
  pose proof (ext_ready _ _ _ _ _ HrB EC) as HrC. pose proof (ext_trans _ _ _ _ _ _ _ EB EC) as E1C.
  assert (HeC : entry (word (pm sC) S t') T) by (apply (e_slot _ _ _ _ _ E1C); [done|done|rewrite elem_of_app, !elem_of_cons, !elem_of_nil; naive_solver]).
  destruct (close_slot R S sC t' T HrC Ht' HeC) as (sD & H6 & Hso6 & _ & _). pose proof (so_word _ _ _ _ _ Hso6) as Hw6.
  assert (HnPS' : ~ held s PS) by (intros G; by apply HnPS, HsB). assert (HnFS' : ~ held s FS) by (intros G; apply (proj1 (proj2 HnF)), HsB; [apply HnF|done]).
  assert (Hst : steps s s1 sB sC sD PT PS FS base h) by (split; try done; [apply (e_mono _ _ _ _ _ EB)|apply (e_mono _ _ _ _ _ EC)|apply (e_mono _ _ _ _ _ (so_ext _ _ _ _ _ Hso6))]).
  exists (([PT; PT'] ++ [PS]) ++ [T]), FS, sD. split; [|split; [|split; [|split; [apply HnF|split; [done|split]]]]].
  - by apply (address_space_run s s1 s2 sA s4 sB sC sD 1 1 1 t' q Q base h).
  - exact (ext_trans _ _ [] _ _ _ _ E1 (ext_trans _ _ _ _ _ _ _ E1C (so_ext _ _ _ _ _ Hso6))).
  - intros p Hp. cbn [app] in Hp. repeat (apply elem_of_cons in Hp as [->|Hp]); [by right|by right|by right|by left|by apply elem_of_nil in Hp].
  - intros m' Hag. eapply steps_program; try done. apply (tg_RT _ _ _ _ _ _ Htg).
  - intros p j. by apply (steps_keep s s1 sB sC sD PT PS FS base h).
Qed.

End Program.
