(* ===== verification/LoaderThm.v ===== *)
(** * Theorems about loading a task

    [load_task] as a whole: the trap frame of the new task, the composition of
    the steps, and the properties of the result, stated for the processor's
    own translation and for the task table. *)
From S2P Require Import Prelude CMem Malloc Common Frame Paging PagingThm PagingTmp PagingMap PagingRegion Sched Loader LoaderCopy LoaderSpace LoaderStack LoaderImage LoaderProgram.
Import Paging Frame.

(** ** The trap frame *)

Definition zero_words : list (Z * Z) := map (fun j => (j, 0)) (seqZ 998 19).

Lemma upd_app l l' k d : upd (l ++ l') k d = upd l k (upd l' k d).
Proof. induction l as [|[j v] l IH]; [done|]. cbn [upd app]. by rewrite IH. Qed.

Lemma upd_zero n i k d : 0 <= i -> upd (map (fun j => (j, 0)) (seqZ i (Z.of_nat n))) k d = if (i <=? k) && (k <? i + Z.of_nat n) then 0 else d.
Proof.
  revert i. induction n as [|n IH]; intros i Hi.
  - cbn [map seqZ upd]. destruct (Z.leb_spec i k), (Z.ltb_spec k (i + Z.of_nat 0)); try done; lia.
  - rewrite seqZ_cons by lia. cbn [map upd]. replace (Z.pred (Z.of_nat (S n))) with (Z.of_nat n) by lia. rewrite IH by lia.
    destruct (Z.eqb_spec k i), (Z.leb_spec (Z.succ i) k), (Z.ltb_spec k (Z.succ i + Z.of_nat n)), (Z.leb_spec i k), (Z.ltb_spec k (i + Z.of_nat (S n))); try done; lia.
Qed.

Section Thm.
Context (R S : Z) (KT : Z -> Z).

Lemma wrote_app q l l' s s1 s2 : wrote R S q l s s1 -> wrote R S q l' s1 s2 -> wrote R S q (l' ++ l) s s2.
Proof.
  intros [E1 F1 W1] [E2 F2 W2]. split; [exact (ext_trans _ _ [] [] _ _ _ E1 E2)|congruence|]. intros p k Hp Hk. rewrite W2, W1 by done.
  case_decide; [by rewrite upd_app|done].
Qed.

Lemma frame_memset_loop_spec n s i f o :
  ready R S s -> idx i -> entry (word (pm s) S i) f -> page f -> f ∉ [cr3 s; R; S] -> 0 <= o -> o + Z.of_nat n <= 4096 ->
  exists m', Loader.memset_loop n (IX_TO_VA 1022 i + o) 0 s = Ok ((), with_pm s m') /\ ext R S [] s (with_pm s m') /\
    (forall k, 0 <= k < Z.of_nat n -> load8 m' (f + o + k) = 0) /\
    forall b, u32 b -> (b < f + o \/ f + o + Z.of_nat n <= b) -> load8 m' b = load8 (pm s) b.
Proof.
  revert s o. induction n as [|n IH]; intros s o Hr Hi He Hpf Hnf Ho Hon; cbn [Loader.memset_loop].
  { exists (pm s). rewrite with_pm_same. split; [done|]. split; [by apply ext_refl|]. split; [lia|done]. }
  pose proof Hpf as Hpf'. unfold page in Hpf'. destruct (ready_S _ _ _ Hr) as [HS _].
  erewrite M_bind_eq; [|unfold wr8; rewrite (translate_temp s R S (r_sp _ _ _ Hr) i f) by (done || lia); reflexivity].
  set (s1 := with_pm s (store8 (pm s) (f + o) 0)).
  assert (Hw : forall q j, page q -> idx j -> q <> f -> word (pm s1) q j = word (pm s) q j) by (intros q j Hq Hj Hne; apply word_store8; done || lia).
  assert (E1 : ext R S [] s s1).
  { split; [|done|apply Hr|done|intros j p Hj Hp _; rewrite Hw; [done|done|done|set_solver]].
    apply (space_same R S s); [apply Hr|intros j Hj; apply Hw; [apply Hr|done|set_solver]|intros j Hj; apply Hw; [apply Hr|done|set_solver]]. }
  pose proof (ext_ready _ _ _ _ _ Hr E1) as Hr1. rewrite <- Z.add_assoc.
  destruct (IH s1 (o + 1) Hr1 Hi) as (m' & H1 & E' & Hc & Ho'); try done; try lia.
  { rewrite Hw; [done|done|done|set_solver]. }
  exists m'. split; [exact H1|]. split; [exact (ext_trans _ _ [] [] _ _ _ E1 E')|]. split.
  - intros k Hk'. destruct (decide (k = 0)) as [->|Hk0].
    + rewrite !Z.add_0_r, Ho' by lia. unfold s1. cbn [pm with_pm]. by rewrite load8_store8_eq.
    + replace (f + o + k) with (f + (o + 1) + (k - 1)) by lia. by rewrite Hc by lia.
  - intros b Hb Hout. rewrite Ho' by lia. unfold s1. cbn [pm with_pm]. apply load8_store8_ne; lia.
Qed.

Lemma memset_frame s q Q :
  ready R S s -> idx q -> entry (word (pm s) S q) Q -> page Q -> Q ∉ [cr3 s; R; S] ->
  exists s', Loader.memset (IX_TO_VA 1022 q + 4 * 998) 0 Sched.sizeof_TrapFrame s = Ok ((), s') /\ wrote R S Q zero_words s s'.
Proof.
  intros Hr Hq He HQ Hn. destruct (frame_memset_loop_spec 76 s q Q 3992 Hr Hq He HQ Hn) as (m' & H1 & E1 & Hz & Hout); [lia|lia|].
  exists (with_pm s m'). split; [exact H1|]. split; [exact E1|done|]. intros p k Hp Hk. cbn [pm with_pm]. case_decide as Epq.
  - subst p. unfold zero_words. change 19 with (Z.of_nat 19). rewrite upd_zero by lia. unfold page, idx in *.
    destruct ((998 <=? k) && (k <? 998 + Z.of_nat 19)) eqn:Eb.
    + apply andb_true_iff in Eb as [?%Z.leb_le ?%Z.ltb_lt]. unfold word, load32.
      assert (Hzz : forall d, 0 <= d < 4 -> load8 m' (Q + 4 * k + d) = 0).
      { intros d Hd. replace (Q + 4 * k + d) with (Q + 3992 + (4 * k + d - 3992)) by lia. apply Hz. lia. }
      pose proof (Hzz 0 ltac:(lia)) as Z0. rewrite Z.add_0_r in Z0. rewrite Z0, !Hzz by lia. done.
    + apply load32_same. intros b Hb. apply Hout; [lia|]. apply andb_false_iff in Eb as [?%Z.leb_gt|?%Z.ltb_ge]; lia.
  - unfold page, idx in *. apply load32_same. intros b Hb. apply Hout; [lia|]. Z.to_euclidean_division_equations. lia.
Qed.

(** The words of a new task's trap frame, the last written first. *)
Definition frame_words (ret_syscall : Z) : list (Z * Z) :=
  [(1014, Z.shiftl 1 9); (1015, Sched.USTACK_FRAME + FRAME_SIZE - 4); (1012, 0); (1008, 0x23); (1009, 0x23); (1011, 0x23);
   (1010, 0x23); (1016, 0x23); (1007, ret_syscall); (1013, 0x1b)].

Lemma init_trap_frame_spec ret_syscall s q Q :
  ready R S s -> idx q -> entry (word (pm s) S q) Q -> page Q -> Q ∉ [cr3 s; R; S] ->
  exists s', Loader.init_trap_frame ret_syscall (IX_TO_VA 1022 q + 4 * 998) s = Ok ((), s') /\ wrote R S Q (frame_words ret_syscall ++ zero_words) s s'.
Proof.
  intros Hr Hq He HQ Hn. destruct (memset_frame s q Q Hr Hq He HQ Hn) as (s0 & H0 & W0).
  assert (Hw : forall l s1 d j v, wrote R S Q l s s1 -> idx j -> 4 * 998 + d = 4 * j ->
    exists s2, wr (IX_TO_VA 1022 q + 4 * 998 + d) v s1 = Ok ((), s2) /\ wrote R S Q ((j, v) :: l) s s2).
  { intros l s1 d j v Hw1 Hj Ej. replace (IX_TO_VA 1022 q + 4 * 998 + d) with (IX_TO_VA 1022 q + 4 * j) by lia. by apply (wrote_step R S Q l s). }
  assert (Hi : forall j, 998 <= j <= 1016 -> idx j) by (unfold idx; lia).
  destruct (Hw _ _ 60 1013 0x1b W0 (Hi 1013 ltac:(lia)) ltac:(lia)) as (s1 & H1 & W1).
  destruct (Hw _ _ 36 1007 ret_syscall W1 (Hi 1007 ltac:(lia)) ltac:(lia)) as (s2 & H2 & W2).
  destruct (Hw _ _ 72 1016 0x23 W2 (Hi 1016 ltac:(lia)) ltac:(lia)) as (s3 & H3 & W3).
  destruct (Hw _ _ 48 1010 0x23 W3 (Hi 1010 ltac:(lia)) ltac:(lia)) as (s4 & H4 & W4).
  destruct (Hw _ _ 52 1011 0x23 W4 (Hi 1011 ltac:(lia)) ltac:(lia)) as (s5 & H5 & W5).
  destruct (Hw _ _ 44 1009 0x23 W5 (Hi 1009 ltac:(lia)) ltac:(lia)) as (s6 & H6 & W6).
  destruct (Hw _ _ 40 1008 0x23 W6 (Hi 1008 ltac:(lia)) ltac:(lia)) as (s7 & H7 & W7).
  destruct (Hw _ _ 56 1012 0 W7 (Hi 1012 ltac:(lia)) ltac:(lia)) as (s8 & H8 & W8).
  destruct (Hw _ _ 68 1015 (Sched.USTACK_FRAME + FRAME_SIZE - 4) W8 (Hi 1015 ltac:(lia)) ltac:(lia)) as (s9 & H9 & W9).
  destruct (Hw _ _ 64 1014 (Z.shiftl 1 9) W9 (Hi 1014 ltac:(lia)) ltac:(lia)) as (s10 & H10 & W10).
  exists s10. split; [|exact W10]. unfold Loader.init_trap_frame.
  erewrite M_bind_eq by exact H0. erewrite M_bind_eq by exact H1. erewrite M_bind_eq by exact H2. erewrite M_bind_eq by exact H3. erewrite M_bind_eq by exact H4.
  erewrite M_bind_eq by exact H5. erewrite M_bind_eq by exact H6. erewrite M_bind_eq by exact H7. erewrite M_bind_eq by exact H8. erewrite M_bind_eq by exact H9.
  exact H10.
Qed.

(** ** What the loader starts from *)

(** The parent's directory is the page [P] below 16 MiB; it maps the kernel,
    and the kernel stack to the page [Q] through the table [PK]. *)
Record loadable (s : mm) (P PK Q base : Z) (h : TsExHeader) : Prop := {
  ld_ready : ready R S s;
  ld_kmap : kmap S KT s;
  ld_P : page P /\ P + 4096 <= 16777216 /\ P <> S;
  ld_kernel : forall i, 0 <= i < 4 -> entry (word (pm s) P (768 + i)) (KT i);
  ld_PK : entry (word (pm s) P 1021) PK /\ page PK /\ PK <> 0 /\ held s PK /\ PK ∉ [cr3 s; R; S];
  ld_Q : entry (word (pm s) PK 1023) Q /\ PAGE_ENTRY_SET (word (pm s) PK 0) = true /\ user_page Q /\ held s Q /\ Q ∉ [cr3 s; R; S; PK] /\
         forall i, 0 <= i < 4 -> Q <> KT i;
  ld_header : header_at (pm s) base h;
  ld_program : program_ok S base h;
  ld_frames : idles (6 + (Z.to_nat (text_size h / 4096 + 2) + (Z.to_nat (data_size h / 4096 + 2) + 3))) s;
  ld_slots : frees S 12 s;
}.

(** The state after the directory and the kernel stack are there. *)
Lemma kstack_ready s0 s P PK Q base h T RT SY t r y :
  loadable s0 P PK Q base h -> built R S P s0 s T RT SY t r y ->
  ready R S s /\ kmap S KT s /\ target R S t T RT s /\ shares R S s T PK Q /\ held s Q /\ Q ∉ [cr3 s; R; S] /\ T <> Q /\ RT <> Q /\
  16777216 <= T /\ 16777216 <= RT /\ u32 T /\ (forall i, 0 <= i < 4 -> KT i <> T /\ KT i <> RT).
Proof.
  intros [Hr Hk (HP & HP16 & HPS) H768 (HeK & HK & HK0 & HhK & HnK) (HeQ & H0 & HuQ & HhQ & HnQ & HQK) _ _ _ _] [E Kp Hnew Hnd Hbt Hbr _ _ Hlink Hrev Hsys _ _].
  pose proof (ext_ready _ _ _ _ _ Hr E) as Hr'. pose proof (e_cr3 _ _ _ _ _ E) as Hc. destruct (ready_S _ _ _ Hr) as [HS HhS].
  destruct (Hnew T ltac:(by left)) as (U1 & h1 & g1). destruct (Hnew RT ltac:(by right; left)) as (U2 & h2 & g2).
  destruct (fresh_dest R S KT s0 T Hr Hk U1 h1) as (_ & n1 & k1). destruct (fresh_dest R S KT s0 RT Hr Hk U2 h2) as (_ & n2 & k2).
  assert (HTR : RT <> T) by (rewrite !NoDup_cons in Hnd; set_solver). assert (HKS : PK <> S) by set_solver.
  assert (HTK : PK <> T) by (by intros ->). assert (HTQ : T <> Q) by (by intros <-). assert (HRQ : RT <> Q) by (by intros <-).
  split; [done|]. split; [by apply (kmap_keeps R S KT [] s0)|]. split; [|split; [|split]].
  - split; [done|split; [apply U1|split; [done|by rewrite Hc]]|done|]. split; [apply U2|]. split; [destruct U2 as (_ & ? & _); lia|]. split; [done|]. rewrite Hc. set_solver.
  - split; [|split; [|apply HuQ]|..].
    + rewrite Hlink by lia. split; [done|]. split; [done|]. split; [done|]. split; [by apply (e_mono _ _ _ _ _ E)|]. rewrite Hc. set_solver.
    + rewrite Kp; [done|done|unfold idx; lia|done|done].
    + rewrite Kp; [done|done|unfold idx; lia|done|done].
    + apply Hsys.
  - apply (e_mono _ _ _ _ _ E); [apply HuQ|done].
  - rewrite Hc. split; [set_solver|]. split; [done|]. split; [done|]. destruct U1 as (P1 & ? & ?), U2 as (_ & ? & _). split; [done|]. split; [done|]. split; [unfold page in P1; lia|].
    intros i Hi. split; [apply not_eq_sym; by apply k1|apply not_eq_sym; by apply k2].
Qed.

(** ** The steps together *)

Lemma close_whatever s i : ready R S s -> idx i -> exists s' V, delete_temp_va (IX_TO_VA 1022 i) s = Ok ((), s') /\ slots_only R S V s s'.
Proof.
  intros Hr Hi. destruct (close_any R S s i [Z.land (word (pm s) S i) PAGE_MASK] Hr Hi) as (s' & H & Hso & _); [|by exists s', [Z.land (word (pm s) S i) PAGE_MASK]].
  intros p [_ <-]. by left.
Qed.

(** The end of [load_task]: the slots of the directory, its tables and the
    stack are closed. *)
Lemma close_all {A} s a b c d (f : Loader.K A) ts :
  ready R S s -> idx a -> idx b -> idx c -> idx d ->
  exists s', (_ ← Loader.mem_op (delete_temp_va (IX_TO_VA 1022 a)); _ ← Loader.mem_op (delete_temp_va (IX_TO_VA 1022 b));
              _ ← Loader.mem_op (delete_temp_va (IX_TO_VA 1022 c)); _ ← Loader.mem_op (delete_temp_va (IX_TO_VA 1022 d)); f) (Loader.mkOs s ts) =
             f (Loader.mkOs s' ts) /\
    ready R S s' /\ frames s' = frames s /\ forall q j, page q -> idx j -> q <> S -> word (pm s') q j = word (pm s) q j.
Proof.
  intros Hr Ha Hb Hc Hd. destruct (close_whatever s a Hr Ha) as (s1 & V1 & H1 & Hso1). pose proof (slots_only_ready _ _ _ _ _ Hr Hso1) as Hr1.
  destruct (close_whatever s1 b Hr1 Hb) as (s2 & V2 & H2 & Hso2). pose proof (slots_only_ready _ _ _ _ _ Hr1 Hso2) as Hr2.
  destruct (close_whatever s2 c Hr2 Hc) as (s3 & V3 & H3 & Hso3). pose proof (slots_only_ready _ _ _ _ _ Hr2 Hso3) as Hr3.
  destruct (close_whatever s3 d Hr3 Hd) as (s4 & V4 & H4 & Hso4). pose proof (slots_only_ready _ _ _ _ _ Hr3 Hso4) as Hr4.
  exists s4. split; [erewrite mem_bind by exact H1; erewrite mem_bind by exact H2; erewrite mem_bind by exact H3; by erewrite mem_bind by exact H4|].
  pose proof (slots_only_trans _ _ _ _ _ _ _ (slots_only_trans _ _ _ _ _ _ _ Hso1 Hso2) (slots_only_trans _ _ _ _ _ _ _ Hso3 Hso4)) as Hso.
  split; [done|]. split; [apply Hso|]. apply (so_word _ _ _ _ _ Hso).
Qed.

Definition ESP : Z := Sched.KSTACK_FRAME + FRAME_SIZE - Sched.sizeof_Task - Sched.sizeof_TrapFrame.

(** The words of the stack page after the load. *)
Definition stack_words (ret_syscall T cur tid : Z) : list (Z * Z) :=
  (frame_words ret_syscall ++ zero_words) ++ (1017, ESP) :: task_words T cur tid.

Lemma upd_frame ret_syscall l j d : 1017 <= j -> upd ((frame_words ret_syscall ++ zero_words) ++ l) j d = upd l j d.
Proof.
  intros Hj. rewrite !upd_app. unfold zero_words. change 19 with (Z.of_nat 19). rewrite upd_zero by lia.
  replace ((998 <=? j) && (j <? 998 + Z.of_nat 19)) with false by (symmetry; apply andb_false_iff; right; apply Z.ltb_ge; lia).
  unfold frame_words. cbn [upd]. rewrite !(proj2 (Z.eqb_neq j _)) by lia. done.
Qed.

(** The [Task] structure in those words. *)
Lemma stack_words_task ret_syscall T cur tid (d : Z -> Z) :
  u32 T -> u32 cur -> 0 <= tid < 32 ->
  let w j := upd ((frame_words ret_syscall ++ zero_words) ++ [(1017, ESP)]) j (upd (task_words T cur tid) j (d j)) in
  Sched.mkTask (w 1017) (w 1018) (w 1019) (w 1020) (w 1021) (w 1022) (w 1023) = Sched.new_task T cur tid.
Proof.
  intros HT Hc Ht w. unfold w. rewrite !upd_frame by lia. unfold task_words. cbn [upd Z.eqb Pos.eqb].
  rewrite (wrap32_small T), (wrap32_small cur), (wrap32_small tid) by (done || lia). reflexivity.
Qed.

(** What [load_task] leaves behind: the directory [T] of the new task, with the
    kernel's entries of the parent, its own temporary mappings, the program and
    its stack. *)
Record task_space (s0 s : mm) (P Q base : Z) (h : TsExHeader) (T : Z) (w : list (Z * Z)) : Prop := {
  ts_ready : ready R S s;
  ts_new : taken s0 s T;
  ts_kernel : forall j, 768 <= j < 1022 -> word (pm s) T j = word (pm s0) P j;
  ts_self : exists RT SY, ready RT SY (mkMm (pm s) T true (frames s)) /\ kmap SY KT (mkMm (pm s) T true (frames s));
  ts_program : exists FS, program_mapped T s0 s (pm s) base h FS;
  ts_stack : forall j, idx j -> word (pm s) Q j = upd w j (word (pm s0) Q j);
  ts_mono : forall p, page p -> held s0 p -> held s p;
  ts_keep : forall q j, page q -> idx j -> held s0 q -> q <> S -> q <> Q -> word (pm s) q j = word (pm s0) q j;
}.

(** The state with the kernel stack on: the directory [T] with its tables, in
    the slots [t] and [q] the directory and the stack. *)
Record stacked (s0 s : mm) (P Q T RT SY t q : Z) (w : list (Z * Z)) : Prop := {
  sk_ready : ready R S s;
  sk_kmap : kmap S KT s;
  sk_cr3 : cr3 s = cr3 s0;
  sk_target : target R S t T RT s;
  sk_mono : forall p, page p -> held s0 p -> held s p;
  sk_new : forall p, p ∈ [T; RT; SY] -> user_page p /\ ~ held s0 p /\ held s p;
  sk_nd : NoDup [T; RT; SY];
  sk_slot : idx q /\ entry (word (pm s) S q) Q;
  sk_stack : forall j, idx j -> word (pm s) Q j = upd w j (word (pm s0) Q j);
  sk_low : forall j, 0 <= j < 768 -> word (pm s) T j = 0;
  sk_link : forall j, 768 <= j < 1022 -> word (pm s) T j = word (pm s0) P j;
  sk_self : entry (word (pm s) T 1023) RT /\ entry (word (pm s) T 1022) SY /\ entry (word (pm s) RT 1022) SY;
  sk_keep : forall p j, page p -> idx j -> held s0 p -> p <> S -> p <> Q -> word (pm s) p j = word (pm s0) p j;
}.

Lemma stacked_intro s0 s7 s8 P PK Q base h T RT SY t r y q w :
  loadable s0 P PK Q base h -> built R S P s0 s7 T RT SY t r y -> idx q -> entry (word (pm s8) S q) Q -> ext R S [PK] s7 s8 ->
  (forall p j, page p -> idx j -> held s7 p -> p <> S -> word (pm s8) p j = if decide (p = Q) then upd w j (word (pm s7) Q j) else word (pm s7) p j) ->
  stacked s0 s8 P Q T RT SY t q w.
Proof.
  intros Hld Hbu Hq HeQ E8 W8.
  destruct (kstack_ready s0 s7 P PK Q base h T RT SY t r y Hld Hbu) as (Hr7 & Hk7 & Htg7 & Hsh & HhQ7 & HnQ & HTQ & HRQ & _).
  pose proof Hld as [_ _ _ _ (_ & _ & _ & HhK & _) (_ & _ & HuQ & HhQ & _ & HQK) _ _ _ _]. assert (HQ : page Q) by apply HuQ.
  pose proof Hbu as [E7 K7 Hnew Hnd _ _ _ Hlow Hlink Hrev Hsys Hrs Hself]. assert (HQS : Q <> S) by (clear -HnQ; set_solver).
  destruct (tg_T _ _ _ _ _ _ Htg7) as (HT & HhT7 & HnT7). destruct (tg_RT _ _ _ _ _ _ Htg7) as (HRT & _ & HhR7 & HnR7).
  assert (HTS : T <> S) by (clear -HnT7; set_solver). assert (HRS : RT <> S) by (clear -HnR7; set_solver).
  assert (W8n : forall p j, page p -> idx j -> held s7 p -> p <> S -> p <> Q -> word (pm s8) p j = word (pm s7) p j)
    by (intros p j Hp Hj Hh Hn Hne; rewrite W8 by done; by rewrite decide_False).
  assert (HTK : T ∉ [PK]) by (intros ->%list_elem_of_singleton; by destruct (Hnew PK ltac:(by left)) as (_ & ? & _)).
  assert (H2 : idx 1022 /\ idx 1023) by (unfold idx; lia). destruct H2 as [X2 X3]. split; try done.
  - by apply (ext_ready _ _ _ _ _ Hr7 E8).
  - destruct (ready_page R S s7 (cr3 s7) Hr7 ltac:(by left)). eapply kmap_same; [exact Hr7|exact Hk7|exact E8|intros j Hj; apply W8n; try done; [apply Hr7|clear -HnQ; set_solver]|].
    intros i j Hi Hj. destruct (Hk7 i Hi) as (? & ? & ? & _). apply W8n; try done. apply not_eq_sym. by apply HQK.
  - by rewrite (e_cr3 _ _ _ _ _ E8), (e_cr3 _ _ _ _ _ E7).
  - eapply target_ext; [exact Hr7|exact Htg7|exact E8|exact HTK|by apply W8n].
  - intros p Hp Hh. by apply (e_mono _ _ _ _ _ E8), (e_mono _ _ _ _ _ E7).
  - intros p Hp. destruct (Hnew p Hp) as (G1 & G2 & G3). split; [done|]. split; [done|]. apply (e_mono _ _ _ _ _ E8); [apply G1|done].
  - intros j Hj. rewrite W8, decide_True by done. f_equal. by apply K7.
  - intros j Hj. rewrite W8n by (done || (unfold idx; lia)). by apply Hlow.
  - intros j Hj. rewrite W8n by (done || (unfold idx; lia)). by apply Hlink.
  - by rewrite !W8n.
  - intros p j Hp Hj Hh Hn Hne. rewrite W8n; try done; [by apply K7|by apply (e_mono _ _ _ _ _ E7)].
Qed.

(** The last lines of [load_task]: the trap frame, the table entry, the slots. *)
Lemma finish_task ret_syscall s ts Q T cur tid t r y q d :
  ready R S s -> page Q -> Q ∉ [cr3 s; R; S] -> idx t -> idx r -> idx y -> idx q -> entry (word (pm s) S q) Q ->
  (forall j, idx j -> word (pm s) Q j = upd (task_words T cur tid) j (d j)) -> u32 T -> u32 cur -> 0 <= tid < 32 ->
  exists s', (let task := IX_TO_VA 1022 q + 4 * 1017 in
      let tf := wrap32 (task - Sched.sizeof_TrapFrame) in
      _ ← Loader.mem_op (wr task (Sched.KSTACK_FRAME + FRAME_SIZE - Sched.sizeof_Task - Sched.sizeof_TrapFrame));
      _ ← Loader.mem_op (Loader.init_trap_frame ret_syscall tf);
      _ ← Loader.store_task tid task;
      _ ← Loader.mem_op (delete_temp_va (IX_TO_VA 1022 t));
      _ ← Loader.mem_op (delete_temp_va (IX_TO_VA 1022 r));
      _ ← Loader.mem_op (delete_temp_va (IX_TO_VA 1022 y));
      _ ← Loader.mem_op (delete_temp_va (IX_TO_VA 1022 q));
      mret tid) (Loader.mkOs s ts) = Ok (tid, Loader.mkOs s' (Sched.set_task ts tid (Sched.new_task T cur tid))) /\
    ready R S s' /\ frames s' = frames s /\ forall p j, page p -> idx j -> p <> S ->
      word (pm s') p j = if decide (p = Q) then upd (stack_words ret_syscall T cur tid) j (d j) else word (pm s) p j.
Proof.
  intros Hr HQ HnQ Ht Hri Hy Hq He Hw HuT Hcur Htid. assert (HQS : Q <> S) by (clear -HnQ; set_solver).
  destruct (wrote_step R S Q [] s s q 1017 ESP Hr Hq ltac:(unfold idx; lia) He HQ HnQ (wrote_nil R S Q s Hr)) as (s1 & H1 & W1).
  pose proof (w_ext _ _ _ _ _ _ W1) as E1. pose proof (ext_ready _ _ _ _ _ Hr E1) as Hr1.
  destruct (init_trap_frame_spec ret_syscall s1 q Q Hr1 Hq) as (s2 & H2 & W2);
    [apply (e_slot _ _ _ _ _ E1); [done|done|by intros ?%elem_of_nil]|done|by rewrite (e_cr3 _ _ _ _ _ E1)|].
  pose proof (wrote_app _ _ _ _ _ _ W1 W2) as W. pose proof (ext_ready _ _ _ _ _ Hr (w_ext _ _ _ _ _ _ W)) as Hr2.
  destruct (close_all s2 t r y q (mret tid) (Sched.set_task ts tid (Sched.new_task T cur tid)) Hr2 Ht Hri Hy Hq) as (s3 & H3 & Hr3 & F3 & W3).
  exists s3. split; [|split; [done|split; [by rewrite F3, (w_frames _ _ _ _ _ _ W)|]]].
  - cbv zeta. replace (wrap32 (IX_TO_VA 1022 q + 4 * 1017 - Sched.sizeof_TrapFrame)) with (IX_TO_VA 1022 q + 4 * 998).
    2:{ unfold Sched.sizeof_TrapFrame. destruct (temp_va_index q 3992 Hq ltac:(lia)) as (Hu & _). rewrite wrap32_small; lia. }
    erewrite mem_bind by exact H1. erewrite mem_bind by exact H2. erewrite K_bind_eq.
    2:{ unfold Loader.store_task. erewrite mem_bind by (exact (rd_task_spec R S Q q _ s s2 Hr Hq He HQ W)). reflexivity. }
    cbv zeta. rewrite !Hw by (unfold idx; lia). pose proof (stack_words_task ret_syscall T cur tid d HuT Hcur Htid) as Hs. cbv zeta in Hs.
    rewrite Hs. exact H3.
  - intros p j Hp Hj Hn. rewrite W3, (w_word _ _ _ _ _ _ W) by done. case_decide; [subst p|done]. rewrite Hw by done. unfold stack_words. by rewrite !upd_app.
Qed.

Lemma task_space_intro s0 s s9 s12 P PK Q base h T RT SY t q w w' FS :
  loadable s0 P PK Q base h -> stacked s0 s P Q T RT SY t q w -> (forall p, page p -> held s p -> held s9 p) -> frames s12 = frames s9 ->
  (forall m', agrees S T s (pm s9) m' -> program_mapped T s s9 m' base h FS) ->
  (forall p j, page p -> idx j -> held s p -> p <> S -> (p <> T /\ p <> RT) \/ (j <> vma_text h / 4194304 /\ j <> 767) -> word (pm s9) p j = word (pm s) p j) ->
  ready R S s12 -> (forall p j, page p -> idx j -> p <> S -> word (pm s12) p j = if decide (p = Q) then upd w' j (word (pm s0) Q j) else word (pm s9) p j) ->
  task_space s0 s12 P Q base h T w'.
Proof.
  intros Hld [Hr Hk Hc Htg Hm Hnew Hnd _ _ _ Hlink (Hrev & Hsys & Hrs) Hkeep] Hm9 F12 Hmap W9 Hr12 W12. assert (Hm12 : forall p, page p -> held s9 p -> held s12 p) by (unfold held; by rewrite F12).
  pose proof Hld as [Hr0 Hk0 _ H768 _ (_ & _ & HuQ & HhQ & HnQ0 & HQK) _ Hok _ _]. destruct (ready_S _ _ _ Hr0) as [HS HhS].
  assert (HQ : page Q) by apply HuQ. assert (HQS : Q <> S) by (clear -HnQ0; set_solver).
  destruct (Hnew T ltac:(by left)) as (U1 & h1 & g1). destruct (Hnew RT ltac:(by right; left)) as (U2 & h2 & g2). destruct (Hnew SY ltac:(by right; right; left)) as (U3 & h3 & g3).
  assert (HT : page T) by apply U1. assert (HRT : page RT) by apply U2. assert (HTS : T <> S) by (by intros ->). assert (HRS : RT <> S) by (by intros ->).
  assert (HTQ : T <> Q) by (by intros ->). assert (HRQ : RT <> Q) by (by intros ->). destruct (po_text _ _ _ Hok) as (_ & T2 & _ & T4).
  assert (HN : forall p j, page p -> idx j -> p <> S -> p <> Q -> word (pm s12) p j = word (pm s9) p j) by (intros; by rewrite W12, decide_False).
  assert (WT : forall p j, page p -> idx j -> held s p -> p <> S -> p <> Q -> (p <> T /\ p <> RT) \/ 768 <= j -> word (pm s12) p j = word (pm s) p j).
  { intros p j Hp Hj Hh Hn Hne Hcs. rewrite HN, W9; try done. destruct Hcs; [by left|right; lia]. }
  assert (HX : idx 1022 /\ idx 1023) by (unfold idx; lia). destruct HX as [HX1 HX2]. split; [done|split; [done|split; [done|auto]]|..].
  - intros j Hj. rewrite WT by (done || (unfold idx; lia)). by apply Hlink.
  - assert (Hh12 : Forall (held s12) [T; RT; SY])
      by (apply Forall_forall; intros p Hp; destruct (Hnew p Hp) as ((G1 & _) & _ & G3); auto).
    exists RT, SY. split; [split; [|apply Hr12|exact Hh12]|].
    + split; cbn [paging cr3 pm]; [done|done|done|apply U3| |..]; [|rewrite WT; [done|done|done|done|done|done|right; lia]..].
      rewrite !NoDup_cons in Hnd. clear -Hnd. set_solver.
    + intros i Hi. destruct (Hk0 i Hi) as (G1 & G2 & G3 & _ & G5). cbn [cr3 pm]. split; [done|]. split; [by apply Hm12, Hm9, Hm|]. split; [by intros E; rewrite E in G2|].
      split; [rewrite WT, Hlink by (done || (unfold idx; lia)); by apply H768|]. intros j Hj.
      rewrite WT; [rewrite Hkeep; [by apply G5|done|done|done|done|]|done|done|by apply Hm|done| |].
      * apply not_eq_sym. by apply HQK.
      * apply not_eq_sym. by apply HQK.
      * left. split; intros E; by rewrite E in G2.
  - exists FS. eapply (program_lows S KT T s0 s s9 s12); [done| |done|done|done|].
    + apply lows_keep. intros p j Hp Hj Hlt Hn. apply Hkeep; try done; [by left|]. destruct HuQ as (_ & ? & _). lia.
    + apply Hmap. intros p j Hp Hj Hn Hcs. apply HN; try done. destruct Hcs as [->|Hcs]; [done|]. intros ->. by apply Hcs, Hm.
  - intros j Hj. by rewrite W12, decide_True.
  - auto.
  - intros p j Hp Hj Hh Hn Hne. rewrite WT; try done; [by apply Hkeep|by apply Hm|]. left. split; by intros ->.
Qed.

(** The second half, from the state with the kernel stack on. *)
Lemma load_rest ret_syscall s0 s ts P PK Q base h T RT SY t r y q cur tid :
  loadable s0 P PK Q base h -> stacked s0 s P Q T RT SY t q (task_words T cur tid) -> u32 cur -> 0 <= tid < 32 -> idx t -> idx r -> idx y ->
  idles (Z.to_nat (text_size h / 4096 + 2) + (Z.to_nat (data_size h / 4096 + 2) + (3 + 0))) s -> frees S 6 s ->
  exists s', (let task := Loader.KSTACK_TO_TASK (IX_TO_VA 1022 q) in
      new_tid ← Loader.mem_op (rd (task + 16));
      _ ← Loader.mem_op (Loader.create_task_address_space task (KERNEL_V_START + base));
      let tf := wrap32 (task - Sched.sizeof_TrapFrame) in
      _ ← Loader.mem_op (wr task (Sched.KSTACK_FRAME + FRAME_SIZE - Sched.sizeof_Task - Sched.sizeof_TrapFrame));
      _ ← Loader.mem_op (Loader.init_trap_frame ret_syscall tf);
      _ ← Loader.store_task new_tid task;
      _ ← Loader.mem_op (delete_temp_va (IX_TO_VA 1022 t));
      _ ← Loader.mem_op (delete_temp_va (IX_TO_VA 1022 r));
      _ ← Loader.mem_op (delete_temp_va (IX_TO_VA 1022 y));
      _ ← Loader.mem_op (delete_temp_va (IX_TO_VA 1022 q));
      mret new_tid) (Loader.mkOs s ts) = Ok (tid, Loader.mkOs s' (Sched.set_task ts tid (Sched.new_task T cur tid))) /\
    task_space s0 s' P Q base h T (stack_words ret_syscall T cur tid).
Proof.
  intros Hld Hst Hcur Htid Ht Hri Hy Hid Hf. pose proof Hst as [Hr Hk Hc Htg Hm Hnew Hnd [Hq HeQ] Hstk Hlow Hlink _ Hkeep].
  pose proof Hld as [Hr0 Hk0 (HP & HP16 & HPS) H768 _ (HeQ0 & _ & HuQ & HhQ & HnQ0 & HQK) Hhd Hok _ _]. destruct (ready_S _ _ _ Hr0) as [HS HhS].
  assert (HQ : page Q) by apply HuQ. assert (HQS : Q <> S) by (clear -HnQ0; set_solver).
  destruct (Hnew T ltac:(by left)) as (U1 & h1 & g1). destruct (Hnew RT ltac:(by right; left)) as (U2 & h2 & g2). destruct (Hnew SY ltac:(by right; right; left)) as (U3 & h3 & g3).
  destruct (fresh_dest R S KT s0 T Hr0 Hk0 U1 h1) as (_ & n1 & k1). destruct (fresh_dest R S KT s0 RT Hr0 Hk0 U2 h2) as (_ & n2 & k2).
  assert (N : T <> S /\ RT <> S) by (clear -n1 n2; set_solver). destruct N as [HTS HRS]. assert (HTQ : T <> Q) by (by intros ->). assert (HRQ : RT <> Q) by (by intros ->).
  assert (HuT : page T /\ 16777216 <= T /\ u32 T) by (destruct U1 as (P1 & ? & ?); split; [done|unfold page in P1; lia]). destruct HuT as (HT & HT16 & HuT).
  assert (HRT : page RT /\ 16777216 <= RT) by (destruct U2 as (? & ? & ?); done). destruct HRT as [HRT HR16].
  assert (L8 : lows S s0 s).
  { apply lows_keep. intros p j Hp Hj Hlt Hn. apply Hkeep; try done; [by left|]. destruct HuQ as (_ & ? & _). lia. }
  destruct (po_base _ _ _ Hok) as (B0 & B1 & Bc). pose proof (header_lows S s0 s base h HS L8 B0 B1 Bc Hhd) as Hhd8.
  destruct (po_text _ _ _ Hok) as (_ & T2 & _ & T4).
  destruct (address_space_spec R S KT T RT s t q Q 0 base h) as (V & FS & s9 & H9 & E9 & HV & HuF & HnF & Hmap & W9); try done.
  { intros i Hi. split; apply not_eq_sym; [by apply k1|by apply k2]. }
  { rewrite Hstk by (unfold idx; lia). change (upd (task_words T cur tid) 1018 _) with (wrap32 T). by apply wrap32_small. }
  { intros j Hj. by rewrite Hlow. } { rewrite Hlink by lia. apply (H768 0). lia. }
  pose proof (ext_ready _ _ _ _ _ Hr E9) as Hr9. assert (HhQ8 : held s Q) by (by apply Hm).
  assert (HQV : Q ∉ V) by (intros Hin; destruct (HV Q Hin); congruence). pose proof (e_slot _ _ _ _ _ E9 q Q Hq HeQ HQV) as He9.
  destruct (finish_task ret_syscall s9 ts Q T cur tid t r y q (word (pm s0) Q)) as (s12 & H12 & Hr12 & F12 & W12); try done.
  { rewrite (e_cr3 _ _ _ _ _ E9), Hc. clear -HnQ0. set_solver. }
  { intros j Hj. rewrite W9; [by apply Hstk|done|done|done|done|left; split; by apply not_eq_sym]. }
  exists s12. split.
  - cbv zeta. rewrite task_addr by done. erewrite mem_bind.
    2:{ replace (IX_TO_VA 1022 q + 4 * 1017 + 16) with (IX_TO_VA 1022 q + 4 * 1021) by lia. apply (rd_temp s R S (r_sp _ _ _ Hr) q Q); [done|unfold idx; lia|done]. }
    rewrite Hstk by (unfold idx; lia). change (upd (task_words T cur tid) 1021 _) with (wrap32 tid). rewrite wrap32_small by lia.
    erewrite mem_bind by exact H9. exact H12.
  - apply (task_space_intro s0 s s9 s12 P PK Q base h T RT SY t q (task_words T cur tid) _ FS); try done. apply (e_mono _ _ _ _ _ E9).
Qed.

(** [load_task] as a whole. *)
Lemma load_task_machine ret_syscall s ts P PK Q base h tid :
  loadable s P PK Q base h -> u32 (Sched.tid (Sched.task_at ts (Sched.current ts))) -> Sched.get_next_tid ts = Ok tid ->
  let cur := Sched.tid (Sched.task_at ts (Sched.current ts)) in
  exists T s', Loader.load_task ret_syscall (KERNEL_V_START + P) (KERNEL_V_START + base) (Loader.mkOs s ts) =
      Ok (tid, Loader.mkOs s' (Sched.set_task ts tid (Sched.new_task T cur tid))) /\
    task_space s s' P Q base h T (stack_words ret_syscall T cur tid).
Proof.
  intros Hld Hcur Htid cur. pose proof Hld as [Hr Hk (HP & HP16 & HPS) _ _ _ _ _ Hid Hf].
  assert (Ht32 : 0 <= tid < 32) by (apply Sched.next_tid_loop_spec in Htid; Sched.sched_consts; lia).
  set (k := (Z.to_nat (text_size h / 4096 + 2) + (Z.to_nat (data_size h / 4096 + 2) + (3 + 0)))%nat).
  destruct (new_space_spec R S KT s P (3 + k) Hr Hk HP HP16 HPS) as (T & RT & SY & t & r & y & s7 & H7 & Hbu & Hid7 & Hf7);
    [exact Hid|eapply frees_le; [|exact Hf]; lia|].
  destruct (kstack_ready s s7 P PK Q base h T RT SY t r y Hld Hbu) as (Hr7 & _ & Htg7 & Hsh & HhQ & HnQ & _ & _ & _ & _ & HuT & _).
  specialize (Hf7 9%nat Hf).
  destruct (alloc_kstack_spec R S KT s7 ts t T RT PK Q k cur tid) as (q & s8 & H8 & Hq & HeQ & E8 & Hid8 & Hf8 & W8); try done;
    [eapply frees_le; [|exact Hf7]; lia|].
  pose proof (stacked_intro _ _ _ _ _ _ _ _ _ _ _ _ _ _ _ _ Hld Hbu Hq HeQ E8 W8) as Hst.
  pose proof Hbu as [_ _ _ _ [Ht _] [Hri _] [Hy _] _ _ _ _ _ _].
  destruct (load_rest ret_syscall s s8 (Sched.set_task ts tid (Sched.mkTask (word (pm s7) Q 1017) T ESP0 cur tid Sched.TASK_PRESENT 10))
    P PK Q base h T RT SY t r y q cur tid) as (s' & H9 & Hsp); try done; [exact (Hf8 6%nat Hf7)|].
  exists T, s'. split; [|done]. unfold Loader.load_task. erewrite mem_bind by exact H7. cbv beta iota. rewrite tasks_bind.
  erewrite K_bind_eq by exact H8. etransitivity; [exact H9|]. unfold Sched.set_task. cbn [Sched.task_arr Sched.current Sched.tss_esp0 Sched.tss_ss0 Sched.cpu_esp Sched.cpu_cr3 Sched.freq_counter Sched.secs].
  by rewrite list_insert_insert_eq.
Qed.

End Thm.
