(* ===== verification/LoaderTask.v ===== *)
(** * Theorems about loading a task: the properties of the result

    What [load_task] gives, as the new task and the rest of the system see it:
    the program in its address space, its separation from the pages in use
    before, its entry in the task table, and the kernel stack it starts on.
    The examples start from the map [init_page_settings] sets up. *)
From S2P Require Import Prelude CMem Malloc Common Frame Paging PagingThm PagingTmp PagingMap PagingRegion Sched Loader LoaderCopy LoaderSpace LoaderStack LoaderImage LoaderProgram LoaderThm.
Import Paging Frame.

Ltac concrete := unfold user_page, page, idx, pt_base; split_and?; first [lia|reflexivity|Z.to_euclidean_division_equations; lia].

(** ** The map of [init_page_settings] *)

(** A machine that runs with the directory [init_page_settings] filled, and the
    tables of the kernel's 16 MiB. *)
Definition early_kt (i : Z) : Z := pt_base (768 + i).

Section Early.
Context (m : mem) (s : mm) (Hi : early_inv early_tables early_pages m).
Context (Hc : cr3 s = pt_base (-1)) (Hp : paging s = true) (Hb : bitmap_ok (frames s)).
Context (Hcell : forall k j, 0 <= k < 1024 -> idx j -> word (pm s) (pt_base k) j = cell m k j).
Context (Hdir : forall j, idx j -> j <> 1021 -> word (pm s) (pt_base (-1)) j = cell m (-1) j).

Lemma early_ready : ready (pt_base 1023) (pt_base 1022) s.
Proof.
  split; [|done|rewrite Hc; repeat (constructor; [left; unfold pt_base; lia|]); constructor].
  split; rewrite ?Hc; try done; try (apply page_base; lia).
  - rewrite Hdir, (ei_dir _ _ _ Hi) by concrete. apply entry_plus; [apply page_base; lia|lia|done].
  - rewrite Hcell, (ei_rev _ _ _ Hi) by concrete. apply entry_plus; [apply page_base; lia|lia|done].
  - rewrite Hdir, (ei_dir _ _ _ Hi) by concrete. apply entry_plus; [apply page_base; lia|lia|done].
Qed.

Lemma early_kmap : kmap (pt_base 1022) early_kt s.
Proof.
  intros i Hi4. unfold early_kt. assert (HD : early_tables (768 + i) = true).
  { unfold early_tables. rewrite !orb_true_iff, andb_true_iff, !Z.leb_le. left; left; right. lia. }
  split_and!; [apply page_base; lia|left; unfold pt_base; lia|unfold pt_base; lia|rewrite Hc|].
  - rewrite Hdir, (ei_dir _ _ _ Hi), HD by (unfold idx; lia). apply entry_plus; [apply page_base; lia|lia|done].
  - intros j Hj. rewrite Hcell, (ei_tab _ _ _ Hi) by (unfold idx in *; lia || done). unfold early_pages.
    rewrite (proj2 (Z.leb_le _ _)), (proj2 (Z.ltb_lt _ _)) by (unfold idx in *; lia). cbn [andb].
    replace (1024 * (768 + i) + j - 786432) with (1024 * i + j) by lia. apply entry_plus; [unfold page, idx in *; split_and!; [lia|lia|]|lia|done].
    rewrite Z.mul_comm. apply Z.mod_mul. lia.
Qed.

(** All slots but the last are free. *)
Lemma early_frees n : 0 <= n <= 1023 -> frees (pt_base 1022) (Z.to_nat n) s.
Proof.
  intros Hn. exists (seqZ 0 n). split; [apply NoDup_seqZ|]. split; [rewrite length_seqZ; lia|]. apply Forall_forall. intros j Hj%elem_of_seqZ.
  split; [unfold idx; lia|]. unfold slot_free. rewrite Hcell, (ei_sys _ _ _ Hi) by (unfold idx; lia). rewrite (proj2 (Z.eqb_neq j 1023)) by lia. done.
Qed.
End Early.

(** ** A machine with a program *)

(** Words written one after the other: (page, index, value). *)
Definition pokes (l : list (Z * Z * Z)) (m : mem) : mem := foldr (fun '(p, i, v) m => store32 m (p + 4 * i) v) m l.
Fixpoint poked (l : list (Z * Z * Z)) (q j d : Z) : Z :=
  match l with
  | [] => d
  | (p, i, v) :: l => if (p =? q) && (i =? j) then wrap32 v else poked l q j d
  end.

Lemma word_pokes l m q j :
  page q -> idx j -> Forall (fun '(p, i, _) => page p /\ idx i) l -> word (pokes l m) q j = poked l q j (word m q j).
Proof.
  intros Hq Hj. induction 1 as [|[[p i] v] l [Hp Hi] Hl IH]; [done|]. cbn [pokes foldr poked]. rewrite word_store by done. fold (pokes l m). rewrite IH.
  destruct (Z.eqb_spec p q), (Z.eqb_spec i j); cbn [andb]; case_decide; naive_solver.
Qed.

(** The kernel stack of the running task (the table at 8 MiB, the page at
    16 MiB), and at 9 MiB a program of two words of text and one of data. *)
Definition example_words : list (Z * Z * Z) :=
  [(pt_base (-1), 1021, 0x80000b); (0x800000, 1023, 0x100000b); (0x800000, 0, 0x80100b);
   (0x900000, 0, Loader.MAGIC); (0x900000, 1, 28); (0x900000, 2, 0); (0x900000, 3, 8); (0x900000, 4, 36); (0x900000, 5, 0x1000); (0x900000, 6, 4);
   (0x900000, 7, 0x90909090); (0x900000, 8, 0xfeebcd80); (0x900000, 9, 0x2a)].
Definition example_header : TsExHeader := mkHeader 28 0 8 36 0x1000 4.
Definition example_machine (m : mem) : mm := mkMm (pokes example_words m) (pt_base (-1)) true (FRAME_BSET bitmap0 0x1000000).

Lemma example_at m q j : page q -> idx j -> word (pm (example_machine m)) q j = poked example_words q j (word m q j).
Proof.
  intros Hq Hj. cbn [pm example_machine]. apply word_pokes; [done|done|]. unfold example_words.
  repeat (apply Forall_cons_2; [split; concrete|]). by apply Forall_nil_2.
Qed.

Section Example.
Context (m : mem) (Hi : early_inv early_tables early_pages m).
Abbreviation s := (example_machine m).

(** Pages the words do not touch. *)
Lemma example_cell k j : 0 <= k < 1024 -> idx j -> word (pm s) (pt_base k) j = cell m k j.
Proof.
  intros Hk Hj. rewrite example_at by (apply page_base || done; lia). unfold example_words. cbn [poked].
  rewrite !(proj2 (Z.eqb_neq _ (pt_base k))) by (unfold pt_base; lia). done.
Qed.
Lemma example_dir_cell j : idx j -> j <> 1021 -> word (pm s) (pt_base (-1)) j = cell m (-1) j.
Proof.
  intros Hj Hne. rewrite example_at by (apply page_base || done; lia). unfold example_words. cbn [poked].
  rewrite (proj2 (Z.eqb_neq 1021 j)) by lia. rewrite andb_false_r. rewrite !(proj2 (Z.eqb_neq _ (pt_base (-1)))) by (unfold pt_base; lia). done.
Qed.
Lemma example_poked q j v : page q -> idx j -> (forall d, poked example_words q j d = v) -> word (pm s) q j = v.
Proof. intros Hq Hj Hv. by rewrite example_at. Qed.

Lemma example_header_at : header_at (pm s) 0x900000 example_header.
Proof.
  assert (Hw : forall j v, idx j -> (forall d, poked example_words 0x900000 j d = v) -> load32 (pm s) (0x900000 + 4 * j) = v)
    by (intros j v Hj Hv; apply (example_poked 0x900000); [concrete|done|done]).
  split; [apply (Hw 0)|apply (Hw 1)|apply (Hw 2)|apply (Hw 3)|apply (Hw 4)|apply (Hw 5)|apply (Hw 6)]; done || concrete.
Qed.

Lemma example_program : program_ok (pt_base 1022) 0x900000 example_header.
Proof. split; unfold clear_of, pages; cbn [vma_text text_size lma_text vma_data data_size lma_data example_header]; concrete. Qed.

Lemma example_loadable : loadable (pt_base 1023) (pt_base 1022) early_kt s (pt_base (-1)) 0x800000 0x1000000 0x900000 example_header.
Proof.
  assert (Hq : held s 0x1000000) by (right; vm_compute; reflexivity).
  assert (Hk : kmap (pt_base 1022) early_kt s) by (apply (early_kmap m); [done|done|apply example_cell|apply example_dir_cell]).
  split; [apply (early_ready m); [done|done|done|apply bitmap_ok_set, bitmap_ok0|apply example_cell|apply example_dir_cell]|done|concrete| | | |apply example_header_at|apply example_program| |].
  - intros i Hi4. by destruct (Hk i Hi4) as (_ & _ & _ & He & _).
  - rewrite (example_poked (pt_base (-1)) 1021 0x80000b) by (by intros || concrete).
    split; [by split|]. split; [concrete|]. split; [done|]. split; [left; lia|]. cbn [cr3 example_machine]. unfold pt_base.
    intros Hin. repeat (apply elem_of_cons in Hin as [Hin|Hin]; [lia|]). by apply elem_of_nil in Hin.
  - rewrite (example_poked 0x800000 1023 0x100000b) by (by intros || concrete). rewrite (example_poked 0x800000 0 0x80100b) by (by intros || concrete).
    split; [by split|]. split; [done|]. split; [concrete|]. split; [done|]. split; [|intros i Hi4; unfold early_kt, pt_base; lia].
    cbn [cr3 example_machine]. unfold pt_base. intros Hin. repeat (apply elem_of_cons in Hin as [Hin|Hin]; [lia|]). by apply elem_of_nil in Hin.
  - exists [0x1001000; 0x1002000; 0x1003000; 0x1004000; 0x1005000; 0x1006000; 0x1007000; 0x1008000; 0x1009000; 0x100a000; 0x100b000; 0x100c000; 0x100d000].
    split; [apply (bool_decide_eq_true_1 (NoDup _)); vm_compute; reflexivity|]. split; [vm_compute; lia|].
    repeat (constructor; [split; [concrete|vm_compute; reflexivity]|]). constructor.
  - apply (early_frees m s Hi example_cell 12). lia.
Qed.

End Example.

(** ** The kernel's part of the new address space *)

Lemma walk_same_entry m D D' va :
  page D -> page D' -> word m D (PAGE_DIR_INDEX va) = word m D' (PAGE_DIR_INDEX va) -> walk m D va = walk m D' va.
Proof. intros HD HD' E. unfold walk. rewrite (page_mask D HD), (page_mask D' HD'). unfold word in E. by rewrite E. Qed.

(** The page of the kernel stack. *)
Lemma kstack_walk m D PK Q o :
  page D -> entry (word m D 1021) PK -> entry (word m PK 1023) Q -> 0 <= o < 4096 -> walk m D (Sched.KSTACK_FRAME + o) = Some (Q + o).
Proof.
  intros HD H1 H2 Ho. change Sched.KSTACK_FRAME with 4286574592. rewrite (walk_entries _ _ PK Q); [|done|..].
  - rewrite offset_mod. do 2 f_equal. Z.to_euclidean_division_equations. lia.
  - rewrite dir_index_div. by replace ((4286574592 + o) / 4194304) with 1021 by (Z.to_euclidean_division_equations; lia).
  - rewrite table_index_mod. by replace (((4286574592 + o) / 4096) mod 1024) with 1023 by (Z.to_euclidean_division_equations; lia).
Qed.

(** The words from the saved stack pointer of a new task to the end of its
    stack: flags and registers for [__context_switch], the return address, the
    rest of the trap frame, and the [Task] structure. *)
Definition first_stack (ret_syscall T cur tid : Z) : list Z :=
  replicate 9 0 ++ [ret_syscall; 0x23; 0x23; 0x23; 0x23; 0; 0x1b; Z.shiftl 1 9; Sched.USTACK_FRAME + FRAME_SIZE - 4; 0x23] ++
  [ESP; T; ESP0; cur; tid; Sched.TASK_PRESENT; 10].

Lemma stack_words_first ret_syscall T cur tid k d :
  u32 ret_syscall -> u32 T -> u32 cur -> u32 tid -> 0 <= k < 26 ->
  upd (stack_words ret_syscall T cur tid) (998 + k) d = nthZ (first_stack ret_syscall T cur tid) k.
Proof.
  intros Hr HT Hc Ht Hk. transitivity (wrap32 (nthZ (first_stack ret_syscall T cur tid) k)).
  - assert (Hin : k ∈ seqZ 0 26) by (apply elem_of_seqZ; lia). change (seqZ 0 26) with (map Z.of_nat (seq 0 26)) in Hin.
    cbn [seq map Z.of_nat Pos.of_succ_nat Pos.succ] in Hin. repeat (apply elem_of_cons in Hin as [->|Hin]; [reflexivity|]). by apply elem_of_nil in Hin.
  - apply wrap32_small. assert (Hall : Forall (fun v => u32 v) (first_stack ret_syscall T cur tid)).
    { repeat (apply Forall_cons_2; [done || (vm_compute; split; congruence)|]). by apply Forall_nil_2. }
    unfold nthZ. destruct (first_stack ret_syscall T cur tid !! Z.to_nat k) as [v|] eqn:E; [|done]. by apply (Forall_lookup_1 _ _ _ _ Hall E).
Qed.

(** ** The properties *)

Abbreviation running ts := (Sched.tid (Sched.task_at ts (Sched.current ts))).

(** C11. Loading a program: with a directory, a kernel stack, enough idle frames
    and free slots, and a page-aligned image in the kernel's memory, [load_task]
    returns the first free task id; the directory in its table entry maps every
    byte of the text and data sections at their addresses with the image's
    contents, a zeroed stack page below 3 GiB, and the kernel as the parent's
    directory does. *)
Theorem load_task_loads R S KT ret_syscall s ts P PK Q base h tid :
  loadable R S KT s P PK Q base h -> u32 (running ts) -> Sched.get_next_tid ts = Ok tid ->
  exists T FS s', Loader.load_task ret_syscall (KERNEL_V_START + P) (KERNEL_V_START + base) (Loader.mkOs s ts) =
      Ok (tid, Loader.mkOs s' (Sched.set_task ts tid (Sched.new_task T (running ts) tid))) /\
    section_mapped (pm s') T (vma_text h) (text_size h) (pm s) (base + lma_text h) /\
    section_mapped (pm s') T (vma_data h) (data_size h) (pm s) (base + lma_data h) /\
    (forall o, 0 <= o < 4096 -> walk (pm s') T (Sched.USTACK_FRAME + o) = Some (FS + o) /\ load8 (pm s') (FS + o) = 0) /\
    forall va, KERNEL_V_START <= va < 0xFF800000 -> walk (pm s') T va = walk (pm s') P va.
Proof.
  intros Hld Hcur Htid. destruct (load_task_machine R S KT ret_syscall s ts P PK Q base h tid Hld Hcur Htid) as (T & s' & H & [_ ((HT & _) & _) Hker _ (FS & Hp) _ _ Hkeep]).
  pose proof Hld as [_ _ (HP & HP16 & HPS) _ _ (_ & _ & (_ & HQ16 & _) & _) _ _ _ _].
  exists T, FS, s'. split; [exact H|]. split; [apply Hp|]. split; [apply Hp|]. split; [apply Hp|]. intros va Hva. change KERNEL_V_START with 3221225472 in Hva.
  assert (768 <= PAGE_DIR_INDEX va < 1022) by (rewrite dir_index_div; Z.to_euclidean_division_equations; lia).
  apply walk_same_entry; [done|done|]. rewrite Hker by done. symmetry. apply Hkeep; [done|unfold idx; lia|left; lia|done|lia].
Qed.

(** The first word of the program's text, seen from the new task. *)
Lemma load_task_loads_witness :
  exists m T s' ts' p, Loader.load_task 0xC0001000 (KERNEL_V_START + pt_base (-1)) (KERNEL_V_START + 0x900000) (Loader.mkOs (example_machine m) Sched.sched0) =
      Ok (0, Loader.mkOs s' ts') /\ walk (pm s') T 1 = Some p /\ load8 (pm s') p = load8 (pm (example_machine m)) 0x90001d.
Proof.
  destruct (map_pg_dir0_spec boot_mm eq_refl) as (m & _ & Hi & Ho).
  destruct (load_task_loads _ _ _ 0xC0001000 _ Sched.sched0 _ _ _ _ _ 0 (example_loadable m Hi)) as (T & FS & s' & H & Ht & _); [vm_compute; split; congruence|reflexivity|].
  destruct (Ht 1) as (p & H1 & H2); [vm_compute; split; congruence|]. exists m, T, s'. eexists. exists p. split; [exact H|]. split; [exact H1|exact H2].
Defined.

(** C12. Separation: every page the new task can reach below 3 GiB was idle before
    the load and is marked in use after it, and the load changes no word of any
    page in use before, except in the page of the temporary slots and in the
    kernel stack page. *)
Theorem load_task_isolated R S KT ret_syscall s ts P PK Q base h tid :
  loadable R S KT s P PK Q base h -> u32 (running ts) -> Sched.get_next_tid ts = Ok tid ->
  exists T s', Loader.load_task ret_syscall (KERNEL_V_START + P) (KERNEL_V_START + base) (Loader.mkOs s ts) =
      Ok (tid, Loader.mkOs s' (Sched.set_task ts tid (Sched.new_task T (running ts) tid))) /\
    taken s s' T /\ (forall va p, 0 <= va < KERNEL_V_START -> walk (pm s') T va = Some p -> taken s s' (page_of p)) /\
    (forall p, page p -> held s p -> held s' p) /\
    forall p j, page p -> idx j -> held s p -> p <> S -> p <> Q -> word (pm s') p j = word (pm s) p j.
Proof.
  intros Hld Hcur Htid. destruct (load_task_machine R S KT ret_syscall s ts P PK Q base h tid Hld Hcur Htid) as (T & s' & H & [_ Hn _ _ (FS & Hp) _ Hm Hkeep]).
  exists T, s'. split; [exact H|]. split; [exact Hn|]. split; [apply Hp|]. split; [exact Hm|exact Hkeep].
Qed.

Lemma load_task_isolated_witness :
  exists m T s' ts', Loader.load_task 0xC0001000 (KERNEL_V_START + pt_base (-1)) (KERNEL_V_START + 0x900000) (Loader.mkOs (example_machine m) Sched.sched0) =
      Ok (0, Loader.mkOs s' ts') /\ taken (example_machine m) s' T /\ load32 (pm s') 0x90001c = 0x90909090.
Proof.
  destruct (map_pg_dir0_spec boot_mm eq_refl) as (m & _ & Hi & Ho).
  destruct (load_task_isolated _ _ _ 0xC0001000 _ Sched.sched0 _ _ _ _ _ 0 (example_loadable m Hi)) as (T & s' & H & Hn & _ & _ & Hk); [vm_compute; split; congruence|reflexivity|].
  exists m, T, s'. eexists. split; [exact H|]. split; [exact Hn|].
  change (word (pm s') 0x900000 7 = 0x90909090). rewrite Hk; [by apply example_poked; [concrete..|]|concrete|concrete|left; lia|unfold pt_base; lia|lia].
Defined.

(** [spawn_ram] on the whole machine. *)
Lemma spawn_ram_spec R S KT ret_syscall s ts PK Q base h tid :
  loadable R S KT s PG_DIR0_ADDR PK Q base h -> Sched.sched_inv ts -> Sched.get_next_tid ts = Ok tid ->
  exists T RT SY s' ts', Loader.spawn_ram ret_syscall (KERNEL_V_START + base) (Loader.mkOs s ts) = Ok ((), Loader.mkOs s' ts') /\
    Sched.spawn_ram ts T = Ok ts' /\ Sched.sched_inv ts' /\ Sched.current ts' = tid /\ taken s s' T /\
    cr3 s' = T /\ Sched.cpu_cr3 ts' = T /\ ready RT SY s' /\ kmap SY KT s' /\
    exists s1, s' = mkMm (pm s1) T true (frames s1) /\ task_space R S KT s s1 PG_DIR0_ADDR Q base h T (stack_words ret_syscall T (running ts) tid).
Proof.
  intros Hld Hinv Htid. assert (Hcur : running ts = Sched.current ts) by apply (Sched.inv_live _ Hinv), (Sched.inv_cur _ Hinv).
  assert (Hrc : Sched.in_range (Sched.current ts)) by apply (Sched.inv_cur _ Hinv).
  destruct (load_task_machine R S KT ret_syscall s ts PG_DIR0_ADDR PK Q base h tid Hld) as (T & s1 & H & Hts);
    [rewrite Hcur; unfold Sched.in_range, Sched.MAX_TASK_NUM in Hrc; lia|done|].
  pose proof Hts as [Hr1 Hn _ (RT & SY & Hr & Hk) _ _ _ _].
  assert (Htr : Sched.in_range tid) by (apply Sched.next_tid_loop_spec in Htid; unfold Sched.in_range; Sched.sched_consts; lia).
  set (ts1 := Sched.set_task ts tid (Sched.new_task T (running ts) tid)) in *.
  assert (Ha : Sched.load_task ts T = Ok (ts1, tid)) by (apply Sched.load_task_next; [apply Hinv|done|done]).
  destruct (Sched.load_task_inv ts T ts1 tid Hinv Ha) as (Hi1 & Hc1 & Hne & _ & Hlv). assert (Hl1 : Sched.live ts1 tid) by (apply Hlv; by right).
  destruct (Sched.switch_cpu ts1 tid) as (Hc2 & _ & Hd2 & _); [apply Hi1|by rewrite Hc1|done|rewrite Hc1; by apply not_eq_sym|].
  assert (Hd : Sched.cpu_cr3 (Sched.__context_switch ts1 tid) = T) by (rewrite Hd2; unfold ts1; by rewrite Sched.task_at_set_eq by (done || apply Hinv)).
  exists T, RT, SY, (mkMm (pm s1) T true (frames s1)), (Sched.__context_switch ts1 tid). split; [|split; [|split; [|split; [done|split; [done|split; [done|split; [done|split; [done|split; [done|by exists s1]]]]]]]]].
  - unfold Loader.spawn_ram. erewrite K_bind_eq by exact H. unfold Loader.switch_to. cbn [Loader.tasks Loader.mach]. by rewrite Hd, (sp_on _ _ _ (r_sp _ _ _ Hr1)).
  - unfold Sched.spawn_ram. by rewrite Ha, res_bind_Ok.
  - apply Sched.switch_inv; [done|done|by rewrite Hc1].
Qed.

(** C13. Starting a program: [spawn_ram] on the whole machine does to the task
    table what the scheduler's abstract [spawn_ram] does with the new directory,
    and keeps the scheduler's invariant; the new task runs, the processor
    translates with its directory, and in it the kernel's map and its temporary
    mappings are in place again, as the kernel's memory management needs them. *)
Theorem spawn_ram_refines R S KT ret_syscall s ts PK Q base h tid :
  loadable R S KT s PG_DIR0_ADDR PK Q base h -> Sched.sched_inv ts -> Sched.get_next_tid ts = Ok tid ->
  exists T RT SY s' ts', Loader.spawn_ram ret_syscall (KERNEL_V_START + base) (Loader.mkOs s ts) = Ok ((), Loader.mkOs s' ts') /\
    Sched.spawn_ram ts T = Ok ts' /\ Sched.sched_inv ts' /\ Sched.current ts' = tid /\ taken s s' T /\
    cr3 s' = T /\ Sched.cpu_cr3 ts' = T /\ ready RT SY s' /\ kmap SY KT s'.
Proof.
  intros Hld Hinv Htid. destruct (spawn_ram_spec R S KT ret_syscall s ts PK Q base h tid Hld Hinv Htid) as (T & RT & SY & s' & ts' & H1 & H2 & H3 & H4 & H5 & H6 & H7 & H8 & H9 & _).
  by exists T, RT, SY, s', ts'.
Qed.

(** After start-up the next program becomes task 2. *)
Lemma spawn_ram_refines_witness :
  exists m ts T s' ts', Sched.init_task0 Sched.sched0 0x100000 0 0x1400000 = Ok ts /\
    Loader.spawn_ram 0xC0001000 (KERNEL_V_START + 0x900000) (Loader.mkOs (example_machine m) ts) = Ok ((), Loader.mkOs s' ts') /\
    Sched.spawn_ram ts T = Ok ts' /\ Sched.current ts' = 2 /\ cr3 s' = T.
Proof.
  destruct (map_pg_dir0_spec boot_mm eq_refl) as (m & _ & Hi & Ho).
  destruct (Sched.init_task0_spec Sched.sched0 0x100000 0 0x1400000 (proj1 Sched.sched0_ok) (proj2 Sched.sched0_ok)) as (ts & Hts & Hinv & _).
  assert (Hn : match Sched.init_task0 Sched.sched0 0x100000 0 0x1400000 with Ok x => Sched.get_next_tid x = Ok 2 | _ => True end) by (vm_compute; reflexivity).
  rewrite Hts in Hn.
  destruct (spawn_ram_refines _ _ _ 0xC0001000 _ ts _ _ _ _ 2 (example_loadable m Hi) Hinv Hn) as (T & RT & SY & s' & ts' & H & Ha & _ & Hc & _ & Hcr & _).
  exists m, ts, T, s', ts'. split; [exact Hts|]. split; [exact H|]. split; [exact Ha|]. by split.
Defined.

(** C14. The stack a task starts on: under the new directory the saved stack
    pointer of the table entry finds zeroed flags and registers, the address of
    [__ret_syscall] to which the context switch returns, the user segments,
    flags and stack pointer of the first trap frame, and the task's own [Task]
    structure.  The page is the one the parent's directory has for its kernel
    stack: all tasks run on the same page. *)
Theorem load_task_first_stack R S KT ret_syscall s ts P PK Q base h tid :
  loadable R S KT s P PK Q base h -> u32 (running ts) -> Sched.get_next_tid ts = Ok tid -> u32 ret_syscall ->
  exists T s', Loader.load_task ret_syscall (KERNEL_V_START + P) (KERNEL_V_START + base) (Loader.mkOs s ts) =
      Ok (tid, Loader.mkOs s' (Sched.set_task ts tid (Sched.new_task T (running ts) tid))) /\
    (forall k, 0 <= k < 26 -> exists p, walk (pm s') T (Sched.esp (Sched.new_task T (running ts) tid) + 4 * k) = Some p /\
       load32 (pm s') p = nthZ (first_stack ret_syscall T (running ts) tid) k) /\
    forall o, 0 <= o < 4096 -> walk (pm s') T (Sched.KSTACK_FRAME + o) = Some (Q + o) /\ walk (pm s') P (Sched.KSTACK_FRAME + o) = Some (Q + o).
Proof.
  intros Hld Hcur Htid Hret. destruct (load_task_machine R S KT ret_syscall s ts P PK Q base h tid Hld Hcur Htid) as (T & s' & H & [_ (Hu & _) Hker _ _ Hstk _ Hkeep]).
  pose proof Hld as [_ _ (HP & HP16 & HPS) _ (HeK & HK & _ & HhK & HnK) (HeQ & _ & (HQ & HQ16 & _) & _ & HnQ & _) _ _ _ _].
  assert (HT : page T) by apply Hu. assert (HuT : u32 T) by (unfold page in HT; lia).
  assert (Ht : u32 tid) by (apply Sched.next_tid_loop_spec in Htid; Sched.sched_consts; lia).
  assert (HPK : entry (word (pm s') PK 1023) Q) by (rewrite Hkeep; [done|done|unfold idx; lia|done|clear -HnK; set_solver|clear -HnQ; set_solver]).
  assert (HTK : entry (word (pm s') T 1021) PK) by (by rewrite Hker by lia).
  assert (HPP : entry (word (pm s') P 1021) PK) by (rewrite Hkeep; [done|done|unfold idx; lia|left; lia|done|lia]).
  assert (Hw : forall o, 0 <= o < 4096 -> walk (pm s') T (Sched.KSTACK_FRAME + o) = Some (Q + o)) by (intros o Ho; by apply (kstack_walk _ _ PK)).
  exists T, s'. split; [exact H|]. split.
  - intros k Hk. exists (Q + 4 * (998 + k)). split; [|fold (word (pm s') Q (998 + k)); rewrite Hstk by (unfold idx; lia); by apply stack_words_first].
    rewrite <- Hw by lia. f_equal. change (Sched.esp (Sched.new_task T (running ts) tid)) with (Sched.KSTACK_FRAME + 4 * 998). lia.
  - intros o Ho. split; [by apply Hw|by apply (kstack_walk _ _ PK)].
Qed.

Lemma load_task_first_stack_witness :
  exists m T s' ts' p, Loader.load_task 0xC0001000 (KERNEL_V_START + pt_base (-1)) (KERNEL_V_START + 0x900000) (Loader.mkOs (example_machine m) Sched.sched0) =
      Ok (0, Loader.mkOs s' ts') /\ walk (pm s') T (Sched.esp (Sched.new_task T 0 0) + 4 * 9) = Some p /\ load32 (pm s') p = 0xC0001000.
Proof.
  destruct (map_pg_dir0_spec boot_mm eq_refl) as (m & _ & Hi & Ho).
  destruct (load_task_first_stack _ _ _ 0xC0001000 _ Sched.sched0 _ _ _ _ _ 0 (example_loadable m Hi)) as (T & s' & H & Hs & _);
    [vm_compute; split; congruence|reflexivity|lia|].
  destruct (Hs 9 ltac:(lia)) as (p & H1 & H2). exists m, T, s'. eexists. exists p. split; [exact H|]. split; [exact H1|exact H2].
Defined.
