(* ===== verification/LoaderInit.v ===== *)
(** * The start of the first tasks over memory (kernel/task.c)

    [init_task0] makes the running code task 0: it creates the kernel stack in
    the running directory itself, whose entry 1021 is still empty, enters the
    task in the table, and loads and starts the first program.  The theorem
    composes this with [spawn_ram]. *)
From S2P Require Import Prelude CMem Malloc Common Frame Paging PagingThm EarlyConsole Early PagingTmp PagingMap PagingRegion Sched Loader LoaderCopy LoaderSpace LoaderStack LoaderImage LoaderProgram LoaderThm LoaderTask.
Import Paging Frame.

Section Init.
Context (R S : Z).

(** ** The kernel stack in the running directory *)

Lemma aim_own s t :
  ready R S s -> idx t -> entry (word (pm s) S t) (cr3 s) -> cr3 s <> R -> R <> 0 -> aim R S t (cr3 s) R s.
Proof.
  intros Hr Ht He Hne H0. destruct (ready_page R S s (cr3 s) Hr ltac:(by left)) as [HT HhT]. destruct (ready_page R S s R Hr ltac:(by right; left)) as [HR HhR].
  destruct (r_sp _ _ _ Hr) as [_ _ _ _ [N1 N2] Hrev _ _]. split; [done|split_and!; try done; set_solver|done|split_and!; try done; set_solver|by right].
Qed.

(** What the new stack changes: the table [PK] and the page [Q]. *)
Record stack_made (s s' : mm) (PK Q : Z) : Prop := {
  sm_ready : ready R S s';
  sm_cr3 : cr3 s' = cr3 s;
  sm_mono : forall p, page p -> held s p -> held s' p;
  sm_PK : taken s s' PK;
  sm_Q : taken s s' Q;
  sm_ne : Q <> PK;
  sm_dir : entry (word (pm s') (cr3 s) 1021) PK;
  sm_tab : entry (word (pm s') PK 1023) Q /\ PAGE_ENTRY_SET (word (pm s') PK 0) = true;
  sm_keep : forall p j, page p -> idx j -> held s p -> p <> S -> (p <> cr3 s /\ p <> R) \/ j <> 1021 -> word (pm s') p j = word (pm s) p j;
}.

(** The request creates the table and two pages, the second at entry 0 of the
    same table, although its address belongs to the next directory entry. *)
Lemma request_stack s t k :
  ready R S s -> idx t -> entry (word (pm s) S t) (cr3 s) -> cr3 s <> R -> R <> 0 ->
  PAGE_ENTRY_SET (word (pm s) (cr3 s) 1021) = false -> idles (3 + k) s -> frees S 3 s ->
  exists PK Q s', request_region_vmap (Loader.rounds FRAME_SIZE) (IX_TO_VA 1022 t) Sched.KSTACK_FRAME FRAME_SIZE PAGE_FLG_KERNEL s = Ok (1, s') /\
    stack_made s s' PK Q /\ ext R S [PK] s s' /\ (forall j, idx j -> word (pm s') Q j = 0) /\ idles k s' /\ forall n, frees S (1 + n) s -> frees S n s'.
Proof.
  intros Hr Ht He Hne H0 Hset Hid Hf. destruct PAGE_FLG_KERNEL_odd as [Hfl Hodd]. pose proof (aim_own s t Hr Ht He Hne H0) as Ham.
  pose proof (region_aim R S t (cr3 s) R s k (Loader.rounds FRAME_SIZE) Sched.KSTACK_FRAME FRAME_SIZE PAGE_FLG_KERNEL) as Hs. cbv zeta in Hs.
  change (Sched.KSTACK_FRAME / 4096) with 1046527 in Hs. change ((Sched.KSTACK_FRAME + FRAME_SIZE) / 4096) with 1046528 in Hs.
  change (Z.to_nat (1046528 - 1046527 + 1)) with 2%nat in Hs. change (tis 2 (4096 * 1046527)) with [1023; 0] in Hs. change (1046527 / 1024) with 1021 in Hs.
  change (Z.to_nat (1046528 - 1046527 + 1 + 1)) with 3%nat in Hs. change (Z.of_nat (Loader.rounds FRAME_SIZE)) with 5 in Hs. pose proof kstack_u32 as Hu.
  destruct Hs as (PK & s' & H1 & [E (P1 & P2 & P3) Hdir Hfresh _ Hnew Hinj Hkeep] & Hk & Hfr);
    [done|done|done|unfold FRAME_SIZE; lia|lia|lia|by left|lia| |done|done|lia|done|done|].
  { intros q Hq. replace q with 1046528 by lia. right. apply (sp_dir _ _ _ (r_sp _ _ _ Hr)). }
  destruct (Hfresh Hset) as [HuK HnK]. assert (Htab : forall j, tab (cr3 s) s PK 1021 j = 0) by (intros j; unfold tab; by rewrite Hset).
  destruct (Hnew 1023) as (Q & EQ & (Q1 & Q2 & Q3 & Q4) & HQK); [unfold idx; lia|by left|by rewrite Htab|].
  destruct (Hnew 0) as (Q' & EQ' & (Q1' & _) & _); [unfold idx; lia|by right; left|by rewrite Htab|].
  exists PK, Q, s'. split; [done|]. split; [|split; [done|split; [done|split; [done|exact Hfr]]]].
  split; [by apply (ext_ready _ _ _ _ _ Hr E)|apply E|apply E|done|done|done|done| |].
  - rewrite EQ, EQ'. split; apply entry_flags; done || apply Q1 || apply Q1'.
  - intros p j Hp Hj Hh HpS Hc. apply Hkeep; try done; [by intros ->|]. by right.
Qed.

Lemma map_kstack_own s k :
  ready R S s -> cr3 s <> R -> R <> 0 -> PAGE_ENTRY_SET (word (pm s) (cr3 s) 1021) = false -> idles (3 + k) s -> frees S 4 s ->
  exists t q PK Q s', Loader.map_kstack (cr3 s) s = Ok ((IX_TO_VA 1022 t, IX_TO_VA 1022 q), s') /\ idx t /\ idx q /\ t <> q /\
    entry (word (pm s') S t) (cr3 s) /\ entry (word (pm s') S q) Q /\ stack_made s s' PK Q /\
    (forall j, idx j -> word (pm s') Q j = 0) /\ idles k s' /\ forall n, frees S (3 + n) s -> frees S n s'.
Proof.
  intros Hr Hne H0 Hset Hid Hf. destruct (ready_page R S s (cr3 s) Hr ltac:(by left)) as [HT HhT]. destruct (ready_S _ _ _ Hr) as [HS HhS].
  assert (HTS : cr3 s <> S) by apply (r_sp _ _ _ Hr).
  destruct (open_slot R S s (cr3 s) Hr HT) as (t & s1 & H1 & Ht & Hft & Hso1 & He1 & HwS1); [eapply frees_le; [|exact Hf]; lia|].
  pose proof (slots_only_ready _ _ _ _ _ Hr Hso1) as Hr1. pose proof (so_word _ _ _ _ _ Hso1) as Hw1. pose proof (e_cr3 _ _ _ _ _ (so_ext _ _ _ _ _ Hso1)) as Hc1.
  assert (Hh1 : forall p, held s1 p <-> held s p) by (intros p; by apply (slots_only_held _ _ _ _ _ _ Hso1)).
  destruct (request_stack s1 t k Hr1 Ht) as (PK & Q & s2 & H2 & Hsm & E2 & Hz2 & Hk2 & Hf2);
    [by rewrite Hc1|by rewrite Hc1|done|rewrite Hc1, Hw1; [done|done|unfold idx; lia|done]|by eapply slots_only_idles|by apply (get_slot_frees S s s1 t)|].
  destruct Hsm as [Hr2 Hc2 Hm2 (UK & NK & GK) (UQ & NQ & GQ) HQK Hdir [Htab H0tab] Hkeep]. rewrite Hc1 in *.
  assert (HKT : cr3 s ∉ [PK]) by (intros E%list_elem_of_singleton; apply NK, Hh1; by rewrite <- E).
  assert (HKS : PK <> S) by (intros ->; by apply NK, Hh1). assert (HQS : Q <> S) by (intros ->; by apply NQ, Hh1).
  pose proof (e_slot _ _ _ _ _ E2 t (cr3 s) Ht He1 HKT) as He2.
  assert (Hfr2 : forall n, frees S (2 + n) s -> frees S n s2) by (intros n Hn; apply Hf2; by apply (get_slot_frees S s s1 t)).
  destruct (phy_spec R S s2 t (cr3 s) PK Q Sched.KSTACK_FRAME Hr2 Ht He2 HT kstack_u32) as (s3 & H3 & Hso3 & Hf3);
    [done|apply UK|done|done|apply Hfr2; eapply frees_le; [|exact Hf]; lia|].
  pose proof (slots_only_ready _ _ _ _ _ Hr2 Hso3) as Hr3. pose proof (so_ext _ _ _ _ _ Hso3) as E3.
  destruct (open_slot R S s3 Q Hr3) as (q & s4 & H4 & Hq & Hfq & Hso4 & He4 & HwS4); [apply UQ|apply Hf3, Hfr2; eapply frees_le; [|exact Hf]; lia|].
  pose proof (e_slot _ _ _ _ _ E3 t (cr3 s) Ht He2 HKT) as He3. pose proof (so_ext _ _ _ _ _ Hso4) as E4.
  assert (Hneq : t <> q) by (intros ->; unfold slot_free in Hfq; destruct He3; congruence).
  assert (Hw4 : forall p j, page p -> idx j -> p <> S -> word (pm s4) p j = word (pm s2) p j)
    by (intros p j Hp Hj Hn; by rewrite (so_word _ _ _ _ _ Hso4), (so_word _ _ _ _ _ Hso3)).
  assert (Hh4 : forall p, held s4 p <-> held s2 p) by (intros p; by rewrite (slots_only_held _ _ _ _ _ _ Hso4), (slots_only_held _ _ _ _ _ _ Hso3)).
  exists t, q, PK, Q, s4. split.
  { unfold Loader.map_kstack. erewrite M_bind_eq by exact H1. erewrite M_bind_eq by exact H2. erewrite M_bind_eq by exact H3. erewrite M_bind_eq by exact H4. done. }
  split; [done|]. split; [done|]. split; [done|].
  split; [apply (e_slot _ _ _ _ _ E4); [done|done|by intros ?%elem_of_nil]|]. split; [done|]. split; [|split; [|split]].
  - split; [by eapply slots_only_ready|pose proof (e_cr3 _ _ _ _ _ E3); pose proof (e_cr3 _ _ _ _ _ E4); congruence|..].
    + intros p Hp Hh. apply Hh4, Hm2; [done|by apply Hh1].
    + split; [done|]. rewrite <- Hh1, Hh4. done.
    + split; [done|]. rewrite <- Hh1, Hh4. done.
    + done.
    + rewrite Hw4; [done|done|unfold idx; lia|done].
    + rewrite !Hw4; [done|apply UK|unfold idx; lia|done|apply UK|unfold idx; lia|done].
    + intros p j Hp Hj Hh Hn Hc. rewrite Hw4, Hkeep by (done || by apply Hh1). by apply Hw1.
  - intros j Hj. rewrite Hw4; [by apply Hz2|apply UQ|done|done].
  - eapply slots_only_idles; [exact Hso4|]. by eapply slots_only_idles.
  - intros n Hn. apply (get_slot_frees S s3 s4 q); [done|]. by apply Hf3, Hfr2.
Qed.

(** The task structure of the running code on its new stack.  The page was
    cleared, so the saved stack pointer of the entry is 0. *)
Lemma alloc_own s ts cur tid k :
  ready R S s -> cr3 s <> R -> R <> 0 -> PAGE_ENTRY_SET (word (pm s) (cr3 s) 1021) = false -> idles (3 + k) s -> frees S 4 s ->
  u32 cur -> Sched.get_next_tid ts = Ok tid -> 0 <= tid < 32 ->
  exists q PK Q s', Loader.alloc_kstack_and_task (cr3 s) cur (Loader.mkOs s ts) =
      Ok (IX_TO_VA 1022 q, Loader.mkOs s' (Sched.set_task ts tid (Sched.mkTask 0 (cr3 s) ESP0 cur tid Sched.TASK_PRESENT 10))) /\
    idx q /\ entry (word (pm s') S q) Q /\ stack_made s s' PK Q /\ word (pm s') Q 1021 = tid /\ idles k s' /\ forall n, frees S (3 + n) s -> frees S n s'.
Proof.
  intros Hr Hne H0 Hset Hid Hf Huc Htid Ht32. destruct (map_kstack_own s k Hr Hne H0 Hset Hid Hf) as (t & q & PK & Q & s1 & H1 & Ht & Hq & Htq & Het & Heq & Hsm & Hz & Hk1 & Hf1).
  destruct Hsm as [Hr1 Hc1 Hm1 (UK & NK & GK) (UQ & NQ & GQ) HQK Hdir Htab Hkeep]. pose proof (ready_S _ _ _ Hr) as [HS HhS].
  destruct (ready_page R S s (cr3 s) Hr ltac:(by left)) as [HT HhT]. destruct (ready_page R S s R Hr ltac:(by right; left)) as [HR HhR].
  assert (HnQ : Q ∉ [cr3 s; R; S]) by (intros Hin; apply NQ; repeat (apply elem_of_cons in Hin as [->|Hin]; [done|]); by apply elem_of_nil in Hin).
  destruct (fill_task_spec R S s1 ts t q (cr3 s) Q (cr3 s) cur tid) as (s8 & s9 & H9 & W8 & Hso9 & Hft9 & HwS9); try done; [apply UQ|by rewrite Hc1|unfold page in HT; lia|].
  assert (Hw : forall p j, page p -> idx j -> p <> S -> word (pm s9) p j = if decide (p = Q) then upd (task_words (cr3 s) cur tid) j 0 else word (pm s1) p j).
  { intros p j Hp Hj Hn. rewrite (so_word _ _ _ _ _ Hso9), (w_word _ _ _ _ _ _ W8) by done. case_decide; [subst; by rewrite Hz|done]. }
  assert (Hh : forall p, held s9 p <-> held s1 p).
  { intros p. rewrite (slots_only_held _ _ _ _ _ _ Hso9). unfold held. by rewrite (w_frames _ _ _ _ _ _ W8). }
  assert (HQS : Q <> S) by set_solver. assert (HKS : PK <> S) by (by intros ->). pose proof (w_ext _ _ _ _ _ _ W8) as E8.
  exists q, PK, Q, s9. split; [|split; [done|split; [|split; [|split; [|split]]]]].
  - unfold Loader.alloc_kstack_and_task. erewrite mem_bind by exact H1. cbv beta iota. rewrite H9. by rewrite Hz by (unfold idx; lia).
  - rewrite HwS9 by (done || by apply not_eq_sym). rewrite (w_word _ _ _ _ _ _ W8), decide_False by (done || by apply not_eq_sym). done.
  - split; [by eapply slots_only_ready, Hso9; eapply ext_ready|pose proof (e_cr3 _ _ _ _ _ E8); pose proof (e_cr3 _ _ _ _ _ (so_ext _ _ _ _ _ Hso9)); congruence|..].
    + intros p Hp G. by apply Hh, Hm1.
    + split; [done|]. by rewrite Hh.
    + split; [done|]. by rewrite Hh.
    + done.
    + rewrite Hw, decide_False; [done|by intros E; apply NQ; rewrite <- E|done|unfold idx; lia|apply (r_sp _ _ _ Hr)].
    + rewrite !Hw, !decide_False; [done|..]; try done; try (by apply not_eq_sym); try (unfold idx; lia); apply UK.
    + intros p j Hp Hj G Hn Hc. rewrite Hw, decide_False by (done || by intros ->). by apply Hkeep.
  - rewrite Hw, decide_True by (done || (unfold idx; lia) || apply UQ). change (upd (task_words (cr3 s) cur tid) 1021 0) with (wrap32 tid). apply wrap32_small. lia.
  - eapply slots_only_idles; [exact Hso9|]. by eapply wrote_idles.
  - intros n Hn. apply (close_frees S s8 s9 t); [done|done|]. apply (wrote_frees R S Q (task_words (cr3 s) cur tid) s1); [done|done|done|by apply Hf1].
Qed.

(** ** The first tasks *)

Context (KT : Z -> Z).

(** What [init_task0] starts from: the kernel runs with its first directory,
    which maps it and has no kernel stack yet, and a program's image lies in
    memory away from the directory, its reverse table and the slots. *)
Record startable (s : mm) (base : Z) (h : TsExHeader) : Prop := {
  st_ready : ready R S s;
  st_kmap : kmap S KT s;
  st_dir : cr3 s = PG_DIR0_ADDR;
  st_rev : R <> 0 /\ cr3 s <> R;
  st_tables : forall i, 0 <= i < 4 -> KT i ∉ [cr3 s; R];
  st_empty : PAGE_ENTRY_SET (word (pm s) (cr3 s) 1021) = false;
  st_header : header_at (pm s) base h;
  st_program : forall D, D ∈ [cr3 s; R; S] -> program_ok D base h;
  st_frames : idles (3 + (6 + (Z.to_nat (text_size h / 4096 + 2) + (Z.to_nat (data_size h / 4096 + 2) + 3)))) s;
  st_slots : frees S 15 s;
}.

Lemma made_byte s s' PK Q a :
  stack_made s s' PK Q -> 0 <= a < 16777216 -> page_of a ∉ [cr3 s; R; S] -> load8 (pm s') a = load8 (pm s) a.
Proof.
  intros Hsm Ha Hn. apply keep_byte; [done|]. intros j Hj. destruct (page_of_page a Ha) as (Hp & E & _). pose proof (Z.mod_pos_bound a 4096 ltac:(lia)).
  apply (sm_keep _ _ _ _ Hsm); [done|done|left; lia|set_solver|left; set_solver].
Qed.

(** Bytes of a range that is clear of the three pages. *)
Lemma made_range s s' PK Q a n b :
  ready R S s -> stack_made s s' PK Q -> 0 <= a -> a + n <= 16777216 -> (forall D, D ∈ [cr3 s; R; S] -> clear_of D a n) ->
  a <= b < a + n -> load8 (pm s') b = load8 (pm s) b.
Proof.
  intros Hr Hsm H0 H1 Hc Hb. apply (made_byte s s' PK Q); [done|lia|]. intros Hin.
  apply (clear_page (page_of b) a n b); [|by apply Hc|done|done]. by apply (ready_page R S s).
Qed.

Lemma header_bytes m m' base h :
  (forall a, base <= a < base + 28 -> load8 m' a = load8 m a) -> header_at m base h -> header_at m' base h.
Proof.
  intros Hb []. assert (Hw : forall d, 0 <= d <= 24 -> load32 m' (base + d) = load32 m (base + d)) by (intros d Hd; apply load32_same; intros b Hb'; apply Hb; lia).
  split; rewrite Hw; done.
Qed.

Lemma made_image s s' PK Q base h :
  startable s base h -> stack_made s s' PK Q ->
  header_at (pm s') base h /\
  (forall a, base + lma_text h <= a < base + lma_text h + text_size h -> load8 (pm s') a = load8 (pm s) a) /\
  (forall a, base + lma_data h <= a < base + lma_data h + data_size h -> load8 (pm s') a = load8 (pm s) a).
Proof.
  intros Hs Hsm. pose proof (st_ready _ _ _ Hs) as Hr. pose proof (st_program _ _ _ Hs) as Hp.
  assert (Hsz : forall n, 0 <= n -> n <= 4096 * pages n) by (intros n Hn; unfold pages; Z.to_euclidean_division_equations; lia).
  destruct (Hp S) as [(B1 & B2 & _) (_ & _ & S1 & _) (_ & _ & S2) _ (T1 & T2 & _) (D1 & D2 & _)]; [set_solver|].
  split; [|split].
  - eapply header_bytes; [|apply Hs]. intros a Ha. apply (made_range s s' PK Q base 28); try done. intros D HD. apply (Hp D HD).
  - intros a Ha. pose proof (Hsz _ S1). apply (made_range s s' PK Q (base + lma_text h) (4096 * pages (text_size h))); try done; [lia| |lia]. intros D HD. apply (Hp D HD).
  - intros a Ha. pose proof (Hsz _ S2). apply (made_range s s' PK Q (base + lma_data h) (4096 * pages (data_size h))); try done; [lia| |lia]. intros D HD. apply (Hp D HD).
Qed.

Lemma made_kmap s s' PK Q base h : startable s base h -> stack_made s s' PK Q -> kmap S KT s'.
Proof.
  intros Hs Hsm i Hi. destruct (st_kmap _ _ _ Hs i Hi) as (K1 & K2 & K3 & K4 & K5). pose proof (st_tables _ _ _ Hs i Hi) as Hn.
  destruct (ready_page R S s (cr3 s) (st_ready _ _ _ Hs) ltac:(by left)) as [HT HhT]. assert (HTS : cr3 s <> S) by apply (r_sp _ _ _ (st_ready _ _ _ Hs)).
  split; [done|]. split; [by apply Hsm|]. split; [done|]. split.
  - rewrite (sm_cr3 _ _ _ _ Hsm), (sm_keep _ _ _ _ Hsm); [done|done|unfold idx; lia|done|done|right; lia].
  - intros j Hj. rewrite (sm_keep _ _ _ _ Hsm); [by apply K5|done|done|done|done|left; set_solver].
Qed.

(** With the stack the first program can be loaded. *)
Lemma made_loadable s s' PK Q base h :
  startable s base h -> stack_made s s' PK Q ->
  idles (6 + (Z.to_nat (text_size h / 4096 + 2) + (Z.to_nat (data_size h / 4096 + 2) + 3))) s' -> frees S 12 s' ->
  loadable R S KT s' PG_DIR0_ADDR PK Q base h.
Proof.
  intros Hs Hsm Hid Hf. pose proof (made_kmap s s' PK Q base h Hs Hsm) as Hk. pose proof (st_ready _ _ _ Hs) as Hr. pose proof (st_dir _ _ _ Hs) as Hd.
  pose proof (sm_cr3 _ _ _ _ Hsm) as Hc. destruct (made_image s s' PK Q base h Hs Hsm) as (Hh & _). destruct (sm_PK _ _ _ _ Hsm) as (UK & NK & GK). destruct (sm_Q _ _ _ _ Hsm) as (UQ & NQ & GQ).
  assert (Hin : forall p, p ∈ [cr3 s; R; S] -> held s p) by (intros p Hp; by apply (ready_page R S s p Hr)).
  split; [apply Hsm|done| | | | |done|apply Hs; set_solver|done|done].
  - rewrite <- Hd. split; [apply (ready_page R S s _ Hr); by left|]. split; [rewrite Hd; by vm_compute|apply (r_sp _ _ _ Hr)].
  - intros i Hi. destruct (Hk i Hi) as (_ & _ & _ & He & _). by rewrite <- Hd, <- Hc.
  - rewrite <- Hd. split; [apply Hsm|]. split; [apply UK|]. split; [destruct UK as (_ & ? & _); lia|]. split; [done|]. rewrite Hc. intros G. by apply NK, Hin.
  - split; [apply Hsm|]. split; [apply Hsm|]. split; [done|]. split; [done|]. split; [|intros i Hi ->; by apply NQ, (st_kmap _ _ _ Hs i Hi)].
    rewrite Hc. intros G. change [cr3 s; R; S; PK] with ([cr3 s; R; S] ++ [PK]) in G. apply elem_of_app in G as [G|G%list_elem_of_singleton]; [by apply NQ, Hin|by apply (sm_ne _ _ _ _ Hsm)].
Qed.

End Init.

(** [init_task0] on the whole machine. *)
Lemma init_task0_machine R S KT ret_syscall s ts base h garbage :
  startable R S KT s base h -> Sched.table_ok ts -> u32 (Sched.cpu_esp ts) -> u32 garbage ->
  exists T RT SY FS s' ts', Loader.init_task0 ret_syscall garbage base (Loader.mkOs s ts) = Ok ((), Loader.mkOs s' ts') /\
    Sched.init_task0 ts PG_DIR0_ADDR garbage T = Ok ts' /\ Sched.sched_inv ts' /\ Sched.current ts' = 1 /\
    taken s s' T /\ cr3 s' = T /\ Sched.cpu_cr3 ts' = T /\ ready RT SY s' /\ kmap SY KT s' /\
    section_mapped (pm s') T (vma_text h) (text_size h) (pm s) (base + lma_text h) /\
    section_mapped (pm s') T (vma_data h) (data_size h) (pm s) (base + lma_data h) /\
    (forall o, 0 <= o < 4096 -> walk (pm s') T (Sched.USTACK_FRAME + o) = Some (FS + o) /\ load8 (pm s') (FS + o) = 0) /\
    forall p j, page p -> idx j -> held s p -> p ∉ [PG_DIR0_ADDR; R; S] -> word (pm s') p j = word (pm s) p j.
Proof.
  intros Hs Hl He Hg. pose proof (st_ready _ _ _ _ _ _ Hs) as Hr. destruct (st_rev _ _ _ _ _ _ Hs) as [HR0 HcR]. pose proof (st_dir _ _ _ _ _ _ Hs) as Hd.
  destruct (alloc_own R S s (Sched.clear_tasks ts) garbage 0 _ Hr HcR HR0 (st_empty _ _ _ _ _ _ Hs) (st_frames _ _ _ _ _ _ Hs)) as (q & PK & Q & s1 & H1 & Hq & Heq & Hsm & Hw & Hid & Hf);
    [eapply frees_le; [|apply (st_slots _ _ _ _ _ _ Hs)]; lia|done|by apply Sched.cleared_tid|lia|].
  pose proof (made_loadable R S KT s s1 PK Q base h Hs Hsm Hid (Hf _ (st_slots _ _ _ _ _ _ Hs))) as Hld. rewrite Hd in H1.
  change (Sched.mkTask 0 PG_DIR0_ADDR ESP0 garbage 0 Sched.TASK_PRESENT 10) with (Sched.boot_task PG_DIR0_ADDR garbage) in H1.
  destruct (Sched.boot_sched_spec ts PG_DIR0_ADDR garbage Hl He) as (Hinv & _ & Hn).
  destruct (spawn_ram_spec R S KT ret_syscall s1 _ PK Q base h 1 Hld Hinv Hn) as (T & RT & SY & s' & ts' & G1 & G2 & G3 & G4 & G5 & G6 & G7 & G8 & G9 & s2 & Es & Hts).
  destruct (made_image R S KT s s1 PK Q base h Hs Hsm) as (_ & Bt & Bd). destruct (ts_program _ _ _ _ _ _ _ _ _ _ _ Hts) as (FS & Hp).
  destruct (sm_Q _ _ _ _ _ _ Hsm) as (UQ & NQ & GQ).
  exists T, RT, SY, FS, s', ts'. split; [|split; [by rewrite Sched.init_task0_eq|split_and!; try done]].
  - unfold Loader.init_task0. rewrite tasks_bind. erewrite K_bind_eq by reflexivity. erewrite K_bind_eq by exact H1.
    erewrite mem_bind; [|rewrite task_addr by done; replace (IX_TO_VA 1022 q + 4 * 1017 + 16) with (IX_TO_VA 1022 q + 4 * 1021) by lia;
      apply (rd_temp s1 R S (r_sp _ _ _ (sm_ready _ _ _ _ _ _ Hsm)) q Q 1021); done || (unfold idx; lia)].
    rewrite Hw, tasks_bind. erewrite K_bind_eq by reflexivity. exact G1.
  - apply (taken_mono s1 s s' s'); [apply Hsm|done|done].
  - subst s'. eapply section_bytes; [exact Bt|apply Hp].
  - subst s'. eapply section_bytes; [exact Bd|apply Hp].
  - subst s'. apply Hp.
  - intros p j Pp Hj Hh Hn'. subst s'. cbn [pm]. assert (p <> Q) by (by intros ->).
    rewrite (ts_keep _ _ _ _ _ _ _ _ _ _ _ Hts); [|done|done|by apply Hsm|set_solver|done].
    apply (sm_keep _ _ _ _ _ _ Hsm); [done|done|done|set_solver|]. left. rewrite Hd. set_solver.
Qed.

Lemma init_task0_text R S KT ret_syscall s ts base h garbage :
  startable R S KT s base h -> Sched.table_ok ts -> u32 (Sched.cpu_esp ts) -> u32 garbage ->
  exists s' ts', Loader.init_task0 ret_syscall garbage base (Loader.mkOs s ts) = Ok ((), Loader.mkOs s' ts') /\
    Sched.init_task0 ts PG_DIR0_ADDR garbage (cr3 s') = Ok ts' /\
    section_mapped (pm s') (cr3 s') (vma_text h) (text_size h) (pm s) (base + lma_text h).
Proof.
  intros Hs Hl He Hg. destruct (init_task0_machine R S KT ret_syscall s ts base h garbage Hs Hl He Hg)
    as (T & RT & SY & FS & s' & ts' & H1 & H2 & _ & _ & _ & <- & _ & _ & _ & H3 & _). by exists s', ts'.
Qed.

(** C10. The first tasks: from the kernel's first directory without a kernel
    stack, [init_task0] on the whole machine does to the task table what the
    scheduler's abstract [init_task0] does: the running code becomes task 0 and
    the program becomes task 1.  It returns with task 1 running in a new
    directory that was idle before, which maps the bytes of the program's text
    and data sections as they were in the image and a zeroed stack, and in which
    the kernel's map and temporary mappings are in place. *)
Theorem init_task0_refines R S KT ret_syscall s ts base h garbage :
  startable R S KT s base h -> Sched.table_ok ts -> u32 (Sched.cpu_esp ts) -> u32 garbage ->
  exists T RT SY FS s' ts', Loader.init_task0 ret_syscall garbage base (Loader.mkOs s ts) = Ok ((), Loader.mkOs s' ts') /\
    Sched.init_task0 ts PG_DIR0_ADDR garbage T = Ok ts' /\ Sched.sched_inv ts' /\ Sched.current ts' = 1 /\
    taken s s' T /\ cr3 s' = T /\ Sched.cpu_cr3 ts' = T /\ ready RT SY s' /\ kmap SY KT s' /\
    section_mapped (pm s') T (vma_text h) (text_size h) (pm s) (base + lma_text h) /\
    section_mapped (pm s') T (vma_data h) (data_size h) (pm s) (base + lma_data h) /\
    (forall o, 0 <= o < 4096 -> walk (pm s') T (Sched.USTACK_FRAME + o) = Some (FS + o) /\ load8 (pm s') (FS + o) = 0) /\
    forall p j, page p -> idx j -> held s p -> p ∉ [PG_DIR0_ADDR; R; S] -> word (pm s') p j = word (pm s) p j.
Proof. apply init_task0_machine. Qed.

(** ** From the start of the machine *)

(** With all frames idle there are frames for any program whose image is below
    16 MiB. *)
Lemma idles_all s n : frames s = bitmap0 -> Z.of_nat n <= 20000 -> idles n s.
Proof.
  intros Hf Hn. exists (map (fun i => 16777216 + 4096 * i) (seqZ 0 (Z.of_nat n))).
  split; [|split; [by rewrite length_map, length_seqZ; lia|]].
  - apply NoDup_fmap_2, NoDup_seqZ. intros i j E. lia.
  - apply Forall_forall. intros f Hin. apply list_elem_of_In, in_map_iff in Hin as (i & <- & Hi). apply list_elem_of_In, elem_of_seqZ in Hi.
    split; [unfold user_page, page; split_and!; try lia; Z.to_euclidean_division_equations; lia|]. rewrite Hf.
    unfold busy, nthZ, bitmap0. destruct (_ !! _) as [v|] eqn:E; [|by rewrite Z.testbit_0_l]. apply lookup_replicate_1 in E as [-> _]. apply Z.testbit_0_l.
Qed.

(** An image that lies outside the directory and the tables behind it. *)
Definition image_ok (base : Z) (h : TsExHeader) : Prop := forall k, -1 <= k < 1024 -> program_ok (pt_base k) base h.

Lemma clear_outside a n b :
  (forall k, -1 <= k < 1024 -> clear_of (pt_base k) a n) -> a <= b < a + n -> b < 1048576 \/ 5246976 <= b.
Proof.
  intros Hc Hb. destruct (Z_lt_dec b 1048576); [by left|]. destruct (Z_le_dec 5246976 b); [by right|]. exfalso.
  specialize (Hc ((b - 1048576) / 4096 - 1)). unfold clear_of, pt_base in Hc.
  assert (H : -1 <= (b - 1048576) / 4096 - 1 < 1024) by (Z.to_euclidean_division_equations; lia).
  specialize (Hc H). revert Hc. Z.to_euclidean_division_equations. lia.
Qed.

(** The header and the text lie behind the early image, not on the screen. *)
Definition off_early `{EarlyImage} (base : Z) (h : TsExHeader) : Prop :=
  forall a, (base <= a < base + 28 \/ base + lma_text h <= a < base + lma_text h + text_size h) ->
    _init_end <= a /\ (a < 0xB8000 \/ 0xB8FA0 <= a).

(** The map of [init_page_settings] with all frames idle is one [init_task0]
    can start from. *)
Lemma settings_startable `{EarlyImage} s0 base h :
  early_image_ok -> reset (load_console (pm s0)) ->
  paging s0 = false -> frames s0 = bitmap0 -> header_at (pm s0) base h -> image_ok base h -> off_early base h ->
  exists s, init_page_settings s0 = Ok ((), s) /\ startable (pt_base 1023) (pt_base 1022) early_kt s base h /\
    forall a, base + lma_text h <= a < base + lma_text h + text_size h -> load8 (pm s) a = load8 (pm s0) a.
Proof.
  intros He Hrs Hp Hf Hh Hok Hbase. destruct (init_page_settings_spec s0 He Hp Hrs) as (m & HS & Hi & _ & Hut). eexists. split; [exact HS|]. rewrite Hf.
  assert (Ho : forall a, u32 a -> (base <= a < base + 28 \/ base + lma_text h <= a < base + lma_text h + text_size h) -> a < 1048576 \/ 5246976 <= a -> load8 m a = load8 (pm s0) a).
  { intros a Ha Ha1 Ho. apply Hut. destruct (Hbase a Ha1). split; [lia|]. split; [split; [done|intros; lia]|lia]. }
  assert (Hsz : forall n, 0 <= n -> n <= 4096 * pages n) by (intros n Hn; unfold pages; Z.to_euclidean_division_equations; lia).
  destruct (Hok 0) as [(B1 & B2 & _) (_ & _ & S1 & _) (_ & _ & S2) _ (T1 & T2 & _) (D1 & D2 & _)]; [lia|]. pose proof (Hsz _ S1). pose proof (Hsz _ S2).
  split.
  - split; [apply (early_ready m); done || apply bitmap_ok0|apply (early_kmap m); done|reflexivity|unfold pt_base; cbn [cr3]; lia| | | | | |].
    + intros i Hi4. cbn [cr3]. unfold early_kt, pt_base. intros Hin. repeat (apply elem_of_cons in Hin as [Hin|Hin]; [lia|]). by apply elem_of_nil in Hin.
    + cbn [cr3 pm]. change (word m (pt_base (-1)) 1021) with (cell m (-1) 1021). by rewrite (ei_dir _ _ _ Hi) by lia.
    + eapply header_bytes; [|exact Hh]. intros a Ha. apply Ho; [lia|lia|]. apply (clear_outside base 28); [|done]. intros k Hk. apply (Hok k Hk).
    + intros D HD. cbn [cr3] in HD. repeat (apply elem_of_cons in HD as [->|HD]; [apply Hok; lia|]). by apply elem_of_nil in HD.
    + apply idles_all; [done|]. Z.to_euclidean_division_equations. lia.
    + refine (early_frees m _ Hi _ 15 _); [done|lia].
  - intros a Ha. cbn [pm]. apply Ho; [lia|lia|]. apply (clear_outside (base + lma_text h) (4096 * pages (text_size h))); [|lia]. intros k Hk. apply (Hok k Hk).
Qed.

(** ** An example *)

(** A machine before paging with a program at 9 MiB: its seven header words, 48
    bytes of text and a word of data. *)
Definition start_header : TsExHeader := mkHeader 28 0 48 76 0x1000 4.
Definition start_mm (text : list Z) : mm :=
  mkMm (write_bytes (pokes [(0x900000, 0, Loader.MAGIC); (0x900000, 1, 28); (0x900000, 2, 0); (0x900000, 3, 48); (0x900000, 4, 76); (0x900000, 5, 0x1000);
    (0x900000, 6, 4); (0x900000, 19, 0x2a)] ∅) 0x90001c text) 0 false bitmap0.

Lemma start_image_ok : image_ok 0x900000 start_header.
Proof.
  intros k Hk. split; unfold clear_of, pages; cbn [vma_text text_size lma_text vma_data data_size lma_data start_header]; unfold pt_base;
    split_and?; first [lia|reflexivity|Z.to_euclidean_division_equations; lia].
Qed.

#[local] Existing Instance example_image.

Lemma start_reset text : lenZ text = 48 -> reset (load_console (pm (start_mm text))).
Proof.
  intros Hl. apply example_reset. intros a Ha. unfold start_mm. cbn [pm]. rewrite write_bytes_out by (unfold fits; lia).
  cbn [pokes foldr]. rewrite !load8_store32_ne by (unfold fits; lia). unfold load8. by rewrite lookup_empty.
Qed.

Lemma start_off_early : off_early 0x900000 start_header.
Proof. intros a. cbn [lma_text text_size start_header]. change _init_end with 0xA030. lia. Qed.

Lemma init_task0_refines_witness :
  exists s s' ts', init_page_settings (start_mm (replicate 48 0x90)) = Ok ((), s) /\
    Loader.init_task0 0xC0001000 7 0x900000 (Loader.mkOs s Sched.sched0) = Ok ((), Loader.mkOs s' ts') /\
    Sched.current ts' = 1 /\ Sched.cpu_cr3 ts' = cr3 s' /\ exists p, walk (pm s') (cr3 s') 5 = Some p /\ load8 (pm s') p = 0x90.
Proof.
  destruct (settings_startable (start_mm (replicate 48 0x90)) 0x900000 start_header) as (s & Hs & Hst & Hb);
    [exact example_image_ok|apply start_reset; reflexivity|reflexivity|reflexivity|split; vm_compute; reflexivity|apply start_image_ok|exact start_off_early|].
  destruct (init_task0_refines (pt_base 1023) (pt_base 1022) early_kt 0xC0001000 s Sched.sched0 0x900000 start_header 7)
    as (T & RT & SY & FS & s' & ts' & H & _ & _ & Hc & _ & Hcr & Hcp & _ & _ & Ht & _);
    [exact Hst|apply Sched.sched0_ok|apply Sched.sched0_ok|lia|].
  exists s, s', ts'. split; [exact Hs|]. split; [exact H|]. split; [exact Hc|]. split; [congruence|]. rewrite Hcr.
  destruct (Ht 5) as (p & Hw & Hl); [cbn [text_size start_header]; lia|]. exists p. split; [exact Hw|]. rewrite Hl, Hb by (cbn [text_size lma_text start_header]; lia).
  vm_compute. reflexivity.
Defined.
