(* ===== verification/LibTest.v ===== *)
(** * The tests of the string and print libraries (test/test_string.c,
    kernel/main.c, test.c)

    The test routines over memory and any character sink, and their runs by
    evaluation.  String literals, local arrays and the arguments of [printf] are
    at given addresses. *)
From S2P Require Import Prelude CMem CString Sink Print.
From Stdlib Require Import Strings.String.
Import CString Print.
Open Scope list_scope.

Module LibTest.

(** ** test/test_string.c *)

(** The literals and arrays of [test_string_main]; [src] is not initialised. *)
Record places := mkPlaces {
  src : Z; lit_a : Z; lit_b : Z; lit_c : Z; lit_d : Z; buffer : Z; ans1 : list Z;
  lit_234 : Z; lit_2346 : Z; lit_empty : Z; lit_1234 : Z; lit_blank : Z; lit_e : Z; lit_num : Z; lit_f : Z }.

Section Tests.
Context {S : Type} `{CharSink S} (fuel : nat).

(** [if(cond) printl(msg);] *)
Definition complain (cond : bool) (msg : string) (s : S) : S := if cond then printl_lit msg s else s.

Definition truth (x : Z) : bool := negb (x =? 0).

(** The two loops over the words of a string; [report] is what the loop prints
    when the word is not the expected one.  An answer beyond the third is
    outside of [ans1]. *)
Fixpoint words_loop (rounds : nat) (w : places) (report : mem -> Z -> S -> res S) (m : mem) (start i : Z) (s : S) : res (mem * Z * S) :=
  match rounds with
  | O => NoFuel
  | Datatypes.S rounds =>
      if start =? NULL then Ok (m, i, s)
      else
        '(m, start) ← strtok fuel m start (lit_blank w) (buffer w);
        match ans1 w !! Z.to_nat i with
        | None => Hang []
        | Some a =>
            eq ← string_equal fuel m a (buffer w);
            s ← (if negb (truth eq) then report m a s else Ok s);
            words_loop rounds w report m start (i + 1) s
        end
  end.

Definition report5 (w : places) (m : mem) (a : Z) (s : S) : res S :=
  let s := printl_lit "strtok: error 5" s in
  s ← printl fuel m a s;
  printl fuel m (buffer w) s.
Definition report6 (w : places) (m : mem) (a : Z) (s : S) : res S :=
  let s := print_char (printl_lit "strtok: error 6" s) 91 in
  s ← printstr fuel m (buffer w) s;
  Ok (print_char s 93).

Definition test_string_main (w : places) (m : mem) (s : S) : res (mem * S) :=
  let m := write_bytes m (buffer w) (replicate 256 0) in
  (* strcpy *)
  m ← strcpy fuel m (src w) (lit_b w);
  r ← string_equal fuel m (src w) (lit_b w);
  let s := complain (negb (truth r)) "strcpy: error 2 " s in
  (* strlen *)
  n ← strlen fuel m (lit_a w);
  let s := complain (truth n) "strlen: error 1 " s in
  n ← strlen fuel m (lit_c w);
  let s := complain (negb (9 =? n)) "strlen: error 1 " s in
  (* strfd *)
  p ← strfd fuel m (lit_c w) (lit_234 w);
  let s := complain (negb (p =? lit_c w + 1)) "strfd: error 1 " s in
  p ← strfd fuel m (lit_c w) (lit_2346 w);
  let s := complain (negb (NULL =? p)) "strfd: error 2 " s in
  (* strtok *)
  '(m, p) ← strtok fuel m (lit_empty w) (lit_empty w) (buffer w);
  let s := if truth p then printl_lit "strtok: error  1" s else complain (truth (load8 m (buffer w))) "strtok: error  2" s in
  '(m, p) ← strtok fuel m (lit_empty w) (lit_1234 w) (buffer w);
  let s := complain (truth p) "strtok: error  3" s in
  '(m, p) ← strtok fuel m (lit_1234 w) (lit_empty w) (buffer w);
  r ← string_equal fuel m (lit_1234 w) (buffer w);
  let s := if truth p then printl_lit "strtok: error  4-1" s else complain (negb (truth r)) "strtok: error  4-2" s in
  '(m, i, s) ← words_loop fuel w (report5 w) m (lit_d w) 0 s;
  let s := if negb (i =? 3) then printl_lit "strtok: error 5: i!=3" (print_hex i s) else s in
  '(m, i, s) ← words_loop fuel w (report6 w) m (lit_e w) 0 s;
  let s := if negb (i =? 3) then printl_lit "strtok: error 6: i!=3" (print_hex i s) else s in
  (* atoi *)
  n ← atoi fuel m (lit_num w) 10;
  let s := complain (negb (1234560 =? n)) "atoi error 1" s in
  (* no_leading, no_trailing *)
  p ← no_leading fuel m (lit_f w) (lit_blank w);
  let s := complain (negb (p =? lit_f w + 2)) "no leading error 1" s in
  p ← no_trailing fuel m (lit_f w) (lit_blank w);
  let s := complain (negb (p =? lit_f w + 15)) "no traling error 1" s in
  Ok (m, s).

(** ** kernel/main.c *)

(** [printstr] of a literal. *)
Definition printstr_lit (t : list Z) (s : S) : S := puts s t.

Definition test_printf1 (s : S) : S := printstr_lit (chars "5678" ++ [10]) (printstr_lit (chars "1234") s).

(** A call of [printf]: format and arguments are put in memory at [FMT] and
    [ARGS], strings at [STR]. *)
Definition FMT : Z := 0x1000.
Definition ARGS : Z := 0x2000.
Definition STR : Z := 0x3000.
Definition printf_call (str : list Z) (fmt : list Z) (args : list Z) (s : S) : res S :=
  let m := write_bytes (write_bytes ∅ STR (str ++ [0])) FMT (fmt ++ [0]) in
  let m := foldl (fun m '(i, a) => store32 m (ARGS + 4 * Z.of_nat i) a) m (imap pair args) in
  printf fuel m FMT ARGS s.

Definition test_printf2 (s : S) : res S :=
  s ← printf_call (chars "12345678" ++ [10]) (chars "%s") [STR] s;
  s ← printf_call (chars "1234") (chars "%s %d %c%c" ++ [10]) [STR; 5; 103; 100] s;
  let s := printstr_lit (chars "9012 22334" ++ [10]) s in
  let s := printstr_lit (chars "3456" ++ [10]) s in
  let s := printstr_lit (chars "7890" ++ [10]) s in
  let s := printstr_lit [10] s in
  s ← printf_call [] (chars "%05x %x %02x %3x %5x %08x" ++ [10]) [0x5; 0x5; 0x123; 0x1234; 0x12342234; 0x12345] s;
  s ← printf_call [] (chars "%x %0x %0x %0x" ++ [10]) [0; 0x123; 0; 3] s;
  s ← printf_call [] (chars "%05d %d %02d %3d %5d %08d" ++ [10]) [5; 5; 123; 1234; 12342234; 12345] s;
  s ← printf_call [] (chars "%d %0d %0d %0d" ++ [10]) [0; 123; 0; 3] s;
  Ok (printstr_lit (chars "7890" ++ [10]) s).

(** ** test.c *)

Definition fake_print : Z := 0x1234.
Definition test_call (x y : Z) (s : S) : S :=
  let sum := wrap32 (x + y) in
  let sum2 := wrap32 (sum + 2) in
  print_hex sum2 (print_hex sum s).

End Tests.

(** The memory of a test program: every literal in a place of its own of 32
    bytes, the arrays after them; [src] holds [junk]. *)
Definition test_places : places :=
  mkPlaces 0x8000 0x1000 0x1020 0x1040 0x1060 0x9000 [0x1080; 0x10a0; 0x10c0]
    0x10e0 0x1100 0x1120 0x1140 0x1160 0x1180 0x11a0 0x11c0.
Definition test_literals : list (Z * string) :=
  [(0x1000, ""%string); (0x1020, "8902"%string); (0x1040, "1234 5678"%string); (0x1060, "1234 5678 90 "%string); (0x1080, "1234"%string); (0x10a0, "5678"%string); (0x10c0, "90"%string);
   (0x10e0, "234 "%string); (0x1100, "234 6"%string); (0x1120, ""%string); (0x1140, "1234"%string); (0x1160, " "%string); (0x1180, "  1234 5678    90  "%string);
   (0x11a0, "01234560"%string); (0x11c0, "  345678  gh ghh   "%string)].
Definition test_memory (junk : list Z) : mem :=
  foldl (fun m '(p, t) => write_bytes m p (chars t ++ [0])) (write_bytes ∅ 0x8000 (junk ++ [0])) test_literals.

End LibTest.
Import LibTest.

Definition run_string_test {S} `{CharSink S} (junk : list Z) (s : S) : res S :=
  '(_, s) ← test_string_main 64 test_places (test_memory junk) s; Ok s.

(** The string tests pass: nothing is printed, whatever the sink, both with an
    empty and with a non-empty uninitialised array. *)
Theorem string_tests_pass {S} `{CharSink S} (s : S) :
  run_string_test [] s = Ok s /\ run_string_test (chars "junk") s = Ok s.
Proof. vm_compute. split; reflexivity. Qed.

Definition text_lines (l : list string) : list Z := flat_map (fun t => chars t ++ [10]) l.

(** What the print tests print.  A width cuts off the leading digits of a longer
    number, and without a leading zero it does not pad. *)
Theorem print_tests_print {S} `{CharSink S} (s : S) :
  test_printf1 s = puts s (text_lines ["12345678"%string]) /\
  test_printf2 64 s = Ok (puts s (text_lines
    ["12345678"; "1234 5 gd"; "9012 22334"; "3456"; "7890"; ""; "0x00005 0x5 0x23 0x234 0x42234 0x00012345"; "0x0 0x123 0x0 0x3";
     "00005 5 23 234 42234 00012345"; "0 123 0 3"; "7890"]%string)).
Proof. vm_compute. split; reflexivity. Qed.
