(* ===== verification/Com.v ===== *)
(** * Serial line (drivers/com.c)

    The driver polls the line status register and reads or writes one byte at a
    time.  The device is the list of the bytes that arrive, each with the values
    of the status register that are read while the driver waits for it; a wait
    that never ends has no result ([NoFuel]).  The buffer of a transfer is a
    local array of 256 bytes at the address [buffer].  The diagnostics go to any
    character sink. *)
From S2P Require Import Prelude CMem CString Sink Print.
From Stdlib Require Import Strings.String.
Import CString Print.
Open Scope list_scope.

Module Com.

Definition PORT : Z := 1016.
Definition BUF_SIZE : Z := 256.

(** The bytes to come: status values while waiting, then the byte. *)
Abbreviation uart := (list (list Z * Z)).

(** [while ((status & mask) == 0);] *)
Fixpoint wait_for (mask : Z) (statuses : list Z) : bool :=
  match statuses with
  | [] => false
  | st :: rest => if Z.land st mask =? 0 then wait_for mask rest else true
  end.

Definition read_serial (u : uart) : res (Z * uart) :=
  match u with
  | [] => NoFuel
  | (statuses, c) :: u => if wait_for 1 statuses then Ok (c, u) else NoFuel
  end.

(** The port writes of [write_serial]. *)
Definition write_serial (statuses : list Z) (a : Z) : res (list (Z * Z)) :=
  if wait_for 32 statuses then Ok [(PORT, wrap8 a)] else NoFuel.

(** [put_char_to_buffer] is empty: the byte is dropped. *)
Definition com1_handler (u : uart) : res uart :=
  '(_, u) ← read_serial u;
  Ok u.

(** [while(rx_cnt != buf_size-1)] *)
Fixpoint read_until_loop (n : nat) (m : mem) (u : uart) (buf rx_cnt end_char : Z) : res (mem * uart * Z) :=
  match n with
  | O => Ok (m, u, rx_cnt)
  | S n =>
      '(c, u) ← read_serial u;
      let m := store8 m (buf + rx_cnt) c in
      if c =? end_char then Ok (m, u, rx_cnt + 1)
      else read_until_loop n m u buf (rx_cnt + 1) end_char
  end.
Definition read_until (m : mem) (u : uart) (buf buf_size end_char : Z) : res (mem * uart * Z) :=
  '(m, u, rx_cnt) ← read_until_loop (Z.to_nat (wrap32 (buf_size - 1))) m u buf 0 end_char;
  Ok (store8 m (buf + rx_cnt) 0, u, rx_cnt).

(** [while( rx_cnt != total && rx_cnt != buf_size-1)] *)
Fixpoint read_bytes_loop (n : nat) (m : mem) (u : uart) (buf rx_cnt total : Z) : res (mem * uart * Z) :=
  match n with
  | O => Ok (m, u, rx_cnt)
  | S n =>
      if rx_cnt =? total then Ok (m, u, rx_cnt)
      else
        '(c, u) ← read_serial u;
        read_bytes_loop n (store8 m (buf + rx_cnt) c) u buf (rx_cnt + 1) total
  end.
Definition read_bytes (m : mem) (u : uart) (buf buf_size total : Z) : res (mem * uart * Z) :=
  '(m, u, rx_cnt) ← read_bytes_loop (Z.to_nat (wrap32 (buf_size - 1))) m u buf 0 total;
  Ok (store8 m (buf + rx_cnt) 0, u, rx_cnt).

(** [while(rx_total < expected_bytes)] *)
Fixpoint transfer_loop (fuel : nat) (m : mem) (u : uart) (buffer mem_addr expected rx_total : Z) :
    res (mem * uart * Z) :=
  match fuel with
  | O => NoFuel
  | S fuel =>
      if rx_total <? expected then
        '(m, u, rx_cnt) ← read_bytes m u buffer BUF_SIZE (wrap32 (expected - rx_total));
        let m := memcpy m buffer (wrap32 (mem_addr + rx_total)) rx_cnt in
        transfer_loop fuel m u buffer mem_addr expected (wrap32 (rx_total + rx_cnt))
      else Ok (m, u, rx_total)
  end.

Section Transfer.
Context {S : Type} `{CharSink S}.

(** The port writes, the result and the message of [init_serial]; [echo] is the
    byte the chip returns in loopback mode. *)
Definition init_serial (echo : Z) (s : S) : list (Z * Z) * Z * S :=
  let w := [(PORT + 1, 0); (PORT + 3, 128); (PORT, 1); (PORT + 1, 0); (PORT + 3, 3); (PORT + 2, 199);
            (PORT + 4, 11); (PORT + 4, 30); (PORT, 174)] in
  if negb (echo =? 174) then (w, 1, printl_lit "gg serial" s)
  else (w ++ [(PORT + 4, 15)], 0, s).

Definition serial_file_transfer (fuel : nat) (m : mem) (u : uart) (buffer mem_addr : Z) (s : S) :
    res (mem * uart * Z * S) :=
  let s := printl_lit "start to transfer file" s in
  '(m, u, _) ← read_until m u buffer BUF_SIZE 0;
  expected_bytes ← atoi fuel m buffer 10;
  let s := puts s (chars "expected ") in
  let s := print_hex expected_bytes s in
  let s := printl_lit " bytes" s in
  '(m, u, rx_total) ← transfer_loop fuel m u buffer mem_addr expected_bytes 0;
  let s := puts s (chars "recieved ") in
  let s := print_hex rx_total s in
  let s := printl_lit " bytes" s in
  Ok (m, u, rx_total, s).

End Transfer.

(** ** Specification *)

(** The device delivers the bytes [l], then continues with [u']. *)
Inductive delivers : uart -> list Z -> uart -> Prop :=
| delivers_nil u : delivers u [] u
| delivers_cons sts c l u u' : wait_for 1 sts = true -> delivers u l u' -> delivers ((sts, c) :: u) (c :: l) u'.

(** What the transfer prints for [n] announced bytes. *)
Definition transfer_text (n : Z) : list Z :=
  chars "start to transfer file" ++ [10] ++
  chars "expected " ++ ([48; 120] ++ hex8 n) ++ chars " bytes" ++ [10] ++
  chars "recieved " ++ ([48; 120] ++ hex8 n) ++ chars " bytes" ++ [10].

End Com.
Import Com.

Lemma delivers_app u l1 l2 u' : delivers u (l1 ++ l2) u' -> exists v, delivers u l1 v /\ delivers v l2 u'.
Proof.
  revert u. induction l1 as [|c l1 IH]; intros u Hd; [by exists u; split; [constructor|]|].
  inversion Hd as [|sts ? ? u0 ? Hw Hd']; subst. destruct (IH _ Hd') as (v & H1 & H2). exists v. split; [by constructor|done].
Qed.

Lemma read_serial_spec u c l u' : delivers u (c :: l) u' -> exists v, read_serial u = Ok (c, v) /\ delivers v l u'.
Proof. intros Hd. inversion Hd as [|sts ? ? u0 ? Hw Hd']; subst. exists u0. simpl. by rewrite Hw. Qed.

(** ** Reading into the buffer *)

Lemma read_until_loop_spec n m u u' buf cnt l e :
  delivers u (l ++ [e]) u' -> Forall (fun c => c <> e) l -> (List.length l < n)%nat ->
  read_until_loop n m u buf cnt e =
    Ok (write_bytes m (buf + cnt) (l ++ [e]), u', cnt + lenZ l + 1).
Proof.
  intros Hd Hl. revert n m u cnt Hd. induction Hl as [|c l Hc Hl IH]; intros [|n] m u cnt Hd Hn; simpl in Hn; try lia.
  - destruct (read_serial_spec _ _ _ _ Hd) as (v & Hr & Hv). inversion Hv; subst. simpl. rewrite Hr. simpl.
    rewrite Z.eqb_refl, lenZ_nil. do 3 f_equal. lia.
  - destruct (read_serial_spec _ _ _ _ Hd) as (v & Hr & Hv). cbn [read_until_loop]. rewrite Hr, res_bind_Ok.
    rewrite (proj2 (Z.eqb_neq c e)) by done. rewrite (IH n _ _ _ Hv) by lia. rewrite lenZ_cons. simpl.
    rewrite Z.add_assoc. do 3 f_equal. lia.
Qed.

(** [read_until] up to a zero byte leaves the received string in the buffer. *)
Lemma read_until_spec m u u' buf l :
  delivers u (l ++ [0]) u' -> Forall (fun c => 0 < c < 256) l -> lenZ l < 255 -> fits buf 256 ->
  exists m', read_until m u buf BUF_SIZE 0 = Ok (m', u', lenZ l + 1) /\ bytes_at m' buf (l ++ [0]) /\
    forall a, u32 a -> (a < buf \/ buf + 256 <= a) -> load8 m' a = load8 m a.
Proof.
  intros Hd Hl Hlen Hf. unfold read_until. change (Z.to_nat (wrap32 (BUF_SIZE - 1))) with 255%nat.
  rewrite (read_until_loop_spec 255 m u u' buf 0 l 0), res_bind_Ok; [|done| |unfold lenZ in *; lia].
  2:{ eapply Forall_impl; [exact Hl|]. intros c Hc. simpl in Hc. lia. }
  rewrite Z.add_0_r, Z.add_0_l. eexists. split; [reflexivity|].
  assert (Hl' : lenZ (l ++ [0]) = lenZ l + 1) by (by rewrite lenZ_app).
  pose proof (lenZ_nonneg l). unfold fits in *. split.
  - eapply bytes_at_same; [apply same_on_store8; unfold fits; lia|].
    apply bytes_at_write_bytes; [unfold fits; lia|]. apply Forall_app. split; [|by repeat constructor].
    eapply Forall_impl; [exact Hl|]. simpl. lia.
  - intros a Ha Ho. rewrite load8_store8_ne by lia. apply write_bytes_out; unfold fits; lia.
Qed.

Lemma read_bytes_loop_spec n m u u' buf cnt l total :
  delivers u l u' -> lenZ l = Z.min (total - cnt) (Z.of_nat n) -> cnt <= total ->
  read_bytes_loop n m u buf cnt total = Ok (write_bytes m (buf + cnt) l, u', cnt + lenZ l).
Proof.
  revert m u cnt l. induction n as [|n IH]; intros m u cnt l Hd Hl Hc; cbn [read_bytes_loop].
  - assert (l = []) as -> by (destruct l; [done|rewrite lenZ_cons in Hl; pose proof (lenZ_nonneg l); lia]).
    inversion Hd; subst. simpl. by rewrite lenZ_nil, Z.add_0_r.
  - destruct (Z.eqb_spec cnt total) as [->|].
    + assert (l = []) as -> by (destruct l; [done|rewrite lenZ_cons in Hl; pose proof (lenZ_nonneg l); lia]).
      inversion Hd; subst. simpl. by rewrite lenZ_nil, Z.add_0_r.
    + destruct l as [|c l]; [rewrite lenZ_nil in Hl; lia|]. rewrite lenZ_cons in Hl.
      destruct (read_serial_spec _ _ _ _ Hd) as (v & -> & Hv). rewrite res_bind_Ok, (IH _ _ _ l) by (done || lia).
      simpl. rewrite lenZ_cons, Z.add_assoc. by replace (cnt + 1 + lenZ l) with (cnt + (lenZ l + 1)) by lia.
Qed.

Lemma read_bytes_spec m u u' buf l total :
  delivers u l u' -> lenZ l = Z.min total 255 -> 0 <= total -> Forall (fun c => u8 c) l -> fits buf 256 ->
  exists m', read_bytes m u buf BUF_SIZE total = Ok (m', u', lenZ l) /\ bytes_at m' buf l /\
    forall a, u32 a -> (a < buf \/ buf + 256 <= a) -> load8 m' a = load8 m a.
Proof.
  intros Hd Hlen Ht Hl Hf. unfold read_bytes. change (Z.to_nat (wrap32 (BUF_SIZE - 1))) with 255%nat.
  rewrite (read_bytes_loop_spec 255 m u u' buf 0 l total), res_bind_Ok by (done || lia).
  rewrite Z.add_0_r, Z.add_0_l. eexists. split; [reflexivity|]. unfold fits in *. split.
  - eapply bytes_at_same; [apply same_on_store8; unfold fits; lia|]. by apply bytes_at_write_bytes; [unfold fits; lia|].
  - intros a Ha Ho. rewrite load8_store8_ne by lia. apply write_bytes_out; unfold fits; lia.
Qed.

(** ** The whole transfer *)

Lemma transfer_loop_spec fuel m u u' buffer mem_addr done_ l :
  delivers u l u' -> Forall (fun c => u8 c) l -> lenZ l <= 255 * (Z.of_nat fuel - 1) ->
  0 <= done_ -> fits buffer 256 -> 0 <= mem_addr -> mem_addr + done_ + lenZ l <= 4294967295 ->
  (buffer + 256 <= mem_addr + done_ \/ mem_addr + done_ + lenZ l <= buffer) ->
  exists m', transfer_loop fuel m u buffer mem_addr (done_ + lenZ l) done_ = Ok (m', u', done_ + lenZ l) /\
    bytes_at m' (mem_addr + done_) l /\
    forall a, u32 a -> (a < buffer \/ buffer + 256 <= a) ->
      (a < mem_addr + done_ \/ mem_addr + done_ + lenZ l <= a) -> load8 m' a = load8 m a.
Proof.
  revert m u done_ l. induction fuel as [|fuel IH]; intros m u done_ l Hd Hl Hlen H0 Hb Hm Hfit Hap; [pose proof (lenZ_nonneg l); lia|].
  cbn [transfer_loop]. destruct l as [|c0 l0] eqn:El.
  { inversion Hd; subst. rewrite lenZ_nil, Z.add_0_r, Z.ltb_irrefl. exists m. done. }
  rewrite <- El in *. assert (Hpos : 0 < lenZ l) by (rewrite El, lenZ_cons; pose proof (lenZ_nonneg l0); lia). clear El c0 l0.
  rewrite (proj2 (Z.ltb_lt _ _)) by lia. rewrite (wrap32_small (mem_addr + done_)), (wrap32_small (_ - _)) by lia.
  replace (done_ + lenZ l - done_) with (lenZ l) by lia.
  set (l1 := take 255 l). set (l2 := drop 255 l). assert (El : l = l1 ++ l2) by (symmetry; apply take_drop).
  assert (Hl1 : lenZ l1 = Z.min (lenZ l) 255) by (unfold l1, lenZ; rewrite length_take; lia).
  assert (Hl12 : lenZ l = lenZ l1 + lenZ l2) by (rewrite El at 1; apply lenZ_app). pose proof (lenZ_nonneg l2).
  assert (Hll : Forall (fun c => u8 c) (l1 ++ l2)) by (by rewrite <- El). apply Forall_app in Hll as [Hf1 Hf2].
  rewrite El in Hd. apply delivers_app in Hd as (v & Hd1 & Hd2). clearbody l1 l2.
  destruct (read_bytes_spec m u v buffer l1 (lenZ l)) as (m1 & -> & Hb1 & Ho1); [done|done|lia|done|done|].
  rewrite res_bind_Ok. unfold fits in *. rewrite !wrap32_small by lia.
  destruct (memcpy_copies m1 buffer (mem_addr + done_) l1) as (Hc1 & _ & Hc3); [done|done|unfold fits; lia..|].
  destruct (IH (memcpy m1 buffer (mem_addr + done_) (lenZ l1)) v (done_ + lenZ l1) l2) as (m' & Hr & Hb' & Ho');
    [done|done|lia|lia|lia|lia|lia|lia|].
  replace (done_ + lenZ l1 + lenZ l2) with (done_ + lenZ l) in * by lia. exists m'. split; [exact Hr|].
  replace (mem_addr + (done_ + lenZ l1)) with (mem_addr + done_ + lenZ l1) in * by lia. split.
  - rewrite El. apply bytes_at_app. split; [|done]. eapply bytes_at_same; [|exact Hc1].
    intros a Ha. apply Ho'; lia.
  - intros a Ha Hob Hod. rewrite Ho', Hc3, Ho1 by lia. done.
Qed.

Lemma transfer_prints {S} `{CharSink S} n (s : S) :
  printl_lit " bytes" (print_hex n (puts (printl_lit " bytes" (print_hex n
    (puts (printl_lit "start to transfer file" s) (chars "expected ")))) (chars "recieved "))) =
  puts s (transfer_text n).
Proof. unfold printl_lit. rewrite !print_hex_spec, <- !puts_app. unfold transfer_text. by rewrite <- !app_assoc. Qed.

(** File transfer over the serial line: when the sender announces the
    length of the file in decimal, ended by a zero byte, and then sends the
    file, [serial_file_transfer] returns, stores exactly the file at the given
    address (in pieces of at most 255 bytes through the local buffer), reads
    no byte beyond it, changes no other memory, and reports the length. *)
Lemma serial_transfer_stores_file {S} `{CharSink S} fuel m u u' buffer mem_addr (s : S) digits file :
  delivers u (digits ++ [0] ++ file) u' ->
  Forall (fun c => 48 <= c <= 57) digits -> lenZ digits < 255 -> value_of 10 digits = lenZ file ->
  Forall (fun c => u8 c) file -> lenZ digits < Z.of_nat fuel -> lenZ file <= 255 * (Z.of_nat fuel - 1) ->
  0 < buffer -> fits buffer 256 -> 0 <= mem_addr -> mem_addr + lenZ file <= 4294967295 ->
  (buffer + 256 <= mem_addr \/ mem_addr + lenZ file <= buffer) ->
  exists m', serial_file_transfer fuel m u buffer mem_addr s =
      Ok (m', u', lenZ file, puts s (transfer_text (lenZ file))) /\
    bytes_at m' mem_addr file /\
    forall a, u32 a -> (a < buffer \/ buffer + 256 <= a) -> (a < mem_addr \/ mem_addr + lenZ file <= a) ->
      load8 m' a = load8 m a.
Proof.
  intros Hd Hdig Hdl Hval Hfile Hf1 Hf2 Hb0 Hb Hm Hfit Hap. pose proof (lenZ_nonneg file).
  rewrite app_assoc in Hd. apply delivers_app in Hd as (v & Hd1 & Hd2). unfold serial_file_transfer.
  destruct (read_until_spec m u v buffer digits) as (m1 & -> & Hb1 & Ho1); [done| |done|done|].
  { eapply Forall_impl; [exact Hdig|]. simpl. lia. }
  rewrite res_bind_Ok. assert (Hc : cstr m1 buffer digits).
  { unfold cstr, fits in *. split_and!; [done| |lia|pose proof (lenZ_nonneg digits); lia].
    eapply Forall_impl; [exact Hdig|]. simpl. lia. }
  rewrite (atoi_spec _ _ _ _ _ Hc Hf1), value_of_schar by (eapply Forall_impl; [exact Hdig|]; simpl; lia).
  rewrite Hval, res_bind_Ok, wrap32_small by lia.
  destruct (transfer_loop_spec fuel m1 v u' buffer mem_addr 0 file) as (m' & Ht & Hb' & Ho'); [done|done|lia|lia|done|lia|lia|lia|].
  rewrite Z.add_0_l in Ht. rewrite Z.add_0_r in Hb', Ho'. rewrite Ht, res_bind_Ok, transfer_prints.
  exists m'. split; [done|]. split; [done|]. intros a Ha Hob Hod. rewrite Ho', Ho1 by done. done.
Qed.

(** A sink that keeps the text. *)
Definition log_sink : CharSink (list Z) :=
  {| put := fun s c => s ++ [c]; text_is := eq; sink_cap := 4294967296;
     put_text := fun s L c Hs _ _ => f_equal (fun x => x ++ [c]) Hs |}.

Lemma serial_transfer_stores_file_witness :
  exists m', @serial_file_transfer _ log_sink 9 ∅ [([0; 1], 51); ([1], 0); ([0; 0; 97], 7); ([1], 8); ([1], 9); ([1], 5)]
      500 0 [] = Ok (m', [([1], 5)], 3, @puts _ log_sink [] (transfer_text 3)) /\
    bytes_at m' 0 [7; 8; 9].
Proof.
  destruct (@serial_transfer_stores_file _ log_sink 9 ∅
    [([0; 1], 51); ([1], 0); ([0; 0; 97], 7); ([1], 8); ([1], 9); ([1], 5)] [([1], 5)] 500 0 [] [51] [7; 8; 9])
    as (m' & H1 & H2 & _); try reflexivity; try lia; unfold fits; try (vm_compute; intuition congruence).
  - repeat (constructor; [reflexivity|]). constructor.
  - repeat (constructor; [lia|]). constructor.
  - repeat (constructor; [lia|]). constructor.
  - exists m'. split; [exact H1|exact H2].
Defined.
