(* ===== verification/Ata.v ===== *)
(** * ATA disk driver (drivers/ata.c, drivers/ata.h)

    Programmed input and output on the primary master.  The drive itself is
    hardware: it is a type [D] with the effect of the four port instructions
    (class [AtaPorts]), and what the driver relies on is the class
    [AtaProtocol], the PIO protocol of the ATA standard over an abstract
    [drive] (register file, sectors, transfer phase).  A busy-wait loop gets
    fuel. *)
From S2P Require Import Prelude CMem CString Sink Print Disk.
From Stdlib Require Import Strings.String.
Import Print.
Open Scope list_scope.

(** ** Ports of the drive *)

Class AtaPorts (D : Type) := {
  port_in8 : Z -> D -> Z * D;
  port_out8 : Z -> Z -> D -> D;
  port_in16 : Z -> D -> Z * D;
  port_out16 : Z -> Z -> D -> D;
}.

Module Ata.

Definition ATA_DATA : Z := 0.
Definition ATA_SECCOUNT : Z := 2.
Definition ATA_LBA0 : Z := 3.
Definition ATA_LBA1 : Z := 4.
Definition ATA_LBA2 : Z := 5.
Definition ATA_HDDEVSEL : Z := 6.
Definition ATA_COMMAND : Z := 7.
Definition ATA_STATUS : Z := 7.
Definition ATA_ALT_STATUS : Z := 0.
Definition ATA_DEV_CTRL : Z := 0.
Definition ATA_PR_MST_IO_BASE : Z := 496.
Definition ATA_PR_MST_CTRL_BASE : Z := 1014.
Definition ATA_SEL_MASTER : Z := 160.
Definition ATA_STATUS_BSY : Z := 128.
Definition ATA_STATUS_DRDY : Z := 64.
Definition ATA_STATUS_ERR : Z := 1.
Definition ATA_STATUS_DF : Z := 32.

Definition ATA_IDENT_DEV_INFO : Z := 0.
Definition ATA_IDENT_CYLINDERS : Z := 1.
Definition ATA_IDENT_HEADS : Z := 3.
Definition ATA_IDENT_SECTORS : Z := 6.
Definition ATA_IDENT_CAPABILITIES : Z := 49.
Definition ATA_IDENT_MAX_LBA : Z := 60.
Definition ATA_IDENT_MAJOR : Z := 80.
Definition ATA_IDENT_COMMANDSETS : Z := 82.

Definition ATA_CMD_READ_SECTORS : Z := 32.
Definition ATA_CMD_WRITE_SECTORS : Z := 48.

Record IDE_Device : Type := mk_ide {
  is_ata : Z;
  channel : Z;
  drive_nb : Z;
  type : Z;
  signature : Z;
  dma_support : Z;
  lba_support : Z;
  lba48_support : Z;
  cylinders : Z;
  heads : Z;
  sectors : Z;
  major : Z;
  lba_num : Z;
}.

(** ** The driver *)

Section Driver.
Context {D : Type} `{AtaPorts D}.

Definition inb (port : Z) : IO D Z := fun h =>
  let '(x, d) := port_in8 port (dev h) in Ok (x, mk_host d (log h)).
Definition outb (port v : Z) : IO D unit := fun h =>
  Ok (tt, mk_host (port_out8 port (wrap8 v) (dev h)) (log h)).
Definition inw (port : Z) : IO D Z := fun h =>
  let '(x, d) := port_in16 port (dev h) in Ok (x, mk_host d (log h)).
Definition outw (port v : Z) : IO D unit := fun h =>
  Ok (tt, mk_host (port_out16 port (wrap16 v) (dev h)) (log h)).
Definition panic {A} (t : string) : IO D A := fun _ => Hang (chars t).

Definition printstr (t : string) : IO D unit := emit (EvPrint (chars t)).
Definition printl (t : string) : IO D unit := emit (EvPrint (chars t ++ [10])).
Definition print_hex (x : Z) : IO D unit := emit (EvPrint ([48; 120] ++ hex8 x)).
Definition print_field (t : string) (x : Z) : IO D unit :=
  printstr t;; print_hex x;; printl "".

(** [((uint16_t* )buf)[i]] *)
Definition word (b : list Z) (i : Z) : Z := nthZ b (2 * i) + 256 * nthZ b (2 * i + 1).

(** In the last field, [+] binds tighter than [<<]; the processor takes the
    count of a shift modulo 32. *)
Definition parse_identify_command (ide : IDE_Device) (read_buf : list Z) : IO D IDE_Device :=
  let w := word read_buf in
  if Z.land (if Z.shiftr (w ATA_IDENT_DEV_INFO) 15 =? 0 then 1 else 0) 1 =? 0 then panic "ata identity: not ata"
  else
    let major := w ATA_IDENT_MAJOR in
    if (major =? 0) || (major =? 65535) then panic "don't support ata major number"
    else if negb (Z.land major 112 =? 112) then
      print_hex major;; printl "";; panic "support ata protocol error"
    else
      let dma := Z.land (Z.shiftr (w ATA_IDENT_CAPABILITIES) 8) 1 in
      let lba := Z.land (Z.shiftr (w ATA_IDENT_CAPABILITIES) 9) 1 in
      if lba =? 0 then panic "ata device don't support lba"
      else mret
        {| is_ata := 1; channel := channel ide; drive_nb := drive_nb ide; type := type ide;
           signature := signature ide; dma_support := dma; lba_support := lba;
           lba48_support := Z.land (Z.shiftr (w (ATA_IDENT_COMMANDSETS + 1)) 10) 1;
           cylinders := w ATA_IDENT_CYLINDERS; heads := w ATA_IDENT_HEADS; sectors := w ATA_IDENT_SECTORS;
           major := major;
           lba_num := wrap32 (Z.shiftl (w (ATA_IDENT_MAX_LBA + 1)) ((16 + w ATA_IDENT_MAX_LBA) mod 32)) |}.

Definition summary_ide_device (device : IDE_Device) : IO D unit :=
  print_field "Is ATA: " (is_ata device);;
  print_field "HEAD: " (heads device);;
  print_field "Cylinder: " (cylinders device);;
  print_field "Sector: " (sectors device);;
  print_field "LBA Support: " (lba_support device);;
  print_field "LBA 48: " (lba48_support device);;
  print_field "#LBA " (lba_num device).

Definition ata_wait : IO D unit :=
  inb (ATA_PR_MST_CTRL_BASE + ATA_ALT_STATUS);;
  inb (ATA_PR_MST_CTRL_BASE + ATA_ALT_STATUS);;
  inb (ATA_PR_MST_CTRL_BASE + ATA_ALT_STATUS);;
  inb (ATA_PR_MST_CTRL_BASE + ATA_ALT_STATUS);;
  mret tt.

(** [do{state = inb(...);}while(state&mask)] *)
Fixpoint poll_while (fuel : nat) (mask : Z) : IO D Z :=
  match fuel with
  | O => out_of_fuel
  | S fuel =>
      state ← inb (ATA_PR_MST_IO_BASE + ATA_STATUS);
      if negb (Z.land state mask =? 0) then poll_while fuel mask else mret state
  end.

Definition ata_poll_bsy (fuel : nat) : IO D Z :=
  poll_while fuel ATA_STATUS_BSY;;
  state ← inb (ATA_PR_MST_CTRL_BASE + ATA_ALT_STATUS);
  if negb (Z.land state ATA_STATUS_ERR =? 0) || negb (Z.land state ATA_STATUS_DF =? 0)
  then panic "ata pollling err" else mret state.

(** [do{...}while(!(state&ATA_STATUS_DRDY))] *)
Fixpoint ata_poll_drdy (fuel : nat) : IO D unit :=
  match fuel with
  | O => out_of_fuel
  | S fuel =>
      state ← inb (ATA_PR_MST_IO_BASE + ATA_STATUS);
      if Z.land state ATA_STATUS_DRDY =? 0 then ata_poll_drdy fuel else mret tt
  end.

Definition ata_poll_bsy_drq (fuel : nat) (set_drq : Z) : IO D Z :=
  state ← ata_poll_bsy fuel;
  if negb (Z.lor (Z.land (Z.shiftl set_drq 3) state)
                 (Z.land (Z.lnot state) (Z.lnot (Z.shiftl set_drq 3))) =? 0)
  then mret state else panic "ata polling drq error".

(** [for(i=0;i<cnt;i+=2)] with the buffer at offset [off] of [b]. *)
Fixpoint read_words (fuel n : nat) (b : list Z) (off i : Z) : IO D (list Z) :=
  match n with
  | O => mret b
  | S n =>
      ata_poll_bsy_drq fuel 1;;
      data ← inw (ATA_PR_MST_IO_BASE + ATA_DATA);
      let b := updZ b (off + i) (Z.land data 255) in
      let b := updZ b (off + i + 1) (Z.land (Z.shiftr data 8) 255) in
      read_words fuel n b off (i + 2)
  end.
Definition ata_read_buffer (fuel : nat) (b : list Z) (off cnt : Z) : IO D (list Z) :=
  read_words fuel (Z.to_nat ((cnt + 1) / 2)) b off 0.

Fixpoint write_words (fuel n : nat) (b : list Z) (off i : Z) : IO D unit :=
  match n with
  | O => mret tt
  | S n =>
      ata_poll_bsy_drq fuel 1;;
      outw (ATA_PR_MST_IO_BASE + ATA_DATA) (nthZ b (off + i) + Z.shiftl (nthZ b (off + i + 1)) 8);;
      write_words fuel n b off (i + 2)
  end.
Definition ata_write_buffer (fuel : nat) (b : list Z) (off cnt : Z) : IO D unit :=
  write_words fuel (Z.to_nat ((cnt + 1) / 2)) b off 0.

(** [for(i=0;i<21;++i) inb(...)] *)
Fixpoint read_alt_status (n : nat) : IO D unit :=
  match n with
  | O => mret tt
  | S n => inb (ATA_PR_MST_CTRL_BASE + ATA_ALT_STATUS);; read_alt_status n
  end.

Definition ata_soft_reset (fuel : nat) : IO D unit :=
  ata_poll_bsy fuel;;
  outb (ATA_PR_MST_IO_BASE + ATA_HDDEVSEL) ATA_SEL_MASTER;;
  ata_poll_bsy fuel;;
  outb ATA_PR_MST_CTRL_BASE 4;;
  inb (ATA_PR_MST_CTRL_BASE + ATA_ALT_STATUS);;
  outb ATA_PR_MST_CTRL_BASE 0;;
  read_alt_status 21;;
  poll_while fuel ATA_STATUS_BSY;;
  cl ← inb (ATA_PR_MST_IO_BASE + ATA_LBA0);
  cm ← inb (ATA_PR_MST_IO_BASE + ATA_LBA1);
  ch ← inb (ATA_PR_MST_IO_BASE + ATA_LBA2);
  ata_poll_bsy_drq fuel 0;;
  printl "ATA signatures";;
  print_hex cl;; printl "";;
  print_hex cm;; printl "";;
  print_hex ch;; printl "".

(** [buffer] is the driver's global array of 1024 bytes. *)
Definition ata_detect (fuel : nat) (ide : IDE_Device) (buffer : list Z) : IO D (IDE_Device * list Z) :=
  outb (ATA_PR_MST_IO_BASE + ATA_HDDEVSEL) ATA_SEL_MASTER;;
  ata_poll_bsy_drq fuel 0;;
  ata_poll_drdy fuel;;
  outb (ATA_PR_MST_IO_BASE + ATA_SECCOUNT) 0;;
  outb (ATA_PR_MST_IO_BASE + ATA_LBA0) 0;;
  outb (ATA_PR_MST_IO_BASE + ATA_LBA1) 0;;
  outb (ATA_PR_MST_IO_BASE + ATA_LBA2) 0;;
  outb (ATA_PR_MST_IO_BASE + ATA_COMMAND) 236;;
  ata_wait;;
  status ← inb (ATA_PR_MST_IO_BASE + ATA_STATUS);
  (if status =? 0 then panic "ata device not found" else mret tt);;
  inb (ATA_PR_MST_IO_BASE + ATA_LBA0);;
  inb (ATA_PR_MST_IO_BASE + ATA_LBA1);;
  inb (ATA_PR_MST_IO_BASE + ATA_LBA2);;
  ata_poll_bsy_drq fuel 0;;
  buffer ← ata_read_buffer fuel buffer 0 256;
  ide ← parse_identify_command ide buffer;
  summary_ide_device ide;;
  ata_wait;;
  mret (ide, buffer).

(** Selecting the drive and programming a transfer, the same in both
    directions up to the command. *)
Definition start_transfer (fuel : nat) (lba sec_num command : Z) : IO D unit :=
  let is_slave := 0 in
  let disable_intr := 1 in
  outb (ATA_PR_MST_IO_BASE + ATA_HDDEVSEL)
       (Z.lor (Z.lor 224 (Z.shiftl is_slave 4)) (wrap8 (Z.land (Z.shiftr lba 24) 15)));;
  ata_poll_bsy_drq fuel 0;;
  ata_poll_drdy fuel;;
  outb (ATA_PR_MST_CTRL_BASE + ATA_DEV_CTRL) (Z.lor 0 (Z.shiftl disable_intr 1));;
  outb (ATA_PR_MST_IO_BASE + ATA_SECCOUNT) sec_num;;
  outb (ATA_PR_MST_IO_BASE + ATA_LBA0) (wrap8 (Z.land lba 255));;
  outb (ATA_PR_MST_IO_BASE + ATA_LBA1) (wrap8 (Z.land (Z.shiftr lba 8) 255));;
  outb (ATA_PR_MST_IO_BASE + ATA_LBA2) (wrap8 (Z.land (Z.shiftr lba 16) 255));;
  outb (ATA_PR_MST_IO_BASE + ATA_COMMAND) command;;
  ata_wait.

(** [for(i=0;i<sec_num;++i)] of the two transfers. *)
Fixpoint read_sectors (fuel n : nat) (b : list Z) (i : Z) : IO D (list Z) :=
  match n with
  | O => mret b
  | S n =>
      (if 0 <? i then ata_poll_bsy_drq fuel 1;; mret tt else mret tt);;
      b ← ata_read_buffer fuel b (512 * i) 512;
      read_sectors fuel n b (i + 1)
  end.

Fixpoint write_sectors (fuel n : nat) (b : list Z) (i : Z) : IO D unit :=
  match n with
  | O => mret tt
  | S n =>
      (if 0 <? i then
         inb (ATA_PR_MST_CTRL_BASE + ATA_ALT_STATUS);; ata_poll_bsy_drq fuel 1;; mret tt
       else mret tt);;
      ata_write_buffer fuel b (512 * i) 512;;
      write_sectors fuel n b (i + 1)
  end.

Definition ata_read_sector (fuel : nat) (command : Disk_IO_Command) : IO D (Z * list Z) :=
  let sec_num := if buf_size command / 512 <? sec_num command then buf_size command / 512
                 else sec_num command in
  if sec_num =? 0 then
    printl "ata: read_sector ->F 0 sectors";;
    mret (0, buf command)
  else
    start_transfer fuel (lba_start command) sec_num ATA_CMD_READ_SECTORS;;
    b ← read_sectors fuel (Z.to_nat sec_num) (buf command) 0;
    mret (sec_num, b).

Definition ata_write_sector (fuel : nat) (command : Disk_IO_Command) : IO D Z :=
  start_transfer fuel (lba_start command) (sec_num command) ATA_CMD_WRITE_SECTORS;;
  write_sectors fuel (Z.to_nat (sec_num command)) (buf command) 0;;
  inb (ATA_PR_MST_CTRL_BASE + ATA_ALT_STATUS);;
  ata_poll_bsy_drq fuel 0;;
  ata_poll_drdy fuel;;
  outb (ATA_PR_MST_IO_BASE + ATA_COMMAND) 231;;
  ata_wait;;
  ata_poll_bsy_drq fuel 0;;
  mret (sec_num command).
End Driver.
End Ata.

(** ** The PIO protocol *)

(** Where the drive is in a transfer: waiting for a command, handing out the
    rest of a sector (and then the sectors that follow), or collecting the
    bytes of the sector [lba], [n] sectors to go. *)
Inductive phase : Type :=
| Idle
| DataIn (cur : list Z) (rest : list (list Z))
| DataOut (lba n : Z) (acc : list Z).

Record drive : Type := mk_drive {
  r_cnt : Z;
  r_lba0 : Z;
  r_lba1 : Z;
  r_lba2 : Z;
  r_dev : Z;
  d_phase : phase;
}.

Definition set_reg (p v : Z) (d : drive) : drive :=
  if p =? 498 then mk_drive v (r_lba0 d) (r_lba1 d) (r_lba2 d) (r_dev d) (d_phase d)
  else if p =? 499 then mk_drive (r_cnt d) v (r_lba1 d) (r_lba2 d) (r_dev d) (d_phase d)
  else if p =? 500 then mk_drive (r_cnt d) (r_lba0 d) v (r_lba2 d) (r_dev d) (d_phase d)
  else if p =? 501 then mk_drive (r_cnt d) (r_lba0 d) (r_lba1 d) v (r_dev d) (d_phase d)
  else if p =? 502 then mk_drive (r_cnt d) (r_lba0 d) (r_lba1 d) (r_lba2 d) v (d_phase d)
  else d.
Definition set_phase (p : phase) (d : drive) : drive :=
  mk_drive (r_cnt d) (r_lba0 d) (r_lba1 d) (r_lba2 d) (r_dev d) p.

(** The 28-bit block address in the registers. *)
Definition lba_of (d : drive) : Z :=
  r_lba0 d + 256 * r_lba1 d + 65536 * r_lba2 d + 16777216 * (r_dev d mod 16).

(** The phase after the last byte of a sector has been read. *)
Definition next_in (rest : list (list Z)) : phase :=
  match rest with [] => Idle | c :: rest => DataIn c rest end.

(** What the standard says of a drive in PIO mode.  [busy] is the number of
    status reads for which the drive still reports BSY. *)
Class AtaProtocol (D : Type) `{AtaPorts D} := {
  view : D -> drive;
  sect : D -> Z -> list Z;
  busy : D -> nat;
  max_busy : nat;
  cap : Z;
  ident : list Z;
  cap_28 : cap <= 268435456;
  ident_ok : lenZ ident = 512 /\ bytes ident;
  sect_ok : forall d, sectors_ok (sect d);
  busy_bound : forall d, (busy d <= max_busy)%nat;
  status_law : forall p d x d', p = 503 \/ p = 1014 -> port_in8 p d = (x, d') ->
    u8 x /\ view d' = view d /\ (forall k, sect d' k = sect d k) /\ busy d' = pred (busy d) /\
    Z.testbit x 7 = (0 <? Z.of_nat (busy d)) /\
    (busy d = O -> Z.testbit x 0 = false /\ Z.testbit x 5 = false /\ Z.testbit x 6 = true /\
      Z.testbit x 3 = match d_phase (view d) with Idle => false | _ => true end);
  reg_in_law : forall p d x d', 498 <= p <= 502 -> port_in8 p d = (x, d') ->
    view d' = view d /\ (forall k, sect d' k = sect d k) /\ busy d' = busy d;
  reg_law : forall p v d, 498 <= p <= 502 -> busy d = O -> d_phase (view d) = Idle ->
    view (port_out8 p v d) = set_reg p v (view d) /\
    (forall k, sect (port_out8 p v d) k = sect d k) /\ busy (port_out8 p v d) = O;
  ctrl_law : forall v d, Z.testbit v 2 = false -> busy d = O ->
    view (port_out8 1014 v d) = view d /\
    (forall k, sect (port_out8 1014 v d) k = sect d k) /\ busy (port_out8 1014 v d) = O;
  read_law : forall d, busy d = O -> d_phase (view d) = Idle -> Z.testbit (r_dev (view d)) 6 = true ->
    0 < r_cnt (view d) -> lba_of (view d) + r_cnt (view d) <= cap ->
    view (port_out8 503 32 d) =
      set_phase (next_in (map (sect d) (seqZ (lba_of (view d)) (r_cnt (view d))))) (view d) /\
    (forall k, sect (port_out8 503 32 d) k = sect d k);
  write_law : forall d, busy d = O -> d_phase (view d) = Idle -> Z.testbit (r_dev (view d)) 6 = true ->
    0 < r_cnt (view d) -> lba_of (view d) + r_cnt (view d) <= cap ->
    view (port_out8 503 48 d) = set_phase (DataOut (lba_of (view d)) (r_cnt (view d)) []) (view d) /\
    (forall k, sect (port_out8 503 48 d) k = sect d k);
  identify_law : forall d, busy d = O -> d_phase (view d) = Idle ->
    view (port_out8 503 236 d) = set_phase (DataIn ident []) (view d) /\
    (forall k, sect (port_out8 503 236 d) k = sect d k);
  flush_law : forall d, busy d = O -> d_phase (view d) = Idle ->
    view (port_out8 503 231 d) = view d /\ (forall k, sect (port_out8 503 231 d) k = sect d k);
  data_in_law : forall d a b cur rest x d', busy d = O -> d_phase (view d) = DataIn (a :: b :: cur) rest ->
    port_in16 496 d = (x, d') ->
    x = a + 256 * b /\ (forall k, sect d' k = sect d k) /\
    match cur with
    | [] => view d' = set_phase (next_in rest) (view d) /\ (rest = [] -> busy d' = O)
    | _ => view d' = set_phase (DataIn cur rest) (view d)
    end;
  data_out_law : forall d l n acc v, busy d = O -> d_phase (view d) = DataOut l n acc -> bytes acc -> u16 v ->
    let acc' := acc ++ [v mod 256; v / 256] in
    if lenZ acc' =? 512 then
      view (port_out16 496 v d) =
        set_phase (if n =? 1 then Idle else DataOut (l + 1) (n - 1) []) (view d) /\
      (forall k, sect (port_out16 496 v d) k = if k =? l then acc' else sect d k)
    else
      view (port_out16 496 v d) = set_phase (DataOut l n acc') (view d) /\
      (forall k, sect (port_out16 496 v d) k = sect d k);
}.
