(* ===== verification/AtaThm.v ===== *)
(** * The ATA driver implements the disk interface

    Against any drive that follows the PIO protocol, [ata_read_sector] and
    [ata_write_sector] return, transfer exactly the sectors asked for, and
    leave the drive ready for the next command: the driver is an instance of
    [BlockDev].  The busy-wait loops need one round more than the longest busy
    period of the drive. *)
From S2P Require Import Prelude CMem CString Sink Print Disk Ata.
Import Print Ata.
Open Scope list_scope.

(** Testing a mask of one bit. *)
Lemma mask_bit x k : 0 <= k -> (Z.land x (2 ^ k) =? 0) = negb (Z.testbit x k).
Proof.
  intros Hk. destruct (Z.eqb_spec (Z.land x (2 ^ k)) 0) as [E|E].
  - apply (f_equal (fun y => Z.testbit y k)) in E.
    rewrite Z.land_spec, Z.pow2_bits_true, Z.bits_0, andb_true_r in E by lia. by rewrite E.
  - destruct (Z.testbit x k) eqn:B; [done|]. destruct E. apply Z.bits_inj_0. intros j.
    rewrite Z.land_spec. destruct (decide (j = k)) as [->|]; [by rewrite B|].
    rewrite Z.pow2_bits_false by done. apply andb_false_r.
Qed.

(** The test of [ata_poll_bsy_drq] always succeeds. *)
Lemma drq_test_nonzero set_drq st :
  (set_drq = 0 \/ set_drq = 1) -> u8 st ->
  Z.lor (Z.land (Z.shiftl set_drq 3) st) (Z.land (Z.lnot st) (Z.lnot (Z.shiftl set_drq 3))) <> 0.
Proof.
  intros Hd Hst E. apply (f_equal (fun y => Z.testbit y 8)) in E.
  assert (H8 : Z.testbit st 8 = false).
  { apply Z.bits_above_log2; [lia|]. destruct (decide (st = 0)) as [->|]; [simpl; lia|].
    apply Z.log2_lt_pow2; [lia|]. change (2 ^ 8) with 256. lia. }
  rewrite Z.lor_spec, !Z.land_spec, !Z.lnot_spec, H8 in E by lia.
  destruct Hd as [-> | ->]; discriminate E.
Qed.

(** The bytes of a 28-bit block address, as the driver cuts them. *)
Lemma land_255 x : Z.land x 255 = x mod 256.
Proof. change 255 with (Z.ones 8). by rewrite Z.land_ones. Qed.
Lemma land_15 x : Z.land x 15 = x mod 16.
Proof. change 15 with (Z.ones 4). by rewrite Z.land_ones. Qed.
Lemma shiftr_div x k : 0 <= k -> Z.shiftr x k = x / 2 ^ k.
Proof. apply Z.shiftr_div_pow2. Qed.

Lemma lor_224 x : 0 <= x < 16 -> Z.lor 224 x = 224 + x.
Proof.
  intros Hx. assert (E : x ∈ seqZ 0 16) by (apply elem_of_seqZ; lia). clear Hx. revert x E.
  apply Forall_forall. by repeat constructor.
Qed.

Lemma lba_cut lba :
  0 <= lba < 268435456 ->
  lba mod 256 + 256 * (lba / 256 mod 256) + 65536 * (lba / 65536 mod 256) + 16777216 * (lba / 16777216 mod 16) = lba.
Proof.
  intros Hl. pose proof (bytes4_value lba) as E. rewrite wrap32_small in E by lia. unfold wrap8 in E.
  assert (0 <= lba / 16777216 < 16) by (split; [apply Z.div_pos|apply Z.div_lt_upper_bound]; lia).
  rewrite (Z.mod_small _ 16) by lia. by rewrite (Z.mod_small (lba / 16777216) 256) in E by lia.
Qed.

Section Driver.
Context {D : Type} `{AtaProtocol D} (fuel : nat) (Hfuel : (max_busy < fuel)%nat).
Implicit Types (h : host D) (v : drive) (s : Z -> list Z).

(** The drive of [h] is in the abstract state [v], [s]; nothing was printed. *)
Definition at_state (h : host D) (v : drive) (s : Z -> list Z) (l : list event) : Prop :=
  view (dev h) = v /\ (forall k, sect (dev h) k = s k) /\ log h = l.
Definition quiet (h : host D) : Prop := busy (dev h) = O.

Lemma at_state_ok h v s l : at_state h v s l -> sectors_ok s.
Proof. intros (_ & E & _) k. rewrite <- E. apply sect_ok. Qed.

Lemma inb_status h v s l p (Q : Z -> host D -> Prop) :
  at_state h v s l -> p = 503 \/ p = 1014 ->
  (forall x h', u8 x -> at_state h' v s l -> busy (dev h') = pred (busy (dev h)) ->
     Z.testbit x 7 = (0 <? Z.of_nat (busy (dev h))) ->
     (quiet h -> Z.testbit x 0 = false /\ Z.testbit x 5 = false /\ Z.testbit x 6 = true /\
       Z.testbit x 3 = match d_phase v with Idle => false | _ => true end) -> Q x h') ->
  wp (inb p) h Q.
Proof.
  intros (Hv & Hs & Hl) Hp HQ. unfold wp, inb. destruct (port_in8 p (dev h)) as [x d'] eqn:E.
  destruct (status_law p (dev h) x d' Hp E) as (Hu & Hv' & Hs' & Hb & H7 & Hx). apply HQ; simpl.
  - done.
  - split; [simpl; congruence|]. split; [|done]. intros k. simpl. by rewrite Hs'.
  - done.
  - done.
  - rewrite <- Hv. done.
Qed.

Lemma poll_while_bsy n h v s l (Q : Z -> host D -> Prop) :
  at_state h v s l -> (busy (dev h) < n)%nat ->
  (forall x h', at_state h' v s l -> quiet h' -> Q x h') ->
  wp (poll_while n ATA_STATUS_BSY) h Q.
Proof.
  revert h. induction n as [|n IH]; intros h Hst Hb HQ; [lia|]. cbn [poll_while].
  apply wp_bind. eapply inb_status; [done|by left|]. intros x h' _ Hst' Hb' H7 _.
  change ATA_STATUS_BSY with (2 ^ 7) in *. rewrite mask_bit, negb_involutive, H7 by lia.
  destruct (Z.ltb_spec 0 (Z.of_nat (busy (dev h)))).
  - apply IH; [done|lia|done].
  - apply wp_ret. apply HQ; [done|]. unfold quiet. lia.
Qed.

Lemma poll_bsy_ok h v s l (Q : Z -> host D -> Prop) :
  at_state h v s l -> (forall x h', u8 x -> at_state h' v s l -> quiet h' -> Q x h') ->
  wp (ata_poll_bsy fuel) h Q.
Proof.
  intros Hst HQ. apply wp_bind. pose proof (busy_bound (dev h)). eapply poll_while_bsy; [done|lia|].
  intros x h' Hst' Hq. apply wp_bind. eapply inb_status; [done|by right|].
  intros y h2 Hu Hst2 Hb2 _ Hy. destruct (Hy Hq) as (B0 & B5 & _).
  change ATA_STATUS_ERR with (2 ^ 0). change ATA_STATUS_DF with (2 ^ 5). rewrite !mask_bit by lia.
  rewrite B0, B5. simpl. apply wp_ret, HQ; [done|done|]. unfold quiet in *. rewrite Hb2, Hq. done.
Qed.


Lemma poll_bsy_drq_ok h v s l set_drq (Q : Z -> host D -> Prop) :
  at_state h v s l -> (set_drq = 0 \/ set_drq = 1) ->
  (forall x h', at_state h' v s l -> quiet h' -> Q x h') ->
  wp (ata_poll_bsy_drq fuel set_drq) h Q.
Proof.
  intros Hst Hd HQ. apply wp_bind. eapply poll_bsy_ok; [done|]. intros x h' Hu Hst' Hq.
  rewrite (proj2 (Z.eqb_neq _ _) (drq_test_nonzero set_drq x Hd Hu)). simpl. apply wp_ret. by apply HQ.
Qed.

Lemma poll_drdy_ok h v s l (Q : unit -> host D -> Prop) :
  at_state h v s l -> quiet h -> (forall h', at_state h' v s l -> quiet h' -> Q tt h') ->
  wp (ata_poll_drdy fuel) h Q.
Proof.
  intros Hst Hq HQ. assert (exists n, fuel = S n) as [n ->] by (exists (pred fuel); lia).
  cbn [ata_poll_drdy]. apply wp_bind.
  eapply inb_status; [done|by left|]. intros x h' _ Hst' Hb' _ Hx. destruct (Hx Hq) as (_ & _ & H6 & _).
  change ATA_STATUS_DRDY with (2 ^ 6). rewrite mask_bit, H6 by lia. simpl. apply wp_ret, HQ; [done|].
  unfold quiet in *. by rewrite Hb', Hq.
Qed.

Lemma wait_ok h v s l (Q : unit -> host D -> Prop) :
  at_state h v s l -> (forall h', at_state h' v s l -> (quiet h -> quiet h') -> Q tt h') ->
  wp ata_wait h Q.
Proof.
  intros Hst HQ. unfold ata_wait.
  do 4 (apply wp_bind; eapply inb_status; [done|by right|]; clear Hst; intros ? ? _ Hst ? _ _).
  apply wp_ret, HQ; [done|]. unfold quiet. intros. lia.
Qed.

Lemma outb_reg h v s l p x (Q : unit -> host D -> Prop) :
  at_state h v s l -> quiet h -> d_phase v = Idle -> 498 <= p <= 502 ->
  (forall h', at_state h' (set_reg p (wrap8 x) v) s l -> quiet h' -> Q tt h') ->
  wp (outb p x) h Q.
Proof.
  intros (Hv & Hs & Hl) Hq Hi Hp HQ. unfold wp, outb.
  destruct (reg_law p (wrap8 x) (dev h) Hp Hq) as (Hv' & Hs' & Hb); [by rewrite Hv|].
  apply HQ; [|done]. split; [by rewrite <- Hv|]. split; [|done]. intros k. simpl. by rewrite Hs'.
Qed.

Lemma outb_ctrl h v s l (Q : unit -> host D -> Prop) :
  at_state h v s l -> quiet h -> (forall h', at_state h' v s l -> quiet h' -> Q tt h') ->
  wp (outb 1014 2) h Q.
Proof.
  intros (Hv & Hs & Hl) Hq HQ. unfold wp, outb. destruct (ctrl_law 2 (dev h) eq_refl Hq) as (Hv' & Hs' & Hb).
  apply HQ; [|done]. split; [by rewrite <- Hv|]. split; [|done]. intros k. simpl. by rewrite Hs'.
Qed.

(** The register set-up of a transfer, up to the command. *)
Lemma start_transfer_regs h v s l lba n c (Q : unit -> host D -> Prop) :
  at_state h v s l -> quiet h -> d_phase v = Idle -> 0 <= lba -> 0 < n <= 255 -> lba + n <= 268435456 ->
  (forall h' v', at_state h' v' s l -> quiet h' -> d_phase v' = Idle -> lba_of v' = lba -> r_cnt v' = n ->
     Z.testbit (r_dev v') 6 = true -> wp (outb 503 c;; ata_wait) h' Q) ->
  wp (start_transfer fuel lba n c) h Q.
Proof.
  intros Hst Hq Hi Hl Hn Hc HQ. unfold start_transfer.
  apply wp_bind. eapply outb_reg; [done|done|done|unfold ATA_PR_MST_IO_BASE, ATA_HDDEVSEL; lia|].
  clear h Hst Hq. intros h Hst Hq. apply wp_bind. eapply poll_bsy_drq_ok; [done|by left|].
  clear h Hst Hq. intros _ h Hst Hq. apply wp_bind. eapply poll_drdy_ok; [done|done|].
  clear h Hst Hq. intros h Hst Hq. apply wp_bind. eapply outb_ctrl; [done|done|].
  clear h Hst Hq. intros h Hst Hq.
  do 4 (apply wp_bind; eapply outb_reg;
    [done|done|done|unfold ATA_PR_MST_IO_BASE, ATA_SECCOUNT, ATA_LBA0, ATA_LBA1, ATA_LBA2; lia|];
    clear h Hst Hq; intros h Hst Hq).
  assert (Hdev : 0 <= wrap8 (Z.land (Z.shiftr lba 24) 15) < 16).
  { rewrite land_15, wrap8_small; pose proof (Z.mod_pos_bound (Z.shiftr lba 24) 16); lia. }
  rewrite lor_224, (wrap8_small (224 + _)) in Hst by lia.
  rewrite land_15, !land_255, !shiftr_div in Hst by lia. rewrite !wrap8_idem, (wrap8_small n) in Hst by lia.
  match type of Hst with at_state _ (set_reg _ ?x2 (set_reg _ ?x1 (set_reg _ ?x0 (set_reg _ _ (set_reg _ ?xd _))))) _ _ =>
    remember x2 as b2 eqn:E2; remember x1 as b1 eqn:E1; remember x0 as b0 eqn:E0; remember xd as bd eqn:Ed end.
  assert (Hbd : exists x, 0 <= x < 16 /\ bd = 224 + x).
  { exists (wrap8 ((lba / 2 ^ 24) mod 16)). split; [|done]. rewrite wrap8_small; pose proof (Z.mod_pos_bound (lba / 2 ^ 24) 16); lia. }
  eapply HQ; [exact Hst|exact Hq|exact Hi|..].
  - change (b0 + 256 * b1 + 65536 * b2 + 16777216 * (bd mod 16) = lba). subst. unfold wrap8. rewrite ?Z.mod_mod by lia.
    pose proof (Z.mod_pos_bound (lba / 2 ^ 24) 16 eq_refl). rewrite (Z.mod_small ((lba / 2 ^ 24) mod 16) 256) by lia.
    change 224 with (14 * 16). rewrite (Z.add_comm (14 * 16)), Z.mod_add, Z.mod_mod by lia.
    apply lba_cut. lia.
  - reflexivity.
  - change (Z.testbit bd 6 = true). destruct Hbd as (x & Hx & ->). assert (E : x ∈ seqZ 0 16) by (apply elem_of_seqZ; lia). clear - E. revert x E.
    apply Forall_forall. by repeat constructor.
Qed.

(** One word of a sector. *)
Lemma read_words_step n h v s l b off i x y cur rest (Q : list Z -> host D -> Prop) :
  at_state h v s l -> d_phase v = DataIn (x :: y :: cur) rest -> u8 x -> u8 y ->
  (forall h', at_state h' (set_phase (match cur with [] => next_in rest | _ => DataIn cur rest end) v) s l ->
     (cur = [] -> rest = [] -> quiet h') ->
     wp (read_words fuel n (updZ (updZ b (off + i) x) (off + i + 1) y) off (i + 2)) h' Q) ->
  wp (read_words fuel (S n) b off i) h Q.
Proof.
  intros Hst Hp Hx Hy HQ. cbn [read_words]. apply wp_bind. eapply poll_bsy_drq_ok; [done|by right|].
  clear h Hst. intros _ h (Hv & Hs & Hlog) Hq. apply wp_bind. unfold wp at 1, inw.
  destruct (port_in16 (ATA_PR_MST_IO_BASE + ATA_DATA) (dev h)) as [w d'] eqn:E.
  destruct (data_in_law (dev h) x y cur rest w d' Hq) as (-> & Hs' & Hph); [by rewrite Hv|exact E|].
  rewrite land_255, shiftr_div by lia. change (2 ^ 8) with 256.
  replace ((x + 256 * y) mod 256) with x by (rewrite Z.mul_comm, Z.mod_add, Z.mod_small; lia).
  replace ((x + 256 * y) / 256) with y by (rewrite Z.mul_comm, Z.div_add, Z.div_small; lia).
  rewrite land_255, (Z.mod_small y 256) by lia. apply HQ.
  - split; [|split; [intros k; simpl; by rewrite Hs'|done]]. rewrite <- Hv. by destruct cur; [destruct Hph|].
  - intros ->. by destruct Hph.
Qed.

(** The beginning of a sector: the drive keeps the rest of it. *)
Lemma read_words_part n h v s l b off i c1 c2 rest (Q : list Z -> host D -> Prop) :
  at_state h v s l -> d_phase v = DataIn (c1 ++ c2) rest -> lenZ c1 = 2 * Z.of_nat n -> c2 <> [] -> bytes c1 ->
  0 <= off + i -> off + i + lenZ c1 <= lenZ b ->
  (forall h', at_state h' (set_phase (DataIn c2 rest) v) s l -> Q (splice b (off + i) c1) h') ->
  wp (read_words fuel n b off i) h Q.
Proof.
  revert h v b i c1. induction n as [|n IH]; intros h v b i c1 Hst Hp Hlen Hc2 Hb Ho Hl HQ.
  - destruct c1; [|rewrite lenZ_cons in Hlen; pose proof (lenZ_nonneg c1); lia]. apply wp_ret.
    rewrite <- (splice_nil b (off + i)). apply HQ. destruct v. simpl in Hp. by subst.
  - destruct c1 as [|x [|y c1]]; [rewrite lenZ_nil in Hlen; lia|change (lenZ [x]) with 1 in Hlen; lia|].
    rewrite !lenZ_cons in *. apply Forall_cons in Hb as [Hx Hb]. apply Forall_cons in Hb as [Hy Hb].
    eapply read_words_step; [done|exact Hp|done|done|]. intros h1 Hst1 _.
    eapply (IH _ (set_phase (DataIn (c1 ++ c2) rest) v) _ _ c1); rewrite ?lenZ_updZ; try lia; try done.
    + fold (c1 ++ c2) in Hst1. destruct (c1 ++ c2) eqn:Ec; [by apply app_eq_nil in Ec as [_ ->]|exact Hst1].
    + intros h' Hst'. replace (off + (i + 2)) with (off + i + 1 + 1) by lia. rewrite splice_two by lia. by apply HQ.
Qed.

(** A whole sector. *)
Lemma read_words_ok n h v s l b off i cur rest (Q : list Z -> host D -> Prop) :
  at_state h v s l -> d_phase v = DataIn cur rest -> (0 < n)%nat -> lenZ cur = 2 * Z.of_nat n -> bytes cur ->
  0 <= off + i -> off + i + lenZ cur <= lenZ b ->
  (forall h', at_state h' (set_phase (next_in rest) v) s l -> (rest = [] -> quiet h') ->
     Q (splice b (off + i) cur) h') ->
  wp (read_words fuel n b off i) h Q.
Proof.
  revert h v b i cur. induction n as [|n IH]; intros h v b i cur Hst Hp Hn Hlen Hb Ho Hl HQ; [lia|].
  destruct cur as [|x [|y cur]]; [rewrite lenZ_nil in Hlen; lia|change (lenZ [x]) with 1 in Hlen; lia|].
  rewrite !lenZ_cons in *. apply Forall_cons in Hb as [Hx Hb]. apply Forall_cons in Hb as [Hy Hb].
  pose proof (lenZ_nonneg cur). eapply read_words_step; [done|exact Hp|done|done|]. intros h1 Hst1 Hq1.
  destruct cur as [|z cur].
  - destruct n; [|rewrite lenZ_nil in Hlen; lia]. apply wp_ret.
    rewrite <- (splice_nil (updZ _ _ y) (off + i + 1 + 1)), splice_two by lia. auto.
  - rewrite lenZ_cons in *. pose proof (lenZ_nonneg cur).
    eapply (IH _ (set_phase (DataIn (z :: cur) rest) v) _ _ (z :: cur)); rewrite ?lenZ_updZ, ?lenZ_cons; try lia; try done.
    intros h' Hst' Hq'. replace (off + (i + 2)) with (off + i + 1 + 1) by lia.
    rewrite splice_two by (rewrite ?lenZ_cons; lia). by apply HQ.
Qed.

Lemma read_sectors_ok n h v s l b i sl (Q : list Z -> host D -> Prop) :
  at_state h v s l -> d_phase v = next_in sl -> length sl = n -> Forall (fun c => lenZ c = 512 /\ bytes c) sl ->
  (sl = [] -> quiet h) -> 0 <= i -> 512 * (i + Z.of_nat n) <= lenZ b ->
  (forall h', at_state h' (set_phase Idle v) s l -> quiet h' -> Q (splice b (512 * i) (concat sl)) h') ->
  wp (read_sectors fuel n b i) h Q.
Proof.
  revert h v b i sl. induction n as [|n IH]; intros h v b i sl Hst Hp Hn Hsl Hq0 Hi Hl HQ.
  - destruct sl; [|done]. apply wp_ret. simpl in *.
    rewrite <- (splice_nil b (512 * i)). apply HQ; [|by apply Hq0]. destruct v. simpl in Hp. by rewrite Hp in Hst.
  - destruct sl as [|c sl]; [done|]. apply Forall_cons in Hsl as [[Hc Hby] Hsl]. simpl in Hn, Hp.
    cbn [read_sectors]. apply wp_bind.
    assert (HK : forall h0, at_state h0 v s l ->
      wp (b0 ← ata_read_buffer fuel b (512 * i) 512; read_sectors fuel n b0 (i + 1)) h0 Q).
    { intros h0 Hst0. apply wp_bind. unfold ata_read_buffer. change (Z.to_nat ((512 + 1) / 2)) with 256%nat.
      eapply read_words_ok; [done|done|lia|lia|done|lia|lia|]. intros h1 Hst1 Hq1.
      rewrite Z.add_0_r. eapply (IH _ _ _ _ sl); [done|done|lia|done| |lia| |].
      - intros ->. by apply Hq1.
      - rewrite lenZ_splice; lia.
      - intros h2 Hst2 Hq2. replace (512 * (i + 1)) with (512 * i + lenZ c) by lia.
        assert (Hcl : lenZ (concat sl) = 512 * Z.of_nat n).
        { clear - Hn Hsl. assert (Hn' : length sl = n) by lia. clear Hn. revert n Hn'.
          induction Hsl as [|c sl [Hc _] _ IHs]; intros n <-; [done|]. simpl. rewrite lenZ_app, (IHs _ eq_refl). lia. }
        rewrite splice_app by lia. apply HQ; done. }
    destruct (0 <? i); [apply wp_bind|apply wp_ret].
    + eapply poll_bsy_drq_ok; [done|by right|]. intros _ h' Hst' _. apply wp_ret. by apply HK.
    + by apply HK.
Qed.

(** One sector out: [n] words left of sector [lba]. *)
Lemma write_words_ok n h v s l b off i lba m acc (Q : unit -> host D -> Prop) :
  at_state h v s l -> d_phase v = DataOut lba m acc -> (0 < n)%nat -> lenZ acc + 2 * Z.of_nat n = 512 -> bytes acc -> bytes b ->
  0 <= off + i -> off + i + 2 * Z.of_nat n <= lenZ b ->
  (forall h', at_state h' (set_phase (if m =? 1 then Idle else DataOut (lba + 1) (m - 1) []) v)
      (fun k => if k =? lba then acc ++ slice b (off + i) (2 * Z.of_nat n) else s k) l -> Q tt h') ->
  wp (write_words fuel n b off i) h Q.
Proof.
  revert h v s i acc. induction n as [|n IH]; intros h v s i acc Hst Hp Hn Hlen Ha Hb Ho Hl HQ; [lia|].
  cbn [write_words]. apply wp_bind. eapply poll_bsy_drq_ok; [done|by right|].
  clear h Hst. intros _ h (Hv & Hs & Hlog) Hq. apply wp_bind. unfold wp at 1, outw.
  set (x := nthZ b (off + i)). set (y := nthZ b (off + i + 1)).
  assert (Hx : u8 x) by (by apply bytes_nth). assert (Hy : u8 y) by (by apply bytes_nth).
  rewrite Z.shiftl_mul_pow2 by lia. change (2 ^ 8) with 256. rewrite wrap16_small by lia.
  pose proof (data_out_law (dev h) lba m acc (x + y * 256) Hq ltac:(by rewrite Hv) Ha ltac:(lia)) as HL.
  simpl in HL. replace ((x + y * 256) mod 256) with x in HL by (rewrite Z.mod_add, Z.mod_small; lia).
  replace ((x + y * 256) / 256) with y in HL by (rewrite Z.div_add, Z.div_small; lia).
  assert (Hsl : slice b (off + i) (2 * Z.of_nat (S n)) = [x; y] ++ slice b (off + (i + 2)) (2 * Z.of_nat n)).
  { rewrite slice_cons by lia. fold x. rewrite slice_cons by lia. fold y. simpl. do 3 f_equal; lia. }
  rewrite lenZ_app in HL. change (lenZ [x; y]) with 2 in HL. rewrite Hv in HL.
  change (ATA_PR_MST_IO_BASE + ATA_DATA) with 496.
  destruct (Z.eqb_spec (lenZ acc + 2) 512) as [E|E]; destruct HL as [Hv' Hs'].
  - assert (n = 0%nat) as -> by lia. apply wp_ret, HQ. split; [done|]. split; [|done]. intros k. simpl.
    rewrite Hs', Hsl. replace (2 * Z.of_nat 0) with 0 by lia. rewrite slice_nil, app_nil_r, Hs. done.
  - eapply (IH _ (set_phase (DataOut lba m (acc ++ [x; y])) v) s (i + 2) (acc ++ [x; y])); rewrite ?lenZ_app; try lia.
    + split; [done|]. split; [|done]. intros k. simpl. by rewrite Hs', Hs.
    + done.
    + change (lenZ [x; y]) with 2. lia.
    + apply Forall_app. split; [done|]. apply Forall_cons_2; [done|]. by apply Forall_cons_2.
    + done.
    + intros h' Hst'. apply HQ. rewrite Hsl. rewrite <- app_assoc in Hst'. exact Hst'.
Qed.

Lemma write_sectors_ok n h v s l b i lba (Q : unit -> host D -> Prop) :
  at_state h v s l -> d_phase v = (if Z.of_nat n =? 0 then Idle else DataOut lba (Z.of_nat n) []) ->
  bytes b -> 0 <= i -> 512 * (i + Z.of_nat n) <= lenZ b ->
  (forall h' s', at_state h' (set_phase Idle v) s' l ->
     (forall k, s' k = write_secs s lba (Z.of_nat n) (drop (Z.to_nat (512 * i)) b) k) -> Q tt h') ->
  wp (write_sectors fuel n b i) h Q.
Proof.
  revert h v s i lba. induction n as [|n IH]; intros h v s i lba Hst Hp Hb Hi Hl HQ.
  - apply wp_ret. apply (HQ h s); [destruct v; simpl in Hp; by subst|].
    intros k. rewrite write_secs_out by lia. done.
  - rewrite (proj2 (Z.eqb_neq (Z.of_nat (S n)) 0)) in Hp by lia. cbn [write_sectors]. apply wp_bind.
    assert (HK : forall h0, at_state h0 v s l ->
      wp (ata_write_buffer fuel b (512 * i) 512;; write_sectors fuel n b (i + 1)) h0 Q).
    { intros h0 Hst0. apply wp_bind. unfold ata_write_buffer. change (Z.to_nat ((512 + 1) / 2)) with 256%nat.
      eapply write_words_ok; [done|done|lia|rewrite lenZ_nil; lia|constructor|done|lia|lia|].
      rewrite Z.add_0_r. change (2 * Z.of_nat 256) with 512. intros h1 Hst1.
      eapply (IH _ _ _ _ (lba + 1)); [exact Hst1| |done|lia|lia|].
      - unfold set_phase. cbn [d_phase]. destruct n as [|n]; [done|]. rewrite (proj2 (Z.eqb_neq (Z.of_nat (S (S n))) 1)) by lia.
        rewrite (proj2 (Z.eqb_neq (Z.of_nat (S n)) 0)) by lia. f_equal. lia.
      - intros h2 s' Hst2 Hs'. apply (HQ h2 s'); [done|]. intros k. rewrite Hs'.
        assert (Hsl : forall a, 0 <= a -> slice (drop (Z.to_nat (512 * (i + 1))) b) a 512 =
                      slice (drop (Z.to_nat (512 * i)) b) (512 + a) 512).
        { intros a Ha. unfold slice. rewrite !drop_drop. do 2 f_equal. lia. }
        destruct (Z.ltb_spec k lba); [|destruct (Z.ltb_spec k (lba + Z.of_nat (S n)))].
        + rewrite !write_secs_out by lia. by if_false.
        + rewrite (write_secs_in _ lba) by lia. destruct (Z.eqb_spec k lba) as [->|].
          * rewrite write_secs_out, Z.eqb_refl, Z.sub_diag by lia. simpl. unfold slice.
            by rewrite drop_0.
          * rewrite write_secs_in, Hsl by lia. f_equal. lia.
        + rewrite !write_secs_out by lia. by if_false. }
    destruct (0 <? i); [apply wp_bind|apply wp_ret].
    + eapply inb_status; [done|by right|]. intros ? h' _ Hst' _ _ _. apply wp_bind.
      eapply poll_bsy_drq_ok; [done|by right|]. intros _ h2 Hst2 _. apply wp_ret. by apply HK.
    + by apply HK.
Qed.

(** ** The two operations *)

Definition idle_drive (d : D) : Prop := busy d = O /\ d_phase (view d) = Idle.

Lemma read_sector_ok cmd h :
  idle_drive (dev h) ->
  let n := if buf_size cmd / 512 <? sec_num cmd then buf_size cmd / 512 else sec_num cmd in
  0 < n <= 255 -> 0 <= lba_start cmd -> lba_start cmd + n <= cap -> n * 512 <= lenZ (buf cmd) ->
  wp (ata_read_sector fuel cmd) h (fun r h' =>
    r = (n, splice (buf cmd) 0 (secs (sect (dev h)) (lba_start cmd) n)) /\
    idle_drive (dev h') /\ log h' = log h /\ forall k, sect (dev h') k = sect (dev h) k).
Proof.
  intros [Hq Hi] n Hn Hl Hc Hb. unfold ata_read_sector. fold n. rewrite (proj2 (Z.eqb_neq n 0)) by lia.
  pose proof cap_28. apply wp_bind.
  eapply (start_transfer_regs h (view (dev h)) (sect (dev h)) (log h)); [done|exact Hq|done|lia|lia|lia|].
  intros h1 v1 (Hv1 & Hs1 & Hlog1) Hq1 Hi1 Hlba Hcnt H6. subst v1. apply wp_bind. unfold wp at 1, outb.
  destruct (read_law (dev h1) Hq1 Hi1 H6) as [Hv2 Hs2]; [lia|lia|]. rewrite Hlba, Hcnt in Hv2.
  eapply (wait_ok _ (set_phase (next_in (map (sect (dev h1)) (seqZ (lba_start cmd) n))) (view (dev h1))) (sect (dev h)) (log h)).
  { split; [exact Hv2|]. split; [|done]. intros k. simpl. change (wrap8 ATA_CMD_READ_SECTORS) with 32. by rewrite Hs2. }
  intros h2 Hst2 _. apply wp_bind.
  eapply (read_sectors_ok _ _ _ _ _ _ _ (map (sect (dev h1)) (seqZ (lba_start cmd) n))); [exact Hst2|done| | | |lia|lia|].
  - rewrite length_map, length_seqZ. done.
  - apply Forall_map, Forall_forall. intros k _. apply sect_ok.
  - intros E. apply map_eq_nil, (f_equal length) in E. rewrite length_seqZ in E. simpl in E. lia.
  - intros h3 (Hv3 & Hs3 & Hlog3) Hq3. apply wp_ret. split; [|split; [split|split]].
    + f_equal. f_equal. apply secs_ext. auto.
    + exact Hq3.
    + by rewrite Hv3.
    + done.
    + done.
Qed.

Lemma write_sector_ok cmd h :
  idle_drive (dev h) -> 0 < sec_num cmd <= 255 -> 0 <= lba_start cmd ->
  lba_start cmd + sec_num cmd <= cap -> sec_num cmd * 512 <= lenZ (buf cmd) -> bytes (buf cmd) ->
  wp (ata_write_sector fuel cmd) h (fun r h' =>
    r = sec_num cmd /\ idle_drive (dev h') /\ log h' = log h /\
    forall k, sect (dev h') k = write_secs (sect (dev h)) (lba_start cmd) (sec_num cmd) (buf cmd) k).
Proof.
  intros [Hq Hi] Hn Hl Hc Hb Hby. unfold ata_write_sector. pose proof cap_28. apply wp_bind.
  eapply (start_transfer_regs h (view (dev h)) (sect (dev h)) (log h)); [done|exact Hq|done|lia|lia|lia|].
  intros h1 v1 (Hv1 & Hs1 & Hlog1) Hq1 Hi1 Hlba Hcnt H6. subst v1. apply wp_bind. unfold wp at 1, outb.
  destruct (write_law (dev h1) Hq1 Hi1 H6) as [Hv2 Hs2]; [lia|lia|]. rewrite Hlba, Hcnt in Hv2.
  eapply (wait_ok _ (set_phase (DataOut (lba_start cmd) (sec_num cmd) []) (view (dev h1))) (sect (dev h)) (log h)).
  { split; [exact Hv2|]. split; [|done]. intros k. simpl. change (wrap8 ATA_CMD_WRITE_SECTORS) with 48. by rewrite Hs2. }
  intros h2 Hst2 _. apply wp_bind.
  eapply (write_sectors_ok _ _ _ _ _ _ _ (lba_start cmd)); [exact Hst2| |done|lia|rewrite Z2Nat.id; lia|].
  { rewrite Z2Nat.id by lia. by rewrite (proj2 (Z.eqb_neq _ 0)) by lia. }
  rewrite Z2Nat.id by lia. simpl (Z.to_nat (512 * 0)). rewrite drop_0. intros h3 s' Hst3 Hs'.
  apply wp_bind. eapply inb_status; [exact Hst3|by right|]. intros _ h4 _ Hst4 _ _ _.
  apply wp_bind. eapply poll_bsy_drq_ok; [exact Hst4|by left|]. intros _ h5 Hst5 Hq5.
  apply wp_bind. eapply poll_drdy_ok; [exact Hst5|done|]. intros h6 (Hv6 & Hs6 & Hlog6) Hq6.
  apply wp_bind. unfold wp at 1, outb. destruct (flush_law (dev h6) Hq6) as [Hv7 Hs7]; [by rewrite Hv6|].
  apply wp_bind. eapply (wait_ok _ (set_phase Idle (view (dev h1))) s' (log h)).
  { split; [etransitivity; [exact Hv7|exact Hv6]|]. split; [|done]. intros k. simpl.
    change (wrap8 231) with 231. rewrite <- Hs6. exact (Hs7 k). }
  intros h8 Hst8 _. apply wp_bind. eapply poll_bsy_drq_ok; [exact Hst8|by left|].
  intros _ h9 (Hv9 & Hs9 & Hlog9) Hq9. apply wp_ret. split; [done|]. split; [split; [done|by rewrite Hv9]|].
  split; [done|]. intros k. by rewrite Hs9, Hs'.
Qed.

Lemma inb_reg h v s l p (Q : Z -> host D -> Prop) :
  at_state h v s l -> 498 <= p <= 502 -> (forall x h', at_state h' v s l -> Q x h') -> wp (inb p) h Q.
Proof.
  intros (Hv & Hs & Hl) Hp HQ. unfold wp, inb. destruct (port_in8 p (dev h)) as [x d'] eqn:E.
  destruct (reg_in_law p (dev h) x d' Hp E) as (Hv' & Hs' & _). apply HQ.
  split; [simpl; congruence|]. split; [|done]. intros k. simpl. by rewrite Hs'.
Qed.

(** ** Sequences of requests *)

Inductive request : Type :=
| Rd (l n : Z)
| Wr (l n : Z) (b : list Z).

Definition request_ok (r : request) : Prop :=
  match r with
  | Rd l n => 0 < n <= 255 /\ 0 <= l /\ l + n <= cap
  | Wr l n b => 0 < n <= 255 /\ 0 <= l /\ l + n <= cap /\ lenZ b = 512 * n /\ bytes b
  end.

(** Through the driver, each read into a fresh buffer. *)
Fixpoint requests (rs : list request) : IO D (list (list Z)) :=
  match rs with
  | [] => mret []
  | Rd l n :: rs =>
      '(_, b) ← ata_read_sector fuel (mk_cmd l n (replicate (Z.to_nat (512 * n)) 0) (512 * n));
      out ← requests rs;
      mret (b :: out)
  | Wr l n b :: rs =>
      ata_write_sector fuel (mk_cmd l n b (512 * n));;
      requests rs
  end.

(** On an array of sectors. *)
Fixpoint spec_requests (s : Z -> list Z) (rs : list request) : list (list Z) * (Z -> list Z) :=
  match rs with
  | [] => ([], s)
  | Rd l n :: rs => let '(out, s') := spec_requests s rs in (secs s l n :: out, s')
  | Wr l n b :: rs => spec_requests (write_secs s l n b) rs
  end.

(** C16. Any sequence of sector reads and writes (up to 255 sectors each, within
    the drive) returns through the ATA driver exactly what it returns on an
    array of 512-byte sectors, and leaves the drive holding that array and ready
    for the next command: against every drive that follows the PIO protocol, with
    fuel for the busy-wait loops above the drive's longest busy period. *)
Theorem ata_refines_sectors h s rs :
  idle_drive (dev h) -> (forall k, sect (dev h) k = s k) -> Forall request_ok rs ->
  exists h', requests rs h = Ok ((spec_requests s rs).1, h') /\ idle_drive (dev h') /\ log h' = log h /\
    forall k, sect (dev h') k = (spec_requests s rs).2 k.
Proof.
  intros Hi Hs Hok. revert h s Hi Hs. induction Hok as [|r rs Hr Hok IH]; intros h s Hi Hs; [by exists h|].
  destruct r as [l n|l n b]; simpl in Hr; simpl.
  - destruct Hr as (Hn & Hl & Hc).
    pose proof (read_sector_ok (mk_cmd l n (replicate (Z.to_nat (512 * n)) 0) (512 * n)) h Hi) as HR. simpl in HR.
    rewrite (Z.mul_comm 512), Z.div_mul, Z.ltb_irrefl in HR by lia. rewrite (Z.mul_comm 512).
    apply wp_Ok in HR as (r & h1 & E & -> & Hi1 & Hl1 & Hk1); [|lia|lia|lia|unfold lenZ; rewrite length_replicate; lia].
    destruct (IH h1 s Hi1) as (h2 & E2 & Hi2 & Hl2 & Hk2); [intros k; by rewrite Hk1|].
    exists h2. unfold mbind, IO_bind in *. rewrite E. simpl. rewrite E2.
    destruct (spec_requests s rs) as [out s']. simpl in *. split; [|split; [done|split; [congruence|done]]].
    rewrite splice_all; [by rewrite (secs_ext _ s) by auto|].
    rewrite lenZ_secs by (apply sect_ok || lia). unfold lenZ. rewrite length_replicate. lia.
  - destruct Hr as (Hn & Hl & Hc & Hb & Hby).
    pose proof (write_sector_ok (mk_cmd l n b (512 * n)) h Hi) as HW. simpl in HW.
    apply wp_Ok in HW as (r & h1 & E & -> & Hi1 & Hl1 & Hk1); [|lia|lia|lia|lia|done].
    destruct (IH h1 (write_secs s l n b) Hi1) as (h2 & E2 & Hi2 & Hl2 & Hk2).
    { intros k. rewrite Hk1. unfold write_secs. by case_match. }
    exists h2. unfold mbind, IO_bind in *. rewrite E, E2. split; [done|]. split; [done|]. split; [congruence|done].
Qed.

(** ** Detection *)

(** An ATA drive with LBA whose version bits are what the driver accepts. *)
Definition ident_accepted : Prop :=
  Z.shiftr (word ident 0) 15 = 0 /\ word ident 80 <> 65535 /\ Z.land (word ident 80) 112 = 112 /\
  Z.land (Z.shiftr (word ident 49) 9) 1 = 1.

Definition ident_device (ide : IDE_Device) : IDE_Device :=
  {| is_ata := 1; channel := channel ide; drive_nb := drive_nb ide; type := type ide; signature := signature ide;
     dma_support := Z.land (Z.shiftr (word ident 49) 8) 1; lba_support := 1;
     lba48_support := Z.land (Z.shiftr (word ident 83) 10) 1; cylinders := word ident 1; heads := word ident 3;
     sectors := word ident 6; major := word ident 80;
     lba_num := wrap32 (Z.shiftl (word ident 61) ((16 + word ident 60) mod 32)) |}.

Lemma word_splice b i :
  512 <= lenZ b -> 0 <= i < 128 -> word (splice b 0 (take 256 ident)) i = word ident i.
Proof.
  intros Hb Hi. destruct ident_ok as [Hl _]. unfold lenZ in *.
  assert (Ht : length (take 256 ident) = 256%nat) by (rewrite length_take; lia).
  unfold word. rewrite !nthZ_splice by (unfold lenZ; lia).
  unfold lenZ. rewrite Ht, !(proj2 (Z.leb_le 0 _)), !(proj2 (Z.ltb_lt _ (0 + _))) by lia. cbn [andb]. rewrite !Z.sub_0_r.
  unfold nthZ. by rewrite !lookup_take_lt by lia.
Qed.

Lemma parse_identify_ok ide b h (Q : IDE_Device -> host D -> Prop) :
  ident_accepted -> 512 <= lenZ b -> Q (ident_device ide) h ->
  wp (parse_identify_command ide (splice b 0 (take 256 ident))) h Q.
Proof.
  intros (H0' & HF & H70 & Hlba) Hb HQ. unfold parse_identify_command.
  rewrite !word_splice by (unfold ATA_IDENT_DEV_INFO, ATA_IDENT_MAJOR, ATA_IDENT_CAPABILITIES, ATA_IDENT_COMMANDSETS,
    ATA_IDENT_CYLINDERS, ATA_IDENT_HEADS, ATA_IDENT_SECTORS, ATA_IDENT_MAX_LBA; lia).
  change ATA_IDENT_DEV_INFO with 0. rewrite H0'. simpl.
  change ATA_IDENT_MAJOR with 80. change ATA_IDENT_CAPABILITIES with 49.
  assert (word ident 80 <> 0) by (intros E; by rewrite E in H70).
  rewrite (proj2 (Z.eqb_neq _ 0)), (proj2 (Z.eqb_neq _ 65535)), H70, Hlba by done. simpl. by apply wp_ret.
Qed.

Lemma print_field_dev t x h : wp (print_field t x) h (fun _ h' => dev h' = dev h).
Proof. reflexivity. Qed.

Lemma summary_dev ide h : wp (summary_ide_device ide) h (fun _ h' => dev h' = dev h).
Proof.
  unfold summary_ide_device. repeat (eapply wp_seq; [apply print_field_dev|]; simpl; intros ? ? <-).
  apply print_field_dev.
Qed.

(** [ata_detect] on a present drive that it accepts returns the device
    record with the drive's geometry and capability words, prints its summary,
    and does not touch the sectors; but it fetches only the first 256 bytes of
    the 512-byte identify block, so the drive is left in the middle of the data
    transfer, not ready for a command. *)
Theorem ata_detect_identifies ide buffer h :
  idle_drive (dev h) -> ident_accepted -> lenZ buffer = 1024 ->
  exists b h', ata_detect fuel ide buffer h = Ok ((ident_device ide, b), h') /\
    (forall k, sect (dev h') k = sect (dev h) k) /\
    d_phase (view (dev h')) = DataIn (drop 256 ident) [] /\ ~ idle_drive (dev h').
Proof.
  intros [Hq Hi] Hacc Hb. destruct ident_ok as [Hil Hib].
  assert (Hgoal : wp (ata_detect fuel ide buffer) h (fun r h' => r.1 = ident_device ide /\
    (forall k, sect (dev h') k = sect (dev h) k) /\ d_phase (view (dev h')) = DataIn (drop 256 ident) [])).
  2: { apply wp_Ok in Hgoal as ([i b] & h' & E & Hi' & Hk & Hp). simpl in Hi'. subst i. exists b, h'.
       split_and!; [done|done|done|]. intros [_ Hp']. by rewrite Hp' in Hp. }
  unfold ata_detect. apply wp_bind.
  eapply (outb_reg h (view (dev h)) (sect (dev h)) (log h)); [done|exact Hq|done|unfold ATA_PR_MST_IO_BASE, ATA_HDDEVSEL; lia|].
  intros h1 Hst1 Hq1. apply wp_bind. eapply poll_bsy_drq_ok; [done|by left|].
  clear h1 Hst1 Hq1. intros _ h1 Hst1 Hq1. apply wp_bind. eapply poll_drdy_ok; [done|done|].
  clear h1 Hst1 Hq1. intros h1 Hst1 Hq1.
  do 4 (apply wp_bind; eapply outb_reg;
    [done|done|done|unfold ATA_PR_MST_IO_BASE, ATA_SECCOUNT, ATA_LBA0, ATA_LBA1, ATA_LBA2; lia|];
    clear h1 Hst1 Hq1; intros h1 Hst1 Hq1).
  match type of Hst1 with at_state _ ?v _ _ => remember v as v1 eqn:Ev; assert (Hi1 : d_phase v1 = Idle) by (subst v1; exact Hi) end.
  clear Ev. destruct Hst1 as (Hv1 & Hs1 & Hl1). subst v1.
  apply wp_bind. unfold wp at 1, outb. destruct (identify_law (dev h1) Hq1 Hi1) as [Hv2 Hs2].
  apply wp_bind. eapply (wait_ok _ (set_phase (DataIn ident []) (view (dev h1))) (sect (dev h)) (log h)).
  { split; [exact Hv2|]. split; [|done]. intros k. simpl. change (wrap8 236) with 236. by rewrite Hs2. }
  intros h3 Hst3 _. apply wp_bind. eapply inb_status; [exact Hst3|by left|]. intros x h4 _ Hst4 _ H7 Hx.
  apply wp_bind. assert (Hx0 : x <> 0).
  { intros ->. rewrite Z.bits_0 in H7. symmetry in H7. apply Z.ltb_ge in H7.
    assert (E : quiet h3) by (unfold quiet; lia). destruct (Hx E) as (_ & _ & H6 & _). by rewrite Z.bits_0 in H6. }
  rewrite (proj2 (Z.eqb_neq x 0)) by done. apply wp_ret. clear h3 Hst3 H7 Hx Hx0.
  do 3 (apply wp_bind; eapply inb_reg;
    [done|unfold ATA_PR_MST_IO_BASE, ATA_LBA0, ATA_LBA1, ATA_LBA2; lia|]; clear h4 Hst4; intros _ h4 Hst4).
  apply wp_bind. eapply poll_bsy_drq_ok; [done|by left|]. clear h4 Hst4. intros _ h4 Hst4 _.
  apply wp_bind. unfold ata_read_buffer. change (Z.to_nat ((256 + 1) / 2)) with 128%nat.
  eapply (read_words_part _ _ _ _ _ _ _ _ (take 256 ident) (drop 256 ident) []); [exact Hst4| | | | |lia| |].
  { simpl. by rewrite take_drop. }
  { unfold lenZ in *. rewrite length_take. lia. }
  { intros E. apply (f_equal length) in E. unfold lenZ in Hil. rewrite length_drop in E. simpl in E. lia. }
  { by apply Forall_take. }
  { unfold lenZ in *. rewrite length_take. lia. }
  intros h5 (Hv5 & Hs5 & Hl5). apply wp_bind. apply parse_identify_ok; [done|lia|].
  eapply wp_seq; [apply summary_dev|]. intros ? h6 Hd6. simpl in Hd6. apply wp_bind.
  eapply (wait_ok _ _ (sect (dev h)) (log h6)); [split; [rewrite Hd6; exact Hv5|split; [rewrite Hd6; exact Hs5|done]]|].
  intros h7 (Hv6 & Hs6 & _) _. apply wp_ret. split; [done|]. split; [done|]. by rewrite Hv6.
Qed.
End Driver.

(** The driver as a disk for the file system. *)
#[export] Program Instance ata_disk {D} `{AtaProtocol D} : BlockDev D := {|
  bd_read := ata_read_sector (S max_busy);
  bd_write := ata_write_sector (S max_busy);
  bd_sector := sect;
  bd_capacity := cap;
  bd_ready := idle_drive;
|}.
Next Obligation. intros. apply sect_ok. Qed.
Next Obligation. intros. apply read_sector_ok; done || lia. Qed.
Next Obligation. intros. apply write_sector_ok; done || lia. Qed.

(** ** A drive that follows the protocol *)

Record pio : Type := mk_pio { q_view : drive; q_ram : ram; q_busy : nat }.

Definition pio_status (d : pio) : Z :=
  match q_busy d with
  | S _ => 128
  | O => match d_phase (q_view d) with Idle => 64 | _ => 72 end
  end.
Definition pio_in8 (p : Z) (d : pio) : Z * pio :=
  if (p =? 503) || (p =? 1014) then (pio_status d, mk_pio (q_view d) (q_ram d) (pred (Nat.min 2 (q_busy d)))) else (0, d).

(** An identify block: ATA 4 to 6, LBA, 65536 sectors. *)
Definition pio_ident : list Z :=
  updZ (updZ (updZ (updZ (replicate 512 0) 160 112) 99 2) 122 1) 2 9.

Definition pio_command (c : Z) (d : pio) : pio :=
  let v := q_view d in
  if c =? 32 then
    mk_pio (set_phase (next_in (map (ram_sector (q_ram d)) (seqZ (lba_of v) (r_cnt v)))) v) (q_ram d) 2
  else if c =? 48 then mk_pio (set_phase (DataOut (lba_of v) (r_cnt v) []) v) (q_ram d) 1
  else if c =? 236 then mk_pio (set_phase (DataIn pio_ident []) v) (q_ram d) 2
  else mk_pio v (q_ram d) 1.
Definition pio_out8 (p x : Z) (d : pio) : pio :=
  if p =? 503 then pio_command x d else mk_pio (set_reg p x (q_view d)) (q_ram d) (q_busy d).

Definition pio_in16 (p : Z) (d : pio) : Z * pio :=
  let v := q_view d in
  match d_phase v with
  | DataIn (a :: b :: cur) rest =>
      (a + 256 * b,
       match cur with
       | [] => mk_pio (set_phase (next_in rest) v) (q_ram d) (match rest with [] => 0 | _ => 1 end)
       | _ => mk_pio (set_phase (DataIn cur rest) v) (q_ram d) 0
       end)
  | _ => (0, d)
  end.
Definition pio_out16 (p x : Z) (d : pio) : pio :=
  let v := q_view d in
  match d_phase v with
  | DataOut l n acc =>
      let acc := acc ++ [x mod 256; x / 256] in
      if lenZ acc =? 512 then
        mk_pio (set_phase (if n =? 1 then Idle else DataOut (l + 1) (n - 1) []) v) (<[l := acc]> (q_ram d)) 2
      else mk_pio (set_phase (DataOut l n acc) v) (q_ram d) 0
  | _ => d
  end.

#[export] Instance pio_ports : AtaPorts pio := {|
  port_in8 := pio_in8; port_out8 := pio_out8; port_in16 := pio_in16; port_out16 := pio_out16 |}.

#[export] Program Instance pio_protocol : AtaProtocol pio := {|
  view := q_view;
  sect := fun d => ram_sector (q_ram d);
  busy := fun d => Nat.min 2 (q_busy d);
  max_busy := 2;
  cap := 65536;
  ident := pio_ident;
|}.
Next Obligation. lia. Qed.
Next Obligation. split; [reflexivity|]. apply (bool_decide_unpack _). by vm_compute. Qed.
Next Obligation. intros d k. apply ram_sector_ok. Qed.
Next Obligation. intros d. apply Nat.le_min_l. Qed.
Next Obligation.
  intros p d x d' Hp. unfold port_in8, pio_ports, pio_in8.
  replace ((p =? 503) || (p =? 1014))%bool with true by (by destruct Hp as [-> | ->]).
  intros [= <- <-]. destruct d as [v r b]. unfold pio_status. simpl.
  destruct b as [|b]; [destruct (d_phase v)|destruct b as [|b]]; split_and!; try done; try lia; simpl; lia || done.
Qed.
Next Obligation.
  intros p d x d' Hp. unfold port_in8, pio_ports, pio_in8. rewrite !(proj2 (Z.eqb_neq _ _)) by lia.
  by intros [= <- <-].
Qed.
Next Obligation.
  intros p x d Hp Hb Hi. unfold port_out8, pio_ports, pio_out8. by rewrite (proj2 (Z.eqb_neq _ _)) by lia.
Qed.
Next Obligation. intros x d Hx Hb. by destruct d as [[]]. Qed.
Next Obligation. done. Qed.
Next Obligation. done. Qed.
Next Obligation. done. Qed.
Next Obligation. done. Qed.
Next Obligation.
  intros d a b cur rest x d' Hb Hp. unfold port_in16, pio_ports, pio_in16. rewrite Hp. intros [= <- <-].
  split; [done|]. split; [by destruct cur|]. destruct cur; [|done]. split; [done|]. by intros ->.
Qed.
Next Obligation.
  intros d l n acc x Hb Hp Ha Hx. simpl. unfold pio_out16. rewrite Hp.
  destruct (Z.eqb_spec (lenZ (acc ++ [x mod 256; x / 256])) 512) as [E|E]; [|done].
  split; [done|]. intros k. simpl. rewrite ram_sector_insert; [|done|].
  - rewrite Z.eqb_sym. done.
  - apply Forall_app. split; [done|]. apply Forall_cons_2; [apply Z.mod_pos_bound; lia|].
    apply Forall_cons_2; [|done]. split; [apply Z.div_pos|apply Z.div_lt_upper_bound]; lia.
Qed.

Definition pio_start : host pio := mk_host (mk_pio (mk_drive 0 0 0 0 0 Idle) ∅ 0) [].

Lemma ata_refines_sectors_witness :
  exists h', requests 3 [Wr 700 2 (replicate 1024 7); Rd 701 1] pio_start = Ok ([replicate 512 7], h') /\
    idle_drive (dev h').
Proof.
  destruct (@ata_refines_sectors pio pio_ports pio_protocol 3 (Nat.lt_succ_diag_r 2) pio_start (ram_sector ∅)
    [Wr 700 2 (replicate 1024 7); Rd 701 1]) as (h' & E & Hi & _).
  - done.
  - done.
  - apply Forall_cons_2; [|apply Forall_cons_2; [|done]; simpl; lia].
    simpl.
    split_and!; [lia|lia|lia|lia|reflexivity|apply (bool_decide_unpack _); by vm_compute].
  - exists h'. split; [|done]. rewrite E. by vm_compute.
Defined.

Lemma ata_detect_identifies_witness :
  exists b h', ata_detect 3 (mk_ide 0 0 0 0 0 0 0 0 0 0 0 0 0) (replicate 1024 0) pio_start
    = Ok ((mk_ide 1 0 0 0 0 0 1 0 9 0 0 112 65536, b), h') /\ ~ idle_drive (dev h').
Proof.
  destruct (@ata_detect_identifies pio pio_ports pio_protocol 3 (Nat.lt_succ_diag_r 2)
    (mk_ide 0 0 0 0 0 0 0 0 0 0 0 0 0) (replicate 1024 0) pio_start) as (b & h' & E & _ & _ & Hn).
  - done.
  - by vm_compute.
  - reflexivity.
  - exists b, h'. split; [exact E|exact Hn].
Defined.
