(* ===== verification/FatName.v ===== *)
(** * Names and paths of the FAT16 file system (fs/fat16.c)

    The routines that work on character arrays: the 8-character name of a
    directory entry ([fat16_pad], [fat16_filename_fmt]) and the parts of a path
    ([get_filename], [get_basedir]), over byte memory and the string library.
    Each is shown to compute a function on lists ([name83], [filename_of],
    [basedir_of]), which the rest of the file system model uses. *)
From S2P Require Import Prelude CMem CString Disk.
Import CString.

Module FatName.

(** ** The code *)

Definition fat16_pad (fuel : nat) (m : mem) (buf s : Z) : res mem :=
  let m := memcpy m s buf 9 in
  '(m, _) ← str_pad fuel m buf 32 8;
  Ok (store8 m (buf + 8) 32).

(** [for(i=0;i<9;++i)] *)
Fixpoint upper_loop (n : nat) (m : mem) (buf i : Z) : mem :=
  match n with
  | O => m
  | S n => upper_loop n (store8 m (buf + i) (upper_case (load8 m (buf + i)))) buf (i + 1)
  end.
Definition fat16_filename_fmt (fuel : nat) (m : mem) (buf s : Z) : res mem :=
  m ← fat16_pad fuel m buf s;
  Ok (upper_loop 9 m buf 0).

(** [while(path <= p && ...) --p] *)
Fixpoint back_while (fuel : nat) (m : mem) (path p : Z) (f : Z -> bool) : res Z :=
  match fuel with
  | O => NoFuel
  | S fuel =>
      if (path <=? p) && f (load8 m p) then back_while fuel m path (p - 1) f else Ok p
  end.

Definition get_filename (fuel : nat) (m : mem) (path buf : Z) : res (mem * Z) :=
  if path =? NULL then Ok (m, NULL)
  else
    l ← strlen fuel m path;
    p ← back_while fuel m path (path + l - 1) (fun c => c =? 47);
    if p <? path then Ok (m, NULL)
    else
      let q := p in
      p ← back_while fuel m path p (fun c => negb (c =? 47));
      let p := p + 1 in
      let m := memcpy m p buf (q - p + 1) in
      Ok (store8 m (buf + (q - p + 1)) 0, p).

(** [while( *s)]: the last slash that is not the last character *)
Fixpoint basedir_loop (fuel : nat) (m : mem) (s d : Z) : res (Z * Z) :=
  match fuel with
  | O => NoFuel
  | S fuel =>
      if load8 m s =? 0 then Ok (s, d)
      else
        let d := if (load8 m s =? 47) && negb (load8 m (s + 1) =? 0) then s else d in
        basedir_loop fuel m (s + 1) d
  end.
Definition get_basedir (fuel : nat) (m : mem) (path buf : Z) : res (mem * Z) :=
  '(s, d) ← basedir_loop fuel m path NULL;
  if s - d =? 0 then Ok (m, NULL)
  else
    let m := if buf =? NULL then m else memcpy m path buf (wrap32 (d - path + 1)) in
    Ok (store8 m (buf + wrap32 (d - path + 1)) 0, d).

(** ** Specification *)

(** The nine characters of a formatted name. *)
Definition name83 (l : list Z) : list Z :=
  map upper_case (take 8 (l ++ replicate 8 32) ++ [32]).

(** The last component of a path, without trailing slashes. *)
Definition filename_of (l : list Z) : list Z :=
  reverse (take_to 47 (drop_char 47 (reverse l))).

(** The path up to the last slash that is not its last character. *)
Definition basedir_of (l : list Z) : option (list Z) :=
  match reverse l with
  | [] => None
  | _ :: r => match drop_to 47 r with [] => None | r => Some (reverse r) end
  end.

End FatName.
Import FatName.

(** ** The formatted name *)

Lemma upper_case_range c : u8 c -> u8 (upper_case c).
Proof. intros. unfold upper_case. case_match; [apply wrap8_range|done]. Qed.

Lemma upper_case_idem c : u8 c -> upper_case (upper_case c) = upper_case c.
Proof.
  intros Hc. unfold upper_case at 2 3. destruct ((97 <=? schar c) && (schar c <=? 122)) eqn:E.
  - zb. assert (c < 128) by (unfold schar in *; destruct (Z.ltb_spec c 128); lia). unfold schar in *.
    rewrite (proj2 (Z.ltb_lt c 128)) in * by lia. rewrite wrap8_small by lia.
    unfold upper_case, schar. rewrite (proj2 (Z.ltb_lt (c - 97 + 65) 128)) by lia.
    by rewrite (proj2 (Z.leb_gt 97 (c - 97 + 65))) by lia.
  - unfold upper_case. by rewrite E.
Qed.

Lemma upper_loop_spec m buf l i :
  bytes_at m (buf + i) l -> bytes l -> fits (buf + i) (lenZ l) ->
  forall a, u32 a -> load8 (upper_loop (length l) m buf i) a =
    if (buf + i <=? a) && (a <? buf + i + lenZ l) then upper_case (nthZ l (a - (buf + i))) else load8 m a.
Proof.
  unfold fits. revert m i. induction l as [|c l IH]; intros m i Hb Hl Hf a Ha; cbn [length upper_loop].
  - rewrite lenZ_nil. destruct (Z.leb_spec (buf + i) a); [|done]. by rewrite (proj2 (Z.ltb_ge a _)) by lia.
  - destruct Hb as [Hc Hb]. rewrite lenZ_cons in *. pose proof (lenZ_nonneg l). apply Forall_cons in Hl as [Hc0 Hl].
    rewrite Hc, IH; [..|lia].
    + destruct (Z.eqb_spec a (buf + i)) as [->|].
      * rewrite (proj2 (Z.leb_gt (buf + (i + 1)) (buf + i))), Z.leb_refl by lia. simpl. if_true.
        rewrite load8_store8_eq, Z.sub_diag. apply wrap8_small. by apply upper_case_range.
      * rewrite load8_store8_ne by lia.
        destruct (Z.leb_spec (buf + (i + 1)) a); simpl.
        -- rewrite (proj2 (Z.leb_le (buf + i) a)) by lia. simpl.
           replace (buf + (i + 1) + lenZ l) with (buf + i + (lenZ l + 1)) by lia. case_match; [|done].
           f_equal. replace (c :: l) with ([c] ++ l) by done. rewrite nthZ_app_r by (change (lenZ [c]) with 1; lia).
           change (lenZ [c]) with 1. f_equal. lia.
        -- by rewrite (proj2 (Z.leb_gt (buf + i) a)) by lia.
    + replace (buf + (i + 1)) with (buf + i + 1) by lia. eapply bytes_at_same; [|exact Hb].
      apply same_on_store8; unfold fits; lia.
    + done.
    + lia.
Qed.

(** [str_pad] in terms of the bytes it writes: the padding and the final zero. *)
Lemma str_pad_spec fuel m s l value size :
  cstr m s l -> lenZ l < Z.of_nat fuel ->
  str_pad fuel m s value size =
    Ok (write_bytes m (s + lenZ l) (replicate (Z.to_nat (size - lenZ l)) value ++ [0]), 0).
Proof.
  intros Hc Hf. unfold str_pad. rewrite (pad_end_spec _ _ _ l) by done. cbn [mbind res_bind].
  rewrite pad_fill_spec, Z.add_0_l, write_bytes_app.
  assert (E : forall n, lenZ (replicate n value) = Z.of_nat n) by (intros n; unfold lenZ; by rewrite length_replicate).
  by rewrite E.
Qed.

(** The padded name, before the change to upper case. *)
(** Nine bytes copied from a string hold a string again: the whole of a short
    name, or its first nine characters before the zero byte that follows. *)
Lemma copied_prefix m1 buf l r :
  Forall (fun b => 0 < b < 256) l -> bytes_at m1 buf (take 9 (l ++ 0 :: r)) -> 9 <= lenZ (l ++ 0 :: r) ->
  0 < buf -> fits buf 10 -> load8 m1 (buf + 9) = 0 ->
  cstr m1 buf (take 9 l) /\
  take 8 (l ++ replicate 8 32) = take 8 (take 9 l ++ replicate (Z.to_nat (8 - lenZ (take 9 l))) 32).
Proof.
  unfold fits. intros Hl Hm1 Hlen Hbuf Hfit H9. destruct (decide (lenZ l <= 8)) as [Hs|Hs].
  - assert (take 9 l = l) as -> by (apply take_ge; unfold lenZ in Hs; lia). split.
    + replace (take 9 (l ++ 0 :: r)) with ((l ++ [0]) ++ take (8 - length l) r) in Hm1.
      2: { replace (l ++ 0 :: r) with ((l ++ [0]) ++ r) by (by rewrite <- app_assoc).
           rewrite take_app_ge by (rewrite length_app; unfold lenZ in Hs; simpl; lia).
           rewrite length_app. simpl. do 2 f_equal. lia. }
      apply bytes_at_app in Hm1 as [Hm1 _]. split_and!; [done|done|lia|lia].
    + rewrite !take_app_ge by (unfold lenZ in Hs; lia). f_equal. rewrite !take_replicate. f_equal. unfold lenZ in *. lia.
  - rewrite take_app_le in Hm1 by (unfold lenZ in Hs; lia).
    assert (Hk9 : lenZ (take 9 l) = 9) by (unfold lenZ in *; rewrite length_take; lia). split.
    + split_and!; [|by apply Forall_take|done|lia]. apply bytes_at_app. split; [done|].
      split; [|done]. by rewrite Hk9.
    + rewrite Hk9. simpl. rewrite app_nil_r. rewrite take_take.
      rewrite take_app_le by (unfold lenZ in Hs; lia). done.
Qed.

Lemma pad_spec fuel m buf s l r :
  cstr m s l -> bytes_at m s (l ++ 0 :: r) -> 9 <= lenZ (l ++ 0 :: r) -> bytes r -> 9 < Z.of_nat fuel ->
  0 < buf -> fits buf 10 -> fits s (lenZ (l ++ 0 :: r)) ->
  (buf + 9 <= s \/ s + lenZ (l ++ 0 :: r) <= buf) -> load8 m (buf + 9) = 0 ->
  exists m', fat16_pad fuel m buf s = Ok m' /\ bytes_at m' buf (take 8 (l ++ replicate 8 32) ++ [32]) /\
    forall a, u32 a -> (a < buf \/ buf + 9 <= a) -> load8 m' a = load8 m a.
Proof.
  unfold fits. intros Hc Hb Hlen Hr Hf Hbuf Hfit Hfs Ha H9. pose proof Hc as (_ & Hl & _).
  set (all := l ++ 0 :: r) in *. assert (Hall : bytes all).
  { apply Forall_app. split; [eapply Forall_impl; [exact Hl|simpl; lia]|]. apply Forall_cons_2; [lia|done]. }
  set (src := take 9 all). assert (Hsl : lenZ src = 9) by (unfold lenZ, src in *; rewrite length_take; lia).
  assert (Hsb : bytes_at m s src).
  { rewrite <- (take_drop 9 all) in Hb. by apply bytes_at_app in Hb as [Hb _]. }
  unfold fat16_pad. change 9 with (Z.of_nat 9) at 1. unfold memcpy. rewrite Nat2Z.id.
  replace 9%nat with (length src) by (unfold lenZ in Hsl; lia).
  rewrite copy_loop_spec by (done || unfold fits; lia). set (m1 := write_bytes m buf src).
  assert (Hm1 : bytes_at m1 buf src) by (apply bytes_at_write_bytes; [unfold fits; lia|by apply Forall_take]).
  assert (Ho1 : forall a, u32 a -> (a < buf \/ buf + 9 <= a) -> load8 m1 a = load8 m a).
  { intros a Ha1 Ha2. apply write_bytes_out; unfold fits; lia. }
  assert (H91 : load8 m1 (buf + 9) = 0) by (rewrite Ho1; [done|lia|lia]).
  destruct (copied_prefix m1 buf l r) as [Hk Ek]; [done|done|done|done|done|done|].
  assert (Hk9 : lenZ (take 9 l) <= 9) by (unfold lenZ; rewrite length_take; lia).
  set (k := take 9 l) in *. rewrite Ek. pose proof (lenZ_nonneg k).
  rewrite (str_pad_spec _ _ _ k) by (done || lia). cbn [mbind res_bind].
  set (pad := replicate (Z.to_nat (8 - lenZ k)) 32). set (m2 := write_bytes m1 (buf + lenZ k) (pad ++ [0])).
  assert (Hp : lenZ pad = Z.max 0 (8 - lenZ k)) by (unfold pad, lenZ; rewrite length_replicate; lia).
  exists (store8 m2 (buf + 8) 32). split; [done|].
  assert (Hfp : fits (buf + lenZ k) (lenZ (pad ++ [0]))) by (unfold fits; rewrite lenZ_app; change (lenZ [0]) with 1; lia).
  assert (H2 : bytes_at m2 buf (k ++ pad)).
  { destruct Hk as (Hk & _). apply bytes_at_app in Hk as [Hk _]. apply bytes_at_app. split.
    - eapply bytes_at_same; [|exact Hk]. apply same_on_write_bytes; [done|unfold fits; lia|lia].
    - assert (Hw : bytes_at m2 (buf + lenZ k) (pad ++ [0])); [|by apply bytes_at_app in Hw as [Hw _]].
      apply bytes_at_write_bytes; [done|]. apply Forall_app. split; [apply Forall_replicate; lia|].
      apply Forall_cons_2; [lia|done]. }
  assert (Hkp : 8 <= lenZ (k ++ pad)) by (rewrite lenZ_app; lia).
  split.
  - apply bytes_at_app. assert (H8 : lenZ (take 8 (k ++ pad)) = 8) by (unfold lenZ in *; rewrite length_take; lia).
    rewrite H8. split; [|split; [by rewrite load8_store8_eq|done]].
    rewrite <- (take_drop 8 (k ++ pad)) in H2. apply bytes_at_app in H2 as [H2 _].
    eapply bytes_at_same; [|exact H2]. apply same_on_store8; unfold fits; rewrite ?H8; lia.
  - intros a Ha1 Ha2. rewrite load8_store8_ne by lia.
    destruct (decide (lenZ k = 9 /\ a = buf + 9)) as [[E ->]|Hne].
    + unfold m2. replace (pad ++ [0]) with [0]; [|unfold pad; by replace (Z.to_nat (8 - lenZ k)) with 0%nat by lia].
      simpl. rewrite E, load8_store8_eq, H9. done.
    + unfold m2. rewrite write_bytes_out; [by apply Ho1|done|lia|]. rewrite lenZ_app. change (lenZ [0]) with 1.
      destruct (decide (lenZ k = 9)); lia.
Qed.

(** [fat16_filename_fmt] leaves the formatted name in the buffer: the first
    eight characters of the name in upper case, padded with blanks, and a
    blank; nothing else changes. *)
Lemma filename_fmt_spec fuel m buf s l r :
  cstr m s l -> bytes_at m s (l ++ 0 :: r) -> 9 <= lenZ (l ++ 0 :: r) -> bytes r -> 9 < Z.of_nat fuel ->
  0 < buf -> fits buf 10 -> fits s (lenZ (l ++ 0 :: r)) ->
  (buf + 9 <= s \/ s + lenZ (l ++ 0 :: r) <= buf) -> load8 m (buf + 9) = 0 ->
  exists m', fat16_filename_fmt fuel m buf s = Ok m' /\ bytes_at m' buf (name83 l) /\
    forall a, u32 a -> (a < buf \/ buf + 9 <= a) -> load8 m' a = load8 m a.
Proof.
  intros Hc Hb Hlen Hr Hf Hbuf Hfit Hfs Ha H9.
  destruct (pad_spec fuel m buf s l r) as (m1 & E & Hb1 & Ho1); try done. unfold fat16_filename_fmt.
  rewrite E. cbn [mbind res_bind]. eexists. split; [done|]. set (p := take 8 (l ++ replicate 8 32) ++ [32]) in *.
  assert (Hp : lenZ p = 9).
  { unfold p. rewrite lenZ_app. change (lenZ [32]) with 1. unfold lenZ. rewrite length_take, length_app, length_replicate. lia. }
  assert (Hpb : bytes p).
  { apply Forall_app. split; [|apply Forall_cons_2; [lia|done]]. apply Forall_take, Forall_app. split.
    - destruct Hc as (_ & Hl & _). eapply Forall_impl; [exact Hl|]. simpl. lia.
    - apply Forall_replicate. lia. }
  unfold fits in *. pose proof (upper_loop_spec m1 buf p 0) as HU. rewrite Z.add_0_r, Hp in HU.
  replace (length p) with 9%nat in HU by (unfold lenZ in Hp; lia).
  specialize (HU Hb1 Hpb ltac:(unfold fits; lia)). split.
  - apply bytes_at_intro. intros i Hi. assert (Hn : lenZ (name83 l) = 9) by (unfold name83, lenZ; rewrite length_map; exact Hp).
    rewrite Hn in Hi. rewrite HU by lia. rewrite (proj2 (Z.leb_le buf _)), (proj2 (Z.ltb_lt _ (buf + 9))) by lia. simpl.
    replace (buf + i - buf) with i by lia. unfold name83, nthZ. fold p.
    rewrite list_lookup_fmap || rewrite lookup_map. destruct (lookup_lt_is_Some_2 p (Z.to_nat i)) as [x ->]; [unfold lenZ in Hp; lia|done].
  - intros a Ha1 Ha2. rewrite HU by done. destruct (Z.leb_spec buf a); simpl; [|by apply Ho1].
    rewrite (proj2 (Z.ltb_ge a (buf + 9))) by lia. by apply Ho1.
Qed.

(** ** The parts of a path *)

Lemma lenZ_reverse {A} (l : list A) : lenZ (reverse l) = lenZ l.
Proof. unfold lenZ. by rewrite length_reverse. Qed.

Lemma drop_to_snoc d l c :
  drop_to d (l ++ [c]) = match drop_to d l with [] => if c =? d then [c] else [] | r => r ++ [c] end.
Proof.
  induction l as [|x l IH]; simpl; [by destruct (c =? d)|]. by destruct (x =? d).
Qed.

Lemma basedir_of_cons c l :
  basedir_of (c :: l) =
    match basedir_of l with
    | Some a => Some (c :: a)
    | None => if (c =? 47) && negb (lenZ l =? 0) then Some [c] else None
    end.
Proof.
  unfold basedir_of. rewrite reverse_cons. destruct (reverse l) as [|x r] eqn:E; simpl.
  - apply (f_equal reverse) in E. rewrite reverse_involutive in E. subst l. simpl. by rewrite andb_false_r.
  - assert (lenZ l <> 0).
    { rewrite <- (lenZ_reverse l), E, lenZ_cons. pose proof (lenZ_nonneg r). lia. }
    rewrite (proj2 (Z.eqb_neq (lenZ l) 0)) by done. rewrite drop_to_snoc, andb_true_r.
    destruct (drop_to 47 r) as [|y r']; [by destruct (c =? 47)|].
    f_equal. apply (reverse_snoc (y :: r') c).
Qed.

(** Walking back over the characters that satisfy a test. *)
Lemma back_while_spec fuel m path r (f : Z -> bool) (g : list Z -> list Z) :
  (forall c r, g (c :: r) = if f c then g r else c :: r) -> g [] = [] ->
  bytes_at m path (reverse r) -> lenZ r < Z.of_nat fuel ->
  back_while fuel m path (path + lenZ r - 1) f = Ok (path + lenZ (g r) - 1).
Proof.
  intros Hg Hg0. revert r. induction fuel as [|fuel IH]; intros r Hb Hf; [pose proof (lenZ_nonneg r); lia|].
  cbn [back_while]. destruct r as [|c r].
  - rewrite Hg0, lenZ_nil. by rewrite (proj2 (Z.leb_gt path _)) by lia.
  - rewrite reverse_cons in Hb. apply bytes_at_app in Hb as [Hb [Hc _]]. rewrite lenZ_reverse in Hc.
    rewrite lenZ_cons in *. pose proof (lenZ_nonneg r).
    replace (path + (lenZ r + 1) - 1) with (path + lenZ r) by lia. rewrite Hc, (proj2 (Z.leb_le path _)), Hg by lia.
    simpl. destruct (f c); [apply IH; [done|lia]|]. rewrite lenZ_cons. do 2 f_equal; lia.
Qed.

Lemma take_drop_to_rev d r : reverse r = reverse (drop_to d r) ++ reverse (take_to d r).
Proof. by rewrite <- reverse_app, take_drop_to. Qed.

Lemma get_filename_spec fuel m path buf l :
  cstr m path l -> lenZ l < Z.of_nat fuel -> fits buf (lenZ l + 1) -> apart path l buf (lenZ l + 1) ->
  get_filename fuel m path buf =
    Ok (match filename_of l with
        | [] => (m, NULL)
        | n => (write_bytes m buf (n ++ [0]), path + lenZ (drop_to 47 (drop_char 47 (reverse l))))
        end).
Proof.
  intros Hc Hf Hfit Ha. pose proof Hc as (Hb & Hl & Hp & Hpl). apply bytes_at_app in Hb as [Hb _].
  unfold get_filename. rewrite (proj2 (Z.eqb_neq path 0)) by lia.
  rewrite (strlen_spec _ _ _ l) by done. cbn [mbind res_bind].
  set (r := reverse l). assert (Hr : lenZ r = lenZ l) by apply lenZ_reverse. rewrite <- Hr.
  rewrite (back_while_spec _ _ _ r _ (drop_char 47)); [|done|done|unfold r; by rewrite reverse_involutive|lia].
  cbn [mbind res_bind]. unfold filename_of. fold r. destruct (drop_char_suffix 47 r) as (k & Ek & _).
  remember (drop_char 47 r) as r1 eqn:Er1. pose proof (lenZ_nonneg k).
  assert (Hr1 : lenZ r = lenZ k + lenZ r1) by (rewrite Ek at 1; apply lenZ_app).
  assert (Hb1 : bytes_at m path (reverse r1)).
  { assert (E : l = reverse r1 ++ reverse k) by (rewrite <- reverse_app, <- Ek; unfold r; by rewrite reverse_involutive).
    rewrite E in Hb. by apply bytes_at_app in Hb as [Hb _]. }
  destruct r1 as [|c r1']; [rewrite lenZ_nil; by if_true|].
  assert (Hc47 : c <> 47) by (by eapply drop_char_cons).
  set (r1 := c :: r1') in *. assert (0 < lenZ r1) by (unfold r1; rewrite lenZ_cons; pose proof (lenZ_nonneg r1'); lia).
  rewrite (proj2 (Z.ltb_ge (path + lenZ r1 - 1) path)) by lia.
  rewrite (back_while_spec _ _ _ r1 _ (drop_to 47)); [| |done|done|lia].
  2: { intros x y. simpl. by destruct (x =? 47). }
  cbn [mbind res_bind]. replace (path + lenZ (drop_to 47 r1) - 1 + 1) with (path + lenZ (drop_to 47 r1)) by lia.
  pose proof (take_drop_to 47 r1) as Etd. pose proof (lenZ_app (take_to 47 r1) (drop_to 47 r1)) as El. rewrite Etd in El.
  set (n := reverse (take_to 47 r1)). assert (Hn : lenZ n = lenZ (take_to 47 r1)) by apply lenZ_reverse.
  replace (path + lenZ r1 - 1 - (path + lenZ (drop_to 47 r1)) + 1) with (lenZ n) by lia.
  assert (Hbn : bytes_at m (path + lenZ (drop_to 47 r1)) n).
  { rewrite (take_drop_to_rev 47 r1) in Hb1. apply bytes_at_app in Hb1 as [_ Hb1]. by rewrite lenZ_reverse in Hb1. }
  pose proof (lenZ_nonneg n). pose proof (lenZ_nonneg (drop_to 47 r1)). unfold apart, fits in *.
  unfold memcpy. replace (Z.to_nat (lenZ n)) with (length n) by (unfold lenZ; lia).
  rewrite copy_loop_spec by (done || unfold fits; lia).
  change (store8 (write_bytes m buf n) (buf + lenZ n) 0) with (write_bytes (write_bytes m buf n) (buf + lenZ n) [0]).
  rewrite <- write_bytes_app. assert (n <> []).
  { intros E. apply (f_equal lenZ) in E. rewrite Hn, lenZ_nil in E. unfold r1 in E. simpl in E.
    rewrite (proj2 (Z.eqb_neq c 47)) in E by done. rewrite lenZ_cons in E. pose proof (lenZ_nonneg (take_to 47 r1')). lia. }
  destruct n; [done|]. done.
Qed.

Lemma basedir_loop_spec fuel m s d l :
  cstr m s l -> lenZ l < Z.of_nat fuel ->
  basedir_loop fuel m s d =
    Ok (s + lenZ l, match basedir_of l with Some a => s + lenZ a - 1 | None => d end).
Proof.
  revert fuel s d. induction l as [|c l IH]; intros fuel s d Hc Hf; fuel_cases fuel; cbn [basedir_loop].
  - rewrite (cstr_nil _ _ Hc). change (lenZ (@nil Z)) with 0. by rewrite Z.add_0_r.
  - apply cstr_cons in Hc as (-> & Hc0 & Hc). rewrite lenZ_cons in *. rewrite (proj2 (Z.eqb_neq c 0)) by lia.
    rewrite IH by (done || lia). rewrite basedir_of_cons, (cstr_byte _ _ _ Hc).
    replace (s + 1 + lenZ l) with (s + (lenZ l + 1)) by lia. do 2 f_equal.
    destruct (basedir_of l) as [a|]; [rewrite lenZ_cons; lia|].
    assert (E : match l with [] => 0 | c0 :: _ => c0 end =? 0 = (lenZ l =? 0)).
    { destruct l as [|x l]; [done|]. apply cstr_cons in Hc as (_ & Hx & _). rewrite lenZ_cons.
      pose proof (lenZ_nonneg l). by rewrite (proj2 (Z.eqb_neq x 0)), (proj2 (Z.eqb_neq (lenZ l + 1) 0)) by lia. }
    rewrite E. destruct ((c =? 47) && negb (lenZ l =? 0)); [change (lenZ [c]) with 1; lia|done].
Qed.

Lemma basedir_of_prefix l a : basedir_of l = Some a -> exists b, l = a ++ b /\ b <> [] /\ a <> [].
Proof.
  revert a. induction l as [|c l IH]; intros a; [done|]. rewrite basedir_of_cons.
  destruct (basedir_of l) as [a'|].
  - intros [= <-]. destruct (IH a' eq_refl) as (b & -> & Hb & _). by exists b.
  - case_match eqn:E; [|done]. intros [= <-]. zb. exists l. split_and!; [done| |done]. by intros ->.
Qed.

Lemma get_basedir_spec fuel m path buf l a :
  cstr m path l -> lenZ l < Z.of_nat fuel -> 0 < buf -> fits buf (lenZ l + 1) -> apart path l buf (lenZ l + 1) ->
  basedir_of l = Some a ->
  get_basedir fuel m path buf = Ok (write_bytes m buf (a ++ [0]), path + lenZ a - 1).
Proof.
  unfold fits, apart. intros Hc Hf Hbuf Hfit Ha Hbase. pose proof Hc as (Hb & _ & Hp & Hpl).
  destruct (basedir_of_prefix l a Hbase) as (b & -> & Hbn & Han). unfold get_basedir.
  rewrite (basedir_loop_spec _ _ _ _ (a ++ b)) by done. rewrite Hbase. cbn [mbind res_bind]. rewrite lenZ_app in *.
  assert (0 < lenZ b) by (destruct b; [done|]; rewrite lenZ_cons; pose proof (lenZ_nonneg b); lia).
  assert (0 < lenZ a) by (destruct a; [done|]; rewrite lenZ_cons; pose proof (lenZ_nonneg a); lia).
  rewrite (proj2 (Z.eqb_neq (_ - _) 0)) by lia. rewrite (proj2 (Z.eqb_neq buf 0)) by lia.
  replace (path + lenZ a - 1 - path + 1) with (lenZ a) by lia. rewrite wrap32_small by lia.
  rewrite <- app_assoc in Hb. apply bytes_at_app in Hb as [Hb _].
  unfold memcpy. replace (Z.to_nat (lenZ a)) with (length a) by (unfold lenZ; lia).
  rewrite copy_loop_spec by (done || unfold fits; lia).
  change (store8 (write_bytes m buf a) (buf + lenZ a) 0) with (write_bytes (write_bytes m buf a) (buf + lenZ a) [0]).
  by rewrite <- write_bytes_app.
Qed.

(** A path that ends in a component: its directory part and its last name. *)
Lemma basedir_of_app a b : b <> [] -> 47 ∉ b -> basedir_of (a ++ 47 :: b) = Some (a ++ [47]).
Proof.
  intros Hb Hn. induction a as [|c a IH]; [|by rewrite <- !app_comm_cons, basedir_of_cons, IH].
  simpl. rewrite basedir_of_cons. assert (E : basedir_of b = None).
  { clear Hb. induction b as [|x b IHb]; [done|]. rewrite basedir_of_cons. apply not_elem_of_cons in Hn as [Hx Hn].
    rewrite IHb by done. by rewrite (proj2 (Z.eqb_neq x 47)) by done. }
  rewrite E. destruct b as [|x b]; [done|]. rewrite lenZ_cons. pose proof (lenZ_nonneg b).
  by rewrite (proj2 (Z.eqb_neq (lenZ b + 1) 0)) by lia.
Qed.

Lemma take_to_app_not d l r : d ∉ l -> take_to d (l ++ d :: r) = l.
Proof.
  induction l as [|c l IH]; intros Hn; simpl; [by rewrite Z.eqb_refl|].
  apply not_elem_of_cons in Hn as [Hc Hn]. rewrite (proj2 (Z.eqb_neq c d)) by done. by rewrite IH.
Qed.

Lemma filename_of_app a b : b <> [] -> 47 ∉ b -> filename_of (a ++ 47 :: b) = b.
Proof.
  intros Hb Hn. unfold filename_of. rewrite reverse_app, reverse_cons, <- app_assoc. simpl.
  destruct (reverse b) as [|c r] eqn:E.
  { apply (f_equal reverse) in E. rewrite reverse_involutive in E. by subst. }
  assert (Hr : 47 ∉ c :: r) by (by rewrite <- E, elem_of_reverse). pose proof Hr as Hr'.
  apply not_elem_of_cons in Hr' as [Hc _]. simpl drop_char. rewrite (proj2 (Z.eqb_neq c 47)) by done.
  rewrite app_comm_cons, take_to_app_not by done. rewrite <- E. apply reverse_involutive.
Qed.

(** A path "dir/name" with a proper last component is taken apart without
    loss: [get_basedir] leaves "dir/" and [get_filename] leaves "name" in their
    buffers, zero-terminated, and neither changes anything else.  (Without any
    '/' in the path, [get_basedir] would copy from the null pointer on.) *)
Theorem path_splits fuel m path buf1 buf2 dir name :
  cstr m path (dir ++ 47 :: name) -> name <> [] -> 47 ∉ name ->
  lenZ (dir ++ 47 :: name) < Z.of_nat fuel ->
  0 < buf1 -> fits buf1 (lenZ (dir ++ 47 :: name) + 1) -> apart path (dir ++ 47 :: name) buf1 (lenZ (dir ++ 47 :: name) + 1) ->
  fits buf2 (lenZ (dir ++ 47 :: name) + 1) -> apart path (dir ++ 47 :: name) buf2 (lenZ (dir ++ 47 :: name) + 1) ->
  get_basedir fuel m path buf1 = Ok (write_bytes m buf1 ((dir ++ [47]) ++ [0]), path + lenZ dir) /\
  get_filename fuel m path buf2 = Ok (write_bytes m buf2 (name ++ [0]), path + lenZ dir + 1).
Proof.
  intros Hc Hne Hn Hf Hb1 Hf1 Ha1 Hf2 Ha2. split.
  - rewrite (get_basedir_spec _ _ _ _ _ (dir ++ [47])) by (done || by apply basedir_of_app).
    rewrite lenZ_app. change (lenZ [47]) with 1. do 2 f_equal. lia.
  - rewrite (get_filename_spec _ _ _ _ _ Hc Hf Hf2 Ha2). rewrite filename_of_app by done.
    destruct name as [|c name]; [done|]. do 2 f_equal.
    rewrite reverse_app, reverse_cons, <- app_assoc. simpl. set (r := reverse (c :: name)).
    assert (Hr : 47 ∉ r) by (unfold r; by rewrite elem_of_reverse).
    assert (Hdc : drop_char 47 (r ++ 47 :: reverse dir) = r ++ 47 :: reverse dir).
    { destruct r as [|x r'] eqn:E; [by apply (f_equal length) in E; unfold r in E; rewrite length_reverse in E|].
      simpl. apply not_elem_of_cons in Hr as [Hx _]. by rewrite (proj2 (Z.eqb_neq x 47)) by done. }
    rewrite Hdc. assert (Hd : drop_to 47 (r ++ 47 :: reverse dir) = 47 :: reverse dir).
    { clear Hdc. generalize (reverse dir). intros t. revert Hr. induction r as [|x r IH]; intros Hr; [done|].
      apply not_elem_of_cons in Hr as [Hx Hr]. simpl. rewrite (proj2 (Z.eqb_neq x 47)) by done. by apply IH. }
    rewrite Hd, lenZ_cons, lenZ_reverse. lia.
Qed.
