(* ===== verification/Fat.v ===== *)
(** * FAT16 file system (fs/fat16.c, fs/fat16.h): the code

    Over any disk with the interface of [Disk].  A local array or a buffer
    passed by pointer is the list of its bytes ([uninit n] are the bytes found
    in an uninitialised array of [n] bytes), a struct that the code overlays on
    a buffer has its bytes and its record, and an open file is a record whose
    fields are those of [Fat16File]; the entry it points to is its own block,
    so it is part of the record.  Calls of [kmalloc] and [kfree] are events of
    the log; the class [HeapPolicy] says which requests the kernel heap grants,
    and the code that goes on with a NULL pointer has no result.  Names and
    paths are the character lists whose routines are verified in [FatName] and
    [CString] ([strtok] cuts off [first_word] and leaves [after_word]); where the
    code copies them to a local array the length is checked against the array's,
    and a copy that runs over its end has no result.  A boot sector with [bytes_per_sector] 0 stops
    [fat_get_volume] with a divide error; the later divisions are by the same
    field and by [cluster_bytes], which is only meaningful when
    [sectors_per_cluster] is not 0 either.  The local [int] offsets of the read
    loops are the code's as long as they stay below 2^31. *)
From S2P Require Import Prelude CMem CString Sink Print Disk Ata FatName.
From S2P Require Import Common.
From Stdlib Require Import Strings.String.
Import CString Print Common FatName.
Open Scope list_scope.

Module Fat.

Definition ENT_ATTR_DIR : Z := 16.
Definition FAT_CLUS_ROOT : Z := 0.
Definition FAT_CLUS_NORMAL (c : Z) : bool := (3 <=? c) && (c <=? 65519).
Definition FAT_CLUS_FREE (c : Z) : bool := c =? 0.
Definition FAT_CLUS_EOF (c : Z) : bool := (65528 <=? c) && (c <=? 65535).
Definition FAT_FILE_EOF : Z := -1.
Definition FAT16_CTL_DIR : Z := 1.
Definition FAT16_CTL_WRITE : Z := 2.
Definition FAT16_CTL_APPEND : Z := 4.
Definition FAT16_CTL_CREATE : Z := 8.
Definition FAT16_CTL_IS_ROOT : Z := 2147483648.

(** [flag & x] as a condition. *)
Definition has (flag x : Z) : bool := negb (Z.land flag x =? 0).

(** ** Little-endian fields of a buffer *)

Definition get16 (b : list Z) (i : Z) : Z := nthZ b i + 256 * nthZ b (i + 1).
Definition get32 (b : list Z) (i : Z) : Z :=
  nthZ b i + 256 * nthZ b (i + 1) + 65536 * nthZ b (i + 2) + 16777216 * nthZ b (i + 3).
Definition le16 (v : Z) : list Z := [wrap8 v; wrap8 (v / 256)].
Definition le32 (v : Z) : list Z := [wrap8 v; wrap8 (v / 256); wrap8 (v / 65536); wrap8 (v / 16777216)].
Definition put16 (b : list Z) (i v : Z) : list Z := splice b i (le16 v).

(** ** Structures *)

Record FatSuperBlock : Type := mk_sb {
  jmp_instrction : list Z;
  oem_name : list Z;
  bytes_per_sector : Z;
  sectors_per_cluster : Z;
  reserve_sectors : Z;
  fat_num : Z;
  root_ents_num : Z;
  small_sectors_num : Z;
  media_desc : Z;
  sectors_fat : Z;
  sectors_per_track : Z;
  head_num : Z;
  hidden_sectors : Z;
  large_sectors_num : Z;
}.

(** The packed struct at the start of a buffer. *)
Definition superblock_of (b : list Z) : FatSuperBlock :=
  mk_sb (slice b 0 3) (slice b 3 8) (get16 b 11) (nthZ b 13) (get16 b 14) (nthZ b 16) (get16 b 17) (get16 b 19)
        (nthZ b 21) (get16 b 22) (get16 b 24) (get16 b 26) (get32 b 28) (get32 b 32).

Record FatDirEntry : Type := mk_dirent {
  filename : list Z;
  ext : list Z;
  attr : Z;
  reserved : Z;
  create_mill : Z;
  create_time : Z;
  create_date : Z;
  last_access : Z;
  reserve_32 : Z;
  last_wtime : Z;
  last_wdate : Z;
  start_cluster : Z;
  file_size : Z;
}.

(** The 32 bytes of an entry, and the entry at an offset of a buffer. *)
Definition dirent_bytes (e : FatDirEntry) : list Z :=
  filename e ++ ext e ++ [wrap8 (attr e); wrap8 (reserved e); wrap8 (create_mill e)] ++
  le16 (create_time e) ++ le16 (create_date e) ++ le16 (last_access e) ++ le16 (reserve_32 e) ++
  le16 (last_wtime e) ++ le16 (last_wdate e) ++ le16 (start_cluster e) ++ le32 (file_size e).
Definition dirent_at (b : list Z) (p : Z) : FatDirEntry :=
  mk_dirent (slice b p 8) (slice b (p + 8) 3) (nthZ b (p + 11)) (nthZ b (p + 12)) (nthZ b (p + 13))
            (get16 b (p + 14)) (get16 b (p + 16)) (get16 b (p + 18)) (get16 b (p + 20))
            (get16 b (p + 22)) (get16 b (p + 24)) (get16 b (p + 26)) (get32 b (p + 28)).

Record Fat16Volume : Type := mk_volume {
  sb : FatSuperBlock;
  root : FatDirEntry;
  root_sectors : Z;
  volume_start : Z;
  fat_start : Z;
  root_dir_start : Z;
  data_start : Z;
  cluster_bytes : Z;
}.

Record Fat16File : Type := mk_file {
  path : option (list Z);
  volume : Fat16Volume;
  dirent : FatDirEntry;
  dirent_sector : Z;
  dirent_cluster : Z;
  current_cluster : Z;
  byte_offset : Z;
  flag : Z;
}.

Definition set_dirent (f : Fat16File) (e : FatDirEntry) : Fat16File :=
  mk_file (path f) (volume f) e (dirent_sector f) (dirent_cluster f) (current_cluster f) (byte_offset f) (flag f).
Definition set_where (f : Fat16File) (sector cluster : Z) : Fat16File :=
  mk_file (path f) (volume f) (dirent f) sector cluster (current_cluster f) (byte_offset f) (flag f).
Definition set_pos (f : Fat16File) (cluster offset : Z) : Fat16File :=
  mk_file (path f) (volume f) (dirent f) (dirent_sector f) (dirent_cluster f) cluster offset (flag f).
Definition set_flag (f : Fat16File) (x : Z) : Fat16File :=
  mk_file (path f) (volume f) (dirent f) (dirent_sector f) (dirent_cluster f) (current_cluster f) (byte_offset f) x.
Definition set_file_size (e : FatDirEntry) (n : Z) : FatDirEntry :=
  mk_dirent (filename e) (ext e) (attr e) (reserved e) (create_mill e) (create_time e) (create_date e)
            (last_access e) (reserve_32 e) (last_wtime e) (last_wdate e) (start_cluster e) n.

Abbreviation spc v := (sectors_per_cluster (sb v)).
Abbreviation bps v := (bytes_per_sector (sb v)).

Definition is_directory (e : FatDirEntry) : bool := has (attr e) ENT_ATTR_DIR.

(** [str_equal_range(ent->filename,name,0,7)] on the arrays. *)
Fixpoint equal_range (n : nat) (a b : list Z) (i : Z) : bool :=
  match n with
  | O => true
  | S n => if negb (nthZ a i =? nthZ b i) then false else equal_range n a b (i + 1)
  end.
Definition fat_filename_match (e : FatDirEntry) (name : list Z) : bool := equal_range 8 (filename e) name 0.

(** [while( bsize > p-block)]: the offset of the entry, or [NULL]. *)
Fixpoint search_loop (n : nat) (block : list Z) (name : list Z) (p : Z) : option Z :=
  match n with
  | O => None
  | S n =>
      let ent := dirent_at block p in
      if negb (FAT_CLUS_FREE (start_cluster ent)) && fat_filename_match ent name then Some p
      else search_loop n block name (p + 32)
  end.
Definition search_name_in_block (block : list Z) (bsize : Z) (name : list Z) : option Z :=
  search_loop (Z.to_nat ((bsize + 31) / 32)) block name 0.

(** Whether [kmalloc] grants a request of so many bytes, given the calls made
    before; it returns NULL otherwise. *)
Class HeapPolicy : Type := heap_grants : list event -> Z -> bool.

Section Fs.
Context {D : Type} `{BlockDev D} (uninit : Z -> list Z).

(** Code that goes on after following a NULL pointer or after overrunning an
    array has no result here. *)
Definition undefined {A} : IO D A := fun _ => Hang (chars "undefined").

(** ** Volume *)

Definition fat16_get_superblock (old : FatSuperBlock) : IO D (Z * FatSuperBlock) :=
  '(n, b) ← bd_read (mk_cmd 0 1 (uninit 512) 512);
  if n <? 1 then
    Ata.printl "fat 16 read superblock 512 bytes failed";;
    mret (-1, old)
  else mret (1, superblock_of b).

Definition zero_dirent : FatDirEntry := dirent_at (replicate 32 0) 0.

(** The processor's exception for a division by 0: the machine stops. *)
Definition divide_error {A} : IO D A := fun _ => Hang (chars "divide error").

(** [volume] is [None] for a null pointer. *)
Definition fat_get_volume (volume : option Fat16Volume) : IO D (Z * option Fat16Volume) :=
  match volume with
  | None => Ata.printl "null volume device";; mret (-1, None)
  | Some v =>
      '(_, s) ← fat16_get_superblock (sb v);
      if bytes_per_sector s =? 0 then divide_error else
      let volume_start := wrap16 (hidden_sectors s) in
      let fat_start := wrap16 (volume_start + reserve_sectors s) in
      let root_dir_start := wrap16 (fat_start + sectors_fat s * fat_num s) in
      let data_start := wrap16 (root_dir_start + root_ents_num s * 32 / bytes_per_sector s) in
      let root_sectors := (root_ents_num s * 32 + bytes_per_sector s - 1) / bytes_per_sector s in
      mret (1, Some (mk_volume s zero_dirent root_sectors volume_start fat_start root_dir_start data_start
                               (sectors_per_cluster s * bytes_per_sector s)))
  end.

(** [for(i=0;i<16;++i)] of [dump_fat] *)
Fixpoint dump_loop (n : nat) (b : list Z) (i : Z) : IO D unit :=
  match n with
  | O => mret tt
  | S n => Ata.print_hex (get16 b (2 * i));; Ata.printstr " ";; dump_loop n b (i + 1)
  end.
Definition dump_fat (v : Fat16Volume) : IO D unit :=
  Ata.printl "dump fats:";;
  '(_, b) ← bd_read (mk_cmd (fat_start v) 4 (replicate 4096 0) 4096);
  dump_loop 16 b 0.

Definition fat16_display_super_block (s : FatSuperBlock) : IO D unit :=
  Ata.print_field "bytes_per_sector: " (bytes_per_sector s);;
  Ata.print_field "sectors_per_cluster: " (sectors_per_cluster s);;
  Ata.print_field "reserve_sectors: " (reserve_sectors s);;
  Ata.print_field "fat_num: " (fat_num s);;
  Ata.print_field "root_ents_num: " (root_ents_num s);;
  Ata.print_field "small_sectors_num: " (small_sectors_num s);;
  Ata.print_field "sectors_fat: " (sectors_fat s);;
  Ata.print_field "sectors_per_track: " (sectors_per_track s);;
  Ata.print_field "head_num: " (head_num s);;
  Ata.print_field "hidden_sectors: " (hidden_sectors s);;
  Ata.print_field "large_sectors_num: " (large_sectors_num s).

(** ** Clusters and the allocation table *)

Definition cluster_lba (v : Fat16Volume) (cluster : Z) : Z := wrap32 (data_start v + (cluster - 2) * spc v).

Definition fat_read_cluster (v : Fat16Volume) (cluster : Z) (b : list Z) : IO D (Z * list Z) :=
  bd_read (mk_cmd (cluster_lba v cluster) (spc v) b (cluster_bytes v)).

(** [while(sec_n--) cmd.lba_start+=ata_write_sector(&cmd);] *)
Fixpoint write_cluster_loop (n : nat) (v : Fat16Volume) (b : list Z) (lba : Z) : IO D unit :=
  match n with
  | O => mret tt
  | S n =>
      r ← bd_write (mk_cmd lba (spc v) b (cluster_bytes v));
      write_cluster_loop n v b (wrap32 (lba + r))
  end.
Definition fat_write_cluster (v : Fat16Volume) (b : list Z) (cluster_start sec_n : Z) : IO D Z :=
  write_cluster_loop (Z.to_nat sec_n) v b (cluster_lba v cluster_start);;
  mret 1.

Definition read_fat (v : Fat16Volume) (cluster : Z) (b : list Z) : IO D (Z * list Z) :=
  let fat_sector := wrap16 (fat_start v + cluster * 2 / bps v) in
  '(_, b) ← bd_read (mk_cmd fat_sector 1 b (bps v));
  mret (fat_sector, b).

Definition write_fat (v : Fat16Volume) (cluster val : Z) : IO D Z :=
  '(sector, b) ← read_fat v cluster (uninit (bps v));
  let b := put16 b (2 * (cluster mod (bps v / 2))) (wrap16 val) in
  bd_write (mk_cmd sector 1 b (bps v));;
  mret sector.

Definition fat_get_next_cluster (v : Fat16Volume) (cluster : Z) : IO D Z :=
  '(_, b) ← read_fat v cluster (uninit (bps v));
  mret (get16 b (2 * (cluster mod (bps v / 2)))).

(** [while(((char* )ptr_fat-buf)<volume->cluster_bytes)]: the number of the
    free entry, or the count after the buffer. *)
Fixpoint scan_fat (n : nat) (b : list Z) (ptr cnt : Z) : Z + Z :=
  match n with
  | O => inr cnt
  | S n =>
      if (2 <? cnt) && FAT_CLUS_FREE (get16 b ptr) then inl cnt
      else scan_fat n b (ptr + 2) (wrap16 (cnt + 1))
  end.
Fixpoint free_cluster_loop (fuel : nat) (v : Fat16Volume) (b : list Z) (lba cnt : Z) : IO D Z :=
  match fuel with
  | O => out_of_fuel
  | S fuel =>
      if wrap32 (lba - fat_start v) <? sectors_fat (sb v) then
        '(rd_sec, b) ← bd_read (mk_cmd lba (spc v) b (cluster_bytes v));
        match scan_fat (Z.to_nat ((cluster_bytes v + 1) / 2)) b 0 cnt with
        | inl c => mret c
        | inr cnt => free_cluster_loop fuel v b (wrap32 (lba + rd_sec)) cnt
        end
      else Ata.panic "fat16: run out of clusters"
  end.
Definition fat_get_free_cluster (v : Fat16Volume) : IO D Z :=
  free_cluster_loop (S (Z.to_nat (sectors_fat (sb v)))) v (uninit (cluster_bytes v)) (fat_start v) 0.

(** [while(FAT_CLUS_NORMAL(cluster))]; every round frees a cluster, so as many
    rounds as there are cluster numbers are enough. *)
Fixpoint free_chain_loop (fuel : nat) (v : Fat16Volume) (cluster : Z) : IO D Z :=
  match fuel with
  | O => out_of_fuel
  | S fuel =>
      if FAT_CLUS_NORMAL cluster then
        let tmp := cluster in
        cluster ← fat_get_next_cluster v cluster;
        write_fat v tmp 0;;
        free_chain_loop fuel v cluster
      else mret 0
  end.
Definition fat_free_clusters_until_end (v : Fat16Volume) (cluster : Z) : IO D Z :=
  free_chain_loop (Z.to_nat 65536) v cluster.
(** ** Files and directories *)

(** [printl] etc. apart, the only calls into other parts are those of the heap.
    The code uses the result of [kmalloc] without a test. *)
Definition call_kmalloc `{HeapPolicy} (size : Z) : IO D unit := fun h =>
  if heap_grants (log h) size then emit (EvAlloc size) h else undefined h.
Definition call_kfree (size : Z) : IO D unit := emit (EvFree size).
Definition sizeof_Fat16File : Z := 28.

Definition new_fat16_file `{HeapPolicy} (path : option (list Z)) (v : Fat16Volume) (ent : option FatDirEntry) (flag : Z) :
    IO D Fat16File :=
  call_kmalloc sizeof_Fat16File;;
  '(e, cur) ← match ent with
              | None => call_kmalloc 32;; mret (dirent_at (uninit 32) 0, 255)
              | Some e => mret (e, start_cluster e)
              end;
  match path with
  | Some p => call_kmalloc (lenZ p + 1)
  | None => mret tt
  end;;
  mret (mk_file path v e 255 255 cur 0 flag).

Definition fat_close (file : Fat16File) : IO D unit :=
  match path file with
  | Some p => call_kfree (lenZ p + 1)
  | None => mret tt
  end;;
  call_kfree 32;;
  call_kfree sizeof_Fat16File.

Definition fat_rewind (file : Fat16File) (offset : Z) : Z := -1.
Definition fat16_dirlist (file : Fat16File) : Z := 1.

(** [while( (cmd.lba_start - volume->root_dir_start) < volume->root_sectors )]:
    the block and offset of the entry found, with the sector of the block. *)
Fixpoint search_root_loop (fuel : nat) (v : Fat16Volume) (b name : list Z) (lba : Z) :
    IO D (option (list Z * Z * Z)) :=
  match fuel with
  | O => out_of_fuel
  | S fuel =>
      if wrap32 (lba - root_dir_start v) <? root_sectors v then
        '(read_sector, b) ← bd_read (mk_cmd lba (spc v) b (cluster_bytes v));
        match search_name_in_block b (read_sector * bps v) name with
        | Some p => mret (Some (b, p, lba))
        | None => search_root_loop fuel v b name (wrap32 (lba + read_sector))
        end
      else mret None
  end.
Definition _fat_search_root (file : Fat16File) (name : list Z) : IO D (Z * Fat16File) :=
  let v := volume file in
  r ← search_root_loop (S (Z.to_nat (root_sectors v))) v (uninit (cluster_bytes v)) name (root_dir_start v);
  match r with
  | None => mret (-1, file)
  | Some (b, p, lba) =>
      let e := dirent_at b p in
      let file := set_dirent file e in
      let file := set_pos file (start_cluster e) (byte_offset file) in
      mret (1, set_where file (wrap32 (lba + p / bps v)) FAT_CLUS_ROOT)
  end.

(** [while(FAT_CLUS_NORMAL(cluster))] of [_fat_search_file]; a directory whose
    chain is a cycle is searched for ever. *)
Fixpoint search_file_loop (fuel : nat) (file : Fat16File) (b fmt_name : list Z) (cluster : Z) :
    IO D (option Fat16File) :=
  match fuel with
  | O => out_of_fuel
  | S fuel =>
      if FAT_CLUS_NORMAL cluster then
        let v := volume file in
        '(n, b) ← fat_read_cluster v cluster b;
        if n =? 0 then Ata.panic "fat16: fat_read_dirent,read 0 bytes "
        else
          match search_name_in_block b (cluster_bytes v) fmt_name with
          | Some p =>
              let e := dirent_at b p in
              let file := set_dirent file e in
              let file := set_where file (dirent_sector file) cluster in
              mret (Some (set_pos file (start_cluster e) (byte_offset file)))
          | None =>
              cluster ← fat_get_next_cluster v cluster;
              search_file_loop fuel file b fmt_name cluster
          end
      else mret None
  end.
Definition _fat_search_file (file : Fat16File) (fmt_name : list Z) (start : Z) : IO D (option Fat16File) :=
  if start =? FAT_CLUS_ROOT then
    '(r, file) ← _fat_search_root file fmt_name;
    mret (if 0 <? r then Some file else None)
  else search_file_loop (Z.to_nat 65536) file (uninit (cluster_bytes (volume file))) fmt_name start.

(** [char fmt_name[16] = {0}] *)
Definition fat_search_file (file : Fat16File) (name : list Z) (start : Z) : IO D (option Fat16File) :=
  _fat_search_file file (name83 name ++ replicate 7 0) start.

Definition fat_read_file_one_cluster (file : Fat16File) (b : list Z) : IO D (Z * Fat16File * list Z) :=
  let v := volume file in
  if FAT_CLUS_EOF (current_cluster file) then mret (FAT_FILE_EOF, file, b)
  else
    '(ret, b) ← fat_read_cluster v (current_cluster file) b;
    if ret =? 0 then Ata.panic "fat16: fat_read_dirent,read 0 bytes "
    else
      next ← fat_get_next_cluster v (current_cluster file);
      mret (ret * bps v, set_pos file next (wrap32 (byte_offset file + ret * bps v)), b).

(** [char seg[16]]: a component and its terminator must fit. *)
Definition SEG_SIZE : Z := 16.

(** [do{...}while(next)] of [fat16_find] *)
Fixpoint find_loop (fuel : nat) (file : Fat16File) (next : list Z) : IO D (option Fat16File) :=
  match fuel with
  | O => out_of_fuel
  | S fuel =>
      let seg := first_word 47 next in
      let next := after_word 47 next in
      if SEG_SIZE <=? lenZ seg then undefined else
      match seg with
      | [] => mret (Some file)
      | _ =>
          r ← fat_search_file file seg (start_cluster (dirent file));
          match r with
          | None => mret None
          | Some file => match next with [] => mret (Some file) | _ => find_loop fuel file next end
          end
      end
  end.
Definition fat16_find (file : Fat16File) (p : list Z) : IO D (option Fat16File) :=
  let file := set_dirent file (root (volume file)) in
  if bool_decide (p = [47]) then
    let file := set_pos file FAT_CLUS_ROOT (byte_offset file) in
    let file := set_where file 255 255 in
    mret (Some (set_flag file (Z.lor (flag file) FAT16_CTL_IS_ROOT)))
  else find_loop (S (List.length p)) file p.

(** [while(1)]: the last cluster of a chain *)
Fixpoint last_cluster_loop (fuel : nat) (v : Fat16Volume) (cluster : Z) : IO D Z :=
  match fuel with
  | O => out_of_fuel
  | S fuel =>
      tmp ← fat_get_next_cluster v cluster;
      if negb (FAT_CLUS_NORMAL tmp) then mret cluster else last_cluster_loop fuel v tmp
  end.

(** [fat_open] without [FAT16_CTL_CREATE]. *)
Definition open_existing `{HeapPolicy} (v : Fat16Volume) (p : list Z) (fl : Z) : IO D (option Fat16File) :=
  file ← new_fat16_file (Some p) v None fl;
  r ← fat16_find file p;
  match r with
  | None => mret None
  | Some file =>
      if has fl FAT16_CTL_APPEND then
        let file := set_flag file (Z.lor (flag file) FAT16_CTL_WRITE) in
        cluster ← last_cluster_loop (Z.to_nat 65536) v (start_cluster (dirent file));
        mret (Some (set_pos file cluster (file_size (dirent file))))
      else mret (Some file)
  end.

(** ** Reading *)

(** [while( offset<file->byte_offset+buf_size )] of [fat_rw_root]; [base] is the
    file's offset at the call. *)
Fixpoint rw_root_loop (fuel : nat) (v : Fat16Volume) (fl base size : Z) (user block : list Z) (offset rw_cnt : Z) :
    IO D (list Z * Z) :=
  match fuel with
  | O => out_of_fuel
  | S fuel =>
      if (offset <? wrap32 (base + size)) && negb (root_sectors v <=? offset / bps v) then
        let n := min (spc v) (root_sectors v - offset / bps v) in
        let lba := root_dir_start v + offset / bps v in
        let next_offset := min (offset + n * bps v) (wrap32 (base + size)) in
        '(_, block) ← bd_read (mk_cmd lba n block (cluster_bytes v));
        let at_ := offset - offset / bps v * bps v in
        if has fl FAT16_CTL_WRITE then
          let block := splice block at_ (slice user (offset - base) (next_offset - offset)) in
          bd_write (mk_cmd lba n block (cluster_bytes v));;
          rw_root_loop fuel v fl base size user block next_offset (rw_cnt + (next_offset - offset))
        else
          let user := splice user rw_cnt (slice block at_ (next_offset - offset)) in
          rw_root_loop fuel v fl base size user block next_offset (rw_cnt + (next_offset - offset))
      else mret (user, rw_cnt)
  end.
Definition fat_rw_root (file : Fat16File) (user : list Z) (size : Z) : IO D (Z * Fat16File * list Z) :=
  let v := volume file in
  if negb (start_cluster (dirent file) =? FAT_CLUS_ROOT) then mret (-2, file, user)
  else if root_sectors v <=? byte_offset file / bps v then mret (FAT_FILE_EOF, file, user)
  else
    '(user, rw_cnt) ← rw_root_loop (S (Z.to_nat size)) v (flag file) (byte_offset file) size user
                                   (uninit (cluster_bytes v)) (byte_offset file) 0;
    mret (rw_cnt, set_pos file (current_cluster file) (wrap32 (byte_offset file + rw_cnt)), user).

(** [while(offset<file->byte_offset+buf_size && !FAT_CLUS_EOF(cluster))] *)
Fixpoint read_loop (fuel : nat) (v : Fat16Volume) (base size : Z) (user block : list Z) (cluster offset cnt : Z) :
    IO D (list Z * Z * Z * Z) :=
  match fuel with
  | O => out_of_fuel
  | S fuel =>
      if (offset <? wrap32 (base + size)) && negb (FAT_CLUS_EOF cluster) then
        '(_, block) ← fat_read_cluster v cluster block;
        let next_offset :=
          min (wrap32 (base + size)) ((offset + cluster_bytes v) / cluster_bytes v * cluster_bytes v) in
        let user := splice user cnt (slice block (offset mod cluster_bytes v) (next_offset - offset)) in
        let cnt := cnt + (next_offset - offset) in
        if negb (next_offset / cluster_bytes v =? offset / cluster_bytes v) then
          cluster ← fat_get_next_cluster v cluster;
          read_loop fuel v base size user block cluster next_offset cnt
        else read_loop fuel v base size user block cluster next_offset cnt
      else mret (user, cluster, offset, cnt)
  end.
Definition fat_read_file (file : Fat16File) (user : list Z) (size : Z) : IO D (Z * Fat16File * list Z) :=
  let v := volume file in
  let e := dirent file in
  if start_cluster e =? FAT_CLUS_ROOT then fat_rw_root file user size
  else if negb (is_directory e) && (file_size e <=? byte_offset file) then mret (FAT_FILE_EOF, file, user)
  else if FAT_CLUS_EOF (current_cluster file) then mret (FAT_FILE_EOF, file, user)
  else
    '(user, cluster, offset, cnt) ← read_loop (S (Z.to_nat size)) v (byte_offset file) size user
                                 (uninit (cluster_bytes v)) (current_cluster file) (byte_offset file) 0;
    let cnt := if negb (is_directory e) && (file_size e <=? offset) then cnt - (offset - file_size e) else cnt in
    mret (cnt, set_pos file cluster (wrap32 (byte_offset file + cnt)), user).

(** ** Writing *)

Definition fat_update_file_dirent (file : Fat16File) (new_dirent : option FatDirEntry) : IO D Z :=
  let v := volume file in
  '(_, block) ← (if dirent_cluster file =? FAT_CLUS_ROOT
                 then bd_read (mk_cmd (dirent_sector file) 1 (uninit (cluster_bytes v)) (cluster_bytes v))
                 else fat_read_cluster v (dirent_cluster file) (uninit (cluster_bytes v)));
  match search_name_in_block block (cluster_bytes v) (filename (dirent file)) with
  | Some p =>
      let e := match new_dirent with Some e => e | None => dirent file end in
      let block := splice block p (dirent_bytes e) in
      (if dirent_cluster file =? FAT_CLUS_ROOT
       then bd_write (mk_cmd (dirent_sector file) 1 block (cluster_bytes v))
       else fat_write_cluster v block (dirent_cluster file) 1);;
      mret 0
  | None => Ata.panic "fat16 : write but no dirent find"
  end.

(** [while(write_cnt < buf_size)] *)
Fixpoint write_loop (fuel : nat) (v : Fat16Volume) (user block : list Z) (size cluster offset cnt : Z) :
    IO D (Z * Z) :=
  match fuel with
  | O => out_of_fuel
  | S fuel =>
      if cnt <? size then
        '(_, block) ← fat_read_cluster v cluster block;
        let tmp := min (cluster_bytes v - offset mod cluster_bytes v) (size - cnt) in
        let block := splice block (offset mod cluster_bytes v) (slice user cnt tmp) in
        fat_write_cluster v block cluster 1;;
        let offset := wrap32 (offset + tmp) in
        let cnt := cnt + tmp in
        if offset mod cluster_bytes v =? 0 then
          tmp ← fat_get_next_cluster v cluster;
          if FAT_CLUS_EOF tmp then
            tmp ← fat_get_free_cluster v;
            write_fat v cluster tmp;;
            write_fat v tmp 65535;;
            write_loop fuel v user (replicate (Z.to_nat (cluster_bytes v)) 0) size tmp offset cnt
          else write_loop fuel v user block size tmp offset cnt
        else write_loop fuel v user block size cluster offset cnt
      else mret (cluster, offset)
  end.
Definition fat_write_file (file : Fat16File) (user : list Z) (size : Z) : IO D (Z * Fat16File) :=
  let v := volume file in
  if is_directory (dirent file) then
    Ata.printl "fat16 :error, write on directory";; mret (-2, file)
  else if negb (has (flag file) FAT16_CTL_WRITE) then
    Ata.printl "fat16 : write on read mode file";; mret (-2, file)
  else if FAT_CLUS_EOF (current_cluster file) then mret (FAT_FILE_EOF, file)
  else
    '(cluster, offset) ← write_loop (S (Z.to_nat size)) v user (uninit (cluster_bytes v)) size
                                    (current_cluster file) (byte_offset file) 0;
    let file := set_pos file cluster offset in
    let file := set_dirent file (set_file_size (dirent file) offset) in
    fat_update_file_dirent file None;;
    mret (size, file).

(** ** Deleting *)

Definition dot_name : list Z := 46 :: replicate 8 32.
Definition dotdot_name : list Z := [46; 46] ++ replicate 7 32.

(** The inner loop of [_fat_free_childs_under_dir] over the entries of a block;
    [rec] deletes a subdirectory. *)
Fixpoint free_entries (rec : Fat16File -> IO D Z) (n : nat) (v : Fat16Volume) (sub : Fat16File) (block : list Z)
    (cluster p : Z) : IO D Fat16File :=
  match n with
  | O => mret sub
  | S n =>
      let e := dirent_at block p in
      if negb (FAT_CLUS_NORMAL (start_cluster e)) then free_entries rec n v sub block cluster (p + 32)
      else if fat_filename_match e dot_name || fat_filename_match e dotdot_name then
        free_entries rec n v sub block cluster (p + 32)
      else if negb (is_directory e) then
        fat_free_clusters_until_end v (start_cluster e);;
        free_entries rec n v sub block cluster (p + 32)
      else
        let sub := set_dirent (set_where sub (dirent_sector sub) cluster) e in
        rec sub;;
        free_entries rec n v sub block cluster (p + 32)
  end.
Fixpoint free_dir_loop (rec : Fat16File -> IO D Z) (fuel : nat) (v : Fat16Volume) (sub : Fat16File) (block : list Z)
    (cluster : Z) : IO D Fat16File :=
  match fuel with
  | O => out_of_fuel
  | S fuel =>
      if FAT_CLUS_NORMAL cluster then
        '(_, block) ← fat_read_cluster v cluster block;
        sub ← free_entries rec (Z.to_nat ((cluster_bytes v + 31) / 32)) v sub block cluster 0;
        tmp ← fat_get_next_cluster v cluster;
        write_fat v cluster 0;;
        free_dir_loop rec fuel v sub block tmp
      else mret sub
  end.
(** [depth] bounds the nesting of directories. *)
Fixpoint _fat_free_childs_under_dir `{HeapPolicy} (depth : nat) (file : Fat16File) : IO D Z :=
  match depth with
  | O => out_of_fuel
  | S depth =>
      sub ← new_fat16_file (Some []) (volume file) None 0;
      sub ← free_dir_loop (_fat_free_childs_under_dir depth) (Z.to_nat 65536) (volume file) sub
                          (uninit (cluster_bytes (volume file))) (start_cluster (dirent file));
      fat_close sub;;
      mret 1
  end.

Definition fat_delete_file `{HeapPolicy} (depth : nat) (v : Fat16Volume) (p : list Z) : IO D Z :=
  r ← open_existing v p 0;
  match r with
  | None => mret (-1)
  | Some file =>
      if current_cluster file =? FAT_CLUS_ROOT then
        Ata.printl "error : can't delete root directory";; mret (-1)
      else
        (if is_directory (dirent file) then _fat_free_childs_under_dir depth file
         else fat_free_clusters_until_end (volume file) (start_cluster (dirent file)));;
        let e := dirent file in
        let new_ent := mk_dirent (updZ (filename e) 0 229) (ext e) (attr e) (reserved e) (create_mill e)
          (create_time e) (create_date e) (last_access e) (reserve_32 e) (last_wtime e) (last_wdate e) 0 0 in
        fat_update_file_dirent file (Some new_ent);;
        fat_close file;;
        mret 1
  end.

(** ** Creating *)

Definition zeros (v : Fat16Volume) : list Z := replicate (Z.to_nat (cluster_bytes v)) 0.

(** The bytes of a new entry: [fat16_filename_fmt] writes nine characters, the
    last of them over [ext[0]]. *)
Definition new_entry (name : list Z) (fl cluster : Z) : list Z :=
  let b := splice (replicate 32 0) 0 (name83 name) in
  let b := if has fl FAT16_CTL_DIR then updZ b 11 ENT_ATTR_DIR else splice b 8 (chars "txt") in
  put16 b 26 cluster.

(** The label [create_file_dirent]: entry at offset [p] of [b]. *)
Definition create_file_dirent (parent : Fat16File) (parent_cluster : Z) (b : list Z) (p : Z) (name : list Z) (fl : Z) :
    IO D Z :=
  let v := volume parent in
  new_cluster ← fat_get_free_cluster v;
  let b := splice b p (new_entry name fl new_cluster) in
  (if start_cluster (dirent parent) =? FAT_CLUS_ROOT then
     let tmp := p / bps v in
     bd_write (mk_cmd (wrap32 (root_dir_start v + byte_offset parent / bps v - spc v + tmp)) 1
                      (drop (Z.to_nat (tmp * bps v)) b) (bps v))
   else fat_write_cluster v b parent_cluster 1);;
  write_fat v new_cluster 65535;;
  let b := zeros v in
  let b :=
    if has fl FAT16_CTL_DIR then
      let b := splice b 0 (put16 (updZ (splice (replicate 32 0) 0 (name83 [46])) 11 ENT_ATTR_DIR) 26 new_cluster) in
      splice b 32 (put16 (updZ (splice (replicate 32 0) 0 (name83 [46; 46])) 11 ENT_ATTR_DIR) 26 parent_cluster)
    else b in
  fat_write_cluster v b new_cluster 1;;
  mret 1.

(** [while( (char* )dirent - buf < parent->volume->cluster_bytes)]: the first
    unused entry. *)
Fixpoint unused_loop (n : nat) (b : list Z) (p : Z) : option Z :=
  match n with
  | O => None
  | S n =>
      let e := dirent_at b p in
      if FAT_CLUS_FREE (start_cluster e) && negb (fat_filename_match e ([46; 46] ++ replicate 6 32)) then Some p
      else unused_loop n b (p + 32)
  end.

(** [while(1)]; [fuel] bounds its rounds. *)
Fixpoint create_loop (fuel : nat) (parent : Fat16File) (parent_cluster : Z) (b : list Z) (name : list Z) (fl : Z) :
    IO D Z :=
  match fuel with
  | O => out_of_fuel
  | S fuel =>
      let v := volume parent in
      let tmp := current_cluster parent in
      '(_, parent, b) ← fat_read_file parent b (cluster_bytes v);
      if FAT_CLUS_EOF (current_cluster parent) then
        let parent_cluster := tmp in
        tmp ← fat_get_free_cluster v;
        write_fat v parent_cluster tmp;;
        write_fat v tmp 65535;;
        create_file_dirent parent tmp (zeros v) 0 name fl
      else
        match unused_loop (Z.to_nat ((cluster_bytes v + 31) / 32)) b 0 with
        | Some p => create_file_dirent parent parent_cluster b p name fl
        | None => create_loop fuel parent (current_cluster parent) b name fl
        end
  end.
Definition _fat_create_file (fuel : nat) (parent : Fat16File) (name : list Z) (fl : Z) : IO D Z :=
  create_loop fuel parent (start_cluster (dirent parent)) (zeros (volume parent)) name fl.

(** ** Opening *)

(** [char base_dir[128]], [char filename[128]] *)
Definition PATH_SIZE : Z := 128.

(** Without a '/' in the path, [get_basedir] copies from address 0 on over the
    stack; and the file that was just created is used without a test. *)
Definition fat_open `{HeapPolicy} (fuel : nat) (v : Fat16Volume) (p : list Z) (fl : Z) : IO D (option Fat16File) :=
  if has fl FAT16_CTL_CREATE then
    let fl' := Z.land fl (Z.lnot FAT16_CTL_CREATE) in
    r ← open_existing v p fl';
    match r with
    | Some file => mret (Some (set_flag file fl))
    | None =>
        match basedir_of p with
        | None => undefined
        | Some base_dir =>
            if (PATH_SIZE <=? lenZ base_dir) || (PATH_SIZE <=? lenZ (filename_of p)) then undefined else
            match filename_of p with
            | [] => Ata.printl "fat create file, path parsing error";; mret None
            | name =>
                r ← open_existing v base_dir 0;
                match r with
                | None => mret None
                | Some parent =>
                    ok ← _fat_create_file fuel parent name fl;
                    if negb (ok =? 0) then
                      r ← open_existing v p fl';
                      match r with
                      | Some file => mret (Some (set_flag file (Z.lor (flag file) FAT16_CTL_CREATE)))
                      | None => undefined
                      end
                    else Ata.panic "create file failed"
                end
            end
        end
    end
  else open_existing v p fl.
End Fs.
End Fat.
