(* ===== verification/FatTable.v ===== *)
(** * The allocation table of the FAT16 file system

    A disk with a FAT16 volume is seen as a map from cluster numbers to table
    entries ([fat_entry]) and to contents ([clus]).  This file shows that
    [fat_get_volume] computes a sound layout from the boot sector, and that
    [read_fat], [write_fat], [fat_read_cluster] and [fat_write_cluster]
    implement lookup and update of these maps and touch nothing else. *)
From S2P Require Import Prelude CMem CString Sink Print Disk Ata FatName Fat.
Import CString Print FatName Fat.
Open Scope list_scope.

(** ** Little-endian fields *)

Lemma le16_bytes x : bytes (le16 x).
Proof. apply Forall_cons_2; [apply wrap8_range|]. apply Forall_cons_2; [apply wrap8_range|done]. Qed.

Lemma get16_range b i : bytes b -> u16 (get16 b i).
Proof. intros Hb. unfold get16. pose proof (bytes_nth b i Hb). pose proof (bytes_nth b (i + 1) Hb). lia. Qed.

Lemma get16_put16_eq b i x : 0 <= i -> i + 2 <= lenZ b -> get16 (put16 b i x) i = wrap16 x.
Proof.
  intros Hi Hl. unfold get16, put16. rewrite !nthZ_splice by (change (lenZ (le16 x)) with 2; lia).
  change (lenZ (le16 x)) with 2. rewrite !(proj2 (Z.leb_le i _)), !(proj2 (Z.ltb_lt _ (i + 2))) by lia. simpl.
  replace (i - i) with 0 by lia. replace (i + 1 - i) with 1 by lia. apply bytes2_value.
Qed.

Lemma get16_splice_ne b i d j :
  0 <= i -> i + lenZ d <= lenZ b -> 0 <= j -> (j + 2 <= i \/ i + lenZ d <= j) -> get16 (splice b i d) j = get16 b j.
Proof.
  intros Hi Hl Hj Ho. pose proof (lenZ_nonneg d). unfold get16. rewrite !nthZ_splice by lia.
  assert (Ht : forall k, k = j \/ k = j + 1 -> (i <=? k) && (k <? i + lenZ d) = false).
  { intros k Hk. destruct (Z.leb_spec i k); [|done]. simpl. apply Z.ltb_ge. lia. }
  by rewrite !Ht by auto.
Qed.

Lemma lenZ_put16 b i x : 0 <= i -> i + 2 <= lenZ b -> lenZ (put16 b i x) = lenZ b.
Proof. intros. unfold put16. apply lenZ_splice; [lia|]. change (lenZ (le16 x)) with 2. lia. Qed.

Lemma bytes_put16 b i x : bytes b -> bytes (put16 b i x).
Proof. intros. apply bytes_splice; [done|apply le16_bytes]. Qed.

(** Products with a positive factor. *)
Lemma mul_le_self n q : 0 < n -> 0 < q -> n <= q * n.
Proof. nia. Qed.
Lemma div_le_self a n : 0 < n -> 0 <= a -> 0 <= a / n <= a.
Proof. intros. split; [apply Z.div_pos; lia|]. apply Z.div_le_upper_bound; nia. Qed.
Lemma mul_lt_le n k m : 0 < n -> k * n < m * n -> k * n + n <= m * n.
Proof.
  intros Hn Hl. apply Z.mul_lt_mono_pos_r in Hl; [|done]. replace (k * n + n) with ((k + 1) * n) by lia.
  apply Z.mul_le_mono_nonneg_r; lia.
Qed.

(** ** The volume *)

(** Number of table entries. *)
Definition nfat (v : Fat16Volume) : Z := sectors_fat (sb v) * 256.

Section Volume.
Context {D : Type} `{BlockDev D}.

(** Geometry of a volume of 512-byte sectors that fits the disk and whose
    areas do not overlap. *)
Record vol_ok (v : Fat16Volume) : Prop := {
  v_bps : bps v = 512;
  v_spc : 0 < spc v <= 127;
  v_cb : cluster_bytes v = spc v * 512;
  v_fat : 0 < fat_start v;
  v_fatlen : 0 < sectors_fat (sb v) <= 256;
  v_rootlen : 0 <= root_sectors v;
  v_root : fat_start v + sectors_fat (sb v) <= root_dir_start v;
  v_data : root_dir_start v + root_sectors v <= data_start v < 65536;
  v_cap : data_start v + (nfat v - 2) * spc v <= bd_capacity;
  v_cap32 : bd_capacity <= 4294967296;
}.
End Volume.

(** A cluster number with a table entry and contents. *)
Definition valid (v : Fat16Volume) (c : Z) : Prop := 2 <= c < nfat v.

Definition fat_sector (v : Fat16Volume) (c : Z) : Z := fat_start v + c / 256.
Definition fat_entry (v : Fat16Volume) (s : Z -> list Z) (c : Z) : Z :=
  get16 (s (fat_sector v c)) (2 * (c mod 256)).
Definition fat_upd (v : Fat16Volume) (s : Z -> list Z) (c x : Z) : Z -> list Z :=
  write_secs s (fat_sector v c) 1 (put16 (s (fat_sector v c)) (2 * (c mod 256)) (wrap16 x)).

Definition clus_lba (v : Fat16Volume) (c : Z) : Z := data_start v + (c - 2) * spc v.
Definition clus (v : Fat16Volume) (s : Z -> list Z) (c : Z) : list Z := secs s (clus_lba v c) (spc v).
Definition clus_upd (v : Fat16Volume) (s : Z -> list Z) (c : Z) (b : list Z) : Z -> list Z :=
  write_secs s (clus_lba v c) (spc v) b.

Section Table.
Context {D : Type} `{BlockDev D} (v : Fat16Volume) (Hv : vol_ok v).
Implicit Types (s : Z -> list Z) (c : Z).

Lemma nfat_range : 256 <= nfat v <= 65536.
Proof. unfold nfat. pose proof (v_fatlen v Hv). lia. Qed.

Lemma data_in_disk : data_start v + spc v + 2 <= bd_capacity.
Proof. pose proof nfat_range. pose proof (v_spc v Hv). pose proof (v_cap v Hv). nia. Qed.

Lemma fat_sector_range c : 0 <= c < nfat v -> fat_start v <= fat_sector v c < fat_start v + sectors_fat (sb v).
Proof.
  unfold fat_sector, nfat. intros Hc. assert (0 <= c / 256) by (apply Z.div_pos; lia).
  assert (c / 256 < sectors_fat (sb v)) by (apply Z.div_lt_upper_bound; lia). lia.
Qed.

Lemma fat_off_range c : 0 <= 2 * (c mod 256) <= 510.
Proof. pose proof (Z.mod_pos_bound c 256). lia. Qed.

Lemma clus_lba_range c : valid v c -> data_start v <= clus_lba v c /\ clus_lba v c + spc v <= bd_capacity.
Proof.
  unfold valid, clus_lba. intros Hc. pose proof (v_spc v Hv). pose proof (v_cap v Hv). nia.
Qed.

Lemma clus_lba_apart c c' :
  c <> c' -> clus_lba v c + spc v <= clus_lba v c' \/ clus_lba v c' + spc v <= clus_lba v c.
Proof. unfold clus_lba. intros. pose proof (v_spc v Hv). nia. Qed.

Lemma fat_upd_ok s c x : sectors_ok s -> 0 <= c < nfat v -> sectors_ok (fat_upd v s c x).
Proof.
  intros Hs Hc. pose proof (fat_sector_range c Hc). pose proof (v_fat v Hv). pose proof (fat_off_range c).
  apply write_secs_ok; [done|lia|apply bytes_put16, Hs|]. rewrite lenZ_put16; rewrite ?(proj1 (Hs _)); lia.
Qed.

Lemma clus_upd_ok s c b :
  sectors_ok s -> valid v c -> bytes b -> lenZ b = cluster_bytes v -> sectors_ok (clus_upd v s c b).
Proof.
  intros Hs Hc Hb Hl. pose proof (clus_lba_range c Hc). pose proof (v_data v Hv). pose proof (v_cb v Hv).
  pose proof (v_fat v Hv). pose proof (v_root v Hv). pose proof (v_fatlen v Hv). pose proof (v_rootlen v Hv).
  apply write_secs_ok; [done|lia|done|lia].
Qed.

Lemma fat_entry_range s c : sectors_ok s -> u16 (fat_entry v s c).
Proof. intros Hs. apply get16_range, Hs. Qed.

Lemma fat_entry_upd s c x c' :
  sectors_ok s -> 0 <= c < nfat v -> 0 <= c' < nfat v ->
  fat_entry v (fat_upd v s c x) c' = if c =? c' then wrap16 x else fat_entry v s c'.
Proof.
  intros Hs Hc Hc'. pose proof (fat_off_range c). pose proof (fat_off_range c'). pose proof (proj1 (Hs (fat_sector v c))) as Hl.
  unfold fat_entry, fat_upd. destruct (Z.eqb_spec (c / 256) (c' / 256)) as [E|E].
  - assert (Es : fat_sector v c' = fat_sector v c) by (unfold fat_sector; lia). rewrite Es, write_secs_in by lia.
    rewrite Z.sub_diag, Z.mul_0_r. rewrite slice_all by (rewrite lenZ_put16; lia).
    destruct (Z.eqb_spec c c') as [<-|Hne].
    + rewrite get16_put16_eq by lia. apply wrap16_small, wrap16_range.
    + apply get16_splice_ne; [lia|change (lenZ (le16 (wrap16 x))) with 2; lia|lia|]. change (lenZ (le16 (wrap16 x))) with 2.
      pose proof (Z.div_mod c 256). pose proof (Z.div_mod c' 256). lia.
  - rewrite write_secs_out by (unfold fat_sector; lia). destruct (Z.eqb_spec c c') as [->|]; [done|done].
Qed.

Lemma fat_entry_clus_upd s c b c' :
  valid v c -> 0 <= c' < nfat v -> fat_entry v (clus_upd v s c b) c' = fat_entry v s c'.
Proof.
  intros Hc Hc'. unfold fat_entry, clus_upd. rewrite write_secs_out; [done|].
  pose proof (fat_sector_range c' Hc'). pose proof (clus_lba_range c Hc). pose proof (v_root v Hv).
  pose proof (v_data v Hv). pose proof (v_rootlen v Hv). lia.
Qed.

Lemma clus_fat_upd s c x c' : 0 <= c < nfat v -> valid v c' -> clus v (fat_upd v s c x) c' = clus v s c'.
Proof.
  intros Hc Hc'. unfold clus, fat_upd. apply secs_write_other. pose proof (fat_sector_range c Hc).
  pose proof (clus_lba_range c' Hc'). pose proof (v_root v Hv). pose proof (v_data v Hv). pose proof (v_rootlen v Hv). lia.
Qed.

Lemma clus_clus_upd s c b c' :
  lenZ b = cluster_bytes v -> clus v (clus_upd v s c b) c' = if c =? c' then b else clus v s c'.
Proof.
  intros Hb. unfold clus, clus_upd. pose proof (v_spc v Hv). pose proof (v_cb v Hv).
  destruct (Z.eqb_spec c c') as [<-|Hne]; [apply secs_write_same; lia|].
  apply secs_write_other. pose proof (clus_lba_apart c c' Hne). lia.
Qed.

Lemma lenZ_clus s c : sectors_ok s -> lenZ (clus v s c) = cluster_bytes v.
Proof. intros. unfold clus. pose proof (v_spc v Hv). rewrite lenZ_secs by (done || lia). rewrite v_cb by done. lia. Qed.

Lemma bytes_clus s c : sectors_ok s -> bytes (clus v s c).
Proof. intros. by apply bytes_secs. Qed.
End Table.

(** The geometry of the volume at hand, in the context. *)
Ltac vol_facts :=
  match goal with
  | Hv : vol_ok ?v |- _ =>
      pose proof (nfat_range v Hv); pose proof (data_in_disk v Hv);
      pose proof Hv as [Vbps Vspc Vcb Vfat Vfatlen Vrootlen Vroot Vdata Vcap Vcap32]
  end.

(** ** The operations *)

Section Ops.
Context {D : Type} `{BlockDev D} (uninit : Z -> list Z).
Hypothesis uninit_ok : forall n, 0 <= n -> lenZ (uninit n) = n /\ bytes (uninit n).
Context (v : Fat16Volume) (Hv : vol_ok v).
Implicit Types (h : host D) (s : Z -> list Z) (c : Z).

(** The state after an operation that leaves the disk holding [s]. *)
Definition now (h h' : host D) (s : Z -> list Z) : Prop := disk_is h' s /\ log h' = log h.

Lemma now_refl h s : disk_is h s -> now h h s.
Proof. done. Qed.
Lemma now_trans h1 h2 h3 s s' : now h1 h2 s -> now h2 h3 s' -> now h1 h3 s'.
Proof. intros [_ E1] [Hd E2]. split; [done|congruence]. Qed.

Lemma read_fat_spec h s c b :
  disk_is h s -> 0 <= c < nfat v -> 512 = lenZ b ->
  wp (read_fat v c b) h (fun r h' => r = (fat_sector v c, s (fat_sector v c)) /\ now h h' s).
Proof.
  intros Hd Hc Hb. pose proof (disk_is_ok _ _ Hd) as Hs. unfold read_fat. rewrite (v_bps v Hv).
  pose proof (fat_sector_range v c Hc) as Hf. vol_facts.
  assert (E : wrap16 (fat_start v + c * 2 / 512) = fat_sector v c).
  { replace (c * 2 / 512) with (c / 256); [apply wrap16_small; unfold fat_sector in *; lia|].
    change 512 with (256 * 2). rewrite Z.div_mul_cancel_r; lia. }
  rewrite E. eapply wp_seq; [apply (read_full _ s); done || lia|].
  intros [n b'] h' (Er & Hd' & Hl). injection Er as -> ->. apply wp_ret. split; [|done]. f_equal.
  rewrite secs_1. apply splice_all. rewrite (proj1 (Hs _)). done.
Qed.

Lemma next_cluster_spec h s c :
  disk_is h s -> 0 <= c < nfat v ->
  wp (fat_get_next_cluster uninit v c) h (fun r h' => r = fat_entry v s c /\ now h h' s).
Proof.
  intros Hd Hc. unfold fat_get_next_cluster. rewrite (v_bps v Hv).
  eapply wp_seq; [apply (read_fat_spec _ s); [done|done|symmetry; by apply uninit_ok]|].
  intros [n b] h' (Er & Hn). injection Er as -> ->. apply wp_ret. split; [|done].
  unfold fat_entry. by change (512 / 2) with 256.
Qed.

Lemma write_fat_spec h s c x :
  disk_is h s -> 0 <= c < nfat v ->
  wp (write_fat uninit v c x) h (fun _ h' => now h h' (fat_upd v s c x)).
Proof.
  intros Hd Hc. pose proof (disk_is_ok _ _ Hd) as Hs. unfold write_fat. rewrite (v_bps v Hv).
  eapply wp_seq; [apply (read_fat_spec _ s); [done|done|symmetry; by apply uninit_ok]|].
  intros [n b] h1 (Er & Hn1). injection Er as -> ->. change (512 / 2) with 256.
  pose proof (fat_sector_range v c Hc). vol_facts.
  pose proof (fat_off_range c). eapply wp_seq.
  - apply (write_full _ s); [apply Hn1|lia|lia|lia|..].
    + rewrite lenZ_put16; rewrite ?(proj1 (Hs _)); lia.
    + apply bytes_put16, Hs.
  - intros r h' (_ & Hd' & Hl). apply wp_ret. eapply now_trans; [exact Hn1|by split].
Qed.

Lemma cluster_lba_clus c : valid v c -> cluster_lba v c = clus_lba v c.
Proof.
  intros Hc. unfold cluster_lba. apply wrap32_small. pose proof (clus_lba_range v Hv c Hc) as Hl. vol_facts. unfold clus_lba in *. lia.
Qed.

Lemma read_cluster_spec h s c b :
  disk_is h s -> valid v c -> lenZ b = cluster_bytes v ->
  wp (fat_read_cluster v c b) h (fun r h' => r = (spc v, clus v s c) /\ now h h' s).
Proof.
  intros Hd Hc Hb. pose proof (disk_is_ok _ _ Hd) as Hs. unfold fat_read_cluster. rewrite cluster_lba_clus by done.
  pose proof (clus_lba_range v Hv c Hc). vol_facts.
  eapply wp_mono; [apply (read_full _ s); done || lia|].
  intros r h' (-> & Hd' & Hl). split; [|done]. f_equal. apply splice_all. fold (clus v s c). rewrite lenZ_clus by done. lia.
Qed.

Lemma write_cluster_spec h s c b :
  disk_is h s -> valid v c -> bytes b -> lenZ b = cluster_bytes v ->
  wp (fat_write_cluster v b c 1) h (fun _ h' => now h h' (clus_upd v s c b)).
Proof.
  intros Hd Hc Hby Hb. unfold fat_write_cluster. cbn [Z.to_nat Pos.to_nat Pos.iter_op Nat.add write_cluster_loop].
  change (Z.to_nat 1) with 1%nat. cbn [write_cluster_loop]. rewrite cluster_lba_clus by done.
  pose proof (clus_lba_range v Hv c Hc). vol_facts.
  apply wp_bind. eapply wp_seq; [apply (write_full _ s); done || lia|].
  intros r h' (-> & Hd' & Hl). apply wp_ret, wp_ret. by split.
Qed.
End Ops.

(** ** The layout of a volume *)

(** A boot sector whose areas fit a disk of [cap] sectors: 512-byte sectors, a
    root directory of whole sectors, and a data area below sector 65536. *)
Record boot_ok (cap : Z) (b : FatSuperBlock) : Prop := {
  b_bps : bytes_per_sector b = 512;
  b_spc : 0 < sectors_per_cluster b <= 127;
  b_reserve : 0 < reserve_sectors b;
  b_hidden : 0 <= hidden_sectors b;
  b_num : 0 < fat_num b;
  b_fatlen : 0 < sectors_fat b <= 256;
  b_root : 0 <= root_ents_num b /\ root_ents_num b mod 16 = 0;
  b_data : hidden_sectors b + reserve_sectors b + sectors_fat b * fat_num b + root_ents_num b / 16 < 65536;
  b_cap : hidden_sectors b + reserve_sectors b + sectors_fat b * fat_num b + root_ents_num b / 16 +
          (sectors_fat b * 256 - 2) * sectors_per_cluster b <= cap;
}.

Section Layout.
Context {D : Type} `{BlockDev D} (uninit : Z -> list Z).
Hypothesis uninit_ok : forall n, 0 <= n -> lenZ (uninit n) = n /\ bytes (uninit n).
Implicit Types (h : host D) (s : Z -> list Z).

Lemma superblock_spec h s old :
  disk_is h s -> 1 <= bd_capacity ->
  wp (fat16_get_superblock uninit old) h (fun r h' => r = (1, superblock_of (s 0)) /\ now h h' s).
Proof.
  intros Hd Hc. pose proof (disk_is_ok _ _ Hd 0) as [Hs _]. destruct (uninit_ok 512 ltac:(lia)) as [Hul _].
  unfold fat16_get_superblock. eapply wp_seq; [apply (read_full _ s); done || lia|].
  intros [n b] h1 (Er & Hn1). injection Er as -> ->. apply wp_ret. split; [|done].
  rewrite secs_1, splice_all by lia. done.
Qed.

(** C32. [fat_get_volume] on a disk whose boot sector describes areas that fit the
    disk computes the layout: tables from the end of the reserved sectors, root
    directory after the last table, data after the root directory, without
    overlap, overflow of the 16-bit fields or a change to the disk; the
    conditions under which the table and cluster operations are correct hold of
    the volume it returns. *)
Theorem get_volume_layout h s old :
  disk_is h s -> bd_capacity <= 4294967296 -> boot_ok bd_capacity (superblock_of (s 0)) ->
  exists v h', fat_get_volume uninit (Some old) h = Ok ((1, Some v), h') /\ disk_is h' s /\ log h' = log h /\
    vol_ok v /\ sb v = superblock_of (s 0) /\
    fat_start v = hidden_sectors (sb v) + reserve_sectors (sb v) /\
    root_dir_start v = fat_start v + sectors_fat (sb v) * fat_num (sb v) /\
    data_start v = root_dir_start v + root_sectors v /\ root_sectors v * 512 = root_ents_num (sb v) * 32.
Proof.
  intros Hd H32 [Hbps Hspc Hres Hhid Hnum Hfl [Hre Hrm] Hdata Hcap]. set (b := superblock_of (s 0)) in *.
  pose proof (Z.div_mod (root_ents_num b) 16 ltac:(lia)) as Hq. rewrite Hrm, Z.add_0_r in Hq.
  assert (0 <= root_ents_num b / 16) by (apply Z.div_pos; lia).
  assert (0 < sectors_fat b * fat_num b) by nia. assert (sectors_fat b <= sectors_fat b * fat_num b) by nia.
  pose proof (superblock_spec h s (sb old) Hd ltac:(nia)) as Hw. apply wp_Ok in Hw as (r & h' & E & -> & Hd' & Hl').
  eexists _, h'. unfold fat_get_volume, mbind, IO_bind. rewrite E. fold b. clearbody b. rewrite Hbps. cbn [Z.eqb].
  assert (E1 : root_ents_num b * 32 / 512 = root_ents_num b / 16) by (symmetry; apply Z.div_unique_exact; lia).
  assert (E2 : (root_ents_num b * 32 + 512 - 1) / 512 = root_ents_num b / 16).
  { symmetry. apply (Z.div_unique _ 512 _ 511); lia. }
  rewrite E1, E2, !(wrap16_small (hidden_sectors b)), !(wrap16_small (_ + reserve_sectors b)) by lia.
  rewrite !(wrap16_small (_ + sectors_fat b * fat_num b)), (wrap16_small (_ + root_ents_num b / 16)) by lia.
  split; [reflexivity|]. split; [done|]. split; [done|]. split; [|simpl; split_and!; lia || done].
  split; simpl; unfold nfat; simpl; lia || done.
Qed.
End Layout.
