(* ===== verification/FatFree.v ===== *)
(** * Allocating and freeing clusters

    [fat_get_free_cluster] returns the lowest free cluster or panics, and
    [fat_free_clusters_until_end] returns on every table whose entries are in
    range, cyclic chains included, and frees exactly the chain it is given. *)
From S2P Require Import Prelude CMem CString Sink Print Disk Ata FatName Fat FatTable.
Import CString Print FatName Fat.
Open Scope list_scope.

(** ** Chains *)

Section Chain.
Context (v : Fat16Volume).
Implicit Types (s : Z -> list Z) (c : Z) (cs : list Z).

(** A cluster that may hold data. *)
Definition in_use (c : Z) : Prop := 3 <= c <= 65519 /\ c < nfat v.

(** The clusters of a file in order, up to the end-of-file mark. *)
Fixpoint chain (s : Z -> list Z) (cs : list Z) : Prop :=
  match cs with
  | [] => False
  | c :: cs' =>
      in_use c /\
      match cs' with
      | [] => FAT_CLUS_EOF (fat_entry v s c) = true
      | c' :: _ => fat_entry v s c = c' /\ chain s cs'
      end
  end.

Lemma in_use_normal c : in_use c -> FAT_CLUS_NORMAL c = true.
Proof. intros [Hc _]. unfold FAT_CLUS_NORMAL. by rewrite !(proj2 (Z.leb_le _ _)) by lia. Qed.

Lemma in_use_valid c : in_use c -> valid v c.
Proof. unfold in_use, valid. lia. Qed.

Lemma eof_not_normal c : FAT_CLUS_EOF c = true -> FAT_CLUS_NORMAL c = false.
Proof. unfold FAT_CLUS_EOF, FAT_CLUS_NORMAL. intros. zb. apply andb_false_intro2, Z.leb_gt. lia. Qed.

Lemma normal_not_eof c : FAT_CLUS_NORMAL c = true -> FAT_CLUS_EOF c = false.
Proof. intros Hn. destruct (FAT_CLUS_EOF c) eqn:E; [|done]. by rewrite (eof_not_normal c E) in Hn. Qed.

Lemma chain_in_use s cs : chain s cs -> Forall in_use cs.
Proof.
  induction cs as [|c cs IH]; [done|]. intros [Hc Hr]. constructor; [done|].
  destruct cs; [constructor|]. apply IH, Hr.
Qed.

(** The table determines the chain of a cluster. *)
Lemma chain_det s c a b : chain s (c :: a) -> chain s (c :: b) -> a = b.
Proof.
  revert c b. induction a as [|x a IH]; intros c b Ha Hb; destruct b as [|y b]; [done|..].
  - destruct Ha as [_ Ha], Hb as [_ [Hb Hy]]. rewrite Hb in Ha. destruct Hy as [Hy _].
    by rewrite (normal_not_eof y (in_use_normal y Hy)) in Ha.
  - destruct Ha as [_ [Ha Hx]], Hb as [_ Hb]. rewrite Ha in Hb. destruct Hx as [Hx _].
    by rewrite (normal_not_eof x (in_use_normal x Hx)) in Hb.
  - destruct Ha as [_ [Ea Ha]], Hb as [_ [Eb Hb]]. rewrite Ea in Eb. subst y. f_equal. by eapply IH.
Qed.

Lemma chain_suffix s a c b : chain s (a ++ c :: b) -> chain s (c :: b).
Proof. induction a as [|x a IH]; [done|]. intros [_ Hr]. apply IH. by destruct a; destruct Hr. Qed.

Lemma chain_nodup s cs : chain s cs -> NoDup cs.
Proof.
  induction cs as [|c cs IH]; [constructor|]. intros Hc. assert (Hcs : cs = [] \/ chain s cs).
  { destruct Hc as [_ Hr]. destruct cs; [by left|right]. by destruct Hr. }
  constructor.
  - intros Hin. apply list_elem_of_split in Hin as (a & b & ->).
    pose proof (chain_suffix s (c :: a) c b Hc) as Hs. apply (chain_det s c _ _ Hc) in Hs.
    apply (f_equal length) in Hs. rewrite length_app in Hs. simpl in Hs. lia.
  - destruct Hcs as [-> |]; [constructor|by apply IH].
Qed.

Lemma chain_length s cs : chain s cs -> lenZ cs <= 65517.
Proof.
  intros Hc. pose proof (chain_nodup s cs Hc) as Hn. pose proof (chain_in_use s cs Hc) as Hu.
  assert (Hsub : cs ⊆+ seqZ 3 65517).
  { apply NoDup_submseteq; [done|]. intros c Hin. eapply Forall_forall in Hu; [|exact Hin].
    apply elem_of_seqZ. unfold in_use in Hu. lia. }
  apply submseteq_length in Hsub. rewrite length_seqZ in Hsub. unfold lenZ. lia.
Qed.

(** A chain only depends on the entries of its clusters. *)
Lemma chain_ext s s' cs :
  (forall c, c ∈ cs -> fat_entry v s' c = fat_entry v s c) -> chain s cs -> chain s' cs.
Proof.
  induction cs as [|c cs IH]; [done|]. intros He [Hc Hr]. split; [done|].
  destruct cs as [|c' cs]; [rewrite He by set_solver; done|]. destruct Hr as [E Hr].
  split; [by rewrite He by set_solver|]. apply IH; [|done]. intros. apply He. set_solver.
Qed.
End Chain.

(** A filter that keeps strictly less. *)
Lemma filter_shorter (P Q : Z -> bool) (l : list Z) x :
  (forall y, y ∈ l -> Q y = true -> P y = true) -> x ∈ l -> P x = true -> Q x = false ->
  (length (List.filter Q l) < length (List.filter P l))%nat.
Proof.
  intros Himp Hx HP HQ. induction l as [|y l IH]; [by apply elem_of_nil in Hx|]. simpl.
  assert (Hle : (length (List.filter Q l) <= length (List.filter P l))%nat).
  { clear IH Hx. assert (Himp' : forall z, z ∈ l -> Q z = true -> P z = true) by set_solver. clear Himp.
    induction l as [|z l IH]; simpl; [lia|]. specialize (IH ltac:(set_solver)). specialize (Himp' z ltac:(set_solver)).
    destruct (Q z) eqn:Eq; [rewrite Himp' by done; simpl; lia|]. destruct (P z); simpl; lia. }
  destruct (decide (x = y)) as [->|Hne].
  - rewrite HP, HQ. simpl. lia.
  - assert (x ∈ l) by set_solver. specialize (IH ltac:(set_solver) ltac:(done)).
    destruct (Q y) eqn:Eq; [rewrite Himp by (set_solver || done); simpl; lia|]. destruct (P y); simpl; lia.
Qed.

Section Free.
Context {D : Type} `{BlockDev D} (uninit : Z -> list Z).
Hypothesis uninit_ok : forall n, 0 <= n -> lenZ (uninit n) = n /\ bytes (uninit n).
Context (v : Fat16Volume) (Hv : vol_ok v).
Implicit Types (h : host D) (s : Z -> list Z) (c : Z) (cs : list Z).

(** Every link of the table stays in the table. *)
Definition closed s : Prop :=
  forall c, 0 <= c < nfat v -> FAT_CLUS_NORMAL (fat_entry v s c) = true -> fat_entry v s c < nfat v.

(** The clusters whose entries are not 0. *)
Definition used_count s : nat := length (List.filter (fun c => negb (fat_entry v s c =? 0)) (seqZ 3 (nfat v - 3))).

Lemma normal_range c : FAT_CLUS_NORMAL c = true -> 3 <= c <= 65519.
Proof. unfold FAT_CLUS_NORMAL. intros. zb. lia. Qed.

(** What freeing the clusters [cs] does to the disk. *)
Definition freed s s' cs : Prop :=
  (forall c, 0 <= c < nfat v -> fat_entry v s' c = if bool_decide (c ∈ cs) then 0 else fat_entry v s c) /\
  (forall k, (k < fat_start v \/ fat_start v + sectors_fat (sb v) <= k) -> s' k = s k).

Lemma fat_upd_out s c x k :
  0 <= c < nfat v -> (k < fat_start v \/ fat_start v + sectors_fat (sb v) <= k) -> fat_upd v s c x k = s k.
Proof. intros Hc Hk. pose proof (fat_sector_range v c Hc). apply write_secs_out. lia. Qed.

Lemma freed_nil s : freed s s [].
Proof. split; [|done]. intros. by rewrite bool_decide_eq_false_2 by set_solver. Qed.

Lemma freed_cons s s' c cs :
  sectors_ok s -> 0 <= c < nfat v -> freed (fat_upd v s c 0) s' cs -> freed s s' (c :: cs).
Proof.
  intros Hs Hc [He Ho]. split.
  - intros c' Hc'. rewrite He, fat_entry_upd by done. destruct (Z.eqb_spec c c') as [<-|Hne].
    + rewrite (bool_decide_eq_true_2 (c ∈ c :: cs)) by set_solver. by case_match.
    + assert (E : bool_decide (c' ∈ c :: cs) = bool_decide (c' ∈ cs)) by (apply bool_decide_ext; set_solver).
      by rewrite E.
  - intros k Hk. rewrite Ho by done. by apply fat_upd_out.
Qed.

Lemma used_count_upd s c :
  sectors_ok s -> 3 <= c < nfat v -> fat_entry v s c <> 0 -> (used_count (fat_upd v s c 0) < used_count s)%nat.
Proof.
  intros Hs Hc Hne. apply (filter_shorter _ _ _ c).
  - intros y Hy. apply elem_of_seqZ in Hy. rewrite fat_entry_upd by (done || lia).
    destruct (c =? y); [done|done].
  - apply elem_of_seqZ. lia.
  - by rewrite (proj2 (Z.eqb_neq _ 0)).
  - rewrite fat_entry_upd, Z.eqb_refl by (done || lia). done.
Qed.

Lemma closed_upd s c : sectors_ok s -> 0 <= c < nfat v -> closed s -> closed (fat_upd v s c 0).
Proof.
  intros Hs Hc Hcl c' Hc'. rewrite fat_entry_upd by done. destruct (c =? c'); [done|]. by apply Hcl.
Qed.

(** With two rounds more than there are used clusters the loop ends. *)
Lemma free_chain_loop_total fuel h s c :
  disk_is h s -> closed s -> (FAT_CLUS_NORMAL c = true -> c < nfat v) -> (used_count s + 2 <= fuel)%nat ->
  wp (free_chain_loop uninit fuel v c) h (fun r h' => r = 0 /\ log h' = log h /\
    exists s' cs, disk_is h' s' /\ freed s s' cs /\ (FAT_CLUS_NORMAL c = true -> c ∈ cs)).
Proof.
  revert h s c. induction fuel as [|fuel IH]; intros h s c Hd Hcl Hc Hf; [lia|]. cbn [free_chain_loop].
  pose proof (disk_is_ok _ _ Hd) as Hs. destruct (FAT_CLUS_NORMAL c) eqn:Hn.
  2: { apply wp_ret. split; [done|]. split; [done|]. exists s, []. split; [done|]. split; [apply freed_nil|done]. }
  pose proof (normal_range c Hn). specialize (Hc eq_refl).
  eapply wp_seq; [apply (next_cluster_spec uninit uninit_ok v Hv _ s); [done|lia]|]. intros ? h1 [-> Hn1].
  eapply wp_seq; [apply (write_fat_spec uninit uninit_ok v Hv _ s); [apply Hn1|lia]|]. intros ? h2 Hn2. simpl in Hn2.
  pose proof (fat_entry_range v s c Hs) as Hr.
  assert (Hgo : forall n, (used_count (fat_upd v s c 0) + 2 <= n)%nat -> n = fuel ->
    wp (free_chain_loop uninit fuel v (fat_entry v s c)) h2 (fun r h' => r = 0 /\ log h' = log h /\
    exists s' cs, disk_is h' s' /\ freed s s' cs /\ (true = true -> c ∈ cs))).
  { intros n Hle ->. eapply wp_mono; [apply (IH h2 (fat_upd v s c 0)); [apply Hn2| | |done]|].
    - apply closed_upd; [done|lia|done].
    - apply Hcl. lia.
    - intros r h' (-> & Hl & s' & cs & Hd' & Hfr & _). split; [done|].
      split; [rewrite Hl; destruct Hn1, Hn2; congruence|]. exists s', (c :: cs). split; [done|].
      split; [apply freed_cons; [done|lia|done]|]. intros _. set_solver. }
  destruct (decide (fat_entry v s c = 0)) as [E|E].
  - (* the entry was free already: the next round stops *)
    rewrite E in *. clear Hgo IH. destruct fuel as [|fuel]; [lia|]. cbn [free_chain_loop]. apply wp_ret.
    split; [done|]. split; [destruct Hn1, Hn2; congruence|]. exists (fat_upd v s c 0), [c]. split; [apply Hn2|].
    split; [apply freed_cons; [done|lia|apply freed_nil]|]. intros _. set_solver.
  - pose proof (used_count_upd s c Hs ltac:(lia) E). apply (Hgo fuel); [lia|done].
Qed.

Lemma used_count_bound s : (used_count s + 2 <= Z.to_nat 65536)%nat.
Proof.
  unfold used_count. vol_facts.
  assert (Hl : forall (P : Z -> bool) l, (length (List.filter P l) <= length l)%nat).
  { intros P l. induction l as [|x l IH]; simpl; [lia|]. destruct (P x); simpl; lia. }
  specialize (Hl (fun c => negb (fat_entry v s c =? 0)) (seqZ 3 (nfat v - 3))). rewrite length_seqZ in Hl. lia.
Qed.

(** C31. [fat_free_clusters_until_end] returns on every table whose links stay in
    the table, chains that run into a cycle included: it only zeroes table
    entries, that of the given cluster among them, and changes no sector outside
    the table. *)
Theorem free_clusters_terminates h s c :
  disk_is h s -> closed s -> (FAT_CLUS_NORMAL c = true -> c < nfat v) ->
  exists h' s' cs, fat_free_clusters_until_end uninit v c h = Ok (0, h') /\ disk_is h' s' /\ log h' = log h /\
    freed s s' cs /\ (FAT_CLUS_NORMAL c = true -> c ∈ cs).
Proof.
  intros Hd Hcl Hc. pose proof (free_chain_loop_total _ h s c Hd Hcl Hc (used_count_bound s)) as Hw.
  apply wp_Ok in Hw as (r & h' & E & -> & Hl & s' & cs & Hd' & Hfr & Hin). by exists h', s', cs.
Qed.

Lemma free_chain_loop_exact fuel h s cs :
  disk_is h s -> chain v s cs -> (length cs < fuel)%nat ->
  wp (free_chain_loop uninit fuel v (hd 0 cs)) h (fun r h' => r = 0 /\ log h' = log h /\
    exists s', disk_is h' s' /\ freed s s' cs).
Proof.
  revert h s cs. induction fuel as [|fuel IH]; intros h s cs Hd Hc Hf; [lia|]. cbn [free_chain_loop].
  pose proof (disk_is_ok _ _ Hd) as Hs. pose proof (chain_nodup v s cs Hc) as Hnd.
  destruct cs as [|c cs]; [done|]. pose proof Hc as [Hu Hr]. pose proof (in_use_valid v c Hu) as Hva. unfold valid in Hva.
  simpl hd. rewrite (in_use_normal v c Hu).
  eapply wp_seq; [apply (next_cluster_spec uninit uninit_ok v Hv _ s); [done|lia]|]. intros ? h1 [-> Hn1].
  eapply wp_seq; [apply (write_fat_spec uninit uninit_ok v Hv _ s); [apply Hn1|lia]|]. intros ? h2 Hn2. simpl in Hn2.
  assert (Hl2 : log h2 = log h) by (destruct Hn1, Hn2; congruence). destruct cs as [|c' cs].
  - destruct fuel as [|fuel]; [simpl in Hf; lia|]. cbn [free_chain_loop]. rewrite (eof_not_normal _ Hr). apply wp_ret.
    split; [done|]. split; [done|]. exists (fat_upd v s c 0). split; [apply Hn2|].
    apply freed_cons; [done|lia|apply freed_nil].
  - destruct Hr as [E Hr]. rewrite E. apply NoDup_cons in Hnd as [Hni Hnd].
    eapply wp_mono; [apply (IH h2 (fat_upd v s c 0) (c' :: cs)); [apply Hn2| |simpl in *; lia]|].
    + eapply chain_ext; [|exact Hr]. intros x Hx. rewrite fat_entry_upd; [|done|lia|].
      * rewrite (proj2 (Z.eqb_neq c x)); [done|]. by intros ->.
      * pose proof (chain_in_use v s _ Hr) as Hall. eapply Forall_forall in Hall; [|exact Hx]. unfold in_use in Hall. lia.
    + intros r h' (-> & Hl & s' & Hd' & Hfr). split; [done|]. split; [congruence|]. exists s'. split; [done|].
      apply freed_cons; [done|lia|done].
Qed.

(** Given the first cluster of a file, [fat_free_clusters_until_end] frees
    exactly the clusters of the file's chain: their table entries become 0, every
    other entry and every sector outside the table keeps its value. *)
Theorem free_clusters_exact h s cs :
  disk_is h s -> chain v s cs ->
  exists h' s', fat_free_clusters_until_end uninit v (hd 0 cs) h = Ok (0, h') /\ disk_is h' s' /\ log h' = log h /\
    (forall c, 0 <= c < nfat v -> fat_entry v s' c = if bool_decide (c ∈ cs) then 0 else fat_entry v s c) /\
    (forall k, (k < fat_start v \/ fat_start v + sectors_fat (sb v) <= k) -> s' k = s k).
Proof.
  intros Hd Hc. pose proof (chain_length v s cs Hc) as Hl. unfold lenZ in Hl.
  pose proof (free_chain_loop_exact (Z.to_nat 65536) h s cs Hd Hc ltac:(lia)) as Hw.
  apply wp_Ok in Hw as (r & h' & E & -> & Hlog & s' & Hd' & Hfr). exists h', s'. by destruct Hfr.
Qed.

(** ** The lowest free cluster *)

(** [b] are the sectors of the table from number [k] on. *)
Lemma get16_secs s k n i :
  sectors_ok s -> 0 <= k -> 0 <= i < 256 * n ->
  get16 (secs s (fat_start v + k) n) (2 * i) = fat_entry v s (256 * k + i).
Proof.
  intros Hs Hk Hi. unfold get16, fat_entry, fat_sector.
  pose proof (Z.div_mod i 256 ltac:(lia)). pose proof (Z.mod_pos_bound i 256 ltac:(lia)).
  assert (E : forall j, 0 <= j <= 1 ->
    nthZ (secs s (fat_start v + k) n) (2 * i + j) = nthZ (s (fat_start v + k + i / 256)) (2 * (i mod 256) + j)).
  { intros j Hj. rewrite nthZ_secs by (done || lia).
    replace (2 * i + j) with (2 * (i mod 256) + j + i / 256 * 512) by lia.
    by rewrite Z.div_add, Z.mod_add, Z.div_small, Z.mod_small by lia. }
  pose proof (E 0 ltac:(lia)) as E0. rewrite !Z.add_0_r in E0. rewrite E0, (E 1) by lia.
  replace ((256 * k + i) / 256) with (k + i / 256) by (rewrite Z.mul_comm, Z.div_add_l; lia).
  replace ((256 * k + i) mod 256) with (i mod 256) by (rewrite Z.add_comm, Z.mul_comm, Z.mod_add; lia).
  by rewrite !Z.add_assoc.
Qed.

Definition first_free s c : Prop :=
  3 <= c < nfat v /\ fat_entry v s c = 0 /\ forall c', 3 <= c' < c -> fat_entry v s c' <> 0.

(** Scanning a block of [m] entries from entry [base] on, at index [i]. *)
Lemma scan_fat_found n b base i s c :
  (forall j, i <= j < i + Z.of_nat n -> get16 b (2 * j) = fat_entry v s (base + j)) ->
  first_free s c -> 0 <= base + i <= c ->
  scan_fat n b (2 * i) (base + i) =
    if c <? base + i + Z.of_nat n then inl c else inr (base + i + Z.of_nat n).
Proof.
  intros Hb [Hc [H0 Hlt]]. vol_facts. revert i Hb. induction n as [|n IH]; intros i Hb Hi; cbn [scan_fat].
  - rewrite (proj2 (Z.ltb_ge c _)) by lia. f_equal. lia.
  - rewrite Hb by lia. destruct (Z.eqb_spec (base + i) c) as [E|E].
    + rewrite E, (proj2 (Z.ltb_lt 2 c)), H0, (proj2 (Z.ltb_lt c _)) by lia. done.
    + assert (Hnf : (2 <? base + i) && FAT_CLUS_FREE (fat_entry v s (base + i)) = false).
      { destruct (Z.ltb_spec 2 (base + i)); [|done]. simpl. apply Z.eqb_neq, Hlt. lia. }
      rewrite Hnf, wrap16_small by lia. replace (2 * i + 2) with (2 * (i + 1)) by lia.
      replace (base + i + 1) with (base + (i + 1)) by lia. rewrite IH; [|intros; apply Hb; lia|lia].
      by replace (base + (i + 1) + Z.of_nat n) with (base + i + Z.of_nat (S n)) by lia.
Qed.

Lemma free_cluster_loop_found fuel h s c b k :
  disk_is h s -> first_free s c -> lenZ b = cluster_bytes v -> 0 <= k -> 256 * k <= c ->
  sectors_fat (sb v) - k < Z.of_nat fuel ->
  wp (free_cluster_loop fuel v b (fat_start v + k) (256 * k)) h (fun r h' => r = c /\ now h h' s).
Proof.
  intros Hd Hff. pose proof (disk_is_ok _ _ Hd) as Hs. vol_facts. pose proof Hff as [Hc _]. unfold nfat in *.
  revert h b k Hd. induction fuel as [|fuel IH]; intros h b k Hd Hb Hk Hkc Hf; [lia|]. cbn [free_cluster_loop].
  replace (fat_start v + k - fat_start v) with k by lia. rewrite wrap32_small by lia. if_true.
  eapply wp_seq; [apply (read_full _ s); done || lia|]. intros [n b'] h1 (Er & Hd1 & Hl1). injection Er as -> ->.
  rewrite splice_all by (rewrite lenZ_secs by (done || lia); lia).
  pose proof (scan_fat_found (Z.to_nat ((cluster_bytes v + 1) / 2)) (secs s (fat_start v + k) (spc v)) (256 * k) 0 s c) as Hsc.
  assert (E2 : (cluster_bytes v + 1) / 2 = 256 * spc v) by (symmetry; apply (Z.div_unique _ 2 _ 1); lia).
  rewrite E2, Z2Nat.id in Hsc by lia. rewrite E2. rewrite !Z.add_0_r, Z.mul_0_r in Hsc.
  rewrite Hsc; [|intros j Hj; apply get16_secs; done || lia|done|lia].
  destruct (Z.ltb_spec c (256 * k + 256 * spc v)).
  - apply wp_ret. by split.
  - rewrite wrap32_small by lia. replace (fat_start v + k + spc v) with (fat_start v + (k + spc v)) by lia.
    replace (256 * k + 256 * spc v) with (256 * (k + spc v)) by lia.
    eapply wp_mono; [apply IH; [done|rewrite lenZ_secs by (done || lia); lia|lia|lia|lia]|].
    intros r h' [-> [Hd' Hl']]. split; [done|]. split; [done|congruence].
Qed.

Lemma free_cluster_spec h s c :
  disk_is h s -> first_free s c ->
  wp (fat_get_free_cluster uninit v) h (fun r h' => r = c /\ now h h' s).
Proof.
  intros Hd Hff. vol_facts. unfold fat_get_free_cluster. rewrite <- (Z.add_0_r (fat_start v)).
  change 0 with (256 * 0) at 2. pose proof Hff as [Hc _].
  apply free_cluster_loop_found; [done|done|apply uninit_ok; lia|lia|lia|lia].
Qed.

Lemma scan_fat_none n b base i s :
  (forall j, i <= j < i + Z.of_nat n -> get16 b (2 * j) = fat_entry v s (base + j)) ->
  (forall c, 3 <= c < nfat v -> fat_entry v s c <> 0) -> 0 <= base + i -> base + i + Z.of_nat n <= nfat v ->
  scan_fat n b (2 * i) (wrap16 (base + i)) = inr (wrap16 (base + i + Z.of_nat n)).
Proof.
  intros Hb Hall. vol_facts. revert i Hb. induction n as [|n IH]; intros i Hb Hi Hn; cbn [scan_fat].
  - do 2 f_equal. lia.
  - rewrite (wrap16_small (base + i)) by lia. rewrite Hb by lia.
    assert (Hnf : (2 <? base + i) && FAT_CLUS_FREE (fat_entry v s (base + i)) = false).
    { destruct (Z.ltb_spec 2 (base + i)); [|done]. simpl. apply Z.eqb_neq, Hall. lia. }
    rewrite Hnf. replace (2 * i + 2) with (2 * (i + 1)) by lia.
    replace (base + i + 1) with (base + (i + 1)) by lia. rewrite IH; [|intros; apply Hb; lia|lia|lia].
    do 2 f_equal. lia.
Qed.

Lemma free_cluster_loop_none fuel h s b k m :
  disk_is h s -> (forall c, 3 <= c < nfat v -> fat_entry v s c <> 0) -> sectors_fat (sb v) = (k + m) * spc v ->
  lenZ b = cluster_bytes v -> 0 <= k -> 0 <= m -> m < Z.of_nat fuel ->
  exists msg, free_cluster_loop fuel v b (fat_start v + k * spc v) (wrap16 (256 * (k * spc v))) h = Hang msg.
Proof.
  intros Hd Hall. pose proof (disk_is_ok _ _ Hd) as Hs. vol_facts.
  revert h b k m Hd. induction fuel as [|fuel IH]; intros h b k m Hd Hdiv Hb Hk Hm Hf; [lia|]. cbn [free_cluster_loop].
  replace (fat_start v + k * spc v - fat_start v) with (k * spc v) by lia. rewrite wrap32_small by nia.
  destruct (Z.ltb_spec (k * spc v) (sectors_fat (sb v))) as [Hlt|]; [|by eexists].
  assert (1 <= m) by nia. assert (Hks : k * spc v + spc v <= sectors_fat (sb v)) by (rewrite Hdiv; apply mul_lt_le; lia).
  pose proof (read_full h s (fat_start v + k * spc v) (spc v) b (cluster_bytes v) Hd) as HR.
  apply wp_Ok in HR as ([n b'] & h1 & E & Er & Hd1 & _); [|lia|lia|lia|lia|lia]. injection Er as -> ->.
  unfold mbind, IO_bind. rewrite E. rewrite splice_all by (rewrite lenZ_secs by (done || lia); lia).
  pose proof (scan_fat_none (Z.to_nat ((cluster_bytes v + 1) / 2)) (secs s (fat_start v + k * spc v) (spc v)) (256 * (k * spc v)) 0 s) as Hsc.
  assert (E2 : (cluster_bytes v + 1) / 2 = 256 * spc v) by (symmetry; apply (Z.div_unique _ 2 _ 1); lia).
  rewrite E2, Z2Nat.id in Hsc by lia. rewrite E2. rewrite !Z.add_0_r, Z.mul_0_r in Hsc. unfold nfat in *.
  rewrite Hsc; [|intros j Hj; apply get16_secs; done || lia|done|lia|lia].
  rewrite wrap32_small by lia. replace (fat_start v + k * spc v + spc v) with (fat_start v + (k + 1) * spc v) by lia.
  replace (256 * (k * spc v) + 256 * spc v) with (256 * ((k + 1) * spc v)) by lia.
  apply (IH h1 _ (k + 1) (m - 1)); [done|lia|rewrite lenZ_secs by (done || lia); lia|lia|lia|lia].
Qed.

(** [fat_get_free_cluster] returns the lowest-numbered free cluster of the
    table (numbers 0 to 2 are never handed out) and changes nothing; when there
    is none and the table is a whole number of clusters long, it panics. *)
Theorem free_cluster_lowest h s :
  disk_is h s ->
  (forall c, first_free s c -> exists h', fat_get_free_cluster uninit v h = Ok (c, h') /\ disk_is h' s /\ log h' = log h) /\
  ((forall c, 3 <= c < nfat v -> fat_entry v s c <> 0) -> sectors_fat (sb v) mod spc v = 0 ->
     exists msg, fat_get_free_cluster uninit v h = Hang msg).
Proof.
  intros Hd. split.
  - intros c Hc. pose proof (free_cluster_spec h s c Hd Hc) as Hw. apply wp_Ok in Hw as (r & h' & E & -> & Hn & Hl). eauto.
  - intros Hall Hdiv. vol_facts. unfold fat_get_free_cluster.
    pose proof (Z.div_mod (sectors_fat (sb v)) (spc v) ltac:(lia)) as Hq. rewrite Hdiv in Hq.
    pose proof (div_le_self (sectors_fat (sb v)) (spc v) ltac:(lia) ltac:(lia)).
    destruct (free_cluster_loop_none (S (Z.to_nat (sectors_fat (sb v)))) h s (uninit (cluster_bytes v)) 0
      (sectors_fat (sb v) / spc v) Hd Hall) as [msg E]; [lia|apply uninit_ok; lia|lia|lia|lia|].
    rewrite Z.mul_0_l, Z.mul_0_r, Z.add_0_r in E. exists msg. exact E.
Qed.
End Free.
