(* ===== verification/FatFile.v ===== *)
(** * Reading and writing files

    A file is the sequence of bytes in the clusters of its chain.
    [fat_read_file] delivers consecutive pieces of it up to the file size, and
    [fat_write_file] replaces a piece, extends the chain with free clusters,
    records the new size in the directory entry, and leaves every other file
    alone. *)
From S2P Require Import Prelude CMem CString Sink Print Disk Ata FatName Common Fat FatTable FatFree.
Import CString Print FatName Common Fat.
Open Scope list_scope.

(** ** Equal blocks in a row *)

Section Blocks.
Context (f : Z -> list Z) (n : Z) (Hn : 0 < n) (Hf : forall c, lenZ (f c) = n).

Lemma lenZ_blocks cs : lenZ (concat (map f cs)) = lenZ cs * n.
Proof. induction cs as [|c cs IH]; [done|]. simpl. rewrite lenZ_app, lenZ_cons, IH, Hf. lia. Qed.

Lemma nthZ_cons c (cs : list Z) i : 0 < i -> nthZ (c :: cs) i = nthZ cs (i - 1).
Proof.
  intros. replace (c :: cs) with ([c] ++ cs) by done. rewrite nthZ_app_r; [done|]. change (lenZ [c]) with 1. lia.
Qed.

Lemma nthZ_blocks cs i :
  0 <= i < lenZ cs * n -> nthZ (concat (map f cs)) i = nthZ (f (nthZ cs (i / n))) (i mod n).
Proof.
  revert i. induction cs as [|c cs IH]; intros i Hi; [change (lenZ (@nil Z)) with 0 in Hi; lia|]. simpl concat. rewrite lenZ_cons in Hi.
  destruct (Z.ltb_spec i n).
  - rewrite nthZ_app_l by (rewrite ?Hf; lia). by rewrite Z.div_small, Z.mod_small by lia.
  - rewrite nthZ_app_r by (rewrite Hf; lia). rewrite Hf, IH by lia.
    replace i with (i - n + 1 * n) at 3 4 by lia. rewrite Z.div_add, Z.mod_add by lia.
    assert (0 <= (i - n) / n) by (apply Z.div_pos; lia). rewrite (nthZ_cons c) by lia. do 3 f_equal. lia.
Qed.
End Blocks.

(** Division by the block length. *)
Lemma div_block n i : 0 < n -> 0 <= i -> i / n * n <= i < (i / n + 1) * n /\ 0 <= i / n /\ 0 <= i mod n < n /\ i = i / n * n + i mod n.
Proof.
  intros Hn Hi. pose proof (Z.div_mod i n ltac:(lia)). pose proof (Z.mod_pos_bound i n Hn).
  assert (0 <= i / n) by (apply Z.div_pos; lia). lia.
Qed.

Lemma div_block_lt n i k : 0 < n -> 0 <= i -> i < k * n -> i / n < k.
Proof. intros. apply Z.div_lt_upper_bound; lia. Qed.

Lemma next_block n i : 0 < n -> 0 <= i -> (i + n) / n * n = (i / n + 1) * n.
Proof. intros. replace (i + n) with (i + 1 * n) by lia. by rewrite Z.div_add by lia. Qed.

Lemma mul_lt_div n a b : 0 < n -> a * n < b * n -> a < b.
Proof. nia. Qed.

Section Read.
Context {D : Type} `{BlockDev D} (uninit : Z -> list Z).
Hypothesis uninit_ok : forall n, 0 <= n -> lenZ (uninit n) = n /\ bytes (uninit n).
Context (v : Fat16Volume) (Hv : vol_ok v).
Implicit Types (h : host D) (s : Z -> list Z) (c : Z) (cs : list Z) (f : Fat16File).
Abbreviation cb := (cluster_bytes v).

Lemma cb_pos : 0 < cb.
Proof. vol_facts. lia. Qed.

(** The bytes in a list of clusters. *)
Definition file_bytes s cs : list Z := concat (map (clus v s) cs).

Lemma lenZ_file_bytes s cs : sectors_ok s -> lenZ (file_bytes s cs) = lenZ cs * cb.
Proof. intros. apply lenZ_blocks. intros. by apply lenZ_clus. Qed.

Lemma nthZ_file_bytes s cs i :
  sectors_ok s -> 0 <= i < lenZ cs * cb ->
  nthZ (file_bytes s cs) i = nthZ (clus v s (nthZ cs (i / cb))) (i mod cb).
Proof. intros. apply nthZ_blocks; [apply cb_pos|intros; by apply lenZ_clus|done]. Qed.

(** A piece of the file that lies in one cluster. *)
Lemma slice_file_bytes s cs i n :
  sectors_ok s -> 0 <= i -> 0 <= n -> i < lenZ cs * cb -> i mod cb + n <= cb ->
  slice (clus v s (nthZ cs (i / cb))) (i mod cb) n = slice (file_bytes s cs) i n.
Proof.
  intros Hs Hi Hn Hl Hm. pose proof cb_pos. pose proof (div_block cb i ltac:(lia) Hi) as (? & ? & ? & ?).
  pose proof (div_block_lt cb i _ ltac:(lia) Hi Hl).
  assert (Hin : i + n <= lenZ cs * cb) by nia. apply nthZ_ext.
  - rewrite !lenZ_slice; rewrite ?lenZ_file_bytes, ?lenZ_clus by done; lia.
  - intros j Hj. rewrite lenZ_slice in Hj by (rewrite ?lenZ_clus by done; lia).
    rewrite !nthZ_slice by lia. rewrite nthZ_file_bytes by (done || lia).
    assert (E1 : (i + j) / cb = i / cb) by (symmetry; apply (Z.div_unique _ cb _ (i mod cb + j)); lia).
    assert (E2 : (i + j) mod cb = i mod cb + j) by (symmetry; apply (Z.mod_unique _ cb (i / cb)); lia).
    by rewrite E1, E2.
Qed.

Lemma chain_nth s cs i : chain v s cs -> 0 <= i < lenZ cs -> in_use v (nthZ cs i).
Proof.
  intros Hc Hi. pose proof (chain_in_use v s cs Hc) as Hall. eapply Forall_forall in Hall; [exact Hall|]. by apply nthZ_elem.
Qed.

Lemma chain_next s cs i :
  chain v s cs -> 0 <= i < lenZ cs ->
  if i + 1 <? lenZ cs then fat_entry v s (nthZ cs i) = nthZ cs (i + 1)
  else FAT_CLUS_EOF (fat_entry v s (nthZ cs i)) = true.
Proof.
  revert i. induction cs as [|c cs IH]; intros i Hc Hi; [done|]. rewrite lenZ_cons in *. destruct Hc as [_ Hr].
  destruct (Z.eqb_spec i 0) as [->|].
  - destruct cs as [|c' cs]; [done|]. destruct Hr as [E _]. rewrite lenZ_cons. pose proof (lenZ_nonneg cs). by if_true.
  - destruct cs as [|c' cs]; [change (lenZ (@nil Z)) with 0 in Hi; lia|]. destruct Hr as [_ Hr].
    specialize (IH (i - 1) Hr ltac:(lia)). rewrite !(nthZ_cons c) by lia.
    replace (i + 1 - 1) with (i - 1 + 1) by lia.
    destruct (Z.ltb_spec (i - 1 + 1) (lenZ (c' :: cs))); [by rewrite (proj2 (Z.ltb_lt _ _)) by lia|].
    by rewrite (proj2 (Z.ltb_ge _ _)) by lia.
Qed.

(** [cluster] is the one the file is at when its offset is [off]. *)
Definition pos_ok cs off cluster : Prop :=
  0 <= off <= lenZ cs * cb /\ (off < lenZ cs * cb -> cluster = nthZ cs (off / cb)) /\
  (off = lenZ cs * cb -> FAT_CLUS_EOF cluster = true).

Lemma pos_ok_eof s cs off cluster :
  chain v s cs -> pos_ok cs off cluster -> FAT_CLUS_EOF cluster = negb (off <? lenZ cs * cb).
Proof.
  intros Hc (Ho & Hlt & He). destruct (Z.ltb_spec off (lenZ cs * cb)) as [Hl|Hl]; simpl; [|apply He; lia].
  rewrite Hlt by done. pose proof cb_pos. apply normal_not_eof, (in_use_normal v).
  eapply chain_nth; [exact Hc|]. pose proof (div_block cb off ltac:(lia) ltac:(lia)) as (? & ? & _).
  split; [lia|]. apply div_block_lt; lia.
Qed.

(** At a cluster boundary the next cluster is that of the table. *)
Lemma pos_ok_next s cs off :
  chain v s cs -> 0 <= off < lenZ cs * cb -> pos_ok cs ((off / cb + 1) * cb) (fat_entry v s (nthZ cs (off / cb))).
Proof.
  intros Hc Ho. pose proof cb_pos. pose proof (div_block cb off ltac:(lia) ltac:(lia)) as (? & ? & _).
  pose proof (div_block_lt cb off _ ltac:(lia) ltac:(lia) (proj2 Ho)).
  pose proof (chain_next s cs (off / cb) Hc ltac:(lia)) as Hn. split; [nia|]. split; intros Hb.
  - apply mul_lt_div in Hb; [|lia]. rewrite (proj2 (Z.ltb_lt _ _)) in Hn by lia. by rewrite Z.div_mul by lia.
  - assert (off / cb + 1 = lenZ cs) by nia. by rewrite (proj2 (Z.ltb_ge _ _)) in Hn by lia.
Qed.

Lemma min_Zmin a b : min a b = Z.min a b.
Proof. unfold min. destruct (Z.ltb_spec a b); lia. Qed.

(** The read loop delivers the bytes from [offset] to the end of the request or
    of the chain. *)
Lemma read_loop_spec fuel h s cs base size user block cluster offset :
  disk_is h s -> chain v s cs -> pos_ok cs offset cluster -> 0 <= base <= offset -> offset <= base + size ->
  size <= lenZ user -> lenZ block = cb -> base + size - offset < Z.of_nat fuel ->
  base + size < 4294967296 ->
  let e := Z.max offset (Z.min (base + size) (lenZ cs * cb)) in
  wp (read_loop uninit fuel v base size user block cluster offset (offset - base)) h (fun r h' =>
    exists cluster', r = (splice user (offset - base) (slice (file_bytes s cs) offset (e - offset)), cluster', e, e - base)
      /\ pos_ok cs e cluster' /\ now h h' s).
Proof.
  intros Hd Hc. pose proof (disk_is_ok _ _ Hd) as Hs. pose proof cb_pos as Hcb.
  revert h user block cluster offset Hd. induction fuel as [|fuel IH]; intros h user block cluster offset Hd Hp Hb Ho Hu Hbl Hf H32 e; [lia|].
  cbn [read_loop]. rewrite !(wrap32_small (base + size)) by lia. rewrite (pos_ok_eof s cs offset cluster Hc Hp). pose proof Hp as ([Ho0 Hot] & Hlt & _).
  destruct (Z.ltb_spec offset (base + size)) as [H1|H1]; simpl andb.
  2: { apply wp_ret. exists cluster. replace e with offset by lia. rewrite Z.sub_diag. rewrite slice_nil, splice_nil. by split. }
  destruct (Z.ltb_spec offset (lenZ cs * cb)) as [H2|H2]; simpl negb; cbv iota.
  2: { apply wp_ret. exists cluster. replace e with offset by lia. rewrite Z.sub_diag. rewrite slice_nil, splice_nil. by split. }
  rewrite Hlt by done. pose proof (div_block cb offset Hcb Ho0) as (Hq1 & Hq2 & Hm & Heq).
  pose proof (div_block_lt cb offset _ Hcb Ho0 H2) as Hq.
  pose proof (in_use_valid v _ (chain_nth s cs (offset / cb) Hc ltac:(lia))) as Hval.
  eapply wp_seq; [apply (read_cluster_spec v Hv _ s); done|]. intros [n b'] h1 (Er & Hn1). injection Er as -> ->.
  rewrite next_block, min_Zmin by lia. set (next := Z.min (base + size) ((offset / cb + 1) * cb)).
  assert (Hnext : offset < next <= base + size) by lia. assert (Hnt : next <= lenZ cs * cb) by nia.
  rewrite (slice_file_bytes s cs) by (done || lia).
  set (piece := slice (file_bytes s cs) offset (next - offset)).
  assert (Hpl : lenZ piece = next - offset) by (apply lenZ_slice; rewrite ?lenZ_file_bytes by done; lia).
  set (user1 := splice user (offset - base) piece).
  assert (Hu1 : lenZ user1 = lenZ user) by (apply lenZ_splice; lia).
  replace (offset - base + (next - offset)) with (next - base) by lia.
  (* the rest of the loop from [next] on, whatever leads to the right cluster *)
  assert (Hrest : forall h2 cl, now h h2 s -> pos_ok cs next cl ->
    wp (read_loop uninit fuel v base size user1 (clus v s (nthZ cs (offset / cb))) cl next (next - base)) h2 (fun r h' =>
      exists cluster', r = (splice user (offset - base) (slice (file_bytes s cs) offset (e - offset)), cluster', e, e - base)
      /\ pos_ok cs e cluster' /\ now h h' s)).
  { intros h2 cl Hn2 Hp2. eapply wp_mono; [apply (IH h2 user1 _ cl next); [apply Hn2|done|lia|lia|lia|by rewrite lenZ_clus|lia|lia]|].
    intros r h3 (cl' & -> & Hp3 & Hn3). assert (E : Z.max next (Z.min (base + size) (lenZ cs * cb)) = e) by lia.
    rewrite E in *. exists cl'. split; [|split; [done|by eapply now_trans]]. f_equal. f_equal. f_equal.
    unfold user1. replace (next - base) with (offset - base + lenZ piece) by lia. rewrite splice_app.
    - f_equal. unfold piece. replace (e - offset) with ((next - offset) + (e - next)) by lia. rewrite slice_app by lia.
      do 2 f_equal. lia.
    - lia.
    - rewrite lenZ_slice by (rewrite ?lenZ_file_bytes by done; lia). lia. }
  destruct (Z.eqb_spec (next / cb) (offset / cb)) as [E|E]; simpl negb; cbv iota.
  - apply Hrest; [done|]. assert (Hlt2 : next < (offset / cb + 1) * cb).
    { rewrite <- E. pose proof (div_block cb next Hcb ltac:(lia)) as (? & _). lia. }
    split; [lia|]. split; [intros _; by rewrite E|nia].
  - assert (En : next = (offset / cb + 1) * cb).
    { destruct (Z.eqb_spec next ((offset / cb + 1) * cb)); [done|]. destruct E.
      symmetry. apply (Z.div_unique _ cb _ (next - offset / cb * cb)); lia. }
    eapply wp_seq; [apply (next_cluster_spec uninit uninit_ok v Hv _ s); [apply Hn1|unfold valid in Hval; lia]|].
    intros cl h2 [-> Hn2]. apply Hrest; [by eapply now_trans|]. rewrite En. apply pos_ok_next; [done|lia].
Qed.

(** An open file whose clusters are [cs]. *)
Definition open_file s f cs : Prop :=
  volume f = v /\ chain v s cs /\ start_cluster (dirent f) = hd 0 cs /\
  is_directory (dirent f) = false /\ 0 <= file_size (dirent f) <= lenZ cs * cb /\
  pos_ok cs (byte_offset f) (current_cluster f).

Lemma chain_hd_nonzero s cs : chain v s cs -> hd 0 cs <> 0.
Proof. destruct cs; [done|]. intros [[Hc _] _]. simpl. lia. Qed.

Lemma read_file_spec h s f cs user n :
  disk_is h s -> open_file s f cs -> byte_offset f < file_size (dirent f) -> 0 < n <= lenZ user ->
  byte_offset f + n < 2147483648 ->
  let r := Z.min n (file_size (dirent f) - byte_offset f) in
  wp (fat_read_file uninit f user n) h (fun res h' => exists f' user',
    res = (r, f', user') /\ slice user' 0 r = slice (file_bytes s cs) (byte_offset f) r /\ now h h' s /\
    dirent f' = dirent f /\ volume f' = v /\ byte_offset f' = byte_offset f + r /\
    (byte_offset f' < file_size (dirent f) -> open_file s f' cs)).
Proof.
  intros Hd (Ev & Hc & Hst & Hdir & Hsz & Hp) Hlt Hn H31 r. pose proof (disk_is_ok _ _ Hd) as Hs. pose proof cb_pos as Hcb.
  unfold fat_read_file. rewrite Ev, Hst, Hdir. pose proof (chain_hd_nonzero s cs Hc).
  rewrite (proj2 (Z.eqb_neq (hd 0 cs) FAT_CLUS_ROOT)) by done. simpl negb. rewrite (proj2 (Z.leb_gt _ _) Hlt). simpl andb. cbv iota.
  rewrite (pos_ok_eof s cs _ _ Hc Hp). pose proof Hp as ([Hp0 _] & _). rewrite (proj2 (Z.ltb_lt _ _)) by lia. simpl negb. cbv iota.
  pose proof (read_loop_spec (S (Z.to_nat n)) h s cs (byte_offset f) n user (uninit cb) (current_cluster f) (byte_offset f)) as HL.
  rewrite Z.sub_diag in HL. eapply wp_seq; [apply HL; try done; try lia; apply uninit_ok; lia|]. clear HL.
  intros [[[u cl] o] cnt] h1 (cl' & Er & Hp1 & Hn1). injection Er as -> -> -> ->.
  set (e := Z.max (byte_offset f) (Z.min (byte_offset f + n) (lenZ cs * cb))) in *. simpl negb. simpl andb.
  assert (Ecnt : (if file_size (dirent f) <=? e then e - byte_offset f - (e - file_size (dirent f)) else e - byte_offset f) = r).
  { destruct (Z.leb_spec (file_size (dirent f)) e); lia. }
  rewrite Ecnt, wrap32_small by lia. apply wp_ret. eexists _, _. split; [reflexivity|].
  assert (Hre : 0 < r <= e - byte_offset f) by lia. split_and!; [|done|done|done|done|].
  - set (C := file_bytes s cs). assert (HC : lenZ C = lenZ cs * cb) by (by apply lenZ_file_bytes).
    assert (Hsl : lenZ (slice C (byte_offset f) (e - byte_offset f)) = e - byte_offset f) by (apply lenZ_slice; lia).
    apply nthZ_ext.
    + rewrite !lenZ_slice; rewrite ?lenZ_splice, ?Hsl; lia.
    + intros j Hj. rewrite lenZ_slice in Hj by (rewrite ?lenZ_splice, ?Hsl; lia).
      rewrite !nthZ_slice, nthZ_splice by (rewrite ?Hsl; lia). rewrite Hsl, Z.add_0_l.
      rewrite (proj2 (Z.leb_le 0 j)), (proj2 (Z.ltb_lt j _)) by lia. simpl. rewrite Z.sub_0_r. by rewrite nthZ_slice by lia.
  - simpl. intros Hlt'. assert (Ee : e = byte_offset f + r) by lia. rewrite Ee in Hp1.
    do 5 (split; [done|]). exact Hp1.
Qed.

(** At the end of the file nothing is read. *)
Lemma read_file_eof h f user n :
  start_cluster (dirent f) <> 0 -> is_directory (dirent f) = false -> file_size (dirent f) <= byte_offset f ->
  fat_read_file uninit f user n h = Ok ((FAT_FILE_EOF, f, user), h).
Proof.
  intros Hst Hdir Hle. unfold fat_read_file. rewrite (proj2 (Z.eqb_neq _ FAT_CLUS_ROOT)) by done.
  by rewrite Hdir, (proj2 (Z.leb_le _ _) Hle).
Qed.

(** Reading with buffers of the given sizes, one after the other. *)
Fixpoint reads f (ns : list Z) : IO D (list Z) :=
  match ns with
  | [] => mret []
  | n :: ns =>
      '(r, f, b) ← fat_read_file uninit f (replicate (Z.to_nat n) 0) n;
      rest ← reads f ns;
      mret (take (Z.to_nat r) b ++ rest)
  end.

Fixpoint sum (ns : list Z) : Z := match ns with [] => 0 | n :: ns => n + sum ns end.

Lemma sum_nonneg ns : Forall (fun n => 0 < n) ns -> 0 <= sum ns.
Proof. induction 1; simpl; lia. Qed.

Lemma reads_eof h f ns :
  start_cluster (dirent f) <> 0 -> is_directory (dirent f) = false -> file_size (dirent f) <= byte_offset f ->
  reads f ns h = Ok ([], h).
Proof.
  intros Hst Hdir Hle. induction ns as [|n ns IH]; [done|]. cbn [reads]. unfold mbind, IO_bind.
  rewrite read_file_eof by done. by rewrite IH.
Qed.

Lemma reads_spec h s f cs ns :
  disk_is h s -> open_file s f cs -> byte_offset f <= file_size (dirent f) -> Forall (fun n => 0 < n) ns ->
  byte_offset f + sum ns < 2147483648 ->
  exists h', reads f ns h =
      Ok (slice (file_bytes s cs) (byte_offset f) (Z.min (sum ns) (file_size (dirent f) - byte_offset f)), h') /\
    disk_is h' s /\ log h' = log h.
Proof.
  intros Hd Hof Hle Hns. revert h f Hd Hof Hle. induction Hns as [|n ns Hn Hns IH]; intros h f Hd Hof Hle H31; simpl sum in *.
  { exists h. rewrite Z.min_l by lia. by rewrite slice_nil. }
  pose proof Hof as (_ & Hc & Hst & Hdir & Hsz & [[Hp0 _] _]). pose proof (disk_is_ok _ _ Hd) as Hs.
  pose proof (chain_hd_nonzero s cs Hc). pose proof (sum_nonneg ns Hns).
  destruct (decide (byte_offset f = file_size (dirent f))) as [E|E].
  { exists h. rewrite reads_eof; [|congruence|done|lia].
    rewrite Z.min_r by lia. replace (file_size (dirent f) - byte_offset f) with 0 by lia. by rewrite slice_nil. }
  assert (Hul : lenZ (replicate (Z.to_nat n) 0) = n) by (unfold lenZ; rewrite length_replicate; lia).
  pose proof (read_file_spec h s f cs (replicate (Z.to_nat n) 0) n Hd Hof ltac:(lia) ltac:(lia) ltac:(lia)) as HR.
  apply wp_Ok in HR as (r & h1 & E1 & f1 & u1 & -> & Hu1 & Hn1 & Hd1 & Hv1 & Ho1 & Hof1).
  set (r := Z.min n (file_size (dirent f) - byte_offset f)) in *. cbn [reads]. unfold mbind, IO_bind. rewrite E1.
  assert (Htake : take (Z.to_nat r) u1 = slice (file_bytes s cs) (byte_offset f) r).
  { rewrite <- Hu1. unfold slice. simpl. by rewrite drop_0. }
  rewrite Htake. destruct (decide (byte_offset f1 < file_size (dirent f))) as [Hlt|Hge].
  - destruct (IH h1 f1) as (h' & E2 & Hd' & Hl'); [apply Hn1|by apply Hof1|rewrite Hd1; lia|lia|].
    rewrite E2. exists h'. split; [|split; [done|]]. 2: { destruct Hn1; congruence. }
    rewrite Hd1, Ho1. assert (Er : r = n) by lia. rewrite Er. do 2 f_equal.
    replace (Z.min (n + sum ns) (file_size (dirent f) - byte_offset f)) with
      (n + Z.min (sum ns) (file_size (dirent f) - (byte_offset f + n))) by lia.
    by rewrite slice_app by lia.
  - rewrite reads_eof; [|congruence|by rewrite Hd1|rewrite Hd1; lia]. exists h1. rewrite app_nil_r. split; [|by destruct Hn1].
    assert (Er : Z.min (n + sum ns) (file_size (dirent f) - byte_offset f) = r) by lia. by rewrite Er.
Qed.

(** An open file is a stream of bytes: however the reads are cut into
    buffers, [fat_read_file] delivers the bytes of the file's cluster chain from
    the current offset on, up to the file size, and then nothing; the disk does
    not change. *)
Theorem file_reads_stream h s f cs ns :
  disk_is h s -> open_file s f cs -> byte_offset f <= file_size (dirent f) -> Forall (fun n => 0 < n) ns ->
  byte_offset f + sum ns < 2147483648 ->
  exists h', reads f ns h =
      Ok (slice (file_bytes s cs) (byte_offset f) (Z.min (sum ns) (file_size (dirent f) - byte_offset f)), h') /\
    disk_is h' s /\ log h' = log h.
Proof. apply reads_spec. Qed.
End Read.
