(* ===== verification/FatDir.v ===== *)
(** * Directory entries

    The 32-byte layout of a directory entry as a record of typed fields, the
    search for a name in a block, and the update of a file's entry. *)
From S2P Require Import Prelude CMem CString Sink Print Disk Ata FatName Common Fat FatTable FatFree FatFile.
From Stdlib Require Import Strings.String.
Import CString Print FatName Common Fat.
Open Scope list_scope.

(** ** Layout *)

(** The declarations of the packed structs: the fields in order with their C
    types. A field lies where the fields before it end, and a number is stored
    with its low byte first. *)
Inductive ctype := Chars (n : Z) | Uint (n : Z).
Inductive cvalue := VChars (l : list Z) | VUint (x : Z).
Definition sizeof (t : ctype) : Z := match t with Chars n | Uint n => n end.
Definition load (t : ctype) (b : list Z) (i : Z) : cvalue :=
  match t with
  | Chars n => VChars (slice b i n)
  | Uint n => VUint (foldr (fun k acc => nthZ b (i + k) + 256 * acc) 0 (seqZ 0 n))
  end.
Definition uint8_t := Uint 1.
Definition uint16_t := Uint 2.
Definition uint32_t := Uint 4.

Fixpoint load_struct (fs : list (string * ctype)) (b : list Z) (i : Z) : list (string * cvalue) :=
  match fs with
  | [] => []
  | (x, t) :: fs => (x, load t b i) :: load_struct fs b (i + sizeof t)
  end.
Definition sizeof_struct (fs : list (string * ctype)) : Z := foldr (fun f n => sizeof f.2 + n) 0 fs.

Definition FatDirEntry_struct : list (string * ctype) :=
  [("filename", Chars 8); ("ext", Chars 3); ("attr", uint8_t); ("reserved", Uint 1); ("create_mill", uint8_t);
   ("create_time", uint16_t); ("create_date", uint16_t); ("last_access", uint16_t); ("reserve_32", uint16_t);
   ("last_wtime", uint16_t); ("last_wdate", uint16_t); ("start_cluster", uint16_t); ("file_size", uint32_t)]%string.
Definition FatSuperBlock_struct : list (string * ctype) :=
  [("jmp_instrction", Chars 3); ("oem_name", Chars 8); ("bytes_per_sector", uint16_t); ("sectors_per_cluster", uint8_t);
   ("reserve_sectors", uint16_t); ("fat_num", uint8_t); ("root_ents_num", uint16_t); ("small_sectors_num", uint16_t);
   ("media_desc", uint8_t); ("sectors_fat", uint16_t); ("sectors_per_track", uint16_t); ("head_num", uint16_t);
   ("hidden_sectors", uint32_t); ("large_sectors_num", uint32_t)]%string.

(** The records of [Fat], field by field. *)
Definition dirent_fields (e : FatDirEntry) : list (string * cvalue) :=
  [("filename", VChars (filename e)); ("ext", VChars (ext e)); ("attr", VUint (attr e));
   ("reserved", VUint (reserved e)); ("create_mill", VUint (create_mill e)); ("create_time", VUint (create_time e));
   ("create_date", VUint (create_date e)); ("last_access", VUint (last_access e)); ("reserve_32", VUint (reserve_32 e));
   ("last_wtime", VUint (last_wtime e)); ("last_wdate", VUint (last_wdate e));
   ("start_cluster", VUint (start_cluster e)); ("file_size", VUint (file_size e))]%string.
Definition superblock_fields (s : FatSuperBlock) : list (string * cvalue) :=
  [("jmp_instrction", VChars (jmp_instrction s)); ("oem_name", VChars (oem_name s));
   ("bytes_per_sector", VUint (bytes_per_sector s)); ("sectors_per_cluster", VUint (sectors_per_cluster s));
   ("reserve_sectors", VUint (reserve_sectors s)); ("fat_num", VUint (fat_num s));
   ("root_ents_num", VUint (root_ents_num s)); ("small_sectors_num", VUint (small_sectors_num s));
   ("media_desc", VUint (media_desc s)); ("sectors_fat", VUint (sectors_fat s));
   ("sectors_per_track", VUint (sectors_per_track s)); ("head_num", VUint (head_num s));
   ("hidden_sectors", VUint (hidden_sectors s)); ("large_sectors_num", VUint (large_sectors_num s))]%string.

Lemma load_uint8 b i : load uint8_t b i = VUint (nthZ b i).
Proof. unfold load, uint8_t. change (seqZ 0 1) with [0]. cbn [foldr]. rewrite !Z.add_0_r. f_equal; lia. Qed.
Lemma load_uint16 b i : load uint16_t b i = VUint (get16 b i).
Proof. unfold load, uint16_t, get16. change (seqZ 0 2) with [0; 1]. cbn [foldr]. rewrite !Z.add_0_r. f_equal; lia. Qed.
Lemma load_uint32 b i : load uint32_t b i = VUint (get32 b i).
Proof. unfold load, uint32_t, get32. change (seqZ 0 4) with [0; 1; 2; 3]. cbn [foldr]. rewrite !Z.add_0_r. f_equal; lia. Qed.

(** The two decoders of [Fat] read what the declarations say. *)
Lemma dirent_at_struct b p : load_struct FatDirEntry_struct b p = dirent_fields (dirent_at b p).
Proof.
  unfold FatDirEntry_struct. cbn [load_struct]. fold uint8_t. rewrite !load_uint8, !load_uint16, load_uint32.
  cbn [sizeof uint8_t uint16_t uint32_t load]. by rewrite <- !Z.add_assoc.
Qed.
Lemma superblock_of_struct b : load_struct FatSuperBlock_struct b 0 = superblock_fields (superblock_of b).
Proof.
  unfold FatSuperBlock_struct. cbn [load_struct]. by rewrite !load_uint8, !load_uint16, !load_uint32.
Qed.

(** Every field has a value of its C type. *)
Record dirent_ok (e : FatDirEntry) : Prop := {
  e_filename : lenZ (filename e) = 8 /\ bytes (filename e);
  e_ext : lenZ (ext e) = 3 /\ bytes (ext e);
  e_attr : u8 (attr e);
  e_reserved : u8 (reserved e);
  e_mill : u8 (create_mill e);
  e_time : u16 (create_time e);
  e_date : u16 (create_date e);
  e_access : u16 (last_access e);
  e_res32 : u16 (reserve_32 e);
  e_wtime : u16 (last_wtime e);
  e_wdate : u16 (last_wdate e);
  e_start : u16 (start_cluster e);
  e_size : u32 (file_size e);
}.

Lemma get32_range b i : bytes b -> u32 (get32 b i).
Proof.
  intros Hb. unfold get32. pose proof (bytes_nth b i Hb). pose proof (bytes_nth b (i + 1) Hb).
  pose proof (bytes_nth b (i + 2) Hb). pose proof (bytes_nth b (i + 3) Hb). lia.
Qed.

Lemma dirent_at_ok b p : bytes b -> 0 <= p -> p + 32 <= lenZ b -> dirent_ok (dirent_at b p).
Proof.
  intros Hb Hp Hl. split; simpl; try (by apply bytes_nth); try (by apply get16_range); try (by apply get32_range);
    (split; [apply lenZ_slice; lia|by apply bytes_slice]).
Qed.

Lemma get16_le16 a b : u8 a -> u8 b -> le16 (a + 256 * b) = [a; b].
Proof.
  intros. unfold le16, wrap8. rewrite Z.mul_comm, Z.mod_add, Z.div_add, Z.div_small, !Z.mod_small by lia. done.
Qed.

Lemma get32_le32 a b c d :
  u8 a -> u8 b -> u8 c -> u8 d -> le32 (a + 256 * b + 65536 * c + 16777216 * d) = [a; b; c; d].
Proof.
  intros. unfold le32, wrap8. set (x := a + 256 * b + 65536 * c + 16777216 * d).
  assert (E1 : x / 256 = b + 256 * c + 65536 * d) by (symmetry; apply (Z.div_unique _ 256 _ a); lia).
  assert (E2 : x / 65536 = c + 256 * d) by (symmetry; apply (Z.div_unique _ 65536 _ (a + 256 * b)); lia).
  assert (E3 : x / 16777216 = d) by (symmetry; apply (Z.div_unique _ 16777216 _ (a + 256 * b + 65536 * c)); lia).
  rewrite E1, E2, E3. repeat f_equal; symmetry;
    [apply (Z.mod_unique _ 256 (b + 256 * c + 65536 * d))|apply (Z.mod_unique _ 256 (c + 256 * d))|
     apply (Z.mod_unique _ 256 d)|apply (Z.mod_unique _ 256 0)]; lia.
Qed.

Ltac list_of_length l H :=
  unfold lenZ in H; repeat (destruct l as [|? l]; [simpl in H; exfalso; lia|simpl in H]); destruct l; [|simpl in H; exfalso; lia].

Lemma lenZ_dirent_bytes e : dirent_ok e -> lenZ (dirent_bytes e) = 32.
Proof.
  intros He. unfold dirent_bytes. rewrite !lenZ_app. rewrite (proj1 (e_filename e He)), (proj1 (e_ext e He)). reflexivity.
Qed.

Lemma bytes_dirent_bytes e : dirent_ok e -> bytes (dirent_bytes e).
Proof.
  intros He. unfold dirent_bytes, le32, le16. apply Forall_app; split; [apply He|]. apply Forall_app; split; [apply He|].
  simpl. repeat (apply Forall_cons_2; [apply wrap8_range|]). constructor.
Qed.

(** Reading back an entry that was stored. *)
Lemma dirent_decode_encode e : dirent_ok e -> dirent_at (dirent_bytes e) 0 = e.
Proof.
  intros He. pose proof (e_filename e He) as [Hf _]. pose proof (e_ext e He) as [Hx _].
  destruct He as [_ _ Ha Hr Hm Ht Hd Hac H3 Hwt Hwd Hs Hz]. destruct e as [f x a r m t d ac r3 wt wd sc fs].
  simpl in *. list_of_length f Hf. list_of_length x Hx.
  unfold dirent_at, dirent_bytes, get16, get32, slice, nthZ; simpl.
  rewrite bytes4_value, !bytes2_value, !wrap8_small, !wrap16_small, wrap32_small by done. reflexivity.
Qed.

#[local] Opaque le16 le32.
(** Storing an entry that was read. *)
Lemma dirent_encode_decode d : lenZ d = 32 -> bytes d -> dirent_bytes (dirent_at d 0) = d.
Proof.
  intros Hl Hb. list_of_length d Hl.
  unfold bytes in Hb. repeat match goal with H : Forall _ (_ :: _) |- _ => apply Forall_cons in H as [? H] end.
  unfold dirent_at, dirent_bytes, get16, get32, slice, nthZ; simpl.
  rewrite !get16_le16, get32_le32, !wrap8_small by done. reflexivity.
Qed.
#[local] Transparent le16 le32.

(** Entries of a larger block. *)
Lemma slice_splice_in b p d i n :
  0 <= p -> p + lenZ d <= lenZ b -> 0 <= i -> 0 <= n -> i + n <= lenZ d -> slice (splice b p d) (p + i) n = slice d i n.
Proof.
  intros. apply nthZ_ext.
  - rewrite !lenZ_slice; rewrite ?lenZ_splice; lia.
  - intros j Hj. rewrite lenZ_slice in Hj by (rewrite ?lenZ_splice; lia). rewrite !nthZ_slice, nthZ_splice by lia.
    rewrite (proj2 (Z.leb_le p _)), (proj2 (Z.ltb_lt _ (p + lenZ d))) by lia. simpl. f_equal. lia.
Qed.

Lemma nthZ_splice_in b p d i : 0 <= p -> p + lenZ d <= lenZ b -> 0 <= i < lenZ d -> nthZ (splice b p d) (p + i) = nthZ d i.
Proof.
  intros. rewrite nthZ_splice by lia. rewrite (proj2 (Z.leb_le p _)), (proj2 (Z.ltb_lt _ (p + lenZ d))) by lia.
  simpl. f_equal. lia.
Qed.

Lemma dirent_at_splice b p d :
  0 <= p -> lenZ d = 32 -> p + 32 <= lenZ b -> dirent_at (splice b p d) p = dirent_at d 0.
Proof.
  intros Hp Hd Hl. pose proof (slice_splice_in b p d 0 8) as E8. rewrite Z.add_0_r in E8.
  unfold dirent_at, get16, get32. rewrite E8, slice_splice_in by lia. rewrite <- !Z.add_assoc. simpl.
  by rewrite !nthZ_splice_in by lia.
Qed.

Lemma nthZ_splice_out b p d i :
  0 <= p -> p + lenZ d <= lenZ b -> 0 <= i -> (i < p \/ p + lenZ d <= i) -> nthZ (splice b p d) i = nthZ b i.
Proof.
  intros Hp Hl Hi Ho. rewrite nthZ_splice by lia. destruct (Z.leb_spec p i); [|done]. simpl.
  by rewrite (proj2 (Z.ltb_ge _ _)) by lia.
Qed.

(** An entry depends on its 32 bytes. *)
Lemma dirent_at_ext a b p q :
  0 <= p -> 0 <= q -> p + 32 <= lenZ a -> q + 32 <= lenZ b ->
  (forall i, 0 <= i < 32 -> nthZ a (p + i) = nthZ b (q + i)) -> dirent_at a p = dirent_at b q.
Proof.
  intros Hp Hq Ha Hb He. unfold dirent_at, get16, get32. rewrite <- !Z.add_assoc. simpl.
  assert (Hs : forall i n, 0 <= i -> 0 <= n -> i + n <= 32 -> slice a (p + i) n = slice b (q + i) n).
  { intros i n Hi Hn Hl. apply nthZ_ext.
    - rewrite !lenZ_slice; lia.
    - intros j Hj. rewrite lenZ_slice in Hj by lia. rewrite !nthZ_slice by lia. rewrite <- !Z.add_assoc. apply He. lia. }
  pose proof (Hs 0 8 ltac:(lia) ltac:(lia) ltac:(lia)) as E0. rewrite !Z.add_0_r in E0.
  rewrite E0, Hs by lia. by rewrite !He by lia.
Qed.


(** ** Search *)

Lemma equal_range_spec n a b i :
  equal_range n a b i = true <-> forall j, i <= j < i + Z.of_nat n -> nthZ a j = nthZ b j.
Proof.
  revert i. induction n as [|n IH]; intros i; cbn [equal_range].
  - split; [intros _ j Hj; lia|done].
  - destruct (Z.eqb_spec (nthZ a i) (nthZ b i)) as [E|E]; simpl.
    + rewrite IH. split; intros Hall j Hj; [destruct (decide (j = i)) as [->|]; [done|]|]; apply Hall; lia.
    + split; [done|]. intros Hall. destruct E. apply Hall. lia.
Qed.

Lemma filename_match_spec e name :
  lenZ (filename e) = 8 -> 8 <= lenZ name -> fat_filename_match e name = true <-> filename e = slice name 0 8.
Proof.
  intros Hl Hn. unfold fat_filename_match. rewrite equal_range_spec. split.
  - intros He. apply nthZ_ext; [rewrite lenZ_slice; lia|]. intros j Hj. rewrite nthZ_slice by lia. apply He. lia.
  - intros -> j Hj. rewrite nthZ_slice by lia. f_equal.
Qed.

(** The offset of the first entry with a property, and the two searches of the
    code as instances. *)
Fixpoint scan_entries (P : FatDirEntry -> bool) (n : nat) (block : list Z) (p : Z) : option Z :=
  match n with
  | O => None
  | S n => if P (dirent_at block p) then Some p else scan_entries P n block (p + 32)
  end.

Definition named (name : list Z) (e : FatDirEntry) : bool :=
  negb (FAT_CLUS_FREE (start_cluster e)) && fat_filename_match e name.
Definition unused (e : FatDirEntry) : bool :=
  FAT_CLUS_FREE (start_cluster e) && negb (fat_filename_match e ([46; 46] ++ replicate 6 32)).

Lemma search_loop_scan n block name p : search_loop n block name p = scan_entries (named name) n block p.
Proof. revert p. induction n as [|n IH]; intros p; [done|]. cbn [search_loop scan_entries]. unfold named at 1. by rewrite IH. Qed.
Lemma unused_loop_scan n block p : unused_loop n block p = scan_entries unused n block p.
Proof. revert p. induction n as [|n IH]; intros p; [done|]. cbn [unused_loop scan_entries]. unfold unused at 1. by rewrite IH. Qed.

Lemma scan_entries_spec P n block i :
  match scan_entries P n block (32 * i) with
  | Some p => exists j, i <= j < i + Z.of_nat n /\ p = 32 * j /\ P (dirent_at block p) = true /\
                        forall k, i <= k < j -> P (dirent_at block (32 * k)) = false
  | None => forall k, i <= k < i + Z.of_nat n -> P (dirent_at block (32 * k)) = false
  end.
Proof.
  revert i. induction n as [|n IH]; intros i; cbn [scan_entries]; [intros; lia|].
  destruct (P (dirent_at block (32 * i))) eqn:E.
  - exists i. split_and!; [lia|lia|done|done|]. intros. lia.
  - replace (32 * i + 32) with (32 * (i + 1)) by lia. specialize (IH (i + 1)).
    destruct (scan_entries P n block (32 * (i + 1))) as [p|].
    + destruct IH as (j & Hj & -> & Hh & Hall). exists j. split_and!; [lia|lia|done|done|].
      intros k Hk. destruct (decide (k = i)) as [->|]; [done|]. apply Hall. lia.
    + intros k Hk. destruct (decide (k = i)) as [->|]; [done|]. apply IH. lia.
Qed.

(** Offset [p] holds a used entry with the name. *)
Definition hit (block name : list Z) (p : Z) : bool :=
  negb (FAT_CLUS_FREE (start_cluster (dirent_at block p))) && fat_filename_match (dirent_at block p) name.

Lemma search_loop_spec n block name i :
  match search_loop n block name (32 * i) with
  | Some p => exists j, i <= j < i + Z.of_nat n /\ p = 32 * j /\ hit block name p = true /\
                        forall k, i <= k < j -> hit block name (32 * k) = false
  | None => forall k, i <= k < i + Z.of_nat n -> hit block name (32 * k) = false
  end.
Proof. rewrite search_loop_scan. apply scan_entries_spec. Qed.

Lemma search_loop_first n block name i j :
  i <= j < i + Z.of_nat n -> hit block name (32 * j) = true -> (forall k, i <= k < j -> hit block name (32 * k) = false) ->
  search_loop n block name (32 * i) = Some (32 * j).
Proof.
  intros Hj Hh Hall. pose proof (search_loop_spec n block name i) as Hs. destruct (search_loop n block name (32 * i)) as [p|].
  - destruct Hs as (j' & Hj' & -> & Hh' & Hall'). f_equal. destruct (Z.lt_trichotomy j j') as [Hlt|[->|Hgt]]; [|done|].
    + by rewrite Hall' in Hh by lia.
    + by rewrite Hall in Hh' by lia.
  - by rewrite Hs in Hh by lia.
Qed.

(** The search only reads the entries up to the one it finds. *)
Lemma search_prefix a b name m n p :
  (forall i, 0 <= i < lenZ a -> nthZ a i = nthZ b i) -> lenZ a = 32 * Z.of_nat m -> lenZ a <= lenZ b -> (m <= n)%nat ->
  search_loop m a name 0 = Some p -> search_loop n b name 0 = Some p /\ 0 <= p /\ p + 32 <= lenZ a.
Proof.
  intros He Hl Hle Hmn Hs. pose proof (search_loop_spec m a name 0) as Hp. change (32 * 0) with 0 in Hp. rewrite Hs in Hp.
  destruct Hp as (j & Hj & -> & Hh & Hall). split; [|lia].
  assert (Hhit : forall k, 0 <= k < Z.of_nat m -> hit b name (32 * k) = hit a name (32 * k)).
  { intros k Hk. unfold hit. rewrite (dirent_at_ext b a (32 * k) (32 * k)); [done|lia|lia|lia|lia|].
    intros i Hi. symmetry. apply He. lia. }
  apply (search_loop_first n b name 0 j); [lia|by rewrite Hhit by lia|]. intros k Hk. rewrite Hhit by lia. apply Hall. lia.
Qed.

(** ** The entry of a file on the disk *)

Lemma disk_is_ext {D} `{BlockDev D} (h : host D) s s' : disk_is h s -> (forall k, s k = s' k) -> disk_is h s'.
Proof. intros [Hr E] He. split; [done|]. intros k. by rewrite E. Qed.

Section Entry.
Context {D : Type} `{BlockDev D} (uninit : Z -> list Z).
Hypothesis uninit_ok : forall n, 0 <= n -> lenZ (uninit n) = n /\ bytes (uninit n).
Context (v : Fat16Volume) (Hv : vol_ok v).
Implicit Types (h : host D) (s : Z -> list Z) (c : Z) (cs : list Z) (f : Fat16File).
Abbreviation cb := (cluster_bytes v).

(** The entry is in a sector of the root directory or in a cluster. *)
Definition entry_place f : Prop :=
  (dirent_cluster f = 0 /\ root_dir_start v <= dirent_sector f < root_dir_start v + root_sectors v) \/
  in_use v (dirent_cluster f).

Definition entry_block s f : list Z :=
  if dirent_cluster f =? 0 then s (dirent_sector f) else clus v s (dirent_cluster f).
Definition entry_upd s f (b : list Z) : Z -> list Z :=
  if dirent_cluster f =? 0 then write_secs s (dirent_sector f) 1 b else clus_upd v s (dirent_cluster f) b.

(** The first used entry of the block with the file's name is at [p]. *)
Definition entry_found s f p : Prop :=
  search_name_in_block (entry_block s f) (lenZ (entry_block s f)) (filename (dirent f)) = Some p.

Lemma update_dirent_spec h s f new p :
  disk_is h s -> volume f = v -> entry_place f -> entry_found s f p -> dirent_ok (default (dirent f) new) ->
  wp (fat_update_file_dirent uninit f new) h (fun r h' => r = 0 /\
    now h h' (entry_upd s f (splice (entry_block s f) p (dirent_bytes (default (dirent f) new))))).
Proof.
  intros Hd Ev Hpl Hfound Hok. pose proof (disk_is_ok _ _ Hd) as Hs. unfold fat_update_file_dirent. rewrite Ev.
  set (e := default (dirent f) new) in *. pose proof (lenZ_dirent_bytes e Hok) as Hel. pose proof (bytes_dirent_bytes e Hok) as Heb.
  assert (Ee : match new with Some e => e | None => dirent f end = e) by (by destruct new). rewrite Ee.
  unfold entry_found, entry_block, entry_upd, search_name_in_block in *. vol_facts.
  pose proof (uninit_ok cb ltac:(lia)) as [Hul Hub]. change FAT_CLUS_ROOT with 0.
  destruct (Z.eqb_spec (dirent_cluster f) 0) as [E0|E0].
  - destruct Hpl as [[_ Hk]|Hpl]; [|unfold in_use in Hpl; lia]. set (k := dirent_sector f) in *.
    pose proof (proj1 (Hs k)) as Hkl. rewrite Hkl in Hfound. change (Z.to_nat ((512 + 31) / 32)) with 16%nat in Hfound.
    eapply wp_seq; [apply (read_full _ s); try done; lia|]. intros [n b] h1 (Er & Hd1 & Hl1). injection Er as -> ->.
    rewrite secs_1. set (blk := splice (uninit cb) 0 (s k)).
    assert (Hbl : lenZ blk = cb) by (unfold blk; rewrite lenZ_splice; lia).
    assert (Hbn : forall i, 0 <= i < 512 -> nthZ (s k) i = nthZ blk i).
    { intros i Hi. unfold blk. by rewrite <- (nthZ_splice_in (uninit cb) 0 (s k) i) by lia. }
    destruct (search_prefix (s k) blk (filename (dirent f)) 16 (Z.to_nat ((cb + 31) / 32)) p) as (Hsp & Hp0 & Hp32);
      [intros i Hi; apply Hbn; lia|lia|lia| |done|].
    { assert (16 <= (cb + 31) / 32) by (apply Z.div_le_lower_bound; lia). lia. }
    rewrite Hsp. eapply wp_seq.
    + apply (write_full _ s _ _ (splice blk p (dirent_bytes e))); [done|lia|lia|lia|rewrite lenZ_splice; lia|].
      apply bytes_splice; [|done]. apply bytes_splice; [done|apply Hs].
    + intros r h2 (_ & Hd2 & Hl2). apply wp_ret. split; [done|]. split; [|congruence]. eapply disk_is_ext; [exact Hd2|].
      intros j. unfold write_secs. destruct ((k <=? j) && (j <? k + 1)) eqn:Ej; [|done]. zb. replace (512 * (j - k)) with 0 by lia.
      apply nthZ_ext.
      * rewrite !lenZ_slice; rewrite ?lenZ_splice; lia.
      * intros i Hi. rewrite lenZ_slice in Hi by (rewrite ?lenZ_splice; lia). rewrite !nthZ_slice by lia. rewrite Z.add_0_l.
        rewrite !nthZ_splice by lia. destruct ((p <=? i) && _); [done|]. symmetry. apply Hbn. lia.
  - destruct Hpl as [[? _]|Hpl]; [lia|]. pose proof (in_use_valid v _ Hpl) as Hval. set (c := dirent_cluster f) in *.
    rewrite lenZ_clus in Hfound by done. eapply wp_seq; [apply (read_cluster_spec v Hv _ s); done|].
    intros [n b] h1 (Er & Hn1). injection Er as -> ->. rewrite Hfound.
    destruct (search_prefix (clus v s c) (clus v s c) (filename (dirent f)) (Z.to_nat ((cb + 31) / 32)) (Z.to_nat ((cb + 31) / 32)) p)
      as (_ & Hp0 & Hp32); [done| |lia|lia|done|].
    { rewrite lenZ_clus by done. assert (E : (cb + 31) / 32 = spc v * 16) by (symmetry; apply (Z.div_unique _ 32 _ 31); lia).
      rewrite E. lia. }
    rewrite lenZ_clus in Hp32 by done. eapply wp_seq.
    + apply (write_cluster_spec v Hv _ s); [apply Hn1|done|apply bytes_splice; [by apply bytes_clus|done]|].
      rewrite lenZ_splice; rewrite ?lenZ_clus by done; lia.
    + intros r h2 Hn2. apply wp_ret. split; [done|]. by eapply now_trans.
Qed.
End Entry.
