(* ===== verification/FatWrite.v ===== *)
(** * Writing files

    [fat_write_file] replaces a piece of a file, extends its chain with free
    clusters where needed, records the new size in the directory entry and
    leaves every other file alone; what is read back is what was written. *)
From S2P Require Import Prelude CMem CString Sink Print Disk Ata FatName Common Fat FatTable FatFree FatFile FatDir.
Import CString Print FatName Common Fat.
Open Scope list_scope.

Section Write.
Context {D : Type} `{BlockDev D} (uninit : Z -> list Z).
Hypothesis uninit_ok : forall n, 0 <= n -> lenZ (uninit n) = n /\ bytes (uninit n).
Context (v : Fat16Volume) (Hv : vol_ok v).
Implicit Types (h : host D) (s : Z -> list Z) (c : Z) (cs : list Z) (f : Fat16File).
Abbreviation cb := (cluster_bytes v).
Abbreviation content s cs := (file_bytes v s cs).

(** The sectors before the data area that are not in the table. *)
Definition outside k : Prop := k < fat_start v \/ (fat_start v + sectors_fat (sb v) <= k < data_start v).

(** Writing [d] at offset [off] of the file with clusters [cs]: the file now has
    clusters [cs'], its bytes are the old ones except for [d], and nothing else
    changed; the new clusters were free. *)
Record wrote s cs (off : Z) (d : list Z) s' cs' : Prop := {
  w_ok : sectors_ok s';
  w_chain : chain v s' cs';
  w_prefix : exists new, cs' = cs ++ new;
  w_room : off + lenZ d <= lenZ cs' * cb;
  w_old : forall i, 0 <= i < lenZ cs * cb -> i < off \/ off + lenZ d <= i ->
            nthZ (content s' cs') i = nthZ (content s cs) i;
  w_new : forall i, 0 <= i < lenZ d -> nthZ (content s' cs') (off + i) = nthZ d i;
  w_table : forall c, 0 <= c < nfat v -> c ∉ cs' -> fat_entry v s' c = fat_entry v s c;
  w_data : forall c, valid v c -> c ∉ cs' -> clus v s' c = clus v s c;
  w_fresh : forall c, c ∈ cs' -> c ∉ cs -> fat_entry v s c = 0;
  w_outside : forall k, outside k -> s' k = s k;
}.

Lemma wrote_trans s cs off d1 s1 cs1 d2 s2 cs2 :
  0 <= off -> wrote s cs off d1 s1 cs1 -> wrote s1 cs1 (off + lenZ d1) d2 s2 cs2 -> wrote s cs off (d1 ++ d2) s2 cs2.
Proof.
  intros Hoff W1 W2. pose proof (lenZ_nonneg d1). pose proof (lenZ_nonneg d2). pose proof (cb_pos v Hv).
  destruct (w_prefix _ _ _ _ _ _ W1) as [n1 E1]. destruct (w_prefix _ _ _ _ _ _ W2) as [n2 E2].
  assert (Hl : lenZ cs <= lenZ cs1) by (rewrite E1, lenZ_app; pose proof (lenZ_nonneg n1); lia).
  pose proof (w_room _ _ _ _ _ _ W1) as Hr1. pose proof (w_room _ _ _ _ _ _ W2) as Hr2. split.
  - apply W2.
  - apply W2.
  - exists (n1 ++ n2). rewrite E2, E1. by rewrite app_assoc.
  - rewrite lenZ_app. lia.
  - intros i Hi Ho. rewrite lenZ_app in Ho. rewrite (w_old _ _ _ _ _ _ W2) by nia. apply W1; lia.
  - intros i Hi. rewrite lenZ_app in Hi. destruct (Z.ltb_spec i (lenZ d1)).
    + rewrite nthZ_app_l by lia. rewrite (w_old _ _ _ _ _ _ W2) by lia. apply W1. lia.
    + rewrite nthZ_app_r by lia. rewrite <- (w_new _ _ _ _ _ _ W2) by lia. f_equal. lia.
  - intros c Hc Hn. rewrite (w_table _ _ _ _ _ _ W2) by done. apply W1; [done|]. set_solver.
  - intros c Hc Hn. rewrite (w_data _ _ _ _ _ _ W2) by done. apply W1; [done|]. set_solver.
  - intros c Hc Hn. destruct (decide (c ∈ cs1)) as [Hin|Hnin]; [by apply W1|].
    rewrite <- (w_table _ _ _ _ _ _ W1); [by apply W2| |done].
    pose proof (chain_in_use v _ _ (w_chain _ _ _ _ _ _ W2)) as Hall. eapply Forall_forall in Hall; [|exact Hc].
    unfold in_use in Hall. lia.
  - intros k Hk. rewrite (w_outside _ _ _ _ _ _ W2) by done. by apply W1.
Qed.

(** A piece within one cluster. *)
Lemma wrote_cluster s cs off d :
  sectors_ok s -> chain v s cs -> bytes d -> 0 <= off < lenZ cs * cb -> off mod cb + lenZ d <= cb ->
  let c := nthZ cs (off / cb) in
  wrote s cs off d (clus_upd v s c (splice (clus v s c) (off mod cb) d)) cs.
Proof.
  intros Hs Hc Hd Hoff Hm c. pose proof (cb_pos v Hv) as Hcb. pose proof (lenZ_nonneg d).
  pose proof (div_block cb off Hcb ltac:(lia)) as (Hq1 & Hq2 & Hm1 & Heq).
  pose proof (div_block_lt cb off _ Hcb ltac:(lia) (proj2 Hoff)) as Hq.
  pose proof (in_use_valid v _ (chain_nth v s cs (off / cb) Hc ltac:(lia))) as Hval. fold c in Hval.
  set (b := splice (clus v s c) (off mod cb) d).
  assert (Hbl : lenZ b = cb) by (unfold b; rewrite lenZ_splice; rewrite ?lenZ_clus by done; lia).
  assert (Hbb : bytes b) by (apply bytes_splice; [by apply bytes_clus|done]).
  assert (Hs' : sectors_ok (clus_upd v s c b)) by (by apply clus_upd_ok).
  (* a byte of the file after the update *)
  assert (Hnth : forall i, 0 <= i < lenZ cs * cb -> nthZ (content (clus_upd v s c b) cs) i =
    if (off <=? i) && (i <? off + lenZ d) then nthZ d (i - off) else nthZ (content s cs) i).
  { intros i Hi. rewrite !nthZ_file_bytes by done. rewrite clus_clus_upd by done.
    pose proof (div_block cb i Hcb ltac:(lia)) as (Hi1 & Hi2 & Him & Hieq).
    pose proof (div_block_lt cb i _ Hcb ltac:(lia) (proj2 Hi)) as Hiq. destruct (Z.eqb_spec c (nthZ cs (i / cb))) as [E|E].
    - assert (Eq : i / cb = off / cb).
      { pose proof (chain_nodup v s cs Hc) as Hnd. unfold c, nthZ, lenZ in *.
        destruct (lookup_lt_is_Some_2 cs (Z.to_nat (off / cb)) ltac:(lia)) as [x Hx].
        destruct (lookup_lt_is_Some_2 cs (Z.to_nat (i / cb)) ltac:(lia)) as [y Hy]. rewrite Hx, Hy in E. simpl in E. subst y.
        pose proof (NoDup_lookup _ _ _ _ Hnd Hx Hy). lia. }
      rewrite <- E. unfold b. rewrite nthZ_splice by (rewrite ?lenZ_clus by done; lia).
      assert (Et : (off mod cb <=? i mod cb) && (i mod cb <? off mod cb + lenZ d) = (off <=? i) && (i <? off + lenZ d)).
      { f_equal; [destruct (Z.leb_spec off i)|destruct (Z.ltb_spec i (off + lenZ d))];
          [apply Z.leb_le|apply Z.leb_gt|apply Z.ltb_lt|apply Z.ltb_ge]; lia. }
      rewrite Et. destruct ((off <=? i) && (i <? off + lenZ d)) eqn:Eb; [|done]. f_equal. lia.
    - assert (Eb : (off <=? i) && (i <? off + lenZ d) = false).
      { destruct (Z.leb_spec off i); [|done]. destruct (Z.ltb_spec i (off + lenZ d)); [|done]. destruct E. unfold c. f_equal.
        nia. }
      by rewrite Eb. }
  split.
  - done.
  - eapply chain_ext; [|exact Hc]. intros x Hx. apply fat_entry_clus_upd; [done|done|].
    pose proof (chain_in_use v s cs Hc) as Hall. eapply Forall_forall in Hall; [|exact Hx]. unfold in_use in Hall. lia.
  - exists []. by rewrite app_nil_r.
  - nia.
  - intros i Hi Ho. rewrite Hnth by done. destruct (Z.leb_spec off i); [|done]. simpl. by rewrite (proj2 (Z.ltb_ge _ _)) by lia.
  - intros i Hi. rewrite Hnth by nia. rewrite (proj2 (Z.leb_le _ _)), (proj2 (Z.ltb_lt _ _)) by lia. simpl. f_equal. lia.
  - intros x Hx _. by apply fat_entry_clus_upd.
  - intros x Hx Hn. rewrite clus_clus_upd by done. rewrite (proj2 (Z.eqb_neq c x)); [done|]. intros E. apply Hn. rewrite <- E.
    apply nthZ_elem. lia.
  - done.
  - intros k Hk. apply write_secs_out. pose proof (clus_lba_range v Hv c Hval). vol_facts. unfold outside in Hk. lia.
Qed.

(** ** One more cluster *)

Lemma chain_entry_nonzero s cs c : chain v s cs -> c ∈ cs -> fat_entry v s c <> 0.
Proof.
  induction cs as [|x cs IH]; [done|]. intros [Hx Hr] Hin. apply elem_of_cons in Hin as [->|Hin].
  - destruct cs as [|y cs]; [intros E; by rewrite E in Hr|]. destruct Hr as [-> [[Hy _] _]]. lia.
  - destruct cs as [|y cs]; [by apply elem_of_nil in Hin|]. apply IH; [apply Hr|done].
Qed.

Lemma nthZ_last cs : cs <> [] -> nthZ cs (lenZ cs - 1) = List.last cs 0.
Proof.
  induction cs as [|c cs IH]; [done|]. intros _. destruct cs as [|c' cs]; [done|]. rewrite lenZ_cons.
  rewrite nthZ_cons by (rewrite lenZ_cons; pose proof (lenZ_nonneg cs); lia).
  replace (lenZ (c' :: cs) + 1 - 1 - 1) with (lenZ (c' :: cs) - 1) by lia. by apply IH.
Qed.

Lemma last_elem cs : cs <> [] -> List.last cs 0 ∈ cs.
Proof.
  intros Hne. rewrite <- nthZ_last by done. apply nthZ_elem. destruct cs; [done|]. rewrite lenZ_cons.
  pose proof (lenZ_nonneg cs). lia.
Qed.

Lemma chain_snoc s s' cs x :
  chain v s cs -> in_use v x -> FAT_CLUS_EOF (fat_entry v s' x) = true ->
  fat_entry v s' (List.last cs 0) = x -> (forall c, c ∈ cs -> c <> List.last cs 0 -> fat_entry v s' c = fat_entry v s c) ->
  chain v s' (cs ++ [x]).
Proof.
  intros Hc Hx He. pose proof (chain_nodup v s cs Hc) as Hnd. revert Hc Hnd.
  induction cs as [|c cs IH]; [done|]. intros [Hu Hr] Hnd Hl Hs. apply NoDup_cons in Hnd as [Hni Hnd].
  destruct cs as [|c' cs].
  { split; [done|]. split; [done|]. by split. }
  destruct Hr as [E Hr]. split; [done|]. split.
  - rewrite Hs; [done|set_solver|]. intros Ec. apply Hni. rewrite Ec.
    by apply (last_elem (c' :: cs)).
  - apply IH; [done|done|done|]. intros y Hy Hne. apply Hs; [set_solver|done].
Qed.

(** The table after a cluster is appended to a chain. *)
Definition append_cluster s last x : Z -> list Z := fat_upd v (fat_upd v s last x) x 65535.

Lemma wrote_append s cs x :
  sectors_ok s -> chain v s cs -> in_use v x -> fat_entry v s x = 0 ->
  wrote s cs (lenZ cs * cb) [] (append_cluster s (List.last cs 0) x) (cs ++ [x]).
Proof.
  intros Hs Hc Hx H0. pose proof (cb_pos v Hv) as Hcb. assert (Hne : cs <> []) by (by destruct cs).
  assert (Hxn : x ∉ cs) by (intros Hin; by apply (chain_entry_nonzero s cs x Hc)).
  pose proof (chain_in_use v s cs Hc) as Hall. pose proof (last_elem cs Hne) as Hlin.
  assert (Hlu : in_use v (List.last cs 0)) by (eapply Forall_forall in Hall; [exact Hall|done]).
  set (l := List.last cs 0) in *. unfold in_use in *. pose proof Hx as [Hx1 Hx2]. pose proof Hlu as [Hl1 Hl2].
  assert (Hs1 : sectors_ok (fat_upd v s l x)) by (apply fat_upd_ok; [done|done|lia]).
  assert (Hs2 : sectors_ok (append_cluster s l x)) by (apply fat_upd_ok; [done|done|lia]).
  assert (He : forall c, 0 <= c < nfat v -> fat_entry v (append_cluster s l x) c =
    if x =? c then 65535 else if l =? c then x else fat_entry v s c).
  { intros c Hcr. unfold append_cluster. rewrite !fat_entry_upd by (done || lia). by rewrite !wrap16_small by lia. }
  assert (Hd : forall c, valid v c -> clus v (append_cluster s l x) c = clus v s c).
  { intros c Hcv. unfold append_cluster. by rewrite !clus_fat_upd by (done || lia). }
  split.
  - done.
  - apply (chain_snoc s); [done|done|rewrite He by lia; by rewrite Z.eqb_refl|..].
    + rewrite He by lia. fold l. rewrite (proj2 (Z.eqb_neq x l)) by (intros ->; done). by rewrite Z.eqb_refl.
    + intros c Hin Hnl. eapply Forall_forall in Hall; [|exact Hin]. rewrite He by lia. fold l in Hnl.
      rewrite (proj2 (Z.eqb_neq x c)) by (intros ->; done). by rewrite (proj2 (Z.eqb_neq l c)) by congruence.
  - by exists [x].
  - rewrite lenZ_app. change (lenZ [x]) with 1. change (lenZ (@nil Z)) with 0. nia.
  - intros i Hi _. assert (Hi' : 0 <= i < lenZ (cs ++ [x]) * cb) by (rewrite lenZ_app; change (lenZ [x]) with 1; nia).
    rewrite !nthZ_file_bytes by done. pose proof (div_block cb i Hcb ltac:(lia)) as (_ & Hi2 & _).
    pose proof (div_block_lt cb i _ Hcb ltac:(lia) (proj2 Hi)). rewrite nthZ_app_l by lia.
    rewrite Hd; [done|]. apply (in_use_valid v). eapply chain_nth; [exact Hc|lia].
  - intros i Hi. change (lenZ (@nil Z)) with 0 in Hi. lia.
  - intros c Hcr Hn. rewrite He by done. rewrite (proj2 (Z.eqb_neq x c)) by set_solver.
    rewrite (proj2 (Z.eqb_neq l c)); [done|]. intros <-. set_solver.
  - intros c Hcv _. by apply Hd.
  - intros c Hin Hn. by replace c with x by set_solver.
  - intros k Hk. unfold append_cluster. vol_facts. unfold outside in Hk. by rewrite !fat_upd_out by (done || lia).
Qed.

(** ** Free clusters *)

(** The number of free clusters that can be handed out. *)
Definition free_count s : nat :=
  length (List.filter (fun c => fat_entry v s c =? 0) (seqZ 3 (Z.min (nfat v) 65520 - 3))).

Lemma filter_nonempty (P : Z -> bool) l : (0 < length (List.filter P l))%nat -> exists x, x ∈ l /\ P x = true.
Proof.
  induction l as [|y l IH]; simpl; [lia|]. destruct (P y) eqn:E; [intros _; exists y; set_solver|].
  intros Hl. destruct (IH Hl) as (x & Hx & Ex). exists x. set_solver.
Qed.

Lemma filter_minus_one (P Q : Z -> bool) l x :
  NoDup l -> (forall y, y ∈ l -> y <> x -> Q y = P y) ->
  (length (List.filter P l) <= S (length (List.filter Q l)))%nat.
Proof.
  induction l as [|y l IH]; intros Hnd He; simpl; [lia|]. apply NoDup_cons in Hnd as [Hn Hnd].
  destruct (decide (y = x)) as [->|Hne].
  - assert (E : List.filter P l = List.filter Q l).
    { clear IH. induction l as [|z l IH]; [done|]. simpl. apply NoDup_cons in Hnd as [Hz Hnd].
      rewrite (He z) by set_solver. rewrite IH by set_solver. done. }
    rewrite E. destruct (P x), (Q x); simpl; lia.
  - rewrite (He y) by set_solver. specialize (IH Hnd ltac:(set_solver)). destruct (P y); simpl; lia.
Qed.

Lemma least_free s c :
  3 <= c < nfat v -> fat_entry v s c = 0 -> exists c', first_free v s c' /\ c' <= c.
Proof.
  intros Hc. assert (Hc0 : 0 <= c) by lia. revert Hc. pattern c. apply (Zlt_0_ind _); [|done].
  clear c Hc0. intros c IH _ Hc H0.
  destruct (decide (Exists (fun y => fat_entry v s y = 0) (seqZ 3 (c - 3)))) as [He|He].
  - apply Exists_exists in He as (y & Hy & Ey). apply elem_of_seqZ in Hy.
    destruct (IH y ltac:(lia) ltac:(lia) Ey) as (c' & Hf & Hle). exists c'. split; [done|lia].
  - exists c. split; [|lia]. split; [done|]. split; [done|]. intros y Hy Ey. apply He. apply Exists_exists. exists y.
    split; [apply elem_of_seqZ; lia|done].
Qed.

Lemma free_count_first s : (0 < free_count s)%nat -> exists c, first_free v s c /\ in_use v c.
Proof.
  intros Hf. apply filter_nonempty in Hf as (c & Hc & E). apply elem_of_seqZ in Hc. zb.
  destruct (least_free s c ltac:(lia) E) as (c' & Hff & Hle). exists c'. split; [done|].
  destruct Hff as [? _]. unfold in_use. lia.
Qed.

Lemma free_count_ext s s' :
  (forall c, 0 <= c < nfat v -> fat_entry v s' c = fat_entry v s c) -> free_count s' = free_count s.
Proof.
  intros He. unfold free_count. f_equal. apply List.filter_ext_in. intros c Hc.
  apply list_elem_of_In, elem_of_seqZ in Hc. by rewrite He by lia.
Qed.

Lemma free_count_append s cs x :
  sectors_ok s -> chain v s cs -> in_use v x ->
  (free_count s <= S (free_count (append_cluster s (List.last cs 0%Z) x)))%nat.
Proof.
  intros Hs Hc Hx. assert (Hne : cs <> []) by (by destruct cs). pose proof (last_elem cs Hne) as Hlin.
  pose proof (chain_entry_nonzero s cs _ Hc Hlin) as Hl0.
  pose proof (chain_in_use v s cs Hc) as Hall. eapply Forall_forall in Hall; [|exact Hlin]. unfold in_use in *.
  apply (filter_minus_one _ _ _ x); [apply NoDup_seqZ|]. intros y Hy Hne'. apply elem_of_seqZ in Hy.
  unfold append_cluster. rewrite !fat_entry_upd; [|done|lia|lia|apply fat_upd_ok; done || lia|lia|lia].
  rewrite (proj2 (Z.eqb_neq x y)) by congruence. destruct (Z.eqb_spec (List.last cs 0) y) as [<-|]; [|done].
  rewrite wrap16_small by lia. by rewrite !(proj2 (Z.eqb_neq _ 0)) by (done || lia).
Qed.

(** Finding a free cluster and linking it to the end of a chain, before a
    continuation. *)
Lemma append_spec {B} h s cs (k : Z -> IO D B) (Q : B -> host D -> Prop) :
  disk_is h s -> chain v s cs -> (0 < free_count s)%nat ->
  (forall x h', in_use v x -> fat_entry v s x = 0 -> now h h' (append_cluster s (List.last cs 0) x) -> wp (k x) h' Q) ->
  wp (x ← fat_get_free_cluster uninit v; write_fat uninit v (List.last cs 0) x;; write_fat uninit v x 65535;; k x) h Q.
Proof.
  intros Hd Hc Hf HQ. destruct (free_count_first s Hf) as (x & Hff & Hxu).
  assert (Hne : cs <> []) by (by destruct cs). pose proof (chain_in_use v s cs Hc) as Hall.
  eapply Forall_forall in Hall; [|exact (last_elem cs Hne)]. unfold in_use in Hall. pose proof Hxu as [Hx1 Hx2].
  eapply wp_seq; [apply (free_cluster_spec uninit uninit_ok v Hv _ s x); done|]. intros ? h4 [-> Hn4].
  eapply wp_seq; [apply (write_fat_spec uninit uninit_ok v Hv _ s); [apply Hn4|lia]|]. intros ? h5 Hn5. simpl in Hn5.
  eapply wp_seq; [apply (write_fat_spec uninit uninit_ok v Hv _ _ _ _ (proj1 Hn5)); lia|]. intros ? h6 Hn6. simpl in Hn6.
  apply HQ; [done|apply Hff|]. eapply now_trans; [exact Hn4|]. by eapply now_trans.
Qed.

(** ** The loop *)

(** What the rest of a write does from a state of the loop: [rem] bytes of [user]
    from [cnt] on go to offset [off] of the file. *)
Definition write_post h s cs off (d : list Z) (r : Z * Z) (h' : host D) : Prop :=
  exists s' cs', r = (nthZ cs' ((off + lenZ d) / cb), off + lenZ d) /\ wrote s cs off d s' cs' /\
    off + lenZ d < lenZ cs' * cb /\ disk_is h' s' /\ log h' = log h.

Lemma write_post_trans h h1 s cs off d1 s1 cs1 d2 r h' :
  0 <= off -> log h1 = log h -> wrote s cs off d1 s1 cs1 ->
  write_post h1 s1 cs1 (off + lenZ d1) d2 r h' -> write_post h s cs off (d1 ++ d2) r h'.
Proof.
  intros Ho Hl W1 (s' & cs' & -> & W2 & Hlt & Hd & Hl'). exists s', cs'. rewrite lenZ_app.
  replace (off + (lenZ d1 + lenZ d2)) with (off + lenZ d1 + lenZ d2) by lia.
  split_and!; [done|by eapply wrote_trans|done|done|congruence].
Qed.

Lemma write_post_nil h s cs off :
  disk_is h s -> chain v s cs -> 0 <= off < lenZ cs * cb -> write_post h s cs off [] (nthZ cs (off / cb), off) h.
Proof.
  intros Hd Hc Ho. pose proof (disk_is_ok _ _ Hd). exists s, cs. change (lenZ (@nil Z)) with 0.
  rewrite Z.add_0_r. split_and!; [done| |lia|done|done].
  split; try done; [by exists []; rewrite app_nil_r|change (lenZ (@nil Z)) with 0; lia|change (lenZ (@nil Z)) with 0; lia].
Qed.

(** The offset after a piece that does not cross the end of its cluster: at the
    next cluster, or still in this one. *)
Lemma piece_end offset n :
  0 <= offset -> 0 < n <= cb - offset mod cb ->
  if (offset + n) mod cb =? 0 then offset + n = (offset / cb + 1) * cb
  else (offset + n) / cb = offset / cb /\ offset + n < (offset / cb + 1) * cb.
Proof.
  intros Ho Hn. pose proof (cb_pos v Hv) as Hcb. pose proof (div_block cb offset Hcb Ho) as (Hq1 & Hq2 & Hm & Heq).
  destruct (Z.eqb_spec (offset mod cb + n) cb) as [E|E].
  - replace (offset + n) with ((offset / cb + 1) * cb) by lia. by rewrite Z.mod_mul by lia.
  - replace (offset + n) with (offset mod cb + n + offset / cb * cb) by lia.
    rewrite Z.mod_add, Z.div_add by lia.
    rewrite (Z.mod_small (_ + n)), (Z.div_small (_ + n)), (proj2 (Z.eqb_neq _ _)) by lia. lia.
Qed.

(** Following the chain, or growing it when it ends. *)
Lemma next_or_append {B} h s cs q (k0 k1 : Z -> IO D B) (Q : B -> host D -> Prop) :
  disk_is h s -> chain v s cs -> 0 <= q < lenZ cs -> (q + 1 = lenZ cs -> (0 < free_count s)%nat) ->
  (forall h', q + 1 < lenZ cs -> now h h' s -> wp (k1 (nthZ cs (q + 1))) h' Q) ->
  (forall x h', q + 1 = lenZ cs -> in_use v x -> fat_entry v s x = 0 ->
     now h h' (append_cluster s (List.last cs 0) x) -> wp (k0 x) h' Q) ->
  wp (nx ← fat_get_next_cluster uninit v (nthZ cs q);
      if FAT_CLUS_EOF nx then
        x ← fat_get_free_cluster uninit v; write_fat uninit v (nthZ cs q) x;; write_fat uninit v x 65535;; k0 x
      else k1 nx) h Q.
Proof.
  intros Hd Hc Hq Hf H1 H0. pose proof (in_use_valid v _ (chain_nth v s cs q Hc Hq)) as Hval.
  eapply wp_seq; [apply (next_cluster_spec uninit uninit_ok v Hv _ s); [done|unfold valid in Hval; lia]|].
  intros nx h3 [-> Hn3]. pose proof (chain_next v s cs q Hc Hq) as Hcn.
  destruct (Z.ltb_spec (q + 1) (lenZ cs)) as [Hin|Hend]; rewrite Hcn.
  - rewrite (normal_not_eof _ (in_use_normal v _ (chain_nth v s cs (q + 1) Hc ltac:(lia)))). by apply H1.
  - assert (Elast : nthZ cs q = List.last cs 0) by (rewrite <- nthZ_last by (by destruct cs); f_equal; lia).
    rewrite Elast. apply (append_spec h3 s cs); [apply Hn3|done|apply Hf; lia|]. intros x h6 Hxu Hxe Hn6.
    apply H0; [lia|done|done|]. by eapply now_trans.
Qed.

(** Writing a piece [d] that stays in one cluster: the cluster is read, changed
    and written back. *)
Lemma write_piece {B} h s cs offset d block (k : list Z -> IO D B) (Q : B -> host D -> Prop) :
  disk_is h s -> chain v s cs -> bytes d -> 0 <= offset < lenZ cs * cb -> 0 < lenZ d <= cb - offset mod cb ->
  lenZ block = cb ->
  (forall h' s' b, disk_is h' s' -> log h' = log h -> wrote s cs offset d s' cs -> free_count s' = free_count s ->
     lenZ (splice b (offset mod cb) d) = cb -> wp (k b) h' Q) ->
  wp ('(_, b) ← fat_read_cluster v (nthZ cs (offset / cb)) block;
      fat_write_cluster v (splice b (offset mod cb) d) (nthZ cs (offset / cb)) 1;; k b) h Q.
Proof.
  intros Hd Hc Hdb Hoff Hdl Hbl Hk. pose proof (cb_pos v Hv) as Hcb. pose proof (disk_is_ok _ _ Hd) as Hs.
  pose proof (div_block cb offset Hcb ltac:(lia)) as (Hq1 & Hq2 & Hm & Heq).
  pose proof (div_block_lt cb offset _ Hcb ltac:(lia) (proj2 Hoff)) as Hq.
  set (c := nthZ cs (offset / cb)). pose proof (in_use_valid v c (chain_nth v s cs (offset / cb) Hc ltac:(lia))) as Hval.
  eapply wp_seq; [apply (read_cluster_spec v Hv _ s); done|]. intros [n b'] h1 (Er & Hn1). injection Er as -> ->.
  set (b1 := splice (clus v s c) (offset mod cb) d).
  assert (Hb1 : lenZ b1 = cb) by (unfold b1; rewrite lenZ_splice; rewrite ?lenZ_clus by done; lia).
  eapply wp_seq; [apply (write_cluster_spec v Hv _ s); [apply Hn1|done|apply bytes_splice; [by apply bytes_clus|done]|done]|].
  intros ? h2 Hn2. simpl in Hn2. destruct (now_trans _ _ _ _ _ Hn1 Hn2) as [Hd2 Hl2].
  apply (Hk h2 (clus_upd v s c b1)); [done|done|apply wrote_cluster; done || lia| |done].
  apply free_count_ext. intros y Hy. by apply fat_entry_clus_upd.
Qed.

Lemma write_loop_spec fuel h s cs user block size offset cnt :
  disk_is h s -> chain v s cs -> bytes user -> size <= lenZ user -> 0 <= cnt <= size ->
  0 <= offset < lenZ cs * cb -> offset + (size - cnt) < 2147483648 -> lenZ block = cb -> size - cnt < Z.of_nat fuel ->
  (offset + (size - cnt)) / cb + 1 - lenZ cs <= Z.of_nat (free_count s) ->
  wp (write_loop uninit fuel v user block size (nthZ cs (offset / cb)) offset cnt) h
     (write_post h s cs offset (slice user cnt (size - cnt))).
Proof.
  intros Hd Hc Hub Hul. pose proof (cb_pos v Hv) as Hcb. revert h s cs block offset cnt Hd Hc.
  induction fuel as [|fuel IH]; intros h s cs block offset cnt Hd Hc Hcnt Hoff H31 Hbl Hf Hfree; [lia|].
  cbn [write_loop]. pose proof (disk_is_ok _ _ Hd) as Hs. destruct (Z.ltb_spec cnt size) as [Hlt|Hge].
  2: { apply wp_ret. replace (size - cnt) with 0 by lia. rewrite slice_nil. by apply write_post_nil. }
  pose proof (div_block cb offset Hcb ltac:(lia)) as (Hq1 & Hq2 & Hm & Heq).
  pose proof (div_block_lt cb offset _ Hcb ltac:(lia) (proj2 Hoff)) as Hq.
  set (tmp := Z.min (cb - offset mod cb) (size - cnt)). assert (Htmp : 0 < tmp <= size - cnt) by lia.
  set (d1 := slice user cnt tmp). assert (Hd1 : lenZ d1 = tmp) by (apply lenZ_slice; lia). cbv zeta. rewrite min_Zmin.
  apply (write_piece h s cs offset d1); [done|done|by apply bytes_slice|done|lia|done|].
  intros h2 s1 b1 Hd2 Hl2 W1 Hfr1 Hb1. fold tmp d1.
  rewrite wrap32_small by lia. pose proof (piece_end offset tmp ltac:(lia) ltac:(lia)) as Hend. set (off1 := offset + tmp) in *.
  replace (slice user cnt (size - cnt)) with (d1 ++ slice user (cnt + tmp) (size - (cnt + tmp)))
    by (unfold d1; rewrite <- slice_app by lia; f_equal; lia).
  (* from the boundary on, with a chain that has room *)
  assert (Hgo : forall h3 s3 cs3 blk, disk_is h3 s3 -> log h3 = log h -> wrote s cs offset d1 s3 cs3 ->
      off1 < lenZ cs3 * cb -> lenZ blk = cb ->
      (offset + (size - cnt)) / cb + 1 - lenZ cs3 <= Z.of_nat (free_count s3) ->
      wp (write_loop uninit fuel v user blk size (nthZ cs3 (off1 / cb)) off1 (cnt + tmp)) h3
        (write_post h s cs offset (d1 ++ slice user (cnt + tmp) (size - (cnt + tmp))))).
  { intros h3 s3 cs3 blk Hd3 Hl3 W3 Hr3 Hbk Hfr3. eapply wp_mono.
    - apply (IH h3 s3 cs3); [done|apply W3|lia|lia|lia|done|lia|].
      replace (off1 + (size - (cnt + tmp))) with (offset + (size - cnt)) by lia. done.
    - intros r h4 Hp. eapply write_post_trans; [lia|exact Hl3|exact W3|]. by rewrite Hd1. }
  destruct (off1 mod cb =? 0).
  - apply (next_or_append h2 s1 cs (offset / cb)); [done|apply W1|lia| | |].
    + intros Elen. assert (lenZ cs <= (offset + (size - cnt)) / cb); [|lia]. apply Z.div_le_lower_bound; lia.
    + intros h3 Hin [Hd3 Hl3]. replace (offset / cb + 1) with (off1 / cb) by (rewrite Hend; apply Z.div_mul; lia).
      apply (Hgo h3 s1 cs); [done|congruence|done|rewrite Hend; by apply Z.mul_lt_mono_pos_r|done|lia].
    + intros x h6 Elen Hxu Hxe [Hd6 Hl6].
      pose proof (free_count_append s1 cs x (w_ok _ _ _ _ _ _ W1) (w_chain _ _ _ _ _ _ W1) Hxu) as Hfc.
      replace x with (nthZ (cs ++ [x]) (off1 / cb)) at 1
        by (rewrite Hend, Elen, Z.div_mul, nthZ_app_r, Z.sub_diag by lia; done).
      apply (Hgo h6 (append_cluster s1 (List.last cs 0) x) (cs ++ [x])); rewrite ?lenZ_app; change (lenZ [x]) with 1;
        [done|congruence| |lia|unfold lenZ; rewrite length_replicate; lia|lia].
      rewrite <- (app_nil_r d1). eapply wrote_trans; [lia|exact W1|]. rewrite Hd1. fold off1. rewrite Hend, Elen.
      apply wrote_append; [apply W1|apply W1|done|done].
  - destruct Hend as [Ec Hend]. rewrite <- Ec.
    apply (Hgo h2 s1 cs); [done|done|done| |done|lia].
    eapply Z.lt_le_trans; [exact Hend|]. apply Z.mul_le_mono_nonneg_r; lia.
Qed.

(** ** The whole write *)

(** Changing the block of the file's entry. *)
Section EntryUpdate.
Context (f : Fat16File) (Hpl : entry_place v f) (b : list Z).

Lemma entry_upd_table s c : 0 <= c < nfat v -> fat_entry v (entry_upd v s f b) c = fat_entry v s c.
Proof.
  intros Hc. unfold entry_upd. destruct (Z.eqb_spec (dirent_cluster f) 0) as [E|E].
  - destruct Hpl as [[_ Hk]|Hu]; [|unfold in_use in Hu; lia]. unfold fat_entry. rewrite write_secs_out; [done|].
    pose proof (fat_sector_range v c Hc). vol_facts. lia.
  - destruct Hpl as [[? _]|Hu]; [lia|]. apply fat_entry_clus_upd; [done|by apply in_use_valid|done].
Qed.

Lemma entry_upd_data s c :
  valid v c -> c <> dirent_cluster f -> lenZ b = lenZ (entry_block v s f) -> sectors_ok s ->
  clus v (entry_upd v s f b) c = clus v s c.
Proof.
  intros Hc Hne Hb Hs. unfold entry_upd, entry_block in *. destruct (Z.eqb_spec (dirent_cluster f) 0) as [E|E].
  - destruct Hpl as [[_ Hk]|Hu]; [|unfold in_use in Hu; lia]. apply secs_write_other.
    pose proof (clus_lba_range v Hv c Hc). vol_facts. lia.
  - rewrite lenZ_clus in Hb by done. rewrite clus_clus_upd by done. by rewrite (proj2 (Z.eqb_neq _ c)) by congruence.
Qed.

Lemma entry_upd_block s : lenZ b = lenZ (entry_block v s f) -> sectors_ok s -> entry_block v (entry_upd v s f b) f = b.
Proof.
  intros Hb Hs. unfold entry_upd, entry_block in *. destruct (dirent_cluster f =? 0).
  - rewrite write_secs_in, Z.sub_diag, Z.mul_0_r by lia. apply slice_all. by rewrite Hb, (proj1 (Hs _)).
  - rewrite lenZ_clus in Hb by done. rewrite clus_clus_upd, Z.eqb_refl by done. done.
Qed.

Lemma entry_upd_ok s : lenZ b = lenZ (entry_block v s f) -> sectors_ok s -> bytes b -> sectors_ok (entry_upd v s f b).
Proof.
  intros Hb Hs Hby. unfold entry_upd, entry_block in *. destruct (Z.eqb_spec (dirent_cluster f) 0) as [E|E].
  - destruct Hpl as [[_ Hk]|Hu]; [|unfold in_use in Hu; lia]. vol_facts. apply write_secs_ok; [done|lia|done|].
    rewrite Hb, (proj1 (Hs _)). lia.
  - destruct Hpl as [[? _]|Hu]; [lia|]. rewrite lenZ_clus in Hb by done. apply clus_upd_ok; [done|done|by apply in_use_valid|done|done].
Qed.
End EntryUpdate.

Lemma content_ext s s' cs : (forall c, c ∈ cs -> clus v s' c = clus v s c) -> content s' cs = content s cs.
Proof.
  intros He. unfold file_bytes. f_equal. apply map_ext_in. intros c Hc. apply He. by apply list_elem_of_In.
Qed.

Lemma entry_block_len s f : sectors_ok s -> 512 <= lenZ (entry_block v s f) /\ lenZ (entry_block v s f) mod 32 = 0.
Proof.
  intros Hs. unfold entry_block. vol_facts. destruct (dirent_cluster f =? 0); [by rewrite (proj1 (Hs _))|].
  rewrite lenZ_clus, Vcb by done. split; [lia|]. replace (spc v * 512) with (spc v * 16 * 32) by lia. apply Z.mod_mul. lia.
Qed.

Lemma entry_found_in s f p : sectors_ok s -> entry_found v s f p -> 0 <= p /\ p + 32 <= lenZ (entry_block v s f).
Proof.
  intros Hs Hf. pose proof (entry_block_len s f Hs) as [Hl Hm]. unfold entry_found, search_name_in_block in Hf.
  set (L := lenZ (entry_block v s f)) in *. pose proof (Z.div_mod L 32 ltac:(lia)) as Hd.
  assert (E : (L + 31) / 32 = L / 32) by (symmetry; apply (Z.div_unique _ 32 _ 31); lia). rewrite E in Hf.
  apply (search_prefix (entry_block v s f) (entry_block v s f) _ _ (Z.to_nat (L / 32))) in Hf as (_ & H1 & H2); [done|done| |lia|lia].
  fold L. lia.
Qed.

(** A file open for writing whose entry is found at [p] of its block. *)
Record writable s f cs p : Prop := {
  wr_volume : volume f = v;
  wr_chain : chain v s cs;
  wr_start : start_cluster (dirent f) = hd 0 cs;
  wr_file : is_directory (dirent f) = false;
  wr_mode : has (flag f) FAT16_CTL_WRITE = true;
  wr_pos : 0 <= byte_offset f < lenZ cs * cb;
  wr_cluster : current_cluster f = nthZ cs (byte_offset f / cb);
  wr_dirent : dirent_ok (dirent f);
  wr_place : entry_place v f;
  wr_found : entry_found v s f p;
  wr_apart : dirent_cluster f = 0 \/ (dirent_cluster f ∉ cs /\ fat_entry v s (dirent_cluster f) <> 0);
}.

(** The file after a write of [size] bytes that ends in the clusters [cs']. *)
Definition after_write f cs' size : Fat16File :=
  set_dirent (set_pos f (nthZ cs' ((byte_offset f + size) / cb)) (byte_offset f + size))
             (set_file_size (dirent f) (byte_offset f + size)).

Lemma write_file_spec h s f cs p user size :
  disk_is h s -> writable s f cs p -> bytes user -> 0 <= size <= lenZ user -> byte_offset f + size < 2147483648 ->
  (byte_offset f + size) / cb + 1 - lenZ cs <= Z.of_nat (free_count s) ->
  wp (fat_write_file uninit f user size) h (fun r h' => exists s1 s' cs',
    r = (size, after_write f cs' size) /\ wrote s cs (byte_offset f) (slice user 0 size) s1 cs' /\
    byte_offset f + size < lenZ cs' * cb /\ dirent_cluster f ∉ cs' /\
    s' = entry_upd v s1 f (splice (entry_block v s f) p (dirent_bytes (dirent (after_write f cs' size)))) /\
    entry_block v s1 f = entry_block v s f /\ now h h' s').
Proof.
  intros Hd W Hub Hsz H31 Hfree. pose proof (disk_is_ok _ _ Hd) as Hs. destruct W as [Ev Hc Hst Hdir Hmode Hpos Hcl Hok Hpl Hfound Hap].
  pose proof (cb_pos v Hv) as Hcb. pose proof (div_block cb (byte_offset f) Hcb ltac:(lia)) as (_ & Hq2 & _).
  pose proof (div_block_lt cb _ _ Hcb (proj1 Hpos) (proj2 Hpos)) as Hq.
  unfold fat_write_file. rewrite Hdir, Hmode, Ev. simpl negb. cbv iota. rewrite Hcl.
  rewrite (normal_not_eof _ (in_use_normal v _ (chain_nth v s cs (byte_offset f / cb) Hc ltac:(lia)))).
  eapply wp_seq.
  { apply (write_loop_spec (S (Z.to_nat size)) h s cs user (uninit cb) size (byte_offset f) 0);
      [done|done|done|lia|lia|done|lia|apply uninit_ok; lia|lia|by rewrite Z.sub_0_r]. }
  intros [cl off] h1 (s1 & cs' & Er & W1 & Hroom & Hd1 & Hl1). rewrite Z.sub_0_r in *.
  assert (Hdl : lenZ (slice user 0 size) = size) by (apply lenZ_slice; lia). rewrite Hdl in *. injection Er as -> ->.
  assert (Hnin : dirent_cluster f ∉ cs').
  { intros Hin. pose proof (chain_in_use v _ _ (w_chain _ _ _ _ _ _ W1)) as Hall. eapply Forall_forall in Hall; [|exact Hin].
    destruct Hap as [E|[Hn Hnz]]; [unfold in_use in Hall; lia|]. apply Hnz. by apply (w_fresh _ _ _ _ _ _ W1). }
  assert (Hblk : entry_block v s1 f = entry_block v s f).
  { unfold entry_block. destruct (Z.eqb_spec (dirent_cluster f) 0) as [E|E].
    - apply (w_outside _ _ _ _ _ _ W1). right. destruct Hpl as [[_ Hk]|Hu]; [|unfold in_use in Hu; lia]. vol_facts. lia.
    - apply (w_data _ _ _ _ _ _ W1); [|done]. destruct Hpl as [[? _]|Hu]; [lia|by apply in_use_valid]. }
  set (f1 := after_write f cs' size). fold (after_write f cs' size). fold f1.
  assert (Hok1 : dirent_ok (dirent f1)).
  { destruct Hok. split; try done. simpl. lia. }
  eapply wp_seq.
  { apply (update_dirent_spec uninit uninit_ok v Hv h1 s1 f1 None p); [done|done|done| |done]. unfold entry_found.
    change (entry_block v s1 f1) with (entry_block v s1 f). rewrite Hblk. exact Hfound. }
  intros r h2 [-> Hn2]. apply wp_ret. exists s1, (entry_upd v s1 f (splice (entry_block v s f) p (dirent_bytes (dirent f1)))), cs'.
  split_and!; [done|done|done|done|done|done|].
  change (entry_block v s1 f1) with (entry_block v s1 f) in Hn2. rewrite Hblk in Hn2. destruct Hn2 as [Hd2 Hl2].
  split; [exact Hd2|congruence].
Qed.

(** The state after a write, for the theorems. *)
Lemma write_file_state h s f cs p user size :
  disk_is h s -> writable s f cs p -> bytes user -> 0 < size <= lenZ user -> byte_offset f + size < 2147483648 ->
  (byte_offset f + size) / cb + 1 - lenZ cs <= Z.of_nat (free_count s) ->
  exists h' s' cs', fat_write_file uninit f user size h = Ok ((size, after_write f cs' size), h') /\
    disk_is h' s' /\ log h' = log h /\ chain v s' cs' /\ (exists new, cs' = cs ++ new) /\
    byte_offset f + size < lenZ cs' * cb /\
    slice (content s' cs') 0 (byte_offset f) = slice (content s cs) 0 (byte_offset f) /\
    slice (content s' cs') (byte_offset f) size = slice user 0 size /\
    dirent_at (entry_block v s' f) p = dirent (after_write f cs' size) /\
    (forall c, valid v c -> c ∉ cs' -> c <> dirent_cluster f -> fat_entry v s' c = fat_entry v s c /\ clus v s' c = clus v s c).
Proof.
  intros Hd W Hub Hsz H31 Hfree. pose proof (disk_is_ok _ _ Hd) as Hs. pose proof (cb_pos v Hv) as Hcb.
  pose proof (write_file_spec h s f cs p user size Hd W Hub ltac:(lia) H31 Hfree) as Hw.
  apply wp_Ok in Hw as (r & h' & E & s1 & s' & cs' & -> & W1 & Hroom & Hnin & Es' & Hblk & [Hd' Hl']).
  exists h', s', cs'. pose proof (wr_place _ _ _ _ W) as Hpl. set (f1 := after_write f cs' size) in *.
  set (b := splice (entry_block v s f) p (dirent_bytes (dirent f1))) in *.
  pose proof (w_ok _ _ _ _ _ _ W1) as Hs1. pose proof (w_chain _ _ _ _ _ _ W1) as Hc1.
  assert (Hdl : lenZ (slice user 0 size) = size) by (apply lenZ_slice; lia).
  pose proof (wr_pos _ _ _ _ W) as Hpos.
  assert (Hok1 : dirent_ok (dirent f1)).
  { pose proof (wr_dirent _ _ _ _ W) as Hok. destruct Hok. split; try done. simpl. lia. }
  pose proof (entry_found_in s f p Hs (wr_found _ _ _ _ W)) as [Hp0 Hp32].
  pose proof (lenZ_dirent_bytes _ Hok1) as Hel.
  assert (Hbl : lenZ b = lenZ (entry_block v s1 f)) by (unfold b; rewrite Hblk, lenZ_splice; lia).
  assert (Hall : forall c, c ∈ cs' -> in_use v c).
  { intros c Hc. pose proof (chain_in_use v _ _ Hc1) as Hall. by eapply Forall_forall in Hall. }
  assert (Hc' : chain v s' cs').
  { subst s'. eapply chain_ext; [|exact Hc1]. intros c Hc. apply entry_upd_table; [done|]. specialize (Hall c Hc). unfold in_use in Hall. lia. }
  assert (Hcont : content s' cs' = content s1 cs').
  { subst s'. apply content_ext. intros c Hc. apply entry_upd_data; [done|by apply in_use_valid, Hall|by intros ->|done|done]. }
  pose proof (w_prefix _ _ _ _ _ _ W1) as [new Enew].
  assert (Hlc : lenZ cs <= lenZ cs') by (rewrite Enew, lenZ_app; pose proof (lenZ_nonneg new); lia).
  assert (HC1 : lenZ (content s1 cs') = lenZ cs' * cb) by (by apply lenZ_file_bytes).
  assert (HC0 : lenZ (content s cs) = lenZ cs * cb) by (by apply lenZ_file_bytes).
  split_and!; [done|done|done|done|by exists new|done|..].
  - rewrite Hcont. apply nthZ_ext; [rewrite !lenZ_slice; nia|]. intros i Hi. rewrite lenZ_slice in Hi by nia.
    rewrite !nthZ_slice by lia. apply (w_old _ _ _ _ _ _ W1); nia.
  - rewrite Hcont. apply nthZ_ext; [rewrite !lenZ_slice; lia|]. intros i Hi. rewrite lenZ_slice in Hi by lia.
    rewrite nthZ_slice by lia. apply (w_new _ _ _ _ _ _ W1). lia.
  - subst s'. rewrite entry_upd_block by done. unfold b. rewrite dirent_at_splice by lia. by apply dirent_decode_encode.
  - intros c Hc Hn Hne. subst s'. unfold valid in Hc. split.
    + rewrite entry_upd_table by (done || lia). apply (w_table _ _ _ _ _ _ W1); [lia|done].
    + rewrite entry_upd_data by done. by apply (w_data _ _ _ _ _ _ W1).
Qed.

(** C19. [fat_write_file] on a file open for writing stores the bytes at the
    file's offset and keeps those before it; it appends free clusters to the
    chain as needed, puts the entry back where it was, moves the offset, and
    changes neither the table entries nor the contents of any cluster that is
    not the file's own (or holds its entry). The size in the entry becomes the
    end of the write in every case: a write that ends before the old size
    truncates the file, which the comment above the function does not say (there
    the size changes only when the write exceeds it). *)
Theorem write_file_stores h s f cs p user size :
  disk_is h s -> writable s f cs p -> bytes user -> 0 < size <= lenZ user -> byte_offset f + size < 2147483648 ->
  (byte_offset f + size) / cb + 1 - lenZ cs <= Z.of_nat (free_count s) ->
  exists h' s' cs' f', fat_write_file uninit f user size h = Ok ((size, f'), h') /\ disk_is h' s' /\ chain v s' cs' /\
    (exists new, cs' = cs ++ new) /\
    slice (content s' cs') 0 (byte_offset f) = slice (content s cs) 0 (byte_offset f) /\
    slice (content s' cs') (byte_offset f) size = slice user 0 size /\
    byte_offset f' = byte_offset f + size /\ file_size (dirent f') = byte_offset f + size /\
    (byte_offset f + size < file_size (dirent f) -> file_size (dirent f') < file_size (dirent f)) /\
    dirent_at (entry_block v s' f) p = dirent f' /\
    (forall c, valid v c -> c ∉ cs' -> c <> dirent_cluster f -> fat_entry v s' c = fat_entry v s c /\ clus v s' c = clus v s c).
Proof.
  intros Hd W Hub Hsz H31 Hfree.
  destruct (write_file_state h s f cs p user size Hd W Hub Hsz H31 Hfree)
    as (h' & s' & cs' & E & Hd' & _ & Hc' & Hpre & _ & Hold & Hnew & Hent & Hfr).
  exists h', s', cs', (after_write f cs' size). by split_and!.
Qed.

(** C22. What [fat_write_file] wrote is what [fat_read_file] returns: reading the
    file from its start, after the write, gives the bytes that were before the
    offset followed by the bytes written. *)
Theorem write_read_roundtrip h s f cs p user size buffer :
  disk_is h s -> writable s f cs p -> bytes user -> 0 < size <= lenZ user -> byte_offset f + size < 2147483648 ->
  (byte_offset f + size) / cb + 1 - lenZ cs <= Z.of_nat (free_count s) -> byte_offset f + size <= lenZ buffer ->
  exists h1 f1 h2 f2 out, fat_write_file uninit f user size h = Ok ((size, f1), h1) /\
    fat_read_file uninit (set_pos f1 (start_cluster (dirent f1)) 0) buffer (byte_offset f + size) h1
      = Ok ((byte_offset f + size, f2, out), h2) /\
    slice out 0 (byte_offset f + size) = slice (content s cs) 0 (byte_offset f) ++ slice user 0 size.
Proof.
  intros Hd W Hub Hsz H31 Hfree Hbuf. pose proof (wr_pos _ _ _ _ W) as Hpos. pose proof (cb_pos v Hv) as Hcb.
  destruct (write_file_state h s f cs p user size Hd W Hub Hsz H31 Hfree)
    as (h1 & s' & cs' & E & Hd' & _ & Hc' & [new Enew] & Hroom & Hold & Hnew & Hent & Hfr).
  set (f1 := after_write f cs' size) in *. set (g := set_pos f1 (start_cluster (dirent f1)) 0).
  assert (Hhd : hd 0 cs' = hd 0 cs).
  { rewrite Enew. pose proof (wr_chain _ _ _ _ W). by destruct cs. }
  assert (Hof : open_file v s' g cs').
  { split_and!; [apply W|done|simpl; rewrite Hhd; apply W|apply W|simpl; lia|simpl; lia|].
    split; [simpl; nia|split].
    - intros _. simpl. rewrite (wr_start _ _ _ _ W), <- Hhd. rewrite Z.div_0_l by lia. by destruct cs'.
    - simpl. intros E0. destruct cs' as [|x cs']; [done|]. rewrite lenZ_cons in E0. pose proof (lenZ_nonneg cs'). nia. }
  pose proof (read_file_spec uninit uninit_ok v Hv h1 s' g cs' buffer (byte_offset f + size) Hd' Hof) as HR.
  apply wp_Ok in HR as (r & h2 & E2 & f2 & out & -> & Hout & _); [|simpl; lia|lia|simpl; lia].
  simpl in E2, Hout. rewrite Z.sub_0_r, Z.min_id in E2, Hout.
  exists h1, f1, h2, f2, out. split; [done|]. split; [exact E2|]. rewrite Hout.
  rewrite slice_app by lia. by rewrite Hold, Z.add_0_l, Hnew.
Qed.
End Write.
