(* ===== verification/FatOpen.v ===== *)
(** * Finding and opening files

    A directory is the bytes of the root area or of a cluster chain, whatever
    the blocks it is read in; looking up a name is a search over all of its
    entries ([search_dir]).  [_fat_search_file] implements this search,
    [fat16_find] the walk along a path, and [fat_open] gives a file whose reads
    deliver the bytes of the chain the entry points to. *)
From S2P Require Import Prelude CMem CString Sink Print Disk Common Ata FatName Fat FatTable FatFree FatFile FatDir.
Import CString Print FatName Common Fat.
Open Scope list_scope.

(** ** Searching a directory block by block *)

(** Over all entries of a directory; looking up a name. *)
Definition scan_dir (P : FatDirEntry -> bool) (d : list Z) : option Z := scan_entries P (Z.to_nat ((lenZ d + 31) / 32)) d 0.
Definition search_dir (d name : list Z) : option Z := search_name_in_block d (lenZ d) name.

Lemma search_dir_scan d name : search_dir d name = scan_dir (named name) d.
Proof. apply search_loop_scan. Qed.

Lemma scan_add P n m block p :
  scan_entries P (n + m) block p = match scan_entries P n block p with Some q => Some q | None => scan_entries P m block (p + 32 * Z.of_nat n) end.
Proof.
  revert p. induction n as [|n IH]; intros p; cbn [scan_entries Nat.add].
  - f_equal. lia.
  - case_match; [done|]. rewrite IH. destruct (scan_entries P n block (p + 32)); [done|]. f_equal. lia.
Qed.

(** Blocks that agree, at different offsets. *)
Lemma scan_shift P n a b p q :
  0 <= p -> 0 <= q -> p + 32 * Z.of_nat n <= lenZ a -> q + 32 * Z.of_nat n <= lenZ b ->
  (forall i, 0 <= i < 32 * Z.of_nat n -> nthZ a (p + i) = nthZ b (q + i)) ->
  scan_entries P n a p = option_map (fun x => x - q + p) (scan_entries P n b q).
Proof.
  revert p q. induction n as [|n IH]; intros p q Hp Hq Ha Hb He; cbn [scan_entries]; [done|].
  rewrite (dirent_at_ext a b p q); [|lia|lia|lia|lia|intros i Hi; apply He; lia].
  case_match; simpl; [f_equal; lia|]. rewrite (IH (p + 32) (q + 32)); [|lia|lia|lia|lia|].
  - destruct (scan_entries P n b (q + 32)); simpl; [f_equal; lia|done].
  - intros i Hi. rewrite <- !Z.add_assoc. apply He. lia.
Qed.

Lemma entries_div n : 0 <= n -> (32 * n + 31) / 32 = n.
Proof. intros. symmetry. apply (Z.div_unique _ 32 _ 31); lia. Qed.

Lemma scan_dir_app P a b :
  lenZ a mod 32 = 0 -> lenZ b mod 32 = 0 ->
  scan_dir P (a ++ b) =
    match scan_dir P a with Some p => Some p | None => option_map (fun p => p + lenZ a) (scan_dir P b) end.
Proof.
  intros Ha Hb. pose proof (lenZ_nonneg a). pose proof (lenZ_nonneg b).
  pose proof (Z.div_mod (lenZ a) 32 ltac:(lia)) as Ea. pose proof (Z.div_mod (lenZ b) 32 ltac:(lia)) as Eb.
  rewrite Ha, Z.add_0_r in Ea. rewrite Hb, Z.add_0_r in Eb. set (x := lenZ a / 32) in *. set (y := lenZ b / 32) in *.
  unfold scan_dir. rewrite lenZ_app, Ea, Eb, <- Z.mul_add_distr_l, !entries_div by lia.
  rewrite Z2Nat.inj_add, scan_add by lia. rewrite Z.add_0_l, Z2Nat.id by lia.
  rewrite (scan_shift P (Z.to_nat x) (a ++ b) a 0 0); rewrite ?lenZ_app; [|lia|lia|lia|lia|].
  2: { intros i Hi. by rewrite nthZ_app_l by lia. }
  destruct (scan_entries P (Z.to_nat x) a 0); simpl; [f_equal; lia|].
  rewrite (scan_shift P (Z.to_nat y) (a ++ b) b (32 * x) 0); rewrite ?lenZ_app; [|lia|lia|lia|lia|].
  - destruct (scan_entries P (Z.to_nat y) b 0); simpl; [f_equal; lia|done].
  - intros i Hi. rewrite nthZ_app_r by lia. f_equal. lia.
Qed.

Lemma search_dir_app a b name :
  lenZ a mod 32 = 0 -> lenZ b mod 32 = 0 ->
  search_dir (a ++ b) name =
    match search_dir a name with Some p => Some p | None => option_map (fun p => p + lenZ a) (search_dir b name) end.
Proof. intros. rewrite !search_dir_scan. by apply scan_dir_app. Qed.

Lemma scan_dir_range P d p :
  lenZ d mod 32 = 0 -> scan_dir P d = Some p -> 0 <= p /\ p + 32 <= lenZ d /\ p mod 32 = 0 /\ P (dirent_at d p) = true.
Proof.
  intros Hm Hs. unfold scan_dir in Hs. pose proof (lenZ_nonneg d).
  pose proof (scan_entries_spec P (Z.to_nat ((lenZ d + 31) / 32)) d 0) as Hp. change (32 * 0) with 0 in Hp. rewrite Hs in Hp.
  pose proof (Z.div_mod (lenZ d) 32 ltac:(lia)) as Ed. rewrite Hm, Z.add_0_r in Ed.
  rewrite Ed, entries_div in Hp by (apply Z.div_pos; lia).
  destruct Hp as (j & Hj & -> & Hh & _). split_and!; [lia|lia| |done]. rewrite Z.mul_comm. by apply Z.mod_mul.
Qed.

Lemma search_dir_range d name p :
  lenZ d mod 32 = 0 -> search_dir d name = Some p -> 0 <= p /\ p + 32 <= lenZ d /\ p mod 32 = 0 /\ hit d name p = true.
Proof. rewrite search_dir_scan. apply scan_dir_range. Qed.

(** An entry of the first or of the second of two blocks. *)
Lemma dirent_at_app_l a b p : 0 <= p -> p + 32 <= lenZ a -> dirent_at (a ++ b) p = dirent_at a p.
Proof.
  intros. pose proof (lenZ_nonneg b). apply dirent_at_ext; rewrite ?lenZ_app; try lia.
  intros i Hi. by rewrite nthZ_app_l by lia.
Qed.
Lemma dirent_at_app_r a b p : 0 <= p -> p + 32 <= lenZ b -> dirent_at (a ++ b) (p + lenZ a) = dirent_at b p.
Proof.
  intros. pose proof (lenZ_nonneg a). apply dirent_at_ext; rewrite ?lenZ_app; try lia.
  intros i Hi. rewrite nthZ_app_r by lia. f_equal. lia.
Qed.

Section Open.
Context {D : Type} `{BlockDev D} (uninit : Z -> list Z).
Hypothesis uninit_ok : forall n, 0 <= n -> lenZ (uninit n) = n /\ bytes (uninit n).
Context (v : Fat16Volume) (Hv : vol_ok v) (Hroot : root_sectors v mod spc v = 0).
Implicit Types (h : host D) (s : Z -> list Z) (c : Z) (cs : list Z) (f : Fat16File).
Abbreviation cb := (cluster_bytes v).

(** The root directory and the directory in a chain, with the place (sector,
    cluster) of the entry at an offset; the sector is only recorded for the
    root. *)
Inductive directory s : Z -> list Z -> (Z -> Z -> Z * Z) -> Prop :=
| dir_root : directory s 0 (secs s (root_dir_start v) (root_sectors v)) (fun _ p => (root_dir_start v + p / 512, 0))
| dir_chain cs : chain v s cs -> directory s (hd 0 cs) (file_bytes v s cs) (fun old p => (old, nthZ cs (p / cb))).

(** The file after its entry was found at offset [p] of the directory [d]. *)
Definition found f (d : list Z) (place : Z -> Z -> Z * Z) (p : Z) : Fat16File :=
  let e := dirent_at d p in
  let '(sector, cluster) := place (dirent_sector f) p in
  set_pos (set_where (set_dirent f e) sector cluster) (start_cluster e) (byte_offset f).

Lemma secs_split s l n m : 0 <= n -> 0 <= m -> secs s l (n + m) = secs s l n ++ secs s (l + n) m.
Proof.
  intros Hn Hm. unfold secs. rewrite seqZ_app by done. rewrite map_app. apply concat_app.
Qed.

Lemma secs_mod32 s l n : sectors_ok s -> 0 <= n -> lenZ (secs s l n) mod 32 = 0.
Proof. intros Hs Hn. rewrite lenZ_secs by done. replace (512 * n) with (16 * n * 32) by lia. by apply Z.mod_mul. Qed.

(** [q] chunks of the root area are left, from sector [lba] on. *)
Lemma search_root_loop_spec fuel h s b name lba q :
  disk_is h s -> lenZ b = cb -> root_dir_start v <= lba -> 0 <= q -> lba + q * spc v = root_dir_start v + root_sectors v ->
  q < Z.of_nat fuel ->
  wp (search_root_loop fuel v b name lba) h (fun r h' => now h h' s /\
    match search_dir (secs s lba (q * spc v)) name with
    | None => r = None
    | Some p => exists b' p' lba', r = Some (b', p', lba') /\ dirent_at b' p' = dirent_at (secs s lba (q * spc v)) p /\
                                   wrap32 (lba' + p' / 512) = lba + p / 512
    end).
Proof.
  intros Hd. pose proof (disk_is_ok _ _ Hd) as Hs. vol_facts. revert h b lba q Hd.
  induction fuel as [|fuel IH]; intros h b lba q Hd Hb Hlo Hq Hend Hf; [lia|]. cbn [search_root_loop].
  destruct (decide (q = 0)) as [->|Hq0].
  { rewrite wrap32_small by lia. rewrite (proj2 (Z.ltb_ge _ _)) by lia. apply wp_ret. rewrite Z.mul_0_l, secs_0. by split. }
  pose proof (mul_le_self (spc v) q ltac:(lia) ltac:(lia)) as Hle. rewrite wrap32_small by lia. rewrite (proj2 (Z.ltb_lt _ _)) by lia.
  eapply wp_seq; [apply (read_full _ s); done || lia|]. intros [n b'] h1 (Er & Hd1 & Hl1). injection Er as -> ->.
  rewrite splice_all by (rewrite lenZ_secs by (done || lia); lia). set (blk := secs s lba (spc v)).
  assert (Hbl : lenZ blk = spc v * bps v) by (unfold blk; rewrite lenZ_secs by (done || lia); lia).
  rewrite <- Hbl. fold (search_dir blk name).
  replace (q * spc v) with (spc v + (q - 1) * spc v) by lia. rewrite secs_split by (nia || lia). fold blk.
  pose proof (secs_mod32 s lba (spc v) Hs ltac:(lia)) as Hm1. fold blk in Hm1.
  pose proof (secs_mod32 s (lba + spc v) ((q - 1) * spc v) Hs ltac:(nia)) as Hm2. set (tl := secs s (lba + spc v) ((q - 1) * spc v)) in *.
  rewrite search_dir_app by done. destruct (search_dir blk name) as [p|] eqn:E.
  - apply (search_dir_range _ _ _ Hm1) in E as (Hp0 & Hp1 & _). apply wp_ret. split; [by split|].
    exists blk, p, lba. split; [done|]. split; [symmetry; apply dirent_at_app_l; lia|].
    assert (0 <= p / 512) by (apply Z.div_pos; lia).
    assert (p / 512 < spc v) by (apply Z.div_lt_upper_bound; lia). apply wrap32_small. lia.
  - rewrite wrap32_small by lia. eapply wp_mono; [apply (IH h1 blk (lba + spc v) (q - 1)); [done|lia|lia|lia|lia|lia]|].
    fold tl. intros r h' [[Hd' Hl'] Hr]. split; [split; [done|congruence]|].
    destruct (search_dir tl name) as [p|] eqn:E2; simpl; [|done].
    apply (search_dir_range _ _ _ Hm2) in E2 as (Hp0 & Hp1 & _).
    destruct Hr as (b' & p' & lba' & -> & He & Hw). exists b', p', lba'. split; [done|].
    split; [rewrite He; symmetry; by apply dirent_at_app_r|].
    rewrite Hw, Hbl, Vbps, Z.div_add by lia. lia.
Qed.

Lemma search_chain_spec fuel h s f b name cs :
  disk_is h s -> volume f = v -> chain v s cs -> lenZ b = cb -> (length cs < fuel)%nat ->
  wp (search_file_loop uninit fuel f b name (hd 0 cs)) h (fun r h' => now h h' s /\
    r = option_map (found f (file_bytes v s cs) (fun old p => (old, nthZ cs (p / cb)))) (search_dir (file_bytes v s cs) name)).
Proof.
  intros Hd Ev. pose proof (disk_is_ok _ _ Hd) as Hs. vol_facts. revert h b cs Hd.
  induction fuel as [|fuel IH]; intros h b cs Hd Hc Hb Hf; [lia|]. cbn [search_file_loop].
  destruct cs as [|c cs]; [done|]. pose proof Hc as [Hu Hr]. simpl hd. rewrite (in_use_normal v c Hu), Ev.
  pose proof (in_use_valid v c Hu) as Hval. unfold valid in Hval.
  eapply wp_seq; [apply (read_cluster_spec v Hv _ s); done|]. intros [n b'] h1 (Er & Hn1). injection Er as -> ->.
  rewrite (proj2 (Z.eqb_neq (spc v) 0)) by lia. set (blk := clus v s c).
  assert (Hbl : lenZ blk = cb) by (by apply lenZ_clus). rewrite <- Hbl at 1. fold (search_dir blk name).
  assert (Hfb : file_bytes v s (c :: cs) = blk ++ file_bytes v s cs) by done. rewrite Hfb.
  assert (Hm1 : lenZ blk mod 32 = 0) by (apply (secs_mod32 s); done || lia).
  assert (Hm2 : lenZ (file_bytes v s cs) mod 32 = 0).
  { rewrite lenZ_file_bytes, Vcb by done. replace (lenZ cs * (spc v * 512)) with (lenZ cs * spc v * 16 * 32) by lia. by apply Z.mod_mul. }
  rewrite search_dir_app by done. destruct (search_dir blk name) as [p|] eqn:E.
  - apply (search_dir_range _ _ _ Hm1) in E as (Hp0 & Hp1 & _). apply wp_ret. split; [done|]. simpl. f_equal. unfold found.
    rewrite dirent_at_app_l by lia. rewrite Z.div_small by lia. done.
  - eapply wp_seq; [apply (next_cluster_spec uninit uninit_ok v Hv _ s); [apply Hn1|lia]|]. intros ? h2 [-> Hn2].
    destruct cs as [|c' cs].
    + destruct fuel as [|fuel]; [simpl in Hf; lia|]. cbn [search_file_loop]. rewrite (eof_not_normal _ Hr). apply wp_ret.
      split; [by eapply now_trans|]. done.
    + destruct Hr as [-> Hr]. eapply wp_mono; [apply (IH h2 blk (c' :: cs)); [apply Hn2|done|done|simpl in *; lia]|].
      intros r h' [Hn' ->]. split; [eapply now_trans; [|exact Hn']; by eapply now_trans|].
      destruct (search_dir (file_bytes v s (c' :: cs)) name) as [p|] eqn:E2; simpl; [|done]. f_equal.
      apply (search_dir_range _ _ _ Hm2) in E2 as (Hp0 & Hp1 & _). unfold found.
      rewrite dirent_at_app_r by done. rewrite Hbl. replace (p + cb) with (p + 1 * cb) by lia. rewrite Z.div_add by lia.
      assert (0 <= p / cb) by (apply Z.div_pos; lia). rewrite (nthZ_cons c) by lia. by replace (p / cb + 1 - 1) with (p / cb) by lia.
Qed.

Lemma search_file_spec h s f name start d place :
  disk_is h s -> volume f = v -> directory s start d place ->
  wp (_fat_search_file uninit f name start) h (fun r h' => now h h' s /\ r = option_map (found f d place) (search_dir d name)).
Proof.
  intros Hd Ev Hdir. vol_facts. unfold _fat_search_file. rewrite Ev. destruct Hdir as [|cs Hc].
  - change (0 =? FAT_CLUS_ROOT) with true. cbv iota. unfold _fat_search_root. rewrite Ev.
    pose proof (Z.div_mod (root_sectors v) (spc v) ltac:(lia)) as Hq. rewrite Hroot, Z.add_0_r in Hq.
    pose proof (div_le_self (root_sectors v) (spc v) ltac:(lia) ltac:(lia)).
    apply wp_bind. eapply wp_seq.
    { apply (search_root_loop_spec _ h s _ name (root_dir_start v) (root_sectors v / spc v)); [done|apply uninit_ok; lia|lia|lia|lia|lia]. }
    intros r h' [Hn Hr]. rewrite (Z.mul_comm _ (spc v)), <- Hq in Hr.
    destruct (search_dir (secs s (root_dir_start v) (root_sectors v)) name) as [p|].
    + destruct Hr as (b' & p' & lba' & -> & He & Hw). apply wp_ret, wp_ret. split; [done|]. cbn [option_map]. change (0 <? 1) with true.
      f_equal. unfold found. cbv beta iota zeta.
      by rewrite He, Vbps, Hw.
    + subst r. apply wp_ret, wp_ret. by split.
  - pose proof (chain_hd_nonzero v s cs Hc) as Hne. change FAT_CLUS_ROOT with 0. rewrite (proj2 (Z.eqb_neq _ 0)) by done.
    pose proof (chain_length v s cs Hc). unfold lenZ in *.
    apply search_chain_spec; [done|done|done|apply uninit_ok; lia|lia].
Qed.

(** ** Paths *)

(** The components of a path: its words between slashes. *)
Definition components (p : list Z) : list (list Z) :=
  match drop_char 47 p with [] => [] | _ => words (S (length p)) 47 p end.

(** Every component fits the array [seg] with its terminator. *)
Definition short (ws : list (list Z)) : Prop := Forall (fun w => lenZ w < SEG_SIZE) ws.

(** Where the walk from the entry of [f] along the components leads. *)
Inductive resolves s : Fat16File -> list (list Z) -> option Fat16File -> Prop :=
| res_done f : resolves s f [] (Some f)
| res_step f w ws d place p r :
    directory s (start_cluster (dirent f)) d place -> search_dir d (name83 w ++ replicate 7 0) = Some p ->
    resolves s (found f d place p) ws r -> resolves s f (w :: ws) r
| res_miss f w ws d place :
    directory s (start_cluster (dirent f)) d place -> search_dir d (name83 w ++ replicate 7 0) = None ->
    resolves s f (w :: ws) None.

Lemma first_word_nonempty d l : drop_char d l <> [] -> first_word d l <> [].
Proof.
  unfold first_word. destruct (drop_char d l) as [|c r] eqn:E; [done|]. intros _.
  pose proof (drop_char_cons _ _ _ _ E). simpl. by rewrite (proj2 (Z.eqb_neq c d)).
Qed.

Lemma after_word_stripped d l c r : after_word d l = c :: r -> drop_char d (c :: r) <> [].
Proof. unfold after_word. intros E. pose proof (drop_char_cons _ _ _ _ E). simpl. by rewrite (proj2 (Z.eqb_neq c d)). Qed.

Lemma found_volume f d place p : volume (found f d place p) = volume f.
Proof. unfold found. by destruct (place (dirent_sector f) p). Qed.

Lemma find_loop_spec fuel h s f next r :
  disk_is h s -> volume f = v -> drop_char 47 next <> [] -> lenZ next < Z.of_nat fuel ->
  short (words fuel 47 next) -> resolves s f (words fuel 47 next) r ->
  wp (find_loop uninit fuel f next) h (fun r' h' => r' = r /\ now h h' s).
Proof.
  revert h f next. induction fuel as [|fuel IH]; intros h f next Hd Ev Hne Hf Hsh Hr; [pose proof (lenZ_nonneg next); lia|].
  rewrite words_step in Hr, Hsh. cbn [find_loop]. pose proof (first_word_nonempty 47 next Hne) as Hw.
  apply Forall_cons in Hsh as [Hsg Hsh]. rewrite (proj2 (Z.leb_gt SEG_SIZE _)) by done.
  destruct (first_word 47 next) as [|x w] eqn:Ew; [done|]. unfold fat_search_file.
  inversion Hr as [|f0 w0 ws d place p r0 Hdir Hsd Hres|f0 w0 ws d place Hdir Hsd]; subst.
  - eapply wp_seq; [apply (search_file_spec _ s _ _ _ _ _ Hd Ev Hdir)|]. intros r' h1 [Hn1 ->]. rewrite Hsd. cbn [option_map].
    destruct (after_word 47 next) as [|y rest] eqn:Ea.
    + inversion Hres; subst. apply wp_ret. by split.
    + pose proof (after_word_shorter 47 next _ _ Ea) as Hlt. rewrite Ea in Hlt.
      eapply wp_mono; [apply (IH h1 (found f d place p) (y :: rest));
        [apply Hn1|by rewrite found_volume|by eapply after_word_stripped|lia|done|done]|].
      intros r' h' [-> Hn']. split; [done|]. by eapply now_trans.
  - eapply wp_seq; [apply (search_file_spec _ s _ _ _ _ _ Hd Ev Hdir)|]. intros r' h1 [Hn1 ->]. rewrite Hsd. by apply wp_ret.
Qed.

Lemma find_spec h s f p r :
  disk_is h s -> volume f = v -> p <> [47] -> short (components p) -> resolves s (set_dirent f (root v)) (components p) r ->
  wp (fat16_find uninit f p) h (fun r' h' => r' = r /\ now h h' s).
Proof.
  intros Hd Ev Hp Hsh Hr. unfold fat16_find. rewrite Ev, bool_decide_eq_false_2 by done. unfold components in Hr, Hsh.
  destruct (drop_char 47 p) as [|c l] eqn:E.
  - inversion Hr; subst. cbn [find_loop]. unfold first_word. rewrite E. by apply wp_ret.
  - apply find_loop_spec; [done|done|by rewrite E|unfold lenZ; lia|done|done].
Qed.

(** C30. [fat16_find] walks a path whose components have at most 15 characters,
    as many as fit the array [seg[16]] with a terminator: each component is looked up among the used
    entries of the current directory (the whole root area, or all clusters of
    the directory's chain) by its padded upper-case name, the first match is
    entered, and the result is the file record of the last one with the place of
    its entry, or [NULL] at the first component that is not found.  The disk does
    not change. *)
Theorem find_walks_path h s f p r :
  disk_is h s -> volume f = v -> p <> [47] -> short (components p) -> resolves s (set_dirent f (root v)) (components p) r ->
  exists h', fat16_find uninit f p h = Ok (r, h') /\ disk_is h' s /\ log h' = log h.
Proof.
  intros Hd Ev Hp Hsh Hr. pose proof (find_spec h s f p r Hd Ev Hp Hsh Hr) as Hw.
  apply wp_Ok in Hw as (r' & h' & E & -> & Hd' & Hl). by exists h'.
Qed.

(** ** Opening *)

Context `{HP : HeapPolicy}.

(** The three blocks of an open file. *)
Definition blocks_of (p : list Z) : list event := [EvAlloc 28; EvAlloc 32; EvAlloc (lenZ p + 1)].

(** The heap grants them after the calls of [l]. *)
Definition room_for (l : list event) (p : list Z) : Prop :=
  heap_grants l 28 = true /\ heap_grants (l ++ [EvAlloc 28]) 32 = true /\ heap_grants (l ++ [EvAlloc 28; EvAlloc 32]) (lenZ p + 1) = true.

Lemma wp_kmalloc {A} h n (k : unit -> IO D A) Q :
  heap_grants (log h) n = true -> wp (k tt) (mk_host (dev h) (log h ++ [EvAlloc n])) Q -> wp (call_kmalloc n ≫= k) h Q.
Proof. intros Hg Hk. apply wp_bind. unfold call_kmalloc, wp at 1. by rewrite Hg. Qed.

(** [fat_open] up to the walk. *)
Lemma new_file_bind {A} h p fl (k : Fat16File -> IO D A) Q :
  room_for (log h) p -> wp (k (mk_file (Some p) v (dirent_at (uninit 32) 0) 255 255 255 0 fl)) (mk_host (dev h) (log h ++ blocks_of p)) Q ->
  wp (new_fat16_file uninit (Some p) v None fl ≫= k) h Q.
Proof.
  intros (H1 & H2 & H3) Hk. apply wp_bind. unfold new_fat16_file. apply wp_kmalloc; [done|]. apply wp_bind, wp_kmalloc; [done|].
  apply wp_ret. apply wp_kmalloc; cbn [log dev]; rewrite <- !app_assoc; [done|]. by apply wp_ret.
Qed.

(** The record [fat_open] starts the walk with. *)
Definition fresh_file p fl : Fat16File := mk_file (Some p) v (root v) 255 255 255 0 fl.

Lemma open_existing_spec h s p fl f :
  disk_is h s -> p <> [47] -> short (components p) -> room_for (log h) p -> has fl FAT16_CTL_APPEND = false ->
  resolves s (fresh_file p fl) (components p) (Some f) ->
  wp (open_existing uninit v p fl) h (fun r h' => r = Some f /\ disk_is h' s /\ log h' = log h ++ blocks_of p).
Proof.
  intros Hd Hp Hsh Hrm Hfl Hr. unfold open_existing. apply new_file_bind; [done|]. set (h1 := mk_host _ _).
  eapply wp_seq; [apply (find_spec h1 s _ p (Some f)); [done|done|done|done|exact Hr]|].
  intros r h' [-> [Hd' Hl']]. rewrite Hfl. by apply wp_ret.
Qed.

Lemma resolves_kept s f ws r : resolves s f ws r ->
  match r with
  | Some g => volume g = volume f /\ path g = path f /\ byte_offset g = byte_offset f /\ flag g = flag f /\
              (ws <> [] -> current_cluster g = start_cluster (dirent g))
  | None => True
  end.
Proof.
  induction 1 as [f|f w ws d place p r Hdir Hsd Hres IH|]; [done| |done]. destruct r as [g|]; [|done].
  destruct IH as (E1 & E2 & E3 & E4 & E5). unfold found in *. destruct (place (dirent_sector f) p) as [sec cl]. simpl in *.
  split_and!; [done|done|done|done|]. intros _. destruct ws as [|w' ws]; [|by apply E5].
  inversion Hres; subst. done.
Qed.

(** C18. Opening, reading and closing compose: when the components of the path fit
    [seg[16]], the heap grants the three blocks of an open file, and the walk along
    the path leads to the entry of a regular file, [fat_open] returns it at offset 0, reads
    deliver the bytes of the chain the entry points to, up to the size in the
    entry, and [fat_close] returns to the heap exactly the three blocks [fat_open]
    took.  The disk does not change. *)
Theorem open_read_close h s fuel p fl f cs ns :
  disk_is h s -> p <> [47] -> short (components p) -> room_for (log h) p ->
  has fl FAT16_CTL_CREATE = false -> has fl FAT16_CTL_APPEND = false ->
  components p <> [] -> resolves s (fresh_file p fl) (components p) (Some f) ->
  is_directory (dirent f) = false -> chain v s cs -> start_cluster (dirent f) = hd 0 cs ->
  0 <= file_size (dirent f) <= lenZ cs * cb -> Forall (fun n => 0 < n) ns -> sum ns < 2147483648 ->
  exists h1 h2 h3, fat_open uninit fuel v p fl h = Ok (Some f, h1) /\
    reads uninit f ns h1 = Ok (slice (file_bytes v s cs) 0 (Z.min (sum ns) (file_size (dirent f))), h2) /\
    fat_close f h2 = Ok (tt, h3) /\ disk_is h3 s /\
    log h3 = log h ++ blocks_of p ++ [EvFree (lenZ p + 1); EvFree 32; EvFree 28].
Proof.
  intros Hd Hp Hsh Hrm Hcr Hap Hws Hr Hdir Hc Hst Hsz Hns H31. pose proof (disk_is_ok _ _ Hd) as Hs. pose proof (cb_pos v Hv) as Hcb.
  pose proof (open_existing_spec h s p fl f Hd Hp Hsh Hrm Hap Hr) as Hw. apply wp_Ok in Hw as (r & h1 & E1 & -> & Hd1 & Hl1).
  pose proof (resolves_kept _ _ _ _ Hr) as (Ev & Epath & Eoff & _ & Ecur). specialize (Ecur Hws). simpl in Ev, Epath, Eoff.
  assert (Hne : 0 < lenZ cs) by (destruct cs; [done|rewrite lenZ_cons; pose proof (lenZ_nonneg cs); lia]).
  assert (Hof : open_file v s f cs).
  { split_and!; [done|done|done|done|lia|lia|]. rewrite Eoff, Ecur, Hst. split; [nia|]. split; [|nia].
    intros _. rewrite Z.div_0_l by lia. by destruct cs. }
  destruct (reads_spec uninit uninit_ok v Hv h1 s f cs ns Hd1 Hof ltac:(lia) Hns ltac:(lia)) as (h2 & E2 & Hd2 & Hl2).
  rewrite Eoff, Z.sub_0_r in E2. eexists h1, h2, _. split; [unfold fat_open; by rewrite Hcr|]. split; [exact E2|].
  split; [unfold fat_close; rewrite Epath; reflexivity|]. split; [exact Hd2|]. simpl. rewrite Hl2, Hl1. by rewrite <- !app_assoc.
Qed.
End Open.
