(* ===== verification/FatAppend.v ===== *)
(** * Appending to a file

    [fat_open] with [FAT16_CTL_APPEND] and [fat_write_file] compose: the bytes
    written follow the old contents, and the directory entry that the walk found
    is the one that records the new size. *)
From S2P Require Import Prelude CMem CString Sink Print Disk Common Ata FatName Fat FatTable FatFree FatFile FatDir FatWrite FatOpen.
Import CString Print FatName Common Fat.
Open Scope list_scope.

(** ** The entry in its block *)

(** The first match in a directory is the first match in its block. *)
Lemma search_dir_block d blk name off p :
  (forall i, 0 <= i < lenZ blk -> nthZ blk i = nthZ d (off + i)) -> 0 <= off -> off mod 32 = 0 -> off + lenZ blk <= lenZ d ->
  lenZ blk mod 32 = 0 -> lenZ d mod 32 = 0 -> search_dir d name = Some p -> off <= p < off + lenZ blk ->
  search_dir blk name = Some (p - off) /\ dirent_at blk (p - off) = dirent_at d p.
Proof.
  intros Hb Ho Hom Hl Hbm Hdm Hs Hp. pose proof (search_dir_range d name p Hdm Hs) as (Hp0 & Hp1 & Hpm & _).
  pose proof (Z.div_mod (lenZ blk) 32 ltac:(lia)) as Eb. rewrite Hbm, Z.add_0_r in Eb.
  pose proof (Z.div_mod off 32 ltac:(lia)) as Eo. rewrite Hom, Z.add_0_r in Eo.
  pose proof (Z.div_mod p 32 ltac:(lia)) as Ep. rewrite Hpm, Z.add_0_r in Ep.
  assert (He : forall q, 0 <= q -> q + 32 <= lenZ blk -> dirent_at blk q = dirent_at d (off + q)).
  { intros q Hq Hq1. apply dirent_at_ext; [lia|lia|lia|lia|]. intros i Hi. rewrite Hb by lia. f_equal. lia. }
  split; [|rewrite He by lia; f_equal; lia].
  unfold search_dir, search_name_in_block in *. pose proof (lenZ_nonneg d).
  pose proof (Z.div_mod (lenZ d) 32 ltac:(lia)) as Ed. rewrite Hdm, Z.add_0_r in Ed.
  pose proof (search_loop_spec (Z.to_nat ((lenZ d + 31) / 32)) d name 0) as Hsp. change (32 * 0) with 0 in Hsp. rewrite Hs in Hsp.
  destruct Hsp as (j & Hj & Epj & Hh & Hall). rewrite Eb at 1. rewrite entries_div by lia.
  replace (p - off) with (32 * (j - off / 32)) by lia. change 0 with (32 * 0) at 1.
  apply search_loop_first; [lia| |].
  - unfold hit. rewrite He by lia. replace (off + 32 * (j - off / 32)) with p by lia. exact Hh.
  - intros k Hk. unfold hit. rewrite He by lia. replace (off + 32 * k) with (32 * (off / 32 + k)) by lia. apply Hall. lia.
Qed.

(** A search only depends on the first eight characters of the name. *)
Lemma search_loop_name n blk name name' p :
  (forall i, 0 <= i < 8 -> nthZ name i = nthZ name' i) -> search_loop n blk name p = search_loop n blk name' p.
Proof.
  intros Hn. revert p. induction n as [|n IH]; intros p; cbn [search_loop]; [done|].
  assert (E : fat_filename_match (dirent_at blk p) name = fat_filename_match (dirent_at blk p) name').
  { apply eq_true_iff_eq. unfold fat_filename_match. rewrite !equal_range_spec.
    split; intros He j Hj; rewrite He by done; [|symmetry]; apply Hn; lia. }
  by rewrite E, IH.
Qed.

Lemma hit_name d name p :
  0 <= p -> p + 32 <= lenZ d -> hit d name p = true -> forall i, 0 <= i < 8 -> nthZ name i = nthZ (filename (dirent_at d p)) i.
Proof.
  intros Hp Hl Hh. unfold hit in Hh. apply andb_true_iff in Hh as [_ Hm]. unfold fat_filename_match in Hm.
  rewrite equal_range_spec in Hm. intros i Hi. symmetry. apply Hm. lia.
Qed.

Section Append.
Context {D : Type} `{BlockDev D} (uninit : Z -> list Z).
Hypothesis uninit_ok : forall n, 0 <= n -> lenZ (uninit n) = n /\ bytes (uninit n).
Context (v : Fat16Volume) (Hv : vol_ok v) (Hroot : root_sectors v mod spc v = 0).
Implicit Types (h : host D) (s : Z -> list Z) (c : Z) (cs : list Z) (f : Fat16File).
Abbreviation cb := (cluster_bytes v).
Abbreviation content s cs := (file_bytes v s cs).

Lemma file_bytes_mod32 s cs : sectors_ok s -> lenZ (content s cs) mod 32 = 0.
Proof.
  intros Hs. vol_facts. rewrite lenZ_file_bytes, Vcb by done.
  replace (lenZ cs * (spc v * 512)) with (lenZ cs * spc v * 16 * 32) by lia. by apply Z.mod_mul.
Qed.

Lemma directory_shape s start d place :
  sectors_ok s -> directory v s start d place -> bytes d /\ lenZ d mod 32 = 0.
Proof.
  intros Hs [|cs Hc]; vol_facts.
  - split; [by apply bytes_secs|by apply secs_mod32].
  - split; [|by apply file_bytes_mod32]. unfold file_bytes. apply Forall_concat, Forall_map, Forall_forall. intros c _. by apply bytes_clus.
Qed.

(** The entry that a lookup finds is at its recorded place, and is the first
    entry of that block with its name. *)
Lemma found_entry s f start d place name p :
  sectors_ok s -> directory v s start d place -> search_dir d name = Some p ->
  let g := found f d place p in
  dirent_ok (dirent g) /\ entry_place v g /\ (dirent_cluster g = 0 \/ fat_entry v s (dirent_cluster g) <> 0) /\
  exists p', entry_found v s g p'.
Proof.
  intros Hs Hdir Hsd. pose proof (directory_shape s start d place Hs Hdir) as [Hdb Hdm]. vol_facts. pose proof (cb_pos v Hv) as Hcb.
  pose proof (search_dir_range d name p Hdm Hsd) as (Hp0 & Hp1 & Hpm & Hh). pose proof (hit_name d name p Hp0 Hp1 Hh) as Hname.
  pose proof (dirent_at_ok d p Hdb Hp0 Hp1) as Hok. unfold entry_found.
  destruct Hdir as [|cs Hc]; simpl; (split; [exact Hok|]).
  - rewrite lenZ_secs in Hp1 by (done || lia). pose proof (div_block 512 p ltac:(lia) Hp0) as (Hq1 & Hq2 & Hq3 & Hq4).
    set (q := p / 512) in *. assert (q < root_sectors v) by lia.
    split; [left; simpl; lia|]. split; [by left|]. exists (p - 512 * q). unfold entry_block. simpl.
    set (blk := s (root_dir_start v + q)). assert (Hbl : lenZ blk = 512) by apply Hs.
    unfold search_name_in_block. rewrite <- (search_loop_name _ blk name) by exact Hname.
    destruct (search_dir_block (secs s (root_dir_start v) (root_sectors v)) blk name (512 * q) p) as [E _]; rewrite ?Hbl, ?lenZ_secs; try done || lia.
    + intros i Hi. rewrite nthZ_secs by (done || lia). replace (512 * q + i) with (i + q * 512) by lia.
      by rewrite Z.div_add, Z.mod_add, Z.div_small, Z.mod_small by lia.
    + replace (512 * q) with (16 * q * 32) by lia. by apply Z.mod_mul.
    + replace (512 * root_sectors v) with (16 * root_sectors v * 32) by lia. by apply Z.mod_mul.
  - rewrite lenZ_file_bytes in Hp1 by done. pose proof (div_block cb p Hcb Hp0) as (Hq1 & Hq2 & Hq3 & Hq4).
    pose proof (div_block_lt cb p (lenZ cs) Hcb Hp0 ltac:(lia)) as Hq. set (q := p / cb) in *.
    pose proof (chain_nth v s cs q Hc ltac:(lia)) as Hu. split; [by right|].
    split; [right; eapply chain_entry_nonzero; [exact Hc|apply nthZ_elem; lia]|].
    exists (p - q * cb). unfold entry_block. simpl. fold q. rewrite (proj2 (Z.eqb_neq (nthZ cs q) 0)) by (unfold in_use in Hu; lia).
    set (blk := clus v s (nthZ cs q)). assert (Hbl : lenZ blk = cb) by (by apply lenZ_clus).
    unfold search_name_in_block. rewrite <- (search_loop_name _ blk name) by exact Hname.
    assert (Hcm : cb mod 32 = 0) by (rewrite Vcb; replace (spc v * 512) with (spc v * 16 * 32) by lia; by apply Z.mod_mul).
    assert (Hqb : (q + 1) * cb <= lenZ cs * cb) by (apply Z.mul_le_mono_nonneg_r; lia).
    assert (Hq0 : 0 <= q * cb) by (apply Z.mul_nonneg_nonneg; lia).
    destruct (search_dir_block (content s cs) blk name (q * cb) p) as [E _].
    + intros i Hi. rewrite Hbl in Hi. rewrite nthZ_file_bytes by (done || lia). replace (q * cb + i) with (i + q * cb) by lia.
      by rewrite Z.div_add, Z.mod_add, Z.div_small, Z.mod_small by lia.
    + done.
    + rewrite Vcb. replace (q * (spc v * 512)) with (q * spc v * 16 * 32) by lia. by apply Z.mod_mul.
    + rewrite Hbl, lenZ_file_bytes by done. lia.
    + by rewrite Hbl.
    + done.
    + done.
    + rewrite Hbl. lia.
    + exact E.
Qed.

(** ** The last cluster *)

Lemma last_cluster_spec fuel h s cs :
  disk_is h s -> chain v s cs -> (length cs <= fuel)%nat ->
  wp (last_cluster_loop uninit fuel v (hd 0 cs)) h (fun r h' => r = nthZ cs (lenZ cs - 1) /\ now h h' s).
Proof.
  revert h cs. induction fuel as [|fuel IH]; intros h cs Hd Hc Hf; [destruct cs; [done|simpl in Hf; lia]|].
  destruct cs as [|c cs]; [done|]. pose proof Hc as [Hu Hr]. pose proof (in_use_valid v c Hu) as Hval. unfold valid in Hval.
  cbn [last_cluster_loop hd]. eapply wp_seq; [apply (next_cluster_spec uninit uninit_ok v Hv _ s); [done|lia]|]. intros ? h1 [-> Hn1].
  destruct cs as [|c' cs].
  - rewrite (eof_not_normal _ Hr). apply wp_ret. by split.
  - destruct Hr as [-> Hr]. pose proof Hr as [Hu' _]. rewrite (in_use_normal v c' Hu'). simpl negb. cbv iota.
    eapply wp_mono; [apply (IH h1 (c' :: cs)); [apply Hn1|done|simpl in *; lia]|].
    intros r h' [-> Hn']. split; [|by eapply now_trans]. rewrite (lenZ_cons c). pose proof (lenZ_nonneg cs).
    rewrite (nthZ_cons c) by (rewrite lenZ_cons; lia). f_equal. lia.
Qed.

(** The last lookup of a walk. *)
Lemma resolves_last s f ws g :
  resolves v s f ws (Some g) -> ws <> [] ->
  exists f0 start d place name p, directory v s start d place /\ search_dir d name = Some p /\ g = found f0 d place p.
Proof.
  intros Hr. remember (Some g) as r eqn:E. induction Hr as [f|f w ws d place p r Hdir Hsd Hres IH|]; [done| |done].
  intros _. destruct ws as [|w' ws]; [|by apply IH]. inversion Hres; subst. simplify_eq.
  by exists f, (start_cluster (dirent f)), d, place, (name83 w ++ replicate 7 0), p.
Qed.

(** The file as [fat_open] with the append flag returns it. *)
Definition opened_append f cs : Fat16File :=
  set_pos (set_flag f (Z.lor (flag f) FAT16_CTL_WRITE)) (nthZ cs (lenZ cs - 1)) (file_size (dirent f)).

Context `{HP : HeapPolicy}.

Lemma open_append_spec h s p fl f cs :
  disk_is h s -> p <> [47] -> short (components p) -> room_for (log h) p -> has fl FAT16_CTL_APPEND = true -> resolves v s (fresh_file v p fl) (components p) (Some f) ->
  chain v s cs -> start_cluster (dirent f) = hd 0 cs ->
  wp (open_existing uninit v p fl) h (fun r h' => r = Some (opened_append f cs) /\ disk_is h' s).
Proof.
  intros Hd Hp Hsh Hrm Hfl Hr Hc Hst. unfold open_existing. apply new_file_bind; [done|]. set (h1 := mk_host _ _).
  eapply wp_seq; [apply (find_spec uninit uninit_ok v Hv Hroot h1 s _ p (Some f)); [done|done|done|done|exact Hr]|].
  intros r h' [-> [Hd' Hl']]. rewrite Hfl. cbn [set_flag dirent]. rewrite Hst. pose proof (chain_length v s cs Hc). unfold lenZ in *.
  eapply wp_seq; [apply (last_cluster_spec _ h' s cs); [done|done|lia]|]. intros c h2 [-> [Hd2 _]]. by apply wp_ret.
Qed.

Lemma has_lor fl x : 0 <= fl -> 0 < x -> has (Z.lor fl x) x = true.
Proof.
  intros Hf Hx. unfold has. rewrite Z.land_lor_distr_l, Z.land_diag.
  destruct (Z.eqb_spec (Z.lor (Z.land fl x) x) 0) as [E|]; [|done]. apply Z.lor_eq_0_iff in E as [_ E]. lia.
Qed.

(** The last cluster has room, so the file can be written where it ends. *)
Lemma append_writable s p fl f cs :
  sectors_ok s -> components p <> [] -> resolves v s (fresh_file v p fl) (components p) (Some f) -> 0 <= fl ->
  is_directory (dirent f) = false -> chain v s cs -> start_cluster (dirent f) = hd 0 cs -> dirent_cluster f ∉ cs ->
  (lenZ cs - 1) * cb <= file_size (dirent f) < lenZ cs * cb ->
  exists q, writable v s (opened_append f cs) cs q.
Proof.
  intros Hs Hws Hr Hfl Hdir Hc Hst Hap Hsz. pose proof (resolves_kept _ _ _ _ _ Hr) as (Ev & _ & _ & Efl & _).
  destruct (resolves_last _ _ _ _ Hr Hws) as (f0 & start & d & place & name & p0 & Hd & Hsd & ->).
  destruct (found_entry s f0 start d place name p0 Hs Hd Hsd) as (Hok & Hpl & Hnz & q & Hq). set (f := found f0 d place p0) in *.
  pose proof (cb_pos v Hv) as Hcb. exists q. split; try done.
  - cbn [opened_append set_pos set_flag flag]. rewrite Efl. simpl. by apply has_lor.
  - cbn [opened_append set_pos byte_offset]. pose proof (e_size _ Hok). lia.
  - cbn [opened_append set_pos byte_offset current_cluster]. f_equal. apply Z.div_unique with (file_size (dirent f) - (lenZ cs - 1) * cb); lia.
  - cbn [opened_append set_pos set_flag dirent_cluster]. destruct Hnz; [by left|by right].
Qed.

(** C17. Appending composes [fat_open], the walk along the path and
    [fat_write_file]: when the components of the path fit [seg[16]], the heap
    grants the blocks of an open file, and the path leads to a regular file whose
    last cluster has room (the size is not a multiple of the cluster size; the
    code overwrites the last cluster otherwise), the file opened with [FAT16_CTL_APPEND] is at its end, the bytes
    written follow the old contents in its (extended) chain, and the directory
    entry on the disk records the new size. *)
Theorem append_extends_file h s fuel p fl f cs user size :
  disk_is h s -> p <> [47] -> short (components p) -> room_for (log h) p -> 0 <= fl -> has fl FAT16_CTL_CREATE = false -> has fl FAT16_CTL_APPEND = true ->
  components p <> [] -> resolves v s (fresh_file v p fl) (components p) (Some f) ->
  is_directory (dirent f) = false -> chain v s cs -> start_cluster (dirent f) = hd 0 cs -> dirent_cluster f ∉ cs ->
  let old := file_size (dirent f) in
  (lenZ cs - 1) * cb <= old < lenZ cs * cb ->
  bytes user -> 0 < size <= lenZ user -> old + size < 2147483648 ->
  (old + size) / cb + 1 - lenZ cs <= Z.of_nat (free_count v s) ->
  exists h1 g h2 g' s' cs' q, fat_open uninit fuel v p fl h = Ok (Some g, h1) /\
    fat_write_file uninit g user size h1 = Ok ((size, g'), h2) /\ disk_is h2 s' /\
    chain v s' cs' /\ start_cluster (dirent g') = hd 0 cs' /\
    slice (content s' cs') 0 (old + size) = slice (content s cs) 0 old ++ slice user 0 size /\
    dirent_at (entry_block v s' f) q = dirent g' /\ file_size (dirent g') = old + size.
Proof.
  intros Hd Hp Hsh Hrm Hfl Hcr Hapf Hws Hr Hdir Hc Hst Hap old Hsz Hub Hn H31 Hfree. pose proof (disk_is_ok _ _ Hd) as Hs.
  pose proof (open_append_spec h s p fl f cs Hd Hp Hsh Hrm Hapf Hr Hc Hst) as Hw. apply wp_Ok in Hw as (r & h1 & E1 & -> & Hd1).
  destruct (append_writable s p fl f cs Hs Hws Hr Hfl Hdir Hc Hst Hap Hsz) as [q W]. set (g := opened_append f cs) in *.
  destruct (write_file_state uninit uninit_ok v Hv h1 s g cs q user size Hd1 W Hub Hn H31 Hfree)
    as (h2 & s' & cs' & E2 & Hd2 & _ & Hc' & [new Enew] & _ & Hold & Hnew & Hent & _).
  exists h1, g, h2, (after_write v g cs' size), s', cs', q. split; [unfold fat_open; by rewrite Hcr|].
  split; [exact E2|]. split; [exact Hd2|]. split; [exact Hc'|]. change (byte_offset g) with old in *.
  pose proof (e_size _ (wr_dirent _ _ _ _ _ W)) as Hu. change (dirent g) with (dirent f) in Hu.
  split; [rewrite Enew; change (start_cluster (dirent f) = hd 0 (cs ++ new)); rewrite Hst; by destruct cs|].
  split; [by rewrite slice_app, Hold, Z.add_0_l, Hnew by (unfold old; lia)|]. by split.
Qed.
End Append.
