(* ===== verification/FatDelete.v ===== *)
(** * Deleting files

    [fat_delete_file] on a path to a regular file frees exactly the clusters of
    the file and turns its directory entry into an unused one; nothing else on
    the disk changes and the heap blocks of the open file are given back. *)
From S2P Require Import Prelude CMem CString Sink Print Disk Common Ata FatName Fat FatTable FatFree FatFile FatDir FatWrite FatOpen FatAppend.
Import CString Print FatName Common Fat.
Open Scope list_scope.

Lemma bytes_updZ l i x : bytes l -> u8 x -> bytes (updZ l i x).
Proof. intros. unfold bytes, updZ. case_match; [done|]. by apply Forall_insert. Qed.

(** The entry [fat_delete_file] leaves behind. *)
Definition deleted (e : FatDirEntry) : FatDirEntry :=
  mk_dirent (updZ (filename e) 0 229) (ext e) (attr e) (reserved e) (create_mill e) (create_time e) (create_date e)
            (last_access e) (reserve_32 e) (last_wtime e) (last_wdate e) 0 0.

Lemma deleted_ok e : dirent_ok e -> dirent_ok (deleted e).
Proof.
  intros He. pose proof (e_filename e He) as [Hl Hb]. destruct He. split; simpl; try done; try lia.
  split; [by rewrite lenZ_updZ|by apply bytes_updZ].
Qed.

Lemma deleted_no_hit b p e name :
  dirent_ok e -> 0 <= p -> p + 32 <= lenZ b -> hit (splice b p (dirent_bytes (deleted e))) name p = false.
Proof.
  intros He Hp Hl. pose proof (deleted_ok e He) as Hd. unfold hit.
  rewrite dirent_at_splice by (done || by apply lenZ_dirent_bytes). by rewrite dirent_decode_encode.
Qed.

Section Delete.
Context {D : Type} `{BlockDev D} (uninit : Z -> list Z).
Hypothesis uninit_ok : forall n, 0 <= n -> lenZ (uninit n) = n /\ bytes (uninit n).
Context (v : Fat16Volume) (Hv : vol_ok v) (Hroot : root_sectors v mod spc v = 0).
Implicit Types (h : host D) (s : Z -> list Z) (c : Z) (cs : list Z) (f : Fat16File).
Abbreviation cb := (cluster_bytes v).

(** Freeing clusters changes table sectors only, so blocks with entries stay. *)
Lemma freed_block s s' cs f : freed v s s' cs -> entry_place v f -> entry_block v s' f = entry_block v s f.
Proof.
  intros [_ Ho] Hpl. unfold entry_block. vol_facts. destruct (Z.eqb_spec (dirent_cluster f) 0) as [E|E].
  - destruct Hpl as [[_ Hk]|Hu]; [|unfold in_use in Hu; lia]. apply Ho. lia.
  - destruct Hpl as [[? _]|Hu]; [lia|]. pose proof (clus_lba_range v Hv _ (in_use_valid v _ Hu)).
    apply secs_ext. intros k Hk. apply Ho. lia.
Qed.

Lemma freed_clus s s' cs c : freed v s s' cs -> valid v c -> clus v s' c = clus v s c.
Proof.
  intros [_ Ho] Hc. pose proof (clus_lba_range v Hv c Hc). vol_facts. apply secs_ext. intros k Hk. apply Ho. lia.
Qed.

Context `{HP : HeapPolicy}.

(** The sectors of the block with the entry of [f]. *)
Definition in_entry_block f (k : Z) : Prop :=
  if dirent_cluster f =? 0 then k = dirent_sector f else clus_lba v (dirent_cluster f) <= k < clus_lba v (dirent_cluster f) + spc v.

Lemma entry_upd_rest s f b k : ~ in_entry_block f k -> entry_upd v s f b k = s k.
Proof.
  unfold in_entry_block, entry_upd. destruct (dirent_cluster f =? 0); intros Hk; apply write_secs_out; lia.
Qed.

(** C21. [fat_delete_file] on a path with components that fit [seg[16]] to a
    regular file, when the heap grants the blocks of an open file, returns 1 and frees exactly
    the clusters of the file: their table entries become 0 and all others keep
    their values.  The directory entry that the walk found becomes unused (first
    character 0xE5, no cluster, size 0), so that it no longer matches any name;
    the rest of its block, all other clusters and every sector outside the table
    and that block are unchanged, and the heap blocks taken for the open file are given back. *)
Theorem delete_file_frees h s depth p f cs :
  disk_is h s -> p <> [47] -> short (components p) -> room_for (log h) p -> components p <> [] -> resolves v s (fresh_file v p 0) (components p) (Some f) ->
  is_directory (dirent f) = false -> chain v s cs -> start_cluster (dirent f) = hd 0 cs ->
  exists h' s' q, fat_delete_file uninit depth v p h = Ok (1, h') /\ disk_is h' s' /\
    (forall c, 0 <= c < nfat v -> fat_entry v s' c = if bool_decide (c ∈ cs) then 0 else fat_entry v s c) /\
    entry_found v s f q /\ entry_block v s' f = splice (entry_block v s f) q (dirent_bytes (deleted (dirent f))) /\
    (forall name, hit (entry_block v s' f) name q = false) /\
    (forall c, valid v c -> c <> dirent_cluster f -> clus v s' c = clus v s c) /\
    (forall k, (k < fat_start v \/ fat_start v + sectors_fat (sb v) <= k) -> ~ in_entry_block f k -> s' k = s k) /\
    log h' = log h ++ blocks_of p ++ [EvFree (lenZ p + 1); EvFree 32; EvFree 28].
Proof.
  intros Hd Hp Hsh Hrm Hws Hr Hdir Hc Hst. pose proof (disk_is_ok _ _ Hd) as Hs.
  pose proof (open_existing_spec uninit uninit_ok v Hv Hroot h s p 0 f Hd Hp Hsh Hrm eq_refl Hr) as Ho.
  apply wp_Ok in Ho as (r & h1 & E1 & -> & Hd1 & Hl1).
  pose proof (resolves_kept _ _ _ _ _ Hr) as (Ev & Epath & _ & _ & Ecur). specialize (Ecur Hws). simpl in Ev, Epath.
  destruct (resolves_last _ _ _ _ _ Hr Hws) as (f0 & start & d & place & name & p0 & Hdi & Hsd & Ef).
  destruct (found_entry v Hv s f0 start d place name p0 Hs Hdi Hsd) as (Hok & Hpl & _ & q & Hq). rewrite <- Ef in *.
  pose proof (chain_hd_nonzero v s cs Hc) as Hne. pose proof (chain_length v s cs Hc) as Hlen. unfold lenZ in Hlen.
  pose proof (free_chain_loop_exact uninit uninit_ok v Hv (Z.to_nat 65536) h1 s cs Hd1 Hc ltac:(lia)) as Hf.
  apply wp_Ok in Hf as (r & h2 & E2 & -> & Hl2 & s1 & Hd2 & Hfr). pose proof (disk_is_ok _ _ Hd2) as Hs1.
  pose proof (freed_block s s1 cs f Hfr Hpl) as Hblk.
  assert (Hq1 : entry_found v s1 f q) by (unfold entry_found; by rewrite Hblk).
  pose proof (deleted_ok _ Hok) as Hdok. pose proof (entry_found_in v Hv s f q Hs Hq) as [Hq0 Hq32].
  pose proof (update_dirent_spec uninit uninit_ok v Hv h2 s1 f (Some (deleted (dirent f))) q Hd2 Ev Hpl Hq1 Hdok) as Hu.
  apply wp_Ok in Hu as (r & h3 & E3 & -> & Hd3 & Hl3). simpl default in Hd3. rewrite Hblk in Hd3.
  set (b := splice (entry_block v s f) q (dirent_bytes (deleted (dirent f)))) in *.
  pose proof (lenZ_dirent_bytes _ Hdok) as Hdl.
  assert (Hbl : lenZ b = lenZ (entry_block v s1 f)) by (rewrite Hblk; unfold b; rewrite lenZ_splice; lia).
  exists (mk_host (dev h3) (((log h3 ++ [EvFree (lenZ p + 1)]) ++ [EvFree 32]) ++ [EvFree 28])), (entry_upd v s1 f b), q.
  split; [|split; [exact Hd3|split_and!]].
  - unfold fat_delete_file, mbind, IO_bind. rewrite E1, Ecur, Hst. change FAT_CLUS_ROOT with 0.
    rewrite (proj2 (Z.eqb_neq _ 0)) by done. rewrite Hdir, Ev. unfold fat_free_clusters_until_end. rewrite E2.
    fold (deleted (dirent f)). rewrite E3. unfold fat_close. rewrite Epath. reflexivity.
  - intros c Hcr. rewrite entry_upd_table by done. by apply Hfr.
  - exact Hq.
  - by apply entry_upd_block.
  - intros nm. rewrite entry_upd_block by done. by apply deleted_no_hit.
  - intros c Hcv Hcn. rewrite entry_upd_data by done. by eapply freed_clus.
  - intros k Hk Hn. rewrite entry_upd_rest by done. by apply Hfr.
  - simpl. rewrite Hl3, Hl2, Hl1. by rewrite <- !app_assoc.
Qed.
End Delete.
