(* ===== verification/FatCreate.v ===== *)
(** * Creating files

    [fat_open] with [FAT16_CTL_CREATE] for a name that is not in the root
    directory takes the first unused entry of the directory and the lowest free
    cluster, and returns the new, empty file open for use: what is then written
    to it is covered by the theorems of [FatWrite]. *)
From S2P Require Import Prelude CMem CString Sink Print Disk Common Ata FatName Fat FatTable FatFree FatFile FatDir FatWrite FatOpen FatAppend.
From Stdlib Require Import Strings.String.
Import CString Print FatName Common Fat.
Open Scope list_scope.

(** ** The new entry *)

Lemma lenZ_name83 l : lenZ (name83 l) = 9.
Proof. unfold name83, lenZ. rewrite length_map, length_app, length_take, length_app, length_replicate. cbn [Datatypes.length]. lia. Qed.

Lemma bytes_name83 l : bytes l -> bytes (name83 l).
Proof.
  intros Hl. apply Forall_map. eapply Forall_impl; [|intros c Hc; apply upper_case_range, Hc].
  apply Forall_app. split; [|by repeat constructor]. apply Forall_take, Forall_app. split; [done|]. by apply Forall_replicate.
Qed.

(** The record of a new regular file. *)
Definition new_dirent (name : list Z) (c : Z) : FatDirEntry :=
  mk_dirent (slice (name83 name) 0 8) (chars "txt") 0 0 0 0 0 0 0 0 0 c 0.

Lemma new_dirent_ok name c : bytes name -> u16 c -> dirent_ok (new_dirent name c).
Proof.
  intros Hn Hc. split; simpl; try done; try lia.
  - split; [apply lenZ_slice; rewrite ?lenZ_name83; lia|by apply bytes_slice, bytes_name83].
  - split; [done|by repeat constructor].
Qed.

Lemma new_entry_bytes name fl c :
  bytes name -> has fl FAT16_CTL_DIR = false -> new_entry name fl c = dirent_bytes (new_dirent name c).
Proof.
  intros Hn Hfl. unfold new_entry. rewrite Hfl. pose proof (lenZ_name83 name) as Hl. pose proof (bytes_name83 name Hn) as Hb.
  unfold new_dirent. set (l := name83 name) in *. clearbody l. list_of_length l Hl. reflexivity.
Qed.

Lemma new_dirent_named name c : c <> 0 -> named (name83 name ++ replicate 7 0) (new_dirent name c) = true.
Proof.
  intros Hc. unfold named. simpl. unfold FAT_CLUS_FREE. rewrite (proj2 (Z.eqb_neq c 0)) by done. simpl.
  apply filename_match_spec; simpl; rewrite ?lenZ_app, ?lenZ_name83.
  - apply lenZ_slice; rewrite ?lenZ_name83; lia.
  - pose proof (lenZ_nonneg (replicate 7 0)). simpl in *. lia.
  - unfold slice. rewrite !drop_0. rewrite take_app_le; [done|]. pose proof (lenZ_name83 name). unfold lenZ in *. lia.
Qed.

(** A name that no entry had is found where the new entry was put. *)
Lemma search_after_insert d p name e :
  lenZ d mod 32 = 0 -> 0 <= p -> p mod 32 = 0 -> p + 32 <= lenZ d -> dirent_ok e ->
  search_dir d name = None -> named name e = true ->
  search_dir (splice d p (dirent_bytes e)) name = Some p.
Proof.
  intros Hdm Hp Hpm Hpl He Hs Hn. rewrite search_dir_scan in *. unfold scan_dir in *.
  pose proof (lenZ_dirent_bytes e He) as Hel. rewrite lenZ_splice by lia. pose proof (lenZ_nonneg d).
  pose proof (Z.div_mod (lenZ d) 32 ltac:(lia)) as Ed. rewrite Hdm, Z.add_0_r in Ed.
  pose proof (Z.div_mod p 32 ltac:(lia)) as Ep. rewrite Hpm, Z.add_0_r in Ep.
  set (n := Z.to_nat ((lenZ d + 31) / 32)) in *.
  assert (Hnn : Z.of_nat n = lenZ d / 32) by (unfold n; rewrite Ed at 1; rewrite entries_div by (apply Z.div_pos; lia);
    apply Z2Nat.id, Z.div_pos; lia).
  pose proof (scan_entries_spec (named name) n d 0) as H1. change (32 * 0) with 0 in H1. rewrite Hs in H1.
  pose proof (scan_entries_spec (named name) n (splice d p (dirent_bytes e)) 0) as H2. change (32 * 0) with 0 in H2.
  assert (Hat : forall k, 0 <= k < Z.of_nat n -> 32 * k <> p -> dirent_at (splice d p (dirent_bytes e)) (32 * k) = dirent_at d (32 * k)).
  { intros k Hk Hne. apply dirent_at_ext; rewrite ?lenZ_splice by lia; try lia. intros i Hi. apply nthZ_splice_out; lia. }
  assert (Hin : named name (dirent_at (splice d p (dirent_bytes e)) p) = true).
  { rewrite dirent_at_splice by lia. by rewrite dirent_decode_encode. }
  destruct (scan_entries (named name) n (splice d p (dirent_bytes e)) 0) as [q|].
  - destruct H2 as (j & Hj & -> & Hh & _). f_equal. destruct (decide (32 * j = p)) as [|Hne]; [done|].
    rewrite Hat, H1 in Hh by (done || lia). done.
  - specialize (H2 (p / 32) ltac:(lia)). rewrite <- Ep in H2. congruence.
Qed.

(** ** Flags *)

Lemma has_bit fl k : 0 <= k -> has fl (2 ^ k) = Z.testbit fl k.
Proof.
  intros Hk. unfold has. destruct (Z.testbit fl k) eqn:E.
  - apply negb_true_iff, Z.eqb_neq. intros E0. apply (f_equal (fun x => Z.testbit x k)) in E0.
    rewrite Z.land_spec, Z.pow2_bits_true, E, Z.bits_0 in E0 by done. done.
  - apply negb_false_iff, Z.eqb_eq. apply Z.bits_inj'. intros n Hn. rewrite Z.land_spec, Z.bits_0.
    destruct (decide (n = k)) as [->|]; [by rewrite E|]. rewrite Z.pow2_bits_false by lia. apply andb_false_r.
Qed.

Lemma has_clear fl k : 0 <= k -> k <> 3 -> has (Z.land fl (Z.lnot FAT16_CTL_CREATE)) (2 ^ k) = has fl (2 ^ k).
Proof.
  intros Hk Hne. rewrite !has_bit, Z.land_spec, Z.lnot_spec by done. change FAT16_CTL_CREATE with (2 ^ 3).
  rewrite Z.pow2_bits_false by lia. apply andb_true_r.
Qed.
Lemma has_set fl k : 0 <= k -> k <> 3 -> has (Z.lor fl FAT16_CTL_CREATE) (2 ^ k) = has fl (2 ^ k).
Proof.
  intros Hk Hne. rewrite !has_bit, Z.lor_spec by done. change FAT16_CTL_CREATE with (2 ^ 3).
  rewrite Z.pow2_bits_false by lia. apply orb_false_r.
Qed.

Section Create.
Context {D : Type} `{BlockDev D} (uninit : Z -> list Z).
Hypothesis uninit_ok : forall n, 0 <= n -> lenZ (uninit n) = n /\ bytes (uninit n).
Context (v : Fat16Volume) (Hv : vol_ok v) (Hroot : root_sectors v mod spc v = 0).
Implicit Types (h : host D) (s : Z -> list Z) (c : Z) (cs : list Z) (f : Fat16File).
Abbreviation cb := (cluster_bytes v).
Abbreviation root_bytes s := (secs s (root_dir_start v) (root_sectors v)).

(** The root directory, open for reading at sector [k] of its area. *)
Definition root_at f k : Prop :=
  volume f = v /\ start_cluster (dirent f) = 0 /\ has (flag f) FAT16_CTL_WRITE = false /\ current_cluster f = 0 /\
  byte_offset f = 512 * k.

Lemma read_root_chunk h s f b k :
  disk_is h s -> root_at f k -> 0 <= k -> k + spc v <= root_sectors v -> lenZ b = cb ->
  wp (fat_read_file uninit f b cb) h (fun r h' => exists f', r = (cb, f', secs s (root_dir_start v + k) (spc v)) /\
    root_at f' (k + spc v) /\ now h h' s).
Proof.
  intros Hd (Ev & Est & Efl & Ecur & Eoff) Hk Hk1 Hb. pose proof (disk_is_ok _ _ Hd) as Hs. vol_facts.
  unfold fat_read_file, fat_rw_root. rewrite Est. change (0 =? FAT_CLUS_ROOT) with true. cbv iota. simpl negb. cbv iota.
  rewrite Ev, Eoff, Vbps. assert (Ek : 512 * k / 512 = k) by (rewrite Z.mul_comm; apply Z.div_mul; lia). rewrite Ek.
  rewrite (proj2 (Z.leb_gt _ _)) by lia. destruct (uninit_ok cb ltac:(lia)) as [Hul _].
  apply wp_bind. cbn [rw_root_loop]. rewrite Efl, Vbps, Ek, !wrap32_small by lia.
  rewrite (proj2 (Z.ltb_lt (512 * k) _)), (proj2 (Z.leb_gt (root_sectors v) k)) by lia. simpl andb. cbv iota. rewrite !min_Zmin.
  assert (E1 : Z.min (spc v) (root_sectors v - k) = spc v) by lia. rewrite E1.
  assert (E2 : Z.min (512 * k + spc v * 512) (512 * k + cb) = 512 * k + cb) by lia. rewrite E2.
  eapply wp_seq; [apply (read_full _ s); done || lia|]. intros [m b'] h1 (Er & Hd1 & Hl1). injection Er as -> ->.
  set (blk := secs s (root_dir_start v + k) (spc v)). assert (Hbl : lenZ blk = cb) by (unfold blk; rewrite lenZ_secs by (done || lia); lia).
  rewrite (splice_all (uninit cb) blk) by lia. replace (512 * k - k * 512) with 0 by lia. replace (512 * k + cb - 512 * k) with cb by lia.
  rewrite slice_all, splice_all, Z.add_0_l by lia.
  destruct (Z.to_nat cb) as [|n] eqn:En; [lia|]. cbn [rw_root_loop]. rewrite wrap32_small, Z.ltb_irrefl by lia.
  simpl andb. cbv iota. apply wp_ret, wp_ret. rewrite wrap32_small by lia. eexists. split; [reflexivity|]. split; [|by split].
  split_and!; try done. simpl. lia.
Qed.

Lemma unused_block b : lenZ b = cb -> unused_loop (Z.to_nat ((cb + 31) / 32)) b 0 = scan_dir unused b.
Proof. intros Hb. rewrite unused_loop_scan. unfold scan_dir. by rewrite Hb. Qed.

(** Up to the first unused entry, [q] chunks before the end of the area. *)
Lemma create_loop_root fuel h s f pc b name fl k q p (Q : Z -> host D -> Prop) :
  disk_is h s -> root_at f k -> 0 <= k -> 0 <= q -> k + q * spc v = root_sectors v -> lenZ b = cb -> q <= Z.of_nat fuel ->
  scan_dir unused (secs s (root_dir_start v + k) (q * spc v)) = Some p ->
  (forall f' h' pc' k' p', now h h' s -> root_at f' (k' + spc v) -> 0 <= k' -> k' + spc v <= root_sectors v ->
     512 * k' + p' = 512 * k + p -> 0 <= p' -> p' + 32 <= cb ->
     wp (create_file_dirent uninit f' pc' (secs s (root_dir_start v + k') (spc v)) p' name fl) h' Q) ->
  wp (create_loop uninit fuel f pc b name fl) h Q.
Proof.
  intros Hd. pose proof (disk_is_ok _ _ Hd) as Hs. vol_facts. revert h f pc b k q p Hd.
  induction fuel as [|fuel IH]; intros h f pc b k q p Hd Hf Hk Hq Hend Hb Hfu Hsc Hgo.
  { assert (q = 0) by lia. subst q. by rewrite Z.mul_0_l, secs_0 in Hsc. }
  destruct (decide (q = 0)) as [->|Hq0]; [by rewrite Z.mul_0_l, secs_0 in Hsc|].
  pose proof (mul_le_self (spc v) q ltac:(lia) ltac:(lia)) as Hle. cbn [create_loop]. pose proof Hf as (Ev & _ & _ & Ecur & _). rewrite Ev.
  eapply wp_seq; [apply (read_root_chunk h s f b k Hd Hf Hk); lia|]. intros r h1 (f1 & -> & Hf1 & Hn1).
  pose proof Hf1 as (_ & _ & _ & Ecur1 & _). rewrite Ecur1. change (FAT_CLUS_EOF 0) with false. cbv iota.
  set (blk := secs s (root_dir_start v + k) (spc v)) in *.
  assert (Hbl : lenZ blk = cb) by (unfold blk; rewrite lenZ_secs by (done || lia); lia). rewrite unused_block by done.
  replace (q * spc v) with (spc v + (q - 1) * spc v) in Hsc by lia. rewrite secs_split in Hsc by (nia || lia). fold blk in Hsc.
  pose proof (secs_mod32 s (root_dir_start v + k) (spc v) Hs ltac:(lia)) as Hm1. fold blk in Hm1.
  pose proof (secs_mod32 s (root_dir_start v + k + spc v) ((q - 1) * spc v) Hs ltac:(nia)) as Hm2.
  rewrite scan_dir_app in Hsc by done. destruct (scan_dir unused blk) as [p1|] eqn:E.
  - injection Hsc as ->. apply (scan_dir_range _ _ _ Hm1) in E as (Hp0 & Hp1 & _).
    apply (Hgo f1 h1 pc k p); done || lia.
  - destruct (scan_dir unused (secs s (root_dir_start v + k + spc v) ((q - 1) * spc v))) as [p2|] eqn:E2; [|done].
    simpl in Hsc. injection Hsc as <-.
    apply (IH h1 f1 0 blk (k + spc v) (q - 1) p2); [apply Hn1|done|lia|lia|lia|done|lia|by rewrite Z.add_assoc|].
    intros f' h' pc' k' p' Hn' Hf' Hk' Hk1' Heq Hp' Hp1'. apply (Hgo f' h' pc' k' p'); try done; [by eapply now_trans|lia].
Qed.

(** The disk after an entry [name] with cluster [c] was put at offset [p] of the
    root directory. *)
Record created s s' p name c : Prop := {
  cr_root : root_bytes s' = splice (root_bytes s) p (dirent_bytes (new_dirent name c));
  cr_table : forall x, 0 <= x < nfat v -> fat_entry v s' x = if c =? x then 65535 else fat_entry v s x;
  cr_new : clus v s' c = replicate (Z.to_nat cb) 0;
  cr_data : forall x, valid v x -> x <> c -> clus v s' x = clus v s x;
  cr_rest : forall k, k <> root_dir_start v + p / 512 -> k <> fat_start v + c / 256 -> ~ clus_lba v c <= k < clus_lba v c + spc v -> s' k = s k;
}.

Lemma nthZ_drop (b : list Z) n i : 0 <= n -> 0 <= i -> nthZ (drop (Z.to_nat n) b) i = nthZ b (n + i).
Proof. intros. unfold nthZ. rewrite lookup_drop. do 2 f_equal. lia. Qed.

(** Writing one sector of the root area: the sector with the entry. *)
Lemma root_sector_write s k p e :
  sectors_ok s -> 0 <= k -> k + spc v <= root_sectors v -> 0 <= p -> p mod 32 = 0 -> p + 32 <= cb -> dirent_ok e ->
  let b := drop (Z.to_nat (p / 512 * 512)) (splice (secs s (root_dir_start v + k) (spc v)) p (dirent_bytes e)) in
  let s1 := write_secs s (root_dir_start v + k + p / 512) 1 b in
  512 <= lenZ b /\ bytes b /\ root_bytes s1 = splice (root_bytes s) (512 * k + p) (dirent_bytes e).
Proof.
  intros Hs Hk Hk1 Hp Hpm Hp1 He b s1. vol_facts. pose proof (lenZ_dirent_bytes e He) as Hel.
  set (blk := secs s (root_dir_start v + k) (spc v)) in *.
  assert (Hbl : lenZ blk = spc v * 512) by (unfold blk; rewrite lenZ_secs by (done || lia); lia).
  pose proof (div_block 512 p ltac:(lia) Hp) as (Hq1 & Hq2 & Hq3 & Hq4). set (j := p / 512) in *.
  assert (Hj : j < spc v) by lia. assert (Hp512 : p mod 512 + 32 <= 512).
  { pose proof (Z.div_mod p 32 ltac:(lia)). lia. }
  assert (Hsl : lenZ (splice blk p (dirent_bytes e)) = spc v * 512) by (rewrite lenZ_splice; lia).
  assert (Hb : lenZ b = spc v * 512 - j * 512) by (unfold b, lenZ in *; rewrite length_drop; lia).
  split; [lia|]. split.
  { apply Forall_drop, bytes_splice; [by apply bytes_secs|by apply bytes_dirent_bytes]. }
  assert (Hs1 : sectors_ok s1).
  { apply write_secs_ok; [done|lia| |lia]. apply Forall_drop, bytes_splice; [by apply bytes_secs|by apply bytes_dirent_bytes]. }
  apply nthZ_ext.
  - rewrite lenZ_splice; rewrite ?lenZ_secs by (done || lia); lia.
  - intros i Hi. rewrite lenZ_secs in Hi by (done || lia).
    rewrite nthZ_splice by (rewrite ?lenZ_secs by (done || lia); lia). rewrite !nthZ_secs by (done || lia).
    pose proof (div_block 512 i ltac:(lia) ltac:(lia)) as (Hi1 & Hi2 & Hi3 & Hi4). unfold s1.
    destruct (decide (i / 512 = k + j)) as [E|E].
    + rewrite write_secs_in by lia. replace (512 * (root_dir_start v + i / 512 - (root_dir_start v + k + j))) with 0 by lia.
      rewrite nthZ_slice by lia. unfold b. rewrite nthZ_drop by lia. rewrite nthZ_splice by lia.
      replace (j * 512 + (0 + i mod 512)) with (i - 512 * k) by lia. rewrite Hel.
      assert (Ec : (p <=? i - 512 * k) && (i - 512 * k <? p + 32) = (512 * k + p <=? i) && (i <? 512 * k + p + 32)).
      { f_equal; [destruct (Z.leb_spec (512 * k + p) i)|destruct (Z.ltb_spec i (512 * k + p + 32))];
          [apply Z.leb_le|apply Z.leb_gt|apply Z.ltb_lt|apply Z.ltb_ge]; lia. }
      rewrite Ec. destruct ((512 * k + p <=? i) && _); [f_equal; lia|]. unfold blk. rewrite nthZ_secs by (done || lia).
      assert (E1 : (i - 512 * k) / 512 = j) by (symmetry; apply (Z.div_unique _ 512 _ (i mod 512)); lia).
      assert (E2 : (i - 512 * k) mod 512 = i mod 512) by (symmetry; apply (Z.mod_unique _ 512 j); lia).
      rewrite E1, E2. do 2 f_equal. lia.
    + rewrite write_secs_out by lia. destruct (Z.leb_spec (512 * k + p) i); [|done]. simpl.
      destruct (Z.ltb_spec i (512 * k + p + lenZ (dirent_bytes e))); [|done]. destruct E. lia.
Qed.

Lemma create_root_entry h s f pc k p name fl c :
  disk_is h s -> root_at f (k + spc v) -> 0 <= k -> k + spc v <= root_sectors v -> 0 <= p -> p mod 32 = 0 -> p + 32 <= cb ->
  bytes name -> has fl FAT16_CTL_DIR = false -> first_free v s c -> c <= 65519 ->
  wp (create_file_dirent uninit f pc (secs s (root_dir_start v + k) (spc v)) p name fl) h (fun r h' =>
    r = 1 /\ log h' = log h /\ exists s', disk_is h' s' /\ created s s' (512 * k + p) name c).
Proof.
  intros Hd (Ev & Est & _ & _ & Eoff) Hk Hk1 Hp Hpm Hp1 Hn Hfl Hff Hc. pose proof (disk_is_ok _ _ Hd) as Hs. vol_facts.
  pose proof Hff as (Hcr & _). assert (Hval : valid v c) by (unfold valid; lia).
  unfold create_file_dirent. rewrite Ev, Est, Hfl, Eoff, Vbps. change (0 =? FAT_CLUS_ROOT) with true. cbv iota.
  eapply wp_seq; [apply (free_cluster_spec uninit uninit_ok v Hv h s c Hd Hff)|]. intros r h1 [-> [Hd1 Hl1]].
  rewrite new_entry_bytes by done. pose proof (new_dirent_ok name c Hn ltac:(lia)) as Hok.
  destruct (root_sector_write s k p (new_dirent name c) Hs Hk Hk1 Hp Hpm Hp1 Hok) as (Hbl & Hbb & Hrb).
  set (b := drop (Z.to_nat (p / 512 * 512)) _) in *.
  assert (0 <= p / 512 < spc v) by (split; [apply Z.div_pos; lia|apply Z.div_lt_upper_bound; lia]).
  assert (El : wrap32 (root_dir_start v + 512 * (k + spc v) / 512 - spc v + p / 512) = root_dir_start v + k + p / 512).
  { rewrite (Z.mul_comm 512), Z.div_mul by lia. rewrite wrap32_small; lia. }
  rewrite El. set (j := root_dir_start v + k + p / 512) in *. set (s1 := write_secs s j 1 b) in *.
  eapply wp_seq; [apply (write_full _ s j 1 b); [done|lia|lia|lia|lia|done]|]. intros r h2 (_ & Hd2 & Hl2). fold s1 in Hd2.
  pose proof (disk_is_ok _ _ Hd2) as Hs1.
  eapply wp_seq; [apply (write_fat_spec uninit uninit_ok v Hv h2 s1 c 65535); [done|lia]|]. intros r' h3 [Hd3 Hl3].
  pose proof (disk_is_ok _ _ Hd3) as Hs3.
  assert (Hz : lenZ (zeros v) = cb) by (unfold zeros, lenZ; rewrite length_replicate; lia).
  eapply wp_seq; [apply (write_cluster_spec v Hv h3 (fat_upd v s1 c 65535) c (zeros v)); [done|done|apply bytes_repeat0|done]|].
  intros r'' h4 [Hd4 Hl4]. apply wp_ret. split; [done|]. split; [congruence|]. eexists. split; [exact Hd4|].
  pose proof (clus_lba_range v Hv c Hval) as Hcl. pose proof (fat_sector_range v c ltac:(lia)) as Hfs.
  assert (Hse : forall x, 0 <= x < nfat v -> fat_entry v s1 x = fat_entry v s x).
  { intros x Hx. unfold fat_entry, s1. rewrite write_secs_out; [done|]. pose proof (fat_sector_range v x Hx). lia. }
  split.
  - unfold clus_upd, fat_upd. rewrite !secs_write_other by lia. exact Hrb.
  - intros x Hx. rewrite fat_entry_clus_upd, fat_entry_upd by (done || lia). rewrite Hse by done. by destruct (c =? x).
  - by rewrite clus_clus_upd, Z.eqb_refl by done.
  - intros x Hx Hxc. rewrite clus_clus_upd by done. rewrite (proj2 (Z.eqb_neq c x)) by done. rewrite clus_fat_upd by (done || lia).
    pose proof (clus_lba_range v Hv x Hx). unfold clus, s1. apply secs_write_other. lia.
  - intros x Hx1 Hx2 Hx3. assert (El2 : (512 * k + p) / 512 = k + p / 512) by (rewrite (Z.mul_comm 512), Z.div_add_l by lia; done).
    unfold clus_upd, fat_upd. rewrite write_secs_out by lia. rewrite write_secs_out by (unfold fat_sector; lia). unfold s1, j. apply write_secs_out. lia.
Qed.

(** ** A full root directory *)

(** At the end of the area reading returns [FAT_FILE_EOF] and changes nothing. *)
Lemma read_root_end h f b : root_at f (root_sectors v) -> fat_read_file uninit f b cb h = Ok ((FAT_FILE_EOF, f, b), h).
Proof.
  intros (Ev & Est & _ & _ & Eoff). vol_facts. unfold fat_read_file, fat_rw_root. rewrite Est. change (0 =? FAT_CLUS_ROOT) with true.
  cbv iota. simpl negb. cbv iota. rewrite Ev, Eoff, Vbps, (Z.mul_comm 512), Z.div_mul by lia. by rewrite Z.leb_refl.
Qed.

Lemma create_loop_full fuel h s f pc b name fl k q :
  disk_is h s -> root_at f k -> 0 <= k -> 0 <= q -> k + q * spc v = root_sectors v -> lenZ b = cb ->
  scan_dir unused (secs s (root_dir_start v + k) (q * spc v)) = None -> (q = 0 -> scan_dir unused b = None) ->
  create_loop uninit fuel f pc b name fl h = NoFuel.
Proof.
  intros Hd. pose proof (disk_is_ok _ _ Hd) as Hs. vol_facts. revert h f pc b k q Hd.
  induction fuel as [|fuel IH]; intros h f pc b k q Hd Hf Hk Hq Hend Hb Hsc Hlast; [done|].
  cbn [create_loop]. pose proof Hf as (Ev & _ & _ & Ecur & _). rewrite Ev. unfold mbind, IO_bind.
  destruct (decide (q = 0)) as [->|Hq0].
  - assert (k = root_sectors v) by lia. subst k. rewrite read_root_end by done. rewrite Ecur. change (FAT_CLUS_EOF 0) with false. cbv iota.
    rewrite unused_block, Hlast by done.
    by apply (IH h f _ b (root_sectors v) 0).
  - pose proof (mul_le_self (spc v) q ltac:(lia) ltac:(lia)) as Hle.
    pose proof (read_root_chunk h s f b k Hd Hf Hk ltac:(lia) Hb) as HR. apply wp_Ok in HR as (r & h1 & E & f1 & -> & Hf1 & Hn1).
    rewrite E. pose proof Hf1 as (_ & _ & _ & Ecur1 & _). rewrite Ecur1. change (FAT_CLUS_EOF 0) with false. cbv iota.
    set (blk := secs s (root_dir_start v + k) (spc v)) in *.
    assert (Hbl : lenZ blk = cb) by (unfold blk; rewrite lenZ_secs by (done || lia); lia). rewrite unused_block by done.
    replace (q * spc v) with (spc v + (q - 1) * spc v) in Hsc by lia. rewrite secs_split in Hsc by (nia || lia). fold blk in Hsc.
    rewrite scan_dir_app in Hsc; [|by apply secs_mod32; [|lia]|apply secs_mod32; [done|nia]].
    destruct (scan_dir unused blk) eqn:E1; [done|].
    apply (IH h1 f1 0 blk (k + spc v) (q - 1)); [apply Hn1|done|lia|lia|lia|done| |done].
    rewrite Z.add_assoc. by destruct (scan_dir unused (secs s (root_dir_start v + k + spc v) ((q - 1) * spc v))).
Qed.

(** C40. In a root directory without an unused entry [_fat_create_file] never
    returns: after the last block [fat_read_file] keeps returning
    [FAT_FILE_EOF], and [current_cluster] of the root is 0, which is not an
    end-of-file mark, so the loop goes on whatever its number of rounds. *)
Theorem create_in_full_root_hangs h s f name fl fuel :
  disk_is h s -> root_at f 0 -> 0 < root_sectors v -> scan_dir unused (root_bytes s) = None ->
  _fat_create_file uninit fuel f name fl h = NoFuel.
Proof.
  intros Hd Hf Hpos Hsc. vol_facts. pose proof Hf as (Ev & _). unfold _fat_create_file. rewrite Ev.
  pose proof (Z.div_mod (root_sectors v) (spc v) ltac:(lia)) as Hq. rewrite Hroot, Z.add_0_r in Hq.
  apply (create_loop_full fuel h s f _ _ name fl 0 (root_sectors v / spc v)); [done|done|lia|nia|lia| | |nia].
  - unfold zeros, lenZ. rewrite length_replicate. lia.
  - by rewrite Z.add_0_r, (Z.mul_comm _ (spc v)), <- Hq.
Qed.

(** ** Opening with [FAT16_CTL_CREATE] *)

Lemma plain_word (d : Z) (l : list Z) : d ∉ l -> drop_char d l = l /\ take_to d l = l /\ drop_to d l = [].
Proof.
  induction l as [|c l IH]; [done|]. intros Hn. apply not_elem_of_cons in Hn as [Hc Hn]. simpl.
  rewrite (proj2 (Z.eqb_neq c d)) by done. destruct (IH Hn) as (_ & -> & ->). done.
Qed.

Lemma components_root name : name <> [] -> 47 ∉ name -> components (47 :: name) = [name].
Proof.
  intros Hne Hn. destruct (plain_word 47 name Hn) as (E1 & E2 & E3). unfold components.
  assert (E : drop_char 47 (47 :: name) = name) by exact E1. rewrite E. destruct name as [|c l]; [done|].
  rewrite words_step. unfold first_word, after_word. rewrite E, E2, E3. done.
Qed.

Context `{HP : HeapPolicy}.

Lemma open_missing h s p fl :
  disk_is h s -> p <> [47] -> short (components p) -> room_for (log h) p -> resolves v s (fresh_file v p fl) (components p) None ->
  wp (open_existing uninit v p fl) h (fun r h' => r = None /\ disk_is h' s /\ log h' = log h ++ blocks_of p).
Proof.
  intros Hd Hp Hsh Hrm Hr. unfold open_existing. apply new_file_bind; [done|]. set (h1 := mk_host _ _).
  eapply wp_seq; [apply (find_spec uninit uninit_ok v Hv Hroot h1 s _ p None); [done|done|done|done|exact Hr]|].
  intros r h' [-> [Hd' Hl']]. by apply wp_ret.
Qed.

Lemma open_root h s :
  disk_is h s -> room_for (log h) [47] -> start_cluster (root v) = 0 ->
  wp (open_existing uninit v [47] 0) h (fun r h' => exists f, r = Some f /\ root_at f 0 /\ disk_is h' s /\ log h' = log h ++ blocks_of [47]).
Proof.
  intros Hd Hrm Hr. unfold open_existing. apply new_file_bind; [done|].
  apply wp_bind, wp_ret. change (has 0 FAT16_CTL_APPEND) with false. cbv iota.
  apply wp_ret. eexists. split; [reflexivity|]. by split.
Qed.

Lemma create_in_root h s f name fl fuel c p :
  disk_is h s -> root_at f 0 -> bytes name -> has fl FAT16_CTL_DIR = false -> root_sectors v <= Z.of_nat fuel ->
  scan_dir unused (root_bytes s) = Some p -> first_free v s c -> c <= 65519 ->
  wp (_fat_create_file uninit fuel f name fl) h (fun r h' => r = 1 /\ log h' = log h /\ exists s', disk_is h' s' /\ created s s' p name c).
Proof.
  intros Hd Hf Hn Hfl Hfu Hsc Hff Hc. vol_facts. pose proof (disk_is_ok _ _ Hd) as Hs. unfold _fat_create_file.
  pose proof Hf as (Ev & _). rewrite Ev.
  pose proof (Z.div_mod (root_sectors v) (spc v) ltac:(lia)) as Hq. rewrite Hroot, Z.add_0_r in Hq.
  pose proof (div_le_self (root_sectors v) (spc v) ltac:(lia) ltac:(lia)).
  eapply (create_loop_root fuel h s f _ _ name fl 0 (root_sectors v / spc v) p); [done|done|lia|lia|lia| |lia| |].
  - unfold zeros, lenZ. rewrite length_replicate. lia.
  - by rewrite Z.add_0_r, (Z.mul_comm _ (spc v)), <- Hq.
  - intros f' h' pc' k' p' [Hd' Hl'] Hf' Hk' Hk1' Heq Hp' Hp1'. rewrite <- Hl'.
    pose proof (scan_dir_range _ _ _ (secs_mod32 s _ _ Hs Vrootlen) Hsc) as (_ & _ & Hpm & _).
    replace p with (512 * k' + p') by lia. apply create_root_entry; try done.
    replace p' with (p + - (16 * k') * 32) by lia. by rewrite Z.mod_add.
Qed.

(** The file just created can be written. *)
Lemma created_writable s s' p name c fl g :
  sectors_ok s -> sectors_ok s' -> created s s' p name c -> bytes name -> in_use v c -> 0 <= p -> p mod 32 = 0 ->
  p + 32 <= lenZ (root_bytes s) -> search_dir (root_bytes s) (name83 name ++ replicate 7 0) = None -> start_cluster (root v) = 0 ->
  g = found (fresh_file v (47 :: name) fl) (root_bytes s') (fun _ p => (root_dir_start v + p / 512, 0)) p ->
  has fl FAT16_CTL_WRITE = true ->
  search_dir (root_bytes s') (name83 name ++ replicate 7 0) = Some p /\ dirent g = new_dirent name c /\
  exists q, writable v s' (set_flag g (Z.lor fl FAT16_CTL_CREATE)) [c] q.
Proof.
  intros Hs Hs' Hcr Hn Hu Hp Hpm Hpl Hsd Hrt Hg Hfl. pose proof Hu as [Hc1 Hc2]. vol_facts.
  pose proof (new_dirent_ok name c Hn ltac:(lia)) as Hok. pose proof (lenZ_dirent_bytes _ Hok) as Hel.
  assert (Hm : lenZ (root_bytes s) mod 32 = 0) by (by apply secs_mod32).
  assert (Hs2 : search_dir (root_bytes s') (name83 name ++ replicate 7 0) = Some p).
  { rewrite (cr_root _ _ _ _ _ Hcr). apply search_after_insert; try done. apply new_dirent_named. lia. }
  assert (Hde : dirent g = new_dirent name c).
  { rewrite Hg. simpl. rewrite (cr_root _ _ _ _ _ Hcr), dirent_at_splice by lia. by apply dirent_decode_encode. }
  split; [done|]. split; [done|].
  destruct (found_entry v Hv s' (fresh_file v (47 :: name) fl) 0 _ _ _ p Hs' (dir_root v s') Hs2) as (_ & Hplc & _ & q & Hq).
  rewrite <- Hg in Hplc, Hq. exists q.
  assert (Hcur : current_cluster g = c) by (transitivity (start_cluster (dirent g)); [by rewrite Hg|by rewrite Hde]).
  split; try (rewrite Hg; done).
  - split; [done|]. by rewrite (cr_table _ _ _ _ _ Hcr), Z.eqb_refl by lia.
  - simpl. by rewrite Hde.
  - simpl. by rewrite Hde.
  - simpl. change FAT16_CTL_WRITE with (2 ^ 1). by rewrite has_set.
  - assert (E0 : byte_offset g = 0) by (by rewrite Hg). simpl. rewrite E0. change (lenZ [c]) with 1. lia.
  - assert (E0 : byte_offset g = 0) by (by rewrite Hg). simpl. rewrite E0, Hcur. rewrite Z.div_0_l by lia. done.
  - simpl. by rewrite Hde.
  - exact Hplc.
  - exact Hq.
  - left. simpl. by rewrite Hg.
Qed.

(** C20. [fat_open] with [FAT16_CTL_CREATE] and [FAT16_CTL_WRITE] for a name of at
    most 15 characters, when the heap grants the blocks of the three files it opens,
    for a name that no used entry of the root directory has, with an unused entry at offset [p]
    the first and cluster [c] the lowest free one: the entry for the new empty
    file goes to offset [p], every other entry of the directory keeps its bytes,
    cluster [c] is zeroed and marked as the end of a chain, all other table
    entries and clusters keep their values, every sector other than the entry's,
    the table's for [c] and those of cluster [c] is unchanged, and the file returned is the new one,
    open for writing at its start. *)
Theorem create_opens_new_file h s fuel name fl c p :
  disk_is h s -> start_cluster (root v) = 0 -> name <> [] -> 47 ∉ name -> bytes name -> lenZ name < SEG_SIZE ->
  room_for (log h) (47 :: name) -> room_for (log h ++ blocks_of (47 :: name)) [47] ->
  room_for (log h ++ blocks_of (47 :: name) ++ blocks_of [47]) (47 :: name) ->
  has fl FAT16_CTL_CREATE = true -> has fl FAT16_CTL_WRITE = true ->
  has fl FAT16_CTL_DIR = false -> has fl FAT16_CTL_APPEND = false ->
  search_dir (root_bytes s) (name83 name ++ replicate 7 0) = None -> scan_dir unused (root_bytes s) = Some p ->
  first_free v s c -> c <= 65519 -> root_sectors v <= Z.of_nat fuel ->
  exists h' s' f q, fat_open uninit fuel v (47 :: name) fl h = Ok (Some f, h') /\ disk_is h' s' /\
    dirent f = new_dirent name c /\ writable v s' f [c] q /\
    root_bytes s' = splice (root_bytes s) p (dirent_bytes (new_dirent name c)) /\
    clus v s' c = replicate (Z.to_nat cb) 0 /\
    (forall x, 0 <= x < nfat v -> fat_entry v s' x = if c =? x then 65535 else fat_entry v s x) /\
    (forall x, valid v x -> x <> c -> clus v s' x = clus v s x) /\
    (forall k, k <> root_dir_start v + p / 512 -> k <> fat_start v + c / 256 -> ~ clus_lba v c <= k < clus_lba v c + spc v -> s' k = s k).
Proof.
  intros Hd Hrt Hne Hns Hn Hshort Hrm1 Hrm2 Hrm3 Hcr Hwr Hdir Hap Hsd Hsc Hff Hc Hfu. pose proof (disk_is_ok _ _ Hd) as Hs. vol_facts.
  set (fl' := Z.land fl (Z.lnot FAT16_CTL_CREATE)). set (pth := 47 :: name).
  assert (Hpth : pth <> [47]) by (unfold pth; congruence). pose proof (components_root name Hne Hns) as Hcomp.
  assert (Hsh : short (components pth)) by (unfold pth; rewrite Hcomp; by apply Forall_singleton).
  assert (Hr0 : resolves v s (fresh_file v pth fl') (components pth) None).
  { unfold pth. rewrite Hcomp. eapply (res_miss v s _ name []); [|exact Hsd]. simpl. rewrite Hrt. apply dir_root. }
  pose proof (open_missing h s pth fl' Hd Hpth Hsh Hrm1 Hr0) as HW1. apply wp_Ok in HW1 as (r & h1 & E1 & -> & Hd1 & Hl1).
  pose proof (open_root h1 s Hd1 ltac:(by rewrite Hl1) Hrt) as HW2. apply wp_Ok in HW2 as (r & h2 & E2 & par & -> & Hpar & Hd2 & Hl2).
  pose proof (create_in_root h2 s par name fl fuel c p Hd2 Hpar Hn Hdir Hfu Hsc Hff Hc) as HW3.
  apply wp_Ok in HW3 as (r & h3 & E3 & -> & Hl3 & s' & Hd3 & Hcd). pose proof (disk_is_ok _ _ Hd3) as Hs'.
  pose proof (scan_dir_range _ _ _ (secs_mod32 s _ _ Hs Vrootlen) Hsc) as (Hp0 & Hp1 & Hpm & _).
  assert (Hu : in_use v c) by (destruct Hff as (? & _); unfold in_use; lia).
  set (g := found (fresh_file v pth fl') (root_bytes s') (fun _ p => (root_dir_start v + p / 512, 0)) p).
  assert (Hwr' : has fl' FAT16_CTL_WRITE = true) by (change FAT16_CTL_WRITE with (2 ^ 1); unfold fl'; by rewrite has_clear).
  destruct (created_writable s s' p name c fl' g Hs Hs' Hcd Hn Hu Hp0 Hpm Hp1 Hsd Hrt eq_refl Hwr') as (Hs2 & Hde & q & W).
  assert (Hr2 : resolves v s' (fresh_file v pth fl') (components pth) (Some g)).
  { unfold pth. rewrite Hcomp. eapply (res_step v s' _ name [] _ _ p); [|exact Hs2|constructor]. simpl. rewrite Hrt. apply dir_root. }
  assert (Hap' : has fl' FAT16_CTL_APPEND = false) by (change FAT16_CTL_APPEND with (2 ^ 2); unfold fl'; by rewrite has_clear).
  pose proof (open_existing_spec uninit uninit_ok v Hv Hroot h3 s' pth fl' g Hd3 Hpth Hsh ltac:(by rewrite Hl3, Hl2, Hl1, <- app_assoc) Hap' Hr2) as HW4.
  apply wp_Ok in HW4 as (r & h4 & E4 & -> & Hd4 & _).
  exists h4, s', (set_flag g (Z.lor (flag g) FAT16_CTL_CREATE)), q.
  split; [|split; [done|split; [done|split; [done|]]]; by destruct Hcd].
  unfold fat_open, mbind, IO_bind. rewrite Hcr. fold fl' pth. rewrite E1. unfold pth.
  change (47 :: name) with ([] ++ 47 :: name). rewrite basedir_of_app, filename_of_app by done.
  change (PATH_SIZE <=? lenZ ([] ++ [47])) with false. rewrite (proj2 (Z.leb_gt PATH_SIZE (lenZ name))) by (unfold PATH_SIZE, SEG_SIZE in *; lia). cbn [orb].
  destruct name as [|x name']; [done|]. simpl app. rewrite E2, E3. change (negb (1 =? 0)) with true. cbv beta iota.
  change ([] ++ 47 :: x :: name') with pth. by rewrite E4.
Qed.
End Create.
