(* ===== verification/FatExample.v ===== *)
(** * A small volume

    A disk image with one file of two clusters in the root directory and a pair
    of clusters that link to each other.  The theorems on the file system are
    applied to it, on a disk in memory and through the ATA driver on a drive
    that follows the PIO protocol. *)
From S2P Require Import Prelude CMem Malloc CString Sink Print Disk Common Ata AtaThm FatName Fat FatTable FatFree FatFile FatDir FatWrite FatOpen FatAppend FatDelete FatCreate.
From Stdlib Require Import Strings.String.
Import CString Print FatName Common Fat.
Open Scope list_scope.

(** ** Path names *)

Definition path_mem : mem := write_bytes ∅ 4096 (chars "dir/foo.txt" ++ [0]).

Lemma path_splits_witness :
  get_basedir 20 path_mem 4096 8192 = Ok (write_bytes path_mem 8192 (chars "dir/" ++ [0]), 4099) /\
  get_filename 20 path_mem 4096 12288 = Ok (write_bytes path_mem 12288 (chars "foo.txt" ++ [0]), 4100).
Proof.
  apply (path_splits 20 path_mem 4096 8192 12288 (chars "dir") (chars "foo.txt"));
    try (unfold cstr; split_and!; [vm_compute; tauto|repeat constructor|reflexivity|reflexivity]);
    try reflexivity; try done; try (unfold fits, apart; vm_compute; intuition congruence).
  apply (bool_decide_unpack _). by vm_compute.
Defined.

(** ** The image *)

Definition ex_uninit (n : Z) : list Z := replicate (Z.to_nat n) 170.

Lemma ex_uninit_ok n : 0 <= n -> lenZ (ex_uninit n) = n /\ bytes (ex_uninit n).
Proof.
  intros Hn. unfold ex_uninit, lenZ. rewrite length_replicate. split; [lia|]. by apply Forall_replicate.
Qed.

(** 512-byte sectors, two per cluster, one table of two sectors, 32 entries in
    the root directory. *)
Definition ex_boot : list Z :=
  updZ (updZ (updZ (updZ (updZ (updZ (replicate 512 0) 12 2) 13 2) 14 1) 16 1) 17 32) 22 2.
Definition ex_vol : Fat16Volume := mk_volume (superblock_of ex_boot) zero_dirent 2 0 1 3 5 1024.

(** Clusters 3 and 4 are the file's, 6 and 7 link to each other. *)
Definition ex_fat : list Z := List.concat (map le16 [65528; 65535; 65535; 4; 65535; 0; 7; 6]).
Definition ex_entry : FatDirEntry := mk_dirent (chars "NOTE    ") (chars "TXT") 32 0 0 0 0 0 0 0 0 3 1500.
Definition ex_ram : ram :=
  <[9 := replicate 512 67]> (<[8 := replicate 512 66]> (<[7 := replicate 512 65]>
  (<[3 := dirent_bytes ex_entry]> (<[1 := ex_fat]> (<[0 := ex_boot]> ∅))))).
Definition ex_secs : Z -> list Z := ram_sector ex_ram.
Definition ex_host : host ram := mk_host ex_ram [].
Definition ex_pio : host pio := mk_host (mk_pio (mk_drive 0 0 0 0 0 Idle) ex_ram 0) [].

(** The file "NOTE", open for writing at offset [off]. *)
Definition ex_file (cluster off : Z) : Fat16File :=
  mk_file None ex_vol ex_entry 3 0 cluster off (Z.lor FAT16_CTL_WRITE 1).

(** Facts about every cluster of the table, by evaluation. *)
Lemma all_clusters (P : Z -> bool) (a n : Z) : forallb P (seqZ a n) = true -> forall c, a <= c < a + n -> P c = true.
Proof. rewrite forallb_forall. intros HP c Hc. apply HP. apply list_elem_of_In, elem_of_seqZ. lia. Qed.

Lemma ex_vol_ok {D} `{BlockDev D} : bd_capacity = 65536 -> vol_ok ex_vol.
Proof. intros E. split; rewrite ?E; unfold nfat; by vm_compute. Qed.

Lemma get_volume_layout_witness :
  exists h', fat_get_volume ex_uninit (Some ex_vol) ex_host = Ok ((1, Some ex_vol), h') /\ disk_is h' ex_secs.
Proof.
  destruct (get_volume_layout ex_uninit ex_uninit_ok ex_host ex_secs ex_vol) as (v & h' & E & Hd & _);
    [done|by vm_compute| |].
  - split; vm_compute; split_and?; done.
  - exists h'. split; [|exact Hd]. rewrite E. revert E. vm_compute. by intros [= <- <-].
Defined.

Lemma free_clusters_terminates_witness :
  exists h' s' cs, fat_free_clusters_until_end ex_uninit ex_vol 6 ex_host = Ok (0, h') /\ disk_is h' s' /\
    freed ex_vol ex_secs s' cs /\ 6 ∈ cs.
Proof.
  destruct (free_clusters_terminates ex_uninit ex_uninit_ok ex_vol (@ex_vol_ok ram ram_disk eq_refl) ex_host ex_secs 6)
    as (h' & s' & cs & E & Hd & _ & Hf & Hin).
  - done.
  - intros c Hc Hn. pose proof (all_clusters
      (fun c => negb (FAT_CLUS_NORMAL (fat_entry ex_vol ex_secs c)) || (fat_entry ex_vol ex_secs c <? 512)) 0 512) as Hall.
    cbv beta in Hall. apply Z.ltb_lt. specialize (Hall ltac:(by vm_compute) c Hc). rewrite Hn in Hall. exact Hall.
  - done.
  - exists h', s', cs. split_and!; [exact E|exact Hd|exact Hf|by apply Hin].
Defined.

Lemma ex_chain : chain ex_vol ex_secs [3; 4].
Proof. split_and!; split || vm_compute; by vm_compute. Qed.

Lemma free_clusters_exact_witness :
  exists h' s', fat_free_clusters_until_end ex_uninit ex_vol 3 ex_host = Ok (0, h') /\ disk_is h' s' /\
    fat_entry ex_vol s' 3 = 0 /\ fat_entry ex_vol s' 4 = 0 /\ fat_entry ex_vol s' 6 = 7.
Proof.
  destruct (free_clusters_exact ex_uninit ex_uninit_ok ex_vol (@ex_vol_ok ram ram_disk eq_refl) ex_host ex_secs [3; 4])
    as (h' & s' & E & Hd & _ & Hf & _); [done|apply ex_chain|].
  pose proof (Hf 3 ltac:(clear; by vm_compute)) as H3. pose proof (Hf 4 ltac:(by vm_compute)) as H4.
  pose proof (Hf 6 ltac:(clear; by vm_compute)) as H6.
  exists h', s'. split; [exact E|]. split; [exact Hd|]. split; [exact H3|]. split; [exact H4|exact H6].
Defined.

Lemma ex_first_free : first_free ex_vol ex_secs 5.
Proof.
  split; [by vm_compute|]. split; [by vm_compute|]. intros c Hc.
  pose proof (all_clusters (fun c => negb (fat_entry ex_vol ex_secs c =? 0)) 3 2 ltac:(by vm_compute) c Hc) as Hall.
  cbv beta in Hall. by apply negb_true_iff, Z.eqb_neq in Hall.
Qed.

Lemma free_cluster_lowest_witness :
  exists h', fat_get_free_cluster ex_uninit ex_vol ex_host = Ok (5, h').
Proof.
  destruct (free_cluster_lowest ex_uninit ex_uninit_ok ex_vol (@ex_vol_ok ram ram_disk eq_refl) ex_host ex_secs) as [Hfree _];
    [done|]. destruct (Hfree 5 ex_first_free) as (h' & E & _). by exists h'.
Defined.

Lemma file_reads_stream_witness :
  exists h', reads ex_uninit (ex_file 3 0) [1000; 300; 300] ex_host =
    Ok (replicate 512 65 ++ replicate 512 66 ++ replicate 476 67, h').
Proof.
  destruct (file_reads_stream ex_uninit ex_uninit_ok ex_vol (@ex_vol_ok ram ram_disk eq_refl) ex_host ex_secs (ex_file 3 0) [3; 4]
    [1000; 300; 300]) as (h' & E & _).
  - done.
  - split_and!; [done|apply ex_chain|done|done|done|done|]. by vm_compute.
  - done.
  - by repeat constructor.
  - done.
  - exists h'. rewrite E. by vm_compute.
Defined.

(** The file open for writing at offset 1020, in its first cluster. *)
Lemma ex_writable : writable ex_vol ex_secs (ex_file 3 1020) [3; 4] 0.
Proof.
  split; try by vm_compute.
  - split; try by vm_compute. all: split; [done|]; apply (bool_decide_unpack _); by vm_compute.
  - left. by vm_compute.
  - by left.
Qed.

(** 1100 bytes: the end of the first cluster, the second and one new one. *)
Definition ex_text : list Z := replicate 1100 88.

Lemma ex_text_bytes : bytes ex_text.
Proof. by apply Forall_replicate. Qed.

Lemma write_file_stores_witness :
  exists h' s' cs' f', fat_write_file ex_uninit (ex_file 3 1020) ex_text 1100 ex_host = Ok ((1100, f'), h') /\
    disk_is h' s' /\ chain ex_vol s' cs' /\ file_size (dirent f') = 2120.
Proof.
  destruct (write_file_stores ex_uninit ex_uninit_ok ex_vol (@ex_vol_ok ram ram_disk eq_refl) ex_host ex_secs (ex_file 3 1020) [3; 4] 0
    ex_text 1100) as (h' & s' & cs' & f' & E & Hd & Hc & _ & _ & _ & _ & Hsz & _);
    [done|apply ex_writable|apply ex_text_bytes|by vm_compute|by vm_compute|by vm_compute|].
  exists h', s', cs', f'. by split_and!.
Defined.

(** Through the ATA driver, on a drive that is busy after each command. *)
Lemma write_read_roundtrip_witness :
  exists h1 f1 h2 f2 out,
    fat_write_file (D:=pio) ex_uninit (ex_file 3 1020) ex_text 1100 ex_pio = Ok ((1100, f1), h1) /\
    fat_read_file (D:=pio) ex_uninit (set_pos f1 (start_cluster (dirent f1)) 0) (replicate 2120 0) 2120 h1
      = Ok ((2120, f2, out), h2) /\
    slice out 0 2120 = replicate 512 65 ++ replicate 508 66 ++ replicate 1100 88.
Proof.
  destruct (write_read_roundtrip ex_uninit ex_uninit_ok ex_vol (@ex_vol_ok pio (@ata_disk pio pio_ports pio_protocol) eq_refl) ex_pio ex_secs (ex_file 3 1020) [3; 4] 0
    ex_text 1100 (replicate 2120 0)) as (h1 & f1 & h2 & f2 & out & E1 & E2 & E3);
    [done|apply ex_writable|apply ex_text_bytes|by vm_compute|by vm_compute|by vm_compute|by vm_compute|].
  exists h1, f1, h2, f2, out. split; [exact E1|]. split; [exact E2|]. etransitivity; [exact E3|]. by vm_compute.
Defined.

(** ** Directories *)

Lemma ex_entry_ok : dirent_ok ex_entry.
Proof. apply ex_writable. Qed.


(** The requests the allocator of [Malloc] grants on a fresh heap after the
    requests of a log; blocks given back are not used again. *)
Fixpoint heap_after (l : list event) (h : Malloc.heap) : option Malloc.heap :=
  match l with
  | [] => Some h
  | EvAlloc n :: l => match Malloc.kmalloc 20 n h with Ok (_, h) => heap_after l h | _ => None end
  | _ :: l => heap_after l h
  end.
#[local] Instance malloc_policy : HeapPolicy := fun l n =>
  match heap_after l (Malloc.init_heap (Malloc.mk_heap ∅ 0 0)) with
  | Some h => match Malloc.kmalloc 20 n h with Ok (a, _) => negb (a =? 0) | _ => false end
  | None => false
  end.

Definition ex_path : list Z := chars "/note".

Lemma ex_short : short (components ex_path).
Proof. change (components ex_path) with [chars "note"]. by apply Forall_singleton. Qed.
Lemma ex_room : room_for (log ex_host) ex_path.
Proof. split_and!; by vm_compute. Qed.

Definition ex_opened (fl : Z) : Fat16File := mk_file (Some ex_path) ex_vol ex_entry 3 0 3 0 fl.

(** The walk along the path: one lookup, in the root directory. *)
Lemma ex_resolves fl : resolves ex_vol ex_secs (fresh_file ex_vol ex_path fl) (components ex_path)
  (Some (ex_opened fl)).
Proof.
  change (components ex_path) with [chars "note"].
  apply (res_step ex_vol ex_secs (fresh_file ex_vol ex_path fl) (chars "note") [] _ _ 0 _ (dir_root ex_vol ex_secs)); [by vm_compute|].
  assert (E : found (fresh_file ex_vol ex_path fl) (secs ex_secs 3 2) (fun _ p => (3 + p / 512, 0)) 0 =
    ex_opened fl) by (by vm_compute).
  change (root_dir_start ex_vol) with 3. change (root_sectors ex_vol) with 2. rewrite E. constructor.
Qed.

Lemma find_walks_path_witness :
  exists h', fat16_find ex_uninit (mk_file (Some ex_path) ex_vol ex_entry 255 255 255 0 0) ex_path ex_host
    = Ok (Some (ex_opened 0), h') /\ disk_is h' ex_secs.
Proof.
  destruct (find_walks_path ex_uninit ex_uninit_ok ex_vol (@ex_vol_ok ram ram_disk eq_refl) eq_refl ex_host ex_secs
    (mk_file (Some ex_path) ex_vol ex_entry 255 255 255 0 0) ex_path (Some (ex_opened 0))) as (h' & E & Hd & _);
    [done|done|done|apply ex_short|apply ex_resolves|].
  exists h'. split; [exact E|exact Hd].
Defined.

Lemma open_read_close_witness :
  exists f h1 h2 h3, fat_open ex_uninit 5 ex_vol ex_path 1 ex_host = Ok (Some f, h1) /\
    reads ex_uninit f [1024; 1024] h1 = Ok (replicate 512 65 ++ replicate 512 66 ++ replicate 476 67, h2) /\
    fat_close f h2 = Ok (tt, h3) /\
    log h3 = [EvAlloc 28; EvAlloc 32; EvAlloc 6; EvFree 6; EvFree 32; EvFree 28].
Proof.
  destruct (open_read_close ex_uninit ex_uninit_ok ex_vol (@ex_vol_ok ram ram_disk eq_refl) eq_refl ex_host ex_secs 5 ex_path 1
    (ex_opened 1) [3; 4] [1024; 1024]) as (h1 & h2 & h3 & E1 & E2 & E3 & _ & E4);
    [done|done|apply ex_short|apply ex_room|done|done|done|apply ex_resolves|done|apply ex_chain|done|done|by repeat constructor|done|].
  exists (ex_opened 1), h1, h2, h3. split; [exact E1|]. split; [rewrite E2; by vm_compute|]. split; [exact E3|exact E4].
Defined.

Lemma append_extends_file_witness :
  exists h1 g h2 g' s' cs', fat_open ex_uninit 5 ex_vol ex_path 4 ex_host = Ok (Some g, h1) /\
    fat_write_file ex_uninit g ex_text 1100 h1 = Ok ((1100, g'), h2) /\ disk_is h2 s' /\
    slice (file_bytes ex_vol s' cs') 0 2600 = replicate 512 65 ++ replicate 512 66 ++ replicate 476 67 ++ replicate 1100 88.
Proof.
  destruct (append_extends_file ex_uninit ex_uninit_ok ex_vol (@ex_vol_ok ram ram_disk eq_refl) eq_refl ex_host ex_secs 5 ex_path 4
    (ex_opened 4) [3; 4] ex_text 1100) as (h1 & g & h2 & g' & s' & cs' & q & E1 & E2 & Hd & _ & _ & E3 & _);
    [done|done|apply ex_short|apply ex_room|done|done|done|done|apply ex_resolves|done|apply ex_chain|done| | |apply ex_text_bytes|done|done| |].
  - apply (bool_decide_unpack _). by vm_compute.
  - by vm_compute.
  - by vm_compute.
  - exists h1, g, h2, g', s', cs'. split; [exact E1|]. split; [exact E2|]. split; [exact Hd|].
    etransitivity; [exact E3|]. by vm_compute.
Defined.

Lemma delete_file_frees_witness :
  exists h' s' q, fat_delete_file ex_uninit 5 ex_vol ex_path ex_host = Ok (1, h') /\ disk_is h' s' /\
    fat_entry ex_vol s' 3 = 0 /\ fat_entry ex_vol s' 4 = 0 /\
    hit (entry_block ex_vol s' (ex_opened 0)) (chars "NOTE    ") q = false.
Proof.
  destruct (delete_file_frees ex_uninit ex_uninit_ok ex_vol (@ex_vol_ok ram ram_disk eq_refl) eq_refl ex_host ex_secs 5 ex_path
    (ex_opened 0) [3; 4]) as (h' & s' & q & E & Hd & Hf & _ & _ & Hh & _);
    [done|done|apply ex_short|apply ex_room|done|apply ex_resolves|done|apply ex_chain|done|].
  pose proof (Hf 3 ltac:(clear; by vm_compute)) as H3. pose proof (Hf 4 ltac:(clear; by vm_compute)) as H4.
  exists h', s', q. split; [exact E|]. split; [exact Hd|]. split; [exact H3|]. split; [exact H4|apply Hh].
Defined.

Lemma create_opens_new_file_witness :
  exists h' s' f q, fat_open ex_uninit 5 ex_vol (chars "/new") 10 ex_host = Ok (Some f, h') /\ disk_is h' s' /\
    filename (dirent f) = chars "NEW     " /\ writable ex_vol s' f [5] q /\ fat_entry ex_vol s' 5 = 65535.
Proof.
  destruct (create_opens_new_file ex_uninit ex_uninit_ok ex_vol (@ex_vol_ok ram ram_disk eq_refl) eq_refl ex_host ex_secs 5
    (chars "new") 10 5 32) as (h' & s' & f & q & E & Hd & Hf & W & _ & _ & Ht & _);
    [done|done|done| | |done|split_and!; by vm_compute|split_and!; by vm_compute|split_and!; by vm_compute|done|done|done|done|by vm_compute|by vm_compute|apply ex_first_free|done|done|].
  - apply (bool_decide_unpack _). by vm_compute.
  - by repeat constructor.
  - pose proof (Ht 5 ltac:(clear; by vm_compute)) as H5.
    exists h', s', f, q. split; [exact E|]. split; [exact Hd|]. split; [by rewrite Hf|]. split; [exact W|exact H5].
Defined.

(** The same volume with every entry of the root directory in use. *)
Definition full_ram : ram :=
  <[4 := List.concat (replicate 16 (dirent_bytes ex_entry))]> (<[3 := List.concat (replicate 16 (dirent_bytes ex_entry))]> ex_ram).
Definition ex_root : Fat16File := mk_file (Some [47]) ex_vol zero_dirent 255 255 0 0 FAT16_CTL_IS_ROOT.

Lemma create_in_full_root_hangs_witness :
  _fat_create_file ex_uninit 7 ex_root (chars "new") 8 (mk_host full_ram []) = NoFuel.
Proof.
  apply (create_in_full_root_hangs ex_uninit ex_uninit_ok ex_vol (@ex_vol_ok ram ram_disk eq_refl) eq_refl
    (mk_host full_ram []) (ram_sector full_ram)); [done|by vm_compute|done|by vm_compute].
Defined.
