(* ===== verification/FatTest.v ===== *)
(** * The kernel's tests of the disk and the file system (kernel/main.c)

    The test routines of kernel/main.c as programs over the disk interface, and
    a run of them by evaluation: [test_fat16] on a volume that holds the files
    it asks for, and the creation, writing and deletion tests one after the
    other.  Strings are character lists; a number in a path is the text that
    [itoa] writes. *)
From S2P Require Import Prelude CMem CString Sink Print Disk Common Ata FatName Fat FatTable FatFree FatFile FatDir FatWrite FatOpen FatAppend FatExample.
From Stdlib Require Import Strings.String.
Import CString Print FatName Common Fat.
Open Scope list_scope.

Module FatTest.
Section Tests.
Context {D : Type} `{BlockDev D} `{HeapPolicy} (uninit : Z -> list Z).

(** [fuel] bounds the rounds of the loops that read or create until the end. *)
Context (fuel : nat).

Definition ASSERT (cond : bool) (msg : string) : IO D unit :=
  if cond then mret tt else fun _ => Hang (chars msg).

Definition print_text (t : list Z) : IO D unit := emit (EvPrint t).
Definition printl_text (t : list Z) : IO D unit := emit (EvPrint (t ++ [10])).
Definition print_byte (x : Z) : IO D unit := emit (EvPrint [48; 120; hb_to_hex x; lb_to_hex x]).

Definition is_some {A} (r : option A) : bool := match r with Some _ => true | None => false end.

(** [for(i=0;i<3;++i)] *)
Fixpoint print_bytes_loop (n : nat) (b : list Z) (i : Z) : IO D unit :=
  match n with
  | O => mret tt
  | S n => print_byte (nthZ b i);; Ata.printl "";; print_bytes_loop n b (i + 1)
  end.
Definition test_ata_driver : IO D unit :=
  '(_, buffer) ← bd_read (mk_cmd 1 1 (replicate 1025 0) 512);
  print_bytes_loop 3 buffer 0;;
  Ata.printl "after read".

(** [while((len = fat_read_file(file,buf,n))!=EOF)] with [print_chars(buf,len)] *)
Fixpoint read_print_loop (rounds : nat) (file : Fat16File) (buf : list Z) (n : Z) : IO D Fat16File :=
  match rounds with
  | O => out_of_fuel
  | S rounds =>
      '(len, file, buf) ← fat_read_file uninit file buf n;
      if len =? -1 then mret file
      else print_text (take (Z.to_nat len) buf);; read_print_loop rounds file buf n
  end.
Definition _test_fat16_read (v : Fat16Volume) (p : list Z) : IO D unit :=
  r ← fat_open uninit fuel v p 0;
  match r with
  | None => Ata.printstr "can't open ";; printl_text p
  | Some file =>
      Ata.printstr "read ";; printl_text p;;
      file ← read_print_loop fuel file (uninit 251) 251;
      Ata.printl "";;
      fat_close file
  end.

(** [printl(file->dirent->filename)] prints on over the fields after the name up
    to the first zero byte. *)
Definition _test_fat16_find (v : Fat16Volume) (p : list Z) : IO D unit :=
  file ← new_fat16_file uninit (Some p) v None 0;
  r ← fat16_find uninit file p;
  match r with
  | None => ASSERT false "test fat16 find:  NULL file"
  | Some file =>
      Ata.printstr "test_fat_16: ";; printl_text p;;
      Ata.printstr "result is -> ";; printl_text (take_to 0 (dirent_bytes (dirent file)));;
      call_kfree sizeof_Fat16File
  end.
Definition test_fat16_find (v : Fat16Volume) : IO D unit :=
  _test_fat16_find v (chars "/1234");;
  _test_fat16_find v (chars "/usr/");;
  _test_fat16_find v (chars "/main");;
  _test_fat16_find v (chars "/usr/abcd");;
  _test_fat16_find v (chars "/usr/");;
  r ← fat_open uninit fuel v (chars "/usr/8787") 0;
  ASSERT (negb (is_some r)) "not such file: /usr/8787".
Definition test_fat16_read (v : Fat16Volume) : IO D unit :=
  _test_fat16_read v (chars "/1234");;
  _test_fat16_read v (chars "/usr/abcd");;
  _test_fat16_read v (chars "/main");;
  _test_fat16_read v (chars "/usr/tmp/").

(** [fat16_dirlist] does not look at the file, which may be [NULL]. *)
Definition _test_fat16_ls (v : Fat16Volume) (p : list Z) : IO D unit :=
  r ← fat_open uninit fuel v p 0;
  Ata.printl "list directory : ";; printl_text p;;
  match r with
  | Some file => if fat16_dirlist file <? 0 then Ata.printl "ls failed" else mret tt
  | None => mret tt
  end.
Definition test_fat16_ls (v : Fat16Volume) : IO D unit :=
  _test_fat16_ls v (chars "/");;
  _test_fat16_ls v (chars "/usr");;
  _test_fat16_ls v (chars "/usr/");;
  _test_fat16_ls v (chars "/usr/gpio3");;
  _test_fat16_ls v (chars "/usr/gpio4").

Definition _test_fat_create (v : Fat16Volume) (p : list Z) (fl : Z) : IO D unit :=
  Ata.printstr "test fat create: ";; printl_text p;;
  r ← fat_open uninit fuel v p (Z.lor FAT16_CTL_CREATE fl);
  ASSERT (is_some r) "test_fat_create : open failed".
Definition _test_fat_write1 (v : Fat16Volume) (p content : list Z) : IO D unit :=
  Ata.printstr "test fat write: ";; printl_text p;;
  r ← fat_open uninit fuel v p FAT16_CTL_WRITE;
  match r with
  | None => ASSERT false "test_fat_write : open failed"
  | Some file => fat_write_file uninit file content (lenZ content);; mret tt
  end.

(** [while(fat_read_file(src_file,buf,123)!= FAT_FILE_EOF)]: the whole buffer is
    written in each round, however many bytes were read. *)
Fixpoint fat_copy_loop (rounds : nat) (src dest : Fat16File) (buf : list Z) : IO D unit :=
  match rounds with
  | O => out_of_fuel
  | S rounds =>
      '(r, src, buf) ← fat_read_file uninit src buf 123;
      if r =? FAT_FILE_EOF then mret tt
      else
        '(_, dest) ← fat_write_file uninit dest buf 123;
        fat_copy_loop rounds src dest buf
  end.
Definition _test_fat_write2 (v : Fat16Volume) (src_path dest_path : list Z) (dest_flag : Z) : IO D unit :=
  Ata.printl "fat write test2 (copy): ";;
  Ata.printstr "from: ";; print_text src_path;; Ata.printstr " to:  ";; printl_text dest_path;;
  src ← fat_open uninit fuel v src_path 0;
  dest ← fat_open uninit fuel v dest_path (Z.lor (Z.lor FAT16_CTL_WRITE FAT16_CTL_CREATE) dest_flag);
  match src, dest with
  | Some src, Some dest =>
      fat_copy_loop fuel src dest (replicate 123 0);;
      Ata.printl "end of write test 2"
  | _, _ => ASSERT false "test_fat_write2 : open failed"
  end.
Definition test_fat_write (v : Fat16Volume) : IO D unit :=
  _test_fat_write1 v (chars "/file1") (chars "i am file1.txt haha");;
  _test_fat_write1 v (chars "/1234") (chars "1234 2234 3234 4234 " ++ [10]);;
  _test_fat_write1 v (chars "/usr/abcd") (chars "abcdefh hijklmn" ++ [10]);;
  _test_fat_write1 v (chars "/usr/log1") (chars "lllllllllllllllllllllllllllllllllllloggggggggggggggggggggggg" ++ [10]);;
  _test_fat_write1 v (chars "/usr/desktop/config") (chars "aaa=bbb" ++ [10] ++ chars "ggg=ccc" ++ [10] ++ chars "user=12345" ++ [10]);;
  _test_fat_write2 v (chars "/file1") (chars "/file2") 0;;
  _test_fat_write2 v (chars "/1234") (chars "/file2") FAT16_CTL_APPEND;;
  _test_fat_write2 v (chars "/main") (chars "/usr/desktop/main2") 0.
Definition test_fat_create (v : Fat16Volume) : IO D unit :=
  _test_fat_create v (chars "/file1") 0;;
  _test_fat_create v (chars "/var") FAT16_CTL_DIR;;
  _test_fat_create v (chars "/usr/log1") 0;;
  _test_fat_create v (chars "/usr/desktop") FAT16_CTL_DIR;;
  _test_fat_create v (chars "/usr/desktop/config") 0;;
  _test_fat_create v (chars "/var/tmp") FAT16_CTL_DIR;;
  _test_fat_create v (chars "/var/tmp2") FAT16_CTL_DIR;;
  Ata.printl "test fat create done".

Definition _test_fat_delete (v : Fat16Volume) (p : list Z) : IO D unit :=
  Ata.printstr "delete: ";; printl_text p;;
  r ← fat_delete_file uninit fuel v p;
  ASSERT (0 <=? r) "test_fat_delete : delete failed";;
  f ← fat_open uninit fuel v p 0;
  ASSERT (negb (is_some f)) "test_fat_delete : delete failed2".
Definition test_fat_delete (v : Fat16Volume) : IO D unit :=
  _test_fat_delete v (chars "/usr/");;
  r ← fat_delete_file uninit fuel v (chars "/gg");
  ASSERT (r =? -1) "test_fat_delete : delete NULL file".

(** [strcat(folder,s,path_n)] with [s] from [itoa(i,s,4)] *)
Definition path_n (folder : list Z) (i : Z) : list Z := folder ++ reverse (digits_rev 11 i).

(** [for(i=0;i<128;++i)] *)
Fixpoint stress_create_loop (n : nat) (v : Fat16Volume) (folder : list Z) (i : Z) : IO D unit :=
  match n with
  | O => mret tt
  | S n =>
      r ← fat_open uninit fuel v (path_n folder i) FAT16_CTL_CREATE;
      ASSERT (is_some r) "fat stress open 2 failed";;
      stress_create_loop n v folder (i + 1)
  end.
Definition test_fat_stress_create (v : Fat16Volume) : IO D unit :=
  let folder := chars "/test1/" in
  Ata.printstr "stress test create: ";; printl_text folder;;
  r ← fat_open uninit fuel v folder (Z.lor FAT16_CTL_CREATE FAT16_CTL_DIR);
  ASSERT (is_some r) "fat stress test create : create topest level directory failed";;
  Ata.printl "";;
  stress_create_loop 128 v folder 0.

Fixpoint stress_delete_loop (n : nat) (v : Fat16Volume) (folder : list Z) (i : Z) : IO D unit :=
  match n with
  | O => mret tt
  | S n => fat_delete_file uninit fuel v (path_n folder i);; stress_delete_loop n v folder (i + 1)
  end.
(** [for(i=0;i<1024;++i)] *)
Fixpoint stress_write_loop (n : nat) (file : Fat16File) (pattern : list Z) : IO D Fat16File :=
  match n with
  | O => mret file
  | S n => '(_, file) ← fat_write_file uninit file pattern (lenZ pattern); stress_write_loop n file pattern
  end.
(** [while(EOF != fat_read_file(file,read_buf,123)) printl(read_buf)] *)
Fixpoint stress_read_loop (rounds : nat) (file : Fat16File) (buf : list Z) : IO D unit :=
  match rounds with
  | O => out_of_fuel
  | S rounds =>
      '(len, file, buf) ← fat_read_file uninit file buf 123;
      if len =? -1 then mret tt else printl_text (take_to 0 buf);; stress_read_loop rounds file buf
  end.
Definition test_fat_stress_delete (v : Fat16Volume) : IO D unit :=
  let folder := chars "/trash/" in
  Ata.printstr "stress test delete: ";; printl_text folder;;
  Ata.printl "";;
  stress_delete_loop 128 v folder 0;;
  Ata.printl "create and write to file /trash/aaa";;
  r ← fat_open uninit fuel v (chars "/trash/aaa") (Z.lor FAT16_CTL_CREATE FAT16_CTL_APPEND);
  match r with
  | None => ASSERT false "fat test delete 2 failed"
  | Some file =>
      stress_write_loop 1024 file (chars "1234567890" ++ [10]);;
      r ← fat_open uninit fuel v (chars "/trash/aaa") 0;
      match r with
      | None => ASSERT false "fat test delete 3 failed"
      | Some file =>
          Ata.printl "read file /trash/aaa";;
          stress_read_loop fuel file (replicate 124 0)
      end
  end.

(** [volume] is a local variable with arbitrary contents. *)
Definition test_fat16 (volume : Fat16Volume) : IO D unit :=
  '(_, r) ← fat_get_volume uninit (Some volume);
  match r with
  | None => mret tt
  | Some v => test_fat16_find v;; test_fat16_read v;; test_fat_stress_delete v
  end.
End Tests.
End FatTest.
Import FatTest.

(** ** A run of the tests *)

(** Every request is granted until 4 MiB have been asked for, headers included
    and nothing given back. *)
#[local] Instance budget_policy : HeapPolicy := fun l n =>
  (foldr (fun e s => match e with EvAlloc k => s + k + 12 | _ => s end) 0 l + n + 24 <=? 4194304).

(** A blank volume: 512-byte clusters, 512 table entries, 32 root entries. *)
Definition blank : ram :=
  <[1 := List.concat (map le16 [65528; 65535; 65535])]>
  (<[0 := updZ (updZ (updZ (updZ (updZ (updZ (replicate 512 0) 12 2) 13 1) 14 1) 16 1) 17 32) 22 2]> ∅).

Definition on_volume {A} (c : Fat16Volume -> IO ram A) : IO ram (option A) :=
  '(_, r) ← fat_get_volume ex_uninit (Some ex_vol);
  match r with Some v => x ← c v; mret (Some x) | None => mret None end.

(** The files the tests ask for, made with the routines under test. *)
Definition prepare (v : Fat16Volume) : IO ram unit :=
  let create := _test_fat_create ex_uninit 200 v in
  create (chars "/1234") 0;; create (chars "/usr") FAT16_CTL_DIR;; create (chars "/usr/abcd") 0;;
  create (chars "/usr/tmp") FAT16_CTL_DIR;; create (chars "/main") 0;; create (chars "/trash") FAT16_CTL_DIR;;
  create (chars "/trash/0") 0;; create (chars "/trash/17") 0;;
  _test_fat_write1 ex_uninit 200 v (chars "/1234") (chars "one two three four");;
  _test_fat_write1 ex_uninit 200 v (chars "/main") (replicate 700 77).

Definition read_whole (p : list Z) (n : Z) (v : Fat16Volume) : IO ram (list Z) :=
  r ← fat_open ex_uninit 200 v p 0;
  match r with Some f => reads ex_uninit f [n] | None => mret [] end.

Definition run {A} (c : IO ram A) : option A :=
  match c (mk_host blank []) with Ok (x, _) => Some x | _ => None end.

(** [test_fat16] passes on a volume with the files it asks for: every assertion
    holds, every loop ends, and the 1024 lines it appends to a new file in a
    subdirectory, across 22 clusters, are what the file then contains. *)
Theorem test_fat16_passes :
  run (on_volume prepare;; test_fat16 ex_uninit 200 ex_vol;; on_volume (read_whole (chars "/trash/aaa") 20000)) =
  Some (Some (List.concat (replicate 1024 (chars "1234567890" ++ [10])))).
Proof. vm_cast_no_check (eq_refl (Some (Some (List.concat (replicate 1024 (chars "1234567890" ++ [10])))))). Qed.

(** So do the creation, writing, listing, stress-creation (128 files in one
    directory) and deletion tests, one after the other; the deleted tree is gone
    and a file written before is intact. *)
Theorem test_fat_create_write_delete_pass :
  run (on_volume (fun v => prepare v;; test_fat_create ex_uninit 200 v;; test_fat_write ex_uninit 200 v;;
        test_fat16_ls ex_uninit 200 v;; test_fat_stress_create ex_uninit 200 v;; test_fat_delete ex_uninit 200 v);;
       on_volume (read_whole (chars "/file1") 1000)) =
  Some (Some (chars "i am file1.txt haha")).
Proof. vm_cast_no_check (eq_refl (Some (Some (chars "i am file1.txt haha")))). Qed.
