(* ===== verification/Keyboard.v ===== *)
(** * Keyboard driver and shell (drivers/keyboard.c, drivers/keyboard.h, kernel/shell.c)

    The scan-code state machine of [kb_handler] and the dispatch of key codes
    to the console.  A key code is its enum value.  [kb_handler] takes the
    status bytes that its polling loop reads and the scan code behind them;
    [beyond] is the word that follows [keycode_tbl] in memory, which the
    inclusive case range [0 ... sizeof(tbl)/sizeof(KEY_CODE)] can read. *)
From S2P Require Import Prelude CMem CString Sink Console ConsoleThm Print.
Import CString Console Print.
From Stdlib Require Import Strings.String.
Open Scope list_scope.

Module Keyboard.

Definition EMPTY := 0.
Definition SPACE := 32.
Definition SINGLE_QUOTE := 39.
Definition WILDCARD := 42.
Definition ADD := 43.
Definition COMMA := 44.
Definition HYPHEN := 45.
Definition DOT := 46.
Definition SLASH := 47.
Definition ZERO := 48.
Definition NINE := 57.
Definition SEMICOLON := 59.
Definition EQU := 61.
Definition KEY_A := 65.
Definition KEY_Z := 90.
Definition LEFT_BRACKET := 91.
Definition BACK_SLASH := 92.
Definition RIGHT_BRACKET := 93.
Definition ACUTE := 96.
Definition F1 := 128.
Definition F11 := 138.
Definition F12 := 139.
Definition NUMLOCK := 140.
Definition SCROLL := 141.
Definition BACKSPACE := 144.
Definition TAB := 145.
Definition CAPS := 146.
Definition ENTER := 147.
Definition SHIFT := 148.
Definition CTRL := 149.
Definition ALT := 150.
Definition UP_RELEASE := 151.
Definition DOWN_RELEASE := 153.
Definition PRINTSCR := 155.
Definition PRINTSCR_RELEASE := 156.
Definition PAUSE := 157.

(** The letters, digits and function keys between the named codes. *)
Definition keycode_tbl : list Z :=
  [EMPTY; EMPTY; 49; 50; 51; 52; 53; 54; 55; 56; NINE; ZERO; HYPHEN;
   EQU; BACKSPACE; TAB; 81; 87; 69; 82; 84; 89; 85; 73; 79; 80; LEFT_BRACKET; RIGHT_BRACKET; ENTER; CTRL;
   KEY_A; 83; 68; 70; 71; 72; 74;
   75; 76; SEMICOLON; SINGLE_QUOTE; ACUTE; SHIFT; BACK_SLASH; KEY_Z; 88; 67; 86; 66; 78; 77; COMMA; DOT;
   SLASH; SHIFT; WILDCARD; ALT; SPACE; CAPS; F1; 129; 130; 131; 132; 133; 134; 135; 136; 137; NUMLOCK; SCROLL; 55; 56;
   NINE; HYPHEN; 52; 53; 54; ADD; 49; 50; 51; ZERO; DOT; F11; F12].

(** [scancode_history] and [scancode_depth] *)
Record kb := mkKb { scancode_history : list Z; scancode_depth : Z }.
Definition kb0 : kb := mkKb (replicate 6 0) 0.

Definition put_scan_history (k : kb) (scan_code : Z) : kb :=
  mkKb (updZ (scancode_history k) (scancode_depth k) scan_code) (scancode_depth k + 1).

(** What the two nested switches decide: a key code, or the jump to
    [_put_scan_history] ([None]). *)
Definition decode (beyond : Z) (k : kb) (scan_code : Z) : option Z :=
  let h i := nthZ (scancode_history k) i in
  if scancode_depth k =? 0 then
    if scan_code <=? lenZ keycode_tbl then
      Some (if scan_code =? lenZ keycode_tbl then beyond else nthZ keycode_tbl scan_code)
    else if (scan_code =? 224) || (scan_code =? 225) then None
    else Some EMPTY
  else if scancode_depth k =? 1 then
    if h 0 =? 225 then None
    else if scan_code =? 200 then Some UP_RELEASE
    else if scan_code =? 208 then Some DOWN_RELEASE
    else if (scan_code =? 42) || (scan_code =? 183) then None
    else Some EMPTY
  else if scancode_depth k =? 2 then None
  else if scancode_depth k =? 3 then
    if (h 0 =? 224) && (h 1 =? 42) then Some PRINTSCR
    else if (h 0 =? 224) && (h 1 =? 183) then Some PRINTSCR_RELEASE
    else None
  else if scancode_depth k =? 4 then None
  else if scancode_depth k =? 5 then Some PAUSE
  else Some EMPTY.

(** The state machine: the next state and the key code given to the shell. *)
Definition scan (beyond : Z) (k : kb) (scan_code : Z) : kb * option Z :=
  match decode beyond k scan_code with
  | Some key_code => (mkKb (scancode_history k) 0, Some key_code)
  | None => (put_scan_history k scan_code, None)
  end.

(** [while( ! ( ( status=inb(0x64) ) & KB_OUT_STATUS_OK ) );] *)
Fixpoint kb_poll (statuses : list Z) : bool :=
  match statuses with
  | [] => false
  | st :: rest => if negb (Z.land st 1 =? 0) then true else kb_poll rest
  end.

(** ** The shell *)

Definition DONWCASE := 0.
Definition UPCASE := 1.
(** [static uint32_t __case = UPCASE;] is never assigned. *)
Definition __case := UPCASE.

Definition shell_get_key_code (s : console) (keycode : Z) : console :=
  let c := wrap8 keycode in
  if keycode =? EMPTY then s
  else if keycode =? UP_RELEASE then window_move_up s
  else if keycode =? DOWN_RELEASE then window_move_down s
  else if (KEY_A <=? keycode) && (keycode <=? KEY_Z) then
    get_input_char s (if __case =? DONWCASE then wrap8 (c - 65 + 97) else c)
  else if ((ZERO <=? keycode) && (keycode <=? NINE)) ||
          (keycode =? HYPHEN) || (keycode =? EQU) || (keycode =? LEFT_BRACKET) || (keycode =? RIGHT_BRACKET) ||
          (keycode =? SEMICOLON) || (keycode =? SINGLE_QUOTE) || (keycode =? ACUTE) || (keycode =? BACK_SLASH) ||
          (keycode =? COMMA) || (keycode =? DOT) || (keycode =? SLASH) || (keycode =? WILDCARD) || (keycode =? SPACE)
  then get_input_char s c
  else if keycode =? ENTER then flush_input_buffer s
  else if keycode =? BACKSPACE then modify_input_cnt s (-1)
  else if keycode =? PRINTSCR then puts s (chars "printscr detected" ++ [10])
  else if keycode =? PRINTSCR_RELEASE then puts s (chars "printscr_re detected" ++ [10])
  else if keycode =? PAUSE then puts s (chars "pause detected" ++ [10])
  else s.

Definition kb_handler (beyond : Z) (statuses : list Z) (scan_code : Z) (k : kb) (s : console) : res (kb * console) :=
  if kb_poll statuses then
    match scan beyond k scan_code with
    | (k, Some key_code) => Ok (k, shell_get_key_code s key_code)
    | (k, None) => Ok (k, s)
    end
  else NoFuel.

(** The commands of [parse_command], in the order in which it tests them;
    [sp] continues with [parse_serial_command] on the rest of the line. *)
Inductive command := Hello | Halt | ClearCmd | NextTask | Serial (rest : Z) | NoCommand.

(** [parse_command]: the string literals and the local array [buffer] are at
    the given addresses. *)
Definition parse_command (fuel : nat) (m : mem) (hello halt clear nt blank sp buffer s : Z) : res (mem * command) :=
  r ← string_equal fuel m hello s;
  if negb (r =? 0) then Ok (m, Hello) else
  r ← string_equal fuel m halt s;
  if negb (r =? 0) then Ok (m, Halt) else
  r ← string_equal fuel m clear s;
  if negb (r =? 0) then Ok (m, ClearCmd) else
  r ← string_equal fuel m nt s;
  if negb (r =? 0) then Ok (m, NextTask) else
  '(m, p) ← strtok fuel m s blank buffer;
  r ← string_equal fuel m sp buffer;
  if negb (r =? 0) then Ok (m, Serial p) else Ok (m, NoCommand).

End Keyboard.
Import Keyboard.

(** ** The scan-code machine *)

Definition kb_inv (k : kb) : Prop := 0 <= scancode_depth k <= 5 /\ lenZ (scancode_history k) = 6.

Lemma scan_step beyond k c :
  kb_inv k ->
  let '(k', r) := scan beyond k c in
  kb_inv k' /\ match r with
               | Some _ => scancode_depth k' = 0
               | None => scancode_depth k' = scancode_depth k + 1 /\
                         scancode_history k' = updZ (scancode_history k) (scancode_depth k) c
               end.
Proof.
  intros [Hd Hl]. unfold scan. destruct (decode beyond k c) as [key|] eqn:E.
  - split; [|done]. split; [simpl; lia|done].
  - split; [|done]. split; [|simpl; by rewrite lenZ_updZ]. cbn [scancode_depth put_scan_history].
    destruct (decide (scancode_depth k = 5)) as [H5|]; [|lia]. unfold decode in E. rewrite H5 in E. by cbn in E.
Qed.

Fixpoint scans (beyond : Z) (k : kb) (cs : list Z) : kb * list Z :=
  match cs with
  | [] => (k, [])
  | c :: cs =>
      let '(k, r) := scan beyond k c in
      let '(k, keys) := scans beyond k cs in
      (k, match r with Some key => key :: keys | None => keys end)
  end.

Lemma scans_inv beyond k cs : kb_inv k -> kb_inv (fst (scans beyond k cs)).
Proof.
  revert k. induction cs as [|c cs IH]; intros k Hk; cbn [scans]; [done|].
  pose proof (scan_step beyond k c Hk) as Hs. destruct (scan beyond k c) as [k1 r]. destruct Hs as [Hk1 _].
  specialize (IH k1 Hk1). by destruct (scans beyond k1 cs).
Qed.

(** A key needs at most six scan codes. *)
Lemma scans_progress beyond k cs :
  kb_inv k -> 6 - scancode_depth k <= lenZ cs -> snd (scans beyond k cs) <> [].
Proof.
  revert k. induction cs as [|c cs IH]; intros k Hk Hl.
  - change (lenZ (@nil Z)) with 0 in Hl. destruct Hk as [? _]. lia.
  - cbn [scans]. pose proof (scan_step beyond k c Hk) as Hs. destruct (scan beyond k c) as [k1 [key|]].
    + by destruct (scans beyond k1 cs).
    + destruct Hs as (Hk1 & Hd & _). rewrite lenZ_cons in Hl. specialize (IH k1 Hk1 ltac:(lia)).
      by destruct (scans beyond k1 cs).
Qed.

(** C38. The scan-code machine is safe and live: on any sequence of scan codes
    the history index stays below six, so [scancode_history] is never written
    outside, and any six further scan codes deliver at least one key code to
    the shell; the Pause and Print-screen sequences are recognised. *)
Theorem scan_machine_safe_live beyond cs cs' :
  let k := fst (scans beyond kb0 cs) in
  0 <= scancode_depth k <= 5 /\ lenZ (scancode_history k) = 6 /\
  (6 <= lenZ cs' -> snd (scans beyond k cs') <> []) /\
  snd (scans beyond kb0 [225; 29; 69; 225; 157; 197]) = [PAUSE] /\
  snd (scans beyond kb0 [224; 42; 224; 55]) = [PRINTSCR] /\
  snd (scans beyond kb0 [224; 183; 224; 170]) = [PRINTSCR_RELEASE].
Proof.
  assert (H0 : kb_inv kb0) by (split; [simpl; lia|done]).
  pose proof (scans_inv beyond kb0 cs H0) as [Hd Hl]. cbn zeta. split; [done|]. split; [done|]. split; [|done].
  intros Hc. apply scans_progress; [by split|lia].
Qed.

(** The driver reads one word past its key table: the case range is
    inclusive, so scan code 86 (0x56) selects the word behind the 86 entries
    of [keycode_tbl] as key code. *)
Theorem keycode_table_overrun beyond :
  lenZ keycode_tbl = 86 /\ snd (scan beyond kb0 86) = Some beyond.
Proof. done. Qed.

(** ** The shell *)

(** What a key code does, as an event of the console. *)
Definition key_events (keycode : Z) : list event :=
  if keycode =? EMPTY then []
  else if keycode =? UP_RELEASE then [Up]
  else if keycode =? DOWN_RELEASE then [Down]
  else if (KEY_A <=? keycode) && (keycode <=? KEY_Z) then [Key keycode]
  else if ((ZERO <=? keycode) && (keycode <=? NINE)) ||
          (keycode =? HYPHEN) || (keycode =? EQU) || (keycode =? LEFT_BRACKET) || (keycode =? RIGHT_BRACKET) ||
          (keycode =? SEMICOLON) || (keycode =? SINGLE_QUOTE) || (keycode =? ACUTE) || (keycode =? BACK_SLASH) ||
          (keycode =? COMMA) || (keycode =? DOT) || (keycode =? SLASH) || (keycode =? WILDCARD) || (keycode =? SPACE)
  then [Key keycode]
  else if keycode =? ENTER then [Enter]
  else if keycode =? BACKSPACE then [Backspace]
  else if keycode =? PRINTSCR then List.map Out (chars "printscr detected" ++ [10])
  else if keycode =? PRINTSCR_RELEASE then List.map Out (chars "printscr_re detected" ++ [10])
  else if keycode =? PAUSE then List.map Out (chars "pause detected" ++ [10])
  else [].

Lemma puts_events s l : puts s l = foldl apply_event s (List.map Out l).
Proof. revert s. induction l as [|c l IH]; intros s; [done|]. simpl. apply IH. Qed.

Lemma shell_events s keycode :
  shell_get_key_code s keycode = foldl apply_event s (key_events keycode).
Proof.
  unfold shell_get_key_code, key_events. change (__case =? DONWCASE) with false. cbn [Z.eqb].
  rewrite !puts_events.
  destruct (keycode =? EMPTY); [cbn [foldl apply_event]; reflexivity|]. destruct (keycode =? UP_RELEASE); [cbn [foldl apply_event]; reflexivity|].
  destruct (keycode =? DOWN_RELEASE); [cbn [foldl apply_event]; reflexivity|].
  destruct ((KEY_A <=? keycode) && (keycode <=? KEY_Z)) eqn:E.
  { zb. cbn [foldl apply_event]. rewrite wrap8_small; [done|]. unfold KEY_A, KEY_Z in *. lia. }
  destruct (_ || _) eqn:E2.
  { cbn [foldl apply_event]. rewrite wrap8_small; [done|]. clear E.
    unfold ZERO, NINE, HYPHEN, EQU, LEFT_BRACKET, RIGHT_BRACKET, SEMICOLON, SINGLE_QUOTE, ACUTE, BACK_SLASH, COMMA, DOT,
      SLASH, WILDCARD, SPACE in E2.
    repeat (apply orb_true_iff in E2 as [E2|E2]; [|zb; lia]). zb. lia. }
  destruct (keycode =? ENTER); [cbn [foldl apply_event]; reflexivity|]. destruct (keycode =? BACKSPACE); [cbn [foldl apply_event]; reflexivity|].
  destruct (keycode =? PRINTSCR); [cbn [foldl apply_event]; reflexivity|]. destruct (keycode =? PRINTSCR_RELEASE); [cbn [foldl apply_event]; reflexivity|].
  destruct (keycode =? PAUSE); reflexivity.
Qed.

Lemma chars_u8 t : Forall (fun c => u8 c) (chars t).
Proof.
  unfold chars. apply Forall_forall. intros c Hc. apply list_elem_of_In, List.in_map_iff in Hc as (a & <- & _).
  pose proof (Ascii.N_ascii_bounded a). lia.
Qed.

(** A key code causes at most one key event, and it is never a lower-case
    letter; everything typed is a byte. *)
Lemma key_events_ok keycode :
  Forall event_ok (key_events keycode) /\ (List.length (key_events keycode) <= 21)%nat /\
  Forall (fun e => match e with Key c => ~ 97 <= c <= 122 | _ => True end) (key_events keycode).
Proof.
  assert (Ho : forall t, Forall event_ok (List.map Out (chars t ++ [10])) /\
    Forall (fun e => match e with Key c => ~ 97 <= c <= 122 | _ => True end) (List.map Out (chars t ++ [10]))).
  { intros t. split; apply Forall_forall; intros e He; apply list_elem_of_In, List.in_map_iff in He as (c & <- & Hc); [|done].
    apply list_elem_of_In, elem_of_app in Hc as [Hc|Hc].
    - by apply (proj1 (Forall_forall _ _) (chars_u8 t)).
    - apply list_elem_of_singleton in Hc as ->. simpl. lia. }
  unfold key_events.
  destruct (keycode =? EMPTY); [repeat constructor|]. destruct (keycode =? UP_RELEASE); [repeat constructor|].
  destruct (keycode =? DOWN_RELEASE); [repeat constructor|].
  destruct ((KEY_A <=? keycode) && (keycode <=? KEY_Z)) eqn:E.
  { zb. unfold KEY_A, KEY_Z in *. split_and!; [|simpl; lia|]; (constructor; [simpl; lia|constructor]). }
  destruct (_ || _) eqn:E2.
  { unfold ZERO, NINE, HYPHEN, EQU, LEFT_BRACKET, RIGHT_BRACKET, SEMICOLON, SINGLE_QUOTE, ACUTE, BACK_SLASH, COMMA, DOT,
      SLASH, WILDCARD, SPACE in E2.
    assert (Hr : 32 <= keycode <= 96).
    { repeat (apply orb_true_iff in E2 as [E2|E2]; [|zb; lia]). zb. lia. }
    split_and!; [|simpl; lia|]; (constructor; [simpl; lia|constructor]). }
  destruct (keycode =? ENTER); [repeat constructor|]. destruct (keycode =? BACKSPACE); [repeat constructor|].
  destruct (keycode =? PRINTSCR); [split_and!; [apply Ho|simpl; lia|apply Ho]|].
  destruct (keycode =? PRINTSCR_RELEASE); [split_and!; [apply Ho|simpl; lia|apply Ho]|].
  destruct (keycode =? PAUSE); [split_and!; [apply Ho|simpl; lia|apply Ho]|repeat constructor].
Qed.

Definition no_lower (l : list Z) : Prop := Forall (fun c => ~ 97 <= c <= 122) l.

Lemma spec_event_no_lower a e :
  no_lower (snd a) -> match e with Key c => ~ 97 <= c <= 122 | _ => True end -> no_lower (snd (spec_event a e)).
Proof.
  destruct a as [L inp]. unfold no_lower. cbn [snd]. intros Hn He. destruct e; cbn [spec_event snd]; try done.
  - destruct (_ <? _); [|done]. apply Forall_app. split; [done|by constructor].
  - by apply Forall_take.
Qed.

Lemma spec_events_no_lower a evs :
  no_lower (snd a) -> Forall (fun e => match e with Key c => ~ 97 <= c <= 122 | _ => True end) evs ->
  no_lower (snd (foldl spec_event a evs)).
Proof.
  intros Hn Hev. revert a Hn. induction Hev as [|e evs He Hev IH]; intros a Hn; [done|]. simpl. apply IH.
  by apply spec_event_no_lower.
Qed.

Lemma events_refine s a evs :
  refines s a -> Forall event_ok evs -> lenZ (fst a) + 41 * lenZ evs < 4294967296 ->
  refines (foldl apply_event s evs) (foldl spec_event a evs) /\
  lenZ (fst (foldl spec_event a evs)) <= lenZ (fst a) + 41 * lenZ evs.
Proof.
  intros Hr Hev. revert s a Hr. induction Hev as [|e evs He Hev IH]; intros s a Hr Hlen.
  - split; [done|]. change (lenZ (@nil event)) with 0. simpl. lia.
  - rewrite lenZ_cons in *. pose proof (lenZ_nonneg evs). cbn [foldl].
    pose proof (event_refines s a e Hr He ltac:(lia)) as Hr1.
    pose proof Hr as (((Hc & _) & _ & Hin) & Ht & _). pose proof (lenZ_input_text s Hc Hin) as Hil. rewrite Ht in Hil.
    pose proof (spec_event_len a e ltac:(lia)) as [_ Hl2].
    destruct (IH _ _ Hr1) as [H1 H2]; [lia|]. split; [done|]. lia.
Qed.

(** One keyboard interrupt on a console that refines a text terminal. *)
Lemma kb_handler_spec beyond statuses c k s a :
  kb_inv k -> kb_poll statuses = true -> refines s a -> no_lower (snd a) -> lenZ (fst a) + 861 < 4294967296 ->
  exists k' s' a', kb_handler beyond statuses c k s = Ok (k', s') /\ kb_inv k' /\ refines s' a' /\ no_lower (snd a') /\
    lenZ (fst a') <= lenZ (fst a) + 861.
Proof.
  intros Hk Hp Hr Hn Hlen. unfold kb_handler. rewrite Hp. pose proof (scan_step beyond k c Hk) as Hs.
  destruct (scan beyond k c) as [k' [key|]]; destruct Hs as [Hk' _].
  - destruct (key_events_ok key) as (He & Hl & Hnl).
    assert (lenZ (key_events key) <= 21) by (unfold lenZ; lia).
    destruct (events_refine s a (key_events key) Hr He) as [H1 H2]; [lia|].
    exists k', (shell_get_key_code s key), (foldl spec_event a (key_events key)). rewrite shell_events.
    split_and!; [done|done|done|by apply spec_events_no_lower|lia].
  - exists k', s, a. split_and!; [done..|lia].
Qed.

(** ** Commands *)

(** The string literals of [parse_command] in memory, and a buffer for the
    first word that overlaps none of them. *)
Record literals (m : mem) (hello halt clear nt blank sp : Z) : Prop := {
  lit_hello : cstr m hello [104; 101; 108; 108; 111];
  lit_halt : cstr m halt [104; 97; 108; 116];
  lit_clear : cstr m clear [99; 108; 101; 97; 114];
  lit_nt : cstr m nt [110; 116];
  lit_blank : cstr m blank [32];
  lit_sp : cstr m sp [115; 112];
}.

(** The command a line stands for. *)
Definition command_of (s : Z) (l : list Z) : command :=
  if decide (l = [104; 101; 108; 108; 111]) then Hello
  else if decide (l = [104; 97; 108; 116]) then Halt
  else if decide (l = [99; 108; 101; 97; 114]) then ClearCmd
  else if decide (l = [110; 116]) then NextTask
  else if decide (first_word 32 l = [115; 112])
  then Serial (match after_word 32 l with [] => 0 | r => s + lenZ l - lenZ r end)
  else NoCommand.

Lemma decide_eq_sym (l1 l2 : list Z) : (if decide (l1 = l2) then 1 else 0) = if decide (l2 = l1) then 1 else 0.
Proof. by destruct (decide (l1 = l2)), (decide (l2 = l1)). Qed.

Lemma parse_command_spec fuel m hello halt clear nt blank sp buffer s l :
  literals m hello halt clear nt blank sp -> cstr m s l ->
  (8 <= fuel)%nat -> lenZ l + 2 < Z.of_nat fuel -> 0 < buffer -> fits buffer (lenZ l + 1) ->
  apart s l buffer (lenZ l + 1) -> apart blank [32] buffer (lenZ l + 1) -> apart sp [115; 112] buffer (lenZ l + 1) ->
  exists m', parse_command fuel m hello halt clear nt blank sp buffer s = Ok (m', command_of s l).
Proof.
  intros [H1 H2 H3 H4 H5 H6] Hs Hf Hl Hb Hfit Ha1 Ha2 Ha3. unfold parse_command, command_of.
  rewrite (string_equal_spec _ _ _ _ _ l H1), decide_eq_sym by (done || (vm_compute lenZ; lia)).
  destruct (decide (l = [104; 101; 108; 108; 111])); [by exists m|]. rewrite res_bind_Ok. cbn [Z.eqb negb].
  rewrite (string_equal_spec _ _ _ _ _ l H2), decide_eq_sym by (done || (vm_compute lenZ; lia)).
  destruct (decide (l = [104; 97; 108; 116])); [by exists m|]. rewrite res_bind_Ok. cbn [Z.eqb negb].
  rewrite (string_equal_spec _ _ _ _ _ l H3), decide_eq_sym by (done || (vm_compute lenZ; lia)).
  destruct (decide (l = [99; 108; 101; 97; 114])); [by exists m|]. rewrite res_bind_Ok. cbn [Z.eqb negb].
  rewrite (string_equal_spec _ _ _ _ _ l H4), decide_eq_sym by (done || (vm_compute lenZ; lia)).
  destruct (decide (l = [110; 116])); [by exists m|]. rewrite res_bind_Ok. cbn [Z.eqb negb].
  rewrite (strtok_spec _ _ _ _ _ 32 l) by (done || lia). rewrite res_bind_Ok. set (w := first_word 32 l).
  assert (Hw : lenZ w <= lenZ l) by apply lenZ_first_word. pose proof (lenZ_nonneg w). pose proof Hs as (_ & Hl0 & _).
  unfold fits, apart in *.
  assert (Hbuf : cstr (write_bytes m buffer (w ++ [0])) buffer w).
  { apply cstr_write; [by apply Forall_first_word|lia|lia]. }
  assert (Hsp : cstr (write_bytes m buffer (w ++ [0])) sp [115; 112]).
  { apply cstr_write_apart; [done|unfold fits|unfold apart]; autorewrite with len in *; lia. }
  rewrite (string_equal_spec _ _ _ _ _ w Hsp Hbuf), decide_eq_sym by (vm_compute lenZ; lia).
  rewrite res_bind_Ok. destruct (decide (w = [115; 112])); cbn [Z.eqb negb]; eauto.
Qed.

Lemma first_word_no_lower d l : no_lower l -> no_lower (first_word d l).
Proof. apply Forall_first_word. Qed.

(** No command can be typed: [__case] is fixed to upper case, so every
    line entered at the keyboard has no lower-case letter, and
    [parse_command] recognises no command in such a line (its commands are
    written in lower case). *)
Theorem typed_line_no_command fuel m hello halt clear nt blank sp buffer s l :
  literals m hello halt clear nt blank sp -> cstr m s l -> no_lower l ->
  (8 <= fuel)%nat -> lenZ l + 2 < Z.of_nat fuel -> 0 < buffer -> fits buffer (lenZ l + 1) ->
  apart s l buffer (lenZ l + 1) -> apart blank [32] buffer (lenZ l + 1) -> apart sp [115; 112] buffer (lenZ l + 1) ->
  exists m', parse_command fuel m hello halt clear nt blank sp buffer s = Ok (m', NoCommand).
Proof.
  intros Hlit Hs Hn Hf Hl Hb Hfit Ha1 Ha2 Ha3.
  destruct (parse_command_spec fuel m hello halt clear nt blank sp buffer s l) as [m' ->]; try done.
  exists m'. do 2 f_equal. unfold command_of. pose proof (first_word_no_lower 32 l Hn) as Hw.
  assert (Hbad : forall c r, 97 <= c <= 122 -> no_lower (c :: r) -> False) by (intros c r Hc H; by apply Forall_cons in H as [H _]).
  rewrite !decide_False; [done|..]; intros E; rewrite E in *; eapply Hbad; try eassumption; lia.
Qed.

Lemma typed_line_no_command_witness :
  let m := write_bytes (write_bytes (write_bytes (write_bytes (write_bytes (write_bytes (write_bytes ∅
     100 [104; 101; 108; 108; 111; 0]) 110 [104; 97; 108; 116; 0]) 120 [99; 108; 101; 97; 114; 0]) 130 [110; 116; 0])
     140 [32; 0]) 150 [115; 112; 0]) 200 [72; 65; 76; 84; 0] in
  exists m', parse_command 20 m 100 110 120 130 140 150 300 200 = Ok (m', NoCommand).
Proof.
  apply (typed_line_no_command 20 _ 100 110 120 130 140 150 300 200 [72; 65; 76; 84]).
  - split; (unfold cstr; split_and!; [vm_compute; tauto|repeat constructor|reflexivity|reflexivity]).
  - unfold cstr; split_and!; [vm_compute; tauto|repeat constructor|reflexivity|reflexivity].
  - repeat (constructor; [lia|]). constructor.
  - lia.
  - reflexivity.
  - lia.
  - unfold fits. vm_compute. intuition congruence.
  - unfold apart. vm_compute. intuition congruence.
  - unfold apart. vm_compute. intuition congruence.
  - unfold apart. vm_compute. intuition congruence.
Defined.
