(* ===== verification/Shell.v ===== *)
(** * The commands of the shell (kernel/shell.c)

    [parse_command] recognises a line (file [Keyboard]); here the commands are
    carried out, and [parse_serial_command] runs the commands of the serial
    line over memory, the line and the console.  String literals and local
    arrays are at given addresses. *)
From S2P Require Import Prelude CMem CString Sink Sched Console ConsoleThm Print Com Keyboard.
From Stdlib Require Import Strings.String.
Import CString Sched Console Print Com Keyboard.
Open Scope list_scope.

Module Shell.

(** The literals "print", "load", "test" and " ". *)
Record serial_words := mkWords { w_print : Z; w_load : Z; w_test : Z; w_blank : Z }.

Definition LOAD_ADDR : Z := 0x50000.

Section Serial.
Context {S : Type} `{CharSink S}.

(** [for(i=0;i<total&& i<32;++i)] *)
Fixpoint hex_loop (n : nat) (m : mem) (p : Z) (s : S) : S :=
  match n with
  | O => s
  | Datatypes.S n => hex_loop n m (p + 1) (print_char (print_hex (load8 m p) s) 32)
  end.

(** [buffer] is the local array of the routine, [rx] that of
    [serial_file_transfer]. *)
Definition parse_serial_command (fuel : nat) (w : serial_words) (buffer rx : Z) (m : mem) (u : uart) (str : Z) (s : S) : res (mem * uart * S) :=
  '(m, _) ← strtok fuel m str (w_blank w) buffer;
  r ← string_equal fuel m (w_print w) buffer;
  if negb (r =? 0) then Ok (m, u, printl_lit "execute sp print" s) else
  r ← string_equal fuel m (w_load w) buffer;
  if negb (r =? 0) then Ok (m, u, s) else
  r ← string_equal fuel m (w_test w) buffer;
  if negb (r =? 0) then
    let s := printl_lit "com1 test" s in
    '(m, u, total, s) ← serial_file_transfer fuel m u rx LOAD_ADDR s;
    Ok (m, u, hex_loop (Z.to_nat (Z.min total 32)) m LOAD_ADDR s)
  else Ok (m, u, s).
End Serial.

(** What the shell works on. *)
Record shell := mkShell { sh_mem : mem; sh_line : uart; sh_cons : console; sh_sched : sched }.

(** The branches of [parse_command]; [halt] waits for the next interrupt and
    changes nothing. *)
Definition execute (fuel : nat) (w : serial_words) (buffer rx : Z) (c : command) (x : shell) : res shell :=
  let print (t : string) := mkShell (sh_mem x) (sh_line x) (printl_lit t (sh_cons x)) (sh_sched x) in
  match c with
  | Hello => Ok (print "hello from kernel"%string)
  | Halt => Ok (print "halt ..."%string)
  | ClearCmd => Ok (mkShell (sh_mem x) (sh_line x) (console_clear (sh_cons x)) (sh_sched x))
  | NextTask =>
      let x := print "switch to next task"%string in
      let t := task_at (sh_sched x) (current (sh_sched x)) in
      Ok (mkShell (sh_mem x) (sh_line x) (sh_cons x)
            (set_task (sh_sched x) (current (sh_sched x)) (set_state t (Z.lor (state t) TASK_NEED_SCHED))))
  | Serial p =>
      '(m, u, c) ← parse_serial_command fuel w buffer rx (sh_mem x) (sh_line x) p (sh_cons x);
      Ok (mkShell m u c (sh_sched x))
  | NoCommand => Ok x
  end.

Definition run_command (fuel : nat) (hello halt clear nt blank sp buffer : Z) (w : serial_words) (buffer2 rx s : Z) (x : shell) : res shell :=
  '(m, c) ← parse_command fuel (sh_mem x) hello halt clear nt blank sp buffer s;
  execute fuel w buffer2 rx c (mkShell m (sh_line x) (sh_cons x) (sh_sched x)).

(** The text of a dump. *)
Definition dump (l : list Z) : list Z := flat_map (fun b => [48; 120] ++ hex8 b ++ [32]) l.

End Shell.
Import Shell.

(** ** The test command *)

Section Proofs.
Context {S : Type} `{CharSink S}.

Lemma hex_loop_spec m p l (s : S) : bytes_at m p l -> hex_loop (List.length l) m p s = puts s (dump l).
Proof.
  revert p s. induction l as [|b l IH]; intros p s Hb; [done|]. destruct Hb as [E Hb]. cbn [List.length hex_loop]. rewrite E, IH by done.
  unfold dump. cbn [flat_map]. fold (dump l). rewrite print_hex_spec. unfold print_char. rewrite !puts_app. reflexivity.
Qed.

(** Membership in a list that is written out. *)
Ltac among := first [by left|right; among].

Lemma words_apart m (p b : Z) (l1 l2 t : list Z) :
  cstr m p l1 -> lenZ t <= lenZ l2 + 1 -> apart p l1 b (lenZ l2 + 1) -> fits b (lenZ l2 + 1) -> cstr (write_bytes m b t) p l1.
Proof. intros Hc Ht Ha Hf. pose proof (lenZ_nonneg t). apply cstr_write_apart; [done|unfold fits in *; lia|unfold apart in *; lia]. Qed.

(** The string literals in memory. *)
Record words_at (m : mem) (w : serial_words) : Prop := {
  wa_print : cstr m (w_print w) (chars "print");
  wa_load : cstr m (w_load w) (chars "load");
  wa_test : cstr m (w_test w) (chars "test");
  wa_blank : cstr m (w_blank w) [32];
}.

(** C28. The shell's serial test: when the first word after "sp" is "test", the
    command receives the announced file from the serial line, stores exactly it
    at 0x50000 and nothing anywhere else but in its two buffers, consumes no
    byte of the line beyond it, and prints the progress of the transfer and the
    first 32 bytes in hexadecimal. *)
Theorem serial_test_command fuel w buffer rx m u u' str line (s : S) digits file :
  words_at m w -> cstr m str line -> first_word 32 line = chars "test" ->
  delivers u (digits ++ [0] ++ file) u' -> Forall (fun c => 48 <= c <= 57) digits -> lenZ digits < 255 -> value_of 10 digits = lenZ file ->
  Forall (fun c => u8 c) file -> lenZ line + 6 < Z.of_nat fuel -> lenZ digits < Z.of_nat fuel -> lenZ file <= 255 * (Z.of_nat fuel - 1) ->
  0 < buffer -> fits buffer (lenZ line + 1) -> apart str line buffer (lenZ line + 1) ->
  (forall p l, (p, l) ∈ [(w_print w, chars "print"); (w_load w, chars "load"); (w_test w, chars "test"); (w_blank w, [32])] -> apart p l buffer (lenZ line + 1)) ->
  0 < rx -> fits rx 256 -> LOAD_ADDR + lenZ file <= 4294967295 -> (rx + 256 <= LOAD_ADDR \/ LOAD_ADDR + lenZ file <= rx) ->
  exists m', parse_serial_command fuel w buffer rx m u str s =
      Ok (m', u', puts s (chars "com1 test" ++ [10] ++ transfer_text (lenZ file) ++ dump (take 32 file))) /\
    bytes_at m' LOAD_ADDR file /\
    forall a, u32 a -> (a < buffer \/ buffer + (lenZ line + 1) <= a) -> (a < rx \/ rx + 256 <= a) -> (a < LOAD_ADDR \/ LOAD_ADDR + lenZ file <= a) ->
      load8 m' a = load8 m a.
Proof.
  intros [W1 W2 W3 W4] Hl Hw Hd Hdig Hdl Hval Hfile Hf1 Hf2 Hf3 Hb Hbf Ha Hap Hr Hrf Hfit Hra.
  unfold parse_serial_command. rewrite (strtok_spec _ _ _ _ _ 32 line) by (done || lia || (apply Hap; among)). rewrite Hw, res_bind_Ok.
  set (m1 := write_bytes m buffer (chars "test" ++ [0])).
  assert (Hlen : lenZ (chars "test" ++ [0]) <= lenZ line + 1) by (rewrite <- Hw, lenZ_app, lenZ_cons, lenZ_nil; pose proof (lenZ_first_word 32 line); lia).
  assert (Hc : forall p l, (p, l) ∈ [(w_print w, chars "print"); (w_load w, chars "load"); (w_test w, chars "test"); (w_blank w, [32])] -> cstr m p l -> cstr m1 p l)
    by (intros p l Hin Hc; apply (words_apart m p buffer l line); [done|done|by apply Hap|done]).
  assert (Hbuf : cstr m1 buffer (chars "test")).
  { apply cstr_write; [by repeat constructor|done|]. unfold fits in Hbf. change (lenZ (chars "test")) with 4. change (lenZ (chars "test" ++ [0])) with 5 in Hlen. lia. }
  pose proof (lenZ_nonneg line).
  assert (Heq : forall p l, (p, l) ∈ [(w_print w, chars "print"); (w_load w, chars "load"); (w_test w, chars "test"); (w_blank w, [32])] -> cstr m p l ->
    lenZ l < 6 -> string_equal fuel m1 p buffer = Ok (if decide (l = chars "test") then 1 else 0))
    by (intros p l Hin Hcp Hlp; apply string_equal_spec; [by apply Hc|done|lia]).
  rewrite (Heq (w_print w) (chars "print")), res_bind_Ok; [|among|done|done]. rewrite decide_False by done. cbn [Z.eqb negb].
  rewrite (Heq (w_load w) (chars "load")), res_bind_Ok; [|among|done|done]. rewrite decide_False by done. cbn [Z.eqb negb].
  rewrite (Heq (w_test w) (chars "test")), res_bind_Ok; [|among|done|done]. rewrite decide_True by done. cbn [Z.eqb negb]. cbv zeta.
  destruct (serial_transfer_stores_file fuel m1 u u' rx LOAD_ADDR (printl_lit "com1 test" s) digits file) as (m2 & -> & Hb2 & Ho2); try done.
  rewrite res_bind_Ok. exists m2. split; [|split; [done|]].
  - do 2 f_equal. replace (Z.to_nat (Z.min (lenZ file) 32)) with (List.length (take 32 file)) by (rewrite length_take; unfold lenZ; lia).
    rewrite (hex_loop_spec m2); [unfold printl_lit; by rewrite <- !puts_app, <- !app_assoc|].
    rewrite <- (take_drop 32 file) in Hb2. by apply bytes_at_app in Hb2 as [Hb2 _].
  - intros a Hau Ho1 Hor Hol. rewrite Ho2 by done. apply write_bytes_out; [|done|]; unfold fits in *; lia.
Qed.
End Proofs.

(** The literals at 100, 110, 120 and 130, and the line "test a" at 200. *)
Definition example_strings : mem :=
  write_bytes (write_bytes (write_bytes (write_bytes (write_bytes ∅ 100 (chars "print" ++ [0])) 110 (chars "load" ++ [0])) 120 (chars "test" ++ [0])) 130 [32; 0])
    200 (chars "test a" ++ [0]).

Lemma serial_test_command_witness :
  exists m', @parse_serial_command _ log_sink 20 (mkWords 100 110 120 130) 300 600 example_strings
      [([0; 1], 51); ([1], 0); ([0; 0; 97], 7); ([1], 8); ([1], 9); ([1], 5)] 200 [] =
      Ok (m', [([1], 5)], @puts _ log_sink [] (chars "com1 test" ++ [10] ++ transfer_text 3 ++ dump [7; 8; 9])) /\ bytes_at m' LOAD_ADDR [7; 8; 9].
Proof.
  assert (Hc : forall p l, bytes_at example_strings p (l ++ [0]) -> Forall (fun c => 0 < c < 256) l -> 0 < p -> p + lenZ l < 4294967296 -> cstr example_strings p l)
    by (intros; by split_and!).
  destruct (@serial_test_command _ log_sink 20 (mkWords 100 110 120 130) 300 600 example_strings
    [([0; 1], 51); ([1], 0); ([0; 0; 97], 7); ([1], 8); ([1], 9); ([1], 5)] [([1], 5)] 200 (chars "test a") [] [51] [7; 8; 9])
    as (m' & H1 & H2 & _).
  - split; apply Hc; first [lia|vm_compute; intuition congruence|by repeat constructor].
  - apply Hc; first [lia|vm_compute; intuition congruence|by repeat constructor].
  - reflexivity.
  - repeat (constructor; [reflexivity|]). constructor.
  - repeat (constructor; [lia|]). constructor.
  - reflexivity.
  - reflexivity.
  - repeat (constructor; [lia|]). constructor.
  - vm_compute. reflexivity.
  - vm_compute. reflexivity.
  - vm_compute. congruence.
  - lia.
  - unfold fits. vm_compute lenZ. lia.
  - right. vm_compute. congruence.
  - intros p l Hin. right. repeat (apply elem_of_cons in Hin as [[= -> ->]|Hin]; [vm_compute; congruence|]). by apply elem_of_nil in Hin.
  - lia.
  - unfold fits. lia.
  - vm_compute. congruence.
  - left. vm_compute. congruence.
  - exists m'. split; [exact H1|exact H2].
Defined.

(** The command "nt" and the check on the way out of the interrupt together give
    the processor to the next live task. *)
Theorem nt_command_switches fuel hello halt clear nt blank sp buffer w buffer2 rx s x :
  literals (sh_mem x) hello halt clear nt blank sp -> cstr (sh_mem x) s (chars "nt") -> (8 <= fuel)%nat -> 0 < buffer -> fits buffer 3 ->
  apart s (chars "nt") buffer 3 -> apart blank [32] buffer 3 -> apart sp [115; 112] buffer 3 -> sched_inv (sh_sched x) ->
  exists x' t, run_command fuel hello halt clear nt blank sp buffer w buffer2 rx s x = Ok x' /\
    sh_cons x' = puts (sh_cons x) (chars "switch to next task" ++ [10]) /\
    cond_schedule (sh_sched x') = Some t /\ sched_inv t /\ next_live (sh_sched x) (current (sh_sched x)) (current t).
Proof.
  intros Hlit Hs Hf Hb Hfit H1 H2 H3 Hi.
  destruct (parse_command_spec fuel (sh_mem x) hello halt clear nt blank sp buffer s (chars "nt") Hlit Hs Hf) as (m' & Hp); try done; [change (lenZ (chars "nt")) with 2; lia|].
  destruct (nt_spec (sh_sched x) Hi) as (t & Ht & Hi' & _ & _ & Hn). unfold run_command. rewrite Hp, res_bind_Ok.
  change (command_of s (chars "nt")) with NextTask. eexists _, t. split; [reflexivity|]. split; [reflexivity|]. split; [exact Ht|]. by split.
Qed.
