(* ===== verification/Isr.v ===== *)
(** * Interrupts, descriptors and system calls (kernel/isr.c, kernel/sys.c, kernel/task.c)

    [irq_handler_entry] ties the components together: the timer and the
    scheduler, the keyboard and the console.  Writes to the interrupt
    controller are a log of port writes.  The two fault handlers stop the
    machine in an endless loop ([Stopped]), as does a poll of a device that
    never answers; following the NULL task pointer is [Crashed].  Descriptors
    are the records of the C structures with their field widths. *)
From S2P Require Import Prelude CMem Sink Sched Console ConsoleThm Print Com Keyboard.
From Stdlib Require Import Strings.String.
Import Sched Console Print Com Keyboard.
Open Scope list_scope.

Module Isr.

Definition IRQ_MAX := 63.

Record kernel := mkKernel { ksched : sched; kcons : console; kkb : kb; kports : list (Z * Z) }.

(** [Switched]: the handler gave the processor to another task in the middle of
    its body; what follows in the body belongs to a task that is not live any
    more and never runs. *)
Inductive outcome := Returned (k : kernel) | Switched (k : kernel) | Stopped (k : kernel) | Crashed.

(** The input of one interrupt: the keyboard's status bytes and scan code, the
    word behind the key table, [cr2] for a page fault, and the serial line. *)
Record irq_input := mkInput { statuses : list Z; scan_code : Z; beyond : Z; cr2 : Z; line : uart }.

Definition outb (k : kernel) (port value : Z) : kernel :=
  mkKernel (ksched k) (kcons k) (kkb k) (kports k ++ [(port, wrap8 value)]).
Definition set_cons (k : kernel) (c : console) : kernel := mkKernel (ksched k) c (kkb k) (kports k).
Definition set_sched (k : kernel) (s : sched) : kernel := mkKernel s (kcons k) (kkb k) (kports k).
Definition set_kb (k : kernel) (b : kb) : kernel := mkKernel (ksched k) (kcons k) b (kports k).

Definition config_pic (k : kernel) : kernel :=
  foldl (fun k '(p, v) => outb k p v) k
    [(32, 17); (160, 17); (33, 32); (161, 40); (33, 4); (161, 2); (33, 1); (161, 1); (33, 0); (161, 0)].

(** [inb]: what a port reads.  The shift of an [int] by 31 or more is undefined. *)
Definition IRQ_set_mask (inb : Z -> Z) (IRQline : Z) (k : kernel) : option kernel :=
  let '(port, line) := if IRQline <? 40 then (33, IRQline) else (161, wrap8 (IRQline - 32)) in
  if line <? 31 then Some (outb k port (Z.lor (inb port) (Z.shiftl 1 line))) else None.

Definition page_fault_handler (err_code cr2 : Z) (c : console) : console :=
  let c := printl_lit "error code" c in
  let c := print_hex err_code c in
  let c := print_char c 10 in
  let c := printl_lit "address:" c in
  let c := print_hex cr2 c in
  print_char c 10.

(** The switch over [irq].  [terminate_process] prints a line and gives the
    processor to another task (its table part is [Sched.terminate_process]). *)
Definition dispatch (inp : irq_input) (irq err_code : Z) (k : kernel) : outcome :=
  if irq =? 14 then Stopped (set_cons k (page_fault_handler err_code (cr2 inp) (kcons k)))
  else if irq =? 32 then Returned (set_sched k (timer_handler (ksched k)))
  else if irq =? 33 then
    match kb_handler (beyond inp) (statuses inp) (scan_code inp) (kkb k) (kcons k) with
    | Ok (b, c) => Returned (set_cons (set_kb k b) c)
    | _ => Stopped k
    end
  else if irq =? 36 then
    match com1_handler (line inp) with
    | Ok _ => Returned k
    | _ => Stopped k
    end
  else if irq =? 63 then
    let k := set_cons k (puts (kcons k) (chars "terminate process" ++ [10])) in
    match terminate_process (ksched k) with
    | Some s => Switched (set_sched k s)
    | None => Crashed
    end
  else Returned k.

(** End of interrupt, slave first. *)
Definition eoi (irq : Z) (k : kernel) : kernel :=
  let k := if 40 <=? irq then outb k 160 32 else k in
  if 32 <=? irq then outb k 32 32 else k.

Definition irq_handler_entry (inp : irq_input) (irq err_code : Z) (k : kernel) : outcome :=
  if irq =? 13 then
    let c := puts (kcons k) (chars "handler # ") in
    let c := print_char (print_hex irq c) 10 in
    let c := puts c (chars "err # ") in
    Stopped (set_cons k (print_hex err_code c))
  else
    let k :=
      if negb (irq =? 32) && negb (irq =? 33)
      then set_cons k (print_char (print_hex irq (puts (kcons k) (chars "handler #"))) 10) else k in
    match dispatch inp irq err_code k with
    | Returned k =>
        let k := eoi irq k in
        match cond_schedule (ksched k) with
        | Some s => Returned (set_sched k s)
        | None => Crashed
        end
    | r => r
    end.

(** ** Descriptors *)

Record IDTDesc := mkIDT { offset_1 : Z; selector : Z; zero : Z; type_attr : Z; offset_2 : Z }.

Definition init_trap_gate (handler_offset sel flag : Z) : IDTDesc :=
  mkIDT (Z.land handler_offset 65535) (wrap16 sel) 0 (wrap8 flag) (Z.land (Z.shiftr handler_offset 16) 65535).

(** [init_idt]: remap the interrupt controllers, fill the gates for isr0 ..
    isr63 at the given addresses, open the system call gate to ring 3, and set
    limit and base of the table at [idt_addr]. *)
Definition init_idt (isr : Z -> Z) (idt_addr : Z) (k : kernel) : kernel * list IDTDesc * (Z * Z) :=
  let k := config_pic k in
  let idt := List.map (fun n => init_trap_gate (isr (Z.of_nat n)) 8 143) (seq 0 64) in
  let e := init_trap_gate (isr 63) 8 143 in
  let idt := updZ idt 63 (mkIDT (offset_1 e) (selector e) (zero e) 239 (offset_2 e)) in
  (k, idt, (8 * (IRQ_MAX + 1) - 1, idt_addr)).

(** The handler address the processor takes from a gate. *)
Definition gate_offset (d : IDTDesc) : Z := Z.lor (offset_1 d) (Z.shiftl (offset_2 d) 16).

Record gdt_entry := mkGDT {
  limit_low : Z; base_low : Z; base_middle : Z; access : Z; granularity : Z; base_high : Z }.

Definition gdt_set_gate (base limit acc gran : Z) : gdt_entry :=
  mkGDT (Z.land limit 65535) (Z.land base 65535) (Z.land (Z.shiftr base 16) 255) (wrap8 acc)
    (Z.lor (Z.land (Z.shiftr limit 16) 15) (Z.land gran 240)) (Z.land (Z.shiftr base 24) 255).

(** What the processor reads from a descriptor. *)
Definition gdt_base (e : gdt_entry) : Z :=
  base_low e + Z.shiftl (base_middle e) 16 + Z.shiftl (base_high e) 24.
Definition gdt_limit (e : gdt_entry) : Z := limit_low e + Z.shiftl (Z.land (granularity e) 15) 16.

Definition sizeof_tss := 104.
(** [setup_tss]: the descriptor of the TSS at [base]. *)
Definition setup_tss_gate (base : Z) : gdt_entry :=
  gdt_set_gate base (wrap32 (base + sizeof_tss)) 233 0.

(** ** System calls (kernel/sys.c) *)

Inductive syscall := SysExit | SysPrintl | SysFoo.
Definition SYSCALL_NUM := 64.
Definition SYS_EXIT := 0.
Definition SYS_PRINTL := 16.
Definition SYS_FOO := 32.

Definition syscall_table0 : list (option syscall) := replicate (Z.to_nat SYSCALL_NUM) None.
Definition register_syscall (t : list (option syscall)) (nr : Z) (f : syscall) : list (option syscall) :=
  updZ t nr (Some f).
Definition init_syscall (t : list (option syscall)) : list (option syscall) :=
  register_syscall (register_syscall t SYS_PRINTL SysPrintl) SYS_FOO SysFoo.
Definition __foo (a b : Z) : Z := sint (wrap32 (a + b)).

End Isr.
Import Isr.

(** ** Interrupts keep the kernel consistent *)

Lemma cond_schedule_idle s : sched_inv s -> cond_schedule s = Some s.
Proof.
  intros Hi. destruct (inv_live _ Hi _ (inv_cur _ Hi)) as (_ & Hst & _). unfold cond_schedule. by rewrite Hst.
Qed.

(** The console part of the state refines a text terminal whose typed line has
    no lower-case letter; scheduler and keyboard satisfy their invariants. *)
Definition kernel_inv (k : kernel) (a : list Z * list Z) : Prop :=
  sched_inv (ksched k) /\ kb_inv (kkb k) /\ refines (kcons k) a /\ no_lower (snd a).

(** The end-of-interrupt commands for a line. *)
Definition eoi_writes (irq : Z) : list (Z * Z) :=
  (if 40 <=? irq then [(160, 32)] else []) ++ (if 32 <=? irq then [(32, 32)] else []).

Lemma eoi_spec irq k :
  ksched (eoi irq k) = ksched k /\ kcons (eoi irq k) = kcons k /\ kkb (eoi irq k) = kkb k /\
  kports (eoi irq k) = kports k ++ eoi_writes irq.
Proof.
  unfold eoi, eoi_writes. destruct (40 <=? irq), (32 <=? irq); simpl; rewrite ?app_nil_r, <- ?app_assoc; done.
Qed.

Lemma puts_refines c a l :
  refines c a -> Forall (fun x => u8 x) l -> lenZ (fst a) + 41 * lenZ l < 4294967296 ->
  refines (puts c l) (fst a ++ l, snd a).
Proof.
  intros Hr Hl Hlen. rewrite puts_events.
  assert (Hsp : foldl spec_event a (List.map Out l) = (fst a ++ l, snd a)).
  { clear. destruct a as [L inp]. cbn [fst snd]. revert L. induction l as [|x l IH]; intros L; simpl.
    - by rewrite app_nil_r.
    - rewrite IH, <- app_assoc. done. }
  rewrite <- Hsp. apply events_refine; [done| |].
  - apply Forall_forall. intros e He. apply list_elem_of_In, List.in_map_iff in He as (x & <- & Hx).
    apply (proj1 (Forall_forall _ _) Hl), list_elem_of_In, Hx.
  - unfold lenZ in *. by rewrite List.length_map.
Qed.

Definition irq_text (irq : Z) : list Z := chars "handler #" ++ ([48; 120] ++ hex8 irq) ++ [10].

Lemma irq_text_eq {S} `{CharSink S} irq (c : S) :
  print_char (print_hex irq (puts c (chars "handler #"))) 10 = puts c (irq_text irq).
Proof. unfold irq_text. rewrite print_hex_spec, <- puts_app, (app_assoc (chars _)), (puts_app _ (_ ++ _)). reflexivity. Qed.

Lemma irq_text_u8 irq : Forall (fun x => u8 x) (irq_text irq) /\ lenZ (irq_text irq) = 20.
Proof.
  split; [|done]. unfold irq_text. apply Forall_app. split; [apply chars_u8|]. apply Forall_app. split.
  - constructor; [lia|constructor; [lia|]]. eapply Forall_impl; [apply hex8_range|simpl; lia].
  - constructor; [lia|constructor].
Qed.

Lemma announce_spec irq k a :
  kernel_inv k a -> lenZ (fst a) + 1700 < 4294967296 ->
  exists k' a',
    (if negb (irq =? 32) && negb (irq =? 33)
     then set_cons k (print_char (print_hex irq (puts (kcons k) (chars "handler #"))) 10) else k) = k' /\
    kernel_inv k' a' /\ ksched k' = ksched k /\ kkb k' = kkb k /\ kports k' = kports k /\
    lenZ (fst a') <= lenZ (fst a) + 20.
Proof.
  intros (Hs & Hb & Hr & Hn) Hl. destruct (_ && _).
  - destruct (irq_text_u8 irq) as [Hu Hl20]. rewrite irq_text_eq. eexists _, (fst a ++ irq_text irq, snd a).
    split; [reflexivity|]. split; [|split_and!; try reflexivity; cbn [fst]; rewrite lenZ_app; lia].
    split; [exact Hs|]. split; [exact Hb|]. split; [apply puts_refines; [exact Hr|exact Hu|lia]|exact Hn].
  - exists k, a. split_and!; try reflexivity; [|lia]. split; [exact Hs|]. split; [exact Hb|]. split; [exact Hr|exact Hn].
Qed.

(** An interrupt the theorem speaks about: none of the two faults and not the
    system call, and the device that raised it answers. *)
Definition irq_ok (e : irq_input * Z * Z) : Prop :=
  let '(inp, irq, _) := e in
  0 <= irq < 63 /\ irq <> 13 /\ irq <> 14 /\ (irq = 33 -> kb_poll (statuses inp) = true) /\
  (irq = 36 -> is_Ok (com1_handler (line inp)) = true).

(** Every such interrupt returns with the kernel consistent: scheduler, keyboard
    and console keep their invariants, no task pointer is NULL, and exactly the
    required end-of-interrupt commands are sent, to the slave controller first. *)
Lemma interrupt_step inp irq err_code k a :
  kernel_inv k a -> lenZ (fst a) + 1700 < 4294967296 -> irq_ok (inp, irq, err_code) ->
  exists k' a', irq_handler_entry inp irq err_code k = Returned k' /\ kernel_inv k' a' /\
    kports k' = kports k ++ eoi_writes irq /\ lenZ (fst a') <= lenZ (fst a) + 881.
Proof.
  intros Hinv Hl (Hirq & H13 & H14 & Hkb & Hcom). unfold irq_handler_entry. rewrite (proj2 (Z.eqb_neq irq 13)) by done.
  destruct (announce_spec irq k a Hinv Hl) as (k1 & a1 & -> & (Hs & Hb & Hr & Hn) & E1 & E2 & E3 & Hl1).
  unfold dispatch. rewrite (proj2 (Z.eqb_neq irq 14)), (proj2 (Z.eqb_neq irq 63)) by lia.
  destruct (Z.eqb_spec irq 32) as [->|]; [|destruct (Z.eqb_spec irq 33) as [->|]].
  - destruct (eoi_spec 32 (set_sched k1 (timer_handler (ksched k1)))) as (-> & F2 & F3 & F4).
    destruct (tick_spec (ksched k1) Hs) as (s' & Ht & Hs' & _). unfold tick in Ht.
    change (ksched (set_sched k1 ?x)) with x. rewrite Ht. eexists _, a1. split; [reflexivity|].
    split; [|split; [cbn [kports set_sched]; rewrite F4, <- E3; reflexivity|lia]]. split; [assumption|]. cbn [kkb kcons set_sched]. rewrite F2, F3. split; [assumption|]. split; assumption.
  - destruct (kb_handler_spec (beyond inp) (statuses inp) (scan_code inp) (kkb k1) (kcons k1) a1)
      as (b' & c' & a' & -> & Hb' & Hr' & Hn' & Hl'); [done|by apply Hkb|done|done|lia|].
    destruct (eoi_spec 33 (set_cons (set_kb k1 b') c')) as (F1 & F2 & F3 & F4).
    rewrite F1. cbn [ksched set_cons set_kb]. rewrite cond_schedule_idle by done.
    eexists _, a'. split; [reflexivity|]. split; [|split; [cbn [kports set_sched]; rewrite F4, <- E3; reflexivity|lia]].
    split; [assumption|]. cbn [kkb kcons set_sched]. rewrite F2, F3. split; [assumption|]. split; assumption.
  - match goal with |- context [match ?d with Returned _ => _ | _ => _ end] => assert (d = Returned k1) as -> end.
    { destruct (Z.eqb_spec irq 36) as [E|]; [|done]. specialize (Hcom E). by destruct (com1_handler _). }
    destruct (eoi_spec irq k1) as (F1 & F2 & F3 & F4). rewrite F1, cond_schedule_idle by done.
    eexists _, a1. split; [reflexivity|]. split; [|split; [cbn [kports set_sched]; rewrite F4, <- E3; reflexivity|lia]].
    split; [assumption|]. cbn [kkb kcons set_sched]. rewrite F2, F3. split; [assumption|]. split; assumption.
Qed.

(** ** Descriptor encodings *)

Lemma testbit_u32_high h j : u32 h -> 32 <= j -> Z.testbit h j = false.
Proof.
  intros Hh Hj. destruct (decide (h = 0)) as [->|]; [apply Z.bits_0|]. apply Z.bits_above_log2; [lia|].
  apply Z.lt_le_trans with 32; [|lia]. apply Z.log2_lt_pow2; lia.
Qed.

Lemma gate_offset_spec h sel flag : u32 h -> gate_offset (init_trap_gate h sel flag) = h.
Proof.
  intros Hh. unfold gate_offset, init_trap_gate. cbn [offset_1 offset_2]. change 65535 with (Z.ones 16).
  apply Z.bits_inj'. intros j Hj. rewrite Z.lor_spec, Z.land_spec. destruct (decide (j < 16)).
  - rewrite Z.ones_spec_low, Z.shiftl_spec_low, andb_true_r, orb_false_r by lia. done.
  - rewrite Z.ones_spec_high, andb_false_r, Z.shiftl_spec, Z.land_spec, Z.shiftr_spec by lia. cbn [orb].
    replace (j - 16 + 16) with j by lia. destruct (decide (j < 32)).
    + by rewrite Z.ones_spec_low, andb_true_r by lia.
    + by rewrite testbit_u32_high by lia.
Qed.

Lemma gdt_base_spec base limit acc gran : u32 base -> gdt_base (gdt_set_gate base limit acc gran) = base.
Proof.
  intros Hb. unfold gdt_base, gdt_set_gate. cbn [base_low base_middle base_high].
  change 65535 with (Z.ones 16). change 255 with (Z.ones 8).
  rewrite !Z.land_ones, !Z.shiftr_div_pow2, !Z.shiftl_mul_pow2 by lia.
  change (2 ^ 16) with 65536. change (2 ^ 8) with 256. change (2 ^ 24) with 16777216.
  replace (base / 16777216) with (base / 65536 / 256) by (rewrite Z.div_div by lia; done).
  Z.to_euclidean_division_equations. lia.
Qed.

Lemma gdt_limit_spec base limit acc gran : u32 limit -> gdt_limit (gdt_set_gate base limit acc gran) = limit mod 2 ^ 20.
Proof.
  intros Hl. unfold gdt_limit, gdt_set_gate. cbn [limit_low granularity].
  assert (Hg : Z.land (Z.lor (Z.land (Z.shiftr limit 16) 15) (Z.land gran 240)) 15 = Z.shiftr limit 16 mod 2 ^ 4).
  { rewrite Z.land_lor_distr_l, <- !Z.land_assoc. change (Z.land 15 15) with (Z.ones 4). change (Z.land 240 15) with 0.
    by rewrite Z.land_0_r, Z.lor_0_r, Z.land_ones by lia. }
  rewrite Hg. change 65535 with (Z.ones 16). rewrite Z.land_ones, Z.shiftr_div_pow2, Z.shiftl_mul_pow2 by lia.
  change (2 ^ 16) with 65536. change (2 ^ 4) with 16. change (2 ^ 20) with (65536 * 16).
  rewrite Z.rem_mul_r by lia. lia.
Qed.

(** The gates [init_idt] fills, before and after the last assignment. *)
Lemma idt_gates isr n :
  (forall i, u32 (isr i)) -> 0 <= n < 64 ->
  exists d,
    updZ (List.map (fun n => init_trap_gate (isr (Z.of_nat n)) 8 143) (seq 0 64)) 63
      (mkIDT (offset_1 (init_trap_gate (isr 63) 8 143)) (selector (init_trap_gate (isr 63) 8 143))
         (zero (init_trap_gate (isr 63) 8 143)) 239 (offset_2 (init_trap_gate (isr 63) 8 143)))
      !! Z.to_nat n = Some d /\
    gate_offset d = isr n /\ selector d = 8 /\ type_attr d = (if n =? 63 then 239 else 143).
Proof.
  intros Hi Hn.
  set (l := List.map (fun n => init_trap_gate (isr (Z.of_nat n)) 8 143) (seq 0 64)).
  assert (Hlen : List.length l = 64%nat) by (unfold l; rewrite List.length_map; apply List.length_seq).
  destruct (Z.eqb_spec n 63) as [->|Hne].
  - eexists. split; [unfold updZ; cbn [Z.ltb Z.compare]; apply list_lookup_insert_eq; rewrite Hlen; lia|].
    split_and!; try done. apply (gate_offset_spec (isr 63) 8 143), Hi.
  - exists (init_trap_gate (isr n) 8 143). split_and!; [|by apply gate_offset_spec|done|done].
    unfold updZ. cbn [Z.ltb Z.compare]. rewrite list_lookup_insert_ne by lia. unfold l.
    change (List.map ?f ?x) with (f <$> x). rewrite list_lookup_fmap.
    rewrite lookup_seq_lt by lia. cbn [fmap option_fmap option_map Nat.add]. by rewrite Z2Nat.id by lia.
Qed.

(** The interrupt descriptor table: for handlers at 32-bit addresses each
    of the 64 gates holds its handler's address, code selector 8 and a
    present 32-bit trap gate of ring 0, except that gate 63, the system call,
    is open to ring 3; the limit covers exactly 64 entries, and the hardware
    interrupts are remapped to 32 and 40. *)
Theorem idt_encodes_handlers isr idt_addr k n :
  (forall i, u32 (isr i)) -> 0 <= n < 64 ->
  exists k' idt d, init_idt isr idt_addr k = (k', idt, (64 * 8 - 1, idt_addr)) /\
    idt !! Z.to_nat n = Some d /\ gate_offset d = isr n /\ selector d = 8 /\
    type_attr d = (if n =? 63 then 239 else 143) /\
    (33, 32) ∈ kports k' /\ (161, 40) ∈ kports k' /\ ksched k' = ksched k /\ kcons k' = kcons k.
Proof.
  intros Hi Hn. destruct (idt_gates isr n Hi Hn) as (d & Hd & Ho & Hs & Ht).
  eexists _, _, d. split; [reflexivity|]. split_and!; [exact Hd|done|done|done| | |reflexivity|reflexivity];
    cbn [config_pic foldl outb kports]; set_solver.
Qed.

Lemma idt_encodes_handlers_witness :
  let isr := fun i => 3221225472 + 16 * (i mod 64) in
  let k0 := mkKernel sched0 (boot [] [] ∅) kb0 [] in
  exists k' idt d, init_idt isr 3222274048 k0 = (k', idt, (64 * 8 - 1, 3222274048)) /\
    idt !! Z.to_nat 63 = Some d /\ gate_offset d = isr 63 /\ selector d = 8 /\
    type_attr d = 239 /\
    (33, 32) ∈ kports k' /\ (161, 40) ∈ kports k' /\ ksched k' = ksched k0 /\ kcons k' = kcons k0.
Proof.
  apply (idt_encodes_handlers (fun i => 3221225472 + 16 * (i mod 64)) 3222274048
           (mkKernel sched0 (boot [] [] ∅) kb0 []) 63).
  - intros i. pose proof (Z.mod_pos_bound i 64). lia.
  - lia.
Defined.

(** Segment descriptors: [gdt_set_gate] encodes a 32-bit base exactly and
    the low 20 bits of the limit; [setup_tss] passes base + 104 as the limit
    instead of 103, so the TSS descriptor's limit depends on where the TSS
    lies. *)
Theorem gdt_roundtrip base limit acc gran :
  u32 base -> u32 limit ->
  gdt_base (gdt_set_gate base limit acc gran) = base /\
  gdt_limit (gdt_set_gate base limit acc gran) = limit mod 2 ^ 20 /\
  gdt_limit (setup_tss_gate base) = wrap32 (base + 104) mod 2 ^ 20.
Proof.
  intros Hb Hl. split_and!; [by apply gdt_base_spec|by apply gdt_limit_spec|].
  apply gdt_limit_spec, wrap32_range.
Qed.

Lemma gdt_roundtrip_witness :
  gdt_base (gdt_set_gate 3222274048 103 233 0) = 3222274048 /\
  gdt_limit (gdt_set_gate 3222274048 103 233 0) = 103 mod 2 ^ 20 /\
  gdt_limit (setup_tss_gate 3222274048) = wrap32 (3222274048 + 104) mod 2 ^ 20.
Proof. apply (gdt_roundtrip 3222274048 103 233 0); lia. Defined.

(** [IRQ_set_mask], which nothing calls, takes the numbers of the remapped
    interrupts but masks none of them: for the lines of the master (32 to 39) the
    shift is undefined, and for those of the slave (40 to 47) it subtracts 32
    instead of 40, so that the bit falls out of the byte it writes back. *)
Theorem IRQ_set_mask_masks_nothing inb k n :
  (forall p, u8 (inb p)) -> 32 <= n < 48 ->
  IRQ_set_mask inb n k = if n <? 40 then None else Some (outb k 161 (inb 161)).
Proof.
  intros Hu Hn. unfold IRQ_set_mask. destruct (Z.ltb_spec n 40); [by rewrite (proj2 (Z.ltb_ge n 31)) by lia|].
  rewrite wrap8_small, (proj2 (Z.ltb_lt _ _)) by lia. f_equal. unfold outb. do 4 f_equal.
  unfold wrap8. change 256 with (2 ^ 8). rewrite <- !Z.land_ones by lia. apply Z.bits_inj'. intros j Hj. rewrite !Z.land_spec, Z.lor_spec.
  destruct (decide (j < 8)); [|by rewrite Z.ones_spec_high, !andb_false_r by lia]. by rewrite Z.shiftl_spec_low, orb_false_r by lia.
Qed.
