(* ===== verification/Main.v ===== *)
(** * The start of the kernel (kernel/main.c)

    [main] puts the components together: the heap, the console in three blocks
    of it, the interrupt descriptors, the devices, the system calls and the
    tasks.  The theorem composes the start with everything that can happen
    after it: whatever sequence of interrupts arrives, the kernel handles each
    of them and keeps its invariants. *)
From S2P Require Import Prelude CMem Malloc MallocSpec MallocThm Sink Sched Console ConsoleThm Print Com Keyboard Isr.
From Stdlib Require Import Strings.String.
Import Malloc Sched Vga Console Print Com Keyboard Isr.
Open Scope list_scope.

Module Main.

Record machine := mkMachine {
  mheap : heap; mkern : kernel; midt : list IDTDesc; midtr : Z * Z; msyscalls : list (option syscall) }.

(** The contents of a block. *)
Definition block (h : heap) (a size : Z) : list Z := map (fun i => load8 (hmem h) (a + i)) (seqZ 0 size).

(** [init_console] with its three blocks; the globals of the console are still
    zero. *)
Definition alloc_console (fuel : nat) (h : heap) (vmem : mem) : res (heap * console) :=
  '(history, h) ← kmalloc fuel CONSOLE_HISTORY_SIZE h;
  let h := with_mem h (write_bytes (hmem h) history (replicate (Z.to_nat CONSOLE_HISTORY_SIZE) 0)) in
  '(window, h) ← kmalloc fuel 80 h;
  '(input_buf, h) ← kmalloc fuel INPUT_BUF_SIZE h;
  Ok (h, init_console (boot (block h window 80) (block h input_buf INPUT_BUF_SIZE) vmem)).

Definition outbs (k : kernel) (l : list (Z * Z)) : kernel := foldl (fun k '(p, v) => outb k p v) k l.

(** kernel/isr.c; [init_kb] is empty. *)
Definition init_devices (echo : Z) (k : kernel) : kernel :=
  let k := outbs k init_timer in
  let '(w, _, c) := init_serial echo (kcons k) in
  outbs (set_cons k c) w.

Section Main.
(** The addresses of the interrupt stubs and of the table, the byte the serial
    chip echoes, the directory of the first program, what [current->tid] reads
    before [current] is set, and the fuel of the heap's loops. *)
Context (isr : Z -> Z) (idt_addr echo init_dir garbage : Z) (fuel : nat).

(** Up to the start of the first program: [re_init_pg_dir0] is empty. *)
Definition main (m : machine) : res machine :=
  let h := init_heap (mheap m) in
  '(h, c) ← alloc_console fuel h (vram (screen (kcons (mkern m))));
  let c := set_screen c (vga_clear_all (screen c)) in
  let '(k, idt, idtr) := init_idt isr idt_addr (set_cons (mkern m) c) in
  let k := init_devices echo k in
  let t := init_syscall (msyscalls m) in
  s ← init_task0 (ksched k) 0x100000 garbage init_dir;
  let t := register_syscall t SYS_EXIT SysExit in
  Ok (mkMachine h (set_sched k s) idt idtr t).
End Main.

(** A sequence of interrupts, as long as they return. *)
Fixpoint interrupts (l : list (irq_input * Z * Z)) (k : kernel) : outcome :=
  match l with
  | [] => Returned k
  | (inp, irq, err) :: l =>
      match irq_handler_entry inp irq err k with Returned k => interrupts l k | r => r end
  end.

End Main.
Import Main.

(** ** The blocks of the console *)

(** [kmalloc] on a heap whose only free region is the lowest one. *)
Lemma malloc_top size s post a ts' :
  Forall (fun t => tfr t = false) post -> size + 12 <= s -> malloc_step size (Tile HEAP_START s true :: post) a ts' ->
  a = HEAP_START + s - size + 12 /\ ts' = Tile HEAP_START (s - size - 12) true :: Tile (HEAP_START + s - size) size false :: post.
Proof.
  intros Hp Hs Hm. inversion Hm as [Hn|pre c s1 post1 E Hs1 _ Ea Et]; subst.
  - exfalso. assert (tsz (Tile HEAP_START s true) < size + 12); [|simpl in *; lia]. apply Hn. by left.
  - destruct pre as [|t pre]; simpl in E; injection E as E1 E2; [by subst|]. exfalso.
    rewrite Forall_forall in Hp. specialize (Hp (Tile c s1 true)). subst post. assert (true = false); [|done]. apply Hp. clear. set_solver.
Qed.

(** The next block, and what it leaves unchanged. *)
Lemma kmalloc_top fuel size h s post fl :
  heap_repr h (Tile HEAP_START s true :: post) fl -> 349526 <= Z.of_nat fuel -> Forall (fun t => tfr t = false) post -> 0 <= size -> size + 12 <= s ->
  exists h' fl', kmalloc fuel size h = Ok (HEAP_START + s - size + 12, h') /\
    heap_repr h' (Tile HEAP_START (s - size - 12) true :: Tile (HEAP_START + s - size) size false :: post) fl' /\
    frame (hdr_bytes (Tile HEAP_START (s - size - 12) true :: Tile (HEAP_START + s - size) size false :: post)) h h'.
Proof.
  intros Hr Hf Hp H0 Hs. pose proof (layout_elem _ _ _ (Tile HEAP_START s true) (hr_layout _ _ _ Hr) ltac:(by left)) as Hb. simpl in Hb.
  destruct (kmalloc_refines fuel size h _ fl Hr) as (a & h' & ts' & fl' & Hk & Hm & Hr' & Hfr & _); [by eapply repr_fuel|done|consts; lia|].
  destruct (malloc_top size s post a ts' Hp Hs Hm) as [-> ->]. by exists h', fl'.
Qed.

Lemma no_header ts x : Forall (fun t => ta t + 12 <= x \/ x < ta t) ts -> ~ hdr_bytes ts x.
Proof. intros H (t & Ht & Hx). rewrite Forall_forall in H. specialize (H t Ht). lia. Qed.

Ltac not_header := apply no_header; repeat apply Forall_cons_2; [..|by apply Forall_nil_2].

(** The heap with the three blocks, lowest region first. *)
Definition console_tiles : list tile :=
  [Tile HEAP_START (HEAP_END - HEAP_START - 740) true; Tile (HEAP_END - 728) 512 false; Tile (HEAP_END - 204) 80 false; Tile (HEAP_END - 112) 100 false].

Lemma alloc_console_spec fuel h0 v :
  349526 <= Z.of_nat fuel ->
  exists h fl, alloc_console fuel (init_heap h0) v =
      Ok (h, init_console (boot (block h (HEAP_END - 192) 80) (block h (HEAP_END - 716) INPUT_BUF_SIZE) v)) /\
    heap_repr h console_tiles fl /\ forall i, 0 <= i < 80 -> load8 (hmem h) (HEAP_END - 192 + i) = load8 (hmem h0) (HEAP_END - 192 + i).
Proof.
  intros Hf.
  destruct (kmalloc_top fuel 100 (init_heap h0) (HEAP_END - HEAP_START - 12) [] [init_tile]) as (h1 & fl1 & H1 & R1 & F1);
    [apply init_heap_repr|done|constructor|lia|consts; lia|].
  set (h1' := with_mem h1 (write_bytes (hmem h1) (HEAP_END - 100) (replicate 100 0))).
  assert (F1' : frame (fun x => HEAP_END - 100 <= x < HEAP_END) h1 h1').
  { intros x Hx Hn. apply write_bytes_out; [unfold fits; consts; vm_compute lenZ; lia|done|change (lenZ _) with 100; consts; lia]. }
  assert (R1' : heap_repr h1' (Tile HEAP_START (HEAP_END - HEAP_START - 12 - 100 - 12) true :: Tile (HEAP_END - 112) 100 false :: []) fl1).
  { eapply (heap_repr_frame _ h1); [exact F1'|done| |exact R1]. intros y Hy Hn. revert Hy. not_header; clear -Hn; simpl; consts; lia. }
  destruct (kmalloc_top fuel 80 h1' (HEAP_END - HEAP_START - 12 - 100 - 12) [Tile (HEAP_END - 112) 100 false] fl1) as (h2 & fl2 & H2 & R2 & F2);
    [exact R1'|done|by repeat constructor|lia|consts; lia|].
  destruct (kmalloc_top fuel 512 h2 (HEAP_END - HEAP_START - 12 - 100 - 12 - 80 - 12) [Tile (HEAP_END - 204) 80 false; Tile (HEAP_END - 112) 100 false] fl2)
    as (h3 & fl3 & H3 & R3 & F3); [exact R2|done|by repeat constructor|lia|consts; lia|].
  exists h3, fl3. split; [|split; [exact R3|]].
  - unfold alloc_console. change CONSOLE_HISTORY_SIZE with 100. rewrite H1, res_bind_Ok. cbv beta iota zeta.
    change (HEAP_START + (HEAP_END - HEAP_START - 12) - 100 + 12) with (HEAP_END - 100). change (Z.to_nat 100) with 100%nat. fold h1'.
    rewrite H2, res_bind_Ok. cbv beta iota. change INPUT_BUF_SIZE with 512. rewrite H3, res_bind_Ok. reflexivity.
  - intros i Hi. assert (Hu : u32 (HEAP_END - 192 + i)) by (consts; lia).
    rewrite F3; [|done|not_header; clear -Hi; simpl; consts; lia]. rewrite F2; [|done|not_header; clear -Hi; simpl; consts; lia].
    rewrite F1'; [|done|clear -Hi; consts; lia]. rewrite F1; [|done|not_header; clear -Hi; simpl; consts; lia].
    unfold init_heap. cbn [set_index_head heap_start index_head hmem]. rewrite frame_CREATE; [done|unfold fits; consts; lia|done|clear -Hi; consts; lia].
Qed.

(** ** The kernel after the start *)

Lemma outbs_spec k l :
  ksched (outbs k l) = ksched k /\ kcons (outbs k l) = kcons k /\ kkb (outbs k l) = kkb k.
Proof. unfold outbs. revert k. induction l as [|[p v] l IH]; intros k; [done|]. simpl. by rewrite !(proj1 (IH _)), !(proj1 (proj2 (IH _))), !(proj2 (proj2 (IH _))). Qed.

Lemma init_devices_spec echo k :
  refines (kcons k) ([], []) ->
  ksched (init_devices echo k) = ksched k /\ kkb (init_devices echo k) = kkb k /\
  exists L, refines (kcons (init_devices echo k)) (L, []) /\ lenZ L <= 10.
Proof.
  intros Hr. unfold init_devices. destruct (outbs_spec k init_timer) as (S1 & C1 & B1). rewrite C1. unfold init_serial.
  destruct (negb (echo =? 174)).
  - match goal with |- context [outbs (set_cons _ ?c) ?w] => destruct (outbs_spec (set_cons (outbs k init_timer) c) w) as (-> & -> & ->) end.
    split; [done|]. split; [done|]. exists (chars "gg serial" ++ [10]). cbn [kcons set_cons].
    split; [|done]. apply (puts_refines (kcons k) ([], [])); [done|apply Forall_app; split; [apply chars_u8|by repeat constructor]|done].
  - match goal with |- context [outbs (set_cons _ ?c) ?w] => destruct (outbs_spec (set_cons (outbs k init_timer) c) w) as (-> & -> & ->) end.
    split; [done|]. split; [done|]. exists []. split; [done|]. change (lenZ (@nil Z)) with 0. lia.
Qed.

Lemma interrupts_spec l k a :
  kernel_inv k a -> Forall irq_ok l -> lenZ (fst a) + 881 * lenZ l + 1700 < 4294967296 ->
  exists k' a', interrupts l k = Returned k' /\ kernel_inv k' a' /\ kports k' = kports k ++ flat_map (fun e => eoi_writes (snd (fst e))) l.
Proof.
  revert k a. induction l as [|[[inp irq] err] l IH]; intros k a Hk Hl Hb; cbn [interrupts].
  { exists k, a. split; [done|]. split; [done|]. by rewrite app_nil_r. }
  apply Forall_cons in Hl as [He Hl]. rewrite lenZ_cons in Hb. pose proof (lenZ_nonneg l).
  destruct (interrupt_step inp irq err k a Hk) as (k1 & a1 & -> & Hk1 & Hp1 & Hb1); [lia|done|].
  destruct (IH k1 a1 Hk1 Hl) as (k2 & a2 & -> & Hk2 & Hp2); [lia|]. exists k2, a2. split; [done|]. split; [done|].
  cbn [flat_map fst snd]. by rewrite Hp2, Hp1, <- app_assoc.
Qed.

Lemma block_zero h a n : (forall i, 0 <= i < n -> load8 (hmem h) (a + i) = 0) -> block h a n = replicate (Z.to_nat n) 0.
Proof.
  intros H. unfold block. apply list_eq_same_length with (Z.to_nat n); [by rewrite length_replicate|by rewrite List.length_map, length_seqZ|].
  intros i x y Hi. rewrite lookup_replicate. change (List.map ?f ?l) with (f <$> l). rewrite list_lookup_fmap, lookup_seqZ_lt by lia. simpl.
  intros [= <-] [-> _]. apply H. lia.
Qed.
Lemma block_length h a n : 0 <= n -> lenZ (block h a n) = n.
Proof. intros Hn. unfold block, lenZ. rewrite List.length_map, length_seqZ. lia. Qed.

(** What [main] starts from: an empty task table, an idle keyboard, and a heap
    area that holds zeros. *)
Record at_boot (m : machine) : Prop := {
  ab_tasks : table_ok (ksched (mkern m));
  ab_esp : u32 (cpu_esp (ksched (mkern m)));
  ab_kb : kb_inv (kkb (mkern m));
  ab_heap : forall a, HEAP_START <= a < HEAP_END -> load8 (hmem (mheap m)) a = 0;
  ab_calls : lenZ (msyscalls m) = SYSCALL_NUM;
}.

Lemma main_spec isr idt_addr echo init_dir garbage fuel m :
  at_boot m -> 349526 <= Z.of_nat fuel ->
  exists m' L fl idt, main isr idt_addr echo init_dir garbage fuel m = Ok m' /\ heap_repr (mheap m') console_tiles fl /\
    kernel_inv (mkern m') (L, []) /\ lenZ L <= 10 /\ current (ksched (mkern m')) = 1 /\
    (forall i, live (ksched (mkern m')) i <-> i = 0 \/ i = 1) /\ cpu_cr3 (ksched (mkern m')) = init_dir /\
    (exists k k', init_idt isr idt_addr k = (k', idt, midtr m')) /\ midt m' = idt /\
    msyscalls m' = register_syscall (init_syscall (msyscalls m)) SYS_EXIT SysExit /\
    init_task0 (ksched (mkern m)) 0x100000 garbage init_dir = Ok (ksched (mkern m')).
Proof.
  intros [Ht He Hkb Hz _] Hf. destruct (alloc_console_spec fuel (mheap m) (vram (screen (kcons (mkern m)))) Hf) as (h & fl & H1 & Hr & Hw).
  unfold main. rewrite H1, res_bind_Ok. cbv beta iota zeta.
  assert (Hwin : block h (HEAP_END - 192) 80 = replicate 80 0).
  { apply (block_zero h (HEAP_END - 192) 80). intros i Hi. rewrite Hw by done. apply Hz. clear -Hi. consts. lia. }
  rewrite Hwin. set (c := set_screen _ _). assert (Hc : refines c ([], [])).
  { apply console_starts_empty. by apply block_length. }
  destruct (init_idt isr idt_addr (set_cons (mkern m) c)) as [[k idt] idtr] eqn:Ei.
  assert (Hk : ksched k = ksched (mkern m) /\ kcons k = c /\ kkb k = kkb (mkern m)).
  { unfold init_idt in Ei. injection Ei as <- _ _. apply (outbs_spec (set_cons (mkern m) c)). }
  destruct Hk as (Ek1 & Ek2 & Ek3). destruct (init_devices_spec echo k) as (Ed1 & Ed2 & L & Hrd & HL); [by rewrite Ek2|].
  rewrite Ed1, Ek1. destruct (init_task0_spec (ksched (mkern m)) 0x100000 garbage init_dir Ht He) as (s & Hs & Hi & Hcur & Hlv & _ & _ & Hcr).
  rewrite Hs, res_bind_Ok. eexists _, L, fl, idt. split; [reflexivity|]. cbn [mheap mkern midt midtr msyscalls ksched kcons kkb set_sched].
  split; [done|]. split; [split; [done|split; [cbn [kkb set_sched]; by rewrite Ed2, Ek3|split; [exact Hrd|by apply Forall_nil_2]]]|].
  split; [done|]. split; [done|]. split; [done|]. split; [done|]. split; [by eexists _, _|]. split; [done|]. split; [done|done].
Qed.

Lemma syscalls_registered t :
  lenZ t = SYSCALL_NUM ->
  let t' := register_syscall (init_syscall t) SYS_EXIT SysExit in
  t' !! 0%nat = Some (Some SysExit) /\ t' !! 16%nat = Some (Some SysPrintl) /\ t' !! 32%nat = Some (Some SysFoo).
Proof.
  unfold lenZ, SYSCALL_NUM. intros Hn. unfold init_syscall, register_syscall, updZ. cbn [Z.ltb Z.compare SYS_EXIT SYS_PRINTL SYS_FOO].
  assert (Hl : List.length t = 64%nat) by lia. split_and!.
  - apply list_lookup_insert_eq. rewrite !length_insert, Hl. vm_compute. lia.
  - rewrite list_lookup_insert_ne, list_lookup_insert_ne by done. apply list_lookup_insert_eq. rewrite Hl. vm_compute. lia.
  - rewrite list_lookup_insert_ne by done. apply list_lookup_insert_eq. rewrite length_insert, Hl. vm_compute. lia.
Qed.

(** C6. The kernel starts and runs: from a machine with an empty task table and a
    zeroed heap area, [main] reaches the first program, task 1; the heap is
    consistent and holds the three blocks of the console, every gate of the
    interrupt table leads to its stub, and the three system calls are
    registered.  From there on, whatever sequence of interrupts arrives (page
    and protection faults and the exit of a task apart), every one of them
    returns, scheduler, keyboard and console keep their invariants, and exactly
    the required end-of-interrupt commands are sent. *)
Theorem kernel_starts_and_runs isr idt_addr echo init_dir garbage fuel m l :
  at_boot m -> 349526 <= Z.of_nat fuel -> (forall i, u32 (isr i)) -> Forall irq_ok l -> 881 * lenZ l + 2000 < 4294967296 ->
  exists m' k' a', main isr idt_addr echo init_dir garbage fuel m = Ok m' /\ heap_inv (mheap m') /\
    current (ksched (mkern m')) = 1 /\ cpu_cr3 (ksched (mkern m')) = init_dir /\
    (forall n, 0 <= n < 64 -> exists d, midt m' !! Z.to_nat n = Some d /\ gate_offset d = isr n) /\
    (msyscalls m' !! 0%nat = Some (Some SysExit) /\ msyscalls m' !! 16%nat = Some (Some SysPrintl) /\ msyscalls m' !! 32%nat = Some (Some SysFoo)) /\
    interrupts l (mkern m') = Returned k' /\ kernel_inv k' a' /\
    kports k' = kports (mkern m') ++ flat_map (fun e => eoi_writes (snd (fst e))) l.
Proof.
  intros Hb Hf Hisr Hl Hlen. destruct (main_spec isr idt_addr echo init_dir garbage fuel m Hb Hf)
    as (m' & L & fl & idt & Hm & Hr & Hk & HL & Hcur & _ & Hcr & (k0 & k1 & Hi) & Hidt & Hsys & _).
  destruct (interrupts_spec l (mkern m') (L, []) Hk Hl) as (k' & a' & Hrun & Hk' & Hp); [cbn [fst]; lia|].
  exists m', k', a'. split; [exact Hm|]. split; [by exists console_tiles, fl|]. split; [exact Hcur|]. split; [exact Hcr|].
  split; [|split; [|split; [exact Hrun|by split]]].
  - intros n Hn. destruct (idt_gates isr n Hisr Hn) as (d & Hd & Ho & _). exists d. unfold init_idt in Hi. injection Hi as _ <- _. by rewrite Hidt.
  - rewrite Hsys. apply syscalls_registered, Hb.
Qed.

(** A key press and a timer tick after the start. *)
Lemma kernel_starts_and_runs_witness :
  let m := mkMachine (mk_heap ∅ 0 0) (mkKernel sched0 (boot [] [] ∅) kb0 []) [] (0, 0) syscall_table0 in
  exists m' k' a', main (fun i => 0xC0800000 + 16 * (i mod 64)) 0xC0900000 174 0x1400000 0 (Z.to_nat 349526) m = Ok m' /\
    interrupts [(mkInput [1] 30 0 0 [], 33, 0); (mkInput [] 0 0 0 [], 32, 0)] (mkern m') = Returned k' /\ kernel_inv k' a'.
Proof.
  intros m. destruct (kernel_starts_and_runs (fun i => 0xC0800000 + 16 * (i mod 64)) 0xC0900000 174 0x1400000 0 (Z.to_nat 349526) m
    [(mkInput [1] 30 0 0 [], 33, 0); (mkInput [] 0 0 0 [], 32, 0)]) as (m' & k' & a' & H1 & _ & _ & _ & _ & _ & H2 & H3 & _).
  - split; [reflexivity|simpl; lia|split; [simpl; lia|reflexivity]| |reflexivity].
    intros a _. unfold load8. cbn [hmem mheap m]. by rewrite lookup_empty.
  - lia.
  - intros i. pose proof (Z.mod_pos_bound i 64). lia.
  - repeat (apply Forall_cons_2; [unfold irq_ok; split_and!; done || lia|]). by apply Forall_nil_2.
  - change (lenZ _) with 2. lia.
  - exists m', k', a'. split; [exact H1|]. split; [exact H2|exact H3].
Defined.
