(* ===== verification/Syscall.v ===== *)
(** * System calls (kernel/sys.c, kernel/sys.h, usr/lib/lib.c)

    The way of a system call: the stub of a user program puts the number and the
    arguments in registers and raises interrupt 63; the entry [isr63] of
    boot/kernel_entry.asm saves registers, calls the routine whose address is at
    that place of [syscall_table], restores the registers and returns.  The
    registers pushed last are the arguments of the C routine; a compiler may let
    a routine reuse its argument words, which the entry would then restore to the
    caller, and the model does not cover that.  [__ret_syscall] is the end of the
    same entry. *)
From S2P Require Import Prelude CMem CString Sink Sched Console ConsoleThm Print Com Keyboard Isr.
From Stdlib Require Import Strings.String.
Import CString Sched Console Print Isr.
Open Scope list_scope.

Module Syscall.

(** The registers a system call can see or change. *)
Record regs := mkRegs { eax : Z; ebx : Z; ecx : Z; edx : Z; edi : Z; ds : Z; es : Z; fs : Z; gs : Z }.

Definition set_eax (r : regs) (x : Z) : regs :=
  mkRegs x (ebx r) (ecx r) (edx r) (edi r) (ds r) (es r) (fs r) (gs r).
Definition set_ebx (r : regs) (x : Z) : regs :=
  mkRegs (eax r) x (ecx r) (edx r) (edi r) (ds r) (es r) (fs r) (gs r).
Definition set_ecx (r : regs) (x : Z) : regs :=
  mkRegs (eax r) (ebx r) x (edx r) (edi r) (ds r) (es r) (fs r) (gs r).

(** ** User side: [DEFINE_SYSCALL0], [DEFINE_SYSCALL1], [DEFINE_SYSCALL2]

    The registers at the [int] instruction. *)
Definition DEFINE_SYSCALL0 (num : Z) (r : regs) : regs := set_eax r num.
Definition DEFINE_SYSCALL1 (num p1 : Z) (r : regs) : regs := set_ebx (set_eax r num) (wrap32 p1).
Definition DEFINE_SYSCALL2 (num p1 p2 : Z) (r : regs) : regs := set_ecx (set_ebx (set_eax r num) (wrap32 p1)) (wrap32 p2).

Definition sys_exit : regs -> regs := DEFINE_SYSCALL0 SYS_EXIT.
Definition sys_printl : Z -> regs -> regs := DEFINE_SYSCALL1 SYS_PRINTL.
Definition sys_foo : Z -> Z -> regs -> regs := DEFINE_SYSCALL2 SYS_FOO.

(** ** Kernel side *)

(** How a system call ends: back in the caller; in another task, the caller
    being gone; in ring 0 at an address that is not a routine of the table;
    following the NULL pointer of [schedule]; or in a string without an end. *)
Inductive sys_outcome :=
| Back (r : regs) (k : kernel)
| Away (k : kernel)
| Jump (addr : Z)
| NullTask
| Endless.

(** [terminate_process] of kernel/task.c with its line of output. *)
Definition exit_process (k : kernel) : sys_outcome :=
  let k := set_cons k (puts (kcons k) (chars "terminate process" ++ [10])) in
  match terminate_process (ksched k) with
  | Some s => Away (set_sched k s)
  | None => NullTask
  end.

(** [kill_and_reschedule] of kernel/task.c only prints. *)
Definition kill_and_reschedule (k : kernel) : kernel := set_cons k (printl_lit "kill and reschedule" (kcons k)).

Section Entry.
(** [vm]: memory as the caller's page directory shows it.  [table]: the address
    of [syscall_table], [word]: the words of kernel memory behind it.
    [garbage]: what [eax] holds after a routine without result. *)
Context (fuel : nat) (vm : mem) (table : Z) (word : Z -> Z) (garbage : Z).

(** [call \[edi\]] with [edi = 4 * eax + syscall_table]: the number is not
    checked, and the multiplication drops its two highest bits. *)
Definition isr63 (t : list (option syscall)) (r : regs) (k : kernel) : sys_outcome :=
  let i := wrap32 (Z.shiftl (eax r) 2) / 4 in
  if i <? lenZ t then
    match mjoin (t !! Z.to_nat i) with
    | Some SysExit => exit_process k
    | Some SysPrintl =>
        match printl fuel vm (ebx r) (kcons k) with
        | Ok c => Back (set_eax r garbage) (set_cons k c)
        | _ => Endless
        end
    | Some SysFoo => Back (set_eax r (wrap32 (__foo (sint (ebx r)) (sint (ecx r))))) k
    | None => Jump 0
    end
  else Jump (word (wrap32 (table + 4 * i))).

(** ** usr/lib/lib.c *)

Definition exit (t : list (option syscall)) (r : regs) (k : kernel) : sys_outcome := isr63 t (sys_exit r) k.
Definition printl (t : list (option syscall)) (s : Z) (r : regs) (k : kernel) : sys_outcome := isr63 t (sys_printl s r) k.
Definition foo (t : list (option syscall)) (a b : Z) (r : regs) (k : kernel) : sys_outcome := isr63 t (sys_foo a b r) k.
End Entry.

(** The table after [init_syscall] and the registration of [init_task0]. *)
Definition syscalls : list (option syscall) := register_syscall (init_syscall syscall_table0) SYS_EXIT SysExit.

(** The registers a caller can rely on. *)
Definition same_but_eax (r r' : regs) : Prop := r' = set_eax r (eax r').

End Syscall.
Import Syscall.

(** ** The three calls *)

Lemma syscalls_at n :
  0 <= n < 64 -> mjoin (syscalls !! Z.to_nat n) =
    if n =? 0 then Some SysExit else if n =? 16 then Some SysPrintl else if n =? 32 then Some SysFoo else None.
Proof.
  intros Hn. assert (Hall : forallb (fun n => match mjoin (syscalls !! Z.to_nat n),
      (if n =? 0 then Some SysExit else if n =? 16 then Some SysPrintl else if n =? 32 then Some SysFoo else None) with
    | Some SysExit, Some SysExit | Some SysPrintl, Some SysPrintl | Some SysFoo, Some SysFoo | None, None => true
    | _, _ => false end) (seqZ 0 64) = true) by reflexivity.
  rewrite forallb_forall in Hall. specialize (Hall n). rewrite <- list_elem_of_In, elem_of_seqZ in Hall. specialize (Hall ltac:(lia)).
  destruct (mjoin _) as [[]|], (if n =? 0 then _ else _) as [[]|]; done.
Qed.

(** The value of an [int] determines its bits. *)
Lemma wrap32_sint x : wrap32 (sint x) = wrap32 x.
Proof.
  unfold sint. destruct (x <? 2147483648); [done|]. unfold wrap32. replace (x - 4294967296) with (x + (-1) * 4294967296) by lia.
  apply Z.mod_add. lia.
Qed.

Section Calls.
Context (fuel : nat) (vm : mem) (table : Z) (word : Z -> Z) (garbage : Z).
Notation isr63 := (isr63 fuel vm table word garbage syscalls).

(** What [isr63] does for a number, by the place it selects. *)
Lemma isr63_at r k i :
  wrap32 (Z.shiftl (eax r) 2) = 4 * i -> 0 <= i < 64 ->
  isr63 r k = match (if i =? 0 then Some SysExit else if i =? 16 then Some SysPrintl else if i =? 32 then Some SysFoo else None) with
    | Some SysExit => exit_process k
    | Some SysPrintl => match Print.printl fuel vm (ebx r) (kcons k) with Ok c => Back (set_eax r garbage) (set_cons k c) | _ => Endless end
    | Some SysFoo => Back (set_eax r (wrap32 (__foo (sint (ebx r)) (sint (ecx r))))) k
    | None => Jump 0
    end.
Proof.
  intros E Hi. unfold Syscall.isr63. rewrite E, (Z.mul_comm 4), Z.div_mul by lia. change (lenZ syscalls) with 64.
  rewrite (proj2 (Z.ltb_lt _ _)) by lia. by rewrite syscalls_at.
Qed.

Lemma printl_spec p l r k :
  u32 p -> cstr vm p l -> lenZ l < Z.of_nat fuel ->
  printl fuel vm table word garbage syscalls p r k =
    Back (set_eax (sys_printl p r) garbage) (set_cons k (puts (kcons k) (l ++ [10]))).
Proof.
  intros Hp Hc Hf. unfold printl. rewrite (isr63_at _ k 16) by (done || lia). cbn [Z.eqb sys_printl DEFINE_SYSCALL1 ebx set_ebx].
  rewrite wrap32_small by done. unfold Print.printl. rewrite (printstr_spec fuel vm p l) by (lia || done).
  rewrite res_bind_Ok. by rewrite puts_app.
Qed.

Lemma foo_spec a b r k :
  foo fuel vm table word garbage syscalls a b r k = Back (set_eax (sys_foo a b r) (wrap32 (a + b))) k.
Proof.
  unfold foo. rewrite (isr63_at _ k 32) by (done || lia). cbn [Z.eqb Pos.eqb sys_foo DEFINE_SYSCALL2 ebx ecx set_ebx set_ecx].
  unfold __foo. do 2 f_equal. rewrite wrap32_sint, wrap32_idem, <- wrap32_add_l, <- wrap32_add_r, !wrap32_sint.
  by autorewrite with machine.
Qed.

Lemma exit_spec r k : exit fuel vm table word garbage syscalls r k = exit_process k.
Proof. unfold exit. by rewrite (isr63_at _ k 0) by (done || lia). Qed.

End Calls.

(** The entry does not check the number: numbers that agree in their low 30 bits
    are one system call; an unused number calls address 0 in ring 0, which is the
    first instruction of the caller's own program; a number from 64 on calls
    whatever the word behind the table names. *)
Theorem syscall_unchecked fuel vm table word garbage r k :
  u32 (eax r) ->
  let i := eax r mod 2 ^ 30 in
  match isr63 fuel vm table word garbage syscalls r k with
  | Jump a => i <> 0 /\ i <> 16 /\ i <> 32 /\ a = (if i <? 64 then 0 else word (wrap32 (table + 4 * i)))
  | Back r' _ => (i = 16 \/ i = 32) /\ same_but_eax r r'
  | Away _ | NullTask => i = 0
  | Endless => i = 16
  end.
Proof.
  intros Hr i. assert (E : wrap32 (Z.shiftl (eax r) 2) = 4 * i).
  { unfold i, wrap32. rewrite Z.shiftl_mul_pow2 by lia. change (2 ^ 2) with 4. change 4294967296 with (2 ^ 30 * 4).
    rewrite Z.mul_mod_distr_r by lia. lia. }
  pose proof (Z.mod_pos_bound (eax r) (2 ^ 30)) as Hi. fold i in Hi. destruct (Z.ltb_spec i 64) as [Hlt|Hge].
  - rewrite (isr63_at fuel vm table word garbage r k i E) by lia. destruct (Z.eqb_spec i 0) as [->|]; [unfold exit_process; by destruct (terminate_process _)|].
    destruct (Z.eqb_spec i 16) as [->|]; [destruct (Print.printl _ _ _ _); [split; [by left|done]|done..]|].
    destruct (Z.eqb_spec i 32) as [->|]; [split; [by right|done]|]. done.
  - unfold isr63. rewrite E, (Z.mul_comm 4), Z.div_mul by lia. change (lenZ syscalls) with 64.
    rewrite (proj2 (Z.ltb_ge i 64)) by lia. rewrite (Z.mul_comm 4). split_and!; lia || done.
Qed.
