(* ===== verification/UserProgs.v ===== *)
(** * The user programs under the scheduler (usr/init/*.c, kernel/task.c)

    The programs init, task0, task1 and task2 and the loop at the end of
    [init_task0] as small machines; a step is local (a test of a loop with what follows
    it), begins or ends a character (the kernel's own loop) or makes a system
    call.  The whole system interleaves the steps of the running program with
    timer interrupts in any order; interrupts are off inside a system call, but
    on while the kernel's loop prints, so that an interrupt can fall inside its
    [write_console_one].  If another task then writes on the console, the two
    writes mix and the model says so ([Race]).

    The kernel saves a task that loses the processor on the stack it was
    entered on.  The system records which stack that is and who used it last: a
    task whose saved registers were overwritten cannot be resumed ([Stuck]).  All
    loaded programs have their kernel stack at one virtual page, which
    is one physical page for all of them, so the theorems are about the kernel's
    loop with one loaded program beside it. *)
From S2P Require Import Prelude CMem CString Sink Sched Console ConsoleThm Print Com Keyboard Isr Syscall.
From Stdlib Require Import Strings.String.
Import CString Sched Console Print Keyboard Isr Syscall.
Open Scope list_scope.

Module UserProgs.

Inductive call := Exit | Printl (p : Z) | Foo (a b : Z).
Inductive event := Local | Put (c : Z) | Sys (c : call).

(** ** The programs

    A step gives the event and the next state, which may depend on the result of
    a system call. *)

(** usr/init/task0.c; start.asm calls [exit] after [main]. *)
Inductive task0_pc := T0_while | T0_printl | T0_exit | T0_gone.
Definition task0_step (lit : Z) (pc : task0_pc) (i : Z) : event * (task0_pc * Z) :=
  match pc with
  | T0_while =>
      if i <? 3 then
        let i := i + 1 in
        let i := if i <? 0 then 0 else i in
        (Local, (T0_printl, i))
      else (Local, (T0_exit, i))
  | T0_printl => (Sys (Printl lit), (T0_while, i))
  | T0_exit => (Sys Exit, (T0_gone, i))
  | T0_gone => (Local, (T0_gone, i))
  end.

(** usr/init/task1.c, usr/init/task2.c: the local [i] is unsigned. *)
Inductive spin_pc := Sp_while | Sp_printl | Sp_reset.
Definition task1_step (lit : Z) (pc : spin_pc) (i : Z) : event * (spin_pc * Z) :=
  match pc with
  | Sp_while => if i <? 0x2FFFFFF then (Local, (Sp_while, wrap32 (i + 1))) else (Local, (Sp_printl, i))
  | Sp_printl => (Sys (Printl lit), (Sp_reset, i))
  | Sp_reset => (Local, (Sp_while, 0))
  end.
Definition task2_step (lit : Z) (pc : spin_pc) (i : Z) : event * (spin_pc * Z) :=
  match pc with
  | Sp_while => if i <? 0x2FFFFFF then (Local, (Sp_while, wrap32 (i + 1))) else (Local, (Sp_printl, i))
  | Sp_printl => (Sys (Printl lit), (Sp_reset, i))
  | Sp_reset => (Local, (Sp_while, 0))
  end.

(** usr/init/init.c *)
Inductive init_pc := In_foo | In_zero | In_while | In_printl.
Definition init_step (lit : Z) (pc : init_pc) (i ret : Z) : event * (Z -> init_pc * Z * Z) :=
  match pc with
  | In_foo => (Sys (Foo 4 5), fun eax => (In_zero, i, sint eax))
  | In_zero => (Local, fun _ => (In_while, 0, ret))
  | In_while => if i <? 0x8FFFFFF then (Local, fun _ => (In_while, i + 1, ret)) else (Local, fun _ => (In_printl, i, ret))
  | In_printl => (Sys (Printl lit), fun _ => (In_zero, i, ret))
  end.

(** The end of [init_task0], from [sti] on; [printf] writes the characters of
    its format one by one, and [K_char] is inside [write_console_one]. *)
Inductive kernel_pc := K_printf (rest : list Z) | K_char (c : Z) (rest : list Z) | K_zero | K_while (i : Z).
Definition kernel_hello : list Z := chars "init task 0 end" ++ [10].
Definition kernel_line : list Z := chars "I am kernel" ++ [10].
Definition kernel_step (pc : kernel_pc) : event * kernel_pc :=
  match pc with
  | K_printf [] => (Local, K_zero)
  | K_printf (c :: rest) => (Local, K_char c rest)
  | K_char c rest => (Put c, K_printf rest)
  | K_zero => (Local, K_while 0)
  | K_while i => if i <? 0x8FFFFFF then (Local, K_while (wrap32 (i + 1))) else (Local, K_printf kernel_line)
  end.

(** [lit]: the address of the program's string literal. *)
Inductive prog :=
| PKernel (pc : kernel_pc)
| PInit (lit : Z) (pc : init_pc) (i ret : Z)
| PTask0 (lit : Z) (pc : task0_pc) (i : Z)
| PTask1 (lit : Z) (pc : spin_pc) (i : Z)
| PTask2 (lit : Z) (pc : spin_pc) (i : Z).

Definition prog_step (p : prog) : event * (Z -> prog) :=
  match p with
  | PKernel pc => let '(e, pc) := kernel_step pc in (e, fun _ => PKernel pc)
  | PInit lit pc i ret => let '(e, f) := init_step lit pc i ret in (e, fun eax => let '(pc, i, ret) := f eax in PInit lit pc i ret)
  | PTask0 lit pc i => let '(e, (pc, i)) := task0_step lit pc i in (e, fun _ => PTask0 lit pc i)
  | PTask1 lit pc i => let '(e, (pc, i)) := task1_step lit pc i in (e, fun _ => PTask1 lit pc i)
  | PTask2 lit pc i => let '(e, (pc, i)) := task2_step lit pc i in (e, fun _ => PTask2 lit pc i)
  end.

(** The line a program prints, without its end. *)
Definition prog_line (p : prog) : list Z :=
  match p with
  | PKernel _ => chars "I am kernel"
  | PInit _ _ _ _ => chars "start init hello world"
  | PTask0 _ _ _ => chars "I am task0 "
  | PTask1 _ _ _ => chars "I am task1 "
  | PTask2 _ _ _ => chars "I am task2"
  end.
Definition prog_lit (p : prog) : option Z :=
  match p with
  | PKernel _ => None
  | PInit lit _ _ _ | PTask0 lit _ _ | PTask1 lit _ _ | PTask2 lit _ _ => Some lit
  end.

(** ** The system *)

(** The stacks the kernel is entered on: the one of the boot code, on which the
    kernel's loop runs; the page at [KSTACK_FRAME], which all directories share;
    and, as long as [esp0] of the TSS has the value of [setup_tss], the page
    below the top of memory, a page of the running directory. *)
Inductive stack := Boot | Page | Own (i : Z).

(** Where the registers of a task that does not run are, and who used the two
    shared stacks last. *)
Record stacks := mkStacks { saved : gmap Z stack; boot_user : Z; page_user : Z }.

Definition kstack (s : sched) (cur : Z) : stack :=
  if cur =? 0 then Boot else if tss_esp0 s =? 0xFFFFFF00 then Own cur else Page.
Definition user_of (st : stacks) (loc : stack) : Z :=
  match loc with Boot => boot_user st | Page => page_user st | Own i => i end.

(** The entry of the kernel pushes the registers of [cur]. *)
Definition push (loc : stack) (cur : Z) (st : stacks) : stacks :=
  match loc with
  | Boot => mkStacks (saved st) cur (page_user st)
  | Page => mkStacks (saved st) (boot_user st) cur
  | Own _ => st
  end.
(** The end of the kernel's work pops those of [new]. *)
Definition resume (loc : stack) (cur new : Z) (st : stacks) : option stacks :=
  if new =? cur then Some st
  else
    match saved st !! new with
    | Some loc' => if user_of st loc' =? new then Some (mkStacks (<[cur := loc]> (saved st)) (boot_user st) (page_user st)) else None
    | None => None
    end.

Record system := mkSystem { skern : kernel; sprogs : gmap Z prog; sstacks : stacks }.
Definition running (x : system) : Z := current (ksched (skern x)).

(** The kernel's loop was interrupted while it wrote a character. *)
Definition writing (x : system) : bool :=
  negb (running x =? 0) && match sprogs x !! 0 with Some (PKernel (K_char _ _)) => true | _ => false end.

(** How an action ends. *)
Inductive outcome := Next (x : system) (log : list (Z * list Z)) | Race | Stuck.

(** What a step puts on the console, for the log of the system. *)
Definition event_text (p : prog) (e : event) : list Z :=
  match e with
  | Put c => [c]
  | Sys (Printl _) => prog_line p ++ [10]
  | Sys Exit => chars "terminate process" ++ [10]
  | _ => []
  end.

Inductive action := Tick | Run.

(** The system calls that write on the console. *)
Definition writes (c : call) : bool := match c with Foo _ _ => false | _ => true end.

Section System.
(** The memory of every task, the address of the system-call table and the words
    behind it, the registers of a program and what [printl] leaves in [eax]. *)
Context (fuel : nat) (vm : Z -> mem) (table : Z) (word : Z -> Z) (garbage : Z) (r0 : regs).

Definition do_call (i : Z) (c : call) (k : kernel) : sys_outcome :=
  match c with
  | Exit => exit fuel (vm i) table word garbage syscalls r0 k
  | Printl p => printl fuel (vm i) table word garbage syscalls p r0 k
  | Foo a b => foo fuel (vm i) table word garbage syscalls a b r0 k
  end.

(** The kernel [k] gives the processor to its current task; [next] is the program
    the task [cur] goes on with. *)
Definition back_to (loc : stack) (cur : Z) (next : prog) (x : system) (k : kernel) (log : list (Z * list Z)) : outcome :=
  match resume loc cur (current (ksched k)) (push loc cur (sstacks x)) with
  | Some st => Next (mkSystem k (<[cur := next]> (sprogs x)) st) log
  | None => Stuck
  end.

(** One step of the running program. *)
Definition run_current (x : system) : outcome :=
  let k := skern x in
  let cur := running x in
  let loc := kstack (ksched k) cur in
  match sprogs x !! cur with
  | None => Stuck
  | Some p =>
      let '(e, next) := prog_step p in
      let log := [(cur, event_text p e)] in
      match e with
      | Local => Next (mkSystem k (<[cur := next 0]> (sprogs x)) (sstacks x)) log
      | Put c => Next (mkSystem (set_cons k (put (kcons k) c)) (<[cur := next 0]> (sprogs x)) (sstacks x)) log
      | Sys c =>
          if writing x && writes c then Race
          else
            match do_call cur c k with
            | Back r k => back_to loc cur (next (eax r)) x k log
            | Away k => back_to loc cur (next 0) x k log
            | _ => Stuck
            end
      end
  end.

Definition no_input : irq_input := mkInput [] 0 0 0 [].

Definition act (a : action) (x : system) : outcome :=
  match a with
  | Run => run_current x
  | Tick =>
      let cur := running x in
      match irq_handler_entry no_input 32 0 (skern x), sprogs x !! cur with
      | Returned k, Some p => back_to (kstack (ksched (skern x)) cur) cur p x k []
      | _, _ => Stuck
      end
  end.

Fixpoint sys_run (l : list action) (x : system) : outcome :=
  match l with
  | [] => Next x []
  | a :: l =>
      match act a x with
      | Next x log => match sys_run l x with Next x log' => Next x (log ++ log') | o => o end
      | o => o
      end
  end.
End System.

(** What the log says of one task, and of all. *)
Definition text_of (i : Z) (log : list (Z * list Z)) : list Z :=
  List.concat (List.map (fun e => if fst e =? i then snd e else []) log).
Definition all_text (log : list (Z * list Z)) : list Z := List.concat (List.map snd log).

Definition lines (n : nat) (l : list Z) : list Z := List.concat (replicate n (l ++ [10])).
Definition bye : list Z := chars "terminate process" ++ [10].

(** ** Specification *)

(** A program before its first step. *)
Definition fresh (p : prog) : Prop :=
  match p with
  | PKernel pc => pc = K_printf kernel_hello
  | PInit _ pc _ _ => pc = In_foo
  | PTask0 _ pc i => pc = T0_while /\ i = 0
  | PTask1 _ pc _ | PTask2 _ pc _ => pc = Sp_while
  end.

(** What a program may have printed, [alive] telling whether it still runs:
    task0 three lines and its exit, the others whole lines without end, the
    kernel's loop its greeting and then lines. *)
Definition output_ok (p : prog) (alive : Prop) (l : list Z) : Prop :=
  match p with
  | PTask0 _ _ _ => (alive /\ l `prefix_of` lines 3 (prog_line p)) \/ (~ alive /\ l = lines 3 (prog_line p) ++ bye)
  | PKernel _ => alive /\ exists n, l `prefix_of` kernel_hello ++ lines n (prog_line p)
  | _ => alive /\ exists n, l = lines n (prog_line p)
  end.

(** The literals are in the memory of their tasks. *)
Definition placed (fuel : nat) (vm : Z -> mem) (i : Z) (p : prog) : Prop :=
  forall lit, prog_lit p = Some lit -> u32 lit /\ cstr (vm i) lit (prog_line p) /\ lenZ (prog_line p) < Z.of_nat fuel.

(** The registers of task [i] are on a stack that nobody else used since. *)
Definition frame_kept (st : stacks) (i : Z) : Prop :=
  exists loc, saved st !! i = Some loc /\ user_of st loc = i /\ (loc = Boot <-> i = 0).

(** The start: every live task has a fresh program, task 0 is the kernel, at most
    one program is loaded beside it, and the task that does not run is saved. *)
Record sys_start (fuel : nat) (vm : Z -> mem) (x : system) : Prop := {
  ss_sched : sched_inv (ksched (skern x));
  ss_live : forall i, live (ksched (skern x)) i <-> is_Some (sprogs x !! i);
  ss_fresh : forall i p, sprogs x !! i = Some p -> fresh p /\ placed fuel vm i p;
  ss_kernel : exists pc, sprogs x !! 0 = Some (PKernel pc);
  ss_two : forall i j, live (ksched (skern x)) i -> live (ksched (skern x)) j -> i <> 0 -> j <> 0 -> i = j;
  ss_saved : forall i, live (ksched (skern x)) i -> i <> running x -> frame_kept (sstacks x) i;
}.

(** Rounds: a tick, then at least one step; [ns] gives the further steps. *)
Definition rounds (ns : list nat) : list action := flat_map (fun n => Tick :: Run :: replicate n Run) ns.

End UserProgs.
Import UserProgs.

(** ** Texts *)

Lemma text_of_app i l1 l2 : text_of i (l1 ++ l2) = text_of i l1 ++ text_of i l2.
Proof. unfold text_of. by rewrite List.map_app, List.concat_app. Qed.
Lemma all_text_app l1 l2 : all_text (l1 ++ l2) = all_text l1 ++ all_text l2.
Proof. unfold all_text. by rewrite List.map_app, List.concat_app. Qed.
Lemma text_of_one i j t : text_of i [(j, t)] = if j =? i then t else [].
Proof. unfold text_of. simpl. by rewrite app_nil_r. Qed.

Lemma lines_snoc n l : lines n l ++ (l ++ [10]) = lines (S n) l.
Proof. unfold lines. by rewrite (replicate_S_end n), List.concat_app; simpl; rewrite app_nil_r. Qed.

Lemma lines_prefix n m l : (n <= m)%nat -> lines n l `prefix_of` lines m l.
Proof.
  intros H. exists (lines (m - n) l). unfold lines. rewrite <- List.concat_app, <- replicate_add. do 2 f_equal. lia.
Qed.

(** ** What a program has printed, by its state *)

Definition said (p : prog) (l : list Z) : Prop :=
  match p with
  | PKernel (K_printf rest) => exists n, l ++ rest = kernel_hello ++ lines n (prog_line p)
  | PKernel (K_char c rest) => exists n, l ++ c :: rest = kernel_hello ++ lines n (prog_line p)
  | PKernel _ => exists n, l = kernel_hello ++ lines n (prog_line p)
  | PTask0 _ T0_while i => 0 <= i <= 3 /\ l = lines (Z.to_nat i) (prog_line p)
  | PTask0 _ T0_printl i => 1 <= i <= 3 /\ l = lines (Z.to_nat (i - 1)) (prog_line p)
  | PTask0 _ T0_exit _ => l = lines 3 (prog_line p)
  | PTask0 _ T0_gone _ => l = lines 3 (prog_line p) ++ bye
  | _ => exists n, l = lines n (prog_line p)
  end.

Definition gone (p : prog) : bool := match p with PTask0 _ T0_gone _ => true | _ => false end.

Ltac said_simpl := cbn [fst snd event_text said prog_line]; rewrite ?app_nil_r.

(** One step extends the text as the event says. *)
Lemma said_step p l v : gone p = false -> said p l -> said (snd (prog_step p) v) (l ++ event_text p (fst (prog_step p))).
Proof.
  intros Hg Hs. destruct p as [[[|c rest]|c rest| |i]|lit [] i ret|lit [] i|lit [] i|lit [] i]; try done;
    cbn -[lines chars kernel_hello kernel_line Z.ltb] in *; rewrite ?app_nil_r in *; try exact Hs;
    try (match type of Hs with ex _ => destruct Hs as [n ->] end; exists (S n); apply lines_snoc);
    try (destruct (i <? _); said_simpl; exact Hs).
  - destruct Hs as [n Hs]. exists n. by rewrite <- app_assoc.
  - destruct (i <? _); said_simpl; [exact Hs|]. destruct Hs as [n ->]. exists (S n). rewrite <- app_assoc. f_equal. apply lines_snoc.
  - destruct Hs as [Hi ->]. destruct (Z.ltb_spec i 3); said_simpl.
    + rewrite (proj2 (Z.ltb_ge (i + 1) 0)) by lia. split; [lia|]. do 2 f_equal. lia.
    + by replace i with 3 by lia.
  - destruct Hs as [Hi ->]. split; [lia|]. rewrite lines_snoc. f_equal. lia.
  - by rewrite Hs.
Qed.

Lemma fresh_said p : fresh p -> said p [].
Proof.
  destruct p as [pc|lit pc i ret|lit pc i|lit pc i|lit pc i]; simpl.
  - intros ->. exists 0%nat. unfold lines. simpl. done.
  - intros ->. by exists 0%nat.
  - intros [-> ->]. split; [lia|done].
  - intros ->. by exists 0%nat.
  - intros ->. by exists 0%nat.
Qed.

(** The kind of a program, which no step changes. *)
Lemma step_kind p v : prog_lit (snd (prog_step p) v) = prog_lit p /\ prog_line (snd (prog_step p) v) = prog_line p.
Proof.
  destruct p as [[[|c rest]|c rest| |i]|lit [] i ret|lit [] i|lit [] i|lit [] i]; try done; cbn -[Z.ltb chars]; by destruct (i <? _).
Qed.

(** The programs make three kinds of calls, and only an exit ends one. *)
Lemma step_event p :
  gone p = false ->
  match fst (prog_step p) with
  | Local | Put _ | Sys (Foo _ _) => forall v, gone (snd (prog_step p) v) = false
  | Sys (Printl lit) => prog_lit p = Some lit /\ forall v, gone (snd (prog_step p) v) = false
  | Sys Exit => forall v, gone (snd (prog_step p) v) = true
  end.
Proof.
  destruct p as [[[|c rest]|c rest| |i]|lit [] i ret|lit [] i|lit [] i|lit [] i]; try done; intros _; cbn -[Z.ltb chars]; try done; by destruct (i <? _).
Qed.

Lemma event_text_u8 p :
  (forall pc, p = PKernel pc -> exists l, said p l) -> Forall (fun c => u8 c) (event_text p (fst (prog_step p))) /\ lenZ (event_text p (fst (prog_step p))) <= 40.
Proof.
  assert (Hn : Forall (fun c => u8 c) [10]) by by repeat constructor.
  intros Hk. destruct p as [[[|c rest]|c rest| |i]|lit [] i ret|lit [] i|lit [] i|lit [] i];
    try (cbn -[Z.ltb chars]; try match goal with |- context [if ?b then _ else _] => destruct b end; cbn -[chars];
         (split; [first [apply Forall_nil_2|apply Forall_app; split; [apply chars_u8|exact Hn]]|vm_compute; done])).
  cbn [prog_step kernel_step fst event_text]. split; [|done]. apply Forall_cons_2; [|apply Forall_nil_2].
  destruct (Hk _ eq_refl) as (l & n & E). assert (Ha : Forall (fun c => u8 c) (l ++ c :: rest)).
  { rewrite E. apply Forall_app. split; [apply Forall_app; split; [apply chars_u8|exact Hn]|]. unfold lines. apply Forall_concat, Forall_replicate.
    apply Forall_app. split; [apply chars_u8|exact Hn]. }
  apply Forall_app in Ha as [_ Ha]. by apply Forall_cons in Ha as [Ha _].
Qed.

(** ** Stacks *)

Lemma kstack_boot s cur : kstack s cur = Boot <-> cur = 0.
Proof. unfold kstack. destruct (Z.eqb_spec cur 0); [done|]. by case_match. Qed.

(** With one loaded program, two different tasks use different stacks. *)
Lemma push_kept s st cur i :
  (i = 0 <-> cur <> 0) -> frame_kept st i -> frame_kept (push (kstack s cur) cur st) i.
Proof.
  intros Hne (loc & Hl & Hu & Hb). exists loc. pose proof (kstack_boot s cur) as Hk.
  destruct (kstack s cur); cbn [push saved]; [| |done]; (split; [done|]); (split; [|done]); destruct loc; cbn [user_of boot_user page_user] in *; try done;
    exfalso; destruct (decide (cur = 0)); destruct (decide (i = 0)); intuition congruence.
Qed.

Lemma push_user s st cur : user_of (push (kstack s cur) cur st) (kstack s cur) = cur.
Proof. unfold kstack. destruct (cur =? 0); [done|]. by destruct (tss_esp0 s =? _). Qed.

(** Whatever task the kernel goes back to, its registers are there, and those of the
    other one are kept. *)
Lemma resume_kept (P : Z -> Prop) s st cur new :
  (forall i j, P i -> P j -> i <> 0 -> j <> 0 -> i = j) -> P cur -> P new -> (forall i, P i -> i <> cur -> frame_kept st i) ->
  exists st', resume (kstack s cur) cur new (push (kstack s cur) cur st) = Some st' /\ forall i, P i -> i <> new -> frame_kept st' i.
Proof.
  intros Htwo Hc Hn Hk. assert (Hne : forall i, P i -> i <> cur -> (i = 0 <-> cur <> 0)).
  { intros i Hi Hic. split; [congruence|]. intros Hc0. destruct (decide (i = 0)); [done|]. destruct Hic. by apply Htwo. }
  assert (Hk' : forall i, P i -> i <> cur -> frame_kept (push (kstack s cur) cur st) i) by (intros; apply push_kept; auto).
  unfold resume. destruct (Z.eqb_spec new cur) as [->|Hnc]; [by eexists|].
  destruct (Hk' new Hn Hnc) as (loc & -> & -> & _). rewrite Z.eqb_refl. eexists. split; [reflexivity|].
  intros i Hi Hin. destruct (decide (i = cur)) as [->|Hic].
  - exists (kstack s cur). cbn [saved]. rewrite lookup_insert_eq. split; [done|]. split; [|apply kstack_boot].
    pose proof (push_user s st cur) as Hu. by destruct (kstack s cur).
  - destruct (Hk' i Hi Hic) as (l & Hs & Hu & Hb). exists l. cbn [saved]. rewrite lookup_insert_ne by congruence. split; [done|]. by destruct l.
Qed.

(** ** Steps of the system *)

Section Steps.
Context (fuel : nat) (vm : Z -> mem) (table : Z) (word : Z -> Z) (garbage : Z) (r0 : regs).
Notation act := (act fuel vm table word garbage r0).
Notation run_current := (run_current fuel vm table word garbage r0).
Notation sys_run := (sys_run fuel vm table word garbage r0).
Notation do_call := (do_call fuel vm table word garbage r0).

Record sys_inv (x : system) (log : list (Z * list Z)) : Prop := {
  si_sched : sched_inv (ksched (skern x));
  si_live : forall i, live (ksched (skern x)) i <-> exists p, sprogs x !! i = Some p /\ gone p = false;
  si_said : forall i p, sprogs x !! i = Some p -> said p (text_of i log) /\ placed fuel vm i p;
  si_kernel : exists pc, sprogs x !! 0 = Some (PKernel pc);
  si_two : forall i j, live (ksched (skern x)) i -> live (ksched (skern x)) j -> i <> 0 -> j <> 0 -> i = j;
  si_saved : forall i, live (ksched (skern x)) i -> i <> running x -> frame_kept (sstacks x) i;
}.

Lemma start_inv x : sys_start fuel vm x -> sys_inv x [].
Proof.
  intros [Hs Hl Hf Hk H2 Hsv]. split; [done| | |done|done|done].
  - intros i. rewrite Hl. split; [|intros (p & E & _); by eexists]. intros [p E]. exists p. split; [done|].
    destruct (Hf i p E) as [Hp _]. destruct p as [pc|lit pc j ret|lit pc j|lit pc j|lit pc j]; try done. by destruct Hp as [-> _].
  - intros i p E. destruct (Hf i p E) as [Hp Hpl]. split; [by apply fresh_said|done].
Qed.

(** The running program, and that it can make a step. *)
Lemma running_prog x log : sys_inv x log -> exists p, sprogs x !! running x = Some p /\ gone p = false.
Proof. intros Hi. apply (si_live _ _ Hi), inv_cur, Hi. Qed.

(** The kernel can always go back to the task it chose. *)
Lemma back_to_spec x log k next t :
  sys_inv x log -> sched_inv (ksched k) -> (forall i, live (ksched k) i -> live (ksched (skern x)) i) ->
  exists st, back_to (kstack (ksched (skern x)) (running x)) (running x) next x k t =
      Next (mkSystem k (<[running x := next]> (sprogs x)) st) t /\
    forall i, live (ksched k) i -> i <> current (ksched k) -> frame_kept st i.
Proof.
  intros Hi Hs Hl. destruct (resume_kept (live (ksched (skern x))) (ksched (skern x)) (sstacks x) (running x) (current (ksched k)))
    as (st & E & Hk); [apply Hi|apply inv_cur, Hi|apply Hl, inv_cur, Hs|apply Hi|].
  exists st. unfold back_to. rewrite E. split; [done|]. intros i Hli. by apply Hk, Hl.
Qed.

(** A timer interrupt prints nothing and changes only the scheduler. *)
Lemma tick_act x log :
  sys_inv x log ->
  exists x', act Tick x = Next x' [] /\ sys_inv x' log /\ kcons (skern x') = kcons (skern x) /\ kkb (skern x') = kkb (skern x) /\
    sprogs x' = sprogs x /\ tick (ksched (skern x)) = Some (ksched (skern x')) /\
    forall i, live (ksched (skern x')) i <-> live (ksched (skern x)) i.
Proof.
  intros Hi. destruct (running_prog x log Hi) as (p & Ep & _). destruct (tick_spec _ (si_sched _ _ Hi)) as (s' & Ht & Hs' & Hl' & _).
  unfold UserProgs.act, irq_handler_entry. cbn [Z.eqb Pos.eqb negb andb]. unfold dispatch. cbn [Z.eqb Pos.eqb].
  destruct (eoi_spec 32 (set_sched (skern x) (timer_handler (ksched (skern x))))) as (-> & E2 & E3 & _). cbn [ksched set_sched].
  unfold tick in Ht. rewrite Ht, Ep. set (k := set_sched _ s').
  destruct (back_to_spec x log k p [] Hi) as (st & -> & Hk); [done|intros i; apply Hl'|]. eexists. split; [reflexivity|].
  rewrite insert_id by done. cbn [skern sprogs]. split; [|split_and!; [exact E2|exact E3|done|exact Ht|exact Hl']].
  destruct Hi as [Hs Hl Hsd Hkn H2 Hsv]. split; [done| |exact Hsd|exact Hkn| |exact Hk]; cbn [skern sprogs k ksched set_sched].
  - intros i. by rewrite Hl'.
  - intros i j Hli Hlj. by apply H2; apply Hl'.
Qed.

(** The invariant after a step of the running program [p], whatever the kernel
    did for it. *)
Lemma inv_update x log p v k' st :
  sys_inv x log -> sprogs x !! running x = Some p -> gone p = false -> sched_inv (ksched k') ->
  (forall i, live (ksched k') i <-> live (ksched (skern x)) i /\ (gone (snd (prog_step p) v) = true -> i <> running x)) ->
  (forall i, live (ksched k') i -> i <> current (ksched k') -> frame_kept st i) ->
  sys_inv (mkSystem k' (<[running x := snd (prog_step p) v]> (sprogs x)) st) (log ++ [(running x, event_text p (fst (prog_step p)))]).
Proof.
  intros [Hs Hl Hsd Hk H2 Hsv] E Hg Hs' Hl' Hst. split; cbn [skern sprogs]; [done| | | | |exact Hst].
  - intros i. rewrite Hl', Hl. destruct (decide (i = running x)) as [->|Hne].
    + rewrite lookup_insert_eq. split.
      * intros [_ H]. eexists. split; [done|]. destruct (gone (snd _ _)); [|done]. by destruct (H eq_refl).
      * intros (p' & [= <-] & ->). split; [by exists p|done].
    + rewrite lookup_insert_ne by congruence. split; [by intros [H _]|]. by intros H.
  - intros i q Hq. rewrite text_of_app, text_of_one. destruct (decide (i = running x)) as [->|Hne].
    + rewrite lookup_insert_eq in Hq. injection Hq as <-. rewrite Z.eqb_refl. destruct (Hsd _ _ E) as [Hp Hpl].
      split; [by apply said_step|]. destruct (step_kind p v) as [E1 E2]. unfold placed. by rewrite E1, E2.
    + rewrite lookup_insert_ne in Hq by congruence. rewrite (proj2 (Z.eqb_neq _ _)), app_nil_r by congruence. by apply Hsd.
  - destruct Hk as [pc Hpc]. destruct (decide (running x = 0)) as [E0|].
    + rewrite E0 in *. rewrite lookup_insert_eq. rewrite Hpc in E. injection E as <-. cbn [prog_step]. destruct (kernel_step pc). by eexists.
    + rewrite lookup_insert_ne by done. by exists pc.
  - intros i j [Hi _]%Hl' [Hj _]%Hl'. by apply H2.
Qed.

Lemma exit_not_kernel p : fst (prog_step p) = Sys Exit -> forall pc, p <> PKernel pc.
Proof. intros E pc ->. cbn [prog_step] in E. destruct pc as [[|c rest]|c rest| |i]; [done|done|done|done|]. cbn -[Z.ltb] in E. by destruct (i <? _). Qed.

(** What the kernel does for a step of [p]: it prints the text of the event, and
    only an exit touches the task table. *)
Definition effect (x : system) (p : prog) (k' : kernel) : Prop :=
  kcons k' = puts (kcons (skern x)) (event_text p (fst (prog_step p))) /\ kkb k' = kkb (skern x) /\ sched_inv (ksched k') /\
  forall v, if gone (snd (prog_step p) v) then (forall i, live (ksched k') i <-> live (ksched (skern x)) i /\ i <> running x)
            else ksched k' = ksched (skern x).

Lemma run_effect x log p :
  sys_inv x log -> sprogs x !! running x = Some p -> gone p = false ->
  run_current x = Race \/
  exists k' v st, run_current x = Next (mkSystem k' (<[running x := snd (prog_step p) v]> (sprogs x)) st) [(running x, event_text p (fst (prog_step p)))] /\
    effect x p k' /\ forall i, live (ksched k') i -> i <> current (ksched k') -> frame_kept st i.
Proof.
  intros Hi E Hg. unfold UserProgs.run_current, effect. rewrite E. pose proof (step_event p Hg) as Hev. pose proof (exit_not_kernel p) as Hx.
  pose proof (si_sched _ _ Hi) as Hs. destruct (prog_step p) as [e next]. cbn [fst snd] in *. destruct e as [|c|c].
  - right. exists (skern x), 0, (sstacks x). split; [done|]. split; [|apply Hi]. split_and!; [done..|]. intros v. by rewrite Hev.
  - right. exists (set_cons (skern x) (put (kcons (skern x)) c)), 0, (sstacks x). split; [done|]. split; [|apply Hi]. split_and!; [done..|]. intros v. by rewrite Hev.
  - destruct (writing x && writes c); [by left|right]. destruct c as [|lit|a b]; cbn [UserProgs.do_call].
    + destruct (si_kernel _ _ Hi) as [pc Hpc]. destruct (terminate_spec (ksched (skern x)) 0 Hs) as (s' & Ht & Hs' & _ & Hl').
      { apply (si_live _ _ Hi). by exists (PKernel pc). }
      { intros E0. fold (running x) in E0. rewrite <- E0, Hpc in E. injection E as <-. by apply (Hx eq_refl pc). }
      rewrite exit_spec. unfold exit_process. cbn [ksched set_cons]. rewrite Ht. set (k' := set_sched _ s').
      destruct (back_to_spec x log k' (next 0) [(running x, event_text p (Sys Exit))] Hi) as (st & -> & Hk); [done|intros i Hli; by apply Hl'|].
      exists k', 0, st. split; [done|]. split; [|exact Hk]. split_and!; [done..|]. intros v. by rewrite Hev.
    + destruct Hev as [Hlit Hev]. destruct (si_said _ _ Hi _ _ E) as [_ Hpl]. destruct (Hpl _ Hlit) as (Hu & Hc & Hf).
      rewrite (printl_spec fuel _ _ _ _ lit (prog_line p)) by done. set (k' := set_cons _ _). set (v := eax _).
      destruct (back_to_spec x log k' (next v) [(running x, event_text p (Sys (Printl lit)))] Hi) as (st & -> & Hk); [done|done|].
      exists k', v, st. split; [done|]. split; [|exact Hk]. split_and!; [done..|]. intros w. by rewrite Hev.
    + rewrite foo_spec. set (v := eax _).
      destruct (back_to_spec x log (skern x) (next v) [(running x, event_text p (Sys (Foo a b)))] Hi) as (st & -> & Hk); [done|done|].
      exists (skern x), v, st. split; [done|]. split; [|exact Hk]. split_and!; [done..|]. intros w. by rewrite Hev.
Qed.

Lemma run_act x log :
  sys_inv x log ->
  run_current x = Race \/
  exists p k' v st, let e := (running x, event_text p (fst (prog_step p))) in
    sprogs x !! running x = Some p /\ gone p = false /\ effect x p k' /\
    run_current x = Next (mkSystem k' (<[running x := snd (prog_step p) v]> (sprogs x)) st) [e] /\
    sys_inv (mkSystem k' (<[running x := snd (prog_step p) v]> (sprogs x)) st) (log ++ [e]).
Proof.
  intros Hi. destruct (running_prog x log Hi) as (p & E & Hg). destruct (run_effect x log p Hi E Hg) as [|(k' & v & st & Hr & Hef & Hst)]; [by left|right].
  exists p, k', v, st. split; [done|]. split; [done|]. split; [done|]. split; [done|]. destruct Hef as (_ & _ & Hs & Hl).
  apply inv_update; [done..| |done]. intros i. specialize (Hl v). destruct (gone (snd (prog_step p) v)).
  - rewrite (Hl i). split; [intros [? ?]; by split|]. intros [? H]. split; [done|by apply H].
  - rewrite Hl. split; [by intros ?|by intros [? _]].
Qed.

(** ** Runs *)

Definition same_kind (p q : prog) : Prop :=
  match p, q with
  | PKernel _, PKernel _ | PInit _ _ _ _, PInit _ _ _ _ | PTask0 _ _ _, PTask0 _ _ _ | PTask1 _ _ _, PTask1 _ _ _ | PTask2 _ _ _, PTask2 _ _ _ => True
  | _, _ => False
  end.

Lemma same_kind_step p q v : same_kind p q -> same_kind p (snd (prog_step q) v).
Proof.
  destruct q as [pc|lit pc i ret|lit pc i|lit pc i|lit pc i]; cbn [prog_step].
  - by destruct (kernel_step pc).
  - destruct (init_step lit pc i ret) as [e f]. cbn [snd]. by destruct (f v) as [[? ?] ?].
  - by destruct (task0_step lit pc i) as [e []].
  - by destruct (task1_step lit pc i) as [e []].
  - by destruct (task2_step lit pc i) as [e []].
Qed.

Lemma said_output p q l alive :
  same_kind p q -> said q l -> (alive <-> gone q = false) -> output_ok p alive l.
Proof.
  intros Hk Hs Ha. destruct p, q as [pc1|? ? ? ?|? pc1 i1|? ? ?|? ? ?]; try done; cbn [output_ok prog_line];
    try (split; [by apply Ha|exact Hs]).
  - split; [by apply Ha|]. destruct pc1 as [rest|c rest| |]; destruct Hs as [n Hs]; exists n; [exists rest; done|exists (c :: rest); done|by rewrite Hs..].
  - destruct pc1; cbn [said gone prog_line] in *; [left|left|left|right].
    + destruct Hs as [Hi ->]. split; [by apply Ha|]. apply lines_prefix. lia.
    + destruct Hs as [Hi ->]. split; [by apply Ha|]. apply lines_prefix. lia.
    + rewrite Hs. by split; [apply Ha|].
    + split; [|done]. intros H. by apply Ha in H.
Qed.

(** The programs of a system keep their kinds. *)
Definition kinds (x x' : system) : Prop := forall i p, sprogs x !! i = Some p -> exists q, sprogs x' !! i = Some q /\ same_kind p q.

Lemma kinds_step x y p v k' st :
  kinds x y -> sprogs y !! running y = Some p -> kinds x (mkSystem k' (<[running y := snd (prog_step p) v]> (sprogs y)) st).
Proof.
  intros Hk E i q Hq. destruct (Hk i q Hq) as (q' & Hq' & Hs). cbn [sprogs]. destruct (decide (running y = i)) as [<-|].
  - rewrite lookup_insert_eq. eexists. split; [done|]. rewrite E in Hq'. injection Hq' as <-. by apply same_kind_step.
  - rewrite lookup_insert_ne by done. by exists q'.
Qed.

Lemma sys_run_spec l x0 x log a :
  sys_inv x log -> kinds x0 x -> refines (kcons (skern x)) a -> lenZ (fst a) + 2000 * lenZ l < 4294967296 -> sys_run l x <> Race ->
  exists x' log', sys_run l x = Next x' log' /\ sys_inv x' (log ++ log') /\ kinds x0 x' /\
    refines (kcons (skern x')) (fst a ++ all_text log', snd a) /\ kkb (skern x') = kkb (skern x).
Proof.
  revert x log a. induction l as [|c l IH]; intros x log a Hi Hk Hr Hl; cbn [UserProgs.sys_run].
  { exists x, []. rewrite !app_nil_r. by destruct a. }
  rewrite lenZ_cons in Hl. pose proof (lenZ_nonneg l). destruct c.
  - destruct (tick_act x log Hi) as (x1 & -> & Hi1 & Ec & Eb & Ep & _). intros Hnr.
    destruct (IH x1 log a Hi1) as (x2 & log2 & E2 & H1 & H2 & H3 & H4);
      [intros i p E; rewrite Ep; by apply Hk|by rewrite Ec|lia|by destruct (sys_run l x1)|].
    rewrite E2. exists x2, log2. split; [done|]. by rewrite H4.
  - cbn [UserProgs.act]. destruct (run_act x log Hi) as [->|(p & k' & v & st & E & Hg & (Ec & Eb & _) & -> & Hi1)]; [done|]. intros Hnr.
    destruct (event_text_u8 p) as [Hu Ht]; [intros _ _; exists (text_of (running x) log); by apply (si_said _ _ Hi)|].
    set (x1 := mkSystem _ _ _) in *.
    destruct (IH x1 _ (fst a ++ event_text p (fst (prog_step p)), snd a) Hi1) as (x2 & log2 & E2 & H1 & H2 & H3 & H4).
    + by apply kinds_step.
    + cbn [x1 skern]. rewrite Ec. apply puts_refines; [done|done|lia].
    + cbn [fst]. rewrite lenZ_app. lia.
    + by destruct (sys_run l x1).
    + rewrite E2. eexists _, _. split; [reflexivity|]. rewrite app_assoc. split; [done|]. split; [done|]. cbn [fst snd x1 skern] in *. split; [|by rewrite H4].
      rewrite all_text_app, app_assoc. by replace (all_text [(running x, event_text p (fst (prog_step p)))]) with (event_text p (fst (prog_step p))) by (unfold all_text; simpl; by rewrite app_nil_r).
Qed.

(** Any run from a start. *)
Lemma programs_run l x a :
  sys_start fuel vm x -> kernel_inv (skern x) a -> lenZ (fst a) + 2000 * lenZ l < 4294967296 -> sys_run l x <> Race ->
  exists x' log, sys_run l x = Next x' log /\ kernel_inv (skern x') (fst a ++ all_text log, snd a) /\
    forall i p, sprogs x !! i = Some p -> output_ok p (live (ksched (skern x')) i) (text_of i log).
Proof.
  intros Hst (Hs & Hb & Hr & Hn) Hl Hnr. apply start_inv in Hst as Hi.
  destruct (sys_run_spec l x x [] a Hi) as (x' & log & Hrun & Hi' & Hk & Hr' & Eb); [|done|done|done|].
  { intros i p E. exists p. split; [done|]. by destruct p. }
  exists x', log. split; [done|]. split.
  - split; [apply Hi'|]. split; [by rewrite Eb|]. by split.
  - intros i p E. destruct (Hk i p E) as (q & Eq & Hq). apply (said_output p q); [done|by apply Hi'|].
    rewrite (si_live _ _ Hi'). split; [|by exists q]. intros (q' & E' & Hg). congruence.
Qed.

(** Where races come from, and which steps leave the kernel's loop where it is. *)
Lemma back_to_race loc cur next x k t : back_to loc cur next x k t <> Race.
Proof. unfold back_to. by destruct (resume _ _ _ _). Qed.

Lemma race_writing a x : act a x = Race -> writing x = true.
Proof.
  destruct a; cbn [UserProgs.act].
  - destruct (irq_handler_entry _ _ _ _), (sprogs x !! running x); try done. by intros ?%back_to_race.
  - unfold UserProgs.run_current. destruct (sprogs x !! running x) as [p|]; [|done]. destruct (prog_step p) as [[|c|c] next]; [done|done|].
    destruct (writing x); [done|]. cbn [andb]. by destruct (do_call _ _ _); intros ?; try done; exfalso; eapply back_to_race.
Qed.

Lemma back_to_other loc cur next x k t x' t' i :
  back_to loc cur next x k t = Next x' t' -> (cur <> i \/ sprogs x !! cur = Some next) -> sprogs x' !! i = sprogs x !! i.
Proof.
  unfold back_to. destruct (resume _ _ _ _); [|done]. intros [= <- _] Hn. cbn [sprogs].
  destruct (decide (cur = i)) as [->|]; [|by rewrite lookup_insert_ne]. destruct Hn as [|Hn]; [done|]. by rewrite lookup_insert_eq.
Qed.

Lemma other_step a x x' log i : act a x = Next x' log -> a = Tick \/ running x <> i -> sprogs x' !! i = sprogs x !! i.
Proof.
  destruct a; cbn [UserProgs.act].
  - destruct (irq_handler_entry _ _ _ _), (sprogs x !! running x) eqn:E; try done. intros H _. eapply back_to_other; [exact H|by right].
  - intros H [|Hn]; [done|]. revert H. unfold UserProgs.run_current. destruct (sprogs x !! running x) as [p|]; [|done].
    destruct (prog_step p) as [[|c|c] next].
    + intros [= <- _]. cbn [sprogs]. by rewrite lookup_insert_ne.
    + intros [= <- _]. cbn [sprogs]. by rewrite lookup_insert_ne.
    + destruct (_ && _); [done|]. destruct (do_call _ _ _); try done; intros H; (eapply back_to_other; [exact H|by left]).
Qed.

(** C8. The kernel's loop and a loaded program run concurrently: whatever the
    order of timer interrupts and program steps, also inside a character of the
    kernel's printf, the registers of the task that waits are never overwritten
    and no step gets stuck. Unless the program writes on the console while the
    kernel's loop is interrupted inside [write_console_one], the kernel's
    invariants hold and the console shows the old text followed by an
    interleaving of what the two print. Of this, task0 has printed a part of its
    three lines as long as it lives, and exactly these and the message of its
    exit when it is gone; init, task1 and task2 live on and have printed whole
    lines; the kernel's loop lives on and has printed a beginning of its greeting
    and its lines. *)
Theorem user_programs_run l x a :
  sys_start fuel vm x -> kernel_inv (skern x) a -> lenZ (fst a) + 2000 * lenZ l < 4294967296 ->
  sys_run l x <> Stuck /\
  (sys_run l x <> Race ->
   exists x' log, sys_run l x = Next x' log /\ kernel_inv (skern x') (fst a ++ all_text log, snd a) /\
     forall i p, sprogs x !! i = Some p -> output_ok p (live (ksched (skern x')) i) (text_of i log)).
Proof.
  intros Hst Hk Hl. split; [|by apply programs_run]. intros Es.
  destruct (programs_run l x a Hst Hk Hl) as (x' & log & E & _); rewrite Es in *; done.
Qed.
End Steps.

(** ** An example: the kernel and task0 *)

(** After the start of the kernel: task 0 was left in [spawn_ram], on the boot
    stack, for the program [p], which was started from the stack page. *)
Definition start_stacks : stacks := mkStacks {[0 := Boot]} 0 1.
Definition example_sched : sched := match init_task0 sched0 0x100000 0 0x1400000 with Ok s => s | _ => sched0 end.
Definition example_progs : gmap Z prog := <[0 := PKernel (K_printf kernel_hello)]> (<[1 := PTask0 4096 T0_while 0]> ∅).
Definition example_vm (i : Z) : mem :=
  match example_progs !! i with Some p => write_bytes ∅ 4096 (prog_line p ++ [0]) | None => ∅ end.
Definition example_system : system :=
  mkSystem (mkKernel example_sched (start_console (boot (replicate 80 0) (replicate 512 0) ∅)) kb0 []) example_progs start_stacks.

Lemma example_live : sched_inv example_sched /\ forall i, live example_sched i <-> i = 0 \/ i = 1.
Proof.
  destruct (init_task0_spec sched0 0x100000 0 0x1400000 (proj1 sched0_ok) (proj2 sched0_ok)) as (s & Hs & Hi & _ & Hl & _).
  unfold example_sched. by rewrite Hs.
Qed.

Lemma example_progs_at i p : example_progs !! i = Some p -> fresh p /\ placed 40 example_vm i p.
Proof.
  intros E. assert (Hm : example_vm i = write_bytes ∅ 4096 (prog_line p ++ [0])) by (unfold example_vm; by rewrite E).
  unfold placed. rewrite Hm. clear Hm. unfold example_progs in E.
  rewrite !lookup_insert_Some, lookup_empty in E. destruct E as [[<- <-]|(_ & [[<- <-]|(_ & E)])]; [| |done].
  - split; [done|]. by intros ? [=].
  - split; [done|]. intros ? [= <-]. split; [lia|]. split; [apply cstr_write; [by repeat constructor|lia|vm_compute; done]|vm_compute; done].
Qed.

Lemma start_stacks_kept s i : current s = 1 -> (i = 0 \/ i = 1) -> i <> current s -> frame_kept start_stacks i.
Proof. intros Ec [->| ->] Hne; [|congruence]. exists Boot. by split_and!. Qed.

Lemma example_start : sys_start 40 example_vm example_system.
Proof.
  destruct example_live as [Hi Hl]. split; cbn [example_system skern sprogs ksched sstacks]; [exact Hi| |exact example_progs_at|by eexists| |].
  - intros i. rewrite Hl. unfold example_progs. split.
    + intros [->| ->]; by eexists.
    + intros [p E]. rewrite !lookup_insert_Some, lookup_empty in E. destruct E as [[<- _]|(_ & [[<- _]|(_ & E)])]; [tauto..|done].
  - intros i j. rewrite !Hl. lia.
  - intros i. rewrite Hl. apply start_stacks_kept. reflexivity.
Qed.

Lemma example_kernel : kernel_inv (skern example_system) ([], []).
Proof.
  split; [apply example_live|]. split; [split; [simpl; lia|reflexivity]|]. split; [apply console_starts_empty; reflexivity|apply Forall_nil_2].
Qed.

Definition example_regs : regs := mkRegs 0 0 0 0 0 0x23 0x23 0x23 0x23.

(** task0 prints a line; then the kernel's loop is interrupted in its second
    character for a whole time slice in which task0 does not print. *)
Definition example_run : list action :=
  [Run; Run] ++ replicate 10 Tick ++ [Run; Run; Run] ++ replicate 10 Tick ++ [Run] ++ replicate 10 Tick ++ [Run].

Lemma example_run_no_race : sys_run 40 example_vm 0xC0900000 (fun _ => 0) 0 example_regs example_run example_system <> Race.
Proof.
  assert (E : match sys_run 40 example_vm 0xC0900000 (fun _ => 0) 0 example_regs example_run example_system with Race => false | _ => true end = true)
    by (vm_compute; reflexivity).
  intros Er. rewrite Er in E. discriminate E.
Qed.

Lemma user_programs_run_witness :
  exists x' log, sys_run 40 example_vm 0xC0900000 (fun _ => 0) 0 example_regs example_run example_system = Next x' log /\
    kernel_inv (skern x') (all_text log, []) /\ output_ok (PTask0 4096 T0_while 0) (live (ksched (skern x')) 1) (text_of 1 log).
Proof.
  destruct (user_programs_run 40 example_vm 0xC0900000 (fun _ => 0) 0 example_regs example_run example_system ([], [])) as [_ H].
  - exact example_start.
  - exact example_kernel.
  - reflexivity.
  - destruct H as (x' & log & H1 & H2 & H3).
    + exact example_run_no_race.
    + exists x', log. split; [exact H1|]. split; [exact H2|]. apply H3. reflexivity.
Defined.

(** With a second loaded program the saved registers do not survive: both are
    interrupted on the one stack page, and the first of them cannot be resumed. *)
Definition two_programs : system :=
  mkSystem (mkKernel (match load_task example_sched 0x1800000 with Ok (s, _) => s | _ => sched0 end) (kcons (skern example_system)) kb0 [])
    (<[2 := PTask1 4096 Sp_while 0]> example_progs) (mkStacks {[0 := Boot; 2 := Page]} 0 2).
Theorem two_programs_clash :
  sys_run 40 example_vm 0xC0900000 (fun _ => 0) 0 example_regs (replicate 60 Tick) two_programs = Stuck.
Proof. vm_compute. reflexivity. Qed.
