(* ===== verification/UserLive.v ===== *)
(** * A user program finishes (usr/init/task0.c under the scheduler)

    If the timer ticks and the running program gets at least one step between
    two ticks, task0 ends, whatever else runs.  The argument uses the bound of
    the round robin and a measure that no step raises: the steps task0 still has
    to make plus the number of live tasks. *)
From S2P Require Import Prelude CMem CString Sink Sched Console ConsoleThm Print Com Keyboard Isr Syscall UserProgs.
From Stdlib Require Import Strings.String.
Import Sched Console Print Isr Syscall UserProgs.
Open Scope list_scope.

(** ** The measure *)

Definition todo (p : prog) : nat :=
  match p with
  | PTask0 _ T0_while i => (2 * Z.to_nat (3 - i) + 2)%nat
  | PTask0 _ T0_printl i => (2 * Z.to_nat (3 - i) + 3)%nat
  | PTask0 _ T0_exit _ => 1%nat
  | _ => 0%nat
  end.
Definition nlive (s : sched) : nat := List.length (filter (fun i => live s i) (seqZ 0 MAX_TASK_NUM)).
Definition left_to_do (i : Z) (x : system) : nat :=
  if decide (live (ksched (skern x)) i) then (match sprogs x !! i with Some p => todo p | None => 0 end + nlive (ksched (skern x)))%nat else 0%nat.

Definition is_task0 (p : prog) : Prop := match p with PTask0 _ _ _ => True | _ => False end.

Lemma todo_step p l v : is_task0 p -> gone p = false -> said p l -> (todo (snd (prog_step p) v) < todo p)%nat.
Proof.
  destruct p as [?|? ? ? ?|lit [] i|? ? ?|? ? ?]; try done; intros _ _ Hs; cbn -[Z.ltb lines Z.to_nat Nat.mul] in *; [|lia|lia].
  destruct (Z.ltb_spec i 3); cbn -[Z.ltb lines Z.to_nat Nat.mul]; [|lia]. rewrite (proj2 (Z.ltb_ge (i + 1) 0)) by lia. lia.
Qed.

Lemma filter_lt (P Q : Z -> Prop) `{!forall x, Decision (P x), !forall x, Decision (Q x)} l j :
  (forall i, Q i -> P i) -> In j l -> P j -> ~ Q j -> (List.length (filter Q l) < List.length (filter P l))%nat.
Proof.
  intros HQP Hj HPj HQj. assert (Hle : forall l, (List.length (filter Q l) <= List.length (filter P l))%nat).
  { induction l0 as [|a l0 IH]; [done|]. rewrite !filter_cons. destruct (decide (Q a)) as [Hq|]; [rewrite decide_True by auto; simpl; lia|].
    destruct (decide (P a)); simpl; lia. }
  induction l as [|a l IH]; [done|]. rewrite !filter_cons. destruct Hj as [->|Hj].
  - rewrite (decide_True (P := P j)), (decide_False (P := Q j)) by done. simpl. specialize (Hle l). lia.
  - specialize (IH Hj). destruct (decide (Q a)) as [Hq|]; [rewrite decide_True by auto; simpl; lia|]. destruct (decide (P a)); simpl; lia.
Qed.

Lemma filter_iff (P Q : Z -> Prop) `{!forall x, Decision (P x), !forall x, Decision (Q x)} l :
  (forall i, Q i <-> P i) -> List.length (filter Q l) = List.length (filter P l).
Proof. intros Hiff. f_equal. by apply list_filter_iff. Qed.

Lemma nlive_pos s i : live s i -> (0 < nlive s)%nat.
Proof.
  intros Hl. assert (List.length (filter (fun _ : Z => False) (seqZ 0 MAX_TASK_NUM)) < nlive s)%nat; [|lia].
  apply (filter_lt (fun j => live s j) (fun _ => False) (seqZ 0 MAX_TASK_NUM) i); [by intros ? []| |done|tauto].
  apply list_elem_of_In, elem_of_seqZ. destruct Hl. lia.
Qed.

Lemma nlive_bound s : (nlive s <= 32)%nat.
Proof. unfold nlive. etrans; [apply length_filter|]. by rewrite length_seqZ. Qed.

Section Live.
Context (fuel : nat) (vm : Z -> mem) (table : Z) (word : Z -> Z) (garbage : Z) (r0 : regs) (i : Z).
Notation act := (act fuel vm table word garbage r0).
Notation run_current := (run_current fuel vm table word garbage r0).
Notation sys_run := (sys_run fuel vm table word garbage r0).
Notation sys_inv := (sys_inv fuel vm).

(** Task [i] runs task0. *)
Definition has_task0 (x : system) : Prop := exists p, sprogs x !! i = Some p /\ is_task0 p.

(** One action: the measure does not grow; it shrinks when task [i] runs, and
    when a program step changes the task table. *)
Lemma tick_measure x log :
  sys_inv x log -> has_task0 x ->
  exists x', act Tick x = Next x' [] /\ sys_inv x' log /\ has_task0 x' /\ left_to_do i x' = left_to_do i x /\
    tick (ksched (skern x)) = Some (ksched (skern x')) /\ forall j, live (ksched (skern x')) j <-> live (ksched (skern x)) j.
Proof.
  intros Hi Ht. destruct (tick_act fuel vm table word garbage r0 x log Hi) as (x' & Ha & Hi' & _ & _ & Ep & Htk & Hl).
  exists x'. split; [done|]. split; [done|]. split; [unfold has_task0; by rewrite Ep|]. split; [|done].
  unfold left_to_do, nlive. rewrite Ep. rewrite (decide_ext (live (ksched (skern x')) i) (live (ksched (skern x)) i)) by apply Hl.
  destruct (decide _); [|done]. f_equal. by apply filter_iff.
Qed.

Lemma run_measure x log :
  sys_inv x log -> has_task0 x ->
  act Run x = Race \/
  exists x' log', act Run x = Next x' log' /\ sys_inv x' (log ++ log') /\ has_task0 x' /\ (left_to_do i x' <= left_to_do i x)%nat /\
    (ksched (skern x') = ksched (skern x) \/ left_to_do i x = 0%nat \/ (left_to_do i x' < left_to_do i x)%nat) /\
    (live (ksched (skern x)) i -> running x = i -> (left_to_do i x' < left_to_do i x)%nat).
Proof.
  intros Hi (p & E & Hp). destruct (run_act fuel vm table word garbage r0 x log Hi) as [|(q & k' & v & st & Eq & Hg & (_ & _ & _ & Hl) & Hr & Hi')];
    [by left|right].
  eexists _, _. split; [exact Hr|]. split; [exact Hi'|]. specialize (Hl v). split.
  { unfold has_task0. cbn [sprogs]. destruct (decide (running x = i)) as [Ei|]; [|rewrite lookup_insert_ne by done; by exists p].
    rewrite Ei in *. rewrite lookup_insert_eq. eexists. split; [done|]. rewrite E in Eq. injection Eq as <-.
    destruct p as [?|? ? ? ?|lit pc j|? ? ?|? ? ?]; try done. cbn [prog_step]. by destruct (task0_step lit pc j) as [? []]. }
  assert (Hrun : live (ksched (skern x)) (running x)) by apply inv_cur, Hi.
  unfold left_to_do. cbn [skern sprogs]. destruct (gone (snd (prog_step q) v)) eqn:Hgone.
  - destruct (decide (live (ksched (skern x)) i)) as [Hlv|Hlv].
    2:{ rewrite decide_False by (rewrite Hl; tauto). split; [done|]. split; [by right; left|done]. }
    assert (Hn : (nlive (ksched k') < nlive (ksched (skern x)))%nat).
    { apply (filter_lt _ _ _ (running x)); [intros j Hj; by apply Hl|apply list_elem_of_In, elem_of_seqZ; destruct Hrun; lia|done|rewrite Hl; tauto]. }
    destruct (decide (live (ksched k') i)) as [Hlv'|Hlv']; [|split; [lia|]; split; [right; right|]; lia].
    apply Hl in Hlv' as [_ Hne]. rewrite lookup_insert_ne by congruence. split; [lia|]. split; [right; right; lia|]. lia.
  - rewrite Hl. destruct (decide (live (ksched (skern x)) i)) as [Hlv|Hlv]; [|split; [lia|]; split; [by left|done]].
    destruct (decide (running x = i)) as [Ei|Ei].
    + rewrite <- Ei in E. rewrite E in Eq. injection Eq as <-. rewrite <- Ei, lookup_insert_eq, E.
      pose proof (todo_step p _ v Hp Hg (proj1 (si_said _ _ _ _ Hi _ _ E))). split; [lia|]. split; [by left|lia].
    + rewrite lookup_insert_ne by done. split; [lia|]. split; [by left|done].
Qed.

(** ** Sequences of actions *)

Lemma sys_run_app l1 l2 x :
  sys_run (l1 ++ l2) x = match sys_run l1 x with
    | Next x1 log1 => match sys_run l2 x1 with Next x2 log2 => Next x2 (log1 ++ log2) | o => o end
    | o => o end.
Proof.
  revert x. induction l1 as [|a l1 IH]; intros x; cbn [UserProgs.sys_run app]; [by destruct (sys_run l2 x)|].
  destruct (act a x) as [x1 log1| |]; [|done|done]. rewrite IH. destruct (sys_run l1 x1) as [x2 log2| |]; [|done|done].
  destruct (sys_run l2 x2) as [x3 log3| |]; [|done|done]. by rewrite app_assoc.
Qed.

(** What a run from [x] with the log [log] reaches, [R] relating the two ends, if
    no two writes on the console mix. *)
Definition arrives (l : list action) (x : system) (log : list (Z * list Z)) (R : system -> Prop) : Prop :=
  exists x' log', sys_run l x = Next x' log' /\ sys_inv x' (log ++ log') /\ has_task0 x' /\ R x'.
Definition reaches (l : list action) (x : system) (log : list (Z * list Z)) (R : system -> Prop) : Prop :=
  sys_run l x = Race \/ arrives l x log R.

Lemma reaches_mono l x log (R R' : system -> Prop) : reaches l x log R -> (forall y, R y -> R' y) -> reaches l x log R'.
Proof. intros [|(x' & log' & ? & ? & ? & ?)] HR; [by left|right]. exists x', log'. split_and!; [done..|by apply HR]. Qed.

Lemma reaches_app l1 l2 x log R1 R2 :
  reaches l1 x log R1 -> (forall x' log', sys_inv x' log' -> has_task0 x' -> R1 x' -> reaches l2 x' log' R2) -> reaches (l1 ++ l2) x log R2.
Proof.
  intros [E|(x1 & log1 & H1 & Hi1 & Ht1 & HR)] H; [left; by rewrite sys_run_app, E|].
  destruct (H x1 _ Hi1 Ht1 HR) as [E|(x2 & log2 & H2 & Hi2 & Ht2 & HR2)]; [left; by rewrite sys_run_app, H1, E|right].
  exists x2, (log1 ++ log2). rewrite sys_run_app, H1, H2. split; [done|]. by rewrite app_assoc.
Qed.

Lemma reaches_one a x log x' log' (R : system -> Prop) :
  act a x = Next x' log' -> sys_inv x' (log ++ log') -> has_task0 x' -> R x' -> reaches [a] x log R.
Proof. intros Ha Hi Ht HR. right. exists x', log'. cbn [UserProgs.sys_run]. rewrite Ha, app_nil_r. by split_and!. Qed.

Lemma reaches_race a x log R : act a x = Race -> reaches [a] x log R.
Proof. intros E. left. cbn [UserProgs.sys_run]. by rewrite E. Qed.

Lemma reaches_le l x log : sys_inv x log -> has_task0 x -> reaches l x log (fun x' => (left_to_do i x' <= left_to_do i x)%nat).
Proof.
  revert x log. induction l as [|a l IH]; intros x log Hi Ht; [right; exists x, []; rewrite app_nil_r; by split_and!|].
  change (a :: l) with ([a] ++ l).
  apply (reaches_app _ _ _ _ (fun x' => (left_to_do i x' <= left_to_do i x)%nat)).
  - destruct a.
    + destruct (tick_measure x log Hi Ht) as (x' & Ha & Hi' & Ht' & E & _). eapply reaches_one; [done|by rewrite app_nil_r|done|lia].
    + destruct (run_measure x log Hi Ht) as [|(x' & log' & Ha & Hi' & Ht' & E & _)]; [by apply reaches_race|by eapply reaches_one].
  - intros x1 log1 Hi1 Ht1 H1. eapply reaches_mono; [by apply IH|]. cbv beta. intros y Hy. lia.
Qed.

(** The steps of one round: either the table is as before, or the measure has
    shrunk. *)
Lemma reaches_runs n x log :
  sys_inv x log -> has_task0 x -> live (ksched (skern x)) i ->
  reaches (replicate n Run) x log (fun x' => (left_to_do i x' <= left_to_do i x)%nat /\
    (ksched (skern x') = ksched (skern x) \/ (left_to_do i x' < left_to_do i x)%nat)).
Proof.
  revert x log. induction n as [|n IH]; intros x log Hi Ht Hl.
  { right. exists x, []. rewrite app_nil_r. split_and!; [done..|]. by left. }
  change (replicate (S n) Run) with ([Run] ++ replicate n Run).
  assert (Hpos : left_to_do i x <> 0%nat).
  { unfold left_to_do. rewrite decide_True by done. destruct Ht as (p & -> & _).
    pose proof (nlive_pos _ _ Hl). lia. }
  destruct (run_measure x log Hi Ht) as [|(x1 & log1 & Ha & Hi1 & Ht1 & Hle & Hc & _)];
    [eapply (reaches_app _ _ _ _ (fun _ => False)); [by apply reaches_race|done]|].
  apply (reaches_app _ _ _ _ (fun y => y = x1)); [by eapply reaches_one|].
  intros y log2 Hi2 Ht2 ->. destruct Hc as [Es|[?|Hlt]]; [|done|].
  - eapply reaches_mono; [apply IH; [done|done|by rewrite Es]|]. intros y [H4 H5]. split; [lia|].
    rewrite <- Es. destruct H5; [by left|right; lia].
  - eapply reaches_mono; [by apply reaches_le|]. cbv beta. intros y Hy. split; [lia|right; lia].
Qed.

Lemma rounds_cons n ns : rounds (n :: ns) = [Tick] ++ replicate (S n) Run ++ rounds ns.
Proof. done. Qed.

(** If ticks alone would give task [i] the processor within [m] ticks, the measure
    shrinks within [m] rounds. *)
Lemma reaches_lt m s' : forall x log ns,
  sys_inv x log -> has_task0 x -> live (ksched (skern x)) i -> ticks (S m) (ksched (skern x)) = Some s' -> current s' = i ->
  (S m <= List.length ns)%nat -> reaches (rounds ns) x log (fun x' => (left_to_do i x' < left_to_do i x)%nat).
Proof.
  induction m as [|m IH]; intros x log [|n ns] Hi Ht Hl Htk Hc Hn; try (simpl in Hn; lia); rewrite rounds_cons;
    destruct (tick_measure x log Hi Ht) as (x1 & Ha & Hi1 & Ht1 & E1 & Htick & Hl1); cbn [ticks] in Htk; rewrite Htick in Htk;
    (apply (reaches_app _ _ _ _ (fun y => y = x1)); [eapply reaches_one; [done|by rewrite app_nil_r|done|done]|]);
    intros y log1 Hi2 Ht2 ->.
  - injection Htk as <-. change (replicate (S n) Run) with ([Run] ++ replicate n Run). rewrite <- app_assoc.
    destruct (run_measure x1 log1 Hi2 Ht2) as [|(x2 & log2 & Ha2 & Hi3 & Ht3 & _ & _ & Hlt)];
      [eapply (reaches_app _ _ _ _ (fun _ => False)); [by apply reaches_race|done]|].
    apply (reaches_app _ _ _ _ (fun y => y = x2)); [by eapply reaches_one|].
    intros y log3 Hi4 Ht4 ->. eapply reaches_mono; [by apply reaches_le|]. specialize (Hlt (proj2 (Hl1 i) Hl) Hc). cbv beta. intros y Hy. lia.
  - apply (reaches_app _ _ _ _ (fun y => (left_to_do i y <= left_to_do i x1)%nat /\
      (ksched (skern y) = ksched (skern x1) \/ (left_to_do i y < left_to_do i x1)%nat))); [by apply reaches_runs; [..|apply Hl1]|].
    intros y log2 Hi3 Ht3 [Hle [Es|Hlt]].
    + eapply reaches_mono; [apply IH; [done|done|rewrite Es; by apply Hl1|by rewrite Es|done|simpl in Hn; lia]|]. cbv beta. intros z Hz. lia.
    + eapply reaches_mono; [by apply reaches_le|]. cbv beta. intros z Hz. lia.
Qed.

(** 311 rounds make the measure of a live task smaller. *)
Lemma block_lt x log ns :
  sys_inv x log -> has_task0 x -> live (ksched (skern x)) i -> (311 <= List.length ns)%nat ->
  reaches (rounds ns) x log (fun x' => (left_to_do i x' < left_to_do i x)%nat).
Proof.
  intros Hi Ht Hl Hn. destruct (tick_spec _ (si_sched _ _ _ _ Hi)) as (s1 & Htk & Hs1 & Hl1 & _).
  destruct (gets_processor s1 i Hs1 (proj2 (Hl1 i) Hl)) as (m & s' & Hm & Hts & Hc).
  apply (reaches_lt m s'); [done..| |done|lia]. cbn [ticks]. by rewrite Htk.
Qed.

Lemma rounds_app ns1 ns2 : rounds (ns1 ++ ns2) = rounds ns1 ++ rounds ns2.
Proof. apply flat_map_app. Qed.

Lemma finishes n : forall x log ns,
  sys_inv x log -> has_task0 x -> (left_to_do i x <= n)%nat -> (311 * n <= List.length ns)%nat ->
  reaches (rounds ns) x log (fun x' => ~ live (ksched (skern x')) i).
Proof.
  assert (H0 : forall x log l, sys_inv x log -> has_task0 x -> ~ live (ksched (skern x)) i ->
    reaches l x log (fun x' => ~ live (ksched (skern x')) i)).
  { intros x log l Hi Ht Hl. eapply reaches_mono; [by apply reaches_le|]. cbv beta. intros x' H4.
    intros Hl'. unfold left_to_do in H4. rewrite decide_True, decide_False in H4 by done. assert (0 < nlive (ksched (skern x')))%nat by by apply nlive_pos with i. lia. }
  induction n as [|n IH]; intros x log ns Hi Ht Hle Hn.
  - apply H0; [done..|]. intros Hl. unfold left_to_do in Hle. rewrite decide_True in Hle by done.
    assert (0 < nlive (ksched (skern x)))%nat by by apply nlive_pos with i. lia.
  - destruct (decide (live (ksched (skern x)) i)) as [Hl|Hl]; [|by apply H0].
    rewrite <- (take_drop 311 ns), rounds_app. eapply reaches_app; [apply (block_lt x log (take 311 ns)); [done..|rewrite length_take; lia]|].
    intros x' log' Hi' Ht' Hlt. apply IH; [done..|simpl in Hlt; lia|rewrite length_drop; lia].
Qed.
End Live.

(** At most one task beside task 0 lives. *)
Lemma nlive_two s : (forall i j, live s i -> live s j -> i <> 0 -> j <> 0 -> i = j) -> (nlive s <= 2)%nat.
Proof.
  intros H2. unfold nlive. set (l := filter _ _). assert (Hl : forall k, k ∈ l -> live s k) by (intros k Hk; by apply list_elem_of_filter in Hk as [? _]).
  assert (Hd : NoDup l) by apply NoDup_filter, NoDup_seqZ. clearbody l.
  destruct l as [|a [|b [|c l]]]; cbn [List.length]; try lia. exfalso. apply NoDup_cons in Hd as [Ha Hd]. apply NoDup_cons in Hd as [Hb _].
  pose proof (Hl a ltac:(set_solver)) as La. pose proof (Hl b ltac:(set_solver)) as Lb. pose proof (Hl c ltac:(set_solver)) as Lc.
  assert (a <> b /\ a <> c /\ b <> c) as (? & ? & ?) by set_solver.
  pose proof (H2 a b La Lb). pose proof (H2 a c La Lc). pose proof (H2 b c Lb Lc). lia.
Qed.

(** C9. task0 finishes: in a system of the kernel's loop and task0 in which the
    timer ticks and the running task makes at least one step between two ticks,
    task0 has printed its three lines, and no more, and left the system after at
    most 3110 rounds, with nothing stuck on the way, unless it writes on the
    console while the kernel's loop is interrupted inside [write_console_one]. *)
Theorem task0_finishes fuel vm table word garbage r0 x i p ns :
  sys_start fuel vm x -> sprogs x !! i = Some p -> is_task0 p -> 3110 <= lenZ ns ->
  sys_run fuel vm table word garbage r0 (rounds ns) x <> Race ->
  exists x' log, sys_run fuel vm table word garbage r0 (rounds ns) x = Next x' log /\ sched_inv (ksched (skern x')) /\
    ~ live (ksched (skern x')) i /\ text_of i log = lines 3 (prog_line p) ++ bye.
Proof.
  intros Hst E Hp Hn Hnr. pose proof (ss_fresh _ _ _ Hst i p E) as [Hf _]. apply start_inv in Hst as Hi.
  assert (Hle : (left_to_do i x <= 10)%nat).
  { unfold left_to_do. destruct (decide _); [|lia]. rewrite E. pose proof (nlive_two _ (ss_two _ _ _ Hst)).
    destruct p as [?|? ? ? ?|lit pc j|? ? ?|? ? ?]; try done. destruct Hf as [-> ->]. simpl todo. lia. }
  destruct (finishes fuel vm table word garbage r0 i 10 x [] ns Hi) as [|(x' & log & Hr & Hi' & (q & Eq & Hq) & Hd)]; [by exists p|done|unfold lenZ in Hn; lia|done|].
  exists x', log. split; [done|]. split; [apply Hi'|]. split; [done|]. destruct (si_said _ _ _ _ Hi' i q Eq) as [Hs _]. simpl app in Hs.
  assert (Hg : gone q = true) by (destruct (gone q) eqn:Hg; [done|]; exfalso; apply Hd, (si_live _ _ _ _ Hi'); by exists q).
  destruct q as [?|? ? ? ?|lit [] j|? ? ?|? ? ?]; try done. by destruct p.
Qed.

(** Task 0 alone does not race with itself. *)
Lemma alone_no_race fuel vm table word garbage r0 l : forall x log,
  sys_inv fuel vm x log -> (forall i, live (ksched (skern x)) i -> i = 0) -> sys_run fuel vm table word garbage r0 l x <> Race.
Proof.
  induction l as [|a l IH]; intros x log Hi Ha; cbn [sys_run]; [done|]. destruct a.
  - destruct (tick_act fuel vm table word garbage r0 x log Hi) as (x1 & -> & Hi1 & _ & _ & _ & _ & Hl).
    specialize (IH x1 log Hi1). destruct (sys_run _ _ _ _ _ _ l x1); [done| |done]. apply IH. intros i Hli. by apply Ha, Hl.
  - assert (Hr : running x = 0) by (apply Ha, inv_cur, Hi).
    cbn [act]. destruct (run_act fuel vm table word garbage r0 x log Hi) as [E|(p & k' & v & st & Ep & _ & (_ & _ & _ & Hl) & -> & Hi1)].
    + exfalso. revert E. unfold run_current, writing, back_to. rewrite Hr. cbn [Z.eqb negb andb].
      destruct (sprogs x !! 0) as [p|]; [|done]. destruct (prog_step p) as [[|c|c] next]; [done|done|].
      destruct (do_call _ _ _ _ _ _ _ _); try done; by destruct (resume _ _ _ _).
    + specialize (IH _ _ Hi1). destruct (sys_run _ _ _ _ _ _ l _); [done| |done]. apply IH. cbn [skern]. intros i Hli. apply Ha.
      specialize (Hl v). destruct (gone _); [by apply Hl|by rewrite <- Hl].
Qed.

(** A run in which task0 gets all its steps in the first round. *)
Lemma example_no_race :
  sys_run 40 example_vm 0xC0900000 (fun _ => 0) 0 example_regs (rounds (8%nat :: replicate (Z.to_nat 3110) 0%nat)) example_system <> Race.
Proof.
  change (8%nat :: replicate (Z.to_nat 3110) 0%nat) with ([8%nat] ++ replicate (Z.to_nat 3110) 0%nat).
  generalize (replicate (Z.to_nat 3110) 0%nat). intros ns. rewrite rounds_app, sys_run_app.
  assert (E : match sys_run 40 example_vm 0xC0900000 (fun _ => 0) 0 example_regs (rounds [8%nat]) example_system with
    | Next x _ => forallb (fun i => (i =? 0) || negb (bool_decide (live (ksched (skern x)) i))) (seqZ 0 32) | _ => false end = true)
    by (vm_compute; reflexivity).
  destruct (sys_run_spec 40 example_vm 0xC0900000 (fun _ => 0) 0 example_regs (rounds [8%nat]) example_system example_system [] ([], []))
    as (x1 & log1 & E1 & Hi & _).
  - apply start_inv, example_start.
  - intros i p Hp. exists p. split; [done|]. by destruct p.
  - apply example_kernel.
  - reflexivity.
  - intros Er. rewrite Er in E. discriminate E.
  - rewrite E1 in E |- *. pose proof (alone_no_race 40 example_vm 0xC0900000 (fun _ => 0) 0 example_regs (rounds ns) x1 _ Hi) as Hn.
    destruct (sys_run _ _ _ _ _ _ (rounds ns) x1); [discriminate| |discriminate]. apply Hn. intros i Hli. clear E1.
    rewrite forallb_forall in E. specialize (E i). destruct (Z.eqb_spec i 0); [done|]. cbn [orb] in E.
    rewrite bool_decide_true in E by done. exfalso. enough (negb true = true) by done. apply E.
    apply list_elem_of_In, elem_of_seqZ. destruct Hli as [Hli _]. unfold MAX_TASK_NUM in Hli. lia.
Qed.

Lemma task0_finishes_witness :
  let ns := 8%nat :: replicate (Z.to_nat 3110) 0%nat in
  exists x' log, sys_run 40 example_vm 0xC0900000 (fun _ => 0) 0 example_regs (rounds ns) example_system = Next x' log /\
    ~ live (ksched (skern x')) 1 /\ text_of 1 log = lines 3 (chars "I am task0 ") ++ bye.
Proof.
  intros ns. destruct (task0_finishes 40 example_vm 0xC0900000 (fun _ => 0) 0 example_regs example_system 1 (PTask0 4096 T0_while 0) ns)
    as (x' & log & H1 & _ & H3 & H4).
  - exact example_start.
  - reflexivity.
  - exact I.
  - unfold lenZ, ns. cbn [List.length]. rewrite length_replicate. lia.
  - exact example_no_race.
  - exists x', log. split; [exact H1|]. split; [exact H3|exact H4].
Defined.
