(* ===== verification/Boot.v ===== *)
(** * From the start of the kernel to the output of the first program

    The composition of all parts a user sees: [main] starts the kernel and
    switches to the first program, init, which was loaded from its image; then
    the programs run under the timer and print through system calls on the
    console. *)
From S2P Require Import Prelude CMem CString Malloc MallocThm Sink Frame Paging PagingThm EarlyConsole Early PagingTmp Sched Loader LoaderProgram LoaderTask LoaderInit Console ConsoleThm Print Com Keyboard Isr Main Syscall UserProgs.
From Stdlib Require Import Strings.String.
Import CString Paging Malloc Sched Console Print Keyboard Isr Main Syscall UserProgs.
Open Scope list_scope.

(** [vm] is what a task with the directory [T] reads below the kernel. *)
Definition sees (m : mem) (T : Z) (vm : mem) : Prop :=
  forall va pa, 0 <= va < KERNEL_V_START -> walk m T va = Some pa -> load8 vm va = load8 m pa.

(** A string of the image is a string of the task. *)
Lemma literal_seen m T vma size m0 img vm off l :
  section_mapped m T vma size m0 img -> sees m T vm -> cstr m0 (img + off) l ->
  0 <= off -> off + lenZ l < size -> 0 < vma + off -> vma + size <= KERNEL_V_START -> cstr vm (vma + off) l.
Proof.
  intros Hs Hv (Hb & Hu & _ & _) H0 H1 H2 H3. pose proof (lenZ_nonneg l). change KERNEL_V_START with 3221225472 in H3.
  split; [|split; [done|lia]]. apply bytes_at_intro. intros i Hi. rewrite lenZ_app in Hi. change (lenZ [0]) with 1 in Hi.
  destruct (Hs (off + i)) as (pa & Hw & Hl); [lia|]. replace (vma + off + i) with (vma + (off + i)) by lia.
  rewrite (Hv _ pa); [|change KERNEL_V_START with 3221225472; lia|done]. rewrite Hl, Z.add_assoc. apply bytes_at_nth; [done|].
  rewrite lenZ_app. change (lenZ [0]) with 1. lia.
Qed.

(** The programs after the start: the rest of [init_task0] as task 0, init as
    task 1. *)
Definition first_programs (lit : Z) : gmap Z prog :=
  <[0 := PKernel (K_printf kernel_hello)]> (<[1 := PInit lit In_foo 0 0]> ∅).

Lemma first_start fuel vm k lit :
  sched_inv (ksched k) -> current (ksched k) = 1 -> (forall i, live (ksched k) i <-> i = 0 \/ i = 1) -> u32 lit -> cstr (vm 1) lit (chars "start init hello world") -> 22 < Z.of_nat fuel ->
  sys_start fuel vm (mkSystem k (first_programs lit) start_stacks).
Proof.
  intros Hi Hcur Hl Hu Hc Hf. unfold first_programs. split; cbn [skern sprogs sstacks]; [done| | |by eexists| |].
  - intros i. rewrite Hl. split; [intros [->| ->]; by eexists|]. intros [p E]. rewrite !lookup_insert_Some, lookup_empty in E.
    destruct E as [[<- _]|(_ & [[<- _]|(_ & E)])]; [tauto..|done].
  - intros i p E. rewrite !lookup_insert_Some, lookup_empty in E. destruct E as [[<- <-]|(_ & [[<- <-]|(_ & E)])]; [| |done].
    + split; [done|]. by intros ? [=].
    + split; [done|]. intros ? [= <-]. split; [done|]. split; [done|exact Hf].
  - intros i j. rewrite !Hl. lia.
  - intros i. rewrite Hl. by apply start_stacks_kept.
Qed.

(** What a task sees, as a memory. *)
Definition view (m : mem) (T : Z) : mem :=
  list_to_map (omap (fun va => match walk m T va with Some pa => Some (va, load8 m pa) | None => None end) (seqZ 0 KERNEL_V_START)).

Lemma view_keys m T l :
  NoDup l -> NoDup (fst <$> omap (fun va => match walk m T va with Some pa => Some (va, load8 m pa) | None => None end) l).
Proof.
  induction 1 as [|va l Hn Hl IH]; [constructor|]. cbn [omap list_omap]. destruct (walk m T va) as [pa|]; [|done]. rewrite fmap_cons. constructor; [|done].
  rewrite list_elem_of_fmap. intros ([va' b] & E & Hin). apply list_elem_of_omap in Hin as (y & Hy & Ey). destruct (walk m T y); [|done].
  injection Ey as <- <-. cbn [fst] in E. by subst.
Qed.

Lemma view_sees m T : sees m T (view m T).
Proof.
  intros va pa Hva Hw. unfold view. unfold load8 at 1. change KERNEL_V_START with 3221225472 in Hva. rewrite wrap32_small by lia.
  rewrite (elem_of_list_to_map_1 _ va (load8 m pa)); [cbn [default from_option]; apply wrap8_small, load8_range|apply view_keys, NoDup_seqZ|].
  apply list_elem_of_omap. exists va. split; [apply elem_of_seqZ; change KERNEL_V_START with 3221225472; lia|by rewrite Hw].
Qed.

(** C7. From start to output: let the image of the first program lie in
    memory behind the early image, outside the screen and the page tables, with
    the string it prints at the offset [off] of its text.  [init_page_settings] prints its messages and turns
    paging on; [main], whose [init_task0] the loader's [init_task0] carries out on
    memory, returns with the system calls registered and the first program in
    its directory [T].  Then, for every sequence of timer interrupts and steps of
    the two tasks in which init reads what [T] maps, interrupts inside a
    character of the kernel's printf included, no step gets stuck; and unless
    init prints while the kernel's loop is interrupted inside
    [write_console_one], the invariants of the kernel hold and the console shows
    what the start printed and after it an interleaving of the output of task 0,
    a beginning of its greeting and its lines, and of init, whole lines of its
    string; both live on. *)
Theorem boot_runs_init `{EarlyImage} isr idt_addr echo garbage fuel hfuel m l s0 base h off ret_syscall table word eax0 r0 :
  early_image_ok -> reset (load_console (pm s0)) ->
  at_boot m -> 349526 <= Z.of_nat hfuel -> msyscalls m = syscall_table0 -> u32 garbage ->
  paging s0 = false -> frames s0 = Frame.bitmap0 -> header_at (pm s0) base h -> image_ok base h -> off_early base h ->
  cstr (pm s0) (base + lma_text h + off) (chars "start init hello world") -> 0 <= off -> off + 22 < text_size h -> 0 < vma_text h + off ->
  22 < Z.of_nat fuel -> 2000 * lenZ l + 10 < 4294967296 ->
  exists s1 s2 m' L, init_page_settings s0 = Ok ((), s1) /\
    Loader.init_task0 ret_syscall garbage base (Loader.mkOs s1 (ksched (mkern m))) = Ok ((), Loader.mkOs s2 (ksched (mkern m'))) /\
    main isr idt_addr echo (cr3 s2) garbage hfuel m = Ok m' /\ msyscalls m' = syscalls /\ lenZ L <= 10 /\ cpu_cr3 (ksched (mkern m')) = cr3 s2 /\
    forall vm, sees (pm s2) (cr3 s2) (vm 1) ->
    let o := sys_run fuel vm table word eax0 r0 l (mkSystem (mkern m') (first_programs (vma_text h + off)) start_stacks) in
    o <> Stuck /\
    (o <> Race -> exists x log, o = Next x log /\ kernel_inv (skern x) (L ++ all_text log, []) /\
      live (ksched (skern x)) 0 /\ (exists n, text_of 0 log `prefix_of` kernel_hello ++ lines n (chars "I am kernel")) /\
      live (ksched (skern x)) 1 /\ (exists n, text_of 1 log = lines n (chars "start init hello world"))).
Proof.
  intros Hei Hrs Hb Hhf Hsys Hg Hp Hfr Hh Hok Hbase Himg H0 H1 H2 Hf Hl.
  destruct (settings_startable s0 base h Hei Hrs Hp Hfr Hh Hok Hbase) as (s1 & Hs1 & Hst & Hbt).
  destruct (init_task0_text _ _ _ ret_syscall s1 (ksched (mkern m)) base h garbage Hst (ab_tasks _ Hb) (ab_esp _ Hb) Hg) as (s2 & ts' & G1 & G2 & G3).
  destruct (main_spec isr idt_addr echo (cr3 s2) garbage hfuel m Hb Hhf) as (m' & L & fl & idt & Hm & _ & Hk & HL & Hcur & Hlive & Hcr & _ & _ & Ht & Hts).
  change PG_DIR0_ADDR with 0x100000 in G2. assert (ksched (mkern m') = ts') by congruence. subst ts'.
  exists s1, s2, m', L. split; [done|]. split; [done|]. split; [done|]. split; [by rewrite Ht, Hsys|]. split; [done|]. split; [done|]. intros vm Hsee.
  destruct (Hok 0) as [_ (_ & V0 & _ & V1) (_ & V2 & V3) V4 _ _]; [lia|].
  assert (Hv : vma_text h + text_size h <= 3221225472) by (Z.to_euclidean_division_equations; lia).
  set (x0 := mkSystem _ _ _). assert (Hstart : sys_start fuel vm x0).
  { apply first_start; [apply Hk|done|done|lia| |done].
    apply (literal_seen (pm s2) (cr3 s2) (vma_text h) (text_size h) (pm s0) (base + lma_text h)); try done. exact (section_bytes _ _ _ _ _ _ _ Hbt G3). }
  assert (Hlen : lenZ (fst (L, @nil Z)) + 2000 * lenZ l < 4294967296) by (cbn [fst]; lia).
  pose proof (programs_run fuel vm table word eax0 r0 l x0 (L, []) Hstart Hk Hlen) as Hrun.
  destruct (sys_run fuel vm table word eax0 r0 l x0) as [x log| |] eqn:Er; cbv zeta; [split; [done|]|split; done|].
  - intros _. destruct Hrun as (x' & log' & [= <- <-] & Hk' & Ho); [done|].
    exists x, log. split; [done|]. split; [done|]. destruct (Ho 0 _ eq_refl) as [? ?]. destruct (Ho 1 _ eq_refl) as [? ?]. done.
  - destruct Hrun as (? & ? & [=] & _); done.
Qed.

(** ** An example *)

(** The text of a program with the string at offset 16. *)
Definition example_text : list Z := replicate 16 0x90 ++ chars "start init hello world" ++ replicate 10 0.

#[local] Existing Instance example_image.

(** A step of init, a tick and a step do not race with the kernel's loop, which
    has not begun a character. *)
Lemma first_steps_no_race fuel vm table word eax0 r0 x rest :
  running x <> 0 -> sprogs x !! 0 = Some (PKernel (K_printf rest)) -> sys_run fuel vm table word eax0 r0 [Run; Tick; Run] x <> Race.
Proof.
  intros Hr H0. assert (Hw : forall y, sprogs y !! 0 = Some (PKernel (K_printf rest)) -> forall a, act fuel vm table word eax0 r0 a y <> Race).
  { intros y Hy a Ha%race_writing. unfold writing in Ha. rewrite Hy, andb_false_r in Ha. done. }
  cbn [sys_run]. destruct (act fuel vm table word eax0 r0 Run x) as [x1 l1| |] eqn:E1; [|by apply Hw in E1|done].
  assert (H1 : sprogs x1 !! 0 = Some (PKernel (K_printf rest))) by (rewrite <- H0; eapply other_step; [exact E1|by right]).
  destruct (act fuel vm table word eax0 r0 Tick x1) as [x2 l2| |] eqn:E2; [|by apply Hw in E2|done].
  assert (H2 : sprogs x2 !! 0 = Some (PKernel (K_printf rest))) by (rewrite <- H1; eapply other_step; [exact E2|by left]).
  destruct (act fuel vm table word eax0 r0 Run x2) as [x3 l3| |] eqn:E3; [done|by apply Hw in E3|done].
Qed.

Lemma boot_runs_init_witness :
  let m := mkMachine (mk_heap ∅ 0 0) (mkKernel sched0 (boot [] [] ∅) kb0 []) [] (0, 0) syscall_table0 in
  exists s1 T m' L, init_page_settings (start_mm example_text) = Ok ((), s1) /\
  main (fun i => 0xC0800000 + 16 * (i mod 64)) 0xC0900000 174 T 0 (Z.to_nat 349526) m = Ok m' /\
  exists vm x log, sys_run 40 vm 0xC0901000 (fun _ => 0) 0 example_regs [Run; Tick; Run] (mkSystem (mkern m') (first_programs 16) start_stacks) = Next x log /\
    kernel_inv (skern x) (L ++ all_text log, []).
Proof.
  intros m. assert (Hboot : at_boot m).
  { split; [reflexivity|simpl; lia|split; [simpl; lia|reflexivity]| |reflexivity].
    intros a _. unfold load8. cbn [hmem mheap m]. by rewrite lookup_empty. }
  destruct (boot_runs_init (fun i => 0xC0800000 + 16 * (i mod 64)) 0xC0900000 174 0 40 (Z.to_nat 349526) m [Run; Tick; Run]
    (start_mm example_text) 0x900000 start_header 16 0xC0001000 0xC0901000 (fun _ => 0) 0 example_regs) as (s1 & s2 & m' & L & HS & _ & H1 & _ & _ & _ & H).
  - exact example_image_ok.
  - apply start_reset. reflexivity.
  - exact Hboot.
  - lia.
  - reflexivity.
  - lia.
  - reflexivity.
  - reflexivity.
  - split; vm_compute; reflexivity.
  - exact start_image_ok.
  - exact start_off_early.
  - vm_compute. repeat split; repeat constructor; lia.
  - lia.
  - cbn [text_size start_header]. lia.
  - cbn [vma_text start_header]. lia.
  - lia.
  - reflexivity.
  - destruct (H (fun _ => view (pm s2) (cr3 s2)) (view_sees _ _)) as [_ Hn]. destruct Hn as (x & log & H2 & H3 & _).
    + apply (first_steps_no_race _ _ _ _ _ _ _ kernel_hello); [|reflexivity]. unfold running. cbn [skern].
      destruct (main_spec (fun i => 0xC0800000 + 16 * (i mod 64)) 0xC0900000 174 (cr3 s2) 0 (Z.to_nat 349526) m Hboot) as (m2 & ? & ? & ? & E & _ & _ & _ & Ec & _);
        [lia|]. rewrite H1 in E. injection E as <-. by rewrite Ec.
    + exists s1, (cr3 s2), m', L. split; [exact HS|]. split; [exact H1|].
      exists (fun _ => view (pm s2) (cr3 s2)), x, log. split; [exact H2|exact H3].
Defined.
