(* ===== verification/UserHello.v ===== *)
(** * A user program: helloworld (usr/helloworld/helloworld.c)

    The program brings its own screen output: a cursor and a routine that writes
    characters to the text screen and wraps at the end of a row and of the
    screen.  It refines an abstract screen of 2000 cells with one position. *)
From S2P Require Import Prelude CMem CString Print.
From Stdlib Require Import Strings.String.
Import CString Print.
Open Scope list_scope.

Module UserHello.

Definition VGA_BASE : Z := 0xB8000.
Definition VGA_MAX_COL : Z := 80.
Definition VGA_MAX_ROW : Z := 25.

Record cursor := mkCursor { current_x : Z; current_y : Z; ram : mem }.

Definition set_cursor (x y : Z) (s : cursor) : cursor := mkCursor x y (ram s).

Definition __vga_addr (x y : Z) : Z := wrap32 (VGA_BASE + wrap32 (y * VGA_MAX_COL + x) * 2).
Definition __current_vga_addr (s : cursor) : Z := __vga_addr (current_x s) (current_y s).

Definition __move_cursor_next_line (s : cursor) : cursor :=
  let y := wrap32 (current_y s + 1) in
  mkCursor 0 (if y =? VGA_MAX_ROW then 0 else y) (ram s).

Definition __move_cursor_next (s : cursor) : cursor :=
  let x := wrap32 (current_x s + 1) in
  if x =? VGA_MAX_COL then __move_cursor_next_line (mkCursor 0 (current_y s) (ram s))
  else mkCursor x (current_y s) (ram s).

Definition print_char (c : Z) (s : cursor) : cursor :=
  if c =? 10 then __move_cursor_next_line s
  else __move_cursor_next (mkCursor (current_x s) (current_y s) (store8 (ram s) (__current_vga_addr s) c)).

(** [while( *s)] *)
Fixpoint printstr (fuel : nat) (p : Z) (s : cursor) : res cursor :=
  match fuel with
  | O => NoFuel
  | S fuel => if load8 (ram s) p =? 0 then Ok s else printstr fuel (p + 1) (print_char (load8 (ram s) p) s)
  end.

Definition printl (fuel : nat) (p : Z) (s : cursor) : res cursor :=
  s ← printstr fuel p s;
  Ok (print_char 10 s).

(** [printl("hello world omg!")], the literal at [p]. *)
Definition main (fuel : nat) (p : Z) (s : cursor) : res cursor := printl fuel p s.

(** ** The abstract screen: a position and 2000 cells *)

Definition spec_char (a : Z * (Z -> Z)) (c : Z) : Z * (Z -> Z) :=
  let '(pos, cells) := a in
  if c =? 10 then ((pos / 80 + 1) mod 25 * 80, cells)
  else ((pos + 1) mod 2000, fun i => if i =? pos then c else cells i).

Record shows (s : cursor) (a : Z * (Z -> Z)) : Prop := {
  sh_x : 0 <= current_x s < 80;
  sh_y : 0 <= current_y s < 25;
  sh_pos : fst a = current_y s * 80 + current_x s;
  sh_cells : forall i, 0 <= i < 2000 -> load8 (ram s) (VGA_BASE + 2 * i) = snd a i;
}.

(** Nothing outside the screen changes. *)
Definition off_screen (m m' : mem) : Prop :=
  forall a, u32 a -> (a < VGA_BASE \/ VGA_BASE + 4000 <= a) -> load8 m' a = load8 m a.

End UserHello.
Import UserHello.

Ltac hello_consts := unfold VGA_BASE, VGA_MAX_COL, VGA_MAX_ROW in *.

Lemma next_line_shows s a : shows s a -> shows (__move_cursor_next_line s) ((fst a / 80 + 1) mod 25 * 80, snd a).
Proof.
  intros [Hx Hy Hp Hc]. unfold __move_cursor_next_line. rewrite wrap32_small by lia.
  assert (E : fst a / 80 = current_y s) by (rewrite Hp; Z.to_euclidean_division_equations; lia).
  assert (E2 : (current_y s + 1) mod 25 = if current_y s + 1 =? VGA_MAX_ROW then 0 else current_y s + 1).
  { hello_consts. destruct (Z.eqb_spec (current_y s + 1) 25) as [->|]; [done|]. apply Z.mod_small. lia. }
  split; cbn [current_x current_y ram fst snd]; [lia| |rewrite E, E2; lia|done].
  hello_consts. destruct (Z.eqb_spec (current_y s + 1) 25); lia.
Qed.

Lemma print_char_shows s a c : shows s a -> u8 c -> shows (print_char c s) (spec_char a c) /\ off_screen (ram s) (ram (print_char c s)).
Proof.
  intros Hs Hc. destruct a as [pos cells]. unfold print_char, spec_char. destruct (Z.eqb_spec c 10) as [->|Hne].
  { split; [by apply (next_line_shows s (pos, cells))|done]. }
  pose proof Hs as [Hx Hy Hp Hcl]. cbn [fst snd] in *.
  assert (Ha : __current_vga_addr s = VGA_BASE + 2 * pos).
  { unfold __current_vga_addr, __vga_addr. hello_consts. rewrite (wrap32_small (_ + current_x s)), wrap32_small by lia. lia. }
  set (m' := store8 (ram s) (__current_vga_addr s) c).
  assert (Hm : forall i, 0 <= i < 2000 -> load8 m' (VGA_BASE + 2 * i) = if i =? pos then c else cells i).
  { intros i Hi. unfold m'. rewrite Ha. hello_consts. destruct (Z.eqb_spec i pos) as [->|].
    - rewrite load8_store8_eq by lia. by apply wrap8_small.
    - rewrite load8_store8_ne by lia. by apply Hcl. }
  assert (Hoff : off_screen (ram s) m').
  { intros a Hu Ho. unfold m'. rewrite Ha. apply load8_store8_ne; hello_consts; lia. }
  unfold __move_cursor_next. cbn [current_x current_y ram]. rewrite wrap32_small by lia. hello_consts.
  destruct (Z.eqb_spec (current_x s + 1) 80) as [E|E].
  - split; [|exact Hoff]. assert (H0 : shows (mkCursor 0 (current_y s) m') (current_y s * 80, fun i => if i =? pos then c else cells i)).
    { split; cbn [current_x current_y ram fst snd]; [lia|done|lia|exact Hm]. }
    apply next_line_shows in H0. cbn [fst snd] in H0. replace ((pos + 1) mod 2000) with ((current_y s * 80 / 80 + 1) mod 25 * 80); [done|].
    rewrite Z.div_mul by lia. replace (pos + 1) with ((current_y s + 1) * 80) by lia. change 2000 with (25 * 80). by rewrite Z.mul_mod_distr_r by lia.
  - split; [|exact Hoff]. split; cbn [current_x current_y ram fst snd]; [lia|done| |exact Hm]. rewrite Z.mod_small by lia. lia.
Qed.

Lemma printstr_shows fuel p s a l :
  shows s a -> cstr (ram s) p l -> p + lenZ l < VGA_BASE \/ VGA_BASE + 4000 <= p -> lenZ l < Z.of_nat fuel ->
  exists s', printstr fuel p s = Ok s' /\ shows s' (foldl spec_char a l) /\ off_screen (ram s) (ram s').
Proof.
  revert p s a l. induction fuel as [|fuel IH]; intros p s a l Hs Hc Ha Hf; [pose proof (lenZ_nonneg l); lia|]. cbn [printstr].
  destruct l as [|c l].
  - rewrite (cstr_nil _ _ Hc). exists s. split; [done|]. by split.
  - pose proof Hc as (_ & _ & Hp0 & Hp1). destruct (cstr_cons _ _ _ _ Hc) as (-> & Hc8 & Hc'). rewrite lenZ_cons in *. pose proof (lenZ_nonneg l).
    rewrite (proj2 (Z.eqb_neq c 0)) by lia. destruct (print_char_shows s a c Hs ltac:(lia)) as [Hs1 Ho1].
    destruct (IH (p + 1) (print_char c s) (spec_char a c) l Hs1) as (s' & -> & Hs' & Ho'); [|lia|lia|].
    + eapply cstr_same; [|exact Hc']. intros x Hx. apply Ho1; lia.
    + exists s'. split; [done|]. split; [exact Hs'|]. intros x Hu Hx. rewrite Ho' by done. by apply Ho1.
Qed.

(** The output of the program: printing a line returns, and the screen then
    shows what an abstract screen of 2000 cells shows after the characters one
    by one, wrapping at the end of a row and of the screen; no byte outside the
    screen changes. *)
Theorem user_printl_refines fuel p s a l :
  shows s a -> cstr (ram s) p l -> p + lenZ l < VGA_BASE \/ VGA_BASE + 4000 <= p -> lenZ l < Z.of_nat fuel ->
  exists s', printl fuel p s = Ok s' /\ shows s' (foldl spec_char a (l ++ [10])) /\ off_screen (ram s) (ram s').
Proof.
  intros Hs Hc Ha Hf. destruct (printstr_shows fuel p s a l Hs Hc Ha Hf) as (s1 & H1 & Hs1 & Ho1).
  destruct (print_char_shows s1 _ 10 Hs1 ltac:(lia)) as [Hs2 Ho2]. exists (print_char 10 s1). unfold printl. rewrite H1, res_bind_Ok.
  split; [done|]. split; [by rewrite foldl_app|]. intros x Hu Hx. rewrite Ho2 by done. by apply Ho1.
Qed.

(** The program itself, from the first cell of an empty screen. *)
Lemma user_printl_refines_witness :
  exists s', main 20 4096 (mkCursor 0 0 (write_bytes ∅ 4096 (chars "hello world omg!" ++ [0]))) = Ok s' /\
    current_x s' = 0 /\ current_y s' = 1 /\ load8 (ram s') (VGA_BASE + 2 * 4) = 111.
Proof.
  destruct (user_printl_refines 20 4096 (mkCursor 0 0 (write_bytes ∅ 4096 (chars "hello world omg!" ++ [0]))) (0, fun _ => 0) (chars "hello world omg!"))
    as (s' & H1 & [Hx Hy Hp Hc] & _).
  - split; cbn [current_x current_y ram fst snd]; [lia|lia|done|]. intros i Hi. rewrite write_bytes_out; [|unfold fits; vm_compute lenZ; lia|hello_consts; lia|right; vm_compute lenZ; hello_consts; lia].
    unfold load8. by rewrite lookup_empty.
  - apply cstr_write; [by repeat constructor|lia|vm_compute; reflexivity].
  - left. vm_compute. reflexivity.
  - vm_compute. reflexivity.
  - exists s'. split; [exact H1|]. specialize (Hc 4 ltac:(lia)). change (snd (foldl spec_char (0, fun _ => 0) (chars "hello world omg!" ++ [10])) 4) with 111 in Hc.
    change (fst (foldl spec_char (0, fun _ => 0) (chars "hello world omg!" ++ [10]))) with 80 in Hp. split; [lia|]. split; [lia|done].
Defined.

(** ** usr/hlt/hlt.c *)

Module UserHlt.

(** [while(i>0){ sti; --i; }]; [intr] is the processor's interrupt flag. *)
Fixpoint sti_loop (fuel : nat) (i : Z) (intr : bool) : res bool :=
  match fuel with
  | O => NoFuel
  | S fuel => if 0 <? i then sti_loop fuel (i - 1) true else Ok intr
  end.
Definition hlt_main (fuel : nat) (intr : bool) : res (Z * bool) :=
  intr ← sti_loop fuel 5 intr;
  Ok (0, intr).

End UserHlt.

(** The program returns 0 and leaves the interrupts on. *)
Theorem hlt_returns fuel intr : (6 <= fuel)%nat -> UserHlt.hlt_main fuel intr = Ok (0, true).
Proof. intros Hf. do 6 (destruct fuel as [|fuel]; [lia|]). reflexivity. Qed.
